(* ===== verification/_CoqProject ===== *)
-Q . S2P
Prelude.v
Pmm.v
Mem.v
Kheap.v
Ring.v
BlockDev.v
Mbr.v
CString.v
Libc.v
Umalloc.v
VfsPath.v
Vfs.v
Ramfs.v
VfsSpec.v
Minfs.v
MinfsSpec.v
Fat32.v
FatDisk.v
FatName.v
FatSpec.v
FatDir.v
FatFormat.v
Rtc.v
Random.v
Task.v
Elf.v
TaskSpec.v
Paging.v
PagingSpec.v
ElfSpec.v
PagingFork.v
ElfLoad.v
Framebuffer.v
Tty.v
TtySpec.v
Color.v
Log.v
Devices.v
DevicesSpec.v
