(* ===== verification/Prelude.v ===== *)
(** * A verification of the DeanOS kernel and its C library

    DeanOS is a 32-bit x86 kernel with its own user library and programs. This
    library models the kernel's core (memory, tasks, paging, storage, files,
    time, randomness) and the freestanding C library, and proves what makes
    each part correct. Every definition is translated from the file it names;
    the theorems are about those definitions.

    ** Reading the development

    Machine integers are [Z] with the wrap of the C type written out
    ([u8 .. u64], [i32]). A file-scope variable of the source is a field of the
    component's state record; a function that changes state takes it and
    returns it, after its result. Loops are [Fixpoint]s over the number of
    iterations the code can make, or over fuel. Two outcomes are explicit
    where the code can show them: [Undef] (use of freed or missing memory) and
    [Hang] (a loop or a wait that the given fuel does not end). Raw memory is
    the byte store of [Mem.v].

    ** Parts and files

    - [Prelude.v]: integer wraps, byte lists, counting, tactics, hints.
    - [Mem.v]: byte memory with 32-bit loads and stores, [memset], [memcpy].
    - [Pmm.v] ([kernel/pmm.c]): [Pmm] the frame allocator, [FrameSpec] its
      abstract contract, [PmmRefine]/[PmmInit] refinement and boot.
    - [Kheap.v] ([kernel/kheap.c], [libc/stdlib/malloc.c]): [Kheap],
      [KheapRep].
    - [Ring.v]: the circular queue shared by block layer and pipes.
    - [BlockDev.v] ([kernel/blockdev.c]): [BlockDev] devices, cache and
      request queue over any [BlockDriver]; [BlockDevSpec] the abstract disk.
    - [Mbr.v] ([kernel/mbr.c]): [Mbr] the partition scan, [MbrSpec].
    - [CString.v] ([libc/string]), [Libc.v] ([libc/stdio], [libc/stdlib],
      [libc/netdb]), [Umalloc.v] ([libc/stdlib/malloc_user.c]).
    - [VfsPath.v], [Vfs.v], [VfsSpec.v] ([kernel/vfs.c]): paths, then nodes,
      mounts, permissions, pipes and descriptors in the monad [M]; file
      systems are operation tables ([vtable]).
    - [Ramfs.v] ([kernel/ramfs.c]), [Minfs.v] and [MinfsSpec.v]
      ([kernel/minfs.c]): two file systems over that layer; the second over
      the interface [BlockStore].
    - [Rtc.v] ([kernel/rtc.c]), [Random.v] ([kernel/random.c],
      [kernel/devrandom.c]).
    - [Task.v], [TaskSpec.v] ([kernel/task.c], [kernel/signal.c], the gates of
      [kernel/syscall.c] and [kernel/interrupt.c]): the task table, scheduler,
      wait and sleep, signals, sessions, mapped regions.
    - [Paging.v], [PagingSpec.v], [PagingFork.v] ([kernel/paging.c]): page
      tables in byte memory, fault handlers, address spaces, fork, swapping.
    - [Elf.v], [ElfSpec.v], [ElfLoad.v] ([kernel/elf.c]): the program loader
      over tasks and the interface [Loader], and what the fault handler of
      [Paging.v] makes of the regions it collects.
    - [Fat32.v] ([kernel/fat32.c]): the FAT32 driver over [BlockStore];
      [FatDisk.v] what its theorems need of a disk ([SectorDisk], discharged
      for the block layer and for a disk in memory); [FatName.v] names, table
      sizes, boot sector; [FatSpec.v] files, [FatDir.v] directories,
      [FatFormat.v] formatting and loading.
    - [Framebuffer.v] ([kernel/framebuffer.c], [kernel/font8x16.c]), [Tty.v],
      [TtySpec.v] ([kernel/tty.c]): the screen, the terminal and the line
      discipline; [Color.v] ([user/color.c]) a program that talks to it;
      [Log.v] ([kernel/log.c], [kernel/serial.c]) the kernel log.
    - [Devices.v], [DevicesSpec.v]: interrupt controller and dispatch
      ([kernel/pic.c], [kernel/irq.c]), timer ([kernel/pit.c]), keyboard and
      mouse ([kernel/keyboard.c], [kernel/mouse.c]) as operations on one
      [machine] that holds the terminal, the log, the tasks and the random
      pool, which their handlers call.
    ** What the theorems show

    - Frames: every sequence of operations refines a finite map from frames
      to reference counts; boot frees exactly the available frames of a memory
      map whose available regions end below 4 GiB.
    - Kernel heap: allocation, release and reallocation act on the list of
      blocks the memory represents and touch no other block.
    - Block layer: reads, writes and flushes refine an abstract disk through
      cache, queue and partitions; the devices a partition scan registers map
      to sectors of their disk; it finds what the table writer wrote.
    - Library: overlapping moves, number printing and parsing, the user heap.
    - Files: path normalisation equals its reference; path walking follows
      the mounts (where no mount path begins what is left below one); a pipe
      is read as runs of taking and waiting; ramfs and minfs refine byte
      strings, with block ownership exact and recovery equal to its reference
      on any node table that the bitmap has room for.
    - Tasks: the table invariant over all operations and interrupts, bounded
      waiting of ready tasks, wait, kill, signal delivery and the return from
      a handler through the system call gate, which loses [eax].
    - Paging: fork shares memory copy on write without changing a byte, a
      write is seen in one address space only, releasing gives everything back.
    - Clock and randomness: calendar inverse laws, chip formats, the generator
      and its output stream.
    - Programs: an accepted image's regions are those of its headers, the
      argument stack reads back as the arguments, running a program creates a
      task at its entry or leaves none behind, a faulting page shows the bytes
      of the file.
    - FAT32: reading, writing and truncating act on the bytes of a cluster
      chain and keep chains disjoint and both tables equal; looking up and
      creating act on the list of a directory's clusters, and a file created
      is found; a formatted volume loads as an empty one.
    - Terminal and input: pixels do not matter to the text ([Proper] instances
      of every operation for equality up to them); the grid shows the end of
      what is written, no byte stream breaks it, edited lines are read whole,
      a color arrives as it was named; typed keys are read in order; the mouse
      pointer hides nothing for good; the log keeps its last bytes.
    Theorems whose names say so ([..._hangs], [..._dangles], [..._exposes_...],
    [..._wraps_...]) prove defects of the code at the inputs they name.

    ** Fuel and bounds

    Where a loop ends, a theorem gives the fuel that is enough or the result
    does not depend on it. [Vfs.namei] takes the fuel from the caller and
    [VfsSpec] gives the bound; string loops need one more step than the
    length; the calendar loop runs 65 times at most; the search of a gap
    between 32 mapped regions 33 times; byte-piece loops of the file systems
    one step per block and two more; a walk along a FAT32 chain one step per
    cluster of the volume and one more, enough for every chain that is not a
    cycle. The frame allocator tracks 0x8200 frames at most, page loops run
    1024 times per table. Scrolling the terminal goes up one row each time.
    The log's wait for the serial port and the mouse's set-up take fuel from
    the caller. Busy waiting on another task
    ([Vfs] pipes, [Task.task_waitpid]) takes what the others do as an argument.

    ** Parameters

    Code outside [src/] and hardware are parameters: [BlockDriver] (a disk
    controller), [BlockStore] and [SectorDisk] (the block layer as the file
    systems see it, and its laws for the sectors of one device), [MmapLaws]
    (the system call behind the user heap), [FinddirLaws] (a file system's
    lookup), [Env] and [Loader] (what tasks and the program loader ask of
    the rest of the kernel), [Outside] (disk and files as paging sees them),
    [cmos] and [tsc] (chip registers and the time-stamp counter), [Ports]
    (the processor's ports), [serves] (whether the n-th heap request
    succeeds). Each theorem that has hypotheses on one of them has a witness
    with a concrete instance.

    ** Not modelled

    Most system calls, the disk and network drivers,
    processor set-up and the user programs other than [user/color.c]: device
    ports and glue, or left for later. FAT32's unlink and readdir are
    translated, with no theorem about the entry they change. The wait between
    the bytes of the serial port is a number of reads of its status.
    The translation look-aside buffer, interrupt arrival inside an operation
    (the kernel runs with them disabled there). *)

From stdpp Require Export prelude gmap list.
From Stdlib Require Export ZArith Lia ZifyBool.

Open Scope Z_scope.

(** ** Machine integers

    A C unsigned integer of width [w] is a [Z] in [[0, 2^w)]; every
    arithmetic operation of the source that can leave the range is followed
    by the corresponding wrap. *)

Definition u8 (x : Z) : Z := x mod 2 ^ 8.
Definition u16 (x : Z) : Z := x mod 2 ^ 16.
Definition u32 (x : Z) : Z := x mod 2 ^ 32.
Definition u64 (x : Z) : Z := x mod 2 ^ 64.
(** Two's complement reading of a 32-bit pattern (conversion to [int]). *)
Definition i32 (x : Z) : Z := (x + 2 ^ 31) mod 2 ^ 32 - 2 ^ 31.

(** The [ALIGN_UP(x,a)] macro on a 32-bit unsigned [x]. *)
Definition ALIGN_UP (x a : Z) : Z := Z.land (u32 (x + (a - 1))) (Z.lnot (a - 1)).

#[global] Arguments u8 : simpl never.
#[global] Arguments u16 : simpl never.
#[global] Arguments u32 : simpl never.
#[global] Arguments u64 : simpl never.
#[global] Arguments i32 : simpl never.
#[global] Arguments ALIGN_UP : simpl never.
#[global] Arguments Z.pow : simpl never.
#[global] Arguments Z.eqb : simpl never.
#[global] Arguments Z.ltb : simpl never.
#[global] Arguments Z.leb : simpl never.
#[global] Arguments Z.compare : simpl never.
#[global] Arguments Z.min : simpl never.
#[global] Arguments Z.max : simpl never.
#[global] Arguments Z.of_nat : simpl never.
#[global] Arguments Z.to_nat : simpl never.
#[global] Arguments Z.div : simpl never.
#[global] Arguments Z.modulo : simpl never.
#[global] Arguments Z.land : simpl never.
#[global] Arguments Z.lor : simpl never.
#[global] Arguments Z.shiftl : simpl never.
#[global] Arguments Z.shiftr : simpl never.

(** C truth values. *)
Definition is_set (flags mask : Z) : bool := negb (Z.land flags mask =? 0).

Create HintDb kernel.

(** ** Tactics *)

(** Split every [&&]/[||]/[negb]/comparison hypothesis produced by [case_match]. *)
Ltac bool_to_prop :=
  repeat match goal with
  | H : (_ && _)%bool = true |- _ => apply andb_prop in H; destruct H
  | H : (_ || _)%bool = false |- _ => apply orb_false_elim in H; destruct H
  | H : negb _ = true |- _ => apply negb_true_iff in H
  | H : negb _ = false |- _ => apply negb_false_iff in H
  | H : (_ <? _) = true |- _ => apply Z.ltb_lt in H
  | H : (_ <? _) = false |- _ => apply Z.ltb_ge in H
  | H : (_ <=? _) = true |- _ => apply Z.leb_le in H
  | H : (_ <=? _) = false |- _ => apply Z.leb_gt in H
  | H : (_ =? _) = true |- _ => apply Z.eqb_eq in H
  | H : (_ =? _) = false |- _ => apply Z.eqb_neq in H
  end.

(** Case analysis on every stuck [match]/[if], then arithmetic. *)
Ltac cases := repeat case_match; bool_to_prop; simplify_eq/=.

(** Normalise the boolean comparisons of the goal using [lia]. *)
Ltac zbool :=
  repeat match goal with
  | |- context [?a <? ?b] =>
      first [ rewrite (proj2 (Z.ltb_lt a b)) by lia
            | rewrite (proj2 (Z.ltb_ge a b)) by lia ]
  | |- context [?a <=? ?b] =>
      first [ rewrite (proj2 (Z.leb_le a b)) by lia
            | rewrite (proj2 (Z.leb_gt a b)) by lia ]
  | |- context [?a =? ?b] =>
      first [ rewrite (proj2 (Z.eqb_eq a b)) by lia
            | rewrite (proj2 (Z.eqb_neq a b)) by lia ]
  end.

(** [lia] after translating division and remainder to their equations. *)
Ltac zlia := Z.to_euclidean_division_equations; lia.

(** ** Lemmas on machine integers *)

Lemma u32_small x : 0 <= x < 2 ^ 32 -> u32 x = x.
Proof. apply Z.mod_small. Qed.
Lemma u32_range x : 0 <= u32 x < 2 ^ 32.
Proof. apply Z.mod_pos_bound; lia. Qed.
Lemma u64_small x : 0 <= x < 2 ^ 64 -> u64 x = x.
Proof. apply Z.mod_small. Qed.
Lemma u64_range x : 0 <= u64 x < 2 ^ 64.
Proof. apply Z.mod_pos_bound; lia. Qed.
Lemma u16_small x : 0 <= x < 2 ^ 16 -> u16 x = x.
Proof. apply Z.mod_small. Qed.
Lemma u16_range x : 0 <= u16 x < 2 ^ 16.
Proof. apply Z.mod_pos_bound; lia. Qed.
Lemma u8_small x : 0 <= x < 2 ^ 8 -> u8 x = x.
Proof. apply Z.mod_small. Qed.
Lemma u8_u8 x : u8 (u8 x) = u8 x.
Proof. unfold u8. by rewrite Z.mod_mod. Qed.
Lemma u8_range x : 0 <= u8 x < 2 ^ 8.
Proof. apply Z.mod_pos_bound; lia. Qed.

#[export] Hint Resolve u8_range u16_range u32_range u64_range : kernel.

(** Clearing the low [k] bits is rounding down to a multiple of [2^k]. *)
Lemma land_lnot_ones x k : 0 <= k -> Z.land x (Z.lnot (2 ^ k - 1)) = x / 2 ^ k * 2 ^ k.
Proof.
  intros Hk.
  replace (2 ^ k - 1) with (Z.ones k) by (rewrite Z.ones_equiv; lia).
  rewrite <- Z.ldiff_land, Z.ldiff_ones_r by lia.
  rewrite Z.shiftl_mul_pow2, Z.shiftr_div_pow2 by lia. reflexivity.
Qed.

Lemma ALIGN_UP_pow2 x k :
  0 <= k -> 0 <= x -> x + 2 ^ k <= 2 ^ 32 ->
  ALIGN_UP x (2 ^ k) = (x + (2 ^ k - 1)) / 2 ^ k * 2 ^ k.
Proof.
  intros Hk Hx Hs. unfold ALIGN_UP. rewrite land_lnot_ones by lia.
  assert (0 < 2 ^ k) by (apply Z.pow_pos_nonneg; lia).
  rewrite u32_small by lia. reflexivity.
Qed.

(** The result of [ALIGN_UP] is the least multiple of [a] not below [x]. *)
Lemma ALIGN_UP_spec x k :
  0 <= k -> 0 <= x -> x + 2 ^ k <= 2 ^ 32 ->
  x <= ALIGN_UP x (2 ^ k) < x + 2 ^ k /\ ALIGN_UP x (2 ^ k) mod 2 ^ k = 0.
Proof.
  intros Hk Hx Hs. rewrite ALIGN_UP_pow2 by lia.
  assert (0 < 2 ^ k) by (apply Z.pow_pos_nonneg; lia).
  split; [|apply Z.mod_mul; lia].
  pose proof (Z.div_mod (x + (2 ^ k - 1)) (2 ^ k)) as E.
  pose proof (Z.mod_pos_bound (x + (2 ^ k - 1)) (2 ^ k)). lia.
Qed.

(** Single-bit update of a word, as [BIT_SET]/[BIT_CLR] do it. *)
Lemma testbit_setbit w i j :
  0 <= i -> 0 <= j ->
  Z.testbit (Z.lor w (Z.shiftl 1 i)) j = if j =? i then true else Z.testbit w j.
Proof.
  intros Hi Hj. rewrite Z.lor_spec, Z.shiftl_spec by lia.
  destruct (Z.eqb_spec j i) as [->|Hne].
  - rewrite Z.sub_diag. simpl. apply orb_true_r.
  - assert (Z.testbit 1 (j - i) = false) as ->; [|apply orb_false_r].
    destruct (decide (j < i)); [apply Z.testbit_neg_r; lia|].
    change 1 with (2 ^ 0). apply Z.pow2_bits_false. lia.
Qed.

Lemma testbit_clearbit w i j :
  0 <= i -> 0 <= j ->
  Z.testbit (Z.land w (Z.lnot (Z.shiftl 1 i))) j = if j =? i then false else Z.testbit w j.
Proof.
  intros Hi Hj. rewrite Z.land_spec, Z.lnot_spec, Z.shiftl_spec by lia.
  destruct (Z.eqb_spec j i) as [->|Hne].
  - rewrite Z.sub_diag. simpl. apply andb_false_r.
  - assert (Z.testbit 1 (j - i) = false) as ->; [|apply andb_true_r].
    destruct (decide (j < i)); [apply Z.testbit_neg_r; lia|].
    change 1 with (2 ^ 0). apply Z.pow2_bits_false. lia.
Qed.

(** [(w >> i) & 1u] reads bit [i]. *)
Lemma shiftr_land_1 w i : 0 <= i -> Z.land (Z.shiftr w i) 1 = Z.b2z (Z.testbit w i).
Proof.
  intros Hi. change 1 with (Z.ones 1). rewrite Z.land_ones by lia.
  rewrite Z.testbit_spec' by lia. rewrite Z.shiftr_div_pow2 by lia. reflexivity.
Qed.

(** ** Byte buffers

    A C array of bytes is a [list Z]; [memcpy(dst + off, src, n)] is
    [splice], a read of [n] bytes at [off] is [slice]. *)

Definition slice {A} (off n : Z) (l : list A) : list A :=
  take (Z.to_nat n) (drop (Z.to_nat off) l).

Definition splice {A} (off : Z) (src l : list A) : list A :=
  take (Z.to_nat off) l ++ src ++ drop (Z.to_nat off + length src) l.

Section buffers.
Context {A : Type}.
Implicit Types (l src : list A) (off n i : Z).

Lemma length_splice off src l :
  0 <= off -> off + Z.of_nat (length src) <= Z.of_nat (length l) ->
  length (splice off src l) = length l.
Proof.
  intros. unfold splice. rewrite !length_app, length_take, length_drop. lia.
Qed.

Lemma length_slice off n l :
  0 <= off -> 0 <= n -> off + n <= Z.of_nat (length l) ->
  length (slice off n l) = Z.to_nat n.
Proof. intros. unfold slice. rewrite length_take, length_drop. lia. Qed.

Lemma slice_splice_same off src l :
  0 <= off -> off + Z.of_nat (length src) <= Z.of_nat (length l) ->
  slice off (Z.of_nat (length src)) (splice off src l) = src.
Proof.
  intros. unfold slice, splice.
  rewrite drop_app_ge by (rewrite length_take; lia).
  rewrite length_take. replace (_ - _)%nat with 0%nat by lia. rewrite drop_0.
  rewrite Nat2Z.id, take_app_le by lia. apply take_ge. lia.
Qed.

Lemma lookup_splice_ne off src l (i : nat) :
  0 <= off -> off + Z.of_nat (length src) <= Z.of_nat (length l) ->
  Z.of_nat i < off \/ off + Z.of_nat (length src) <= Z.of_nat i ->
  splice off src l !! i = l !! i.
Proof.
  intros Ho Hl Hi. unfold splice. destruct Hi as [Hi|Hi].
  - rewrite lookup_app_l by (rewrite length_take; lia).
    apply lookup_take_lt. lia.
  - rewrite lookup_app_r by (rewrite length_take; lia).
    rewrite lookup_app_r by (rewrite length_take; lia).
    rewrite lookup_drop, length_take. f_equal. lia.
Qed.

Lemma lookup_splice_in off src l (i : nat) :
  0 <= off -> off + Z.of_nat (length src) <= Z.of_nat (length l) ->
  off <= Z.of_nat i < off + Z.of_nat (length src) ->
  splice off src l !! i = src !! (i - Z.to_nat off)%nat.
Proof.
  intros. unfold splice.
  rewrite lookup_app_r by (rewrite length_take; lia).
  rewrite lookup_app_l by (rewrite length_take; lia).
  f_equal. rewrite length_take. lia.
Qed.

Lemma splice_nil off l : splice off [] l = l.
Proof. unfold splice. simpl. rewrite Nat.add_0_r. apply take_drop. Qed.

(** Two adjacent copies are one copy of the concatenation. *)
Lemma splice_app off x y l :
  0 <= off -> off + Z.of_nat (length x + length y) <= Z.of_nat (length l) ->
  splice off (x ++ y) l = splice (off + Z.of_nat (length x)) y (splice off x l).
Proof.
  intros Ho Hl. unfold splice.
  replace (Z.to_nat (off + Z.of_nat (length x))) with (Z.to_nat off + length x)%nat by lia.
  assert (length (take (Z.to_nat off) l) = Z.to_nat off) as Et by (rewrite length_take; lia).
  set (a := take (Z.to_nat off) l) in *. rewrite (app_assoc a x).
  rewrite take_app_le by (rewrite length_app; lia). rewrite take_ge by (rewrite length_app; lia).
  rewrite drop_app_ge by (rewrite length_app; lia). rewrite drop_drop, !length_app, <- !app_assoc.
  do 4 f_equal. lia.
Qed.

(** A block copied out of a concatenation of equal blocks. *)
Lemma slice_length off n l : (length (slice off n l) <= Z.to_nat n)%nat.
Proof. unfold slice. rewrite length_take. lia. Qed.
End buffers.

(** Little-endian encoding of a [n]-byte word and its decoding. *)
Fixpoint le_split (n : nat) (w : Z) : list Z :=
  match n with
  | O => []
  | S n => w mod 256 :: le_split n (w / 256)
  end.

Fixpoint le_combine (l : list Z) : Z :=
  match l with
  | [] => 0
  | b :: t => b + 256 * le_combine t
  end.

Definition is_byte (b : Z) : Prop := 0 <= b < 256.

Lemma length_le_split n w : length (le_split n w) = n.
Proof. revert w; induction n as [|n IH]; intros w; simpl; [done|by rewrite IH]. Qed.

Lemma le_split_bytes n w : Forall is_byte (le_split n w).
Proof.
  revert w; induction n as [|n IH]; intros w; simpl; constructor; auto.
  unfold is_byte. apply Z.mod_pos_bound. lia.
Qed.

Lemma le_combine_split n w :
  0 <= w < 256 ^ Z.of_nat n -> le_combine (le_split n w) = w.
Proof.
  revert w; induction n as [|n IH]; intros w Hw; simpl.
  - change (256 ^ Z.of_nat 0) with 1 in Hw. lia.
  - rewrite Nat2Z.inj_succ, Z.pow_succ_r in Hw by lia.
    rewrite IH by zlia. pose proof (Z.div_mod w 256). lia.
Qed.

Lemma le_combine_bound l : Forall is_byte l -> 0 <= le_combine l < 256 ^ Z.of_nat (length l).
Proof.
  induction 1 as [|b l Hb _ IH]; simpl le_combine; simpl length.
  - simpl; lia.
  - unfold is_byte in Hb. rewrite Nat2Z.inj_succ, Z.pow_succ_r by lia. lia.
Qed.

Lemma le_split_combine l : Forall is_byte l -> le_split (length l) (le_combine l) = l.
Proof.
  induction 1 as [|b l Hb _ IH]; simpl; [done|]. unfold is_byte in Hb.
  rewrite (Z.add_comm b), Z.mul_comm.
  rewrite Z.add_mod, Z.mod_mul, Z.add_0_l, Z.mod_mod, Z.mod_small by lia.
  rewrite Z.div_add_l, (Z.div_small b), Z.add_0_r by lia. by rewrite IH.
Qed.

(** ** Counting the indices below a bound that satisfy a predicate *)

Fixpoint countZ (p : Z -> bool) (n : nat) : Z :=
  match n with
  | O => 0
  | S n => countZ p n + Z.b2z (p (Z.of_nat n))
  end.

Lemma countZ_ext p q n :
  (forall i, 0 <= i < Z.of_nat n -> p i = q i) -> countZ p n = countZ q n.
Proof.
  induction n as [|n IH]; intros H; simpl; [done|].
  rewrite IH, H; [done|lia|intros; apply H; lia].
Qed.

Lemma countZ_bounds p n : 0 <= countZ p n <= Z.of_nat n.
Proof. induction n; simpl; [lia|]. destruct (p _); simpl; lia. Qed.

(** Changing the predicate at one index in range changes the count by the
    difference of the two values there. *)
Lemma countZ_update p q i n :
  0 <= i < Z.of_nat n -> (forall j, 0 <= j -> j <> i -> q j = p j) ->
  countZ q n = countZ p n + Z.b2z (q i) - Z.b2z (p i).
Proof.
  induction n as [|n IH]; intros Hi H; simpl; [lia|].
  destruct (decide (i = Z.of_nat n)) as [->|Hne].
  - rewrite (countZ_ext q p); [lia|]. intros j Hj. apply H; lia.
  - rewrite IH by (assumption || lia). rewrite (H (Z.of_nat n)) by lia. lia.
Qed.

Lemma countZ_pos p n i : 0 <= i < Z.of_nat n -> p i = true -> 0 < countZ p n.
Proof.
  induction n as [|n IH]; intros Hi Hp; simpl; [lia|].
  pose proof (countZ_bounds p n).
  destruct (decide (i = Z.of_nat n)) as [->|]; [rewrite Hp; simpl; lia|].
  specialize (IH ltac:(lia) Hp). destruct (p (Z.of_nat n)); simpl; lia.
Qed.

Lemma countZ_none p n : (forall i, 0 <= i < Z.of_nat n -> p i = false) -> countZ p n = 0.
Proof.
  induction n as [|n IH]; intros H; simpl; [done|].
  rewrite IH, H; [done|lia|intros; apply H; lia].
Qed.

(** ** Total list lookup after an update *)
Lemma list_lookup_total_upd {A} `{Inhabited A} (l : list A) (i j : nat) (x : A) :
  (i < length l)%nat -> <[i:=x]> l !!! j = if decide (j = i) then x else l !!! j.
Proof.
  intros Hi. case_decide as E.
  - subst. by apply list_lookup_total_insert_eq.
  - by apply list_lookup_total_insert_ne.
Qed.
