(* ===== verification/Pmm.v ===== *)
(** * Physical frame allocator ([kernel/pmm.c])

    One bit per 4 KiB frame (1 = used) in an array of 32-bit words, a
    16-bit reference count per frame, and a running count of free frames.
    [Module Pmm] holds the operations as the source writes them;
    [Module FrameSpec] the abstract contract (a finite map from the frames
    in use to their reference counts) and the rest of the file the proof
    that every operation implements it, from [pmm_initialize] on. *)

From S2P Require Import Prelude.
Open Scope Z_scope.

Module Pmm.

Definition PMM_FRAME_SIZE : Z := 4096.
Definition MB_MMAP_TYPE_AVAILABLE : Z := 1.

(** [struct multiboot_tag_mmap] followed by its entries ([mmap_data] holds
    the bytes after the 16-byte tag header). *)
Record multiboot_tag_mmap := {
  mmap_size : Z;
  mmap_entry_size : Z;
  mmap_data : list Z;
}.

(** [struct multiboot_mmap_entry]. *)
Record multiboot_mmap_entry := { me_addr : Z; me_len : Z; me_type : Z }.

Definition MMAP_TAG_SIZE : Z := 16.
Definition MMAP_ENTRY_SIZE : Z := 24.

Definition read_entry (tag : multiboot_tag_mmap) (cur : Z) : multiboot_mmap_entry :=
  let off := cur - MMAP_TAG_SIZE in
  {| me_addr := le_combine (slice off 8 (mmap_data tag));
     me_len := le_combine (slice (off + 8) 8 (mmap_data tag));
     me_type := le_combine (slice (off + 16) 4 (mmap_data tag)) |}.

(** The walk [while (cur + sizeof(entry) <= end) { ...; cur += entry_size; }]
    both passes of [pmm_initialize] perform. [mmap_size] steps always
    suffice: the entry size is at least 24 when the walk runs. *)
Fixpoint mmap_walk (fuel : nat) (tag : multiboot_tag_mmap) (cur : Z) : list multiboot_mmap_entry :=
  match fuel with
  | O => []
  | S fuel =>
      if cur + MMAP_ENTRY_SIZE <=? mmap_size tag
      then read_entry tag cur :: mmap_walk fuel tag (cur + mmap_entry_size tag)
      else []
  end.

Definition mmap_entries (tag : multiboot_tag_mmap) : list multiboot_mmap_entry :=
  mmap_walk (Z.to_nat (mmap_size tag)) tag MMAP_TAG_SIZE.

(** The file-scope variables of pmm.c. A pointer field is the address
    ([0] = [NULL]); the array it points to is the field next to it. *)
Record pmm := mk_pmm {
  g_bitmap_ptr : Z;
  g_bitmap : list Z;
  g_refcounts_ptr : Z;
  g_refcounts : list Z;
  g_bitmap_bits : Z;
  g_free_frames : Z;
  boot_alloc_ptr : Z;
}.

Definition pmm_boot : pmm := mk_pmm 0 [] 0 [] 0 0 0.

Definition set_bitmap (b : list Z) (s : pmm) : pmm :=
  mk_pmm (g_bitmap_ptr s) b (g_refcounts_ptr s) (g_refcounts s) (g_bitmap_bits s)
         (g_free_frames s) (boot_alloc_ptr s).
Definition set_refcounts (r : list Z) (s : pmm) : pmm :=
  mk_pmm (g_bitmap_ptr s) (g_bitmap s) (g_refcounts_ptr s) r (g_bitmap_bits s)
         (g_free_frames s) (boot_alloc_ptr s).
Definition set_free_frames (n : Z) (s : pmm) : pmm :=
  mk_pmm (g_bitmap_ptr s) (g_bitmap s) (g_refcounts_ptr s) (g_refcounts s) (g_bitmap_bits s)
         n (boot_alloc_ptr s).

Definition BIT_SET (arr : list Z) (i : Z) : list Z :=
  let k := Z.to_nat (Z.shiftr i 5) in
  <[k := Z.lor (arr !!! k) (Z.shiftl 1 (Z.land i 31))]> arr.
Definition BIT_CLR (arr : list Z) (i : Z) : list Z :=
  let k := Z.to_nat (Z.shiftr i 5) in
  <[k := Z.land (arr !!! k) (Z.lnot (Z.shiftl 1 (Z.land i 31)))]> arr.
Definition BIT_TST (arr : list Z) (i : Z) : bool :=
  negb (Z.land (Z.shiftr (arr !!! Z.to_nat (Z.shiftr i 5)) (Z.land i 31)) 1 =? 0).

#[global] Arguments BIT_SET : simpl never.
#[global] Arguments BIT_CLR : simpl never.
#[global] Arguments BIT_TST : simpl never.

Definition addr_to_frame (addr : Z) : Z := u32 (Z.shiftr addr 12).
Definition frame_to_addr (frame : Z) : Z := u32 (Z.shiftl frame 12).
#[global] Arguments addr_to_frame : simpl never.
#[global] Arguments frame_to_addr : simpl never.
Definition frame_valid (s : pmm) (frame : Z) : bool :=
  (frame <? g_bitmap_bits s) && negb (g_bitmap_ptr s =? 0).

Definition refcount (s : pmm) (f : Z) : Z := g_refcounts s !!! Z.to_nat f.
Definition put_refcount (f c : Z) (s : pmm) : pmm :=
  set_refcounts (<[Z.to_nat f := c]> (g_refcounts s)) s.
Definition put_refcount_if_present (f c : Z) (s : pmm) : pmm :=
  if g_refcounts_ptr s =? 0 then s else put_refcount f c s.

(** The body of the loop of [bitmap_free_range]. *)
Definition release_frame (f : Z) (s : pmm) : pmm :=
  if BIT_TST (g_bitmap s) f then
    let s := set_bitmap (BIT_CLR (g_bitmap s) f) s in
    let s := put_refcount_if_present f 0 s in
    set_free_frames (u32 (g_free_frames s + 1)) s
  else s.

Fixpoint free_range_loop (n : nat) (f : Z) (s : pmm) : pmm :=
  match n with
  | O => s
  | S n => free_range_loop n (f + 1) (release_frame f s)
  end.

Definition bitmap_free_range (start end_ : Z) (s : pmm) : pmm :=
  if end_ <=? start then s
  else
    let first := addr_to_frame (ALIGN_UP start PMM_FRAME_SIZE) in
    let last := addr_to_frame end_ in
    let last := if g_bitmap_bits s <? last then g_bitmap_bits s else last in
    free_range_loop (Z.to_nat (last - first)) first s.

Definition pmm_total_frames (s : pmm) : Z := g_bitmap_bits s.
Definition pmm_free_frames (s : pmm) : Z := g_free_frames s.

(** [kernel_end] is the address of the linker symbol [_kernel_end]. *)
Definition boot_alloc_init (kernel_end : Z) : Z := ALIGN_UP kernel_end PMM_FRAME_SIZE.

(** Returns the block and the advanced [boot_alloc_ptr]. *)
Definition boot_alloc (ptr bytes align : Z) : Z * Z :=
  let align := if align <? 4 then 4 else align in
  let p := ALIGN_UP ptr align in
  (p, u32 (p + ALIGN_UP bytes 4)).

(** First pass: the end of the highest available region (64-bit sums). *)
Definition highest_addr (es : list multiboot_mmap_entry) : Z :=
  fold_left (fun high e =>
    if (me_type e =? MB_MMAP_TYPE_AVAILABLE) && negb (me_len e =? 0) then
      let region_end := u64 (me_addr e + me_len e) in
      if high <? region_end then region_end else high
    else high) es 0.

(** Second pass: free what lies above the kernel and the two tables. The
    casts to [uintptr_t] keep the low 32 bits of the 64-bit addresses. *)
Definition free_region (reserved_end : Z) (s : pmm) (e : multiboot_mmap_entry) : pmm :=
  if (me_type e =? MB_MMAP_TYPE_AVAILABLE) && negb (me_len e =? 0) then
    let st := u32 (me_addr e) in
    let t := u32 (u64 (me_addr e + me_len e)) in
    if reserved_end <? t then
      let fs := if st <? reserved_end then reserved_end else st in
      if fs <? t then bitmap_free_range fs t s else s
    else s
  else s.

Definition reserve_frame_0 (s : pmm) : pmm :=
  if negb (g_bitmap_bits s =? 0) && negb (BIT_TST (g_bitmap s) 0) then
    let s := set_bitmap (BIT_SET (g_bitmap s) 0) s in
    if g_free_frames s =? 0 then s else set_free_frames (g_free_frames s - 1) s
  else s.

Fixpoint mark_used_loop (n : nat) (i : Z) (s : pmm) : pmm :=
  match n with
  | O => s
  | S n => mark_used_loop n (i + 1) (if BIT_TST (g_bitmap s) i then put_refcount i 1 s else s)
  end.

Definition PMM_LIMIT : Z := 0x8200000.

Definition pmm_initialize (kernel_end : Z) (mmap_tag : option multiboot_tag_mmap) (s : pmm) : pmm :=
  match mmap_tag with
  | None => s
  | Some tag =>
      if (mmap_entry_size tag <? MMAP_ENTRY_SIZE) || (128 <? mmap_entry_size tag) then s
      else
        let high := highest_addr (mmap_entries tag) in
        if high =? 0 then s
        else
          let high := if PMM_LIMIT <? high then PMM_LIMIT else high in
          let bits := u32 ((high + (PMM_FRAME_SIZE - 1)) / PMM_FRAME_SIZE) in
          let ptr := boot_alloc_init kernel_end in
          let bitmap_words := (bits + 31) / 32 in
          let bitmap_bytes := bitmap_words * 4 in
          let '(bm, ptr) := boot_alloc ptr bitmap_bytes PMM_FRAME_SIZE in
          if bm =? 0 then
            mk_pmm bm (g_bitmap s) (g_refcounts_ptr s) (g_refcounts s) bits (g_free_frames s) ptr
          else
            let '(rc, ptr) := boot_alloc ptr (bits * 2) 4 in
            if rc =? 0 then
              mk_pmm bm (g_bitmap s) rc (g_refcounts s) bits (g_free_frames s) ptr
            else
              let s := mk_pmm bm (replicate (Z.to_nat bitmap_words) 0xFFFFFFFF)
                              rc (replicate (Z.to_nat bits) 0) bits 0 ptr in
              let s := fold_left (free_region ptr) (mmap_entries tag) s in
              let s := reserve_frame_0 s in
              mark_used_loop (Z.to_nat bits) 0 s
  end.

(** The scan of [phys_alloc_frame]: the first clear bit at or after [i]. *)
Fixpoint scan_free (n : nat) (i : Z) (arr : list Z) : option Z :=
  match n with
  | O => None
  | S n => if BIT_TST arr i then scan_free n (i + 1) arr else Some i
  end.

Definition phys_alloc_frame (s : pmm) : Z * pmm :=
  match scan_free (Z.to_nat (g_bitmap_bits s)) 0 (g_bitmap s) with
  | Some i =>
      let s := set_bitmap (BIT_SET (g_bitmap s) i) s in
      let s := put_refcount_if_present i 1 s in
      let s := if g_free_frames s =? 0 then s else set_free_frames (g_free_frames s - 1) s in
      (frame_to_addr i, s)
  | None => (0, s)
  end.

Definition phys_free_frame (phys_addr : Z) (s : pmm) : pmm :=
  let f := addr_to_frame phys_addr in
  if g_bitmap_bits s <=? f then s
  else if BIT_TST (g_bitmap s) f then
    let s := set_bitmap (BIT_CLR (g_bitmap s) f) s in
    let s := put_refcount_if_present f 0 s in
    set_free_frames (u32 (g_free_frames s + 1)) s
  else s.

Definition pmm_frame_ref (phys_addr : Z) (s : pmm) : pmm :=
  let f := addr_to_frame phys_addr in
  if negb (frame_valid s f) then s
  else if negb (BIT_TST (g_bitmap s) f) then s
  else if refcount s f =? 0xFFFF then s
  else put_refcount f (u16 (refcount s f + 1)) s.

Definition pmm_frame_unref (phys_addr : Z) (s : pmm) : pmm :=
  let f := addr_to_frame phys_addr in
  if negb (frame_valid s f) then s
  else if negb (BIT_TST (g_bitmap s) f) then s
  else if 1 <? refcount s f then put_refcount f (refcount s f - 1) s
  else phys_free_frame phys_addr s.

Definition pmm_frame_refcount (phys_addr : Z) (s : pmm) : Z :=
  let f := addr_to_frame phys_addr in
  if negb (frame_valid s f) || negb (BIT_TST (g_bitmap s) f) then 0 else refcount s f.

End Pmm.

(** ** Bit-level facts *)

Module PmmFacts.
Import Pmm.

Lemma BIT_TST_testbit arr i :
  0 <= i -> BIT_TST arr i = Z.testbit (arr !!! Z.to_nat (i / 32)) (i mod 32).
Proof.
  intros Hi. unfold BIT_TST. rewrite (Z.shiftr_div_pow2 i 5) by lia.
  change 31 with (Z.ones 5). rewrite Z.land_ones by lia.
  change (2 ^ 5) with 32. rewrite shiftr_land_1 by zlia.
  by destruct (Z.testbit _ _).
Qed.

Lemma same_bit_iff i j : (j / 32 = i / 32) -> (j mod 32 =? i mod 32) = (j =? i).
Proof. intros H. destruct (Z.eqb_spec j i), (Z.eqb_spec (j mod 32) (i mod 32)); zlia. Qed.

Lemma BIT_TST_SET arr i j :
  0 <= i -> i / 32 < Z.of_nat (length arr) -> 0 <= j ->
  BIT_TST (BIT_SET arr i) j = if j =? i then true else BIT_TST arr j.
Proof.
  intros Hi Hlen Hj. rewrite !BIT_TST_testbit by lia. unfold BIT_SET; cbv zeta.
  rewrite (Z.shiftr_div_pow2 i 5) by lia. change 31 with (Z.ones 5).
  rewrite Z.land_ones by lia. change (2 ^ 5) with 32.
  rewrite list_lookup_total_upd by zlia. case_decide as E.
  - rewrite testbit_setbit, same_bit_iff by zlia. by rewrite <- E.
  - destruct (Z.eqb_spec j i); [congruence|done].
Qed.

Lemma BIT_TST_CLR arr i j :
  0 <= i -> i / 32 < Z.of_nat (length arr) -> 0 <= j ->
  BIT_TST (BIT_CLR arr i) j = if j =? i then false else BIT_TST arr j.
Proof.
  intros Hi Hlen Hj. rewrite !BIT_TST_testbit by lia. unfold BIT_CLR; cbv zeta.
  rewrite (Z.shiftr_div_pow2 i 5) by lia. change 31 with (Z.ones 5).
  rewrite Z.land_ones by lia. change (2 ^ 5) with 32.
  rewrite list_lookup_total_upd by zlia. case_decide as E.
  - rewrite testbit_clearbit, same_bit_iff by zlia. by rewrite <- E.
  - destruct (Z.eqb_spec j i); [congruence|done].
Qed.

Lemma length_BIT_SET arr i : length (BIT_SET arr i) = length arr.
Proof. apply length_insert. Qed.
Lemma length_BIT_CLR arr i : length (BIT_CLR arr i) = length arr.
Proof. apply length_insert. Qed.

(** Bits of the freshly [memset] bitmap. *)
Lemma BIT_TST_full n i : 0 <= i -> i / 32 < Z.of_nat n -> BIT_TST (replicate n 0xFFFFFFFF) i = true.
Proof.
  intros Hi Hn. rewrite BIT_TST_testbit by lia.
  rewrite lookup_total_replicate_2 by zlia.
  change 0xFFFFFFFF with (Z.ones 32). apply Z.ones_spec_low. zlia.
Qed.

Lemma addr_to_frame_eq a : 0 <= a < 2 ^ 32 -> addr_to_frame a = a / 4096.
Proof.
  intros. unfold addr_to_frame. rewrite Z.shiftr_div_pow2 by lia.
  change (2 ^ 12) with 4096. apply u32_small. zlia.
Qed.

Lemma addr_to_frame_range a : 0 <= addr_to_frame a < 2 ^ 32.
Proof. apply u32_range. Qed.

Lemma frame_to_addr_eq f : 0 <= f <= 0x8200 -> frame_to_addr f = f * 4096.
Proof.
  intros. unfold frame_to_addr. rewrite Z.shiftl_mul_pow2 by lia.
  change (2 ^ 12) with 4096. apply u32_small. lia.
Qed.

(** ** The state invariant *)

Definition used (s : pmm) (f : Z) : bool := BIT_TST (g_bitmap s) f.
Definition free_bits (s : pmm) : Z :=
  countZ (fun f => negb (used s f)) (Z.to_nat (g_bitmap_bits s)).

(** Shape of the tables: both exist, with an entry for every tracked frame. *)
Record tables_ok (s : pmm) : Prop := {
  tok_bitmap : g_bitmap_ptr s <> 0;
  tok_ref : g_refcounts_ptr s <> 0;
  tok_bits : 0 <= g_bitmap_bits s <= 0x8200;
  tok_words : Z.of_nat (length (g_bitmap s)) = (g_bitmap_bits s + 31) / 32;
  tok_counts : Z.of_nat (length (g_refcounts s)) = g_bitmap_bits s;
  tok_free : g_free_frames s = free_bits s;
}.

(** The full invariant: in addition the reference count of a frame is zero
    exactly when its bit is clear, and fits 16 bits. *)
Record pmm_wf (s : pmm) : Prop := {
  wf_tables : tables_ok s;
  wf_used : forall f, 0 <= f < g_bitmap_bits s -> used s f = true -> 1 <= refcount s f <= 0xFFFF;
  wf_unused : forall f, 0 <= f < g_bitmap_bits s -> used s f = false -> refcount s f = 0;
}.

Lemma free_bits_range s : tables_ok s -> 0 <= free_bits s <= g_bitmap_bits s.
Proof.
  intros []. unfold free_bits.
  pose proof (countZ_bounds (fun f => negb (used s f)) (Z.to_nat (g_bitmap_bits s))). lia.
Qed.

Lemma word_index s f :
  tables_ok s -> 0 <= f < g_bitmap_bits s -> f / 32 < Z.of_nat (length (g_bitmap s)).
Proof. intros [] Hf. zlia. Qed.

Lemma refcount_put s f c g :
  tables_ok s -> 0 <= f < g_bitmap_bits s -> 0 <= g ->
  refcount (put_refcount f c s) g = if g =? f then c else refcount s g.
Proof.
  intros [] Hf Hg. unfold refcount, put_refcount; simpl.
  rewrite list_lookup_total_upd by lia.
  destruct (Z.eqb_spec g f); case_decide; try done; try subst; lia.
Qed.

(** Changing one bit and updating the counter accordingly keeps the tables. *)
Lemma tables_ok_flip s bm n f (b : bool) :
  tables_ok s -> 0 <= f < g_bitmap_bits s ->
  length bm = length (g_bitmap s) ->
  (forall j, 0 <= j -> BIT_TST bm j = if j =? f then b else used s j) ->
  n = g_free_frames s + Z.b2z (negb b) - Z.b2z (negb (used s f)) ->
  tables_ok (set_free_frames n (set_bitmap bm s)).
Proof.
  intros [] Hf Hlen Hbm ->. constructor; simpl; try lia.
  rewrite tok_free0. unfold free_bits, used in *. simpl.
  symmetry. rewrite (countZ_update (fun f => negb (BIT_TST (g_bitmap s) f)) _ f).
  - rewrite Hbm, Z.eqb_refl by lia. done.
  - lia.
  - intros j Hj Hne. rewrite Hbm by lia. by rewrite (proj2 (Z.eqb_neq j f)).
Qed.

Lemma tables_ok_put_refcount s f c :
  tables_ok s -> tables_ok (put_refcount f c s).
Proof. intros []. constructor; simpl; try done. by rewrite length_insert. Qed.

#[export] Hint Resolve tables_ok_put_refcount word_index : kernel.

(** Effect of releasing a frame that is in use (shared by
    [bitmap_free_range] and [phys_free_frame]). *)
Definition freed (f : Z) (s : pmm) : pmm :=
  set_free_frames (u32 (g_free_frames s + 1))
    (put_refcount f 0 (set_bitmap (BIT_CLR (g_bitmap s) f) s)).

Lemma freed_spec f s :
  tables_ok s -> 0 <= f < g_bitmap_bits s -> used s f = true ->
  tables_ok (freed f s) /\
  (forall j, 0 <= j -> used (freed f s) j = if j =? f then false else used s j) /\
  (forall j, 0 <= j -> refcount (freed f s) j = if j =? f then 0 else refcount s j).
Proof.
  intros Hok Hf Hu. pose proof (free_bits_range s Hok) as Hr.
  assert (forall j, 0 <= j -> BIT_TST (BIT_CLR (g_bitmap s) f) j = if j =? f then false else used s j)
    as Hbm by (intros; apply BIT_TST_CLR; auto with kernel; lia).
  destruct Hok as [? ? ? ? ? Hfree] eqn:E.
  assert (tables_ok (set_free_frames (u32 (g_free_frames s + 1))
            (set_bitmap (BIT_CLR (g_bitmap s) f) s))) as Hok'.
  { eapply tables_ok_flip; [done|done|by rewrite length_BIT_CLR|exact Hbm|].
    rewrite Hu. rewrite u32_small by lia. simpl. lia. }
  split; [|split].
  - destruct Hok'. constructor; simpl in *; try done. by rewrite length_insert.
  - exact Hbm.
  - intros j Hj. apply (refcount_put s); auto.
Qed.

Lemma release_frame_used f s :
  tables_ok s -> release_frame f s = if used s f then freed f s else s.
Proof.
  intros []. unfold release_frame, freed, put_refcount_if_present, used. simpl.
  rewrite (proj2 (Z.eqb_neq _ _)) by done. done.
Qed.

Lemma phys_free_frame_used a s :
  tables_ok s ->
  phys_free_frame a s =
    if (addr_to_frame a <? g_bitmap_bits s) && used s (addr_to_frame a)
    then freed (addr_to_frame a) s else s.
Proof.
  intros []. unfold phys_free_frame, freed, put_refcount_if_present, used. simpl.
  rewrite (proj2 (Z.eqb_neq (g_refcounts_ptr s) 0)) by done.
  destruct (Z.leb_spec (g_bitmap_bits s) (addr_to_frame a)), (Z.ltb_spec (addr_to_frame a) (g_bitmap_bits s));
    try lia; done.
Qed.

End PmmFacts.

(** ** Abstract contract: reference-counted frames *)

Module FrameSpec.

Inductive frame_op :=
  | OpAlloc
  | OpFree (addr : Z)
  | OpRef (addr : Z)
  | OpUnref (addr : Z)
  | OpRefcount (addr : Z).

(** The abstract state is the map from the frames in use to their counts;
    [total] frames exist. Every operation returns a word ([0] for the void
    ones) and the next map. *)
Definition spec_exec (total : Z) (op : frame_op) (m : gmap Z Z) : Z * gmap Z Z :=
  match op with
  | OpAlloc =>
      match list_find (fun f => m !! f = None) (seqZ 0 total) with
      | Some (_, f) => (f * 4096, <[f := 1]> m)
      | None => (0, m)
      end
  | OpFree a => (0, delete (a / 4096) m)
  | OpRef a => (0, alter (fun c => if c =? 0xFFFF then c else c + 1) (a / 4096) m)
  | OpUnref a =>
      (0, match m !! (a / 4096) with
          | Some c => if 1 <? c then <[a / 4096 := c - 1]> m else delete (a / 4096) m
          | None => m
          end)
  | OpRefcount a => (default 0 (m !! (a / 4096)), m)
  end.

Fixpoint spec_run (total : Z) (ops : list frame_op) (m : gmap Z Z) : list Z * gmap Z Z :=
  match ops with
  | [] => ([], m)
  | op :: ops =>
      let '(r, m) := spec_exec total op m in
      let '(rs, m) := spec_run total ops m in (r :: rs, m)
  end.

Definition op_addr_ok (op : frame_op) : Prop :=
  match op with
  | OpAlloc => True
  | OpFree a | OpRef a | OpUnref a | OpRefcount a => 0 <= a < 2 ^ 32
  end.

End FrameSpec.

Module PmmRefine.
Import Pmm PmmFacts FrameSpec.

(** The same operations on the concrete state. *)
Definition pmm_exec (op : frame_op) (s : pmm) : Z * pmm :=
  match op with
  | OpAlloc => phys_alloc_frame s
  | OpFree a => (0, phys_free_frame a s)
  | OpRef a => (0, pmm_frame_ref a s)
  | OpUnref a => (0, pmm_frame_unref a s)
  | OpRefcount a => (pmm_frame_refcount a s, s)
  end.

Fixpoint pmm_run (ops : list frame_op) (s : pmm) : list Z * pmm :=
  match ops with
  | [] => ([], s)
  | op :: ops =>
      let '(r, s) := pmm_exec op s in
      let '(rs, s) := pmm_run ops s in (r :: rs, s)
  end.

(** Abstraction function. *)
Definition frames_of (s : pmm) : gmap Z Z :=
  set_to_map (fun f => (f, refcount s f))
    (list_to_set (filter (fun f => used s f = true) (seqZ 0 (g_bitmap_bits s))) : gset Z).

Definition in_use (s : pmm) (f : Z) : bool :=
  (0 <=? f) && (f <? g_bitmap_bits s) && used s f.

Lemma lookup_frames_of s f :
  frames_of s !! f = if in_use s f then Some (refcount s f) else None.
Proof.
  unfold in_use.
  assert (forall x, frames_of s !! f = Some x
     <-> ((0 <= f < g_bitmap_bits s) /\ used s f = true) /\ x = refcount s f) as H.
  { intros x. unfold frames_of. rewrite lookup_set_to_map by (intros; simpl in *; congruence).
    setoid_rewrite elem_of_list_to_set. setoid_rewrite list_elem_of_filter.
    setoid_rewrite elem_of_seqZ. split.
    - intros (y & Hy & [= -> <-]). split; [split|]; [lia|tauto|done].
    - intros [[??] ->]. exists f. split; [split; [done|lia]|done]. }
  apply option_eq. intros x. rewrite H.
  destruct (Z.leb_spec 0 f), (Z.ltb_spec f (g_bitmap_bits s)), (used s f) eqn:?; simpl;
    split; intros; simplify_eq; try (destruct_and?; simplify_eq; lia); try done.
  destruct_and?. by subst.
Qed.

(** Two states with the same bits and counts in range have the same map. *)
Lemma frames_of_ext s (m : gmap Z Z) :
  (forall f, m !! f = if in_use s f then Some (refcount s f) else None) -> frames_of s = m.
Proof. intros H. apply map_eq. intros f. by rewrite H, lookup_frames_of. Qed.

Lemma scan_free_Some n i arr f :
  scan_free n i arr = Some f ->
  i <= f < i + Z.of_nat n /\ BIT_TST arr f = false /\
  forall j, i <= j < f -> BIT_TST arr j = true.
Proof.
  revert i; induction n as [|n IH]; intros i H; simpl in H; [done|].
  destruct (BIT_TST arr i) eqn:E; simplify_eq.
  - apply IH in H as (? & ? & Hall). split; [lia|]. split; [done|].
    intros j Hj. destruct (decide (j = i)) as [->|]; [done|apply Hall; lia].
  - split; [lia|]. split; [done|lia].
Qed.

Lemma scan_free_None n i arr :
  scan_free n i arr = None -> forall j, i <= j < i + Z.of_nat n -> BIT_TST arr j = true.
Proof.
  revert i; induction n as [|n IH]; intros i H j Hj; simpl in H; [lia|].
  destruct (BIT_TST arr i) eqn:E; simplify_eq.
  destruct (decide (j = i)) as [->|]; [done|]. eapply IH; [done|lia].
Qed.

(** [list_find] over an interval returns the least element satisfying [P]. *)
Lemma list_find_seqZ_Some (P : Z -> Prop) `{forall x, Decision (P x)} f n :
  0 <= f < n -> P f -> (forall j, 0 <= j < f -> ~ P j) ->
  list_find P (seqZ 0 n) = Some (Z.to_nat f, f).
Proof.
  intros Hf HP Hmin. apply list_find_Some. split; [|split; [done|]].
  - apply lookup_seqZ. lia.
  - intros j y [-> Hj]%lookup_seqZ Hlt. apply Hmin. lia.
Qed.

Lemma list_find_seqZ_None (P : Z -> Prop) `{forall x, Decision (P x)} n :
  (forall j, 0 <= j < n -> ~ P j) -> list_find P (seqZ 0 n) = None.
Proof.
  intros Hall. apply list_find_None. apply Forall_forall.
  intros j Hj%elem_of_seqZ. apply Hall. lia.
Qed.

(** Frees, count updates and allocation on the abstract map. *)
Lemma freed_refines f s :
  pmm_wf s -> 0 <= f < g_bitmap_bits s -> used s f = true ->
  pmm_wf (freed f s) /\ frames_of (freed f s) = delete f (frames_of s).
Proof.
  intros [Hok Hu Hn] Hf Hfu. destruct (freed_spec f s Hok Hf Hfu) as (Hok' & Hus & Hrc).
  assert (g_bitmap_bits (freed f s) = g_bitmap_bits s) as Hb by done.
  split; [constructor; [done|..]; rewrite Hb; intros g Hg; rewrite Hus, Hrc by lia|].
  - destruct (Z.eqb_spec g f); [done|]. apply Hu; lia.
  - destruct (Z.eqb_spec g f); [done|]. apply Hn; lia.
  - apply frames_of_ext. intros g. rewrite lookup_delete, lookup_frames_of. unfold in_use. rewrite Hb.
    destruct (Z.leb_spec 0 g); simpl; [rewrite Hus, Hrc by lia|by case_decide].
    destruct (Z.eqb_spec g f), (decide (f = g)); simpl; try congruence.
    by rewrite andb_false_r.
Qed.

Lemma put_refcount_refines f c s :
  pmm_wf s -> 0 <= f < g_bitmap_bits s -> used s f = true -> 1 <= c <= 0xFFFF ->
  pmm_wf (put_refcount f c s) /\ frames_of (put_refcount f c s) = <[f := c]> (frames_of s).
Proof.
  intros [Hok Hu Hn] Hf Hfu Hc.
  assert (forall j, 0 <= j -> refcount (put_refcount f c s) j = if j =? f then c else refcount s j)
    as Hrc by (intros; by apply refcount_put).
  assert (g_bitmap_bits (put_refcount f c s) = g_bitmap_bits s) as Hb by done.
  assert (forall j, used (put_refcount f c s) j = used s j) as Hus by done.
  split; [constructor; [by apply tables_ok_put_refcount|..]; rewrite Hb; intros g Hg;
          rewrite Hus, Hrc by lia|].
  - destruct (Z.eqb_spec g f); [done|]. apply Hu; lia.
  - destruct (Z.eqb_spec g f); [subst; congruence|]. apply Hn; lia.
  - apply frames_of_ext. intros g. rewrite lookup_insert, lookup_frames_of. unfold in_use.
    rewrite Hb, Hus. destruct (Z.leb_spec 0 g); simpl; [rewrite Hrc by lia|case_decide; [lia|done]].
    destruct (Z.eqb_spec g f), (decide (f = g)); simpl; try congruence. subst g.
    rewrite Hfu. rewrite (proj2 (Z.ltb_lt _ _)) by lia. done.
Qed.

(** The state after [phys_alloc_frame] took frame [f]. *)
Definition taken (f : Z) (s : pmm) : pmm :=
  set_free_frames (g_free_frames s - 1)
    (put_refcount f 1 (set_bitmap (BIT_SET (g_bitmap s) f) s)).

Lemma taken_refines f s :
  pmm_wf s -> 0 <= f < g_bitmap_bits s -> used s f = false ->
  pmm_wf (taken f s) /\ frames_of (taken f s) = <[f := 1]> (frames_of s).
Proof.
  intros [Hok Hu Hn] Hf Hfu.
  assert (forall j, 0 <= j -> used (taken f s) j = if j =? f then true else used s j) as Hus
    by (intros; apply BIT_TST_SET; auto with kernel; lia).
  assert (forall j, 0 <= j -> refcount (taken f s) j = if j =? f then 1 else refcount s j) as Hrc
    by (intros; by apply (refcount_put s)).
  assert (g_bitmap_bits (taken f s) = g_bitmap_bits s) as Hb by done.
  assert (tables_ok (taken f s)) as Hok'.
  { assert (tables_ok (set_free_frames (g_free_frames s - 1)
                         (set_bitmap (BIT_SET (g_bitmap s) f) s))) as [].
    { eapply tables_ok_flip; [done|done|by rewrite length_BIT_SET|exact Hus|].
      rewrite Hfu. simpl. lia. }
    constructor; simpl in *; try done. by rewrite length_insert. }
  split; [constructor; [done|..]; rewrite Hb; intros g Hg; rewrite Hus, Hrc by lia|].
  - destruct (Z.eqb_spec g f); [lia|]. apply Hu; lia.
  - destruct (Z.eqb_spec g f); [done|]. apply Hn; lia.
  - apply frames_of_ext. intros g. rewrite lookup_insert, lookup_frames_of. unfold in_use. rewrite Hb.
    destruct (Z.leb_spec 0 g); simpl; [rewrite Hus, Hrc by lia|case_decide; [lia|done]].
    destruct (Z.eqb_spec g f), (decide (f = g)); simpl; try congruence. subst g.
    rewrite (proj2 (Z.ltb_lt _ _)) by lia. done.
Qed.

Lemma phys_alloc_frame_cases s :
  pmm_wf s ->
  (exists f, 0 <= f < g_bitmap_bits s /\ used s f = false /\
     (forall j, 0 <= j < f -> used s j = true) /\ phys_alloc_frame s = (f * 4096, taken f s)) \/
  ((forall j, 0 <= j < g_bitmap_bits s -> used s j = true) /\ phys_alloc_frame s = (0, s)).
Proof.
  intros [Hok _ _]. pose proof Hok as [? ? ? ? ? Hfree]. unfold phys_alloc_frame.
  destruct (scan_free _ _ _) as [f|] eqn:E.
  - apply scan_free_Some in E as (Hf & Hu & Hmin). left. exists f.
    split; [lia|]. split; [done|]. split; [done|].
    assert (0 < g_free_frames s).
    { rewrite Hfree. apply (countZ_pos _ _ f); [lia|]. unfold used. by rewrite Hu. }
    unfold put_refcount_if_present, taken; simpl.
    rewrite (proj2 (Z.eqb_neq (g_refcounts_ptr s) 0)) by done. simpl.
    rewrite (proj2 (Z.eqb_neq (g_free_frames s) 0)) by lia.
    rewrite frame_to_addr_eq by lia. done.
  - right. split; [|done]. intros j Hj. eapply scan_free_None; [done|lia].
Qed.

Lemma frames_of_None s f : 0 <= f < g_bitmap_bits s -> (frames_of s !! f = None) <-> used s f = false.
Proof.
  intros Hf. rewrite lookup_frames_of. unfold in_use. zbool. simpl. by destruct (used s f).
Qed.

Lemma in_use_in_range s f : 0 <= f < g_bitmap_bits s -> in_use s f = used s f.
Proof. intros. unfold in_use. zbool. done. Qed.

Lemma pmm_exec_bits op s : g_bitmap_bits (pmm_exec op s).2 = g_bitmap_bits s.
Proof.
  destruct op; simpl;
    unfold phys_alloc_frame, pmm_frame_unref, pmm_frame_ref, phys_free_frame,
      put_refcount_if_present; repeat case_match; done.
Qed.

(** What the guards of the operations test, on the abstract map. *)
Lemma lookup_frame_addr s a :
  0 <= a ->
  frames_of s !! (a / 4096) = if (a / 4096 <? g_bitmap_bits s) && used s (a / 4096) then Some (refcount s (a / 4096)) else None.
Proof.
  intros. rewrite lookup_frames_of. unfold in_use.
  rewrite (proj2 (Z.leb_le 0 _)) by zlia. done.
Qed.

Lemma frame_guard s a {T} (x z : T) :
  tables_ok s -> 0 <= a < 2 ^ 32 ->
  (if negb (frame_valid s (addr_to_frame a)) then x
   else if negb (BIT_TST (g_bitmap s) (addr_to_frame a)) then x else z) =
  (match frames_of s !! (a / 4096) with Some _ => z | None => x end).
Proof.
  intros [] Ha. rewrite lookup_frame_addr by lia. unfold frame_valid, used.
  rewrite addr_to_frame_eq by done. rewrite (proj2 (Z.eqb_neq (g_bitmap_ptr s) 0)), andb_true_r by done.
  destruct (a / 4096 <? g_bitmap_bits s); simpl; [|done]. by destruct (BIT_TST _ _).
Qed.

(** A frame present in the map: its count, range and bit. *)
Lemma lookup_frame_Some s a c :
  pmm_wf s -> 0 <= a -> frames_of s !! (a / 4096) = Some c ->
  0 <= a / 4096 < g_bitmap_bits s /\ used s (a / 4096) = true /\
  refcount s (a / 4096) = c /\ 1 <= c <= 0xFFFF.
Proof.
  intros [? Hu _] Ha. rewrite lookup_frame_addr by lia. intros Hc.
  destruct (Z.ltb_spec (a / 4096) (g_bitmap_bits s)), (used s (a / 4096)) eqn:E; simplify_eq/=.
  assert (0 <= a / 4096) by zlia. repeat split; try done; try lia; apply Hu; auto; lia.
Qed.

Lemma alloc_refines s :
  pmm_wf s ->
  pmm_wf (phys_alloc_frame s).2 /\
  spec_exec (g_bitmap_bits s) OpAlloc (frames_of s) =
    ((phys_alloc_frame s).1, frames_of (phys_alloc_frame s).2).
Proof.
  intros Hwf. simpl.
  destruct (phys_alloc_frame_cases s Hwf) as [(f & Hf & Hfu & Hmin & ->)|[Hall ->]]; simpl.
  - destruct (taken_refines f s Hwf Hf Hfu) as [? ->]. split; [done|].
    rewrite (list_find_seqZ_Some _ f); [done|lia|by apply frames_of_None|].
    intros j Hj. rewrite frames_of_None, Hmin by lia. done.
  - split; [done|]. rewrite list_find_seqZ_None; [done|].
    intros j Hj. rewrite frames_of_None, Hall by lia. done.
Qed.

Lemma free_refines a s :
  pmm_wf s -> 0 <= a < 2 ^ 32 ->
  pmm_wf (phys_free_frame a s) /\ frames_of (phys_free_frame a s) = delete (a / 4096) (frames_of s).
Proof.
  intros Hwf Ha. rewrite phys_free_frame_used, addr_to_frame_eq by (done || apply Hwf).
  pose proof (lookup_frame_addr s a ltac:(lia)) as Hlk.
  destruct (_ && _) eqn:E; bool_to_prop.
  - apply freed_refines; [done|zlia|done].
  - by rewrite delete_id.
Qed.

Lemma ref_refines a s :
  pmm_wf s -> 0 <= a < 2 ^ 32 ->
  pmm_wf (pmm_frame_ref a s) /\
  frames_of (pmm_frame_ref a s) =
    alter (fun c => if c =? 0xFFFF then c else c + 1) (a / 4096) (frames_of s).
Proof.
  intros Hwf Ha. unfold pmm_frame_ref. rewrite (frame_guard s a s) by (done || apply Hwf).
  rewrite addr_to_frame_eq by done.
  destruct (frames_of s !! (a / 4096)) as [c|] eqn:E.
  2: { split; [done|]. symmetry. apply alter_id. intros; congruence. }
  destruct (lookup_frame_Some s a c Hwf ltac:(lia) E) as (Hr & Hu & -> & Hc).
  destruct (Z.eqb_spec c 0xFFFF) as [->|Hs].
  - split; [done|]. symmetry. apply alter_id. intros x Hx. by simplify_eq.
  - rewrite u16_small by lia.
    destruct (put_refcount_refines (a / 4096) (c + 1) s) as [? ->]; [done|done|done|lia|].
    split; [done|]. apply map_eq. intros g. rewrite lookup_alter, lookup_insert.
    case_decide; [subst|done]. rewrite E. simpl. by rewrite (proj2 (Z.eqb_neq _ _)).
Qed.

Lemma unref_refines a s :
  pmm_wf s -> 0 <= a < 2 ^ 32 ->
  pmm_wf (pmm_frame_unref a s) /\
  spec_exec (g_bitmap_bits s) (OpUnref a) (frames_of s) = (0, frames_of (pmm_frame_unref a s)).
Proof.
  intros Hwf Ha. unfold pmm_frame_unref. rewrite (frame_guard s a s) by (done || apply Hwf).
  rewrite addr_to_frame_eq by done. simpl.
  destruct (frames_of s !! (a / 4096)) as [c|] eqn:E; [|done].
  destruct (lookup_frame_Some s a c Hwf ltac:(lia) E) as (Hr & Hu & -> & Hc).
  destruct (Z.ltb_spec 1 c).
  - destruct (put_refcount_refines (a / 4096) (c - 1) s) as [? ->]; auto with lia.
  - destruct (free_refines a s) as [? ->]; auto.
Qed.

Lemma refcount_refines a s :
  pmm_wf s -> 0 <= a < 2 ^ 32 ->
  pmm_frame_refcount a s = default 0 (frames_of s !! (a / 4096)).
Proof.
  intros Hwf Ha. destruct Hwf as [[] _ _]. rewrite lookup_frame_addr by lia.
  unfold pmm_frame_refcount, frame_valid, used. rewrite addr_to_frame_eq by done.
  rewrite (proj2 (Z.eqb_neq (g_bitmap_ptr s) 0)), andb_true_r by done.
  destruct (a / 4096 <? g_bitmap_bits s); simpl; [|done]. by destruct (BIT_TST _ _).
Qed.

(** One operation: the invariant is kept and the abstract step is taken. *)
Lemma pmm_exec_refines op s :
  pmm_wf s -> op_addr_ok op ->
  pmm_wf (pmm_exec op s).2 /\
  spec_exec (g_bitmap_bits s) op (frames_of s) = ((pmm_exec op s).1, frames_of (pmm_exec op s).2).
Proof.
  intros Hwf Ha. destruct op as [|a|a|a|a]; simpl in Ha.
  - by apply alloc_refines.
  - simpl. by destruct (free_refines a s Hwf Ha) as [? ->].
  - simpl. by destruct (ref_refines a s Hwf Ha) as [? ->].
  - by apply unref_refines.
  - simpl. split; [done|]. by rewrite refcount_refines.
Qed.

(** C1: Every sequence of frame operations (allocate, free, take a
    reference, drop a reference, read the count) run from a well-formed
    allocator keeps the allocator well formed - bitmap, counts and free
    counter agree - and returns exactly what the abstract map of
    reference-counted frames returns: the lowest free frame for an
    allocation, 0 when all are taken. *)
Theorem pmm_run_refines ops s :
  pmm_wf s -> Forall op_addr_ok ops ->
  pmm_wf (pmm_run ops s).2 /\
  spec_run (g_bitmap_bits s) ops (frames_of s) = ((pmm_run ops s).1, frames_of (pmm_run ops s).2).
Proof.
  intros Hwf Hops. revert s Hwf. induction Hops as [|op ops Hop _ IH]; intros s Hwf; simpl; [done|].
  destruct (pmm_exec_refines op s Hwf Hop) as [Hwf' ->].
  pose proof (pmm_exec_bits op s) as Hb. destruct (pmm_exec op s) as [r s']; simpl in *.
  destruct (IH s' Hwf') as [? Hsp]. rewrite <- Hb, Hsp. by destruct (pmm_run ops s').
Qed.

End PmmRefine.

(** ** Initialisation from the boot memory map *)

Module PmmInit.
Import Pmm PmmFacts FrameSpec PmmRefine.

(** The frames [[first, last)] a region contributes, as the source computes
    them. *)
Definition region_covers (reserved_end bits : Z) (e : multiboot_mmap_entry) (f : Z) : bool :=
  (me_type e =? MB_MMAP_TYPE_AVAILABLE) && negb (me_len e =? 0) &&
  (let st := u32 (me_addr e) in
   let t := u32 (u64 (me_addr e + me_len e)) in
   let fs := if st <? reserved_end then reserved_end else st in
   (fs <? t) && (addr_to_frame (ALIGN_UP fs PMM_FRAME_SIZE) <=? f) && (f <? addr_to_frame t)) &&
  (f <? bits).

(** What the loops leave alone. *)
Definition same_layout (s s' : pmm) : Prop :=
  g_bitmap_bits s' = g_bitmap_bits s /\ boot_alloc_ptr s' = boot_alloc_ptr s /\
  g_bitmap_ptr s' = g_bitmap_ptr s /\ g_refcounts_ptr s' = g_refcounts_ptr s.

#[export] Instance same_layout_preorder : PreOrder same_layout.
Proof. split; [done|]. unfold same_layout. intros x y z ??. destruct_and!. split_and!; congruence. Qed.

Definition no_refs (s : pmm) : Prop := forall j, 0 <= j < g_bitmap_bits s -> refcount s j = 0.

Lemma release_frame_spec f s :
  tables_ok s -> no_refs s -> 0 <= f < g_bitmap_bits s ->
  tables_ok (release_frame f s) /\ no_refs (release_frame f s) /\
  same_layout s (release_frame f s) /\
  forall j, 0 <= j -> used (release_frame f s) j = used s j && negb (j =? f).
Proof.
  intros Hok Hn Hf. rewrite release_frame_used by done. destruct (used s f) eqn:E.
  - destruct (freed_spec f s Hok Hf E) as (? & Hu & Hrc). split; [done|]. split; [|split; [done|]].
    + intros j Hj. simpl in Hj. rewrite Hrc, Hn by lia. by case_match.
    + intros j Hj. rewrite Hu by lia. by destruct (j =? f), (used s j).
  - split; [done|]. split; [done|]. split; [done|]. intros j Hj.
    destruct (Z.eqb_spec j f) as [->|]; simpl; [by rewrite E|by rewrite andb_true_r].
Qed.

Lemma unchanged_spec s (c : Z -> bool) :
  tables_ok s -> no_refs s -> (forall j, 0 <= j -> c j = false) ->
  tables_ok s /\ no_refs s /\ same_layout s s /\
  forall j, 0 <= j -> used s j = used s j && negb (c j).
Proof. intros ?? Hc. split_and!; try done. intros j Hj. by rewrite Hc, andb_true_r. Qed.

Lemma free_range_loop_spec n f s :
  tables_ok s -> no_refs s -> 0 <= f -> f + Z.of_nat n <= g_bitmap_bits s ->
  let s' := free_range_loop n f s in
  tables_ok s' /\ no_refs s' /\ same_layout s s' /\
  forall j, 0 <= j -> used s' j = used s j && negb ((f <=? j) && (j <? f + Z.of_nat n)).
Proof.
  revert f s. induction n as [|n IH]; intros f s Hok Hn Hf Hb; simpl.
  - apply unchanged_spec; [done|done|]. intros j Hj.
    lia.
  - destruct (release_frame_spec f s) as (H1 & H2 & H3 & H4); [done|done|lia|].
    destruct (IH (f + 1) (release_frame f s)) as (I1 & I2 & I3 & I4);
      [done|done|lia|destruct H3 as [-> _]; lia|].
    split; [done|]. split; [done|]. split; [by etrans|]. intros j Hj.
    rewrite I4, H4 by lia. destruct (used s j); lia.
Qed.

Lemma free_region_spec r e s :
  tables_ok s -> no_refs s -> 0 <= r ->
  let s' := free_region r s e in
  tables_ok s' /\ no_refs s' /\ same_layout s s' /\
  forall j, 0 <= j -> used s' j = used s j && negb (region_covers r (g_bitmap_bits s) e j).
Proof.
  intros Hok Hn Hr. unfold free_region, region_covers. cbv zeta.
  destruct ((me_type e =? MB_MMAP_TYPE_AVAILABLE) && negb (me_len e =? 0));
    [|by apply unchanged_spec].
  set (t := u32 (u64 _)). set (fs := if u32 (me_addr e) <? r then r else u32 (me_addr e)).
  assert (r <= fs) by (subst fs; destruct (Z.ltb_spec (u32 (me_addr e)) r); lia).
  destruct (Z.ltb_spec fs t) as [Hlt|Hge].
  2: { destruct (r <? t); by apply unchanged_spec. }
  rewrite (proj2 (Z.ltb_lt r t)) by lia.
  unfold bitmap_free_range. rewrite (proj2 (Z.leb_gt t fs)) by lia.
  set (first := addr_to_frame (ALIGN_UP fs PMM_FRAME_SIZE)). set (last := addr_to_frame t).
  assert (0 <= first) by apply addr_to_frame_range.
  assert (0 <= last) by apply addr_to_frame_range.
  set (last' := if g_bitmap_bits s <? last then g_bitmap_bits s else last).
  assert (last' = Z.min last (g_bitmap_bits s)) as Hl
    by (subst last'; destruct (Z.ltb_spec (g_bitmap_bits s) last); lia).
  destruct (decide (first <= last')) as [Hle|Hgt].
  - destruct (free_range_loop_spec (Z.to_nat (last' - first)) first s) as (? & ? & ? & Hu);
      [done|done|lia|destruct Hok; lia|].
    split_and!; try done. intros j Hj. rewrite Hu by lia. f_equal. f_equal.
    lia.
  - replace (Z.to_nat (last' - first)) with O by lia. apply unchanged_spec; [done|done|].
    intros j Hj. lia.
Qed.

Lemma free_regions_spec r es s :
  tables_ok s -> no_refs s -> 0 <= r ->
  let s' := fold_left (free_region r) es s in
  tables_ok s' /\ no_refs s' /\ same_layout s s' /\
  forall j, 0 <= j ->
    used s' j = used s j && negb (existsb (fun e => region_covers r (g_bitmap_bits s) e j) es).
Proof.
  revert s. induction es as [|e es IH]; intros s Hok Hn Hr; simpl.
  - split_and!; try done. intros. by rewrite andb_true_r.
  - destruct (free_region_spec r e s Hok Hn Hr) as (H1 & H2 & H3 & H4).
    destruct (IH _ H1 H2 Hr) as (I1 & I2 & I3 & I4).
    split_and!; try done; [by etrans|]. intros j Hj. rewrite I4, H4 by lia.
    destruct H3 as [-> _]. by rewrite negb_orb, andb_assoc.
Qed.

Lemma mark_used_loop_spec n i s :
  tables_ok s -> 0 <= i -> i + Z.of_nat n <= g_bitmap_bits s ->
  let s' := mark_used_loop n i s in
  tables_ok s' /\ same_layout s s' /\ g_bitmap s' = g_bitmap s /\
  forall j, 0 <= j ->
    refcount s' j = if (i <=? j) && (j <? i + Z.of_nat n) && used s j then 1 else refcount s j.
Proof.
  revert i s. induction n as [|n IH]; intros i s Hok Hi Hb; simpl.
  - split_and!; try done. intros j Hj.
    assert ((i <=? j) && (j <? i + Z.of_nat 0) = false) as -> by lia. done.
  - set (s1 := if BIT_TST _ _ then _ else _).
    assert (tables_ok s1 /\ same_layout s s1 /\ g_bitmap s1 = g_bitmap s /\
       forall j, 0 <= j -> refcount s1 j = if (j =? i) && used s j then 1 else refcount s j)
      as (H1 & H2 & H3 & H4).
    { subst s1. fold (used s i). destruct (used s i) eqn:E.
      - split_and!; try done; [auto with kernel|]. intros j Hj. rewrite refcount_put by (done || lia).
        destruct (Z.eqb_spec j i) as [->|]; simpl; [by rewrite E|done].
      - split_and!; try done. intros j Hj.
        destruct (Z.eqb_spec j i) as [->|]; simpl; [by rewrite E|done]. }
    destruct (IH (i + 1) s1) as (I1 & I2 & I3 & I4); [done|lia|destruct H2 as [-> _]; lia|].
    split_and!; [done|by etrans|congruence|]. intros j Hj. rewrite I4, H4 by lia.
    assert (used s1 j = used s j) as -> by (unfold used; by rewrite H3).
    destruct (used s j); [|by rewrite !andb_false_r].
    repeat match goal with |- context [if ?b then _ else _] => destruct b eqn:? end; lia || done.
Qed.

(** A frame that lies wholly inside an available region. *)
Definition frame_in_region (e : multiboot_mmap_entry) (f : Z) : Prop :=
  me_type e = MB_MMAP_TYPE_AVAILABLE /\
  me_addr e <= f * PMM_FRAME_SIZE /\ (f + 1) * PMM_FRAME_SIZE <= me_addr e + me_len e.

(** A region that counts as memory, and that such a region ends at least one
    frame below 4 GiB, so that none of the 32-bit truncations of the second
    pass loses bits. Other regions are unrestricted. *)
Definition is_memory (e : multiboot_mmap_entry) : Prop := me_type e = MB_MMAP_TYPE_AVAILABLE /\ me_len e <> 0.

Lemma ALIGN_UP_frame x :
  0 <= x -> x + 4096 <= 2 ^ 32 -> ALIGN_UP x 4096 = (x + 4095) / 4096 * 4096.
Proof. intros. apply (ALIGN_UP_pow2 x 12); lia. Qed.



(** Nothing that is freed reaches down to frame 0. *)
Lemma existsb_frame_0 es r bits :
  0 < r -> r + 4096 <= 2 ^ 32 ->
  Forall (fun e => is_memory e -> u32 (me_addr e) + 4096 <= 2 ^ 32) es ->
  existsb (fun e => region_covers r bits e 0) es = false.
Proof.
  intros Hr Hr'. induction 1 as [|e es He _ IH]; simpl; [done|]. rewrite IH, orb_false_r.
  pose proof (u32_range (me_addr e)). unfold region_covers, PMM_FRAME_SIZE. cbv zeta. unfold is_memory in He.
  destruct (Z.eqb_spec (me_type e) MB_MMAP_TYPE_AVAILABLE), (Z.eqb_spec (me_len e) 0); try done. specialize (He ltac:(by split)).
  set (fs := if _ : bool then _ else _).
  assert (0 < fs /\ fs + 4096 <= 2 ^ 32) as [? ?] by (subst fs; case_match; lia).
  rewrite ALIGN_UP_frame, addr_to_frame_eq, Z.div_mul by zlia. zlia.
Qed.

(** The boot-time placement of the two tables: after the kernel image and
    not overlapping. *)
Lemma boot_alloc_spec ptr bytes k :
  2 <= k <= 12 -> 0 <= ptr -> 0 <= bytes -> ptr + bytes + 2 ^ 13 <= 2 ^ 32 ->
  let '(p, ptr') := boot_alloc ptr bytes (2 ^ k) in
  ptr <= p < ptr + 2 ^ k /\ p + bytes <= ptr' < p + bytes + 4.
Proof.
  intros Hk Hp Hb Hs. unfold boot_alloc.
  assert (2 ^ 2 <= 2 ^ k <= 2 ^ 12) by (split; apply Z.pow_le_mono_r; lia).
  rewrite (proj2 (Z.ltb_ge (2 ^ k) 4)) by lia.
  destruct (ALIGN_UP_spec ptr k) as [H1 _]; [lia|lia|lia|].
  destruct (ALIGN_UP_spec bytes 2) as [H2 _]; [lia|lia|lia|]. change (2 ^ 2) with 4 in H2.
  rewrite u32_small by lia. lia.
Qed.


(** State right after the tables are placed and [memset]. *)
Lemma fresh_tables_ok bm rc bits ptr :
  bm <> 0 -> rc <> 0 -> 0 <= bits <= 0x8200 ->
  let s := mk_pmm bm (replicate (Z.to_nat ((bits + 31) / 32)) 0xFFFFFFFF)
                  rc (replicate (Z.to_nat bits) 0) bits 0 ptr in
  tables_ok s /\ no_refs s /\ forall f, 0 <= f < bits -> used s f = true.
Proof.
  intros Hbm Hrc Hb. simpl.
  assert (forall f, 0 <= f < bits ->
    BIT_TST (replicate (Z.to_nat ((bits + 31) / 32)) 0xFFFFFFFF) f = true) as Hu
    by (intros; apply BIT_TST_full; [lia|rewrite Z2Nat.id by zlia; zlia]).
  split_and!; [|intros j Hj; unfold refcount; simpl in *|exact Hu].
  - constructor; simpl; rewrite ?length_replicate; try done; try zlia.
    unfold free_bits. simpl. symmetry. apply countZ_none. intros i Hi.
    unfold used. simpl. rewrite Hu by lia. done.
  - apply lookup_total_replicate_2. lia.
Qed.



(** The whole of [pmm_initialize], whatever the map says about regions above
    4 GiB: only memory that starts in the last frame below a multiple of
    4 GiB, which would make [ALIGN_UP] wrap to 0, is excluded. *)
Lemma pmm_initialize_general kernel_end tag s :
  0 < kernel_end <= 2 ^ 31 -> MMAP_ENTRY_SIZE <= mmap_entry_size tag <= 128 ->
  0 < highest_addr (mmap_entries tag) ->
  Forall (fun e => is_memory e -> u32 (me_addr e) + 4096 <= 2 ^ 32) (mmap_entries tag) ->
  let s' := pmm_initialize kernel_end (Some tag) s in
  pmm_wf s' /\ kernel_end <= g_bitmap_ptr s' /\
  g_bitmap_ptr s' + 4 * Z.of_nat (length (g_bitmap s')) <= g_refcounts_ptr s' /\
  g_refcounts_ptr s' + 2 * g_bitmap_bits s' <= boot_alloc_ptr s' <= kernel_end + 0x16000 /\
  g_bitmap_bits s' = (Z.min PMM_LIMIT (highest_addr (mmap_entries tag)) + 4095) / 4096 /\
  forall f, 0 <= f < g_bitmap_bits s' ->
    used s' f = negb (existsb (fun e => region_covers (boot_alloc_ptr s') (g_bitmap_bits s') e f)
                        (mmap_entries tag)).
Proof.
  intros Hk Hes Hhigh Hreg. unfold pmm_initialize. zbool. simpl orb. cbv iota.
  set (high := if PMM_LIMIT <? _ then _ else _).
  assert (high = Z.min PMM_LIMIT (highest_addr (mmap_entries tag))) as Hh
    by (subst high; destruct (Z.ltb_spec PMM_LIMIT (highest_addr (mmap_entries tag))); lia).
  rewrite <- Hh. set (bits := u32 _). unfold PMM_FRAME_SIZE, PMM_LIMIT in *.
  assert (bits = (high + 4095) / 4096) as Hb by (subst bits; rewrite u32_small; zlia).
  assert (0 < bits <= 0x8200) as Hbits by zlia.
  unfold boot_alloc_init, PMM_FRAME_SIZE.
  destruct (ALIGN_UP_spec kernel_end 12) as [Hal _]; [lia|lia|lia|]. change (2 ^ 12) with 4096 in Hal.
  pose proof (boot_alloc_spec (ALIGN_UP kernel_end 4096) ((bits + 31) / 32 * 4) 12) as B1.
  change (2 ^ 12) with 4096 in B1. destruct (boot_alloc _ _ 4096) as [bm ptr1].
  destruct B1 as [B1 B1']; [lia|lia|zlia|zlia|]. rewrite (proj2 (Z.eqb_neq bm 0)) by lia.
  pose proof (boot_alloc_spec ptr1 (bits * 2) 2) as B2.
  change (2 ^ 2) with 4 in B2. destruct (boot_alloc ptr1 _ 4) as [rc ptr2].
  destruct B2 as [B2 B2']; [lia|zlia|lia|zlia|]. rewrite (proj2 (Z.eqb_neq rc 0)) by zlia.
  destruct (fresh_tables_ok bm rc bits ptr2) as (F1 & F2 & F3); [lia|zlia|lia|].
  destruct (free_regions_spec ptr2 (mmap_entries tag) _ F1 F2 ltac:(zlia))
    as (R1 & R2 & (R3 & R3' & P1 & P2) & R4).
  set (s1 := fold_left _ _ _) in *. simpl in R3, R3', P1, P2, R4.
  assert (reserve_frame_0 s1 = s1) as ->.
  { unfold reserve_frame_0. fold (used s1 0).
    rewrite R4, F3 by lia. rewrite existsb_frame_0 by (done || zlia). by rewrite andb_false_r. }
  destruct (mark_used_loop_spec (Z.to_nat bits) 0 s1) as (M1 & (M2 & M2' & P3 & P4) & M3 & M4);
    [done|lia|lia|].
  set (s2 := mark_used_loop _ _ _) in *. pose proof M1 as [_ _ _ W _ _].
  assert (forall f, used s2 f = used s1 f) as Hus by (intros; unfold used; by rewrite M3).
  rewrite P3, P4, M2, M2', P1, P2, R3, R3' in *. split_and!; try lia; try zlia.
  - constructor; [done|..]; rewrite M2; intros f Hf; rewrite Hus, M4 by lia;
      intros Hu; rewrite Hu.
    + rewrite andb_true_r. zbool. simpl. lia.
    + rewrite andb_false_r. apply R2. lia.
  - intros f Hf. by rewrite Hus, R4, F3 by lia.
Qed.


(** ** Witnesses *)

(** A map with 3 MiB of RAM at 1 MiB, and the reserved region of a firmware
    that ends at 4 GiB. *)
Definition mmap_entry_bytes (addr len ty : Z) : list Z :=
  le_split 8 addr ++ le_split 8 len ++ le_split 4 ty ++ le_split 4 0.





(** Three frames: the first in use, two free. *)
Definition small_state : pmm := mk_pmm 0x1000 [0xFFFFFFF9] 0x2000 [1; 0; 0] 3 2 0x3000.

Lemma small_state_wf : pmm_wf small_state.
Proof.
  assert (forall f, 0 <= f < 3 -> f = 0 \/ f = 1 \/ f = 2) as Hc by lia.
  constructor; [constructor; simpl; lia || reflexivity|..]; simpl; intros f Hf;
    destruct (Hc f Hf) as [->|[->| ->]]; vm_compute; intuition congruence.
Qed.

Lemma pmm_run_refines_witness :
  (spec_run 3 [OpAlloc; OpRef 0x1000; OpUnref 0x1000; OpUnref 0x1000; OpAlloc; OpAlloc; OpAlloc]
     (frames_of small_state)).1 = [0x1000; 0; 0; 0; 0x1000; 0x2000; 0].
Proof.
  destruct (pmm_run_refines
    [OpAlloc; OpRef 0x1000; OpUnref 0x1000; OpUnref 0x1000; OpAlloc; OpAlloc; OpAlloc]
    small_state small_state_wf ltac:(repeat constructor; simpl; lia)) as [_ H].
  change 3 with (g_bitmap_bits small_state). rewrite H. vm_compute. reflexivity.
Defined.

(** The second pass keeps only the low 32 bits of region addresses. With
    64 MiB of RAM described at 4 GiB and nothing else, the frames between
    the kernel's tables and 64 MiB are marked free although no region of the
    map contains them. *)
Theorem pmm_initialize_truncates_high_regions f :
  let tag := {| mmap_size := 40; mmap_entry_size := 24;
                mmap_data := mmap_entry_bytes (2 ^ 32) 0x4000000 1 |} in
  let s := pmm_initialize 0x123456 (Some tag) pmm_boot in
  0x140 <= f < 0x4000 ->
  used s f = false /\ Forall (fun e => ~ frame_in_region e f) (mmap_entries tag).
Proof.
  intros tag s Hf.
  assert (mmap_entries tag = [ {| me_addr := 2 ^ 32; me_len := 0x4000000; me_type := 1 |} ]) as He
    by (vm_compute; reflexivity).
  assert (highest_addr (mmap_entries tag) = 2 ^ 32 + 0x4000000) as Hh by (vm_compute; reflexivity).
  destruct (pmm_initialize_general 0x123456 tag pmm_boot) as (_ & _ & _ & Hp & Hb & Hu);
    [lia|vm_compute; intuition congruence|lia|rewrite He; repeat constructor; vm_compute; congruence|].
  fold s in Hp, Hb, Hu. rewrite Hh in Hb. change (_ / 4096) with 0x8200 in Hb.
  clearbody s. rewrite Hb in *. rewrite He. split.
  - rewrite Hu, He by lia. cbn [existsb]. rewrite orb_false_r.
    unfold region_covers. cbn [me_type me_len me_addr]. cbv zeta.
    change (u32 (2 ^ 32)) with 0. change (u32 (u64 (2 ^ 32 + 0x4000000))) with 0x4000000.
    unfold PMM_FRAME_SIZE, MB_MMAP_TYPE_AVAILABLE. set (fs := if _ : bool then _ else _).
    assert (0 <= fs <= 0x123456 + 0x16000) as Hfs by (subst fs; case_match; lia).
    rewrite ALIGN_UP_frame, !addr_to_frame_eq, Z.div_mul by zlia. zlia.
  - repeat constructor. unfold frame_in_region, PMM_FRAME_SIZE. simpl. lia.
Qed.

Lemma pmm_initialize_truncates_high_regions_witness :
  used (pmm_initialize 0x123456
    (Some {| mmap_size := 40; mmap_entry_size := 24;
             mmap_data := mmap_entry_bytes (2 ^ 32) 0x4000000 1 |}) pmm_boot) 0x200 = false.
Proof. exact (proj1 (pmm_initialize_truncates_high_regions 0x200 ltac:(lia))). Defined.

End PmmInit.
