(* ===== verification/Mem.v ===== *)
(** * Byte-addressed memory

    A flat store from addresses to bytes, with the 32-bit little-endian
    loads and stores of the target (i386) and the byte loops of [memset] and
    [memcpy]. Components that reach into raw memory through casts (the
    kernel heap, the user heap) are modelled over it. *)

From S2P Require Import Prelude.

Module Mem.

Abbreviation mem := (gmap Z Z).

Definition ld8 (m : mem) (a : Z) : Z := u8 (default 0 (m !! a)).
Definition st8 (m : mem) (a v : Z) : mem := <[a := u8 v]> m.

Definition ld32 (m : mem) (a : Z) : Z :=
  ld8 m a + 256 * (ld8 m (a + 1) + 256 * (ld8 m (a + 2) + 256 * ld8 m (a + 3))).
Definition st32 (m : mem) (a v : Z) : mem :=
  st8 (st8 (st8 (st8 m a v) (a + 1) (v / 2 ^ 8)) (a + 2) (v / 2 ^ 16)) (a + 3) (v / 2 ^ 24).

(** [memset(p, v, n)] and [memcpy(d, s, n)] (libc/string), byte by byte in
    increasing address order. *)
Fixpoint memset (m : mem) (p v : Z) (n : nat) : mem :=
  match n with
  | O => m
  | S n => memset (st8 m p v) (p + 1) v n
  end.

Fixpoint memcpy (m : mem) (d s : Z) (n : nat) : mem :=
  match n with
  | O => m
  | S n => memcpy (st8 m d (ld8 m s)) (d + 1) (s + 1) n
  end.

#[global] Arguments ld8 : simpl never.
#[global] Arguments st8 : simpl never.
#[global] Arguments ld32 : simpl never.
#[global] Arguments st32 : simpl never.

Lemma ld8_st8 m a v b : ld8 (st8 m a v) b = if decide (a = b) then u8 v else ld8 m b.
Proof. unfold ld8, st8. rewrite lookup_insert. case_decide; [apply u8_u8|done]. Qed.

Lemma ld8_st8_eq m a v : ld8 (st8 m a v) a = u8 v.
Proof. rewrite ld8_st8. by case_decide. Qed.
Lemma ld8_st8_ne m a v b : a <> b -> ld8 (st8 m a v) b = ld8 m b.
Proof. intros. rewrite ld8_st8. by case_decide. Qed.

Lemma ld8_byte m a : 0 <= ld8 m a < 256.
Proof. apply u8_range. Qed.

Lemma ld8_st32_ne m a v b : b < a \/ a + 4 <= b -> ld8 (st32 m a v) b = ld8 m b.
Proof. intros. unfold st32. by rewrite !ld8_st8_ne by lia. Qed.

Lemma ld32_st32_eq m a v : 0 <= v < 2 ^ 32 -> ld32 (st32 m a v) a = v.
Proof.
  intros Hv. unfold ld32, st32. rewrite !ld8_st8. repeat case_decide; try lia.
  unfold u8. zlia.
Qed.

Lemma ld32_st32_ne m a v b : b + 4 <= a \/ a + 4 <= b -> ld32 (st32 m a v) b = ld32 m b.
Proof. intros. unfold ld32. by rewrite !ld8_st32_ne by lia. Qed.

(** Resolve loads through stores by address arithmetic. *)
Ltac ldst := repeat first [rewrite ld32_st32_eq by lia | rewrite ld32_st32_ne by lia].

Lemma ld8_memset_ne m p v n b :
  b < p \/ p + Z.of_nat n <= b -> ld8 (memset m p v n) b = ld8 m b.
Proof.
  revert m p. induction n as [|n IH]; intros m p H; simpl; [done|].
  rewrite IH by lia. apply ld8_st8_ne. lia.
Qed.

Lemma ld8_memset_in m p v n b :
  p <= b < p + Z.of_nat n -> ld8 (memset m p v n) b = u8 v.
Proof.
  revert m p. induction n as [|n IH]; intros m p H; simpl; [lia|].
  destruct (decide (b = p)) as [->|].
  - rewrite ld8_memset_ne by lia. apply ld8_st8_eq.
  - apply IH. lia.
Qed.

Lemma ld8_memcpy_ne m d s n b :
  b < d \/ d + Z.of_nat n <= b -> ld8 (memcpy m d s n) b = ld8 m b.
Proof.
  revert m d s. induction n as [|n IH]; intros m d s H; simpl; [done|].
  rewrite IH by lia. apply ld8_st8_ne. lia.
Qed.

(** On disjoint ranges the destination receives the source. *)
Lemma ld8_memcpy_in m d s n b :
  d + Z.of_nat n <= s \/ s + Z.of_nat n <= d ->
  d <= b < d + Z.of_nat n -> ld8 (memcpy m d s n) b = ld8 m (s + (b - d)).
Proof.
  revert m d s. induction n as [|n IH]; intros m d s H Hb; simpl; [lia|].
  destruct (decide (b = d)) as [->|].
  - rewrite ld8_memcpy_ne, ld8_st8_eq, Z.sub_diag, Z.add_0_r by lia.
    apply u8_small, ld8_byte.
  - rewrite IH by lia.
    rewrite ld8_st8_ne by lia. f_equal. lia.
Qed.

(** Two memories that agree on a range of bytes. *)
Definition agree (lo hi : Z) (m m' : mem) : Prop :=
  forall a, lo <= a < hi -> ld8 m' a = ld8 m a.

Lemma agree_ld32 lo hi m m' a :
  agree lo hi m m' -> lo <= a -> a + 4 <= hi -> ld32 m' a = ld32 m a.
Proof. intros H Hl Hh. unfold ld32. by rewrite !H by lia. Qed.

#[export] Instance agree_preorder lo hi : PreOrder (agree lo hi).
Proof. split; [by intros m a|]. intros x y z H1 H2 a Ha. by rewrite H2, H1. Qed.

Lemma agree_st32 lo hi m a v : a + 4 <= lo \/ hi <= a -> agree lo hi m (st32 m a v).
Proof. intros H b Hb. apply ld8_st32_ne. lia. Qed.

#[export] Hint Resolve agree_st32 ld8_byte : kernel.

End Mem.
