(* ===== verification/Kheap.v ===== *)
(** * Kernel heap ([kernel/kheap.c])

    Boundary-tag allocator over raw memory: every block is
    [header | payload | footer], header and footer hold the block size with
    the allocation flag in bit 0, and the payload of a free block holds the
    [prev]/[next] pointers of a doubly linked free list. [Module Kheap] is
    the code; [Module KheapRep] relates a memory to the list of blocks it
    represents and proves that every operation acts on that list.

    Pointers are addresses ([0] = [NULL]); [size_t] arithmetic wraps at 32
    bits, pointer arithmetic inside the heap does not wrap (the heap ends
    below 4 GiB). *)

From S2P Require Import Prelude Mem.

Module Kheap.
Import Mem.

Definition SIZEOF_HEADER : Z := 4.
Definition SIZEOF_FOOTER : Z := 4.
Definition SIZEOF_FREE_NODE : Z := 8.

Definition ALIGN8 (x : Z) : Z := ALIGN_UP x 8.
Definition MIN_BLOCK_SIZE : Z := ALIGN8 (SIZEOF_HEADER + SIZEOF_FOOTER + SIZEOF_FREE_NODE).

Definition clear_flag (w : Z) : Z := Z.land w (Z.lnot 1).

Definition blk_size (m : mem) (h : Z) : Z := clear_flag (ld32 m h).
Definition blk_alloc (m : mem) (h : Z) : bool := negb (Z.land (ld32 m h) 1 =? 0).
Definition set_free (m : mem) (h : Z) : mem := st32 m h (clear_flag (ld32 m h)).

Definition blk_footer (m : mem) (h : Z) : Z := h + blk_size m h - SIZEOF_FOOTER.
Definition blk_next (m : mem) (h heap_end : Z) : Z :=
  let n := h + blk_size m h in
  if heap_end <=? n then 0 else n.
Definition blk_prev (m : mem) (h heap_base : Z) : Z :=
  if h <=? heap_base then 0
  else
    let pf := h - SIZEOF_FOOTER in
    if pf <? heap_base then 0
    else
      let psz := clear_flag (ld32 m pf) in
      let p := h - psz in
      if p <? heap_base then 0 else p.

Definition hdr_to_node (h : Z) : Z := h + SIZEOF_HEADER.
Definition node_to_hdr (n : Z) : Z := n - SIZEOF_HEADER.

(** [free_node_t]: [prev] at offset 0, [next] at offset 4. *)
Definition node_prev (m : mem) (n : Z) : Z := ld32 m n.
Definition node_next (m : mem) (n : Z) : Z := ld32 m (n + 4).
Definition set_node_prev (m : mem) (n v : Z) : mem := st32 m n v.
Definition set_node_next (m : mem) (n v : Z) : mem := st32 m (n + 4) v.

(** The allocator's variables, the memory it manages, and the interrupt
    flag its critical sections toggle. *)
Record kheap := mk_kheap {
  memory : mem;
  g_heap_base : Z;
  g_heap_end : Z;
  g_free_head : Z;
  g_initialized : bool;
  interrupts : bool;
}.

Definition with_mem (m : mem) (s : kheap) : kheap :=
  mk_kheap m (g_heap_base s) (g_heap_end s) (g_free_head s) (g_initialized s) (interrupts s).
Definition with_head (hd : Z) (s : kheap) : kheap :=
  mk_kheap (memory s) (g_heap_base s) (g_heap_end s) hd (g_initialized s) (interrupts s).
Definition with_irq (b : bool) (s : kheap) : kheap :=
  mk_kheap (memory s) (g_heap_base s) (g_heap_end s) (g_free_head s) (g_initialized s) b.

Definition free_list_insert (h : Z) (s : kheap) : kheap :=
  let m := set_free (memory s) h in
  let m := st32 m (blk_footer m h) (ld32 m h) in
  let node := hdr_to_node h in
  let m := set_node_prev m node 0 in
  let m := set_node_next m node (g_free_head s) in
  let m := if g_free_head s =? 0 then m else set_node_prev m (g_free_head s) node in
  with_head node (with_mem m s).

Definition free_list_remove (h : Z) (s : kheap) : kheap :=
  let m := memory s in
  let node := hdr_to_node h in
  let s := if node_prev m node =? 0 then with_head (node_next m node) s
           else with_mem (set_node_next m (node_prev m node) (node_next m node)) s in
  let m := memory s in
  if node_next m node =? 0 then s
  else with_mem (set_node_prev m (node_next m node) (node_prev m node)) s.

(** The scan of [find_fit] from node [cur]; the fuel is the number of nodes
    a heap of this size can hold (see [find_fit_fuel]). *)
Fixpoint find_fit_from (fuel : nat) (m : mem) (cur total : Z) : Z :=
  match fuel with
  | O => 0
  | S fuel =>
      if cur =? 0 then 0
      else
        let h := node_to_hdr cur in
        if negb (blk_alloc m h) && (total <=? blk_size m h) then h
        else find_fit_from fuel m (node_next m cur) total
  end.

Definition find_fit_fuel (s : kheap) : nat :=
  S (Z.to_nat ((g_heap_end s - g_heap_base s) / 16)).

Definition find_fit (total : Z) (s : kheap) : Z :=
  find_fit_from (find_fit_fuel s) (memory s) (g_free_head s) total.

(** Rewrite the tags of the block at [h] for the merged size. *)
Definition write_merged (h new_sz : Z) (s : kheap) : kheap :=
  let m := st32 (memory s) h (clear_flag new_sz) in
  with_mem (st32 m (blk_footer m h) (ld32 m h)) s.

(** First half of [coalesce_neighbors]: merge with the next block if free. *)
Definition merge_next (h : Z) (s : kheap) : kheap :=
  let n := blk_next (memory s) h (g_heap_end s) in
  if negb (n =? 0) && negb (blk_alloc (memory s) n) then
    let s := free_list_remove n s in
    write_merged h (u32 (blk_size (memory s) h + blk_size (memory s) n)) s
  else s.

(** Second half: merge with the previous block if free. *)
Definition merge_prev (h : Z) (s : kheap) : Z * kheap :=
  let p := blk_prev (memory s) h (g_heap_base s) in
  if negb (p =? 0) && negb (blk_alloc (memory s) p) then
    let s := free_list_remove p s in
    (p, write_merged p (u32 (blk_size (memory s) p + blk_size (memory s) h)) s)
  else (h, s).

Definition coalesce_neighbors (h : Z) (s : kheap) : Z * kheap := merge_prev h (merge_next h s).

(** The region paging.c maps for the heap. *)
Definition paging_heap_base : Z := 0x40000000.
Definition paging_heap_size : Z := 4 * 1024 * 1024.

Definition kheap_initialize (s : kheap) : kheap :=
  if g_initialized s then s
  else
    let base := paging_heap_base in
    let end_ := u32 (base + paging_heap_size) in
    let total := ALIGN8 (u32 (end_ - base)) in
    let m := st32 (memory s) base (clear_flag total) in
    let m := st32 m (blk_footer m base) (ld32 m base) in
    let s := free_list_insert base (mk_kheap m base end_ 0 (g_initialized s) (interrupts s)) in
    mk_kheap (memory s) (g_heap_base s) (g_heap_end s) (g_free_head s) true (interrupts s).

(** The total block size [kmalloc] asks for. *)
Definition alloc_total (size : Z) : Z :=
  let need := ALIGN8 size in
  let total := u32 (need + SIZEOF_HEADER + SIZEOF_FOOTER) in
  if total <? MIN_BLOCK_SIZE then MIN_BLOCK_SIZE else total.

Definition kmalloc (size : Z) (s : kheap) : Z * kheap :=
  if size =? 0 then (0, s)
  else
    let s := if g_initialized s then s else kheap_initialize s in
    let total := alloc_total size in
    let s := with_irq false s in
    let h := find_fit total s in
    if h =? 0 then (0, with_irq true s)
    else
      let s := free_list_remove h s in
      let cur_sz := blk_size (memory s) h in
      let rem := if total <? cur_sz then cur_sz - total else 0 in
      let s :=
        if MIN_BLOCK_SIZE <=? rem then
          let m := st32 (memory s) h (Z.lor total 1) in
          let m := st32 m (blk_footer m h) (ld32 m h) in
          let rem_h := h + total in
          let m := st32 m rem_h (clear_flag rem) in
          let m := st32 m (blk_footer m rem_h) (ld32 m rem_h) in
          free_list_insert rem_h (with_mem m s)
        else
          let m := st32 (memory s) h (Z.lor (ld32 (memory s) h) 1) in
          with_mem (st32 m (blk_footer m h) (ld32 m h)) s in
      (h + SIZEOF_HEADER, with_irq true s).

Definition kfree (ptr : Z) (s : kheap) : kheap :=
  if ptr =? 0 then s
  else if negb (g_initialized s) then s
  else
    let h := ptr - SIZEOF_HEADER in
    let s := with_irq false s in
    let m := set_free (memory s) h in
    let s := with_mem (st32 m (blk_footer m h) (ld32 m h)) s in
    let '(h, s) := coalesce_neighbors h s in
    with_irq true (free_list_insert h s).

Definition kcalloc (nmemb size : Z) (s : kheap) : Z * kheap :=
  if negb (nmemb =? 0) && ((2 ^ 32 - 1) / nmemb <? size) then (0, s)
  else
    let total := u32 (nmemb * size) in
    let '(p, s) := kmalloc total s in
    if p =? 0 then (p, s) else (p, with_mem (memset (memory s) p 0 (Z.to_nat total)) s).

Definition krealloc (ptr new_size : Z) (s : kheap) : Z * kheap :=
  if ptr =? 0 then kmalloc new_size s
  else if new_size =? 0 then (0, kfree ptr s)
  else
    let h := ptr - SIZEOF_HEADER in
    let old_payload := u32 (blk_size (memory s) h - SIZEOF_HEADER - SIZEOF_FOOTER) in
    if new_size <=? old_payload then (ptr, s)
    else
      let '(np, s) := kmalloc new_size s in
      if np =? 0 then (0, s)
      else
        let s := with_mem (memcpy (memory s) np ptr (Z.to_nat old_payload)) s in
        (np, kfree ptr s).

Fixpoint free_bytes_from (fuel : nat) (m : mem) (cur sum : Z) : Z :=
  match fuel with
  | O => sum
  | S fuel =>
      if cur =? 0 then sum
      else free_bytes_from fuel m (node_next m cur) (u32 (sum + blk_size m (node_to_hdr cur)))
  end.

Definition kheap_free_bytes (s : kheap) : Z :=
  free_bytes_from (find_fit_fuel s) (memory s) (g_free_head s) 0.

(** libc/stdlib/malloc.c: the kernel's [malloc] family is the heap's. *)
Definition malloc := kmalloc.
Definition free := kfree.
Definition calloc := kcalloc.
Definition realloc := krealloc.

End Kheap.

Module KheapRep.
Import Mem Kheap.

(** ** Blocks and their layout *)

(** A block is its size and its allocation flag. *)
Abbreviation block := (Z * bool)%type.

Definition tag (b : block) : Z := b.1 + Z.b2z b.2.
Definition block_ok (b : block) : Prop := 16 <= b.1 /\ b.1 mod 8 = 0.

Definition span (bs : list block) : Z := foldr (fun b n => b.1 + n) 0 bs.

(** The addresses of consecutive blocks starting at [a]. *)
Fixpoint layout (a : Z) (bs : list block) : list (Z * block) :=
  match bs with
  | [] => []
  | b :: bs => (a, b) :: layout (a + b.1) bs
  end.

Definition free_hdrs (a : Z) (bs : list block) : list Z :=
  fst <$> filter (fun x : Z * block => x.2.2 = false) (layout a bs).

Definition tags_at (m : mem) (x : Z * block) : Prop :=
  ld32 m x.1 = tag x.2 /\ ld32 m (x.1 + x.2.1 - 4) = tag x.2.

Definition tagged (m : mem) (a : Z) (bs : list block) : Prop :=
  Forall block_ok bs /\ Forall (tags_at m) (layout a bs).

Lemma span_app xs ys : span (xs ++ ys) = span xs + span ys.
Proof. induction xs as [|x xs IH]; simpl; [done|]. rewrite IH. lia. Qed.

Lemma span_nonneg bs : Forall block_ok bs -> 0 <= span bs.
Proof. induction 1 as [|b bs [? _] _ IH]; simpl; lia. Qed.

Lemma layout_app a xs ys : layout a (xs ++ ys) = layout a xs ++ layout (a + span xs) ys.
Proof.
  revert a; induction xs as [|x xs IH]; intros a; simpl; [by rewrite Z.add_0_r|].
  rewrite IH. do 3 f_equal. lia.
Qed.

Lemma free_hdrs_app a xs ys : free_hdrs a (xs ++ ys) = free_hdrs a xs ++ free_hdrs (a + span xs) ys.
Proof. unfold free_hdrs. by rewrite layout_app, filter_app, fmap_app. Qed.

Lemma free_hdrs_cons a b bs :
  free_hdrs a (b :: bs) = (if b.2 then [] else [a]) ++ free_hdrs (a + b.1) bs.
Proof. unfold free_hdrs. simpl. rewrite filter_cons. by destruct b as [? []]. Qed.

Lemma elem_of_free_hdrs a bs h :
  h ∈ free_hdrs a bs <-> exists sz, (h, (sz, false)) ∈ layout a bs.
Proof.
  unfold free_hdrs. rewrite list_elem_of_fmap. setoid_rewrite list_elem_of_filter. split.
  - intros ([? [? ?]] & -> & ? & ?); simpl in *; subst. eauto.
  - intros [sz Hin]. exists (h, (sz, false)). done.
Qed.

Lemma layout_block_ok a bs x : Forall block_ok bs -> x ∈ layout a bs -> block_ok x.2.
Proof.
  intros H. revert a. induction H as [|b bs Hb _ IH]; intros a; simpl; [by intros ?%elem_of_nil|].
  intros [->|Hx]%elem_of_cons; [done|eauto].
Qed.

(** Blocks stay inside the region and do not overlap. *)
Lemma layout_bounds a bs x :
  Forall block_ok bs -> x ∈ layout a bs -> a <= x.1 /\ x.1 + x.2.1 <= a + span bs.
Proof.
  intros H. revert a. induction H as [|b bs [Hb _] Hbs IH]; intros a; simpl; [by intros ?%elem_of_nil|].
  pose proof (span_nonneg _ Hbs).
  intros [->|Hx]%elem_of_cons; simpl; [lia|]. apply IH in Hx. lia.
Qed.

Lemma layout_disjoint a bs x y :
  Forall block_ok bs -> x ∈ layout a bs -> y ∈ layout a bs ->
  x = y \/ x.1 + x.2.1 <= y.1 \/ y.1 + y.2.1 <= x.1.
Proof.
  intros H. revert a. induction H as [|b bs [Hb _] Hbs IH]; intros a; simpl; [by intros ?%elem_of_nil|].
  intros [->|Hx]%elem_of_cons [->|Hy]%elem_of_cons; simpl; [by left|..|eauto].
  - apply layout_bounds in Hy; [|done]. right; left; lia.
  - apply layout_bounds in Hx; [|done]. right; right; lia.
Qed.

Lemma layout_addr_inj a bs x y :
  Forall block_ok bs -> x ∈ layout a bs -> y ∈ layout a bs -> x.1 = y.1 -> x = y.
Proof.
  intros H Hx Hy He. destruct (layout_disjoint a bs x y H Hx Hy) as [?|Hd]; [done|].
  apply layout_block_ok in Hx as [? _]; [|done]. apply layout_block_ok in Hy as [? _]; [|done]. lia.
Qed.

Lemma free_hdrs_NoDup a bs : Forall block_ok bs -> NoDup (free_hdrs a bs).
Proof.
  intros H. revert a. induction H as [|b bs [Hb Hb'] Hbs IH]; intros a; [constructor|].
  rewrite free_hdrs_cons. destruct b.2; simpl; [done|]. constructor; [|done].
  rewrite elem_of_free_hdrs. intros [sz Hin%layout_bounds]; [simpl in *; lia|done].
Qed.

(** ** Word-level facts about tags *)

Lemma clear_flag_eq w : clear_flag w = w / 2 * 2.
Proof. apply (land_lnot_ones w 1). lia. Qed.

Lemma clear_flag_tag b : block_ok b -> clear_flag (tag b) = b.1.
Proof. intros [_ H]. rewrite clear_flag_eq. unfold tag. destruct b as [sz []]; simpl in *; zlia. Qed.

Lemma clear_flag_even w : w mod 8 = 0 -> clear_flag w = w.
Proof. intros. rewrite clear_flag_eq. zlia. Qed.

Lemma land_1 w : Z.land w 1 = w mod 2.
Proof. apply (Z.land_ones w 1). lia. Qed.

Lemma flag_tag b : block_ok b -> negb (Z.land (tag b) 1 =? 0) = b.2.
Proof.
  intros [_ H]. rewrite land_1. unfold tag.
  destruct b as [sz []]; simpl in *; [rewrite (proj2 (Z.eqb_neq _ _))|rewrite (proj2 (Z.eqb_eq _ _))]; zlia.
Qed.

Lemma lor_1_even w : w mod 8 = 0 -> Z.lor w 1 = w + 1.
Proof.
  intros H. rewrite Z.add_nocarry_lxor; [symmetry; apply Z.lxor_lor|]; rewrite land_1; zlia.
Qed.

Lemma tags_at_size m x : tags_at m x -> block_ok x.2 -> blk_size m x.1 = x.2.1.
Proof. intros [H _] Hok. unfold blk_size. by rewrite H, clear_flag_tag. Qed.
Lemma tags_at_alloc m x : tags_at m x -> block_ok x.2 -> blk_alloc m x.1 = x.2.2.
Proof. intros [H _] Hok. unfold blk_alloc. by rewrite H, flag_tag. Qed.

(** ** Changes confined to a set of addresses *)

Definition only (R : Z -> Prop) (m m' : mem) : Prop := forall a, ~ R a -> ld8 m' a = ld8 m a.

#[export] Instance only_preorder R : PreOrder (only R).
Proof. split; [done|]. intros x y z H1 H2 a Ha. by rewrite H2, H1. Qed.

Lemma only_st32 (R : Z -> Prop) m a v : (forall b, a <= b < a + 4 -> R b) -> only R m (st32 m a v).
Proof. intros H b Hb. apply ld8_st32_ne. destruct (decide (a <= b < a + 4)); [exfalso; eauto|lia]. Qed.

Lemma only_weaken (R R' : Z -> Prop) m m' : (forall a, R a -> R' a) -> only R m m' -> only R' m m'.
Proof. intros H Ho a Ha. apply Ho. eauto. Qed.

Lemma only_ld32 R m m' a : only R m m' -> (forall b, a <= b < a + 4 -> ~ R b) -> ld32 m' a = ld32 m a.
Proof. intros Ho H. unfold ld32. by rewrite !Ho by (apply H; lia). Qed.

Definition in_blk (x : Z * block) (a : Z) : Prop := x.1 <= a < x.1 + x.2.1.

(** Tags survive changes that avoid the tag words. *)
Lemma tags_at_only R m m' x :
  only R m m' -> block_ok x.2 ->
  (forall a, in_blk x a -> R a -> x.1 + 4 <= a < x.1 + x.2.1 - 4) ->
  tags_at m x -> tags_at m' x.
Proof.
  intros Ho [? _] HR [H1 H2]. split.
  - rewrite (only_ld32 R m); [done..|]. intros b Hb Rb.
    specialize (HR b ltac:(unfold in_blk; lia) Rb). lia.
  - rewrite (only_ld32 R m); [done..|]. intros b Hb Rb.
    specialize (HR b ltac:(unfold in_blk; lia) Rb). lia.
Qed.

Lemma tagged_only R m m' a bs :
  only R m m' ->
  (forall x b, x ∈ layout a bs -> in_blk x b -> R b -> x.1 + 4 <= b < x.1 + x.2.1 - 4) ->
  tagged m a bs -> tagged m' a bs.
Proof.
  intros Ho HR [Hok Ht]. split; [done|]. rewrite Forall_forall in Ht |- *. intros x Hx.
  eapply tags_at_only; [done|by eapply layout_block_ok|eauto|eauto].
Qed.

(** ** The doubly linked free list *)

Definition first_node (L : list Z) (n : Z) : Z :=
  match L with [] => n | h :: _ => hdr_to_node h end.
Fixpoint last_node (p : Z) (L : list Z) : Z :=
  match L with [] => p | h :: L => last_node (hdr_to_node h) L end.

Fixpoint links (m : mem) (p : Z) (L : list Z) (n : Z) : Prop :=
  match L with
  | [] => True
  | h :: L =>
      node_prev m (hdr_to_node h) = p /\ node_next m (hdr_to_node h) = first_node L n /\
      links m (hdr_to_node h) L n
  end.

Definition free_list (m : mem) (head : Z) (L : list Z) : Prop :=
  head = first_node L 0 /\ links m 0 L 0.

(** The link words of the nodes of [L]. *)
Definition link_words (L : list Z) (a : Z) : Prop := exists h, h ∈ L /\ h + 4 <= a < h + 12.

(** Distinct nodes do not overlap; node addresses are 32-bit and not null. *)
Record separated (L : list Z) : Prop := {
  sep_nodup : NoDup L;
  sep_apart : forall x y, x ∈ L -> y ∈ L -> x = y \/ x + 16 <= y \/ y + 16 <= x;
  sep_range : forall x, x ∈ L -> 0 < x /\ x + 16 <= 2 ^ 32;
}.

Lemma last_node_snoc p L x : last_node p (L ++ [x]) = hdr_to_node x.
Proof. revert p; induction L; intros p; simpl; auto. Qed.

Lemma links_app m p L1 L2 n :
  links m p (L1 ++ L2) n <-> links m p L1 (first_node L2 n) /\ links m (last_node p L1) L2 n.
Proof.
  revert p; induction L1 as [|h L1 IH]; intros p; simpl; [tauto|]. rewrite IH.
  assert (first_node (L1 ++ L2) n = first_node L1 (first_node L2 n)) as -> by (by destruct L1). tauto.
Qed.

Lemma links_only R m m' p L n :
  only R m m' -> (forall h a, h ∈ L -> h + 4 <= a < h + 12 -> ~ R a) -> links m p L n -> links m' p L n.
Proof.
  intros Ho. revert p. induction L as [|h L IH]; intros p HR; simpl; [done|].
  intros (H1 & H2 & H3). unfold node_prev, node_next, hdr_to_node, SIZEOF_HEADER in *.
  rewrite (only_ld32 R m m' (h + 4)), (only_ld32 R m m' (h + 4 + 4))
    by (done || (intros b Hb; apply (HR h); [by left|lia])).
  split_and!; try done. apply IH; [|done]. intros x a Hx. apply HR. by right.
Qed.

Lemma node_fields m h :
  node_prev m (hdr_to_node h) = ld32 m (h + 4) /\ node_next m (hdr_to_node h) = ld32 m (h + 8).
Proof. unfold node_prev, node_next, hdr_to_node, SIZEOF_HEADER. split; [done|]. f_equal. lia. Qed.

(** Redirecting the last [next] pointer, or the first [prev] pointer. *)
Lemma links_set_next m p L x n n' :
  separated (L ++ [x]) -> 0 <= n' < 2 ^ 32 -> links m p (L ++ [x]) n ->
  links (set_node_next m (hdr_to_node x) n') p (L ++ [x]) n'.
Proof.
  intros Hs Hn. rewrite !links_app. simpl. intros (H1 & H2 & H3 & _).
  assert (forall h, h ∈ L -> h + 16 <= x \/ x + 16 <= h) as Ha.
  { intros h Hh. destruct (sep_apart _ Hs h x) as [->|?]; [set_solver..| |lia].
    destruct Hs as [Hnd _ _]. apply NoDup_app in Hnd as (_ & Hnd & _). exfalso.
    apply (Hnd x); [done|set_solver]. }
  unfold set_node_next, node_prev, node_next, hdr_to_node, SIZEOF_HEADER in *.
  split_and!; try done.
  - eapply (links_only (fun a => x + 8 <= a < x + 12)); [apply only_st32; lia| |done].
    intros h a Hh Hr. specialize (Ha h Hh). lia.
  - rewrite ld32_st32_ne by lia. done.
  - apply ld32_st32_eq. lia.
Qed.

Lemma links_set_prev m p x L n p' :
  separated (x :: L) -> 0 <= p' < 2 ^ 32 -> links m p (x :: L) n ->
  links (set_node_prev m (hdr_to_node x) p') p' (x :: L) n.
Proof.
  intros Hs Hp. simpl. intros (H1 & H2 & H3).
  assert (forall h, h ∈ L -> h + 16 <= x \/ x + 16 <= h) as Ha.
  { intros h Hh. destruct (sep_apart _ Hs h x) as [->|?]; [set_solver..| |lia].
    destruct Hs as [Hnd _ _]. apply NoDup_cons in Hnd as [? _]. done. }
  unfold set_node_prev, node_prev, node_next, hdr_to_node, SIZEOF_HEADER in *.
  split_and!.
  - apply ld32_st32_eq. lia.
  - rewrite ld32_st32_ne by lia. done.
  - eapply (links_only (fun a => x + 4 <= a < x + 8)); [apply only_st32; lia| |done].
    intros h a Hh Hr. specialize (Ha h Hh). lia.
Qed.

Lemma separated_sub L L' : separated L -> NoDup L' -> (forall x, x ∈ L' -> x ∈ L) -> separated L'.
Proof. intros [? Ha Hr] Hnd Hsub. constructor; auto. Qed.

Lemma first_node_range L n : separated L -> 0 <= n < 2 ^ 32 -> 0 <= first_node L n < 2 ^ 32.
Proof.
  intros Hs Hn. destruct L as [|x L]; simpl; [done|]. unfold hdr_to_node, SIZEOF_HEADER.
  destruct (sep_range _ Hs x); [by left|lia].
Qed.

Lemma last_node_range L p : separated L -> 0 <= p < 2 ^ 32 -> 0 <= last_node p L < 2 ^ 32.
Proof.
  intros Hs Hp. destruct L as [|x L] using rev_ind; simpl; [done|]. rewrite last_node_snoc.
  unfold hdr_to_node, SIZEOF_HEADER. destruct (sep_range _ Hs x); [set_solver|lia].
Qed.

Lemma first_node_eqb L : separated L -> (first_node L 0 =? 0) = match L with [] => true | _ => false end.
Proof.
  intros Hs. destruct L as [|x L]; simpl; [done|]. apply Z.eqb_neq. unfold hdr_to_node, SIZEOF_HEADER.
  destruct (sep_range _ Hs x); [by left|lia].
Qed.

Lemma links_next_nil m p L n n' : L = [] -> links m p L n -> links m p L n'.
Proof. by intros ->. Qed.

(** What an operation on the list may change besides the memory. *)
Definition same_heap (s s' : kheap) : Prop :=
  g_heap_base s' = g_heap_base s /\ g_heap_end s' = g_heap_end s /\
  g_initialized s' = g_initialized s /\ interrupts s' = interrupts s.

#[export] Instance same_heap_preorder : PreOrder same_heap.
Proof. split; [done|]. unfold same_heap. intros x y z ??. destruct_and!. split_and!; congruence. Qed.

(** Unlinking a node from anywhere in the list. *)
Lemma free_list_remove_spec s L1 h L2 :
  separated (L1 ++ h :: L2) -> free_list (memory s) (g_free_head s) (L1 ++ h :: L2) ->
  let s' := free_list_remove h s in
  free_list (memory s') (g_free_head s') (L1 ++ L2) /\ same_heap s s' /\
  only (link_words (L1 ++ L2)) (memory s) (memory s').
Proof.
  intros Hs [Hhd Hl]. rewrite links_app in Hl. simpl in Hl. destruct Hl as (H1 & Hp & Hn & H2).
  assert (separated L1 /\ separated L2) as [Hs1 Hs2].
  { pose proof (sep_nodup _ Hs) as (? & _ & [_ ?]%NoDup_cons)%NoDup_app.
    split; eapply separated_sub; try done; set_solver. }
  assert (forall x, x ∈ L1 \/ x ∈ L2 -> x + 16 <= h \/ h + 16 <= x) as Hd.
  { intros x Hx. destruct (sep_apart _ Hs x h) as [->|?]; [set_solver..| |lia].
    pose proof (sep_nodup _ Hs) as (_ & Hnd & [? _]%NoDup_cons)%NoDup_app. destruct Hx; set_solver. }
  unfold free_list_remove. rewrite Hp, Hn.
  set (s1 := if last_node 0 L1 =? 0 then _ else _).
  assert (g_free_head s1 = first_node (L1 ++ L2) 0 /\ same_heap s s1 /\
    only (link_words L1) (memory s) (memory s1) /\
    links (memory s1) 0 L1 (first_node L2 0)) as (A1 & A2 & A3 & A4).
  { subst s1. destruct L1 as [|x L1 _] using rev_ind; simpl; [done|].
    rewrite last_node_snoc. destruct (sep_range _ Hs1 x) as [? ?]; [set_solver|].
    assert (hdr_to_node x =? 0 = false) as -> by (unfold hdr_to_node, SIZEOF_HEADER; lia).
    split_and!; try done.
    - simpl. rewrite Hhd. by destruct L1.
    - simpl. apply only_st32. intros b Hb. exists x. unfold hdr_to_node, SIZEOF_HEADER in Hb.
      split; [set_solver|lia].
    - simpl. eapply links_set_next; [done| |exact H1]. by apply first_node_range. }
  assert (links (memory s1) (hdr_to_node h) L2 0) as H2'.
  { eapply links_only; [exact A3| |done]. intros x a Hx Ha (y & Hy & Hya).
    destruct (sep_apart _ Hs x y) as [->|?]; [set_solver..| |lia].
    pose proof (sep_nodup _ Hs) as (_ & Hnd & _)%NoDup_app. apply (Hnd y); set_solver. }
  assert (forall a, h + 4 <= a < h + 12 -> ~ link_words L1 a) as Hnh.
  { intros a Ha (y & Hy & Hya). destruct (Hd y); [by left|lia..]. }
  destruct (node_fields (memory s1) h) as [-> ->]. destruct (node_fields (memory s) h) as [Ep En].
  rewrite (only_ld32 (link_words L1) (memory s) _ (h + 4)), (only_ld32 (link_words L1) (memory s) _ (h + 8))
    by (done || (intros; apply Hnh; lia)).
  rewrite <- Ep, <- En, Hp, Hn, first_node_eqb by done.
  destruct L2 as [|y L2].
  - rewrite app_nil_r in *. split_and!; done.
  - assert (separated (L1 ++ y :: L2)) as Hs3.
    { eapply separated_sub; [exact Hs| |set_solver].
      pose proof (sep_nodup _ Hs) as (? & ? & [_ ?]%NoDup_cons)%NoDup_app.
      apply NoDup_app. split_and!; [done|set_solver|done]. }
    split_and!; simpl.
    + split; [by rewrite A1|]. apply links_app. split.
      * eapply (links_only (fun a => y + 4 <= a < y + 8));
          [apply only_st32; unfold hdr_to_node, SIZEOF_HEADER; lia| |exact A4].
        intros x a Hx Ha Hya. destruct (sep_apart _ Hs3 x y) as [->|?]; [set_solver..| |lia].
        pose proof (sep_nodup _ Hs3) as (_ & Hnd & _)%NoDup_app. apply (Hnd y); set_solver.
      * eapply links_set_prev; [done|by apply last_node_range|exact H2'].
    + by etrans.
    + etrans.
      * eapply only_weaken; [|exact A3]. intros a (z & Hz & ?). exists z. set_solver.
      * apply only_st32. intros b Hb. exists y. unfold hdr_to_node, SIZEOF_HEADER in Hb. set_solver by lia.
Qed.

(** Pushing a block whose tags say free onto the list. *)
Lemma free_list_insert_spec s h sz L :
  block_ok (sz, false) -> sz < 2 ^ 32 -> ld32 (memory s) h = sz ->
  separated (h :: L) -> free_list (memory s) (g_free_head s) L ->
  (forall x, x ∈ L -> h + sz <= x \/ x + 16 <= h) ->
  let s' := free_list_insert h s in
  free_list (memory s') (g_free_head s') (h :: L) /\ same_heap s s' /\
  tags_at (memory s') (h, (sz, false)) /\
  only (fun a => h <= a < h + sz \/ link_words L a) (memory s) (memory s').
Proof.
  intros Hok Hsz Hld Hs [Hhd Hl] Hd. pose proof Hok as [Hmin Hmod]; simpl in Hmin, Hmod.
  pose proof (sep_range _ Hs h ltac:(by left)) as Hr.
  assert (separated L) as HsL
    by (eapply separated_sub; [exact Hs|by pose proof (sep_nodup _ Hs) as [_ ?]%NoDup_cons|set_solver]).
  unfold free_list_insert, set_free. rewrite Hld, clear_flag_even by done.
  unfold blk_footer, blk_size. rewrite ld32_st32_eq, clear_flag_even by (done || lia).
  unfold hdr_to_node, SIZEOF_HEADER, SIZEOF_FOOTER, set_node_prev, set_node_next.
  rewrite Hhd, first_node_eqb by done. simpl.
  set (m1 := st32 (st32 (st32 (st32 (memory s) h sz) (h + sz - 4) sz) (h + 4) 0) (h + 4 + 4) _).
  assert (0 <= first_node L 0 < 2 ^ 32) as Hfr by (apply first_node_range; [done|lia]).
  assert (only (fun a => h <= a < h + sz) (memory s) m1) as Ho1
    by (subst m1; repeat (etrans; [|apply only_st32; lia]); reflexivity).
  assert (tags_at m1 (h, (sz, false)) /\ node_prev m1 (hdr_to_node h) = 0 /\
          node_next m1 (hdr_to_node h) = first_node L 0) as (Ht & Hp & Hn).
  { destruct (node_fields m1 h) as [-> ->]. unfold tags_at, tag; simpl. subst m1.
    replace (h + 4 + 4) with (h + 8) by lia. rewrite Z.add_0_r.
    split_and!; ldst; done. }
  assert (links m1 0 L 0) as Hl1.
  { eapply links_only; [exact Ho1| |done]. intros x a Hx Ha. destruct (Hd x Hx); lia. }
  clearbody m1. destruct L as [|y L]; simpl in *.
  - split_and!; try done. eapply only_weaken; [|exact Ho1]. tauto.
  - assert (h + sz <= y \/ y + 16 <= h) as Hy by (apply Hd; by left).
    unfold hdr_to_node, SIZEOF_HEADER in *. split_and!; try done.
    + split; [done|]. simpl. unfold hdr_to_node, SIZEOF_HEADER. split; [|split].
      * unfold node_prev in *. by ldst.
      * unfold node_next in *. by ldst.
      * apply (links_set_prev _ 0 y L 0 (h + 4)); [done|lia|done].
    + eapply (tags_at_only (fun a => y + 4 <= a < y + 8)); [apply only_st32; lia|done| |done].
      unfold in_blk; simpl. lia.
    + etrans; [eapply only_weaken; [|exact Ho1]; tauto|]. apply only_st32. intros b Hb. right.
      exists y. split; [by left|lia].
Qed.

(** ** Changing the block list *)

(** Sizes of the pieces decide sizes and addresses of the whole. *)
Lemma tagged_app m a xs ys :
  tagged m a (xs ++ ys) <-> tagged m a xs /\ tagged m (a + span xs) ys.
Proof. unfold tagged. rewrite layout_app, !Forall_app. tauto. Qed.

Lemma tagged_cons m a b bs :
  tagged m a (b :: bs) <-> block_ok b /\ tags_at m (a, b) /\ tagged m (a + b.1) bs.
Proof. unfold tagged. simpl. rewrite !Forall_cons. tauto. Qed.

(** Changes inside [[lo, hi)] do not disturb the blocks before or after. *)
Lemma tagged_outside m m' a bs lo hi :
  only (fun b => lo <= b < hi) m m' -> a + span bs <= lo \/ hi <= a ->
  tagged m a bs -> tagged m' a bs.
Proof.
  intros Ho Hd Ht. eapply tagged_only; [exact Ho| |exact Ht].
  intros x b Hx Hb Hr. destruct (layout_bounds a bs x (proj1 Ht) Hx) as [? ?].
  unfold in_blk in Hb. cbv beta in Hr. lia.
Qed.

(** Rewriting one block in place as a list of blocks of the same span. *)
Lemma tagged_replace m m' a pre mid mid' post :
  tagged m a (pre ++ mid ++ post) -> span mid' = span mid ->
  only (fun b => a + span pre <= b < a + span pre + span mid) m m' ->
  tagged m' (a + span pre) mid' -> tagged m' a (pre ++ mid' ++ post).
Proof.
  rewrite !tagged_app. intros (Hpre & Hmid & Hpost) Hsp Ho Hmid'.
  split_and!.
  - eapply tagged_outside; [exact Ho| |done]. lia.
  - done.
  - rewrite Hsp in *. eapply tagged_outside; [exact Ho| |done]. lia.
Qed.

(** Writing both tags of a block. *)
Lemma write_tags_spec m h (b : block) :
  block_ok b -> b.1 < 2 ^ 32 - 1 ->
  tags_at (st32 (st32 m h (tag b)) (h + b.1 - 4) (tag b)) (h, b) /\
  only (fun a => h <= a < h + b.1) m (st32 (st32 m h (tag b)) (h + b.1 - 4) (tag b)).
Proof.
  intros [Hm Hmod] Hb. assert (0 <= tag b < 2 ^ 32) by (unfold tag; destruct b.2; simpl; lia).
  split.
  - split; simpl; [rewrite ld32_st32_ne by lia|]; by apply ld32_st32_eq.
  - etrans; apply only_st32; lia.
Qed.

(** The word the code writes to a header, then copies to the footer. *)
Lemma header_footer_eq m h (b : block) w :
  block_ok b -> b.1 < 2 ^ 32 - 1 -> w = tag b ->
  st32 (st32 m h w) (blk_footer (st32 m h w) h) (ld32 (st32 m h w) h) =
  st32 (st32 m h (tag b)) (h + b.1 - 4) (tag b).
Proof.
  intros Hok Hb ->. assert (0 <= tag b < 2 ^ 32)
    by (destruct Hok; unfold tag; destruct b.2; simpl; lia).
  unfold blk_footer, blk_size, SIZEOF_FOOTER. rewrite ld32_st32_eq, clear_flag_tag by done. done.
Qed.

(** ** Block lists the heap can be in *)

Definition last_free (bs : list block) : bool :=
  match last bs with Some (_, false) => true | _ => false end.
Definition head_free (bs : list block) : bool :=
  match bs with (_, false) :: _ => true | _ => false end.

(** No two adjacent free blocks. *)
Fixpoint coalesced (bs : list block) : bool :=
  match bs with
  | [] => true
  | b :: r => negb (negb b.2 && head_free r) && coalesced r
  end.

Lemma head_free_app xs ys : head_free (xs ++ ys) = if xs is [] then head_free ys else head_free xs.
Proof. by destruct xs as [|[? []] ?]. Qed.

Lemma coalesced_app xs ys :
  coalesced (xs ++ ys) = coalesced xs && coalesced ys && negb (last_free xs && head_free ys).
Proof.
  induction xs as [|x xs IH]; simpl; [by rewrite andb_true_r|].
  rewrite IH, head_free_app. destruct xs as [|y xs].
  - unfold last_free. simpl. destruct x as [? []], (head_free ys), (coalesced ys); done.
  - assert (last_free (x :: y :: xs) = last_free (y :: xs)) as -> by done.
    by rewrite !andb_assoc.
Qed.

(** The bytes that belong to free blocks. *)
Definition free_area (base : Z) (bs : list block) (a : Z) : Prop :=
  exists x, x ∈ layout base bs /\ x.2.2 = false /\ in_blk x a.

(** [s] represents the block list [bs]. *)
Record heap_rep (s : kheap) (bs : list block) : Prop := {
  hr_init : g_initialized s = true;
  hr_base : 0 < g_heap_base s;
  hr_align : g_heap_base s mod 8 = 0;
  hr_end : g_heap_base s + span bs = g_heap_end s;
  hr_lim : g_heap_end s < 2 ^ 32;
  hr_tags : tagged (memory s) (g_heap_base s) bs;
  hr_list : exists L, L ≡ₚ free_hdrs (g_heap_base s) bs /\ free_list (memory s) (g_free_head s) L;
  hr_coal : coalesced bs = true;
}.

(** Node lists drawn from the layout of a heap are separated. *)
Lemma layout_separated base bs L :
  Forall block_ok bs -> 0 < base -> base + span bs < 2 ^ 32 -> NoDup L ->
  (forall x, x ∈ L -> exists b, (x, b) ∈ layout base bs) -> separated L.
Proof.
  intros Hok Hb He Hnd HL. constructor; [done|..].
  - intros x y (b & Hx)%HL (c & Hy)%HL.
    destruct (layout_disjoint base bs _ _ Hok Hx Hy) as [[= -> _]|Hd]; [by left|right].
    apply layout_block_ok in Hx as [? _]; [|done]. apply layout_block_ok in Hy as [? _]; [|done].
    simpl in *. lia.
  - intros x (b & Hx)%HL. pose proof (layout_block_ok base bs _ Hok Hx) as [? _].
    apply layout_bounds in Hx; [|done]. simpl in *. lia.
Qed.

Lemma tagged_link_words m m' base bs L :
  tagged m base bs -> (forall x, x ∈ L -> exists b, (x, b) ∈ layout base bs) ->
  only (link_words L) m m' -> tagged m' base bs.
Proof.
  intros Ht HL Ho. eapply tagged_only; [exact Ho| |exact Ht].
  intros x a Hx Ha (h & (b & Hh)%HL & Hr). pose proof (layout_block_ok base bs _ (proj1 Ht) Hh) as [? _].
  destruct (layout_disjoint base bs _ _ (proj1 Ht) Hx Hh) as [->|?]; unfold in_blk in *; simpl in *; lia.
Qed.

(** Facts about a heap state between operations: some blocks may be missing
    from the list. *)
Record partial_rep (s : kheap) (bs : list block) (L : list Z) : Prop := {
  pr_base : 0 < g_heap_base s;
  pr_end : g_heap_base s + span bs = g_heap_end s;
  pr_lim : g_heap_end s < 2 ^ 32;
  pr_tags : tagged (memory s) (g_heap_base s) bs;
  pr_list : free_list (memory s) (g_free_head s) L;
  pr_nodup : NoDup L;
  pr_in : forall x, x ∈ L -> exists b, (x, b) ∈ layout (g_heap_base s) bs;
}.

Lemma partial_separated s bs L : partial_rep s bs L -> separated L.
Proof. intros []. eapply layout_separated; [apply pr_tags0|done|lia|done|done]. Qed.

Lemma remove_block s bs L h :
  partial_rep s bs L -> h ∈ L ->
  exists L', L ≡ₚ h :: L' /\ partial_rep (free_list_remove h s) bs L' /\
    same_heap s (free_list_remove h s) /\
    only (link_words L') (memory s) (memory (free_list_remove h s)).
Proof.
  intros Hp Hh. pose proof (partial_separated _ _ _ Hp) as Hs. destruct Hp.
  apply list_elem_of_split in Hh as (L1 & L2 & ->). exists (L1 ++ L2).
  destruct (free_list_remove_spec s L1 h L2 Hs pr_list0) as (H1 & H2 & H3).
  assert (forall x, x ∈ L1 ++ L2 -> exists b, (x, b) ∈ layout (g_heap_base s) bs) as Hin
    by (intros; apply pr_in0; set_solver).
  split; [by rewrite Permutation_middle|]. split; [|done].
  pose proof H2 as (Eb & Ee & _ & _). constructor; rewrite ?Eb, ?Ee; try done.
  - eapply tagged_link_words; eauto.
  - apply NoDup_app in pr_nodup0 as (? & Hd & [? ?]%NoDup_cons).
    apply NoDup_app. split_and!; [done|set_solver|done].
Qed.

Lemma same_heap_with_mem m s : same_heap s (with_mem m s).
Proof. done. Qed.

(** Writing the tags of the union of two adjacent blocks. *)
Lemma write_merged_spec s pre b1 b2 post L h :
  partial_rep s (pre ++ b1 :: b2 :: post) L ->
  h = g_heap_base s + span pre -> ~ h ∈ L -> ~ h + b1.1 ∈ L ->
  let s' := write_merged h (u32 (b1.1 + b2.1)) s in
  partial_rep s' (pre ++ (b1.1 + b2.1, false) :: post) L /\ same_heap s s' /\
  only (fun a => h <= a < h + (b1.1 + b2.1)) (memory s) (memory s').
Proof.
  intros [] Hh Hn1 Hn2.
  pose proof pr_tags0 as [[_ [Hb1 [Hb2 Hpost]%Forall_cons]%Forall_cons]%Forall_app _].
  assert (span (pre ++ b1 :: b2 :: post) = span pre + b1.1 + b2.1 + span post) as Hsp
    by (rewrite span_app; simpl; lia).
  pose proof (span_nonneg _ Hpost).
  assert (0 <= span pre) by (apply span_nonneg; destruct pr_tags0 as [[? _]%Forall_app _]; done).
  assert (block_ok (b1.1 + b2.1, false)) as Hok by (destruct Hb1, Hb2; split; simpl; zlia).
  assert (b1.1 + b2.1 < 2 ^ 32 - 1) as Hlt by lia.
  assert (clear_flag (u32 (b1.1 + b2.1)) = tag (b1.1 + b2.1, false)) as Hw.
  { rewrite u32_small by (destruct Hok; simpl in *; lia). unfold tag; simpl.
    rewrite clear_flag_even by (destruct Hok; done). lia. }
  unfold write_merged. rewrite (header_footer_eq _ _ _ _ Hok Hlt Hw).
  destruct (write_tags_spec (memory s) h _ Hok Hlt) as [Ht Ho]. simpl in Ho.
  split; [|done]. constructor; simpl; try done.
  - rewrite <- pr_end0, Hsp, span_app. simpl. lia.
  - apply (tagged_replace (memory s) _ _ pre [b1; b2] [(b1.1 + b2.1, false)] post); simpl.
    + done.
    + lia.
    + eapply only_weaken; [|exact Ho]. simpl. lia.
    + rewrite <- Hh. apply tagged_cons. split_and!; done.
  - destruct pr_list0 as [Hhd Hl]. split; [done|]. eapply links_only; [exact Ho| |done].
    intros x a Hx Ha Hr. destruct (pr_in0 x Hx) as [c Hc].
    rewrite layout_app in Hc. simpl in Hc.
    apply elem_of_app in Hc as [Hc|[[= -> ->]|[[= -> ->]|Hc]%elem_of_cons]%elem_of_cons].
    + destruct pr_tags0 as [[Hpre _]%Forall_app _].
      pose proof (layout_block_ok _ _ _ Hpre Hc) as [? _].
      apply layout_bounds in Hc; [|done]. simpl in *. lia.
    + by rewrite <- Hh in Hx.
    + by rewrite <- Hh in Hx.
    + apply layout_bounds in Hc; [|done]. simpl in *. lia.
  - intros x Hx. destruct (pr_in0 x Hx) as [c Hc]. rewrite layout_app in Hc |- *. simpl in *.
    apply elem_of_app in Hc as [Hc|[[= -> ->]|[[= -> ->]|Hc]%elem_of_cons]%elem_of_cons].
    + exists c. apply elem_of_app. by left.
    + by rewrite <- Hh in Hx.
    + by rewrite <- Hh in Hx.
    + exists c. apply elem_of_app. right. right. by rewrite Z.add_assoc.
Qed.

(** ** [kfree] *)

(** What freeing a block of size [sz] does to the blocks after it. *)
Definition join_next (sz : Z) (post : list block) : Z * list block :=
  match post with
  | (n, false) :: post => (sz + n, post)
  | _ => (sz, post)
  end.

(** ... and to the blocks before it. *)
Definition join_prev (pre : list block) (sz : Z) : list block * Z :=
  match reverse pre with
  | (p, false) :: rpre => (reverse rpre, p + sz)
  | _ => (pre, sz)
  end.

Definition free_block (pre : list block) (sz : Z) (post : list block) : list block :=
  let '(sz, post) := join_next sz post in
  let '(pre, sz) := join_prev pre sz in
  pre ++ (sz, false) :: post.

(** The state while the block at [pre] is pending: tagged free, not listed,
    every other free block listed. *)
Record pending (s : kheap) (pre : list block) (sz : Z) (post : list block) (L : list Z) : Prop := {
  pd_rep : partial_rep s (pre ++ (sz, false) :: post) L;
  pd_perm : L ≡ₚ free_hdrs (g_heap_base s) pre ++
                  free_hdrs (g_heap_base s + span pre + sz) post;
}.

Lemma pending_not_listed s pre sz post L a :
  pending s pre sz post L ->
  g_heap_base s + span pre <= a < g_heap_base s + span pre + sz -> ~ a ∈ L.
Proof.
  intros [[] Hp] Ha HL. rewrite Hp in HL.
  destruct pr_tags0 as [[Hpre [Hb Hpost]%Forall_cons]%Forall_app _].
  apply elem_of_app in HL as [[z Hz]%elem_of_free_hdrs|[z Hz]%elem_of_free_hdrs].
  - pose proof (layout_block_ok _ _ _ Hpre Hz) as [? _]. apply layout_bounds in Hz; [|done].
    simpl in *. lia.
  - apply layout_bounds in Hz; [|done]. simpl in *. lia.
Qed.

(** Header of the block at a known position. *)
Lemma tagged_at m a pre b post :
  tagged m a (pre ++ b :: post) ->
  block_ok b /\ blk_size m (a + span pre) = b.1 /\ blk_alloc m (a + span pre) = b.2.
Proof.
  intros [_ (Hb & Ht & _)%tagged_cons]%tagged_app. split; [done|].
  split; [by apply (tags_at_size m (a + span pre, b))|by apply (tags_at_alloc m (a + span pre, b))].
Qed.

Lemma tagged_at_second m a pre b1 b2 post :
  tagged m a (pre ++ b1 :: b2 :: post) ->
  block_ok b2 /\ blk_size m (a + span pre + b1.1) = b2.1 /\ blk_alloc m (a + span pre + b1.1) = b2.2.
Proof.
  replace (pre ++ b1 :: b2 :: post) with ((pre ++ [b1]) ++ b2 :: post) by by rewrite <- app_assoc.
  intros H%tagged_at. rewrite span_app in H. simpl in H. by rewrite Z.add_0_r, Z.add_assoc in H.
Qed.

(** One of two adjacent blocks is listed, the other pending: unlink the
    listed one and merge. *)
Lemma absorb_spec s pre b1 b2 post L x :
  let h := g_heap_base s + span pre in
  partial_rep s (pre ++ b1 :: b2 :: post) L ->
  x ∈ L -> (x = h /\ ~ h + b1.1 ∈ L) \/ (x = h + b1.1 /\ ~ h ∈ L) ->
  let s1 := free_list_remove x s in
  let s' := write_merged h (u32 (blk_size (memory s1) h + blk_size (memory s1) (h + b1.1))) s1 in
  exists L', L ≡ₚ x :: L' /\ partial_rep s' (pre ++ (b1.1 + b2.1, false) :: post) L' /\
    same_heap s s' /\
    only (fun a => h <= a < h + (b1.1 + b2.1) \/ link_words L' a) (memory s) (memory s').
Proof.
  intros h Hp Hx Hother s1. destruct (remove_block s _ L x Hp Hx) as (L' & HL' & Hp' & Hsame & Ho).
  fold s1 in Hp', Hsame, Ho. exists L'. pose proof Hsame as (Eb & _).
  destruct (tagged_at _ _ _ _ _ (pr_tags _ _ _ Hp')) as (_ & Hs1 & _).
  destruct (tagged_at_second _ _ _ _ _ _ (pr_tags _ _ _ Hp')) as (_ & Hs2 & _).
  rewrite Eb in Hs1, Hs2. fold h in Hs1, Hs2. rewrite Hs1, Hs2.
  assert (~ x ∈ L' /\ forall y, ~ y ∈ L -> ~ y ∈ L') as [Hnx Hny].
  { pose proof (pr_nodup _ _ _ Hp) as Hnd. rewrite HL' in Hnd. apply NoDup_cons in Hnd as [? _].
    split; [done|]. intros y Hy Hin. apply Hy. rewrite HL'. by right. }
  destruct (write_merged_spec s1 pre b1 b2 post L' h Hp') as (W1 & W2 & W3).
  { by rewrite Eb. }
  { destruct Hother as [[-> ?]|[-> ?]]; [done|by apply Hny]. }
  { destruct Hother as [[-> ?]|[-> ?]]; [by apply Hny|done]. }
  split_and!; [done|done|by etrans|].
  etrans; [eapply only_weaken; [|exact Ho]; tauto|]. eapply only_weaken; [|exact W3]. tauto.
Qed.

Lemma pending_bounds s pre sz post L :
  pending s pre sz post L ->
  16 <= sz /\ 0 <= span pre /\ 0 <= span post /\ 0 < g_heap_base s /\
  g_heap_end s = g_heap_base s + span pre + sz + span post.
Proof.
  intros [[] _]. pose proof pr_tags0 as [[Hpre [[? _] Hpost]%Forall_cons]%Forall_app _]. simpl in *.
  pose proof (span_nonneg _ Hpre). pose proof (span_nonneg _ Hpost).
  rewrite span_app in pr_end0. simpl in pr_end0. split_and!; lia.
Qed.

Lemma merge_next_spec s pre sz post L :
  pending s pre sz post L ->
  let s' := merge_next (g_heap_base s + span pre) s in
  exists L', pending s' pre (join_next sz post).1 (join_next sz post).2 L' /\ same_heap s s' /\
    only (fun a => g_heap_base s + span pre <= a < g_heap_base s + span pre + (join_next sz post).1
                   \/ link_words L' a) (memory s) (memory s').
Proof.
  intros Hpd. pose proof Hpd as [Hp Hperm]. pose proof (pr_tags _ _ _ Hp) as Ht. cbv zeta.
  destruct (pending_bounds _ _ _ _ _ Hpd) as (? & ? & ? & ? & Hend).
  destruct (tagged_at _ _ _ _ _ Ht) as (_ & Hsz & _). simpl in Hsz.
  unfold merge_next, blk_next. rewrite Hsz.
  destruct post as [|[n f] post]; simpl in Hend |- *.
  { rewrite (proj2 (Z.leb_le _ _)) by lia. exists L. done. }
  destruct (tagged_at_second _ _ _ _ _ _ Ht) as ([? _] & Hn & Hf). simpl in *.
  pose proof (proj1 Ht) as [_ [_ [_ Hpost%span_nonneg]%Forall_cons]%Forall_cons]%Forall_app.
  rewrite (proj2 (Z.leb_gt _ _)), (proj2 (Z.eqb_neq (_ + sz) 0)), Hf by lia.
  destruct f; simpl; [exists L; done|].
  rewrite free_hdrs_cons in Hperm. simpl in Hperm.
  destruct (absorb_spec s pre (sz, false) (n, false) post L (g_heap_base s + span pre + sz) Hp)
    as (L' & HL' & Hp' & Hsame & Ho).
  { rewrite Hperm. set_solver. }
  { right. split; [done|]. apply (pending_not_listed _ _ _ _ _ _ Hpd). lia. }
  simpl in *. exists L'. pose proof Hsame as (Eb & _). split_and!; [|done|done].
  constructor; [done|]. rewrite Eb, Z.add_assoc.
  apply (Permutation_cons_inv (a := g_heap_base s + span pre + sz)).
  by rewrite <- HL', Hperm, Permutation_middle.
Qed.

Lemma merge_prev_spec s pre sz post L :
  pending s pre sz post L ->
  let '(h', s') := merge_prev (g_heap_base s + span pre) s in
  h' = g_heap_base s + span (join_prev pre sz).1 /\
  exists L', pending s' (join_prev pre sz).1 (join_prev pre sz).2 post L' /\ same_heap s s' /\
    only (fun a => h' <= a < h' + (join_prev pre sz).2 \/ link_words L' a) (memory s) (memory s').
Proof.
  intros Hpd. pose proof Hpd as [Hp Hperm]. pose proof (pr_tags _ _ _ Hp) as Ht.
  destruct (pending_bounds _ _ _ _ _ Hpd) as (? & ? & ? & ? & Hend).
  unfold merge_prev, blk_prev, join_prev, SIZEOF_FOOTER.
  destruct pre as [|[p f] pre _] using rev_ind; simpl in *.
  { rewrite Z.add_0_r in *. rewrite (proj2 (Z.leb_le _ _)) by lia. simpl.
    split; [lia|]. exists L. by rewrite ?Z.add_0_r. }
  rewrite reverse_snoc, span_app in *. simpl in *. rewrite Z.add_0_r in *.
  rewrite <- app_assoc in *. simpl in *.
  destruct (tagged_at _ _ _ _ _ Ht) as (Hok & Hp1 & Hf). simpl in Hp1, Hf. pose proof Hok as [? _].
  pose proof (proj1 Ht) as [Hpre%span_nonneg _]%Forall_app.
  assert (clear_flag (ld32 (memory s) (g_heap_base s + (span pre + p) - 4)) = p) as Hfoot.
  { destruct Ht as [_ Ht]. rewrite layout_app, Forall_app in Ht. simpl in Ht.
    destruct Ht as [_ [[_ Hfo] _]%Forall_cons]. simpl in Hfo.
    rewrite Z.add_assoc, Hfo. by rewrite clear_flag_tag. }
  rewrite Hfoot. simpl in *. replace (g_heap_base s + (span pre + p) - p) with (g_heap_base s + span pre) by lia.
  rewrite (proj2 (Z.leb_gt _ _)), !(proj2 (Z.ltb_ge _ _)), (proj2 (Z.eqb_neq _ 0)), Hf by lia.
  destruct f; simpl.
  { split; [rewrite span_app; simpl; lia|]. exists L. done. }
  rewrite reverse_involutive, free_hdrs_app, free_hdrs_cons in *. simpl in *.
  split; [done|].
  destruct (absorb_spec s pre (p, false) (sz, false) post L (g_heap_base s + span pre) Hp)
    as (L' & HL' & Hp' & Hsame & Ho).
  { rewrite Hperm. set_solver. }
  { left. split; [done|]. apply (pending_not_listed _ _ _ _ _ _ Hpd). rewrite span_app. simpl. lia. }
  simpl in *. rewrite Z.add_assoc.
  exists L'. pose proof Hsame as (Eb & _). split_and!; [|done|done].
  constructor; [done|]. rewrite Eb.
  apply (Permutation_cons_inv (a := g_heap_base s + span pre)).
  rewrite <- HL', Hperm. change (free_hdrs (g_heap_base s + span pre + p) []) with (@nil Z).
  replace (g_heap_base s + span pre + (p + sz)) with (g_heap_base s + (span pre + p) + sz) by lia.
  rewrite <- app_assoc. simpl. by rewrite <- Permutation_middle.
Qed.

Lemma join_prev_span pre sz : span (join_prev pre sz).1 + (join_prev pre sz).2 = span pre + sz.
Proof.
  unfold join_prev. destruct pre as [|[p []] pre _] using rev_ind; [done|..];
    rewrite reverse_snoc; simpl; [done|].
  rewrite reverse_involutive, span_app. simpl. lia.
Qed.

Lemma link_words_free_area base bs L a :
  Forall block_ok bs -> (forall x, x ∈ L -> x ∈ free_hdrs base bs) ->
  link_words L a -> free_area base bs a.
Proof.
  intros Hok HL (h & Hh & Ha). apply HL, elem_of_free_hdrs in Hh as [z Hz].
  exists (h, (z, false)). split_and!; [done|done|].
  apply layout_block_ok in Hz as [? _]; [|done]. unfold in_blk. simpl in *. lia.
Qed.

Lemma mid_free_area base pre sz post a :
  base + span pre <= a < base + span pre + sz -> free_area base (pre ++ (sz, false) :: post) a.
Proof.
  intros Ha. exists (base + span pre, (sz, false)). split_and!; [|done|done].
  rewrite layout_app. apply elem_of_app. right. by left.
Qed.

(** Listing the pending block completes the representation. *)
Lemma pending_insert s pre sz post L :
  pending s pre sz post L ->
  let s' := free_list_insert (g_heap_base s + span pre) s in
  same_heap s s' /\ tagged (memory s') (g_heap_base s) (pre ++ (sz, false) :: post) /\
  (exists L', L' ≡ₚ free_hdrs (g_heap_base s) (pre ++ (sz, false) :: post) /\
              free_list (memory s') (g_free_head s') L') /\
  only (free_area (g_heap_base s) (pre ++ (sz, false) :: post)) (memory s) (memory s').
Proof.
  intros Hpd. pose proof Hpd as [Hp Hperm]. pose proof Hp as [].
  destruct (pending_bounds _ _ _ _ _ Hpd) as (? & ? & ? & ? & Hend).
  set (h := g_heap_base s + span pre) in *.
  pose proof pr_tags0 as [_ (Hok & [Hld _] & _)%tagged_cons]%tagged_app. simpl in Hld. fold h in Hld.
  assert (forall x, x ∈ h :: L -> x ∈ free_hdrs (g_heap_base s) (pre ++ (sz, false) :: post)) as Hall.
  { intros x. rewrite free_hdrs_app, free_hdrs_cons. simpl. fold h.
    intros [->|Hx]%elem_of_cons; [set_solver|]. rewrite Hperm in Hx. set_solver. }
  assert (separated (h :: L)) as Hsep.
  { eapply (layout_separated (g_heap_base s)); [apply pr_tags0|done|lia| |].
    - constructor; [|done]. apply (pending_not_listed _ _ _ _ _ _ Hpd). fold h. lia.
    - intros x Hx%Hall. apply elem_of_free_hdrs in Hx as [z Hz]. eauto. }
  assert ((h, (sz, false)) ∈ layout (g_heap_base s) (pre ++ (sz, false) :: post)) as Hh
    by (rewrite layout_app; apply elem_of_app; right; by left).
  destruct (free_list_insert_spec s h sz L) as (I1 & I2 & I3 & I4);
    [done|lia|by rewrite Hld; unfold tag; simpl; rewrite Z.add_0_r|done|done|..].
  { intros x Hx. destruct (pr_in0 x Hx) as [b Hb].
    pose proof (layout_block_ok _ _ _ (proj1 pr_tags0) Hb) as [? _].
    destruct (layout_disjoint _ _ _ _ (proj1 pr_tags0) Hh Hb) as [[= <- _]|?]; [|simpl in *; lia].
    exfalso. by apply (pending_not_listed _ _ _ _ _ h Hpd); [fold h; lia|]. }
  assert (only (free_area (g_heap_base s) (pre ++ (sz, false) :: post)) (memory s)
            (memory (free_list_insert h s))) as Ho.
  { eapply only_weaken; [|exact I4]. intros a [Ha|Ha]; [by apply mid_free_area|].
    eapply link_words_free_area; [apply pr_tags0| |exact Ha]. intros x Hx. apply Hall. by right. }
  split_and!; [done| | |done].
  - destruct pr_tags0 as [Hbs Hts]. split; [done|]. rewrite Forall_forall in Hts |- *. intros x Hx.
    destruct (layout_disjoint _ _ _ _ Hbs Hx Hh) as [->|Hdx]; [done|].
    eapply tags_at_only; [exact I4|by eapply layout_block_ok| |by apply Hts].
    intros a Ha [Hr|(y & Hy & Hr)]; unfold in_blk in Ha; simpl in *; [lia|].
    destruct (pr_in0 y Hy) as [c Hc]. pose proof (layout_block_ok _ _ _ Hbs Hc) as [? _].
    destruct (layout_disjoint _ _ _ _ Hbs Hx Hc) as [->|?]; simpl in *; lia.
  - exists (h :: L). split; [|done]. rewrite free_hdrs_app, free_hdrs_cons. simpl. fold h.
    by rewrite Hperm, Permutation_middle.
Qed.

Lemma coalesced_free_block pre sz post :
  coalesced (pre ++ (sz, true) :: post) = true -> coalesced (free_block pre sz post) = true.
Proof.
  unfold free_block. rewrite coalesced_app. simpl. rewrite !andb_true_iff.
  intros [[Hpre Hpost] _].
  destruct (join_next sz post) as [sz1 post1] eqn:En.
  assert (coalesced post1 = true /\ head_free post1 = false) as [Hp1 Hh1].
  { destruct post as [|[n []] post]; simpl in En; simplify_eq/=; try done.
    apply andb_true_iff in Hpost as [Hh ?]. split; [done|]. by destruct (head_free post1). }
  destruct (join_prev pre sz1) as [pre1 sz2] eqn:Ep.
  assert (coalesced pre1 = true /\ last_free pre1 = false) as [Hp2 Hl2].
  { unfold join_prev in Ep. destruct pre as [|[p []] pre _] using rev_ind; simplify_eq/=; try done;
      rewrite reverse_snoc in Ep; simplify_eq/=.
    - split; [done|]. unfold last_free. by rewrite last_snoc.
    - rewrite reverse_involutive. rewrite coalesced_app in Hpre. simpl in Hpre.
      destruct (coalesced pre), (last_free pre); done. }
  rewrite coalesced_app. simpl. by rewrite Hp2, Hp1, Hh1, Hl2.
Qed.

(** The state of [kfree] after the block's own tags are cleared. *)
Lemma kfree_pending s pre sz post :
  heap_rep s (pre ++ (sz, true) :: post) ->
  let h := g_heap_base s + span pre in
  let m := set_free (memory s) h in
  let s1 := with_mem (st32 m (blk_footer m h) (ld32 m h)) (with_irq false s) in
  exists L, pending s1 pre sz post L /\
    only (fun a => h <= a < h + sz) (memory s) (memory s1).
Proof.
  intros [] h m. destruct hr_list0 as (L & Hperm & Hl).
  rewrite free_hdrs_app, free_hdrs_cons in Hperm. simpl in Hperm.
  pose proof hr_tags0 as [[Hpre [Hok Hpost]%Forall_cons]%Forall_app _].
  pose proof (span_nonneg _ Hpre). pose proof (span_nonneg _ Hpost).
  pose proof Hok as [Hmin Hmod]; simpl in Hmin, Hmod.
  rewrite span_app in hr_end0. simpl in hr_end0.
  assert (block_ok (sz, false)) as Hok' by done.
  pose proof hr_tags0 as [_ (_ & [Hld _] & _)%tagged_cons]%tagged_app. simpl in Hld. fold h in Hld.
  assert (clear_flag (ld32 (memory s) h) = tag (sz, false)) as Hw
    by (rewrite Hld, clear_flag_tag by done; unfold tag; simpl; lia).
  subst m. unfold set_free. rewrite Hw, (header_footer_eq _ h (sz, false)) by (done || simpl; lia).
  destruct (write_tags_spec (memory s) h (sz, false)) as [Ht Ho]; [done|simpl; lia|]. simpl in Ho.
  assert (forall x b, (x, b) ∈ layout (g_heap_base s) pre \/ (x, b) ∈ layout (h + sz) post ->
            x + 16 <= h \/ h + sz <= x) as Hout.
  { intros x b [Hx|Hx]; [pose proof (layout_block_ok _ _ _ Hpre Hx) as [? _]|];
      apply layout_bounds in Hx; try done; simpl in *; subst h; lia. }
  assert (forall x, x ∈ L -> exists b, (x, b) ∈ layout (g_heap_base s) pre \/ (x, b) ∈ layout (h + sz) post) as HinL.
  { intros x Hx. rewrite Hperm in Hx.
    apply elem_of_app in Hx as [[z Hz]%elem_of_free_hdrs|[z Hz]%elem_of_free_hdrs]; eauto. }
  exists L. split; [constructor|done]; simpl; [constructor; simpl|done]; try done.
  - rewrite span_app. simpl. lia.
  - apply (tagged_replace (memory s) _ _ pre [(sz, true)] [(sz, false)] post); simpl; [done..| |].
    + eapply only_weaken; [|exact Ho]. simpl. fold h. lia.
    + fold h. apply tagged_cons. done.
  - destruct Hl as [? Hl]. split; [done|]. eapply links_only; [exact Ho| |exact Hl].
    intros x a Hx Ha Hr. destruct (HinL x Hx) as [b Hb]. destruct (Hout x b Hb); lia.
  - rewrite Hperm. pose proof (free_hdrs_NoDup (g_heap_base s) _ (proj1 hr_tags0)) as Hnd.
    rewrite free_hdrs_app, free_hdrs_cons in Hnd. simpl in Hnd. done.
  - intros x Hx. destruct (HinL x Hx) as [b Hb]. exists b. rewrite layout_app. simpl. fold h. set_solver.
Qed.

Lemma join_prev_area base pre sz post a :
  Forall block_ok pre -> 0 <= sz ->
  free_area base (pre ++ (sz, false) :: post) a ->
  free_area base ((join_prev pre sz).1 ++ ((join_prev pre sz).2, false) :: post) a.
Proof.
  unfold join_prev. destruct pre as [|[p []] pre _] using rev_ind; [done|..];
    rewrite reverse_snoc; simpl; [done|]. rewrite reverse_involutive.
  intros [Hpre [[Hp _] _]%Forall_cons]%Forall_app Hsz (x & Hx & Hf & Ha).
  rewrite layout_app in Hx. simpl in Hx, Hp. rewrite span_app, layout_app in Hx. simpl in Hx.
  unfold in_blk in Ha. rewrite !elem_of_app, !elem_of_cons in Hx.
  destruct Hx as [[Hx|[->|Hx%elem_of_nil]]|[->|Hx]]; simpl in *; try done.
  - exists x. rewrite layout_app. split_and!; [set_solver|done|done].
  - apply mid_free_area. lia.
  - apply mid_free_area. lia.
  - exists x. rewrite layout_app. split_and!; [|done|done]. simpl.
    replace (base + span pre + (p + sz)) with (base + (span pre + (p + 0)) + sz) by lia. set_solver.
Qed.

Lemma join_next_ge sz post : Forall block_ok post -> sz <= (join_next sz post).1.
Proof. intros H. destruct post as [|[n []] post]; simpl; try lia. apply Forall_cons in H as [[? _] _]. simpl in *. lia. Qed.

(** Everything [kfree] writes lies in blocks that are free afterwards. *)
Lemma pending_only base pre sz post L m m' s :
  pending s pre sz post L -> base = g_heap_base s ->
  only (fun a => base + span pre <= a < base + span pre + sz \/ link_words L a) m m' ->
  only (free_area base (pre ++ (sz, false) :: post)) m m'.
Proof.
  intros [[] Hperm] -> Ho. eapply only_weaken; [|exact Ho].
  intros a [Ha|Ha]; [by apply mid_free_area|].
  eapply link_words_free_area; [apply pr_tags0| |exact Ha].
  intros x Hx. rewrite free_hdrs_app, free_hdrs_cons. rewrite Hperm in Hx. simpl. set_solver.
Qed.

Lemma kfree_effect s pre sz post :
  heap_rep s (pre ++ (sz, true) :: post) ->
  let s' := kfree (g_heap_base s + span pre + 4) s in
  heap_rep s' (free_block pre sz post) /\
  g_heap_base s' = g_heap_base s /\ g_heap_end s' = g_heap_end s /\
  only (free_area (g_heap_base s) (free_block pre sz post)) (memory s) (memory s').
Proof.
  intros Hr. destruct (kfree_pending s pre sz post Hr) as (L0 & Hpd0 & Ho0).
  unfold kfree, SIZEOF_HEADER. pose proof Hr as [].
  pose proof hr_tags0 as [[Hpre [_ Hpost]%Forall_cons]%Forall_app _]. pose proof (span_nonneg _ Hpre).
  rewrite (proj2 (Z.eqb_neq _ 0)), hr_init0 by lia. simpl negb. cbv iota.
  replace (g_heap_base s + span pre + 4 - 4) with (g_heap_base s + span pre) by lia.
  set (s0 := with_mem _ _) in *.
  assert (same_heap (with_irq false s) s0 /\ g_heap_base s = g_heap_base s0) as [Hs0 Eb0] by done.
  clearbody s0. rewrite Eb0 in *.
  unfold coalesce_neighbors.
  destruct (merge_next_spec s0 pre sz post L0 Hpd0) as (L1 & Hpd1 & Hs1 & Ho1).
  pose proof (join_next_ge sz post Hpost) as Hge. pose proof (coalesced_free_block _ _ _ hr_coal0) as Hcoal.
  unfold free_block in *. destruct (join_next sz post) as [sz1 post1]. simpl fst in *; simpl snd in *.
  set (s1 := merge_next _ s0) in *. clearbody s1.
  assert (g_heap_base s1 = g_heap_base s0) as Eb by apply Hs1. rewrite <- Eb.
  pose proof (merge_prev_spec s1 pre sz1 post1 L1 Hpd1) as Hmp.
  destruct (merge_prev (g_heap_base s1 + span pre) s1) as [h2 s2].
  destruct Hmp as (-> & L2 & Hpd2 & Hs2 & Ho2).
  assert (only (free_area (g_heap_base s1) ((join_prev pre sz1).1 ++ ((join_prev pre sz1).2, false) :: post1))
            (memory s) (memory s2)) as Ho.
  { destruct (pending_bounds _ _ _ _ _ Hpd1) as (? & _).
    etrans; [|eapply pending_only; [exact Hpd2|by destruct Hs2 as (-> & _)|exact Ho2]].
    eapply only_weaken; [intros a; apply join_prev_area; [done|lia]|].
    etrans; [|eapply pending_only; [exact Hpd1|done|rewrite Eb; exact Ho1]].
    eapply only_weaken; [|exact Ho0]. intros a Ha. apply mid_free_area. cbv beta in Ha. lia. }
  destruct (join_prev pre sz1) as [pre2 sz2]. simpl fst in *; simpl snd in *.
  assert (g_heap_base s2 = g_heap_base s1) as Eb2 by apply Hs2. rewrite <- Eb2 in *.
  destruct (pending_insert s2 pre2 sz2 post1 L2 Hpd2) as (Hs3 & Ht3 & Hl3 & Ho3).
  pose proof (pd_rep _ _ _ _ _ Hpd2) as [].
  set (s3 := free_list_insert _ s2) in *. clearbody s3.
  assert (same_heap (with_irq false s) s3) as (Fb & Fe & Fi & _) by (do 3 (etrans; [|eassumption]); done).
  simpl in Fb, Fe, Fi. assert (g_heap_base s3 = g_heap_base s2) as Eb3 by apply Hs3.
  assert (g_heap_end s3 = g_heap_end s2) as Ee3 by apply Hs3.
  split_and!; simpl; try congruence.
  - constructor; simpl; rewrite ?Eb3, ?Ee3; try done; congruence.
  - by etrans.
Qed.

(** ** [kmalloc] *)

(** The scan returns the first listed block that is large enough. *)
Lemma find_fit_from_spec m L p total fuel (sz : Z -> Z) :
  separated L -> links m p L 0 -> (length L < fuel)%nat ->
  (forall x, x ∈ L -> tags_at m (x, (sz x, false)) /\ block_ok (sz x, false)) ->
  let r := find_fit_from fuel m (first_node L 0) total in
  (r ∈ L /\ total <= sz r) \/ (r = 0 /\ forall x, x ∈ L -> sz x < total).
Proof.
  revert p fuel. induction L as [|h L IH]; intros p fuel Hs Hl Hf Ht; (destruct fuel as [|fuel]; [simpl in Hf; lia|]).
  { simpl. right. split; [done|]. intros x Hx%elem_of_nil. done. }
  cbv zeta. cbn [find_fit_from]. rewrite first_node_eqb by done. cbn [first_node].
  destruct Hl as (_ & Hn & Hl). destruct (Ht h ltac:(by left)) as [Hth Hok].
  unfold node_to_hdr, hdr_to_node in *. replace (h + SIZEOF_HEADER - SIZEOF_HEADER) with h by lia.
  pose proof (tags_at_alloc _ _ Hth Hok) as Ea. pose proof (tags_at_size _ _ Hth Hok) as Es.
  simpl in Ea, Es. rewrite Ea, Es. simpl.
  destruct (Z.leb_spec total (sz h)); [left; split; [by left|done]|].
  rewrite Hn. destruct (IH (h + SIZEOF_HEADER) fuel) as [[Hr ?]|[-> Hall]]; try done.
  - eapply separated_sub; [exact Hs|by apply sep_nodup, NoDup_cons in Hs as [_ ?]|set_solver].
  - simpl in Hf. lia.
  - intros x Hx. apply Ht. by right.
  - left. split; [by right|done].
  - right. split; [done|]. intros x [->|Hx]%elem_of_cons; [done|by apply Hall].
Qed.

Lemma length_free_hdrs base bs : Forall block_ok bs -> 16 * Z.of_nat (length (free_hdrs base bs)) <= span bs.
Proof.
  intros H. revert base. induction H as [|b bs [Hb _] _ IH]; intros base; [simpl; unfold free_hdrs; simpl; lia|].
  rewrite free_hdrs_cons, length_app. specialize (IH (base + b.1)). simpl span. destruct b.2; simpl length; lia.
Qed.

(** The size recorded for a free header. *)
Lemma free_hdr_split base bs h :
  h ∈ free_hdrs base bs ->
  exists pre sz post, bs = pre ++ (sz, false) :: post /\ h = base + span pre.
Proof.
  revert base. induction bs as [|[sz []] bs IH]; intros base; [by intros ?%elem_of_nil|..];
    rewrite free_hdrs_cons; simpl.
  - intros (pre & z & post & -> & ->)%IH. exists ((sz, true) :: pre), z, post. simpl. split; [done|lia].
  - intros [->|(pre & z & post & -> & ->)%IH]%elem_of_cons.
    + exists [], sz, bs. simpl. split; [done|lia].
    + exists ((sz, false) :: pre), z, post. simpl. split; [done|lia].
Qed.

Lemma heap_partial s bs :
  heap_rep s bs -> exists L, L ≡ₚ free_hdrs (g_heap_base s) bs /\ partial_rep s bs L.
Proof.
  intros []. destruct hr_list0 as (L & Hperm & Hl). exists L. split; [done|].
  constructor; try done.
  - rewrite Hperm. apply free_hdrs_NoDup, hr_tags0.
  - intros x. rewrite Hperm, elem_of_free_hdrs. intros [z Hz]. eauto.
Qed.

(** [find_fit] finds a free block that fits, or there is none. *)
Lemma find_fit_spec s bs total :
  heap_rep s bs ->
  (exists pre sz post, bs = pre ++ (sz, false) :: post /\ total <= sz /\
     find_fit total s = g_heap_base s + span pre) \/
  (find_fit total s = 0 /\ forall b, b ∈ bs -> b.2 = false -> b.1 < total).
Proof.
  intros Hr. destruct (heap_partial s bs Hr) as (L & Hperm & Hp). pose proof Hr as [].
  assert (Forall block_ok bs) as Hok by apply hr_tags0.
  set (sz := fun h => blk_size (memory s) h).
  assert (forall x b, (x, b) ∈ layout (g_heap_base s) bs -> sz x = b.1) as Hsz.
  { intros x b Hx. destruct hr_tags0 as [_ Ht]. rewrite Forall_forall in Ht.
    exact (tags_at_size _ _ (Ht _ Hx) (layout_block_ok _ _ _ Hok Hx)). }
  unfold find_fit. destruct Hp as [_ _ _ _ [-> Hl] Hnd Hin].
  destruct (find_fit_from_spec (memory s) L 0 total (find_fit_fuel s) sz) as [[Hin' Hle]|[-> Hall]].
  - eapply layout_separated; eauto. lia.
  - done.
  - unfold find_fit_fuel. rewrite (Permutation_length Hperm).
    pose proof (length_free_hdrs (g_heap_base s) bs Hok). zlia.
  - intros x Hx. rewrite Hperm, elem_of_free_hdrs in Hx. destruct Hx as [z Hz].
    rewrite (Hsz _ _ Hz). simpl. destruct hr_tags0 as [_ Ht]. rewrite Forall_forall in Ht.
    split; [by apply Ht|by apply (layout_block_ok _ _ _ Hok Hz)].
  - left. set (r := find_fit_from _ _ _ _) in *. clearbody r. rewrite Hperm in Hin'. apply free_hdr_split in Hin' as Hd. destruct Hd as (pre & z & post & -> & He).
    exists pre, z, post. split_and!; [done| |done].
    rewrite (Hsz r (z, false)) in Hle; [done|]. rewrite He, layout_app. apply elem_of_app. right. by left.
  - right. split; [done|]. intros [z f] (pre & post & ->)%list_elem_of_split Hf.
    simpl in *. subst f.
    specialize (Hsz (g_heap_base s + span pre) (z, false)). simpl in Hsz. rewrite <- Hsz.
    + apply Hall. rewrite Hperm, free_hdrs_app, free_hdrs_cons. set_solver.
    + rewrite layout_app. apply elem_of_app. right. by left.
Qed.

(** How an allocation of [total] bytes carves a free block of size [sz]. *)
Definition carve (total sz : Z) : list block :=
  if 16 <=? sz - total then [(total, true); (sz - total, false)] else [(sz, true)].

Lemma span_carve total sz : span (carve total sz) = sz.
Proof. unfold carve. case_match; simpl; lia. Qed.

Lemma MIN_BLOCK_SIZE_eq : MIN_BLOCK_SIZE = 16.
Proof. reflexivity. Qed.

(** The block size asked for is always a multiple of 8 and at least 16, for
    every request, those whose rounding wraps included. *)
Lemma ALIGN8_eq x : ALIGN8 x = u32 (x + 7) / 8 * 8.
Proof. apply (land_lnot_ones (u32 (x + 7)) 3). lia. Qed.

Lemma alloc_total_ok size : 0 <= size < 2 ^ 32 -> 16 <= alloc_total size < 2 ^ 32 /\ alloc_total size mod 8 = 0.
Proof.
  intros Hs. unfold alloc_total. rewrite MIN_BLOCK_SIZE_eq, ALIGN8_eq. unfold SIZEOF_HEADER, SIZEOF_FOOTER.
  set (w := u32 (_ + 4 + 4)). pose proof (u32_range (u32 (size + 7) / 8 * 8 + 4 + 4)) as Hr. fold w in Hr.
  assert (w mod 8 = 0) as Hm by (unfold w, u32; clear; zlia). clearbody w.
  destruct (Z.ltb_spec w 16); (split; [lia|done]).
Qed.

Lemma pending_retag s pre sz post L mid m' :
  pending s pre sz post L -> span mid = sz ->
  only (fun a => g_heap_base s + span pre <= a < g_heap_base s + span pre + sz) (memory s) m' ->
  tagged m' (g_heap_base s + span pre) mid ->
  free_list m' (g_free_head s) L /\ tagged m' (g_heap_base s) (pre ++ mid ++ post).
Proof.
  intros Hpd Hsp Ho Ht. pose proof Hpd as [[] Hperm]. split.
  - destruct pr_list0 as [? Hl]. split; [done|]. eapply links_only; [exact Ho| |exact Hl].
    intros x a Hx Ha Hr. destruct (pr_in0 x Hx) as [b Hb].
    assert ((g_heap_base s + span pre, (sz, false)) ∈ layout (g_heap_base s) (pre ++ (sz, false) :: post)) as Hh
      by (rewrite layout_app; apply elem_of_app; right; by left).
    pose proof (layout_block_ok _ _ _ (proj1 pr_tags0) Hb) as [? _].
    destruct (layout_disjoint _ _ _ _ (proj1 pr_tags0) Hh Hb) as [[= <- _]|?]; simpl in *; [|lia].
    eapply pending_not_listed; [exact Hpd| |exact Hx].
    destruct (pending_bounds _ _ _ _ _ Hpd). lia.
  - eapply (tagged_replace (memory s) m' _ pre [(sz, false)]); simpl; [done|lia| |done].
    eapply only_weaken; [|exact Ho]. simpl. lia.
Qed.

Lemma coalesced_carve pre sz post total :
  coalesced (pre ++ (sz, false) :: post) = true -> coalesced (pre ++ carve total sz ++ post) = true.
Proof.
  rewrite !coalesced_app. unfold carve. simpl. destruct (16 <=? sz - total); simpl;
    destruct (coalesced pre), (coalesced post), (head_free post), (last_free pre); done.
Qed.

(** Tags written for an allocation, in either way of carving. *)
Definition carve_mem (m : mem) (h total sz : Z) : mem :=
  if 16 <=? sz - total then
    let m := st32 (st32 m h (tag (total, true))) (h + total - 4) (tag (total, true)) in
    st32 (st32 m (h + total) (tag (sz - total, false))) (h + total + (sz - total) - 4) (tag (sz - total, false))
  else st32 (st32 m h (tag (sz, true))) (h + sz - 4) (tag (sz, true)).

Lemma carve_mem_spec m h total sz :
  block_ok (total, true) -> block_ok (sz, false) -> total <= sz < 2 ^ 32 - 1 ->
  tagged (carve_mem m h total sz) h (carve total sz) /\
  only (fun a => h <= a < h + sz) m (carve_mem m h total sz).
Proof.
  intros Ht Hs Hle. unfold carve_mem, carve. destruct (Z.leb_spec 16 (sz - total)) as [H|H].
  - assert (block_ok (sz - total, false)) as Hr by (destruct Ht, Hs; split; simpl in *; zlia).
    destruct (write_tags_spec m h (total, true)) as [T1 O1]; [done|simpl; lia|].
    set (m1 := st32 (st32 m h _) _ _) in *. simpl in T1, O1. fold m1 in T1, O1.
    destruct (write_tags_spec m1 (h + total) (sz - total, false)) as [T2 O2]; [done|simpl; destruct Ht; simpl in *; lia|].
    simpl in T2, O2. set (m2 := st32 (st32 m1 _ _) _ _) in *. split.
    + apply tagged_cons. split_and!; [done| |apply tagged_cons; done].
      eapply tags_at_only; [exact O2|done| |exact T1]. unfold in_blk; simpl. lia.
    + etrans; [eapply only_weaken; [|exact O1]; simpl; lia|].
      eapply only_weaken; [|exact O2]. simpl. destruct Ht. simpl in *. lia.
  - destruct (write_tags_spec m h (sz, true)) as [T1 O1]; [done|simpl; lia|].
    split; [by apply tagged_cons|exact O1].
Qed.

(** The part of [kmalloc] after a block has been found, on the block list. *)
Definition kmalloc_take (h total : Z) (s : kheap) : kheap :=
  let s := free_list_remove h s in
  let cur_sz := blk_size (memory s) h in
  let rem := if total <? cur_sz then cur_sz - total else 0 in
  if MIN_BLOCK_SIZE <=? rem then
    let m := st32 (memory s) h (Z.lor total 1) in
    let m := st32 m (blk_footer m h) (ld32 m h) in
    let rem_h := h + total in
    let m := st32 m rem_h (clear_flag rem) in
    let m := st32 m (blk_footer m rem_h) (ld32 m rem_h) in
    free_list_insert rem_h (with_mem m s)
  else
    let m := st32 (memory s) h (Z.lor (ld32 (memory s) h) 1) in
    with_mem (st32 m (blk_footer m h) (ld32 m h)) s.

Lemma kmalloc_unfold size s :
  size <> 0 -> g_initialized s = true ->
  kmalloc size s =
    (let h := find_fit (alloc_total size) s in
     if h =? 0 then (0, with_irq true s)
     else (h + 4, with_irq true (kmalloc_take h (alloc_total size) (with_irq false s)))).
Proof.
  intros Hs Hi. unfold kmalloc. rewrite (proj2 (Z.eqb_neq size 0)), Hi by done. reflexivity.
Qed.

(** After the removal the block is pending, and the two ways to write its
    tags are [carve_mem]. *)
Lemma kmalloc_take_mem s1 pre sz post L total :
  pending s1 pre sz post L -> block_ok (total, true) -> total <= sz -> sz < 2 ^ 32 - 1 ->
  let h := g_heap_base s1 + span pre in
  let m' := carve_mem (memory s1) h total sz in
  let cur_sz := blk_size (memory s1) h in
  let rem := if total <? cur_sz then cur_sz - total else 0 in
  (if MIN_BLOCK_SIZE <=? rem then
    let m := st32 (memory s1) h (Z.lor total 1) in
    let m := st32 m (blk_footer m h) (ld32 m h) in
    let rem_h := h + total in
    let m := st32 m rem_h (clear_flag rem) in
    let m := st32 m (blk_footer m rem_h) (ld32 m rem_h) in
    free_list_insert rem_h (with_mem m s1)
  else
    let m := st32 (memory s1) h (Z.lor (ld32 (memory s1) h) 1) in
    with_mem (st32 m (blk_footer m h) (ld32 m h)) s1) =
  (if 16 <=? sz - total then free_list_insert (h + total) (with_mem m' s1) else with_mem m' s1).
Proof.
  intros Hpd Htot Hle Hlim h m'. subst m'. cbv zeta. pose proof Hpd as [[] _].
  destruct (tagged_at _ _ _ _ _ pr_tags0) as (Hok & Hsz & _). fold h in Hsz. rewrite Hsz. simpl.
  pose proof pr_tags0 as [_ (_ & [Hld _] & _)%tagged_cons]%tagged_app. simpl in Hld.
  pose proof Htot as [Ht1 Ht2]; simpl in Ht1, Ht2. pose proof Hok as [Hs1 Hs2]; simpl in Hs1, Hs2.
  rewrite MIN_BLOCK_SIZE_eq. unfold carve_mem.
  destruct (Z.leb_spec 16 (sz - total)) as [H|H].
  - rewrite (proj2 (Z.ltb_lt total sz)), (proj2 (Z.leb_le 16 (sz - total))) by lia.
    assert (block_ok (sz - total, false)) as Hr by (split; simpl; zlia).
    rewrite (header_footer_eq _ h (total, true) (Z.lor total 1)) by (done || simpl; lia || (unfold tag; simpl; by apply lor_1_even)).
    rewrite (header_footer_eq _ (h + total) (sz - total, false) (clear_flag (sz - total)));
      [done|done|simpl; lia|]. unfold tag; simpl. rewrite clear_flag_even by (apply Hr). lia.
  - rewrite (proj2 (Z.leb_gt 16 _)) by (destruct (Z.ltb_spec total sz); lia).
    fold h in Hld. rewrite Hld.
    rewrite (header_footer_eq _ h (sz, true)); [done|done|simpl; lia|].
    unfold tag; simpl. rewrite Z.add_0_r. by apply lor_1_even.
Qed.

(** Splitting a pending block: the front becomes allocated, the rest pending. *)
Lemma split_pending s pre sz post L total m' :
  pending s pre sz post L -> 0 <= total ->
  only (fun a => g_heap_base s + span pre <= a < g_heap_base s + span pre + sz) (memory s) m' ->
  tagged m' (g_heap_base s + span pre) [(total, true); (sz - total, false)] ->
  pending (with_mem m' s) (pre ++ [(total, true)]) (sz - total) post L.
Proof.
  intros Hpd Htot Ho Ht. pose proof Hpd as [[] Hperm].
  destruct (pending_retag s pre sz post L [(total, true); (sz - total, false)] m' Hpd)
    as [Hfl Htg]; [simpl; lia|done|done|].
  assert (g_heap_base s + span (pre ++ [(total, true)]) = g_heap_base s + span pre + total) as Hsp
    by (rewrite span_app; simpl; lia).
  assert (g_heap_base s + span pre + total + (sz - total) = g_heap_base s + span pre + sz) as Hsz by lia.
  simpl in Htg. constructor; simpl; [constructor; simpl; rewrite <- ?app_assoc; try done|].
  - rewrite <- pr_end0, !span_app. simpl. lia.
  - intros x Hx. rewrite Hperm in Hx. rewrite layout_app. simpl. rewrite Hsz.
    apply elem_of_app in Hx as [[z Hz]%elem_of_free_hdrs|[z Hz]%elem_of_free_hdrs]; exists (z, false); set_solver.
  - rewrite Hsp, Hsz, free_hdrs_app, free_hdrs_cons, Hperm. simpl.
    change (free_hdrs (g_heap_base s + span pre + total) []) with (@nil Z). by rewrite app_nil_r.
Qed.

Lemma free_area_carve base pre sz post total a :
  0 <= total -> free_area base (pre ++ (total, true) :: (sz - total, false) :: post) a ->
  free_area base (pre ++ (sz, false) :: post) a.
Proof.
  intros Ht (x & Hx & Hf & Ha). rewrite layout_app in Hx. simpl in Hx. unfold in_blk in Ha.
  replace (base + span pre + total + (sz - total)) with (base + span pre + sz) in Hx by lia.
  apply elem_of_app in Hx as [Hx|[->|[->|Hx]%elem_of_cons]%elem_of_cons]; simpl in *; [|done|..].
  - exists x. rewrite layout_app. split_and!; [set_solver|done|done].
  - apply mid_free_area. lia.
  - exists x. rewrite layout_app. simpl. split_and!; [set_solver|done|done].
Qed.

(** Unlinking the block [find_fit] returned leaves it pending. *)
Lemma take_pending s pre sz post :
  heap_rep s (pre ++ (sz, false) :: post) ->
  let s1 := free_list_remove (g_heap_base s + span pre) s in
  same_heap s s1 /\
  (exists L, pending s1 pre sz post L) /\
  only (free_area (g_heap_base s) (pre ++ (sz, false) :: post)) (memory s) (memory s1).
Proof.
  intros Hr s1. destruct (heap_partial _ _ Hr) as (L & Hperm & Hp). pose proof Hr as [].
  rewrite free_hdrs_app, free_hdrs_cons in Hperm. simpl in Hperm.
  destruct (remove_block s _ L (g_heap_base s + span pre) Hp) as (L' & HL' & Hp' & Hsame & Ho).
  { rewrite Hperm. set_solver. }
  assert (L' ≡ₚ free_hdrs (g_heap_base s) pre ++ free_hdrs (g_heap_base s + span pre + sz) post) as Hperm'.
  { apply (Permutation_cons_inv (a := g_heap_base s + span pre)).
    by rewrite <- HL', Hperm, Permutation_middle. }
  split_and!; [done| |].
  - exists L'. constructor; [done|]. assert (g_heap_base s1 = g_heap_base s) as -> by apply Hsame. done.
  - eapply only_weaken; [|exact Ho]. intros a. apply link_words_free_area; [apply hr_tags0|].
    intros x Hx. rewrite free_hdrs_app, free_hdrs_cons. simpl. rewrite Hperm' in Hx. set_solver.
Qed.

Lemma kmalloc_take_spec s pre sz post total :
  heap_rep s (pre ++ (sz, false) :: post) ->
  block_ok (total, true) -> total <= sz ->
  let s' := kmalloc_take (g_heap_base s + span pre) total s in
  heap_rep s' (pre ++ carve total sz ++ post) /\
  g_heap_base s' = g_heap_base s /\ g_heap_end s' = g_heap_end s /\
  only (free_area (g_heap_base s) (pre ++ (sz, false) :: post)) (memory s) (memory s').
Proof.
  intros Hr Htot Hle. pose proof Hr as [].
  destruct (take_pending _ _ _ _ Hr) as (Hsame & (L & Hpd) & Ho).
  unfold kmalloc_take. set (s1 := free_list_remove _ s) in *. clearbody s1.
  destruct Hsame as (Eb & Ee & Ei & _).
  destruct (pending_bounds _ _ _ _ _ Hpd) as (Hs16 & ? & ? & ? & Hend1).
  pose proof (kmalloc_take_mem s1 pre sz post L total Hpd Htot Hle ltac:(lia)) as Htake. cbv zeta in Htake.
  cbv zeta. rewrite <- Eb. rewrite Htake. clear Htake. rewrite <- Eb in Ho.
  pose proof (pd_rep _ _ _ _ _ Hpd) as Hp. pose proof (proj1 (pr_tags _ _ _ Hp)) as [_ [Hok _]%Forall_cons]%Forall_app.
  destruct (carve_mem_spec (memory s1) (g_heap_base s1 + span pre) total sz) as [Htc Hoc]; [done|done|lia|].
  set (m' := carve_mem _ _ _ _) in *. clearbody m'.
  assert (only (free_area (g_heap_base s1) (pre ++ (sz, false) :: post)) (memory s) m') as Hom.
  { etrans; [exact Ho|]. eapply only_weaken; [|exact Hoc]. intros a Ha. by apply mid_free_area. }
  destruct (pending_retag s1 pre sz post L (carve total sz) m' Hpd) as [Hfl Htg];
    [apply span_carve|done|done|].
  assert (g_heap_base s1 + span (pre ++ carve total sz ++ post) = g_heap_end s1) as Hend.
  { rewrite !span_app, span_carve, Hend1. lia. }
  pose proof (coalesced_carve pre sz post total hr_coal0) as Hcoal.
  unfold carve in *. destruct (Z.leb_spec 16 (sz - total)) as [Hsp|Hsp].
  2: { split_and!; simpl; try done. constructor; simpl; try congruence; try done.
       exists L. rewrite free_hdrs_app, free_hdrs_cons. simpl. split; [apply Hpd|done]. }
  pose proof (split_pending s1 pre sz post L total m' Hpd ltac:(destruct Htot; simpl in *; lia) Hoc Htc) as Hpd2.
  destruct (pending_insert _ _ _ _ _ Hpd2) as (Hs3 & Ht3 & Hl3 & Ho3).
  assert (g_heap_base (with_mem m' s1) + span (pre ++ [(total, true)]) = g_heap_base s1 + span pre + total)
    as Hh2 by (rewrite span_app; simpl; lia).
  rewrite Hh2 in Hs3, Ht3, Hl3, Ho3. set (s3 := free_list_insert _ _) in *. clearbody s3.
  rewrite <- app_assoc in Ht3, Hl3, Ho3. destruct Hs3 as (Fb & Fe & Fi & _). simpl in *.
  split_and!; try congruence.
  - constructor; rewrite ?Fb, ?Fe; try congruence; done.
  - etrans; [exact Hom|]. eapply only_weaken; [|exact Ho3].
    intros a. apply free_area_carve. destruct Htot. simpl in *. lia.
Qed.

(** ** The allocated blocks as seen by a client *)

(** [(x, z)] is an allocated block: header address and total size. *)
Definition allocated (s : kheap) (bs : list block) (x z : Z) : Prop :=
  (x, (z, true)) ∈ layout (g_heap_base s) bs.

Lemma layout_mid base pre b post : (base + span pre, b) ∈ layout base (pre ++ b :: post).
Proof. rewrite layout_app. apply elem_of_app. right. by left. Qed.

Lemma layout_split base bs x b :
  (x, b) ∈ layout base bs -> exists pre post, bs = pre ++ b :: post /\ x = base + span pre.
Proof.
  revert base. induction bs as [|c bs IH]; intros base; simpl; [by intros ?%elem_of_nil|].
  intros [[= -> ->]|(pre & post & -> & ->)%IH]%elem_of_cons.
  - exists [], bs. simpl. split; [done|lia].
  - exists (c :: pre), post. simpl. split; [done|lia].
Qed.

Definition carved_size (total sz : Z) : Z := if 16 <=? sz - total then total else sz.

Lemma carve_alloc_iff base pre sz post total x z :
  (x, (z, true)) ∈ layout base (pre ++ carve total sz ++ post) <->
  (x, (z, true)) ∈ layout base (pre ++ (sz, false) :: post) \/
  (x = base + span pre /\ z = carved_size total sz).
Proof.
  unfold carve, carved_size. rewrite !layout_app, !elem_of_app. simpl.
  destruct (16 <=? sz - total); simpl; rewrite ?elem_of_cons, ?elem_of_nil.
  - replace (base + span pre + (total + (sz - total + 0))) with (base + span pre + sz) by lia.
    split; [intros [?|[[[= -> ->]|[?|?]]|?]]|intros [[?|[?|?]]|[-> ->]]]; simplify_eq; tauto.
  - rewrite Z.add_0_r. split; [intros [?|[[[= -> ->]|?]|?]]|intros [[?|[?|?]]|[-> ->]]]; simplify_eq; tauto.
Qed.

Lemma free_block_shape pre sz post :
  exists pre0 sz0 post0 l r,
    free_block pre sz post = pre0 ++ (sz0, false) :: post0 /\
    pre = pre0 ++ l /\ post = r ++ post0 /\ sz0 = span l + sz + span r /\
    Forall (fun b => b.2 = false) (l ++ r).
Proof.
  unfold free_block.
  assert (exists r, post = r ++ (join_next sz post).2 /\ (join_next sz post).1 = sz + span r /\
            Forall (fun b => b.2 = false) r) as (r & Hr1 & Hr2 & Hr3).
  { destruct post as [|[n []] post]; simpl; [exists []; simpl; split_and!; [done|lia|done]..|].
    exists [(n, false)]. simpl. split_and!; [done|lia|by repeat constructor]. }
  destruct (join_next sz post) as [sz1 post1]. simpl in *.
  assert (exists l, pre = (join_prev pre sz1).1 ++ l /\ (join_prev pre sz1).2 = span l + sz1 /\
            Forall (fun b => b.2 = false) l) as (l & Hl1 & Hl2 & Hl3).
  { unfold join_prev. destruct pre as [|[p []] pre _] using rev_ind; rewrite ?reverse_snoc; simpl;
      [exists []; simpl; split_and!; [done|lia|done]|exists []; simpl; split_and!; [by rewrite app_nil_r|lia|done]|].
    exists [(p, false)]. rewrite reverse_involutive. simpl. split_and!; [done|lia|by repeat constructor]. }
  destruct (join_prev pre sz1) as [pre1 sz2]. simpl in *.
  exists pre1, sz2, post1, l, r. split_and!; [done|done|done|lia|by apply Forall_app].
Qed.

Lemma free_layout_not_alloc base bs x z :
  Forall (fun b => b.2 = false) bs -> ~ (x, (z, true)) ∈ layout base bs.
Proof.
  intros H (pre & post & -> & _)%layout_split. apply Forall_app in H as [_ [Hc _]%Forall_cons]. by simpl in Hc.
Qed.

Lemma free_alloc_iff base pre sz post x z :
  Forall block_ok (pre ++ (sz, true) :: post) ->
  (x, (z, true)) ∈ layout base (free_block pre sz post) <->
  (x, (z, true)) ∈ layout base (pre ++ (sz, true) :: post) /\ x <> base + span pre.
Proof.
  intros Hok. destruct (free_block_shape pre sz post) as (p0 & z0 & q0 & l & r & -> & -> & -> & -> & Hf).
  apply Forall_app in Hf as [Hl Hr].
  assert ((x, (z, true)) ∈ layout base ((p0 ++ l) ++ (sz, true) :: r ++ q0) <->
    (x, (z, true)) ∈ layout base p0 \/ (x, (z, true)) ∈ layout (base + span p0 + (span l + sz + span r)) q0 \/
    (x = base + span (p0 ++ l) /\ z = sz)) as ->.
  { rewrite !layout_app, span_app. simpl. rewrite layout_app, !elem_of_app, elem_of_cons, elem_of_app.
    replace (base + (span p0 + span l) + sz + span r) with (base + span p0 + (span l + sz + span r)) by lia.
    pose proof (free_layout_not_alloc (base + span p0) l x z Hl).
    pose proof (free_layout_not_alloc (base + (span p0 + span l) + sz) r x z Hr).
    split; [intros [[?|?]|[[= -> ->]|[?|?]]]; tauto|intros [?|[?|[-> ->]]]; tauto]. }
  rewrite layout_app, elem_of_app. simpl. rewrite elem_of_cons.
  pose proof Hok as [[Hp0 Hlk]%Forall_app [[? _] [Hrk Hq0]%Forall_app]%Forall_cons]%Forall_app.
  pose proof (span_nonneg _ Hlk). pose proof (span_nonneg _ Hrk). simpl in *. rewrite span_app.
  split.
  - intros [Hx|[[=]|Hx]]; [pose proof (layout_block_ok _ _ _ Hp0 Hx) as [? _]|];
      pose proof Hx as Hb; apply layout_bounds in Hb; try done; simpl in *; split; try tauto; lia.
  - intros [[Hx|[Hx|[-> ->]]] Hne]; [tauto..|]. lia.
Qed.

(** ** Outcomes of the operations *)

Lemma with_irq_rep b s bs : heap_rep s bs -> heap_rep (with_irq b s) bs.
Proof. intros []. by constructor. Qed.

(** The two outcomes of [kmalloc], by position in the block list. *)
Lemma kmalloc_cases s bs size :
  heap_rep s bs -> 0 < size < 2 ^ 32 ->
  (kmalloc size s = (0, with_irq true s) /\
   forall b, b ∈ bs -> b.2 = false -> b.1 < alloc_total size) \/
  (exists pre sz post s', bs = pre ++ (sz, false) :: post /\ alloc_total size <= sz /\
     kmalloc size s = (g_heap_base s + span pre + 4, s') /\
     heap_rep s' (pre ++ carve (alloc_total size) sz ++ post) /\
     g_heap_base s' = g_heap_base s /\
     only (free_area (g_heap_base s) bs) (memory s) (memory s')).
Proof.
  intros Hr Hsz. destruct (alloc_total_ok size ltac:(lia)) as [Ht Hm]. pose proof Hr as [].
  rewrite kmalloc_unfold by (done || lia). cbv zeta.
  destruct (find_fit_spec s bs (alloc_total size) Hr) as [(pre & sz & post & -> & Hle & ->)|[-> Hno]];
    [|by left].
  pose proof hr_tags0 as [[Hpre%span_nonneg _]%Forall_app _].
  rewrite (proj2 (Z.eqb_neq _ 0)) by lia. right.
  destruct (kmalloc_take_spec _ pre sz post (alloc_total size) (with_irq_rep false _ _ Hr))
    as (Hrep & Eb & _ & Ho); [split; simpl; [lia|done]|done|].
  change (g_heap_base (with_irq false s)) with (g_heap_base s) in *.
  set (s2 := kmalloc_take _ _ _) in *. clearbody s2. simpl in Ho.
  exists pre, sz, post, (with_irq true s2). split_and!; try done. by apply with_irq_rep.
Qed.

Lemma carved_size_ge total sz : total <= sz -> total <= carved_size total sz.
Proof. unfold carved_size. case_match; lia. Qed.

(** [kmalloc] as the client sees it. *)
Definition kmalloc_outcome (s : kheap) (bs : list block) (total p : Z) (s' : kheap) : Prop :=
  (p = 0 /\ s' = with_irq true s /\ forall b, b ∈ bs -> b.2 = false -> b.1 < total) \/
  (exists bs' z, 0 < p /\ heap_rep s' bs' /\ total <= z /\
     (forall x y, allocated s' bs' x y <-> allocated s bs x y \/ (x = p - 4 /\ y = z)) /\
     (forall x y, allocated s bs x y -> x <> p - 4) /\
     g_heap_base s' = g_heap_base s /\
     only (free_area (g_heap_base s) bs) (memory s) (memory s')).

Lemma kmalloc_has_outcome s bs size :
  heap_rep s bs -> 0 < size < 2 ^ 32 ->
  kmalloc_outcome s bs (alloc_total size) (kmalloc size s).1 (kmalloc size s).2.
Proof.
  intros Hr Hsz.
  destruct (kmalloc_cases s bs size Hr Hsz) as [[-> Hno]|(pre & sz & post & s' & -> & Hle & -> & Hr' & Eb & Ho)];
    [by left|right]; simpl.
  exists (pre ++ carve (alloc_total size) sz ++ post), (carved_size (alloc_total size) sz).
  replace (g_heap_base s + span pre + 4 - 4) with (g_heap_base s + span pre) by lia.
  pose proof (hr_tags _ _ Hr) as [Hok _]. pose proof (hr_base _ _ Hr).
  pose proof Hok as [Hpre%span_nonneg _]%Forall_app.
  split_and!; [lia|done|by apply carved_size_ge| | |done|done].
  - intros x y. unfold allocated. by rewrite Eb, carve_alloc_iff.
  - intros x y Hx ->. pose proof (layout_mid (g_heap_base s) pre (sz, false) post) as Hh.
    by pose proof (layout_addr_inj _ _ _ _ Hok Hx Hh eq_refl).
Qed.

(** [kfree] as the client sees it. *)
Definition kfree_outcome (s : kheap) (bs : list block) (x : Z) (s' : kheap) : Prop :=
  exists bs', heap_rep s' bs' /\
    (forall y w, allocated s' bs' y w <-> allocated s bs y w /\ y <> x) /\
    g_heap_base s' = g_heap_base s /\
    only (free_area (g_heap_base s) bs') (memory s) (memory s').

Lemma kfree_has_outcome s bs x z :
  heap_rep s bs -> allocated s bs x z -> kfree_outcome s bs x (kfree (x + 4) s).
Proof.
  intros Hr (pre & post & -> & ->)%layout_split.
  destruct (kfree_effect s pre z post Hr) as (Hr' & Eb & Ee & Ho).
  exists (free_block pre z post). split_and!; [done| |done|done].
  intros y w. unfold allocated. rewrite Eb. apply free_alloc_iff, (hr_tags _ _ Hr).
Qed.

(** Bytes of allocated blocks are not in the free area. *)
Lemma alloc_bytes_kept base bs m m' x z a :
  Forall block_ok bs -> only (free_area base bs) m m' ->
  (x, (z, true)) ∈ layout base bs -> x <= a < x + z -> ld8 m' a = ld8 m a.
Proof.
  intros Hok Ho Hx Ha. apply Ho. intros (y & Hy & Hf & Hb). unfold in_blk in Hb.
  destruct (layout_disjoint _ _ _ _ Hok Hx Hy) as [<-|?]; simpl in *; [done|lia].
Qed.

(** For requests that do not wrap, the payload holds the request. *)
Lemma alloc_total_ge size : 0 <= size <= 2 ^ 32 - 16 -> size + 8 <= alloc_total size.
Proof.
  intros Hs. unfold alloc_total. rewrite MIN_BLOCK_SIZE_eq, ALIGN8_eq.
  unfold SIZEOF_HEADER, SIZEOF_FOOTER. rewrite (u32_small (size + 7)) by lia.
  rewrite u32_small by zlia. case_match; bool_to_prop; zlia.
Qed.

(** ** Initialisation *)

(** The boot heap is one free block that spans the mapped region. *)
Lemma kheap_initialize_rep s :
  g_initialized s = false ->
  heap_rep (kheap_initialize s) [(paging_heap_size, false)] /\
  g_heap_base (kheap_initialize s) = paging_heap_base.
Proof.
  intros Hi. unfold kheap_initialize. rewrite Hi.
  change (u32 (paging_heap_base + paging_heap_size)) with (0x40400000).
  change (ALIGN8 (u32 (0x40400000 - paging_heap_base))) with paging_heap_size.
  change (clear_flag paging_heap_size) with paging_heap_size.
  set (b := (paging_heap_size, false)).
  assert (block_ok b) as Hb by (by split).
  assert (b.1 < 2 ^ 32 - 1) as Ht by done.
  destruct (write_tags_spec (memory s) paging_heap_base b Hb Ht) as [Hw _].
  rewrite (header_footer_eq (memory s) paging_heap_base b paging_heap_size Hb Ht eq_refl).
  set (m := st32 (st32 (memory s) _ _) _ _) in *. clearbody m.
  set (s1 := mk_kheap m _ _ _ _ _).
  assert (pending s1 [] paging_heap_size [] []) as Hpd.
  { constructor; [|done]. constructor; try done.
    - apply tagged_cons. split_and!; [done|exact Hw|split; constructor].
    - constructor.
    - intros x Hx. by apply elem_of_nil in Hx. }
  destruct (pending_insert _ _ _ _ _ Hpd) as ((Eb & Ee & _) & Htg & Hl & _).
  change (g_heap_base s1 + span []) with paging_heap_base in *.
  set (s2 := free_list_insert _ s1) in *. clearbody s2. simpl in *.
  split; [|done]. constructor; simpl; rewrite ?Eb, ?Ee; try done.
Qed.

(** ** [kcalloc] and [krealloc] *)

Lemma with_mem_rep s bs m x z :
  heap_rep s bs -> allocated s bs x z ->
  only (fun a => x + 4 <= a < x + z - 4) (memory s) m -> heap_rep (with_mem m s) bs.
Proof.
  intros [] Hx Ho. unfold allocated in Hx.
  pose proof (layout_block_ok _ _ _ (proj1 hr_tags0) Hx) as [? _].
  constructor; simpl; try done.
  - destruct hr_tags0 as [Hok Ht]. split; [done|]. rewrite Forall_forall in Ht |- *. intros y Hy.
    pose proof (layout_block_ok _ _ _ Hok Hy) as [? _]. destruct (Ht y Hy) as [H1 H2].
    destruct (layout_disjoint _ _ _ _ Hok Hx Hy) as [<-|Hd]; simpl in *;
      (split; simpl; (erewrite only_ld32; [eassumption|exact Ho|simpl; lia])).
  - destruct hr_list0 as (L & Hp & H0 & Hl). exists L. split; [done|]. split; [done|].
    eapply links_only; [exact Ho| |exact Hl]. intros h a Hh Ha. rewrite Hp in Hh.
    apply elem_of_free_hdrs in Hh as [w Hw]. pose proof (layout_block_ok _ _ _ (proj1 hr_tags0) Hw) as [? _].
    destruct (layout_disjoint _ _ _ _ (proj1 hr_tags0) Hx Hw) as [[=]|?]; simpl in *; lia.
Qed.

Lemma only_memset m p v n : only (fun a => p <= a < p + Z.of_nat n) m (memset m p v n).
Proof. intros a Ha. apply ld8_memset_ne. lia. Qed.
Lemma only_memcpy m d s n : only (fun a => d <= a < d + Z.of_nat n) m (memcpy m d s n).
Proof. intros a Ha. apply ld8_memcpy_ne. lia. Qed.

(** An allocated block's payload is not shorter than the request. *)
Lemma allocated_bounds s bs x z :
  heap_rep s bs -> allocated s bs x z -> 16 <= z /\ 0 < x /\ x + z <= g_heap_end s < 2 ^ 32.
Proof.
  intros [] Hx. pose proof (layout_block_ok _ _ _ (proj1 hr_tags0) Hx) as [? _].
  apply layout_bounds in Hx; [|apply hr_tags0]. simpl in *. lia.
Qed.

Lemma allocated_size s bs x z :
  heap_rep s bs -> allocated s bs x z -> blk_size (memory s) x = z.
Proof.
  intros [] Hx. destruct hr_tags0 as [Hok Ht]. rewrite Forall_forall in Ht.
  apply (tags_at_size _ (x, (z, true))); [by apply Ht|by eapply layout_block_ok].
Qed.

Lemma krealloc_unfold s bs x z n :
  heap_rep s bs -> allocated s bs x z -> z - 8 < n ->
  krealloc (x + 4) n s =
    let '(np, s) := kmalloc n s in
    if np =? 0 then (0, s)
    else (np, kfree (x + 4) (with_mem (memcpy (memory s) np (x + 4) (Z.to_nat (z - 8))) s)).
Proof.
  intros Hr Hx Hn. destruct (allocated_bounds _ _ _ _ Hr Hx) as (? & ? & ? & ?).
  unfold krealloc, SIZEOF_HEADER, SIZEOF_FOOTER. replace (x + 4 - 4) with x by lia.
  rewrite (allocated_size _ _ _ _ Hr Hx), u32_small by lia.
  replace (z - 4 - 4) with (z - 8) by lia.
  by rewrite !(proj2 (Z.eqb_neq _ 0)), (proj2 (Z.leb_gt _ _)) by lia.
Qed.

(** A successful [kmalloc] hides its outcome behind the free blocks: bytes
    of blocks that were allocated before are unchanged. *)
Lemma kmalloc_success s bs n p s' :
  heap_rep s bs -> 0 < n <= 2 ^ 32 - 16 -> kmalloc n s = (p, s') -> p <> 0 ->
  exists bs' z, heap_rep s' bs' /\ n + 8 <= z /\ g_heap_base s' = g_heap_base s /\
    allocated s' bs' (p - 4) z /\
    (forall x y, allocated s' bs' x y <-> allocated s bs x y \/ (x = p - 4 /\ y = z)) /\
    (forall x y, allocated s bs x y -> x <> p - 4) /\
    (forall x y a, allocated s bs x y -> x <= a < x + y -> ld8 (memory s') a = ld8 (memory s) a).
Proof.
  intros Hr Hn E Hp. pose proof (kmalloc_has_outcome s bs n Hr ltac:(lia)) as Ho. rewrite E in Ho. simpl in Ho.
  destruct Ho as [[-> _]|(bs' & z & _ & Hr' & Hz & Hall & Hne & Eb & Ho)]; [done|].
  pose proof (alloc_total_ge n ltac:(lia)). exists bs', z.
  split_and!; try done; [lia|by apply Hall; right|].
  intros x y a Hx Ha. eapply alloc_bytes_kept; [apply (hr_tags _ _ Hr)|exact Ho|exact Hx|exact Ha].
Qed.

(** A null result means that only the interrupt flag was written. *)
Lemma kmalloc_null s bs n s' :
  heap_rep s bs -> 0 < n < 2 ^ 32 -> kmalloc n s = (0, s') -> s' = with_irq true s.
Proof.
  intros Hr Hn E.
  destruct (kmalloc_cases s bs n Hr Hn) as [[E' _]|(pre & ? & ? & ? & -> & _ & E' & _)];
    rewrite E' in E; simplify_eq; [done|].
  pose proof (hr_tags _ _ Hr) as [[Hpre%span_nonneg _]%Forall_app _]. pose proof (hr_base _ _ Hr). lia.
Qed.

Lemma allocated_disjoint s bs x y x' y' :
  heap_rep s bs -> allocated s bs x y -> allocated s bs x' y' -> x <> x' ->
  x + y <= x' \/ x' + y' <= x.
Proof.
  intros Hr Hx Hy Hne. destruct (layout_disjoint _ _ _ _ (proj1 (hr_tags _ _ Hr)) Hx Hy) as [[= ->]|?]; [done|].
  simpl in *. lia.
Qed.

(** ** Main theorems *)

(** C8: [kmalloc] on a well-formed heap either fails - then no free block is
    large enough and nothing but the interrupt flag changed - or returns the
    payload of a block that was free: the heap stays well formed, the set of
    allocated blocks grows by exactly that block, whose size is at least the
    rounded request, and no byte outside previously free blocks is written.
    The payload address is 4 modulo 8. *)
Theorem kmalloc_correct s bs size :
  heap_rep s bs -> 0 < size < 2 ^ 32 ->
  let '(p, s') := kmalloc size s in
  kmalloc_outcome s bs (alloc_total size) p s' /\ (p <> 0 -> p mod 8 = 4).
Proof.
  intros Hr Hsz. pose proof (kmalloc_has_outcome s bs size Hr Hsz) as Ho.
  destruct (kmalloc_cases s bs size Hr Hsz) as [[E _]|(pre & sz & post & s' & -> & _ & E & _)];
    rewrite E in *; split; try done.
  intros _. pose proof (hr_align _ _ Hr) as Hal. pose proof (hr_tags _ _ Hr) as [[Hpre _]%Forall_app _].
  assert (span pre mod 8 = 0) as Hsp by (clear -Hpre; induction Hpre as [|b l [_ ?] _ IH]; simpl; zlia).
  clear -Hal Hsp. zlia.
Qed.

(** C9: [kfree] of the payload of an allocated block keeps the heap well
    formed (free neighbours merged in, so no two free blocks are adjacent),
    removes exactly that block from the allocated ones, and writes no byte
    of a block that stays allocated. *)
Theorem kfree_correct s bs x z :
  heap_rep s bs -> allocated s bs x z ->
  kfree_outcome s bs x (kfree (x + 4) s) /\
  forall y w a, allocated s bs y w -> y <> x -> y <= a < y + w ->
    ld8 (memory (kfree (x + 4) s)) a = ld8 (memory s) a.
Proof.
  intros Hr Hx. pose proof (kfree_has_outcome s bs x z Hr Hx) as Ho. split; [done|].
  destruct Ho as (bs' & Hr' & Hall & Eb & Ho). intros y w a Hy Hne Ha.
  eapply (alloc_bytes_kept (g_heap_base s) bs'); [apply (hr_tags _ _ Hr')|exact Ho| |exact Ha].
  rewrite <- Eb. by apply Hall.
Qed.

Lemma kfree_success s bs x z :
  heap_rep s bs -> allocated s bs x z ->
  exists bs', heap_rep (kfree (x + 4) s) bs' /\
    (forall y w, allocated (kfree (x + 4) s) bs' y w <-> allocated s bs y w /\ y <> x) /\
    (forall y w a, allocated s bs y w -> y <> x -> y <= a < y + w ->
       ld8 (memory (kfree (x + 4) s)) a = ld8 (memory s) a).
Proof.
  intros Hr Hx. destruct (kfree_has_outcome s bs x z Hr Hx) as (bs' & Hr' & Hall & Eb & Ho).
  exists bs'. split_and!; [done|done|]. intros y w a Hy Hne Ha.
  eapply (alloc_bytes_kept (g_heap_base s) bs'); [apply (hr_tags _ _ Hr')|exact Ho| |exact Ha].
  rewrite <- Eb. by apply Hall.
Qed.

(** [krealloc] of an allocated block either leaves everything as it is
    (the request fits the old payload), or fails with the old block intact,
    or moves the block: the heap stays well formed, the old block is freed,
    the new one holds the whole old payload and room for the request, and
    every other allocated block keeps its bytes. *)
Theorem krealloc_correct s bs x z n :
  heap_rep s bs -> allocated s bs x z -> 0 < n <= 2 ^ 32 - 16 ->
  let '(p, s') := krealloc (x + 4) n s in
  (n <= z - 8 /\ p = x + 4 /\ s' = s) \/
  (z - 8 < n /\ p = 0 /\ s' = with_irq true s) \/
  (z - 8 < n /\ p <> 0 /\ exists bs' w, heap_rep s' bs' /\ n + 8 <= w /\
     (forall y v, allocated s' bs' y v <-> (allocated s bs y v /\ y <> x) \/ (y = p - 4 /\ v = w)) /\
     (forall i, 0 <= i < z - 8 -> ld8 (memory s') (p + i) = ld8 (memory s) (x + 4 + i)) /\
     (forall y v a, allocated s bs y v -> y <> x -> y <= a < y + v ->
        ld8 (memory s') a = ld8 (memory s) a)).
Proof.
  intros Hr Hx Hn. destruct (allocated_bounds _ _ _ _ Hr Hx) as (? & ? & ? & ?).
  destruct (Z.le_gt_cases n (z - 8)) as [Hle|Hgt].
  { unfold krealloc, SIZEOF_HEADER, SIZEOF_FOOTER. replace (x + 4 - 4) with x by lia.
    rewrite (allocated_size _ _ _ _ Hr Hx), u32_small by lia. replace (z - 4 - 4) with (z - 8) by lia.
    rewrite !(proj2 (Z.eqb_neq _ 0)), (proj2 (Z.leb_le _ _)) by lia. by left. }
  rewrite (krealloc_unfold s bs x z n Hr Hx Hgt).
  destruct (kmalloc n s) as [p s1] eqn:E. destruct (Z.eqb_spec p 0) as [->|Hp]; right.
  { left. by rewrite (kmalloc_null s bs n s1 Hr ltac:(lia) E). }
  right. destruct (kmalloc_success s bs n p s1 Hr Hn E Hp) as (bs1 & w & Hr1 & Hw & Eb & Hpn & Hall & Hne & Hkeep).
  set (m2 := memcpy (memory s1) p (x + 4) (Z.to_nat (z - 8))).
  assert (only (fun a => p - 4 + 4 <= a < p - 4 + w - 4) (memory s1) m2) as Hcp.
  { eapply only_weaken; [|apply only_memcpy]. simpl. lia. }
  pose proof (with_mem_rep s1 bs1 m2 (p - 4) w Hr1 Hpn Hcp) as Hr2.
  assert (allocated s1 bs1 x z) as Hx1 by (apply Hall; by left).
  destruct (kfree_success (with_mem m2 s1) bs1 x z Hr2 Hx1) as (bs' & Hr' & Hall' & Hkeep').
  split_and!; [lia|done|]. exists bs', w.
  assert (forall y v, allocated s bs y v -> forall a, y <= a < y + v -> ld8 m2 a = ld8 (memory s) a) as Hm2.
  { intros y v Hy a Ha. rewrite Hcp; [by eapply Hkeep|].
    assert (allocated s1 bs1 y v) as Hy1 by (apply Hall; by left).
    pose proof (allocated_disjoint _ _ _ _ _ _ Hr1 Hpn Hy1 ltac:(symmetry; by eapply Hne)). lia. }
  pose proof (Hne x z Hx) as Hxp.
  split_and!; [done|lia| | |].
  - intros y v. rewrite Hall'. change (allocated (with_mem m2 s1) bs1 y v) with (allocated s1 bs1 y v).
    rewrite Hall. naive_solver.
  - intros i Hi. rewrite (Hkeep' (p - 4) w) by (done || lia). simpl.
    pose proof (allocated_disjoint _ _ _ _ _ _ Hr1 Hpn Hx1 ltac:(done)).
    unfold m2. rewrite ld8_memcpy_in by lia. replace (x + 4 + (p + i - p)) with (x + 4 + i) by lia.
    apply (Hkeep x z); [done|lia].
  - intros y v a Hy Hyx Ha. rewrite (Hkeep' y v) by (try apply Hall; auto). by apply (Hm2 y v).
Qed.

(** [kcalloc] refuses a product that does not fit 32 bits without
    touching the heap; otherwise, when the product is at most [2^32 - 16],
    a non-null result is a fresh block whose [nmemb * size] bytes are zero,
    in a well-formed heap where the other blocks are as before. *)
Theorem kcalloc_correct s bs nmemb size :
  heap_rep s bs -> 0 < nmemb < 2 ^ 32 -> 0 < size < 2 ^ 32 ->
  (2 ^ 32 <= nmemb * size -> kcalloc nmemb size s = (0, s)) /\
  (nmemb * size <= 2 ^ 32 - 16 ->
   let '(p, s') := kcalloc nmemb size s in
   (p = 0 /\ s' = with_irq true s) \/
   (exists bs' z, heap_rep s' bs' /\ nmemb * size + 8 <= z /\
      (forall y v, allocated s' bs' y v <-> allocated s bs y v \/ (y = p - 4 /\ v = z)) /\
      (forall i, 0 <= i < nmemb * size -> ld8 (memory s') (p + i) = 0) /\
      (forall y v a, allocated s bs y v -> y <= a < y + v ->
         ld8 (memory s') a = ld8 (memory s) a))).
Proof.
  intros Hr Hn Hs. unfold kcalloc. rewrite (proj2 (Z.eqb_neq nmemb 0)) by lia. simpl.
  split; intros Hprod.
  { rewrite (proj2 (Z.ltb_lt _ _)); [done|]. apply Z.div_lt_upper_bound; lia. }
  rewrite (proj2 (Z.ltb_ge _ _)) by (apply Z.div_le_lower_bound; lia).
  rewrite u32_small by lia. assert (0 < nmemb * size) by lia. set (n := nmemb * size) in *. clearbody n.
  destruct (kmalloc n s) as [p s1] eqn:E. destruct (Z.eqb_spec p 0) as [->|Hp].
  { left. by rewrite (kmalloc_null s bs n s1 Hr ltac:(lia) E). }
  right. destruct (kmalloc_success s bs n p s1 Hr ltac:(lia) E Hp) as (bs1 & w & Hr1 & Hw & Eb & Hpn & Hall & Hne & Hkeep).
  set (m2 := memset (memory s1) p 0 (Z.to_nat n)).
  assert (only (fun a => p - 4 + 4 <= a < p - 4 + w - 4) (memory s1) m2) as Hcp.
  { eapply only_weaken; [|apply only_memset]. simpl. lia. }
  exists bs1, w. split_and!; [by eapply with_mem_rep|lia|done| |].
  - intros i Hi. simpl. unfold m2. rewrite ld8_memset_in by lia. done.
  - intros y v a Hy Ha. simpl. rewrite Hcp; [by eapply Hkeep|].
    assert (allocated s1 bs1 y v) as Hy1 by (apply Hall; by left).
    pose proof (allocated_disjoint _ _ _ _ _ _ Hr1 Hpn Hy1 ltac:(symmetry; by eapply Hne)). lia.
Qed.

(** Freeing what was just carved restores the block list. *)
Lemma free_block_carve pre sz post total :
  coalesced (pre ++ (sz, false) :: post) = true ->
  exists rest, carve total sz ++ post = (carved_size total sz, true) :: rest /\
    free_block pre (carved_size total sz) rest = pre ++ (sz, false) :: post.
Proof.
  rewrite coalesced_app. simpl. intros Hc.
  assert (last_free pre = false /\ head_free post = false) as [Hl Hh].
  { destruct (coalesced pre), (coalesced post), (last_free pre), (head_free post); done. }
  assert (forall z, join_prev pre z = (pre, z)) as Hjp.
  { intros z. unfold join_prev. destruct pre as [|[p []] pre _] using rev_ind; rewrite ?reverse_snoc; try done.
    unfold last_free in Hl. by rewrite last_snoc in Hl. }
  unfold carve, carved_size, free_block. destruct (16 <=? sz - total); simpl; eexists; (split; [done|]); simpl.
  - rewrite Hjp. by replace (total + (sz - total)) with sz by lia.
  - assert (join_next sz post = (sz, post)) as -> by (by destruct post as [|[? []] ?]). by rewrite Hjp.
Qed.

Lemma sum_nonneg (f : Z -> Z) L :
  (forall x, x ∈ L -> 0 <= f x) -> 0 <= foldr Z.add 0 (f <$> L).
Proof.
  induction L as [|y L IH]; intros H; [done|]. rewrite fmap_cons. simpl.
  apply Z.add_nonneg_nonneg; [apply H; by left|]. apply IH. intros; apply H; by right.
Qed.

(** The sum the scan of [kheap_free_bytes] computes. *)
Lemma free_bytes_from_spec m L p fuel acc :
  separated L -> links m p L 0 -> (length L < fuel)%nat ->
  (forall x, x ∈ L -> 0 <= blk_size m x) -> 0 <= acc ->
  acc + foldr Z.add 0 (blk_size m <$> L) < 2 ^ 32 ->
  free_bytes_from fuel m (first_node L 0) acc = acc + foldr Z.add 0 (blk_size m <$> L).
Proof.
  revert p fuel acc. induction L as [|h L IH]; intros p fuel acc Hs Hl Hf Hp Ha Hlt;
    (destruct fuel as [|fuel]; [simpl in Hf; lia|]); cbn [free_bytes_from].
  { simpl. by rewrite Z.add_0_r. }
  rewrite first_node_eqb by done. destruct Hl as (_ & Hn & Hl). cbn [first_node].
  rewrite Hn. unfold node_to_hdr, hdr_to_node in *. replace (h + SIZEOF_HEADER - SIZEOF_HEADER) with h by lia.
  rewrite fmap_cons in Hlt |- *. simpl foldr in Hlt |- *. pose proof (Hp h ltac:(by left)).
  assert (0 <= foldr Z.add 0 (blk_size m <$> L)).
  { apply sum_nonneg. intros; apply Hp; by right. }
  rewrite u32_small by (split; [lia|]; eapply Z.le_lt_trans; [|exact Hlt]; lia).
  rewrite (IH (h + SIZEOF_HEADER)); try done; try lia.
  - eapply separated_sub; [exact Hs|by apply sep_nodup, NoDup_cons in Hs as [_ ?]|set_solver].
  - simpl in Hf. lia.
  - intros; apply Hp; by right.
Qed.

Definition free_span (bs : list block) : Z := span (filter (fun b => b.2 = false) bs).

Lemma free_span_sum m base bs :
  tagged m base bs -> foldr Z.add 0 (blk_size m <$> free_hdrs base bs) = free_span bs.
Proof.
  revert base. induction bs as [|b bs IH]; intros base; [done|].
  intros (Hok & Ht & Htl)%tagged_cons. rewrite free_hdrs_cons, fmap_app, foldr_app. unfold free_span in *.
  rewrite filter_cons. pose proof (tags_at_size _ _ Ht Hok) as Es. simpl in Es.
  rewrite IH by done. destruct (b.2); simpl; [done|]. by rewrite Es.
Qed.

Lemma free_span_le bs : Forall block_ok bs -> free_span bs <= span bs.
Proof.
  unfold free_span. induction 1 as [|b bs [Hb _] _ IH]; [done|]. rewrite filter_cons.
  case_decide; simpl; lia.
Qed.

(** [kfree] undoes [kmalloc]: after a successful allocation and the
    release of its result the heap represents the same list of blocks, free
    neighbours merged back, for every request. *)
Theorem kmalloc_kfree_roundtrip s bs n p s' :
  heap_rep s bs -> 0 < n < 2 ^ 32 -> kmalloc n s = (p, s') -> p <> 0 -> heap_rep (kfree p s') bs.
Proof.
  intros Hr Hn E Hp.
  destruct (kmalloc_cases s bs n Hr Hn) as [[E' _]|(pre & sz & post & s1 & -> & Hle & E' & Hr1 & Eb & _)];
    rewrite E' in E; simplify_eq.
  destruct (free_block_carve pre sz post (alloc_total n) (hr_coal _ _ Hr)) as (rest & Ec & Ef).
  rewrite Ec in Hr1. destruct (kfree_effect s' pre _ rest Hr1) as (Hr2 & _).
  rewrite Eb in Hr2. by rewrite Ef in Hr2.
Qed.

(** [kheap_free_bytes] is the total size of the free blocks, which never
    exceeds the heap. *)
Theorem kheap_free_bytes_correct s bs :
  heap_rep s bs ->
  kheap_free_bytes s = free_span bs /\ kheap_free_bytes s <= g_heap_end s - g_heap_base s.
Proof.
  intros Hr. destruct (heap_partial s bs Hr) as (L & Hperm & Hp). pose proof Hr as [].
  assert (Forall block_ok bs) as Hok by apply hr_tags0.
  assert (foldr Z.add 0 (blk_size (memory s) <$> L) = free_span bs) as Hsum.
  { rewrite <- (free_span_sum (memory s) (g_heap_base s) bs) by done.
    apply (foldr_permutation (=) Z.add); [by intros x y z ->|lia|by apply Permutation_map]. }
  pose proof (free_span_le bs Hok).
  assert (kheap_free_bytes s = free_span bs) as ->; [|split; [done|lia]].
  unfold kheap_free_bytes. pose proof (partial_separated _ _ _ Hp). destruct Hp as [_ _ _ _ [-> Hl] Hnd Hin].
  rewrite (free_bytes_from_spec (memory s) L 0); try done; try lia.
  - unfold find_fit_fuel. rewrite (Permutation_length Hperm).
    pose proof (length_free_hdrs (g_heap_base s) bs Hok). zlia.
  - intros x [b Hb]%Hin. destruct hr_tags0 as [_ Ht]. rewrite Forall_forall in Ht.
    pose proof (layout_block_ok _ _ _ Hok Hb) as Hbk.
    pose proof (tags_at_size _ _ (Ht _ Hb) Hbk) as Es. simpl in Es. rewrite Es. destruct Hbk. simpl in *. lia.
Qed.

(** A request above [0xFFFFFFF0] bytes wraps in the rounding: on a heap
    with a free block [kmalloc] succeeds with a block that may be as small as
    16 bytes. *)
Theorem kmalloc_wraps_on_huge_request s sz bs size :
  heap_rep s ((sz, false) :: bs) -> 32 <= sz ->
  (forall b, b ∈ bs -> b.2 = true) -> 2 ^ 32 - 16 < size < 2 ^ 32 ->
  exists s', kmalloc size s = (g_heap_base s + 4, s') /\
    heap_rep s' ((16, true) :: (sz - 16, false) :: bs).
Proof.
  intros Hr Hsz Hb Hs.
  assert (alloc_total size = 16) as Et.
  { unfold alloc_total. rewrite MIN_BLOCK_SIZE_eq, ALIGN8_eq. unfold SIZEOF_HEADER, SIZEOF_FOOTER, u32.
    assert (((size + 7) mod 2 ^ 32 / 8 * 8 + 4 + 4) mod 2 ^ 32 < 16) by zlia.
    by rewrite (proj2 (Z.ltb_lt _ _)). }
  destruct (kmalloc_cases s _ size Hr ltac:(lia)) as [[_ Hno]|(pre & z & post & s' & Eb & Hle & E & Hr' & _)].
  { specialize (Hno (sz, false) ltac:(by left) eq_refl). simpl in Hno. lia. }
  destruct pre as [|c pre]; simplify_eq/=.
  - exists s'. rewrite Et in Hr'. unfold carve in Hr'. rewrite (proj2 (Z.leb_le _ _)) in Hr' by lia.
    split; [|done]. rewrite E. f_equal. lia.
  - exfalso. specialize (Hb (z, false) ltac:(set_solver)). done.
Qed.

(** ** Concrete heaps *)

(** The heap right after boot, and after one request of 100 bytes. *)
Definition boot_heap : kheap := kheap_initialize (mk_kheap ∅ 0 0 0 false false).
Definition boot_heap_100 : kheap := (kmalloc 100 boot_heap).2.
Definition blocks_100 : list block := [(112, true); (4194192, false)].

Lemma boot_heap_rep : heap_rep boot_heap [(paging_heap_size, false)].
Proof. by apply kheap_initialize_rep. Qed.

Lemma boot_heap_100_rep : heap_rep boot_heap_100 blocks_100 /\ kmalloc 100 boot_heap = (paging_heap_base + 4, boot_heap_100).
Proof.
  unfold boot_heap_100.
  destruct (kmalloc_cases _ _ 100 boot_heap_rep ltac:(lia)) as [[_ H]|(pre & sz & post & s' & Eb & _ & E & Hr & _)].
  { specialize (H (paging_heap_size, false) ltac:(by left) eq_refl). by vm_compute in H. }
  assert (pre = [] /\ sz = paging_heap_size /\ post = []) as (-> & -> & ->).
  { clear -Eb. destruct pre as [|? pre]; [by simplify_eq/=|]. by destruct pre. }
  rewrite E. split; [exact Hr|]. done.
Qed.

Lemma boot_100_allocated : allocated boot_heap_100 blocks_100 paging_heap_base 112.
Proof. by left. Qed.

Lemma kmalloc_correct_witness :
  let '(p, s') := kmalloc 100 boot_heap in
  kmalloc_outcome boot_heap [(paging_heap_size, false)] (alloc_total 100) p s' /\ (p <> 0 -> p mod 8 = 4).
Proof. exact (kmalloc_correct boot_heap _ 100 boot_heap_rep ltac:(lia)). Defined.

Lemma kfree_correct_witness :
  kfree_outcome boot_heap_100 blocks_100 paging_heap_base (kfree (paging_heap_base + 4) boot_heap_100).
Proof. exact (proj1 (kfree_correct _ _ _ _ (proj1 boot_heap_100_rep) boot_100_allocated)). Defined.

Lemma krealloc_correct_witness :
  exists p, (krealloc (paging_heap_base + 4) 200 boot_heap_100).1 = p /\ p <> 0 /\
  ld8 (memory (krealloc (paging_heap_base + 4) 200 boot_heap_100).2) (p + 3) =
  ld8 (memory boot_heap_100) (paging_heap_base + 7).
Proof.
  pose proof (krealloc_correct _ _ _ _ 200 (proj1 boot_heap_100_rep) boot_100_allocated ltac:(lia)) as H.
  assert ((krealloc (paging_heap_base + 4) 200 boot_heap_100).1 = 1073741940) as Hp by (vm_compute; reflexivity).
  destruct (krealloc _ _ _) as [p s']. cbn [fst snd] in *. exists p. split; [reflexivity|]. split; [by subst p|].
  destruct H as [(H & _)|[(_ & E & _)|(_ & _ & bs' & w & _ & _ & _ & Hc & _)]]; [clear -H; lia|clear -Hp E; congruence|].
  apply (Hc 3). clear. lia.
Defined.

Lemma kcalloc_correct_witness :
  exists s', kcalloc 10 10 boot_heap = (paging_heap_base + 4, s') /\
    ld8 (memory s') (paging_heap_base + 4 + 99) = 0.
Proof.
  pose proof (proj2 (kcalloc_correct _ _ 10 10 boot_heap_rep ltac:(lia) ltac:(lia)) ltac:(lia)) as H.
  assert ((kcalloc 10 10 boot_heap).1 = paging_heap_base + 4) as E by (vm_compute; reflexivity).
  destruct (kcalloc 10 10 boot_heap) as [p s']. simpl in E. subst p. exists s'. split; [done|].
  destruct H as [[E _]|(bs' & z & _ & _ & _ & Hz & _)]; [clear -E; by vm_compute in E|]. apply Hz. clear. lia.
Defined.

Lemma kmalloc_kfree_roundtrip_witness :
  heap_rep (kfree (paging_heap_base + 4) boot_heap_100) [(paging_heap_size, false)].
Proof.
  apply (kmalloc_kfree_roundtrip boot_heap _ 100 _ _ boot_heap_rep); [lia|apply boot_heap_100_rep|done].
Defined.

Lemma kheap_free_bytes_correct_witness : kheap_free_bytes boot_heap_100 = 4194192.
Proof. exact (proj1 (kheap_free_bytes_correct _ _ (proj1 boot_heap_100_rep))). Defined.

Lemma kmalloc_wraps_on_huge_request_witness :
  exists s', kmalloc (2 ^ 32 - 1) boot_heap = (paging_heap_base + 4, s') /\
    heap_rep s' [(16, true); (paging_heap_size - 16, false)].
Proof.
  destruct (kmalloc_wraps_on_huge_request boot_heap paging_heap_size [] (2 ^ 32 - 1) boot_heap_rep)
    as (s' & H); [done|intros b Hb; by apply elem_of_nil in Hb|lia|]. by exists s'.
Defined.

End KheapRep.
