(* ===== verification/Ring.v ===== *)
(** * Ring buffers

    The circular queue the kernel uses in several places (the block layer's
    pending and completion queues, the pipe buffer): a fixed array, a head
    index to take from, a tail index to add at and an element count, both
    indices advanced modulo the capacity. [ring_list] is the queue's abstract
    content, and the two operations refine [snoc] and [uncons]. *)

From S2P Require Import Prelude.

Module Ring.

Record ring (A : Type) := mk_ring {
  slots : list A;
  head : Z;
  tail : Z;
  count : Z;
}.
#[global] Arguments mk_ring {A}.
#[global] Arguments slots {A}.
#[global] Arguments head {A}.
#[global] Arguments tail {A}.
#[global] Arguments count {A}.

Section ring.
Context {A : Type} `{Inhabited A} (cap : Z).
Implicit Types (r : ring A) (x : A).

Definition slot_at r (i : Z) : A := slots r !!! Z.to_nat i.

(** [buf[tail] = x; tail = (tail + 1) % cap; count++], refused when full. *)
Definition ring_push (x : A) r : option (ring A) :=
  if cap <=? count r then None
  else Some (mk_ring (<[Z.to_nat (tail r) := x]> (slots r)) (head r)
               (u32 (tail r + 1) mod cap) (u32 (count r + 1))).

(** [x = buf[head]; head = (head + 1) % cap; count--], refused when empty. *)
Definition ring_pop r : option (A * ring A) :=
  if count r =? 0 then None
  else Some (slot_at r (head r),
             mk_ring (slots r) (u32 (head r + 1) mod cap) (tail r) (count r - 1)).

Definition ring_reset r : ring A := mk_ring (slots r) 0 0 0.

(** The elements from the oldest to the newest. *)
Definition ring_list r : list A :=
  map (fun i => slot_at r ((head r + Z.of_nat i) mod cap)) (seq 0 (Z.to_nat (count r))).

Record ring_ok r : Prop := {
  ro_len : Z.of_nat (length (slots r)) = cap;
  ro_head : 0 <= head r < cap;
  ro_count : 0 <= count r <= cap;
  ro_tail : tail r = (head r + count r) mod cap;
}.

Hypothesis cap_small : 0 < cap < 2 ^ 31.

Lemma ring_list_length r : ring_ok r -> Z.of_nat (length (ring_list r)) = count r.
Proof. intros []. unfold ring_list. rewrite length_map, length_seq. lia. Qed.

Lemma ring_tail_range r : ring_ok r -> 0 <= tail r < cap.
Proof. intros []. rewrite ro_tail0. apply Z.mod_pos_bound. lia. Qed.

(** Two offsets below the capacity meet only if they are equal. *)
Lemma ring_index_inj h i j :
  0 <= i < cap -> 0 <= j < cap -> (h + i) mod cap = (h + j) mod cap -> i = j.
Proof.
  intros Hi Hj E.
  assert ((i - j) mod cap = 0) as Hd.
  { replace (i - j) with ((h + i) - (h + j)) by lia.
    rewrite Zminus_mod, E, Z.sub_diag. apply Z.mod_0_l. lia. }
  apply Z.mod_divide in Hd as [k Hk]; [|lia].
  assert (k = 0) as -> by nia. lia.
Qed.

Lemma ring_push_full x r : count r = cap -> ring_push x r = None.
Proof. intros E. unfold ring_push. by rewrite (proj2 (Z.leb_le _ _)) by lia. Qed.

Lemma ring_push_spec x r :
  ring_ok r -> count r < cap ->
  exists r', ring_push x r = Some r' /\ ring_ok r' /\ ring_list r' = ring_list r ++ [x].
Proof.
  intros Hr Hc. pose proof (ring_tail_range r Hr) as Ht. destruct Hr.
  unfold ring_push. rewrite (proj2 (Z.leb_gt _ _)) by lia. eexists. split; [done|].
  rewrite (u32_small (tail r + 1)), (u32_small (count r + 1)) by lia. split.
  - constructor; simpl; [by rewrite length_insert|done|lia|].
    rewrite ro_tail0, Zplus_mod_idemp_l. f_equal. lia.
  - unfold ring_list. simpl. replace (Z.to_nat (count r + 1)) with (Z.to_nat (count r) + 1)%nat by lia.
    rewrite seq_app, map_app. simpl. f_equal.
    + apply map_ext_in. intros i Hi%in_seq. unfold slot_at. simpl.
      rewrite list_lookup_total_upd by lia. case_decide as E; [|done]. exfalso.
      pose proof (Z.mod_pos_bound (head r + Z.of_nat i) cap).
      assert (Z.of_nat i = count r) by (apply (ring_index_inj (head r)); lia). lia.
    + f_equal. unfold slot_at. simpl. rewrite Z2Nat.id by lia. rewrite <- ro_tail0.
      by apply list_lookup_total_insert_eq; lia.
Qed.

Lemma ring_pop_empty r : count r = 0 -> ring_pop r = None.
Proof. intros E. unfold ring_pop. by rewrite E. Qed.

Lemma ring_pop_spec r x l :
  ring_ok r -> ring_list r = x :: l ->
  exists r', ring_pop r = Some (x, r') /\ ring_ok r' /\ ring_list r' = l.
Proof.
  intros Hr El. pose proof (ring_list_length r Hr) as Hlen. rewrite El in Hlen. simpl in Hlen. destruct Hr.
  unfold ring_pop. rewrite (proj2 (Z.eqb_neq _ _)) by lia.
  unfold ring_list in El. replace (Z.to_nat (count r)) with (S (length l)) in El by lia.
  simpl in El. injection El as Hx Hl.
  rewrite Z.add_0_r, Z.mod_small in Hx by lia. rewrite Hx.
  eexists. split; [done|]. rewrite (u32_small (head r + 1)) by lia.
  split; [constructor; simpl|].
  - done.
  - apply Z.mod_pos_bound. lia.
  - lia.
  - rewrite ro_tail0, Zplus_mod_idemp_l. f_equal. lia.
  - unfold ring_list. simpl. rewrite <- Hl. replace (Z.to_nat (count r - 1)) with (length l) by lia.
    rewrite <- seq_shift, map_map. apply map_ext. intros i. unfold slot_at. simpl.
    rewrite Zplus_mod_idemp_l. do 3 f_equal. lia.
Qed.

Lemma ring_reset_ok r : Z.of_nat (length (slots r)) = cap -> ring_ok (ring_reset r) /\ ring_list (ring_reset r) = [].
Proof. intros. split; [|done]. constructor; simpl; try done; lia. Qed.

Lemma ring_list_nil r : ring_ok r -> count r = 0 <-> ring_list r = [].
Proof.
  intros Hr. pose proof (ring_list_length r Hr) as Hl.
  split; [intros E; destruct (ring_list r); simpl in *; [done|lia]|intros E; rewrite E in Hl; simpl in Hl; lia].
Qed.
End ring.

End Ring.
