(* ===== verification/BlockDev.v ===== *)
(** * Block layer ([kernel/blockdev.c], partition callbacks of [kernel/mbr.c])

    A table of block devices, a 128-entry write-back sector cache with clock
    eviction, and a request queue: every synchronous call is a queued request
    that is pumped until its completion callback has run.

    [Module BlockDev] is the code. A device's [read]/[write] function
    pointers are values of [rw_fn]: the hardware driver is the interface
    [BlockDriver] (a parameter of the development), the partition callbacks
    are those of mbr.c, which call back into this layer; the recursion is
    tied by [drv_read]/[drv_write] on a nesting depth. [Module BlockDevSpec]
    states what the layer promises, as an abstract disk, and proves it. *)

From S2P Require Import Prelude Ring.

(** ** The driver behind a hardware device

    [hw_read ctx lba count h]: return code, the bytes stored to the buffer,
    and the new hardware state; [hw_write ctx lba count bytes h] likewise. *)
Class BlockDriver := {
  hw : Type;
  hw_read : Z -> Z -> Z -> hw -> Z * list Z * hw;
  hw_write : Z -> Z -> Z -> list Z -> hw -> Z * hw;
}.

Module BlockDev.
Import Ring.

Definition BLOCKDEV_MAX : Z := 16.
Definition BLOCK_CACHE_ENTRIES : Z := 128.
Definition BLOCK_CACHE_BLOCK_SIZE : Z := 512.
Definition BLOCKDEV_ASYNC_QUEUE_DEPTH : Z := 64.
Definition UINT32_MAX : Z := 2 ^ 32 - 1.

Definition BLOCKDEV_FLAG_READONLY : Z := 1.
Definition BLOCKDEV_FLAG_ATAPI : Z := 2.
Definition BLOCKDEV_FLAG_PARTITION : Z := 4.

Definition BLOCKDEV_REQ_READ : Z := 1.
Definition BLOCKDEV_REQ_WRITE : Z := 2.
Definition BLOCKDEV_REQ_FLUSH : Z := 3.

(** The functions a [read]/[write] pointer can hold. *)
Inductive rw_fn := fn_hw | fn_mbr_partition.

Record block_device := mk_dev {
  dev_id : Z;
  dev_name : list Z;
  dev_block_size : Z;
  dev_block_count : Z;
  dev_flags : Z;
  dev_ctx : Z;
  dev_read : option rw_fn;
  dev_write : option rw_fn;
}.

Record cache_entry := mk_entry {
  valid : bool;
  dirty : bool;
  ref : bool;
  dev_index : Z;
  lba : Z;
  data : list Z;
}.
#[global] Instance cache_entry_inhabited : Inhabited cache_entry :=
  populate (mk_entry false false false 0 0 []).
#[global] Instance block_device_inhabited : Inhabited block_device :=
  populate (mk_dev 0 [] 0 0 0 0 None None).

(** A buffer pointer: memory of the caller, or the data of a cache entry. *)
Inductive bufptr := buf_mem (h : Z) | buf_cache (slot : Z).

(** [blockdev_wait_callback] is the only completion function of the tree;
    [user_data] is the waiter it signals. *)
Record blockdev_request := mk_req {
  op : Z;
  req_dev : Z;
  req_lba : Z;
  req_count : Z;
  req_buffer : option bufptr;
  completion : bool;
  user_data : option Z;
}.
#[global] Instance blockdev_request_inhabited : Inhabited blockdev_request :=
  populate (mk_req 0 0 0 0 None false None).

(** mbr.c: the context of a partition device and the recorded partitions. *)
Record mbr_partition_ctx := mk_ctx {
  parent_index : Z;
  start_lba : Z;
  block_count : Z;
}.
Record mbr_partition_info := mk_info {
  info_name : list Z;
  info_dev : Z;
  info_parent : Z;
  info_index : Z;
  info_type : Z;
  info_start : Z;
  info_count : Z;
}.

(** [blockdev_cache_stats_t], the cache counters and the queue counters. *)
Record cache_stats := mk_cstats { entries : Z; hits : Z; misses : Z; evictions : Z; writebacks : Z }.
Record async_stats := mk_astats { async_submitted : Z; async_completed : Z; async_failed : Z; async_pending : Z }.

Section state.
Context `{BlockDriver}.

(** Devices, cache, buffers and hardware. [g_devs] holds the registered
    devices only, so its length is [g_count]; [parts] likewise. *)
Record disks := mk_disks {
  g_devs : list block_device;
  g_cache : list cache_entry;
  g_cache_hand : Z;
  g_cstats : cache_stats;
  buffers : gmap Z (list Z);
  ctxs : gmap Z mbr_partition_ctx;
  g_parts : list mbr_partition_info;
  hardware : hw;
}.

(** The request queues and the flags [submit_and_wait] waits on. *)
Record queues := mk_queues {
  g_pending : ring blockdev_request;
  g_completed : ring (blockdev_request * Z);
  g_async_inflight : Z;
  waiters : list (Z * Z);
  g_astats : async_stats;
}.

Record bd := mk_bd { dsk : disks; que : queues }.

Definition g_count (s : bd) : Z := Z.of_nat (length (g_devs (dsk s))).
Definition dev_at (s : bd) (i : Z) : block_device := g_devs (dsk s) !!! Z.to_nat i.
Definition entry_at (s : bd) (i : Z) : cache_entry := g_cache (dsk s) !!! Z.to_nat i.

Definition on_dsk (f : disks -> disks) (s : bd) : bd := mk_bd (f (dsk s)) (que s).
Definition on_que (f : queues -> queues) (s : bd) : bd := mk_bd (dsk s) (f (que s)).
Definition set_cache c d := mk_disks (g_devs d) c (g_cache_hand d) (g_cstats d) (buffers d) (ctxs d) (g_parts d) (hardware d).
Definition set_hand h d := mk_disks (g_devs d) (g_cache d) h (g_cstats d) (buffers d) (ctxs d) (g_parts d) (hardware d).
Definition set_cstats st d := mk_disks (g_devs d) (g_cache d) (g_cache_hand d) st (buffers d) (ctxs d) (g_parts d) (hardware d).
Definition set_buffers b d := mk_disks (g_devs d) (g_cache d) (g_cache_hand d) (g_cstats d) b (ctxs d) (g_parts d) (hardware d).
Definition set_hw h d := mk_disks (g_devs d) (g_cache d) (g_cache_hand d) (g_cstats d) (buffers d) (ctxs d) (g_parts d) h.
Definition set_pending r q := mk_queues r (g_completed q) (g_async_inflight q) (waiters q) (g_astats q).
Definition set_completed r q := mk_queues (g_pending q) r (g_async_inflight q) (waiters q) (g_astats q).
Definition set_inflight n q := mk_queues (g_pending q) (g_completed q) n (waiters q) (g_astats q).
Definition set_waiters w q := mk_queues (g_pending q) (g_completed q) (g_async_inflight q) w (g_astats q).
Definition set_astats st q := mk_queues (g_pending q) (g_completed q) (g_async_inflight q) (waiters q) st.

Definition upd_entry (i : Z) (f : cache_entry -> cache_entry) (s : bd) : bd :=
  on_dsk (fun d => set_cache (<[Z.to_nat i := f (g_cache d !!! Z.to_nat i)]> (g_cache d)) d) s.
Definition e_data d e := mk_entry (valid e) (dirty e) (ref e) (dev_index e) (lba e) d.
Definition e_dirty b e := mk_entry (valid e) b (ref e) (dev_index e) (lba e) (data e).
Definition e_ref b e := mk_entry (valid e) (dirty e) b (dev_index e) (lba e) (data e).
Definition e_tag i l e := mk_entry true (dirty e) (ref e) i l (data e).

Definition bump_cstats (f : cache_stats -> cache_stats) : bd -> bd :=
  on_dsk (fun d => set_cstats (f (g_cstats d)) d).
Definition inc_hits st := mk_cstats (entries st) (u32 (hits st + 1)) (misses st) (evictions st) (writebacks st).
Definition inc_misses st := mk_cstats (entries st) (hits st) (u32 (misses st + 1)) (evictions st) (writebacks st).
Definition inc_evictions st := mk_cstats (entries st) (hits st) (misses st) (u32 (evictions st + 1)) (writebacks st).
Definition inc_writebacks st := mk_cstats (entries st) (hits st) (misses st) (evictions st) (u32 (writebacks st + 1)).

(** Bytes behind a buffer pointer, and a [memcpy] into it. *)
Definition buf_load (p : bufptr) (s : bd) : list Z :=
  match p with
  | buf_mem h => default [] (buffers (dsk s) !! h)
  | buf_cache i => data (entry_at s i)
  end.
Definition buf_store (p : bufptr) (off : Z) (bytes : list Z) (s : bd) : bd :=
  match p with
  | buf_mem h =>
      on_dsk (fun d => set_buffers (<[h := splice off bytes (default [] (buffers d !! h))]> (buffers d)) d) s
  | buf_cache i => upd_entry i (fun e => e_data (splice off bytes (data e)) e) s
  end.

Definition blockdev_should_cache (d : block_device) : bool :=
  match dev_read d with
  | None => false
  | Some _ =>
      if is_set (dev_flags d) BLOCKDEV_FLAG_PARTITION then false
      else dev_block_size d =? BLOCK_CACHE_BLOCK_SIZE
  end.

Definition blockdev_update_async_pending_stat (q : queues) : queues :=
  let st := g_astats q in
  set_astats (mk_astats (async_submitted st) (async_completed st) (async_failed st)
    (u32 (count (g_pending q) + count (g_completed q) + g_async_inflight q))) q.

Definition blockdev_pending_push (req : blockdev_request) (q : queues) : Z * queues :=
  match ring_push BLOCKDEV_ASYNC_QUEUE_DEPTH req (g_pending q) with
  | None => (-1, q)
  | Some r => (0, blockdev_update_async_pending_stat (set_pending r q))
  end.

Definition blockdev_pending_pop (q : queues) : option blockdev_request * queues :=
  match ring_pop BLOCKDEV_ASYNC_QUEUE_DEPTH (g_pending q) with
  | None => (None, q)
  | Some (req, r) => (Some req, blockdev_update_async_pending_stat (set_pending r q))
  end.

Definition blockdev_completed_push (req : blockdev_request) (status : Z) (q : queues) : Z * queues :=
  match ring_push BLOCKDEV_ASYNC_QUEUE_DEPTH (req, status) (g_completed q) with
  | None => (-1, q)
  | Some r => (0, blockdev_update_async_pending_stat (set_completed r q))
  end.

Definition blockdev_completed_pop (q : queues) : option (blockdev_request * Z) * queues :=
  match ring_pop BLOCKDEV_ASYNC_QUEUE_DEPTH (g_completed q) with
  | None => (None, q)
  | Some (e, r) => (Some e, blockdev_update_async_pending_stat (set_completed r q))
  end.

Definition blockdev_validate_request (req : blockdev_request) (s : bd) : Z :=
  if g_count s <=? req_dev req then -2
  else
    let d := dev_at s (req_dev req) in
    if op req =? BLOCKDEV_REQ_FLUSH then 0
    else if (req_count req =? 0) || bool_decide (req_buffer req = None) then -3
    else if dev_block_count d <=? req_lba req then -4
    else if dev_block_count d - req_lba req <? req_count req then -5
    else if op req =? BLOCKDEV_REQ_READ then
      if bool_decide (dev_read d = None) then -6 else 0
    else if op req =? BLOCKDEV_REQ_WRITE then
      if bool_decide (dev_write d = None) then -6
      else if is_set (dev_flags d) BLOCKDEV_FLAG_READONLY then -7
      else 0
    else -8.

(** First index from [i] on whose entry satisfies [p], or -1. *)
Fixpoint index_from (p : cache_entry -> bool) (i : Z) (l : list cache_entry) : Z :=
  match l with
  | [] => -1
  | e :: l => if p e then i else index_from p (i + 1) l
  end.

Definition block_cache_find (index cur : Z) (s : bd) : Z :=
  index_from (fun e => valid e && (dev_index e =? index) && (lba e =? cur)) 0 (g_cache (dsk s)).

(** The clock: clear reference bits from the hand on until one is clear. A
    sweep over all entries clears every bit, so one more step than there are
    entries always ends it. *)
Fixpoint clock_sweep (fuel : nat) (s : bd) : Z * bd :=
  match fuel with
  | O => (-1, s)
  | S fuel =>
      let h := g_cache_hand (dsk s) in
      let next := u32 (h + 1) mod BLOCK_CACHE_ENTRIES in
      if negb (ref (entry_at s h)) then
        (h, bump_cstats inc_evictions (on_dsk (set_hand next) s))
      else clock_sweep fuel (on_dsk (set_hand next) (upd_entry h (e_ref false) s))
  end.

Definition block_cache_get_slot (s : bd) : Z * bd :=
  let i := index_from (fun e => negb (valid e)) 0 (g_cache (dsk s)) in
  if 0 <=? i then (i, s) else clock_sweep (S (Z.to_nat BLOCK_CACHE_ENTRIES)) s.

(** mbr.c: the parent of a partition device, [None] for the -2 of the code. *)
Fixpoint parent_from (index : Z) (l : list mbr_partition_info) : option Z :=
  match l with
  | [] => None
  | i :: l => if negb (info_dev i =? index) then parent_from index l else Some (info_parent i)
  end.

Definition mbr_partition_parent_index (index : Z) (s : bd) : option Z := parent_from index (g_parts (dsk s)).

(** ** Operations that call through the devices' function pointers *)
Section calls.
Variables rd wr : rw_fn -> Z -> Z -> Z -> bufptr -> bd -> Z * bd.

Definition block_cache_writeback_entry (slot : Z) (s : bd) : Z * bd :=
  let e := entry_at s slot in
  if negb (valid e) || negb (dirty e) then (0, s)
  else if g_count s <=? dev_index e then (-1, s)
  else
    let d := dev_at s (dev_index e) in
    match dev_write d with
    | None => (-1, s)
    | Some fn =>
        if is_set (dev_flags d) BLOCKDEV_FLAG_READONLY then (-1, s)
        else
          let '(rc, s) := wr fn (dev_ctx d) (lba e) 1 (buf_cache slot) s in
          if rc <? 0 then (rc, s)
          else (0, bump_cstats inc_writebacks (upd_entry slot (e_dirty false) s))
    end.

Definition block_cache_load (slot index cur : Z) (s : bd) : Z * bd :=
  let d := dev_at s index in
  match dev_read d with
  | None => (-1, s)   (* a null call: callers have checked [d->read] *)
  | Some fn =>
      let '(rc, s) := rd fn (dev_ctx d) cur 1 (buf_cache slot) s in
      if rc <? 0 then (rc, s)
      else (0, upd_entry slot (fun e => mk_entry true false true index cur (data e)) s)
  end.

(** The victim's content is written back before the slot is reused. *)
Definition writeback_victim (slot : Z) (s : bd) : Z * bd :=
  if valid (entry_at s slot) && dirty (entry_at s slot)
  then block_cache_writeback_entry slot s else (0, s).

(** The loop of [blockdev_read_sync_impl]: [n] blocks left, block [i] next. *)
Fixpoint read_blocks (n : nat) (index lba0 i : Z) (buf : bufptr) (s : bd) : Z * bd :=
  match n with
  | O => (0, s)
  | S n =>
      let cur := u64 (lba0 + i) in
      let slot := block_cache_find index cur s in
      if 0 <=? slot then
        let s := upd_entry slot (e_ref true) (bump_cstats inc_hits s) in
        let s := buf_store buf (u32 (i * BLOCK_CACHE_BLOCK_SIZE)) (data (entry_at s slot)) s in
        read_blocks n index lba0 (i + 1) buf s
      else
        let '(slot, s) := block_cache_get_slot (bump_cstats inc_misses s) in
        if slot <? 0 then (-5, s)
        else
          let '(wrc, s) := writeback_victim slot s in
          if wrc <? 0 then (wrc, s)
          else
            let '(lrc, s) := block_cache_load slot index cur s in
            if lrc <? 0 then (lrc, s)
            else
              let s := buf_store buf (u32 (i * BLOCK_CACHE_BLOCK_SIZE)) (data (entry_at s slot)) s in
              read_blocks n index lba0 (i + 1) buf s
  end.

Definition blockdev_read_sync_impl (index lba0 cnt : Z) (buffer : option bufptr) (s : bd) : Z * bd :=
  match buffer with
  | None => (-1, s)
  | Some buf =>
      if (g_count s <=? index) || (cnt =? 0) then (-1, s)
      else
        let d := dev_at s index in
        match dev_read d with
        | None => (-2, s)
        | Some fn =>
            if dev_block_count d <=? lba0 then (-3, s)
            else if dev_block_count d - lba0 <? cnt then (-4, s)
            else if negb (blockdev_should_cache d) then rd fn (dev_ctx d) lba0 cnt buf s
            else read_blocks (Z.to_nat cnt) index lba0 0 buf s
        end
  end.

(** Store block [i] of the source into [slot] and mark it. *)
Definition fill_slot (slot i : Z) (buf : bufptr) (s : bd) : bd :=
  let bytes := slice (u32 (i * BLOCK_CACHE_BLOCK_SIZE)) BLOCK_CACHE_BLOCK_SIZE (buf_load buf s) in
  upd_entry slot (e_ref true) (upd_entry slot (e_dirty true) (upd_entry slot (e_data bytes) s)).

Fixpoint write_blocks (n : nat) (index lba0 i : Z) (buf : bufptr) (s : bd) : Z * bd :=
  match n with
  | O => (0, s)
  | S n =>
      let cur := u64 (lba0 + i) in
      let slot := block_cache_find index cur s in
      if 0 <=? slot then
        write_blocks n index lba0 (i + 1) buf (fill_slot slot i buf (bump_cstats inc_hits s))
      else
        let '(slot, s) := block_cache_get_slot (bump_cstats inc_misses s) in
        if slot <? 0 then (-6, s)
        else
          let '(wrc, s) := writeback_victim slot s in
          if wrc <? 0 then (wrc, s)
          else
            let s := upd_entry slot (e_tag index cur) s in
            write_blocks n index lba0 (i + 1) buf (fill_slot slot i buf s)
  end.

Definition blockdev_write_sync_impl (index lba0 cnt : Z) (buffer : option bufptr) (s : bd) : Z * bd :=
  match buffer with
  | None => (-1, s)
  | Some buf =>
      if (g_count s <=? index) || (cnt =? 0) then (-1, s)
      else
        let d := dev_at s index in
        match dev_write d with
        | None => (-2, s)
        | Some fn =>
            if is_set (dev_flags d) BLOCKDEV_FLAG_READONLY then (-3, s)
            else if dev_block_count d <=? lba0 then (-4, s)
            else if dev_block_count d - lba0 <? cnt then (-5, s)
            else if negb (blockdev_should_cache d) then wr fn (dev_ctx d) lba0 cnt buf s
            else write_blocks (Z.to_nat cnt) index lba0 0 buf s
        end
  end.

(** Write back the dirty entries from slot [i] on that [p] selects. *)
Fixpoint writeback_from (n : nat) (i : Z) (p : cache_entry -> bool) (s : bd) : Z * bd :=
  match n with
  | O => (0, s)
  | S n =>
      let e := entry_at s i in
      if negb (valid e) || negb (dirty e) then writeback_from n (i + 1) p s
      else if negb (p e) then writeback_from n (i + 1) p s
      else
        let '(rc, s) := block_cache_writeback_entry i s in
        if rc <? 0 then (rc, s) else writeback_from n (i + 1) p s
  end.

Definition blockdev_flush_sync_impl (index : Z) (s : bd) : Z * bd :=
  if g_count s <=? index then (-1, s)
  else
    let d := dev_at s index in
    let target_b :=
      if is_set (dev_flags d) BLOCKDEV_FLAG_PARTITION
      then default UINT32_MAX (mbr_partition_parent_index index s) else UINT32_MAX in
    writeback_from (Z.to_nat BLOCK_CACHE_ENTRIES) 0
      (fun e => (dev_index e =? index) || (dev_index e =? target_b)) s.

Definition blockdev_execute_request (req : blockdev_request) (s : bd) : Z * bd :=
  if op req =? BLOCKDEV_REQ_READ then blockdev_read_sync_impl (req_dev req) (req_lba req) (req_count req) (req_buffer req) s
  else if op req =? BLOCKDEV_REQ_WRITE then blockdev_write_sync_impl (req_dev req) (req_lba req) (req_count req) (req_buffer req) s
  else if op req =? BLOCKDEV_REQ_FLUSH then blockdev_flush_sync_impl (req_dev req) s
  else (-1, s).

(** [waiter[0] = status; waiter[1] = 1]; the waiters live on the stack of the
    nested [blockdev_submit_and_wait] calls. *)
Definition blockdev_wait_callback (status : Z) (user : option Z) (q : queues) : queues :=
  match user with
  | None => q
  | Some w => set_waiters (<[Z.to_nat w := (status, 1)]> (waiters q)) q
  end.

Definition run_completion (req : blockdev_request) (status : Z) (q : queues) : queues :=
  if completion req then blockdev_wait_callback status (user_data req) q else q.

Fixpoint dispatch_loop (n : nat) (q : queues) : queues :=
  match n with
  | O => q
  | S n =>
      match blockdev_completed_pop q with
      | (None, q) => q
      | (Some (req, status), q) => dispatch_loop n (run_completion req status q)
      end
  end.

Definition blockdev_dispatch_completions (budget : Z) (q : queues) : queues :=
  dispatch_loop (Z.to_nat (if budget =? 0 then 1 else budget)) q.

Definition count_done (status : Z) (q : queues) : queues :=
  let st := g_astats q in
  set_astats (mk_astats (async_submitted st) (u32 (async_completed st + 1))
    (if status <? 0 then u32 (async_failed st + 1) else async_failed st) (async_pending st)) q.

Definition set_inflight_stat (n : Z) (q : queues) : queues :=
  blockdev_update_async_pending_stat (set_inflight n q).

(** One iteration of [blockdev_pump] on a popped request. *)
Definition pump_one (req : blockdev_request) (s : bd) : bd :=
  let s := on_que (set_inflight_stat 1) s in
  let '(status, s) := blockdev_execute_request req s in
  let s := on_que (set_inflight_stat 0) s in
  let s := on_que (count_done status) s in
  let '(rc, q) := blockdev_completed_push req status (que s) in
  let q := if rc <? 0 then run_completion req status q else q in
  on_que (fun _ => blockdev_dispatch_completions 1 q) s.

Fixpoint pump_loop (n : nat) (s : bd) : bd :=
  match n with
  | O => s
  | S n =>
      match blockdev_pending_pop (que s) with
      | (None, q) => on_que (fun _ => q) s
      | (Some req, q) => pump_loop n (pump_one req (on_que (fun _ => q) s))
      end
  end.

Definition blockdev_pump (budget : Z) (s : bd) : bd :=
  let budget := if budget =? 0 then 1 else budget in
  pump_loop (Z.to_nat budget) (on_que (blockdev_dispatch_completions budget) s).

Definition blockdev_submit_async (req : blockdev_request) (s : bd) : Z * bd :=
  let vrc := blockdev_validate_request req s in
  if vrc <? 0 then (vrc, s)
  else
    let '(rc, q) := blockdev_pending_push req (que s) in
    if rc <? 0 then (-9, on_que (fun _ => q) s)
    else
      let st := g_astats q in
      (0, on_que (fun _ => set_astats (mk_astats (u32 (async_submitted st + 1)) (async_completed st)
                                      (async_failed st) (async_pending st)) q) s).

(** [while (!waiter[1]) blockdev_pump(1)]: each pump completes at least one
    queued request, so the queued requests bound the number of rounds. *)
Fixpoint wait_loop (fuel : nat) (w : nat) (s : bd) : Z * bd :=
  let '(status, done_) := waiters (que s) !!! w in
  if negb (done_ =? 0) then (status, s)
  else match fuel with
       | O => (status, s)
       | S fuel => wait_loop fuel w (blockdev_pump 1 s)
       end.

Definition queued (s : bd) : nat := Z.to_nat (count (g_pending (que s)) + count (g_completed (que s))).

(** The waiter is a local array: pushed on entry, popped on return. *)
Definition push_waiter (q : queues) : queues := set_waiters (waiters q ++ [(0, 0)]) q.
Definition pop_waiter (w : nat) (q : queues) : queues := set_waiters (take w (waiters q)) q.

Definition blockdev_submit_and_wait (req : blockdev_request) (s : bd) : Z * bd :=
  let w := length (waiters (que s)) in
  let s := on_que push_waiter s in
  let req := mk_req (op req) (req_dev req) (req_lba req) (req_count req) (req_buffer req) true (Some (Z.of_nat w)) in
  let '(src, s) := blockdev_submit_async req s in
  if src <? 0 then (src, on_que (pop_waiter w) s)
  else
    let '(rc, s) := wait_loop (queued s) w s in
    (rc, on_que (pop_waiter w) s).

Definition blockdev_read (index lba0 cnt : Z) (buffer : option bufptr) (s : bd) : Z * bd :=
  blockdev_submit_and_wait (mk_req BLOCKDEV_REQ_READ index lba0 cnt buffer false None) s.
Definition blockdev_write (index lba0 cnt : Z) (buffer : option bufptr) (s : bd) : Z * bd :=
  blockdev_submit_and_wait (mk_req BLOCKDEV_REQ_WRITE index lba0 cnt buffer false None) s.
Definition blockdev_flush (index : Z) (s : bd) : Z * bd :=
  blockdev_submit_and_wait (mk_req BLOCKDEV_REQ_FLUSH index 0 0 None false None) s.

(** [while (pending || completed || inflight) blockdev_pump(8)]. *)
Fixpoint blockdev_drain_async (fuel : nat) (s : bd) : bd :=
  if (0 <? count (g_pending (que s))) || (0 <? count (g_completed (que s))) || (0 <? g_async_inflight (que s))
  then match fuel with
       | O => s
       | S fuel => blockdev_drain_async fuel (blockdev_pump 8 s)
       end
  else s.

Definition blockdev_flush_all (s : bd) : Z * bd :=
  let s := blockdev_drain_async (queued s) s in
  writeback_from (Z.to_nat BLOCK_CACHE_ENTRIES) 0 (fun _ => true) s.
End calls.

(** ** The function pointers

    [mbr_partition_read]/[mbr_partition_write] call back into the block
    layer with the parent device; [depth] bounds the nesting. *)
Definition mbr_partition_read (read : Z -> Z -> Z -> option bufptr -> bd -> Z * bd)
    (ctx l cnt : Z) (buf : bufptr) (s : bd) : Z * bd :=
  match ctxs (dsk s) !! ctx with
  | None => (-1, s)
  | Some p => read (parent_index p) (u64 (start_lba p + l)) cnt (Some buf) s
  end.

Definition mbr_partition_write (write : Z -> Z -> Z -> option bufptr -> bd -> Z * bd)
    (ctx l cnt : Z) (buf : bufptr) (s : bd) : Z * bd :=
  match ctxs (dsk s) !! ctx with
  | None => (-1, s)
  | Some p => write (parent_index p) (u64 (start_lba p + l)) cnt (Some buf) s
  end.

Definition hw_read_buf (ctx l cnt : Z) (buf : bufptr) (s : bd) : Z * bd :=
  let '(rc, bytes, h) := hw_read ctx l cnt (hardware (dsk s)) in
  (rc, buf_store buf 0 bytes (on_dsk (set_hw h) s)).
Definition hw_write_buf (ctx l cnt : Z) (buf : bufptr) (s : bd) : Z * bd :=
  let '(rc, h) := hw_write ctx l cnt (buf_load buf s) (hardware (dsk s)) in
  (rc, on_dsk (set_hw h) s).

Fixpoint drv (depth : nat) (writing : bool) (fn : rw_fn) (ctx l cnt : Z) (buf : bufptr) (s : bd) : Z * bd :=
  match fn, depth with
  | fn_hw, _ => if writing then hw_write_buf ctx l cnt buf s else hw_read_buf ctx l cnt buf s
  | fn_mbr_partition, O => (-1, s)
  | fn_mbr_partition, S depth =>
      if writing then mbr_partition_write (blockdev_write (drv depth false) (drv depth true)) ctx l cnt buf s
      else mbr_partition_read (blockdev_read (drv depth false) (drv depth true)) ctx l cnt buf s
  end.

(** ** Initialisation and the device table *)

Definition blockdev_initialize (s : bd) : bd :=
  let d := dsk s in
  let q := que s in
  mk_bd
    (mk_disks [] (replicate (Z.to_nat BLOCK_CACHE_ENTRIES)
                    (mk_entry false false false 0 0 (replicate (Z.to_nat BLOCK_CACHE_BLOCK_SIZE) 0)))
       0 (mk_cstats BLOCK_CACHE_ENTRIES 0 0 0 0) (buffers d) (ctxs d) (g_parts d) (hardware d))
    (blockdev_update_async_pending_stat
      (mk_queues (ring_reset (g_pending q)) (ring_reset (g_completed q)) 0 (waiters q) (mk_astats 0 0 0 0))).

Definition find_by_name (name : list Z) (l : list block_device) : option block_device :=
  snd <$> list_find (fun d => dev_name d = name) l.

Definition blockdev_register (dev : block_device) (s : bd) : Z * bd :=
  match dev_read dev with
  | None => (-1, s)
  | Some _ =>
      if BLOCKDEV_MAX <=? g_count s then (-2, s)
      else match find_by_name (dev_name dev) (g_devs (dsk s)) with
      | Some _ => (-3, s)
      | None =>
          let n := g_count s in
          let dev := mk_dev n (dev_name dev) (dev_block_size dev) (dev_block_count dev) (dev_flags dev)
                       (dev_ctx dev) (dev_read dev) (dev_write dev) in
          (n, on_dsk (fun d => mk_disks (g_devs d ++ [dev]) (g_cache d) (g_cache_hand d) (g_cstats d)
                                (buffers d) (ctxs d) (g_parts d) (hardware d)) s)
      end
  end.

Definition blockdev_count (s : bd) : Z := g_count s.
Definition blockdev_get (index : Z) (s : bd) : option block_device :=
  if g_count s <=? index then None else Some (dev_at s index).
Definition blockdev_find_by_name (name : list Z) (s : bd) : option block_device :=
  match name with
  | [] => None
  | _ => find_by_name name (g_devs (dsk s))
  end.
Definition blockdev_cache_stats (s : bd) : cache_stats * async_stats := (g_cstats (dsk s), g_astats (que s)).
End state.
End BlockDev.

(** * The abstract disk *)
Module BlockDevSpec.
Import Ring BlockDev.

(** What the block layer relies on: one-sector transfers of the driver act
    on a store of 512-byte sectors; a failed read stores nothing, a failed
    write leaves at most the addressed sector undefined. *)
Class BlockDriverLaws `{BlockDriver} := {
  backing : hw -> Z -> Z -> list Z;
  backing_length h c l : length (backing h c l) = 512%nat;
  hw_read_law c l h rc bytes h' :
    hw_read c l 1 h = (rc, bytes, h') ->
    (forall c' l', backing h' c' l' = backing h c' l') /\
    (rc < 0 -> bytes = []) /\ (0 <= rc -> bytes = backing h c l);
  hw_write_law c l h bytes rc h' :
    length bytes = 512%nat -> hw_write c l 1 bytes h = (rc, h') ->
    (forall c' l', (c', l') <> (c, l) -> backing h' c' l' = backing h c' l') /\
    (0 <= rc -> backing h' c l = bytes);
}.

Section spec.
Context `{BlockDriverLaws}.
Implicit Types (d : disks) (s : bd) (e : cache_entry) (i l : Z) (k : nat).

Definition matches i l e : bool := valid e && (dev_index e =? i) && (lba e =? l).

Definition dev_of (devs : list block_device) i : block_device := devs !!! Z.to_nat i.
Definition in_table (devs : list block_device) i : Prop := 0 <= i < Z.of_nat (length devs).

(** A device backed by hardware, with 512-byte blocks and not a partition. *)
Definition cached_dev (dev : block_device) : Prop :=
  dev_read dev = Some fn_hw /\ blockdev_should_cache dev = true.
Definition hw_dev (devs : list block_device) i : Prop := in_table devs i /\ dev_read (dev_of devs i) = Some fn_hw.

(** The content of sector [l] of device [i]: the cached copy if there is one. *)
Definition view d i l : list Z :=
  let j := index_from (matches i l) 0 (g_cache d) in
  if 0 <=? j then data (g_cache d !!! Z.to_nat j) else backing (hardware d) (dev_ctx (dev_of (g_devs d) i)) l.

Record entry_ok (devs : list block_device) e : Prop := {
  eo_data : length (data e) = 512%nat;
  eo_dev : valid e = true -> in_table devs (dev_index e) /\ cached_dev (dev_of devs (dev_index e));
  eo_dirty : valid e = true -> dirty e = true ->
    dev_write (dev_of devs (dev_index e)) = Some fn_hw /\
    is_set (dev_flags (dev_of devs (dev_index e))) BLOCKDEV_FLAG_READONLY = false;
}.

(** A clean entry is a copy of the sector it caches. *)
Definition clean_ok d e : Prop :=
  valid e = true -> dirty e = false ->
  data e = backing (hardware d) (dev_ctx (dev_of (g_devs d) (dev_index e))) (lba e).

Record wf d : Prop := {
  wf_len : length (g_cache d) = 128%nat;
  wf_hand : 0 <= g_cache_hand d < 128;
  wf_entry : forall k e, g_cache d !! k = Some e -> entry_ok (g_devs d) e;
  wf_clean : forall k e, g_cache d !! k = Some e -> clean_ok d e;
  wf_unique : forall j k e e', g_cache d !! j = Some e -> g_cache d !! k = Some e' ->
    valid e = true -> valid e' = true -> dev_index e = dev_index e' -> lba e = lba e' -> j = k;
  wf_ctx : forall i j, hw_dev (g_devs d) i -> hw_dev (g_devs d) j -> dev_ctx (dev_of (g_devs d) i) = dev_ctx (dev_of (g_devs d) j) -> i = j;
  wf_write : forall i f, hw_dev (g_devs d) i -> dev_write (dev_of (g_devs d) i) = Some f -> f = fn_hw;
}.

Lemma index_from_spec (p : cache_entry -> bool) c a :
  0 <= a ->
  (index_from p a c = -1 /\ forall k e, c !! k = Some e -> p e = false) \/
  (exists k e, index_from p a c = a + Z.of_nat k /\ c !! k = Some e /\ p e = true).
Proof.
  revert a. induction c as [|e c IH]; intros a Ha; simpl; [by left|].
  destruct (p e) eqn:E.
  - right. exists 0%nat, e. split_and!; [lia|done|done].
  - destruct (IH (a + 1) ltac:(lia)) as [[-> Hn]|(k & f & -> & Hk & Hf)]; [left|right].
    + split; [done|]. intros [|k] f; simpl; [by intros [= ->]|apply Hn].
    + exists (S k), f. split_and!; [lia|done|done].
Qed.

Lemma matches_spec i l e : matches i l e = true <-> valid e = true /\ dev_index e = i /\ lba e = l.
Proof. unfold matches. rewrite !andb_true_iff, !Z.eqb_eq. tauto. Qed.

(** The cache lookup, without the search order. *)
Lemma view_hit d i l k e :
  wf d -> g_cache d !! k = Some e -> matches i l e = true -> view d i l = data e.
Proof.
  intros Hw Hk Hm. unfold view.
  destruct (index_from_spec (matches i l) (g_cache d) 0 ltac:(lia)) as [[-> Hn]|(j & f & -> & Hj & Hf)].
  { by rewrite (Hn _ _ Hk) in Hm. }
  rewrite (proj2 (Z.leb_le _ _)) by lia. replace (Z.to_nat (0 + Z.of_nat j)) with j by lia.
  apply matches_spec in Hm as (? & ? & ?), Hf as (? & ? & ?).
  assert (j = k) as -> by (eapply wf_unique; eauto; congruence).
  by rewrite (list_lookup_total_correct _ _ _ Hk).
Qed.

Lemma view_miss d i l :
  (forall k e, g_cache d !! k = Some e -> matches i l e = false) ->
  view d i l = backing (hardware d) (dev_ctx (dev_of (g_devs d) i)) l.
Proof.
  intros Hn. unfold view.
  destruct (index_from_spec (matches i l) (g_cache d) 0 ltac:(lia)) as [[-> _]|(j & f & -> & Hj & Hf)]; [done|].
  by rewrite (Hn _ _ Hj) in Hf.
Qed.

Lemma cache_dec d i l :
  (exists k e, g_cache d !! k = Some e /\ matches i l e = true) \/
  (forall k e, g_cache d !! k = Some e -> matches i l e = false).
Proof.
  destruct (index_from_spec (matches i l) (g_cache d) 0 ltac:(lia)) as [[_ ?]|(j & f & _ & ? & ?)]; eauto.
Qed.

(** ** Replacing one entry *)

Definition replace (k : nat) e d := set_cache (<[k := e]> (g_cache d)) d.

(** No other slot holds the tags of [e]. *)
Definition fresh_tags d (k : nat) e : Prop :=
  valid e = true -> forall j f, j <> k -> g_cache d !! j = Some f -> matches (dev_index e) (lba e) f = false.

Lemma wf_replace d k e e0 :
  wf d -> g_cache d !! k = Some e0 -> entry_ok (g_devs d) e -> clean_ok d e -> fresh_tags d k e ->
  wf (replace k e d).
Proof.
  intros [] Hk He Hc Hf. pose proof (lookup_lt_Some _ _ _ Hk) as Hlt.
  constructor; simpl; try done.
  - by rewrite length_insert.
  - intros j f [(<- & <- & _)|(? & ?)]%list_lookup_insert_Some; [done|by apply (wf_entry0 j)].
  - intros j f [(<- & <- & _)|(? & ?)]%list_lookup_insert_Some; [exact Hc|by apply (wf_clean0 j)].
  - intros i j f f' [(<- & <- & _)|(? & Hi)]%list_lookup_insert_Some
      [(<- & <- & _)|(? & Hj)]%list_lookup_insert_Some Hv Hv' Ed El; try done.
    + pose proof (Hf Hv j f' ltac:(done) Hj) as Hm. rewrite (proj2 (matches_spec _ _ _)) in Hm; done.
    + pose proof (Hf Hv' i f ltac:(done) Hi) as Hm. rewrite (proj2 (matches_spec _ _ _)) in Hm; done.
    + eauto.
Qed.

Lemma view_replace d k e e0 i l :
  wf d -> g_cache d !! k = Some e0 -> entry_ok (g_devs d) e -> clean_ok d e -> fresh_tags d k e ->
  view (replace k e d) i l =
    if matches i l e then data e
    else if matches i l e0 then backing (hardware d) (dev_ctx (dev_of (g_devs d) i)) l
    else view d i l.
Proof.
  intros Hw Hk He Hc Hf. pose proof (wf_replace d k e e0 Hw Hk He Hc Hf) as Hw'.
  pose proof (lookup_lt_Some _ _ _ Hk) as Hlt.
  assert (g_cache (replace k e d) !! k = Some e) as Hk' by (by apply list_lookup_insert_eq).
  destruct (matches i l e) eqn:Em; [by eapply view_hit|].
  destruct (matches i l e0) eqn:E0.
  - etrans; [apply view_miss|reflexivity]. intros j f [(<- & <- & _)|(Hne & Hj)]%list_lookup_insert_Some; [done|].
    destruct (matches i l f) eqn:Ef; [|done]. apply matches_spec in Ef as (? & ? & ?), E0 as (? & ? & ?).
    exfalso. apply Hne. apply (wf_unique d Hw k j e0 f); congruence.
  - destruct (cache_dec d i l) as [(j & f & Hj & Hm)|Hn].
    + rewrite (view_hit d i l j f Hw Hj Hm). assert (j <> k) by congruence.
      eapply view_hit; [done| |done]. simpl. by rewrite list_lookup_insert_ne by done.
    + rewrite (view_miss d i l Hn). etrans; [apply view_miss|reflexivity].
      intros j f [(<- & <- & _)|(? & Hj)]%list_lookup_insert_Some; [done|by eapply Hn].
Qed.

(** ** Steps that keep the content of every disk *)

Record keeps s s' : Prop := {
  kp_wf : wf (dsk s');
  kp_devs : g_devs (dsk s') = g_devs (dsk s);
  kp_ctxs : ctxs (dsk s') = ctxs (dsk s);
  kp_parts : g_parts (dsk s') = g_parts (dsk s);
  kp_que : que s' = que s;
  kp_view : forall i l, hw_dev (g_devs (dsk s)) i -> view (dsk s') i l = view (dsk s) i l;
}.

Lemma keeps_refl s : wf (dsk s) -> keeps s s.
Proof. by constructor. Qed.

Lemma keeps_trans s1 s2 s3 : keeps s1 s2 -> keeps s2 s3 -> keeps s1 s3.
Proof.
  intros [] []. constructor; try congruence.
  intros i l Hi. rewrite kp_view1 by congruence. by apply kp_view0.
Qed.

Lemma entry_lookup d (k : nat) : wf d -> (k < 128)%nat -> g_cache d !! k = Some (g_cache d !!! k).
Proof. intros [] Hk. apply list_lookup_lookup_total_lt. lia. Qed.

Lemma entry_at_lookup s (k : Z) : wf (dsk s) -> 0 <= k < 128 -> g_cache (dsk s) !! Z.to_nat k = Some (entry_at s k).
Proof. intros. apply entry_lookup; [done|lia]. Qed.

Lemma wf_same d d' :
  wf d -> g_devs d' = g_devs d -> g_cache d' = g_cache d -> hardware d' = hardware d ->
  0 <= g_cache_hand d' < 128 -> wf d'.
Proof. intros [] Hd Hc Hw Hh. constructor; unfold clean_ok; rewrite ?Hd, ?Hc, ?Hw; done. Qed.

Lemma view_same d d' i l :
  g_devs d' = g_devs d -> g_cache d' = g_cache d ->
  backing (hardware d') (dev_ctx (dev_of (g_devs d) i)) l = backing (hardware d) (dev_ctx (dev_of (g_devs d) i)) l ->
  view d' i l = view d i l.
Proof. intros Hd Hc Hb. unfold view. by rewrite Hd, Hc, Hb. Qed.

Lemma keeps_bump f s : wf (dsk s) -> keeps s (bump_cstats f s).
Proof. intros Hw. constructor; try done. apply (wf_same (dsk s)); try done. apply Hw. Qed.

Lemma keeps_hand h s : wf (dsk s) -> 0 <= h < 128 -> keeps s (on_dsk (set_hand h) s).
Proof. intros Hw Hh. constructor; try done. by apply (wf_same (dsk s)). Qed.

Lemma keeps_buf_mem h off bytes s : wf (dsk s) -> keeps s (buf_store (buf_mem h) off bytes s).
Proof. intros Hw. constructor; try done. apply (wf_same (dsk s)); try done. apply Hw. Qed.

(** Changing flags of an entry that stays as valid and as dirty as it was. *)
Lemma keeps_upd_ref (k : Z) b s :
  wf (dsk s) -> 0 <= k < 128 -> keeps s (upd_entry k (e_ref b) s).
Proof.
  intros Hw Hk. pose proof (entry_at_lookup s k Hw Hk) as He.
  change (upd_entry k (e_ref b) s) with (on_dsk (replace (Z.to_nat k) (e_ref b (entry_at s k))) s).
  assert (entry_ok (g_devs (dsk s)) (e_ref b (entry_at s k))) as Hok.
  { destruct (wf_entry _ Hw _ _ He). by constructor. }
  assert (fresh_tags (dsk s) (Z.to_nat k) (e_ref b (entry_at s k))) as Hf.
  { intros Hv j f Hj Hl. destruct (matches _ _ f) eqn:Em; [|done]. apply matches_spec in Em as (? & ? & ?).
    simpl in *. exfalso. apply Hj. apply (wf_unique _ Hw j _ f _ Hl He); congruence. }
  pose proof (wf_clean _ Hw _ _ He) as Hcl.
  constructor; try done.
  - by eapply wf_replace.
  - intros i l _. simpl. erewrite view_replace by done.
    change (matches i l (e_ref b (entry_at s k))) with (matches i l (entry_at s k)).
    destruct (matches i l (entry_at s k)) eqn:Em; [|done]. symmetry. exact (view_hit _ _ _ _ _ Hw He Em).
Qed.

(** The tags of the entries; most steps keep them. *)
Definition tag e : bool * Z * Z := (valid e, dev_index e, lba e).
Definition tags s : list (bool * Z * Z) := tag <$> g_cache (dsk s).

Lemma tags_upd (k : Z) f s : (forall e, tag (f e) = tag e) -> tags (upd_entry k f s) = tags s.
Proof.
  intros Hf. unfold tags. simpl. rewrite list_fmap_insert, Hf.
  destruct (decide (Z.to_nat k < length (g_cache (dsk s)))%nat) as [Hlt|Hge].
  - apply list_insert_id. by rewrite list_lookup_fmap, list_lookup_lookup_total_lt.
  - apply list_insert_ge. rewrite length_fmap. lia.
Qed.

Lemma tags_miss s s' i l :
  tags s' = tags s -> (forall k e, g_cache (dsk s) !! k = Some e -> matches i l e = false) ->
  forall k e, g_cache (dsk s') !! k = Some e -> matches i l e = false.
Proof.
  intros Ht Hn k e Hk. assert (tags s !! k = Some (tag e)) as He by (rewrite <- Ht; unfold tags; by rewrite list_lookup_fmap, Hk).
  unfold tags in He. rewrite list_lookup_fmap in He. destruct (g_cache (dsk s) !! k) as [e'|] eqn:Ek; [|done].
  injection He as E1 E2 E3. rewrite <- (Hn k e' Ek). unfold matches. by rewrite E1, E2, E3.
Qed.

(** ** The clock *)

Lemma entry_at_upd_ne (k j : Z) f s : 0 <= k -> 0 <= j -> k <> j -> entry_at (upd_entry k f s) j = entry_at s j.
Proof. intros. unfold entry_at. simpl. rewrite list_lookup_total_insert_ne; [done|lia]. Qed.
Lemma entry_at_upd_eq (k : Z) f s :
  wf (dsk s) -> 0 <= k < 128 -> entry_at (upd_entry k f s) k = f (entry_at s k).
Proof. intros [] Hk. unfold entry_at. simpl. apply list_lookup_total_insert_eq. lia. Qed.

(** The [m] entries from the hand on have clear reference bits. *)
Definition cleared_behind (m : nat) s : Prop :=
  forall j, 0 <= j < Z.of_nat m -> ref (entry_at s ((g_cache_hand (dsk s) - 1 - j) mod 128)) = false.

Lemma clock_step_cleared m s :
  wf (dsk s) -> (m < 128)%nat -> cleared_behind m s ->
  cleared_behind (S m) (on_dsk (set_hand (u32 (g_cache_hand (dsk s) + 1) mod 128))
                          (upd_entry (g_cache_hand (dsk s)) (e_ref false) s)).
Proof.
  intros Hw Hm Hc j Hj. pose proof (wf_hand _ Hw) as Hh. rewrite u32_small by lia.
  change (g_cache_hand (dsk (on_dsk (set_hand ?x) ?y))) with x.
  change (entry_at (on_dsk (set_hand ?x) ?y) ?z) with (entry_at y z).
  assert ((((g_cache_hand (dsk s) + 1) mod 128 - 1 - j) mod 128 = (g_cache_hand (dsk s) - j) mod 128)) as ->.
  { rewrite <- Z.sub_add_distr, Zminus_mod_idemp_l. f_equal. lia. }
  destruct (decide (j = 0)) as [->|Hj0].
  - rewrite Z.sub_0_r, Z.mod_small by lia. by rewrite entry_at_upd_eq.
  - rewrite entry_at_upd_ne; [|lia|apply Z.mod_pos_bound; lia|zlia].
    rewrite <- (Hc (j - 1)) by lia. do 2 f_equal. f_equal. lia.
Qed.

Lemma clock_sweep_spec fuel m s :
  wf (dsk s) -> cleared_behind m s -> (128 < fuel + m)%nat -> (m <= 128)%nat ->
  let '(k, s') := clock_sweep fuel s in
  0 <= k < 128 /\ keeps s s' /\ buffers (dsk s') = buffers (dsk s) /\ tags s' = tags s.
Proof.
  revert m s. induction fuel as [|fuel IH]; intros m s Hw Hc Hf Hm; [lia|].
  pose proof (wf_hand _ Hw) as Hh. cbn [clock_sweep]. change BLOCK_CACHE_ENTRIES with 128.
  set (next := u32 (g_cache_hand (dsk s) + 1) mod 128).
  assert (0 <= next < 128) as Hnx by (apply Z.mod_pos_bound; lia).
  destruct (ref (entry_at s (g_cache_hand (dsk s)))) eqn:Er; simpl negb; cbv iota.
  - assert (m < 128)%nat as Hm'.
    { destruct (decide (m = 128%nat)) as [->|]; [|lia]. exfalso. specialize (Hc 127 ltac:(lia)).
      replace ((g_cache_hand (dsk s) - 1 - 127) mod 128) with (g_cache_hand (dsk s)) in Hc; [congruence|].
      replace (g_cache_hand (dsk s) - 1 - 127) with (g_cache_hand (dsk s) + (-1) * 128) by lia.
      rewrite Z.mod_add, Z.mod_small; lia. }
    pose proof (keeps_upd_ref (g_cache_hand (dsk s)) false s Hw Hh) as Hk1.
    pose proof (clock_step_cleared m s Hw Hm' Hc) as Hc1. fold next in Hc1.
    set (s1 := upd_entry _ _ s) in *.
    pose proof (keeps_hand next s1 (kp_wf _ _ Hk1) Hnx) as Hk2.
    specialize (IH (S m) (on_dsk (set_hand next) s1) (kp_wf _ _ Hk2) Hc1 ltac:(lia) ltac:(lia)).
    destruct (clock_sweep fuel _) as [k s']. destruct IH as (? & ? & Hb & Ht).
    split_and!; [lia..| | |].
    + eapply keeps_trans; [exact Hk1|]. eapply keeps_trans; [exact Hk2|done].
    + by rewrite Hb.
    + rewrite Ht. by apply (tags_upd _ _ s).
  - split_and!; [lia..| |done|done].
    eapply keeps_trans; [|apply keeps_bump]; [by apply keeps_hand|].
    by apply (kp_wf _ _ (keeps_hand next s Hw Hnx)).
Qed.

Lemma get_slot_spec s :
  wf (dsk s) ->
  let '(k, s') := block_cache_get_slot s in
  0 <= k < 128 /\ keeps s s' /\ buffers (dsk s') = buffers (dsk s) /\ tags s' = tags s.
Proof.
  intros Hw. unfold block_cache_get_slot.
  destruct (index_from_spec (fun e => negb (valid e)) (g_cache (dsk s)) 0 ltac:(lia)) as [[-> _]|(j & f & -> & Hj & _)].
  - change (0 <=? -1) with false. cbv iota. change (Z.to_nat BLOCK_CACHE_ENTRIES) with 128%nat.
    apply (clock_sweep_spec _ 0); [done| |lia|lia]. intros j Hj. lia.
  - rewrite (proj2 (Z.leb_le _ _)) by lia. apply lookup_lt_Some in Hj. rewrite (wf_len _ Hw) in Hj.
    split_and!; [lia..|by apply keeps_refl|done|done].
Qed.

(** ** Driver calls on cache entries *)

(** Writing the sector that a dirty entry caches changes no content. *)
Lemma hw_change_keeps d h' k e :
  wf d -> g_cache d !! k = Some e -> valid e = true -> dirty e = true ->
  (forall c' l', (c', l') <> (dev_ctx (dev_of (g_devs d) (dev_index e)), lba e) ->
     backing h' c' l' = backing (hardware d) c' l') ->
  wf (set_hw h' d) /\
  forall i l, hw_dev (g_devs d) i -> view (set_hw h' d) i l = view d i l.
Proof.
  intros Hw Hk Hv Hd Hb. destruct (eo_dev _ _ (wf_entry _ Hw _ _ Hk) Hv) as [Ht [Hr _]].
  assert (forall i l, hw_dev (g_devs d) i -> (i, l) <> (dev_index e, lba e) ->
    backing h' (dev_ctx (dev_of (g_devs d) i)) l = backing (hardware d) (dev_ctx (dev_of (g_devs d) i)) l) as Hb'.
  { intros i l Hi Hne. apply Hb. intros [= E ->]. apply Hne. f_equal. by apply (wf_ctx _ Hw). }
  split.
  - destruct Hw. constructor; try done. intros j f Hj Hvf Hdf. simpl.
    destruct (eo_dev _ _ (wf_entry0 _ _ Hj) Hvf) as [Htf [Hrf _]].
    rewrite Hb'; [by apply (wf_clean0 j)|done|]. intros [= E1 E2].
    assert (j = k) as -> by (eapply wf_unique0; eauto). simpl in Hj. congruence.
  - intros i l Hi. destruct (cache_dec d i l) as [(j & f & Hj & Hm)|Hn].
    + unfold view. simpl.
      destruct (index_from_spec (matches i l) (g_cache d) 0 ltac:(lia)) as [[_ Hno]|(m & g & -> & _)].
      { by rewrite (Hno _ _ Hj) in Hm. } by rewrite (proj2 (Z.leb_le _ _)) by lia.
    + rewrite (view_miss d i l Hn). etrans; [by apply view_miss|]. simpl. apply Hb'; [done|].
      intros [= -> ->]. specialize (Hn _ _ Hk). by rewrite (proj2 (matches_spec _ _ _)) in Hn.
Qed.

Section hw_calls.
Context (rd wr : rw_fn -> Z -> Z -> Z -> bufptr -> bd -> Z * bd).
Hypothesis rd_hw : rd fn_hw = hw_read_buf.
Hypothesis wr_hw : wr fn_hw = hw_write_buf.

Lemma e_dirty_self e b : dirty e = b -> e = e_dirty b e.
Proof. intros <-. by destruct e. Qed.

(** A write-back keeps the content; on success the entry is clean. *)
Lemma writeback_entry_spec s (k : Z) :
  wf (dsk s) -> 0 <= k < 128 ->
  let '(rc, s') := block_cache_writeback_entry wr k s in
  keeps s s' /\ buffers (dsk s') = buffers (dsk s) /\ rc <= 0 /\ tags s' = tags s /\
  (forall j, 0 <= j -> j <> k -> entry_at s' j = entry_at s j) /\
  (rc = 0 -> entry_at s' k = e_dirty (negb (valid (entry_at s k)) && dirty (entry_at s k)) (entry_at s k)).
Proof.
  intros Hw Hk. pose proof (entry_at_lookup s k Hw Hk) as He. set (e := entry_at s k) in *.
  pose proof (wf_entry _ Hw _ _ He) as Hok. unfold block_cache_writeback_entry. fold e.
  destruct (valid e) eqn:Hv, (dirty e) eqn:Hd; cbn [negb orb andb];
    try (split_and!; [by apply keeps_refl|done|done|done|done|]; intros _; by apply e_dirty_self).
  destruct (eo_dev _ _ Hok Hv) as [Ht [Hr _]], (eo_dirty _ _ Hok Hv Hd) as [Hwr Hro].
  rewrite (proj2 (Z.leb_gt _ _)) by apply Ht. change (dev_at s (dev_index e)) with (dev_of (g_devs (dsk s)) (dev_index e)).
  rewrite Hwr, Hro, wr_hw. unfold hw_write_buf. simpl buf_load. fold e.
  destruct (hw_write _ _ _ _ _) as [rc h'] eqn:E.
  destruct (hw_write_law _ _ _ _ _ _ (eo_data _ _ Hok) E) as [Hother Hsame].
  destruct (hw_change_keeps (dsk s) h' _ e Hw He Hv Hd Hother) as [Hw1 Hv1].
  destruct (Z.ltb_spec rc 0).
  { split_and!; [by constructor|done|lia|done|done|lia]. }
  set (s1 := on_dsk (set_hw h') s).
  assert (entry_at s1 k = e) as Ee by done.
  assert (g_cache (dsk s1) !! Z.to_nat k = Some e) as He1 by done.
  assert (entry_ok (g_devs (dsk s1)) (e_dirty false e)) as Hok1 by (destruct Hok; by constructor).
  assert (clean_ok (dsk s1) (e_dirty false e)) as Hcl by (intros _ _; simpl; by rewrite Hsame by lia).
  assert (fresh_tags (dsk s1) (Z.to_nat k) (e_dirty false e)) as Hfr.
  { intros _ j f Hj Hl. destruct (matches _ _ f) eqn:Em; [|done]. apply matches_spec in Em as (? & ? & ?).
    exfalso. apply Hj. apply (wf_unique _ Hw1 j _ f e); simpl in *; congruence. }
  split_and!; [constructor|done|lia|by apply (tags_upd k (e_dirty false) s1)| |]; try done.
  - apply (wf_same (replace (Z.to_nat k) (e_dirty false e) (dsk s1))); try done;
      [by apply (wf_replace (dsk s1) _ _ e)|apply Hw].
  - intros i l Hi. rewrite <- Hv1 by done.
    change (view (replace (Z.to_nat k) (e_dirty false e) (dsk s1)) i l = view (dsk s1) i l).
    rewrite (view_replace (dsk s1) _ _ e) by done.
    change (matches i l (e_dirty false e)) with (matches i l e).
    destruct (matches i l e) eqn:Em; [|done]. symmetry. exact (view_hit _ _ _ _ _ Hw1 He1 Em).
  - intros j Hj Hne. exact (entry_at_upd_ne k j (e_dirty false) s1 ltac:(lia) Hj ltac:(done)).
  - intros _. exact (entry_at_upd_eq k (e_dirty false) s1 Hw1 Hk).
Qed.

Lemma writeback_victim_spec s (k : Z) :
  wf (dsk s) -> 0 <= k < 128 ->
  let '(rc, s') := writeback_victim wr k s in
  keeps s s' /\ buffers (dsk s') = buffers (dsk s) /\ rc <= 0 /\ tags s' = tags s /\
  (rc = 0 -> valid (entry_at s' k) && dirty (entry_at s' k) = false).
Proof.
  intros Hw Hk. unfold writeback_victim. destruct (valid (entry_at s k) && dirty (entry_at s k)) eqn:E.
  - pose proof (writeback_entry_spec s k Hw Hk) as Hs.
    destruct (block_cache_writeback_entry wr k s) as [rc s']. destruct Hs as (? & ? & ? & ? & _ & Hr).
    split_and!; try done. intros ->. rewrite Hr by done. simpl. by destruct (valid (entry_at s k)).
  - split_and!; [by apply keeps_refl|done|done|done|done].
Qed.

(** Content of a slot that is free to be reused. *)
Lemma view_reusable s (k : Z) i l :
  wf (dsk s) -> 0 <= k < 128 -> valid (entry_at s k) && dirty (entry_at s k) = false ->
  matches i l (entry_at s k) = true ->
  backing (hardware (dsk s)) (dev_ctx (dev_of (g_devs (dsk s)) i)) l = view (dsk s) i l.
Proof.
  intros Hw Hk Hnd Hm. pose proof (entry_at_lookup s k Hw Hk) as He.
  rewrite (view_hit _ _ _ _ _ Hw He Hm). apply matches_spec in Hm as (Hv & <- & <-).
  rewrite Hv in Hnd. symmetry. by apply (wf_clean _ Hw _ _ He).
Qed.

(** Replacing a reusable slot by a clean copy keeps the content. *)
Lemma load_spec s (k : Z) i l :
  wf (dsk s) -> 0 <= k < 128 -> valid (entry_at s k) && dirty (entry_at s k) = false ->
  in_table (g_devs (dsk s)) i -> cached_dev (dev_of (g_devs (dsk s)) i) ->
  (forall j e, g_cache (dsk s) !! j = Some e -> matches i l e = false) ->
  let '(rc, s') := block_cache_load rd k i l s in
  keeps s s' /\ buffers (dsk s') = buffers (dsk s) /\ rc <= 0 /\
  (rc = 0 -> data (entry_at s' k) = view (dsk s) i l).
Proof.
  intros Hw Hk Hnd Hi Hc Hn. pose proof (entry_at_lookup s k Hw Hk) as He. set (e := entry_at s k) in *.
  pose proof Hc as [Hr _]. unfold block_cache_load. change (dev_at s i) with (dev_of (g_devs (dsk s)) i).
  rewrite Hr, rd_hw. unfold hw_read_buf.
  destruct (hw_read _ _ _ _) as [[rc bytes] h'] eqn:E. destruct (hw_read_law _ _ _ _ _ _ E) as (Hb & Hfail & Hgot).
  assert (wf (set_hw h' (dsk s))) as Hw1.
  { destruct Hw. constructor; try done. intros j f Hj ??. simpl. rewrite Hb. by apply (wf_clean0 j). }
  assert (forall i' l', view (set_hw h' (dsk s)) i' l' = view (dsk s) i' l') as Hv1 by (intros; by apply view_same).
  set (s1 := on_dsk (set_hw h') s).
  destruct (Z.ltb_spec rc 0).
  { rewrite (Hfail ltac:(lia)). simpl.
    assert (upd_entry k (fun e => e_data (splice 0 [] (data e)) e) s1 = s1) as ->.
    { unfold upd_entry, on_dsk, s1, on_dsk. simpl. f_equal. unfold set_cache, set_hw. simpl. f_equal.
      unfold splice. simpl. apply list_insert_id.
      change (g_cache (dsk s) !!! Z.to_nat k) with e. rewrite He. f_equal. unfold e_data. by destruct e. }
    split_and!; [by constructor|done|lia|lia]. }
  rewrite (Hgot ltac:(lia)). set (blk := backing (hardware (dsk s)) _ l) in *.
  assert (length blk = 512%nat) as Hlen by apply backing_length.
  set (e' := mk_entry true false true i l blk).
  assert (splice 0 blk (data e) = blk) as Hsp.
  { unfold splice. change (Z.to_nat 0) with 0%nat. rewrite take_0. simpl.
    rewrite drop_ge, app_nil_r; [done|]. rewrite Hlen, (eo_data _ _ (wf_entry _ Hw _ _ He)). lia. }
  assert (upd_entry k (fun e => mk_entry true false true i l (data e))
    (upd_entry k (fun e => e_data (splice 0 blk (data e)) e) s1) = on_dsk (replace (Z.to_nat k) e') s1) as Hupd.
  { unfold upd_entry, on_dsk. simpl. f_equal. unfold set_cache, replace, set_cache. simpl. f_equal.
    rewrite list_insert_insert_eq, list_lookup_total_insert_eq by (rewrite (wf_len _ Hw); lia).
    f_equal. change (g_cache (dsk s) !!! Z.to_nat k) with e. simpl. by rewrite Hsp. }
  simpl buf_store. rewrite Hupd.
  assert (entry_ok (g_devs (dsk s1)) e') as Hok' by (by constructor).
  assert (clean_ok (dsk s1) e') as Hcl' by (intros _ _; simpl; by rewrite Hb).
  assert (fresh_tags (dsk s1) (Z.to_nat k) e') as Hfr by (intros _ j f _ Hf; by eapply Hn).
  split_and!; [constructor|done|done|]; try done.
  - by apply (wf_replace (dsk s1) _ _ e).
  - intros i' l' _. simpl. rewrite <- Hv1. change (set_hw h' (dsk s)) with (dsk s1).
    rewrite (view_replace (dsk s1) _ _ e) by done.
    destruct (matches i' l' e') eqn:Em'.
    { apply matches_spec in Em' as (_ & <- & <-). simpl. rewrite (view_miss (dsk s1)) by done. simpl. by rewrite Hb. }
    destruct (matches i' l' e) eqn:Em; [|done].
    by apply (view_reusable s1 k).
  - intros _. unfold entry_at. simpl. rewrite list_lookup_total_insert_eq by (rewrite (wf_len _ Hw); lia).
    simpl. symmetry. by apply view_miss.
Qed.

(** ** Multi-block transfers on cached devices *)

(** The [n] sectors from [l] on, one after the other. *)
Fixpoint sectors (v : Z -> list Z) (l : Z) (n : nat) : list Z :=
  match n with
  | O => []
  | S n => v l ++ sectors v (l + 1) n
  end.

Lemma sectors_ext v v' l n : (forall j, v j = v' j) -> sectors v l n = sectors v' l n.
Proof. intros E. revert l. induction n as [|n IH]; intros l; simpl; [done|]. by rewrite E, IH. Qed.

Lemma length_view d i l : wf d -> length (view d i l) = 512%nat.
Proof.
  intros Hw. destruct (cache_dec d i l) as [(k & e & Hk & Hm)|Hn].
  - rewrite (view_hit _ _ _ _ _ Hw Hk Hm). apply (eo_data _ _ (wf_entry _ Hw _ _ Hk)).
  - rewrite (view_miss _ _ _ Hn). apply backing_length.
Qed.

Lemma length_sectors v l n : (forall j, length (v j) = 512%nat) -> length (sectors v l n) = (512 * n)%nat.
Proof. intros E. revert l. induction n as [|n IH]; intros l; simpl; [lia|]. rewrite length_app, E, IH. lia. Qed.

(** The cache search, in terms of [matches]. *)
Lemma find_cases i l s :
  (block_cache_find i l s = -1 /\ forall k e, g_cache (dsk s) !! k = Some e -> matches i l e = false) \/
  (exists (k : Z), block_cache_find i l s = k /\ 0 <= k /\ exists e, g_cache (dsk s) !! Z.to_nat k = Some e /\ matches i l e = true).
Proof.
  destruct (index_from_spec (matches i l) (g_cache (dsk s)) 0 ltac:(lia)) as [?|(k & e & Hf & Hk & Hm)]; [by left|right].
  exists (0 + Z.of_nat k). split_and!; [done|lia|]. exists e.
  by replace (Z.to_nat (0 + Z.of_nat k)) with k by lia.
Qed.

(** One block fetched: afterwards the slot holds the sector. *)
Definition fetch (index cur : Z) s : Z * Z * bd :=
  let slot := block_cache_find index cur s in
  if 0 <=? slot then (0, slot, upd_entry slot (e_ref true) (bump_cstats inc_hits s))
  else
    let '(slot, s) := block_cache_get_slot (bump_cstats inc_misses s) in
    if slot <? 0 then (-5, slot, s)
    else
      let '(wrc, s) := writeback_victim wr slot s in
      if wrc <? 0 then (wrc, slot, s)
      else let '(lrc, s) := block_cache_load rd slot index cur s in (lrc, slot, s).

Lemma read_blocks_step n index lba0 i buf s :
  read_blocks rd wr (S n) index lba0 i buf s =
    let '(rc, slot, s) := fetch index (u64 (lba0 + i)) s in
    if rc <? 0 then (rc, s)
    else read_blocks rd wr n index lba0 (i + 1) buf
           (buf_store buf (u32 (i * BLOCK_CACHE_BLOCK_SIZE)) (data (entry_at s slot)) s).
Proof.
  cbn [read_blocks]. unfold fetch. destruct (0 <=? block_cache_find _ _ _); [done|].
  destruct (block_cache_get_slot _) as [slot s1]. destruct (slot <? 0) eqn:?; [done|].
  destruct (writeback_victim _ _ _) as [wrc s2]. destruct (wrc <? 0) eqn:E; [by rewrite E|].
  destruct (block_cache_load _ _ _ _ _) as [lrc s3]. by destruct (lrc <? 0) eqn:E'.
Qed.

Lemma miss_neg : (0 <=? -1) = false.
Proof. done. Qed.

Lemma fetch_spec index cur s :
  wf (dsk s) -> in_table (g_devs (dsk s)) index -> cached_dev (dev_of (g_devs (dsk s)) index) ->
  let '(rc, slot, s') := fetch index cur s in
  keeps s s' /\ buffers (dsk s') = buffers (dsk s) /\ rc <= 0 /\
  (rc = 0 -> data (entry_at s' slot) = view (dsk s) index cur).
Proof.
  intros Hw Hi Hc. unfold fetch. destruct (find_cases index cur s) as [[-> Hn]|(k & -> & Hk0 & e & He & Hm)].
  - rewrite miss_neg. pose proof (keeps_bump inc_misses s Hw) as K0.
    pose proof (get_slot_spec (bump_cstats inc_misses s) (kp_wf _ _ K0)) as Hg.
    destruct (block_cache_get_slot _) as [k s1]. destruct Hg as (Hk & K1 & B1 & T1).
    rewrite (proj2 (Z.ltb_ge _ _)) by lia.
    pose proof (writeback_victim_spec s1 k (kp_wf _ _ K1) Hk) as Hv.
    destruct (writeback_victim wr k s1) as [wrc s2]. destruct Hv as (K2 & B2 & Hwrc & T2 & Hclean).
    pose proof (keeps_trans _ _ _ K0 (keeps_trans _ _ _ K1 K2)) as K.
    destruct (Z.ltb_spec wrc 0); [split_and!; [done|by rewrite B2, B1|lia|lia]|].
    pose proof (load_spec s2 k index cur (kp_wf _ _ K2) Hk (Hclean ltac:(lia))) as Hl.
    rewrite (kp_devs _ _ K) in Hl. specialize (Hl Hi Hc (tags_miss (bump_cstats inc_misses s) s2 _ _ ltac:(by rewrite T2, T1) Hn)).
    destruct (block_cache_load rd k index cur s2) as [lrc s3]. destruct Hl as (K3 & B3 & ? & Hd).
    split_and!; [by eapply keeps_trans|by rewrite B3, B2, B1|done|].
    intros E. rewrite Hd by done. apply (kp_view _ _ K). split; [done|apply Hc].
  - rewrite (proj2 (Z.leb_le _ _)) by lia. pose proof (lookup_lt_Some _ _ _ He) as Hlt. rewrite (wf_len _ Hw) in Hlt.
    pose proof (keeps_bump inc_hits s Hw) as K0.
    split_and!; [|done|done|].
    + eapply keeps_trans; [exact K0|]. apply keeps_upd_ref; [apply K0|lia].
    + intros _. rewrite (entry_at_upd_eq k _ (bump_cstats inc_hits s)) by (try apply K0; lia). simpl.
      unfold entry_at. simpl. rewrite (list_lookup_total_correct _ _ _ He). symmetry. exact (view_hit _ _ _ _ _ Hw He Hm).
Qed.

Lemma read_blocks_spec n index lba0 i h b s :
  wf (dsk s) -> in_table (g_devs (dsk s)) index -> cached_dev (dev_of (g_devs (dsk s)) index) ->
  0 <= i -> 0 <= lba0 -> lba0 + i + Z.of_nat n <= 2 ^ 64 ->
  buffers (dsk s) !! h = Some b -> (i + Z.of_nat n) * 512 <= Z.of_nat (length b) < 2 ^ 32 ->
  let '(rc, s') := read_blocks rd wr n index lba0 i (buf_mem h) s in
  keeps s s' /\ rc <= 0 /\
  exists b', buffers (dsk s') = <[h := b']> (buffers (dsk s)) /\ length b' = length b /\
    (rc = 0 -> b' = splice (i * 512) (sectors (view (dsk s) index) (lba0 + i) n) b).
Proof.
  revert i b s. induction n as [|n IH]; intros i b s Hw Ht Hc Hi Hl H64 Hb Hlen.
  { simpl. split_and!; [by apply keeps_refl|done|]. exists b. split_and!; [by rewrite insert_id|done|].
    intros _. by rewrite splice_nil. }
  rewrite read_blocks_step. pose proof (fetch_spec index (u64 (lba0 + i)) s Hw Ht Hc) as Hf.
  rewrite u64_small in * by lia.
  destruct (fetch index (lba0 + i) s) as [[rc slot] s1]. destruct Hf as (K1 & B1 & Hrc & Hd).
  destruct (Z.ltb_spec rc 0).
  { split_and!; [done|lia|]. exists b. split_and!; [by rewrite B1, insert_id|done|lia]. }
  rewrite Hd by lia. change BLOCK_CACHE_BLOCK_SIZE with 512. rewrite u32_small by lia.
  set (blk := view (dsk s) index (lba0 + i)). assert (length blk = 512%nat) as Hblk by (by apply length_view).
  pose proof (keeps_buf_mem h (i * 512) blk s1 (kp_wf _ _ K1)) as K2. set (s2 := buf_store _ _ _ s1) in *.
  pose proof (keeps_trans _ _ _ K1 K2) as K.
  set (b1 := splice (i * 512) blk b).
  assert (length b1 = length b) as Hb1 by (apply length_splice; lia).
  assert (buffers (dsk s2) = <[h := b1]> (buffers (dsk s))) as B2 by (unfold s2; simpl; by rewrite B1, Hb).
  specialize (IH (i + 1) b1 s2 (kp_wf _ _ K)). rewrite (kp_devs _ _ K) in IH.
  specialize (IH Ht Hc ltac:(lia) Hl ltac:(lia)). rewrite B2, lookup_insert_eq in IH. specialize (IH eq_refl ltac:(lia)).
  destruct (read_blocks rd wr n index lba0 (i + 1) (buf_mem h) s2) as [rc' s'].
  destruct IH as (K3 & Hrc' & b' & Hb' & Hlen' & Hval).
  split_and!; [by eapply keeps_trans|done|]. exists b'. split_and!; [by rewrite Hb', insert_insert_eq|lia|].
  intros ->. rewrite Hval by done. unfold b1. simpl sectors. fold blk.
  rewrite (sectors_ext (view (dsk s2) index) (view (dsk s) index)) by (intros; apply (kp_view _ _ K); split; [done|apply Hc]).
  pose proof (length_sectors (view (dsk s) index) (lba0 + i + 1) n ltac:(intros; by apply length_view)).
  rewrite splice_app, Hblk by lia. rewrite Z.add_assoc.
  f_equal. lia.
Qed.

(** ** Writes *)

(** Sector [cur] of device [index] now holds [bytes]; nothing else changed. *)
Definition put_ok (index cur : Z) (bytes : list Z) s s' : Prop :=
  wf (dsk s') /\ g_devs (dsk s') = g_devs (dsk s) /\ ctxs (dsk s') = ctxs (dsk s) /\
  g_parts (dsk s') = g_parts (dsk s) /\ que s' = que s /\ buffers (dsk s') = buffers (dsk s) /\
  forall i l, hw_dev (g_devs (dsk s)) i ->
    view (dsk s') i l = if (i =? index) && (l =? cur) then bytes else view (dsk s) i l.

Lemma put_spec s (k : Z) index cur bytes :
  wf (dsk s) -> 0 <= k < 128 -> length bytes = 512%nat ->
  in_table (g_devs (dsk s)) index -> cached_dev (dev_of (g_devs (dsk s)) index) ->
  dev_write (dev_of (g_devs (dsk s)) index) = Some fn_hw ->
  is_set (dev_flags (dev_of (g_devs (dsk s)) index)) BLOCKDEV_FLAG_READONLY = false ->
  matches index cur (entry_at s k) = true \/
  (valid (entry_at s k) && dirty (entry_at s k) = false /\
   forall j e, g_cache (dsk s) !! j = Some e -> matches index cur e = false) ->
  put_ok index cur bytes s (on_dsk (replace (Z.to_nat k) (mk_entry true true true index cur bytes)) s).
Proof.
  intros Hw Hk Hb Hi Hc Hwr Hro Hcase. pose proof (entry_at_lookup s k Hw Hk) as He. set (e := entry_at s k) in *.
  set (e' := mk_entry _ _ _ _ _ _).
  assert (entry_ok (g_devs (dsk s)) e') as Hok by (by constructor).
  assert (clean_ok (dsk s) e') as Hcl by done.
  assert (fresh_tags (dsk s) (Z.to_nat k) e') as Hfr.
  { intros _ j f Hj Hf. destruct Hcase as [Hm|[_ Hn]]; [|by eapply Hn].
    destruct (matches _ _ f) eqn:Ef; [|done]. apply matches_spec in Hm as (? & ? & ?), Ef as (? & ? & ?).
    exfalso. apply Hj. apply (wf_unique _ Hw j _ f e); simpl in *; congruence. }
  unfold put_ok. split_and!; try done; [by apply (wf_replace (dsk s) _ _ e)|].
  intros i l _. simpl. rewrite (view_replace (dsk s) _ _ e) by done.
  assert (matches i l e' = (i =? index) && (l =? cur)) as ->.
  { unfold matches. simpl. by rewrite (Z.eqb_sym index), (Z.eqb_sym cur). }
  destruct ((i =? index) && (l =? cur)) eqn:Ei; [done|].
  destruct (matches i l e) eqn:Em; [|done]. destruct Hcase as [Hm|[Hnd _]].
  - apply matches_spec in Hm as (_ & E1 & E2), Em as (_ & <- & <-). rewrite E1, E2, !Z.eqb_refl in Ei. done.
  - by apply (view_reusable s k).
Qed.

(** The slot a block is written to, and the state when it is filled. *)
Definition claim (index cur : Z) s : Z * Z * bd :=
  let slot := block_cache_find index cur s in
  if 0 <=? slot then (0, slot, bump_cstats inc_hits s)
  else
    let '(slot, s) := block_cache_get_slot (bump_cstats inc_misses s) in
    if slot <? 0 then (-6, slot, s)
    else
      let '(wrc, s) := writeback_victim wr slot s in
      if wrc <? 0 then (wrc, slot, s) else (0, slot, upd_entry slot (e_tag index cur) s).

Lemma write_blocks_step n index lba0 i buf s :
  write_blocks wr (S n) index lba0 i buf s =
    let '(rc, slot, s) := claim index (u64 (lba0 + i)) s in
    if rc <? 0 then (rc, s) else write_blocks wr n index lba0 (i + 1) buf (fill_slot slot i buf s).
Proof.
  cbn [write_blocks]. unfold claim. destruct (0 <=? block_cache_find _ _ _); [done|].
  destruct (block_cache_get_slot _) as [slot s1]. destruct (slot <? 0) eqn:?; [done|].
  destruct (writeback_victim _ _ _) as [wrc s2]. by destruct (wrc <? 0) eqn:E; rewrite ?E.
Qed.

Lemma put_keeps_l index cur bytes s s1 s2 :
  keeps s s1 -> buffers (dsk s1) = buffers (dsk s) -> put_ok index cur bytes s1 s2 -> put_ok index cur bytes s s2.
Proof.
  intros [] Hb (? & ? & ? & ? & ? & ? & Hv). unfold put_ok. split_and!; try congruence.
  intros i l Hi. rewrite Hv by congruence. case_match; [done|by apply kp_view0].
Qed.

(** One block written. *)
Lemma claim_fill_spec index cur i h b s :
  wf (dsk s) -> in_table (g_devs (dsk s)) index -> cached_dev (dev_of (g_devs (dsk s)) index) ->
  dev_write (dev_of (g_devs (dsk s)) index) = Some fn_hw ->
  is_set (dev_flags (dev_of (g_devs (dsk s)) index)) BLOCKDEV_FLAG_READONLY = false ->
  buffers (dsk s) !! h = Some b -> 0 <= i -> (i + 1) * 512 <= Z.of_nat (length b) < 2 ^ 32 ->
  let '(rc, slot, s') := claim index cur s in
  (rc < 0 /\ keeps s s' /\ buffers (dsk s') = buffers (dsk s)) \/
  (rc = 0 /\ put_ok index cur (slice (i * 512) 512 b) s (fill_slot slot i (buf_mem h) s')).
Proof.
  intros Hw Hi Hc Hwr Hro Hb Hi0 Hlen.
  assert (length (slice (i * 512) 512 b) = 512%nat) as Hsl by (apply length_slice; lia).
  unfold claim, fill_slot. change BLOCK_CACHE_BLOCK_SIZE with 512. rewrite (u32_small (i * 512)) by lia.
  destruct (find_cases index cur s) as [[-> Hn]|(k & -> & Hk0 & e & He & Hm)].
  - rewrite miss_neg. pose proof (keeps_bump inc_misses s Hw) as K0.
    pose proof (get_slot_spec (bump_cstats inc_misses s) (kp_wf _ _ K0)) as Hg.
    destruct (block_cache_get_slot _) as [k s1]. destruct Hg as (Hk & K1 & B1 & T1).
    rewrite (proj2 (Z.ltb_ge _ _)) by lia.
    pose proof (writeback_victim_spec s1 k (kp_wf _ _ K1) Hk) as Hv.
    destruct (writeback_victim wr k s1) as [wrc s2]. destruct Hv as (K2 & B2 & Hwrc & T2 & Hclean).
    pose proof (keeps_trans _ _ _ K0 (keeps_trans _ _ _ K1 K2)) as K.
    assert (buffers (dsk s2) = buffers (dsk s)) as B by (by rewrite B2, B1).
    destruct (Z.ltb_spec wrc 0); [by left|right]. split; [done|].
    eapply (put_keeps_l _ _ _ _ _ _ K B). simpl buf_load. rewrite B, Hb. simpl default.
    pose proof (kp_devs _ _ K) as Ed. pose proof (kp_wf _ _ K) as Hw2.
    assert (upd_entry k (e_ref true) (upd_entry k (e_dirty true) (upd_entry k (e_data (slice (i * 512) 512 b))
              (upd_entry k (e_tag index cur) s2))) =
            on_dsk (replace (Z.to_nat k) (mk_entry true true true index cur (slice (i * 512) 512 b))) s2) as ->.
    { pose proof (wf_len _ Hw2) as Hl2. unfold upd_entry, on_dsk. simpl. f_equal. unfold set_cache, replace, set_cache. simpl.
      by rewrite !list_insert_insert_eq, !list_lookup_total_insert_eq by (rewrite ?length_insert; lia). }
    apply put_spec; rewrite ?Ed; try done. right. split; [apply Hclean; lia|].
    apply (tags_miss (bump_cstats inc_misses s) s2 _ _ ltac:(by rewrite T2, T1) Hn).
  - rewrite (proj2 (Z.leb_le _ _)) by lia. right. split; [done|].
    pose proof (lookup_lt_Some _ _ _ He) as Hlt. rewrite (wf_len _ Hw) in Hlt.
    pose proof (keeps_bump inc_hits s Hw) as K0. eapply (put_keeps_l _ _ _ _ _ _ K0 eq_refl).
    simpl buf_load. rewrite Hb. simpl default. set (s1 := bump_cstats inc_hits s) in *.
    assert (entry_at s1 k = e) as Ee by (unfold entry_at; simpl; by rewrite (list_lookup_total_correct _ _ _ He)).
    assert (upd_entry k (e_ref true) (upd_entry k (e_dirty true) (upd_entry k (e_data (slice (i * 512) 512 b)) s1)) =
            on_dsk (replace (Z.to_nat k) (mk_entry true true true index cur (slice (i * 512) 512 b))) s1) as ->.
    { unfold upd_entry, on_dsk. simpl. f_equal. unfold set_cache, replace, set_cache. simpl.
      rewrite !list_insert_insert_eq, !list_lookup_total_insert_eq by (rewrite ?length_insert, (wf_len _ Hw); lia).
      rewrite (list_lookup_total_correct _ _ _ He). do 2 f_equal.
      apply matches_spec in Hm as (E1 & E2 & E3). unfold e_ref, e_dirty, e_data. simpl. by rewrite E1, E2, E3. }
    apply put_spec; try done; [apply K0|lia|]. left. by rewrite Ee.
Qed.

(** The first [m] blocks of the buffer [b], from block [i] on, are written at
    sector [lba0 + i]; nothing else changed. *)
Definition written (index lba0 i m : Z) (b : list Z) s s' : Prop :=
  wf (dsk s') /\ g_devs (dsk s') = g_devs (dsk s) /\ ctxs (dsk s') = ctxs (dsk s) /\
  g_parts (dsk s') = g_parts (dsk s) /\ que s' = que s /\ buffers (dsk s') = buffers (dsk s) /\
  forall j l, hw_dev (g_devs (dsk s)) j ->
    view (dsk s') j l =
      if (j =? index) && (lba0 + i <=? l) && (l <? lba0 + i + m)
      then slice ((l - lba0) * 512) 512 b else view (dsk s) j l.

Lemma keeps_written index lba0 i b s s' :
  keeps s s' -> buffers (dsk s') = buffers (dsk s) -> written index lba0 i 0 b s s'.
Proof.
  intros [] Hb. unfold written. split_and!; try done. intros j l Hj. rewrite kp_view0 by done.
  case_match; [|done]. bool_to_prop. lia.
Qed.

Lemma put_written index lba0 i m b s s1 s2 :
  0 <= m -> put_ok index (lba0 + i) (slice (i * 512) 512 b) s s1 -> written index lba0 (i + 1) m b s1 s2 ->
  written index lba0 i (m + 1) b s s2.
Proof.
  intros Hm (? & Ed & ? & ? & ? & ? & Hv1) (? & ? & ? & ? & ? & ? & Hv2). unfold written.
  split_and!; try congruence. intros j l Hj. rewrite Hv2, Hv1 by congruence.
  destruct (Z.eqb_spec j index) as [->|]; simpl; [|done].
  destruct (Z.eqb_spec l (lba0 + i)) as [->|]; zbool; simpl.
  - f_equal. lia.
  - by destruct (Z.leb_spec (lba0 + (i + 1)) l), (Z.leb_spec (lba0 + i) l),
      (Z.ltb_spec l (lba0 + (i + 1) + m)), (Z.ltb_spec l (lba0 + i + (m + 1))); simpl; try lia.
Qed.

Lemma write_blocks_spec n index lba0 i h b s :
  wf (dsk s) -> in_table (g_devs (dsk s)) index -> cached_dev (dev_of (g_devs (dsk s)) index) ->
  dev_write (dev_of (g_devs (dsk s)) index) = Some fn_hw ->
  is_set (dev_flags (dev_of (g_devs (dsk s)) index)) BLOCKDEV_FLAG_READONLY = false ->
  0 <= i -> 0 <= lba0 -> lba0 + i + Z.of_nat n <= 2 ^ 64 ->
  buffers (dsk s) !! h = Some b -> (i + Z.of_nat n) * 512 <= Z.of_nat (length b) < 2 ^ 32 ->
  let '(rc, s') := write_blocks wr n index lba0 i (buf_mem h) s in
  rc <= 0 /\ exists m, 0 <= m <= Z.of_nat n /\ (rc = 0 -> m = Z.of_nat n) /\ written index lba0 i m b s s'.
Proof.
  revert i s. induction n as [|n IH]; intros i s Hw Ht Hc Hwr Hro Hi Hl H64 Hb Hlen.
  { simpl. split; [done|]. exists 0. split_and!; [lia..|done|]. by apply keeps_written; [apply keeps_refl|]. }
  rewrite write_blocks_step.
  pose proof (claim_fill_spec index (u64 (lba0 + i)) i h b s Hw Ht Hc Hwr Hro Hb Hi ltac:(lia)) as Hf.
  rewrite u64_small in * by lia. destruct (claim index (lba0 + i) s) as [[rc slot] s1].
  destruct Hf as [(Hrc & K & B)|[-> Hput]].
  { rewrite (proj2 (Z.ltb_lt _ _)) by lia. split; [lia|]. exists 0. split_and!; [lia..|by apply keeps_written]. }
  change (0 <? 0) with false. cbv iota. set (s2 := fill_slot slot i (buf_mem h) s1) in *.
  pose proof Hput as (Hw2 & Ed & _ & _ & _ & Eb & _).
  specialize (IH (i + 1) s2 Hw2). rewrite Ed, Eb in IH.
  specialize (IH Ht Hc Hwr Hro ltac:(lia) Hl ltac:(lia) Hb ltac:(lia)).
  destruct (write_blocks wr n index lba0 (i + 1) (buf_mem h) s2) as [rc s'].
  destruct IH as (Hrc & m & Hm & Hm0 & Hwritten). split; [done|]. exists (m + 1).
  split_and!; [lia..|intros E; specialize (Hm0 E); lia|]. by eapply put_written; [lia|..].
Qed.

(** ** Flushing *)

Lemma writeback_from_spec n (i : Z) p s :
  (forall e b, p (e_dirty b e) = p e) -> wf (dsk s) -> 0 <= i -> i + Z.of_nat n <= 128 ->
  let '(rc, s') := writeback_from wr n i p s in
  keeps s s' /\ buffers (dsk s') = buffers (dsk s) /\ rc <= 0 /\
  (forall j, 0 <= j < i -> entry_at s' j = entry_at s j) /\
  (rc = 0 -> forall j, i <= j < i + Z.of_nat n ->
     valid (entry_at s' j) && dirty (entry_at s' j) && p (entry_at s' j) = false).
Proof.
  intros Hp. revert i s. induction n as [|n IH]; intros i s Hw Hi Hn.
  { simpl. split_and!; [by apply keeps_refl|done|done|done|]. intros; lia. }
  cbn [writeback_from]. set (e := entry_at s i).
  assert (forall s1, wf (dsk s1) -> keeps s s1 -> buffers (dsk s1) = buffers (dsk s) ->
    (forall j, 0 <= j < i -> entry_at s1 j = entry_at s j) ->
    valid (entry_at s1 i) && dirty (entry_at s1 i) && p (entry_at s1 i) = false ->
    let '(rc, s') := writeback_from wr n (i + 1) p s1 in
    keeps s s' /\ buffers (dsk s') = buffers (dsk s) /\ rc <= 0 /\
    (forall j, 0 <= j < i -> entry_at s' j = entry_at s j) /\
    (rc = 0 -> forall j, i <= j < i + Z.of_nat (S n) ->
       valid (entry_at s' j) && dirty (entry_at s' j) && p (entry_at s' j) = false)) as Hnext.
  { intros s1 Hw1 K1 B1 E1 Hi1. specialize (IH (i + 1) s1 Hw1 ltac:(lia) ltac:(lia)).
    destruct (writeback_from wr n (i + 1) p s1) as [rc s']. destruct IH as (K & B & Hrc & E & Hall).
    split_and!; [by eapply keeps_trans|by rewrite B|done|intros j Hj; by rewrite E, E1 by lia|].
    intros Hr j Hj. destruct (decide (j = i)) as [->|]; [by rewrite E by lia|apply Hall; [done|lia]]. }
  destruct (negb (valid e) || negb (dirty e)) eqn:Ed.
  { apply Hnext; [done|by apply keeps_refl|done|done|]. fold e. by destruct (valid e), (dirty e). }
  destruct (p e) eqn:Ep; cbn [negb].
  2: { apply Hnext; [done|by apply keeps_refl|done|done|]. fold e. rewrite Ep. apply andb_false_r. }
  pose proof (writeback_entry_spec s i Hw ltac:(lia)) as Hwb.
  destruct (block_cache_writeback_entry wr i s) as [rc s1]. destruct Hwb as (K & B & Hrc & _ & E & He).
  destruct (Z.ltb_spec rc 0).
  { split_and!; [done|done|lia|intros; apply E; lia|lia]. }
  apply Hnext; [apply K|done|done|intros; apply E; lia|]. rewrite He by lia. fold e. simpl.
  by destruct (valid e), (dirty e).
Qed.

(** A device none of whose sectors is dirty: hardware and content agree. *)
Definition synced d i : Prop :=
  forall l, backing (hardware d) (dev_ctx (dev_of (g_devs d) i)) l = view d i l.

Lemma no_dirty_synced s i :
  wf (dsk s) ->
  (forall j, 0 <= j < 128 -> valid (entry_at s j) && dirty (entry_at s j) && (dev_index (entry_at s j) =? i) = false) ->
  synced (dsk s) i.
Proof.
  intros Hw Hall l. destruct (cache_dec (dsk s) i l) as [(k & e & Hk & Hm)|Hn]; [|by rewrite (view_miss _ _ _ Hn)].
  rewrite (view_hit _ _ _ _ _ Hw Hk Hm). apply matches_spec in Hm as (Hv & <- & <-). symmetry.
  apply (wf_clean _ Hw _ _ Hk); [done|].
  pose proof (lookup_lt_Some _ _ _ Hk) as Hlt. rewrite (wf_len _ Hw) in Hlt.
  specialize (Hall (Z.of_nat k) ltac:(lia)). unfold entry_at in Hall.
  rewrite Nat2Z.id, (list_lookup_total_correct _ _ _ Hk), Hv, Z.eqb_refl, andb_true_r in Hall. done.
Qed.

(** ** The request queue

    A synchronous call on idle queues is its request executed once; the
    queues are idle again afterwards. *)
Abbreviation depth := BLOCKDEV_ASYNC_QUEUE_DEPTH.

Record idle (q : queues) : Prop := {
  id_pending : ring_ok depth (g_pending q);
  id_completed : ring_ok depth (g_completed q);
  id_pending_nil : ring_list depth (g_pending q) = [];
  id_completed_nil : ring_list depth (g_completed q) = [];
}.

Lemma depth_small : 0 < depth < 2 ^ 31.
Proof. done. Qed.

Lemma idle_counts q : idle q -> count (g_pending q) = 0 /\ count (g_completed q) = 0.
Proof. intros []. by split; apply (ring_list_nil depth). Qed.

Lemma pending_push_idle req q :
  idle q -> exists r, blockdev_pending_push req q = (0, blockdev_update_async_pending_stat (set_pending r q)) /\
    ring_ok depth r /\ ring_list depth r = [req].
Proof.
  intros Hi. pose proof (idle_counts q Hi) as [Hc _]. destruct Hi. unfold blockdev_pending_push.
  destruct (ring_push_spec depth depth_small req (g_pending q)) as (r & -> & Hr & Hl); [done|by rewrite Hc|].
  exists r. split_and!; [done|done|]. by rewrite Hl, id_pending_nil0.
Qed.

Lemma pending_pop_one req q :
  ring_ok depth (g_pending q) -> ring_list depth (g_pending q) = [req] ->
  exists r, blockdev_pending_pop q = (Some req, blockdev_update_async_pending_stat (set_pending r q)) /\
    ring_ok depth r /\ ring_list depth r = [].
Proof.
  intros Hr Hl. unfold blockdev_pending_pop.
  destruct (ring_pop_spec depth depth_small _ _ _ Hr Hl) as (r & -> & ? & ?). eauto.
Qed.

Lemma completed_push_idle req st q :
  idle q -> exists r, blockdev_completed_push req st q = (0, blockdev_update_async_pending_stat (set_completed r q)) /\
    ring_ok depth r /\ ring_list depth r = [(req, st)].
Proof.
  intros Hi. pose proof (idle_counts q Hi) as [_ Hc]. destruct Hi. unfold blockdev_completed_push.
  destruct (ring_push_spec depth depth_small (req, st) (g_completed q)) as (r & -> & Hr & Hl); [done|by rewrite Hc|].
  exists r. split_and!; [done|done|]. by rewrite Hl, id_completed_nil0.
Qed.

Lemma dispatch_empty q : count (g_completed q) = 0 -> blockdev_dispatch_completions 1 q = q.
Proof.
  intros E. unfold blockdev_dispatch_completions, blockdev_completed_pop. simpl.
  change (Z.to_nat (if 1 =? 0 then 1 else 1)) with 1%nat. simpl. unfold blockdev_completed_pop.
  by rewrite ring_pop_empty.
Qed.

Lemma dispatch_one req st q :
  ring_ok depth (g_completed q) -> ring_list depth (g_completed q) = [(req, st)] ->
  exists r, blockdev_dispatch_completions 1 q =
      run_completion req st (blockdev_update_async_pending_stat (set_completed r q)) /\
    ring_ok depth r /\ ring_list depth r = [].
Proof.
  intros Hr Hl. unfold blockdev_dispatch_completions. change (Z.to_nat (if 1 =? 0 then 1 else 1)) with 1%nat.
  simpl. unfold blockdev_completed_pop. destruct (ring_pop_spec depth depth_small _ _ _ Hr Hl) as (r & -> & ? & ?). eauto.
Qed.

(** What one pump of a waiting request leaves behind. *)
Lemma pump_one_spec req (w : nat) s st s1 :
  completion req = true -> user_data req = Some (Z.of_nat w) ->
  blockdev_execute_request rd wr req (on_que (set_inflight_stat 1) s) = (st, s1) ->
  idle (que s1) -> (w < length (waiters (que s1)))%nat ->
  let s' := pump_one rd wr req s in
  dsk s' = dsk s1 /\ idle (que s') /\ waiters (que s') = <[w := (st, 1)]> (waiters (que s1)).
Proof.
  intros Hcb Hud He Hid Hw. unfold pump_one. rewrite He.
  set (q1 := count_done st (set_inflight_stat 0 (que s1))).
  assert (idle q1) as Hid1 by (destruct Hid; by constructor).
  destruct (completed_push_idle req st q1 Hid1) as (r & Hpush & Hr & Hl).
  simpl que. fold q1. rewrite Hpush. change (0 <? 0) with false. cbv iota.
  destruct (dispatch_one req st (blockdev_update_async_pending_stat (set_completed r q1)) Hr Hl) as (r' & -> & Hr' & Hl').
  unfold run_completion. rewrite Hcb, Hud. unfold blockdev_wait_callback. rewrite Nat2Z.id. simpl.
  split_and!; [done| |done]. destruct Hid. by constructor.
Qed.

Lemma wait_pending n w s st :
  waiters (que s) !!! w = (st, 0) -> wait_loop rd wr (S n) w s = wait_loop rd wr n w (blockdev_pump rd wr 1 s).
Proof. intros E. cbn [wait_loop]. by rewrite E. Qed.

Lemma wait_done n w s st : waiters (que s) !!! w = (st, 1) -> wait_loop rd wr n w s = (st, s).
Proof. intros E. destruct n; cbn [wait_loop]; by rewrite E. Qed.

Lemma submit_and_wait_spec req s (P : Z -> disks -> Prop) :
  idle (que s) -> blockdev_validate_request req s = 0 ->
  (forall q, idle q -> waiters q = waiters (que s) ++ [(0, 0)] ->
     let '(st, s1) := blockdev_execute_request rd wr req (mk_bd (dsk s) q) in
     idle (que s1) /\ waiters (que s1) = waiters q /\ P st (dsk s1)) ->
  let '(rc, s') := blockdev_submit_and_wait rd wr req s in
  idle (que s') /\ waiters (que s') = waiters (que s) /\ P rc (dsk s').
Proof.
  intros Hid Hv Hex. unfold blockdev_submit_and_wait. set (w := length (waiters (que s))).
  set (req' := mk_req _ _ _ _ _ true _). unfold blockdev_submit_async.
  change (blockdev_validate_request req' (on_que push_waiter s)) with (blockdev_validate_request req s).
  rewrite Hv. change (0 <? 0) with false. cbv iota.
  assert (idle (push_waiter (que s))) as Hid0 by (destruct Hid; by constructor).
  destruct (pending_push_idle req' _ Hid0) as (r & Hpush & Hr & Hl).
  simpl que. rewrite Hpush. change (0 <? 0) with false. cbv iota beta zeta. simpl.
  set (q1 := set_astats _ _). set (s1 := mk_bd (dsk s) q1).
  change (on_que (fun _ => q1) (on_que push_waiter s)) with s1.
  assert (queued s1 = 1%nat) as ->.
  { unfold queued. simpl. pose proof (idle_counts _ Hid) as [_ ->].
    pose proof (ring_list_length depth _ Hr) as Hlen. rewrite Hl in Hlen. simpl in Hlen. lia. }
  assert (waiters (que s1) !!! w = (0, 0)) as Hw0.
  { simpl. rewrite lookup_total_app_r by lia. by rewrite Nat.sub_diag. }
  rewrite (wait_pending _ _ _ _ Hw0).
  destruct (pending_pop_one req' q1 Hr Hl) as (r2 & Hpop & Hr2 & Hl2).
  set (q2 := blockdev_update_async_pending_stat (set_pending r2 q1)) in *.
  set (s2 := mk_bd (dsk s) q2).
  assert (blockdev_pump rd wr 1 s1 = pump_one rd wr req' s2) as ->.
  { unfold blockdev_pump. change (if 1 =? 0 then 1 else 1) with 1. change (Z.to_nat 1) with 1%nat. cbv zeta.
    unfold on_que. simpl que. rewrite dispatch_empty by (simpl; apply (idle_counts _ Hid)).
    cbn [pump_loop]. simpl que. by rewrite Hpop. }
  specialize (Hex (set_inflight_stat 1 q2)).
  change (mk_bd (dsk s) (set_inflight_stat 1 q2)) with (on_que (set_inflight_stat 1) s2) in Hex.
  change (blockdev_execute_request rd wr req (on_que (set_inflight_stat 1) s2)) with
    (blockdev_execute_request rd wr req' (on_que (set_inflight_stat 1) s2)) in Hex.
  destruct (blockdev_execute_request rd wr req' _) as [st s3] eqn:Ex.
  destruct Hex as (Hi3 & Hw3 & HP); [destruct Hid; by constructor|done|].
  destruct (pump_one_spec req' w s2 st s3 eq_refl eq_refl Ex Hi3) as (Ed & Hi4 & Ew).
  { rewrite Hw3. simpl. rewrite length_app. simpl. lia. }
  set (s4 := pump_one rd wr req' s2) in *. rewrite Hw3 in Ew. simpl in Ew.
  assert (w < length (waiters (que s) ++ [(0%Z, 0%Z)]))%nat as Hlt by (rewrite length_app; simpl; lia).
  rewrite (wait_done _ _ _ st) by (rewrite Ew; by apply list_lookup_total_insert_eq). simpl.
  split_and!; [destruct Hi4; by constructor| |by rewrite Ed].
  rewrite Ew, take_insert_ge by lia. unfold w. by rewrite take_app_length.
Qed.

(** A request that validation refuses leaves everything as it was. *)
Lemma submit_refused req s :
  blockdev_validate_request req s < 0 ->
  blockdev_submit_and_wait rd wr req s = (blockdev_validate_request req s, s).
Proof.
  intros Hv. unfold blockdev_submit_and_wait, blockdev_submit_async.
  set (w := length (waiters (que s))). set (req' := mk_req _ _ _ _ _ true _).
  change (blockdev_validate_request req' (on_que push_waiter s)) with (blockdev_validate_request req s).
  rewrite !(proj2 (Z.ltb_lt _ _) Hv). f_equal. destruct s as [d q]. unfold on_que, pop_waiter, push_waiter, set_waiters.
  simpl. f_equal. unfold w. simpl. rewrite take_app_length. by destruct q.
Qed.

(** The sector range lies on the device and in the buffer. *)
Record io_ok s (index lba0 cnt h : Z) (b : list Z) : Prop := {
  io_dev : in_table (g_devs (dsk s)) index;
  io_lba : 0 <= lba0;
  io_cnt : 0 < cnt < 2 ^ 32;
  io_range : lba0 + cnt <= dev_block_count (dev_of (g_devs (dsk s)) index) < 2 ^ 64;
  io_buf : buffers (dsk s) !! h = Some b;
  io_len : cnt * 512 <= Z.of_nat (length b) < 2 ^ 32;
}.

Lemma io_valid s op index lba0 cnt h b :
  io_ok s index lba0 cnt h b ->
  (op = BLOCKDEV_REQ_READ /\ dev_read (dev_of (g_devs (dsk s)) index) <> None) \/
  (op = BLOCKDEV_REQ_WRITE /\ dev_write (dev_of (g_devs (dsk s)) index) <> None /\
   is_set (dev_flags (dev_of (g_devs (dsk s)) index)) BLOCKDEV_FLAG_READONLY = false) ->
  blockdev_validate_request (mk_req op index lba0 cnt (Some (buf_mem h)) false None) s = 0.
Proof.
  intros [] Hop. unfold blockdev_validate_request. simpl.
  change (dev_at s index) with (dev_of (g_devs (dsk s)) index).
  rewrite (proj2 (Z.leb_gt _ _)) by apply io_dev0. rewrite (proj2 (Z.eqb_neq cnt 0)) by lia.
  rewrite (proj2 (Z.leb_gt _ _)), (proj2 (Z.ltb_ge _ _)) by lia. simpl.
  destruct Hop as [[-> Hr]|(-> & Hr & Hro)].
  - change (BLOCKDEV_REQ_READ =? BLOCKDEV_REQ_FLUSH) with false. change (BLOCKDEV_REQ_READ =? BLOCKDEV_REQ_READ) with true.
    by destruct (dev_read _).
  - change (BLOCKDEV_REQ_WRITE =? BLOCKDEV_REQ_FLUSH) with false. change (BLOCKDEV_REQ_WRITE =? BLOCKDEV_REQ_READ) with false.
    change (BLOCKDEV_REQ_WRITE =? BLOCKDEV_REQ_WRITE) with true. rewrite Hro. by destruct (dev_write _).
Qed.

Lemma read_impl_spec s index lba0 cnt h b :
  wf (dsk s) -> io_ok s index lba0 cnt h b -> cached_dev (dev_of (g_devs (dsk s)) index) ->
  let '(rc, s') := blockdev_read_sync_impl rd wr index lba0 cnt (Some (buf_mem h)) s in
  keeps s s' /\ rc <= 0 /\
  exists b', buffers (dsk s') = <[h := b']> (buffers (dsk s)) /\ length b' = length b /\
    (rc = 0 -> b' = splice 0 (sectors (view (dsk s) index) lba0 (Z.to_nat cnt)) b).
Proof.
  intros Hw Hio Hc. destruct Hio, io_dev0. pose proof Hc as [Hr Hca]. unfold blockdev_read_sync_impl.
  change (dev_at s index) with (dev_of (g_devs (dsk s)) index). unfold g_count.
  rewrite Hr, Hca. zbool. simpl.
  pose proof (read_blocks_spec (Z.to_nat cnt) index lba0 0 h b s Hw ltac:(done) Hc) as Hrb.
  rewrite Z.add_0_r in Hrb. apply Hrb; try done; lia.
Qed.

Lemma write_impl_spec s index lba0 cnt h b :
  wf (dsk s) -> io_ok s index lba0 cnt h b -> cached_dev (dev_of (g_devs (dsk s)) index) ->
  dev_write (dev_of (g_devs (dsk s)) index) = Some fn_hw ->
  is_set (dev_flags (dev_of (g_devs (dsk s)) index)) BLOCKDEV_FLAG_READONLY = false ->
  let '(rc, s') := blockdev_write_sync_impl wr index lba0 cnt (Some (buf_mem h)) s in
  rc <= 0 /\ exists m, 0 <= m <= cnt /\ (rc = 0 -> m = cnt) /\ written index lba0 0 m b s s'.
Proof.
  intros Hw Hio Hc Hwr Hro. destruct Hio, io_dev0. pose proof Hc as [Hr Hca]. unfold blockdev_write_sync_impl.
  change (dev_at s index) with (dev_of (g_devs (dsk s)) index). unfold g_count.
  rewrite Hwr, Hro, Hca. zbool. simpl.
  pose proof (write_blocks_spec (Z.to_nat cnt) index lba0 0 h b s Hw ltac:(done) Hc Hwr Hro) as Hwb.
  rewrite Z2Nat.id in Hwb by lia. apply Hwb; try done; lia.
Qed.

Lemma flush_impl_spec s index :
  wf (dsk s) -> in_table (g_devs (dsk s)) index ->
  let '(rc, s') := blockdev_flush_sync_impl wr index s in
  keeps s s' /\ buffers (dsk s') = buffers (dsk s) /\ rc <= 0 /\
  (rc = 0 -> synced (dsk s') index /\
     (forall p, is_set (dev_flags (dev_of (g_devs (dsk s)) index)) BLOCKDEV_FLAG_PARTITION = true ->
        parent_from index (g_parts (dsk s)) = Some p -> synced (dsk s') p)).
Proof.
  intros Hw Hi. unfold blockdev_flush_sync_impl.
  change (dev_at s index) with (dev_of (g_devs (dsk s)) index). unfold g_count.
  rewrite (proj2 (Z.leb_gt _ _)) by apply Hi. unfold mbr_partition_parent_index. set (tb := if is_set _ _ then _ else _).
  pose proof (writeback_from_spec (Z.to_nat BLOCK_CACHE_ENTRIES) 0
    (fun e => (dev_index e =? index) || (dev_index e =? tb)) s ltac:(done) Hw ltac:(lia) ltac:(done)) as Hf.
  destruct (writeback_from wr _ 0 _ s) as [rc s']. destruct Hf as (K & B & Hrc & _ & Hall).
  split_and!; try done. intros Hrc0. specialize (Hall Hrc0).
  assert (forall t, t = index \/ t = tb -> synced (dsk s') t) as Hs.
  { intros t Ht. apply no_dirty_synced; [apply K|]. intros j Hj. specialize (Hall j ltac:(done)).
    destruct (valid _), (dirty _); simpl in *; try done.
    apply orb_false_elim in Hall as [? ?]. by destruct Ht as [->| ->]. }
  split; [by apply Hs; left|]. intros p Hp Hpp. apply Hs. right. unfold tb. by rewrite Hp, Hpp.
Qed.

(** ** The synchronous calls *)

(** Same devices and partitions, same content of every disk. *)
Definition same_content d d' : Prop :=
  wf d' /\ g_devs d' = g_devs d /\ ctxs d' = ctxs d /\ g_parts d' = g_parts d /\
  forall i l, hw_dev (g_devs d) i -> view d' i l = view d i l.

Lemma keeps_same_content s s' : keeps s s' -> same_content (dsk s) (dsk s').
Proof. by intros []. Qed.

(** A layer that is consistent and has no request in flight. *)
Definition ready s : Prop := wf (dsk s) /\ idle (que s).

Lemma read_sync s index lba0 cnt h b :
  ready s -> io_ok s index lba0 cnt h b -> cached_dev (dev_of (g_devs (dsk s)) index) ->
  let '(rc, s') := blockdev_read rd wr index lba0 cnt (Some (buf_mem h)) s in
  idle (que s') /\ waiters (que s') = waiters (que s) /\
  same_content (dsk s) (dsk s') /\ rc <= 0 /\
  exists b', buffers (dsk s') = <[h := b']> (buffers (dsk s)) /\ length b' = length b /\
    (rc = 0 -> b' = splice 0 (sectors (view (dsk s) index) lba0 (Z.to_nat cnt)) b).
Proof.
  intros [Hw Hid] Hio Hc. unfold blockdev_read.
  apply (submit_and_wait_spec _ s (fun rc d' => same_content (dsk s) d' /\ rc <= 0 /\
    exists b', buffers d' = <[h := b']> (buffers (dsk s)) /\ length b' = length b /\
      (rc = 0 -> b' = splice 0 (sectors (view (dsk s) index) lba0 (Z.to_nat cnt)) b))); [done| |].
  { eapply io_valid; [done|left]. split; [done|]. by rewrite (proj1 Hc). }
  intros q Hq Ew. unfold blockdev_execute_request. cbn [op req_dev req_lba req_count req_buffer].
  change (BLOCKDEV_REQ_READ =? BLOCKDEV_REQ_READ) with true. cbv iota.
  pose proof (read_impl_spec (mk_bd (dsk s) q) index lba0 cnt h b Hw ltac:(by destruct Hio) Hc) as Hr.
  destruct (blockdev_read_sync_impl _ _ _ _ _ _ _) as [rc s1]. destruct Hr as (K & Hrc & Hb).
  cbv beta iota. rewrite (kp_que _ _ K). split_and!; [done|done|exact (keeps_same_content _ _ K)|done|done].
Qed.

Lemma write_sync s index lba0 cnt h b :
  ready s -> io_ok s index lba0 cnt h b -> cached_dev (dev_of (g_devs (dsk s)) index) ->
  dev_write (dev_of (g_devs (dsk s)) index) = Some fn_hw ->
  is_set (dev_flags (dev_of (g_devs (dsk s)) index)) BLOCKDEV_FLAG_READONLY = false ->
  let '(rc, s') := blockdev_write rd wr index lba0 cnt (Some (buf_mem h)) s in
  idle (que s') /\ waiters (que s') = waiters (que s) /\ rc <= 0 /\
  exists m, 0 <= m <= cnt /\ (rc = 0 -> m = cnt) /\
    written index lba0 0 m b s (mk_bd (dsk s') (que s)).
Proof.
  intros [Hw Hid] Hio Hc Hwr Hro. unfold blockdev_write.
  apply (submit_and_wait_spec _ s (fun rc d' => rc <= 0 /\
    exists m, 0 <= m <= cnt /\ (rc = 0 -> m = cnt) /\ written index lba0 0 m b s (mk_bd d' (que s)))); [done| |].
  { eapply io_valid; [done|right]. split_and!; [done|by rewrite Hwr|done]. }
  intros q Hq Ew. unfold blockdev_execute_request. cbn [op req_dev req_lba req_count req_buffer].
  change (BLOCKDEV_REQ_WRITE =? BLOCKDEV_REQ_READ) with false.
  change (BLOCKDEV_REQ_WRITE =? BLOCKDEV_REQ_WRITE) with true. cbv iota.
  pose proof (write_impl_spec (mk_bd (dsk s) q) index lba0 cnt h b Hw ltac:(by destruct Hio) Hc Hwr Hro) as Hr.
  destruct (blockdev_write_sync_impl _ _ _ _ _ _) as [rc s1]. destruct Hr as (Hrc & m & Hm & Hm0 & Hwn).
  pose proof Hwn as (? & ? & ? & ? & Eq & ? & ?). cbv beta iota. rewrite Eq.
  split_and!; [done|done|done|]. exists m. split_and!; try done; lia.
Qed.

Lemma flush_sync s index :
  ready s -> in_table (g_devs (dsk s)) index ->
  let '(rc, s') := blockdev_flush rd wr index s in
  idle (que s') /\ waiters (que s') = waiters (que s) /\
  same_content (dsk s) (dsk s') /\ buffers (dsk s') = buffers (dsk s) /\ rc <= 0 /\
  (rc = 0 -> synced (dsk s') index /\
     (forall p, is_set (dev_flags (dev_of (g_devs (dsk s)) index)) BLOCKDEV_FLAG_PARTITION = true ->
        parent_from index (g_parts (dsk s)) = Some p -> synced (dsk s') p)).
Proof.
  intros [Hw Hid] Hi. unfold blockdev_flush.
  apply (submit_and_wait_spec _ s (fun rc d' => same_content (dsk s) d' /\ buffers d' = buffers (dsk s) /\ rc <= 0 /\
    (rc = 0 -> synced d' index /\
     (forall p, is_set (dev_flags (dev_of (g_devs (dsk s)) index)) BLOCKDEV_FLAG_PARTITION = true ->
        parent_from index (g_parts (dsk s)) = Some p -> synced d' p)))); [done| |].
  { unfold blockdev_validate_request. simpl. unfold g_count. by rewrite (proj2 (Z.leb_gt _ _)) by apply Hi. }
  intros q Hq Ew. unfold blockdev_execute_request. cbn [op req_dev req_lba req_count req_buffer].
  change (BLOCKDEV_REQ_FLUSH =? BLOCKDEV_REQ_READ) with false. change (BLOCKDEV_REQ_FLUSH =? BLOCKDEV_REQ_WRITE) with false.
  change (BLOCKDEV_REQ_FLUSH =? BLOCKDEV_REQ_FLUSH) with true. cbv iota.
  pose proof (flush_impl_spec (mk_bd (dsk s) q) index Hw Hi) as Hr.
  destruct (blockdev_flush_sync_impl _ _ _) as [rc s1]. destruct Hr as (K & B & Hrc & Hs).
  cbv beta iota. rewrite (kp_que _ _ K). split_and!; [done|done|exact (keeps_same_content _ _ K)|done|done|done].
Qed.
End hw_calls.

Lemma drv_read_hw n : drv n false fn_hw = hw_read_buf.
Proof. by destruct n. Qed.
Lemma drv_write_hw n : drv n true fn_hw = hw_write_buf.
Proof. by destruct n. Qed.

(** ** Partition devices *)

(** Device [index] is a partition of the cached device [parent_index p]. *)
Record part_ok d index (p : mbr_partition_ctx) : Prop := {
  po_read : dev_read (dev_of (g_devs d) index) = Some fn_mbr_partition;
  po_flag : is_set (dev_flags (dev_of (g_devs d) index)) BLOCKDEV_FLAG_PARTITION = true;
  po_ctx : ctxs d !! dev_ctx (dev_of (g_devs d) index) = Some p;
  po_parent : in_table (g_devs d) (parent_index p);
  po_cached : cached_dev (dev_of (g_devs d) (parent_index p));
  po_start : 0 <= start_lba p;
  po_range : start_lba p + dev_block_count (dev_of (g_devs d) index) <=
               dev_block_count (dev_of (g_devs d) (parent_index p)) < 2 ^ 64;
}.

Lemma part_io s index p lba0 cnt h b :
  part_ok (dsk s) index p -> io_ok s index lba0 cnt h b ->
  io_ok s (parent_index p) (start_lba p + lba0) cnt h b /\ u64 (start_lba p + lba0) = start_lba p + lba0.
Proof. intros [] []. split; [constructor; try done; lia|]. apply u64_small. lia. Qed.

Lemma part_not_cached d index p : part_ok d index p -> blockdev_should_cache (dev_of (g_devs d) index) = false.
Proof. intros []. unfold blockdev_should_cache. by rewrite po_read0, po_flag0. Qed.

Lemma partition_read n s index p lba0 cnt h b :
  ready s -> part_ok (dsk s) index p -> io_ok s index lba0 cnt h b ->
  let '(rc, s') := blockdev_read (drv (S n) false) (drv (S n) true) index lba0 cnt (Some (buf_mem h)) s in
  idle (que s') /\ waiters (que s') = waiters (que s) /\
  same_content (dsk s) (dsk s') /\ rc <= 0 /\
  exists b', buffers (dsk s') = <[h := b']> (buffers (dsk s)) /\ length b' = length b /\
    (rc = 0 -> b' = splice 0 (sectors (view (dsk s) (parent_index p)) (start_lba p + lba0) (Z.to_nat cnt)) b).
Proof.
  intros [Hw Hid] Hp Hio. destruct (part_io _ _ _ _ _ _ _ Hp Hio) as [Hio' H64]. unfold blockdev_read at 1.
  apply (submit_and_wait_spec (drv (S n) false) (drv (S n) true) _ s (fun rc d' => same_content (dsk s) d' /\ rc <= 0 /\
    exists b', buffers d' = <[h := b']> (buffers (dsk s)) /\ length b' = length b /\
    (rc = 0 -> b' = splice 0 (sectors (view (dsk s) (parent_index p)) (start_lba p + lba0) (Z.to_nat cnt)) b))); [done| |].
  { eapply io_valid; [done|left]. split; [done|]. by rewrite (po_read _ _ _ Hp). }
  intros q Hq Ew. unfold blockdev_execute_request. cbn [op req_dev req_lba req_count req_buffer].
  change (BLOCKDEV_REQ_READ =? BLOCKDEV_REQ_READ) with true. cbv iota.
  unfold blockdev_read_sync_impl. change (dev_at (mk_bd (dsk s) q) index) with (dev_of (g_devs (dsk s)) index).
  destruct Hio, io_dev0. unfold g_count. simpl dsk. rewrite (po_read _ _ _ Hp), (part_not_cached _ _ _ Hp). zbool.
  cbn [orb negb drv]. unfold mbr_partition_read. simpl dsk. rewrite (po_ctx _ _ _ Hp), H64.
  apply (read_sync _ _ (drv_read_hw n) (drv_write_hw n) (mk_bd (dsk s) q)); [done|by destruct Hio'|apply Hp].
Qed.

Lemma partition_write n s index p lba0 cnt h b :
  ready s -> part_ok (dsk s) index p -> io_ok s index lba0 cnt h b ->
  dev_write (dev_of (g_devs (dsk s)) index) = Some fn_mbr_partition ->
  is_set (dev_flags (dev_of (g_devs (dsk s)) index)) BLOCKDEV_FLAG_READONLY = false ->
  dev_write (dev_of (g_devs (dsk s)) (parent_index p)) = Some fn_hw ->
  is_set (dev_flags (dev_of (g_devs (dsk s)) (parent_index p))) BLOCKDEV_FLAG_READONLY = false ->
  let '(rc, s') := blockdev_write (drv (S n) false) (drv (S n) true) index lba0 cnt (Some (buf_mem h)) s in
  idle (que s') /\ waiters (que s') = waiters (que s) /\ rc <= 0 /\
  exists m, 0 <= m <= cnt /\ (rc = 0 -> m = cnt) /\
    written (parent_index p) (start_lba p + lba0) 0 m b s (mk_bd (dsk s') (que s)).
Proof.
  intros [Hw Hid] Hp Hio Hwr Hro Hpwr Hpro. destruct (part_io _ _ _ _ _ _ _ Hp Hio) as [Hio' H64].
  unfold blockdev_write at 1.
  apply (submit_and_wait_spec (drv (S n) false) (drv (S n) true) _ s (fun rc d' => rc <= 0 /\
    exists m, 0 <= m <= cnt /\ (rc = 0 -> m = cnt) /\
    written (parent_index p) (start_lba p + lba0) 0 m b s (mk_bd d' (que s)))); [done| |].
  { eapply io_valid; [done|right]. split_and!; [done|by rewrite Hwr|done]. }
  intros q Hq Ew. unfold blockdev_execute_request. cbn [op req_dev req_lba req_count req_buffer].
  change (BLOCKDEV_REQ_WRITE =? BLOCKDEV_REQ_READ) with false.
  change (BLOCKDEV_REQ_WRITE =? BLOCKDEV_REQ_WRITE) with true. cbv iota.
  unfold blockdev_write_sync_impl. change (dev_at (mk_bd (dsk s) q) index) with (dev_of (g_devs (dsk s)) index).
  pose proof Hio as []. destruct io_dev0. unfold g_count. simpl dsk.
  rewrite Hwr, Hro, (part_not_cached _ _ _ Hp). zbool.
  cbn [orb negb drv]. unfold mbr_partition_write. simpl dsk. rewrite (po_ctx _ _ _ Hp), H64.
  pose proof (write_sync (drv n false) _ (drv_write_hw n) (mk_bd (dsk s) q) (parent_index p) (start_lba p + lba0) cnt h b
    ltac:(done) ltac:(by destruct Hio') ltac:(apply Hp) Hpwr Hpro) as Hws.
  destruct (blockdev_write _ _ _ _ _ _ _) as [rc s1]. destruct Hws as (? & ? & ? & m & ? & ? & (? & ? & ? & ? & _ & ? & ?)).
  split_and!; try done. exists m. unfold written. split_and!; try done; lia.
Qed.

(** ** The device table *)

Lemma dev_of_app devs dev i : in_table devs i -> dev_of (devs ++ [dev]) i = dev_of devs i.
Proof. intros [? ?]. unfold dev_of. apply lookup_total_app_l. lia. Qed.

Lemma hw_dev_app devs dev i :
  hw_dev (devs ++ [dev]) i -> hw_dev devs i \/ (i = Z.of_nat (length devs) /\ dev_read dev = Some fn_hw).
Proof.
  intros [[? Hlt] Hr]. rewrite length_app in Hlt. simpl in Hlt.
  destruct (decide (i < Z.of_nat (length devs))).
  - left. assert (in_table devs i) by (by split). rewrite dev_of_app in Hr by done. by split.
  - right. assert (i = Z.of_nat (length devs)) as -> by lia. split; [done|].
    unfold dev_of in Hr. rewrite Nat2Z.id, lookup_total_app_r, Nat.sub_diag in Hr by lia. done.
Qed.

Lemma wf_add_dev d d' dev :
  wf d -> g_devs d' = g_devs d ++ [dev] -> g_cache d' = g_cache d -> g_cache_hand d' = g_cache_hand d ->
  hardware d' = hardware d ->
  (dev_read dev = Some fn_hw ->
     (dev_write dev = None \/ dev_write dev = Some fn_hw) /\
     forall i, hw_dev (g_devs d) i -> dev_ctx (dev_of (g_devs d) i) <> dev_ctx dev) ->
  wf d'.
Proof.
  intros [] Ed Ec Eh Ew Hdev.
  assert (dev_of (g_devs d') (Z.of_nat (length (g_devs d))) = dev) as Hlast.
  { unfold dev_of. rewrite Ed, Nat2Z.id, lookup_total_app_r, Nat.sub_diag by lia. done. }
  constructor; rewrite ?Ec, ?Eh; try done.
  - intros k e Hk. destruct (wf_entry0 k e Hk) as [Hd Hv Hy]. rewrite Ed. constructor; [done|..].
    + intros Hve. destruct (Hv Hve) as [Ht Hc]. rewrite dev_of_app by done. split; [|done].
      destruct Ht. split; [done|]. rewrite length_app. lia.
    + intros Hve Hde. destruct (Hv Hve) as [Ht _]. rewrite dev_of_app by done. by apply Hy.
  - intros k e Hk Hve Hde. destruct (eo_dev _ _ (wf_entry0 k e Hk) Hve) as [Ht _].
    rewrite Ed, Ew, dev_of_app by done. by apply (wf_clean0 k).
  - intros i j Hi Hj E. rewrite Ed in Hi, Hj.
    destruct (hw_dev_app _ _ _ Hi) as [Hi'|[-> Hri]], (hw_dev_app _ _ _ Hj) as [Hj'|[-> Hrj]]; try done;
      rewrite ?Hlast in E; rewrite ?Ed in E; rewrite ?dev_of_app in E by (apply Hi' || apply Hj').
    + by apply wf_ctx0.
    + by destruct (proj2 (Hdev Hrj) i).
    + by destruct (proj2 (Hdev Hri) j).
  - intros i f Hi. rewrite Ed in Hi. destruct (hw_dev_app _ _ _ Hi) as [Hi'|[-> Hri]].
    + rewrite Ed, dev_of_app by apply Hi'. by apply wf_write0.
    + rewrite Hlast. destruct (proj1 (Hdev Hri)) as [-> | ->]; congruence.
Qed.

Lemma initialize_ready s :
  Z.of_nat (length (slots (g_pending (que s)))) = BLOCKDEV_ASYNC_QUEUE_DEPTH ->
  Z.of_nat (length (slots (g_completed (que s)))) = BLOCKDEV_ASYNC_QUEUE_DEPTH -> ready (blockdev_initialize s).
Proof.
  intros Hp Hc. split; constructor;
    cbn [blockdev_initialize dsk que g_devs g_cache g_cache_hand g_pending g_completed
         blockdev_update_async_pending_stat set_astats].
  - by rewrite length_replicate.
  - lia.
  - intros k e [-> _]%lookup_replicate. by constructor.
  - intros k e [-> _]%lookup_replicate. by intros ?.
  - intros j k e e' [-> _]%lookup_replicate _ Hv. done.
  - intros i j [[? Hlt] _]. simpl in Hlt. lia.
  - intros i f [[? Hlt] _]. simpl in Hlt. lia.
  - by apply ring_reset_ok.
  - by apply ring_reset_ok.
  - done.
  - done.
Qed.

Lemma register_ready dev s :
  ready s -> dev_read dev <> None -> g_count s < BLOCKDEV_MAX ->
  find_by_name (dev_name dev) (g_devs (dsk s)) = None ->
  (dev_read dev = Some fn_hw ->
     (dev_write dev = None \/ dev_write dev = Some fn_hw) /\
     forall i, hw_dev (g_devs (dsk s)) i -> dev_ctx (dev_of (g_devs (dsk s)) i) <> dev_ctx dev) ->
  exists s', blockdev_register dev s = (g_count s, s') /\ ready s'.
Proof.
  intros [Hw Hid] Hr Hcnt Hname Hdev. unfold blockdev_register. destruct (dev_read dev) as [f|] eqn:Er; [|done].
  rewrite (proj2 (Z.leb_gt _ _)) by lia. rewrite Hname. eexists. split; [done|]. split; [|done].
  by eapply (wf_add_dev (dsk s)).
Qed.

(** ** Main theorems *)

(** C10: A read of sectors of a cached device, on a layer with no request in
    flight, returns 0 with the buffer holding the current content of those
    sectors (cached or on disk), or the driver's negative code; in both cases
    no disk's content changes, no other buffer is touched, and the cache and
    the queues stay consistent. *)
Theorem blockdev_read_correct n s index lba0 cnt h b :
  ready s -> io_ok s index lba0 cnt h b -> cached_dev (dev_of (g_devs (dsk s)) index) ->
  let '(rc, s') := blockdev_read (drv n false) (drv n true) index lba0 cnt (Some (buf_mem h)) s in
  ready s' /\ same_content (dsk s) (dsk s') /\ rc <= 0 /\
  exists b', buffers (dsk s') = <[h := b']> (buffers (dsk s)) /\ length b' = length b /\
    (rc = 0 -> b' = splice 0 (sectors (view (dsk s) index) lba0 (Z.to_nat cnt)) b).
Proof.
  intros Hr Hio Hc. pose proof (read_sync _ _ (drv_read_hw n) (drv_write_hw n) s index lba0 cnt h b Hr Hio Hc) as H'.
  destruct (blockdev_read _ _ _ _ _ _ _) as [rc s']. destruct H' as (Hid & _ & Hs & Hb).
  split; [split; [apply Hs|done]|done].
Qed.

(** C11: A write to a writable cached device updates the content of exactly
    the addressed sectors, of all of them when it returns 0, of a prefix when
    a write-back of a victim fails; everything else keeps its content. *)
Theorem blockdev_write_correct n s index lba0 cnt h b :
  ready s -> io_ok s index lba0 cnt h b -> cached_dev (dev_of (g_devs (dsk s)) index) ->
  dev_write (dev_of (g_devs (dsk s)) index) = Some fn_hw ->
  is_set (dev_flags (dev_of (g_devs (dsk s)) index)) BLOCKDEV_FLAG_READONLY = false ->
  let '(rc, s') := blockdev_write (drv n false) (drv n true) index lba0 cnt (Some (buf_mem h)) s in
  ready s' /\ rc <= 0 /\ buffers (dsk s') = buffers (dsk s) /\
  exists m, 0 <= m <= cnt /\ (rc = 0 -> m = cnt) /\
    forall i l, hw_dev (g_devs (dsk s)) i ->
      view (dsk s') i l =
        if (i =? index) && (lba0 <=? l) && (l <? lba0 + m)
        then slice ((l - lba0) * 512) 512 b else view (dsk s) i l.
Proof.
  intros Hr Hio Hc Hwr Hro.
  pose proof (write_sync (drv n false) _ (drv_write_hw n) s index lba0 cnt h b Hr Hio Hc Hwr Hro) as H'.
  destruct (blockdev_write _ _ _ _ _ _ _) as [rc s'].
  destruct H' as (Hid & _ & Hrc & m & Hm & Hm0 & (Hw & _ & _ & _ & _ & Hb & Hv)).
  split_and!; [by split|done|done|]. exists m. split_and!; [lia..|done|].
  intros i l Hi. specialize (Hv i l Hi). by rewrite Z.add_0_r in Hv.
Qed.

(** A flush changes no content, and when it returns 0 the device - and
    the parent of a partition device - has every sector on the hardware. *)
Theorem blockdev_flush_correct n s index :
  ready s -> in_table (g_devs (dsk s)) index ->
  let '(rc, s') := blockdev_flush (drv n false) (drv n true) index s in
  ready s' /\ same_content (dsk s) (dsk s') /\ rc <= 0 /\
  (rc = 0 -> synced (dsk s') index /\
     (forall p, is_set (dev_flags (dev_of (g_devs (dsk s)) index)) BLOCKDEV_FLAG_PARTITION = true ->
        parent_from index (g_parts (dsk s)) = Some p -> synced (dsk s') p)).
Proof.
  intros Hr Hi. pose proof (flush_sync (drv n false) _ (drv_write_hw n) s index Hr Hi) as H'.
  destruct (blockdev_flush _ _ _ _) as [rc s']. destruct H' as (Hid & _ & Hs & _ & Hrc & Hy).
  split_and!; [split; [apply Hs|done]|done..].
Qed.

(** Reads and writes of a partition device, which re-enter the block
    layer through the partition callbacks, act on the parent's sectors
    shifted by the partition's start, for any nesting depth above 0. *)
Theorem partition_io_correct n s index p lba0 cnt h b :
  ready s -> part_ok (dsk s) index p -> io_ok s index lba0 cnt h b ->
  (let '(rc, s') := blockdev_read (drv (S n) false) (drv (S n) true) index lba0 cnt (Some (buf_mem h)) s in
   ready s' /\ same_content (dsk s) (dsk s') /\ rc <= 0 /\
   exists b', buffers (dsk s') = <[h := b']> (buffers (dsk s)) /\ length b' = length b /\
     (rc = 0 -> b' = splice 0 (sectors (view (dsk s) (parent_index p)) (start_lba p + lba0) (Z.to_nat cnt)) b)) /\
  (dev_write (dev_of (g_devs (dsk s)) index) = Some fn_mbr_partition ->
   is_set (dev_flags (dev_of (g_devs (dsk s)) index)) BLOCKDEV_FLAG_READONLY = false ->
   dev_write (dev_of (g_devs (dsk s)) (parent_index p)) = Some fn_hw ->
   is_set (dev_flags (dev_of (g_devs (dsk s)) (parent_index p))) BLOCKDEV_FLAG_READONLY = false ->
   let '(rc, s') := blockdev_write (drv (S n) false) (drv (S n) true) index lba0 cnt (Some (buf_mem h)) s in
   ready s' /\ rc <= 0 /\
   exists m, 0 <= m <= cnt /\ (rc = 0 -> m = cnt) /\
     written (parent_index p) (start_lba p + lba0) 0 m b s (mk_bd (dsk s') (que s))).
Proof.
  intros Hr Hp Hio. split.
  - pose proof (partition_read n s index p lba0 cnt h b Hr Hp Hio) as H'.
    destruct (blockdev_read _ _ _ _ _ _ _) as [rc s']. destruct H' as (Hid & _ & Hs & Hb).
    split; [split; [apply Hs|done]|done].
  - intros Hwr Hro Hpwr Hpro.
    pose proof (partition_write n s index p lba0 cnt h b Hr Hp Hio Hwr Hro Hpwr Hpro) as H'.
    destruct (blockdev_write _ _ _ _ _ _ _) as [rc s']. destruct H' as (Hid & _ & Hrc & m & Hm & Hm0 & Hw).
    split_and!; [split; [apply Hw|done]|done|]. by exists m.
Qed.
End spec.

(** ** An in-memory driver and a machine that uses it *)

(** Sectors in a finite map; every transfer succeeds. *)
Definition ram_sector (h : gmap (Z * Z) (list Z)) (c l : Z) : list Z :=
  resize 512 0 (default [] (h !! (c, l))).

#[export] Instance ram_driver : BlockDriver := {
  hw := gmap (Z * Z) (list Z);
  hw_read c l cnt h := (0, sectors (ram_sector h c) l (Z.to_nat cnt), h);
  hw_write c l cnt bytes h := (0, <[(c, l) := take 512 bytes]> h);
}.

#[export] Instance ram_driver_laws : BlockDriverLaws.
Proof.
  refine {| backing := ram_sector : @hw ram_driver -> Z -> Z -> list Z |}.
  - intros. apply length_resize.
  - intros c l h rc bytes h' E. simpl in E. simplify_eq. split_and!; [done|lia|].
    intros _. change (Z.to_nat 1) with 1%nat. simpl. apply app_nil_r.
  - intros c l h bytes rc h' Hlen E. simpl in E. simplify_eq. split.
    + intros c' l' Hne. unfold ram_sector. by rewrite lookup_insert_ne by congruence.
    + intros _. unfold ram_sector. rewrite lookup_insert_eq. simpl.
      rewrite take_ge, resize_all_alt by lia. done.
Defined.

(** A disk of 4096 sectors with one partition of 1000 sectors from 2048 on,
    and a buffer of two sectors. *)
Definition demo_disk : block_device := mk_dev 0 [104; 100; 48] 512 4096 0 7 (Some fn_hw) (Some fn_hw).
Definition demo_part : block_device :=
  mk_dev 1 [104; 100; 48; 112; 49] 512 1000 BLOCKDEV_FLAG_PARTITION 100 (Some fn_mbr_partition) (Some fn_mbr_partition).
Definition demo_ctx : mbr_partition_ctx := mk_ctx 0 2048 1000.
Definition blank : bd :=
  mk_bd (mk_disks [] [] 0 (mk_cstats 0 0 0 0 0) {[ 5 := replicate 1024 170 ]} {[ 100 := demo_ctx ]} [] (∅ : @hw ram_driver))
    (mk_queues (mk_ring (replicate 64 inhabitant) 0 0 0) (mk_ring (replicate 64 inhabitant) 0 0 0) 0 [] (mk_astats 0 0 0 0)).
Definition demo : bd := (blockdev_register demo_part (blockdev_register demo_disk (blockdev_initialize blank)).2).2.

Lemma demo_ready : ready demo.
Proof.
  assert (ready (blockdev_initialize blank)) as H0 by (by apply initialize_ready).
  destruct (register_ready demo_disk _ H0) as (s1 & E1 & H1); [done|done|done| |].
  { split; [by right|]. intros i [[? Hlt] _]. simpl in Hlt. lia. }
  destruct (register_ready demo_part s1 H1) as (s2 & E2 & H2); [done|..].
  { replace s1 with (blockdev_register demo_disk (blockdev_initialize blank)).2 by (by rewrite E1). done. }
  { replace s1 with (blockdev_register demo_disk (blockdev_initialize blank)).2 by (by rewrite E1). done. }
  { done. }
  unfold demo. rewrite E1. simpl snd. by rewrite E2.
Qed.

Lemma demo_io i l : (i = 0 \/ i = 1) -> 0 <= l < 999 -> io_ok demo i l 2 5 (replicate 1024 170).
Proof. intros [-> | ->] Hl; constructor; try done; try lia; simpl; lia. Qed.

Lemma demo_part_ok : part_ok (dsk demo) 1 demo_ctx.
Proof. by constructor. Qed.

Lemma blockdev_read_correct_witness :
  let '(rc, s') := blockdev_read (drv 1 false) (drv 1 true) 0 3 2 (Some (buf_mem 5)) demo in
  ready s' /\ rc = 0 /\ buffers (dsk s') !! 5 = Some (splice 0 (sectors (view (dsk demo) 0) 3 2) (replicate 1024 170)).
Proof.
  pose proof (blockdev_read_correct 1 demo 0 3 2 5 _ demo_ready (demo_io 0 3 ltac:(by left) ltac:(lia)) ltac:(done)) as H.
  assert ((blockdev_read (drv 1 false) (drv 1 true) 0 3 2 (Some (buf_mem 5)) demo).1 = 0) as E by (vm_compute; reflexivity).
  destruct (blockdev_read _ _ _ _ _ _ _) as [rc s']. simpl in E. subst rc.
  destruct H as (Hr & _ & _ & b' & -> & _ & Hb). split_and!; [done|done|]. by rewrite lookup_insert_eq, Hb.
Defined.

Lemma blockdev_write_correct_witness :
  let '(rc, s') := blockdev_write (drv 1 false) (drv 1 true) 0 3 2 (Some (buf_mem 5)) demo in
  ready s' /\ rc = 0 /\ view (dsk s') 0 4 = replicate 512 170.
Proof.
  pose proof (blockdev_write_correct 1 demo 0 3 2 5 _ demo_ready (demo_io 0 3 ltac:(by left) ltac:(lia)) ltac:(done) eq_refl eq_refl) as H.
  assert ((blockdev_write (drv 1 false) (drv 1 true) 0 3 2 (Some (buf_mem 5)) demo).1 = 0) as E by (vm_compute; reflexivity).
  destruct (blockdev_write _ _ _ _ _ _ _) as [rc s']. simpl in E. subst rc.
  destruct H as (Hr & _ & _ & m & _ & Hm & Hv). specialize (Hm eq_refl). subst m.
  split_and!; [done|done|]. by rewrite (Hv 0 4) by done.
Defined.

Lemma blockdev_flush_correct_witness :
  let '(rc, s') := blockdev_flush (drv 1 false) (drv 1 true) 0
                     (blockdev_write (drv 1 false) (drv 1 true) 0 3 2 (Some (buf_mem 5)) demo).2 in
  rc = 0 /\ synced (dsk s') 0.
Proof.
  pose proof (write_sync (drv 1 false) _ (drv_write_hw 1) demo 0 3 2 5 _ demo_ready (demo_io 0 3 ltac:(by left) ltac:(lia)) ltac:(done) eq_refl eq_refl) as Hw.
  assert ((blockdev_flush (drv 1 false) (drv 1 true) 0
     (blockdev_write (drv 1 false) (drv 1 true) 0 3 2 (Some (buf_mem 5)) demo).2).1 = 0) as E by (vm_compute; reflexivity).
  destruct (blockdev_write _ _ _ _ _ _ _) as [rc1 s1]. simpl snd in *.
  destruct Hw as (Hid & _ & _ & m & _ & _ & (Hwf & Ed & _)). simpl in Hwf, Ed.
  pose proof (blockdev_flush_correct 1 s1 0 ltac:(done)) as H.
  destruct (blockdev_flush _ _ _ _) as [rc s']. simpl in E. subst rc.
  destruct H as (_ & _ & _ & Hs); [by rewrite Ed|]. by destruct (Hs eq_refl).
Defined.

Lemma partition_io_correct_witness :
  let '(rc, s') := blockdev_read (drv 1 false) (drv 1 true) 1 3 2 (Some (buf_mem 5)) demo in
  rc = 0 /\ buffers (dsk s') !! 5 = Some (splice 0 (sectors (view (dsk demo) 0) 2051 2) (replicate 1024 170)).
Proof.
  pose proof (partition_io_correct 0 demo 1 demo_ctx 3 2 5 _ demo_ready demo_part_ok
    (demo_io 1 3 ltac:(by right) ltac:(lia))) as Hio. destruct Hio as [H _].
  assert ((blockdev_read (drv 1 false) (drv 1 true) 1 3 2 (Some (buf_mem 5)) demo).1 = 0) as E by (vm_compute; reflexivity).
  destruct (blockdev_read (drv 1 false) (drv 1 true) 1 3 2 (Some (buf_mem 5)) demo) as [rc s']. cbn [fst] in E. subst rc.
  destruct H as (Hr & _ & _ & b' & -> & _ & Hb). split; [done|]. by rewrite lookup_insert_eq, Hb.
Defined.

End BlockDevSpec.
