(* ===== verification/Mbr.v ===== *)
(** * Partition table ([kernel/mbr.c])

    Scanning of master boot records: the four table entries of sector 0 of
    every whole-disk device become partition devices of the block layer, whose
    contexts live on the kernel heap; and the writer of a fresh table with one
    partition. [Module Mbr] is the code over the state of the block layer and
    the heap, [Module MbrSpec] its theorems.

    A partition context is allocated with [kcalloc]; its fields are kept in
    the typed store [ctxs] of the block layer under the address the heap
    returned. Local sector arrays are block-layer buffers under the handle
    [SECTOR]. [klog] output is not modelled. *)

From S2P Require Import Prelude Mem Kheap Ring BlockDev.

Module Mbr.
Import Kheap BlockDev.

Definition MBR_PARTITION_TABLE_OFFSET : Z := 446.
Definition MBR_SIGNATURE_OFFSET : Z := 510.
Definition MBR_MAX_PARTITIONS : nat := 4.
Definition MBR_TRACK_ALIGN_LBA : Z := 2048.
Definition MBR_INFO_MAX : Z := 16.
Definition SIZEOF_PARTITION_CTX : Z := 20.
Definition SIZEOF_ENTRY : Z := 16.

Record mbr_scan_stats := mk_scan {
  devices_seen : Z;
  devices_scanned : Z;
  skipped_partition_devices : Z;
  skipped_atapi_devices : Z;
  skipped_non_512b_devices : Z;
  skipped_too_small_devices : Z;
  read_errors : Z;
  invalid_mbr_signature : Z;
  partitions_found : Z;
  partitions_registered : Z;
  partitions_reused : Z;
  partitions_out_of_bounds : Z;
  partition_register_failures : Z;
}.
Definition no_stats : mbr_scan_stats := mk_scan 0 0 0 0 0 0 0 0 0 0 0 0 0.

(** The counters, by position; [bump c st] is [st.c++]. *)
Inductive counter :=
  | c_devices_seen | c_devices_scanned | c_skipped_partition | c_skipped_atapi | c_skipped_non_512b
  | c_skipped_too_small | c_read_errors | c_invalid_signature | c_found | c_registered | c_reused
  | c_out_of_bounds | c_register_failures.
#[global] Instance counter_eq_dec : EqDecision counter.
Proof. solve_decision. Defined.

Definition bump (c : counter) (st : mbr_scan_stats) : mbr_scan_stats :=
  let inc k v := if decide (c = k) then u32 (v + 1) else v in
  mk_scan (inc c_devices_seen (devices_seen st)) (inc c_devices_scanned (devices_scanned st))
    (inc c_skipped_partition (skipped_partition_devices st)) (inc c_skipped_atapi (skipped_atapi_devices st))
    (inc c_skipped_non_512b (skipped_non_512b_devices st)) (inc c_skipped_too_small (skipped_too_small_devices st))
    (inc c_read_errors (read_errors st)) (inc c_invalid_signature (invalid_mbr_signature st))
    (inc c_found (partitions_found st)) (inc c_registered (partitions_registered st))
    (inc c_reused (partitions_reused st)) (inc c_out_of_bounds (partitions_out_of_bounds st))
    (inc c_register_failures (partition_register_failures st)).

(** [mbr_partition_entry_t], the fields the scan uses. *)
Record mbr_partition_entry := mk_pent { pent_type : Z; lba_start : Z; lba_count : Z }.

(** [memcpy(&ent, sector + 446 + i * 16, 16)], the bytes of [sector], and its
    little-endian fields. *)
Definition parse_entry (sector : list Z) (i : Z) : mbr_partition_entry :=
  let e := map u8 (slice (MBR_PARTITION_TABLE_OFFSET + i * SIZEOF_ENTRY) SIZEOF_ENTRY sector) in
  mk_pent (default 0 (e !! 4%nat)) (le_combine (slice 8 4 e)) (le_combine (slice 12 4 e)).

Section mbr.
Context `{BlockDriver}.

Record mbr := mk_mbr {
  bdev : bd;
  heap : kheap;
  g_scan_stats : mbr_scan_stats;
}.

Definition stat (c : counter) (s : mbr) : mbr := mk_mbr (bdev s) (heap s) (bump c (g_scan_stats s)).
Definition with_bd (b : bd) (s : mbr) : mbr := mk_mbr b (heap s) (g_scan_stats s).
Definition on_disks (f : disks -> disks) (s : mbr) : mbr := with_bd (on_dsk f (bdev s)) s.
Definition set_parts p d := mk_disks (g_devs d) (g_cache d) (g_cache_hand d) (g_cstats d) (buffers d) (ctxs d) p (hardware d).
Definition set_ctxs c d := mk_disks (g_devs d) (g_cache d) (g_cache_hand d) (g_cstats d) (buffers d) c (g_parts d) (hardware d).

(** The block layer's entry points: a partition's parent is never itself a
    partition, so one level of re-entry is enough. *)
Definition NESTING : nat := 1.
Definition bd_read := blockdev_read (drv NESTING false) (drv NESTING true).
Definition bd_write := blockdev_write (drv NESTING false) (drv NESTING true).

(** A local 512-byte array. *)
Definition SECTOR : Z := -1.
Definition with_sector (bytes : list Z) : bd -> bd :=
  on_dsk (fun d => set_buffers (<[SECTOR := bytes]> (buffers d)) d).
Definition sector_of (b : bd) : list Z := default [] (buffers (dsk b) !! SECTOR).

Definition g_part_count (s : mbr) : Z := Z.of_nat (length (g_parts (dsk (bdev s)))).

Definition mbr_is_partition_device (d : block_device) : bool := is_set (dev_flags d) BLOCKDEV_FLAG_PARTITION.

Definition mbr_record_partition (info : mbr_partition_info) (s : mbr) : mbr :=
  if MBR_INFO_MAX <=? g_part_count s then s
  else on_disks (fun d => set_parts (g_parts d ++ [info]) d) s.

(** [strncpy(pname, dev->name, 13)], then ["p<i+1>"] if it fits. *)
Definition partition_name (name : list Z) (i : Z) : option (list Z) :=
  let pname := take 13 name in
  if Z.of_nat (length pname) <? 13 then Some (pname ++ [112; 49 + i]) else None.

(** The device of entry [ent], [None] when the entry is skipped. *)
Definition attach_partition (dev : block_device) (dev_index : Z) (pname : list Z)
    (ent : mbr_partition_entry) (s : mbr) : option Z * mbr :=
  let ctx := mk_ctx dev_index (lba_start ent) (lba_count ent) in
  match blockdev_find_by_name pname (bdev s) with
  | Some existing =>
      let s :=
        if is_set (dev_flags existing) BLOCKDEV_FLAG_PARTITION && negb (dev_ctx existing =? 0)
        then on_disks (fun d => set_ctxs (<[dev_ctx existing := ctx]> (ctxs d)) d) s else s in
      (Some (dev_id existing), stat c_reused s)
  | None =>
      let '(p, hp) := kcalloc 1 SIZEOF_PARTITION_CTX (heap s) in
      let s := mk_mbr (bdev s) hp (g_scan_stats s) in
      if p =? 0 then (None, s)
      else
        let s := on_disks (fun d => set_ctxs (<[p := ctx]> (ctxs d)) d) s in
        let flags := Z.lor (Z.land (dev_flags dev) BLOCKDEV_FLAG_READONLY) BLOCKDEV_FLAG_PARTITION in
        let part := mk_dev 0 (take 15 pname) (dev_block_size dev) (lba_count ent) flags p
                      (Some fn_mbr_partition)
                      (if is_set flags BLOCKDEV_FLAG_READONLY then None else Some fn_mbr_partition) in
        let '(rc, b) := blockdev_register part (bdev s) in
        let s := with_bd b s in
        if rc <? 0 then
          (None, stat c_register_failures
                   (mk_mbr (on_dsk (fun d => set_ctxs (delete p (ctxs d)) d) (bdev s))
                      (kfree p (heap s)) (g_scan_stats s)))
        else (Some rc, stat c_registered s)
  end.

(** One iteration of the entry loop of [mbr_scan_device]. *)
Definition scan_entry (dev : block_device) (dev_index : Z) (sector : list Z) (i : Z) (found : Z) (s : mbr) : Z * mbr :=
  let ent := parse_entry sector i in
  if (pent_type ent =? 0) || (lba_count ent =? 0) then (found, s)
  else if dev_block_count dev <? lba_start ent + lba_count ent then (found, stat c_out_of_bounds s)
  else
    let s := stat c_found s in
    match partition_name (dev_name dev) i with
    | None => (found, s)
    | Some pname =>
        match attach_partition dev dev_index pname ent s with
        | (None, s) => (found, s)
        | (Some part_dev_index, s) =>
            (found + 1,
             mbr_record_partition
               (mk_info (take 15 pname) part_dev_index dev_index (u8 (i + 1)) (pent_type ent)
                  (lba_start ent) (lba_count ent)) s)
        end
    end.

Fixpoint scan_entries (n : nat) (dev : block_device) (dev_index : Z) (sector : list Z) (i found : Z) (s : mbr) : Z * mbr :=
  match n with
  | O => (found, s)
  | S n =>
      let '(found, s) := scan_entry dev dev_index sector i found s in
      scan_entries n dev dev_index sector (i + 1) found s
  end.

Definition mbr_scan_device (dev_index : Z) (s : mbr) : Z * mbr :=
  match blockdev_get dev_index (bdev s) with
  | None => (0, s)
  | Some dev =>
      if mbr_is_partition_device dev then (0, stat c_skipped_partition s)
      else if is_set (dev_flags dev) BLOCKDEV_FLAG_ATAPI then (0, stat c_skipped_atapi s)
      else if negb (dev_block_size dev =? 512) then (0, stat c_skipped_non_512b s)
      else if dev_block_count dev <? 2 then (0, stat c_skipped_too_small s)
      else
        let s := stat c_devices_scanned s in
        let '(rc, b) := bd_read dev_index 0 1 (Some (buf_mem SECTOR)) (with_sector (replicate 512 0) (bdev s)) in
        let s := with_bd b s in
        if rc <? 0 then (0, stat c_read_errors s)
        else
          let sector := sector_of b in
          if negb (default 0 (sector !! 510%nat) =? 0x55) || negb (default 0 (sector !! 511%nat) =? 0xAA)
          then (0, stat c_invalid_signature s)
          else scan_entries MBR_MAX_PARTITIONS dev dev_index sector 0 0 s
  end.

Definition mbr_initialize (s : mbr) : mbr :=
  mk_mbr (on_dsk (set_parts []) (bdev s)) (heap s) no_stats.

Fixpoint scan_devices (n : nat) (i found : Z) (s : mbr) : Z * mbr :=
  match n with
  | O => (found, s)
  | S n =>
      let '(f, s) := mbr_scan_device i (stat c_devices_seen s) in
      scan_devices n (i + 1) (found + f) s
  end.

Definition mbr_scan_all (s : mbr) : Z * mbr :=
  let s := mbr_initialize s in
  scan_devices (Z.to_nat (blockdev_count (bdev s))) 0 0 s.

Definition mbr_get_scan_stats (s : mbr) : mbr_scan_stats := g_scan_stats s.
Definition mbr_partition_count (s : mbr) : Z := g_part_count s.
Definition mbr_partition_get (index : Z) (s : mbr) : option mbr_partition_info :=
  if g_part_count s <=? index then None else g_parts (dsk (bdev s)) !! Z.to_nat index.

(** The sector [mbr_create_single_partition] writes. *)
Definition fresh_table (ptype count : Z) : list Z :=
  let ent := [0; 0; 2; 0; if ptype =? 0 then 0x83 else ptype; 0xFE; 0xFF; 0xFF]
               ++ le_split 4 MBR_TRACK_ALIGN_LBA ++ le_split 4 (u32 (count - MBR_TRACK_ALIGN_LBA)) in
  splice MBR_SIGNATURE_OFFSET [0x55; 0xAA] (splice MBR_PARTITION_TABLE_OFFSET ent (replicate 512 0)).

Definition mbr_create_single_partition (dev_index ptype : Z) (s : mbr) : Z * mbr :=
  match blockdev_get dev_index (bdev s) with
  | None => (-1, s)
  | Some dev =>
      if mbr_is_partition_device dev then (-2, s)
      else if is_set (dev_flags dev) (Z.lor BLOCKDEV_FLAG_READONLY BLOCKDEV_FLAG_ATAPI) then (-3, s)
      else if negb (dev_block_size dev =? 512) then (-4, s)
      else if dev_block_count dev <=? MBR_TRACK_ALIGN_LBA + 1 then (-5, s)
      else if 0xFFFFFFFF <? dev_block_count dev then (-6, s)
      else
        let '(rc, b) := bd_write dev_index 0 1 (Some (buf_mem SECTOR))
                          (with_sector (fresh_table ptype (dev_block_count dev)) (bdev s)) in
        (rc, with_bd b s)
  end.
End mbr.
End Mbr.

Module MbrSpec.
Import Kheap KheapRep Ring BlockDev BlockDevSpec Mbr.

(** ** The sector format *)

Lemma length_fresh_table ptype count : length (fresh_table ptype count) = 512%nat.
Proof.
  unfold fresh_table. rewrite !length_splice; rewrite ?length_splice; rewrite ?length_app, ?length_le_split, ?length_replicate; try done; lia.
Qed.

Definition table_type (ptype : Z) : Z := if ptype =? 0 then 0x83 else ptype.

(** The table written by [mbr_create_single_partition], read back. *)
Lemma parse_fresh_table ptype count :
  2048 <= count < 2 ^ 32 -> 0 <= ptype < 256 ->
  let t := fresh_table ptype count in
  parse_entry t 0 = mk_pent (table_type ptype) 2048 (count - 2048) /\
  (forall i, 1 <= i <= 3 -> parse_entry t i = mk_pent 0 0 0) /\
  t !! 510%nat = Some 0x55 /\ t !! 511%nat = Some 0xAA.
Proof.
  intros Hc Hty. pose proof (le_combine_split 4 (u32 (count - 2048))) as Hr. pose proof (le_split_bytes 4 (count - 2048)) as Hby.
  unfold fresh_table, parse_entry, table_type. change MBR_TRACK_ALIGN_LBA with 2048.
  rewrite u32_small in * by lia. specialize (Hr ltac:(change (256 ^ Z.of_nat 4) with (2 ^ 32); lia)).
  set (ty := if ptype =? 0 then _ else _). assert (u8 ty = ty) as Ety by (apply u8_small; unfold ty; case_match; lia). clearbody ty.
  destruct (le_split 4 (count - 2048)) as [|b0 [|b1 [|b2 [|b3 [|? ?]]]]] eqn:E;
    try (apply (f_equal length) in E; rewrite length_le_split in E; simpl in E; lia).
  clear E. repeat (apply Forall_cons in Hby as [? Hby]). unfold is_byte in *.
  split_and!; [|intros i Hi; assert (i = 1 \/ i = 2 \/ i = 3) as [-> |[-> | ->]] by lia; reflexivity|reflexivity..].
  rewrite <- Hr. transitivity (mk_pent (u8 ty) 2048 (le_combine [u8 b0; u8 b1; u8 b2; u8 b3])); [reflexivity|].
  by rewrite Ety, !u8_small by lia.
Qed.

(** The fields are unsigned. *)
Lemma parse_entry_nonneg sector i : 0 <= lba_start (parse_entry sector i) /\ 0 <= lba_count (parse_entry sector i).
Proof.
  unfold parse_entry. set (e := slice _ _ sector). cbn [lba_start lba_count].
  assert (forall off n, 0 <= le_combine (slice off n (map u8 e))) as Hb.
  { intros off n. apply le_combine_bound, Forall_take, Forall_drop. apply Forall_map, Forall_true. intros x. apply u8_range. }
  split; apply Hb.
Qed.

Section spec.
Context `{BlockDriverLaws}.
Implicit Types (s : mbr) (b : bd).

Abbreviation devs_of s := (g_devs (dsk (bdev s))).

(** Whole disks are hardware devices. *)
Definition table_ok (devs : list block_device) : Prop :=
  forall d, d ∈ devs -> is_set (dev_flags d) BLOCKDEV_FLAG_PARTITION = false ->
    dev_read d = Some fn_hw /\ (dev_block_count d < 2 ^ 64).

Definition scan_ready s : Prop := ready (bdev s) /\ table_ok (devs_of s).

Lemma get_dev i b dev :
  0 <= i -> blockdev_get i b = Some dev ->
  in_table (g_devs (dsk b)) i /\ dev_of (g_devs (dsk b)) i = dev /\ g_devs (dsk b) !! Z.to_nat i = Some dev.
Proof.
  unfold blockdev_get, g_count. intros Hi. destruct (Z.leb_spec (Z.of_nat (length (g_devs (dsk b)))) i); [done|].
  intros [= <-]. split_and!; [split; lia|done|]. unfold dev_at. apply list_lookup_lookup_total_lt. lia.
Qed.

Lemma ready_buffers bs b : ready b -> ready (on_dsk (set_buffers bs) b).
Proof. intros [Hw Hi]. split; [|done]. apply (wf_same (dsk b)); try done. apply Hw. Qed.

Lemma ready_ctxs c b : ready b -> ready (on_dsk (set_ctxs c) b).
Proof. intros [Hw Hi]. split; [|done]. apply (wf_same (dsk b)); try done. apply Hw. Qed.

Lemma ready_parts p b : ready b -> ready (on_dsk (set_parts p) b).
Proof. intros [Hw Hi]. split; [|done]. apply (wf_same (dsk b)); try done. apply Hw. Qed.

(** A sector-sized transfer through the local array. *)
Lemma sector_io i bytes b dev :
  0 <= i -> blockdev_get i b = Some dev -> 0 < dev_block_count dev < 2 ^ 64 -> length bytes = 512%nat ->
  io_ok (with_sector bytes b) i 0 1 SECTOR bytes.
Proof.
  intros Hi Hd Hc Hl. destruct (get_dev _ _ _ Hi Hd) as (Ht & Ed & _).
  constructor; simpl; rewrite ?Ed; try done; try lia. apply lookup_insert_eq.
Qed.

Lemma scan_read s i dev :
  scan_ready s -> 0 <= i -> blockdev_get i (bdev s) = Some dev ->
  is_set (dev_flags dev) BLOCKDEV_FLAG_PARTITION = false -> dev_block_size dev = 512 -> 0 < dev_block_count dev ->
  let '(rc, b) := bd_read i 0 1 (Some (buf_mem SECTOR)) (with_sector (replicate 512 0) (bdev s)) in
  ready b /\ g_devs (dsk b) = devs_of s /\ g_parts (dsk b) = g_parts (dsk (bdev s)) /\
  ctxs (dsk b) = ctxs (dsk (bdev s)) /\ rc <= 0 /\
  (rc = 0 -> sector_of b = view (dsk (bdev s)) i 0).
Proof.
  intros [Hr Ht] Hi Hd Hf Hbs Hbc. destruct (get_dev _ _ _ Hi Hd) as (Hin & Ed & Hlk).
  destruct (Ht dev (list_elem_of_lookup_2 _ _ _ Hlk) Hf) as [Hrd H64].
  set (b0 := with_sector (replicate 512 0) (bdev s)).
  assert (cached_dev (dev_of (g_devs (dsk b0)) i)) as Hc.
  { simpl. rewrite Ed. split; [done|]. unfold blockdev_should_cache. rewrite Hrd, Hf, Hbs. done. }
  pose proof (read_sync _ _ (drv_read_hw NESTING) (drv_write_hw NESTING) b0 i 0 1 SECTOR (replicate 512 0)
    (ready_buffers _ _ Hr) (sector_io i _ _ dev Hi Hd ltac:(lia) (length_replicate _ _)) Hc) as Hrs.
  unfold bd_read. destruct (blockdev_read _ _ _ _ _ _ _) as [rc b]. destruct Hrs as (Hid & _ & Hs & Hrc & b' & Hb & Hl & Hv).
  destruct Hs as (Hw & E1 & E2 & E3 & _). split_and!; [by split|by rewrite E1|by rewrite E3|by rewrite E2|done|].
  intros E. unfold sector_of. rewrite Hb, lookup_insert_eq. simpl. rewrite Hv by done.
  change (Z.to_nat 1) with 1%nat. cbn [sectors]. rewrite app_nil_r.
  assert (length (view (dsk b0) i 0) = 512%nat) as Hlv by (apply length_view, (ready_buffers _ _ Hr)).
  unfold splice. change (Z.to_nat 0) with 0%nat. rewrite take_0, drop_ge, app_nil_r by (rewrite Hlv; done). done.
Qed.

(** ** Every recorded partition lies on its parent *)

Definition info_ok (devs : list block_device) (info : mbr_partition_info) : Prop :=
  0 <= info_parent info /\
  exists dev, devs !! Z.to_nat (info_parent info) = Some dev /\
    is_set (dev_flags dev) BLOCKDEV_FLAG_PARTITION = false /\
    info_start info + info_count info <= dev_block_count dev.

Record scan_inv s : Prop := {
  si_ready : ready (bdev s);
  si_table : table_ok (devs_of s);
  si_parts : Forall (info_ok (devs_of s)) (g_parts (dsk (bdev s)));
  si_count : g_part_count s <= MBR_INFO_MAX;
}.

(** Devices are only ever appended. *)
Definition extends s s' : Prop := exists new, devs_of s' = devs_of s ++ new.

Lemma extends_same s s' : devs_of s' = devs_of s -> extends s s'.
Proof. intros E. exists []. by rewrite E, app_nil_r. Qed.
Lemma extends_trans s1 s2 s3 : extends s1 s2 -> extends s2 s3 -> extends s1 s3.
Proof. intros [n1 E1] [n2 E2]. exists (n1 ++ n2). by rewrite E2, E1, app_assoc. Qed.

Lemma info_ok_app devs new info : info_ok devs info -> info_ok (devs ++ new) info.
Proof. intros (? & dev & Hl & ? & ?). split; [done|]. exists dev. split; [by apply lookup_app_l_Some|done]. Qed.

Lemma stat_inv c s : scan_inv s -> scan_inv (stat c s).
Proof. intros []. by constructor. Qed.

Lemma register_cases dev b :
  dev_read dev = Some fn_mbr_partition -> ready b ->
  let '(rc, b') := blockdev_register dev b in
  ready b' /\ g_parts (dsk b') = g_parts (dsk b) /\ ctxs (dsk b') = ctxs (dsk b) /\
  (rc < 0 /\ b' = b \/
   rc = g_count b /\ exists dev', g_devs (dsk b') = g_devs (dsk b) ++ [dev'] /\
     dev' = mk_dev (g_count b) (dev_name dev) (dev_block_size dev) (dev_block_count dev) (dev_flags dev)
              (dev_ctx dev) (dev_read dev) (dev_write dev)).
Proof.
  intros Hr Hb. unfold blockdev_register. rewrite Hr.
  destruct (BLOCKDEV_MAX <=? g_count b); [split_and!; try done; by left|].
  destruct (find_by_name _ _); [split_and!; try done; by left|].
  split_and!; [|done|done|right; eauto].
  destruct Hb as [Hw Hi]. split; [|done]. by eapply (wf_add_dev (dsk b)).
Qed.

Lemma is_set_lor_partition f : is_set (Z.lor f BLOCKDEV_FLAG_PARTITION) BLOCKDEV_FLAG_PARTITION = true.
Proof.
  unfold is_set. apply negb_true_iff, Z.eqb_neq. intros E.
  apply (f_equal (fun z => Z.testbit z 2)) in E. rewrite Z.land_spec, Z.lor_spec in E. simpl in E.
  by rewrite orb_true_r in E.
Qed.

Lemma table_ok_snoc devs dev :
  table_ok devs -> is_set (dev_flags dev) BLOCKDEV_FLAG_PARTITION = true -> table_ok (devs ++ [dev]).
Proof.
  intros Ht Hf d [Hd|Hd%list_elem_of_singleton]%elem_of_app Hd'; [by apply Ht|subst; congruence].
Qed.

Lemma attach_inv dev i pname ent s :
  scan_inv s ->
  let '(r, s') := attach_partition dev i pname ent s in
  scan_inv s' /\ extends s s' /\ g_parts (dsk (bdev s')) = g_parts (dsk (bdev s)).
Proof.
  intros [Hr Ht Hp Hc]. unfold attach_partition. destruct (blockdev_find_by_name _ _) as [ex|].
  { destruct (_ && _); (split_and!; [|by apply extends_same|done]); [|by constructor].
    constructor; try done. by apply ready_ctxs. }
  destruct (kcalloc _ _ _) as [p hp]. destruct (p =? 0); [split_and!; [by constructor|by apply extends_same|done]|].
  set (part := mk_dev _ _ _ _ _ _ _ _). set (b1 := bdev (on_disks _ _)).
  pose proof (register_cases part b1 eq_refl (ready_ctxs _ _ Hr)) as Hreg.
  destruct (blockdev_register part b1) as [rc b2]. destruct Hreg as (Hr2 & Ep & _ & Hcase).
  destruct Hcase as [[Hneg ->]|(Hrc & dev' & Ed & Edev)].
  - rewrite (proj2 (Z.ltb_lt _ _)) by done. split_and!; [|by apply extends_same|done].
    constructor; try done. by apply ready_ctxs.
  - rewrite (proj2 (Z.ltb_ge _ _)) by (unfold g_count in Hrc; lia).
    split_and!; [|by exists [dev']|done]. constructor; simpl; [done| | |].
    + rewrite Ed. apply table_ok_snoc; [done|]. rewrite Edev. apply is_set_lor_partition.
    + rewrite Ed, Ep. eapply Forall_impl; [exact Hp|]. intros. by apply info_ok_app.
    + unfold g_part_count in *. simpl. by rewrite Ep.
Qed.

Lemma scan_entry_inv dev i sector j found s :
  scan_inv s -> 0 <= i -> devs_of s !! Z.to_nat i = Some dev -> is_set (dev_flags dev) BLOCKDEV_FLAG_PARTITION = false ->
  let '(_, s') := scan_entry dev i sector j found s in scan_inv s' /\ extends s s'.
Proof.
  intros Hs Hi Hd Hf. unfold scan_entry. destruct (_ || _); [split; [done|by apply extends_same]|].
  destruct (Z.ltb_spec (dev_block_count dev) (lba_start (parse_entry sector j) + lba_count (parse_entry sector j)));
    [split; [by apply stat_inv|by apply extends_same]|].
  destruct (partition_name _ _) as [pname|]; [|split; [by apply stat_inv|by apply extends_same]].
  pose proof (attach_inv dev i pname (parse_entry sector j) (stat c_found s) (stat_inv _ _ Hs)) as Ha.
  destruct (attach_partition _ _ _ _ _) as [[r|] s1]; [|by destruct Ha as (? & ? & _)].
  destruct Ha as ([Hr1 Ht1 Hp1 Hc1] & He & Epart). unfold mbr_record_partition.
  destruct (Z.leb_spec MBR_INFO_MAX (g_part_count s1)); [by split|]. split; [|done].
  constructor; cbn [bdev with_bd on_disks on_dsk dsk g_devs g_parts set_parts]; [by apply ready_parts|done| |].
  - apply Forall_app. split; [done|]. apply Forall_singleton. split; [done|]. exists dev. cbn [info_parent info_start info_count].
    destruct He as [new ->]. split_and!; [by apply lookup_app_l_Some|done|lia].
  - unfold g_part_count in *. simpl. rewrite length_app. simpl. lia.
Qed.

Lemma scan_entries_inv n dev i sector j found s :
  scan_inv s -> 0 <= i -> devs_of s !! Z.to_nat i = Some dev -> is_set (dev_flags dev) BLOCKDEV_FLAG_PARTITION = false ->
  let '(_, s') := scan_entries n dev i sector j found s in scan_inv s' /\ extends s s'.
Proof.
  revert j found s. induction n as [|n IH]; intros j found s Hs Hi Hd Hf; [split; [done|by apply extends_same]|].
  cbn [scan_entries]. pose proof (scan_entry_inv dev i sector j found s Hs Hi Hd Hf) as He.
  destruct (scan_entry _ _ _ _ _ _) as [f s1]. destruct He as [Hs1 [new Ee]].
  specialize (IH (j + 1) f s1 Hs1 Hi ltac:(rewrite Ee; by apply lookup_app_l_Some) Hf).
  destruct (scan_entries _ _ _ _ _ _ _) as [f' s2]. destruct IH as [? ?]. split; [done|].
  by eapply extends_trans; [exists new|].
Qed.

Lemma scan_device_inv i s :
  scan_inv s -> 0 <= i -> let '(_, s') := mbr_scan_device i s in scan_inv s' /\ extends s s'.
Proof.
  intros Hs Hi. unfold mbr_scan_device. destruct (blockdev_get i (bdev s)) as [dev|] eqn:Hd; [|split; [done|by apply extends_same]].
  unfold mbr_is_partition_device.
  destruct (is_set (dev_flags dev) BLOCKDEV_FLAG_PARTITION) eqn:Hf; [split; [by apply stat_inv|by apply extends_same]|].
  destruct (is_set _ BLOCKDEV_FLAG_ATAPI); [split; [by apply stat_inv|by apply extends_same]|].
  destruct (Z.eqb_spec (dev_block_size dev) 512) as [Hbs|]; cbn [negb]; [|split; [by apply stat_inv|by apply extends_same]].
  destruct (Z.ltb_spec (dev_block_count dev) 2); [split; [by apply stat_inv|by apply extends_same]|].
  pose proof (scan_read (stat c_devices_scanned s) i dev ltac:(destruct Hs; by split) Hi Hd Hf Hbs ltac:(lia)) as Hread.
  destruct (bd_read _ _ _ _ _) as [rc b]. destruct Hread as (Hr & Ed & Ep & _ & _ & _).
  assert (scan_inv (with_bd b (stat c_devices_scanned s))) as Hs1.
  { destruct Hs. constructor; simpl; rewrite ?Ed; try done; [by rewrite Ep|unfold g_part_count in *; simpl; by rewrite Ep]. }
  assert (extends s (with_bd b (stat c_devices_scanned s))) as He1 by (exists []; simpl; by rewrite Ed, app_nil_r).
  destruct (rc <? 0); [split; [by apply stat_inv|done]|].
  destruct (_ || _); [split; [by apply stat_inv|done]|].
  pose proof (scan_entries_inv MBR_MAX_PARTITIONS dev i (sector_of b) 0 0 _ Hs1 Hi) as Hse.
  destruct (scan_entries _ _ _ _ _ _ _) as [f s2]. destruct Hse as [? ?]; [|done|].
  { simpl. rewrite Ed. by destruct (get_dev _ _ _ Hi Hd) as (_ & _ & ?). }
  split; [done|by eapply extends_trans].
Qed.

Lemma scan_devices_inv n i found s :
  scan_inv s -> 0 <= i -> let '(_, s') := scan_devices n i found s in scan_inv s' /\ extends s s'.
Proof.
  revert i found s. induction n as [|n IH]; intros i found s Hs Hi; [split; [done|by apply extends_same]|].
  cbn [scan_devices]. pose proof (scan_device_inv i (stat c_devices_seen s) (stat_inv _ _ Hs) Hi) as H1.
  destruct (mbr_scan_device _ _) as [f s1]. destruct H1 as [Hs1 He].
  specialize (IH (i + 1) (found + f) s1 Hs1 ltac:(lia)). destruct (scan_devices _ _ _ _) as [f' s2].
  destruct IH as [? ?]. split; [done|by eapply extends_trans].
Qed.

(** ** Every registered partition device lies on its parent *)

(** A partition's context is a block of the kernel heap. *)
Definition is_part (d : block_device) : Prop := is_set (dev_flags d) BLOCKDEV_FLAG_PARTITION = true.
Definition held_in (devs : list block_device) (h : kheap) (bs : list block) : Prop :=
  forall d, d ∈ devs -> is_part d -> dev_ctx d <> 0 -> exists z, allocated h bs (dev_ctx d - 4) z.
Definition contexts_held s : Prop := exists bs, heap_rep (heap s) bs /\ held_in (devs_of s) (heap s) bs.

(** The heap under [attach_partition]: a new context is no block in use. *)
Lemma kcalloc_ctx h bs :
  heap_rep h bs ->
  let '(p, h') := kcalloc 1 SIZEOF_PARTITION_CTX h in
  exists bs', heap_rep h' bs' /\ (forall y v, allocated h bs y v -> allocated h' bs' y v) /\
    (p <> 0 -> (exists z, allocated h' bs' (p - 4) z) /\ forall y v, allocated h bs y v -> y <> p - 4).
Proof.
  intros Hr. unfold kcalloc. change (u32 (1 * SIZEOF_PARTITION_CTX)) with 20.
  change (negb (1 =? 0) && ((2 ^ 32 - 1) / 1 <? SIZEOF_PARTITION_CTX)) with false. cbv iota zeta.
  destruct (kmalloc 20 h) as [p h1] eqn:E. destruct (Z.eqb_spec p 0) as [->|Hp].
  - rewrite (kmalloc_null h bs 20 h1 Hr ltac:(lia) E). exists bs. split_and!; [by apply with_irq_rep|done|done].
  - destruct (kmalloc_success h bs 20 p h1 Hr ltac:(lia) E Hp) as (bs1 & z & Hr1 & Hz & _ & Hpn & Hall & Hne & _).
    exists bs1. split_and!.
    + eapply with_mem_rep; [done|exact Hpn|]. eapply only_weaken; [|apply only_memset]. simpl. lia.
    + intros y v Hy. apply (proj2 (Hall y v)). by left.
    + intros _. split; [by exists z|exact Hne].
Qed.

Lemma kfree_ctx h bs p z :
  heap_rep h bs -> allocated h bs (p - 4) z ->
  exists bs', heap_rep (kfree p h) bs' /\ forall y v, allocated h bs y v -> y <> p - 4 -> allocated (kfree p h) bs' y v.
Proof.
  intros Hr Hx. destruct (kfree_success h bs (p - 4) z Hr Hx) as (bs' & Hr' & Hall & _).
  replace (p - 4 + 4) with p in * by lia. exists bs'. split; [done|]. intros y v ? ?. by apply Hall.
Qed.

Lemma find_by_name_Some name devs d : find_by_name name devs = Some d -> exists y, devs !! y = Some d /\ dev_name d = name.
Proof.
  unfold find_by_name. destruct (list_find _ _) as [[y e]|] eqn:E; [|done]. intros [= <-]. apply list_find_Some in E as (? & ? & _). by exists y.
Qed.

Section registrations.
(** The device table before the scan. *)
Context (devs0 : list block_device) (names : NoDup (map dev_name devs0)).

(** [d] was registered for an entry before entry [j] of disk [i]: its context
    and its size name the same sectors, all of them on the disk. *)
Definition before (i j i' j' : Z) : Prop := 0 <= i' /\ (i' < i \/ i' = i /\ j' < j).
Record from_entry (cs : gmap Z mbr_partition_ctx) (d : block_device) (i j i' j' : Z) (par : block_device) (start : Z) : Prop := {
  fe_before : before i j i' j';
  fe_read : dev_read d = Some fn_mbr_partition;
  fe_part : is_part d;
  fe_ctx0 : dev_ctx d <> 0;
  fe_parent : devs0 !! Z.to_nat i' = Some par;
  fe_cached : cached_dev par;
  fe_name : dev_name d = dev_name par ++ [112; 49 + j'];
  fe_ctx : cs !! dev_ctx d = Some (mk_ctx i' start (dev_block_count d));
  fe_start : 0 <= start;
  fe_count : 0 < dev_block_count d;
  fe_range : start + dev_block_count d <= dev_block_count par < 2 ^ 64;
}.
Definition registered cs d i j : Prop := exists i' j' par start, from_entry cs d i j i' j' par start.

Record regs (devs : list block_device) (cs : gmap Z mbr_partition_ctx) (h : kheap) (i j : Z) : Prop := {
  rg_ext : exists new, devs = devs0 ++ new;
  rg_heap : exists bs, heap_rep h bs /\ held_in devs h bs;
  rg_new : forall x d, (length devs0 <= x)%nat -> devs !! x = Some d -> registered cs d i j;
  rg_apart : forall x y d e, (length devs0 <= x)%nat -> devs !! x = Some d -> devs !! y = Some e -> x <> y -> is_part e -> dev_ctx d <> dev_ctx e;
}.
Abbreviation regs_at s i j := (regs (devs_of s) (ctxs (dsk (bdev s))) (heap s) i j).

Lemma registered_ctxs cs cs' d i j : cs' !! dev_ctx d = cs !! dev_ctx d -> registered cs d i j -> registered cs' d i j.
Proof. intros E (i' & j' & par & start & []). exists i', j', par, start. constructor; try done. by rewrite E. Qed.

Lemma regs_later devs cs h i j i2 j2 : (forall i' j', before i j i' j' -> before i2 j2 i' j') -> regs devs cs h i j -> regs devs cs h i2 j2.
Proof.
  intros Hb []. constructor; try done. intros x d Hx Hd. destruct (rg_new0 x d Hx Hd) as (i' & j' & par & start & []).
  exists i', j', par, start. constructor; auto.
Qed.
Lemma regs_next devs cs h i j : regs devs cs h i j -> regs devs cs h i (j + 1).
Proof. apply regs_later. unfold before. lia. Qed.

(** Allocating a context. *)
Lemma regs_alloc devs cs h i j :
  regs devs cs h i j ->
  let '(p, h') := kcalloc 1 SIZEOF_PARTITION_CTX h in
  regs devs cs h' i j /\ (p <> 0 -> (forall e, e ∈ devs -> is_part e -> dev_ctx e <> p) /\
    exists bs z, heap_rep h' bs /\ held_in devs h' bs /\ allocated h' bs (p - 4) z).
Proof.
  intros [He (bs & Hr & Hh) Hn Ha]. pose proof (kcalloc_ctx h bs Hr) as Hk. destruct (kcalloc _ _ h) as [p h'].
  destruct Hk as (bs' & Hr' & Hkeep & Hp). assert (held_in devs h' bs') as Hh'.
  { intros d Hd Hpt Hc00. destruct (Hh d Hd Hpt Hc00) as [z Hz]. exists z. auto. }
  split; [constructor; try done; by exists bs'|]. intros Hp0. destruct (Hp Hp0) as [[z Hz] Hnew]. split; [|by exists bs', z].
  intros e Hin Hpt Ee. destruct (Hh e Hin Hpt ltac:(congruence)) as [v Hv]. apply (Hnew _ _ Hv). by rewrite Ee.
Qed.

(** Giving it back. *)
Lemma regs_undo devs cs h i j p c bs z :
  regs devs cs h i j -> (forall e, e ∈ devs -> is_part e -> dev_ctx e <> p) ->
  heap_rep h bs -> held_in devs h bs -> allocated h bs (p - 4) z ->
  regs devs (delete p (<[p := c]> cs)) (kfree p h) i j.
Proof.
  intros [He _ Hn Ha] Hne Hr Hh Hz. destruct (kfree_ctx h bs p z Hr Hz) as (bs' & Hr' & Hkeep). constructor; try done.
  - exists bs'. split; [done|]. intros d Hd Hpt Hc00. destruct (Hh d Hd Hpt Hc00) as [v Hv]. exists v. apply Hkeep; [done|].
    pose proof (Hne d Hd Hpt). lia.
  - intros x d Hx Hd. pose proof (Hn x d Hx Hd) as Hreg. eapply registered_ctxs; [|exact Hreg].
    destruct Hreg as (? & ? & ? & ? & []). assert (dev_ctx d <> p) by (apply Hne; [by eapply list_elem_of_lookup_2|done]).
    by rewrite lookup_delete_ne, lookup_insert_ne.
Qed.

(** A new device. *)
Lemma regs_register devs cs h i j p d par start bs z :
  regs devs cs h i j -> (forall e, e ∈ devs -> is_part e -> dev_ctx e <> p) ->
  heap_rep h bs -> held_in devs h bs -> allocated h bs (p - 4) z -> dev_ctx d = p ->
  from_entry (<[p := mk_ctx i start (dev_block_count d)]> cs) d i (j + 1) i j par start ->
  regs (devs ++ [d]) (<[p := mk_ctx i start (dev_block_count d)]> cs) h i (j + 1).
Proof.
  intros Hregs Hne Hr Hh Hz Ep Hfrom. destruct (regs_next _ _ _ _ _ Hregs) as [[new ->] _ Hn Ha]. constructor.
  - exists (new ++ [d]). by rewrite app_assoc.
  - exists bs. split; [done|]. intros e [He|He%list_elem_of_singleton]%elem_of_app Hpt Hc00; [by apply Hh|]. subst. by exists z.
  - intros x e Hx [Hl|[Hl Hl1]]%lookup_app_Some.
    + pose proof (Hn x e Hx Hl) as Hreg. eapply registered_ctxs; [|exact Hreg]. destruct Hreg as (? & ? & ? & ? & []).
      apply lookup_insert_ne. intros E. apply (Hne e); [by eapply list_elem_of_lookup_2|done|done].
    + destruct (x - _)%nat; [|done]. injection Hl1 as <-. by exists i, j, par, start.
  - intros x y e e' Hx Hl Hl' Hxy Hpt.
    assert (is_part e) as Hpe.
    { apply lookup_app_Some in Hl as [Hl|[_ Hl]]; [by destruct (Hn x e Hx Hl) as (? & ? & ? & ? & [])|].
      destruct (x - _)%nat; [|done]. injection Hl as <-. apply Hfrom. }
    apply lookup_app_Some in Hl as [Hl|[Hlen Hl]]; apply lookup_app_Some in Hl' as [Hl'|[Hlen' Hl']].
    + by eapply Ha.
    + destruct (y - _)%nat eqn:Ey; [|done]. injection Hl' as <-. rewrite Ep. apply (Hne e); [by eapply list_elem_of_lookup_2|done].
    + destruct (x - _)%nat eqn:Ex; [|done]. injection Hl as <-. rewrite Ep. intros E. by apply (Hne e'); [eapply list_elem_of_lookup_2| |].
    + destruct (x - _)%nat eqn:Ex; [|done]. destruct (y - _)%nat eqn:Ey; [|done]. lia.
Qed.

(** A device found under the entry's name is none of the new ones, and its
    context is not theirs. *)
Lemma regs_reuse devs cs h i j par existing c :
  regs devs cs h i j -> 0 <= i -> devs0 !! Z.to_nat i = Some par ->
  find_by_name (dev_name par ++ [112; 49 + j]) devs = Some existing -> is_part existing ->
  regs devs (<[dev_ctx existing := c]> cs) h i j.
Proof.
  intros [He Hh Hn Ha] Hi Hpar (y & Hy & Ename)%find_by_name_Some Hpt. constructor; try done.
  intros x d Hx Hd. pose proof (Hn x d Hx Hd) as Hreg. eapply registered_ctxs; [|exact Hreg]. apply lookup_insert_ne, not_eq_sym.
  destruct (decide (x = y)) as [->|Hxy]; [exfalso|by eapply Ha].
  assert (d = existing) as -> by congruence. destruct Hreg as (i' & j' & par' & start & []).
  rewrite fe_name0 in Ename. apply (app_inj_2 _ _ [112; 49 + j'] [112; 49 + j]) in Ename as [En [= Ej]]; [|done].
  destruct fe_before0 as [? Hb].
  assert (Z.to_nat i' = Z.to_nat i); [|lia].
  apply (NoDup_lookup _ _ _ (dev_name par) names); rewrite list_lookup_fmap, ?fe_parent0, ?Hpar; cbn; congruence.
Qed.

Lemma attach_regs par i j ent s :
  scan_inv s -> regs_at s i j -> 0 <= i -> devs0 !! Z.to_nat i = Some par -> cached_dev par -> (length (dev_name par) < 13)%nat ->
  0 <= lba_start ent -> 0 < lba_count ent -> lba_start ent + lba_count ent <= dev_block_count par < 2 ^ 64 ->
  let s' := (attach_partition par i (dev_name par ++ [112; 49 + j]) ent s).2 in regs_at s' i (j + 1).
Proof.
  intros Hinv Hregs Hi Hpar Hc Hlen Hs0 Hc0 Hrange. unfold attach_partition.
  assert (blockdev_find_by_name (dev_name par ++ [112; 49 + j]) (bdev s) = find_by_name (dev_name par ++ [112; 49 + j]) (devs_of s)) as ->
    by (unfold blockdev_find_by_name; by destruct (dev_name par)).
  destruct (find_by_name _ _) as [existing|] eqn:Ef.
  { destruct (is_set (dev_flags existing) BLOCKDEV_FLAG_PARTITION) eqn:Ept; [|by apply regs_next].
    destruct (dev_ctx existing =? 0); [by apply regs_next|]. by eapply regs_next, regs_reuse. }
  pose proof (regs_alloc _ _ _ _ _ Hregs) as Hal. destruct (kcalloc _ _ (heap s)) as [p hp]. destruct Hal as [Hregs1 Hp].
  destruct (Z.eqb_spec p 0) as [|Hp0]; [by apply regs_next|]. destruct (Hp Hp0) as [Hne (bs & z & Hr & Hh & Hz)].
  set (part := mk_dev _ _ _ _ _ _ _ _). set (b1 := bdev (on_disks _ _)).
  pose proof (register_cases part b1 eq_refl (ready_ctxs _ _ (si_ready _ Hinv))) as Hreg.
  destruct (blockdev_register part b1) as [rc b2]. destruct Hreg as (_ & _ & Ec & Hcase).
  destruct Hcase as [[Hneg ->]|(Hrc & dev' & Ed & Edev)].
  - rewrite (proj2 (Z.ltb_lt _ _)) by done. by eapply regs_next, regs_undo.
  - rewrite (proj2 (Z.ltb_ge _ _)) by (unfold g_count in Hrc; lia).
    change (g_devs (dsk b1)) with (devs_of s) in Ed. change (ctxs (dsk b1)) with (<[p := mk_ctx i (lba_start ent) (lba_count ent)]> (ctxs (dsk (bdev s)))) in Ec.
    assert (dev_block_count dev' = lba_count ent) as Ebc by (by rewrite Edev).
    cbn [snd stat with_bd bdev heap]. rewrite Ed, Ec, <- Ebc.
    eapply (regs_register _ _ _ i j p dev' par (lba_start ent) bs z); [done|done|done|done|done|by rewrite Edev|].
    rewrite Edev. constructor; try done; cbn [dev_name dev_block_count dev_ctx part].
    + split; [done|]. right. lia.
    + apply is_set_lor_partition.
    + apply take_ge. rewrite length_app. simpl. lia.
    + apply lookup_insert_eq.
Qed.

Lemma scan_entry_regs par i sector j found s :
  scan_inv s -> regs_at s i j -> 0 <= i -> devs0 !! Z.to_nat i = Some par -> cached_dev par -> dev_block_count par < 2 ^ 64 ->
  let s' := (scan_entry par i sector j found s).2 in regs_at s' i (j + 1).
Proof.
  intros Hinv Hregs Hi Hpar Hc H64. pose proof (parse_entry_nonneg sector j) as [Hs0 Hc0]. unfold scan_entry.
  destruct (_ || _) eqn:Eskip; [by apply regs_next|]. apply orb_false_elim in Eskip as [_ Hcnt%Z.eqb_neq].
  destruct (Z.ltb_spec (dev_block_count par) (lba_start (parse_entry sector j) + lba_count (parse_entry sector j))); [by apply regs_next|].
  unfold partition_name. destruct (Z.ltb_spec (Z.of_nat (length (take 13 (dev_name par)))) 13) as [Hlen|]; [|by apply regs_next].
  rewrite length_take in Hlen. rewrite take_ge by lia.
  pose proof (attach_regs par i j (parse_entry sector j) (stat c_found s) (stat_inv _ _ Hinv) Hregs Hi Hpar Hc ltac:(lia) Hs0 ltac:(lia) ltac:(lia)) as Ha.
  destruct (attach_partition _ _ _ _ _) as [[r|] s1]; [|done]. unfold mbr_record_partition. by case_match.
Qed.

Lemma scan_entries_regs n par i sector j found s :
  scan_inv s -> regs_at s i j -> 0 <= i -> devs0 !! Z.to_nat i = Some par -> cached_dev par -> dev_block_count par < 2 ^ 64 ->
  let s' := (scan_entries n par i sector j found s).2 in regs_at s' i (j + Z.of_nat n).
Proof.
  intros Hinv Hregs Hi Hpar Hc H64. revert j found s Hinv Hregs. induction n as [|n IH]; intros j found s Hinv Hregs; cbn [scan_entries].
  { cbn [snd]. by rewrite Z.add_0_r. }
  assert (devs_of s !! Z.to_nat i = Some par) as Hd by (destruct Hregs as [[new ->] _ _ _]; by apply lookup_app_l_Some).
  assert (is_set (dev_flags par) BLOCKDEV_FLAG_PARTITION = false) as Hf.
  { destruct Hc as [Hrd Hcache]. unfold blockdev_should_cache in Hcache. rewrite Hrd in Hcache.
    by destruct (is_set (dev_flags par) BLOCKDEV_FLAG_PARTITION). }
  pose proof (scan_entry_inv par i sector j found s Hinv Hi Hd Hf) as H1.
  pose proof (scan_entry_regs par i sector j found s Hinv Hregs Hi Hpar Hc H64) as H2.
  destruct (scan_entry _ _ _ _ _ _) as [f s1]. destruct H1 as [Hs1 _]. cbn [snd] in H2.
  replace (j + Z.of_nat (S n)) with (j + 1 + Z.of_nat n) by lia. by apply IH.
Qed.

Lemma scan_device_regs i s :
  scan_inv s -> regs_at s i 0 -> 0 <= i < Z.of_nat (length devs0) ->
  let s' := (mbr_scan_device i s).2 in regs_at s' (i + 1) 0.
Proof.
  intros Hinv Hregs Hi. assert (forall j s1, regs_at s1 i j -> regs_at s1 (i + 1) 0) as Hnext.
  { intros j s1. apply regs_later. unfold before. lia. }
  unfold mbr_scan_device. destruct (blockdev_get i (bdev s)) as [dev|] eqn:Hd; [|by eapply Hnext].
  destruct (get_dev i (bdev s) dev (proj1 Hi) Hd) as (_ & _ & Hl).
  assert (devs0 !! Z.to_nat i = Some dev) as Hpar.
  { destruct Hregs as [[new E] _ _ _]. rewrite E in Hl. by rewrite lookup_app_l in Hl by lia. }
  unfold mbr_is_partition_device. destruct (is_set (dev_flags dev) BLOCKDEV_FLAG_PARTITION) eqn:Hf; [by eapply Hnext|].
  destruct (is_set _ BLOCKDEV_FLAG_ATAPI); [by eapply Hnext|].
  destruct (Z.eqb_spec (dev_block_size dev) 512) as [Hbs|]; cbn [negb]; [|by eapply Hnext].
  destruct (Z.ltb_spec (dev_block_count dev) 2); [by eapply Hnext|].
  pose proof (scan_read (stat c_devices_scanned s) i dev ltac:(destruct Hinv; by split) ltac:(lia) Hd Hf Hbs ltac:(lia)) as Hread.
  destruct (si_table _ Hinv dev (list_elem_of_lookup_2 _ _ _ Hl) Hf) as [Hrd H64].
  destruct (bd_read _ _ _ _ _) as [rc b]. destruct Hread as (Hr & Ed & Ep & Ec & _ & _).
  assert (scan_inv (with_bd b (stat c_devices_scanned s))) as Hs1.
  { destruct Hinv. constructor; simpl; rewrite ?Ed; try done; [by rewrite Ep|unfold g_part_count in *; simpl; by rewrite Ep]. }
  assert (regs_at (with_bd b (stat c_devices_scanned s)) i 0) as Hregs1 by (cbn [bdev with_bd heap stat]; by rewrite Ed, Ec).
  destruct (rc <? 0); [by eapply Hnext|]. destruct (_ || _); [by eapply Hnext|].
  eapply Hnext, scan_entries_regs; [done|done|lia|done| |done].
  split; [done|]. unfold blockdev_should_cache. by rewrite Hrd, Hf, Hbs.
Qed.

Lemma scan_devices_regs n i found s :
  scan_inv s -> regs_at s i 0 -> 0 <= i -> i + Z.of_nat n <= Z.of_nat (length devs0) ->
  let s' := (scan_devices n i found s).2 in regs_at s' (i + Z.of_nat n) 0.
Proof.
  revert i found s. induction n as [|n IH]; intros i found s Hinv Hregs Hi Hn; cbn [scan_devices].
  { cbn [snd]. by rewrite Z.add_0_r. }
  pose proof (scan_device_inv i (stat c_devices_seen s) (stat_inv _ _ Hinv) Hi) as H1.
  pose proof (scan_device_regs i (stat c_devices_seen s) (stat_inv _ _ Hinv) Hregs ltac:(lia)) as H2.
  destruct (mbr_scan_device _ _) as [f s1]. destruct H1 as [Hs1 _]. cbn [snd] in H2.
  replace (i + Z.of_nat (S n)) with (i + 1 + Z.of_nat n) by lia. apply IH; [done|done|lia|lia].
Qed.

(** A registered device is one the block layer's theorem on partitions is
    about ([BlockDevSpec.partition_io_correct]). *)
Lemma registered_part_ok k x d i j :
  (exists new, g_devs k = devs0 ++ new) -> g_devs k !! x = Some d -> registered (ctxs k) d i j ->
  exists c, part_ok k (Z.of_nat x) c /\ block_count c = dev_block_count d /\ 0 < dev_block_count d.
Proof.
  intros [new E] Hx (i' & j' & par & start & []).
  assert (dev_of (g_devs k) (Z.of_nat x) = d) as Ed by (unfold dev_of; rewrite Nat2Z.id; by apply list_lookup_total_correct).
  destruct fe_before0 as [Hi' _].
  assert (dev_of (g_devs k) i' = par) as Epar by (unfold dev_of; apply list_lookup_total_correct; rewrite E; by apply lookup_app_l_Some).
  exists (mk_ctx i' start (dev_block_count d)). split; [|done].
  constructor; cbn [parent_index start_lba]; rewrite ?Ed, ?Epar; try done.
  apply lookup_lt_Some in fe_parent0. split; [done|]. rewrite E, length_app. lia.
Qed.
End registrations.

(** C12: A scan of all devices, whatever the sectors hold and whichever reads
    fail, keeps the block layer consistent, keeps every existing device, and
    records at most 16 partitions, each of which lies inside the whole-disk
    device it names as its parent. When device names are distinct and the
    contexts of the partition devices there are blocks of the heap (every
    registration keeps both so), each device the scan registers lies on its
    parent too: by its size and by the context its transfers go through, its
    sectors are sectors of a whole disk. A device of the same name that was
    there before the scan keeps its old size ([rescan_keeps_stale_size]). *)
Theorem mbr_scan_all_in_bounds s :
  scan_ready s ->
  let '(_, s') := mbr_scan_all s in
  ready (bdev s') /\ extends s s' /\ mbr_partition_count s' <= 16 /\
  (forall j info, mbr_partition_get j s' = Some info -> info_ok (devs_of s') info) /\
  (NoDup (map dev_name (devs_of s)) -> contexts_held s ->
   forall x d, (length (devs_of s) <= x)%nat -> devs_of s' !! x = Some d ->
     exists c, part_ok (dsk (bdev s')) (Z.of_nat x) c /\ block_count c = dev_block_count d /\ 0 < dev_block_count d).
Proof.
  intros [Hr Ht]. unfold mbr_scan_all.
  assert (scan_inv (mbr_initialize s)) as Hi by (constructor; simpl; [by apply ready_parts|done|done|done]).
  pose proof (scan_devices_inv (Z.to_nat (blockdev_count (bdev (mbr_initialize s)))) 0 0 _ Hi ltac:(lia)) as H1.
  assert (NoDup (map dev_name (devs_of s)) -> contexts_held s ->
    let s' := (scan_devices (Z.to_nat (blockdev_count (bdev (mbr_initialize s)))) 0 0 (mbr_initialize s)).2 in
    regs (devs_of s) (devs_of s') (ctxs (dsk (bdev s'))) (heap s') (Z.of_nat (length (devs_of s))) 0) as H2.
  { intros Hn Hh. unfold blockdev_count, g_count. change (g_devs (dsk (bdev (mbr_initialize s)))) with (devs_of s). rewrite Nat2Z.id.
    apply (scan_devices_regs _ Hn (length (devs_of s)) 0); [done| |lia|lia].
    constructor; [by exists []; rewrite app_nil_r|done| |].
    - intros x d Hx Hd%lookup_lt_Some. change (g_devs (dsk (bdev (mbr_initialize s)))) with (devs_of s) in Hd. lia.
    - intros x y d e Hx Hd%lookup_lt_Some. change (g_devs (dsk (bdev (mbr_initialize s)))) with (devs_of s) in Hd. lia. }
  destruct (scan_devices _ _ _ _) as [f s']. destruct H1 as [[Hr' Ht' Hp' Hc'] He].
  split_and!; [done|done|done| |].
  - intros j info. unfold mbr_partition_get. destruct (_ <=? _); [done|]. intros Hl.
    rewrite Forall_lookup in Hp'. by eapply Hp'.
  - intros Hn Hh x d Hx Hd. destruct (H2 Hn Hh) as [[new E] _ Hnew _]. exact (registered_part_ok (devs_of s) (dsk (bdev s')) x d _ _ (ex_intro _ new E) Hd (Hnew x d Hx Hd)).
Qed.

(** ** Creating a table and scanning it *)

Lemma kcalloc_ctx_some h bs blk :
  heap_rep h bs -> blk ∈ bs -> blk.2 = false -> 32 <= blk.1 -> (kcalloc 1 SIZEOF_PARTITION_CTX h).1 <> 0.
Proof.
  intros Hr Hin Hfree Hsz. unfold kcalloc. change (u32 (1 * SIZEOF_PARTITION_CTX)) with 20.
  change (negb (1 =? 0) && ((2 ^ 32 - 1) / 1 <? SIZEOF_PARTITION_CTX)) with false. cbv iota zeta.
  destruct (kmalloc_cases h bs 20 Hr ltac:(lia)) as [[-> Hno]|(pre & sz & post & s' & -> & _ & -> & _)].
  - specialize (Hno blk Hin Hfree). change (alloc_total 20) with 32 in Hno. lia.
  - pose proof (hr_tags _ _ Hr) as [[Hpre%span_nonneg _]%Forall_app _]. pose proof (hr_base _ _ Hr).
    rewrite (proj2 (Z.eqb_neq _ _)) by lia. simpl. lia.
Qed.

Record fresh_disk s (i : Z) (dev : block_device) : Prop := {
  fd_ready : scan_ready s;
  fd_index : 0 <= i;
  fd_get : blockdev_get i (bdev s) = Some dev;
  fd_write : dev_write dev = Some fn_hw;
  fd_flags : dev_flags dev = 0;
  fd_block : dev_block_size dev = 512;
  fd_count : 2049 < dev_block_count dev < 2 ^ 32;
  fd_name : (length (dev_name dev) < 13)%nat;
  fd_new : find_by_name (dev_name dev ++ [112; 49]) (devs_of s) = None;
  fd_room : g_count (bdev s) < 16;
  fd_parts : g_part_count s < 16;
  fd_heap : exists bs blk, heap_rep (heap s) bs /\ blk ∈ bs /\ blk.2 = false /\ 32 <= blk.1;
}.

(** The partition that the scan of a freshly written table attaches. *)
Definition attached s (i : Z) (dev : block_device) s' : Prop :=
  let part := g_count (bdev s) in
  ready (bdev s') /\
  part_ok (dsk (bdev s')) part (mk_ctx i 2048 (dev_block_count dev - 2048)) /\
  dev_name (dev_of (devs_of s') part) = dev_name dev ++ [112; 49] /\
  dev_block_count (dev_of (devs_of s') part) = dev_block_count dev - 2048 /\
  dev_write (dev_of (devs_of s') part) = Some fn_mbr_partition.

Lemma attach_fresh s i dev ptype :
  fresh_disk s i dev ->
  let ent := mk_pent (table_type ptype) 2048 (dev_block_count dev - 2048) in
  exists s', attach_partition dev i (dev_name dev ++ [112; 49]) ent s = (Some (g_count (bdev s)), s') /\
    attached s i dev s' /\ g_parts (dsk (bdev s')) = g_parts (dsk (bdev s)).
Proof.
  intros [] ent. destruct fd_ready0 as [Hr Ht]. destruct (get_dev _ _ _ fd_index0 fd_get0) as (Hin & Ed & Hlk).
  destruct (Ht dev (list_elem_of_lookup_2 _ _ _ Hlk) ltac:(by rewrite fd_flags0)) as [Hrd _].
  destruct fd_heap0 as (bs & blk & Hh & Hb1 & Hb2 & Hb3). pose proof (kcalloc_ctx_some _ _ _ Hh Hb1 Hb2 Hb3) as Hk.
  unfold attach_partition.
  assert (blockdev_find_by_name (dev_name dev ++ [112; 49]) (bdev s) = None) as ->
    by (unfold blockdev_find_by_name; by destruct (dev_name dev)).
  destruct (kcalloc _ _ _) as [p hp]. simpl in Hk. rewrite (proj2 (Z.eqb_neq _ _) Hk).
  assert (take 15 (dev_name dev ++ [112; 49]) = dev_name dev ++ [112; 49]) as ->
    by (apply take_ge; rewrite length_app; simpl; lia).
  rewrite fd_flags0. change (Z.lor (Z.land 0 BLOCKDEV_FLAG_READONLY) BLOCKDEV_FLAG_PARTITION) with BLOCKDEV_FLAG_PARTITION.
  set (part := mk_dev _ _ _ _ _ _ _ _). set (b1 := bdev (on_disks _ _)).
  assert (find_by_name (dev_name part) (g_devs (dsk b1)) = None) as Hnew by done.
  pose proof (register_cases part b1 eq_refl (ready_ctxs _ _ Hr)) as Hreg.
  assert (blockdev_register part b1 = (g_count b1, (blockdev_register part b1).2)) as Erc.
  { unfold blockdev_register. change (dev_read part) with (Some fn_mbr_partition). rewrite Hnew.
    rewrite (proj2 (Z.leb_gt _ _)) by (unfold BLOCKDEV_MAX; exact fd_room0). done. }
  rewrite Erc in Hreg |- *. destruct (blockdev_register part b1) as [rc0 b2]. simpl snd in *.
  destruct Hreg as (Hr2 & Ep & Ec & Hcase). change (g_count b1) with (g_count (bdev s)) in *.
  assert (0 <= g_count (bdev s)) by (unfold g_count; lia).
  rewrite (proj2 (Z.ltb_ge _ _)) by lia. eexists. split; [done|].
  destruct Hcase as [[? _]|(_ & dev' & Ed' & Edev)]; [lia|]. split; [|exact Ep]. change (g_devs (dsk b1)) with (devs_of s) in Ed'.
  assert (dev_of (g_devs (dsk b2)) (g_count (bdev s)) = dev') as Hlast.
  { unfold dev_of, g_count. rewrite Ed', Nat2Z.id, lookup_total_app_r, Nat.sub_diag by lia. done. }
  assert (dev_of (g_devs (dsk b2)) i = dev) as Hpar by (by rewrite Ed', dev_of_app).
  unfold attached. cbn [bdev stat with_bd dsk]. rewrite Hlast. subst dev'. split_and!; try done.
  constructor; rewrite ?Hlast; cbn [parent_index start_lba]; rewrite ?Hpar; try done.
  - rewrite Ec. apply lookup_insert_eq.
  - destruct Hin. split; [done|]. rewrite Ed', length_app. lia.
  - split; [done|]. unfold blockdev_should_cache. by rewrite Hrd, fd_flags0, fd_block0.
  - change (dev_block_count _) with (dev_block_count dev - 2048) at 1. lia.
Qed.

Lemma create_writes s i dev ptype :
  fresh_disk s i dev ->
  let '(rc, s1) := mbr_create_single_partition i ptype s in
  rc <= 0 /\ fresh_disk s1 i dev /\ g_count (bdev s1) = g_count (bdev s) /\
  (rc = 0 -> view (dsk (bdev s1)) i 0 = fresh_table ptype (dev_block_count dev)).
Proof.
  intros Hfd. pose proof Hfd as []. destruct fd_ready0 as [Hr Ht].
  destruct (get_dev _ _ _ fd_index0 fd_get0) as (Hin & Ed & Hlk).
  destruct (Ht dev (list_elem_of_lookup_2 _ _ _ Hlk) ltac:(by rewrite fd_flags0)) as [Hrd _].
  unfold mbr_create_single_partition, mbr_is_partition_device. rewrite fd_get0, fd_flags0, fd_block0.
  change (is_set 0 BLOCKDEV_FLAG_PARTITION) with false.
  change (is_set 0 (Z.lor BLOCKDEV_FLAG_READONLY BLOCKDEV_FLAG_ATAPI)) with false.
  change (negb (512 =? 512)) with false. unfold MBR_TRACK_ALIGN_LBA. zbool.
  set (t := fresh_table ptype (dev_block_count dev)). set (b0 := with_sector t (bdev s)).
  assert (length t = 512%nat) as Hlt by apply length_fresh_table.
  assert (cached_dev (dev_of (g_devs (dsk b0)) i)) as Hc.
  { simpl. rewrite Ed. split; [done|]. unfold blockdev_should_cache. by rewrite Hrd, fd_flags0, fd_block0. }
  pose proof (write_sync (drv NESTING false) _ (drv_write_hw NESTING) b0 i 0 1 SECTOR t
    (ready_buffers _ _ Hr) (sector_io i t _ dev fd_index0 fd_get0 ltac:(lia) Hlt) Hc
    ltac:(simpl; by rewrite Ed) ltac:(simpl; by rewrite Ed, fd_flags0)) as Hw.
  unfold bd_write. destruct (blockdev_write _ _ _ _ _ _ _) as [rc b].
  destruct Hw as (Hid & _ & Hrc & m & Hm & Hm0 & (Hwf & Edv & Ec & Ep & _ & _ & Hv)). simpl dsk in *.
  split_and!; [done| | |].
  - constructor; simpl; try done.
    + split; [by split|]. unfold table_ok. simpl. by rewrite Edv.
    + unfold blockdev_get, g_count, dev_at in *. rewrite Edv. exact fd_get0.
    + by rewrite Edv.
    + unfold g_count in *. simpl. by rewrite Edv.
    + unfold g_part_count in *. simpl. by rewrite Ep.
  - unfold g_count. simpl. by rewrite Edv.
  - intros E. rewrite (Hv i 0) by (split; [done|apply Hc]). rewrite (Hm0 E), !Z.eqb_refl. simpl.
    unfold slice. change (Z.to_nat ((0 - 0) * 512)) with 0%nat. rewrite drop_0. apply take_ge. lia.
Qed.

(** Creating a single-partition table on a disk and scanning that disk
    gives back the partition: unless the driver fails, the scan finds exactly
    one partition and registers a device that covers the disk from sector
    2048 to its end, with a context whose sectors map to the parent's. *)
Theorem create_then_scan s i dev ptype :
  fresh_disk s i dev -> 0 <= ptype < 256 ->
  let '(rc, s1) := mbr_create_single_partition i ptype s in
  rc = 0 ->
  let '(found, s2) := mbr_scan_device i s1 in
  (found = 0 /\ read_errors (g_scan_stats s2) = u32 (read_errors (g_scan_stats s1) + 1)) \/
  (found = 1 /\ attached s i dev s2 /\
   last (g_parts (dsk (bdev s2))) =
     Some (mk_info (dev_name dev ++ [112; 49]) (g_count (bdev s)) i 1 (table_type ptype) 2048
             (dev_block_count dev - 2048))).
Proof.
  intros Hfd Hty. pose proof (create_writes s i dev ptype Hfd) as Hcr.
  destruct (mbr_create_single_partition _ _ _) as [rc s1]. destruct Hcr as (_ & Hfd1 & Egc & Hview).
  intros Hrc. specialize (Hview Hrc). clear Hfd. pose proof Hfd1 as [].
  unfold mbr_scan_device, mbr_is_partition_device. rewrite fd_get0, fd_flags0, fd_block0.
  change (is_set 0 BLOCKDEV_FLAG_PARTITION) with false. change (is_set 0 BLOCKDEV_FLAG_ATAPI) with false.
  change (negb (512 =? 512)) with false. zbool. set (sc := stat c_devices_scanned s1).
  pose proof (scan_read sc i dev fd_ready0 fd_index0 fd_get0 ltac:(by rewrite fd_flags0) fd_block0 ltac:(lia)) as Hread.
  destruct (bd_read _ _ _ _ _) as [rc2 b]. destruct Hread as (Hr & Ed & Ep & Ec & Hrc2 & Hsec).
  destruct (Z.ltb_spec rc2 0); [by left|]. rewrite Hsec by lia. change (bdev sc) with (bdev s1).
  rewrite Hview. destruct (parse_fresh_table ptype (dev_block_count dev) ltac:(lia) Hty) as (P0 & Pi & S1 & S2).
  rewrite S1, S2. change (negb (default 0 (Some 85) =? 85) || negb (default 0 (Some 170) =? 170)) with false. cbv iota.
  set (s3 := with_bd b sc).
  assert (fresh_disk s3 i dev) as Hfd3.
  { constructor; simpl; rewrite ?Ed; try done.
    - split; [done|]. unfold table_ok. simpl. rewrite Ed. apply fd_ready0.
    - unfold blockdev_get, g_count, dev_at in *. rewrite Ed. exact fd_get0.
    - unfold g_count in *. simpl. by rewrite Ed.
    - unfold g_part_count in *. simpl. by rewrite Ep. }
  assert (g_count (bdev s3) = g_count (bdev s)) as Egc3 by (rewrite <- Egc; unfold g_count; simpl; by rewrite Ed).
  destruct (attach_fresh (stat c_found s3) i dev ptype ltac:(destruct Hfd3; by constructor)) as (s4 & Ha & Hat & Ep4).
  change MBR_MAX_PARTITIONS with 4%nat. cbn [scan_entries]. unfold scan_entry at 1. rewrite P0.
  cbn [pent_type lba_start lba_count].
  assert (table_type ptype <> 0) as Ht0 by (unfold table_type; case_match; bool_to_prop; lia). zbool. cbn [orb].
  assert (partition_name (dev_name dev) 0 = Some (dev_name dev ++ [112; 49])) as ->.
  { unfold partition_name. rewrite take_ge by lia. by rewrite (proj2 (Z.ltb_lt _ _)) by lia. }
  rewrite Ha. cbv iota beta. unfold scan_entry.
  replace (0 + 1) with 1 by lia. replace (1 + 1) with 2 by lia. replace (2 + 1) with 3 by lia. rewrite !Pi by lia. cbn [pent_type lba_count].
  change ((0 =? 0) || (0 =? 0)) with true. cbv iota. right. split; [done|].
  change (g_count (bdev (stat c_found s3))) with (g_count (bdev s3)) in *. rewrite Egc3 in *.
  change (u8 1) with 1.
  assert (take 15 (dev_name dev ++ [112; 49]) = dev_name dev ++ [112; 49]) as ->
    by (apply take_ge; rewrite length_app; simpl; lia).
  unfold mbr_record_partition. rewrite (proj2 (Z.leb_gt _ _)).
  2: { destruct Hfd3. unfold g_part_count, MBR_INFO_MAX in *. by rewrite Ep4. }
  split; [|simpl; by rewrite last_snoc].
  unfold attached in Hat |- *. change (g_count (bdev (stat c_found s3))) with (g_count (bdev s3)) in Hat. rewrite Egc3 in Hat.
  destruct Hat as (Hr4 & Hpo & Hn4 & Hc4 & Hw4).
  split; [by apply ready_parts|]. split; [by destruct Hpo|]. exact (conj Hn4 (conj Hc4 Hw4)).
Qed.

(** Rescanning a partition that already has a device updates the device's
    context but not its block count: when the new table entry is smaller, the
    device still accepts reads past the end of the partition. *)
Theorem rescan_keeps_stale_size dev i pname ent existing h s :
  blockdev_find_by_name pname (bdev s) = Some existing ->
  is_set (dev_flags existing) BLOCKDEV_FLAG_PARTITION = true -> dev_ctx existing <> 0 ->
  dev_read existing = Some fn_mbr_partition ->
  0 <= dev_id existing -> devs_of s !! Z.to_nat (dev_id existing) = Some existing ->
  0 <= lba_count ent < dev_block_count existing ->
  let '(r, s') := attach_partition dev i pname ent s in
  r = Some (dev_id existing) /\
  ctxs (dsk (bdev s')) !! dev_ctx existing = Some (mk_ctx i (lba_start ent) (lba_count ent)) /\
  blockdev_validate_request
    (mk_req BLOCKDEV_REQ_READ (dev_id existing) (lba_count ent) 1 (Some (buf_mem h)) false None) (bdev s') = 0.
Proof.
  intros Hf Hp Hc Hr Hid Hl Hcnt. unfold attach_partition. rewrite Hf, Hp, (proj2 (Z.eqb_neq _ _) Hc). cbn [negb andb].
  split_and!; [done|apply lookup_insert_eq|].
  pose proof (lookup_lt_Some _ _ _ Hl). apply list_lookup_total_correct in Hl.
  unfold blockdev_validate_request, g_count, dev_at. cbn [bdev stat with_bd on_disks on_dsk dsk g_devs set_ctxs
    req_dev req_count req_buffer req_lba op]. rewrite Hl, Hr.
  change (BLOCKDEV_REQ_READ =? BLOCKDEV_REQ_FLUSH) with false. change (BLOCKDEV_REQ_READ =? BLOCKDEV_REQ_READ) with true.
  zbool. done.
Qed.
End spec.

(** ** A machine with one blank disk *)

Definition one_disk : bd := (blockdev_register demo_disk (blockdev_initialize blank)).2.
Definition machine : mbr := mk_mbr one_disk boot_heap no_stats.

Lemma one_disk_ready : ready one_disk.
Proof.
  destruct (register_ready demo_disk (blockdev_initialize blank)) as (s1 & E1 & H1);
    [by apply initialize_ready|done|done|done| |].
  { split; [by right|]. intros i [[? Hlt] _]. simpl in Hlt. lia. }
  unfold one_disk. by rewrite E1.
Qed.

Lemma machine_scan_ready : scan_ready machine.
Proof.
  split; [apply one_disk_ready|]. intros d Hd%list_elem_of_singleton. by subst.
Qed.

Lemma machine_fresh : fresh_disk machine 0 demo_disk.
Proof.
  constructor; try done; [apply machine_scan_ready|simpl; lia|].
  exists [(paging_heap_size, false)], (paging_heap_size, false). split_and!; [apply boot_heap_rep|by left|done|done].
Qed.

(** The blank disk with a partition table written to it. *)
Definition partitioned : mbr := (mbr_create_single_partition 0 0 machine).2.
Lemma partitioned_ready : scan_ready partitioned.
Proof.
  pose proof (create_writes machine 0 demo_disk 0 machine_fresh) as H. unfold partitioned.
  destruct (mbr_create_single_partition 0 0 machine) as [rc s1]. apply (fd_ready _ _ _ (proj1 (proj2 H))).
Qed.

(** The scan registers the partition as device 1. *)
Lemma mbr_scan_all_in_bounds_witness :
  exists s' c, mbr_scan_all partitioned = (1, s') /\ ready (bdev s') /\ mbr_partition_count s' = 1 /\
    part_ok (dsk (bdev s')) 1 c /\ start_lba c = 2048 /\ block_count c = 2048.
Proof.
  pose proof (mbr_scan_all_in_bounds partitioned partitioned_ready) as H.
  assert (let r := mbr_scan_all partitioned in
    r.1 = 1 /\ mbr_partition_count r.2 = 1 /\
    (exists d, g_devs (dsk (bdev r.2)) !! 1%nat = Some d /\ ctxs (dsk (bdev r.2)) !! dev_ctx d = Some (mk_ctx 0 2048 2048))) as E.
  { split; [vm_compute; reflexivity|]. split; [vm_compute; reflexivity|]. eexists. split; vm_compute; reflexivity. }
  destruct (mbr_scan_all partitioned) as [f s']. cbn [fst snd] in E. destruct E as (-> & En & d & Hd & Hc).
  destruct H as (Hr & _ & _ & _ & Hreg).
  assert (g_devs (dsk (bdev partitioned)) = [demo_disk]) as Edv by (vm_compute; reflexivity).
  assert (contexts_held partitioned) as Hheld.
  { exists [(paging_heap_size, false)]. split; [exact boot_heap_rep|]. intros e He Hpt. rewrite Edv in He.
    apply list_elem_of_singleton in He as ->. done. }
  destruct (Hreg ltac:(rewrite Edv; apply NoDup_singleton) Hheld 1%nat d ltac:(by rewrite Edv) Hd) as (c & Hp & _ & _).
  assert (c = mk_ctx 0 2048 2048) as ->.
  { pose proof (po_ctx _ _ _ Hp) as Ec. assert (dev_of (g_devs (dsk (bdev s'))) (Z.of_nat 1) = d) as Ed by (unfold dev_of; by apply list_lookup_total_correct).
    rewrite Ed in Ec. congruence. }
  exists s', (mk_ctx 0 2048 2048).
  split; [reflexivity|]. split; [exact Hr|]. split; [exact En|]. split; [exact Hp|]. split; reflexivity.
Defined.

Lemma create_then_scan_witness :
  exists s1 s2, mbr_create_single_partition 0 0 machine = (0, s1) /\
    mbr_scan_device 0 s1 = (1, s2) /\ attached machine 0 demo_disk s2.
Proof.
  pose proof (create_then_scan machine 0 demo_disk 0 machine_fresh ltac:(lia)) as H.
  assert ((mbr_create_single_partition 0 0 machine).1 = 0) as E by (vm_compute; reflexivity).
  assert ((mbr_scan_device 0 (mbr_create_single_partition 0 0 machine).2).1 = 1) as E2 by (vm_compute; reflexivity).
  destruct (mbr_create_single_partition 0 0 machine) as [rc s1]. cbn [fst snd] in *. subst rc.
  specialize (H eq_refl). destruct (mbr_scan_device 0 s1) as [f s2] eqn:E3. cbn [fst] in E2. subst f.
  exists s1, s2. split_and!; [done|exact E3|]. by destruct H as [[? _]|(_ & ? & _)].
Defined.

Lemma rescan_keeps_stale_size_witness :
  blockdev_validate_request (mk_req BLOCKDEV_REQ_READ 1 10 1 (Some (buf_mem 5)) false None)
    (bdev (attach_partition demo_disk 0 (dev_name demo_part) (mk_pent 0x83 2048 10)
             (mk_mbr demo boot_heap no_stats)).2) = 0.
Proof.
  pose proof (rescan_keeps_stale_size demo_disk 0 (dev_name demo_part) (mk_pent 0x83 2048 10) demo_part 5
    (mk_mbr demo boot_heap no_stats) eq_refl eq_refl ltac:(done) eq_refl ltac:(done) eq_refl ltac:(simpl; lia)) as H.
  destruct (attach_partition _ _ _ _ _) as [r s']. apply H.
Defined.

End MbrSpec.
