(* ===== verification/CString.v ===== *)
(** * C strings ([libc/string])

    The string and memory routines of the C library over byte memory.
    [Module CString] translates the code; a [while] loop that runs to the
    terminating NUL takes fuel, and the theorems give the fuel that is enough
    (one more than the length of the string). [Module CStringSpec] relates
    the routines to operations on lists of bytes: [cstr m p l] says that the
    memory holds the string [l] at [p]. Pointers do not wrap: an object lies
    inside the address space. *)

From S2P Require Import Prelude Mem.

Module CString.
Import Mem.

Fixpoint memcmp (m : mem) (p1 p2 : Z) (num : nat) : Z :=
  match num with
  | O => 0
  | S n =>
      if negb (ld8 m p1 =? ld8 m p2) then ld8 m p1 - ld8 m p2
      else memcmp m (p1 + 1) (p2 + 1) n
  end.

Fixpoint strcmp (fuel : nat) (m : mem) (str1 str2 : Z) : Z :=
  match fuel with
  | O => 0
  | S fuel =>
      if negb (ld8 m str1 =? 0) && (ld8 m str1 =? ld8 m str2) then strcmp fuel m (str1 + 1) (str2 + 1)
      else ld8 m str1 - ld8 m str2
  end.

Fixpoint strncmp (m : mem) (str1 str2 : Z) (num : nat) : Z :=
  match num with
  | O => 0
  | S n =>
      if negb (ld8 m str1 =? ld8 m str2) then ld8 m str1 - ld8 m str2
      else if ld8 m str1 =? 0 then 0
      else strncmp m (str1 + 1) (str2 + 1) n
  end.

(** [for (i = num; i > 0; i--) dest[i-1] = src[i-1]]. *)
Fixpoint copy_backward (m : mem) (d s : Z) (n : nat) : mem :=
  match n with
  | O => m
  | S n => copy_backward (st8 m (d + Z.of_nat n) (ld8 m (s + Z.of_nat n))) d s n
  end.

Definition memmove (m : mem) (d s : Z) (n : nat) : mem :=
  if d <? s then memcpy m d s n
  else if s <? d then copy_backward m d s n
  else m.

Fixpoint strlen_from (fuel : nat) (m : mem) (str len : Z) : Z :=
  match fuel with
  | O => len
  | S fuel => if ld8 m (str + len) =? 0 then len else strlen_from fuel m str (u32 (len + 1))
  end.
Definition strlen (fuel : nat) (m : mem) (str : Z) : Z := strlen_from fuel m str 0.

(** Copy up to and including the terminating NUL. *)
Fixpoint strcpy (fuel : nat) (m : mem) (d s : Z) : mem :=
  match fuel with
  | O => m
  | S fuel =>
      if ld8 m s =? 0 then st8 m d 0
      else strcpy fuel (st8 m d (ld8 m s)) (d + 1) (s + 1)
  end.

(** Both loops of [strncpy]: copy, then pad. *)
Fixpoint strncpy (m : mem) (d s : Z) (num : nat) : mem :=
  match num with
  | O => m
  | S n => if ld8 m s =? 0 then memset m d 0 (S n) else strncpy (st8 m d (ld8 m s)) (d + 1) (s + 1) n
  end.

(** First [while] of [strcat]: the end of a string. *)
Fixpoint string_end (fuel : nat) (m : mem) (p : Z) : Z :=
  match fuel with
  | O => p
  | S fuel => if ld8 m p =? 0 then p else string_end fuel m (p + 1)
  end.

Definition strcat (fuel : nat) (m : mem) (d s : Z) : mem := strcpy fuel m (string_end fuel m d) s.

(** The loop and the terminator of [strncat] at the end of the destination. *)
Fixpoint strncat_at (m : mem) (d s : Z) (num : nat) : mem :=
  match num with
  | O => st8 m d 0
  | S n => if ld8 m s =? 0 then st8 m d 0 else strncat_at (st8 m d (ld8 m s)) (d + 1) (s + 1) n
  end.
Definition strncat (fuel : nat) (m : mem) (d s : Z) (num : nat) : mem :=
  strncat_at m (d + strlen fuel m d) s num.

(** Pointers are returned as addresses, 0 for [NULL]. *)
Fixpoint strchr (fuel : nat) (m : mem) (str character : Z) : Z :=
  match fuel with
  | O => 0
  | S fuel =>
      if negb (ld8 m str =? 0) then
        if ld8 m str =? u8 character then str else strchr fuel m (str + 1) character
      else if u8 character =? 0 then str else 0
  end.

Fixpoint strrchr_from (fuel : nat) (m : mem) (str character last_occurrence : Z) : Z :=
  match fuel with
  | O => 0
  | S fuel =>
      if negb (ld8 m str =? 0) then
        strrchr_from fuel m (str + 1) character (if ld8 m str =? u8 character then str else last_occurrence)
      else if u8 character =? 0 then str else last_occurrence
  end.
Definition strrchr (fuel : nat) (m : mem) (str character : Z) : Z := strrchr_from fuel m str character 0.

Fixpoint strpbrk (fuel : nat) (m : mem) (str accept : Z) : Z :=
  match fuel with
  | O => 0
  | S n =>
      if ld8 m str =? 0 then 0
      else if negb (strchr fuel m accept (ld8 m str) =? 0) then str
      else strpbrk n m (str + 1) accept
  end.

Fixpoint strstr_from (fuel : nat) (m : mem) (haystack needle needle_len : Z) : Z :=
  match fuel with
  | O => 0
  | S fuel =>
      if ld8 m haystack =? 0 then 0
      else if (ld8 m haystack =? ld8 m needle) && (strncmp m haystack needle (Z.to_nat needle_len) =? 0) then haystack
      else strstr_from fuel m (haystack + 1) needle needle_len
  end.
Definition strstr (fuel : nat) (m : mem) (haystack needle : Z) : Z :=
  if ld8 m needle =? 0 then haystack
  else strstr_from fuel m haystack needle (strlen fuel m needle).

(** [strspn] stops at the first character not in the set, [strcspn] at the
    first one in it. *)
Fixpoint span_from (fuel inner : nat) (m : mem) (stop : bool -> bool) (str set count : Z) : Z :=
  match fuel with
  | O => count
  | S fuel =>
      if ld8 m (str + count) =? 0 then count
      else if stop (negb (strchr inner m set (ld8 m (str + count)) =? 0)) then count
      else span_from fuel inner m stop str set (u32 (count + 1))
  end.
Definition strspn (fuel : nat) (m : mem) (str accept : Z) : Z := span_from fuel fuel m negb str accept 0.
Definition strcspn (fuel : nat) (m : mem) (str reject : Z) : Z := span_from fuel fuel m (fun b => b) str reject 0.

End CString.

Module CStringSpec.
Import Mem CString.

(** ** Strings in memory *)

(** The characters of a string: bytes other than NUL. *)
Definition is_char (c : Z) : Prop := 0 < c < 256.

Fixpoint bytes_at (m : mem) (p : Z) (l : list Z) : Prop :=
  match l with
  | [] => True
  | b :: l => ld8 m p = b /\ bytes_at m (p + 1) l
  end.

Definition cstr (m : mem) (p : Z) (l : list Z) : Prop :=
  Forall is_char l /\ bytes_at m p (l ++ [0]).

Lemma cstr_nil m p : cstr m p [] -> ld8 m p = 0.
Proof. by intros [_ [? _]]. Qed.

Lemma cstr_cons m p c l : cstr m p (c :: l) -> is_char c /\ ld8 m p = c /\ cstr m (p + 1) l.
Proof. intros [[Hc Hl]%Forall_cons [He Hb]]. by split_and!. Qed.

(** Case analysis on a string in memory: its first byte decides. *)
Ltac cstr_case H :=
  match type of H with
  | cstr _ _ [] => pose proof (cstr_nil _ _ H)
  | cstr _ _ (_ :: _) => let Hc := fresh "Hc" in let He := fresh "He" in let Ht := fresh "Ht" in
      destruct (cstr_cons _ _ _ _ H) as (Hc & He & Ht); unfold is_char in Hc
  end.

Lemma bytes_at_lookup m p l (i : nat) b : bytes_at m p l -> l !! i = Some b -> ld8 m (p + Z.of_nat i) = b.
Proof.
  revert p i. induction l as [|x l IH]; intros p i Hb Hl; [done|]. destruct Hb as [Hx Hb].
  destruct i as [|i]; simpl in Hl; [rewrite Z.add_0_r; congruence|].
  rewrite <- (IH (p + 1) i) by done. f_equal. lia.
Qed.

(** ** [memmove] *)

Lemma copy_backward_ne m d s n b : b < d \/ d + Z.of_nat n <= b -> ld8 (copy_backward m d s n) b = ld8 m b.
Proof.
  revert m. induction n as [|n IH]; intros m Hb; simpl; [done|].
  rewrite IH by lia. apply ld8_st8_ne. lia.
Qed.

Lemma copy_backward_in m d s n b :
  s <= d -> d <= b < d + Z.of_nat n -> ld8 (copy_backward m d s n) b = ld8 m (s + (b - d)).
Proof.
  revert m. induction n as [|n IH]; intros m Hs Hb; simpl; [lia|].
  destruct (decide (b = d + Z.of_nat n)) as [->|].
  - rewrite copy_backward_ne by lia. rewrite ld8_st8_eq, u8_small by apply ld8_byte. f_equal. lia.
  - rewrite IH by lia. apply ld8_st8_ne. lia.
Qed.

Lemma memcpy_forward_in m d s n b :
  d <= s -> d <= b < d + Z.of_nat n -> ld8 (memcpy m d s n) b = ld8 m (s + (b - d)).
Proof.
  revert m d s. induction n as [|n IH]; intros m d s Hs Hb; simpl; [lia|].
  destruct (decide (b = d)) as [->|].
  - rewrite ld8_memcpy_ne by lia. rewrite ld8_st8_eq, u8_small by apply ld8_byte. f_equal. lia.
  - rewrite IH by lia. rewrite ld8_st8_ne by lia. f_equal. lia.
Qed.

(** C13: [memmove] copies the old bytes of the source to the destination for
    every pair of ranges, overlapping ones included, and changes no byte
    outside the destination. *)
Theorem memmove_correct m d s n a :
  ld8 (memmove m d s n) a =
    if (d <=? a) && (a <? d + Z.of_nat n) then ld8 m (s + (a - d)) else ld8 m a.
Proof.
  unfold memmove. destruct (Z.leb_spec d a), (Z.ltb_spec a (d + Z.of_nat n)); simpl;
    destruct (Z.ltb_spec d s), (Z.ltb_spec s d);
    rewrite ?memcpy_forward_in, ?copy_backward_in, ?ld8_memcpy_ne, ?copy_backward_ne by lia; try done; f_equal; lia.
Qed.

(** ** Lengths, comparisons, searches *)

Lemma strlen_from_spec m p l len fuel :
  cstr m (p + len) l -> (length l < fuel)%nat -> 0 <= len -> len + Z.of_nat (length l) < 2 ^ 32 ->
  strlen_from fuel m p len = len + Z.of_nat (length l).
Proof.
  revert len fuel. induction l as [|c l IH]; intros len fuel H Hf Hn Hb;
    (destruct fuel as [|fuel]; [simpl in Hf; lia|]); cbn [strlen_from length] in *; cstr_case H.
  - rewrite (proj2 (Z.eqb_eq _ _)) by done. lia.
  - rewrite (proj2 (Z.eqb_neq _ _)) by lia. rewrite u32_small by lia.
    rewrite IH; [lia| |lia|lia|lia]. by rewrite Z.add_assoc.
Qed.

Lemma strlen_spec m p l fuel :
  cstr m p l -> (length l < fuel)%nat -> Z.of_nat (length l) < 2 ^ 32 -> strlen fuel m p = Z.of_nat (length l).
Proof. intros. unfold strlen. rewrite (strlen_from_spec _ _ l) by (rewrite ?Z.add_0_r; done). lia. Qed.

(** The comparison of two strings as unsigned bytes, NUL-terminated. *)
Fixpoint cmp_list (l1 l2 : list Z) : Z :=
  match l1, l2 with
  | [], [] => 0
  | [], c2 :: _ => - c2
  | c1 :: _, [] => c1
  | c1 :: l1, c2 :: l2 => if c1 =? c2 then cmp_list l1 l2 else c1 - c2
  end.

Lemma cmp_list_zero l1 l2 : Forall is_char l1 -> Forall is_char l2 -> cmp_list l1 l2 = 0 <-> l1 = l2.
Proof.
  revert l2. induction l1 as [|c1 l1 IH]; intros [|c2 l2]; simpl; try done.
  - intros _ [H _]%Forall_cons. unfold is_char in H. split; [lia|done].
  - intros [H _]%Forall_cons _. unfold is_char in H. split; [lia|done].
  - intros [_ H1]%Forall_cons [_ H2]%Forall_cons. destruct (Z.eqb_spec c1 c2) as [->|].
    + rewrite IH by done. split; congruence.
    + split; [lia|congruence].
Qed.

Lemma strcmp_spec fuel m p1 p2 l1 l2 :
  cstr m p1 l1 -> cstr m p2 l2 -> (length l1 < fuel)%nat -> strcmp fuel m p1 p2 = cmp_list l1 l2.
Proof.
  revert p1 p2 l1 l2. induction fuel as [|fuel IH]; intros p1 p2 l1 l2 H1 H2 Hf; [lia|]. cbn [strcmp].
  destruct l1 as [|c1 l1], l2 as [|c2 l2]; cstr_case H1; cstr_case H2; cbn [cmp_list].
  - rewrite H, H0. done.
  - rewrite H, He. done.
  - rewrite He, H, (proj2 (Z.eqb_neq c1 0)) by lia. simpl. lia.
  - rewrite He, He0, (proj2 (Z.eqb_neq c1 0)) by lia. simpl. destruct (Z.eqb_spec c1 c2) as [->|]; [|done].
    apply IH; try done. simpl in Hf. lia.
Qed.

(** [strcmp] terminates on any two strings and compares them as sequences
    of unsigned bytes; in particular it returns 0 exactly for equal strings. *)
Theorem strcmp_correct fuel m p1 p2 l1 l2 :
  cstr m p1 l1 -> cstr m p2 l2 -> (length l1 < fuel)%nat ->
  strcmp fuel m p1 p2 = cmp_list l1 l2 /\ (strcmp fuel m p1 p2 = 0 <-> l1 = l2).
Proof.
  intros H1 H2 Hf. rewrite (strcmp_spec fuel m p1 p2 l1 l2) by done.
  split; [done|]. by apply cmp_list_zero; [apply H1|apply H2].
Qed.

Lemma strncmp_zero m p1 p2 l1 l2 n :
  cstr m p1 l1 -> cstr m p2 l2 -> strncmp m p1 p2 n = 0 <-> take n l1 = take n l2.
Proof.
  revert p1 p2 l1 l2. induction n as [|n IH]; intros p1 p2 l1 l2 H1 H2; [done|]. cbn [strncmp].
  destruct l1 as [|c1 l1], l2 as [|c2 l2]; cstr_case H1; cstr_case H2; simpl.
  - rewrite H, H0. done.
  - rewrite H, He, (proj2 (Z.eqb_neq 0 c2)) by lia. simpl. split; [lia|done].
  - rewrite He, H, (proj2 (Z.eqb_neq c1 0)) by lia. simpl. split; [lia|done].
  - rewrite He, He0. destruct (Z.eqb_spec c1 c2) as [->|]; simpl; [|split; [lia|congruence]].
    rewrite (proj2 (Z.eqb_neq c2 0)) by lia. rewrite (IH _ _ l1 l2) by done. split; congruence.
Qed.

(** The position of the first element of a list, from index [i] on. *)
Fixpoint find_char (c : Z) (l : list Z) (p : Z) : Z :=
  match l with
  | [] => 0
  | x :: l => if x =? c then p else find_char c l (p + 1)
  end.

Lemma strchr_spec fuel m p l c :
  cstr m p l -> is_char c -> (length l < fuel)%nat -> strchr fuel m p c = find_char c l p.
Proof.
  intros H Hc. revert p l H. induction fuel as [|fuel IH]; intros p l H Hf; [lia|]. cbn [strchr].
  unfold is_char in Hc. rewrite u8_small by lia. destruct l as [|x l]; cstr_case H; simpl in *.
  - rewrite H0. simpl. by rewrite (proj2 (Z.eqb_neq c 0)) by lia.
  - rewrite He, (proj2 (Z.eqb_neq x 0)) by lia. simpl. destruct (x =? c); [done|]. apply IH; [done|lia].
Qed.

Lemma find_char_zero c l p : 0 < p -> find_char c l p = 0 <-> c ∉ l.
Proof.
  revert p. induction l as [|x l IH]; intros p Hp; simpl; [split; [intros _ ?%elem_of_nil|]; done|].
  rewrite not_elem_of_cons. destruct (Z.eqb_spec x c) as [->|].
  - split; [lia|by intros [? _]].
  - rewrite IH by lia. naive_solver.
Qed.

(** ** Copies *)

Lemma bytes_at_ext m m' p l :
  (forall a, p <= a < p + Z.of_nat (length l) -> ld8 m' a = ld8 m a) -> bytes_at m p l -> bytes_at m' p l.
Proof.
  revert p. induction l as [|b l IH]; intros p He Hb; [done|]. destruct Hb as [Hx Hb]. simpl in He. split.
  - rewrite He by lia. done.
  - apply IH; [|done]. intros a Ha. apply He. lia.
Qed.

Lemma cstr_ext m m' p l :
  (forall a, p <= a <= p + Z.of_nat (length l) -> ld8 m' a = ld8 m a) -> cstr m p l -> cstr m' p l.
Proof.
  intros He [Hc Hb]. split; [done|]. eapply bytes_at_ext; [|exact Hb].
  intros a Ha. apply He. rewrite length_app in Ha. simpl in Ha. lia.
Qed.

(** The two ranges of a copy of a string do not meet. *)
Definition apart (d s : Z) (l : list Z) : Prop :=
  d + Z.of_nat (length l) < s \/ s + Z.of_nat (length l) < d.

Lemma strcpy_spec fuel m d s l :
  cstr m s l -> apart d s l -> (length l < fuel)%nat ->
  cstr (strcpy fuel m d s) d l /\
  forall a, a < d \/ d + Z.of_nat (length l) < a -> ld8 (strcpy fuel m d s) a = ld8 m a.
Proof.
  revert m d s l. induction fuel as [|fuel IH]; intros m d s l H Ha Hf; [lia|]. cbn [strcpy].
  unfold apart in Ha. destruct l as [|c l]; cstr_case H; cbn [length] in *.
  - rewrite H0. change (0 =? 0) with true. cbv iota. split.
    + split; [done|]. split; [|done]. by rewrite ld8_st8_eq.
    + intros a ?. apply ld8_st8_ne. lia.
  - rewrite He, (proj2 (Z.eqb_neq c 0)) by lia.
    destruct (IH (st8 m d c) (d + 1) (s + 1) l) as [[Hcl Hb] Ho]; [|unfold apart; lia|lia|].
    { eapply cstr_ext; [|exact Ht]. intros a ?. apply ld8_st8_ne. lia. }
    split.
    + split; [by constructor|]. split; [|done].
      rewrite Ho by lia. rewrite ld8_st8_eq. apply u8_small. lia.
    + intros a ?. rewrite Ho by lia. apply ld8_st8_ne. lia.
Qed.

Lemma string_end_spec fuel m p l :
  cstr m p l -> (length l < fuel)%nat -> string_end fuel m p = p + Z.of_nat (length l).
Proof.
  revert p l. induction fuel as [|fuel IH]; intros p l H Hf; [lia|]. cbn [string_end].
  destruct l as [|c l]; cstr_case H; cbn [length] in *.
  - rewrite H0. simpl. lia.
  - rewrite He, (proj2 (Z.eqb_neq c 0)) by lia. rewrite (IH _ l) by (done || lia). lia.
Qed.

Lemma cstr_app m p l1 l2 : Forall is_char l1 -> bytes_at m p l1 -> cstr m (p + Z.of_nat (length l1)) l2 -> cstr m p (l1 ++ l2).
Proof.
  intros Hc Hb [Hc2 Hb2]. split; [by apply Forall_app|]. rewrite <- app_assoc. clear Hc Hc2.
  revert p Hb Hb2. induction l1 as [|c l1 IH]; intros p Hb Hb2; simpl in *; [by rewrite Z.add_0_r in Hb2|].
  destruct Hb as [Hx Hb]. split; [done|]. apply IH; [done|]. by replace (p + 1 + Z.of_nat (length l1)) with (p + Z.of_nat (S (length l1))) by lia.
Qed.

Lemma bytes_at_app m p l1 l2 : bytes_at m p (l1 ++ l2) -> bytes_at m p l1.
Proof. revert p. induction l1 as [|c l1 IH]; intros p; simpl; [done|]. intros [? ?]. split; auto. Qed.

(** [strcat] appends the source to the destination. *)
Lemma strcat_spec fuel m d s l1 l2 :
  cstr m d l1 -> cstr m s l2 -> (length l1 < fuel)%nat -> (length l2 < fuel)%nat ->
  d + Z.of_nat (length l1) + Z.of_nat (length l2) < s \/ s + Z.of_nat (length l2) < d ->
  cstr (strcat fuel m d s) d (l1 ++ l2).
Proof.
  intros H1 H2 Hf1 Hf2 Ha. unfold strcat. rewrite (string_end_spec _ _ _ l1) by done.
  destruct (strcpy_spec fuel m (d + Z.of_nat (length l1)) s l2 H2 ltac:(unfold apart; lia) Hf2) as [Hc Ho].
  apply cstr_app; [apply H1| |done]. eapply bytes_at_ext; [|by eapply bytes_at_app, (proj2 H1)].
  intros a ?. apply Ho. lia.
Qed.

Lemma memset_bytes m d k : bytes_at (memset m d 0 k) d (replicate k 0).
Proof.
  assert (forall j p, d <= p -> p + Z.of_nat j = d + Z.of_nat k ->
    bytes_at (memset m d 0 k) p (replicate j 0)) as Hg; [|apply Hg; lia].
  induction j as [|j IH]; intros p Hp He; simpl; [done|].
  split; [by rewrite ld8_memset_in by lia|apply IH; lia].
Qed.

(** [strncpy] writes exactly [n] bytes: the string cut to [n], then zeros. *)
Lemma strncpy_spec m d s l n :
  cstr m s l -> d + Z.of_nat n <= s \/ s + Z.of_nat (length l) < d ->
  bytes_at (strncpy m d s n) d (take n l ++ replicate (n - length l) 0) /\
  forall a, a < d \/ d + Z.of_nat n <= a -> ld8 (strncpy m d s n) a = ld8 m a.
Proof.
  revert m d s l. induction n as [|n IH]; intros m d s l H Ha; [done|]. cbn [strncpy].
  destruct l as [|c l]; cstr_case H; cbn [length] in *.
  - rewrite H0. change (0 =? 0) with true. cbv iota. split.
    + change (take (S n) [] ++ replicate (S n - 0) 0) with (replicate (S n) 0). apply memset_bytes.
    + intros a ?. apply ld8_memset_ne. lia.
  - rewrite He, (proj2 (Z.eqb_neq c 0)) by lia.
    destruct (IH (st8 m d c) (d + 1) (s + 1) l) as [Hb Ho]; [|lia|].
    { eapply cstr_ext; [|exact Ht]. intros a ?. apply ld8_st8_ne. lia. }
    split.
    + simpl. split; [|done]. rewrite Ho by lia. rewrite ld8_st8_eq. apply u8_small. lia.
    + intros a ?. rewrite Ho by lia. apply ld8_st8_ne. lia.
Qed.

(** ** Substring search *)

Definition occurs (n h : list Z) : bool := bool_decide (take (length n) h = n).

Fixpoint find_sub (n h : list Z) (p : Z) : Z :=
  if occurs n h then p else match h with [] => 0 | _ :: h => find_sub n h (p + 1) end.

Lemma strstr_from_spec fuel m p q h n :
  cstr m p h -> cstr m q n -> n <> [] -> (length h < fuel)%nat ->
  strstr_from fuel m p q (Z.of_nat (length n)) = find_sub n h p.
Proof.
  intros Hp Hq Hn. revert p h Hp. induction fuel as [|fuel IH]; intros p h Hp Hf; [lia|]. cbn [strstr_from].
  destruct n as [|c n]; [done|]. destruct h as [|x h].
  - cstr_case Hp. rewrite H. done.
  - pose proof (strncmp_zero m p q (x :: h) (c :: n) (length (c :: n)) Hp Hq) as Hz.
    rewrite (take_ge (c :: n)) in Hz by done. rewrite Nat2Z.id. cbn [find_sub]. unfold occurs.
    cstr_case Hp. cstr_case Hq. rewrite He, He0, (proj2 (Z.eqb_neq x 0)) by lia.
    destruct (bool_decide_reflect (take (length (c :: n)) (x :: h) = c :: n)) as [Ht'|Hne].
    + rewrite (proj2 Hz Ht'). assert (x = c) as -> by (simpl in Ht'; congruence). by rewrite Z.eqb_refl.
    + assert ((strncmp m p q (length (c :: n)) =? 0) = false) as -> by (apply Z.eqb_neq; tauto).
      rewrite andb_false_r. apply IH; [done|]. simpl in Hf. lia.
Qed.

(** What [find_sub] computes: the first occurrence, or 0. *)
Lemma find_sub_spec n h p :
  0 < p ->
  (find_sub n h p = 0 /\ forall i, (i <= length h)%nat -> occurs n (drop i h) = false) \/
  (exists i, (i <= length h)%nat /\ find_sub n h p = p + Z.of_nat i /\ occurs n (drop i h) = true /\
     forall j, (j < i)%nat -> occurs n (drop j h) = false).
Proof.
  revert p. induction h as [|x h IH]; intros p Hp; cbn [find_sub].
  - destruct (occurs n []) eqn:E; [right; exists 0%nat; rewrite drop_0; split_and!; [done|lia|done|lia]|left].
    split; [done|]. intros i Hi. by rewrite drop_nil.
  - destruct (occurs n (x :: h)) eqn:E; [right; exists 0%nat; rewrite drop_0; split_and!; [lia|lia|done|lia]|].
    destruct (IH (p + 1) ltac:(lia)) as [[-> Hn]|(i & Hi & -> & Ho & Hl)]; [left|right].
    + split; [done|]. intros [|i] Hi; [done|]. apply Hn. simpl in Hi. lia.
    + exists (S i). split_and!; [simpl; lia|lia|done|]. intros [|j] Hj; [done|]. apply Hl. lia.
Qed.

(** [strstr] terminates and returns a pointer to the first occurrence of
    the needle in the haystack, or [NULL] when there is none. *)
Theorem strstr_correct fuel m p q h n :
  cstr m p h -> cstr m q n -> 0 < p -> (length h < fuel)%nat -> (length n < fuel)%nat -> Z.of_nat (length n) < 2 ^ 32 ->
  (strstr fuel m p q = 0 /\ forall i, (i <= length h)%nat -> occurs n (drop i h) = false) \/
  (exists i, (i <= length h)%nat /\ strstr fuel m p q = p + Z.of_nat i /\ occurs n (drop i h) = true /\
     forall j, (j < i)%nat -> occurs n (drop j h) = false).
Proof.
  intros Hp Hq Hpos Hf1 Hf2 Hl. pose proof (find_sub_spec n h p Hpos) as Hs.
  assert (strstr fuel m p q = find_sub n h p) as ->; [|done].
  unfold strstr. destruct n as [|c n].
  - cstr_case Hq. rewrite H. change (0 =? 0) with true. by destruct h.
  - rewrite (strlen_spec _ _ (c :: n)) by done. pose proof (strstr_from_spec fuel m p q h (c :: n) Hp Hq ltac:(done) Hf1) as ->.
    cstr_case Hq. by rewrite He, (proj2 (Z.eqb_neq c 0)) by lia.
Qed.

(** ** Spans *)

Lemma strchr_member fuel m q set c :
  cstr m q set -> 0 < q -> is_char c -> (length set < fuel)%nat ->
  negb (strchr fuel m q c =? 0) = bool_decide (c ∈ set).
Proof.
  intros H Hq Hc Hf. rewrite (strchr_spec _ _ _ set) by done.
  pose proof (find_char_zero c set q Hq). case_bool_decide; [|by rewrite (proj2 (Z.eqb_eq _ _)) by tauto].
  rewrite (proj2 (Z.eqb_neq _ _)); [done|]. tauto.
Qed.

(** Length of the longest prefix whose elements satisfy [p]. *)
Fixpoint prefix_len (p : Z -> bool) (l : list Z) : nat :=
  match l with
  | [] => 0
  | c :: l => if p c then S (prefix_len p l) else 0
  end.

Lemma span_from_spec fuel inner m stop q set l p count :
  cstr m q set -> 0 < q -> (length set < inner)%nat -> cstr m (p + count) l -> (length l < fuel)%nat ->
  0 <= count -> count + Z.of_nat (length l) < 2 ^ 32 ->
  span_from fuel inner m stop p q count =
    count + Z.of_nat (prefix_len (fun c => negb (stop (bool_decide (c ∈ set)))) l).
Proof.
  intros Hq Hq0 Hi. revert l count. induction fuel as [|fuel IH]; intros l count H Hf Hc Hb; [lia|]. cbn [span_from].
  destruct l as [|c l]; cstr_case H; cbn [length] in *.
  - rewrite H0. simpl. lia.
  - rewrite He, (proj2 (Z.eqb_neq c 0)) by lia. rewrite (strchr_member inner m q set c) by done. cbn [prefix_len].
    destruct (stop _); simpl; [lia|]. rewrite u32_small by lia.
    rewrite (IH l) by (try (by rewrite Z.add_assoc); lia). lia.
Qed.

(** [strspn]/[strcspn]: the longest prefix inside/outside the set. *)
Lemma strspn_spec fuel m p q l set :
  cstr m p l -> cstr m q set -> 0 < q -> (length l < fuel)%nat -> (length set < fuel)%nat -> Z.of_nat (length l) < 2 ^ 32 ->
  strspn fuel m p q = Z.of_nat (prefix_len (fun c => bool_decide (c ∈ set)) l) /\
  strcspn fuel m p q = Z.of_nat (prefix_len (fun c => negb (bool_decide (c ∈ set))) l).
Proof.
  intros Hp Hq Hq0 Hf1 Hf2 Hl. unfold strspn, strcspn.
  rewrite !(span_from_spec fuel fuel m _ q set l p 0) by (rewrite ?Z.add_0_r; done). split; [|done].
  rewrite Z.add_0_l. f_equal. clear. induction l as [|c l IH]; simpl; [done|]. rewrite negb_involutive, IH. done.
Qed.

(** ** Witnesses *)

(** ["abcab"] at 1000 and ["ca"] at 2000. *)
Definition sample : mem :=
  list_to_map (zip [1000; 1001; 1002; 1003; 1004; 1005; 2000; 2001; 2002] [97; 98; 99; 97; 98; 0; 99; 97; 0]).

Lemma sample_strings : cstr sample 1000 [97; 98; 99; 97; 98] /\ cstr sample 2000 [99; 97].
Proof. by split; (split; [repeat constructor|]). Qed.

Lemma strcmp_correct_witness : strcmp 10 sample 1000 2000 = -2.
Proof. destruct sample_strings as [H1 H2]. exact (proj1 (strcmp_correct 10 sample 1000 2000 _ _ H1 H2 ltac:(simpl; lia))). Defined.

Lemma strstr_correct_witness : strstr 10 sample 1000 2000 = 1002.
Proof.
  destruct sample_strings as [H1 H2].
  destruct (strstr_correct 10 sample 1000 2000 _ _ H1 H2) as [[_ H]|(i & Hi & E & Ho & Hl)];
    [lia|simpl; lia|simpl; lia|simpl; lia| |].
  - by specialize (H 2%nat ltac:(simpl; lia)).
  - destruct i as [|[|[|i]]]; [done|done|exact E|]. by specialize (Hl 2%nat ltac:(lia)).
Defined.

End CStringSpec.
