(* ===== verification/Libc.v ===== *)
(** * C library: conversions, formatted output, random numbers, name lookup
    ([libc/stdio], [libc/stdlib/atoi.c], [libc/stdlib/rand.c], [libc/netdb])

    Strings are lists of character codes without the terminating NUL, a
    possibly null [const char] pointer is an [option]. [Module Stdio] has the
    number printers and [vprintf] over a [write] system call that is a
    parameter, [Module Stdlib_] has [atoi] and the generator behind [rand],
    [Module Netdb] the address and port parsers and the resolver calls. *)

From S2P Require Import Prelude.

(** Two's complement facts used by the conversions. *)
Lemma i32_small x : - 2 ^ 31 <= x < 2 ^ 31 -> i32 x = x.
Proof. intros. unfold i32. rewrite Z.mod_small by lia. lia. Qed.
Lemma i32_range x : - 2 ^ 31 <= i32 x < 2 ^ 31.
Proof. unfold i32. pose proof (Z.mod_pos_bound (x + 2 ^ 31) (2 ^ 32)). lia. Qed.
#[export] Hint Resolve i32_range : kernel.

Module Stdio.

(** Character codes. *)
Definition c_zero : Z := 48.    (* '0' *)
Definition c_a : Z := 97.       (* 'a' *)
Definition c_A : Z := 65.       (* 'A' *)
Definition c_minus : Z := 45.   (* '-' *)
Definition c_percent : Z := 37. (* '%' *)

(** ** [itoa] *)

(** The [do ... while (value > 0)] loop: digits in reverse order. [int]
    division truncates; an [int] has at most 32 digits in base 2. *)
Fixpoint itoa_loop (fuel : nat) (value base : Z) : list Z :=
  match fuel with
  | O => []
  | S fuel =>
      let digit := Z.rem value base in
      let c := u8 (if digit <? 10 then c_zero + digit else c_a + digit - 10) in
      let value := Z.quot value base in
      c :: (if 0 <? value then itoa_loop fuel value base else [])
  end.

Definition itoa (value base : Z) : list Z :=
  if (base <? 2) || (36 <? base) then []
  else
    let sign := (value <? 0) && (base =? 10) in
    let value := if sign then i32 (- value) else value in
    let rev := itoa_loop 33 value base ++ (if sign then [c_minus] else []) in
    reverse rev.

(** ** [utoa_base] *)

Definition digit_char (uppercase : bool) (d : Z) : Z :=
  if d <? 10 then c_zero + d else (if uppercase then c_A else c_a) + d - 10.

Fixpoint utoa_loop (fuel : nat) (value base : Z) (uppercase : bool) : list Z :=
  match fuel with
  | O => []
  | S fuel =>
      let c := digit_char uppercase (value mod base) in
      let value := value / base in
      c :: (if value =? 0 then [] else utoa_loop fuel value base uppercase)
  end.

Definition utoa_base (value base : Z) (uppercase : bool) : list Z :=
  if (base <? 2) || (16 <? base) then []
  else reverse (utoa_loop 32 value base uppercase).

(** ** [vprintf] *)

(** The variable arguments: an [int]-sized word or a string pointer. *)
Inductive arg := arg_word (w : Z) | arg_str (s : option (list Z)).

Section vprintf.
(** The [write(1, ...)] system call: return value and new state. *)
Context {W : Type} (write : list Z -> W -> Z * W).

Definition write_text (s : list Z) (w : W) : Z * W :=
  match s with
  | [] => (0, w)
  | _ => let '(rc, w) := write s w in (if rc <? 0 then -1 else Z.of_nat (length s), w)
  end.

Definition null_text : list Z := [40; 110; 117; 108; 108; 41]. (* "(null)" *)

(** One conversion: what is written before the text, the text, and the
    arguments left; [None] when the arguments do not match the format. *)
Definition convert (c : Z) (args : list arg) : option (list Z * list Z * list arg) :=
  match args with
  | arg_word v :: args =>
      if c =? 99 then Some ([], [u8 v], args)                                  (* 'c' *)
      else if (c =? 100) || (c =? 105) then                                    (* 'd', 'i' *)
        if i32 v <? 0 then Some ([c_minus], utoa_base (u32 (- i32 v)) 10 false, args)
        else Some ([], utoa_base (u32 v) 10 false, args)
      else if c =? 117 then Some ([], utoa_base (u32 v) 10 false, args)        (* 'u' *)
      else if c =? 120 then Some ([], utoa_base (u32 v) 16 false, args)        (* 'x' *)
      else if c =? 88 then Some ([], utoa_base (u32 v) 16 true, args)          (* 'X' *)
      else if c =? 112 then Some ([c_zero; 120], utoa_base (u32 v) 16 false, args) (* 'p' *)
      else None
  | arg_str s :: args =>
      if c =? 115 then Some ([], default null_text s, args)                    (* 's' *)
      else None
  | [] => None
  end.

Definition is_conversion (c : Z) : bool :=
  existsb (Z.eqb c) [99; 115; 100; 105; 117; 120; 88; 112].

(** The loop over the format. Outer [None]: the arguments do not match. *)
Fixpoint vprintf_loop (fmt : list Z) (args : list arg) (written : Z) (w : W) : option (Z * W) :=
  match fmt with
  | [] => Some (written, w)
  | c :: fmt =>
      if negb (c =? c_percent) then
        let '(rc, w) := write_text [c] w in
        if rc <? 0 then Some (-1, w) else vprintf_loop fmt args (i32 (written + 1)) w
      else
        match fmt with
        | [] => Some (written, w)
        | c :: fmt =>
            if c =? c_percent then
              let '(rc, w) := write_text [c_percent] w in
              if rc <? 0 then Some (-1, w) else vprintf_loop fmt args (i32 (written + 1)) w
            else if is_conversion c then
              match convert c args with
              | None => None
              | Some (pre, text, args) =>
                  let '(rc, w) := write_text pre w in
                  if rc <? 0 then Some (-1, w)
                  else
                    let written := i32 (written + Z.of_nat (length pre)) in
                    let '(rc, w) := write_text text w in
                    if rc <? 0 then Some (-1, w)
                    else vprintf_loop fmt args (i32 (written + Z.of_nat (length text))) w
              end
            else
              let '(rc, w) := write_text [c_percent] w in
              if rc <? 0 then Some (-1, w)
              else
                let '(rc, w) := write_text [c] w in
                if rc <? 0 then Some (-1, w) else vprintf_loop fmt args (i32 (written + 2)) w
        end
  end.

Definition vprintf (fmt : option (list Z)) (args : list arg) (w : W) : option (Z * W) :=
  match fmt with
  | None => Some (-1, w)
  | Some fmt => vprintf_loop fmt args 0 w
  end.

(** [printf] passes its variable arguments on. *)
Definition printf (fmt : option (list Z)) (args : list arg) (w : W) : option (Z * W) := vprintf fmt args w.
End vprintf.

End Stdio.

Module Stdlib_.

Definition is_digit (c : Z) : bool := (48 <=? c) && (c <=? 57).

Fixpoint skip_blanks (s : list Z) : list Z :=
  match s with
  | c :: t => if (c =? 32) || (c =? 9) then skip_blanks t else s
  | [] => []
  end.

Fixpoint atoi_digits (s : list Z) (result : Z) : Z :=
  match s with
  | c :: t => if is_digit c then atoi_digits t (i32 (result * 10 + (c - 48))) else result
  | [] => result
  end.

Definition atoi (s : option (list Z)) : Z :=
  match s with
  | None => 0
  | Some s =>
      match skip_blanks s with
      | c :: t =>
          if c =? 45 then i32 (-1 * atoi_digits t 0)
          else if c =? 43 then i32 (1 * atoi_digits t 0)
          else i32 (1 * atoi_digits (c :: t) 0)
      | [] => 0
      end
  end.

(** ** [rand] *)

Record rng := mk_rng { g_state : Z; g_seeded : bool }.

Definition srand (seed : Z) (r : rng) : rng := mk_rng (if seed =? 0 then 1 else seed) true.

Definition FALLBACK_SEED : Z := 0x853c49e6748fea9b.

Definition xorshift (x : Z) : Z :=
  let x := Z.lxor x (Z.shiftr x 12) in
  let x := Z.lxor x (u64 (Z.shiftl x 25)) in
  Z.lxor x (Z.shiftr x 27).

(** [entropy] is what [getrandom] stored: the seed if it returned 8 bytes. *)
Definition seed_rng (entropy : option Z) (r : rng) : rng :=
  if g_seeded r then r
  else mk_rng (match entropy with
               | Some seed => if seed =? 0 then FALLBACK_SEED else seed
               | None => FALLBACK_SEED
               end) true.

Definition rand (entropy : option Z) (r : rng) : Z * rng :=
  let r := seed_rng entropy r in
  let x := xorshift (g_state r) in
  let out := u64 (x * 0x2545F4914F6CDD1D) in
  (Z.land (Z.shiftr out 33) 0x7fffffff, mk_rng x true).

End Stdlib_.

Module Netdb.

(** The loop of [parse_ipv4]: finished parts, the part being read, and
    whether it has digits yet. *)
Fixpoint parse_ipv4_loop (s : list Z) (parts : list Z) (cur : Z) (digits : bool) : option (list Z) :=
  match s with
  | [] => if negb digits || negb (Z.of_nat (length parts) =? 3) then None else Some (parts ++ [cur])
  | c :: s =>
      if Stdlib_.is_digit c then
        let v := u32 (cur * 10 + (c - 48)) in
        if 255 <? v then None else parse_ipv4_loop s parts v true
      else if c =? 46 then
        if negb digits || (Z.of_nat (length parts) =? 3) then None
        else parse_ipv4_loop s (parts ++ [cur]) 0 false
      else None
  end.

Definition parse_ipv4 (s : option (list Z)) : option (list Z) :=
  match s with
  | None => None
  | Some s => parse_ipv4_loop s [] 0 false
  end.

Fixpoint parse_port_loop (s : list Z) (v : Z) : option Z :=
  match s with
  | [] => Some (u16 v)
  | c :: s =>
      if (c <? 48) || (57 <? c) then None
      else
        let v := u32 (v * 10 + (c - 48)) in
        if 65535 <? v then None else parse_port_loop s v
  end.
Definition parse_port (s : option (list Z)) : option Z :=
  match s with
  | None => None
  | Some s => parse_port_loop s 0
  end.

Section resolver.
(** [SYS_resolve]: return code and the four address bytes it stored. *)
Context (sys_resolve : list Z -> Z -> Z * list Z).

(** The return code, and the address when it is 0. *)
Definition resolve (hostname : option (list Z)) (timeout_ms : Z) : Z * list Z :=
  match hostname with
  | None => (-1, [])
  | Some h =>
      match parse_ipv4 hostname with
      | Some ip => (0, ip)
      | None => let '(rc, ip) := sys_resolve h timeout_ms in if negb (rc =? 0) then (rc, []) else (0, ip)
      end
  end.

Record hostent := mk_hostent { h_name : list Z; h_addrtype : Z; h_length : Z; h_addr : list Z }.

Definition AF_INET : Z := 2.

Definition gethostbyname (name : option (list Z)) : option hostent :=
  match name with
  | None => None
  | Some n =>
      let '(rc, ip) := resolve name 0 in
      if negb (rc =? 0) then None else Some (mk_hostent (take 255 n) AF_INET 4 ip)
  end.

Record addrinfo := mk_addrinfo {
  ai_family : Z; ai_socktype : Z; ai_protocol : Z; sin_port : Z; sin_addr : list Z
}.
Record hints := mk_hints { hint_family : Z; hint_socktype : Z; hint_protocol : Z }.

Inductive eai := EAI_OK | EAI_FAIL | EAI_NONAME | EAI_BADFLAGS | EAI_MEMORY.

(** [m1]/[m2]: whether the two [malloc] calls succeed. *)
Definition getaddrinfo (m1 m2 : bool) (node service : option (list Z)) (h : option hints) : eai * option addrinfo :=
  match node, service with
  | None, None => (EAI_NONAME, None)
  | _, _ =>
      if match h with Some h => negb (hint_family h =? 0) && negb (hint_family h =? AF_INET) | None => false end
      then (EAI_BADFLAGS, None)
      else
        match (match service with None => Some 0 | Some _ => parse_port service end) with
        | None => (EAI_NONAME, None)
        | Some port =>
            match (match node with None => (0, [0; 0; 0; 0]) | Some _ => resolve node 0 end) with
            | (rc, ip) =>
                if negb (rc =? 0) then (EAI_NONAME, None)
                else if negb m1 then (EAI_MEMORY, None)
                else if negb m2 then (EAI_MEMORY, None)
                else (EAI_OK, Some (mk_addrinfo AF_INET (default 0 (hint_socktype <$> h))
                                      (default 0 (hint_protocol <$> h)) port ip))
            end
        end
  end.
End resolver.
End Netdb.

Module LibcSpec.
Import Stdio Stdlib_ Netdb.

(** ** Positional notation *)

(** The value of a digit list, most significant digit first. *)
Definition value_of (base : Z) (ds : list Z) : Z := fold_left (fun acc d => acc * base + d) ds 0.

Lemma value_of_snoc base ds d : value_of base (ds ++ [d]) = value_of base ds * base + d.
Proof. unfold value_of. by rewrite fold_left_app. Qed.

(** The digit a character stands for. *)
Definition char_digit (c : Z) : Z :=
  if c <? 58 then c - 48 else if c <? 97 then c - 65 + 10 else c - 97 + 10.

Lemma char_digit_char up d : 0 <= d < 36 -> char_digit (digit_char up d) = d.
Proof.
  intros. unfold char_digit, digit_char, c_zero, c_a, c_A.
  destruct (Z.ltb_spec d 10), up; zbool; lia.
Qed.

(** Both printers emit the digits of [v] in reverse, without leading zeros. *)
Lemma utoa_loop_value fuel v base up :
  2 <= base <= 16 -> 0 <= v < base ^ Z.of_nat fuel -> (0 < fuel)%nat ->
  let ds := char_digit <$> reverse (utoa_loop fuel v base up) in
  value_of base ds = v /\ Forall (fun d => 0 <= d < base) ds /\ (0 < v -> head ds <> Some 0).
Proof.
  intros Hb. revert v. induction fuel as [|fuel IH]; intros v Hv Hf; [lia|]. cbn [utoa_loop].
  pose proof (Z.mod_pos_bound v base ltac:(lia)) as Hm. pose proof (Z.div_mod v base ltac:(lia)) as Hdm.
  assert (char_digit (digit_char up (v mod base)) = v mod base) as Hc by (apply char_digit_char; lia).
  destruct (Z.eqb_spec (v / base) 0) as [E|E].
  - cbn [reverse rev_append fmap list_fmap]. rewrite Hc. split_and!.
    + unfold value_of. simpl. lia.
    + by repeat constructor; lia.
    + intros Hp. simpl. intros [= E']. lia.
  - assert (0 <= v / base) by (apply Z.div_pos; lia).
    destruct fuel as [|fuel]; [change (base ^ Z.of_nat 1) with (base ^ 1) in Hv; rewrite Z.pow_1_r in Hv; exfalso; apply E, Z.div_small; lia|].
    destruct (IH (v / base)) as (H1 & H2 & H3); [|lia|].
    { split; [done|]. apply Z.div_lt_upper_bound; [lia|].
      rewrite (Nat2Z.inj_succ (S fuel)), Z.pow_succ_r in Hv by lia. lia. }
    rewrite reverse_cons, fmap_app. cbn [fmap list_fmap]. rewrite Hc. split_and!.
    + rewrite value_of_snoc, H1. lia.
    + apply Forall_app. split; [done|]. by repeat constructor; lia.
    + intros _. destruct (char_digit <$> reverse _) eqn:El; [|simpl; apply H3; lia].
      exfalso. unfold value_of in H1. simpl in H1. lia.
Qed.

(** [utoa_base] prints every 32-bit value in every supported base as its
    positional representation: the digits are below the base, their value is
    the number, and there is no leading zero. *)
Theorem utoa_base_correct v base up :
  2 <= base <= 16 -> 0 <= v < 2 ^ 32 ->
  let ds := char_digit <$> utoa_base v base up in
  value_of base ds = v /\ Forall (fun d => 0 <= d < base) ds /\ (0 < v -> head ds <> Some 0).
Proof.
  intros Hb Hv. unfold utoa_base. zbool. cbn [orb]. apply utoa_loop_value; [done| |lia].
  split; [lia|]. apply Z.lt_le_trans with (2 ^ 32); [lia|]. change (2 ^ 32) with (2 ^ Z.of_nat 32).
  apply Z.pow_le_mono_l. lia.
Qed.

(** Decimal output consists of digit characters. *)
Lemma utoa_loop_digits fuel v up : Forall (fun c => is_digit c = true) (utoa_loop fuel v 10 up).
Proof.
  revert v. induction fuel as [|fuel IH]; intros v; cbn [utoa_loop]; [done|]. constructor.
  - pose proof (Z.mod_pos_bound v 10). unfold digit_char, is_digit, c_zero. zbool. lia.
  - case_match; [done|apply IH].
Qed.

(** Reading decimal digits from an accumulator. *)
Definition horner (acc : Z) (s : list Z) : Z := fold_left (fun acc d => acc * 10 + d) (char_digit <$> s) acc.

Lemma digit_range c : is_digit c = true -> char_digit c = c - 48 /\ 0 <= c - 48 <= 9.
Proof. unfold is_digit. intros H. bool_to_prop. unfold char_digit. zbool. lia. Qed.

Lemma horner_mono s acc : Forall (fun c => is_digit c = true) s -> 0 <= acc -> acc <= horner acc s.
Proof.
  intros Hs. revert acc. induction Hs as [|c s Hc _ IH]; intros acc Ha; cbn [horner fmap list_fmap fold_left]; [done|].
  destruct (digit_range c Hc) as [E Hr]. unfold horner in *. cbn [fmap list_fmap fold_left]. rewrite E.
  etrans; [|apply IH; lia]. lia.
Qed.

Lemma atoi_digits_value s acc :
  Forall (fun c => is_digit c = true) s -> 0 <= acc -> horner acc s < 2 ^ 31 -> atoi_digits s acc = horner acc s.
Proof.
  intros Hs. revert acc. induction Hs as [|c s Hc Hs IH]; intros acc Ha Hb; [done|].
  cbn [atoi_digits]. rewrite Hc. destruct (digit_range c Hc) as [E Hr].
  assert (horner acc (c :: s) = horner (acc * 10 + (c - 48)) s) as Eh by (unfold horner; simpl; by rewrite E).
  rewrite Eh in *. pose proof (horner_mono s (acc * 10 + (c - 48)) Hs ltac:(lia)).
  rewrite i32_small by lia. apply IH; lia.
Qed.

Lemma utoa_decimal v :
  0 <= v < 2 ^ 32 -> horner 0 (utoa_base v 10 false) = v /\ Forall (fun c => is_digit c = true) (utoa_base v 10 false) /\
  utoa_base v 10 false <> [].
Proof.
  intros Hv. unfold utoa_base. change ((10 <? 2) || (16 <? 10)) with false. cbv iota.
  destruct (utoa_loop_value 32 v 10 false) as (H1 & _ & _); [lia|split; [lia|apply Z.lt_le_trans with (2 ^ 32); [lia|by vm_compute]]|lia|].
  split_and!; [exact H1|rewrite Forall_reverse; apply utoa_loop_digits|].
  cbn [utoa_loop]. rewrite reverse_cons. intros [_ ?]%app_nil. done.
Qed.

(** [atoi] of a signed decimal representation. *)
Lemma atoi_unsigned s :
  Forall (fun c => is_digit c = true) s -> s <> [] -> horner 0 s < 2 ^ 31 -> atoi (Some s) = horner 0 s.
Proof.
  intros Hs Hne Hb. destruct s as [|c s]; [done|]. pose proof Hs as [Hc _]%Forall_cons.
  destruct (digit_range c Hc) as [_ Hr]. unfold atoi. cbn [skip_blanks]. zbool. cbn [orb]. zbool.
  pose proof (horner_mono (c :: s) 0 Hs ltac:(lia)).
  rewrite (atoi_digits_value (c :: s)) by (done || lia). rewrite i32_small by lia. lia.
Qed.

Lemma atoi_negative s :
  Forall (fun c => is_digit c = true) s -> horner 0 s < 2 ^ 31 -> atoi (Some (c_minus :: s)) = - horner 0 s.
Proof.
  intros Hs Hb. unfold atoi, c_minus. cbn [skip_blanks]. change ((45 =? 32) || (45 =? 9)) with false. cbv iota.
  change (45 =? 45) with true. cbv iota. pose proof (horner_mono s 0 Hs ltac:(lia)).
  rewrite (atoi_digits_value s) by (done || lia). rewrite i32_small by lia. lia.
Qed.

(** The decimal text of an [int]. *)
Definition int_text (v : Z) : list Z :=
  if v <? 0 then c_minus :: utoa_base (- v) 10 false else utoa_base v 10 false.

Lemma atoi_int_text v : - 2 ^ 31 < v < 2 ^ 31 -> atoi (Some (int_text v)) = v.
Proof.
  intros Hv. unfold int_text. destruct (Z.ltb_spec v 0).
  - destruct (utoa_decimal (- v)) as (E & Hd & _); [lia|]. rewrite atoi_negative by (done || lia). lia.
  - destruct (utoa_decimal v) as (E & Hd & Hn); [lia|]. rewrite atoi_unsigned by (done || lia). done.
Qed.

(** ** [itoa] *)

Lemma itoa_loop_utoa fuel v : 0 <= v -> itoa_loop fuel v 10 = utoa_loop fuel v 10 false.
Proof.
  revert v. induction fuel as [|fuel IH]; intros v Hv; cbn [itoa_loop utoa_loop]; [done|].
  rewrite Z.rem_mod_nonneg, Z.quot_div_nonneg by lia. pose proof (Z.mod_pos_bound v 10).
  unfold digit_char, c_zero. zbool. rewrite u8_small by lia.
  pose proof (Z.div_pos v 10). f_equal. destruct (Z.ltb_spec 0 (v / 10)), (Z.eqb_spec (v / 10) 0); try lia; [|done].
  apply IH. lia.
Qed.

Lemma utoa_loop_fuel f1 f2 v :
  0 <= v < 10 ^ Z.of_nat f1 -> (0 < f1 <= f2)%nat -> utoa_loop f2 v 10 false = utoa_loop f1 v 10 false.
Proof.
  revert f2 v. induction f1 as [|f1 IH]; intros f2 v Hv Hf; [lia|]. destruct f2 as [|f2]; [lia|]. cbn [utoa_loop].
  f_equal. destruct (Z.eqb_spec (v / 10) 0) as [|E]; [done|].
  assert (0 <= v / 10) by (apply Z.div_pos; lia).
  destruct f1 as [|f1]; [exfalso; apply E, Z.div_small; change (10 ^ Z.of_nat 1) with 10 in Hv; lia|].
  apply IH; [|lia]. split; [done|]. apply Z.div_lt_upper_bound; [lia|].
  rewrite (Nat2Z.inj_succ (S f1)), Z.pow_succ_r in Hv by lia. lia.
Qed.

(** [itoa] in base 10 prints every [int] other than the least one so that
    [atoi] reads the same number back. *)
Theorem itoa_atoi_roundtrip v :
  - 2 ^ 31 < v < 2 ^ 31 -> itoa v 10 = int_text v /\ atoi (Some (itoa v 10)) = v.
Proof.
  intros Hv. assert (itoa v 10 = int_text v) as E; [|rewrite E; split; [done|by apply atoi_int_text]].
  unfold itoa, int_text. change ((10 <? 2) || (36 <? 10)) with false. change (10 =? 10) with true. cbv iota.
  assert (forall w, 0 <= w < 2 ^ 31 -> reverse (itoa_loop 33 w 10) = utoa_base w 10 false) as Hw.
  { intros w Hw. rewrite itoa_loop_utoa by lia. unfold utoa_base. change ((10 <? 2) || (16 <? 10)) with false. cbv iota.
    rewrite (utoa_loop_fuel 32 33 w); [reflexivity| |lia]. split; [lia|]. apply Z.lt_le_trans with (2 ^ 31); [lia|by vm_compute]. }
  destruct (Z.ltb_spec v 0); cbn [andb].
  - rewrite i32_small by lia. rewrite reverse_app, Hw by lia. done.
  - rewrite app_nil_r. apply Hw. lia.
Qed.

(** For the least [int] the negation in [itoa] overflows and the digit
    computed from the negative remainder is not a digit: the result is the
    text ["-("]. *)
Theorem itoa_int_min_wrong : itoa (- 2 ^ 31) 10 = [45; 40] /\ atoi (Some (itoa (- 2 ^ 31) 10)) = 0.
Proof. by vm_compute. Qed.

(** ** [vprintf] *)

(** A terminal that records what is written. *)
Definition log_write (s w : list Z) : Z * list Z := (Z.of_nat (length s), w ++ s).

Lemma log_write_text s w : write_text log_write s w = (Z.of_nat (length s), w ++ s).
Proof. destruct s; [by rewrite app_nil_r|]. unfold write_text, log_write. by rewrite (proj2 (Z.ltb_ge _ _)) by lia. Qed.

Lemma i32_add_i32 a b : i32 (i32 a + b) = i32 (a + b).
Proof.
  unfold i32. f_equal. replace ((a + 2 ^ 31) mod 2 ^ 32 - 2 ^ 31 + b + 2 ^ 31) with ((a + 2 ^ 31) mod 2 ^ 32 + b) by lia.
  rewrite Z.add_mod_idemp_l by lia. f_equal. lia.
Qed.

Lemma vprintf_loop_count fmt args n w r w' :
  vprintf_loop log_write fmt args (i32 n) w = Some (r, w') ->
  exists out, w' = w ++ out /\ r = i32 (n + Z.of_nat (length out)).
Proof.
  revert args n w. induction fmt as [fmt IH] using (induction_ltof1 _ length). unfold ltof in IH.
  intros args n w. destruct fmt as [|c fmt]; cbn [vprintf_loop].
  { intros [= <- <-]. exists []. rewrite app_nil_r, Z.add_0_r. done. }
  assert (forall args text t, (length t < length (c :: fmt))%nat ->
    vprintf_loop log_write t args (i32 (n + Z.of_nat (length text))) (w ++ text) = Some (r, w') ->
    exists out, w' = w ++ out /\ r = i32 (n + Z.of_nat (length out))) as Hgo.
  { intros a text t Hl E. destruct (IH t Hl _ _ _ E) as (out & -> & ->). exists (text ++ out).
    rewrite app_assoc, length_app. split; [done|]. f_equal. lia. }
  destruct (c =? c_percent); cbn [negb].
  2: { rewrite log_write_text, (proj2 (Z.ltb_ge _ _)), i32_add_i32 by lia. intros E. eapply (Hgo _ [c]); [|exact E]. simpl. lia. }
  destruct fmt as [|c2 fmt]. { intros [= <- <-]. exists []. rewrite app_nil_r, Z.add_0_r. done. }
  destruct (c2 =? c_percent).
  { rewrite log_write_text, (proj2 (Z.ltb_ge _ _)), i32_add_i32 by lia. intros E. eapply (Hgo _ [c_percent]); [|exact E]. simpl. lia. }
  destruct (is_conversion c2).
  - destruct (convert c2 args) as [[[pre text] args']|]; [|done].
    rewrite !log_write_text, !(proj2 (Z.ltb_ge _ _)), !i32_add_i32, <- Z.add_assoc, i32_add_i32, Z.add_assoc by lia. rewrite <- app_assoc. intros E.
    eapply (Hgo _ (pre ++ text)); [|rewrite length_app, Nat2Z.inj_add, Z.add_assoc; exact E]. simpl. lia.
  - rewrite !log_write_text, !(proj2 (Z.ltb_ge _ _)), i32_add_i32 by lia. rewrite <- app_assoc. intros E.
    eapply (Hgo _ ([c_percent] ++ [c2])); [|exact E]. simpl. lia.
Qed.

(** When writing does not fail, [vprintf] only appends to the output and
    returns the number of bytes it appended (as an [int]). *)
Theorem vprintf_returns_count fmt args w r w' :
  vprintf log_write (Some fmt) args w = Some (r, w') ->
  exists out, w' = w ++ out /\ r = i32 (Z.of_nat (length out)).
Proof. intros E. destruct (vprintf_loop_count fmt args 0 w r w' E) as (out & ? & ?). by exists out. Qed.

(** C14: [printf] of an [int] with ["%d"] and [atoi] are inverse: what is
    written reads back as the argument, for every [int] but the least. *)
Theorem printf_atoi_roundtrip v :
  - 2 ^ 31 < v < 2 ^ 31 ->
  exists out, printf log_write (Some [37; 100]) [arg_word v] [] = Some (Z.of_nat (length out), out) /\
    atoi (Some out) = v.
Proof.
  intros Hv. exists (int_text v). split; [|by apply atoi_int_text].
  unfold printf, vprintf. cbn [vprintf_loop]. change (negb (37 =? c_percent)) with false. change (100 =? c_percent) with false.
  change (is_conversion 100) with true. cbv iota. unfold convert.
  change (100 =? 99) with false. change ((100 =? 100) || (100 =? 105)) with true. cbv iota. rewrite i32_small by lia.
  assert (Z.of_nat (length (int_text v)) < 2 ^ 31) as Hlen.
  { unfold int_text. assert (forall f w, length (utoa_loop f w 10 false) <= f)%nat as Hl.
    { induction f as [|f IHf]; intros w; cbn [utoa_loop]; simpl; [done|]. case_match; simpl; [lia|]. specialize (IHf (w / 10)). lia. }
    unfold utoa_base. change ((10 <? 2) || (16 <? 10)) with false. cbv iota.
    destruct (v <? 0); cbn [length]; rewrite length_reverse; pose proof (Hl 32%nat v); pose proof (Hl 32%nat (- v)); lia. }
  unfold int_text in *. destruct (Z.ltb_spec v 0); rewrite !log_write_text, !(proj2 (Z.ltb_ge _ _)) by lia.
  - rewrite u32_small by lia. cbn [length] in *. rewrite i32_add_i32, i32_small by lia. simpl. do 2 f_equal. lia.
  - rewrite u32_small by lia. rewrite i32_add_i32, i32_small by (simpl; lia). simpl. do 2 f_equal.
Qed.

(** ** [rand] *)

(** The generator's state between calls: seeded, nonzero, 64 bits. *)
Definition rng_ok (r : rng) : Prop := g_seeded r = true /\ 0 < g_state r < 2 ^ 64.

Lemma lt_pow2_testbit x n : 0 <= x -> 0 <= n -> (forall i, n <= i -> Z.testbit x i = false) -> x < 2 ^ n.
Proof.
  intros Hx Hn Hb. destruct (Z.eq_dec x 0) as [->|Hx0]; [pose proof (Z.pow_pos_nonneg 2 n ltac:(lia) ltac:(lia)); lia|].
  apply Z.log2_lt_pow2; [lia|]. destruct (Z.lt_ge_cases (Z.log2 x) n) as [|Hl]; [done|].
  specialize (Hb _ Hl). rewrite Z.bit_log2 in Hb by lia. done.
Qed.

Lemma lxor_u64 a b : 0 <= a < 2 ^ 64 -> 0 <= b < 2 ^ 64 -> 0 <= Z.lxor a b < 2 ^ 64.
Proof.
  intros Ha Hb. assert (0 <= Z.lxor a b) by (apply Z.lxor_nonneg; lia). split; [done|].
  apply lt_pow2_testbit; [done|lia|]. intros i Hi. rewrite Z.lxor_spec.
  rewrite !(Z.bits_above_log2) by (try apply Z.lt_le_trans with 64; try lia; destruct (Z.eq_dec a 0), (Z.eq_dec b 0); subst; simpl; try lia; apply Z.log2_lt_pow2; lia).
  done.
Qed.

Lemma testbit_high x i : 0 <= x < 2 ^ 64 -> 64 <= i -> Z.testbit x i = false.
Proof.
  intros Hx Hi. destruct (Z.eq_dec x 0) as [->|]; [apply Z.bits_0|].
  apply Z.bits_above_log2; [lia|]. apply Z.lt_le_trans with 64; [apply Z.log2_lt_pow2; lia|lia].
Qed.

Lemma shiftr_u64 x k : 0 <= x < 2 ^ 64 -> 0 <= k -> 0 <= Z.shiftr x k < 2 ^ 64.
Proof.
  intros Hx Hk. rewrite Z.shiftr_div_pow2 by lia. pose proof (Z.pow_pos_nonneg 2 k ltac:(lia) ltac:(lia)).
  split; [apply Z.div_pos; lia|]. apply Z.div_lt_upper_bound; [lia|].
  apply Z.lt_le_trans with (1 * 2 ^ 64); [lia|apply Z.mul_le_mono_nonneg_r; lia].
Qed.

(** A step of the form [x ^= x >> k] is linear over xor and has no nonzero
    preimage of zero. *)
Lemma xor_shiftr_zero x k : 0 <= x < 2 ^ 64 -> 0 < k -> Z.lxor x (Z.shiftr x k) = 0 -> x = 0.
Proof.
  intros Hx Hk E. apply Z.lxor_eq in E. rewrite Z.shiftr_div_pow2 in E by lia.
  destruct (Z.eq_dec x 0) as [|]; [done|]. exfalso.
  assert (1 < 2 ^ k) by (apply Z.pow_gt_1; lia). pose proof (Z.div_lt x (2 ^ k)). lia.
Qed.

Lemma xor_shiftl_zero x k : 0 <= x < 2 ^ 64 -> 0 < k -> Z.lxor x (u64 (Z.shiftl x k)) = 0 -> x = 0.
Proof.
  intros Hx Hk E. apply Z.lxor_eq in E. apply Z.bits_inj'. intros i Hi. rewrite Z.bits_0.
  destruct (Z.lt_ge_cases i 64); [|by apply testbit_high].
  revert H. apply (Zlt_0_ind (fun i => i < 64 -> Z.testbit x i = false)); [|done].
  intros j IH Hj0 Hj. rewrite E. unfold u64. rewrite Z.mod_pow2_bits_low by lia.
  rewrite Z.shiftl_spec by lia. destruct (Z.lt_ge_cases j k); [apply Z.testbit_neg_r; lia|apply IH; lia].
Qed.

Lemma u64_lxor a b : u64 (Z.lxor a b) = Z.lxor (u64 a) (u64 b).
Proof.
  apply Z.bits_inj'. intros i Hi. unfold u64. rewrite Z.lxor_spec.
  destruct (Z.lt_ge_cases i 64).
  - by rewrite !Z.mod_pow2_bits_low, Z.lxor_spec by lia.
  - by rewrite !Z.mod_pow2_bits_high by lia.
Qed.

Lemma lxor_swap4 a b c d : Z.lxor (Z.lxor a b) (Z.lxor c d) = Z.lxor (Z.lxor a c) (Z.lxor b d).
Proof. rewrite !Z.lxor_assoc. f_equal. rewrite <- !Z.lxor_assoc. f_equal. apply Z.lxor_comm. Qed.

(** Both kinds of step distribute over xor. *)
Lemma step_r_lxor k a b :
  Z.lxor (Z.lxor a b) (Z.shiftr (Z.lxor a b) k) = Z.lxor (Z.lxor a (Z.shiftr a k)) (Z.lxor b (Z.shiftr b k)).
Proof. rewrite Z.shiftr_lxor. apply lxor_swap4. Qed.
Lemma step_l_lxor k a b :
  Z.lxor (Z.lxor a b) (u64 (Z.shiftl (Z.lxor a b) k)) =
  Z.lxor (Z.lxor a (u64 (Z.shiftl a k))) (Z.lxor b (u64 (Z.shiftl b k))).
Proof. rewrite Z.shiftl_lxor, u64_lxor. apply lxor_swap4. Qed.

Lemma xorshift_lxor a b : xorshift (Z.lxor a b) = Z.lxor (xorshift a) (xorshift b).
Proof. unfold xorshift. cbv zeta. by rewrite (step_r_lxor 12 a b), (step_l_lxor 25), (step_r_lxor 27). Qed.

Lemma xorshift_u64 x : 0 <= x < 2 ^ 64 -> 0 <= xorshift x < 2 ^ 64.
Proof. intros Hx. unfold xorshift. repeat first [apply lxor_u64|apply shiftr_u64|apply u64_range|lia]. Qed.

Lemma xorshift_zero x : 0 <= x < 2 ^ 64 -> xorshift x = 0 -> x = 0.
Proof.
  intros Hx E. unfold xorshift in E. cbv zeta in E.
  assert (0 <= Z.lxor x (Z.shiftr x 12) < 2 ^ 64) as H1 by (apply lxor_u64; [|apply shiftr_u64]; lia).
  apply xor_shiftr_zero in E; [|apply lxor_u64; [done|apply u64_range]|lia].
  apply xor_shiftl_zero in E; [|done|lia]. by apply xor_shiftr_zero in E.
Qed.

Lemma xorshift_inj a b : 0 <= a < 2 ^ 64 -> 0 <= b < 2 ^ 64 -> xorshift a = xorshift b -> a = b.
Proof.
  intros Ha Hb E. apply Z.lxor_eq, xorshift_zero; [by apply lxor_u64|].
  rewrite xorshift_lxor, E. apply Z.lxor_nilpotent.
Qed.

Lemma seed_rng_ok e r :
  (g_seeded r = true -> rng_ok r) -> (forall s, e = Some s -> 0 <= s < 2 ^ 64) -> rng_ok (seed_rng e r).
Proof.
  intros Hr He. unfold seed_rng. destruct (g_seeded r); [by apply Hr|].
  destruct e as [s|]; [|done]. specialize (He s eq_refl). destruct (Z.eqb_spec s 0); [done|].
  split; [done|]. simpl. lia.
Qed.

(** [rand] keeps its generator out of the absorbing zero state whatever
    entropy it gets, returns a value in [0, RAND_MAX], and never merges two
    distinct generator states. *)
Theorem rand_correct e r :
  (g_seeded r = true -> rng_ok r) -> (forall s, e = Some s -> 0 <= s < 2 ^ 64) ->
  0 <= (rand e r).1 <= 0x7fffffff /\ rng_ok (rand e r).2 /\
  (forall r', rng_ok r -> rng_ok r' -> (rand e r).2 = (rand e r').2 -> r = r').
Proof.
  intros Hr He. pose proof (seed_rng_ok e r Hr He) as [Hs Hx]. unfold rand. cbn [fst snd]. split_and!.
  - apply Z.land_nonneg. by right.
  - change 0x7fffffff with (Z.ones 31). rewrite Z.land_ones by lia.
    match goal with |- ?a mod _ <= _ => pose proof (Z.mod_pos_bound a (2 ^ 31) ltac:(lia)) end.
    change (Z.ones 31) with (2 ^ 31 - 1). lia.
  - split; [done|]. cbn [g_state]. pose proof (xorshift_u64 (g_state (seed_rng e r)) ltac:(lia)) as Hu.
    assert (xorshift (g_state (seed_rng e r)) <> 0); [|lia]. intros E%xorshift_zero; lia.
  - intros r' [Hs1 Hb1] [Hs2 Hb2] E. unfold seed_rng in E. rewrite Hs1, Hs2 in E.
    injection E as E. apply xorshift_inj in E; [|lia..]. destruct r, r'. simpl in *. by subst.
Qed.

Lemma rand_correct_witness :
  0 <= (rand (Some 7) (mk_rng 0 false)).1 <= 0x7fffffff /\ rng_ok (rand (Some 7) (mk_rng 0 false)).2.
Proof.
  destruct (rand_correct (Some 7) (mk_rng 0 false)) as (H1 & H2 & _); [done|intros s [= <-]; lia|].
  split; [exact H1|exact H2].
Defined.

(** ** [parse_ipv4] and [resolve] *)

(** The dotted text of an address. *)
Fixpoint dotted (ip : list Z) : list Z :=
  match ip with
  | [] => []
  | [o] => utoa_base o 10 false
  | o :: ip => utoa_base o 10 false ++ 46 :: dotted ip
  end.
Definition octets (ip : list Z) : Prop := length ip = 4%nat /\ Forall (fun o => 0 <= o < 256) ip.

Lemma parse_ipv4_digits s t parts cur b :
  Forall (fun c => is_digit c = true) s -> s <> [] -> 0 <= cur -> horner cur s < 256 ->
  parse_ipv4_loop (s ++ t) parts cur b = parse_ipv4_loop t parts (horner cur s) true.
Proof.
  intros Hs. revert cur b. induction Hs as [|c s Hc Hs IH]; intros cur b Hne Ha Hb; [done|].
  rewrite <- app_comm_cons. cbn [parse_ipv4_loop]. rewrite Hc. destruct (digit_range c Hc) as [E Hr].
  assert (horner cur (c :: s) = horner (cur * 10 + (c - 48)) s) as Eh by (unfold horner; simpl; by rewrite E).
  rewrite Eh in *. pose proof (horner_mono s (cur * 10 + (c - 48)) Hs ltac:(lia)).
  rewrite u32_small by lia. zbool. destruct s as [|c' s]; [done|]. apply IH; [done|lia|lia].
Qed.

Lemma parse_ipv4_sound s parts cur b ip :
  parse_ipv4_loop s parts cur b = Some ip -> Forall (fun o => 0 <= o < 256) parts -> 0 <= cur < 256 -> octets ip.
Proof.
  revert parts cur b. induction s as [|c s IH]; intros parts cur b; cbn [parse_ipv4_loop].
  - destruct b; [|done]. cbn [negb orb]. destruct (Z.eqb_spec (Z.of_nat (length parts)) 3); [|done].
    intros [= <-] Hp Hc. split; [rewrite length_app; simpl; lia|]. apply Forall_app. split; [exact Hp|by apply Forall_singleton].
  - destruct (is_digit c) eqn:Hd.
    + destruct (digit_range c Hd) as [_ Hr]. destruct (Z.ltb_spec 255 (u32 (cur * 10 + (c - 48)))); [done|].
      intros E Hp Hc. pose proof (u32_range (cur * 10 + (c - 48))). eapply IH; [exact E|done|lia].
    + destruct (c =? 46); [|done]. destruct b; [|done]. cbn [negb orb].
      destruct (_ =? 3); [done|]. intros E Hp Hc. eapply IH; [exact E| |lia].
      apply Forall_app. split; [exact Hp|by apply Forall_singleton].
Qed.

Lemma parse_ipv4_dotted ip : octets ip -> parse_ipv4 (Some (dotted ip)) = Some ip.
Proof.
  intros [Hl Ho]. destruct ip as [|a [|b [|c [|d [|]]]]]; try done.
  apply Forall_cons in Ho as [Ha Ho]. apply Forall_cons in Ho as [Hb Ho].
  apply Forall_cons in Ho as [Hc Ho]. apply Forall_cons in Ho as [Hd _].
  destruct (utoa_decimal a) as (Ea & Fa & Na); [lia|]. destruct (utoa_decimal b) as (Eb & Fb & Nb); [lia|].
  destruct (utoa_decimal c) as (Ec & Fc & Nc); [lia|]. destruct (utoa_decimal d) as (Ed & Fd & Nd); [lia|].
  unfold parse_ipv4. cbn [dotted].
  rewrite parse_ipv4_digits by (done || lia). rewrite Ea. cbn [parse_ipv4_loop app length].
  change (is_digit 46) with false. change (46 =? 46) with true. cbn [negb orb]. change (Z.of_nat 0 =? 3) with false. cbv iota.
  rewrite parse_ipv4_digits by (done || lia). rewrite Eb. cbn [parse_ipv4_loop app length].
  change (is_digit 46) with false. change (46 =? 46) with true. cbn [negb orb]. change (Z.of_nat 1 =? 3) with false. cbv iota.
  rewrite parse_ipv4_digits by (done || lia). rewrite Ec. cbn [parse_ipv4_loop app length].
  change (is_digit 46) with false. change (46 =? 46) with true. cbn [negb orb]. change (Z.of_nat 2 =? 3) with false. cbv iota.
  rewrite <- (app_nil_r (utoa_base d 10 false)).
  rewrite parse_ipv4_digits by (done || lia). by rewrite Ed.
Qed.

(** [resolve] answers a dotted quad itself, with exactly the octets the
    text names and without asking the kernel; every address its parser
    accepts consists of four octets. *)
Theorem resolve_dotted_correct :
  (forall sys_resolve ip t, octets ip -> resolve sys_resolve (Some (dotted ip)) t = (0, ip)) /\
  (forall s ip, parse_ipv4 s = Some ip -> octets ip).
Proof.
  split.
  - intros sys ip t Hip. unfold resolve. by rewrite parse_ipv4_dotted.
  - intros [s|] ip E; [|done]. eapply parse_ipv4_sound; [exact E|done|lia].
Qed.

(** [parse_port] accepts the empty string, and reads it as port 0. *)
Example parse_port_empty : parse_port (Some []) = Some 0.
Proof. reflexivity. Qed.

Lemma resolve_dotted_correct_witness : resolve (fun _ _ => (-1, [])) (Some (dotted [10; 0; 2; 15])) 5 = (0, [10; 0; 2; 15]).
Proof. apply (proj1 resolve_dotted_correct). split; [reflexivity|repeat constructor; lia]. Defined.

Lemma utoa_base_correct_witness : value_of 16 (char_digit <$> utoa_base 48879 16 false) = 48879.
Proof. apply (utoa_base_correct 48879 16 false); lia. Defined.
Lemma itoa_atoi_roundtrip_witness : atoi (Some (itoa (-205) 10)) = -205.
Proof. apply (itoa_atoi_roundtrip (-205)). lia. Defined.
Lemma vprintf_returns_count_witness : exists out, [120; 45; 55] = [] ++ out /\ 3 = i32 (Z.of_nat (length out)).
Proof. apply (vprintf_returns_count [120; 37; 100] [arg_word (-7)]). vm_compute. reflexivity. Defined.
Lemma printf_atoi_roundtrip_witness :
  exists out, printf log_write (Some [37; 100]) [arg_word (-42)] [] = Some (Z.of_nat (length out), out) /\ atoi (Some out) = -42.
Proof. apply (printf_atoi_roundtrip (-42)). lia. Defined.

End LibcSpec.
