(* ===== verification/Umalloc.v ===== *)
(** * The user-space heap ([libc/stdlib/malloc_user.c])

    A bump allocator over anonymous [mmap] arenas: every block is a 4-byte
    size header followed by its payload, [free] does nothing, [realloc]
    copies. The kernel's [mmap] is the interface [MmapLaws]: it fails or
    hands out a page-aligned range nobody had before. [grow_heap]'s doubling
    loop is modelled with fuel; [None] means the call does not return. *)

From S2P Require Import Prelude Mem.
Import Mem.

(** What [mmap] promises the allocator: a failure code or a fresh range. *)
Class MmapLaws {W : Type} (mmap : Z -> W -> Z * W) (mapped : W -> Z -> Prop) := {
  mmap_fresh : forall len w, 0 < len <= 2 ^ 31 ->
    let '(p, w') := mmap len w in
    (p = 0 \/ p = 2 ^ 32 - 1) /\ (forall a, mapped w a -> mapped w' a) \/
    (0 < p /\ p + len < 2 ^ 32 /\ p mod 4096 = 0 /\
     (forall a, p <= a < p + len -> ~ mapped w a) /\
     (forall a, mapped w a \/ p <= a < p + len -> mapped w' a))
}.

Module Umalloc.

Definition USER_HEAP_CHUNK : Z := 64 * 1024.
Definition MAP_FAILED : Z := 2 ^ 32 - 1.
Definition sizeof_header : Z := 4.

(** The allocator's three static variables, the memory and the kernel. *)
Record uheap (W : Type) := mk_uheap {
  heap_base : Z; heap_offset : Z; heap_capacity : Z; umem : mem; os : W
}.
#[global] Arguments mk_uheap {W} _ _ _ _ _.
#[global] Arguments heap_base {W} _.
#[global] Arguments heap_offset {W} _.
#[global] Arguments heap_capacity {W} _.
#[global] Arguments umem {W} _.
#[global] Arguments os {W} _.

Section operations.
Context {W : Type} (mmap : Z -> W -> Z * W).

(** [while (chunk < min_extra) chunk *= 2u;] *)
Fixpoint grow_chunk (fuel : nat) (chunk min_extra : Z) : option Z :=
  if chunk <? min_extra then
    match fuel with
    | O => None
    | S fuel => grow_chunk fuel (u32 (chunk * 2)) min_extra
    end
  else Some chunk.

Definition grow_heap (fuel : nat) (min_extra : Z) (h : uheap W) : option (Z * uheap W) :=
  match grow_chunk fuel USER_HEAP_CHUNK min_extra with
  | None => None
  | Some chunk =>
      let '(p, w) := mmap chunk (os h) in
      if (p =? 0) || (p =? MAP_FAILED)
      then Some (-1, mk_uheap (heap_base h) (heap_offset h) (heap_capacity h) (umem h) w)
      else Some (0, mk_uheap p 0 chunk (umem h) w)
  end.

Definition total_size (size : Z) : Z := Z.land (u32 (u32 (size + sizeof_header) + 15)) (Z.lnot 15).

(** Carving a block off the current arena. *)
Definition bump (size total : Z) (h : uheap W) : Z * uheap W :=
  let hdr := u32 (heap_base h + heap_offset h) in
  (u32 (hdr + sizeof_header),
   mk_uheap (heap_base h) (u32 (heap_offset h + total)) (heap_capacity h) (st32 (umem h) hdr size) (os h)).

Definition malloc (fuel : nat) (size : Z) (h : uheap W) : option (Z * uheap W) :=
  let total := total_size size in
  if (heap_base h =? 0) || (heap_capacity h <? heap_offset h + total) then
    match grow_heap fuel total h with
    | None => None
    | Some (rc, h) => if rc <? 0 then Some (0, h) else Some (bump size total h)
    end
  else Some (bump size total h).

Definition free (ptr : Z) (h : uheap W) : uheap W := h.

Definition with_mem (m : mem) (h : uheap W) : uheap W :=
  mk_uheap (heap_base h) (heap_offset h) (heap_capacity h) m (os h).

Definition calloc (fuel : nat) (nmemb size : Z) (h : uheap W) : option (Z * uheap W) :=
  if negb (size =? 0) && ((2 ^ 32 - 1) / size <? nmemb) then Some (0, h)
  else
    let total := u32 (nmemb * size) in
    match malloc fuel total h with
    | None => None
    | Some (p, h) =>
        if negb (p =? 0) then Some (p, with_mem (memset (umem h) p 0 (Z.to_nat total)) h) else Some (p, h)
    end.

Definition realloc (fuel : nat) (ptr size : Z) (h : uheap W) : option (Z * uheap W) :=
  if ptr =? 0 then malloc fuel size h
  else
    match malloc fuel size h with
    | None => None
    | Some (p, h) =>
        if negb (p =? 0) then
          let old := ld32 (umem h) (ptr - 4) in
          let copy_len := if old <? size then old else size in
          Some (p, with_mem (memcpy (umem h) p ptr (Z.to_nat copy_len)) h)
        else Some (p, h)
    end.
End operations.
End Umalloc.

Module UmallocSpec.
Import Umalloc.

(** ** The doubling loop *)

Lemma grow_chunk_correct k c m fuel :
  0 <= k <= Z.of_nat fuel -> 16 <= c -> c + k = 31 -> m <= 2 ^ 31 ->
  exists n, grow_chunk fuel (2 ^ c) m = Some n /\ m <= n <= 2 ^ 31 /\ 2 ^ c <= n.
Proof.
  revert k c. induction fuel as [|fuel IH]; intros k c Hk Hc E Hm; cbn [grow_chunk].
  - replace c with 31 by lia. destruct (Z.ltb_spec (2 ^ 31) m); [lia|]. exists (2 ^ 31). split; [done|lia].
  - destruct (Z.ltb_spec (2 ^ c) m) as [Hlt|Hge].
    + assert (c < 31) by (destruct (Z.lt_ge_cases c 31); [done|]; assert (2 ^ 31 <= 2 ^ c) by (apply Z.pow_le_mono_r; lia); lia).
      assert (2 ^ c * 2 = 2 ^ (c + 1)) as E2 by (rewrite Z.pow_add_r by lia; done).
      assert (2 ^ (c + 1) <= 2 ^ 31) by (apply Z.pow_le_mono_r; lia).
      assert (0 < 2 ^ c) by (apply Z.pow_pos_nonneg; lia).
      rewrite E2, u32_small by lia. destruct (IH (k - 1) (c + 1)) as (n & En & Hn1 & Hn2); [lia..|]. exists n. split; [done|lia].
    + exists (2 ^ c). split; [done|]. assert (2 ^ c <= 2 ^ 31) by (apply Z.pow_le_mono_r; lia). lia.
Qed.

Lemma grow_heap_chunk m : m <= 2 ^ 31 -> exists n, grow_chunk 16 USER_HEAP_CHUNK m = Some n /\ m <= n <= 2 ^ 31 /\ 2 ^ 16 <= n.
Proof. intros. apply (grow_chunk_correct 15 16); lia. Qed.

(** Once the chunk has wrapped to 0 it stays there. *)
Lemma grow_chunk_zero fuel m : 0 < m -> grow_chunk fuel 0 m = None.
Proof. intros. induction fuel as [|fuel IH]; cbn [grow_chunk]; zbool; [done|]. exact IH. Qed.

Lemma grow_chunk_diverges fuel c m : 0 <= c <= 31 -> 2 ^ 31 < m -> grow_chunk fuel (2 ^ c) m = None.
Proof.
  intros Hc Hm. revert c Hc. induction fuel as [|fuel IH]; intros c Hc; cbn [grow_chunk];
    assert (2 ^ c <= 2 ^ 31) by (apply Z.pow_le_mono_r; lia); zbool; [done|].
  destruct (decide (c = 31)) as [->|].
  - change (u32 (2 ^ 31 * 2)) with 0. apply grow_chunk_zero. lia.
  - assert (2 ^ c * 2 = 2 ^ (c + 1)) as -> by (rewrite Z.pow_add_r by lia; done).
    assert (2 ^ (c + 1) <= 2 ^ 31) by (apply Z.pow_le_mono_r; lia).
    assert (0 < 2 ^ (c + 1)) by (apply Z.pow_pos_nonneg; lia).
    rewrite u32_small by lia. apply IH. lia.
Qed.

Lemma total_size_spec size :
  0 <= size <= 2 ^ 31 - 4 ->
  exists k, total_size size = 16 * k /\ size + 4 <= 16 * k < size + 20 /\ 16 * k <= 2 ^ 31.
Proof.
  intros Hs. unfold total_size, sizeof_header. rewrite (u32_small (size + 4)) by lia. rewrite u32_small by lia.
  change 15 with (2 ^ 4 - 1) at 2. rewrite land_lnot_ones by lia. exists ((size + 4 + 15) / 2 ^ 4).
  change (2 ^ 4) with 16. split; [lia|]. zlia.
Qed.

(** ** The heap invariant *)

Section heap.
Context {W : Type} (mmap : Z -> W -> Z * W) (mapped : W -> Z -> Prop) {Hmmap : MmapLaws mmap mapped}.

(** A live block: payload address and size. *)
Abbreviation block := (Z * Z)%type.
Definition in_block (b : block) (a : Z) : Prop := b.1 - 4 <= a < b.1 + b.2.

(** Each live block lies in memory the process owns, outside the free part
    of the current arena, with its size in its header. *)
Definition block_ok (h : uheap W) (b : block) : Prop :=
  4 < b.1 /\ 0 <= b.2 <= 2 ^ 31 - 4 /\ b.1 + b.2 < 2 ^ 32 /\ b.1 mod 16 = 4 /\
  (forall a, in_block b a -> mapped (os h) a) /\
  (heap_base h <> 0 -> b.1 + b.2 <= heap_base h + heap_offset h \/ heap_base h + heap_capacity h <= b.1 - 4) /\
  ld32 (umem h) (b.1 - 4) = b.2.

Definition disjoint_blocks (b c : block) : Prop := forall a, in_block b a -> in_block c a -> False.

Record uheap_ok (live : list block) (h : uheap W) : Prop := {
  ok_arena : heap_base h <> 0 ->
    0 < heap_base h /\ heap_base h mod 16 = 0 /\ heap_offset h mod 16 = 0 /\
    0 <= heap_offset h <= heap_capacity h /\ heap_capacity h <= 2 ^ 31 /\
    heap_base h + heap_capacity h < 2 ^ 32 /\
    (forall a, heap_base h <= a < heap_base h + heap_capacity h -> mapped (os h) a);
  ok_blocks : Forall (block_ok h) live;
  ok_disjoint : forall i j b c, i <> j -> live !! i = Some b -> live !! j = Some c -> disjoint_blocks b c
}.

(** A block's bytes are unchanged. *)
Definition same_bytes (h h' : uheap W) (b : block) : Prop := forall a, in_block b a -> ld8 (umem h') a = ld8 (umem h) a.

(** Carving preserves the invariant and every live byte. *)
Lemma bump_correct live h size k :
  uheap_ok live h -> heap_base h <> 0 -> 0 <= size <= 2 ^ 31 - 4 ->
  size + 4 <= 16 * k -> heap_offset h + 16 * k <= heap_capacity h ->
  let '(p, h') := bump size (16 * k) h in
  p <> 0 /\ uheap_ok ((p, size) :: live) h' /\ Forall (same_bytes h h') live.
Proof.
  intros [Ha Hb Hd] Hbase Hs Hk Hroom. destruct (Ha Hbase) as (H0 & Hm & Ho & Hr & Hc & Htop & Hmap).
  unfold bump, sizeof_header. set (hdr := heap_base h + heap_offset h).
  assert (forall b, b ∈ live -> b.1 + b.2 <= hdr \/ hdr + 16 * k <= b.1 - 4) as Hsep.
  { intros b Hin. rewrite Forall_forall in Hb. destruct (Hb b Hin) as (_ & ? & _ & _ & _ & Hpos & _). unfold hdr. specialize (Hpos Hbase). lia. }
  assert (0 < hdr /\ hdr + 16 * k < 2 ^ 32) as Hh by (unfold hdr; lia).
  rewrite !(u32_small hdr), (u32_small (hdr + 4)), (u32_small (_ + 16 * k)) by lia.
  split_and!; [lia| |].
  - split; cbn [heap_base heap_offset heap_capacity umem os].
    + intros _. split_and!; try done; try lia. rewrite Z.add_mod, Ho by lia. rewrite Z.mul_comm, Z.mod_mul by lia. done.
    + constructor.
      * unfold block_ok, in_block. cbn [fst snd heap_base heap_offset heap_capacity umem os].
        split_and!; try lia.
        -- unfold hdr. zlia.
        -- intros a Hin. apply Hmap. unfold hdr in Hin. lia.
        -- replace (hdr + 4 - 4) with hdr by lia. apply ld32_st32_eq. lia.
      * rewrite Forall_forall in *. intros b Hin. destruct (Hb b Hin) as (B1 & B2 & B3 & B4 & B5 & B6 & B7).
        unfold block_ok. cbn [heap_base heap_offset heap_capacity umem os]. pose proof (Hsep b Hin). specialize (B6 Hbase).
        split_and!; try done; try lia. rewrite <- B7. apply ld32_st32_ne. lia.
    + intros [|i] [|j] b c Hij Hi Hj; cbn in Hi, Hj.
      * done.
      * injection Hi as <-. apply list_elem_of_lookup_2, Hsep in Hj. intros a H1 H2. unfold in_block in *. cbn in *. lia.
      * injection Hj as <-. apply list_elem_of_lookup_2, Hsep in Hi. intros a H1 H2. unfold in_block in *. cbn in *. lia.
      * apply (Hd i j); [congruence|done..].
  - rewrite Forall_forall. intros b Hin a Hab. cbn [umem]. pose proof (Hsep b Hin). unfold in_block in Hab. apply ld8_st32_ne. lia.
Qed.

(** A failed [mmap] changes nothing the invariant sees; a successful one
    installs an arena disjoint from every live block. *)
Lemma grow_heap_correct live h m :
  uheap_ok live h -> m <= 2 ^ 31 ->
  exists rc h', grow_heap mmap 16 m h = Some (rc, h') /\ uheap_ok live h' /\ umem h' = umem h /\
    (rc = -1 /\ (exists len, m <= len /\ ((mmap len (os h)).1 = 0 \/ (mmap len (os h)).1 = MAP_FAILED)) \/
     rc = 0 /\ heap_base h' <> 0 /\ heap_offset h' = 0 /\ m <= heap_capacity h').
Proof.
  intros [Ha Hb Hd] Hm. destruct (grow_heap_chunk m Hm) as (n & En & Hn & Hn16). unfold grow_heap. rewrite En.
  pose proof (mmap_fresh n (os h) ltac:(lia)) as Hf. destruct (mmap n (os h)) as [p w] eqn:Ep.
  destruct Hf as [[Hp Hw]|(Hp & Htop & Hal & Hfree & Hw)].
  - assert ((p =? 0) || (p =? MAP_FAILED) = true) as -> by (unfold MAP_FAILED; lia).
    do 2 eexists. split; [done|]. split_and!; [|done|left; split; [done|exists n; rewrite Ep; cbn [fst]; unfold MAP_FAILED; split; [lia|exact Hp]]]. split; cbn [heap_base heap_offset heap_capacity os umem].
    + intros Hbase. destruct (Ha Hbase) as (? & ? & ? & ? & ? & ? & ?). split_and!; auto; lia.
    + eapply Forall_impl; [exact Hb|]. intros b (B1 & B2 & B3 & B4 & B5 & B6 & B7). unfold block_ok.
      cbn [heap_base heap_offset heap_capacity os umem]. split_and!; auto; lia.
    + done.
  - assert ((p =? 0) || (p =? MAP_FAILED) = false) as -> by (unfold MAP_FAILED; lia).
    do 2 eexists. split; [done|]. split_and!; [|done|right; cbn [heap_base heap_offset heap_capacity]; lia].
    split; cbn [heap_base heap_offset heap_capacity os umem].
    + intros _. split_and!; try lia; [zlia|done|]. intros a Hr. apply Hw. by right.
    + eapply Forall_impl; [exact Hb|]. intros b (B1 & B2 & B3 & B4 & B5 & B6 & B7). unfold block_ok.
      cbn [heap_base heap_offset heap_capacity os umem]. split_and!; [lia..|done| | |done].
      * intros a Hin. apply Hw. left. auto.
      * intros _. destruct (Z.le_gt_cases (b.1 + b.2) p) as [|H1]; [left; lia|]. right.
        destruct (Z.le_gt_cases (p + n) (b.1 - 4)) as [|H2]; [lia|]. exfalso.
        apply (Hfree (Z.max p (b.1 - 4))); [lia|]. apply B5. unfold in_block. lia.
    + done.
Qed.

(** The two reasons together for which [malloc] may fail: the arena has no
    room for the block, and the kernel refuses a new one that would. *)
Definition refused (h : uheap W) (size : Z) : Prop :=
  (heap_base h = 0 \/ heap_capacity h < heap_offset h + total_size size) /\
  exists len, total_size size <= len /\ ((mmap len (os h)).1 = 0 \/ (mmap len (os h)).1 = MAP_FAILED).

Lemma malloc_ok live h size :
  uheap_ok live h -> 0 <= size <= 2 ^ 31 - 4 ->
  exists p h', malloc mmap 16 size h = Some (p, h') /\ Forall (same_bytes h h') live /\
    (p = 0 /\ refused h size /\ uheap_ok live h' \/ p <> 0 /\ uheap_ok ((p, size) :: live) h').
Proof.
  intros Hok Hs. destruct (total_size_spec size Hs) as (k & Ek & Hk & Hk31). unfold malloc. rewrite Ek.
  assert (Forall (same_bytes h h) live) as Hrefl by (by apply Forall_forall).
  destruct ((heap_base h =? 0) || (heap_capacity h <? heap_offset h + 16 * k)) eqn:Eg.
  - destruct (grow_heap_correct live h (16 * k) Hok) as (rc & h' & Eh & Hok' & Em & Hrc); [lia|]. rewrite Eh.
    destruct Hrc as [[-> Hno]|(-> & Hbase & Hoff & Hcap)].
    + do 2 eexists. split; [done|]. split; [|left; split; [done|]; split; [|done]; unfold refused; rewrite Ek; split; [lia|done]]. rewrite Forall_forall. intros b _ a _. by rewrite Em.
    + change (0 <? 0) with false. cbv iota.
      pose proof (bump_correct live h' size k Hok' Hbase Hs ltac:(lia) ltac:(lia)) as Hbump.
      destruct (bump size (16 * k) h') as [p h2]. destruct Hbump as (Hp & Hok2 & Hsame).
      do 2 eexists. split; [done|]. split; [|by right]. eapply Forall_impl; [exact Hsame|].
      intros b Hb a Hin. rewrite <- Em. by apply Hb.
  - apply orb_false_elim in Eg as [Eg1%Z.eqb_neq Eg2%Z.ltb_ge].
    pose proof (bump_correct live h size k Hok Eg1 Hs ltac:(lia) Eg2) as Hbump.
    destruct (bump size (16 * k) h) as [p h2]. destruct Hbump as (Hp & Hok2 & Hsame).
    do 2 eexists. split; [done|]. split; [done|by right].
Qed.

(** Writing inside one block's payload keeps the invariant. *)
Lemma with_mem_ok live h p size m :
  uheap_ok ((p, size) :: live) h -> agree 0 p (umem h) m -> agree (p + size) (2 ^ 32) (umem h) m ->
  uheap_ok ((p, size) :: live) (with_mem m h) /\ Forall (same_bytes h (with_mem m h)) live.
Proof.
  intros [Ha Hb Hd] Hlo Hhi.
  assert (forall b, b ∈ live -> b.1 + b.2 <= p - 4 \/ p + size <= b.1 - 4) as Hsep.
  { intros b [i Hi]%list_elem_of_lookup_1. pose proof (Hd 0%nat (S i) _ _ ltac:(done) eq_refl Hi) as Hdis.
    rewrite Forall_forall in Hb. pose proof (Hb _ (list_elem_of_here _ _)) as (B1 & B2 & _). cbn in B1, B2.
    destruct (Hb b (list_elem_of_further _ _ _ (list_elem_of_lookup_2 _ _ _ Hi))) as (C1 & C2 & _).
    destruct (Z.le_gt_cases (b.1 + b.2) (p - 4)); [by left|]. right.
    destruct (Z.le_gt_cases (p + size) (b.1 - 4)); [done|]. exfalso.
    apply (Hdis (Z.max (p - 4) (b.1 - 4))); unfold in_block; cbn; lia. }
  rewrite Forall_forall in Hb. split; [split|].
  - exact Ha.
  - rewrite Forall_forall. intros b Hin. destruct (Hb b Hin) as (B1 & B2 & B3 & B4 & B5 & B6 & B7).
    unfold block_ok, with_mem. cbn [heap_base heap_offset heap_capacity os umem]. split_and!; try done; try lia.
    rewrite <- B7. apply elem_of_cons in Hin as [->|Hin].
    + apply (agree_ld32 0 p); [done|cbn in *; lia|cbn in *; lia].
    + destruct (Hsep b Hin); [apply (agree_ld32 0 p)|apply (agree_ld32 (p + size) (2 ^ 32))]; try done; lia.
  - exact Hd.
  - rewrite Forall_forall. intros b Hin a Hab. cbn [with_mem umem]. destruct (Hb b (list_elem_of_further _ _ _ Hin)) as (C1 & C2 & C3 & _).
    unfold in_block in Hab. destruct (Hsep b Hin); [apply Hlo|apply Hhi]; lia.
Qed.

(** C15: [malloc] returns for every request of up to 2^31 - 4 bytes (above
    that its doubling loop may not end, [umalloc_large_diverges]). It fails
    only when the arena has no room and the kernel refuses a new one, and
    then every block is as it was; otherwise it returns a block whose header
    and payload lie in owned memory, disjoint from all live blocks, none of
    whose bytes it changed. *)
Theorem umalloc_correct live h size :
  uheap_ok live h -> 0 <= size <= 2 ^ 31 - 4 ->
  exists p h', malloc mmap 16 size h = Some (p, h') /\ Forall (same_bytes h h') live /\
    (p = 0 /\ refused h size /\ uheap_ok live h' \/ p <> 0 /\ uheap_ok ((p, size) :: live) h').
Proof. apply malloc_ok. Qed.

(** [realloc] of a live block returns; on success the new block is a
    live block of the requested size that starts with the old contents (as
    many bytes as both hold), and every old block is intact. *)
Theorem urealloc_correct live h ptr old size :
  uheap_ok live h -> (ptr, old) ∈ live -> 0 <= size <= 2 ^ 31 - 4 ->
  exists p h', realloc mmap 16 ptr size h = Some (p, h') /\ Forall (same_bytes h h') live /\
    (p = 0 /\ uheap_ok live h' \/
     p <> 0 /\ uheap_ok ((p, size) :: live) h' /\
     forall i, 0 <= i < Z.min old size -> ld8 (umem h') (p + i) = ld8 (umem h) (ptr + i)).
Proof.
  intros Hok Hin Hs. destruct (malloc_ok live h size Hok Hs) as (p & h1 & Em & Hsame & Hres).
  pose proof (proj1 (Forall_forall _ _) (ok_blocks _ _ Hok) _ Hin) as (B1 & B2 & B3 & _). cbn [fst snd] in B1, B2, B3.
  unfold realloc. rewrite (proj2 (Z.eqb_neq ptr 0)) by lia. rewrite Em.
  destruct Hres as [(-> & _ & Hok1)|[Hp Hok1]].
  { do 2 eexists. split; [done|]. split; [done|by left]. }
  rewrite (proj2 (Z.eqb_neq p 0)) by lia. cbn [negb].
  pose proof (proj1 (Forall_forall _ _) (ok_blocks _ _ Hok1) _ (list_elem_of_here _ _)) as (C1 & C2 & C3 & _). cbn [fst snd] in C1, C2, C3.
  pose proof (proj1 (Forall_forall _ _) (ok_blocks _ _ Hok1) _ (list_elem_of_further _ _ _ Hin)) as (_ & _ & _ & _ & _ & _ & Eold).
  cbn [fst snd] in Eold. rewrite Eold.
  replace (if old <? size then old else size) with (Z.min old size) by (destruct (Z.ltb_spec old size); lia).
  destruct (with_mem_ok live h1 p size (memcpy (umem h1) p ptr (Z.to_nat (Z.min old size)))) as [Hok2 Hs2]; [done|..].
  { intros a Ha. apply ld8_memcpy_ne. lia. }
  { intros a Ha. apply ld8_memcpy_ne. lia. }
  apply list_elem_of_lookup_1 in Hin as [j Hj]. pose proof (ok_disjoint _ _ Hok1 0%nat (S j) _ _ ltac:(done) eq_refl Hj) as Hdis.
  do 2 eexists. split; [done|]. split_and!; [|right; split_and!; [lia|done|]].
  - rewrite Forall_forall in *. intros b Hb a Hab. rewrite (Hs2 b Hb a Hab). exact (Hsame b Hb a Hab).
  - intros i Hi. cbn [with_mem umem]. rewrite ld8_memcpy_in; [|destruct (Z.le_gt_cases (p + size) (ptr - 4)); [lia|];
      destruct (Z.le_gt_cases (ptr + old) (p - 4)); [lia|]; exfalso; apply (Hdis (Z.max (p - 4) (ptr - 4))); unfold in_block; cbn; lia|lia].
    replace (ptr + (p + i - p)) with (ptr + i) by lia.
    apply (proj1 (Forall_forall _ _) Hsame (ptr, old) (list_elem_of_lookup_2 _ _ _ Hj)). unfold in_block. cbn. lia.
Qed.

(** A request between 2^31 - 3 and 2^32 - 20 bytes never returns when it
    needs a new arena: the chunk size doubles past 2^31, wraps to 0 and
    stays below the request. *)
Theorem umalloc_large_diverges fuel size h :
  2 ^ 31 - 4 < size <= 2 ^ 32 - 20 -> heap_base h = 0 -> malloc mmap fuel size h = None.
Proof.
  intros Hs Hb. unfold malloc, grow_heap. rewrite Hb. cbn [orb]. change (0 =? 0) with true. cbv iota. cbn [orb].
  assert (2 ^ 31 < total_size size) as Ht.
  { unfold total_size, sizeof_header. rewrite (u32_small (size + 4)) by lia. rewrite u32_small by lia.
    change 15 with (2 ^ 4 - 1) at 2. rewrite land_lnot_ones by lia. change (2 ^ 4) with 16. zlia. }
  change USER_HEAP_CHUNK with (2 ^ 16). rewrite grow_chunk_diverges; [done|lia|done].
Qed.
End heap.

(** A kernel that hands out consecutive page ranges of the user half, its
    state the number of pages given away. *)
Definition bump_mmap (len : Z) (w : nat) : Z * nat :=
  let pages := (len + 4095) / 4096 in
  if 0x70000 <? Z.of_nat w + pages then (0, w)
  else (0x10000000 + 4096 * Z.of_nat w, (w + Z.to_nat pages)%nat).
Definition bump_mapped (w : nat) (a : Z) : Prop := 0x10000000 <= a < 0x10000000 + 4096 * Z.of_nat w.

#[export] Instance bump_mmap_laws : MmapLaws bump_mmap bump_mapped.
Proof.
  split. intros len w Hl. unfold bump_mmap, bump_mapped.
  assert (len <= 4096 * ((len + 4095) / 4096) < len + 4096) by zlia.
  destruct (Z.ltb_spec 0x70000 (Z.of_nat w + (len + 4095) / 4096)); [left; split; [by left|done]|right].
  split_and!; try lia. rewrite Z.mul_comm. apply (Z.mod_add 0x10000000). lia.
Qed.

Definition fresh_heap : uheap nat := mk_uheap 0 0 0 ∅ 0%nat.
Lemma fresh_heap_ok : uheap_ok bump_mapped [] fresh_heap.
Proof. split; [done|done|]. intros [] [] ? ? ?; done. Qed.

Definition one_block : uheap nat := mk_uheap 0x10000000 32 65536 (st32 ∅ 0x10000000 20) 16%nat.
Lemma one_block_ok : uheap_ok bump_mapped [(0x10000004, 20)] one_block.
Proof.
  split.
  - intros _. cbn [heap_base heap_offset heap_capacity one_block os]. unfold bump_mapped. split_and!; try lia; done.
  - apply Forall_singleton. unfold block_ok. cbn [fst snd heap_base heap_offset heap_capacity one_block os umem].
    split_and!; cbn [fst snd heap_base heap_offset heap_capacity one_block os umem]; try lia; try done.
    unfold bump_mapped, in_block. cbn. lia.
  - intros [|[]] [|[]] ? ? ? ? ?; simplify_eq/=.
Qed.

(** A second block next to a live one, and a first one in a new arena. *)
Lemma umalloc_correct_witness :
  (exists h', malloc bump_mmap 16 100 one_block = Some (0x10000024, h') /\
     Forall (same_bytes one_block h') [(0x10000004, 20)] /\
     uheap_ok bump_mapped [(0x10000024, 100); (0x10000004, 20)] h') /\
  (exists h', malloc bump_mmap 16 0x20000 fresh_heap = Some (0x10000004, h') /\
     uheap_ok bump_mapped [(0x10000004, 0x20000)] h').
Proof.
  split.
  - destruct (umalloc_correct bump_mmap bump_mapped [(0x10000004, 20)] one_block 100 one_block_ok ltac:(lia))
      as (p & h' & E & Hsame & Hres). assert (p = 0x10000024) as -> by (vm_compute in E; congruence).
    exists h'. split; [exact E|]. split; [exact Hsame|]. destruct Hres as [[? _]|[_ ?]]; [done|assumption].
  - destruct (umalloc_correct bump_mmap bump_mapped [] fresh_heap 0x20000 fresh_heap_ok ltac:(lia))
      as (p & h' & E & _ & Hres). assert (p = 0x10000004) as -> by (vm_compute in E; congruence).
    exists h'. split; [exact E|]. destruct Hres as [[? _]|[_ ?]]; [done|assumption].
Defined.

Lemma urealloc_correct_witness :
  exists p h', realloc bump_mmap 16 0x10000004 50 one_block = Some (p, h') /\
    Forall (same_bytes one_block h') [(0x10000004, 20)] /\
    (p = 0 /\ uheap_ok bump_mapped [(0x10000004, 20)] h' \/
     p <> 0 /\ uheap_ok bump_mapped [(p, 50); (0x10000004, 20)] h' /\
     forall i, 0 <= i < Z.min 20 50 -> ld8 (umem h') (p + i) = ld8 (umem one_block) (0x10000004 + i)).
Proof.
  apply (urealloc_correct bump_mmap bump_mapped [(0x10000004, 20)] one_block 0x10000004 20 50);
    [exact one_block_ok|apply list_elem_of_here|lia].
Defined.

Lemma umalloc_large_diverges_witness : malloc bump_mmap 1000 0x80000000 fresh_heap = None.
Proof. apply (umalloc_large_diverges bump_mmap 1000 0x80000000 fresh_heap); [lia|reflexivity]. Defined.

(** Sizes within 19 bytes of 2^32 wrap: the block has no room at all. *)
Example umalloc_wraps : exists h, malloc bump_mmap 16 0xFFFFFFFC fresh_heap = Some (0x10000004, h) /\ heap_offset h = 0.
Proof. eexists. split; [vm_compute; reflexivity|reflexivity]. Qed.

End UmallocSpec.
