(* ===== verification/VfsPath.v ===== *)
(** * Paths of the virtual file system ([kernel/vfs.c], path part)

    [Module VfsPath] translates [vfs_normalize_path], [vfs_split_path] and
    [vfs_name_is_valid]; strings are lists of character codes without the
    terminating NUL. [Module VfsPathSpec] gives the reference definition of
    normalisation (a stack of components) and proves the code equal to it. *)

From S2P Require Import Prelude.

Module VfsPath.

Definition VFS_NAME_MAX : Z := 64.
Definition VFS_PATH_MAX : Z := 256.

Definition slash : Z := 47.
Definition dot : Z := 46.
Definition zlen {A} (l : list A) : Z := Z.of_nat (length l).

(** [while (input[i] == '/') i++] *)
Fixpoint skip_slashes (s : list Z) : list Z :=
  match s with
  | c :: t => if c =? slash then skip_slashes t else s
  | [] => []
  end.

(** The component at the front, and what follows it. *)
Fixpoint take_component (s : list Z) : list Z * list Z :=
  match s with
  | c :: t => if c =? slash then ([], s) else let '(w, r) := take_component t in (c :: w, r)
  | [] => ([], [])
  end.

(** [while (out_len > 1 && out[out_len - 1] != '/') out_len--]: the length
    reached, starting from [n]. *)
Fixpoint back_to_slash (n : nat) (out : list Z) : nat :=
  match n with
  | S (S _ as m) => if negb (out !!! m =? slash) then back_to_slash m out else n
  | _ => n
  end.

(** The [".."] case. *)
Definition drop_component (out : list Z) : list Z :=
  if 1 <? zlen out then
    let n := back_to_slash (length out) out in
    take (if 1 <? Z.of_nat n then n - 1 else n) out
  else out.

(** Appending a component, with the bounds checks of the code. *)
Definition append_component (out w : list Z) (out_size : Z) : option (list Z) :=
  if VFS_NAME_MAX <=? zlen w then None
  else if out_size <=? zlen out + zlen w + 1 then None
  else Some ((if 1 <? zlen out then out ++ [slash] else out) ++ w).

(** The main loop; every iteration consumes input. *)
Fixpoint normalize_loop (fuel : nat) (input out : list Z) (out_size : Z) : option (list Z) :=
  match fuel with
  | O => None
  | S fuel =>
      match skip_slashes input with
      | [] => Some out
      | rest =>
          let '(w, rest) := take_component rest in
          if bool_decide (w = [dot]) then normalize_loop fuel rest out out_size
          else if bool_decide (w = [dot; dot]) then normalize_loop fuel rest (drop_component out) out_size
          else
            match append_component out w out_size with
            | None => None
            | Some out => normalize_loop fuel rest out out_size
            end
      end
  end.

(** The contents of [input]: the absolute path (cut to the buffer by
    [strncpy]) or the working directory and the path. *)
Definition normalize_input (cwd path : option (list Z)) : option (list Z) :=
  let src := match path with
             | Some (c :: t) => c :: t
             | _ => match cwd with Some (c :: t) => c :: t | _ => [slash] end
             end in
  if bool_decide (head src = Some slash) then Some (take (Z.to_nat (VFS_PATH_MAX - 1)) src)
  else
    let base := match cwd with
                | Some (c :: t) => if c =? slash then c :: t else [slash]
                | _ => [slash]
                end in
    if VFS_PATH_MAX <? zlen base + 1 + zlen src + 1 then None
    else
      let input := if bool_decide (last base = Some slash) then base else base ++ [slash] in
      Some (input ++ take (Z.to_nat (VFS_PATH_MAX - zlen input - 1)) src).

(** [None] is the result -1. *)
Definition vfs_normalize_path (cwd path : option (list Z)) (out_size : Z) : option (list Z) :=
  if out_size <? 2 then None
  else
    match normalize_input cwd path with
    | None => None
    | Some input => normalize_loop (S (length input)) input [slash] out_size
    end.

Definition vfs_name_is_valid (name : option (list Z)) : bool :=
  match name with
  | None | Some [] => false
  | Some n =>
      negb (bool_decide (n = [dot])) && negb (bool_decide (n = [dot; dot])) && forallb (fun c => negb (c =? slash)) n
  end.

(** [strrchr(normalized, '/')]: the text before and after the last slash. *)
Fixpoint split_last_slash (s : list Z) : option (list Z * list Z) :=
  match s with
  | [] => None
  | c :: t =>
      match split_last_slash t with
      | Some (p, b) => Some (c :: p, b)
      | None => if c =? slash then Some ([], t) else None
      end
  end.

(** The parent path and the base name; [None] is the result -1. *)
Definition vfs_split_path (path : option (list Z)) (pp_size bn_size : Z) : option (list Z * list Z) :=
  match path with
  | None => None
  | Some _ =>
      if (pp_size =? 0) || (bn_size =? 0) then None
      else
        match vfs_normalize_path (Some [slash]) path VFS_PATH_MAX with
        | None => None
        | Some normalized =>
            if bool_decide (normalized = [slash]) then None
            else
              match split_last_slash normalized with
              | None | Some (_, []) => None
              | Some (parent, base) =>
                  let basename := take (Z.to_nat (bn_size - 1)) base in
                  if negb (vfs_name_is_valid (Some basename)) then None
                  else
                    match parent with
                    | [] => Some (take (Z.to_nat (pp_size - 1)) [slash], basename)
                    | _ => if pp_size <=? zlen parent then None else Some (parent, basename)
                    end
              end
        end
  end.

End VfsPath.

Module VfsPathSpec.
Import VfsPath.

(** ** Reference definition *)

(** The nonempty pieces between slashes; [cur] is the piece being read. *)
Definition flush (cur : list Z) : list (list Z) := match cur with [] => [] | _ => [cur] end.
Fixpoint words (s cur : list Z) : list (list Z) :=
  match s with
  | [] => flush cur
  | c :: t => if c =? slash then flush cur ++ words t [] else words t (cur ++ [c])
  end.

(** The text of a stack of components. *)
Definition joined (st : list (list Z)) : list Z := concat (map (cons slash) st).
Definition render (st : list (list Z)) : list Z := match st with [] => [slash] | _ => joined st end.

(** One component against the stack. *)
Definition push (n : Z) (st : list (list Z)) (w : list Z) : option (list (list Z)) :=
  if bool_decide (w = [dot]) then Some st
  else if bool_decide (w = [dot; dot]) then Some (removelast st)
  else if (VFS_NAME_MAX <=? zlen w) || (n <=? zlen (render st) + zlen w + 1) then None
  else Some (st ++ [w]).
Fixpoint push_all (n : Z) (st : list (list Z)) (ws : list (list Z)) : option (list (list Z)) :=
  match ws with
  | [] => Some st
  | w :: ws => match push n st w with Some st => push_all n st ws | None => None end
  end.

(** ** Components *)

Definition plain (w : list Z) : Prop := w <> [] /\ Forall (fun c => c <> slash) w.
Definition proper (w : list Z) : Prop := plain w /\ w <> [dot] /\ w <> [dot; dot] /\ zlen w < VFS_NAME_MAX.

Lemma words_cur w s cur :
  Forall (fun c => c <> slash) w -> words (w ++ s) cur = words s (cur ++ w).
Proof.
  intros Hw. revert cur. induction Hw as [|c w Hc _ IH]; intros cur; [by rewrite app_nil_r|].
  rewrite <- app_comm_cons. cbn [words]. rewrite (proj2 (Z.eqb_neq c slash)) by done. rewrite IH, <- app_assoc. done.
Qed.

Lemma words_skip s : words (skip_slashes s) [] = words s [].
Proof. induction s as [|c s IH]; cbn [skip_slashes words]; [done|]. destruct (Z.eqb_spec c slash) as [->|H]; [done|]. cbn [words]. by rewrite (proj2 (Z.eqb_neq c slash)). Qed.

Lemma take_component_spec s :
  let '(w, r) := take_component s in
  s = w ++ r /\ Forall (fun c => c <> slash) w /\ (r = [] \/ head r = Some slash).
Proof.
  induction s as [|c s IH]; cbn [take_component]; [by split_and!; auto|].
  destruct (Z.eqb_spec c slash) as [->|H]; [by split_and!; auto|].
  destruct (take_component s) as [w r]. destruct IH as (-> & Hw & Hr). split_and!; [done|by constructor|done].
Qed.

Lemma skip_slashes_head s c t : skip_slashes s = c :: t -> c <> slash /\ (length (c :: t) <= length s)%nat.
Proof.
  induction s as [|d s IH]; cbn [skip_slashes]; [done|]. destruct (Z.eqb_spec d slash) as [->|H].
  - intros E. destruct (IH E). split; [done|]. simpl in *. lia.
  - intros [= -> ->]. done.
Qed.

Lemma words_component w r : plain w -> r = [] \/ head r = Some slash -> words (w ++ r) [] = w :: words r [].
Proof.
  intros [Hne Hw] Hr. rewrite words_cur by done. cbn [app]. destruct Hr as [->|Hr].
  - cbn [words]. by destruct w.
  - destruct r as [|c r]; [done|]. injection Hr as ->. cbn [words]. change (slash =? slash) with true. cbv iota. by destruct w.
Qed.

(** ** Rendering and the [".."] case *)

Lemma joined_snoc st w : joined (st ++ [w]) = joined st ++ slash :: w.
Proof. unfold joined. rewrite map_app, concat_app. simpl. by rewrite app_nil_r. Qed.

Lemma joined_length st : Forall plain st -> st <> [] -> 2 <= zlen (joined st).
Proof.
  intros Hst Hne. destruct Hst as [|w st [Hw _] _]; [done|]. unfold joined, zlen. cbn [map concat].
  rewrite length_app. destruct w; [done|]. simpl. lia.
Qed.

Lemma render_snoc st w : Forall plain st -> render (st ++ [w]) = (if 1 <? zlen (render st) then render st ++ [slash] else render st) ++ w.
Proof.
  intros Hst. destruct st as [|v st]; [cbn [render app joined map concat]; by rewrite app_nil_r|].
  set (st' := v :: st) in *. assert (render (st' ++ [w]) = joined (st' ++ [w])) as -> by done.
  assert (render st' = joined st') as -> by done.
  pose proof (joined_length st' Hst ltac:(done)). rewrite (proj2 (Z.ltb_lt 1 _)) by lia.
  rewrite joined_snoc, <- app_assoc. done.
Qed.

Lemma back_to_slash_S m out :
  (0 < m)%nat -> back_to_slash (S m) out = if negb (out !!! m =? slash) then back_to_slash m out else S m.
Proof. by destruct m; [lia|]. Qed.

Lemma back_to_slash_word pre w k out :
  Forall (fun c => c <> slash) w -> take (length pre + 1 + length w) out = pre ++ slash :: w -> (k <= length w)%nat ->
  back_to_slash (length pre + 1 + k) out = (length pre + 1)%nat.
Proof.
  intros Hw Hout. assert (forall j c, (pre ++ slash :: w) !! j = Some c -> out !!! j = c) as Hlk.
  { intros j c E. rewrite <- Hout in E. apply lookup_take_Some in E as [E _]. by apply list_lookup_total_correct. }
  induction k as [|k IH]; intros Hk.
  - rewrite Nat.add_0_r. destruct pre as [|a pre]; [done|]. replace (length (a :: pre) + 1)%nat with (S (S (length pre))) by (simpl; lia).
    rewrite back_to_slash_S by lia. rewrite (Hlk (S (length pre)) slash); [done|]. by rewrite lookup_app_r, Nat.sub_diag by (simpl; lia).
  - replace (length pre + 1 + S k)%nat with (S (length pre + 1 + k)) by lia. rewrite back_to_slash_S by lia.
    destruct (lookup_lt_is_Some_2 w k ltac:(lia)) as [c Hc].
    rewrite (Hlk (length pre + 1 + k)%nat c).
    + rewrite Forall_lookup in Hw. rewrite (proj2 (Z.eqb_neq c slash)) by (by eapply Hw). apply IH. lia.
    + rewrite lookup_app_r by lia. replace (length pre + 1 + k - length pre)%nat with (S k) by lia. done.
Qed.

Lemma drop_component_render st : Forall plain st -> drop_component (render st) = render (removelast st).
Proof.
  intros Hst. destruct st as [|w st] using rev_ind; [done|]. rewrite removelast_last.
  apply Forall_app in Hst as [Hst [[Hne Hw] _]%Forall_cons].
  assert (render (st ++ [w]) = joined st ++ slash :: w) as -> by (rewrite <- joined_snoc; by destruct st).
  unfold drop_component, zlen. rewrite length_app. cbn [length]. destruct w as [|c w]; [done|]. set (v := c :: w) in *.
  rewrite (proj2 (Z.ltb_lt _ _)) by (unfold v; simpl; lia).
  replace (length (joined st) + S (length v))%nat with (length (joined st) + 1 + length v)%nat by lia.
  rewrite (back_to_slash_word (joined st) v (length v)); [|done| |lia].
  2: { rewrite take_ge; [done|]. rewrite length_app. simpl. lia. }
  destruct st as [|u st]; [done|]. set (st' := u :: st) in *.
  pose proof (joined_length st' Hst ltac:(done)) as Hl. unfold zlen in Hl.
  rewrite (proj2 (Z.ltb_lt _ _)) by lia. rewrite Nat.add_sub, take_app_length. done.
Qed.

(** ** The loop *)

Lemma push_plain n st w st' : Forall plain st -> plain w -> push n st w = Some st' -> Forall plain st'.
Proof.
  intros Hst Hw. unfold push. repeat case_bool_decide.
  - by intros [= <-].
  - intros [= <-]. destruct st as [|v st] using rev_ind; [done|]. rewrite removelast_last. by apply Forall_app in Hst as [? _].
  - destruct (_ || _); [done|]. intros [= <-]. apply Forall_app. split; [done|by apply Forall_singleton].
Qed.

Lemma normalize_loop_spec fuel input st n :
  (length input < fuel)%nat -> Forall plain st ->
  normalize_loop fuel input (render st) n = render <$> push_all n st (words input []).
Proof.
  revert input st. induction fuel as [|fuel IH]; intros input st Hf Hst; [lia|]. cbn [normalize_loop].
  rewrite <- words_skip. destruct (skip_slashes input) as [|c t] eqn:Es; [done|].
  destruct (skip_slashes_head _ _ _ Es) as [Hc Hlen]. pose proof (take_component_spec (c :: t)) as Ht.
  destruct (take_component (c :: t)) as [w r]. destruct Ht as (E & Hw & Hr). rewrite E.
  assert (plain w) as Hp.
  { split; [|done]. intros ->. cbn [app] in E. subst r. destruct Hr as [|Hr]; [done|]. by injection Hr. }
  assert (length r < fuel)%nat as Hfr.
  { rewrite E, length_app in Hlen. destruct Hp as [Hne _]. destruct w; [done|]. simpl in Hlen. lia. }
  rewrite words_component by done. cbn [push_all].
  pose proof (push_plain n st w) as Hpp. unfold push in *. repeat case_bool_decide.
  - by apply IH.
  - rewrite drop_component_render by done. apply IH; [done|]. by apply Hpp.
  - unfold append_component. destruct (VFS_NAME_MAX <=? zlen w); [done|]. cbn [orb] in *.
    destruct (n <=? zlen (render st) + zlen w + 1); [done|]. rewrite <- render_snoc by done. apply IH; [done|]. by apply Hpp.
Qed.

(** Every stack the loop builds consists of proper names that fit. *)
Definition fits (n : Z) (st : list (list Z)) : Prop :=
  forall pre w post, st = pre ++ w :: post -> zlen (render pre) + zlen w + 1 < n.
Record stack_ok (n : Z) (st : list (list Z)) : Prop := {
  stack_proper : Forall proper st;
  stack_fits : fits n st
}.

Lemma proper_plain st : Forall proper st -> Forall plain st.
Proof. intros H. eapply Forall_impl; [exact H|]. by intros w (? & _). Qed.

Lemma push_ok n st w st' : stack_ok n st -> plain w -> push n st w = Some st' -> stack_ok n st'.
Proof.
  intros [Hp Hf] Hw. unfold push. repeat case_bool_decide.
  - by intros [= <-].
  - intros [= <-]. destruct st as [|v st] using rev_ind; [done|]. rewrite removelast_last.
    apply Forall_app in Hp as [Hp _]. split; [done|]. intros pre u post ->. apply (Hf pre u (post ++ [v])).
    by rewrite <- app_assoc.
  - destruct (Z.leb_spec VFS_NAME_MAX (zlen w)); [done|]. cbn [orb].
    destruct (Z.leb_spec n (zlen (render st) + zlen w + 1)); [done|]. intros [= <-]. split.
    + apply Forall_app. split; [done|]. by apply Forall_singleton.
    + intros pre u post E. destruct post as [|x post _] using rev_ind.
      * apply app_inj_tail in E as [<- <-]. done.
      * rewrite app_comm_cons, app_assoc in E. apply app_inj_tail in E as [-> _]. by eapply Hf.
Qed.

Lemma words_plain s cur : Forall (fun c => c <> slash) cur -> Forall plain (words s cur).
Proof.
  revert cur. induction s as [|c s IH]; intros cur Hc; cbn [words].
  - destruct cur; [done|]. by apply Forall_singleton.
  - destruct (Z.eqb_spec c slash) as [->|H].
    + apply Forall_app. split; [|by apply IH]. destruct cur; [done|]. by apply Forall_singleton.
    + apply IH. apply Forall_app. split; [done|by apply Forall_singleton].
Qed.

Lemma push_all_ok n st ws st' : stack_ok n st -> Forall plain ws -> push_all n st ws = Some st' -> stack_ok n st'.
Proof.
  intros Hst Hws. revert st Hst. induction Hws as [|w ws Hw _ IH]; intros st Hst; cbn [push_all]; [by intros [= <-]|].
  destruct (push n st w) as [st1|] eqn:E; [|done]. apply IH. by eapply push_ok.
Qed.

(** Reading a rendered stack back gives the stack. *)
Lemma words_joined st : Forall plain st -> words (joined st) [] = st.
Proof.
  induction 1 as [|w st Hw _ IH]; [done|]. unfold joined. cbn [map concat]. rewrite <- app_comm_cons. cbn [words].
  change (slash =? slash) with true. cbv iota. cbn [flush app]. rewrite words_component; [by f_equal|done|].
  destruct st; [by left|by right].
Qed.
Lemma words_render st : Forall plain st -> words (render st) [] = st.
Proof. destruct st; [done|apply words_joined]. Qed.

Lemma push_proper n st w :
  proper w -> zlen (render st) + zlen w + 1 < n -> push n st w = Some (st ++ [w]).
Proof. intros (_ & H1 & H2 & H3) Hf. unfold push. rewrite !bool_decide_eq_false_2 by done. zbool. done. Qed.

Lemma push_all_fits n st post : stack_ok n (st ++ post) -> push_all n st post = Some (st ++ post).
Proof.
  revert st. induction post as [|w post IH]; intros st Hok; cbn [push_all]; [by rewrite app_nil_r|].
  rewrite push_proper.
  - rewrite IH; rewrite <- app_assoc; done.
  - destruct Hok as [Hp _]. apply Forall_app in Hp as [_ [? _]%Forall_cons]. done.
  - by eapply stack_fits.
Qed.

Lemma render_length n st : stack_ok n st -> 2 <= n -> zlen (render st) < n.
Proof.
  intros Hok Hn. destruct st as [|w st _] using rev_ind; [unfold zlen; simpl; lia|].
  pose proof (stack_fits _ _ Hok st w [] eq_refl). destruct Hok as [Hp _].
  apply proper_plain in Hp. apply Forall_app in Hp as [Hp _]. rewrite render_snoc by done. unfold zlen in *.
  destruct (1 <? _); rewrite !length_app; simpl; lia.
Qed.

Lemma normalize_stack cwd path n r :
  vfs_normalize_path cwd path n = Some r -> exists st, r = render st /\ stack_ok n st.
Proof.
  unfold vfs_normalize_path. destruct (n <? 2); [done|]. destruct (normalize_input cwd path) as [input|]; [|done].
  rewrite (normalize_loop_spec _ input [] n) by (done || lia). rewrite fmap_Some. intros (st & E & ->).
  exists st. split; [done|]. eapply push_all_ok; [|apply words_plain; constructor|exact E]. split; [constructor|].
  by intros [] w post.
Qed.

(** A normal path is its own normal form. *)
Lemma normalize_render st :
  stack_ok VFS_PATH_MAX st -> vfs_normalize_path (Some [slash]) (Some (render st)) VFS_PATH_MAX = Some (render st).
Proof.
  intros Hok. pose proof (render_length _ _ Hok ltac:(done)) as Hl. pose proof (proper_plain _ (stack_proper _ _ Hok)) as Hp.
  unfold vfs_normalize_path. change (VFS_PATH_MAX <? 2) with false. cbv iota.
  assert (normalize_input (Some [slash]) (Some (render st)) = Some (render st)) as ->.
  { unfold normalize_input. destruct (render st) as [|c t] eqn:E; [by destruct st|].
    assert (head (c :: t) = Some slash) as Hh by (rewrite <- E; by destruct st).
    rewrite bool_decide_eq_true_2 by done. rewrite take_ge; [done|]. unfold zlen, VFS_PATH_MAX in *. lia. }
  rewrite (normalize_loop_spec _ (render st) [] _) by (done || lia). rewrite words_render by done.
  by rewrite (push_all_fits _ [] st).
Qed.

(** C16: [vfs_normalize_path] computes the reference normal form: the
    components of the input against a stack, ["."] dropped, [".."] popping,
    refused when a name or the result is too long. *)
Theorem normalize_path_correct cwd path n :
  vfs_normalize_path cwd path n =
  if n <? 2 then None
  else input ← normalize_input cwd path; render <$> push_all n [] (words input []).
Proof.
  unfold vfs_normalize_path. destruct (n <? 2); [done|]. destruct (normalize_input cwd path) as [input|]; [|done].
  cbn [mbind option_bind]. apply (normalize_loop_spec _ input [] n); [lia|done].
Qed.

(** C17: Every path [vfs_normalize_path] returns is ["/"] or a sequence of
    proper components (nonempty, no slash, not a dot name, shorter than
    VFS_NAME_MAX), is shorter than the buffer, and normalising it again does
    not change it. *)
Theorem normalize_path_canonical cwd path r :
  vfs_normalize_path cwd path VFS_PATH_MAX = Some r ->
  (exists st, r = render st /\ Forall proper st) /\ zlen r < VFS_PATH_MAX /\
  vfs_normalize_path (Some [slash]) (Some r) VFS_PATH_MAX = Some r.
Proof.
  intros (st & -> & Hok)%normalize_stack. split_and!.
  - exists st. split; [done|apply Hok].
  - by apply render_length.
  - by apply normalize_render.
Qed.

(** ** Splitting *)

Lemma split_last_slash_word w : Forall (fun c => c <> slash) w -> split_last_slash w = None.
Proof. induction 1 as [|c w Hc _ IH]; cbn [split_last_slash]; [done|]. rewrite IH. by rewrite (proj2 (Z.eqb_neq c slash)). Qed.
Lemma split_last_slash_app p w : Forall (fun c => c <> slash) w -> split_last_slash (p ++ slash :: w) = Some (p, w).
Proof.
  intros Hw. induction p as [|c p IH]; cbn [app split_last_slash]; [by rewrite split_last_slash_word|by rewrite IH].
Qed.

Lemma proper_valid w : proper w -> vfs_name_is_valid (Some w) = true.
Proof.
  intros ([Hne Hs] & H1 & H2 & _). unfold vfs_name_is_valid. destruct w as [|c w]; [done|].
  rewrite !bool_decide_eq_false_2 by done. cbn [negb andb]. apply forallb_forall. intros x Hx%list_elem_of_In.
  rewrite Forall_forall in Hs. rewrite (proj2 (Z.eqb_neq x slash)); [done|]. by apply Hs.
Qed.

(** [vfs_split_path] with the buffers the kernel uses splits a normal
    path into the normal path of its parent and its last component, and
    refuses the root. *)
Theorem split_path_correct path st w :
  vfs_normalize_path (Some [slash]) (Some path) VFS_PATH_MAX = Some (render (st ++ [w])) ->
  Forall proper (st ++ [w]) ->
  vfs_split_path (Some path) VFS_PATH_MAX VFS_NAME_MAX = Some (render st, w) /\
  render (st ++ [w]) = (if bool_decide (st = []) then [] else render st) ++ slash :: w.
Proof.
  intros E Hp. assert (render (st ++ [w]) = joined st ++ slash :: w) as Er by (rewrite <- joined_snoc; by destruct st).
  pose proof Hp as [Hst [Hw _]%Forall_cons]%Forall_app. pose proof Hw as ([Hne Hns] & _ & _ & Hlen).
  split; [|rewrite Er; by destruct st]. unfold vfs_split_path.
  change ((VFS_PATH_MAX =? 0) || (VFS_NAME_MAX =? 0)) with false. cbv iota.
  rewrite E. destruct (normalize_stack _ _ _ _ E) as (st2 & E2 & Hok).
  assert (zlen (joined st ++ slash :: w) < VFS_PATH_MAX) as Hlr by (rewrite <- Er, E2; by apply render_length).
  rewrite Er. rewrite bool_decide_eq_false_2.
  2: { destruct w as [|c w]; [done|]. by destruct (joined st) as [|? [|]]. }
  rewrite split_last_slash_app by done. destruct w as [|c w]; [done|].
  rewrite take_ge by (unfold zlen, VFS_NAME_MAX in *; lia). rewrite proper_valid by done. cbn [negb].
  destruct st as [|v st]; [done|]. set (st' := v :: st) in *. assert (render st' = joined st') as -> by done.
  assert (zlen (joined st') < VFS_PATH_MAX) by (unfold zlen in *; rewrite length_app in Hlr; lia).
  destruct (joined st') as [|a p] eqn:Ej; [done|]. by rewrite (proj2 (Z.leb_gt _ _)) by lia.
Qed.

(** An absolute path longer than the buffer is cut by [strncpy] before it is
    normalised, so it silently names a different file. *)
Example normalize_truncates :
  let seg := slash :: replicate 62 97 in
  let dir := seg ++ seg ++ seg ++ seg in
  vfs_normalize_path (Some [slash]) (Some (dir ++ [slash; 97; 98; 99])) VFS_PATH_MAX = Some (dir ++ [slash; 97; 98]).
Proof. vm_compute. reflexivity. Qed.

(** ["/a/./b/../c"] *)
Definition sample_path : list Z := [47; 97; 47; 46; 47; 98; 47; 46; 46; 47; 99].
Lemma normalize_path_canonical_witness :
  zlen [47; 97; 47; 99] < VFS_PATH_MAX /\
  vfs_normalize_path (Some [slash]) (Some [47; 97; 47; 99]) VFS_PATH_MAX = Some [47; 97; 47; 99].
Proof. apply (normalize_path_canonical None (Some sample_path) [47; 97; 47; 99]). vm_compute. reflexivity. Defined.
Lemma split_path_correct_witness : vfs_split_path (Some sample_path) VFS_PATH_MAX VFS_NAME_MAX = Some ([47; 97], [99]).
Proof.
  apply (split_path_correct sample_path [[97]] [99]); [vm_compute; reflexivity|].
  repeat (constructor; [repeat split; try done; by apply Forall_singleton|]). constructor.
Defined.

End VfsPathSpec.
