(* ===== verification/Vfs.v ===== *)
(** * The virtual file system ([kernel/vfs.c])

    Nodes live in one store [nodes], addressed like the C pointers (0 is
    [NULL]); a node names its operation table by number and [vtable] gives
    the functions, so file systems are parameters of this layer. Every
    operation is a computation of the monad [M]: it returns a value and a new
    state, dereferences a freed node ([Undef]), or is still running when its
    fuel is used up ([Hang]: a task waiting on a pipe, or a loop that does
    not end). [Module Vfs] is the translation, with mounts, path walking,
    permissions, anonymous pipes and the descriptor tables of all tasks. *)

From S2P Require Import Prelude Ring VfsPath.

Module Vfs.
Import Ring VfsPath.

(** ** Constants *)

Definition VFS_FILE : Z := 1.
Definition VFS_DIRECTORY : Z := 2.
Definition VFS_MODE_IROTH : Z := 4.
Definition VFS_MODE_IWOTH : Z := 2.
Definition VFS_MODE_IXOTH : Z := 1.
Definition VFS_MODE_FILE_DEFAULT : Z := 0x1A4. (* 0644 *)
Definition VFS_MODE_DIR_DEFAULT : Z := 0x1ED.  (* 0755 *)
Definition VFS_O_RDONLY : Z := 0.
Definition VFS_O_WRONLY : Z := 1.
Definition VFS_O_RDWR : Z := 2.
Definition VFS_O_CREATE : Z := 4.
Definition VFS_O_TRUNC : Z := 8.
Definition VFS_O_APPEND : Z := 0x10.
Definition VFS_O_CLOEXEC : Z := 0x20.
Definition VFS_FD_CLOEXEC : Z := 1.
Definition VFS_F_GETFD : Z := 1.
Definition VFS_F_SETFD : Z := 2.
Definition VFS_MAX_MOUNTS : nat := 8.
Definition VFS_PIPE_CAPACITY : Z := 1024.
Definition TASK_MAX_FDS : nat := 64.
Definition NULL : Z := 0.

(** ** Data *)

(** What [node->impl] points to, by driver. *)
Inductive impl_data :=
| impl_null
| impl_file (data : option (list Z)) (capacity : Z)
| impl_pipe (pipe : Z) (is_writer : bool) (refs : Z)
| impl_minfs (fs : nat) (index : Z)
| impl_ext (p : Z).

Record vfs_node := mk_node {
  n_name : list Z;
  n_type : Z;
  n_size : Z;
  n_inode : Z;
  n_mode : Z;
  n_uid : Z;
  n_gid : Z;
  n_ops : Z;
  n_impl : impl_data;
  n_parent : Z;
  n_children : list Z
}.

Record vfs_dirent := mk_dirent { d_name : list Z; d_inode : Z; d_type : Z }.
Record vfs_stat_t := mk_stat { st_inode : Z; st_type : Z; st_size : Z; st_mode : Z; st_uid : Z; st_gid : Z }.
Record vfs_mount_entry := mk_mount { m_path : list Z; m_root : Z; m_in_use : bool }.
Record vfs_pipe := mk_pipe { p_ring : ring Z; p_readers : Z; p_writers : Z }.
Record task_fd := mk_fd { f_node : Z; f_offset : Z; f_open_flags : Z; f_fd_flags : Z; f_in_use : bool }.
Record task := mk_task { t_uid : Z; t_gid : Z; t_fds : list task_fd }.

Definition no_mount : vfs_mount_entry := mk_mount [] NULL false.
Definition no_fd : task_fd := mk_fd NULL 0 0 0 false.
#[global] Instance task_fd_inhabited : Inhabited task_fd := populate no_fd.
#[global] Instance mount_inhabited : Inhabited vfs_mount_entry := populate no_mount.

Definition with_impl (i : impl_data) (n : vfs_node) : vfs_node :=
  mk_node (n_name n) (n_type n) (n_size n) (n_inode n) (n_mode n) (n_uid n) (n_gid n) (n_ops n) i (n_parent n) (n_children n).
Definition with_size (z : Z) (n : vfs_node) : vfs_node :=
  mk_node (n_name n) (n_type n) z (n_inode n) (n_mode n) (n_uid n) (n_gid n) (n_ops n) (n_impl n) (n_parent n) (n_children n).
Definition with_children (l : list Z) (n : vfs_node) : vfs_node :=
  mk_node (n_name n) (n_type n) (n_size n) (n_inode n) (n_mode n) (n_uid n) (n_gid n) (n_ops n) (n_impl n) (n_parent n) l.
Definition with_mode (z : Z) (n : vfs_node) : vfs_node :=
  mk_node (n_name n) (n_type n) (n_size n) (n_inode n) z (n_uid n) (n_gid n) (n_ops n) (n_impl n) (n_parent n) (n_children n).
Definition with_owner (u g : Z) (n : vfs_node) : vfs_node :=
  mk_node (n_name n) (n_type n) (n_size n) (n_inode n) (n_mode n) u g (n_ops n) (n_impl n) (n_parent n) (n_children n).

(** The kernel state the layer reaches; [ext] is the drivers' own state,
    [allocs] counts the heap requests made so far. *)
Record vfs (E : Type) := mk_vfs {
  vfs_root : Z;
  vfs_mounts : list vfs_mount_entry;
  nodes : gmap Z vfs_node;
  pipes : gmap Z vfs_pipe;
  tasks : list task;
  current : option nat;
  next_inode : Z;
  allocs : nat;
  ext : E
}.
#[global] Arguments mk_vfs {E}.
#[global] Arguments vfs_root {E}.
#[global] Arguments vfs_mounts {E}.
#[global] Arguments nodes {E}.
#[global] Arguments pipes {E}.
#[global] Arguments tasks {E}.
#[global] Arguments current {E}.
#[global] Arguments next_inode {E}.
#[global] Arguments allocs {E}.
#[global] Arguments ext {E}.

Section state.
Context {E : Type}.
Implicit Types s : vfs E.
Definition set_root r s := mk_vfs r (vfs_mounts s) (nodes s) (pipes s) (tasks s) (current s) (next_inode s) (allocs s) (ext s).
Definition set_mounts m s := mk_vfs (vfs_root s) m (nodes s) (pipes s) (tasks s) (current s) (next_inode s) (allocs s) (ext s).
Definition set_nodes n s := mk_vfs (vfs_root s) (vfs_mounts s) n (pipes s) (tasks s) (current s) (next_inode s) (allocs s) (ext s).
Definition set_pipes p s := mk_vfs (vfs_root s) (vfs_mounts s) (nodes s) p (tasks s) (current s) (next_inode s) (allocs s) (ext s).
Definition set_tasks t s := mk_vfs (vfs_root s) (vfs_mounts s) (nodes s) (pipes s) t (current s) (next_inode s) (allocs s) (ext s).
Definition set_inode i s := mk_vfs (vfs_root s) (vfs_mounts s) (nodes s) (pipes s) (tasks s) (current s) i (allocs s) (ext s).
Definition set_allocs a s := mk_vfs (vfs_root s) (vfs_mounts s) (nodes s) (pipes s) (tasks s) (current s) (next_inode s) a (ext s).
End state.

(** ** The monad *)

Inductive outcome (E A : Type) := Ret (a : A) (s : vfs E) | Hang (s : vfs E) | Undef.
#[global] Arguments Ret {E A}.
#[global] Arguments Hang {E A}.
#[global] Arguments Undef {E A}.

Definition M (E A : Type) : Type := vfs E -> outcome E A.
Definition ret {E A} (a : A) : M E A := fun s => Ret a s.
Definition bind {E A B} (m : M E A) (k : A -> M E B) : M E B :=
  fun s => match m s with Ret a s => k a s | Hang s => Hang s | Undef => Undef end.
Definition get {E} : M E (vfs E) := fun s => Ret s s.
Definition modify {E} (f : vfs E -> vfs E) : M E unit := fun s => Ret tt (f s).

Declare Scope vfs_scope.
Delimit Scope vfs_scope with vfs.
Notation "'let!' x ':=' m 'in' k" := (bind m (fun x => k)) (at level 200, x name, m at level 100, k at level 200) : vfs_scope.
Notation "m ';;;' k" := (bind m (fun _ => k)) (at level 199, right associativity) : vfs_scope.
Open Scope vfs_scope.

(** The operation table of a node ([None]: a null function pointer). *)
Record vtable (E : Type) := mk_vtable {
  op_read : option (Z -> Z -> Z -> M E (Z * list Z));
  op_write : option (Z -> Z -> list Z -> M E Z);
  op_open : option (Z -> Z -> M E Z);
  op_close : option (Z -> M E unit);
  op_readdir : option (Z -> Z -> M E (option vfs_dirent));
  op_finddir : option (Z -> list Z -> M E Z);
  op_create : option (Z -> list Z -> Z -> M E Z);
  op_unlink : option (Z -> list Z -> M E Z)
}.
#[global] Arguments mk_vtable {E}.
#[global] Arguments op_read {E}.
#[global] Arguments op_write {E}.
#[global] Arguments op_open {E}.
#[global] Arguments op_close {E}.
#[global] Arguments op_readdir {E}.
#[global] Arguments op_finddir {E}.
#[global] Arguments op_create {E}.
#[global] Arguments op_unlink {E}.

(** ** Heap and node access *)

Section access.
Context {E : Type} (serves : nat -> bool).
Implicit Types s : vfs E.

(** A heap request: [serves k] says whether the [k]-th one succeeds. *)
Definition kalloc : M E Z := fun s =>
  let k := allocs s in
  Ret (if serves k then Z.of_nat k + 1 else NULL) (set_allocs (S k) s).

Definition deref (a : Z) : M E vfs_node := fun s =>
  match nodes s !! a with Some n => Ret n s | None => Undef end.
Definition put_node (a : Z) (n : vfs_node) : M E unit := modify (fun s => set_nodes (<[a := n]> (nodes s)) s).
Definition free_node (a : Z) : M E unit := modify (fun s => set_nodes (delete a (nodes s)) s).
Definition deref_pipe (a : Z) : M E vfs_pipe := fun s =>
  match pipes s !! a with Some p => Ret p s | None => Undef end.
Definition put_pipe (a : Z) (p : vfs_pipe) : M E unit := modify (fun s => set_pipes (<[a := p]> (pipes s)) s).
Definition free_pipe (a : Z) : M E unit := modify (fun s => set_pipes (delete a (pipes s)) s).
Definition task_of s : option task := match current s with Some k => tasks s !! k | None => None end.

Definition vfs_effective_uid s : Z := match task_of s with Some t => t_uid t | None => 0 end.
Definition vfs_effective_gid s : Z := match task_of s with Some t => t_gid t | None => 0 end.

(** Owner, group and other bit of a permission. *)
Definition vfs_perm_triplet (perm : Z) : option (Z * Z * Z) :=
  if perm =? VFS_MODE_IROTH then Some (0x100, 0x20, 4)
  else if perm =? VFS_MODE_IWOTH then Some (0x80, 0x10, 2)
  else if perm =? VFS_MODE_IXOTH then Some (0x40, 8, 1)
  else None.

Definition vfs_node_allows s (node : vfs_node) (perm : Z) : bool :=
  if n_mode node =? 0 then true
  else
    match vfs_perm_triplet perm with
    | None => false
    | Some (owner_bit, group_bit, other_bit) =>
        let uid := vfs_effective_uid s in
        let gid := vfs_effective_gid s in
        if uid =? 0 then true
        else if uid =? n_uid node then is_set (n_mode node) owner_bit
        else if gid =? n_gid node then is_set (n_mode node) group_bit
        else is_set (n_mode node) other_bit
    end.

Definition allows (a perm : Z) : M E bool :=
  let! n := deref a in let! s := get in ret (vfs_node_allows s n perm).
End access.

(** ** Mount table and initialisation *)

Section mounts.
Context {E : Type}.
Implicit Types s : vfs E.

(** [strcmp(path, mpath) == 0 || (strncmp(path, mpath, mlen) == 0 && path[mlen] == '/')] *)
Definition mount_matches (path mpath : list Z) : bool :=
  bool_decide (path = mpath) ||
  (bool_decide (take (length mpath) path = mpath) && bool_decide (path !! length mpath = Some slash)).

(** The search for the longest matching mount path. *)
Fixpoint best_mount (path : list Z) (ms : list vfs_mount_entry) (best_len : nat) (best : Z) : nat * Z :=
  match ms with
  | [] => (best_len, best)
  | m :: ms =>
      if negb (m_in_use m) || (m_root m =? NULL) then best_mount path ms best_len best
      else
        let mlen := length (m_path m) in
        if bool_decide (mlen = 0%nat) then best_mount path ms best_len best
        else if mount_matches path (m_path m) && bool_decide (best_len < mlen)%nat
             then best_mount path ms mlen (m_root m)
             else best_mount path ms best_len best
  end.

(** The mounted root and the length of its path; the remainder of [path]
    starts one character after it unless the path ends there. *)
Definition vfs_mount_lookup_by_path (path : list Z) s : option (Z * nat) :=
  let '(best_len, best) := best_mount path (vfs_mounts s) 0 NULL in
  if best =? NULL then None else Some (best, best_len).

Definition vfs_initialize s : vfs E := set_mounts (replicate VFS_MAX_MOUNTS no_mount) (set_root NULL s).
Definition vfs_get_root s : Z := vfs_root s.
Definition vfs_set_root (r : Z) s : vfs E := set_root r s.

(** First in-use entry with the path; first unused entry. *)
Fixpoint find_mount (p : vfs_mount_entry -> bool) (ms : list vfs_mount_entry) (i : nat) : option nat :=
  match ms with
  | [] => None
  | m :: ms => if p m then Some i else find_mount p ms (S i)
  end.

Definition vfs_mount (mount_path : option (list Z)) (root_node : Z) s : Z * vfs E :=
  match mount_path with
  | None => (-1, s)
  | Some _ =>
      if root_node =? NULL then (-1, s)
      else
        match vfs_normalize_path (Some [slash]) mount_path VFS_PATH_MAX with
        | None => (-1, s)
        | Some normalized =>
            if bool_decide (normalized = [slash]) then (0, vfs_set_root root_node s)
            else
              match find_mount (fun m => m_in_use m && bool_decide (m_path m = normalized)) (vfs_mounts s) 0 with
              | Some i => (0, set_mounts (<[i := mk_mount normalized root_node true]> (vfs_mounts s)) s)
              | None =>
                  match find_mount (fun m => negb (m_in_use m)) (vfs_mounts s) 0 with
                  | Some i =>
                      (0, set_mounts (<[i := mk_mount (take (Z.to_nat (VFS_PATH_MAX - 1)) normalized) root_node true]>
                                        (vfs_mounts s)) s)
                  | None => (-1, s)
                  end
              end
        end
  end.
End mounts.

(** ** Path walking *)

(** [remainder] points into [normalized], into [built_path], or to the empty
    literal; the text it denotes depends on the current [built_path]. *)
Inductive cursor := in_normalized (k : nat) | in_built (k : nat) | at_empty.
Definition advance (n : nat) (p : cursor) : cursor :=
  match p with in_normalized k => in_normalized (k + n) | in_built k => in_built (k + n) | at_empty => at_empty end.
Definition text (normalized built : list Z) (p : cursor) : list Z :=
  match p with in_normalized k => drop k normalized | in_built k => drop k built | at_empty => [] end.

(** Extending [built_path] by a component, when it fits. *)
Definition extend_built (built component : list Z) : list Z :=
  if zlen built + 1 + zlen component <? VFS_PATH_MAX then
    let b := match built with [] => [slash] | _ => built end in
    let b := if bool_decide (last b = Some slash) then b else b ++ [slash] in
    b ++ take (Z.to_nat (VFS_PATH_MAX - zlen b - 1)) component
  else built.

Section walk.
Context {E : Type} (drivers : Z -> vtable E).

Fixpoint namei_loop (fuel : nat) (normalized built : list Z) (rem : cursor) (cur : Z) : M E Z :=
  match fuel with
  | O => fun s => Hang s
  | S fuel =>
      let t := text normalized built rem in
      let t1 := skip_slashes t in
      match t1 with
      | [] => ret cur
      | _ =>
          let rem := advance (length t - length t1) rem in
          let component := take (Z.to_nat (VFS_NAME_MAX - 1)) (take_component t1).1 in
          let rem := advance (length component) rem in
          let built := extend_built built component in
          let! n := deref cur in
          match is_set (n_type n) VFS_DIRECTORY, op_finddir (drivers (n_ops n)) with
          | true, Some finddir =>
              let! ok := allows cur VFS_MODE_IXOTH in
              if negb ok then ret NULL
              else
                let! cur := finddir cur component in
                if cur =? NULL then ret NULL
                else
                  let! s := get in
                  match vfs_mount_lookup_by_path built s with
                  | None => namei_loop fuel normalized built rem cur
                  | Some (mounted, len) =>
                      let rem :=
                        match drop (len + 1) built with
                        | [] => match text normalized built rem with
                                | c :: _ => if c =? slash then advance 1 rem else at_empty
                                | [] => at_empty
                                end
                        | _ => in_built (len + 1)
                        end in
                      namei_loop fuel normalized built rem mounted
                  end
          | _, _ => ret NULL
          end
      end
  end.

Definition vfs_namei (fuel : nat) (path : option (list Z)) : M E Z := fun s =>
  match path with
  | None => Ret NULL s
  | Some _ =>
      if vfs_root s =? NULL then Ret NULL s
      else
        match vfs_normalize_path (Some [slash]) path VFS_PATH_MAX with
        | None => Ret NULL s
        | Some normalized =>
            if bool_decide (normalized = [slash]) then Ret (vfs_root s) s
            else
              let '(cur, rem) :=
                match vfs_mount_lookup_by_path normalized s with
                | Some (mounted, len) =>
                    (mounted, if bool_decide (normalized !! len = None) then at_empty else in_normalized (len + 1))
                | None => (vfs_root s, in_normalized (if bool_decide (normalized !! 0%nat = Some slash) then 1 else 0))
                end in
              if cur =? NULL then Ret NULL s
              else
                match text normalized [] rem with
                | [] => Ret cur s
                | _ => namei_loop fuel normalized [] rem cur s
                end
        end
  end.

(** ** Node operations *)

Definition vfs_read (node offset size : Z) : M E (Z * list Z) :=
  if node =? NULL then ret (-1, [])
  else
    let! n := deref node in
    match op_read (drivers (n_ops n)) with None => ret (-1, []) | Some f => f node offset size end.

Definition vfs_write (node offset : Z) (buffer : list Z) : M E Z :=
  if node =? NULL then ret (-1)
  else
    let! n := deref node in
    match op_write (drivers (n_ops n)) with None => ret (-1) | Some f => f node offset buffer end.

Definition vfs_open_node (node flags : Z) : M E Z :=
  if node =? NULL then ret (-1)
  else
    let! n := deref node in
    let! s := get in
    let access := Z.land flags (Z.lor VFS_O_WRONLY VFS_O_RDWR) in
    let wants_read := negb (access =? VFS_O_WRONLY) in
    let wants_write := (access =? VFS_O_WRONLY) || (access =? VFS_O_RDWR) in
    if is_set (n_type n) VFS_DIRECTORY && (wants_write || is_set flags (Z.lor VFS_O_TRUNC VFS_O_APPEND)) then ret (-1)
    else if wants_read && negb (vfs_node_allows s n VFS_MODE_IROTH) then ret (-1)
    else if wants_write && negb (vfs_node_allows s n VFS_MODE_IWOTH) then ret (-1)
    else match op_open (drivers (n_ops n)) with None => ret 0 | Some f => f node flags end.

Definition vfs_close_node (node : Z) : M E unit :=
  if node =? NULL then ret tt
  else
    let! n := deref node in
    match op_close (drivers (n_ops n)) with None => ret tt | Some f => f node end.

Definition vfs_readdir (node index : Z) : M E (option vfs_dirent) :=
  if node =? NULL then ret None
  else
    let! n := deref node in
    match op_readdir (drivers (n_ops n)) with None => ret None | Some f => f node index end.

Definition vfs_finddir (node : Z) (name : list Z) : M E Z :=
  if node =? NULL then ret NULL
  else
    let! n := deref node in
    match op_finddir (drivers (n_ops n)) with None => ret NULL | Some f => f node name end.

(** The checks [vfs_create] and [vfs_unlink] share. *)
Definition may_modify (parent : Z) : M E bool :=
  let! n := deref parent in
  let! s := get in
  ret (is_set (n_type n) VFS_DIRECTORY && vfs_node_allows s n VFS_MODE_IWOTH && vfs_node_allows s n VFS_MODE_IXOTH).

Definition vfs_create (parent : Z) (name : list Z) (type : Z) : M E Z :=
  if negb (vfs_name_is_valid (Some name)) then ret (-1)
  else if parent =? NULL then ret (-1)
  else
    let! n := deref parent in
    match op_create (drivers (n_ops n)) with
    | None => ret (-1)
    | Some f => let! ok := may_modify parent in if ok then f parent name type else ret (-1)
    end.

Definition vfs_unlink (parent : Z) (name : list Z) : M E Z :=
  if negb (vfs_name_is_valid (Some name)) then ret (-1)
  else if parent =? NULL then ret (-1)
  else
    let! n := deref parent in
    match op_unlink (drivers (n_ops n)) with
    | None => ret (-1)
    | Some f => let! ok := may_modify parent in if ok then f parent name else ret (-1)
    end.

Definition vfs_create_path (fuel : nat) (path : option (list Z)) (type : Z) : M E Z :=
  match vfs_split_path path VFS_PATH_MAX VFS_NAME_MAX with
  | None => ret (-1)
  | Some (parent_path, base_name) =>
      let! parent := vfs_namei fuel (Some parent_path) in
      if parent =? NULL then ret (-1) else vfs_create parent base_name type
  end.

Definition vfs_unlink_path (fuel : nat) (path : option (list Z)) : M E Z :=
  match vfs_split_path path VFS_PATH_MAX VFS_NAME_MAX with
  | None => ret (-1)
  | Some (parent_path, base_name) =>
      let! parent := vfs_namei fuel (Some parent_path) in
      if parent =? NULL then ret (-1) else vfs_unlink parent base_name
  end.

Definition vfs_chmod_path (fuel : nat) (path : option (list Z)) (mode : Z) : M E Z :=
  match path with
  | None => ret (-1)
  | Some _ =>
      let! node := vfs_namei fuel path in
      if node =? NULL then ret (-1)
      else
        let! n := deref node in
        let! s := get in
        let uid := vfs_effective_uid s in
        if negb (uid =? 0) && negb (uid =? n_uid n) then ret (-1)
        else put_node node (with_mode (Z.land mode 0x1FF) n);;; ret 0
  end.

Definition vfs_chown_path (fuel : nat) (path : option (list Z)) (uid gid : Z) : M E Z :=
  match path with
  | None => ret (-1)
  | Some _ =>
      let! node := vfs_namei fuel path in
      if node =? NULL then ret (-1)
      else
        let! s := get in
        if negb (vfs_effective_uid s =? 0) then ret (-1)
        else let! n := deref node in put_node node (with_owner uid gid n);;; ret 0
  end.

Definition vfs_stat (node : Z) : M E (option vfs_stat_t) :=
  if node =? NULL then ret None
  else
    let! n := deref node in
    ret (Some (mk_stat (n_inode n) (n_type n) (n_size n) (n_mode n) (n_uid n) (n_gid n))).

Definition vfs_stat_path (fuel : nat) (path : option (list Z)) : M E (option vfs_stat_t) :=
  match path with
  | None => ret None
  | Some _ => let! node := vfs_namei fuel path in if node =? NULL then ret None else vfs_stat node
  end.
End walk.

(** ** Anonymous pipes *)

Definition OPS_PIPE : Z := 1.

Section pipe.
Context {E : Type} (serves : nat -> bool).
(** What the other tasks do while the caller sleeps for a tick, and how many
    ticks it is observed to wait. *)
Context (others : vfs E -> vfs E) (ticks : nat).
Implicit Types s : vfs E.

(** The end record behind a node: pipe, direction, references. *)
Definition pipe_end (node : Z) : M E (option (Z * bool * Z)) :=
  if node =? NULL then ret None
  else
    let! n := deref node in
    ret (match n_impl n with impl_pipe p w r => Some (p, w, r) | _ => None end).

Definition set_end (node : Z) (i : impl_data) : M E unit :=
  let! n := deref node in put_node node (with_impl i n).

Definition pipe_open (node flags : Z) : M E Z :=
  let! e := pipe_end node in
  match e with
  | None => ret (-1)
  | Some (pid, is_writer, refs) =>
      set_end node (impl_pipe pid is_writer (u32 (refs + 1)));;;
      let! p := deref_pipe pid in
      put_pipe pid (if is_writer then mk_pipe (p_ring p) (p_readers p) (u32 (p_writers p + 1))
                    else mk_pipe (p_ring p) (u32 (p_readers p + 1)) (p_writers p));;;
      ret 0
  end.

Definition dec (x : Z) : Z := if 0 <? x then x - 1 else x.

Definition pipe_close (node : Z) : M E unit :=
  let! e := pipe_end node in
  match e with
  | None => ret tt
  | Some (pid, is_writer, refs) =>
      let! p := deref_pipe pid in
      let p := if is_writer then mk_pipe (p_ring p) (p_readers p) (dec (p_writers p))
               else mk_pipe (p_ring p) (dec (p_readers p)) (p_writers p) in
      put_pipe pid p;;;
      let refs := dec refs in
      set_end node (impl_pipe pid is_writer refs);;;
      if refs =? 0 then
        free_node node;;;
        if (p_readers p =? 0) && (p_writers p =? 0) then free_pipe pid else ret tt
      else ret tt
  end.

(** Sleep until the pipe has a byte ([true]) or no writer is left. *)
Fixpoint wait_readable (n : nat) (pid : Z) : M E bool :=
  let! p := deref_pipe pid in
  if count (p_ring p) =? 0 then
    if p_writers p =? 0 then ret false
    else match n with
         | O => fun s => Hang s
         | S n => modify others;;; wait_readable n pid
         end
  else ret true.

Fixpoint pipe_read_loop (n : nat) (pid : Z) : M E (list Z) :=
  match n with
  | O => ret []
  | S n =>
      let! ready := wait_readable ticks pid in
      if ready then
        let! p := deref_pipe pid in
        match ring_pop VFS_PIPE_CAPACITY (p_ring p) with
        | None => ret []
        | Some (b, r) =>
            put_pipe pid (mk_pipe r (p_readers p) (p_writers p));;;
            let! rest := pipe_read_loop n pid in ret (b :: rest)
        end
      else ret []
  end.

Definition pipe_read (node offset size : Z) : M E (Z * list Z) :=
  let! e := pipe_end node in
  match e with
  | None => ret (-1, [])
  | Some (pid, is_writer, _) =>
      if is_writer then ret (-1, [])
      else let! out := pipe_read_loop (Z.to_nat size) pid in ret (i32 (zlen out), out)
  end.

(** Sleep until the pipe has room ([true]) or no reader is left. *)
Fixpoint wait_writable (n : nat) (pid : Z) : M E bool :=
  let! p := deref_pipe pid in
  if p_readers p =? 0 then ret false
  else if VFS_PIPE_CAPACITY <=? count (p_ring p) then
    match n with
    | O => fun s => Hang s
    | S n => modify others;;; wait_writable n pid
    end
  else ret true.

Fixpoint pipe_write_loop (buffer : list Z) (written pid : Z) : M E Z :=
  match buffer with
  | [] => ret (i32 written)
  | b :: buffer =>
      let! room := wait_writable ticks pid in
      if room then
        let! p := deref_pipe pid in
        match ring_push VFS_PIPE_CAPACITY b (p_ring p) with
        | None => ret (i32 written)
        | Some r =>
            put_pipe pid (mk_pipe r (p_readers p) (p_writers p));;;
            pipe_write_loop buffer (written + 1) pid
        end
      else ret (if 0 <? written then i32 written else -1)
  end.

Definition pipe_write (node offset : Z) (buffer : list Z) : M E Z :=
  let! e := pipe_end node in
  match e with
  | None => ret (-1)
  | Some (pid, is_writer, _) => if negb is_writer then ret (-1) else pipe_write_loop buffer 0 pid
  end.

Definition pipe_vtable : vtable E :=
  mk_vtable (Some pipe_read) (Some pipe_write) (Some pipe_open) (Some pipe_close) None None None None.

Definition pipe_name (is_writer : bool) : list Z :=
  [112; 105; 112; 101; if is_writer then 119 else 114]. (* "pipew" / "piper" *)

(** The node and its end record are two heap requests. *)
Definition pipe_make_end_node (pid : Z) (is_writer : bool) : M E Z :=
  if pid =? NULL then ret NULL
  else
    let! node := kalloc serves in
    let! end_ := kalloc serves in
    if (node =? NULL) || (end_ =? NULL) then ret NULL
    else
      let! s := get in
      put_node node (mk_node (pipe_name is_writer) VFS_FILE 0 0 VFS_MODE_FILE_DEFAULT
                       (vfs_effective_uid s) (vfs_effective_gid s) OPS_PIPE (impl_pipe pid is_writer 0) NULL []);;;
      ret node.
End pipe.

(** ** Descriptors *)

Section fds.
Context {E : Type} (serves : nat -> bool) (drivers : Z -> vtable E) (fuel : nat).
Implicit Types s : vfs E.

Definition fd_at (t : task) (fd : Z) : task_fd := t_fds t !!! Z.to_nat fd.

(** Store into a slot of the current task's table. *)
Definition set_fd (fd : Z) (f : task_fd) : M E unit := modify (fun s =>
  match current s with
  | None => s
  | Some k =>
      match tasks s !! k with
      | None => s
      | Some t => set_tasks (<[k := mk_task (t_uid t) (t_gid t) (<[Z.to_nat fd := f]> (t_fds t))]> (tasks s)) s
      end
  end).

Definition task_current : M E (option task) := fun s => Ret (task_of s) s.

Definition in_range (fd : Z) : bool := (0 <=? fd) && (fd <? Z.of_nat TASK_MAX_FDS).

(** The descriptor [fd] of the current task, if it is open. *)
Definition open_fd (fd : Z) : M E (option task_fd) :=
  let! t := task_current in
  ret (match t with
       | None => None
       | Some t => if in_range fd && f_in_use (fd_at t fd) then Some (fd_at t fd) else None
       end).

Fixpoint first_free (fds : list task_fd) (i : Z) : Z :=
  match fds with
  | [] => -1
  | f :: fds => if f_in_use f then first_free fds (i + 1) else i
  end.
Definition fd_alloc : M E Z :=
  let! t := task_current in
  ret (match t with None => -1 | Some t => first_free (drop 3 (t_fds t)) 3 end).

Definition vfs_fd_open (path : option (list Z)) (flags : Z) : M E Z :=
  match path with
  | None => ret (-1)
  | Some _ =>
      let! t := task_current in
      match t with
      | None => ret (-1)
      | Some _ =>
          match vfs_normalize_path (Some [slash]) path VFS_PATH_MAX with
          | None => ret (-1)
          | Some normalized =>
              let open_flags := Z.land flags 0x1F in
              let fd_flags := if is_set flags VFS_O_CLOEXEC then VFS_FD_CLOEXEC else 0 in
              let! node := vfs_namei drivers fuel (Some normalized) in
              let! node :=
                if (node =? NULL) && is_set open_flags VFS_O_CREATE then
                  let! rc := vfs_create_path drivers fuel (Some normalized) VFS_FILE in
                  if rc <? 0 then ret NULL else vfs_namei drivers fuel (Some normalized)
                else ret node in
              if node =? NULL then ret (-1)
              else
                let! rc := vfs_open_node drivers node open_flags in
                if rc <? 0 then ret (-1)
                else
                  let! fd := fd_alloc in
                  if fd <? 0 then vfs_close_node drivers node;;; ret (-1)
                  else
                    let! n := deref node in
                    set_fd fd (mk_fd node (if is_set open_flags VFS_O_APPEND then n_size n else 0) open_flags fd_flags true);;;
                    ret fd
          end
      end
  end.

Definition vfs_fd_install_node (node open_flags fd_flags : Z) : M E Z :=
  if node =? NULL then ret (-1)
  else
    let! t := task_current in
    match t with
    | None => vfs_close_node drivers node;;; ret (-1)
    | Some _ =>
        let! rc := vfs_open_node drivers node open_flags in
        if rc <? 0 then vfs_close_node drivers node;;; ret (-1)
        else
          let! fd := fd_alloc in
          if fd <? 0 then vfs_close_node drivers node;;; ret (-1)
          else set_fd fd (mk_fd node 0 open_flags fd_flags true);;; ret fd
    end.

(** [if (n > 0) f->offset += n] on the entry as it is after the transfer. *)
Definition advance_offset (fd n : Z) : M E unit :=
  let! t := task_current in
  match t with
  | None => ret tt
  | Some t =>
      let f := fd_at t fd in
      if 0 <? n then set_fd fd (mk_fd (f_node f) (u32 (f_offset f + n)) (f_open_flags f) (f_fd_flags f) (f_in_use f))
      else ret tt
  end.

Definition vfs_fd_read (fd size : Z) : M E (Z * list Z) :=
  let! f := open_fd fd in
  match f with
  | None => ret (-1, [])
  | Some f =>
      if Z.land (f_open_flags f) VFS_O_WRONLY =? VFS_O_WRONLY then ret (-1, [])
      else
        let! ok := (if f_node f =? NULL then ret false else allows (f_node f) VFS_MODE_IROTH) in
        if negb ok then ret (-1, [])
        else
          let! r := vfs_read drivers (f_node f) (f_offset f) size in
          advance_offset fd r.1;;; ret r
  end.

Definition vfs_fd_write (fd : Z) (buffer : list Z) : M E Z :=
  let! f := open_fd fd in
  match f with
  | None => ret (-1)
  | Some f =>
      let access := Z.land (f_open_flags f) (Z.lor VFS_O_WRONLY VFS_O_RDWR) in
      if negb ((access =? VFS_O_WRONLY) || (access =? VFS_O_RDWR)) then ret (-1)
      else
        let! ok := (if f_node f =? NULL then ret false else allows (f_node f) VFS_MODE_IWOTH) in
        if negb ok then ret (-1)
        else
          let! n := vfs_write drivers (f_node f) (f_offset f) buffer in
          advance_offset fd n;;; ret n
  end.

Definition vfs_fd_close (fd : Z) : M E Z :=
  let! f := open_fd fd in
  match f with
  | None => ret (-1)
  | Some f => vfs_close_node drivers (f_node f);;; set_fd fd no_fd;;; ret 0
  end.

Definition vfs_fd_dup2 (oldfd newfd : Z) : M E Z :=
  let! f := open_fd oldfd in
  match f with
  | None => ret (-1)
  | Some f =>
      if negb (in_range newfd) then ret (-1)
      else if newfd =? oldfd then ret newfd
      else
        let! rc := vfs_open_node drivers (f_node f) (f_open_flags f) in
        if rc <? 0 then ret (-1)
        else
          let! g := open_fd newfd in
          (match g with Some _ => vfs_fd_close newfd | None => ret 0 end);;;
          set_fd newfd (mk_fd (f_node f) (f_offset f) (f_open_flags f) 0 true);;;
          ret newfd
  end.

Definition vfs_fd_stat (fd : Z) : M E (option vfs_stat_t) :=
  let! f := open_fd fd in
  match f with None => ret None | Some f => vfs_stat (f_node f) end.

Definition vfs_fd_fcntl (fd cmd arg : Z) : M E Z :=
  let! f := open_fd fd in
  match f with
  | None => ret (-1)
  | Some f =>
      if cmd =? VFS_F_GETFD then ret (Z.land (f_fd_flags f) VFS_FD_CLOEXEC)
      else if cmd =? VFS_F_SETFD then
        let flags := if is_set arg VFS_FD_CLOEXEC then Z.lor (f_fd_flags f) VFS_FD_CLOEXEC
                     else Z.land (f_fd_flags f) (Z.lnot VFS_FD_CLOEXEC) in
        set_fd fd (mk_fd (f_node f) (f_offset f) (f_open_flags f) flags (f_in_use f));;; ret 0
      else ret (-1)
  end.

(** [t->fds[fd].in_use = b] *)
Definition set_in_use (fd : Z) (b : bool) : M E unit :=
  let! t := task_current in
  match t with
  | None => ret tt
  | Some t => let f := fd_at t fd in set_fd fd (mk_fd (f_node f) (f_offset f) (f_open_flags f) (f_fd_flags f) b)
  end.

(** The two descriptors, or [None] for -1. *)
Definition vfs_fd_pipe : M E (option (Z * Z)) :=
  let! t := task_current in
  match t with
  | None => ret None
  | Some _ =>
      let! read_fd := fd_alloc in
      if read_fd <? 0 then ret None
      else
        set_in_use read_fd true;;;
        let! write_fd := fd_alloc in
        if write_fd <? 0 then set_in_use read_fd false;;; ret None
        else
          let! pid := kalloc serves in
          if pid =? NULL then set_in_use read_fd false;;; set_in_use write_fd false;;; ret None
          else
            put_pipe pid (mk_pipe (mk_ring (replicate (Z.to_nat VFS_PIPE_CAPACITY) 0) 0 0 0) 0 0);;;
            let! rn := pipe_make_end_node serves pid false in
            let! wn := pipe_make_end_node serves pid true in
            if (rn =? NULL) || (wn =? NULL) then
              (if rn =? NULL then ret tt else free_node rn);;;
              (if wn =? NULL then ret tt else free_node wn);;;
              free_pipe pid;;;
              set_in_use read_fd false;;; set_in_use write_fd false;;; ret None
            else
              set_fd read_fd (mk_fd rn 0 VFS_O_RDONLY 0 true);;;
              set_fd write_fd (mk_fd wn 0 VFS_O_WRONLY 0 true);;;
              let! r1 := vfs_open_node drivers rn VFS_O_RDONLY in
              let! r2 := (if r1 <? 0 then ret (-1) else vfs_open_node drivers wn VFS_O_WRONLY) in
              if r2 <? 0 then
                vfs_fd_close read_fd;;; vfs_fd_close write_fd;;; ret None
              else ret (Some (read_fd, write_fd))
  end.

(** ** Descriptor tables of tasks ([kernel/task.c]) *)

Definition task_fd_table_init : list task_fd := replicate TASK_MAX_FDS no_fd.

(** Close the entries a predicate selects; the table as it is left. *)
Fixpoint close_entries (p : task_fd -> bool) (fds : list task_fd) : M E (list task_fd) :=
  match fds with
  | [] => ret []
  | f :: fds =>
      let! g := (if f_in_use f && p f then vfs_close_node drivers (f_node f);;; ret no_fd else ret f) in
      let! rest := close_entries p fds in
      ret (g :: rest)
  end.
Definition task_fd_table_close_all (fds : list task_fd) : M E (list task_fd) := close_entries (fun _ => true) fds.
Definition task_fd_table_close_cloexec (fds : list task_fd) : M E (list task_fd) :=
  close_entries (fun f => is_set (f_fd_flags f) VFS_FD_CLOEXEC) fds.

(** The copying loop: the destination so far, and whether every node opened. *)
Fixpoint clone_entries (src : list task_fd) : M E (list task_fd * bool) :=
  match src with
  | [] => ret ([], true)
  | f :: src =>
      if f_in_use f then
        let! rc := vfs_open_node drivers (f_node f) (f_open_flags f) in
        if rc <? 0 then ret (f :: replicate (length src) no_fd, false)
        else let! r := clone_entries src in ret (f :: r.1, r.2)
      else let! r := clone_entries src in ret (no_fd :: r.1, r.2)
  end.
Definition task_fd_table_clone (src : list task_fd) : M E (Z * list task_fd) :=
  let! r := clone_entries src in
  if r.2 then ret (0, r.1) else let! d := task_fd_table_close_all r.1 in ret (-1, d).
End fds.
End Vfs.
