(* ===== verification/Ramfs.v ===== *)
(** * The in-memory file system ([kernel/ramfs.c])

    A driver of the virtual file system: file data is a heap buffer of
    [capacity] bytes behind [node->impl], a directory is its list of children.
    [Module Ramfs] translates the operations and gives the operation table;
    [Module RamfsSpec] proves them against an abstract file (a byte string)
    and an abstract directory (names in creation order). A [memcpy] past the
    end of the buffer is [Undef]. *)

From S2P Require Import Prelude Ring VfsPath Vfs.

Module Ramfs.
Import VfsPath Vfs.

Definition VFS_MAX_FILE : Z := 64 * 1024.
Definition OPS_RAMFS : Z := 2.

Section ramfs.
Context {E : Type} (serves : nat -> bool).
Implicit Types s : vfs E.

Definition ramfs_current_uid s : Z := vfs_effective_uid s.
Definition ramfs_current_gid s : Z := vfs_effective_gid s.

Definition ramfs_alloc_node (name : list Z) (type : Z) : M E Z :=
  let! a := kalloc serves in
  if a =? NULL then ret NULL
  else
    let! s := get in
    modify (set_inode (u32 (next_inode s + 1)));;;
    let! impl := (if type =? VFS_FILE then
                    let! fd := kalloc serves in ret (if fd =? NULL then impl_null else impl_file None 0)
                  else ret impl_null) in
    put_node a (mk_node (take (Z.to_nat (VFS_NAME_MAX - 1)) name) type 0 (next_inode s)
                  (if is_set type VFS_DIRECTORY then VFS_MODE_DIR_DEFAULT else VFS_MODE_FILE_DEFAULT)
                  (ramfs_current_uid s) (ramfs_current_gid s) OPS_RAMFS impl NULL []);;;
    ret a.

Definition ramfs_read (node offset size : Z) : M E (Z * list Z) :=
  if node =? NULL then ret (-1, [])
  else
    let! n := deref node in
    if negb (is_set (n_type n) VFS_FILE) then ret (-1, [])
    else
      match n_impl n with
      | impl_file data _ =>
          if n_size n <=? offset then ret (0, [])
          else
            let avail := n_size n - offset in
            let size := if avail <? size then avail else size in
            ret (i32 size, match data with Some d => slice offset size d | None => [] end)
      | _ => ret (-1, [])
      end.

(** [while (new_cap < needed) { new_cap *= 2; clamp }]; doubling from at
    least 256 reaches 64 KiB in 8 steps. *)
Fixpoint grow_cap (fuel : nat) (new_cap needed : Z) : option Z :=
  if new_cap <? needed then
    match fuel with
    | O => None
    | S fuel =>
        let new_cap := u32 (new_cap * 2) in
        grow_cap fuel (if VFS_MAX_FILE <? new_cap then VFS_MAX_FILE else new_cap) needed
    end
  else Some new_cap.

(** The file record after the call, or [None] for -1. *)
Definition ramfs_ensure_capacity (data : option (list Z)) (capacity needed : Z) : M E (option (option (list Z) * Z)) :=
  if needed <=? capacity then ret (Some (data, capacity))
  else if VFS_MAX_FILE <? needed then ret None
  else
    match grow_cap 9 (if capacity =? 0 then 256 else capacity) needed with
    | None => fun s => Hang s
    | Some new_cap =>
        let! p := kalloc serves in
        if p =? NULL then ret None
        else ret (Some (Some (default [] data ++ replicate (Z.to_nat (new_cap - capacity)) 0), new_cap))
    end.

(** [memcpy(fd->data + offset, buf, size)] into a buffer of [capacity] bytes. *)
Definition store_data (data : option (list Z)) (capacity offset : Z) (bytes : list Z) : option (option (list Z)) :=
  match bytes with
  | [] => Some data
  | _ =>
      match data with
      | Some d => if capacity <? offset + zlen bytes then None else Some (Some (splice offset bytes d))
      | None => None
      end
  end.

Definition ramfs_write (node offset : Z) (buf : list Z) : M E Z :=
  if node =? NULL then ret (-1)
  else
    let! n := deref node in
    if negb (is_set (n_type n) VFS_FILE) then ret (-1)
    else
      match n_impl n with
      | impl_file data capacity =>
          let size := zlen buf in
          let end_ := u32 (offset + size) in
          if (VFS_MAX_FILE <? end_) && (VFS_MAX_FILE <=? offset) then ret (-1)
          else
            let size := if VFS_MAX_FILE <? end_ then VFS_MAX_FILE - offset else size in
            let end_ := if VFS_MAX_FILE <? end_ then VFS_MAX_FILE else end_ in
            let! r := ramfs_ensure_capacity data capacity end_ in
            match r with
            | None => ret (-1)
            | Some (data, capacity) =>
                match store_data data capacity offset (take (Z.to_nat size) buf) with
                | None => fun _ => Undef
                | Some data =>
                    put_node node (with_size (if n_size n <? end_ then end_ else n_size n)
                                     (with_impl (impl_file data capacity) n));;;
                    ret (i32 size)
                end
            end
      | _ => ret (-1)
      end.

Definition ramfs_open (node flags : Z) : M E Z := ret 0.
Definition ramfs_close (node : Z) : M E unit := ret tt.

(** The sibling list from [child] on, up to the index. *)
Fixpoint nth_child (l : list Z) (i index : Z) : M E (option vfs_dirent) :=
  match l with
  | [] => ret None
  | c :: l =>
      let! n := deref c in
      if i =? index then ret (Some (mk_dirent (take (Z.to_nat (VFS_NAME_MAX - 1)) (n_name n)) (n_inode n) (n_type n)))
      else nth_child l (u32 (i + 1)) index
  end.
Definition ramfs_readdir (node index : Z) : M E (option vfs_dirent) :=
  if node =? NULL then ret None
  else
    let! n := deref node in
    if negb (is_set (n_type n) VFS_DIRECTORY) then ret None else nth_child (n_children n) 0 index.

(** First child with the name: the children before it and its address. *)
Fixpoint find_child (l : list Z) (name : list Z) : M E (option (list Z * Z)) :=
  match l with
  | [] => ret None
  | c :: l =>
      let! n := deref c in
      if bool_decide (n_name n = name) then ret (Some ([], c))
      else let! r := find_child l name in ret (match r with Some (pre, a) => Some (c :: pre, a) | None => None end)
  end.

Definition ramfs_finddir (node : Z) (name : list Z) : M E Z :=
  if node =? NULL then ret NULL
  else
    let! n := deref node in
    if negb (is_set (n_type n) VFS_DIRECTORY) then ret NULL
    else let! r := find_child (n_children n) name in ret (match r with Some (_, a) => a | None => NULL end).

Definition set_parent (p : Z) (n : vfs_node) : vfs_node :=
  mk_node (n_name n) (n_type n) (n_size n) (n_inode n) (n_mode n) (n_uid n) (n_gid n) (n_ops n) (n_impl n) p (n_children n).

Definition ramfs_create (parent : Z) (name : list Z) (type : Z) : M E Z :=
  if parent =? NULL then ret (-1)
  else
    let! n := deref parent in
    if negb (is_set (n_type n) VFS_DIRECTORY) then ret (-1)
    else if (zlen name =? 0) || (VFS_NAME_MAX <=? zlen name) then ret (-1)
    else
      let! dup := ramfs_finddir parent name in
      if negb (dup =? NULL) then ret (-1)
      else
        let! child := ramfs_alloc_node name type in
        if child =? NULL then ret (-1)
        else
          let! c := deref child in
          put_node child (set_parent parent c);;;
          let! n := deref parent in
          put_node parent (with_size (u32 (n_size n + 1)) (with_children (n_children n ++ [child]) n));;;
          ret 0.

Definition ramfs_unlink (parent : Z) (name : list Z) : M E Z :=
  if parent =? NULL then ret (-1)
  else
    let! n := deref parent in
    if negb (is_set (n_type n) VFS_DIRECTORY) then ret (-1)
    else
      let! r := find_child (n_children n) name in
      match r with
      | None => ret (-1)
      | Some (pre, child) =>
          let! c := deref child in
          if is_set (n_type c) VFS_DIRECTORY && negb (bool_decide (n_children c = [])) then ret (-1)
          else
            put_node parent (with_size (u32 (n_size n - 1))
              (with_children (pre ++ drop (S (length pre)) (n_children n)) n));;;
            free_node child;;;
            ret 0
      end.

Definition ramfs_vtable : vtable E :=
  mk_vtable (Some ramfs_read) (Some ramfs_write) (Some ramfs_open) (Some ramfs_close) (Some ramfs_readdir)
    (Some ramfs_finddir) (Some ramfs_create) (Some ramfs_unlink).

Definition ramfs_initialize : M E unit :=
  let! root := ramfs_alloc_node [slash] VFS_DIRECTORY in
  if root =? NULL then ret tt else modify (vfs_set_root root).
End ramfs.

(** The kernel's operation tables: pipes and the in-memory file system. *)
Definition kernel_drivers {E} (serves : nat -> bool) (others : vfs E -> vfs E) (ticks : nat) (more : Z -> vtable E) (ops : Z) : vtable E :=
  if ops =? OPS_PIPE then pipe_vtable others ticks
  else if ops =? OPS_RAMFS then ramfs_vtable serves
  else more ops.
End Ramfs.

Module RamfsSpec.
Import VfsPath Vfs Ramfs.

Section files.
Context {E : Type} (serves : nat -> bool).
Implicit Types s : vfs E.

(** ** Files *)

(** The buffer of a regular file: as long as its capacity, zero past the
    file's size, of a size the doubling reaches. *)
Record file_ok (n : vfs_node) (d : list Z) (cap : Z) : Prop := {
  fo_type : is_set (n_type n) VFS_FILE = true;
  fo_impl : n_impl n = impl_file (if cap =? 0 then None else Some d) cap;
  fo_len : zlen d = cap;
  fo_cap : cap = 0 \/ 256 <= cap <= VFS_MAX_FILE;
  fo_size : 0 <= n_size n <= cap;
  fo_zero : Forall (eq 0) (drop (Z.to_nat (n_size n)) d)
}.

(** The abstract file. *)
Definition contents (n : vfs_node) (d : list Z) : list Z := take (Z.to_nat (n_size n)) d.

(** Writing into a byte string, zero-filling a gap. *)
Definition write_at (f : list Z) (off : nat) (buf : list Z) : list Z :=
  take off (f ++ replicate (off - length f) 0) ++ buf ++ drop (off + length buf) f.

Lemma grow_cap_spec fuel c needed :
  256 <= c <= VFS_MAX_FILE -> needed <= VFS_MAX_FILE -> VFS_MAX_FILE <= c * 2 ^ Z.of_nat fuel ->
  exists n, grow_cap fuel c needed = Some n /\ needed <= n <= VFS_MAX_FILE /\ c <= n.
Proof.
  unfold VFS_MAX_FILE. revert c. induction fuel as [|fuel IH]; intros c Hc Hn Hf; cbn [grow_cap].
  - change (2 ^ Z.of_nat 0) with 1 in Hf. destruct (Z.ltb_spec c needed); [lia|]. exists c. split; [done|lia].
  - destruct (Z.ltb_spec c needed); [|exists c; split; [done|lia]].
    rewrite u32_small by lia. unfold VFS_MAX_FILE. rewrite Nat2Z.inj_succ, Z.pow_succ_r in Hf by lia.
    assert (0 < 2 ^ Z.of_nat fuel) by (apply Z.pow_pos_nonneg; lia).
    destruct (Z.ltb_spec (64 * 1024) (c * 2)) as [Hb|Hb].
    + destruct (IH (64 * 1024)) as (n & E1 & ?); [lia..|]. exists n. split; [done|lia].
    + destruct (IH (c * 2)) as (n & E1 & ?); [lia..|]. exists n. split; [done|lia].
Qed.

(** Making room keeps the bytes and adds zeros, or fails for want of memory. *)
Lemma ensure_capacity_spec n d cap needed s :
  file_ok n d cap -> 0 <= needed <= VFS_MAX_FILE ->
  exists a, let s' := set_allocs a s in
  ((ramfs_ensure_capacity serves (if cap =? 0 then None else Some d) cap needed s = Ret None s' /\ serves (allocs s) = false) \/
   exists k, let cap' := cap + Z.of_nat k in
     ramfs_ensure_capacity serves (if cap =? 0 then None else Some d) cap needed s =
       Ret (Some (if cap' =? 0 then None else Some (d ++ replicate k 0), cap')) s' /\
     needed <= cap' /\ (cap' = 0 \/ 256 <= cap' <= VFS_MAX_FILE)).
Proof.
  intros Hok Hn. pose proof (fo_cap _ _ _ Hok) as Hc. pose proof (fo_len _ _ _ Hok) as Hl. unfold ramfs_ensure_capacity.
  destruct (Z.leb_spec needed cap) as [|Hgt].
  { exists (allocs s). replace (set_allocs (allocs s) s) with s by (by destruct s). right. exists 0%nat. rewrite Z.add_0_r. cbn [replicate]. rewrite app_nil_r. split; [done|lia]. }
  rewrite (proj2 (Z.ltb_ge _ _)) by lia.
  destruct (grow_cap_spec 9 (if cap =? 0 then 256 else cap) needed) as (m & -> & Hm & Hcm).
  { unfold VFS_MAX_FILE in *. destruct (Z.eqb_spec cap 0); lia. }
  { lia. }
  { unfold VFS_MAX_FILE in *. change (2 ^ Z.of_nat 9) with 512. destruct (Z.eqb_spec cap 0); lia. }
  unfold bind, kalloc, ret. destruct (serves (allocs s)) eqn:Es.
  2: { change (NULL =? NULL) with true. exists (S (allocs s)). by left. }
  rewrite (proj2 (Z.eqb_neq _ _)) by (unfold NULL; lia). exists (S (allocs s)). right.
  exists (Z.to_nat (m - cap)). cbn zeta.
  assert (cap + Z.of_nat (Z.to_nat (m - cap)) = m) as -> by (destruct (Z.eqb_spec cap 0); lia).
  rewrite (proj2 (Z.eqb_neq m 0)) by lia. split_and!; [|lia|destruct (Z.eqb_spec cap 0); lia].
  destruct (Z.eqb_spec cap 0) as [->|]; [|done]. destruct d; [done|]. unfold zlen in Hl. simpl in Hl. lia.
Qed.

(** The buffer after a store is the abstract write. *)
Lemma take_drop_zeros (d : list Z) (k : nat) : Forall (eq 0) (drop k d) -> d = take k d ++ replicate (length d - k) 0.
Proof.
  intros Hz. rewrite <- (take_drop k d) at 1. f_equal. apply list_eq_Forall2. rewrite <- length_drop.
  induction Hz as [|x l <- _ IH]; [constructor|]. cbn [length replicate]. by constructor.
Qed.

Lemma splice_write_at (d bytes : list Z) (sz off k : nat) :
  Forall (eq 0) (drop sz d) -> (sz <= length d)%nat -> (off + length bytes <= length d + k)%nat ->
  let d' := splice (Z.of_nat off) bytes (d ++ replicate k 0) in
  let sz' := Nat.max sz (off + length bytes) in
  take sz' d' = write_at (take sz d) off bytes /\ Forall (eq 0) (drop sz' d').
Proof.
  intros Hz Hsz Hfit. cbn zeta. set (e := d ++ replicate k 0).
  assert (Forall (eq 0) (drop sz e)) as Hez.
  { unfold e. rewrite drop_app_le by done. apply Forall_app. split; [done|]. by apply Forall_replicate. }
  assert (length e = length d + k)%nat as Hle by (unfold e; rewrite length_app, length_replicate; done).
  assert (take sz d = take sz e) as -> by (unfold e; by rewrite take_app_le).
  set (f := take sz e). assert (e = f ++ replicate (length e - sz) 0) as Ee by (apply take_drop_zeros; done).
  assert (length f = sz) as Hlf by (unfold f; rewrite length_take; lia).
  clearbody f. clear Hez. clearbody e. set (z := (length e - sz)%nat) in Ee. clearbody z. subst e. clear Hz Hsz.
  rewrite length_app, length_replicate, Hlf in Hle.
  assert (splice (Z.of_nat off) bytes (f ++ replicate z 0) =
          write_at f off bytes ++ replicate (z - (off + length bytes - sz)) 0) as ->.
  { unfold splice, write_at. rewrite Nat2Z.id, Hlf, <- !app_assoc. f_equal.
    - rewrite !take_app, Hlf, !take_replicate. do 2 f_equal. lia.
    - f_equal. by rewrite drop_app, Hlf, drop_replicate. }
  assert (length (write_at f off bytes) = Nat.max sz (off + length bytes)) as Hlw.
  { unfold write_at. rewrite !length_app, length_take, length_app, length_replicate, length_drop, Hlf. lia. }
  rewrite <- Hlw, take_app_length, drop_app_length. split; [done|]. by apply Forall_replicate.
Qed.

(** The state after a write: only the file's node and the heap have changed. *)
Lemma ramfs_write_effect node n d cap offset buf s :
  nodes s !! node = Some n -> file_ok n d cap -> node <> NULL -> 0 <= offset -> offset + zlen buf < 2 ^ 32 ->
  let k := Z.min (zlen buf) (VFS_MAX_FILE - offset) in
  match ramfs_write serves node offset buf s with
  | Ret rc s' =>
      (rc = -1 /\ s' = set_allocs (allocs s') s /\ (VFS_MAX_FILE <= offset \/ serves (allocs s) = false)) \/
      (rc = k /\ exists n' d' cap', s' = set_nodes (<[node := n']> (nodes s)) (set_allocs (allocs s') s) /\ (exists z i, n' = with_size z (with_impl i n)) /\ file_ok n' d' cap' /\
         contents n' d' = write_at (contents n d) (Z.to_nat offset) (take (Z.to_nat k) buf))
  | _ => False
  end.
Proof.
  intros Hn Hok Hz Ho Hw. cbn zeta. unfold ramfs_write. rewrite (proj2 (Z.eqb_neq _ _)) by done.
  unfold bind at 1, deref. rewrite Hn. pose proof Hok as [Ht Hi Hl Hc Hs Hzero]. rewrite Ht. cbn [negb]. rewrite Hi.
  rewrite (u32_small (offset + zlen buf)) by (unfold zlen in *; lia).
  destruct ((VFS_MAX_FILE <? offset + zlen buf) && (VFS_MAX_FILE <=? offset)) eqn:Eg.
  { left. split_and!; [done|by destruct s|left; bool_to_prop; lia]. }
  set (k := Z.min (zlen buf) (VFS_MAX_FILE - offset)).
  destruct (decide (offset <= VFS_MAX_FILE)) as [Hom|Hom].
  2: { exfalso. apply andb_false_iff in Eg as [Eg%Z.ltb_ge|Eg%Z.leb_gt]; unfold zlen in *; lia. }
  assert ((if VFS_MAX_FILE <? offset + zlen buf then VFS_MAX_FILE - offset else zlen buf) = k) as ->
    by (unfold k; destruct (Z.ltb_spec VFS_MAX_FILE (offset + zlen buf)); lia).
  assert ((if VFS_MAX_FILE <? offset + zlen buf then VFS_MAX_FILE else offset + zlen buf) = offset + k) as ->
    by (unfold k; destruct (Z.ltb_spec VFS_MAX_FILE (offset + zlen buf)); lia).
  assert (0 <= k <= zlen buf /\ offset + k <= VFS_MAX_FILE) as Hk by (unfold k, zlen; lia). clearbody k.
  destruct (ensure_capacity_spec n d cap (offset + k) s Hok ltac:(lia)) as (a & [[Ec Hsv]|(j & Ec & Hge & Hcj)]); unfold bind at 1; rewrite Ec.
  { left. split_and!; [done|by destruct s|by right]. }
  set (bytes := take (Z.to_nat k) buf). assert (zlen bytes = k) as Hlb by (unfold bytes, zlen in *; rewrite length_take; lia).
  unfold zlen in *. destruct (splice_write_at d bytes (Z.to_nat (n_size n)) (Z.to_nat offset) j) as [Hcon Hzz]; [done|lia|lia|].
  rewrite Z2Nat.id in Hcon, Hzz by lia.
  set (d' := splice offset bytes (d ++ replicate j 0)) in *.
  assert (length d' = length d + j)%nat as Hld by (unfold d'; rewrite length_splice, length_app, length_replicate; [done|lia|rewrite length_app, length_replicate; lia]).
  set (cap' := cap + Z.of_nat j) in *.
  assert (store_data (if cap' =? 0 then None else Some (d ++ replicate j 0)) cap' offset bytes =
          Some (if cap' =? 0 then None else Some d')) as ->.
  { unfold store_data. destruct bytes as [|b0 bs] eqn:Eb.
    - destruct (cap' =? 0); [done|]. unfold d'. by rewrite splice_nil.
    - rewrite (proj2 (Z.eqb_neq cap' 0)) by (cbn [length] in Hlb; lia).
      by rewrite (proj2 (Z.ltb_ge cap' (offset + zlen (b0 :: bs)))) by (unfold zlen; lia). }
  right. unfold bind, put_node, modify, ret. split; [unfold i32; rewrite Z.mod_small by (unfold VFS_MAX_FILE in *; lia); lia|].
  eexists _, d', cap'. split; [by destruct s|]. split; [by eexists _, _|].
  assert (Z.to_nat (if n_size n <? offset + k then offset + k else n_size n) =
          Nat.max (Z.to_nat (n_size n)) (Z.to_nat offset + length bytes)) as Esz
    by (destruct (Z.ltb_spec (n_size n) (offset + k)); lia).
  split; [split; cbn [n_type n_impl n_size with_size with_impl]|].
  - done.
  - done.
  - unfold zlen. lia.
  - done.
  - destruct (Z.ltb_spec (n_size n) (offset + k)); lia.
  - by rewrite Esz.
  - unfold contents. cbn [n_size with_size]. by rewrite Esz.
Qed.

(** C20: [ramfs_write] is the abstract write: it stores the buffer (cut at
    the 64 KiB limit) at the offset, zero-filling a gap, keeps the rest of
    the file and every other node, and returns the number of bytes stored;
    it refuses an offset at the limit, and fails without a change only when
    the heap does. Offset and length together stay below 2^32, past which the
    sum wraps ([ramfs_write_wraps]). *)
Theorem ramfs_write_correct node n d cap offset buf s :
  nodes s !! node = Some n -> file_ok n d cap -> node <> NULL -> 0 <= offset -> offset + zlen buf < 2 ^ 32 ->
  let k := Z.min (zlen buf) (VFS_MAX_FILE - offset) in
  match ramfs_write serves node offset buf s with
  | Ret rc s' =>
      (rc = -1 /\ nodes s' = nodes s /\ (VFS_MAX_FILE <= offset \/ serves (allocs s) = false)) \/
      (rc = k /\ exists n' d' cap', nodes s' = <[node := n']> (nodes s) /\ file_ok n' d' cap' /\
         contents n' d' = write_at (contents n d) (Z.to_nat offset) (take (Z.to_nat k) buf))
  | _ => False
  end.
Proof.
  intros Hn Hok Hz Ho Hw. pose proof (ramfs_write_effect node n d cap offset buf s Hn Hok Hz Ho Hw) as H. cbn zeta in *.
  destruct (ramfs_write serves node offset buf s) as [rc s'| |]; [|done|done].
  destruct H as [(-> & -> & H)|(-> & n' & d' & cap' & -> & _ & H)]; [by left|right]. split; [done|]. exists n', d', cap'. by split.
Qed.

(** [ramfs_read] returns exactly the bytes of the file at the offset, as
    many as asked for or as there are, and changes nothing. *)
Theorem ramfs_read_correct node n d cap offset size s :
  nodes s !! node = Some n -> file_ok n d cap -> node <> NULL -> 0 <= offset -> 0 <= size ->
  let out := take (Z.to_nat size) (drop (Z.to_nat offset) (contents n d)) in
  ramfs_read node offset size s = Ret (zlen out, out) s.
Proof.
  intros Hn [Ht Hi Hl Hc Hs _] Hz Ho Hsz. cbn zeta. unfold ramfs_read. rewrite (proj2 (Z.eqb_neq _ _)) by done.
  unfold bind, deref. rewrite Hn, Ht, Hi. cbn [negb]. unfold contents, zlen in *.
  destruct (Z.leb_spec (n_size n) offset).
  { rewrite drop_ge by (rewrite length_take; lia). by rewrite take_nil. }
  rewrite (proj2 (Z.eqb_neq cap 0)) by lia. unfold ret, slice.
  set (m := if n_size n - offset <? size then n_size n - offset else size).
  assert (m = Z.min size (n_size n - offset)) as Em by (unfold m; destruct (Z.ltb_spec (n_size n - offset) size); lia).
  assert (take (Z.to_nat m) (drop (Z.to_nat offset) d) =
          take (Z.to_nat size) (drop (Z.to_nat offset) (take (Z.to_nat (n_size n)) d))) as Eo.
  { rewrite skipn_firstn_comm, take_take. f_equal. lia. }
  rewrite <- Eo, length_take, length_drop. unfold i32, VFS_MAX_FILE in *. rewrite Z.mod_small by lia. do 2 f_equal. lia.
Qed.
End files.

(** ** Directories *)

Section directories.
Context {E : Type} (serves : nat -> bool).
Implicit Types s : vfs E.

(** The directory at [a] holds exactly the entries [l], name and address in
    creation order. *)
Record dir_is s (a : Z) (n : vfs_node) (l : list (list Z * Z)) : Prop := {
  di_node : nodes s !! a = Some n;
  di_addr : a <> NULL;
  di_type : is_set (n_type n) VFS_DIRECTORY = true;
  di_children : n_children n = l.*2;
  di_size : n_size n = zlen l;
  di_names : NoDup l.*1;
  di_addrs : NoDup l.*2;
  di_entry : forall nm c, (nm, c) ∈ l -> c <> NULL /\ c <> a /\ exists nc, nodes s !! c = Some nc /\ n_name nc = nm
}.

(** The heap never hands out the address of a live node. *)
Definition heap_fresh s : Prop := forall a, is_Some (nodes s !! a) -> a <= Z.of_nat (allocs s).

Lemma find_child_spec s l name :
  (forall nm c, (nm, c) ∈ l -> exists nc, nodes s !! c = Some nc /\ n_name nc = nm) ->
  find_child l.*2 name s =
  Ret (match list_find (fun e => e.1 = name) l with Some (i, e) => Some ((take i l).*2, e.2) | None => None end) s.
Proof.
  induction l as [|[nm c] l IH]; intros Hl; [done|]. cbn [fmap list_fmap find_child snd].
  unfold bind at 1, deref. destruct (Hl nm c ltac:(apply list_elem_of_here)) as (nc & -> & <-).
  cbn [list_find fst]. destruct (decide (n_name nc = name)) as [->|Hne].
  - by rewrite bool_decide_eq_true_2.
  - rewrite bool_decide_eq_false_2 by done. unfold bind. rewrite IH by (intros; apply Hl; by apply list_elem_of_further).
    by destruct (list_find (fun e => e.1 = name) l) as [[i e]|].
Qed.

Lemma dir_find s a n l name :
  dir_is s a n l ->
  find_child (n_children n) name s =
  Ret (match list_find (fun e => e.1 = name) l with Some (i, e) => Some ((take i l).*2, e.2) | None => None end) s.
Proof.
  intros Hd. rewrite (di_children _ _ _ _ Hd). apply find_child_spec. intros nm c Hin.
  by destruct (di_entry _ _ _ _ Hd nm c Hin) as (_ & _ & ?).
Qed.

(** Entries are found by name. *)
Lemma list_find_name l (name : list Z) i e :
  list_find (fun e : list Z * Z => e.1 = name) l = Some (i, e) -> l !! i = Some e /\ e.1 = name.
Proof. intros (? & ? & _)%list_find_Some. done. Qed.

Lemma list_find_absent l (name : list Z) : name ∉ l.*1 -> list_find (fun e : list Z * Z => e.1 = name) l = None.
Proof.
  intros Hn. apply list_find_None, Forall_forall. intros [nm c] Hin E1. apply Hn. simpl in E1. subst nm.
  apply list_elem_of_fmap. by exists (name, c).
Qed.

(** [ramfs_finddir] returns the address of the entry with the name, and
    [NULL] when there is none; it changes nothing. *)
Theorem ramfs_finddir_correct s a n l name :
  dir_is s a n l ->
  exists r, ramfs_finddir a name s = Ret r s /\ (forall c, c <> NULL -> r = c <-> (name, c) ∈ l) /\ (r = NULL <-> name ∉ l.*1).
Proof.
  intros Hd. pose proof Hd as [Hn Ha Ht _ _ Hnn _ He]. unfold ramfs_finddir. rewrite (proj2 (Z.eqb_neq _ _)) by done.
  unfold bind at 1, deref. rewrite Hn, Ht. cbn [negb]. unfold bind. rewrite (dir_find s a n l name Hd). eexists. split; [reflexivity|].
  destruct (list_find (fun e => e.1 = name) l) as [[i [nm c0]]|] eqn:El.
  - apply list_find_name in El as [Hi Enm]. simpl in Enm. subst nm. apply list_elem_of_lookup_2 in Hi. split.
    + intros c Hc. split; [by intros <-|]. intros Hin. simpl.
      apply list_elem_of_lookup in Hi as [j Hj]. apply list_elem_of_lookup in Hin as [j' Hj'].
      assert (j = j') as -> by (eapply (NoDup_lookup _ j j' name Hnn); by rewrite list_lookup_fmap, ?Hj, ?Hj'). congruence.
    + destruct (He name c0 Hi) as (Hc0 & _). simpl. split; [done|]. intros Hnin. exfalso. apply Hnin.
      apply list_elem_of_fmap. by exists (name, c0).
  - apply list_find_None in El. rewrite Forall_forall in El. split.
    + intros c Hc. split; [done|]. intros Hin. by destruct (El _ Hin).
    + split; [|done]. intros _ ([nm c] & Enm & Hin)%list_elem_of_fmap. by apply (El _ Hin).
Qed.

Lemma alloc_node_spec name type s :
  heap_fresh s ->
  exists r s', ramfs_alloc_node serves name type s = Ret r s' /\
    (r = NULL /\ nodes s' = nodes s /\ serves (allocs s) = false \/
     r <> NULL /\ nodes s !! r = None /\ exists nc, nodes s' = <[r := nc]> (nodes s) /\ r <= Z.of_nat (allocs s') /\
       (allocs s <= allocs s')%nat /\
       n_name nc = take (Z.to_nat (VFS_NAME_MAX - 1)) name /\ n_type nc = type /\ n_size nc = 0 /\ n_children nc = [] /\ n_ops nc = OPS_RAMFS).
Proof.
  intros Hf. unfold ramfs_alloc_node. unfold bind at 1, kalloc at 1. destruct (serves (allocs s)) eqn:Es.
  2: { change (NULL =? NULL) with true. eexists _, _. split; [done|]. left. done. }
  assert (nodes s !! (Z.of_nat (allocs s) + 1) = None) as Hfree.
  { destruct (nodes s !! (Z.of_nat (allocs s) + 1)) eqn:En; [|done]. pose proof (Hf _ (mk_is_Some _ _ En)). lia. }
  rewrite (proj2 (Z.eqb_neq _ _)) by (unfold NULL; lia). unfold bind, get, modify, put_node, ret.
  destruct (type =? VFS_FILE); [unfold bind, kalloc, ret|]; cbn [allocs set_allocs set_inode next_inode];
    (eexists _, _; split; [done|right; split_and!; [unfold NULL; lia|done|]]; eexists; split; [done|]; cbn; split_and!; try done; lia).
Qed.

(** [ramfs_create] of a new valid name in a directory adds exactly that
    entry at the end, an empty node of the type asked for, and keeps all
    others; it fails without a change when the name exists, and otherwise
    only when the heap does. *)
Theorem ramfs_create_correct s a n l name type :
  dir_is s a n l -> heap_fresh s -> 0 < zlen name < VFS_NAME_MAX -> zlen l + 1 < 2 ^ 32 ->
  exists rc s', ramfs_create serves a name type s = Ret rc s' /\
    (name ∈ l.*1 /\ rc = -1 /\ s' = s \/
     name ∉ l.*1 /\ rc = -1 /\ nodes s' = nodes s /\ serves (allocs s) = false \/
     name ∉ l.*1 /\ rc = 0 /\ exists c n' nc, dir_is s' a n' (l ++ [(name, c)]) /\ heap_fresh s' /\
       nodes s !! c = None /\ nodes s' !! c = Some nc /\ n_type nc = type /\ n_size nc = 0 /\
       (forall b, b <> a -> b <> c -> nodes s' !! b = nodes s !! b)).
Proof.
  intros Hd Hf Hname Hsmall. pose proof Hd as [Hn Ha Ht Hc Hsz Hnn Hna He]. unfold ramfs_create.
  rewrite (proj2 (Z.eqb_neq _ _)) by done. unfold bind at 1, deref at 1. rewrite Hn, Ht. cbn [negb].
  rewrite (proj2 (Z.eqb_neq (zlen name) 0)), (proj2 (Z.leb_gt _ _)) by lia. cbn [orb].
  destruct (ramfs_finddir_correct s a n l name Hd) as (r & Er & _ & Hr). unfold bind at 1. rewrite Er.
  destruct (Z.eqb_spec r NULL) as [Hr0|Hr0]; cbn [negb].
  2: { eexists _, _. split; [done|]. left. split_and!; [|done|done]. destruct (decide (name ∈ l.*1)); [done|tauto]. }
  apply Hr in Hr0 as Hnin. destruct (alloc_node_spec name type s Hf) as (c & s1 & Ec & Hres). unfold bind at 1. rewrite Ec.
  destruct Hres as [(-> & Hs1 & Hsv)|(Hcn & Hfree & nc & Hs1 & Hle & Hal & Enm & Ety & Esz & Ech & Eop)].
  { change (NULL =? NULL) with true. eexists _, _. split; [done|]. right. left. done. }
  rewrite (proj2 (Z.eqb_neq c NULL)) by done. assert (c <> a) as Hca by (intros ->; congruence).
  unfold bind at 1, deref at 1. rewrite Hs1, lookup_insert_eq. unfold bind at 1, put_node at 1, modify.
  unfold bind at 1, deref at 1. cbn [nodes set_nodes]. rewrite Hs1, insert_insert_eq, lookup_insert_ne, Hn by done.
  unfold bind, put_node, modify, ret. eexists _, _. split; [done|]. right. right. split_and!; [done|done|].
  eexists c, _, (set_parent a nc). cbn [nodes set_nodes]. split_and!.
  - split; cbn [nodes set_nodes].
    + apply lookup_insert_eq.
    + done.
    + done.
    + cbn [n_children with_size with_children]. by rewrite Hc, fmap_app.
    + cbn [n_size with_size]. rewrite Hsz. unfold zlen in *. rewrite u32_small by lia. rewrite length_app. simpl. lia.
    + rewrite fmap_app. apply NoDup_app. split_and!; [done| |apply NoDup_singleton]. intros x Hx ->%list_elem_of_singleton. done.
    + rewrite fmap_app. apply NoDup_app. split_and!; [done| |apply NoDup_singleton]. intros x Hx ->%list_elem_of_singleton.
      apply list_elem_of_fmap in Hx as ([nm c'] & Ecc & Hin). simpl in Ecc. subst c'. destruct (He nm c Hin) as (_ & _ & nc' & E1 & _). congruence.
    + intros nm c' [Hin|Hin]%elem_of_app.
      * destruct (He nm c' Hin) as (H1 & H2 & nc' & E1 & E2). split_and!; [done|done|]. exists nc'. split; [|done].
        rewrite !lookup_insert_ne; [done|congruence|done].
      * apply list_elem_of_singleton in Hin as [= -> ->]. split_and!; [done|done|]. exists (set_parent a nc).
        split; [rewrite lookup_insert_ne by done; apply lookup_insert_eq|]. cbn [n_name set_parent]. rewrite Enm. apply take_ge. unfold zlen, VFS_NAME_MAX in *. lia.
  - intros b. cbn [nodes set_nodes allocs]. rewrite !lookup_insert_is_Some. intros [<-|[_ [<-|[_ Hb]]]]; [pose proof (Hf a (mk_is_Some _ _ Hn)); lia|lia|].
    specialize (Hf b Hb). lia.
  - done.
  - rewrite lookup_insert_ne by done. apply lookup_insert_eq.
  - done.
  - done.
  - intros b Hb1 Hb2. by rewrite !lookup_insert_ne.
Qed.

(** [ramfs_unlink] of an entry that is not a directory with children
    removes exactly that entry, keeping the order of the others, and frees
    its node; any other name is refused without a change. *)
Theorem ramfs_unlink_correct s a n l name :
  dir_is s a n l -> zlen l < 2 ^ 32 ->
  exists rc s', ramfs_unlink a name s = Ret rc s' /\
    (name ∉ l.*1 /\ rc = -1 /\ s' = s \/
     exists c nc pre post, l = pre ++ (name, c) :: post /\ nodes s !! c = Some nc /\
       (is_set (n_type nc) VFS_DIRECTORY = true /\ n_children nc <> [] /\ rc = -1 /\ s' = s \/
        rc = 0 /\ (exists n', dir_is s' a n' (pre ++ post)) /\ nodes s' !! c = None /\ s' = set_nodes (nodes s') s /\
        (forall b, b <> a -> b <> c -> nodes s' !! b = nodes s !! b))).
Proof.
  clear serves. intros Hd Hsmall. pose proof Hd as [Hn Ha Ht Hc Hsz Hnn Hna He]. unfold ramfs_unlink.
  rewrite (proj2 (Z.eqb_neq _ _)) by done. unfold bind at 1, deref at 1. rewrite Hn, Ht. cbn [negb].
  unfold bind at 1. rewrite (dir_find s a n l name Hd). destruct (list_find (fun e => e.1 = name) l) as [[i [nm c]]|] eqn:El.
  2: { eexists _, _. split; [done|]. left. split_and!; [|done|done]. apply list_find_None in El. rewrite Forall_forall in El.
       intros ([nm c] & Enm & Hin)%list_elem_of_fmap. by apply (El _ Hin). }
  apply list_find_name in El as [Hi Enm]. simpl in Enm. subst nm. cbn [snd].
  assert (l = take i l ++ (name, c) :: drop (S i) l) as Esplit by (by rewrite take_drop_middle).
  destruct (He name c (list_elem_of_lookup_2 _ _ _ Hi)) as (Hc0 & Hca & nc & Hnc & _).
  unfold bind at 1, deref at 1. rewrite Hnc.
  set (pre := take i l) in *. set (post := drop (S i) l) in *.
  assert (forall r s', (r = -1 /\ s' = s /\ is_set (n_type nc) VFS_DIRECTORY = true /\ n_children nc <> [] \/
    r = 0 /\ (exists n', dir_is s' a n' (pre ++ post)) /\ nodes s' !! c = None /\ s' = set_nodes (nodes s') s /\
        (forall b, b <> a -> b <> c -> nodes s' !! b = nodes s !! b)) ->
    exists rc s'', Ret r s' = Ret rc s'' /\ (name ∉ l.*1 /\ rc = -1 /\ s'' = s \/
     exists c nc pre post, l = pre ++ (name, c) :: post /\ nodes s !! c = Some nc /\
       (is_set (n_type nc) VFS_DIRECTORY = true /\ n_children nc <> [] /\ rc = -1 /\ s'' = s \/
        rc = 0 /\ (exists n', dir_is s'' a n' (pre ++ post)) /\ nodes s'' !! c = None /\ s'' = set_nodes (nodes s'') s /\
        (forall b, b <> a -> b <> c -> nodes s'' !! b = nodes s !! b)))) as Hfin.
  { intros r s' Hres. exists r, s'. split; [done|]. right. exists c, nc, pre, post. split_and!; [done|done|]. tauto. }
  destruct (is_set (n_type nc) VFS_DIRECTORY && negb (bool_decide (n_children nc = []))) eqn:Eb.
  { apply Hfin. left. apply andb_prop in Eb as [Eb1 Eb2%negb_true_iff%bool_decide_eq_false_1]. done. }
  unfold bind, put_node, free_node, modify, ret. apply Hfin. right. split; [done|]. clear Hfin.
  assert (length pre = i) as Hlp by (unfold pre; rewrite length_take; apply lookup_lt_Some in Hi; lia).
  rewrite length_fmap, Hlp, Hc, <- fmap_drop. cbn [nodes set_nodes]. fold post.
  rewrite Esplit, fmap_app in Hnn. rewrite Esplit, fmap_app in Hna. cbn [fmap list_fmap fst snd] in Hnn, Hna.
  assert (forall {A} (x : list A) y z, NoDup (x ++ y :: z) -> NoDup (x ++ z) /\ y ∉ x ++ z) as Hdup.
  { intros A x y z Hx. rewrite <- Permutation_middle in Hx. by apply NoDup_cons in Hx as [? ?]. }
  apply Hdup in Hnn as [Hnn _]. apply Hdup in Hna as [Hna Hcnin]. rewrite <- !fmap_app in *. split_and!.
  - eexists. split; cbn [nodes set_nodes].
    + rewrite lookup_delete_ne by done. apply lookup_insert_eq.
    + done.
    + done.
    + cbn [n_children with_size with_children]. by rewrite fmap_app.
    + cbn [n_size with_size]. rewrite Hsz. unfold zlen in *. rewrite Esplit, !length_app in *. cbn [length] in *. rewrite u32_small by lia. lia.
    + done.
    + done.
    + intros nm c' Hin. assert (c' <> c) as Hcc.
      { intros ->. apply Hcnin. apply list_elem_of_fmap. by exists (nm, c). }
      destruct (He nm c') as (H1 & H2 & nc' & E1 & E2).
      { rewrite Esplit. apply elem_of_app in Hin as [?|?]; apply elem_of_app; [by left|right; by apply list_elem_of_further]. }
      split_and!; [done|done|]. exists nc'. split; [|done]. by rewrite lookup_delete_ne, lookup_insert_ne.
  - apply lookup_delete_eq.
  - done.
  - intros b Hb1 Hb2. by rewrite lookup_delete_ne, lookup_insert_ne.
Qed.
End directories.

(** ** A concrete machine *)

Definition always (k : nat) : bool := true.
Definition after {E A} (m : M E A) (s : vfs E) : vfs E := match m s with Ret _ s' => s' | Hang s' => s' | Undef => s end.
Definition blank : vfs unit :=
  mk_vfs NULL [] ∅ ∅ [mk_task 0 0 (replicate TASK_MAX_FDS no_fd)] (Some 0%nat) 1 0 tt.
(** The root directory (address 1) after boot. *)
Definition booted : vfs unit := after (ramfs_initialize always) (vfs_initialize blank).
(** With a file ["f"] (address 2) in it. *)
Definition one_file : vfs unit := after (ramfs_create always 1 [102] VFS_FILE) booted.
Definition root_node : vfs_node := mk_node [47] 2 1 1 0x1ED 0 0 2 impl_null 0 [2].
Definition file_node : vfs_node := mk_node [102] 1 0 2 0x1A4 0 0 2 (impl_file None 0) 1 [].

Lemma one_file_root : dir_is one_file 1 root_node [([102], 2)].
Proof.
  split; try done; try (by vm_compute); try (by apply NoDup_singleton).
  intros nm c [= -> ->]%list_elem_of_singleton. split_and!; [done|done|]. exists file_node. by vm_compute.
Qed.
Lemma file_node_ok : file_ok file_node [] 0.
Proof. split; try done; try (by left). Qed.

Lemma ramfs_write_correct_witness :
  match ramfs_write always 2 3 [65; 66] one_file with
  | Ret rc s' =>
      (rc = -1 /\ nodes s' = nodes one_file /\ (VFS_MAX_FILE <= 3 \/ always (allocs one_file) = false)) \/
      (rc = Z.min (zlen [65; 66]) (VFS_MAX_FILE - 3) /\ exists n' d' cap', nodes s' = <[2 := n']> (nodes one_file) /\ file_ok n' d' cap' /\
         contents n' d' = write_at (contents file_node []) (Z.to_nat 3) (take (Z.to_nat (Z.min (zlen [65; 66]) (VFS_MAX_FILE - 3))) [65; 66]))
  | _ => False
  end.
Proof. apply (ramfs_write_correct always 2 file_node [] 0 3 [65; 66] one_file); [by vm_compute|exact file_node_ok|done|lia|by vm_compute]. Defined.

Lemma ramfs_read_correct_witness :
  ramfs_read 2 0 10 one_file = Ret (zlen (take 10 (drop 0 (contents file_node []))), take 10 (drop 0 (contents file_node []))) one_file.
Proof. apply (ramfs_read_correct 2 file_node [] 0 0 10 one_file); [by vm_compute|exact file_node_ok|done|lia|lia]. Defined.

Lemma ramfs_finddir_correct_witness :
  exists r, ramfs_finddir 1 [102] one_file = Ret r one_file /\
    (forall c, c <> NULL -> r = c <-> ([102], c) ∈ [([102], 2)]) /\ (r = NULL <-> [102] ∉ [([102], 2)].*1).
Proof. apply (ramfs_finddir_correct one_file 1 root_node [([102], 2)] [102]). exact one_file_root. Defined.

Lemma ramfs_create_correct_witness :
  exists rc s', ramfs_create always 1 [103] VFS_DIRECTORY one_file = Ret rc s' /\
    ([103] ∈ [([102], 2)].*1 /\ rc = -1 /\ s' = one_file \/
     [103] ∉ [([102], 2)].*1 /\ rc = -1 /\ nodes s' = nodes one_file /\ always (allocs one_file) = false \/
     [103] ∉ [([102], 2)].*1 /\ rc = 0 /\ exists c n' nc, dir_is s' 1 n' ([([102], 2)] ++ [([103], c)]) /\ heap_fresh s' /\
       nodes one_file !! c = None /\ nodes s' !! c = Some nc /\ n_type nc = VFS_DIRECTORY /\ n_size nc = 0 /\
       (forall b, b <> 1 -> b <> c -> nodes s' !! b = nodes one_file !! b)).
Proof.
  apply (ramfs_create_correct always one_file 1 root_node [([102], 2)] [103] VFS_DIRECTORY); [exact one_file_root| |done|done].
  assert (nodes one_file = {[1 := root_node; 2 := file_node]}) as Hn by (by vm_compute).
  assert (allocs one_file = 3%nat) as Ha by (by vm_compute).
  intros a. rewrite Hn, Ha, lookup_insert_is_Some, lookup_singleton_is_Some. lia.
Defined.

Lemma ramfs_unlink_correct_witness :
  exists rc s', ramfs_unlink 1 [102] one_file = Ret rc s' /\
    ([102] ∉ [([102], 2)].*1 /\ rc = -1 /\ s' = one_file \/
     exists c nc pre post, [([102], 2)] = pre ++ ([102], c) :: post /\ nodes one_file !! c = Some nc /\
       (is_set (n_type nc) VFS_DIRECTORY = true /\ n_children nc <> [] /\ rc = -1 /\ s' = one_file \/
        rc = 0 /\ (exists n', dir_is s' 1 n' (pre ++ post)) /\ nodes s' !! c = None /\ s' = set_nodes (nodes s') one_file /\
        (forall b, b <> 1 -> b <> c -> nodes s' !! b = nodes one_file !! b))).
Proof. apply (ramfs_unlink_correct one_file 1 root_node [([102], 2)] [102]); [exact one_file_root|done]. Defined.

(** A size that wraps [offset + size] escapes the clamp and the copy leaves
    the buffer. *)
Example ramfs_write_wraps (n : vfs_node) (s : vfs unit) (buf : list Z) :
  nodes s !! 2 = Some n -> file_ok n [] 0 -> zlen buf = 2 ^ 32 - 50 ->
  ramfs_write always 2 100 buf s = Undef.
Proof.
  intros Hn [Ht Hi _ _ _ _] Hl. unfold ramfs_write. change (2 =? NULL) with false. cbv iota. unfold bind at 1, deref.
  rewrite Hn, Ht, Hi, Hl. cbn [negb]. change (u32 (100 + (2 ^ 32 - 50))) with 50.
  change ((VFS_MAX_FILE <? 50) && (VFS_MAX_FILE <=? 100)) with false. change (VFS_MAX_FILE <? 50) with false. change (0 =? 0) with true. cbv iota.
  unfold bind, ramfs_ensure_capacity. change (50 <=? 0) with false. change (VFS_MAX_FILE <? 50) with false. cbv iota.
  change (grow_cap 9 (if 0 =? 0 then 256 else 0) 50) with (Some 256). unfold bind, kalloc, always, ret.
  rewrite (proj2 (Z.eqb_neq _ _)) by (unfold NULL; lia).
  unfold zlen in Hl. rewrite take_ge by lia. unfold store_data. destruct buf as [|b buf]; [simpl in Hl; lia|].
  rewrite (proj2 (Z.ltb_lt _ _)); [done|]. unfold zlen. lia.
Qed.

End RamfsSpec.
