(* ===== verification/VfsSpec.v ===== *)
(** * Correctness of the virtual file system layer

    Mount lookup is longest-prefix matching on components; [vfs_namei] is a
    walk of the components from the root or from the mounted root, and does
    not end when a mounted tree contains the name of its own mount point.
    Pipes are first-in first-out streams whose calls block only when they
    must. *)

From S2P Require Import Prelude Ring VfsPath Vfs Ramfs.

Module VfsSpec.
Import Ring VfsPath VfsPathSpec Vfs Ramfs RamfsSpec.

(** ** Component prefixes *)

Lemma joined_app a b : joined (a ++ b) = joined a ++ joined b.
Proof. unfold joined. by rewrite map_app, concat_app. Qed.

Lemma joined_inj a b : Forall plain a -> Forall plain b -> joined a = joined b -> a = b.
Proof. intros Ha Hb E. rewrite <- (words_joined a), <- (words_joined b) by done. by rewrite E. Qed.

Lemma joined_head st : joined st = [] \/ joined st !! 0%nat = Some slash.
Proof. destruct st; [by left|by right]. Qed.

(** A textual prefix that ends at a component boundary is a prefix of the
    component list. *)
Lemma joined_prefix a b t :
  Forall plain a -> Forall plain b -> joined b = joined a ++ t -> (t = [] \/ t !! 0%nat = Some slash) ->
  exists c, b = a ++ c /\ t = joined c.
Proof.
  intros Ha Hb E Ht. exists (words t []).
  assert (words (joined b) [] = a ++ words t []) as Hw.
  { rewrite E. clear E Hb. induction Ha as [|w a Hw _ IH]; [done|]. unfold joined. cbn [map concat].
    rewrite <- !app_comm_cons, <- app_assoc. cbn [words]. change (slash =? slash) with true. cbv iota. cbn [flush app].
    rewrite words_component; [by f_equal|done|]. destruct a as [|v a]; [|by right].
    cbn [map concat app]. destruct Ht as [->|Ht]; [by left|right]. by destruct t. }
  rewrite words_joined in Hw by done. split; [done|].
  rewrite Hw, joined_app in E. by apply app_inv_head in E.
Qed.

Lemma mount_matches_spec st pst :
  Forall plain st -> Forall plain pst -> pst <> [] ->
  mount_matches (joined st) (joined pst) = true <-> exists post, st = pst ++ post.
Proof.
  intros Hst Hp Hne. unfold mount_matches. rewrite orb_true_iff, andb_true_iff, !bool_decide_eq_true. split.
  - intros [E|[E1 E2]].
    + apply joined_inj in E; [|done..]. exists []. by rewrite app_nil_r.
    + destruct (joined_prefix pst st (drop (length (joined pst)) (joined st))) as (c & -> & _); [done..| | |by exists c].
      * rewrite <- (take_drop (length (joined pst)) (joined st)) at 1. by rewrite E1.
      * right. by rewrite lookup_drop, Nat.add_0_r.
  - intros [post ->]. destruct post as [|w post]; [left; by rewrite app_nil_r|]. right. rewrite joined_app. split.
    + by rewrite take_app_length.
    + by rewrite lookup_app_r, Nat.sub_diag by lia.
Qed.

(** ** Mount lookup *)

(** Every used mount entry holds a normal path other than the root. *)
Definition mount_ok (m : vfs_mount_entry) : Prop :=
  m_in_use m = true -> m_root m <> NULL /\ exists pst, m_path m = joined pst /\ pst <> [] /\ Forall proper pst.

Section lookup.
Context {E : Type}.
Implicit Types s : vfs E.

Definition mounts_ok s : Prop := length (vfs_mounts s) = VFS_MAX_MOUNTS /\ Forall mount_ok (vfs_mounts s).

(** [r] is mounted at the components [pst]. *)
Definition mounted_at s (pst : list (list Z)) (r : Z) : Prop :=
  exists m, m ∈ vfs_mounts s /\ m_in_use m = true /\ m_path m = joined pst /\ m_root m = r.

(** What the search returns against what it was given. *)
Definition matching path (m : vfs_mount_entry) : Prop := m_in_use m = true /\ mount_matches path (m_path m) = true.
Record best_result (path : list Z) (ms : list vfs_mount_entry) (bl : nat) (b : Z) (res : nat * Z) : Prop := {
  best_source : res = (bl, b) \/ exists m, m ∈ ms /\ matching path m /\ res = (length (m_path m), m_root m);
  best_grows : (bl <= res.1)%nat;
  best_max : forall m, m ∈ ms -> matching path m -> (length (m_path m) <= res.1)%nat
}.

Lemma best_skip path m ms bl b res :
  best_result path ms bl b res -> (matching path m -> (length (m_path m) <= bl)%nat) -> best_result path (m :: ms) bl b res.
Proof.
  intros [I1 I2 I3] Hm. split; [|done|].
  - destruct I1 as [|(m' & ? & ?)]; [by left|right]. exists m'. split; [by apply list_elem_of_further|done].
  - intros m' [->|Hin]%elem_of_cons Hmm; [specialize (Hm Hmm); lia|by apply I3].
Qed.

Lemma best_mount_spec path ms bl b : Forall mount_ok ms -> best_result path ms bl b (best_mount path ms bl b).
Proof.
  intros Hok. revert bl b. induction Hok as [|m ms Hm _ IH]; intros bl b; cbn [best_mount].
  { split; [by left|done|]. by intros m Hin%elem_of_nil. }
  destruct (m_in_use m) eqn:Eu; cbn [negb orb]; [|apply best_skip; [done|intros [? _]; congruence]].
  destruct (Hm Eu) as (Hr & pst & Ep & Hne & Hpp). rewrite (proj2 (Z.eqb_neq _ _)) by done.
  pose proof (joined_length pst (proper_plain _ Hpp) Hne) as Hjl. rewrite <- Ep in Hjl. unfold zlen in Hjl.
  rewrite bool_decide_eq_false_2 by lia.
  destruct (mount_matches path (m_path m)) eqn:Em; cbn [andb]; [|apply best_skip; [done|intros [_ ?]; congruence]].
  destruct (bool_decide_reflect (bl < length (m_path m))%nat) as [Hlt|Hge]; [|apply best_skip; [done|lia]].
  destruct (IH (length (m_path m)) (m_root m)) as [I1 I2 I3]. split; [right|lia|].
  - destruct I1 as [->|(m' & ? & ?)]; [exists m; by split; [apply list_elem_of_here|]|].
    exists m'. split; [by apply list_elem_of_further|done].
  - intros m' [->|Hin]%elem_of_cons Hmm; [done|by apply I3].
Qed.

(** The lookup finds the longest mounted prefix of the components. *)
Lemma mount_lookup_Some s st r len :
  mounts_ok s -> Forall plain st -> vfs_mount_lookup_by_path (joined st) s = Some (r, len) ->
  exists pst post, st = pst ++ post /\ pst <> [] /\ mounted_at s pst r /\ r <> NULL /\ len = length (joined pst) /\
    (forall pst' post' r', st = pst' ++ post' -> pst' <> [] -> mounted_at s pst' r' -> (length pst' <= length pst)%nat).
Proof.
  intros [_ Hok] Hst. unfold vfs_mount_lookup_by_path.
  destruct (best_mount_spec (joined st) (vfs_mounts s) 0 NULL Hok) as [H1 _ H3].
  destruct (best_mount _ _ _ _) as [bl b]. cbn [fst] in H3.
  destruct (Z.eqb_spec b NULL); [done|]. intros [= <- <-].
  destruct H1 as [[= _ ->]|(m & Hin & [Hu Hm] & [= -> ->])]; [done|].
  pose proof Hok as Hok'. rewrite Forall_forall in Hok'. destruct (Hok' m Hin Hu) as (Hr & pst & Ep & Hne & Hpp).
  rewrite Ep in Hm. apply mount_matches_spec in Hm as [post ->]; [|done|by apply proper_plain|done].
  exists pst, post. split_and!; try done; [by exists m|by rewrite Ep|].
  intros pst' post' r' Est Hne' (m' & Hin' & Hu' & Ep' & _).
  destruct (Hok' m' Hin' Hu') as (_ & q & Eq & Hqne & Hqp). rewrite Ep' in Eq.
  assert (Forall plain pst') as Hpl by (rewrite Est in Hst; by apply Forall_app in Hst as [? _]).
  assert (matching (joined (pst ++ post)) m') as Hmm.
  { split; [done|]. rewrite Ep'. apply mount_matches_spec; [done..|]. by exists post'. }
  specialize (H3 m' Hin' Hmm). rewrite Ep, Ep' in H3. destruct (Nat.le_gt_cases (length pst') (length pst)) as [|Hgt]; [done|]. exfalso.
  apply app_eq_inv in Est as [(c & -> & ->)|(c & -> & ->)].
  - rewrite length_app in Hgt. lia.
  - rewrite joined_app, length_app in H3. rewrite length_app in Hgt. destruct c as [|w c]; [simpl in Hgt; lia|].
    apply Forall_app in Hpl as [_ Hc]. pose proof (joined_length (w :: c) Hc ltac:(done)). unfold zlen in *. lia.
Qed.

Lemma mount_lookup_None s st pst post r :
  mounts_ok s -> Forall plain st -> vfs_mount_lookup_by_path (joined st) s = None ->
  st = pst ++ post -> pst <> [] -> mounted_at s pst r -> False.
Proof.
  intros [_ Hok] Hst. unfold vfs_mount_lookup_by_path.
  destruct (best_mount_spec (joined st) (vfs_mounts s) 0 NULL Hok) as [H1 _ H3].
  destruct (best_mount _ _ _ _) as [bl b]. cbn [fst] in H3.
  destruct (Z.eqb_spec b NULL) as [->|]; [|done]. intros _ -> Hne (m & Hin & Hu & Ep & _).
  rewrite Forall_forall in Hok. destruct H1 as [[= ->]|(m' & Hin' & [Hu' _] & [= _ Er])].
  - specialize (H3 m Hin). rewrite Ep in H3. apply Forall_app in Hst as Hst'. destruct Hst' as [Hp _].
    assert (length (joined pst) <= 0)%nat as Hl by (apply H3; split; [done|]; rewrite Ep; apply mount_matches_spec; [done..|by exists post]).
    pose proof (joined_length pst Hp Hne). unfold zlen in *. lia.
  - by destruct (Hok m' Hin' Hu') as [? _].
Qed.
End lookup.

(** ** Path walking *)

(** What the walk relies on: looking a name up leaves the mount table alone. *)
Class FinddirLaws {E} (drivers : Z -> vtable E) := {
  finddir_mounts : forall ops f a name s r s',
    op_finddir (drivers ops) = Some f -> f a name s = Ret r s' -> vfs_mounts s' = vfs_mounts s
}.

Section walk.
Context {E : Type} (drivers : Z -> vtable E) `{!FinddirLaws drivers}.
Implicit Types s : vfs E.

(** The reference: follow the components one by one, needing a directory
    and search permission at each step. *)
Fixpoint walk (comps : list (list Z)) (cur : Z) : M E Z :=
  match comps with
  | [] => ret cur
  | w :: comps =>
      let! n := deref cur in
      match is_set (n_type n) VFS_DIRECTORY, op_finddir (drivers (n_ops n)) with
      | true, Some finddir =>
          let! ok := allows cur VFS_MODE_IXOTH in
          if negb ok then ret NULL
          else let! next := finddir cur w in if next =? NULL then ret NULL else walk comps next
      | _, _ => ret NULL
      end
  end.

(** No mount point lies on the path strictly below [dn]. *)
Definition clear_below s (dn post : list (list Z)) : Prop :=
  forall a w b, post = a ++ w :: b -> vfs_mount_lookup_by_path (joined (dn ++ a ++ [w])) s = None.

Lemma lookup_same_mounts s s' path :
  vfs_mounts s' = vfs_mounts s -> vfs_mount_lookup_by_path path s' = vfs_mount_lookup_by_path path s.
Proof. intros Es. unfold vfs_mount_lookup_by_path. by rewrite Es. Qed.

Lemma extend_built_joined dn w :
  plain w -> zlen (joined (dn ++ [w])) < VFS_PATH_MAX -> Forall plain dn -> extend_built (joined dn) w = joined (dn ++ [w]).
Proof.
  intros [Hne Hw] Hl Hd. rewrite joined_snoc in *. unfold extend_built, zlen, VFS_PATH_MAX in *. rewrite length_app in Hl. cbn [length] in Hl.
  rewrite (proj2 (Z.ltb_lt _ _)) by lia. destruct dn as [|u dn _] using rev_ind.
  - cbn [joined map concat last]. rewrite bool_decide_eq_true_2 by done. cbn [app length]. rewrite take_ge by (cbn [joined map concat length] in Hl; lia). done.
  - rewrite joined_snoc in *. apply Forall_app in Hd as [_ [[Hune Huw] _]%Forall_cons].
    destruct (joined dn ++ slash :: u) as [|c t] eqn:Ej; [by destruct (joined dn)|]. rewrite <- Ej in *.
    rewrite bool_decide_eq_false_2.
    2: { destruct u as [|x u _] using rev_ind; [done|]. rewrite app_comm_cons, app_assoc, last_snoc. intros [= ->].
         apply Forall_app in Huw as [_ [? _]%Forall_cons]. done. }
    rewrite length_app. cbn [length]. rewrite take_ge by lia. by rewrite <- app_assoc.
Qed.

(** The text at the cursor spells the components left. *)
Definition spells (t : list Z) (post : list (list Z)) : Prop := t = joined post \/ post <> [] /\ slash :: t = joined post.

Lemma spells_cons t w post :
  spells t (w :: post) -> plain w ->
  exists j, skip_slashes t = w ++ joined post /\ drop j t = w ++ joined post /\ (length t - length (w ++ joined post))%nat = j.
Proof.
  intros Ht [Hne Hw]. assert (skip_slashes (w ++ joined post) = w ++ joined post) as Hs.
  { destruct w as [|c w]; [done|]. apply Forall_cons in Hw as [Hc _]. cbn [app skip_slashes]. by rewrite (proj2 (Z.eqb_neq c slash)). }
  unfold spells, joined in *. cbn [map concat] in *. destruct Ht as [->|[_ [= ->]]].
  - exists 1%nat. split_and!; [|done|]; cbn [app skip_slashes length]; [exact Hs|lia].
  - exists 0%nat. split_and!; [exact Hs|done|lia].
Qed.

Lemma take_component_plain w post : plain w -> take_component (w ++ joined post) = (w, joined post).
Proof.
  intros [_ Hw]. induction Hw as [|c w Hc _ IH].
  - by destruct post.
  - cbn [app take_component]. by rewrite (proj2 (Z.eqb_neq c slash)), IH.
Qed.

Lemma namei_loop_walk fuel normalized dn post k cur s :
  spells (drop k normalized) post -> Forall proper (dn ++ post) -> zlen (joined (dn ++ post)) < VFS_PATH_MAX ->
  clear_below s dn post -> (length post < fuel)%nat ->
  namei_loop drivers fuel normalized (joined dn) (in_normalized k) cur s = walk post cur s.
Proof.
  revert dn post k cur s. induction fuel as [|fuel IH]; intros dn post k cur s Ht Hp Hl Hc Hf; [lia|].
  cbn [namei_loop text]. destruct post as [|w post].
  { destruct Ht as [->|[? _]]; done. }
  apply Forall_app in Hp as Hp2. destruct Hp2 as [Hdn [Hw Hpost]%Forall_cons].
  pose proof Hw as (Hwp & _ & _ & Hwl). destruct (spells_cons _ _ _ Ht Hwp) as (j & E1 & E2 & E3).
  rewrite E1. destruct (w ++ joined post) as [|c0 t0] eqn:Ew; [by destruct Hwp as [? _]; destruct w|]. rewrite <- Ew in *. clear Ew c0 t0.
  rewrite take_component_plain by done. cbn [fst]. rewrite take_ge by (unfold zlen, VFS_NAME_MAX in *; lia).
  assert (zlen (joined (dn ++ [w])) < VFS_PATH_MAX) as Hl1.
  { rewrite cons_middle, app_assoc, joined_app in Hl. unfold zlen in *. rewrite length_app in Hl. lia. }
  rewrite extend_built_joined by (done || by apply proper_plain).
  cbn [walk advance]. unfold bind. destruct (deref cur s) as [n s1|s1|] eqn:Ed; [|done|done].
  assert (s1 = s) as -> by (unfold deref in Ed; destruct (nodes s !! cur); congruence).
  destruct (is_set (n_type n) VFS_DIRECTORY); [|done]. destruct (op_finddir (drivers (n_ops n))) as [f|] eqn:Ef; [|done].
  destruct (allows cur VFS_MODE_IXOTH s) as [ok s1|s1|] eqn:Ea; [|done|done].
  assert (s1 = s) as ->.
  { unfold allows, bind in Ea. rewrite Ed in Ea. unfold get, ret in Ea. congruence. }
  destruct ok; [|done]. cbn [negb]. destruct (f cur w s) as [next s1|s1|] eqn:En; [|done|done].
  destruct (next =? NULL); [done|]. pose proof (finddir_mounts _ _ _ _ _ _ _ Ef En) as Hm.
  unfold get. rewrite (lookup_same_mounts s s1) by done. pose proof (Hc [] w post eq_refl) as Hc0. cbn [app] in Hc0. rewrite Hc0.
  rewrite E3. apply IH.
  - left. rewrite <- (drop_app_length w (joined post)), <- E2, !drop_drop. f_equal. lia.
  - by rewrite <- app_assoc.
  - by rewrite <- app_assoc.
  - intros a v b ->. rewrite (lookup_same_mounts s s1) by done. rewrite <- app_assoc. apply (Hc (w :: a) v b). done.
  - simpl in Hf. lia.
Qed.
End walk.

(** ** [vfs_namei] *)

Section namei.
Context {E : Type} (drivers : Z -> vtable E) `{!FinddirLaws drivers}.
Implicit Types s : vfs E.

(** At most one used entry per path. *)
Definition mounts_unique s : Prop := forall i j m m',
  vfs_mounts s !! i = Some m -> vfs_mounts s !! j = Some m' -> m_in_use m = true -> m_in_use m' = true ->
  m_path m = m_path m' -> i = j.

(** No mount point on a path below the root of this tree. *)
Definition no_mount_on s (post : list (list Z)) : Prop :=
  forall pst rest r, post = pst ++ rest -> pst <> [] -> ~ mounted_at s pst r.

Lemma no_mount_clear s post : mounts_ok s -> Forall plain post -> no_mount_on s post -> clear_below s [] post.
Proof.
  intros Hm Hp Hn a w b ->. cbn [app]. destruct (vfs_mount_lookup_by_path _ s) as [[r len]|] eqn:El; [|done].
  rewrite cons_middle, app_assoc in Hp. apply Forall_app in Hp as [Hp _].
  destruct (mount_lookup_Some s (a ++ [w]) r len Hm Hp El) as (pst & rest & Ep & Hne & Hat & _).
  exfalso. apply (Hn pst (rest ++ b) r); [|done|done]. rewrite app_assoc, <- Ep, <- app_assoc. done.
Qed.

Lemma joined_render st : st <> [] -> render st = joined st.
Proof. by destruct st. Qed.

Lemma joined_tail post : post <> [] -> spells (drop 1 (joined post)) post.
Proof. intros Hne. right. split; [done|]. by destruct post. Qed.

(** The start of the walk, once the path is normal. *)
Lemma namei_start fuel path st s :
  vfs_root s <> NULL -> vfs_normalize_path (Some [slash]) (Some path) VFS_PATH_MAX = Some (joined st) -> st <> [] ->
  Forall plain st ->
  vfs_namei drivers fuel (Some path) s =
  match vfs_mount_lookup_by_path (joined st) s with
  | None => namei_loop drivers fuel (joined st) [] (in_normalized 1) (vfs_root s) s
  | Some (m, len) =>
      if bool_decide (length (joined st) <= len)%nat then Ret m s
      else match drop (len + 1) (joined st) with
           | [] => Ret m s
           | _ => namei_loop drivers fuel (joined st) [] (in_normalized (len + 1)) m s
           end
  end.
Proof.
  intros Hr En Hne Hp. unfold vfs_namei. rewrite (proj2 (Z.eqb_neq _ _)) by done. rewrite En.
  pose proof (joined_length st Hp Hne) as Hl. unfold zlen in Hl.
  rewrite bool_decide_eq_false_2 by (intros E1; rewrite E1 in Hl; simpl in Hl; lia).
  destruct (vfs_mount_lookup_by_path (joined st) s) as [[m len]|] eqn:El.
  - assert (m <> NULL) as Hm.
    { unfold vfs_mount_lookup_by_path in El. destruct (best_mount _ _ _ _) as [? b]. destruct (Z.eqb_spec b NULL); [done|]. by injection El as <- _. }
    rewrite (proj2 (Z.eqb_neq m NULL)) by done.
    destruct (bool_decide_reflect (length (joined st) <= len)%nat) as [Hle|Hgt].
    + rewrite bool_decide_eq_true_2 by (by apply lookup_ge_None). done.
    + rewrite bool_decide_eq_false_2 by (rewrite lookup_ge_None; lia). cbn [text]. by destruct (drop (len + 1) (joined st)).
  - rewrite (proj2 (Z.eqb_neq (vfs_root s) NULL)) by done.
    rewrite bool_decide_eq_true_2 by (by destruct st). cbn [text].
    destruct (drop 1 (joined st)) eqn:Edr; [|done].
    exfalso. assert (length (drop 1 (joined st)) = 0%nat) as E0 by (by rewrite Edr). rewrite length_drop in E0. lia.
Qed.

(** The walk [vfs_namei] performs. *)
Lemma namei_walk fuel path st s :
  mounts_ok s -> vfs_root s <> NULL ->
  vfs_normalize_path (Some [slash]) (Some path) VFS_PATH_MAX = Some (render st) -> Forall proper st ->
  (length st < fuel)%nat ->
  (no_mount_on s st /\ vfs_namei drivers fuel (Some path) s = walk drivers st (vfs_root s) s) \/
  (exists pst post r, st = pst ++ post /\ pst <> [] /\ mounted_at s pst r /\
     (forall pst' rest r', st = pst' ++ rest -> pst' <> [] -> mounted_at s pst' r' -> (length pst' <= length pst)%nat) /\
     (no_mount_on s post -> vfs_namei drivers fuel (Some path) s = walk drivers post r s)).
Proof.
  intros Hm Hr En Hp Hf. pose proof (proper_plain _ Hp) as Hpl.
  destruct (decide (st = [])) as [->|Hne].
  { left. split; [intros [] ? ? ?; done|]. unfold vfs_namei. rewrite (proj2 (Z.eqb_neq _ _)) by done. by rewrite En. }
  destruct (normalize_stack _ _ _ _ En) as (st2 & E2 & Hok). pose proof (render_length _ _ Hok ltac:(done)) as Hlen. rewrite <- E2 in Hlen.
  rewrite joined_render in En, Hlen by done. rewrite (namei_start fuel path st s Hr En Hne Hpl).
  destruct (vfs_mount_lookup_by_path (joined st) s) as [[r len]|] eqn:El.
  - right. destruct (mount_lookup_Some s st r len Hm Hpl El) as (pst & post & -> & Hpne & Hat & Hrn & -> & Hmax).
    exists pst, post, r. split_and!; try done. intros Hno. rewrite joined_app in *. rewrite length_app.
    apply Forall_app in Hp as [_ Hpp]. apply Forall_app in Hpl as [_ Hplp]. destruct post as [|w post].
    { rewrite bool_decide_eq_true_2 by (simpl; lia). done. }
    rewrite bool_decide_eq_false_2 by (pose proof (joined_length (w :: post) Hplp ltac:(done)); unfold zlen in *; lia).
    assert (drop (length (joined pst) + 1) (joined pst ++ joined (w :: post)) = drop 1 (joined (w :: post))) as Ed.
    { rewrite drop_app_ge by lia. f_equal. lia. }
    pose proof (joined_length (w :: post) Hplp ltac:(done)) as Hl2.
    destruct (drop (length (joined pst) + 1) _) as [|c t] eqn:Edr.
    { exfalso. assert (length (drop 1 (joined (w :: post))) = 0%nat) as E0 by (by rewrite <- Ed). rewrite length_drop in E0. unfold zlen in Hl2. lia. }
    change (@nil Z) with (joined []). apply namei_loop_walk; [done| | | | |].
    + rewrite Edr, Ed. by apply joined_tail.
    + done.
    + cbn [app]. unfold zlen in *. rewrite length_app in Hlen. lia.
    + apply no_mount_clear; done.
    + rewrite length_app in Hf. lia.
  - left. assert (no_mount_on s st) as Hno.
    { intros pst rest r E3 Hpne Hat. by eapply mount_lookup_None. }
    split; [done|]. change (@nil Z) with (joined []). apply namei_loop_walk; [done|by apply joined_tail|done|done| |done].
    by apply no_mount_clear.
Qed.

(** Where the resolution of the components [st] starts: the root of the tree
    when nothing is mounted on the way, otherwise the root mounted at the
    longest mounted prefix; [post] is what is left to follow. *)
Definition starts s (st post : list (list Z)) (r : Z) : Prop :=
  (post = st /\ r = vfs_root s /\ no_mount_on s st) \/
  (exists pst, st = pst ++ post /\ pst <> [] /\ mounted_at s pst r /\
     forall pst' rest r', st = pst' ++ rest -> pst' <> [] -> mounted_at s pst' r' -> (length pst' <= length pst)%nat).

Lemma mounted_at_unique s pst r r' : mounts_unique s -> mounted_at s pst r -> mounted_at s pst r' -> r = r'.
Proof.
  intros Hu (m & [i Hi]%list_elem_of_lookup & U & Ep & <-) (m' & [j Hj]%list_elem_of_lookup & U' & Ep' & <-).
  assert (i = j) as <- by (eapply Hu; [exact Hi|exact Hj|done|done|congruence]). congruence.
Qed.

(** There is one such place only. *)
Lemma starts_unique s st post r post' r' : mounts_unique s -> starts s st post r -> starts s st post' r' -> post = post' /\ r = r'.
Proof.
  intros Hu [(-> & -> & H)|(pst & E1 & Hne & Hat & Hmax)] [(-> & -> & H')|(pst' & E1' & Hne' & Hat' & Hmax')]; try done.
  - by destruct (H pst' post' r').
  - by destruct (H' pst post r).
  - pose proof (Hmax _ _ _ E1' Hne' Hat') as L1. pose proof (Hmax' _ _ _ E1 Hne Hat) as L2.
    rewrite E1 in E1'. apply app_inj_1 in E1' as [<- <-]; [|lia]. split; [done|]. by eapply mounted_at_unique.
Qed.

(** C18: [vfs_namei] follows the components of the normal path from the root
    of the tree when nothing is mounted on the way, otherwise from the root
    mounted at the longest mounted prefix through the remaining components:
    it ends as the plain walk does. That is stated for a remainder that no
    mount point's path begins; with one the walk can go round for ever
    ([namei_nested_mount_hangs]). *)
Theorem namei_correct fuel path st s :
  mounts_ok s -> mounts_unique s -> vfs_root s <> NULL ->
  vfs_normalize_path (Some [slash]) (Some path) VFS_PATH_MAX = Some (render st) -> Forall proper st ->
  (length st < fuel)%nat ->
  (exists post r, starts s st post r) /\
  (forall post r, starts s st post r -> no_mount_on s post -> vfs_namei drivers fuel (Some path) s = walk drivers post r s).
Proof.
  intros Hm Hu Hr En Hp Hf. destruct (namei_walk fuel path st s Hm Hr En Hp Hf) as [[Hno Hw]|(pst & post & r & Es & Hne & Hat & Hmax & Hw)].
  - assert (starts s st st (vfs_root s)) as H1 by (by left). split; [by eexists _, _|].
    intros post r H2 _. by destruct (starts_unique _ _ _ _ _ _ Hu H1 H2) as [<- <-].
  - assert (starts s st post r) as H1 by (right; by exists pst). split; [by eexists _, _|].
    intros post' r' H2. by destruct (starts_unique _ _ _ _ _ _ Hu H1 H2) as [<- <-].
Qed.
End namei.

(** ** Mounting *)

Section mounting.
Context {E : Type} (drivers : Z -> vtable E).
Implicit Types s : vfs E.

Lemma find_mount_Some p ms i j :
  find_mount p ms i = Some j -> exists m, (i <= j)%nat /\ ms !! (j - i)%nat = Some m /\ p m = true.
Proof.
  revert i. induction ms as [|m ms IH]; intros i; cbn [find_mount]; [done|]. destruct (p m) eqn:Ep.
  - intros [= ->]. exists m. by rewrite Nat.sub_diag.
  - intros (m' & Hle & Hl & Hp)%IH. exists m'. split_and!; [lia| |done].
    replace (j - i)%nat with (S (j - S i)) by lia. done.
Qed.
Lemma find_mount_None p ms i : find_mount p ms i = None -> forall m, m ∈ ms -> p m = false.
Proof.
  revert i. induction ms as [|m ms IH]; intros i; cbn [find_mount]; [by intros _ m Hm%elem_of_nil|].
  destruct (p m) eqn:Ep; [done|]. intros Hn m' [->|Hin]%elem_of_cons; [done|by eapply IH].
Qed.


(** Storing an entry whose path no other used entry has. *)
Lemma store_mount s i m st r :
  mounts_ok s -> mounts_unique s -> vfs_mounts s !! i = Some m ->
  (m_in_use m = true -> m_path m = joined st) ->
  (forall j m', j <> i -> vfs_mounts s !! j = Some m' -> m_in_use m' = true -> m_path m' <> joined st) ->
  st <> [] -> Forall proper st -> r <> NULL ->
  let s' := set_mounts (<[i := mk_mount (joined st) r true]> (vfs_mounts s)) s in
  mounts_ok s' /\ mounts_unique s' /\ mounted_at s' st r /\
  (forall pst r', joined pst <> joined st -> mounted_at s' pst r' <-> mounted_at s pst r').
Proof.
  intros [Hlen Hok] Hu Hi Hm Hother Hne Hp Hr. cbn zeta. pose proof (lookup_lt_Some _ _ _ Hi) as Hlt.
  assert (forall j, j <> i -> <[i := mk_mount (joined st) r true]> (vfs_mounts s) !! j = vfs_mounts s !! j) as Hj
    by (intros; by rewrite list_lookup_insert_ne).
  pose proof (list_lookup_insert_eq (vfs_mounts s) i (mk_mount (joined st) r true) Hlt) as Hii.
  unfold mounts_ok, mounts_unique, mounted_at, set_mounts. cbn [vfs_mounts]. split_and!.
  - by rewrite length_insert.
  - apply Forall_insert; [done|]. intros _. split; [done|]. by exists st.
  - intros a b m1 m2 Ha Hb U1 U2 Ep. destruct (decide (a = i)) as [->|Hai], (decide (b = i)) as [->|Hbi]; try done.
    + rewrite Hii in Ha. injection Ha as <-. rewrite Hj in Hb by done. exfalso. by eapply (Hother b).
    + rewrite Hii in Hb. injection Hb as <-. rewrite Hj in Ha by done. exfalso. by eapply (Hother a).
    + rewrite Hj in Ha, Hb by done. by eapply Hu.
  - eexists. split; [eapply list_elem_of_lookup_2; exact Hii|done].
  - intros pst r' Hpne. split; intros (m' & Hin & U & Ep & Er); apply list_elem_of_lookup in Hin as [j Hjl].
    + destruct (decide (j = i)) as [->|Hne']; [rewrite Hii in Hjl; injection Hjl as <-; by cbn in Ep|].
      rewrite Hj in Hjl by done. exists m'. split; [by eapply list_elem_of_lookup_2|done].
    + destruct (decide (j = i)) as [->|Hne']; [rewrite Hi in Hjl; injection Hjl as ->; rewrite Hm in Ep by done; congruence|].
      exists m'. split; [eapply (list_elem_of_lookup_2 _ j); by rewrite Hj|done].
Qed.

(** What a successful [vfs_mount] at a path other than the root does. *)
Lemma vfs_mount_store path r s s' st :
  mounts_ok s -> mounts_unique s -> r <> NULL -> st <> [] -> Forall proper st ->
  vfs_normalize_path (Some [slash]) (Some path) VFS_PATH_MAX = Some (joined st) ->
  vfs_mount (Some path) r s = (0, s') ->
  vfs_root s' = vfs_root s /\ mounts_ok s' /\ mounts_unique s' /\ mounted_at s' st r /\
  (forall pst r', joined pst <> joined st -> mounted_at s' pst r' <-> mounted_at s pst r').
Proof.
  intros Hm Hu Hr Hne Hp En. unfold vfs_mount. rewrite (proj2 (Z.eqb_neq _ _)) by done. rewrite En.
  pose proof (joined_length st (proper_plain _ Hp) Hne) as Hl.
  rewrite bool_decide_eq_false_2 by (intros E1; rewrite E1 in Hl; unfold zlen in Hl; simpl in Hl; lia).
  destruct (find_mount _ _ 0) as [i|] eqn:E1.
  - intros [= <-]. apply find_mount_Some in E1 as (m & _ & Hi & [Um Ep%bool_decide_eq_true_1]%andb_prop).
    rewrite Nat.sub_0_r in Hi. split; [done|]. eapply store_mount; try done.
    intros j m' Hj Hjl U' E'. apply Hj. eapply Hu; [exact Hjl|exact Hi|done|done|congruence].
  - destruct (find_mount (fun m => negb (m_in_use m)) _ 0) as [i|] eqn:E2; [|done]. intros [= <-].
    pose proof (find_mount_None _ _ _ E1) as Hnone.
    apply find_mount_Some in E2 as (m & _ & Hi & Um%negb_true_iff). rewrite Nat.sub_0_r in Hi. split; [done|].
    destruct (normalize_stack _ _ _ _ En) as (st2 & E3 & Hok). pose proof (render_length _ _ Hok ltac:(done)) as Hlen. rewrite <- E3 in Hlen.
    rewrite take_ge by (unfold zlen, VFS_PATH_MAX in *; lia). eapply store_mount; try done; [by rewrite Um|].
    intros j m' Hj Hjl U' E'. apply list_elem_of_lookup_2 in Hjl. specialize (Hnone m' Hjl). cbv beta in Hnone.
    rewrite U', E', bool_decide_eq_true_2 in Hnone by done. done.
Qed.

(** After a successful [vfs_mount] the mount point resolves to the
    mounted root, whatever the tree holds there; the table stays well formed
    with one entry per path, and no other mount changes. *)
Theorem mount_then_namei fuel path st r s s' :
  mounts_ok s -> mounts_unique s -> vfs_root s <> NULL -> r <> NULL -> Forall proper st ->
  vfs_normalize_path (Some [slash]) (Some path) VFS_PATH_MAX = Some (render st) ->
  vfs_mount (Some path) r s = (0, s') ->
  vfs_namei drivers fuel (Some path) s' = Ret r s' /\ mounts_ok s' /\ mounts_unique s' /\
  (forall pst r', pst <> [] -> joined pst <> joined st -> mounted_at s' pst r' <-> mounted_at s pst r').
Proof.
  intros Hm Hu Hroot Hr Hp En Hv. destruct (decide (st = [])) as [->|Hne].
  { unfold vfs_mount in Hv. rewrite (proj2 (Z.eqb_neq _ _)) in Hv by done. rewrite En in Hv. injection Hv as <-.
    split_and!; try done. unfold vfs_namei. cbn [vfs_root vfs_set_root set_root]. rewrite (proj2 (Z.eqb_neq _ _)) by done. by rewrite En. }
  rewrite joined_render in En by done.
  destruct (vfs_mount_store path r s s' st Hm Hu Hr Hne Hp En Hv) as (Hrt & Hm' & Hu' & Hat & Hsame).
  split_and!; [|done|done|by intros; apply Hsame].
  pose proof (proper_plain _ Hp) as Hpl. rewrite (namei_start _ fuel path st s') by (done || congruence).
  destruct (vfs_mount_lookup_by_path (joined st) s') as [[r1 len]|] eqn:El.
  2: { exfalso. eapply (mount_lookup_None s' st st []); try done. by rewrite app_nil_r. }
  destruct (mount_lookup_Some s' st r1 len Hm' Hpl El) as (pst & post & Est & Hpne & Hat1 & _ & -> & Hmax).
  specialize (Hmax st [] r ltac:(by rewrite app_nil_r) Hne Hat).
  assert (post = []) as ->.
  { apply (f_equal length) in Est. rewrite length_app in Est. destruct post; [done|]. simpl in Est. lia. }
  rewrite app_nil_r in Est. subst pst. rewrite bool_decide_eq_true_2 by lia.
  destruct Hat as (m & Hin & U & Ep & <-), Hat1 as (m1 & Hin1 & U1 & Ep1 & <-).
  apply list_elem_of_lookup in Hin as [i Hi], Hin1 as [j Hj].
  assert (i = j) as -> by (eapply Hu'; [exact Hi|exact Hj|done|done|congruence]). congruence.
Qed.
End mounting.

(** ** Pipes *)

Section pipes.
Context {E : Type} (others : vfs E -> vfs E) (ticks : nat).
Implicit Types s : vfs E.
Abbreviation cap := VFS_PIPE_CAPACITY.
Abbreviation content := (ring_list cap).

Lemma cap_small : 0 < cap < 2 ^ 31.
Proof. done. Qed.

Definition pipe_is s pid p : Prop := pipes s !! pid = Some p /\ ring_ok cap (p_ring p).

Lemma pipe_put s pid p r :
  ring_ok cap r -> pipe_is (set_pipes (<[pid := mk_pipe r (p_readers p) (p_writers p)]> (pipes s)) s) pid (mk_pipe r (p_readers p) (p_writers p)).
Proof. intros Hr. split; [|done]. cbn. apply lookup_insert_eq. Qed.

(** The pipe cannot be read now: empty, with or without a writer left. *)
Definition starved s pid (open : bool) : Prop :=
  exists p, pipe_is s pid p /\ content (p_ring p) = [] /\ (if open then p_writers p <> 0 else p_writers p = 0).
(** The pipe cannot be written now. *)
Definition choked s pid : Prop := exists p, pipe_is s pid p /\ count (p_ring p) = cap /\ p_readers p <> 0.
Definition unread s pid : Prop := exists p, pipe_is s pid p /\ p_readers p = 0.

Section reading.
(** The tasks that run meanwhile only write to this pipe. *)
Context (pid : Z) (writing : forall s p, pipe_is s pid p ->
  exists p' wr, pipe_is (others s) pid p' /\ content (p_ring p') = content (p_ring p) ++ wr).

(** A reader's run: it takes the oldest byte, or finds the pipe empty with a
    writer left and lets the other tasks run, which write some bytes. [out]
    is what it took, [wr] what the others wrote during the run. *)
Inductive consumes : vfs E -> list Z -> list Z -> vfs E -> Prop :=
| consumes_done s : consumes s [] [] s
| consumes_take s p r b out wr s' :
    pipe_is s pid p -> ring_ok cap r -> content (p_ring p) = b :: content r ->
    consumes (set_pipes (<[pid := mk_pipe r (p_readers p) (p_writers p)]> (pipes s)) s) out wr s' ->
    consumes s (b :: out) wr s'
| consumes_wait s p' out wr s' :
    starved s pid true -> pipe_is (others s) pid p' ->
    consumes (others s) out wr s' ->
    consumes s out (content (p_ring p') ++ wr) s'.

(** First in, first out: what was in the pipe and what the others wrote came
    out in that order, or is still there. *)
Lemma consumes_fifo s out wr s' p :
  consumes s out wr s' -> pipe_is s pid p -> exists p', pipe_is s' pid p' /\ content (p_ring p) ++ wr = out ++ content (p_ring p').
Proof.
  intros Hc. revert p. induction Hc as [s|s p r b out wr s' Hp Hr Ec _ IH|s p' out wr s' (q & Hq & Eq & _) Hp' _ IH]; intros p0 Hp0.
  - exists p0. by rewrite app_nil_r.
  - assert (p0 = p) as -> by (destruct Hp0, Hp; congruence). destruct (IH _ (pipe_put s pid p r Hr)) as (p' & Hp' & E1).
    exists p'. split; [done|]. cbn [p_ring] in E1. by rewrite Ec, <- app_comm_cons, E1.
  - assert (p0 = q) as -> by (destruct Hp0, Hq; congruence). destruct (IH _ Hp') as (p2 & Hp2 & E1). exists p2. by rewrite Eq.
Qed.

Lemma consumes_trans s1 s2 s3 o1 w1 o2 w2 : consumes s1 o1 w1 s2 -> consumes s2 o2 w2 s3 -> consumes s1 (o1 ++ o2) (w1 ++ w2) s3.
Proof. induction 1; intros H'; [done| |rewrite <- app_assoc]; econstructor; eauto. Qed.

Lemma wait_readable_spec n s p :
  pipe_is s pid p ->
  match wait_readable others n pid s with
  | Ret ready s' => exists wr p', consumes s [] wr s' /\ pipe_is s' pid p' /\ (if ready then count (p_ring p') <> 0 else starved s' pid false)
  | Hang s' => exists wr, consumes s [] wr s' /\ starved s' pid true
  | Undef => False
  end.
Proof.
  revert s p. induction n as [|n IH]; intros s p Hp; cbn [wait_readable]; unfold bind, deref_pipe; pose proof Hp as [-> Hr];
    (destruct (Z.eqb_spec (count (p_ring p)) 0) as [E0|]; [|exists [], p; split_and!; [constructor|done|done]]);
    apply (ring_list_nil cap (p_ring p) Hr) in E0;
    (destruct (Z.eqb_spec (p_writers p) 0); [exists [], p; split_and!; [constructor|done|by exists p]|]).
  - exists []. split; [constructor|by exists p].
  - unfold modify. destruct (writing s p Hp) as (p1 & w1 & Hp1 & _). assert (starved s pid true) as Hst by (by exists p).
    specialize (IH (others s) p1 Hp1). destruct (wait_readable others n pid (others s)) as [ready s'|s'|]; [| |done].
    + destruct IH as (w2 & p' & Hf2 & Hp' & Hres). exists (content (p_ring p1) ++ w2), p'. split_and!; [by constructor|done|done].
    + destruct IH as (w2 & Hf2 & Hres). exists (content (p_ring p1) ++ w2). split; [by constructor|done].
Qed.

Lemma pipe_read_loop_spec n s p :
  pipe_is s pid p ->
  match pipe_read_loop others ticks n pid s with
  | Ret out s' => exists wr, consumes s out wr s' /\ (length out <= n)%nat /\ ((length out < n)%nat -> starved s' pid false)
  | Hang s' => exists out wr, consumes s out wr s' /\ (length out < n)%nat /\ starved s' pid true
  | Undef => False
  end.
Proof.
  revert s p. induction n as [|n IH]; intros s p Hp; cbn [pipe_read_loop].
  { exists []. split_and!; [constructor|done|simpl; lia]. }
  unfold bind at 1. pose proof (wait_readable_spec ticks s p Hp) as Hw.
  destruct (wait_readable others ticks pid s) as [[] s1|s1|]; [| | |done].
  - destruct Hw as (w1 & p1 & Hf1 & Hp1 & Hc). unfold bind at 1, deref_pipe. pose proof Hp1 as [-> Hr1].
    destruct (content (p_ring p1)) as [|b l] eqn:El.
    { exfalso. by apply Hc, (ring_list_nil cap (p_ring p1) Hr1). }
    destruct (ring_pop_spec cap cap_small (p_ring p1) b l Hr1 El) as (r & -> & Hr & Er).
    unfold bind at 1, put_pipe, modify. set (s2 := set_pipes _ _).
    specialize (IH s2 _ (pipe_put s1 pid p1 r Hr)). unfold bind.
    assert (forall out wr s', consumes s2 out wr s' -> consumes s (b :: out) (w1 ++ wr) s') as Hstep.
    { intros out wr s' H2. eapply (consumes_trans _ s1 _ [] w1 (b :: out) wr Hf1). econstructor; [exact Hp1|exact Hr|by rewrite El, Er|done]. }
    destruct (pipe_read_loop others ticks n pid s2) as [out s'|s'|]; [| |done].
    + destruct IH as (w2 & Hf3 & Hl & Hst). exists (w1 ++ w2). split_and!; [by apply Hstep|simpl; lia|].
      intros ?. apply Hst. simpl in *. lia.
    + destruct IH as (out & w2 & Hf3 & Hl & Hst). exists (b :: out), (w1 ++ w2). split_and!; [by apply Hstep|simpl; lia|done].
  - destruct Hw as (w1 & p1 & Hf1 & Hp1 & Hst). exists w1. split_and!; [done|simpl; lia|done].
  - destruct Hw as (w1 & Hf1 & Hst). exists [], w1. split_and!; [done|simpl; lia|done].
Qed.

(** C19: [pipe_read] on a read end, while other tasks only write, is a run
    that takes the oldest byte as long as there is one and otherwise lets the
    others run: what was in the pipe followed by the bytes the others wrote
    meanwhile is what it returns followed by what is left. It returns fewer
    bytes than asked for only at end of file (empty and no writer left),
    waits only while the pipe is empty with a writer left, and never touches
    freed memory. *)
Theorem pipe_read_correct node refs n s p offset size :
  nodes s !! node = Some n -> n_impl n = impl_pipe pid false refs -> node <> NULL -> pipe_is s pid p -> 0 <= size < 2 ^ 31 ->
  match pipe_read others ticks node offset size s with
  | Ret (rc, out) s' => exists wr p', consumes s out wr s' /\ pipe_is s' pid p' /\ content (p_ring p) ++ wr = out ++ content (p_ring p') /\
      rc = zlen out /\ rc <= size /\ (rc < size -> starved s' pid false)
  | Hang s' => exists out wr, consumes s out wr s' /\ content (p_ring p) ++ wr = out /\ zlen out < size /\ starved s' pid true
  | Undef => False
  end.
Proof.
  intros Hn Hi Hz Hp Hs. unfold pipe_read, pipe_end. rewrite (proj2 (Z.eqb_neq _ _)) by done.
  unfold bind at 1, bind at 1, deref. rewrite Hn, Hi. unfold ret at 1. unfold bind.
  pose proof (pipe_read_loop_spec (Z.to_nat size) s p Hp) as Hl.
  destruct (pipe_read_loop others ticks (Z.to_nat size) pid s) as [out s'|s'|]; [| |done]; unfold zlen.
  - destruct Hl as (wr & Hf & Hle & Hst). destruct (consumes_fifo _ _ _ _ _ Hf Hp) as (p' & Hp' & Ef). exists wr, p'. unfold ret.
    assert (i32 (Z.of_nat (length out)) = Z.of_nat (length out)) as -> by (unfold i32; rewrite Z.mod_small; lia).
    split_and!; [done|done|done|done|lia|]. intros ?. apply Hst. lia.
  - destruct Hl as (out & wr & Hf & Hlt & Hst). destruct (consumes_fifo _ _ _ _ _ Hf Hp) as (p' & Hp' & Ef). exists out, wr.
    split_and!; [done| |lia|done]. destruct Hst as (q & Hq & Eq & _). assert (q = p') as -> by (destruct Hq, Hp'; congruence).
    by rewrite Ef, Eq, app_nil_r.
Qed.
End reading.

Section writing.
(** The tasks that run meanwhile only read from this pipe. *)
Context (pid : Z) (reading : forall s p, pipe_is s pid p ->
  exists p' rd, pipe_is (others s) pid p' /\ content (p_ring p) = rd ++ content (p_ring p')).

(** A writer's run: it adds a byte at the end, or finds the pipe full with a
    reader left and lets the other tasks run, which read the bytes [rd]. *)
Inductive supplies : vfs E -> list Z -> list Z -> vfs E -> Prop :=
| supplies_done s : supplies s [] [] s
| supplies_give s p r b buf rd s' :
    pipe_is s pid p -> ring_ok cap r -> content r = content (p_ring p) ++ [b] ->
    supplies (set_pipes (<[pid := mk_pipe r (p_readers p) (p_writers p)]> (pipes s)) s) buf rd s' ->
    supplies s (b :: buf) rd s'
| supplies_wait s p p' rd1 buf rd s' :
    choked s pid -> pipe_is s pid p -> pipe_is (others s) pid p' -> content (p_ring p) = rd1 ++ content (p_ring p') ->
    supplies (others s) buf rd s' ->
    supplies s buf (rd1 ++ rd) s'.

Lemma supplies_fifo s buf rd s' p :
  supplies s buf rd s' -> pipe_is s pid p -> exists p', pipe_is s' pid p' /\ content (p_ring p) ++ buf = rd ++ content (p_ring p').
Proof.
  intros Hc. revert p. induction Hc as [s|s p r b buf rd s' Hp Hr Ec _ IH|s q p' rd1 buf rd s' _ Hq Hp' Eq _ IH]; intros p0 Hp0.
  - exists p0. by rewrite app_nil_r.
  - assert (p0 = p) as -> by (destruct Hp0, Hp; congruence). destruct (IH _ (pipe_put s pid p r Hr)) as (p' & Hp' & E1).
    exists p'. split; [done|]. cbn [p_ring] in E1. by rewrite <- E1, Ec, <- app_assoc.
  - assert (p0 = q) as -> by (destruct Hp0, Hq; congruence). destruct (IH _ Hp') as (p2 & Hp2 & E1). exists p2. split; [done|].
    by rewrite Eq, <- !app_assoc, E1.
Qed.

Lemma supplies_trans s1 s2 s3 b1 r1 b2 r2 : supplies s1 b1 r1 s2 -> supplies s2 b2 r2 s3 -> supplies s1 (b1 ++ b2) (r1 ++ r2) s3.
Proof. induction 1; intros H'; [done| |rewrite <- app_assoc]; econstructor; eauto. Qed.

Lemma wait_writable_spec n s p :
  pipe_is s pid p ->
  match wait_writable others n pid s with
  | Ret room s' => exists rd p', supplies s [] rd s' /\ pipe_is s' pid p' /\ (if room then count (p_ring p') < cap else unread s' pid)
  | Hang s' => exists rd, supplies s [] rd s' /\ choked s' pid
  | Undef => False
  end.
Proof.
  revert s p. induction n as [|n IH]; intros s p Hp; cbn [wait_writable]; unfold bind, deref_pipe; pose proof Hp as [-> Hr];
    (destruct (Z.eqb_spec (p_readers p) 0); [exists [], p; split_and!; [constructor|done|by exists p]|]);
    (destruct (Z.leb_spec cap (count (p_ring p))) as [Hc|]; [|exists [], p; split_and!; [constructor|done|done]]);
    assert (count (p_ring p) = cap) as Hfull by (destruct Hr; lia); assert (choked s pid) as Hch by (by exists p).
  - exists []. split; [constructor|done].
  - unfold modify. destruct (reading s p Hp) as (p1 & r1 & Hp1 & E1).
    specialize (IH (others s) p1 Hp1). destruct (wait_writable others n pid (others s)) as [room s'|s'|]; [| |done].
    + destruct IH as (r2 & p' & Hf2 & Hp' & Hres). exists (r1 ++ r2), p'. split_and!; [by eapply supplies_wait|done|done].
    + destruct IH as (r2 & Hf2 & Hres). exists (r1 ++ r2). split; [by eapply supplies_wait|done].
Qed.

(** The result of a write that stopped after [k] more bytes. *)
Definition write_result (k : nat) (buf : list Z) (written rc : Z) s' : Prop :=
  (k = length buf /\ rc = written + Z.of_nat k) \/
  ((k < length buf)%nat /\ unread s' pid /\ rc = if 0 <? written + Z.of_nat k then written + Z.of_nat k else -1).

Lemma pipe_write_loop_spec buf written s p :
  pipe_is s pid p -> 0 <= written -> written + zlen buf < 2 ^ 31 ->
  match pipe_write_loop others ticks buf written pid s with
  | Ret rc s' => exists rd k, supplies s (take k buf) rd s' /\ write_result k buf written rc s'
  | Hang s' => exists rd k, supplies s (take k buf) rd s' /\ (k < length buf)%nat /\ choked s' pid
  | Undef => False
  end.
Proof.
  assert (forall x, 0 <= x < 2 ^ 31 -> i32 x = x) as Hi32 by (intros; unfold i32; rewrite Z.mod_small; lia).
  revert written s p. induction buf as [|b buf IH]; intros written s p Hp H0 Hlt; cbn [pipe_write_loop].
  { exists [], 0%nat. split; [constructor|]. left. rewrite Hi32 by (unfold zlen in Hlt; simpl in Hlt; lia). simpl. split; [done|lia]. }
  unfold zlen in *. cbn [length] in Hlt. unfold bind at 1. pose proof (wait_writable_spec ticks s p Hp) as Hw.
  destruct (wait_writable others ticks pid s) as [[] s1|s1|]; [| | |done].
  - destruct Hw as (r1 & p1 & Hf1 & Hp1 & Hc). unfold bind at 1, deref_pipe. pose proof Hp1 as [-> Hr1].
    destruct (ring_push_spec cap cap_small b (p_ring p1) Hr1 Hc) as (r & -> & Hr & Er).
    unfold bind at 1, put_pipe, modify. set (s2 := set_pipes _ _).
    specialize (IH (written + 1) s2 _ (pipe_put s1 pid p1 r Hr) ltac:(lia) ltac:(lia)).
    assert (forall k rd s', supplies s2 (take k buf) rd s' -> supplies s (take (S k) (b :: buf)) (r1 ++ rd) s') as Hstep.
    { intros k rd s' H2. eapply (supplies_trans _ s1 _ [] r1 (b :: take k buf) rd Hf1). econstructor; [exact Hp1|exact Hr|exact Er|done]. }
    destruct (pipe_write_loop others ticks buf (written + 1) pid s2) as [rc s'|s'|]; [| |done].
    + destruct IH as (r2 & k & Hf3 & Hres). exists (r1 ++ r2), (S k). split; [by apply Hstep|].
      destruct Hres as [[-> ->]|(Hk & Hu & ->)]; [left|right]; cbn [length]; rewrite Nat2Z.inj_succ; split_and!; try done; try lia.
      by replace (written + Z.succ (Z.of_nat k)) with (written + 1 + Z.of_nat k) by lia.
    + destruct IH as (r2 & k & Hf3 & Hk & Hch). exists (r1 ++ r2), (S k). split_and!; [by apply Hstep|simpl; lia|done].
  - destruct Hw as (r1 & p1 & Hf1 & Hp1 & Hu). exists r1, 0%nat. split; [done|]. right. rewrite Z.add_0_r, Hi32 by lia. split_and!; [simpl; lia|done|done].
  - destruct Hw as (r1 & Hf1 & Hch). exists r1, 0%nat. split_and!; [done|simpl; lia|done].
Qed.

(** [pipe_write] on a write end, while other tasks only read: it appends
    a prefix of the buffer to the stream, the whole of it unless no reader is
    left (then the count so far, or -1 for none), and waits only while the
    pipe is full with a reader left; it never touches freed memory. *)
Theorem pipe_write_correct node refs n s p offset buf :
  nodes s !! node = Some n -> n_impl n = impl_pipe pid true refs -> node <> NULL -> pipe_is s pid p -> zlen buf < 2 ^ 31 ->
  match pipe_write others ticks node offset buf s with
  | Ret rc s' => exists rd k, supplies s (take k buf) rd s' /\ write_result k buf 0 rc s'
  | Hang s' => exists rd k, supplies s (take k buf) rd s' /\ (k < length buf)%nat /\ choked s' pid
  | Undef => False
  end.
Proof.
  intros Hn Hi Hz Hp Hs. unfold pipe_write, pipe_end. rewrite (proj2 (Z.eqb_neq _ _)) by done.
  unfold bind at 1, bind at 1, deref. rewrite Hn, Hi. unfold ret at 1. cbn [negb].
  eapply pipe_write_loop_spec; [done|lia|lia].
Qed.
End writing.
End pipes.

(** ** With the in-memory file system as driver *)

Lemma find_child_state {E} l name (s : vfs E) r s' : find_child l name s = Ret r s' -> s' = s.
Proof.
  revert r s'. induction l as [|c l IH]; intros r s'; cbn [find_child]; [by intros [= _ <-]|]. unfold bind, deref, ret.
  destruct (nodes s !! c); [|done]. case_bool_decide; [by intros [= _ <-]|].
  destruct (find_child l name s) as [r1 s1|s1|] eqn:E1; [|done|done]. intros [= _ <-]. by eapply IH.
Qed.

Lemma ramfs_finddir_state {E} a name (s : vfs E) r s' : ramfs_finddir a name s = Ret r s' -> s' = s.
Proof.
  unfold ramfs_finddir, bind, deref, ret. destruct (a =? NULL); [by intros [= _ <-]|]. destruct (nodes s !! a) as [n|]; [|done].
  destruct (negb _); [by intros [= _ <-]|]. destruct (find_child _ _ s) as [r1 s1|s1|] eqn:E1; [|done|done].
  intros [= _ <-]. by eapply find_child_state.
Qed.

Definition no_driver (_ : Z) : vtable unit := mk_vtable None None None None None None None None.
Definition idle (s : vfs unit) : vfs unit := s.
Definition drv : Z -> vtable unit := kernel_drivers always idle 10 no_driver.

#[export] Instance drv_finddir : FinddirLaws drv.
Proof.
  split. intros ops f a name s r s'. unfold drv, kernel_drivers. destruct (ops =? OPS_PIPE); [done|].
  destruct (ops =? OPS_RAMFS); [|done]. intros [= <-] Hf%ramfs_finddir_state. by subst.
Qed.

(** ["/m"] with a directory ["m"] and a file ["x"] in it, mounted over the
    directory ["/m"] of the root tree. *)
Definition volume : vfs unit :=
  after (vfs_create_path drv 10 (Some [47; 109]) VFS_DIRECTORY) booted.
Definition volume_root : Z := 3.
Definition filled : vfs unit :=
  after (ramfs_alloc_node always [109] VFS_DIRECTORY;;; ramfs_create always volume_root [109] VFS_DIRECTORY;;;
         ramfs_create always volume_root [120] VFS_FILE) volume.
Definition mounted : vfs unit := (vfs_mount (Some [47; 109]) volume_root filled).2.

(** The loop state in which the walk is caught: [built_path] is full and the
    cursor restarts at the same place of it. *)
Definition stretched (k : nat) : list Z := [47; 109] ++ concat (replicate k [47; 120]).
Definition full_path : list Z := stretched 126.

(** Until the buffer is full every iteration appends to it. *)
Lemma stretch k fuel : (k < 125)%nat ->
  namei_loop drv (S fuel) [47; 109; 47; 109; 47; 120] (stretched (S k)) (in_built 3) volume_root mounted =
  namei_loop drv fuel [47; 109; 47; 109; 47; 120] (stretched (S (S k))) (in_built 3) volume_root mounted.
Proof. intros Hk. do 125 (destruct k as [|k]; [reflexivity|]). lia. Qed.

Lemma stretch_all j k fuel : (k + j = 125)%nat ->
  namei_loop drv (j + fuel) [47; 109; 47; 109; 47; 120] (stretched (S k)) (in_built 3) volume_root mounted =
  namei_loop drv fuel [47; 109; 47; 109; 47; 120] full_path (in_built 3) volume_root mounted.
Proof.
  revert k. induction j as [|j IH]; intros k Hk; [by replace k with 125%nat by lia|].
  cbn [Nat.add]. rewrite stretch by lia. apply IH. lia.
Qed.

Lemma caught fuel : namei_loop drv (S fuel) [47; 109; 47; 109; 47; 120] full_path (in_built 3) volume_root mounted =
  namei_loop drv fuel [47; 109; 47; 109; 47; 120] full_path (in_built 3) volume_root mounted.
Proof. reflexivity. Qed.

Lemma caught_forever fuel : namei_loop drv fuel [47; 109; 47; 109; 47; 120] full_path (in_built 3) volume_root mounted = Hang mounted.
Proof. induction fuel as [|fuel IH]; [done|]. rewrite caught. exact IH. Qed.

(** Resolving ["/m/m/x"] never ends when the file system mounted on
    ["/m"] holds a directory ["m"] and a file ["x"]: the walk compares the
    path below the mounted root with the absolute mount paths, jumps back to
    the mounted root and restarts the cursor inside its own growing buffer. *)
Theorem namei_nested_mount_hangs fuel :
  vfs_namei drv (127 + fuel) (Some [47; 109; 47; 109; 47; 120]) mounted = Hang mounted.
Proof.
  transitivity (namei_loop drv (125 + fuel) [47; 109; 47; 109; 47; 120] (stretched 1) (in_built 3) volume_root mounted);
    [reflexivity|]. rewrite (stretch_all 125 0) by done. apply caught_forever.
Qed.

(** The tree below the mount point is otherwise reachable. *)
Example namei_mounted_file : exists s, vfs_namei drv 10 (Some [47; 109; 47; 120]) mounted = Ret 5 s.
Proof. eexists. vm_compute. reflexivity. Qed.

Lemma filled_mounts : mounts_ok filled /\ mounts_unique filled.
Proof.
  assert (vfs_mounts filled = replicate VFS_MAX_MOUNTS no_mount) as Hm by (by vm_compute).
  split; [split|].
  - by rewrite Hm.
  - rewrite Hm. apply Forall_replicate. done.
  - intros i j m m' Hi Hj. rewrite Hm in Hi, Hj. apply lookup_replicate in Hi as [-> _]. done.
Qed.

Lemma proper_m : Forall proper [[109]].
Proof. apply Forall_singleton. repeat split; try done. by apply Forall_singleton. Qed.

Lemma mount_then_namei_witness :
  vfs_namei drv 7 (Some [47; 109]) mounted = Ret volume_root mounted.
Proof.
  destruct filled_mounts as [H1 H2].
  destruct (mount_then_namei drv 7 [47; 109] [[109]] volume_root filled mounted H1 H2) as [H _];
    [by vm_compute|done|exact proper_m|by vm_compute|by vm_compute|exact H].
Defined.

Lemma mounted_mounts : mounts_ok mounted /\ mounts_unique mounted.
Proof.
  assert (vfs_mounts mounted = mk_mount [47; 109] volume_root true :: replicate 7 no_mount) as Hm by (by vm_compute).
  split; [split|].
  - by rewrite Hm.
  - rewrite Hm. constructor; [|by apply Forall_replicate]. intros _. split; [done|]. exists [[109]]. split; [done|]. split; [done|exact proper_m].
  - intros i j m m' Hi Hj Hu Hu'. rewrite Hm in Hi, Hj.
    destruct i as [|i]; [|apply (lookup_replicate 7) in Hi as [-> _]; done].
    destruct j as [|j]; [done|apply (lookup_replicate 7) in Hj as [-> _]; done].
Qed.

(** ["/m/x"] with a volume mounted on ["/m"]: the walk starts at the volume's
    root with ["x"] left and finds the file. *)
Lemma namei_correct_witness :
  starts mounted [[109]; [120]] [[120]] volume_root /\ no_mount_on mounted [[120]] /\
  vfs_namei drv 7 (Some [47; 109; 47; 120]) mounted = walk drv [[120]] volume_root mounted /\
  (exists s, walk drv [[120]] volume_root mounted = Ret 5 s).
Proof.
  destruct mounted_mounts as [H1 H2].
  assert (Forall proper [[109]; [120]]) as Hp.
  { apply Forall_cons. split; [|apply Forall_singleton]; repeat split; try done; by apply Forall_singleton. }
  destruct (namei_correct drv 7 [47; 109; 47; 120] [[109]; [120]] mounted H1 H2) as [_ Hw];
    [by vm_compute|by vm_compute|exact Hp|simpl; lia|].
  assert (vfs_mounts mounted = mk_mount [47; 109] volume_root true :: replicate 7 no_mount) as Hm by (by vm_compute).
  assert (forall pst r, mounted_at mounted pst r -> joined pst = [47; 109]) as Honly.
  { intros pst r (m & Hin & U & <- & _). rewrite Hm in Hin. apply elem_of_cons in Hin as [->|Hin]; [done|].
    apply elem_of_replicate in Hin as [-> _]. done. }
  assert (starts mounted [[109]; [120]] [[120]] volume_root) as Hst.
  { right. exists [[109]]. split; [done|]. split; [done|]. split.
    - exists (mk_mount [47; 109] volume_root true). split; [rewrite Hm; by left|done].
    - intros [|a [|b [|c l]]] rest r' E _ Hat; simpl; try lia; [|discriminate].
      injection E as <- <- _. by apply Honly in Hat. }
  assert (no_mount_on mounted [[120]]) as Hno.
  { intros [|a [|b l]] rest r E Hne Hat; [done| |discriminate]. injection E as <- _. by apply Honly in Hat. }
  split; [exact Hst|]. split; [exact Hno|]. split; [exact (Hw _ _ Hst Hno)|]. eexists. vm_compute. reflexivity.
Defined.

(** A pipe (address 1) with its read end at 2 and its write end at 4. *)
Definition piped : vfs unit := after (vfs_fd_pipe always drv) blank.
Definition piped_pipe : vfs_pipe := mk_pipe (mk_ring (replicate 1024 0) 0 0 0) 1 1.
Lemma piped_is : pipe_is piped 1 piped_pipe.
Proof. split; [by vm_compute|]. split; cbn [p_ring piped_pipe slots head tail count]; [by vm_compute|done..]. Qed.

(** Another task that writes one byte to the pipe and closes its end. *)
Definition feed (s : vfs unit) : vfs unit :=
  match pipes s !! 1 with
  | Some p => match ring_push VFS_PIPE_CAPACITY 9 (p_ring p) with
              | Some r => set_pipes (<[1 := mk_pipe r (p_readers p) 0]> (pipes s)) s
              | None => s
              end
  | None => s
  end.
Lemma feed_writes s p : pipe_is s 1 p ->
  exists p' wr, pipe_is (feed s) 1 p' /\ ring_list VFS_PIPE_CAPACITY (p_ring p') = ring_list VFS_PIPE_CAPACITY (p_ring p) ++ wr.
Proof.
  intros Hp. pose proof Hp as [Hl Hr]. unfold feed. rewrite Hl. destruct (decide (count (p_ring p) < VFS_PIPE_CAPACITY)) as [Hc|Hc].
  - destruct (ring_push_spec _ cap_small 9 (p_ring p) Hr Hc) as (r & -> & Hr' & Er). exists (mk_pipe r (p_readers p) 0), [9].
    split; [|done]. split; [cbn; apply lookup_insert_eq|done].
  - rewrite ring_push_full by (destruct Hr; lia). exists p, []. by rewrite app_nil_r.
Qed.

(** Two bytes in the pipe, the third comes while the reader waits, then end of
    file. *)
Definition loaded : vfs unit := after (pipe_write idle 10 4 0 [7; 8]) piped.
Definition loaded_pipe : vfs_pipe := mk_pipe (mk_ring (7 :: 8 :: replicate 1022 0) 0 2 2) 1 1.
Lemma pipe_read_correct_witness :
  exists s' wr, pipe_read feed 10 2 0 5 loaded = Ret (3, [7; 8; 9]) s' /\ consumes feed 1 loaded [7; 8; 9] wr s' /\ [7; 8] ++ wr = [7; 8; 9] /\
    starved s' 1 false.
Proof.
  assert (pipe_is loaded 1 loaded_pipe) as Hp by (split; [by vm_compute|]; split; cbn [p_ring loaded_pipe slots head tail count]; [by vm_compute|done..]).
  pose proof (pipe_read_correct feed 10 1 feed_writes 2 1
    (mk_node (pipe_name false) 1 0 0 0x1A4 0 0 1 (impl_pipe 1 false 1) 0 []) loaded loaded_pipe 0 5 ltac:(by vm_compute) eq_refl ltac:(done) Hp ltac:(lia)) as H.
  assert (exists s', pipe_read feed 10 2 0 5 loaded = Ret (3, [7; 8; 9]) s') as [s' E] by (eexists; vm_compute; reflexivity).
  rewrite E in H. destruct H as (wr & p' & Hc & Hp' & Ef & _ & _ & Hst). specialize (Hst ltac:(done)). exists s', wr.
  split; [exact E|]. split; [exact Hc|]. split; [|exact Hst].
  destruct Hst as (q & Hq & Eq & _). assert (q = p') as -> by (destruct Hq, Hp'; congruence). rewrite Eq, app_nil_r in Ef.
  assert (ring_list VFS_PIPE_CAPACITY (p_ring loaded_pipe) = [7; 8]) as El by (by vm_compute). by rewrite El in Ef.
Defined.

Lemma idle_reads s p : pipe_is s 1 p ->
  exists p' rd, pipe_is (idle s) 1 p' /\ ring_list VFS_PIPE_CAPACITY (p_ring p) = rd ++ ring_list VFS_PIPE_CAPACITY (p_ring p').
Proof. intros Hp. by exists p, []. Qed.
Lemma pipe_write_correct_witness :
  match pipe_write idle 10 4 0 [7; 8; 9] piped with
  | Ret rc s' => exists rd k, supplies idle 1 piped (take k [7; 8; 9]) rd s' /\ write_result 1 k [7; 8; 9] 0 rc s'
  | Hang s' => exists rd k, supplies idle 1 piped (take k [7; 8; 9]) rd s' /\ (k < length [7; 8; 9])%nat /\ choked s' 1
  | Undef => False
  end.
Proof.
  apply (pipe_write_correct idle 10 1 idle_reads) with (refs := 1)
    (n := mk_node (pipe_name true) 1 0 0 0x1A4 0 0 1 (impl_pipe 1 true 1) 0 []) (p := piped_pipe); [by vm_compute|done|done|exact piped_is|done].
Defined.

(** ** Open descriptors and unlinked files *)

(** Unlinking a file of the in-memory file system frees its node even
    while a descriptor is open on it: the next read through that descriptor
    dereferences freed memory. *)
Theorem unlink_open_file_dangles s s' a n l name c f fd size :
  dir_is s a n l -> zlen l < 2 ^ 32 -> (name, c) ∈ l ->
  open_fd fd s = Ret (Some f) s -> f_node f = c -> Z.land (f_open_flags f) VFS_O_WRONLY <> VFS_O_WRONLY ->
  ramfs_unlink a name s = Ret 0 s' ->
  vfs_fd_read drv fd size s' = Undef.
Proof.
  intros Hd Hl Hin Hf Hfn Hfl Hu. destruct (ramfs_unlink_correct s a n l name Hd Hl) as (rc & s1 & E1 & Hres).
  rewrite Hu in E1. injection E1 as <- <-. destruct Hres as [(_ & ? & _)|(c1 & nc & pre & post & El & Hnc & Hres)]; [done|].
  destruct Hres as [(_ & _ & ? & _)|(_ & _ & Hgone & Es & _)]; [done|].
  assert (c1 = c) as ->.
  { pose proof (di_names _ _ _ _ Hd) as Hnd. apply list_elem_of_lookup in Hin as [i Hi].
    assert (l !! length pre = Some (name, c1)) as Hj by (rewrite El, lookup_app_r, Nat.sub_diag by lia; done).
    assert (i = length pre) as -> by (eapply (NoDup_lookup _ i (length pre) name Hnd); by rewrite list_lookup_fmap, ?Hi, ?Hj). congruence. }
  assert (open_fd fd s' = Ret (Some f) s') as Hf'.
  { unfold open_fd, bind, task_current, ret in *. rewrite Es.
    assert (task_of (set_nodes (nodes s') s) = task_of s) as -> by done. by injection Hf as ->. }
  unfold vfs_fd_read. unfold bind at 1. rewrite Hf'. rewrite (proj2 (Z.eqb_neq _ _)) by done. rewrite Hfn.
  assert (c <> NULL) as Hc0 by (by destruct (di_entry _ _ _ _ Hd name c Hin)).
  rewrite (proj2 (Z.eqb_neq _ _)) by done. unfold bind at 1, allows, bind at 1, deref. by rewrite Hgone.
Qed.

(** The file ["f"] opened for reading as descriptor 3. *)
Definition opened : vfs unit := after (vfs_fd_open drv 10 (Some [47; 102]) VFS_O_RDONLY) one_file.
Lemma unlink_open_file_dangles_witness : vfs_fd_read drv 3 10 (after (ramfs_unlink 1 [102]) opened) = Undef.
Proof.
  apply (unlink_open_file_dangles opened _ 1 root_node [([102], 2)] [102] 2 (mk_fd 2 0 0 0 true)).
  - pose proof one_file_root as Hd. assert (nodes opened = nodes one_file) as En by (by vm_compute).
    destruct Hd as [H1 H2 H3 H4 H5 H6 H7 H8]. split; try done; rewrite En; done.
  - done.
  - apply list_elem_of_here.
  - by vm_compute.
  - done.
  - done.
  - by vm_compute.
Defined.

End VfsSpec.
