(* ===== verification/Minfs.v ===== *)
(** * The disk file system ([kernel/minfs.c])

    A superblock, a table of 128 nodes, a block bitmap and data blocks on a
    block device. [Module Minfs] translates the driver: on-disk records and
    their byte encoding, the bitmap allocator, the dirty/clean marker around
    metadata changes, recovery, formatting, mounting and the operation table
    for the virtual file system. The block layer is reached through the
    interface [BlockStore]; heap requests succeed as the parameter [serves]
    says. [Module MinfsSpec] has the theorems. *)

From S2P Require Import Prelude Ring BlockDev VfsPath Vfs.

(** The calls of the block layer: results and the device state after. *)
Class BlockStore (D : Type) := {
  bs_count : D -> Z;
  bs_get : Z -> D -> option BlockDev.block_device;
  bs_read : Z -> Z -> Z -> D -> Z * list Z * D;
  bs_write : Z -> Z -> Z -> list Z -> D -> Z * D;
  bs_flush : Z -> D -> Z * D
}.

Module Minfs.
Import VfsPath Vfs BlockDev.

Definition MINFS_MAGIC : Z := 0x3246534D.
Definition MINFS_VERSION : Z := 2.
Definition MINFS_MAX_NODES : Z := 128.
Definition MINFS_BLOCK_SIZE : Z := 512.
Definition MINFS_MAX_MOUNTS : Z := 4.
Definition MINFS_INVALID_PARENT : Z := 0xFFFFFFFF.
Definition MINFS_BLOCK_NONE : Z := 0xFFFFFFFF.
Definition VFS_MAX_FILE : Z := 64 * 1024.
Definition MINFS_DIRECT_BLOCKS : Z := VFS_MAX_FILE / MINFS_BLOCK_SIZE.
Definition MINFS_MAX_FILE_BYTES : Z := MINFS_DIRECT_BLOCKS * MINFS_BLOCK_SIZE.
Definition MINFS_RECOVERY_CLEAN : Z := 0.
Definition MINFS_RECOVERY_DIRTY : Z := 1.
Definition SIZEOF_DISK_NODE : Z := 592.
Definition OPS_MINFS : Z := 3.

(** ** On-disk records *)

Record minfs_superblock_disk := mk_super {
  magic : Z; version : Z; total_nodes : Z; block_size : Z; max_file_bytes : Z;
  node_table_start : Z; node_table_sectors : Z; bitmap_start : Z; bitmap_sectors : Z;
  data_start_sector : Z; data_block_count : Z; recovery_state : Z; recovery_seq : Z;
  reserved : list Z
}.

Record minfs_disk_node := mk_dnode {
  dn_used : Z; dn_type : Z; dn_reserved0 : Z; dn_size : Z; dn_parent_index : Z; dn_block_count : Z;
  dn_name : list Z; dn_direct : list Z
}.

(** The packed little-endian layouts: 512 and 592 bytes. *)
Definition word (w : Z) : list Z := le_split 4 w.
Definition words (ws : list Z) : list Z := concat (map word ws).
Definition word_at (off : Z) (l : list Z) : Z := le_combine (slice off 4 l).
Fixpoint words_at (n : nat) (off : Z) (l : list Z) : list Z :=
  match n with O => [] | S n => word_at off l :: words_at n (off + 4) l end.

Definition encode_super (s : minfs_superblock_disk) : list Z :=
  words ([magic s; version s; total_nodes s; block_size s; max_file_bytes s; node_table_start s; node_table_sectors s;
          bitmap_start s; bitmap_sectors s; data_start_sector s; data_block_count s; recovery_state s; recovery_seq s] ++ reserved s).
Definition decode_super (l : list Z) : minfs_superblock_disk :=
  mk_super (word_at 0 l) (word_at 4 l) (word_at 8 l) (word_at 12 l) (word_at 16 l) (word_at 20 l) (word_at 24 l)
    (word_at 28 l) (word_at 32 l) (word_at 36 l) (word_at 40 l) (word_at 44 l) (word_at 48 l) (words_at 115 52 l).

Definition encode_node (n : minfs_disk_node) : list Z :=
  le_split 1 (dn_used n) ++ le_split 1 (dn_type n) ++ le_split 2 (dn_reserved0 n) ++
  words [dn_size n; dn_parent_index n; dn_block_count n] ++ dn_name n ++ words (dn_direct n).
Definition decode_node (l : list Z) : minfs_disk_node :=
  mk_dnode (le_combine (slice 0 1 l)) (le_combine (slice 1 1 l)) (le_combine (slice 2 2 l))
    (word_at 4 l) (word_at 8 l) (word_at 12 l) (slice 16 64 l) (words_at (Z.to_nat MINFS_DIRECT_BLOCKS) 80 l).

(** The node table as the array of structures is laid out in memory. *)
Definition encode_table (ns : list minfs_disk_node) : list Z := concat (map encode_node ns).
Fixpoint decode_table (n : nat) (l : list Z) : list minfs_disk_node :=
  match n with O => [] | S n => decode_node l :: decode_table n (drop (Z.to_nat SIZEOF_DISK_NODE) l) end.

(** A name field of 64 bytes and the C string in it. *)
Definition name_field (s : list Z) : list Z := s ++ replicate (Z.to_nat VFS_NAME_MAX - length s) 0.
Fixpoint c_string (l : list Z) : list Z :=
  match l with [] => [] | c :: l => if c =? 0 then [] else c :: c_string l end.

Definition minfs_disk_node_init : minfs_disk_node :=
  mk_dnode 0 0 0 0 MINFS_INVALID_PARENT 0 (name_field []) (replicate (Z.to_nat MINFS_DIRECT_BLOCKS) MINFS_BLOCK_NONE).
#[global] Instance disk_node_inhabited : Inhabited minfs_disk_node := populate minfs_disk_node_init.

(** ** A mounted file system *)

Record minfs := mk_minfs {
  fs_dev_index : Z;
  fs_super : minfs_superblock_disk;
  fs_nodes : list minfs_disk_node;
  fs_bitmap : list Z;
  fs_bitmap_dirty : list bool;
  fs_vnodes : list Z
}.
(** The geometry fields are copies of the superblock's at mount time, which
    no operation changes afterwards. *)
Definition fs_total_nodes (fs : minfs) : Z := total_nodes (fs_super fs).
Definition fs_data_block_count (fs : minfs) : Z := data_block_count (fs_super fs).

Definition with_super sb fs := mk_minfs (fs_dev_index fs) sb (fs_nodes fs) (fs_bitmap fs) (fs_bitmap_dirty fs) (fs_vnodes fs).
Definition with_nodes ns fs := mk_minfs (fs_dev_index fs) (fs_super fs) ns (fs_bitmap fs) (fs_bitmap_dirty fs) (fs_vnodes fs).
Definition with_bitmap bm dirty fs := mk_minfs (fs_dev_index fs) (fs_super fs) (fs_nodes fs) bm dirty (fs_vnodes fs).
Definition with_vnodes vs fs := mk_minfs (fs_dev_index fs) (fs_super fs) (fs_nodes fs) (fs_bitmap fs) (fs_bitmap_dirty fs) vs.
Definition node_at (fs : minfs) (i : Z) : minfs_disk_node := fs_nodes fs !!! Z.to_nat i.
Definition set_node (i : Z) (n : minfs_disk_node) (fs : minfs) : minfs := with_nodes (<[Z.to_nat i := n]> (fs_nodes fs)) fs.
Definition with_blocks (sz bc : Z) (direct : list Z) (n : minfs_disk_node) : minfs_disk_node :=
  mk_dnode (dn_used n) (dn_type n) (dn_reserved0 n) sz (dn_parent_index n) bc (dn_name n) direct.
Definition direct_at (n : minfs_disk_node) (i : Z) : Z := dn_direct n !!! Z.to_nat i.

Definition minfs_super_is_valid (s : minfs_superblock_disk) (dev : block_device) : bool :=
  (magic s =? MINFS_MAGIC) && (version s =? MINFS_VERSION) && (block_size s =? MINFS_BLOCK_SIZE) &&
  (dev_block_size dev =? MINFS_BLOCK_SIZE) &&
  negb ((max_file_bytes s =? 0) || (VFS_MAX_FILE <? max_file_bytes s)) && (max_file_bytes s =? MINFS_MAX_FILE_BYTES) &&
  negb ((total_nodes s =? 0) || (MINFS_MAX_NODES <? total_nodes s)) && (node_table_start s =? 1) &&
  negb (node_table_sectors s =? 0) && (bitmap_start s =? u32 (node_table_start s + node_table_sectors s)) &&
  negb (bitmap_sectors s =? 0) && (data_start_sector s =? u32 (bitmap_start s + bitmap_sectors s)) &&
  negb (data_block_count s =? 0) && negb (MINFS_RECOVERY_DIRTY <? recovery_state s) &&
  negb (dev_block_count dev <? data_start_sector s + data_block_count s).

(** ** The block bitmap *)

Definition minfs_bitmap_mark_dirty (index : Z) (fs : minfs) : minfs :=
  if fs_data_block_count fs <=? index then fs
  else
    let sector := index / 8 / MINFS_BLOCK_SIZE in
    if sector <? bitmap_sectors (fs_super fs)
    then with_bitmap (fs_bitmap fs) (<[Z.to_nat sector := true]> (fs_bitmap_dirty fs)) fs else fs.

Definition minfs_blocks_for_size (size : Z) : Z :=
  if size =? 0 then 0 else u32 (u32 (size + MINFS_BLOCK_SIZE) - 1) / MINFS_BLOCK_SIZE.

Definition bit_byte (fs : minfs) (index : Z) : Z := fs_bitmap fs !!! Z.to_nat (index / 8).

Definition minfs_bitmap_is_set (fs : minfs) (index : Z) : bool :=
  if fs_data_block_count fs <=? index then false
  else negb (Z.land (Z.shiftr (bit_byte fs index) (index mod 8)) 1 =? 0).

Definition set_bit_byte (index b : Z) (fs : minfs) : minfs :=
  with_bitmap (<[Z.to_nat (index / 8) := b]> (fs_bitmap fs)) (fs_bitmap_dirty fs) fs.

Definition minfs_bitmap_set (index : Z) (fs : minfs) : minfs :=
  if fs_data_block_count fs <=? index then fs
  else minfs_bitmap_mark_dirty index
         (set_bit_byte index (Z.lor (bit_byte fs index) (u8 (Z.shiftl 1 (index mod 8)))) fs).

Definition minfs_bitmap_clear (index : Z) (fs : minfs) : minfs :=
  if fs_data_block_count fs <=? index then fs
  else minfs_bitmap_mark_dirty index
         (set_bit_byte index (Z.land (bit_byte fs index) (u8 (Z.lnot (Z.shiftl 1 (index mod 8))))) fs).

(** The scan for a clear bit, from [i], [n] positions. *)
Fixpoint find_clear (n : nat) (i : Z) (fs : minfs) : option Z :=
  match n with
  | O => None
  | S n => if negb (minfs_bitmap_is_set fs i) then Some i else find_clear n (i + 1) fs
  end.
Definition minfs_alloc_block (fs : minfs) : option (Z * minfs) :=
  match find_clear (Z.to_nat (fs_data_block_count fs)) 0 fs with
  | None => None
  | Some i => Some (i, minfs_bitmap_set i fs)
  end.

Definition minfs_free_block (index : Z) (fs : minfs) : minfs :=
  if fs_data_block_count fs <=? index then fs else minfs_bitmap_clear index fs.

(** The loop of [minfs_release_file_blocks] over the block slots. *)
Fixpoint release_blocks (direct : list Z) (fs : minfs) : minfs :=
  match direct with
  | [] => fs
  | b :: direct => release_blocks direct (if negb (b =? MINFS_BLOCK_NONE) then minfs_free_block b fs else fs)
  end.
Definition minfs_release_file_blocks (idx : Z) (fs : minfs) : minfs :=
  let n := node_at fs idx in
  set_node idx (with_blocks 0 0 (replicate (length (dn_direct n)) MINFS_BLOCK_NONE) n) (release_blocks (dn_direct n) fs).

(** Allocate [k] blocks: the blocks so far (oldest first) and whether all
    were found. *)
Fixpoint alloc_blocks (k : nat) (acc : list Z) (fs : minfs) : list Z * bool * minfs :=
  match k with
  | O => (acc, true, fs)
  | S k =>
      match minfs_alloc_block fs with
      | None => (acc, false, fs)
      | Some (b, fs) => alloc_blocks k (acc ++ [b]) fs
      end
  end.
(** Result 0 or -1; a failure gives the blocks back. *)
Definition minfs_ensure_file_blocks (idx needed_blocks : Z) (fs : minfs) : Z * minfs :=
  let n := node_at fs idx in
  if MINFS_DIRECT_BLOCKS <? needed_blocks then (-1, fs)
  else if needed_blocks <=? dn_block_count n then (0, fs)
  else
    let '(bs, ok, fs) := alloc_blocks (Z.to_nat (needed_blocks - dn_block_count n)) [] fs in
    if ok then (0, set_node idx (with_blocks (dn_size n) needed_blocks (splice (dn_block_count n) bs (dn_direct n)) n) fs)
    else (-1, set_node idx (with_blocks (dn_size n) (dn_block_count n)
                              (splice (dn_block_count n) (replicate (length bs) MINFS_BLOCK_NONE) (dn_direct n)) n)
                (fold_left (fun fs b => minfs_free_block b fs) bs fs)).

(** ** Recovery *)

(** The inner loop over a file's slots: marks the blocks it keeps, drops
    the invalid and doubly used ones; the slots, the count and the bitmap. *)
Fixpoint rebuild_slots (direct : list Z) (fs : minfs) : list Z * Z * minfs :=
  match direct with
  | [] => ([], 0, fs)
  | b :: direct =>
      if b =? MINFS_BLOCK_NONE then
        let '(d, v, fs) := rebuild_slots direct fs in (b :: d, v, fs)
      else if (fs_data_block_count fs <=? b) || minfs_bitmap_is_set fs b then
        let '(d, v, fs) := rebuild_slots direct fs in (MINFS_BLOCK_NONE :: d, v, fs)
      else
        let '(d, v, fs) := rebuild_slots direct (minfs_bitmap_set b fs) in (b :: d, v + 1, fs)
  end.
Definition rebuild_node (i : Z) (fs : minfs) : minfs :=
  let n := node_at fs i in
  if (dn_used n =? 0) || negb (is_set (dn_type n) VFS_FILE) then fs
  else
    let '(direct, valid_blocks, fs) := rebuild_slots (dn_direct n) fs in
    let limit := u32 (valid_blocks * MINFS_BLOCK_SIZE) in
    set_node i (with_blocks (if limit <? dn_size n then limit else dn_size n) valid_blocks direct n) fs.
Fixpoint rebuild_nodes (k : nat) (i : Z) (fs : minfs) : minfs :=
  match k with O => fs | S k => rebuild_nodes k (i + 1) (rebuild_node i fs) end.
Definition minfs_rebuild_bitmap_from_nodes (fs : minfs) : minfs :=
  rebuild_nodes (Z.to_nat (fs_total_nodes fs)) 0
    (with_bitmap (replicate (length (fs_bitmap fs)) 0) (replicate (length (fs_bitmap_dirty fs)) true) fs).

Definition minfs_count_children (fs : minfs) (parent_index : Z) : Z :=
  zlen (filter (fun n => dn_used n <> 0 /\ dn_parent_index n = parent_index) (take (Z.to_nat (fs_total_nodes fs)) (fs_nodes fs))).

(** ** Formatting: the size of the bitmap *)

Definition NODE_TABLE_SECTORS : Z := (MINFS_MAX_NODES * SIZEOF_DISK_NODE + MINFS_BLOCK_SIZE - 1) / MINFS_BLOCK_SIZE.

(** The [while (1)] loop of [minfs_format]: the bitmap's sectors, the start
    and the number of data blocks; an inner [None] is the result -5, an outer
    one that the loop has not ended. *)
Fixpoint format_layout (fuel : nat) (block_count sectors : Z) : option (option (Z * Z * Z)) :=
  match fuel with
  | O => None
  | S fuel =>
      let data_start := u32 (1 + NODE_TABLE_SECTORS + sectors) in
      if block_count <=? data_start then Some None
      else
        let data_blocks := u32 (block_count - data_start) in
        let needed_bitmap := u32 (u32 (data_blocks + MINFS_BLOCK_SIZE * 8) - 1) / (MINFS_BLOCK_SIZE * 8) in
        if needed_bitmap =? sectors then Some (Some (sectors, data_start, data_blocks))
        else format_layout fuel block_count needed_bitmap
  end.

Definition fresh_super (sectors data_start data_blocks : Z) : minfs_superblock_disk :=
  mk_super MINFS_MAGIC MINFS_VERSION MINFS_MAX_NODES MINFS_BLOCK_SIZE MINFS_MAX_FILE_BYTES 1 NODE_TABLE_SECTORS
    (1 + NODE_TABLE_SECTORS) sectors data_start data_blocks MINFS_RECOVERY_CLEAN 0 (replicate 115 0).
Definition fresh_root : minfs_disk_node :=
  mk_dnode 1 VFS_DIRECTORY 0 0 MINFS_INVALID_PARENT 0 (name_field [slash]) (replicate (Z.to_nat MINFS_DIRECT_BLOCKS) MINFS_BLOCK_NONE).
Definition fresh_nodes : list minfs_disk_node := fresh_root :: replicate (Z.to_nat MINFS_MAX_NODES - 1) minfs_disk_node_init.

(** ** The driver's state and device access *)

Record minfs_state (D : Type) := mk_state { g_mounts : list minfs; ms_disk : D }.
#[global] Arguments mk_state {D}.
#[global] Arguments g_mounts {D}.
#[global] Arguments ms_disk {D}.

Section driver.
Context {D : Type} `{!BlockStore D} (serves : nat -> bool).
Abbreviation ME := (M (minfs_state D)).
Implicit Types s : vfs (minfs_state D).

Definition set_ext (e : minfs_state D) s : vfs (minfs_state D) :=
  mk_vfs (vfs_root s) (vfs_mounts s) (nodes s) (pipes s) (tasks s) (current s) (next_inode s) (allocs s) e.

Definition get_fs (k : nat) : ME minfs := fun s =>
  match g_mounts (ext s) !! k with Some fs => Ret fs s | None => Undef end.
Definition put_fs (k : nat) (fs : minfs) : ME unit :=
  modify (fun s => set_ext (mk_state (<[k := fs]> (g_mounts (ext s))) (ms_disk (ext s))) s).
Definition device {A} (f : D -> A * D) : ME A := fun s =>
  let '(a, d) := f (ms_disk (ext s)) in Ret a (set_ext (mk_state (g_mounts (ext s)) d) s).
Definition look {A} (f : D -> A) : ME A := fun s => Ret (f (ms_disk (ext s))) s.

Definition minfs_current_uid s : Z := vfs_effective_uid s.
Definition minfs_current_gid s : Z := vfs_effective_gid s.

Fixpoint find_dev (dev : Z) (l : list minfs) (k : nat) : option nat :=
  match l with
  | [] => None
  | fs :: l => if fs_dev_index fs =? dev then Some k else find_dev dev l (S k)
  end.
Definition minfs_find_mount (dev_index : Z) : ME (option nat) := fun s =>
  Ret (find_dev dev_index (g_mounts (ext s)) 0) s.

Definition minfs_read_super (dev_index : Z) : ME (Z * minfs_superblock_disk) :=
  let! r := device (bs_read dev_index 0 1) in ret (r.1, decode_super r.2).
Definition minfs_write_super (dev_index : Z) (sb : minfs_superblock_disk) : ME Z :=
  device (bs_write dev_index 0 1 (encode_super sb)).
Definition minfs_flush_super (fs : minfs) : ME Z := minfs_write_super (fs_dev_index fs) (fs_super fs).

(** ** The dirty marker *)

Definition set_recovery (st seq : Z) (sb : minfs_superblock_disk) : minfs_superblock_disk :=
  mk_super (magic sb) (version sb) (total_nodes sb) (block_size sb) (max_file_bytes sb) (node_table_start sb)
    (node_table_sectors sb) (bitmap_start sb) (bitmap_sectors sb) (data_start_sector sb) (data_block_count sb)
    st seq (reserved sb).

Definition minfs_tx_begin (k : nat) : ME Z :=
  let! fs := get_fs k in
  if recovery_state (fs_super fs) =? MINFS_RECOVERY_DIRTY then ret 0
  else
    let fs := with_super (set_recovery MINFS_RECOVERY_DIRTY (u32 (recovery_seq (fs_super fs) + 1)) (fs_super fs)) fs in
    put_fs k fs;;;
    let! rc := minfs_flush_super fs in
    if rc <? 0 then ret (-1)
    else let! rc := device (bs_flush (fs_dev_index fs)) in if rc <? 0 then ret (-1) else ret 1.

(** On the file system itself, before it is in the mount table. *)
Definition tx_end (fs : minfs) : ME (Z * minfs) :=
  if recovery_state (fs_super fs) =? MINFS_RECOVERY_CLEAN then ret (0, fs)
  else
    let fs := with_super (set_recovery MINFS_RECOVERY_CLEAN (recovery_seq (fs_super fs)) (fs_super fs)) fs in
    let! rc := minfs_flush_super fs in
    if rc <? 0 then ret (-1, fs)
    else let! rc := device (bs_flush (fs_dev_index fs)) in ret (rc, fs).
Definition minfs_tx_end (k : nat) : ME Z :=
  let! fs := get_fs k in let! r := tx_end fs in put_fs k r.2;;; ret r.1.

(** ** Data blocks and metadata *)

Definition minfs_block_lba (fs : minfs) (block_index : Z) : Z := data_start_sector (fs_super fs) + block_index.
Definition minfs_read_data_block (fs : minfs) (block_index : Z) : ME (Z * list Z) :=
  if fs_data_block_count fs <=? block_index then ret (-1, [])
  else device (bs_read (fs_dev_index fs) (minfs_block_lba fs block_index) 1).
Definition minfs_write_data_block (fs : minfs) (block_index : Z) (buffer : list Z) : ME Z :=
  if fs_data_block_count fs <=? block_index then ret (-1)
  else device (bs_write (fs_dev_index fs) (minfs_block_lba fs block_index) 1 buffer).

(** [n] bytes of a zeroed buffer with [bytes] copied to its front. *)
Definition padded (n : Z) (bytes : list Z) : list Z := bytes ++ replicate (Z.to_nat n - length bytes) 0.

Definition minfs_flush_nodes (fs : minfs) : ME Z :=
  let! buf := kalloc serves in
  if buf =? NULL then ret (-1)
  else
    let sb := fs_super fs in
    device (bs_write (fs_dev_index fs) (node_table_start sb) (node_table_sectors sb)
              (padded (node_table_sectors sb * MINFS_BLOCK_SIZE) (encode_table (fs_nodes fs)))).

Definition minfs_flush_node (fs : minfs) (node_index : Z) : ME Z :=
  if fs_total_nodes fs <=? node_index then ret (-1)
  else
    let start_byte := node_index * SIZEOF_DISK_NODE in
    let end_byte := start_byte + SIZEOF_DISK_NODE in
    let first_sector := start_byte / MINFS_BLOCK_SIZE in
    let last_sector := (end_byte - 1) / MINFS_BLOCK_SIZE in
    let sector_count := last_sector - first_sector + 1 in
    let! scratch := kalloc serves in
    if scratch =? NULL then ret (-1)
    else
      device (bs_write (fs_dev_index fs) (node_table_start (fs_super fs) + first_sector) sector_count
        (padded (sector_count * MINFS_BLOCK_SIZE)
           (slice (first_sector * MINFS_BLOCK_SIZE) (sector_count * MINFS_BLOCK_SIZE) (encode_table (fs_nodes fs))))).

Definition dirty_at (fs : minfs) (i : Z) : bool := fs_bitmap_dirty fs !!! Z.to_nat i.

(** The loop over the bitmap's sectors: write the dirty ones, clear marks. *)
Fixpoint flush_bitmap_from (n : nat) (i : Z) (fs : minfs) : ME (Z * minfs) :=
  match n with
  | O => ret (0, fs)
  | S n =>
      if dirty_at fs i then
        let! rc := device (bs_write (fs_dev_index fs) (bitmap_start (fs_super fs) + i) 1
                             (slice (i * MINFS_BLOCK_SIZE) MINFS_BLOCK_SIZE (fs_bitmap fs))) in
        if rc <? 0 then ret (-1, fs)
        else flush_bitmap_from n (i + 1) (with_bitmap (fs_bitmap fs) (<[Z.to_nat i := false]> (fs_bitmap_dirty fs)) fs)
      else flush_bitmap_from n (i + 1) fs
  end.
Definition minfs_flush_bitmap (fs : minfs) : ME (Z * minfs) :=
  flush_bitmap_from (Z.to_nat (bitmap_sectors (fs_super fs))) 0 fs.

(** ** Nodes of the virtual file system *)

Definition minfs_wire_vnode (k : nat) (fs : minfs) (index a : Z) (keep_name : bool) : ME unit :=
  if fs_total_nodes fs <=? index then ret tt
  else
    let! s := get in
    let old := nodes s !! a in
    let d := node_at fs index in
    put_node a (mk_node (if keep_name then match old with Some o => n_name o | None => [] end
                         else take (Z.to_nat (VFS_NAME_MAX - 1)) (c_string (dn_name d)))
                  (dn_type d) (dn_size d) (Z.lor (u32 (Z.shiftl (fs_dev_index fs) 16)) index)
                  (if is_set (dn_type d) VFS_DIRECTORY then VFS_MODE_DIR_DEFAULT else VFS_MODE_FILE_DEFAULT)
                  (minfs_current_uid s) (minfs_current_gid s) OPS_MINFS (impl_minfs k index)
                  (match old with Some o => n_parent o | None => NULL end) []).

(** [if (fs->vnodes[i]) fs->vnodes[i]->size = count] *)
Definition set_vnode_size (a size : Z) : ME unit :=
  if a =? NULL then ret tt else let! n := deref a in put_node a (with_size size n).

Fixpoint refresh_sizes (n : nat) (i : Z) (fs : minfs) : ME minfs :=
  match n with
  | O => ret fs
  | S n =>
      let d := node_at fs i in
      if (dn_used d =? 0) || negb (is_set (dn_type d) VFS_DIRECTORY) then refresh_sizes n (i + 1) fs
      else
        let count := minfs_count_children fs i in
        let fs := set_node i (with_blocks count (dn_block_count d) (dn_direct d) d) fs in
        set_vnode_size (fs_vnodes fs !!! Z.to_nat i) count;;;
        refresh_sizes n (i + 1) fs
  end.
Definition minfs_refresh_directory_sizes (fs : minfs) : ME minfs := refresh_sizes (Z.to_nat (fs_total_nodes fs)) 0 fs.

Definition minfs_alloc_vnode (k : nat) (fs : minfs) (index : Z) : ME (Z * minfs) :=
  if fs_total_nodes fs <=? index then ret (NULL, fs)
  else
    let v : Z := fs_vnodes fs !!! Z.to_nat index in
    if negb (v =? NULL) then ret (v, fs)
    else
      let! a := kalloc serves in
      if a =? NULL then ret (NULL, fs)
      else minfs_wire_vnode k fs index a false;;; ret (a, with_vnodes (<[Z.to_nat index := a]> (fs_vnodes fs)) fs).

Definition minfs_recover_if_needed (fs : minfs) : ME (Z * minfs) :=
  if negb (recovery_state (fs_super fs) =? MINFS_RECOVERY_DIRTY) then ret (0, fs)
  else
    let fs := minfs_rebuild_bitmap_from_nodes fs in
    let! fs := minfs_refresh_directory_sizes fs in
    let! rc := minfs_flush_nodes fs in
    if rc <? 0 then ret (-1, fs)
    else
      let! r := minfs_flush_bitmap fs in
      let fs := r.2 in
      if r.1 <? 0 then ret (-1, fs)
      else
        let! rc := device (bs_flush (fs_dev_index fs)) in
        if rc <? 0 then ret (-1, fs)
        else let! r := tx_end fs in if r.1 <? 0 then ret (-1, r.2) else ret (0, r.2).

(** First index from [i] on that a predicate accepts. *)
Fixpoint scan_nodes (p : minfs_disk_node -> bool) (n : nat) (i : Z) (fs : minfs) : option Z :=
  match n with
  | O => None
  | S n => if p (node_at fs i) then Some i else scan_nodes p n (i + 1) fs
  end.
Definition minfs_find_free_index (fs : minfs) : Z :=
  default (-1) (scan_nodes (fun d => dn_used d =? 0) (Z.to_nat (fs_total_nodes fs) - 1) 1 fs).

Definition is_child (parent_index : Z) (name : list Z) (d : minfs_disk_node) : bool :=
  negb (dn_used d =? 0) && (dn_parent_index d =? parent_index) && bool_decide (c_string (dn_name d) = name).

(** The node's address ([NULL] when there is none), its index, and the file
    system with the address recorded. *)
Definition minfs_find_child_node (k : nat) (fs : minfs) (parent_index : Z) (name : list Z) : ME (Z * Z * minfs) :=
  match scan_nodes (is_child parent_index name) (Z.to_nat (fs_total_nodes fs)) 0 fs with
  | None => ret (NULL, 0, fs)
  | Some i => let! r := minfs_alloc_vnode k fs i in ret (r.1, i, r.2)
  end.

(** The file system and index behind a node of this driver. *)
Definition node_impl (node : Z) : ME (option (vfs_node * nat * Z)) :=
  if node =? NULL then ret None
  else
    let! n := deref node in
    ret (match n_impl n with impl_minfs k i => Some (n, k, i) | _ => None end).

(** ** Reading *)

(** One block-sized piece after the other; every piece has at least one byte,
    so [size / 512 + 2] pieces are enough. *)
Fixpoint read_pieces (fuel : nat) (fs : minfs) (idx offset size done : Z) (acc : list Z) : ME (Z * list Z) :=
  match fuel with
  | O => fun s => Hang s
  | S fuel =>
      if done <? size then
        let file_off := u32 (offset + done) in
        let block_idx := file_off / MINFS_BLOCK_SIZE in
        let block_off := file_off mod MINFS_BLOCK_SIZE in
        let chunk := Z.min (MINFS_BLOCK_SIZE - block_off) (size - done) in
        let d := node_at fs idx in
        if (dn_block_count d <=? block_idx) || (direct_at d block_idx =? MINFS_BLOCK_NONE)
        then read_pieces fuel fs idx offset size (done + chunk) (acc ++ replicate (Z.to_nat chunk) 0)
        else
          let! r := minfs_read_data_block fs (direct_at d block_idx) in
          if r.1 <? 0 then ret (-1, acc)
          else read_pieces fuel fs idx offset size (done + chunk) (acc ++ slice block_off chunk r.2)
      else ret (i32 done, acc)
  end.

Definition minfs_read (node offset size : Z) : ME (Z * list Z) :=
  let! o := node_impl node in
  match o with
  | None => ret (-1, [])
  | Some (n, k, idx) =>
      if negb (is_set (n_type n) VFS_FILE) then ret (-1, [])
      else if n_size n <=? offset then ret (0, [])
      else
        let size := Z.min size (n_size n - offset) in
        let! fs := get_fs k in
        read_pieces (Z.to_nat (size / MINFS_BLOCK_SIZE) + 3) fs idx offset size 0 []
  end.

(** ** Writing *)

Fixpoint write_pieces (fuel : nat) (fs : minfs) (idx offset size done old_blocks : Z) (buffer : list Z) : ME Z :=
  match fuel with
  | O => fun s => Hang s
  | S fuel =>
      if done <? size then
        let file_off := u32 (offset + done) in
        let block_idx := file_off / MINFS_BLOCK_SIZE in
        let block_off := file_off mod MINFS_BLOCK_SIZE in
        let chunk := Z.min (MINFS_BLOCK_SIZE - block_off) (size - done) in
        match dn_direct (node_at fs idx) !! Z.to_nat block_idx with
        | None => fun _ => Undef
        | Some data_block =>
            if data_block =? MINFS_BLOCK_NONE then ret (-1)
            else
              let piece := slice done chunk buffer in
              let! rc :=
                (if (block_off =? 0) && (chunk =? MINFS_BLOCK_SIZE) then minfs_write_data_block fs data_block piece
                 else
                   let! old := (if block_idx <? old_blocks then minfs_read_data_block fs data_block
                                else ret (0, replicate (Z.to_nat MINFS_BLOCK_SIZE) 0)) in
                   if old.1 <? 0 then ret (-1)
                   else minfs_write_data_block fs data_block (splice block_off piece old.2)) in
              if rc <? 0 then ret (-1)
              else write_pieces fuel fs idx offset size (done + chunk) old_blocks buffer
        end
      else ret (i32 done)
  end.

(** The metadata part after the data: bitmap, node, flush, clean marker. *)
Definition commit_write (k : nat) (idx old_size old_blocks : Z) (bitmap_dirty : bool) (tx_started : Z) : ME Z :=
  let! fs := get_fs k in
  let! r := (if bitmap_dirty then minfs_flush_bitmap fs else ret (0, fs)) in
  put_fs k r.2;;;
  if r.1 <? 0 then ret (-1)
  else
    let d := node_at r.2 idx in
    let! rc := (if negb (dn_size d =? old_size) || negb (dn_block_count d =? old_blocks)
                then minfs_flush_node r.2 idx else ret 0) in
    if rc <? 0 then ret (-1)
    else
      let! rc := device (bs_flush (fs_dev_index r.2)) in
      if rc <? 0 then ret (-1)
      else if 0 <? tx_started then let! rc := minfs_tx_end k in ret (if rc <? 0 then -1 else 0)
      else ret 0.

Definition minfs_write (node offset : Z) (buffer : list Z) : ME Z :=
  let! o := node_impl node in
  match o with
  | None => ret (-1)
  | Some (n, k, idx) =>
      if negb (is_set (n_type n) VFS_FILE) then ret (-1)
      else
        let! fs := get_fs k in
        let limit := max_file_bytes (fs_super fs) in
        if limit <=? offset then ret (-1)
        else
          let size := if limit <? u32 (offset + zlen buffer) then limit - offset else zlen buffer in
          let d := node_at fs idx in
          let old_size := dn_size d in
          let old_blocks := dn_block_count d in
          let end_ := u32 (offset + size) in
          let needed_blocks := minfs_blocks_for_size end_ in
          let metadata_change := (old_blocks <? needed_blocks) || (old_size <? end_) in
          let! tx_started := (if metadata_change then minfs_tx_begin k else ret 0) in
          if tx_started <? 0 then ret (-1)
          else
            let! fs := get_fs k in
            let '(rc, fs) := if old_blocks <? needed_blocks then minfs_ensure_file_blocks idx needed_blocks fs else (0, fs) in
            put_fs k fs;;;
            if rc <? 0 then ret (-1)
            else
              let! written := write_pieces (Z.to_nat (size / MINFS_BLOCK_SIZE) + 3) fs idx offset size 0 old_blocks buffer in
              if written <? 0 then ret (-1)
              else
                (if old_size <? end_ then
                   let d := node_at fs idx in
                   put_fs k (set_node idx (with_blocks end_ (dn_block_count d) (dn_direct d) d) fs);;;
                   let! n := deref node in put_node node (with_size end_ n)
                 else ret tt);;;
                if metadata_change then
                  let! rc := commit_write k idx old_size old_blocks (old_blocks <? needed_blocks) tx_started in
                  if rc <? 0 then ret (-1) else ret written
                else ret written
  end.

(** ** Opening and directories *)

Definition minfs_open (node flags : Z) : ME Z :=
  if node =? NULL then ret (-1)
  else
    let! n := deref node in
    if negb (is_set flags VFS_O_TRUNC) then ret 0
    else if negb (is_set (n_type n) VFS_FILE) then ret 0
    else
      let! o := node_impl node in
      match o with
      | None => ret (-1)
      | Some (_, k, idx) =>
          let! tx_started := minfs_tx_begin k in
          if tx_started <? 0 then ret (-1)
          else
            let! fs := get_fs k in
            let fs := minfs_release_file_blocks idx fs in
            put_node node (with_size 0 n);;;
            let! r := minfs_flush_bitmap fs in
            put_fs k r.2;;;
            if r.1 <? 0 then ret (-1)
            else
              let! rc := minfs_flush_node r.2 idx in
              if rc <? 0 then ret (-1)
              else
                let! rc := device (bs_flush (fs_dev_index r.2)) in
                if rc <? 0 then ret (-1)
                else if 0 <? tx_started then let! rc := minfs_tx_end k in ret (if rc <? 0 then -1 else 0)
                else ret 0
      end.

Definition minfs_close (node : Z) : ME unit := ret tt.

(** The [index]-th used node with the parent, from table position [i]. *)
Fixpoint nth_entry (n : nat) (i index parent : Z) (fs : minfs) : option vfs_dirent :=
  match n with
  | O => None
  | S n =>
      let d := node_at fs i in
      if (dn_used d =? 0) || negb (dn_parent_index d =? parent) then nth_entry n (i + 1) index parent fs
      else if index =? 0 then
        Some (mk_dirent (take (Z.to_nat (VFS_NAME_MAX - 1)) (c_string (dn_name d)))
                (Z.lor (u32 (Z.shiftl (fs_dev_index fs) 16)) i) (dn_type d))
      else nth_entry n (i + 1) (index - 1) parent fs
  end.
Definition minfs_readdir (node index : Z) : ME (option vfs_dirent) :=
  let! o := node_impl node in
  match o with
  | None => ret None
  | Some (n, k, idx) =>
      if negb (is_set (n_type n) VFS_DIRECTORY) then ret None
      else let! fs := get_fs k in ret (nth_entry (Z.to_nat (fs_total_nodes fs)) 0 index idx fs)
  end.

Definition minfs_finddir (node : Z) (name : list Z) : ME Z :=
  let! o := node_impl node in
  match o with
  | None => ret NULL
  | Some (n, k, idx) =>
      if negb (is_set (n_type n) VFS_DIRECTORY) then ret NULL
      else
        let! fs := get_fs k in
        let! r := minfs_find_child_node k fs idx name in
        put_fs k r.2;;; ret r.1.1
  end.

(** What [minfs_create] and [minfs_unlink] do last: directory sizes, the
    node table, a flush and the clean marker. *)
Definition commit_nodes (k : nat) (fs : minfs) (tx_started : Z) : ME Z :=
  let! fs := minfs_refresh_directory_sizes fs in
  put_fs k fs;;;
  let! rc := minfs_flush_nodes fs in
  if rc <? 0 then ret (-1)
  else
    let! rc := device (bs_flush (fs_dev_index fs)) in
    if rc <? 0 then ret (-1)
    else if 0 <? tx_started then let! rc := minfs_tx_end k in ret (if rc <? 0 then -1 else 0)
    else ret 0.

Definition minfs_create (parent : Z) (name : list Z) (type : Z) : ME Z :=
  let! o := node_impl parent in
  match o with
  | None => ret (-1)
  | Some (n, k, idx) =>
      if negb (is_set (n_type n) VFS_DIRECTORY) then ret (-1)
      else if negb (type =? VFS_FILE) && negb (type =? VFS_DIRECTORY) then ret (-1)
      else if (zlen name =? 0) || (VFS_NAME_MAX <=? zlen name) then ret (-1)
      else
        let! fs := get_fs k in
        let! r := minfs_find_child_node k fs idx name in
        put_fs k r.2;;;
        if negb (r.1.1 =? NULL) then ret (-1)
        else
          let free_index := minfs_find_free_index r.2 in
          if free_index <? 0 then ret (-1)
          else
            let! tx_started := minfs_tx_begin k in
            if tx_started <? 0 then ret (-1)
            else
              let! fs := get_fs k in
              let d := mk_dnode 1 (u8 type) 0 0 idx 0 (name_field (take (Z.to_nat (VFS_NAME_MAX - 1)) name))
                         (replicate (Z.to_nat MINFS_DIRECT_BLOCKS) MINFS_BLOCK_NONE) in
              let fs := set_node free_index d fs in
              put_fs k fs;;;
              let! r := minfs_alloc_vnode k fs free_index in
              if r.1 =? NULL then put_fs k (set_node free_index minfs_disk_node_init r.2);;; ret (-1)
              else commit_nodes k r.2 tx_started
  end.

Definition minfs_unlink (parent : Z) (name : list Z) : ME Z :=
  let! o := node_impl parent in
  match o with
  | None => ret (-1)
  | Some (n, k, pidx) =>
      if negb (is_set (n_type n) VFS_DIRECTORY) then ret (-1)
      else
        let! fs := get_fs k in
        let! r := minfs_find_child_node k fs pidx name in
        put_fs k r.2;;;
        let child := r.1.1 in
        let idx := r.1.2 in
        if child =? NULL then ret (-1)
        else if idx =? 0 then ret (-1)
        else
          let! c := deref child in
          if is_set (n_type c) VFS_DIRECTORY && negb (minfs_count_children r.2 idx =? 0) then ret (-1)
          else
            let! tx_started := minfs_tx_begin k in
            if tx_started <? 0 then ret (-1)
            else
              let! fs := get_fs k in
              let! r := (if is_set (dn_type (node_at fs idx)) VFS_FILE
                         then minfs_flush_bitmap (minfs_release_file_blocks idx fs) else ret (0, fs)) in
              put_fs k r.2;;;
              if r.1 <? 0 then ret (-1)
              else
                let fs := set_node idx minfs_disk_node_init r.2 in
                let v : Z := fs_vnodes fs !!! Z.to_nat idx in
                (if v =? NULL then ret tt else free_node v);;;
                commit_nodes k (with_vnodes (<[Z.to_nat idx := NULL]> (fs_vnodes fs)) fs) tx_started
  end.

Definition minfs_vtable : vtable (minfs_state D) :=
  mk_vtable (Some minfs_read) (Some minfs_write) (Some minfs_open) (Some minfs_close) (Some minfs_readdir)
    (Some minfs_finddir) (Some minfs_create) (Some minfs_unlink).

(** ** Formatting *)

(** The result codes of the code; [fuel] bounds the layout loop. *)
Definition minfs_format (fuel : nat) (dev_index : Z) : ME Z :=
  let! dev := look (bs_get dev_index) in
  match dev with
  | None => ret (-1)
  | Some dev =>
      let! m := minfs_find_mount dev_index in
      match m with
      | Some _ => ret (-2)
      | None =>
          if is_set (dev_flags dev) (Z.lor BLOCKDEV_FLAG_READONLY BLOCKDEV_FLAG_ATAPI) then ret (-3)
          else if negb (dev_block_size dev =? MINFS_BLOCK_SIZE) then ret (-4)
          else
            match format_layout fuel (dev_block_count dev) 1 with
            | None => fun s => Hang s
            | Some None => ret (-5)
            | Some (Some (sectors, data_start, data_blocks)) =>
                let sb := fresh_super sectors data_start data_blocks in
                let! rc := device (bs_write dev_index 0 1 (encode_super sb)) in
                if rc <? 0 then ret (-6)
                else
                  let! table := kalloc serves in
                  if table =? NULL then ret (-7)
                  else
                    let! rc := device (bs_write dev_index 1 NODE_TABLE_SECTORS
                                 (padded (NODE_TABLE_SECTORS * MINFS_BLOCK_SIZE) (encode_table fresh_nodes))) in
                    if rc <? 0 then ret (-8)
                    else
                      let! bitmap := kalloc serves in
                      if bitmap =? NULL then ret (-9)
                      else
                        let! rc := device (bs_write dev_index (1 + NODE_TABLE_SECTORS) sectors
                                     (padded (sectors * MINFS_BLOCK_SIZE) [])) in
                        if rc <? 0 then ret (-10) else ret 0
            end
      end
  end.

(** ** Mounting *)

Section mount.
Context (drivers : Z -> vtable (minfs_state D)).

(** The directory's address, or [None] for -1. *)
Definition minfs_ensure_mount_dir (parent : Z) (name : list Z) : ME (option Z) :=
  let! node := vfs_finddir drivers parent name in
  let! node :=
    (if node =? NULL then
       let! rc := vfs_create drivers parent name VFS_DIRECTORY in
       if rc <? 0 then ret NULL else vfs_finddir drivers parent name
     else ret node) in
  if node =? NULL then ret None
  else let! n := deref node in ret (if is_set (n_type n) VFS_DIRECTORY then Some node else None).

(** [n] heap requests: whether all succeed. *)
Fixpoint kalloc_all (n : nat) : ME bool :=
  match n with
  | O => ret true
  | S n => let! a := kalloc serves in let! r := kalloc_all n in ret (negb (a =? NULL) && r)
  end.

(** Freeing the nodes a failed mount has created (the root's excepted). *)
Fixpoint free_vnodes (vs : list Z) : ME unit :=
  match vs with
  | [] => ret tt
  | v :: vs => (if v =? NULL then ret tt else free_node v);;; free_vnodes vs
  end.
Definition minfs_free_mount (fs : minfs) : ME unit := free_vnodes (drop 1 (fs_vnodes fs)).

(** The loop that creates the nodes of all used entries from [i] on. *)
Fixpoint wire_nodes (n : nat) (k : nat) (i : Z) (fs : minfs) : ME (bool * minfs) :=
  match n with
  | O => ret (true, fs)
  | S n =>
      if dn_used (node_at fs i) =? 0 then wire_nodes n k (i + 1) fs
      else
        let! r := minfs_alloc_vnode k fs i in
        if r.1 =? NULL then ret (false, r.2) else wire_nodes n k (i + 1) r.2
  end.

Definition mnt_name : list Z := [109; 110; 116]. (* "mnt" *)
Definition mnt_prefix : list Z := [47; 109; 110; 116; 47]. (* "/mnt/" *)

Definition minfs_mount (dev_index : Z) (mount_name : option (list Z)) : ME Z :=
  let! m := minfs_find_mount dev_index in
  match m with
  | Some _ => ret 0
  | None =>
      let! s := get in
      let k := length (g_mounts (ext s)) in
      if MINFS_MAX_MOUNTS <=? Z.of_nat k then ret (-1)
      else
        let! dev := look (bs_get dev_index) in
        match dev with
        | None => ret (-2)
        | Some dev =>
            let! r := minfs_read_super dev_index in
            let sb := r.2 in
            if r.1 <? 0 then ret (-3)
            else if negb (minfs_super_is_valid sb dev) then ret (-4)
            else
              let root := vfs_root s in
              if root =? NULL then ret (-5)
              else
                let! mnt := minfs_ensure_mount_dir root mnt_name in
                match mnt with
                | None => ret (-6)
                | Some mnt =>
                    let mp_name := match mount_name with Some (c :: t) => c :: t | _ => dev_name dev end in
                    let! mp := minfs_ensure_mount_dir mnt mp_name in
                    match mp with
                    | None => ret (-7)
                    | Some mountpoint =>
                        let! fsp := kalloc serves in
                        if fsp =? NULL then ret (-8)
                        else
                          let! ok := kalloc_all 5 in
                          if negb ok then ret (-9)
                          else
                            let! table := kalloc serves in
                            if table =? NULL then ret (-10)
                            else
                              let! t := device (bs_read dev_index (node_table_start sb) (node_table_sectors sb)) in
                              if t.1 <? 0 then ret (-11)
                              else
                                let! b := device (bs_read dev_index (bitmap_start sb) (bitmap_sectors sb)) in
                                if b.1 <? 0 then ret (-12)
                                else
                                  let fs := mk_minfs dev_index sb (decode_table (Z.to_nat (total_nodes sb)) t.2) b.2
                                              (replicate (Z.to_nat (bitmap_sectors sb)) false)
                                              (replicate (Z.to_nat (total_nodes sb)) NULL) in
                                  if (dn_used (node_at fs 0) =? 0) || negb (is_set (dn_type (node_at fs 0)) VFS_DIRECTORY)
                                  then ret (-13)
                                  else
                                    let! r := minfs_recover_if_needed fs in
                                    if r.1 <? 0 then ret (-14)
                                    else
                                      let fs := with_vnodes (<[0%nat := mountpoint]> (fs_vnodes r.2)) r.2 in
                                      minfs_wire_vnode k fs 0 mountpoint true;;;
                                      let! w := wire_nodes (Z.to_nat (fs_total_nodes fs) - 1) k 1 fs in
                                      if negb w.1 then minfs_free_mount w.2;;; ret (-15)
                                      else
                                        let! fs := minfs_refresh_directory_sizes w.2 in
                                        modify (fun s => (vfs_mount (Some (take (Z.to_nat (VFS_PATH_MAX - 1)) (mnt_prefix ++ mp_name)))
                                                            mountpoint s).2);;;
                                        modify (fun s => set_ext (mk_state (g_mounts (ext s) ++ [fs]) (ms_disk (ext s))) s);;;
                                        ret 0
                    end
                end
        end
  end.

Definition minfs_test_mark_dirty (dev_index : Z) : ME Z :=
  let! m := minfs_find_mount dev_index in
  match m with
  | None => ret (-1)
  | Some k =>
      let! fs := get_fs k in
      let fs := with_super (set_recovery MINFS_RECOVERY_DIRTY (u32 (recovery_seq (fs_super fs) + 1)) (fs_super fs)) fs in
      put_fs k fs;;;
      let! rc := minfs_flush_super fs in
      if rc <? 0 then ret (-2)
      else let! rc := device (bs_flush (fs_dev_index fs)) in if rc <? 0 then ret (-3) else ret 0
  end.

Fixpoint auto_mount_from (n : nat) (i : Z) : ME unit :=
  match n with
  | O => ret tt
  | S n =>
      let! d := look (bs_get i) in
      match d with
      | None => auto_mount_from n (i + 1)
      | Some d =>
          if negb (is_set (dev_flags d) BLOCKDEV_FLAG_PARTITION) then auto_mount_from n (i + 1)
          else
            let! m := minfs_find_mount i in
            match m with
            | Some _ => auto_mount_from n (i + 1)
            | None =>
                let! r := minfs_read_super i in
                (if (r.1 <? 0) || negb (minfs_super_is_valid r.2 d) then ret 0 else minfs_mount i (Some (dev_name d)));;;
                auto_mount_from n (i + 1)
            end
      end
  end.
Definition minfs_auto_mount : ME unit :=
  let! n := look bs_count in auto_mount_from (Z.to_nat n) 0.
End mount.
End driver.
End Minfs.
