(* ===== verification/MinfsSpec.v ===== *)
(** * Correctness of the disk file system *)

From S2P Require Import Prelude Ring BlockDev VfsPath Vfs Ramfs Minfs.

Module MinfsSpec.
Import VfsPath Vfs BlockDev Minfs.

(** ** Byte layouts *)

Definition is_word (w : Z) : Prop := 0 <= w < 2 ^ 32.

Lemma length_word w : length (word w) = 4%nat.
Proof. apply length_le_split. Qed.
Lemma length_words ws : length (words ws) = (4 * length ws)%nat.
Proof. unfold words. induction ws as [|w ws IH]; [done|]. cbn [map concat]. rewrite length_app, length_word, IH. cbn [length]. lia. Qed.

(** A field at its offset. *)
Lemma slice_field (pre x post : list Z) off n :
  off = zlen pre -> n = zlen x -> slice off n (pre ++ x ++ post) = x.
Proof.
  intros -> ->. unfold slice, zlen. rewrite !Nat2Z.id, drop_app_length. apply take_app_length.
Qed.

Lemma le_field n w : 0 <= w < 256 ^ Z.of_nat n -> le_combine (le_split n w) = w.
Proof. apply le_combine_split. Qed.

Lemma word_at_field (pre post : list Z) w off :
  off = zlen pre -> is_word w -> word_at off (pre ++ word w ++ post) = w.
Proof.
  intros Ho Hw. unfold word_at. rewrite slice_field; [|done|unfold zlen; by rewrite length_word]. apply le_field. exact Hw.
Qed.

Lemma words_cons w ws : words (w :: ws) = word w ++ words ws.
Proof. done. Qed.

Lemma words_at_field (pre post : list Z) ws off :
  off = zlen pre -> Forall is_word ws -> words_at (length ws) off (pre ++ words ws ++ post) = ws.
Proof.
  intros Ho Hw. revert pre off Ho. induction Hw as [|w ws Hw _ IH]; intros pre off Ho; cbn [length words_at]; [done|].
  rewrite words_cons, <- app_assoc. f_equal; [by apply word_at_field|].
  rewrite (app_assoc pre). apply IH. unfold zlen in *. rewrite length_app, length_word. lia.
Qed.

Record super_ok (s : minfs_superblock_disk) : Prop := {
  so_fields : Forall is_word [magic s; version s; total_nodes s; block_size s; max_file_bytes s; node_table_start s; node_table_sectors s;
    bitmap_start s; bitmap_sectors s; data_start_sector s; data_block_count s; recovery_state s; recovery_seq s];
  so_reserved : length (reserved s) = 115%nat /\ Forall is_word (reserved s)
}.

Lemma word_of_words ws off i w :
  Forall is_word ws -> ws !! i = Some w -> off = 4 * Z.of_nat i -> word_at off (words ws) = w.
Proof.
  intros Hw Hi ->. rewrite <- (take_drop_middle ws i w Hi). unfold words. rewrite map_app, concat_app. cbn [map concat].
  apply word_at_field; [|by eapply Forall_lookup_1].
  change (concat (map word (take i ws))) with (words (take i ws)). unfold zlen. rewrite length_words, length_take.
  apply lookup_lt_Some in Hi. lia.
Qed.

Lemma super_roundtrip s : super_ok s -> decode_super (encode_super s) = s.
Proof.
  intros [Hf [Hl Hr]]. unfold encode_super. set (fields := [_; _; _; _; _; _; _; _; _; _; _; _; _]) in *.
  assert (Forall is_word (fields ++ reserved s)) as Hall by (by apply Forall_app).
  unfold decode_super.
  assert (words_at 115 52 (words (fields ++ reserved s)) = reserved s) as ->.
  { unfold words. rewrite map_app, concat_app, <- Hl. rewrite <- (app_nil_r (concat (map word (reserved s)))).
    apply words_at_field; [|done]. change (concat (map word fields)) with (words fields). unfold zlen. by rewrite length_words. }
  destruct s. cbn [magic version total_nodes block_size max_file_bytes node_table_start node_table_sectors bitmap_start
    bitmap_sectors data_start_sector data_block_count recovery_state recovery_seq reserved] in *.
  f_equal; match goal with |- word_at ?off _ = _ => apply (word_of_words _ _ (Z.to_nat (off / 4))); [exact Hall|reflexivity|reflexivity] end.
Qed.

Record dnode_ok (n : minfs_disk_node) : Prop := {
  do_used : 0 <= dn_used n < 256;
  do_type : 0 <= dn_type n < 256;
  do_reserved : 0 <= dn_reserved0 n < 65536;
  do_words : Forall is_word [dn_size n; dn_parent_index n; dn_block_count n];
  do_name : length (dn_name n) = 64%nat;
  do_direct : length (dn_direct n) = 128%nat /\ Forall is_word (dn_direct n)
}.

Lemma length_encode_node n : dnode_ok n -> length (encode_node n) = 592%nat.
Proof.
  intros [_ _ _ _ Hn [Hd _]]. unfold encode_node. rewrite !length_app, !length_le_split, !length_words, Hn, Hd. done.
Qed.

Lemma node_roundtrip n post : dnode_ok n -> decode_node (encode_node n ++ post) = n.
Proof.
  intros [Hu Ht Hr Hw Hn [Hd Hdw]]. unfold encode_node, decode_node. set (ws := [_; _; _]) in *.
  set (a := le_split 1 (dn_used n)). set (b := le_split 1 (dn_type n)). set (c := le_split 2 (dn_reserved0 n)).
  assert (length a = 1%nat /\ length b = 1%nat /\ length c = 2%nat) as (Ha & Hb & Hc) by (split_and!; apply length_le_split).
  assert (length (words ws) = 12%nat) as Hlw by (by rewrite length_words).
  rewrite <- !app_assoc. set (rest := words (dn_direct n) ++ post).
  assert (slice 0 1 (a ++ b ++ c ++ words ws ++ dn_name n ++ rest) = a) as -> by (apply (slice_field [] a); unfold zlen; rewrite ?Ha; done).
  assert (slice 1 1 (a ++ b ++ c ++ words ws ++ dn_name n ++ rest) = b) as -> by (apply (slice_field a b); unfold zlen; rewrite ?Ha, ?Hb; done).
  assert (slice 2 2 (a ++ b ++ c ++ words ws ++ dn_name n ++ rest) = c) as ->.
  { rewrite (app_assoc a). apply slice_field; unfold zlen; rewrite ?length_app, ?Ha, ?Hb, ?Hc; done. }
  assert (zlen ((a ++ b) ++ c) = 4) as Hpre by (unfold zlen; rewrite !length_app, Ha, Hb, Hc; done).
  assert (forall off w pre' post', words ws = pre' ++ word w ++ post' -> off = 4 + zlen pre' -> is_word w ->
    word_at off (a ++ b ++ c ++ words ws ++ dn_name n ++ rest) = w) as Hword.
  { intros off w pre' post' -> -> Hiw. rewrite !app_assoc. rewrite <- (app_assoc _ post'), <- (app_assoc _ _ (post' ++ _)), <- !app_assoc.
    rewrite (app_assoc a), (app_assoc _ c), (app_assoc _ pre'). apply word_at_field; [|done].
    unfold zlen in *. rewrite length_app. lia. }
  apply Forall_cons in Hw as [H1 Hw]. apply Forall_cons in Hw as [H2 Hw]. apply Forall_cons in Hw as [H3 _].
  rewrite (Hword 4 (dn_size n) [] (words [dn_parent_index n; dn_block_count n])) by done.
  rewrite (Hword 8 (dn_parent_index n) (word (dn_size n)) (words [dn_block_count n])) by done.
  rewrite (Hword 12 (dn_block_count n) (words [dn_size n; dn_parent_index n]) []) by (try done; unfold ws, words; cbn [map concat]; by rewrite <- !app_assoc).
  assert (slice 16 64 (a ++ b ++ c ++ words ws ++ dn_name n ++ rest) = dn_name n) as ->.
  { rewrite (app_assoc a), (app_assoc _ c), (app_assoc _ (words ws)). apply slice_field; unfold zlen in *; rewrite ?length_app in *; lia. }
  assert (words_at (Z.to_nat MINFS_DIRECT_BLOCKS) 80 (a ++ b ++ c ++ words ws ++ dn_name n ++ rest) = dn_direct n) as ->.
  { change (Z.to_nat MINFS_DIRECT_BLOCKS) with 128%nat. rewrite <- Hd. unfold rest.
    rewrite (app_assoc a), (app_assoc _ c), (app_assoc _ (words ws)), (app_assoc _ (dn_name n)).
    apply words_at_field; [|done]. unfold zlen in *. rewrite !length_app in *. lia. }
  unfold a, b, c. rewrite !le_field by (change (256 ^ Z.of_nat 1) with 256; change (256 ^ Z.of_nat 2) with 65536; lia). by destruct n.
Qed.

Lemma table_roundtrip ns post : Forall dnode_ok ns -> decode_table (length ns) (encode_table ns ++ post) = ns.
Proof.
  induction 1 as [|n ns Hn _ IH]; [done|]. unfold encode_table in *. cbn [length decode_table map concat]. rewrite <- app_assoc.
  rewrite node_roundtrip by done. f_equal. change (Z.to_nat SIZEOF_DISK_NODE) with 592%nat.
  rewrite <- (length_encode_node n Hn), drop_app_length. exact IH.
Qed.

(** What the driver writes to disk reads back as what it had in memory:
    the superblock, and the node table whatever follows it in its sectors. *)
Theorem disk_format_roundtrip sb ns post :
  super_ok sb -> Forall dnode_ok ns ->
  decode_super (encode_super sb) = sb /\ length (encode_super sb) = 512%nat /\
  decode_table (length ns) (encode_table ns ++ post) = ns /\ length (encode_table ns) = (592 * length ns)%nat.
Proof.
  intros Hs Hn. split_and!.
  - by apply super_roundtrip.
  - unfold encode_super. rewrite length_words, length_app. destruct Hs as [_ [-> _]]. done.
  - by apply table_roundtrip.
  - unfold encode_table. induction Hn as [|n ns Hn _ IH]; [done|]. cbn [map concat length]. rewrite length_app, (length_encode_node n Hn), IH. lia.
Qed.

(** ** Formatting *)

Lemma node_table_sectors_eq : NODE_TABLE_SECTORS = 148.
Proof. reflexivity. Qed.

(** One iteration of the layout loop, on sizes that do not wrap. *)
Definition needed (n b : Z) : Z := (n - 149 - b + 4095) / 4096.

Lemma format_layout_step fuel n b :
  n < 2 ^ 32 - 4096 -> 0 <= b -> 149 + b < n ->
  format_layout (S fuel) n b =
  if needed n b =? b then Some (Some (b, 149 + b, n - 149 - b)) else format_layout fuel n (needed n b).
Proof.
  intros Hn Hb Hlt. cbn [format_layout]. rewrite node_table_sectors_eq. replace (1 + 148 + b) with (149 + b) by lia.
  rewrite (u32_small (149 + b)) by lia. rewrite (proj2 (Z.leb_gt _ _)) by lia. rewrite (u32_small (n - (149 + b))) by lia.
  unfold MINFS_BLOCK_SIZE. change (512 * 8) with 4096. rewrite (u32_small (_ + 4096)) by lia. rewrite u32_small by lia.
  assert ((n - (149 + b) + 4096 - 1) / 4096 = needed n b) as -> by (unfold needed; f_equal; lia).
  by replace (n - (149 + b)) with (n - 149 - b) by lia.
Qed.

Lemma needed_range n b : 0 <= b -> 149 + b < n -> 0 < needed n b /\ 4096 * (needed n b - 1) < n - 149 - b <= 4096 * needed n b.
Proof. intros. unfold needed. zlia. Qed.

Lemma needed_unique n b k : 4096 * (k - 1) < n - 149 - b <= 4096 * k -> needed n b = k.
Proof. intros. unfold needed. symmetry. apply (Z.div_unique _ _ _ (n - 149 - b + 4095 - 4096 * k)); lia. Qed.

(** For [n = 150 + 4097 * q + r] the loop tends to [q + 1] bitmap sectors. *)
Lemma format_layout_ends n q r :
  n = 150 + 4097 * q + r -> 0 <= q -> 1 <= r <= 4096 -> n < 2 ^ 32 - 4096 ->
  format_layout 5 n 1 = Some (Some (q + 1, 150 + q, 4096 * q + r)).
Proof.
  intros En Hq Hr Hn.
  assert (forall fuel, format_layout (S fuel) n (q + 1) = Some (Some (q + 1, 150 + q, 4096 * q + r))) as Hfix.
  { intros fuel. rewrite format_layout_step by lia. rewrite (needed_unique n (q + 1) (q + 1)) by lia.
    rewrite Z.eqb_refl. replace (149 + (q + 1)) with (150 + q) by lia. by replace (n - 149 - (q + 1)) with (4096 * q + r) by lia. }
  destruct (decide (q = 0)) as [->|Hq0]; [apply (Hfix 4%nat)|].
  rewrite format_layout_step by lia. destruct (needed_range n 1) as [H0 H1]; [lia..|]. set (b1 := needed n 1) in *. clearbody b1.
  assert (q + 1 <= b1 <= q + 257) as Hb1 by lia. rewrite (proj2 (Z.eqb_neq _ _)) by lia.
  destruct (decide (b1 = q + 1)) as [->|Hne]; [apply (Hfix 3%nat)|].
  rewrite format_layout_step by lia. destruct (decide (b1 - (q + 1) < r)) as [Hlt|Hge].
  - rewrite (needed_unique n b1 (q + 1)) by lia. rewrite (proj2 (Z.eqb_neq _ _)) by lia. apply (Hfix 2%nat).
  - rewrite (needed_unique n b1 q) by lia. rewrite (proj2 (Z.eqb_neq _ _)) by lia.
    rewrite format_layout_step by lia. rewrite (needed_unique n q (q + 1)) by lia. rewrite (proj2 (Z.eqb_neq _ _)) by lia. apply (Hfix 1%nat).
Qed.

(** For [n = 150 + 4097 * q] it alternates between [q] and [q + 1]. *)
Lemma format_layout_alternates fuel n q :
  n = 150 + 4097 * q -> 1 <= q -> n < 2 ^ 32 - 4096 -> format_layout fuel n q = None /\ format_layout fuel n (q + 1) = None.
Proof.
  intros En Hq Hn. induction fuel as [|fuel [IH1 IH2]]; [done|]. split.
  - rewrite format_layout_step, (needed_unique n q (q + 1)) by lia. rewrite (proj2 (Z.eqb_neq _ _)) by lia. exact IH2.
  - rewrite format_layout_step, (needed_unique n (q + 1) q) by lia. rewrite (proj2 (Z.eqb_neq _ _)) by lia. exact IH1.
Qed.

Lemma format_layout_never fuel n q : n = 150 + 4097 * q -> 1 <= q -> n < 2 ^ 32 - 4096 -> format_layout fuel n 1 = None.
Proof.
  intros En Hq Hn. destruct fuel as [|fuel]; [done|]. rewrite format_layout_step by lia.
  destruct (needed_range n 1) as [H0 H1]; [lia..|]. set (b1 := needed n 1) in *. clearbody b1.
  assert (q <= b1 <= q + 257 /\ 2 <= b1) as [Hb1 Hb2] by lia. rewrite (proj2 (Z.eqb_neq _ _)) by lia.
  destruct (format_layout_alternates fuel n q En Hq Hn) as [Ha Hb].
  destruct (decide (b1 = q)) as [->|]; [done|]. destruct (decide (b1 = q + 1)) as [->|]; [done|].
  destruct fuel as [|fuel]; [done|]. rewrite format_layout_step by lia. rewrite (needed_unique n b1 q) by lia. rewrite (proj2 (Z.eqb_neq _ _)) by lia.
  by apply format_layout_alternates.
Qed.

(** C27: The loop of [minfs_format] that sizes the bitmap ends exactly when
    the device has more than 150 blocks and their number past 150 is not a
    multiple of 4097; the layout then fills the device, the bitmap has just
    enough sectors, and the superblock written is one [minfs_mount] accepts. *)
Theorem format_layout_correct n dev :
  150 < n < 2 ^ 32 - 4096 -> dev_block_count dev = n -> dev_block_size dev = 512 ->
  ((n - 150) mod 4097 = 0 -> forall fuel, format_layout fuel n 1 = None) /\
  ((n - 150) mod 4097 <> 0 -> exists b start blocks,
     format_layout 5 n 1 = Some (Some (b, start, blocks)) /\ start + blocks = n /\ start = 149 + b /\
     4096 * (b - 1) < blocks <= 4096 * b /\
     minfs_super_is_valid (fresh_super b start blocks) dev = true /\ super_ok (fresh_super b start blocks)).
Proof.
  intros Hn Hd Hbs. pose proof (Z.div_mod (n - 150) 4097 ltac:(lia)) as Hdm. pose proof (Z.mod_pos_bound (n - 150) 4097 ltac:(lia)) as Hr.
  set (q := (n - 150) / 4097) in *. set (r := (n - 150) mod 4097) in *. clearbody q r. split.
  - intros E0 fuel. apply (format_layout_never fuel n q); lia.
  - intros Hr0. exists (q + 1), (150 + q), (4096 * q + r). split; [apply format_layout_ends; lia|].
    split_and!; try lia.
    + unfold minfs_super_is_valid, fresh_super. cbn [magic version total_nodes block_size max_file_bytes node_table_start
        node_table_sectors bitmap_start bitmap_sectors data_start_sector data_block_count recovery_state].
      rewrite Hd, Hbs, node_table_sectors_eq. rewrite (u32_small (1 + 148)) by lia. rewrite u32_small by lia.
      rewrite (proj2 (Z.eqb_eq (150 + q) _)) by lia. rewrite (proj2 (Z.eqb_neq (q + 1) 0)), (proj2 (Z.eqb_neq (4096 * q + r) 0)) by lia.
      rewrite (proj2 (Z.ltb_ge n _)) by lia. reflexivity.
    + split; [|split; [done|by apply Forall_replicate]]. unfold fresh_super.
      cbn [magic version total_nodes block_size max_file_bytes node_table_start node_table_sectors bitmap_start
        bitmap_sectors data_start_sector data_block_count recovery_state recovery_seq]. unfold is_word.
      repeat (apply Forall_cons; split; [first [done|lia]|]). constructor.
Qed.

(** The superblock check does not compare the bitmap's size with the number
    of data blocks: a superblock that passes it can describe a bitmap that
    covers only a part of the blocks. *)
Example super_valid_bitmap_too_small :
  let sb := fresh_super 1 150 1000000 in
  let dev := mk_dev 0 [] 512 2000000 0 0 None None in
  minfs_super_is_valid sb dev = true /\ bitmap_sectors sb * 4096 < data_block_count sb.
Proof. by vm_compute. Qed.

(** ** The block bitmap *)

Abbreviation bits := minfs_bitmap_is_set.

(** The bitmap has a bit for every data block. *)
Definition geo (fs : minfs) : Prop := fs_data_block_count fs <= 8 * zlen (fs_bitmap fs).

(** Everything but the bitmap and its dirty marks is the same. *)
Record same_files (fs fs' : minfs) : Prop := {
  sf_dev : fs_dev_index fs' = fs_dev_index fs;
  sf_super : fs_super fs' = fs_super fs;
  sf_nodes : fs_nodes fs' = fs_nodes fs;
  sf_vnodes : fs_vnodes fs' = fs_vnodes fs;
  sf_length : length (fs_bitmap fs') = length (fs_bitmap fs)
}.
#[export] Instance same_files_preorder : PreOrder same_files.
Proof. split; [done|]. intros x y z [] []. split; congruence. Qed.

Lemma same_files_geo fs fs' : same_files fs fs' -> geo fs -> geo fs'.
Proof. intros [_ Hs _ _ Hl] Hg. unfold geo, fs_data_block_count, zlen in *. by rewrite Hs, Hl. Qed.
Lemma same_files_count fs fs' : same_files fs fs' -> fs_data_block_count fs' = fs_data_block_count fs.
Proof. intros [_ Hs _ _ _]. unfold fs_data_block_count. by rewrite Hs. Qed.

Lemma bits_testbit fs j : 0 <= j < fs_data_block_count fs -> bits fs j = Z.testbit (bit_byte fs j) (j mod 8).
Proof.
  intros Hj. unfold minfs_bitmap_is_set. rewrite (proj2 (Z.leb_gt _ _)) by lia.
  rewrite shiftr_land_1 by (apply Z.mod_pos_bound; lia). by destruct (Z.testbit _ _).
Qed.

Lemma mark_dirty_same i fs : same_files fs (minfs_bitmap_mark_dirty i fs) /\ fs_bitmap (minfs_bitmap_mark_dirty i fs) = fs_bitmap fs.
Proof. unfold minfs_bitmap_mark_dirty. destruct (_ <=? _); [done|]. cbn zeta. by destruct (_ <? _). Qed.

Lemma bit_byte_mark i fs j : bit_byte (minfs_bitmap_mark_dirty i fs) j = bit_byte fs j.
Proof. unfold bit_byte. by rewrite (proj2 (mark_dirty_same i fs)). Qed.

(** Storing a byte changes the bits of that byte only. *)
Lemma bit_byte_set i b fs j :
  geo fs -> 0 <= i < fs_data_block_count fs -> 0 <= j ->
  bit_byte (set_bit_byte i b fs) j = if decide (i / 8 = j / 8) then b else bit_byte fs j.
Proof.
  intros Hg Hi Hj. unfold bit_byte, set_bit_byte. cbn [fs_bitmap with_bitmap]. unfold geo, zlen in Hg.
  assert (0 <= i / 8 < Z.of_nat (length (fs_bitmap fs))) as Hi8 by zlia. assert (0 <= j / 8) as Hj8 by zlia.
  destruct (decide (i / 8 = j / 8)) as [E|Hne].
  - rewrite E in *. apply list_lookup_total_insert_eq. clear -Hi8. lia.
  - apply list_lookup_total_insert_ne. clear -Hne Hi8 Hj8. lia.
Qed.

(** A bit operation on byte [i / 8] that acts as [f] on bit [i mod 8]. *)
Lemma update_bit i b f fs j :
  geo fs -> 0 <= i < fs_data_block_count fs -> 0 <= j ->
  (forall m, 0 <= m < 8 -> Z.testbit b m = if decide (m = i mod 8) then f else Z.testbit (bit_byte fs i) m) ->
  let fs' := minfs_bitmap_mark_dirty i (set_bit_byte i b fs) in
  same_files fs fs' /\ bits fs' j = if decide (j = i) then f else bits fs j.
Proof.
  intros Hg Hi Hj Hb fs'. assert (same_files fs fs') as Hsame.
  { destruct (mark_dirty_same i (set_bit_byte i b fs)) as [[] _]. split; unfold fs'; rewrite ?sf_dev0, ?sf_super0, ?sf_nodes0, ?sf_vnodes0, ?sf_length0; try done.
    unfold set_bit_byte. cbn [fs_bitmap with_bitmap]. apply length_insert. }
  split; [done|]. destruct (Z.le_gt_cases (fs_data_block_count fs) j) as [Hge|Hlt].
  - unfold minfs_bitmap_is_set. rewrite (same_files_count fs fs') by done. rewrite (proj2 (Z.leb_le _ _)) by lia.
    by rewrite decide_False by lia.
  - rewrite !bits_testbit by (rewrite ?(same_files_count fs fs') by done; lia).
    unfold fs'. rewrite bit_byte_mark, bit_byte_set by done. destruct (decide (i / 8 = j / 8)) as [E8|N8].
    + rewrite Hb by (apply Z.mod_pos_bound; lia). assert (bit_byte fs i = bit_byte fs j) as -> by (unfold bit_byte; by rewrite E8).
      destruct (decide (j mod 8 = i mod 8)), (decide (j = i)); try done; exfalso; zlia.
    + rewrite decide_False by congruence. done.
Qed.

Lemma testbit_one_shift k m : 0 <= k < 8 -> 0 <= m < 8 -> Z.testbit (Z.shiftl 1 k) m = bool_decide (m = k).
Proof.
  intros Hk Hm. rewrite Z.shiftl_1_l, Z.pow2_bits_eqb by lia. destruct (Z.eqb_spec k m); symmetry; [by apply bool_decide_eq_true_2|by apply bool_decide_eq_false_2].
Qed.

Lemma set_spec i fs j :
  geo fs -> 0 <= i < fs_data_block_count fs -> 0 <= j ->
  same_files fs (minfs_bitmap_set i fs) /\ bits (minfs_bitmap_set i fs) j = if decide (j = i) then true else bits fs j.
Proof.
  intros Hg Hi Hj. unfold minfs_bitmap_set. rewrite (proj2 (Z.leb_gt _ _)) by lia.
  pose proof (Z.mod_pos_bound i 8 ltac:(lia)). apply update_bit; [done..|]. intros m Hm. unfold u8.
  rewrite Z.lor_spec, Z.mod_pow2_bits_low, testbit_one_shift by lia. case_decide; subst.
  - by rewrite bool_decide_eq_true_2, orb_true_r.
  - by rewrite bool_decide_eq_false_2, orb_false_r.
Qed.

Lemma free_spec i fs j :
  geo fs -> 0 <= i < fs_data_block_count fs -> 0 <= j ->
  same_files fs (minfs_free_block i fs) /\ bits (minfs_free_block i fs) j = if decide (j = i) then false else bits fs j.
Proof.
  intros Hg Hi Hj. unfold minfs_free_block, minfs_bitmap_clear. rewrite !(proj2 (Z.leb_gt _ _)) by lia.
  pose proof (Z.mod_pos_bound i 8 ltac:(lia)). apply update_bit; [done..|]. intros m Hm. unfold u8.
  rewrite Z.land_spec, Z.mod_pow2_bits_low, Z.lnot_spec, testbit_one_shift by lia. case_decide; subst.
  - by rewrite bool_decide_eq_true_2, andb_false_r.
  - by rewrite bool_decide_eq_false_2, andb_true_r.
Qed.

Definition in_fs (fs : minfs) (b : Z) : Prop := 0 <= b < fs_data_block_count fs.

(** Freeing a list of blocks. *)
Lemma free_list_spec bs fs :
  geo fs -> Forall (in_fs fs) bs ->
  let fs' := fold_left (fun fs b => minfs_free_block b fs) bs fs in
  same_files fs fs' /\ forall j, 0 <= j -> bits fs' j = bits fs j && negb (bool_decide (j ∈ bs)).
Proof.
  revert fs. induction bs as [|b bs IH]; intros fs Hg Hbs; cbn [fold_left].
  { split; [done|]. intros j _. rewrite bool_decide_eq_false_2 by apply not_elem_of_nil. by rewrite andb_true_r. }
  apply Forall_cons in Hbs as [Hb Hbs]. destruct (free_spec b fs b Hg Hb ltac:(destruct Hb; lia)) as [Hs _].
  destruct (IH (minfs_free_block b fs)) as [Hs2 Hb2].
  { by eapply same_files_geo. }
  { eapply Forall_impl; [exact Hbs|]. intros x Hx. unfold in_fs. by rewrite (same_files_count fs). }
  split; [by transitivity (minfs_free_block b fs)|]. intros j Hj. rewrite Hb2 by done.
  destruct (free_spec b fs j Hg Hb Hj) as [_ ->]. case_decide as E; subst.
  - cbn [andb]. rewrite bool_decide_eq_true_2 by (apply list_elem_of_here). by rewrite andb_false_r.
  - f_equal. f_equal. apply bool_decide_ext. rewrite elem_of_cons. naive_solver.
Qed.

Lemma find_clear_spec n i fs :
  match find_clear n i fs with
  | Some b => i <= b < i + Z.of_nat n /\ bits fs b = false
  | None => forall j, i <= j < i + Z.of_nat n -> bits fs j = true
  end.
Proof.
  revert i. induction n as [|n IH]; intros i; cbn [find_clear]; [lia|].
  destruct (bits fs i) eqn:Eb; cbn [negb]; [|split; [lia|done]].
  specialize (IH (i + 1)). destruct (find_clear n (i + 1) fs) as [b|]; [split; [lia|apply IH]|].
  intros j Hj. destruct (decide (j = i)) as [->|]; [done|]. apply IH. lia.
Qed.

Definition full (fs : minfs) : Prop := forall j, in_fs fs j -> bits fs j = true.

(** [k] allocations: fresh blocks, all marked. *)
Lemma alloc_blocks_spec k acc fs bs ok fs' :
  geo fs -> alloc_blocks k acc fs = (bs, ok, fs') ->
  exists new, bs = acc ++ new /\ same_files fs fs' /\ NoDup new /\ Forall (fun b => in_fs fs b /\ bits fs b = false) new /\
    (forall j, 0 <= j -> bits fs' j = bits fs j || bool_decide (j ∈ new)) /\
    (if ok then length new = k else full fs' /\ (length new < k)%nat).
Proof.
  revert acc fs. induction k as [|k IH]; intros acc fs Hg; cbn [alloc_blocks].
  { intros [= <- <- <-]. exists []. split_and!; [by rewrite app_nil_r|done|apply NoDup_nil_2|done| |done].
    intros j _. rewrite bool_decide_eq_false_2 by apply not_elem_of_nil. by rewrite orb_false_r. }
  unfold minfs_alloc_block. pose proof (find_clear_spec (Z.to_nat (fs_data_block_count fs)) 0 fs) as Hf.
  destruct (find_clear _ 0 fs) as [b|].
  2: { intros [= <- <- <-]. exists []. split_and!; [by rewrite app_nil_r|done|apply NoDup_nil_2|done| | |simpl; lia].
       - intros j _. rewrite bool_decide_eq_false_2 by apply not_elem_of_nil. by rewrite orb_false_r.
       - intros j Hj. apply Hf. unfold in_fs in Hj. lia. }
  destruct Hf as [Hb Hclear]. assert (in_fs fs b) as Hin by (unfold in_fs; lia).
  destruct (set_spec b fs b Hg Hin ltac:(lia)) as [Hs _]. intros E.
  apply IH in E as (new & -> & Hs2 & Hnd & Hnew & Hbits & Hok); [|by eapply same_files_geo].
  assert (forall j, 0 <= j -> bits (minfs_bitmap_set b fs) j = if decide (j = b) then true else bits fs j) as Hset
    by (intros j Hj; by apply set_spec).
  exists (b :: new). split_and!.
  - by rewrite <- app_assoc.
  - by transitivity (minfs_bitmap_set b fs).
  - apply NoDup_cons. split; [|done]. intros Hbn. rewrite Forall_forall in Hnew. destruct (Hnew b Hbn) as [_ Hc].
    rewrite Hset, decide_True in Hc by (done || lia). done.
  - constructor; [done|]. rewrite Forall_forall in *. intros x Hx. destruct (Hnew x Hx) as [Hx1 Hx2].
    unfold in_fs in Hx1. rewrite (same_files_count fs) in Hx1 by done. split; [done|]. rewrite Hset in Hx2 by lia. by case_decide.
  - intros j Hj. rewrite Hbits, Hset by done. case_decide as Ejb; subst.
    + cbn [orb]. rewrite bool_decide_eq_true_2 by (apply list_elem_of_here). by rewrite orb_true_r.
    + f_equal. apply bool_decide_ext. rewrite elem_of_cons. naive_solver.
  - destruct ok; [simpl; lia|]. destruct Hok as [? ?]. split; [done|simpl; lia].
Qed.

(** ** Ownership of blocks *)

Definition real (b : Z) : Prop := b <> MINFS_BLOCK_NONE.
#[export] Instance real_dec b : Decision (real b) := _.

(** The blocks a node owns, and all owned blocks. *)
Definition file_blocks (n : minfs_disk_node) : list Z :=
  if (dn_used n =? 0) || negb (is_set (dn_type n) VFS_FILE) then [] else filter real (dn_direct n).
Definition all_blocks (ns : list minfs_disk_node) : list Z := concat (map file_blocks ns).

(** No block has two owners, owned blocks exist, and the bitmap marks
    exactly the owned blocks. *)
Record alloc_ok (fs : minfs) : Prop := {
  ao_geo : geo fs;
  ao_word : fs_data_block_count fs < 2 ^ 32;
  ao_nodup : NoDup (all_blocks (fs_nodes fs));
  ao_range : Forall (in_fs fs) (all_blocks (fs_nodes fs));
  ao_bits : forall j, in_fs fs j -> bits fs j = bool_decide (j ∈ all_blocks (fs_nodes fs))
}.

(** A file whose block slots are filled from the front. *)
Record dense (n : minfs_disk_node) (bs : list Z) : Prop := {
  de_file : (dn_used n =? 0) || negb (is_set (dn_type n) VFS_FILE) = false;
  de_count : dn_block_count n = zlen bs;
  de_slots : dn_direct n = bs ++ replicate (128 - length bs) MINFS_BLOCK_NONE;
  de_limit : (length bs <= 128)%nat;
  de_real : Forall real bs
}.

Lemma filter_real_all bs : Forall real bs -> filter real bs = bs.
Proof. induction 1 as [|b bs Hb _ IH]; [done|]. rewrite filter_cons_True by done. by rewrite IH. Qed.
Lemma filter_real_none k : filter real (replicate k MINFS_BLOCK_NONE) = [].
Proof. induction k as [|k IH]; [done|]. cbn [replicate]. by rewrite filter_cons_False by (intros H; by apply H). Qed.

Lemma dense_blocks n bs : dense n bs -> file_blocks n = bs.
Proof.
  intros [Hf _ Hs _ Hr]. unfold file_blocks. rewrite Hf, Hs, filter_app, filter_real_none, app_nil_r. by apply filter_real_all.
Qed.

Lemma all_blocks_app a b : all_blocks (a ++ b) = all_blocks a ++ all_blocks b.
Proof. unfold all_blocks. by rewrite map_app, concat_app. Qed.

(** Replacing one node: the owned blocks up to order. *)
Lemma all_blocks_upd ns (i : nat) n n' :
  ns !! i = Some n -> exists others, all_blocks ns ≡ₚ file_blocks n ++ others /\ all_blocks (<[i := n']> ns) ≡ₚ file_blocks n' ++ others.
Proof.
  intros Hi. exists (all_blocks (take i ns) ++ all_blocks (drop (S i) ns)). split.
  - rewrite <- (take_drop_middle ns i n Hi) at 1. rewrite all_blocks_app. unfold all_blocks at 2. cbn [map concat].
    change (concat (map file_blocks (drop (S i) ns))) with (all_blocks (drop (S i) ns)). apply Permutation_app_swap_app.
  - rewrite insert_take_drop by (by eapply lookup_lt_Some). rewrite all_blocks_app. unfold all_blocks at 2. cbn [map concat].
    change (concat (map file_blocks (drop (S i) ns))) with (all_blocks (drop (S i) ns)). apply Permutation_app_swap_app.
Qed.

(** The invariant after a node's blocks changed from [n]'s to [n']'s and the
    bitmap followed. *)
Lemma alloc_ok_upd fs fs1 (i : nat) n n' :
  alloc_ok fs -> fs_nodes fs !! i = Some n -> same_files fs fs1 ->
  NoDup (file_blocks n') -> Forall (in_fs fs) (file_blocks n') ->
  (forall b, b ∈ file_blocks n' -> b ∈ file_blocks n \/ bits fs b = false) ->
  (forall j, in_fs fs j -> bits fs1 j = bool_decide (j ∈ file_blocks n') || (bits fs j && negb (bool_decide (j ∈ file_blocks n)))) ->
  alloc_ok (set_node (Z.of_nat i) n' fs1).
Proof.
  intros [Hg Hwd Hnd Hr Hb] Hi Hs Hnd' Hr' Hfresh Hbits. destruct (all_blocks_upd (fs_nodes fs) i n n' Hi) as (others & E1 & E2).
  assert (fs_nodes (set_node (Z.of_nat i) n' fs1) = <[i := n']> (fs_nodes fs)) as En.
  { unfold set_node. cbn [fs_nodes with_nodes]. rewrite Nat2Z.id. by rewrite (sf_nodes _ _ Hs). }
  assert (fs_data_block_count (set_node (Z.of_nat i) n' fs1) = fs_data_block_count fs) as Ec by exact (same_files_count fs fs1 Hs).
  rewrite E1 in Hnd, Hr. apply NoDup_app in Hnd as (Hnd1 & Hdis & Hnd2). apply Forall_app in Hr as [Hr1 Hr2].
  assert (forall j, in_fs fs j -> bits fs j = bool_decide (j ∈ file_blocks n ++ others)) as Hb'.
  { intros j Hj. rewrite Hb by done. apply bool_decide_ext. by rewrite E1. }
  assert (forall b, b ∈ file_blocks n' -> b ∉ others) as Hdis'.
  { intros b Hbn Hbo. destruct (Hfresh b Hbn) as [Hbb|Hbf]; [by eapply Hdis|].
    rewrite Forall_forall in Hr'. rewrite Hb' in Hbf by (by apply Hr'). apply bool_decide_eq_false_1 in Hbf. apply Hbf, elem_of_app. by right. }
  split.
  - exact (same_files_geo fs fs1 Hs Hg).
  - by rewrite Ec.
  - rewrite En, E2. apply NoDup_app. split_and!; [done| |done]. intros b Hbn. by apply Hdis'.
  - rewrite En, E2. unfold in_fs. rewrite Ec. apply Forall_app. by split.
  - intros j Hj. unfold in_fs in Hj. rewrite Ec in Hj. change (bits fs1 j = bool_decide (j ∈ all_blocks (fs_nodes (set_node (Z.of_nat i) n' fs1)))).
    rewrite En, Hbits, Hb' by done.
    assert (bool_decide (j ∈ all_blocks (<[i := n']> (fs_nodes fs))) = bool_decide (j ∈ file_blocks n' ++ others)) as ->
      by (apply bool_decide_ext; by rewrite E2).
    destruct (decide (j ∈ file_blocks n')) as [H1|H1].
    { rewrite (bool_decide_eq_true_2 (j ∈ file_blocks n')) by done. cbn [orb]. symmetry. apply bool_decide_eq_true_2, elem_of_app. by left. }
    rewrite (bool_decide_eq_false_2 (j ∈ file_blocks n')) by done. cbn [orb].
    destruct (decide (j ∈ file_blocks n)) as [H2|H2].
    + rewrite (bool_decide_eq_true_2 (j ∈ file_blocks n)) by done. rewrite andb_false_r. symmetry.
      apply bool_decide_eq_false_2. rewrite elem_of_app. intros [?|?]; [done|by eapply Hdis].
    + rewrite (bool_decide_eq_false_2 (j ∈ file_blocks n)) by done. rewrite andb_true_r. apply bool_decide_ext. rewrite !elem_of_app. tauto.
Qed.

Lemma splice_slots (bs new : list Z) r :
  (length new <= r)%nat ->
  splice (zlen bs) new (bs ++ replicate r MINFS_BLOCK_NONE) = bs ++ new ++ replicate (r - length new) MINFS_BLOCK_NONE.
Proof.
  intros Hl. unfold splice, zlen. rewrite Nat2Z.id, take_app_length. do 2 f_equal.
  rewrite drop_app_ge by lia. rewrite drop_replicate. f_equal. lia.
Qed.

Lemma node_at_lookup fs (i : nat) n : fs_nodes fs !! i = Some n -> node_at fs (Z.of_nat i) = n.
Proof. intros H. unfold node_at. rewrite Nat2Z.id. by apply list_lookup_total_correct. Qed.

Lemma set_node_lookup fs fs1 (i : nat) n' :
  same_files fs fs1 -> (i < length (fs_nodes fs))%nat ->
  fs_nodes (set_node (Z.of_nat i) n' fs1) !! i = Some n' /\
  forall k, k <> i -> fs_nodes (set_node (Z.of_nat i) n' fs1) !! k = fs_nodes fs !! k.
Proof.
  intros Hs Hi. unfold set_node. cbn [fs_nodes with_nodes]. rewrite Nat2Z.id, (sf_nodes _ _ Hs). split.
  - by apply list_lookup_insert_eq.
  - intros k Hk. by apply list_lookup_insert_ne.
Qed.

Lemma owned_bits fs (i : nat) n b :
  alloc_ok fs -> fs_nodes fs !! i = Some n -> b ∈ file_blocks n -> in_fs fs b /\ bits fs b = true.
Proof.
  intros Hok Hi Hb. destruct (all_blocks_upd (fs_nodes fs) i n n Hi) as (others & E1 & _).
  assert (b ∈ all_blocks (fs_nodes fs)) as Hin by (rewrite E1; apply elem_of_app; by left).
  assert (in_fs fs b) as Hr by (by apply (proj1 (Forall_forall _ _) (ao_range _ Hok))).
  split; [done|]. rewrite (ao_bits _ Hok) by done. by apply bool_decide_eq_true_2.
Qed.

Lemma owned_nodup fs (i : nat) n : alloc_ok fs -> fs_nodes fs !! i = Some n -> NoDup (file_blocks n).
Proof.
  intros Hok Hi. destruct (all_blocks_upd (fs_nodes fs) i n n Hi) as (others & E1 & _).
  pose proof (ao_nodup _ Hok) as Hn. rewrite E1 in Hn. by apply NoDup_app in Hn as (? & _).
Qed.

(** Growing a file by fresh blocks. *)
Lemma grow_file fs fs1 (i : nat) n bs new :
  alloc_ok fs -> fs_nodes fs !! i = Some n -> dense n bs -> same_files fs fs1 ->
  NoDup new -> Forall (fun b => in_fs fs b /\ bits fs b = false) new -> (length (bs ++ new) <= 128)%nat ->
  (forall j, 0 <= j -> bits fs1 j = bits fs j || bool_decide (j ∈ new)) ->
  let n' := with_blocks (dn_size n) (zlen (bs ++ new)) (splice (zlen bs) new (dn_direct n)) n in
  dense n' (bs ++ new) /\ alloc_ok (set_node (Z.of_nat i) n' fs1).
Proof.
  intros Hok Hi Hd Hs Hnd Hnew Hlen Hbits n'. pose proof Hd as [Hf Hc Hsl Hl Hr]. rewrite Forall_forall in Hnew. rewrite length_app in Hlen.
  assert (dense n' (bs ++ new)) as Hd'.
  { unfold n'. split; cbn [dn_used dn_type dn_block_count dn_direct with_blocks].
    - done.
    - done.
    - rewrite Hsl, splice_slots by lia. rewrite <- app_assoc, length_app. do 3 f_equal. lia.
    - rewrite length_app. lia.
    - apply Forall_app. split; [done|]. rewrite Forall_forall. intros b Hb. destruct (Hnew b Hb) as [[? ?] _].
      pose proof (ao_word _ Hok). unfold real, MINFS_BLOCK_NONE. lia. }
  split; [done|]. apply (alloc_ok_upd fs fs1 i n n' Hok Hi Hs); rewrite (dense_blocks n' _ Hd'), ?(dense_blocks n _ Hd).
  - apply NoDup_app. split_and!; [|intros b Hb Hbn|done].
    + rewrite <- (dense_blocks n bs Hd). by eapply owned_nodup.
    + destruct (Hnew b Hbn) as [_ Hc0]. destruct (owned_bits fs i n b Hok Hi) as [_ Hc1]; [by rewrite (dense_blocks n bs Hd)|congruence].
  - apply Forall_app. split; rewrite Forall_forall; intros b Hb; [|by destruct (Hnew b Hb)].
    destruct (owned_bits fs i n b Hok Hi) as [? _]; [by rewrite (dense_blocks n bs Hd)|done].
  - intros b [Hb|Hb]%elem_of_app; [by left|]. right. by destruct (Hnew b Hb).
  - intros j Hj. rewrite Hbits by (destruct Hj; lia).
    destruct (decide (j ∈ bs)) as [H1|H1].
    + rewrite (bool_decide_eq_true_2 (j ∈ bs ++ new)) by (apply elem_of_app; by left). cbn [orb].
      destruct (owned_bits fs i n j Hok Hi) as [_ ->]; [by rewrite (dense_blocks n bs Hd)|done].
    + rewrite (bool_decide_eq_false_2 (j ∈ bs)) by done. cbn [negb]. rewrite andb_true_r, orb_comm. f_equal.
      apply bool_decide_ext. rewrite elem_of_app. tauto.
Qed.

(** C28: For a file whose block slots are filled from the front, as in new and
    grown files, [minfs_ensure_file_blocks] keeps every block owned at most
    once and the bitmap exact; with a gap among the slots, as recovery can
    leave, it overwrites a live one ([rebuild_leaves_gap]). It either extends
    the file's blocks to the number asked for, keeping those it had, or fails
    (more than 128 blocks, or fewer free ones than needed) with the file and
    the bitmap as they were. *)
Theorem ensure_file_blocks_correct fs (i : nat) n bs needed :
  alloc_ok fs -> fs_nodes fs !! i = Some n -> dense n bs -> 0 <= needed ->
  let '(rc, fs') := minfs_ensure_file_blocks (Z.of_nat i) needed fs in
  alloc_ok fs' /\ (forall k, k <> i -> fs_nodes fs' !! k = fs_nodes fs !! k) /\
  ((rc = 0 /\ exists new n', fs_nodes fs' !! i = Some n' /\ dense n' (bs ++ new) /\
      zlen (bs ++ new) = Z.max (zlen bs) needed /\ dn_size n' = dn_size n) \/
   (rc = -1 /\ fs_nodes fs' !! i = Some n /\ (forall j, in_fs fs j -> bits fs' j = bits fs j) /\
      (128 < needed \/ exists free, zlen free < needed - zlen bs /\ forall j, in_fs fs j -> bits fs j = false -> j ∈ free))).
Proof.
  intros Hok Hi Hd Hn. pose proof Hd as [Hf Hc Hsl Hl Hr]. unfold minfs_ensure_file_blocks.
  rewrite (node_at_lookup fs i n Hi), Hc. change MINFS_DIRECT_BLOCKS with 128.
  pose proof (lookup_lt_Some _ _ _ Hi) as Hlt.
  destruct (Z.ltb_spec 128 needed). { split_and!; [done|done|]. right. split_and!; auto. }
  destruct (Z.leb_spec needed (zlen bs)).
  { split_and!; [done|done|]. left. split; [done|]. exists [], n. rewrite app_nil_r. split_and!; [done|done|lia|done]. }
  destruct (alloc_blocks (Z.to_nat (needed - zlen bs)) [] fs) as [[new0 ok] fs1] eqn:Ea.
  destruct (alloc_blocks_spec _ _ _ _ _ _ (ao_geo _ Hok) Ea) as (new & E0 & Hs & Hnd & Hnew & Hbits & Hres). cbn [app] in E0. subst new0.
  destruct ok.
  - assert (needed = zlen (bs ++ new)) as En by (unfold zlen in *; rewrite length_app; lia).
    destruct (grow_file fs fs1 i n bs new Hok Hi Hd Hs Hnd Hnew ltac:(unfold zlen in *; lia) Hbits) as [Hd' Hok'].
    rewrite <- En in Hd', Hok'. set (n' := with_blocks _ _ _ _) in *. destruct (set_node_lookup fs fs1 i n' Hs Hlt) as [H1 H2].
    split_and!; [done|done|]. left. split; [done|]. exists new, n'. split_and!; [done|done|lia|done].
  - destruct Hres as [Hfull Hlen].
    assert (splice (zlen bs) (replicate (length new) MINFS_BLOCK_NONE) (dn_direct n) = dn_direct n) as ->.
    { rewrite Hsl, splice_slots by (rewrite length_replicate; unfold zlen in *; lia). rewrite length_replicate, <- replicate_add.
      do 2 f_equal. unfold zlen in *. lia. }
    assert (with_blocks (dn_size n) (zlen bs) (dn_direct n) n = n) as -> by (unfold with_blocks; rewrite <- Hc; by destruct n).
    set (fs2 := fold_left _ new fs1).
    assert (forall b, b ∈ new -> in_fs fs b /\ bits fs b = false) as Hnew' by (by apply Forall_forall).
    destruct (free_list_spec new fs1) as [Hs2 Hb2].
    { by eapply same_files_geo, ao_geo. }
    { rewrite Forall_forall. intros b Hb. unfold in_fs. rewrite (same_files_count fs fs1 Hs). by destruct (Hnew' b Hb). }
    fold fs2 in Hs2, Hb2. assert (same_files fs fs2) as Hs3 by (by transitivity fs1).
    assert (forall j, in_fs fs j -> bits fs2 j = bits fs j) as Hsame.
    { intros j Hj. rewrite Hb2, Hbits by (destruct Hj; lia). destruct (decide (j ∈ new)) as [Hj1|Hj1].
      - rewrite bool_decide_eq_true_2 by done. destruct (Hnew' j Hj1) as [_ ->]. done.
      - rewrite bool_decide_eq_false_2 by done. by rewrite orb_false_r, andb_true_r. }
    destruct (set_node_lookup fs fs2 i n Hs3 Hlt) as [H1 H2]. split_and!; [|done|right; split_and!; [done|done|done|right]].
    + apply (alloc_ok_upd fs fs2 i n n Hok Hi Hs3); [by eapply owned_nodup| |by left|].
      * rewrite Forall_forall. intros b Hb. by eapply owned_bits.
      * intros j Hj. rewrite Hsame by done. destruct (decide (j ∈ file_blocks n)) as [Hj1|Hj1].
        -- rewrite bool_decide_eq_true_2 by done. destruct (owned_bits fs i n j Hok Hi Hj1) as [_ ->]. done.
        -- rewrite bool_decide_eq_false_2 by done. by rewrite andb_true_r.
    + exists new. split; [unfold zlen in *; lia|]. intros j Hj Hj0.
      assert (bits fs1 j = true) as Hj1 by (apply Hfull; unfold in_fs; by rewrite (same_files_count fs fs1 Hs)).
      rewrite Hbits, Hj0 in Hj1 by (destruct Hj; lia). by apply bool_decide_eq_true_1 in Hj1.
Qed.

Lemma release_blocks_fold direct fs : release_blocks direct fs = fold_left (fun fs b => minfs_free_block b fs) (filter real direct) fs.
Proof.
  revert fs. induction direct as [|b direct IH]; intros fs; cbn [release_blocks]; [done|]. destruct (Z.eqb_spec b MINFS_BLOCK_NONE) as [->|Hne]; cbn [negb].
  - rewrite filter_cons_False by (intros H; by apply H). apply IH.
  - rewrite filter_cons_True by done. cbn [fold_left]. apply IH.
Qed.

(** [minfs_release_file_blocks] gives back exactly the blocks of the
    file, which is left empty, and keeps every other file's blocks. *)
Theorem release_file_blocks_correct fs (i : nat) n :
  alloc_ok fs -> fs_nodes fs !! i = Some n -> (dn_used n =? 0) || negb (is_set (dn_type n) VFS_FILE) = false ->
  let fs' := minfs_release_file_blocks (Z.of_nat i) fs in
  alloc_ok fs' /\ (forall k, k <> i -> fs_nodes fs' !! k = fs_nodes fs !! k) /\
  (exists n', fs_nodes fs' !! i = Some n' /\ file_blocks n' = [] /\ dn_size n' = 0 /\ dn_block_count n' = 0) /\
  (forall j, in_fs fs j -> bits fs' j = bits fs j && negb (bool_decide (j ∈ file_blocks n))).
Proof.
  intros Hok Hi Hf fs'. unfold fs', minfs_release_file_blocks. rewrite (node_at_lookup fs i n Hi), release_blocks_fold.
  assert (file_blocks n = filter real (dn_direct n)) as Efb by (unfold file_blocks; by rewrite Hf). rewrite <- Efb.
  assert (Forall (in_fs fs) (file_blocks n)) as Hrange by (rewrite Forall_forall; intros b Hb; by eapply owned_bits).
  destruct (free_list_spec (file_blocks n) fs (ao_geo _ Hok) Hrange) as [Hs Hb]. set (fs1 := fold_left _ _ fs) in *.
  set (n' := with_blocks 0 0 _ n). assert (file_blocks n' = []) as En'.
  { unfold file_blocks, n'. cbn [dn_used dn_type dn_direct with_blocks]. by rewrite Hf, filter_real_none. }
  destruct (set_node_lookup fs fs1 i n' Hs (lookup_lt_Some _ _ _ Hi)) as [H1 H2]. split_and!.
  - apply (alloc_ok_upd fs fs1 i n n' Hok Hi Hs); rewrite ?En'.
    + apply NoDup_nil_2.
    + constructor.
    + by intros b Hbn%elem_of_nil.
    + intros j Hj. rewrite Hb by (destruct Hj; lia). by rewrite (bool_decide_eq_false_2 (j ∈ [])) by apply not_elem_of_nil.
  - done.
  - by exists n'.
  - intros j Hj. apply Hb. destruct Hj; lia.
Qed.

(** ** Recovery *)

Lemma rebuild_slots_spec direct fs :
  geo fs -> Forall (fun b => 0 <= b) direct ->
  let '(d, v, fs') := rebuild_slots direct fs in
  same_files fs fs' /\ NoDup (filter real d) /\ Forall (fun b => in_fs fs b /\ bits fs b = false) (filter real d) /\
  (forall j, 0 <= j -> bits fs' j = bits fs j || bool_decide (j ∈ filter real d)) /\ v = zlen (filter real d) /\
  Forall2 (fun b b' => b' = b \/ b' = MINFS_BLOCK_NONE) direct d.
Proof.
  intros Hg Hd. revert fs Hg. induction Hd as [|b direct Hb _ IH]; intros fs Hg; cbn [rebuild_slots].
  { rewrite filter_nil. split_and!; [done|apply NoDup_nil_2|done| |done|done]. intros j _.
    rewrite bool_decide_eq_false_2 by apply not_elem_of_nil. by rewrite orb_false_r. }
  destruct (Z.eqb_spec b MINFS_BLOCK_NONE) as [->|Hne].
  { specialize (IH fs Hg). destruct (rebuild_slots direct fs) as [[d v] fs']. destruct IH as (H1 & H2 & H3 & H4 & H5 & H6).
    rewrite filter_cons_False by (intros H; by apply H). split_and!; try done. constructor; [by left|done]. }
  destruct ((fs_data_block_count fs <=? b) || bits fs b) eqn:Ebad.
  { specialize (IH fs Hg). destruct (rebuild_slots direct fs) as [[d v] fs']. destruct IH as (H1 & H2 & H3 & H4 & H5 & H6).
    rewrite filter_cons_False by (intros H; by apply H). split_and!; try done. constructor; [by right|done]. }
  apply orb_false_elim in Ebad as [Hlt%Z.leb_gt Hclear]. assert (in_fs fs b) as Hin by done.
  destruct (set_spec b fs b Hg Hin Hb) as [Hs _]. assert (geo (minfs_bitmap_set b fs)) as Hg1 by (by eapply same_files_geo).
  assert (forall j, 0 <= j -> bits (minfs_bitmap_set b fs) j = if decide (j = b) then true else bits fs j) as Hset by (intros j Hj; by apply set_spec).
  specialize (IH _ Hg1). destruct (rebuild_slots direct (minfs_bitmap_set b fs)) as [[d v] fs']. destruct IH as (H1 & H2 & H3 & H4 & H5 & H6).
  rewrite filter_cons_True by done. rewrite Forall_forall in H3. split_and!.
  - by transitivity (minfs_bitmap_set b fs).
  - apply NoDup_cons. split; [|done]. intros Hbn. destruct (H3 b Hbn) as [_ Hc]. rewrite Hset, decide_True in Hc by done. done.
  - constructor; [done|]. rewrite Forall_forall. intros x Hx. destruct (H3 x Hx) as [Hx1 Hx2]. unfold in_fs in Hx1.
    rewrite (same_files_count fs) in Hx1 by done. split; [done|]. rewrite Hset in Hx2 by lia. by case_decide.
  - intros j Hj. rewrite H4, Hset by done. case_decide as Ej; subst.
    + cbn [orb]. rewrite bool_decide_eq_true_2 by (apply list_elem_of_here). by rewrite orb_true_r.
    + f_equal. apply bool_decide_ext. rewrite elem_of_cons. naive_solver.
  - rewrite H5. unfold zlen. cbn [length]. lia.
  - constructor; [by left|done].
Qed.

(** The block slots a node's claims are read from. *)
Definition slots (n : minfs_disk_node) : list Z :=
  if (dn_used n =? 0) || negb (is_set (dn_type n) VFS_FILE) then [] else dn_direct n.

(** What recovery is to make of a row of slots when the slots before it name
    the blocks [before]: a slot stays when its block exists and no earlier
    slot names it, and is cleared otherwise. *)
Definition first_claims (total : Z) (before direct : list Z) : list Z :=
  imap (fun j b => if bool_decide (b < total /\ b ∉ before ++ take j direct) then b else MINFS_BLOCK_NONE) direct.

(** The node with these slots: its block count is the number of slots left,
    its size at most what they hold; directories and free nodes stay. *)
Definition recover_node (total : Z) (before : list Z) (n : minfs_disk_node) : minfs_disk_node :=
  if (dn_used n =? 0) || negb (is_set (dn_type n) VFS_FILE) then n
  else
    let d := first_claims total before (dn_direct n) in
    let count := zlen (filter real d) in
    with_blocks (Z.min (dn_size n) (u32 (count * MINFS_BLOCK_SIZE))) count d n.
Definition recover_table (total : Z) (before : list Z) (ns : list minfs_disk_node) : list minfs_disk_node :=
  imap (fun k n => recover_node total (before ++ concat (map slots (take k ns))) n) ns.

Lemma first_claims_cons total before b direct :
  first_claims total before (b :: direct) =
  (if bool_decide (b < total /\ b ∉ before) then b else MINFS_BLOCK_NONE) :: first_claims total (before ++ [b]) direct.
Proof.
  unfold first_claims. rewrite imap_cons. f_equal; [by rewrite app_nil_r|].
  apply imap_ext. intros i x _. cbn [take]. by rewrite <- app_assoc.
Qed.
Lemma recover_table_cons total before n ns :
  recover_table total before (n :: ns) = recover_node total before n :: recover_table total (before ++ slots n) ns.
Proof.
  unfold recover_table. rewrite imap_cons. f_equal; [by rewrite app_nil_r|].
  apply imap_ext. intros i x _. cbn [take map concat]. by rewrite <- app_assoc.
Qed.

(** The bitmap marks the blocks named so far. *)
Definition marks (fs : minfs) (before : list Z) : Prop := forall j, in_fs fs j -> bits fs j = bool_decide (j ∈ before).

Lemma marks_more fs before b : marks fs before -> (in_fs fs b -> b ∈ before) -> marks fs (before ++ [b]).
Proof.
  intros Hm Hb j Hj. rewrite Hm by done. apply bool_decide_ext. rewrite elem_of_app, list_elem_of_singleton.
  split; [tauto|]. intros [? | ->]; auto.
Qed.

Lemma rebuild_slots_exact direct fs before :
  geo fs -> fs_data_block_count fs < 2 ^ 32 -> Forall (fun b => 0 <= b) direct -> marks fs before ->
  let '(d, v, fs') := rebuild_slots direct fs in
  d = first_claims (fs_data_block_count fs) before direct /\ marks fs' (before ++ direct).
Proof.
  intros Hg Hw Hd. revert fs before Hg Hw. induction Hd as [|b direct Hb _ IH]; intros fs before Hg Hw Hm; cbn [rebuild_slots].
  { by rewrite app_nil_r. }
  rewrite first_claims_cons. assert (before ++ b :: direct = (before ++ [b]) ++ direct) as -> by (by rewrite <- app_assoc).
  destruct (Z.eqb_spec b MINFS_BLOCK_NONE) as [->|Hne].
  { assert (marks fs (before ++ [MINFS_BLOCK_NONE])) as Hm' by (apply marks_more; [done|]; intros [_ H]; unfold MINFS_BLOCK_NONE in H; lia).
    specialize (IH fs _ Hg Hw Hm'). destruct (rebuild_slots direct fs) as [[d v] fs']. destruct IH as [-> H2].
    split; [|done]. by case_bool_decide. }
  destruct ((fs_data_block_count fs <=? b) || bits fs b) eqn:Ebad.
  { assert (~ (b < fs_data_block_count fs /\ b ∉ before)) as Hno.
    { intros [Hlt Hnin]. rewrite (proj2 (Z.leb_gt _ _)) in Ebad by done. rewrite Hm, bool_decide_eq_false_2 in Ebad; [done|done|by split]. }
    assert (marks fs (before ++ [b])) as Hm'.
    { apply marks_more; [done|]. intros [_ H]. destruct (decide (b ∈ before)); [done|]. by destruct Hno. }
    specialize (IH fs _ Hg Hw Hm'). destruct (rebuild_slots direct fs) as [[d v] fs']. destruct IH as [-> H2].
    by rewrite (bool_decide_eq_false_2 _ Hno). }
  apply orb_false_elim in Ebad as [Hlt%Z.leb_gt Hclear]. assert (in_fs fs b) as Hin by done.
  assert (b ∉ before) as Hnew by (rewrite Hm in Hclear by done; by apply bool_decide_eq_false_1 in Hclear).
  destruct (set_spec b fs b Hg Hin Hb) as [Hs _]. pose proof (same_files_count _ _ Hs) as Ec.
  assert (marks (minfs_bitmap_set b fs) (before ++ [b])) as Hm'.
  { intros j Hj. unfold in_fs in Hj. rewrite Ec in Hj. rewrite (proj2 (set_spec b fs j Hg Hin ltac:(lia))). case_decide as Ej.
    - subst. symmetry. apply bool_decide_eq_true_2, elem_of_app. right. by apply list_elem_of_singleton.
    - rewrite Hm by done. apply bool_decide_ext. rewrite elem_of_app, list_elem_of_singleton. tauto. }
  specialize (IH _ _ (same_files_geo _ _ Hs Hg) ltac:(by rewrite Ec) Hm'). rewrite Ec in IH.
  destruct (rebuild_slots direct (minfs_bitmap_set b fs)) as [[d v] fs']. destruct IH as [-> H2].
  by rewrite bool_decide_eq_true_2.
Qed.

(** The invariant on the first [k] nodes, during the scan. *)
Record scan_ok (fs : minfs) (k : nat) : Prop := {
  sc_geo : geo fs;
  sc_nodup : NoDup (all_blocks (take k (fs_nodes fs)));
  sc_range : Forall (in_fs fs) (all_blocks (take k (fs_nodes fs)));
  sc_bits : forall j, in_fs fs j -> bits fs j = bool_decide (j ∈ all_blocks (take k (fs_nodes fs)))
}.

Lemma all_blocks_snoc ns k n : ns !! k = Some n -> all_blocks (take (S k) ns) = all_blocks (take k ns) ++ file_blocks n.
Proof. intros Hk. rewrite (take_S_r _ _ _ Hk), all_blocks_app. unfold all_blocks at 2. cbn [map concat]. by rewrite app_nil_r. Qed.

Lemma rebuild_node_spec fs k n :
  scan_ok fs k -> fs_nodes fs !! k = Some n -> Forall (fun b => 0 <= b) (dn_direct n) ->
  let fs' := rebuild_node (Z.of_nat k) fs in
  scan_ok fs' (S k) /\ fs_data_block_count fs' = fs_data_block_count fs /\
  exists n', fs_nodes fs' = <[k := n']> (fs_nodes fs).
Proof.
  intros [Hg Hnd Hr Hb] Hk Hpos fs'. unfold fs', rebuild_node. rewrite (node_at_lookup fs k n Hk).
  destruct ((dn_used n =? 0) || negb (is_set (dn_type n) VFS_FILE)) eqn:Ef.
  { assert (file_blocks n = []) as En by (unfold file_blocks; by rewrite Ef). split_and!; [|done|].
    - split; rewrite ?(all_blocks_snoc _ _ _ Hk), ?En, ?app_nil_r; done.
    - exists n. by rewrite list_insert_id. }
  pose proof (rebuild_slots_spec (dn_direct n) fs Hg Hpos) as Hspec. destruct (rebuild_slots (dn_direct n) fs) as [[d v] fs1].
  destruct Hspec as (Hs & Hd1 & Hd2 & Hd3 & Hv & Hd4). cbn zeta. set (n' := with_blocks _ v d n).
  assert (file_blocks n' = filter real d) as En' by (unfold file_blocks, n'; cbn [dn_used dn_type dn_direct with_blocks]; by rewrite Ef).
  pose proof (lookup_lt_Some _ _ _ Hk) as Hlt. destruct (set_node_lookup fs fs1 k n' Hs Hlt) as [L1 L2].
  assert (fs_nodes (set_node (Z.of_nat k) n' fs1) = <[k := n']> (fs_nodes fs)) as Ens.
  { unfold set_node. cbn [fs_nodes with_nodes]. by rewrite Nat2Z.id, (sf_nodes _ _ Hs). }
  assert (fs_data_block_count (set_node (Z.of_nat k) n' fs1) = fs_data_block_count fs) as Ec by exact (same_files_count fs fs1 Hs).
  assert (all_blocks (take (S k) (fs_nodes (set_node (Z.of_nat k) n' fs1))) = all_blocks (take k (fs_nodes fs)) ++ filter real d) as Eall.
  { rewrite (all_blocks_snoc _ _ _ L1), En', Ens. by rewrite take_insert_ge by lia. }
  rewrite Forall_forall in Hd2. split_and!; [|done|].
  - split; rewrite ?Eall.
    + exact (same_files_geo fs fs1 Hs Hg).
    + apply NoDup_app. split_and!; [done| |done]. intros b Hb1 Hb2. destruct (Hd2 b Hb2) as [Hin Hc].
      rewrite Hb in Hc by done. by apply bool_decide_eq_false_1 in Hc.
    + unfold in_fs. rewrite Ec. apply Forall_app. split; [done|]. rewrite Forall_forall. intros b Hbb. by destruct (Hd2 b Hbb).
    + intros j Hj. unfold in_fs in Hj. rewrite Ec in Hj.
      change (bits fs1 j = bool_decide (j ∈ all_blocks (take k (fs_nodes fs)) ++ filter real d)).
      rewrite Hd3, Hb by (done || lia).
      destruct (decide (j ∈ all_blocks (take k (fs_nodes fs)))) as [H1|H1].
      * rewrite (bool_decide_eq_true_2 (j ∈ all_blocks _)) by done. cbn [orb]. symmetry. apply bool_decide_eq_true_2, elem_of_app. by left.
      * rewrite (bool_decide_eq_false_2 (j ∈ all_blocks _)) by done. cbn [orb]. apply bool_decide_ext. rewrite elem_of_app. tauto.
  - by exists n'.
Qed.

(** The same step against the reference. *)
Lemma rebuild_node_exact fs k n before :
  geo fs -> fs_data_block_count fs < 2 ^ 32 -> fs_nodes fs !! k = Some n -> Forall (fun b => 0 <= b) (dn_direct n) ->
  marks fs before ->
  let fs' := rebuild_node (Z.of_nat k) fs in
  fs_nodes fs' = <[k := recover_node (fs_data_block_count fs) before n]> (fs_nodes fs) /\ marks fs' (before ++ slots n).
Proof.
  intros Hg Hw Hk Hpos Hm fs'. unfold fs', rebuild_node, recover_node, slots. rewrite (node_at_lookup fs k n Hk).
  destruct ((dn_used n =? 0) || negb (is_set (dn_type n) VFS_FILE)).
  { rewrite app_nil_r. by rewrite list_insert_id. }
  pose proof (rebuild_slots_spec (dn_direct n) fs Hg Hpos) as Hspec.
  pose proof (rebuild_slots_exact (dn_direct n) fs before Hg Hw Hpos Hm) as Hex.
  destruct (rebuild_slots (dn_direct n) fs) as [[d v] fs1]. destruct Hspec as (Hs & _ & _ & _ & Hv & _). destruct Hex as [-> Hm1].
  cbn zeta. split; [|exact Hm1].
  unfold set_node. cbn [fs_nodes with_nodes]. rewrite Nat2Z.id, (sf_nodes _ _ Hs), <- Hv. do 2 f_equal.
  destruct (Z.ltb_spec (u32 (v * MINFS_BLOCK_SIZE)) (dn_size n)); lia.
Qed.

Lemma rebuild_nodes_spec m fs k before :
  scan_ok fs k -> fs_data_block_count fs < 2 ^ 32 -> marks fs before -> (k + m = length (fs_nodes fs))%nat ->
  Forall (fun n => Forall (fun b => 0 <= b) (dn_direct n)) (drop k (fs_nodes fs)) ->
  let fs' := rebuild_nodes m (Z.of_nat k) fs in
  scan_ok fs' (k + m) /\ fs_data_block_count fs' = fs_data_block_count fs /\
  fs_nodes fs' = take k (fs_nodes fs) ++ recover_table (fs_data_block_count fs) before (drop k (fs_nodes fs)).
Proof.
  revert fs k before. induction m as [|m IH]; intros fs k before Hsc Hw Hm Hl Hpos; cbn [rebuild_nodes].
  { rewrite Nat.add_0_r. split_and!; [done|done|]. rewrite drop_ge, take_ge by lia. unfold recover_table. cbn. by rewrite app_nil_r. }
  destruct (lookup_lt_is_Some_2 (fs_nodes fs) k ltac:(lia)) as [n Hn]. rewrite (drop_S _ _ _ Hn) in *. apply Forall_cons in Hpos as [Hp0 Hpos].
  destruct (rebuild_node_spec fs k n Hsc Hn Hp0) as (Hsc1 & Hc1 & _).
  destruct (rebuild_node_exact fs k n before (sc_geo _ _ Hsc) Hw Hn Hp0 Hm) as [En Hm1]. set (fs1 := rebuild_node _ fs) in *.
  replace (Z.of_nat k + 1) with (Z.of_nat (S k)) by lia. rewrite recover_table_cons.
  set (n' := recover_node _ _ n) in *. pose proof (lookup_lt_Some _ _ _ Hn) as Hlt.
  destruct (IH fs1 (S k) (before ++ slots n) Hsc1) as (Hsc2 & Hc2 & Ht2); [by rewrite Hc1|exact Hm1| | |].
  { rewrite En, length_insert. lia. }
  { rewrite En. by rewrite drop_insert_lt by lia. }
  rewrite Hc1 in *. split_and!; [by replace (k + S m)%nat with (S k + m)%nat by lia|done|].
  rewrite Ht2, En, drop_insert_lt by lia.
  rewrite (take_S_r (<[k := n']> (fs_nodes fs)) k n') by (by apply list_lookup_insert_eq).
  rewrite take_insert_ge by lia. by rewrite <- app_assoc.
Qed.

(** C29: Recovery makes any node table consistent, on a disk whose bitmap has
    a bit for every data block (mounting does not check that:
    [super_valid_bitmap_too_small]). After [minfs_rebuild_bitmap_from_nodes]
    no block has two owners, every owned block lies on the device and the
    bitmap marks exactly the owned blocks; and the table is the reference's:
    a file's slot stays exactly when its block exists and no slot before it,
    in this file or an earlier one, names the block, the other slots are
    cleared, the block count is the number of slots left, the size is cut to
    what they hold, and nothing else of any node changes. Gaps stay
    ([rebuild_leaves_gap]). *)
Theorem rebuild_correct fs :
  geo fs -> fs_data_block_count fs < 2 ^ 32 -> length (fs_nodes fs) = Z.to_nat (fs_total_nodes fs) ->
  Forall (fun n => Forall (fun b => 0 <= b) (dn_direct n)) (fs_nodes fs) ->
  alloc_ok (minfs_rebuild_bitmap_from_nodes fs) /\
  fs_nodes (minfs_rebuild_bitmap_from_nodes fs) = recover_table (fs_data_block_count fs) [] (fs_nodes fs).
Proof.
  intros Hg Hw Hl Hpos. unfold minfs_rebuild_bitmap_from_nodes. set (fs0 := with_bitmap _ _ fs).
  assert (marks fs0 []) as Hm0.
  { intros j Hj. rewrite bits_testbit by done. unfold bit_byte, fs0. cbn [fs_bitmap with_bitmap].
      assert (replicate (length (fs_bitmap fs)) 0 !!! Z.to_nat (j / 8) = 0) as ->.
      { apply lookup_total_replicate_2. destruct Hj as [Hj0 Hj1]. change (fs_data_block_count fs0) with (fs_data_block_count fs) in Hj1.
        unfold geo, zlen in Hg. assert (0 <= j / 8 < Z.of_nat (length (fs_bitmap fs))) as Hj8 by zlia. clear -Hj8. lia. }
      rewrite Z.testbit_0_l. symmetry. apply bool_decide_eq_false_2, not_elem_of_nil. }
  assert (scan_ok fs0 0) as H0.
  { split; [|apply NoDup_nil_2|constructor|exact Hm0].
    unfold geo, fs0 in *. cbn [fs_bitmap with_bitmap]. unfold zlen in *. by rewrite length_replicate. }
  destruct (rebuild_nodes_spec (Z.to_nat (fs_total_nodes fs)) fs0 0 [] H0) as (Hsc & Hc & Hf); [done..|].
  change (Z.of_nat 0) with 0 in *. rewrite take_0, drop_0 in Hf. set (fs' := rebuild_nodes _ 0 fs0) in *. cbn [Nat.add app] in Hsc, Hf.
  assert (length (fs_nodes fs') = Z.to_nat (fs_total_nodes fs)) as Hl' by (rewrite Hf; unfold recover_table; by rewrite length_imap).
  destruct Hsc as [S1 S2 S3 S4]. rewrite take_ge in S2, S3 by lia. split; [split|exact Hf]; try done.
  - by rewrite Hc.
  - intros j Hj. rewrite S4 by done. by rewrite take_ge by lia.
Qed.

(** ** A concrete device and file system *)

(** A disk of 300 sectors kept as a map, device 0. *)
Abbreviation sectors_map := (gmap Z (list Z)).
Definition zero_sector : list Z := replicate 512 0.
Definition sector_of (d : sectors_map) (l : Z) : list Z := default zero_sector (d !! l).
Fixpoint read_sectors (n : nat) (l : Z) (d : sectors_map) : list Z :=
  match n with O => [] | S n => sector_of d l ++ read_sectors n (l + 1) d end.
Fixpoint write_sectors (n : nat) (l : Z) (bytes : list Z) (d : sectors_map) : sectors_map :=
  match n with O => d | S n => write_sectors n (l + 1) (drop 512 bytes) (<[l := take 512 bytes]> d) end.
Definition ram_device : block_device := mk_dev 0 [100] 512 300 0 0 None None.

#[export] Instance ram_store : BlockStore sectors_map := {
  bs_count _ := 1;
  bs_get i _ := if i =? 0 then Some ram_device else None;
  bs_read i l n d := if (i =? 0) && (l + n <=? 300) then (0, read_sectors (Z.to_nat n) l d, d) else (-1, [], d);
  bs_write i l n bytes d := if (i =? 0) && (l + n <=? 300) then (0, write_sectors (Z.to_nat n) l bytes d) else (-1, d);
  bs_flush i d := (0, d)
}.

Abbreviation disk_state := (minfs_state sectors_map).
Definition fs_drivers : Z -> vtable disk_state :=
  Ramfs.kernel_drivers RamfsSpec.always (fun s => s) 1 (fun ops => if ops =? OPS_MINFS then minfs_vtable RamfsSpec.always else
    mk_vtable None None None None None None None None).
Definition cold : vfs disk_state :=
  mk_vfs NULL (replicate VFS_MAX_MOUNTS no_mount) ∅ ∅ [mk_task 0 0 (replicate TASK_MAX_FDS no_fd)] (Some 0%nat) 1 0 (mk_state [] ∅).

Definition path_f : list Z := [47; 109; 110; 116; 47; 100; 47; 102]. (* "/mnt/d/f" *)
Definition path_g : list Z := [47; 109; 110; 116; 47; 100; 47; 103]. (* "/mnt/d/g" *)
Definition boot : M disk_state Z :=
  Ramfs.ramfs_initialize RamfsSpec.always;;;
  let! rc := minfs_format RamfsSpec.always 5 0 in
  if rc <? 0 then ret rc else minfs_mount RamfsSpec.always fs_drivers 0 None.
Definition ready_disk : vfs disk_state := RamfsSpec.after boot cold.

(** Create a file and return its node. *)
Definition make (path : list Z) : M disk_state Z :=
  vfs_create_path fs_drivers 10 (Some path) VFS_FILE;;; vfs_namei fs_drivers 10 (Some path).

(** Writing a secret, deleting the file, then writing one byte past the
    start of a new one. *)
Definition leak_session : M disk_state (Z * list Z) :=
  let! f := make path_f in
  vfs_write fs_drivers f 0 (replicate 512 83);;;
  vfs_unlink_path fs_drivers 10 (Some path_f);;;
  let! g := make path_g in
  vfs_write fs_drivers g 600 [1];;;
  vfs_read fs_drivers g 0 4.

(** A write beyond the end of a file allocates the blocks in between
    without clearing them: reading the gap of a fresh file returns the bytes
    of a deleted one. *)
Theorem gap_exposes_deleted_data :
  exists s, leak_session ready_disk = Ret (4, [83; 83; 83; 83]) s.
Proof. eexists. vm_compute. reflexivity. Qed.

(** Format, mount, create, write across a block boundary, read back. *)
Definition roundtrip_session : M disk_state (Z * (Z * list Z)) :=
  let! f := make path_f in
  let! n := vfs_write fs_drivers f 0 (seqZ 1 700) in
  let! r := vfs_read fs_drivers f 510 5 in
  ret (n, r).
Example disk_file_roundtrip : exists s, roundtrip_session ready_disk = Ret (700, (5, [511; 512; 513; 514; 515])) s.
Proof. eexists. vm_compute. reflexivity. Qed.

(** ** Witnesses *)

Definition small_super : minfs_superblock_disk :=
  mk_super MINFS_MAGIC MINFS_VERSION 2 512 65536 1 3 4 1 5 8 MINFS_RECOVERY_CLEAN 0 (replicate 115 0).
Definition small_file : minfs_disk_node :=
  mk_dnode 1 VFS_FILE 0 100 0 1 (name_field [102]) (3 :: replicate 127 MINFS_BLOCK_NONE).
Definition small_fs : minfs := mk_minfs 0 small_super [fresh_root; small_file] (8 :: replicate 511 0) [false] [NULL; NULL].

Lemma small_blocks : all_blocks (fs_nodes small_fs) = [3].
Proof. by vm_compute. Qed.
Lemma small_fs_ok : alloc_ok small_fs.
Proof.
  split; rewrite ?small_blocks; [done|done|apply NoDup_singleton|by apply Forall_singleton|].
  intros j [Hj0 Hj1]. change (fs_data_block_count small_fs) with 8 in Hj1.
  assert (j = 0 \/ j = 1 \/ j = 2 \/ j = 3 \/ j = 4 \/ j = 5 \/ j = 6 \/ j = 7) as Hj by lia.
  destruct_or! Hj; subst; by vm_compute.
Qed.
Lemma small_file_dense : dense small_file [3].
Proof. split; [done..|simpl; lia|by apply Forall_singleton]. Qed.

Lemma disk_format_roundtrip_witness :
  decode_super (encode_super small_super) = small_super /\ length (encode_super small_super) = 512%nat /\
  decode_table (length [small_file]) (encode_table [small_file] ++ [0]) = [small_file] /\
  length (encode_table [small_file]) = (592 * length [small_file])%nat.
Proof.
  apply (disk_format_roundtrip small_super [small_file] [0]).
  - split; [|split; [done|by apply Forall_replicate]]. unfold small_super, is_word.
    cbn [magic version total_nodes block_size max_file_bytes node_table_start node_table_sectors bitmap_start
        bitmap_sectors data_start_sector data_block_count recovery_state recovery_seq].
    repeat (apply Forall_cons; split; [done|]). constructor.
  - apply Forall_singleton. split; try done; [repeat (apply Forall_cons; split; [done|]); constructor|].
    split; [done|]. apply Forall_cons. split; [done|]. by apply Forall_replicate.
Defined.

Lemma format_layout_correct_witness :
  ((300 - 150) mod 4097 = 0 -> forall fuel, format_layout fuel 300 1 = None) /\
  ((300 - 150) mod 4097 <> 0 -> exists b start blocks,
     format_layout 5 300 1 = Some (Some (b, start, blocks)) /\ start + blocks = 300 /\ start = 149 + b /\
     4096 * (b - 1) < blocks <= 4096 * b /\
     minfs_super_is_valid (fresh_super b start blocks) ram_device = true /\ super_ok (fresh_super b start blocks)).
Proof. apply (format_layout_correct 300 ram_device); [lia|done|done]. Defined.

Lemma ensure_file_blocks_correct_witness :
  exists fs' new n', minfs_ensure_file_blocks (Z.of_nat 1) 4 small_fs = (0, fs') /\ alloc_ok fs' /\
    fs_nodes fs' !! 1%nat = Some n' /\ dense n' ([3] ++ new) /\ zlen ([3] ++ new) = 4.
Proof.
  pose proof (ensure_file_blocks_correct small_fs 1 small_file [3] 4 small_fs_ok eq_refl small_file_dense ltac:(lia)) as H.
  assert ((minfs_ensure_file_blocks (Z.of_nat 1) 4 small_fs).1 = 0) as E by (by vm_compute).
  destruct (minfs_ensure_file_blocks (Z.of_nat 1) 4 small_fs) as [rc fs']. cbn [fst] in E. subst rc.
  destruct H as (Hok & _ & [(_ & new & n' & Hn & Hd & Hl & _)|[? _]]); [|done]. exists fs', new, n'.
  split; [reflexivity|]. split; [exact Hok|]. split; [exact Hn|]. split; [exact Hd|]. rewrite Hl. reflexivity.
Defined.

Lemma release_file_blocks_correct_witness :
  alloc_ok (minfs_release_file_blocks (Z.of_nat 1) small_fs).
Proof. apply (release_file_blocks_correct small_fs 1 small_file); [exact small_fs_ok|done|done]. Defined.

(** A second file that claims the first one's block, its own block twice, a
    block beyond the device and one more of its own. *)
Definition claiming_file : minfs_disk_node :=
  mk_dnode 1 VFS_FILE 0 5000 0 5 (name_field [103]) (3 :: 4 :: 4 :: 5000 :: 6 :: replicate 123 MINFS_BLOCK_NONE).
Definition claimed_fs : minfs :=
  mk_minfs 0 (mk_super MINFS_MAGIC MINFS_VERSION 3 512 65536 1 4 5 1 6 8 MINFS_RECOVERY_DIRTY 0 (replicate 115 0))
    [fresh_root; small_file; claiming_file] (replicate 512 255) [false] [NULL; NULL; NULL].
Lemma rebuild_correct_witness :
  alloc_ok (minfs_rebuild_bitmap_from_nodes claimed_fs) /\
  (exists f, fs_nodes (minfs_rebuild_bitmap_from_nodes claimed_fs) = [fresh_root; small_file; f] /\
     take 5 (dn_direct f) = [MINFS_BLOCK_NONE; 4; MINFS_BLOCK_NONE; MINFS_BLOCK_NONE; 6] /\
     dn_block_count f = 2 /\ dn_size f = 1024) /\
  map (bits (minfs_rebuild_bitmap_from_nodes claimed_fs)) [0; 1; 2; 3; 4; 5; 6; 7] =
    [false; false; false; true; true; false; true; false].
Proof.
  destruct (rebuild_correct claimed_fs) as [Hok Ht]; [done|done|done| |].
  - apply Forall_cons. split; [by apply Forall_replicate|]. apply Forall_cons. split.
    + apply Forall_cons. split; [done|]. by apply Forall_replicate.
    + apply Forall_singleton. do 5 (apply Forall_cons; split; [done|]). by apply Forall_replicate.
  - split; [exact Hok|]. split; [|by vm_compute]. rewrite Ht. eexists. by vm_compute.
Defined.

(** Recovery counts a file's blocks but does not close gaps: a file whose
    first slot is invalid keeps its second block in the second slot with a
    block count of one, so reads of that block return zeros and the next
    extension overwrites the slot. *)
Definition torn_file : minfs_disk_node :=
  mk_dnode 1 VFS_FILE 0 1024 0 2 (name_field [102]) (99 :: 5 :: replicate 126 MINFS_BLOCK_NONE).
Example rebuild_leaves_gap :
  let fs := minfs_rebuild_bitmap_from_nodes (with_nodes [fresh_root; torn_file] small_fs) in
  dn_block_count (node_at fs 1) = 1 /\ take 2 (dn_direct (node_at fs 1)) = [MINFS_BLOCK_NONE; 5] /\
  direct_at (node_at (minfs_ensure_file_blocks 1 2 fs).2 1) 1 = 0 /\ bits (minfs_ensure_file_blocks 1 2 fs).2 5 = true.
Proof. by vm_compute. Qed.

End MinfsSpec.
