(* ===== verification/Fat32.v ===== *)
(** * The FAT32 file system ([kernel/fat32.c])

    A driver of the virtual file system over the block layer: the allocation
    table is held in memory as the bytes read at mount time and written
    through, directories are chains of clusters of 32-byte entries. [Module
    Fat32] translates the whole driver. Mount structures and the records
    behind nodes are heap objects, kept in two stores by address; a buffer is
    a list of bytes, an access past its end is [Undef]. The block layer is the
    interface [BlockStore], heap requests succeed as [serves] says, and
    [junk n] is what a block of [n] bytes holds when it is handed out. *)

From S2P Require Import Prelude Ring BlockDev VfsPath Vfs Minfs.

Module Fat32.
Import VfsPath Vfs BlockDev.

Definition FAT32_MAGIC_BYTE_510 : Z := 0x55.
Definition FAT32_MAGIC_BYTE_511 : Z := 0xAA.
Definition FAT32_PARTITION_TYPE_FAT32_LBA : Z := 0x0C.
Definition FAT32_PARTITION_TYPE_FAT32_CHS : Z := 0x0B.
Definition FAT_ENTRY_FREE : Z := 0.
Definition FAT_ENTRY_BAD_CLUSTER : Z := 0x0FFFFFF7.
Definition FAT_ENTRY_EOF_MARKER : Z := 0x0FFFFFF8.
Definition FAT_ENTRY_EOF_END : Z := 0x0FFFFFFF.
Definition FAT32_MAX_MOUNTS : Z := 4.
Definition FAT32_CLUSTER_CHAIN_MAX : nat := Z.to_nat 100000.
Definition FAT_ATTR_READ_ONLY : Z := 0x01.
Definition FAT_ATTR_DIRECTORY : Z := 0x10.
Definition FAT_ATTR_ARCHIVE : Z := 0x20.
Definition FAT_ATTR_LFN : Z := 0x0F.
Definition SIZEOF_DIR_ENTRY : Z := 32.
Definition OPS_FAT32 : Z := 4.

(** ** Characters and names *)

Definition tolower (c : Z) : Z := if (65 <=? c) && (c <=? 90) then c + 32 else c.
Definition toupper (c : Z) : Z := if (97 <=? c) && (c <=? 122) then c - 32 else c.

(** Strings without their terminating NUL. *)
Fixpoint fat32_stricmp (a b : list Z) : Z :=
  match a, b with
  | x :: a, y :: b => if negb (tolower x =? tolower y) then tolower x - tolower y else fat32_stricmp a b
  | _, _ => tolower (hd 0 a) - tolower (hd 0 b)
  end.

(** The loop over the eight characters of the name. *)
Fixpoint format_base (l : list Z) : list Z :=
  match l with
  | [] => []
  | c :: l => if c =? 32 then [] else (if c =? 0x05 then 0xE5 else tolower c) :: format_base l
  end.
Fixpoint format_ext (l : list Z) : list Z :=
  match l with [] => [] | c :: l => if c =? 32 then [] else tolower c :: format_ext l end.
(** [out_size] is 64 at every call, so the 13 characters always fit. The
    result is what a reader of the C string sees. *)
Definition fat32_format_filename (name ext : list Z) : list Z :=
  Minfs.c_string (format_base name ++ (if existsb (fun c => negb (c =? 32)) ext then 46 :: format_ext ext else [])).

(** [strrchr(name, '.')]: what precedes the last dot and what follows it. *)
Fixpoint split_dot (l : list Z) : option (list Z * list Z) :=
  match l with
  | [] => None
  | c :: l =>
      match split_dot l with
      | Some (a, b) => Some (c :: a, b)
      | None => if c =? 46 then Some ([], l) else None
      end
  end.
Definition bad_char (c : Z) : bool := (c =? 32) || (c =? 47) || (c =? 92).
Definition pad_to (n : nat) (l : list Z) : list Z := l ++ replicate (n - length l) 32.
(** The 8.3 form, or [None] for -1. *)
Definition short_name (name : list Z) : option (list Z * list Z) :=
  let '(base, ext) := match split_dot name with Some p => p | None => (name, []) end in
  if (zlen base =? 0) || (8 <? zlen base) || (3 <? zlen ext) then None
  else if existsb bad_char base || existsb bad_char ext then None
  else Some (pad_to 8 (map toupper base), pad_to 3 (map toupper ext)).

Definition fat32_mode_from_attr (type attr : Z) : Z :=
  if is_set type VFS_DIRECTORY then 0x1FF
  else if is_set attr FAT_ATTR_READ_ONLY then Z.land 0x1B6 (Z.lnot 0x92) else 0x1B6.

(** ** Directory entries, by their offsets in a cluster *)

Definition half_at (off : Z) (l : list Z) : Z := le_combine (slice off 2 l).
Definition byte_at (off : Z) (l : list Z) : Z := l !!! Z.to_nat off.
Definition ent_name (buf : list Z) (o : Z) : list Z := slice o 8 buf.
Definition ent_ext (buf : list Z) (o : Z) : list Z := slice (o + 8) 3 buf.
Definition ent_attr (buf : list Z) (o : Z) : Z := byte_at (o + 11) buf.
Definition ent_first (buf : list Z) (o : Z) : Z := byte_at o buf.
Definition ent_cluster (buf : list Z) (o : Z) : Z := Z.lor (u32 (Z.shiftl (half_at (o + 20) buf) 16)) (half_at (o + 26) buf).
Definition ent_size (buf : list Z) (o : Z) : Z := Minfs.word_at (o + 28) buf.
Definition put_cluster_size (o cluster size : Z) (buf : list Z) : list Z :=
  splice (o + 28) (le_split 4 size) (splice (o + 26) (le_split 2 (Z.land cluster 0xFFFF))
    (splice (o + 20) (le_split 2 (Z.land (Z.shiftr cluster 16) 0xFFFF)) buf)).
(** A fresh entry. *)
Definition new_entry (sn : list Z * list Z) : list Z := sn.1 ++ sn.2 ++ [FAT_ATTR_ARCHIVE] ++ replicate 20 0.

(** ** Mounts *)

Record fat32_mount_t := mk_fat {
  dev_index : Z; bytes_per_sector : Z; sectors_per_cluster : Z; bytes_per_cluster : Z; num_fats : Z; root_cluster : Z;
  fat_start_sector : Z; sectors_per_fat : Z; data_start_sector : Z; total_clusters : Z;
  fat_table : option (list Z);
  root_node : Z
}.
Definition with_table t fs := mk_fat (dev_index fs) (bytes_per_sector fs) (sectors_per_cluster fs) (bytes_per_cluster fs) (num_fats fs) (root_cluster fs)
  (fat_start_sector fs) (sectors_per_fat fs) (data_start_sector fs) (total_clusters fs) t (root_node fs).
Definition with_root r fs := mk_fat (dev_index fs) (bytes_per_sector fs) (sectors_per_cluster fs) (bytes_per_cluster fs) (num_fats fs) (root_cluster fs)
  (fat_start_sector fs) (sectors_per_fat fs) (data_start_sector fs) (total_clusters fs) (fat_table fs) r.

Record fat32_node_impl_t := mk_impl { i_fs : Z; i_cluster : Z; i_dir_entry_cluster : Z; i_dir_entry_offset : Z }.

Record fat_state (D : Type) := mk_state {
  g_mounts : list Z;
  fat_mounts : gmap Z fat32_mount_t;
  fat_impls : gmap Z fat32_node_impl_t;
  fat_next_inode : Z;
  fat_disk : D
}.
#[global] Arguments mk_state {D}.
#[global] Arguments g_mounts {D}.
#[global] Arguments fat_mounts {D}.
#[global] Arguments fat_impls {D}.
#[global] Arguments fat_next_inode {D}.
#[global] Arguments fat_disk {D}.

(** ** The table in memory *)

Definition raw_entry (t : list Z) (c : Z) : Z := Minfs.word_at (4 * c) t.
Definition fat_value (t : list Z) (c : Z) : Z := Z.land (raw_entry t c) 0x0FFFFFFF.
Definition put_raw (c v : Z) (t : list Z) : list Z := splice (4 * c) (le_split 4 v) t.

Definition fat32_cluster_to_lba (fs : fat32_mount_t) (cluster : Z) : Z :=
  if cluster <? 2 then 0 else data_start_sector fs + (cluster - 2) * sectors_per_cluster fs.

(** 0: no successor. *)
Definition fat32_get_next_cluster (fs : fat32_mount_t) (cluster : Z) : Z :=
  match fat_table fs with
  | None => 0
  | Some t =>
      if cluster <? 2 then 0
      else if total_clusters fs <=? cluster then 0
      else
        let next := fat_value t cluster in
        if FAT_ENTRY_EOF_MARKER <=? next then 0 else if FAT_ENTRY_BAD_CLUSTER <=? next then 0 else next
  end.

Fixpoint find_free (n : nat) (c : Z) (t : list Z) (root : Z) : Z :=
  match n with
  | O => 0
  | S n => if c =? root then find_free n (c + 1) t root else if fat_value t c =? FAT_ENTRY_FREE then c else find_free n (c + 1) t root
  end.
Definition fat32_find_free_cluster (fs : fat32_mount_t) : Z :=
  match fat_table fs with None => 0 | Some t => find_free (Z.to_nat (total_clusters fs - 2)) 2 t (root_cluster fs) end.

(** ** Formatting arithmetic *)

Definition fat32_pick_sectors_per_cluster (total_sectors : Z) : Z :=
  if total_sectors <? 262144 then 1 else if total_sectors <? 524288 then 2 else if total_sectors <? 1048576 then 4
  else if total_sectors <? 2097152 then 8 else if total_sectors <? 4194304 then 16 else 32.

Fixpoint calc_spf (n : nat) (spf total reserved fats spc bps : Z) : Z :=
  match n with
  | O => spf
  | S n =>
      let overhead := u32 (reserved + u32 (fats * spf)) in
      if total <=? overhead then 0
      else
        let cluster_count := (total - overhead) / spc in
        let fat_bytes := u32 (u32 (cluster_count + 2) * 4) in
        let next_spf := u32 (u32 (fat_bytes + bps) - 1) / bps in
        if next_spf =? 0 then 0 else if next_spf =? spf then spf else calc_spf n next_spf total reserved fats spc bps
  end.
Definition fat32_calc_sectors_per_fat (total reserved fats spc bps : Z) : Z := calc_spf 16 1 total reserved fats spc bps.

(** ** The boot sector *)

(** Reading the fields the driver looks at. *)
Definition boot_bytes_per_sector (b : list Z) : Z := half_at 11 b.
Definition boot_sectors_per_cluster (b : list Z) : Z := byte_at 13 b.
Definition boot_reserved_sectors (b : list Z) : Z := half_at 14 b.
Definition boot_num_fats (b : list Z) : Z := byte_at 16 b.
Definition boot_root_entries (b : list Z) : Z := half_at 17 b.
Definition boot_total_sectors_16 (b : list Z) : Z := half_at 19 b.
Definition boot_sectors_per_fat_16 (b : list Z) : Z := half_at 22 b.
Definition boot_sectors_per_fat_32 (b : list Z) : Z := Minfs.word_at 36 b.
Definition boot_root_cluster (b : list Z) : Z := Minfs.word_at 44 b.

(** The result code and the mount with the geometry stored so far. *)
Definition fat32_parse_boot_sector (fs : fat32_mount_t) (b : list Z) : Z * fat32_mount_t :=
  if negb (byte_at 510 b =? FAT32_MAGIC_BYTE_510) || negb (byte_at 511 b =? FAT32_MAGIC_BYTE_511) then (-2, fs)
  else if negb (boot_root_entries b =? 0) then (-3, fs)
  else if negb (boot_sectors_per_fat_16 b =? 0) then (-4, fs)
  else if negb (boot_total_sectors_16 b =? 0) then (-5, fs)
  else
    let bps := boot_bytes_per_sector b in
    let spc := boot_sectors_per_cluster b in
    let nf := boot_num_fats b in
    let rc := boot_root_cluster b in
    let fs1 := mk_fat (dev_index fs) bps spc (u32 (bps * spc)) nf rc (boot_reserved_sectors b) (sectors_per_fat fs)
                 (u32 (boot_reserved_sectors b + u32 (nf * boot_sectors_per_fat_32 b))) (total_clusters fs) (fat_table fs) (root_node fs) in
    if (bps =? 0) || (4096 <? bps) then (-6, fs)
    else if (spc =? 0) || (128 <? spc) then (-7, fs)
    else if 32768 <? u32 (bps * spc) then (-8, fs)
    else if (nf =? 0) || (2 <? nf) then (-9, fs)
    else if rc <? 2 then (-10, fs)
    else (0, fs1).

Section driver.
Context {D : Type} `{!BlockStore D} (serves : nat -> bool) (junk : Z -> list Z).
Abbreviation ME := (M (fat_state D)).
Implicit Types s : vfs (fat_state D).

Definition set_ext (e : fat_state D) s : vfs (fat_state D) :=
  mk_vfs (vfs_root s) (vfs_mounts s) (nodes s) (pipes s) (tasks s) (current s) (next_inode s) (allocs s) e.
Definition mod_ext (f : fat_state D -> fat_state D) : ME unit := modify (fun s => set_ext (f (ext s)) s).

Definition get_fs (p : Z) : ME fat32_mount_t := fun s => match fat_mounts (ext s) !! p with Some fs => Ret fs s | None => Undef end.
Definition set_mount (p : Z) (fs : fat32_mount_t) (e : fat_state D) : fat_state D :=
  mk_state (g_mounts e) (<[p := fs]> (fat_mounts e)) (fat_impls e) (fat_next_inode e) (fat_disk e).
Definition put_fs (p : Z) (fs : fat32_mount_t) : ME unit := mod_ext (set_mount p fs).
Definition free_fs (p : Z) : ME unit := mod_ext (fun e => mk_state (g_mounts e) (delete p (fat_mounts e)) (fat_impls e) (fat_next_inode e) (fat_disk e)).
Definition get_impl (p : Z) : ME fat32_node_impl_t := fun s => match fat_impls (ext s) !! p with Some i => Ret i s | None => Undef end.
Definition put_impl (p : Z) (i : fat32_node_impl_t) : ME unit :=
  mod_ext (fun e => mk_state (g_mounts e) (fat_mounts e) (<[p := i]> (fat_impls e)) (fat_next_inode e) (fat_disk e)).
Definition set_disk (d : D) (e : fat_state D) : fat_state D := mk_state (g_mounts e) (fat_mounts e) (fat_impls e) (fat_next_inode e) d.
Definition device {A} (f : D -> A * D) : ME A := fun s =>
  let '(a, d) := f (fat_disk (ext s)) in Ret a (set_ext (set_disk d (ext s)) s).
Definition look {A} (f : D -> A) : ME A := fun s => Ret (f (fat_disk (ext s))) s.

(** ** Sectors and clusters *)

(** [blockdev_read(dev, lba, 1, buffer + off)]: the result and the buffer. *)
Definition read_sector (dev lba off : Z) (buffer : list Z) : ME (Z * list Z) :=
  let! r := device (bs_read dev lba 1) in
  if r.1 <? 0 then ret (r.1, buffer)
  else if zlen buffer <? off + zlen r.2 then fun _ => Undef
  else ret (r.1, splice off r.2 buffer).
(** [blockdev_write(dev, lba, 1, buffer + off)]: the device takes one of its
    blocks from there. *)
Definition write_sector (dev lba off : Z) (buffer : list Z) : ME Z :=
  let! d := look (bs_get dev) in
  match d with
  | None => device (bs_write dev lba 1 [])
  | Some d =>
      if zlen buffer <? off + dev_block_size d then fun _ => Undef
      else device (bs_write dev lba 1 (slice off (dev_block_size d) buffer))
  end.

(** [n] sectors, from number [i] on. *)
Fixpoint read_sectors (n : nat) (dev lba bps i : Z) (buffer : list Z) : ME (Z * list Z) :=
  match n with
  | O => ret (0, buffer)
  | S n =>
      let! r := read_sector dev (lba + i) (u32 (i * bps)) buffer in
      if r.1 <? 0 then ret (-1, r.2) else read_sectors n dev lba bps (i + 1) r.2
  end.
Fixpoint write_sectors (n : nat) (dev lba bps i : Z) (buffer : list Z) : ME Z :=
  match n with
  | O => ret 0
  | S n =>
      let! rc := write_sector dev (lba + i) (u32 (i * bps)) buffer in
      if rc <? 0 then ret (-1) else write_sectors n dev lba bps (i + 1) buffer
  end.

Definition fat32_read_cluster (fs : fat32_mount_t) (cluster : Z) (buffer : list Z) : ME (Z * list Z) :=
  if cluster <? 2 then ret (-1, buffer)
  else read_sectors (Z.to_nat (sectors_per_cluster fs)) (dev_index fs) (fat32_cluster_to_lba fs cluster) (bytes_per_sector fs) 0 buffer.
Definition fat32_write_cluster (fs : fat32_mount_t) (cluster : Z) (buffer : list Z) : ME Z :=
  if cluster <? 2 then ret (-1)
  else write_sectors (Z.to_nat (sectors_per_cluster fs)) (dev_index fs) (fat32_cluster_to_lba fs cluster) (bytes_per_sector fs) 0 buffer.

(** ** The allocation table *)

(** Copy number [fat] and the [n - 1] after it. *)
Fixpoint flush_copies (n : nat) (fs : fat32_mount_t) (t : list Z) (fat sector : Z) : ME Z :=
  match n with
  | O => ret 0
  | S n =>
      let! rc := write_sector (dev_index fs) (fat_start_sector fs + fat * sectors_per_fat fs + sector) (u32 (sector * bytes_per_sector fs)) t in
      if rc <? 0 then ret (-1) else flush_copies n fs t (fat + 1) sector
  end.
Definition fat32_flush_fat_sector (fs : fat32_mount_t) (sector : Z) : ME Z :=
  match fat_table fs with
  | None => ret (-1)
  | Some t => if sectors_per_fat fs <=? sector then ret (-1) else flush_copies (Z.to_nat (num_fats fs)) fs t 0 sector
  end.

Definition fat32_set_fat_entry (p cluster value : Z) : ME Z :=
  let! fs := get_fs p in
  match fat_table fs with
  | None => ret (-1)
  | Some t =>
      if (cluster <? 2) || (total_clusters fs <=? cluster) then ret (-1)
      else
        let fs := with_table (Some (put_raw cluster (Z.lor (Z.land (raw_entry t cluster) 0xF0000000) (Z.land value 0x0FFFFFFF)) t)) fs in
        put_fs p fs;;;
        fat32_flush_fat_sector fs (u32 (cluster * 4) / bytes_per_sector fs)
  end.

(** The result and the cluster ([*out_cluster], on success). *)
Definition fat32_alloc_and_link_cluster (p prev_cluster : Z) : ME (Z * Z) :=
  let! fs := get_fs p in
  let c := fat32_find_free_cluster fs in
  if c =? 0 then ret (-1, 0)
  else
    let! rc := fat32_set_fat_entry p c FAT_ENTRY_EOF_END in
    if rc <? 0 then ret (-1, 0)
    else
      let! zero_buf := kalloc serves in
      if zero_buf =? NULL then ret (-1, 0)
      else
        let! rc := fat32_write_cluster fs c (replicate (Z.to_nat (bytes_per_cluster fs)) 0) in
        if rc <? 0 then ret (-1, 0)
        else
          let! rc := (if 2 <=? prev_cluster then fat32_set_fat_entry p prev_cluster c else ret 0) in
          if rc <? 0 then ret (-1, 0) else ret (0, c).

(** [while (current >= 2 && current < total_clusters && guard++ < MAX)] *)
Fixpoint release_loop (n : nat) (p current : Z) : ME Z :=
  match n with
  | O => ret 0
  | S n =>
      let! fs := get_fs p in
      if negb ((2 <=? current) && (current <? total_clusters fs)) then ret 0
      else if current =? root_cluster fs then ret (-1)
      else
        let next := fat32_get_next_cluster fs current in
        let! rc := fat32_set_fat_entry p current FAT_ENTRY_FREE in
        if rc <? 0 then ret (-1) else if next =? 0 then ret 0 else release_loop n p next
  end.
Definition fat32_release_cluster_chain (p first_cluster : Z) : ME Z :=
  let! fs := get_fs p in
  match fat_table fs with
  | None => ret (-1)
  | Some _ => if first_cluster <? 2 then ret 0 else release_loop FAT32_CLUSTER_CHAIN_MAX p first_cluster
  end.

(** ** Nodes *)

(** The node, the address of its record and the record; [None] when the
    record or its mount is the null pointer. *)
Definition node_impl (node : Z) : ME (option (vfs_node * Z * fat32_node_impl_t)) :=
  if node =? NULL then ret None
  else
    let! n := deref node in
    match n_impl n with
    | impl_ext p =>
        if p =? NULL then ret None
        else let! i := get_impl p in ret (if i_fs i =? NULL then None else Some (n, p, i))
    | _ => ret None
    end.

Definition fat32_sync_node_metadata (node : Z) : ME Z :=
  let! o := node_impl node in
  match o with
  | None => ret (-1)
  | Some (n, _, i) =>
      if negb (is_set (n_type n) VFS_FILE) || (i_dir_entry_cluster i <? 2) then ret (-1)
      else
        let! fs := get_fs (i_fs i) in
        let! a := kalloc serves in
        if a =? NULL then ret (-1)
        else if bytes_per_cluster fs <? u32 (i_dir_entry_offset i + SIZEOF_DIR_ENTRY) then ret (-1)
        else
          let! r := fat32_read_cluster fs (i_dir_entry_cluster i) (junk (bytes_per_cluster fs)) in
          if r.1 <? 0 then ret (-1)
          else
            let o := i_dir_entry_offset i in
            let buf := put_cluster_size o (i_cluster i) (n_size n) r.2 in
            fat32_write_cluster fs (i_dir_entry_cluster i)
              (splice (o + 11) [Z.lor (ent_attr buf o) FAT_ATTR_ARCHIVE] buf)
  end.

Definition fat32_alloc_node (name : list Z) (type size cluster attr : Z) : ME Z :=
  let! a := kalloc serves in
  if a =? NULL then ret NULL
  else
    let! s := get in
    let ino := fat_next_inode (ext s) in
    mod_ext (fun e => mk_state (g_mounts e) (fat_mounts e) (fat_impls e) (u32 (ino + 1)) (fat_disk e));;;
    let! p := kalloc serves in
    if p =? NULL then ret NULL
    else
      put_impl p (mk_impl NULL cluster 0 0);;;
      put_node a (mk_node (take (Z.to_nat (VFS_NAME_MAX - 1)) name) type size ino (fat32_mode_from_attr type attr) 0 0 OPS_FAT32 (impl_ext p) NULL []);;;
      ret a.

(** ** Reading and writing *)

Fixpoint skip_clusters (n : nat) (fs : fat32_mount_t) (c : Z) : Z :=
  match n with O => c | S n => if c =? 0 then c else skip_clusters n fs (fat32_get_next_cluster fs c) end.

(** Each turn copies at least one byte. *)
Fixpoint read_loop (fuel : nat) (fs : fat32_mount_t) (current byte_in_cluster size bytes_read : Z) (acc buf : list Z) : ME (Z * list Z) :=
  match fuel with
  | O => fun s => Hang s
  | S fuel =>
      if (0 <? size) && negb (current =? 0) then
        let! r := fat32_read_cluster fs current buf in
        if r.1 <? 0 then ret (-1, acc)
        else
          let to_copy := Z.min (bytes_per_cluster fs - byte_in_cluster) size in
          read_loop fuel fs (fat32_get_next_cluster fs current) 0 (size - to_copy) (bytes_read + to_copy)
            (acc ++ slice byte_in_cluster to_copy r.2) r.2
      else ret (i32 bytes_read, acc)
  end.

Definition fat32_read (node offset size : Z) : ME (Z * list Z) :=
  let! o := node_impl node in
  match o with
  | None => ret (-1, [])
  | Some (n, _, i) =>
      if negb (is_set (n_type n) VFS_FILE) then ret (-1, [])
      else
        let! fs := get_fs (i_fs i) in
        if n_size n <=? offset then ret (0, [])
        else
          let size := Z.min size (n_size n - offset) in
          let bpc := bytes_per_cluster fs in
          let current := skip_clusters (Z.to_nat (offset / bpc)) fs (i_cluster i) in
          if (current =? 0) && (0 <? offset / bpc) then ret (0, [])
          else
            let! a := kalloc serves in
            if a =? NULL then ret (-1, [])
            else read_loop (Z.to_nat (size / bpc) + 3) fs current (offset mod bpc) size 0 [] (junk bpc)
  end.

(** The walk to cluster number [n], extending the chain at its end; the
    cluster before and the cluster, or [None] for -1. *)
Fixpoint walk_clusters (n : nat) (p prev current : Z) : ME (option (Z * Z)) :=
  match n with
  | O => ret (Some (prev, current))
  | S n =>
      let! fs := get_fs p in
      let next := fat32_get_next_cluster fs current in
      if next =? 0 then
        let! r := fat32_alloc_and_link_cluster p current in
        if r.1 <? 0 then ret None else walk_clusters n p current r.2
      else walk_clusters n p current next
  end.

(** [bytes_written] so far; the number written, or -1. *)
Fixpoint write_loop (fuel : nat) (p current byte_in_cluster done : Z) (bytes buf : list Z) : ME Z :=
  match fuel with
  | O => fun s => Hang s
  | S fuel =>
      if done <? zlen bytes then
        if current <? 2 then ret (-1)
        else
          let! fs := get_fs p in
          let bpc := bytes_per_cluster fs in
          let off := if done =? 0 then byte_in_cluster else 0 in
          let to_copy := Z.min (bpc - off) (zlen bytes - done) in
          let piece := slice done to_copy bytes in
          let! buf :=
            (if (off =? 0) && (to_copy =? bpc) then ret (splice 0 piece buf)
             else
               let! r := fat32_read_cluster fs current buf in
               ret (splice off piece (if r.1 <? 0 then replicate (Z.to_nat bpc) 0 else r.2))) in
          let! rc := fat32_write_cluster fs current buf in
          if rc <? 0 then ret (-1)
          else
            let done := done + to_copy in
            if zlen bytes <=? done then ret done
            else
              let next := fat32_get_next_cluster fs current in
              if next =? 0 then
                let! r := fat32_alloc_and_link_cluster p current in
                if r.1 <? 0 then ret (-1) else write_loop fuel p r.2 byte_in_cluster done bytes buf
              else write_loop fuel p next byte_in_cluster done bytes buf
      else ret done
  end.

Definition with_cluster (c : Z) (i : fat32_node_impl_t) : fat32_node_impl_t := mk_impl (i_fs i) c (i_dir_entry_cluster i) (i_dir_entry_offset i).

(** The first cluster of the file, allocated when there is none. *)
Definition first_cluster (pi : Z) (i : fat32_node_impl_t) : ME (option Z) :=
  if i_cluster i <? 2 then
    let! r := fat32_alloc_and_link_cluster (i_fs i) 0 in
    if r.1 <? 0 then ret None else put_impl pi (with_cluster r.2 i);;; ret (Some r.2)
  else ret (Some (i_cluster i)).

Definition fat32_write (node offset : Z) (bytes : list Z) : ME Z :=
  let! o := node_impl node in
  match o with
  | None => ret (-1)
  | Some (n, pi, i) =>
      if negb (is_set (n_type n) VFS_FILE) then ret (-1)
      else
        let p := i_fs i in
        let! fs := get_fs p in
        let size := zlen bytes in
        if size =? 0 then ret 0
        else if n_size n <? offset then ret (-1)
        else if u32 (offset + size) <? offset then ret (-1)
        else
          let! a := kalloc serves in
          if a =? NULL then ret (-1)
          else
            let bpc := bytes_per_cluster fs in
            let! c := first_cluster pi i in
            match c with
            | None => ret (-1)
            | Some c =>
                let! w := walk_clusters (Z.to_nat (offset / bpc)) p 0 c in
                match w with
                | None => ret (-1)
                | Some (prev, current) =>
                    let! c := (if (current <? 2) && (2 <=? prev) then fat32_alloc_and_link_cluster p prev else ret (0, current)) in
                    if c.1 <? 0 then ret (-1)
                    else
                      let! written := write_loop (Z.to_nat (size / bpc) + 3) p c.2 (offset mod bpc) 0 bytes (junk bpc) in
                      if written <? 0 then ret (-1)
                      else
                        let end_pos := u32 (offset + written) in
                        let! n := deref node in
                        let old_size := n_size n in
                        put_node node (with_size (if old_size <? end_pos then end_pos else old_size) n);;;
                        let! rc := fat32_sync_node_metadata node in
                        if rc <? 0 then put_node node (with_size old_size n);;; ret (-1) else ret (i32 written)
                end
            end
  end.

Definition fat32_open (node flags : Z) : ME Z :=
  if node =? NULL then ret (-1)
  else
    let! n := deref node in
    if negb (is_set flags VFS_O_TRUNC) then ret 0
    else if negb (is_set (n_type n) VFS_FILE) then ret 0
    else
      let! o := node_impl node in
      match o with
      | None => ret (-1)
      | Some (_, pi, i) =>
          put_impl pi (with_cluster 0 i);;;
          put_node node (with_size 0 n);;;
          let! rc := fat32_sync_node_metadata node in
          if rc <? 0 then put_impl pi i;;; put_node node n;;; ret (-1)
          else let! rc := fat32_release_cluster_chain (i_fs i) (i_cluster i) in ret (if rc <? 0 then -1 else 0)
      end.
Definition fat32_close (node : Z) : ME unit := ret tt.

(** ** Directories *)

(** What the scan of one cluster found: an entry's offset, the end of the
    directory, or nothing yet, with the entries still to count. *)
Inductive scan := found (o : Z) | stop | next (left : Z).

Definition entries_of (fs : fat32_mount_t) : nat := Z.to_nat (bytes_per_cluster fs / SIZEOF_DIR_ENTRY).
Definition skipped (buf : list Z) (o : Z) : bool := (ent_first buf o =? 0xE5) || (Z.land (ent_attr buf o) FAT_ATTR_LFN =? FAT_ATTR_LFN).
Fixpoint scan_index (n : nat) (o index : Z) (buf : list Z) : scan :=
  match n with
  | O => next index
  | S n =>
      if ent_first buf o =? 0 then stop
      else if skipped buf o then scan_index n (o + SIZEOF_DIR_ENTRY) index buf
      else if index =? 0 then found o else scan_index n (o + SIZEOF_DIR_ENTRY) (index - 1) buf
  end.
Definition ent_filename (buf : list Z) (o : Z) : list Z := fat32_format_filename (ent_name buf o) (ent_ext buf o).
Fixpoint scan_name (n : nat) (o : Z) (name buf : list Z) : scan :=
  match n with
  | O => next 0
  | S n =>
      if ent_first buf o =? 0 then stop
      else if skipped buf o then scan_name n (o + SIZEOF_DIR_ENTRY) name buf
      else if fat32_stricmp (ent_filename buf o) name =? 0 then found o else scan_name n (o + SIZEOF_DIR_ENTRY) name buf
  end.
Definition ent_type (buf : list Z) (o : Z) : Z := if is_set (ent_attr buf o) FAT_ATTR_DIRECTORY then VFS_DIRECTORY else VFS_FILE.

(** A chain that visits no cluster twice has at most [total_clusters]
    clusters; the loops over longer ones do not end. *)
Definition chain_fuel (fs : fat32_mount_t) : nat := S (Z.to_nat (total_clusters fs)).

Fixpoint readdir_loop (fuel : nat) (fs : fat32_mount_t) (current index : Z) (buf : list Z) : ME (option vfs_dirent) :=
  match fuel with
  | O => fun s => Hang s
  | S fuel =>
      if current =? 0 then ret None
      else
        let! r := fat32_read_cluster fs current buf in
        if r.1 <? 0 then ret None
        else
          match scan_index (entries_of fs) 0 index r.2 with
          | found o => ret (Some (mk_dirent (take (Z.to_nat (VFS_NAME_MAX - 1)) (ent_filename r.2 o)) (ent_cluster r.2 o) (ent_type r.2 o)))
          | stop => ret None
          | next index => readdir_loop fuel fs (fat32_get_next_cluster fs current) index r.2
          end
  end.
Definition fat32_readdir (node index : Z) : ME (option vfs_dirent) :=
  let! o := node_impl node in
  match o with
  | None => ret None
  | Some (n, _, i) =>
      if negb (is_set (n_type n) VFS_DIRECTORY) then ret None
      else
        let! fs := get_fs (i_fs i) in
        let! a := kalloc serves in
        if a =? NULL then ret None else readdir_loop (chain_fuel fs) fs (i_cluster i) index (junk (bytes_per_cluster fs))
  end.

(** The node for the entry at [o] of the cluster. *)
Definition child_node (node p cluster o : Z) (buf : list Z) : ME Z :=
  let! child := fat32_alloc_node (ent_filename buf o) (ent_type buf o) (ent_size buf o) (ent_cluster buf o) (ent_attr buf o) in
  if child =? NULL then ret NULL
  else
    let! n := deref child in
    (match n_impl n with
     | impl_ext pi => put_impl pi (mk_impl p (ent_cluster buf o) cluster o)
     | _ => ret tt
     end);;;
    put_node child (mk_node (n_name n) (n_type n) (n_size n) (n_inode n) (n_mode n) (n_uid n) (n_gid n) (n_ops n) (n_impl n) node (n_children n));;;
    ret child.
Fixpoint finddir_loop (fuel : nat) (node p : Z) (fs : fat32_mount_t) (current : Z) (name buf : list Z) : ME Z :=
  match fuel with
  | O => fun s => Hang s
  | S fuel =>
      if current =? 0 then ret NULL
      else
        let! r := fat32_read_cluster fs current buf in
        if r.1 <? 0 then ret NULL
        else
          match scan_name (entries_of fs) 0 name r.2 with
          | found o => child_node node p current o r.2
          | stop => ret NULL
          | next _ => finddir_loop fuel node p fs (fat32_get_next_cluster fs current) name r.2
          end
  end.
Definition fat32_finddir (node : Z) (name : list Z) : ME Z :=
  let! o := node_impl node in
  match o with
  | None => ret NULL
  | Some (n, _, i) =>
      if negb (is_set (n_type n) VFS_DIRECTORY) then ret NULL
      else
        let! fs := get_fs (i_fs i) in
        let! a := kalloc serves in
        if a =? NULL then ret NULL else finddir_loop (chain_fuel fs) node (i_fs i) fs (i_cluster i) name (junk (bytes_per_cluster fs))
  end.

(** The scan of [fat32_create]: [None] when the name exists, else the first
    free entry. *)
Fixpoint scan_free (n : nat) (o : Z) (sn : list Z * list Z) (free : option Z) (buf : list Z) : option (option Z) :=
  match n with
  | O => Some free
  | S n =>
      if (ent_first buf o =? 0) || (ent_first buf o =? 0xE5) then
        let free := match free with None => Some o | Some _ => free end in
        if ent_first buf o =? 0 then Some free else scan_free n (o + SIZEOF_DIR_ENTRY) sn free buf
      else if Z.land (ent_attr buf o) FAT_ATTR_LFN =? FAT_ATTR_LFN then scan_free n (o + SIZEOF_DIR_ENTRY) sn free buf
      else if bool_decide (ent_name buf o = sn.1) && bool_decide (ent_ext buf o = sn.2) then None
      else scan_free n (o + SIZEOF_DIR_ENTRY) sn free buf
  end.
Fixpoint create_loop (fuel : nat) (p : Z) (fs : fat32_mount_t) (sn : list Z * list Z) (current prev : Z) (buf : list Z) : ME Z :=
  match fuel with
  | O => fun s => Hang s
  | S fuel =>
      if 2 <=? current then
        let! r := fat32_read_cluster fs current buf in
        if r.1 <? 0 then ret (-1)
        else
          match scan_free (entries_of fs) 0 sn None r.2 with
          | None => ret (-1)
          | Some (Some o) => fat32_write_cluster fs current (splice o (new_entry sn) r.2)
          | Some None => create_loop fuel p fs sn (fat32_get_next_cluster fs current) current r.2
          end
      else
        let! c := fat32_alloc_and_link_cluster p prev in
        if c.1 <? 0 then ret (-1)
        else fat32_write_cluster fs c.2 (splice 0 (new_entry sn) (replicate (Z.to_nat (bytes_per_cluster fs)) 0))
  end.
Definition fat32_create (parent : Z) (name : list Z) (type : Z) : ME Z :=
  let! o := node_impl parent in
  match o with
  | None => ret (-1)
  | Some (n, _, i) =>
      if negb (is_set (n_type n) VFS_DIRECTORY) then ret (-1)
      else if negb (type =? VFS_FILE) then ret (-1)
      else if i_cluster i <? 2 then ret (-1)
      else
        match short_name name with
        | None => ret (-1)
        | Some sn =>
            let! fs := get_fs (i_fs i) in
            let! a := kalloc serves in
            if a =? NULL then ret (-1) else create_loop (chain_fuel fs) (i_fs i) fs sn (i_cluster i) 0 (junk (bytes_per_cluster fs))
        end
  end.

(** The entry at [o] becomes a tombstone. *)
Definition tombstone (o : Z) (buf : list Z) : list Z := put_cluster_size o 0 0 (splice o [0xE5] buf).
Fixpoint unlink_loop (fuel : nat) (p : Z) (fs : fat32_mount_t) (current : Z) (name buf : list Z) : ME Z :=
  match fuel with
  | O => fun s => Hang s
  | S fuel =>
      if 2 <=? current then
        let! r := fat32_read_cluster fs current buf in
        if r.1 <? 0 then ret (-1)
        else
          match scan_name (entries_of fs) 0 name r.2 with
          | stop => ret (-1)
          | next _ => unlink_loop fuel p fs (fat32_get_next_cluster fs current) name r.2
          | found o =>
              if is_set (ent_attr r.2 o) FAT_ATTR_DIRECTORY then ret (-1)
              else
                let first := ent_cluster r.2 o in
                let! rc := fat32_write_cluster fs current (tombstone o r.2) in
                if rc <? 0 then ret (-1)
                else if 2 <=? first then fat32_release_cluster_chain p first else ret 0
          end
      else ret (-1)
  end.
Definition fat32_unlink (parent : Z) (name : list Z) : ME Z :=
  let! o := node_impl parent in
  match o with
  | None => ret (-1)
  | Some (n, _, i) =>
      if negb (is_set (n_type n) VFS_DIRECTORY) then ret (-1)
      else if i_cluster i <? 2 then ret (-1)
      else
        let! fs := get_fs (i_fs i) in
        let! a := kalloc serves in
        if a =? NULL then ret (-1) else unlink_loop (chain_fuel fs) (i_fs i) fs (i_cluster i) name (junk (bytes_per_cluster fs))
  end.

Definition fat32_vtable : vtable (fat_state D) :=
  mk_vtable (Some fat32_read) (Some fat32_write) (Some fat32_open) (Some fat32_close) (Some fat32_readdir)
    (Some fat32_finddir) (Some fat32_create) (Some fat32_unlink).

(** ** Mounting *)

(** The table's sectors into the buffer; the sector number wraps. *)
Fixpoint load_sectors (n : nat) (fs : fat32_mount_t) (i : Z) (t : list Z) : ME (option (list Z)) :=
  match n with
  | O => ret (Some t)
  | S n =>
      let! r := read_sector (dev_index fs) (u32 (fat_start_sector fs + i)) (u32 (i * bytes_per_sector fs)) t in
      if r.1 <? 0 then ret None else load_sectors n fs (i + 1) r.2
  end.
Definition fat32_load_fat (p : Z) (boot : list Z) : ME Z :=
  let! fs := get_fs p in
  let spf := boot_sectors_per_fat_32 boot in
  let size := u32 (spf * bytes_per_sector fs) in
  let fs := mk_fat (dev_index fs) (bytes_per_sector fs) (sectors_per_cluster fs) (bytes_per_cluster fs) (num_fats fs) (root_cluster fs)
              (fat_start_sector fs) spf (data_start_sector fs) (size / 4) (fat_table fs) (root_node fs) in
  if spf =? 0 then put_fs p fs;;; ret (-2)
  else
    let! a := kalloc serves in
    if a =? NULL then put_fs p (with_table None fs);;; ret (-3)
    else
      let! t := load_sectors (Z.to_nat spf) fs 0 (junk size) in
      match t with
      | None => put_fs p (with_table None fs);;; ret (-4)
      | Some t =>
          put_fs p (with_table (Some t) fs);;;
          if (2 <=? root_cluster fs) && (root_cluster fs <? total_clusters fs) && (fat_value t (root_cluster fs) =? FAT_ENTRY_FREE) then
            let! rc := fat32_set_fat_entry p (root_cluster fs) FAT_ENTRY_EOF_END in
            if rc <? 0 then put_fs p (with_table None fs);;; ret (-5) else ret 0
          else ret 0
      end.

Definition fat32_create_root (p : Z) : ME Z :=
  let! fs := get_fs p in
  let! root := fat32_alloc_node [] VFS_DIRECTORY 0 (root_cluster fs) FAT_ATTR_DIRECTORY in
  if root =? NULL then ret NULL
  else
    let! n := deref root in
    (match n_impl n with
     | impl_ext pi => put_impl pi (mk_impl p (root_cluster fs) 0 0)
     | _ => ret tt
     end);;;
    ret root.

Section mount.
Context (drivers : Z -> vtable (fat_state D)) (fuel : nat).

(** The directory's address, or [None] for -1. *)
Definition fat32_ensure_mount_dir (parent : Z) (name : list Z) : ME (option Z) :=
  let! node := vfs_finddir drivers parent name in
  let! node :=
    (if node =? NULL then
       let! rc := vfs_create drivers parent name VFS_DIRECTORY in
       if rc <? 0 then ret NULL else vfs_finddir drivers parent name
     else ret node) in
  if node =? NULL then ret None
  else let! n := deref node in ret (if is_set (n_type n) VFS_DIRECTORY then Some node else None).

(** Freeing the mount after a failure past its root node. *)
Definition drop_mount (p root rc : Z) : ME Z := free_node root;;; free_fs p;;; ret rc.

Definition mnt_path : list Z := [47; 109; 110; 116]. (* "/mnt" *)

(** From the root node on: the directories, the mount point, the table. *)
Definition attach_mount (p root : Z) (mount_path : list Z) : ME Z :=
  let! s := get in
  if vfs_get_root s =? NULL then drop_mount p root (-8)
  else
    let! mnt := fat32_ensure_mount_dir (vfs_get_root s) Minfs.mnt_name in
    match mnt with
    | None => drop_mount p root (-9)
    | Some mnt =>
        match vfs_split_path (Some mount_path) VFS_PATH_MAX VFS_NAME_MAX with
        | None => drop_mount p root (-10)
        | Some (parent_path, name) =>
            let! parent := (if bool_decide (parent_path = mnt_path) then ret mnt else vfs_namei drivers fuel (Some parent_path)) in
            let! ok := (if parent =? NULL then ret false else let! n := deref parent in ret (is_set (n_type n) VFS_DIRECTORY)) in
            if negb ok then drop_mount p root (-11)
            else
              let! mp := fat32_ensure_mount_dir parent name in
              match mp with
              | None => drop_mount p root (-12)
              | Some _ =>
                  let! s := get in
                  let '(rc, s') := vfs_mount (Some mount_path) root s in
                  modify (fun _ => s');;;
                  if rc <? 0 then drop_mount p root (-13)
                  else mod_ext (fun e => mk_state (g_mounts e ++ [p]) (fat_mounts e) (fat_impls e) (fat_next_inode e) (fat_disk e));;; ret 0
              end
        end
    end.

Definition fat32_mount (device_index partition_lba : Z) (mount_path : list Z) : ME Z :=
  let! dev := look (bs_get device_index) in
  match dev with
  | None => ret (-1)
  | Some _ =>
      let! s := get in
      if FAT32_MAX_MOUNTS <=? zlen (g_mounts (ext s)) then ret (-2)
      else
        let! p := kalloc serves in
        if p =? NULL then ret (-3)
        else
          let fs := mk_fat device_index 0 0 0 0 0 0 0 0 0 None NULL in
          put_fs p fs;;;
          let! r := read_sector device_index partition_lba 0 (replicate 512 0) in
          if r.1 <? 0 then free_fs p;;; ret (-4)
          else
            let '(rc, fs) := fat32_parse_boot_sector fs r.2 in
            if rc <? 0 then free_fs p;;; ret (-5)
            else
              put_fs p (mk_fat (dev_index fs) (bytes_per_sector fs) (sectors_per_cluster fs) (bytes_per_cluster fs) (num_fats fs) (root_cluster fs)
                          (u32 (fat_start_sector fs + partition_lba)) (sectors_per_fat fs) (u32 (data_start_sector fs + partition_lba))
                          (total_clusters fs) (fat_table fs) (root_node fs));;;
              let! rc := fat32_load_fat p r.2 in
              if rc <? 0 then free_fs p;;; ret (-6)
              else
                let! root := fat32_create_root p in
                if root =? NULL then free_fs p;;; ret (-7)
                else
                  let! fs := get_fs p in
                  put_fs p (with_root root fs);;; attach_mount p root mount_path
  end.

(** The scan of the partition table, [UINT32_MAX] for every parent. *)
Definition fat_partition (index : Z) (q : mbr_partition_info) : bool :=
  ((index =? 0xFFFFFFFF) || (info_parent q =? index)) &&
  ((info_type q =? FAT32_PARTITION_TYPE_FAT32_CHS) || (info_type q =? FAT32_PARTITION_TYPE_FAT32_LBA)).
Fixpoint auto_mount_from (parts : list mbr_partition_info) (index mounted : Z) : ME Z :=
  match parts with
  | [] => ret (i32 mounted)
  | q :: parts =>
      if fat_partition index q then
        let! rc := fat32_mount (info_dev q) 0 (take (Z.to_nat (VFS_PATH_MAX - 1)) (Minfs.mnt_prefix ++ info_name q)) in
        auto_mount_from parts index (if rc =? 0 then mounted + 1 else mounted)
      else auto_mount_from parts index mounted
  end.
(** [parts]: what [mbr_partition_get] gives for the registered partitions. *)
Definition fat32_auto_mount (parts : list mbr_partition_info) (index : Z) : ME Z := auto_mount_from parts index 0.
End mount.

(** ** Formatting *)

Definition half (w : Z) : list Z := le_split 2 w.
(** The 512 bytes of the boot record. *)
Definition encode_boot (total spc spf : Z) : list Z :=
  [0xEB; 0x58; 0x90] ++ [68; 69; 65; 78; 79; 83; 32; 32] (* "DEANOS  " *) ++ half 512 ++ [spc] ++ half 32 ++ [2] ++ half 0 ++ half 0 ++ [0xF8] ++ half 0 ++
  half 63 ++ half 255 ++ Minfs.word 0 ++ Minfs.word total ++ Minfs.word spf ++ half 0 ++ half 0 ++ Minfs.word 2 ++ half 1 ++ half 6 ++ replicate 12 0 ++
  [0x80; 0; 0x29] ++ Minfs.word 0x20260322 ++ [68; 69; 65; 78; 79; 83; 32; 70; 65; 84; 32] (* "DEANOS FAT " *) ++
  [70; 65; 84; 51; 50; 32; 32; 32] (* "FAT32   " *) ++ replicate 420 0 ++ [FAT32_MAGIC_BYTE_510; FAT32_MAGIC_BYTE_511].
Definition fsinfo_sector : list Z :=
  [0x52; 0x52; 0x61; 0x41] ++ replicate 480 0 ++ [0x72; 0x72; 0x41; 0x61] ++ replicate 8 0xFF ++ replicate 14 0 ++ [FAT32_MAGIC_BYTE_510; FAT32_MAGIC_BYTE_511].
Definition zero_sector : list Z := replicate 512 0.
Definition first_fat_sector : list Z := [0xF8; 0xFF; 0xFF; 0x0F; 0xFF; 0xFF; 0xFF; 0x0F; 0xFF; 0xFF; 0xFF; 0x0F] ++ replicate 500 0.

(** The same sector at [n] places from [lba] on; whether all were written. *)
Fixpoint fill_sectors (n : nat) (dev lba : Z) (sector : list Z) : ME bool :=
  match n with
  | O => ret true
  | S n => let! rc := device (bs_write dev lba 1 sector) in if rc <? 0 then ret false else fill_sectors n dev (lba + 1) sector
  end.
(** The writes of one step, -[code] when one fails. *)
Definition put_sector (dev lba : Z) (sector : list Z) (code : Z) (k : ME Z) : ME Z :=
  let! rc := device (bs_write dev lba 1 sector) in if rc <? 0 then ret code else k.
Definition put_run (n dev lba : Z) (sector : list Z) (code : Z) (k : ME Z) : ME Z :=
  let! ok := fill_sectors (Z.to_nat n) dev lba sector in if negb ok then ret code else k.

Definition fat32_format (dev : Z) : ME Z :=
  let! d := look (bs_get dev) in
  match d with
  | None => ret (-1)
  | Some d =>
      if is_set (dev_flags d) (Z.lor BLOCKDEV_FLAG_READONLY BLOCKDEV_FLAG_ATAPI) then ret (-2)
      else if negb (dev_block_size d =? 512) then ret (-3)
      else if dev_block_count d <? 65536 then ret (-4)
      else if 0xFFFFFFFF <? dev_block_count d then ret (-5)
      else
        let total := dev_block_count d in
        let spc := fat32_pick_sectors_per_cluster total in
        let spf := fat32_calc_sectors_per_fat total 32 2 spc 512 in
        if spf =? 0 then ret (-6)
        else
          let data_start := u32 (32 + u32 (2 * spf)) in
          if total <=? data_start then ret (-7)
          else if (total - data_start) / spc <? 65525 then ret (-8)
          else
            put_sector dev 0 (encode_boot total spc spf) (-9)
            (put_sector dev 6 (encode_boot total spc spf) (-10)
            (put_sector dev 1 fsinfo_sector (-11)
            (put_sector dev 7 fsinfo_sector (-12)
            (put_run spf dev 32 zero_sector (-13)
            (put_run spf dev (32 + spf) zero_sector (-13)
            (put_sector dev 32 first_fat_sector (-14)
            (put_sector dev (32 + spf) first_fat_sector (-14)
            (put_run spc dev data_start zero_sector (-15) (ret 0)))))))))
  end.
End driver.
End Fat32.
