(* ===== verification/FatDisk.v ===== *)
(** * What the FAT32 theorems stand on

    [Bytes]: slices and splices of byte lists. [Triple]: weakest preconditions
    of the monad of the virtual file system. [SectorDisk]: the promise of the
    layer below a file system, a disk of 512-byte sectors, with two
    implementations: the block layer of [BlockDev.v] over any lawful driver,
    and a disk in memory. *)

From S2P Require Import Prelude Ring BlockDev VfsPath Vfs Minfs.

(** ** Byte lists *)

Module Bytes.
Section bytes.
Context {A : Type}.
Implicit Types (l a b : list A) (off n : Z).

Lemma slice_all l n : Z.of_nat (length l) <= n -> slice 0 n l = l.
Proof. intros H. unfold slice. change (Z.to_nat 0) with 0%nat. rewrite drop_0. apply take_ge. lia. Qed.

Lemma slice_app_l a b off n : 0 <= off -> 0 <= n -> off + n <= Z.of_nat (length a) -> slice off n (a ++ b) = slice off n a.
Proof. intros. unfold slice. rewrite drop_app_le by lia. apply take_app_le. rewrite length_drop. lia. Qed.
Lemma slice_app_r a b off n : Z.of_nat (length a) <= off -> slice off n (a ++ b) = slice (off - Z.of_nat (length a)) n b.
Proof. intros. unfold slice. rewrite drop_app_ge by lia. do 2 f_equal. lia. Qed.
Lemma slice_slice l i n j m : 0 <= i -> 0 <= j -> 0 <= m -> j + m <= n -> slice j m (slice i n l) = slice (i + j) m l.
Proof.
  intros. unfold slice. rewrite skipn_firstn_comm, take_take, drop_drop. f_equal; [lia|]. f_equal. lia.
Qed.
Lemma slice_split l off n m : 0 <= off -> 0 <= n -> 0 <= m -> slice off (n + m) l = slice off n l ++ slice (off + n) m l.
Proof.
  intros. unfold slice. rewrite !Z2Nat.inj_add by lia. rewrite <- drop_drop.
  rewrite <- (take_drop (Z.to_nat n) (drop (Z.to_nat off) l)) at 1. rewrite take_app.
  rewrite take_take. rewrite length_take. rewrite (Nat.min_r (_ + _)) by lia. f_equal.
  destruct (decide (Z.to_nat n <= length (drop (Z.to_nat off) l))%nat) as [Hle|Hgt].
  - f_equal. lia.
  - rewrite (drop_ge _ (Z.to_nat n)) by lia. by rewrite !take_nil.
Qed.
Lemma slice_nil off n : slice off n (@nil A) = [].
Proof. unfold slice. by rewrite drop_nil, take_nil. Qed.
Lemma slice_zero l off : slice off 0 l = [].
Proof. reflexivity. Qed.
Lemma slice_past l off n : Z.of_nat (length l) <= off -> slice off n l = [].
Proof. intros. unfold slice. rewrite drop_ge by lia. apply take_nil. Qed.
Lemma slice_take l off n m : 0 <= off -> 0 <= n -> off + n <= m -> slice off n (take (Z.to_nat m) l) = slice off n l.
Proof. intros. unfold slice. rewrite skipn_firstn_comm, take_take. f_equal. lia. Qed.

Lemma take_splice off a l : 0 <= off <= Z.of_nat (length l) ->
  take (Z.to_nat (off + Z.of_nat (length a))) (splice off a l) = take (Z.to_nat off) l ++ a.
Proof.
  intros H. unfold splice. rewrite app_assoc. rewrite take_app_length' ; [done|]. rewrite length_app, length_take. lia.
Qed.
Lemma drop_splice off a l n : 0 <= off -> off + Z.of_nat (length a) <= n -> n <= Z.of_nat (length l) -> drop (Z.to_nat n) (splice off a l) = drop (Z.to_nat n) l.
Proof.
  intros. unfold splice. rewrite app_assoc, drop_app_ge by (rewrite length_app, length_take; lia).
  rewrite drop_drop. f_equal. rewrite length_app, length_take. lia.
Qed.
Lemma slice_splice_disj off a l i n :
  0 <= off -> off + Z.of_nat (length a) <= Z.of_nat (length l) -> 0 <= i -> 0 <= n ->
  i + n <= off \/ off + Z.of_nat (length a) <= i -> slice i n (splice off a l) = slice i n l.
Proof.
  intros H1 H2 H3 H4 [H|H].
  - unfold splice. rewrite slice_app_l by (rewrite ?length_take; lia). by rewrite slice_take by lia.
  - destruct (decide (i <= Z.of_nat (length l))).
    + unfold slice. by rewrite drop_splice by lia.
    + rewrite !slice_past; rewrite ?length_splice; done || lia.
Qed.
Lemma splice_app_mid off a l l1 l2 : l = l1 ++ l2 -> Z.of_nat (length l1) <= off -> off + Z.of_nat (length a) <= Z.of_nat (length l) ->
  splice off a l = l1 ++ splice (off - Z.of_nat (length l1)) a l2.
Proof.
  intros -> H1 H2. unfold splice. rewrite length_app in H2. rewrite take_app_ge, drop_app_ge by lia. rewrite <- app_assoc.
  do 2 f_equal; [f_equal; lia|]. do 2 f_equal. lia.
Qed.
Lemma splice_app_l off a l1 l2 : 0 <= off -> off + Z.of_nat (length a) <= Z.of_nat (length l1) -> splice off a (l1 ++ l2) = splice off a l1 ++ l2.
Proof.
  intros H1 H2. unfold splice. rewrite take_app_le, drop_app_le by lia. by rewrite <- !app_assoc.
Qed.
Lemma drop_slice l off n : 0 <= off -> 0 <= n -> drop (Z.to_nat off) l = slice off n l ++ drop (Z.to_nat (off + n)) l.
Proof. intros. unfold slice. rewrite Z2Nat.inj_add, <- drop_drop by lia. by rewrite take_drop. Qed.
End bytes.
End Bytes.
(** ** Running the driver's monad *)

Module Triple.
Import Vfs.
Section triple.
Context {E : Type}.

(** [m] ends from [s], in a result and a state that satisfy [Q]. *)
Definition wp {A} (m : M E A) (Q : A -> vfs E -> Prop) (s : vfs E) : Prop :=
  match m s with Ret a s' => Q a s' | _ => False end.

Lemma wp_ret {A} (a : A) Q (s : vfs E) : Q a s -> wp (ret a) Q s.
Proof. done. Qed.
Lemma wp_bind {A B} (m : M E A) (k : A -> M E B) Q s : wp m (fun a => wp (k a) Q) s -> wp (bind m k) Q s.
Proof. unfold wp, bind. by destruct (m s). Qed.
Lemma wp_mono {A} (m : M E A) (Q R : A -> vfs E -> Prop) s : wp m Q s -> (forall a s', Q a s' -> R a s') -> wp m R s.
Proof. unfold wp. destruct (m s); auto. Qed.
Lemma wp_run {A} (m : M E A) Q s : wp m Q s -> exists a s', m s = Ret a s' /\ Q a s'.
Proof. unfold wp. destruct (m s); naive_solver. Qed.
End triple.
End Triple.

(** ** The disk below *)

(** Device [dev] is a disk of [count] sectors of 512 bytes: a transfer that
    fails changes at most the sector addressed, one that succeeds moves its
    512 bytes. On a disk in good order no transfer inside it fails. *)
Class SectorDisk (D : Type) `{!BlockStore D} (dev count : Z) := {
  sd_inv : D -> Prop;
  sd_good : D -> Prop;
  sd_sector : D -> Z -> list Z;
  sd_length d l : sd_inv d -> 0 <= l < count -> length (sd_sector d l) = 512%nat;
  sd_get d : sd_inv d -> exists b, bs_get dev d = Some b /\ BlockDev.dev_block_size b = 512;
  sd_read d l :
    sd_inv d -> 0 <= l ->
    let '(rc, bytes, d') := bs_read dev l 1 d in
    sd_inv d' /\ (forall k, 0 <= k < count -> sd_sector d' k = sd_sector d k) /\
    (0 <= rc -> l < count /\ bytes = sd_sector d l) /\ (sd_good d -> sd_good d' /\ (l < count -> 0 <= rc));
  sd_write d l bytes :
    sd_inv d -> 0 <= l -> length bytes = 512%nat ->
    let '(rc, d') := bs_write dev l 1 bytes d in
    sd_inv d' /\ (forall k, 0 <= k < count -> k <> l -> sd_sector d' k = sd_sector d k) /\
    (0 <= rc -> l < count /\ sd_sector d' l = bytes) /\ (sd_good d -> sd_good d' /\ (l < count -> 0 <= rc))
}.

(** ** The block layer as such a disk *)

Module FatDisk.
Import BlockDev BlockDevSpec.

Section layer.
Context `{BlockDriverLaws} (n : nat).

(** The caller's buffer, while a transfer runs. *)
Definition scratch : Z := -1.
Definition with_scratch (b : list Z) : bd -> bd := on_dsk (fun d => set_buffers (<[scratch := b]> (buffers d)) d).

#[local] Instance layer_store : BlockStore bd := {
  bs_count := g_count;
  bs_get := blockdev_get;
  bs_read index l cnt s :=
    let '(rc, s) := blockdev_read (drv n false) (drv n true) index l cnt (Some (buf_mem scratch)) (with_scratch (replicate (Z.to_nat (512 * cnt)) 0) s) in
    (rc, if rc <? 0 then [] else default [] (buffers (dsk s) !! scratch), s);
  bs_write index l cnt bytes s :=
    blockdev_write (drv n false) (drv n true) index l cnt (Some (buf_mem scratch)) (with_scratch bytes s);
  bs_flush := blockdev_flush (drv n false) (drv n true)
}.

(** A registered, writable hardware disk of [count] sectors. *)
Record disk_ready (index count : Z) (s : bd) : Prop := {
  dr_ready : ready s;
  dr_index : in_table (g_devs (dsk s)) index;
  dr_cached : cached_dev (dev_of (g_devs (dsk s)) index);
  dr_write : dev_write (dev_of (g_devs (dsk s)) index) = Some fn_hw;
  dr_flags : is_set (dev_flags (dev_of (g_devs (dsk s)) index)) BLOCKDEV_FLAG_READONLY = false;
  dr_size : dev_block_size (dev_of (g_devs (dsk s)) index) = 512;
  dr_count : dev_block_count (dev_of (g_devs (dsk s)) index) = count /\ count < 2 ^ 64
}.

Lemma with_scratch_ready b s : ready s -> ready (with_scratch b s).
Proof. intros [Hw Hid]. split; [|done]. by apply (wf_same (dsk s)); try done; apply Hw. Qed.
Lemma disk_ready_scratch index cnt b s : disk_ready index cnt s -> disk_ready index cnt (with_scratch b s).
Proof. intros []. split; try done. by apply with_scratch_ready. Qed.
Lemma disk_ready_devs index cnt s s' : disk_ready index cnt s -> ready s' -> g_devs (dsk s') = g_devs (dsk s) -> disk_ready index cnt s'.
Proof. intros [] Hr E. by split; rewrite ?E. Qed.

(** Past the end the request is refused. *)
Lemma past_end index cnt l o b s :
  disk_ready index cnt s -> cnt <= l -> (o = BLOCKDEV_REQ_READ \/ o = BLOCKDEV_REQ_WRITE) ->
  blockdev_submit_and_wait (drv n false) (drv n true) (mk_req o index l 1 (Some (buf_mem scratch)) false None) (with_scratch b s) = (-4, with_scratch b s).
Proof.
  intros [] Hl Hop. assert (blockdev_validate_request (mk_req o index l 1 (Some (buf_mem scratch)) false None) (with_scratch b s) = -4) as E.
  { unfold blockdev_validate_request. cbn [req_dev op req_count req_buffer req_lba]. destruct dr_index0 as [_ Hlt]. unfold g_count, dev_at. cbn [dsk on_dsk with_scratch g_devs set_buffers].
    rewrite (proj2 (Z.leb_gt _ _)) by lia. destruct dr_count0 as [E _]. unfold dev_of in E. rewrite E.
    rewrite (bool_decide_eq_false_2 (Some (buf_mem scratch) = None)) by done. rewrite (proj2 (Z.leb_le cnt l)) by lia. by destruct Hop as [-> | ->]. }
  rewrite submit_refused; rewrite E; done.
Qed.

Lemma one_sector index cnt l b s : disk_ready index cnt s -> 0 <= l < cnt -> length b = 512%nat -> io_ok (with_scratch b s) index l 1 scratch b.
Proof.
  intros [] Hl Hb. destruct dr_count0 as [E Hc]. constructor; try done; try lia.
  - change (g_devs (dsk (with_scratch b s))) with (g_devs (dsk s)). lia.
  - cbn [buffers dsk on_dsk with_scratch set_buffers]. apply lookup_insert_eq.
Qed.

(** Nothing is promised about a driver that never fails. *)
#[local] Program Instance layer_disk (index cnt : Z) : SectorDisk bd index cnt := {
  sd_inv := disk_ready index cnt;
  sd_good _ := False;
  sd_sector s := view (dsk s) index
}.
Next Obligation. intros index cnt s l [[Hw _] _ _ _ _ _ _] _. by apply length_view. Qed.
Next Obligation.
  intros index cnt s []. cbn [bs_get layer_store]. unfold blockdev_get, g_count. destruct dr_index0 as [_ Hlt].
  rewrite (proj2 (Z.leb_gt _ _)) by lia. eauto.
Qed.
Next Obligation.
  intros index cnt s l Hd Hl. cbn [bs_read layer_store]. change (Z.to_nat (512 * 1)) with 512%nat. set (b := replicate 512 0).
  destruct (Z.lt_ge_cases l cnt) as [Hlt|Hge].
  - pose proof (read_sync _ _ (drv_read_hw n) (drv_write_hw n) (with_scratch b s) index l 1 scratch b (with_scratch_ready b s (dr_ready _ _ _ Hd))
      (one_sector index cnt l b s Hd ltac:(lia) ltac:(by apply length_replicate)) (dr_cached _ _ _ Hd)) as Hr.
    destruct (blockdev_read _ _ _ _ _ _ _) as [rc s']. destruct Hr as (Hid & _ & (Hw & Ed & _ & _ & Hv) & Hrc & b' & Eb & Hlb & Hb').
    split_and!; [by eapply disk_ready_devs; [apply disk_ready_scratch; exact Hd|split|done]| | |done].
    + intros k _. apply Hv. split; [apply Hd|apply Hd].
    + intros Hp. split; [done|]. rewrite (proj2 (Z.ltb_ge _ _)) by lia. rewrite Eb, lookup_insert_eq. cbn [default]. rewrite Hb' by lia.
      change (Z.to_nat 1) with 1%nat. cbn [sectors]. rewrite app_nil_r. pose proof (length_view (dsk s) index l (proj1 (dr_ready _ _ _ Hd))) as Hlv.
      change (view (dsk (with_scratch b s)) index l) with (view (dsk s) index l). unfold splice. change (Z.to_nat 0) with 0%nat. rewrite take_0, drop_ge by (unfold b; rewrite length_replicate; lia).
      apply app_nil_r.
  - unfold blockdev_read. rewrite (past_end index cnt) by (done || by left). rewrite (proj2 (Z.ltb_lt (-4) 0)) by lia.
    split_and!; [by apply disk_ready_scratch|done|lia|done].
Qed.
Next Obligation.
  intros index cnt s l b Hd Hl Hb. cbn [bs_write layer_store]. destruct (Z.lt_ge_cases l cnt) as [Hlt|Hge].
  - pose proof (write_sync (drv n false) _ (drv_write_hw n) (with_scratch b s) index l 1 scratch b (with_scratch_ready b s (dr_ready _ _ _ Hd))
      (one_sector index cnt l b s Hd ltac:(lia) Hb) (dr_cached _ _ _ Hd) (dr_write _ _ _ Hd) (dr_flags _ _ _ Hd)) as Hr.
    destruct (blockdev_write _ _ _ _ _ _ _) as [rc s']. destruct Hr as (Hid & _ & Hrc & m & Hm & Hm1 & (Hw & Ed & _ & _ & _ & _ & Hv)). cbn [dsk] in *.
    assert (hw_dev (g_devs (dsk (with_scratch b s))) index) as Hhw by (split; apply Hd).
    split_and!; [by eapply disk_ready_devs; [apply disk_ready_scratch; exact Hd|split|done]| | |done].
    + intros k _ Hne. rewrite Hv by done. rewrite Z.add_0_r. case_match; [|done]. bool_to_prop. lia.
    + intros Hp. split; [done|]. rewrite Hv by done. rewrite Hm1, Z.add_0_r, Z.eqb_refl by lia. rewrite (proj2 (Z.leb_le l l)), (proj2 (Z.ltb_lt l (l + 1))) by lia.
      cbn [andb]. rewrite Z.sub_diag. apply Bytes.slice_all. lia.
  - unfold blockdev_write. rewrite (past_end index cnt) by (done || by right). split_and!; [by apply disk_ready_scratch|done|lia|done].
Qed.
End layer.

(** ** A disk in memory

    Device 0, of [size] sectors kept as a map. *)

Abbreviation image := (gmap Z (list Z)).
Definition sector_of (d : image) (l : Z) : list Z := default (replicate 512 0) (d !! l).
Definition ram_device (size : Z) : block_device := mk_dev 0 [100] 512 size 0 0 None None.
Definition ram_store (size : Z) : BlockStore image := {|
  bs_count _ := 1;
  bs_get i _ := if i =? 0 then Some (ram_device size) else None;
  bs_read i l n d := if (i =? 0) && (l + 1 <=? size) then (0, sector_of d l, d) else (-1, [], d);
  bs_write i l n bytes d := if (i =? 0) && (l + 1 <=? size) then (0, <[l := take 512 bytes]> d) else (-1, d);
  bs_flush i d := (0, d)
|}.

#[program] Definition ram_disk (size : Z) : @SectorDisk image (ram_store size) 0 size := {|
  sd_inv d := forall l b, d !! l = Some b -> length b = 512%nat;
  sd_good _ := True;
  sd_sector := sector_of
|}.
Next Obligation. intros size d l Hd _. unfold sector_of. destruct (d !! l) eqn:E; [by apply (Hd l)|done]. Qed.
Next Obligation. intros size d _. by exists (ram_device size). Qed.
Next Obligation.
  intros size d l Hd Hl. cbn [bs_read ram_store]. rewrite Z.eqb_refl. destruct (Z.leb_spec (l + 1) size); cbn [andb]; split_and!; try done; try lia.
  intros _. split; [lia|done].
Qed.
Next Obligation.
  intros size d l b Hd Hl Hb. cbn [bs_write ram_store]. rewrite Z.eqb_refl. destruct (Z.leb_spec (l + 1) size); cbn [andb]; split_and!; try done; try lia.
  - intros k b' [[<- <-]|[_ Hk]]%lookup_insert_Some; [|by apply (Hd k)]. rewrite length_take. lia.
  - intros k _ Hne. unfold sector_of. by rewrite lookup_insert_ne by done.
  - intros _. split; [lia|]. unfold sector_of. rewrite lookup_insert_eq. cbn. apply take_ge. lia.
Qed.
End FatDisk.
