(* ===== verification/FatName.v ===== *)
(** * FAT32 names and formatting

    [FatName]: what the 8.3 form keeps of a name, and the sizes and the boot
    sector [fat32_format] computes. *)

From S2P Require Import Prelude Ring BlockDev VfsPath Vfs Minfs Fat32.

Module FatName.
Import VfsPath Vfs Fat32.

(** ** Letters *)

Lemma tolower_toupper c : tolower (toupper c) = tolower c.
Proof. unfold tolower, toupper. repeat case_match; bool_to_prop; lia. Qed.
Lemma tolower_idem c : tolower (tolower c) = tolower c.
Proof. unfold tolower. repeat case_match; bool_to_prop; lia. Qed.
Lemma toupper_eq c k : k < 65 \/ 122 < k -> toupper c = k <-> c = k.
Proof. intros Hk. unfold toupper. case_match; bool_to_prop; lia. Qed.
Lemma tolower_nonzero c : 0 < c -> tolower c <> 0.
Proof. unfold tolower. case_match; bool_to_prop; lia. Qed.

(** ** Comparing without case *)

Definition no_nul (l : list Z) : Prop := Forall (fun c => 0 < c < 256) l.

Lemma stricmp_lower a b : no_nul a -> no_nul b -> fat32_stricmp a b = 0 <-> map tolower a = map tolower b.
Proof.
  intros Ha. revert b. induction Ha as [|x a Hx _ IH]; intros b Hb; destruct Hb as [|y b Hy Hb]; cbn [fat32_stricmp map hd]; try done.
  - pose proof (tolower_nonzero y). change (tolower 0) with 0. split; [lia|done].
  - pose proof (tolower_nonzero x). change (tolower 0) with 0. split; [lia|done].
  - destruct (Z.eqb_spec (tolower x) (tolower y)) as [E|Hne]; cbn [negb].
    + rewrite IH by done. split; [by intros ->; rewrite E|by intros [= _ ->]].
    + split; [lia|]. by intros [= E _].
Qed.

(** ** Splitting at the last dot *)

Definition base_of (n : list Z) : list Z := match split_dot n with Some (b, _) => b | None => n end.
Definition ext_of (n : list Z) : list Z := match split_dot n with Some (_, e) => e | None => [] end.

Lemma split_dot_spec n :
  match split_dot n with Some (b, e) => n = b ++ 46 :: e /\ 46 ∉ e | None => 46 ∉ n end.
Proof.
  induction n as [|c n IH]; [apply not_elem_of_nil|]. cbn [split_dot]. destruct (split_dot n) as [[b e]|].
  - destruct IH as [IH ?]. split; [by rewrite IH at 1|done].
  - destruct (Z.eqb_spec c 46) as [->|Hc]; [done|]. apply not_elem_of_cons. split; [congruence|done].
Qed.

Lemma name_parts n : exists dot, n = base_of n ++ dot ++ ext_of n /\ 46 ∉ ext_of n /\ (dot = [46] \/ dot = [] /\ ext_of n = [] /\ 46 ∉ n).
Proof.
  unfold base_of, ext_of. pose proof (split_dot_spec n) as H. destruct (split_dot n) as [[b e]|].
  - exists [46]. destruct H. split_and!; [done|done|by left].
  - exists []. rewrite !app_nil_r. split_and!; [done|apply not_elem_of_nil|by right].
Qed.

(** ** The 8.3 form *)

Lemma short_name_parts n sn :
  short_name n = Some sn ->
  sn = (pad_to 8 (map toupper (base_of n)), pad_to 3 (map toupper (ext_of n))) /\
  base_of n <> [] /\ (length (base_of n) <= 8)%nat /\ (length (ext_of n) <= 3)%nat /\
  Forall (fun c => c <> 32) (base_of n) /\ Forall (fun c => c <> 32) (ext_of n).
Proof.
  unfold short_name, base_of, ext_of. intros H.
  assert (forall l, existsb bad_char l = false -> Forall (fun c => c <> 32) l) as Hbad.
  { induction l as [|c l IH]; cbn; [by constructor|]. rewrite orb_false_iff. intros [Hc Hl]. constructor; [|by apply IH].
    unfold bad_char in Hc. intros ->. done. }
  destruct (split_dot n) as [[b e]|]; cbn iota beta in H; unfold zlen in H;
    (case_match eqn:E1; [done|]); (case_match eqn:E2; [done|]); apply orb_false_iff in E2 as [E2 E3]; injection H as <-;
    apply orb_false_iff in E1 as [E1 E4]; apply orb_false_iff in E1 as [E0 E1]; apply Z.eqb_neq in E0; apply Z.ltb_ge in E1, E4;
    (split_and!; [done|intros ->; cbn in E0; lia|lia|lia|auto|auto]).
Qed.

Lemma format_base_pad l n :
  Forall (fun c => c <> 32) l -> format_base (map toupper l ++ replicate n 32) = map (fun c => if c =? 5 then 0xE5 else tolower c) l.
Proof.
  induction 1 as [|c l Hc _ IH]; cbn [map app format_base].
  - by destruct n.
  - rewrite (proj2 (Z.eqb_neq (toupper c) 32)) by (rewrite toupper_eq; [done|lia]). rewrite IH. f_equal.
    destruct (Z.eqb_spec c 5) as [->|H5]; [done|]. rewrite (proj2 (Z.eqb_neq (toupper c) 5)) by (rewrite toupper_eq; [done|lia]).
    apply tolower_toupper.
Qed.
Lemma format_ext_pad l n : Forall (fun c => c <> 32) l -> format_ext (map toupper l ++ replicate n 32) = map tolower l.
Proof.
  induction 1 as [|c l Hc _ IH]; cbn [map app format_ext].
  - by destruct n.
  - rewrite (proj2 (Z.eqb_neq (toupper c) 32)) by (rewrite toupper_eq; [done|lia]). by rewrite IH, tolower_toupper.
Qed.
Lemma has_ext l n : Forall (fun c => c <> 32) l -> existsb (fun c => negb (c =? 32)) (map toupper l ++ replicate n 32) = negb (bool_decide (l = [])).
Proof.
  destruct 1 as [|c l Hc _]; cbn [map app existsb].
  - rewrite bool_decide_eq_true_2 by done. by induction n.
  - rewrite (proj2 (Z.eqb_neq (toupper c) 32)) by (rewrite toupper_eq; [done|lia]). done.
Qed.
Lemma c_string_no_nul l : no_nul l -> Minfs.c_string l = l.
Proof. induction 1 as [|c l Hc _ IH]; [done|]. cbn [Minfs.c_string]. rewrite (proj2 (Z.eqb_neq c 0)) by lia. by rewrite IH. Qed.

(** What a reader of the directory sees of a name that was stored. *)
Definition seen (n : list Z) : list Z :=
  map (fun c => if c =? 5 then 0xE5 else tolower c) (base_of n) ++ match ext_of n with [] => [] | e => 46 :: map tolower e end.

Lemma no_nul_parts n : no_nul n -> no_nul (base_of n) /\ no_nul (ext_of n).
Proof.
  intros H. destruct (name_parts n) as (dot & E & _ & _). rewrite E in H. apply Forall_app in H as [H1 H2]. apply Forall_app in H2 as [_ H2]. done.
Qed.
Lemma no_nul_seen n : no_nul n -> no_nul (seen n).
Proof.
  intros [H1 H2]%no_nul_parts. assert (forall l, no_nul l -> no_nul (map tolower l)) as Hl.
  { intros l Hl. apply Forall_map. eapply Forall_impl; [exact Hl|]. intros c Hc. cbn in Hc |- *. unfold tolower. case_match; bool_to_prop; lia. }
  unfold seen. apply Forall_app. split.
  - apply Forall_map. eapply Forall_impl; [exact H1|]. intros c Hc. cbn in Hc |- *. case_match; [lia|]. unfold tolower. case_match; bool_to_prop; lia.
  - destruct (ext_of n) as [|c e]; [constructor|]. constructor; [lia|]. by apply Hl.
Qed.

Lemma format_short n sn : no_nul n -> short_name n = Some sn -> fat32_format_filename sn.1 sn.2 = seen n.
Proof.
  intros Hn (-> & _ & _ & _ & Hb & He)%short_name_parts. cbn [fst snd]. unfold fat32_format_filename, pad_to.
  rewrite format_base_pad, has_ext, format_ext_pad by done.
  assert ((if negb (bool_decide (ext_of n = [])) then 46 :: map tolower (ext_of n) else []) = match ext_of n with [] => [] | e => 46 :: map tolower e end) as ->.
  { destruct (ext_of n); [done|]. by rewrite bool_decide_eq_false_2. }
  apply c_string_no_nul. by apply no_nul_seen.
Qed.

Lemma lower_special l : map tolower (map (fun c => if c =? 5 then 0xE5 else tolower c) l) = map tolower l <-> 5 ∉ l.
Proof.
  induction l as [|c l IH]; cbn [map]; [split; [intros _; apply not_elem_of_nil|done]|].
  rewrite not_elem_of_cons. destruct (Z.eqb_spec c 5) as [->|Hc].
  - split; [intros [= E _]; vm_compute in E; done|by intros [? _]].
  - rewrite tolower_idem. split.
    + intros [= E]. split; [done|]. by apply IH.
    + intros [_ Hl]. f_equal. by apply IH.
Qed.

(** A stored name compared with the name looked up. *)
Lemma short_found n m sn :
  no_nul n -> no_nul m -> short_name n = Some sn -> map tolower m = map tolower n ->
  fat32_stricmp (fat32_format_filename sn.1 sn.2) m = 0 <-> 5 ∉ base_of n /\ last n <> Some 46.
Proof.
  intros Hn Hm Hs Hnm. rewrite (format_short n) by done. rewrite stricmp_lower by (done || by apply no_nul_seen). rewrite Hnm.
  destruct (name_parts n) as (dot & E & He & Hdot). unfold seen. rewrite map_app.
  assert (map tolower n = map tolower (base_of n) ++ map tolower dot ++ map tolower (ext_of n)) as -> by (rewrite E at 1; by rewrite !map_app).
  assert (forall l, map tolower (map tolower l) = map tolower l) as Hid by (intros l; rewrite map_map; apply map_ext; apply tolower_idem).
  assert (ext_of n = [] -> dot = [46] -> last n = Some 46) as Hend by (intros E1 E2; rewrite E, E1, E2, app_nil_r; by rewrite last_snoc).
  destruct (ext_of n) as [|c e] eqn:Ee.
  - destruct Hdot as [->|(-> & _ & Hl)].
    + split; [|intros [_ Hl]; by rewrite Hend in Hl].
      intros H. apply (f_equal length) in H. rewrite !length_app, !length_map in H. cbn in H. lia.
    + cbn [map app]. rewrite !app_nil_r, lower_special. split; [|by intros []]. intros H5. split; [done|]. intros Hl'. apply Hl. by apply last_Some_elem_of.
  - destruct Hdot as [->|(_ & ? & _)]; [|done].
    assert (last n <> Some 46) as Hlast.
    { rewrite E. rewrite app_assoc, last_app_cons. intros Hl. apply He. by apply last_Some_elem_of. }
    change (map tolower (46 :: map tolower (c :: e))) with (46 :: map tolower (map tolower (c :: e))). rewrite Hid.
    change (map tolower [46] ++ map tolower (c :: e)) with (46 :: map tolower (c :: e)). split.
    + intros H. split; [|done]. apply app_inj_1 in H as [H _]; [by apply lower_special|by rewrite !length_map].
    + intros [H5 _]. f_equal. by apply lower_special.
Qed.

(** A name that [fat32_create] accepts is found again by a look-up with
    the same name, whatever the case of its letters, exactly when it does not
    end in a dot and the byte 5 does not occur before its last dot: the reader
    of a directory drops the dot of an empty extension and turns 5 into 0xE5. *)
Theorem short_name_roundtrip n m sn :
  no_nul n -> no_nul m -> short_name n = Some sn -> map tolower m = map tolower n ->
  fat32_stricmp (fat32_format_filename sn.1 sn.2) m = 0 <-> 5 ∉ base_of n /\ last n <> Some 46.
Proof. exact (short_found n m sn). Qed.

(** "Read.Me" is found as "rEAD.mE". *)
Lemma short_name_roundtrip_witness :
  exists sn, short_name [82; 101; 97; 100; 46; 77; 101] = Some sn /\ fat32_stricmp (fat32_format_filename sn.1 sn.2) [114; 69; 65; 68; 46; 109; 69] = 0.
Proof.
  destruct (short_name [82; 101; 97; 100; 46; 77; 101]) as [sn|] eqn:E; [|by vm_compute in E]. exists sn. split; [done|].
  assert (forall l, forallb (fun c => (0 <? c) && (c <? 256)) l = true -> no_nul l) as Hn.
  { intros l H. apply Forall_forall. intros c Hc%list_elem_of_In. rewrite forallb_forall in H. specialize (H c Hc). lia. }
  apply (short_name_roundtrip [82; 101; 97; 100; 46; 77; 101] [114; 69; 65; 68; 46; 109; 69] sn); [apply Hn; reflexivity|apply Hn; reflexivity|exact E|reflexivity|].
  split; [|discriminate]. change (base_of [82; 101; 97; 100; 46; 77; 101]) with [82; 101; 97; 100]. rewrite !not_elem_of_cons. split_and!; try done. apply not_elem_of_nil.
Defined.

(** ** The size of the table *)

(** One round of the loop of [fat32_calc_sectors_per_fat], without wraps. *)
Definition clusters_for (total spc spf : Z) : Z := (total - (32 + 2 * spf)) / spc.
Definition sectors_for (total spc spf : Z) : Z := (4 * (clusters_for total spc spf + 2) + 511) / 512.

Lemma spc_cases total : let spc := fat32_pick_sectors_per_cluster total in
  65536 <= total < 2 ^ 32 -> 1 <= spc <= 32 /\ total <= 2 ^ 27 * spc.
Proof. unfold fat32_pick_sectors_per_cluster. repeat case_match; bool_to_prop; lia. Qed.

Section sizes.
Context (total spc : Z) (Ht : 65536 <= total < 2 ^ 32) (Hs : 1 <= spc <= 32) (Hts : total <= 2 ^ 27 * spc).

(** Sizes the loop reaches. *)
Definition plausible (s : Z) : Prop := 1 <= s /\ 128 * (s - 2) <= total.

Lemma clusters_range s : plausible s -> 0 <= clusters_for total spc s <= total.
Proof. intros [H1 H2]. unfold clusters_for. assert (0 <= total - (32 + 2 * s)) by lia. split; [apply Z.div_pos; lia|]. apply Z.div_le_upper_bound; nia. Qed.
Lemma clusters_word s : plausible s -> clusters_for total spc s <= 2 ^ 27.
Proof. intros [H1 H2]. unfold clusters_for. apply Z.div_le_upper_bound; lia. Qed.
Lemma sectors_plausible s : plausible s -> plausible (sectors_for total spc s).
Proof. intros Hp. pose proof (clusters_range s Hp). unfold plausible, sectors_for. zlia. Qed.

(** A change of the table's size by [k] changes the size needed by [k / 64] at most. *)
Lemma sectors_slow s s' : plausible s -> plausible s' -> s <= s' -> 0 <= sectors_for total spc s - sectors_for total spc s' <= (s' - s) / 64 + 1.
Proof.
  intros Hp Hp' Hle. set (a := clusters_for total spc s). set (a' := clusters_for total spc s').
  assert (0 <= a - a' <= 2 * (s' - s)) as Ha.
  { unfold a, a', clusters_for. pose proof (Z.div_mod (total - (32 + 2 * s)) spc ltac:(lia)). pose proof (Z.mod_pos_bound (total - (32 + 2 * s)) spc ltac:(lia)).
    pose proof (Z.div_mod (total - (32 + 2 * s')) spc ltac:(lia)). pose proof (Z.mod_pos_bound (total - (32 + 2 * s')) spc ltac:(lia)). nia. }
  unfold sectors_for. fold a a'. clearbody a a'. zlia.
Qed.

Definition shrink (k : Z) : Z := k / 64 + 1.
Fixpoint shrunk (n : nat) (k : Z) : Z := match n with O => k | S n => shrunk n (shrink k) end.

Lemma calc_spf_near n s k :
  plausible s -> Z.abs (sectors_for total spc s - s) <= k -> 1 <= k ->
  let r := calc_spf n s total 32 2 spc 512 in plausible r /\ Z.abs (sectors_for total spc r - r) <= shrunk n k.
Proof.
  revert s k. induction n as [|n IH]; intros s k Hp Hk H1; cbn [calc_spf shrunk]; [done|].
  pose proof (clusters_word s Hp) as Hw. pose proof (clusters_range s Hp) as Hr. pose proof Hp as [Hp1 Hp2].
  rewrite (u32_small (2 * s)), (u32_small (32 + 2 * s)) by lia. rewrite (proj2 (Z.leb_gt total (32 + 2 * s))) by lia. fold (clusters_for total spc s).
  rewrite (u32_small (clusters_for total spc s + 2)) by lia. rewrite (u32_small (_ * 4)), (u32_small (_ + 512)), u32_small by lia.
  assert (((clusters_for total spc s + 2) * 4 + 512 - 1) / 512 = sectors_for total spc s) as -> by (unfold sectors_for; f_equal; lia).
  pose proof (sectors_plausible s Hp) as Hp'. rewrite (proj2 (Z.eqb_neq (sectors_for total spc s) 0)) by (destruct Hp'; lia).
  assert (1 <= shrink k) as Hsk by (unfold shrink; zlia).
  assert (forall m j, 1 <= j -> 0 <= shrunk m j) as Hpos.
  { induction m as [|m IHm]; intros j Hj; cbn [shrunk]; [lia|]. apply IHm. unfold shrink. zlia. }
  destruct (Z.eqb_spec (sectors_for total spc s) s) as [E|Hne].
  - split; [done|]. rewrite E, Z.sub_diag. by apply Hpos.
  - apply IH; [done| |done]. unfold shrink. destruct (Z.le_ge_cases s (sectors_for total spc s)).
    + pose proof (sectors_slow s (sectors_for total spc s) Hp Hp' ltac:(done)). zlia.
    + pose proof (sectors_slow (sectors_for total spc s) s Hp' Hp ltac:(done)). zlia.
Qed.
End sizes.

Lemma calc_spf_range total :
  65536 <= total < 2 ^ 32 ->
  let spc := fat32_pick_sectors_per_cluster total in
  let spf := fat32_calc_sectors_per_fat total 32 2 spc 512 in
  let clusters := (total - (32 + 2 * spf)) / spc in
  0 < spf /\ 32 + 2 * spf < total /\ 4 * (clusters + 2) <= 512 * (spf + 1) /\ 512 * (spf - 2) < 4 * (clusters + 2) /\ 0 <= clusters <= 2 ^ 27.
Proof.
  intros Ht spc spf clusters. destruct (spc_cases total Ht) as [Hs Hts]. fold spc in Hs, Hts.
  assert (plausible total 1) as Hp by (unfold plausible; lia).
  destruct (calc_spf_near total spc Ht Hs Hts 16 1 (2 ^ 26) Hp) as [Hr Hd]; [|lia|].
  { pose proof (sectors_plausible total spc Ht Hs 1 Hp) as [? ?]. lia. }
  change (calc_spf 16 1 total 32 2 spc 512) with spf in Hr, Hd. replace (shrunk 16 (2 ^ 26)) with 1 in Hd by (by vm_compute).
  pose proof (clusters_word total spc Hs Hts spf Hr) as Hcw. pose proof (clusters_range total spc Ht Hs spf Hr) as [Hc0 _].
  unfold sectors_for, clusters_for in Hd, Hcw, Hc0. change ((total - (32 + 2 * spf)) / spc) with clusters in Hd, Hcw, Hc0. clearbody clusters.
  pose proof (Z.div_mod (4 * (clusters + 2) + 511) 512 ltac:(lia)). pose proof (Z.mod_pos_bound (4 * (clusters + 2) + 511) 512 ltac:(lia)).
  clearbody spf. destruct Hr as [Hr1 Hr2]. clear -Hd Hr1 Hr2 Ht H H0 Hcw Hc0. lia.
Qed.

(** C26: The table [fat32_format] makes room for has an entry for every cluster
    of the volume, up to one sector of entries too few or too many: the loop
    that fits its size to the data area ends within its sixteen rounds at a
    size that needs itself, give or take one. *)
Theorem fat_size_bounds total :
  65536 <= total < 2 ^ 32 ->
  let spc := fat32_pick_sectors_per_cluster total in
  let spf := fat32_calc_sectors_per_fat total 32 2 spc 512 in
  let clusters := (total - (32 + 2 * spf)) / spc in
  0 < spf /\ 32 + 2 * spf < total /\ 4 * (clusters + 2) <= 512 * (spf + 1) /\ 512 * (spf - 2) < 4 * (clusters + 2).
Proof. intros Ht spc spf clusters. destruct (calc_spf_range total Ht) as (? & ? & ? & ? & _). done. Qed.

Lemma fat_size_bounds_witness :
  fat32_calc_sectors_per_fat 100000 32 2 1 512 = 769 /\ 4 * (98430 + 2) <= 512 * (769 + 1).
Proof.
  assert (65536 <= 100000 < 2 ^ 32) as Ht by lia. destruct (fat_size_bounds 100000 Ht) as (_ & _ & H & _).
  assert (fat32_calc_sectors_per_fat 100000 32 2 1 512 = 769) as E by (vm_compute; reflexivity).
  change (fat32_pick_sectors_per_cluster 100000) with 1 in H. rewrite E in H. split; [exact E|exact H].
Defined.

(** One size too few, at a volume of 3311294647 sectors. *)
Example fat_size_one_short :
  let total := 3311294647 in let spf := fat32_calc_sectors_per_fat total 32 2 (fat32_pick_sectors_per_cluster total) 512 in
  512 * spf < 4 * ((total - (32 + 2 * spf)) / fat32_pick_sectors_per_cluster total + 2).
Proof. by vm_compute. Qed.

(** ** The boot sector *)

Lemma encode_boot_length total spc spf : length (encode_boot total spc spf) = 512%nat.
Proof. reflexivity. Qed.

Lemma boot_spf total spc spf : 0 <= spf < 2 ^ 32 -> boot_sectors_per_fat_32 (encode_boot total spc spf) = spf.
Proof.
  intros H. change (boot_sectors_per_fat_32 (encode_boot total spc spf)) with (le_combine (le_split 4 spf)). by apply le_combine_split.
Qed.

(** What a mount reads in a boot sector that formatting wrote. *)
Lemma parse_encode fs total spc spf :
  1 <= spc <= 32 -> 0 < spf -> 32 + 2 * spf < 2 ^ 32 ->
  fat32_parse_boot_sector fs (encode_boot total spc spf) =
    (0, mk_fat (dev_index fs) 512 spc (512 * spc) 2 2 32 (sectors_per_fat fs) (32 + 2 * spf) (total_clusters fs) (fat_table fs) (root_node fs)).
Proof.
  intros Hs Hp Hw. unfold fat32_parse_boot_sector. rewrite boot_spf by lia. set (b := encode_boot total spc spf).
  change (byte_at 510 b) with 0x55. change (byte_at 511 b) with 0xAA. change (boot_root_entries b) with 0. change (boot_sectors_per_fat_16 b) with 0.
  change (boot_total_sectors_16 b) with 0. change (boot_bytes_per_sector b) with 512. change (boot_sectors_per_cluster b) with spc.
  change (boot_num_fats b) with 2. change (boot_root_cluster b) with 2. change (boot_reserved_sectors b) with 32.
  rewrite (u32_small (512 * spc)), (u32_small (2 * spf)), u32_small by lia. change FAT32_MAGIC_BYTE_510 with 0x55. change FAT32_MAGIC_BYTE_511 with 0xAA.
  by zbool.
Qed.
End FatName.
