(* ===== verification/FatSpec.v ===== *)
(** * Correctness of the FAT32 driver

    The driver of [Fat32.v] over any disk of 512-byte sectors ([SectorDisk]).
    A file is its chain of clusters in the allocation table; its contents are
    the sectors of those clusters. The theorems say what reading, writing and
    truncating do to contents, table and directory entry, and that they leave
    every other file alone ([frame]). *)

From S2P Require Import Prelude Ring BlockDev VfsPath Vfs Minfs Fat32 FatDisk.

Module FatSpec.
Import VfsPath Vfs BlockDev Fat32 Bytes Triple.

Section spec.
Context {D : Type} {B : BlockStore D} (dev count : Z) {L : SectorDisk D dev count} (serves : nat -> bool) (junk : Z -> list Z).
Abbreviation VF := (vfs (fat_state D)).
Implicit Types (fs : fat32_mount_t) (d : D).

(** ** States of one mount

    The operations on the mount at [p] change the nodes, the records behind
    them, the mount itself, the disk and the count of heap requests; the rest
    is that of a state [s0]. *)
Context (s0 : VF) (p : Z).
Definition st N I fs d k : VF :=
  mk_vfs (vfs_root s0) (vfs_mounts s0) N (pipes s0) (tasks s0) (current s0) (next_inode s0) k
    (mk_state (g_mounts (ext s0)) (<[p := fs]> (fat_mounts (ext s0))) I (fat_next_inode (ext s0)) d).

Lemma wp_get_fs N I fs d k Q : Q fs (st N I fs d k) -> wp (get_fs p) Q (st N I fs d k).
Proof. intros H. unfold wp, get_fs. cbn [ext fat_mounts st]. by rewrite lookup_insert_eq. Qed.
Lemma wp_put_fs N I fs fs' d k Q : Q tt (st N I fs' d k) -> wp (put_fs p fs') Q (st N I fs d k).
Proof.
  intros H. unfold wp, put_fs, mod_ext, modify, set_ext, set_mount, st. cbn. rewrite insert_insert_eq. exact H.
Qed.
Lemma wp_kalloc N I fs d k Q :
  Q (if serves k then Z.of_nat k + 1 else NULL) (st N I fs d (S k)) -> wp (kalloc serves) Q (st N I fs d k).
Proof. done. Qed.
Lemma wp_deref N I fs d k a n Q : N !! a = Some n -> Q n (st N I fs d k) -> wp (deref a) Q (st N I fs d k).
Proof. intros Hn H. unfold wp, deref. cbn [nodes st]. by rewrite Hn. Qed.
Lemma wp_get_impl N I fs d k a i Q : I !! a = Some i -> Q i (st N I fs d k) -> wp (get_impl a) Q (st N I fs d k).
Proof. intros Hn H. unfold wp, get_impl. cbn [ext fat_impls st]. by rewrite Hn. Qed.
Lemma wp_put_node N I fs d k a n Q : Q tt (st (<[a := n]> N) I fs d k) -> wp (put_node a n) Q (st N I fs d k).
Proof. done. Qed.
Lemma wp_put_impl N I fs d k a i Q : Q tt (st N (<[a := i]> I) fs d k) -> wp (put_impl a i) Q (st N I fs d k).
Proof. done. Qed.
Lemma wp_device {A} (f : D -> A * D) N I fs d k Q :
  (let '(a, d') := f d in Q a (st N I fs d' k)) -> wp (device f) Q (st N I fs d k).
Proof. unfold wp, device. cbn [ext fat_disk st]. by destruct (f d). Qed.
Lemma wp_look {A} (f : D -> A) N I fs d k Q : Q (f d) (st N I fs d k) -> wp (look f) Q (st N I fs d k).
Proof. done. Qed.

(** ** Sectors *)

(** The contents of the disk are the same. *)
Record same d d' : Prop := {
  sm_inv : sd_inv d';
  sm_sector : forall k, 0 <= k < count -> sd_sector d' k = sd_sector d k;
  sm_good : sd_good d -> sd_good d'
}.
Lemma same_refl d : sd_inv d -> same d d.
Proof. by split. Qed.
Lemma same_trans d1 d2 d3 : same d1 d2 -> same d2 d3 -> same d1 d3.
Proof. intros [] []. split; [done| |auto]. intros k Hk. etrans; [by apply sm_sector1|by apply sm_sector0]. Qed.

(** [d'] is [d] but for the sectors [lba .. lba + n). *)
Record differ_in (lba n : Z) d d' : Prop := {
  df_inv : sd_inv d';
  df_sector : forall k, 0 <= k < count -> k < lba \/ lba + n <= k -> sd_sector d' k = sd_sector d k;
  df_good : sd_good d -> sd_good d'
}.
Lemma differ_refl lba n d : sd_inv d -> differ_in lba n d d.
Proof. by split. Qed.
Lemma differ_trans lba n lba1 n1 lba2 n2 d1 d2 d3 :
  differ_in lba1 n1 d1 d2 -> differ_in lba2 n2 d2 d3 -> lba <= lba1 -> lba1 + n1 <= lba + n -> lba <= lba2 -> lba2 + n2 <= lba + n ->
  differ_in lba n d1 d3.
Proof.
  intros [] [] *. split; [done| |auto]. intros k Hk Ho. rewrite df_sector1, df_sector0; done || lia.
Qed.
Lemma differ_mono lba n lba1 n1 d d' : differ_in lba1 n1 d d' -> lba <= lba1 -> lba1 + n1 <= lba + n -> differ_in lba n d d'.
Proof. intros [] *. split; [done| |done]. intros k Hk Ho. apply df_sector0; lia. Qed.
Lemma same_differ lba n d d' : same d d' -> differ_in lba n d d'.
Proof. intros []. split; auto. Qed.

Definition sectors_from d (lba n : Z) : list Z := concat (map (sd_sector d) (seqZ lba n)).
Lemma length_sectors_from d lba n : sd_inv d -> 0 <= lba -> 0 <= n -> lba + n <= count -> Z.of_nat (length (sectors_from d lba n)) = 512 * n.
Proof.
  intros Hi Hl Hn Hc. unfold sectors_from.
  assert (forall l, Forall (fun k => 0 <= k < count) l -> length (concat (map (sd_sector d) l)) = (512 * length l)%nat) as H.
  { induction 1 as [|k l Hk _ IH]; [done|]. cbn [map concat length]. rewrite length_app, IH, sd_length by done. lia. }
  rewrite H. { rewrite length_seqZ. lia. }
  apply Forall_forall. intros k [? ?]%elem_of_seqZ. lia.
Qed.
Lemma sectors_from_cons d lba n : 0 < n -> sectors_from d lba n = sd_sector d lba ++ sectors_from d (lba + 1) (n - 1).
Proof. intros H. unfold sectors_from. rewrite seqZ_cons by done. cbn [map concat]. do 4 f_equal; lia. Qed.
Lemma sectors_from_ext d d' lba n :
  (forall k, lba <= k < lba + n -> sd_sector d' k = sd_sector d k) -> sectors_from d' lba n = sectors_from d lba n.
Proof.
  intros H. unfold sectors_from. f_equal. apply map_ext_in. intros k Hk. apply list_elem_of_In, elem_of_seqZ in Hk. auto.
Qed.

Lemma wp_read_sector N I fs d k lba off buf Q :
  sd_inv d -> 0 <= lba -> 0 <= off -> off + 512 <= zlen buf ->
  (forall rc d', same d d' -> (rc < 0 \/ lba < count /\ rc = 0) -> (sd_good d -> lba < count -> 0 <= rc) ->
     forall rc', (rc' < 0 <-> rc < 0) -> Q (rc', if rc <? 0 then buf else splice off (sd_sector d lba) buf) (st N I fs d' k)) ->
  wp (read_sector dev lba off buf) Q (st N I fs d k).
Proof.
  intros Hi Hl Ho Hb HQ. unfold read_sector. apply wp_bind, wp_device. pose proof (sd_read d lba Hi Hl) as H.
  destruct (bs_read dev lba 1 d) as [[rc bytes] d']. destruct H as (Hi' & Hs & Hr & Hg). cbn [fst snd].
  destruct (Z.ltb_spec rc 0) as [Hn|Hp].
  - apply wp_ret. apply (HQ (-1) d'); [split; [done|exact Hs|intros G; by apply Hg]|by left| |lia].
    intros G Hc. destruct (Hg G) as [_ H]. specialize (H Hc). lia.
  - destruct (Hr Hp) as [Hc ->]. unfold zlen. rewrite sd_length by done. fold (zlen buf).
    rewrite (proj2 (Z.ltb_ge _ _)) by lia. apply wp_ret.
    apply (HQ 0 d'); [split; [done|exact Hs|intros G; by apply Hg]|by right| |lia]. lia.
Qed.

Lemma wp_write_sector N I fs d k lba off buf Q :
  sd_inv d -> 0 <= lba -> 0 <= off -> off + 512 <= zlen buf ->
  (forall rc d', differ_in lba 1 d d' -> (0 <= rc -> lba < count /\ sd_sector d' lba = slice off 512 buf) ->
     (sd_good d -> lba < count -> 0 <= rc) -> Q rc (st N I fs d' k)) ->
  wp (write_sector dev lba off buf) Q (st N I fs d k).
Proof.
  intros Hi Hl Ho Hb HQ. unfold write_sector. apply wp_bind, wp_look. destruct (sd_get d Hi) as (b & -> & ->).
  rewrite (proj2 (Z.ltb_ge _ _)) by lia. apply wp_device.
  assert (length (slice off 512 buf) = 512%nat) as Hlen by (unfold zlen in Hb; rewrite length_slice; lia).
  pose proof (sd_write d lba _ Hi Hl Hlen) as H. destruct (bs_write dev lba 1 _ d) as [rc d']. destruct H as (Hi' & Hs & Hr & Hg).
  apply HQ; [|exact Hr|intros G; by apply Hg]. split; [done| |intros G; by apply Hg]. intros j Hj Hout. apply Hs; lia.
Qed.

Lemma wp_read_sectors n N I fs d k lba i buf :
  sd_inv d -> 0 <= lba -> 0 <= i -> (i + Z.of_nat n) * 512 = zlen buf -> zlen buf < 2 ^ 32 -> lba + i + Z.of_nat n <= count ->
  wp (read_sectors n dev lba 512 i buf) (fun r s' => exists d', s' = st N I fs d' k /\ same d d' /\ zlen r.2 = zlen buf /\
      (r.1 = -1 \/ r = (0, take (Z.to_nat (i * 512)) buf ++ sectors_from d (lba + i) (Z.of_nat n))) /\
      (sd_good d -> r.1 = 0)) (st N I fs d k).
Proof.
  revert d i buf. induction n as [|n IH]; intros d i buf Hi Hl H0 Hb Hm Hc; cbn [read_sectors].
  { apply wp_ret. exists d. split_and!; [done|by apply same_refl|done| |done]. right. f_equal.
    unfold sectors_from. cbn. rewrite app_nil_r, take_ge; [done|]. unfold zlen in *. lia. }
  rewrite (u32_small (i * 512)) by lia. apply wp_bind, wp_read_sector; [done|lia..|].
  intros rc d1 Hs1 Hrc Hg rc' Hrc'. cbn [fst snd]. destruct (Z.ltb_spec rc' 0) as [Hn|Hp].
  - apply wp_ret. exists d1. cbn [fst snd]. rewrite (proj2 (Z.ltb_lt rc 0)) by tauto. split_and!; [done..|by left|].
    intros G. specialize (Hg G). lia.
  - rewrite (proj2 (Z.ltb_ge rc 0)) by lia. clear Hrc Hrc' Hp rc' Hg.
    assert (length (sd_sector d (lba + i)) = 512%nat) as Hlen by (apply sd_length; [done|lia]).
    assert (zlen (splice (i * 512) (sd_sector d (lba + i)) buf) = zlen buf) as Hl'.
    { unfold zlen in *. rewrite length_splice; lia. }
    eapply wp_mono; [apply (IH d1 (i + 1)); [apply Hs1|lia..]|].
    intros r s' (d2 & -> & Hs2 & Hzl & Hr & Hg2). exists d2. split_and!; [done|by eapply same_trans|lia| |].
    + destruct Hr as [Hr|Hr]; [by left|right]. rewrite Hr. f_equal.
      assert ((i + 1) * 512 = i * 512 + Z.of_nat (length (sd_sector d (lba + i)))) as -> by lia.
      rewrite take_splice by (unfold zlen in *; lia). rewrite <- app_assoc. f_equal.
      rewrite (sectors_from_cons d (lba + i)) by lia. f_equal.
      replace (Z.of_nat (S n) - 1) with (Z.of_nat n) by lia. replace (lba + (i + 1)) with (lba + i + 1) by lia.
      apply sectors_from_ext. intros. apply Hs1. lia.
    + intros G. apply Hg2. by apply Hs1.
Qed.

Lemma wp_write_sectors n N I fs d k lba i buf :
  sd_inv d -> 0 <= lba -> 0 <= i -> (i + Z.of_nat n) * 512 = zlen buf -> zlen buf < 2 ^ 32 ->
  wp (write_sectors n dev lba 512 i buf) (fun rc s' => exists d', s' = st N I fs d' k /\ differ_in (lba + i) (Z.of_nat n) d d' /\
      (rc = -1 \/ rc = 0 /\ (n <> 0%nat -> lba + i + Z.of_nat n <= count) /\ sectors_from d' (lba + i) (Z.of_nat n) = drop (Z.to_nat (i * 512)) buf) /\
      (sd_good d -> lba + i + Z.of_nat n <= count -> rc = 0)) (st N I fs d k).
Proof.
  revert d i. induction n as [|n IH]; intros d i Hi Hl H0 Hb Hm; cbn [write_sectors].
  { apply wp_ret. exists d. split_and!; [done|by apply differ_refl| |done]. right. split_and!; [done|done|].
    unfold sectors_from. cbn. rewrite drop_ge; [done|]. unfold zlen in *. lia. }
  rewrite (u32_small (i * 512)) by lia. apply wp_bind, wp_write_sector; [done|lia..|].
  intros rc d1 Hs1 Hrc Hg. destruct (Z.ltb_spec rc 0) as [Hn|Hp].
  - apply wp_ret. exists d1. split_and!; [done| |by left|].
    + eapply differ_mono; [exact Hs1|lia..].
    + intros G. specialize (Hg G). lia.
  - destruct (Hrc Hp) as [Hc Hw].
    eapply wp_mono; [apply (IH d1 (i + 1)); [apply Hs1|lia..]|].
    intros r s' (d2 & -> & Hs2 & Hr & Hg2). exists d2. split_and!; [done|by eapply differ_trans; [exact Hs1|exact Hs2|lia..]| |].
    + destruct Hr as [Hr|(Hr & Hle & Hd)]; [by left|right]. split_and!; [done|lia|].
      rewrite sectors_from_cons by lia. replace (Z.of_nat (S n) - 1) with (Z.of_nat n) by lia.
      replace (lba + (i + 1)) with (lba + i + 1) in Hd by lia. rewrite Hd.
      rewrite (df_sector _ _ _ _ Hs2) by lia. rewrite Hw. unfold slice. rewrite <- (take_drop (Z.to_nat 512) (drop (Z.to_nat (i * 512)) buf)) at 2.
      f_equal. rewrite drop_drop. f_equal. lia.
    + intros G Hle. apply Hg2; [by apply Hs1|lia].
Qed.

(** ** One volume *)

Context (fs0 : fat32_mount_t).
Abbreviation spc := (sectors_per_cluster fs0).
Abbreviation bpc := (bytes_per_cluster fs0).
Abbreviation spf := (sectors_per_fat fs0).
Abbreviation total := (total_clusters fs0).
Abbreviation fat_lba := (fat_start_sector fs0).
Abbreviation data_lba := (data_start_sector fs0).

(** The geometry of a mounted volume whose tables and data are apart. *)
Record vol_ok : Prop := {
  vo_dev : dev_index fs0 = dev;
  vo_bps : bytes_per_sector fs0 = 512;
  vo_spc : 0 < spc <= 64;
  vo_bpc : bpc = 512 * spc;
  vo_fats : 0 < num_fats fs0;
  vo_spf : 0 < spf < 2 ^ 21;
  vo_total : total = 128 * spf;
  vo_start : 0 <= fat_lba;
  vo_data : fat_lba + num_fats fs0 * spf <= data_lba <= count;
  vo_root : 2 <= root_cluster fs0 < total
}.
Context (Hvol : vol_ok).
Ltac vol := destruct Hvol.

(** The mount with the table [t]. *)
Definition vol (t : list Z) : fat32_mount_t := with_table (Some t) fs0.
Definition table_ok (t : list Z) : Prop := zlen t = 512 * spf.

(** *** Clusters *)

Definition cluster_lba c : Z := data_lba + (c - 2) * spc.
Definition on_disk c : Prop := 2 <= c /\ cluster_lba c + spc <= count.
Definition cluster_data d c : list Z := sectors_from d (cluster_lba c) spc.

Lemma cluster_lba_nonneg c : 2 <= c -> 0 <= cluster_lba c.
Proof. vol. unfold cluster_lba. nia. Qed.
Lemma cluster_lba_data c : 2 <= c -> data_lba <= cluster_lba c.
Proof. vol. unfold cluster_lba. nia. Qed.
Lemma length_cluster_data d c : sd_inv d -> on_disk c -> zlen (cluster_data d c) = bpc.
Proof.
  intros Hi [Hc Ho]. pose proof (cluster_lba_nonneg c Hc). vol. unfold cluster_data, zlen. rewrite length_sectors_from; done || lia.
Qed.
Lemma same_cluster d d' c : same d d' -> on_disk c -> cluster_data d' c = cluster_data d c.
Proof.
  intros Hs [Hc Ho]. pose proof (cluster_lba_nonneg c Hc). apply sectors_from_ext. intros. apply Hs. lia.
Qed.
(** Changes elsewhere leave a cluster alone. *)
Lemma differ_cluster lba n d d' c :
  differ_in lba n d d' -> on_disk c -> cluster_lba c + spc <= lba \/ lba + n <= cluster_lba c -> cluster_data d' c = cluster_data d c.
Proof.
  intros Hd [Hc Ho] Ha. pose proof (cluster_lba_nonneg c Hc). apply sectors_from_ext. intros. apply Hd; lia.
Qed.
Lemma clusters_apart c c' : 2 <= c -> 2 <= c' -> c <> c' -> cluster_lba c + spc <= cluster_lba c' \/ cluster_lba c' + spc <= cluster_lba c.
Proof. vol. unfold cluster_lba. nia. Qed.

Lemma cluster_to_lba t c : 2 <= c -> fat32_cluster_to_lba (vol t) c = cluster_lba c.
Proof. intros. unfold fat32_cluster_to_lba. by rewrite (proj2 (Z.ltb_ge _ _)) by lia. Qed.

Lemma wp_read_cluster N I t fs d k c buf :
  sd_inv d -> on_disk c -> zlen buf = bpc ->
  wp (fat32_read_cluster (vol t) c buf) (fun r s' => exists d', s' = st N I fs d' k /\ same d d' /\ zlen r.2 = bpc /\
      (r.1 = -1 \/ r = (0, cluster_data d c)) /\ (sd_good d -> r.1 = 0)) (st N I fs d k).
Proof.
  intros Hi [Hc Ho] Hb. pose proof (cluster_lba_nonneg c Hc). unfold fat32_read_cluster. rewrite (proj2 (Z.ltb_ge c 2)) by lia.
  rewrite cluster_to_lba by done. cbn [sectors_per_cluster dev_index bytes_per_sector vol with_table].
  pose proof (vo_spc Hvol). pose proof (vo_bpc Hvol). rewrite (vo_dev Hvol), (vo_bps Hvol).
  eapply wp_mono; [apply wp_read_sectors; [done|lia..]|]. rewrite Z.add_0_r, Z2Nat.id by lia.
  intros r s' (d' & -> & Hs & Hl & Hr & Hg). exists d'. rewrite Hb in Hl. done.
Qed.

Lemma wp_write_cluster N I t fs d k c buf :
  sd_inv d -> 2 <= c -> zlen buf = bpc ->
  wp (fat32_write_cluster (vol t) c buf) (fun rc s' => exists d', s' = st N I fs d' k /\ differ_in (cluster_lba c) spc d d' /\
      (rc = -1 \/ rc = 0 /\ on_disk c /\ cluster_data d' c = buf) /\ (sd_good d -> on_disk c -> rc = 0)) (st N I fs d k).
Proof.
  intros Hi Hc Hb. pose proof (cluster_lba_nonneg c Hc). unfold fat32_write_cluster. rewrite (proj2 (Z.ltb_ge c 2)) by lia.
  rewrite cluster_to_lba by done. cbn [sectors_per_cluster dev_index bytes_per_sector vol with_table].
  pose proof (vo_spc Hvol). pose proof (vo_bpc Hvol). rewrite (vo_dev Hvol), (vo_bps Hvol).
  eapply wp_mono; [apply wp_write_sectors; [done|lia..]|]. rewrite Z.add_0_r, Z2Nat.id by lia.
  intros r s' (d' & -> & Hs & Hr & Hg). exists d'. split_and!; [done..| |intros G [_ Ho]; by apply Hg].
  destruct Hr as [Hr|(Hr & Hle & Hdt)]; [by left|right]. split_and!; [done|split; [done|lia]|exact Hdt].
Qed.

(** *** The table *)

Definition value (t : list Z) c : Z := fat_value t c.
Definition set_entry c v t : list Z := put_raw c (Z.lor (Z.land (raw_entry t c) 0xF0000000) (Z.land v 0x0FFFFFFF)) t.
Definition in_table c : Prop := 2 <= c < total.

Lemma value_range t c : 0 <= value t c < 2 ^ 28.
Proof. unfold value, fat_value. change 0x0FFFFFFF with (Z.ones 28). rewrite Z.land_ones by lia. apply Z.mod_pos_bound. lia. Qed.

Lemma entry_bits w v : 0 <= v < 2 ^ 28 ->
  let e := Z.lor (Z.land w 0xF0000000) (Z.land v 0x0FFFFFFF) in 0 <= e < 2 ^ 32 /\ Z.land e 0x0FFFFFFF = v.
Proof.
  intros Hv e. assert (Z.land v 0x0FFFFFFF = v) as Hl.
  { change 0x0FFFFFFF with (Z.ones 28). rewrite Z.land_ones by lia. apply Z.mod_small. lia. }
  split.
  - assert (Z.land e (Z.ones 32) = e) as He.
    { unfold e. rewrite Z.land_lor_distr_l, <- !Z.land_assoc. done. }
    rewrite <- He, Z.land_ones by lia. apply Z.mod_pos_bound. lia.
  - unfold e. rewrite Z.land_lor_distr_l, <- !Z.land_assoc. change (Z.land 0xF0000000 0x0FFFFFFF) with 0. by rewrite Z.land_0_r.
Qed.

Lemma length_set_entry c v t : table_ok t -> in_table c -> zlen (set_entry c v t) = zlen t.
Proof.
  intros Ht Hc. vol. unfold in_table, table_ok in *. unfold set_entry, put_raw, zlen in *. rewrite length_splice; rewrite ?length_le_split; lia.
Qed.
Lemma table_ok_set c v t : table_ok t -> in_table c -> table_ok (set_entry c v t).
Proof. intros Ht Hc. unfold table_ok. by rewrite length_set_entry. Qed.

Lemma value_set c v t c' :
  table_ok t -> in_table c -> 0 <= v < 2 ^ 28 -> in_table c' ->
  value (set_entry c v t) c' = if decide (c' = c) then v else value t c'.
Proof.
  intros Ht Hc Hv Hc'. vol. unfold in_table, table_ok, zlen in *. unfold value, fat_value.
  destruct (entry_bits (raw_entry t c) v Hv) as [Hr Hb]. unfold set_entry. set (e := Z.lor _ _) in *. clearbody e.
  assert (raw_entry (put_raw c e t) c' = if decide (c' = c) then e else raw_entry t c') as ->.
  { unfold raw_entry, put_raw, Minfs.word_at. case_decide as E; [subst c'|].
    - change 4 with (Z.of_nat (length (le_split 4 e))) at 2. rewrite slice_splice_same by (rewrite ?length_le_split; lia).
      apply le_combine_split. exact Hr.
    - rewrite slice_splice_disj; rewrite ?length_le_split; done || lia. }
  by case_decide.
Qed.

(** Every copy of the table on disk is the table in memory. *)
Definition synced (t : list Z) d : Prop :=
  forall f s, 0 <= f < num_fats fs0 -> 0 <= s < spf -> sd_sector d (fat_lba + f * spf + s) = slice (s * 512) 512 t.

Lemma fat_sector_bound f s : 0 <= f < num_fats fs0 -> 0 <= s < spf -> fat_lba <= fat_lba + f * spf + s < data_lba.
Proof. vol. nia. Qed.

Lemma wp_flush_copies n N I t d k fat s :
  sd_inv d -> 0 <= fat -> fat + Z.of_nat n <= num_fats fs0 -> 0 <= s < spf -> table_ok t ->
  wp (flush_copies n (vol t) t fat s) (fun rc s' => exists d', s' = st N I (vol t) d' k /\ sd_inv d' /\ (sd_good d -> sd_good d' /\ rc = 0) /\
      (forall l, 0 <= l < count -> (forall f, fat <= f < fat + Z.of_nat n -> l <> fat_lba + f * spf + s) -> sd_sector d' l = sd_sector d l) /\
      (rc = -1 \/ rc = 0 /\ forall f, fat <= f < fat + Z.of_nat n -> sd_sector d' (fat_lba + f * spf + s) = slice (s * 512) 512 t))
    (st N I (vol t) d k).
Proof.
  revert d fat. induction n as [|n IH]; intros d fat Hi Hf Hn Hs Ht; cbn [flush_copies].
  { apply wp_ret. exists d. split_and!; [done..|]. right. split; [done|]. intros f ?. lia. }
  cbn [dev_index fat_start_sector sectors_per_fat bytes_per_sector vol with_table]. pose proof (vo_spf Hvol).
  rewrite (vo_dev Hvol), (vo_bps Hvol). rewrite u32_small by lia. pose proof (fat_sector_bound fat s ltac:(lia) Hs) as Hb.
  pose proof (vo_start Hvol). pose proof (vo_data Hvol).
  apply wp_bind, wp_write_sector; [done|lia|lia|unfold table_ok in Ht; lia|].
  intros rc d1 Hd1 Hrc Hg. destruct (Z.ltb_spec rc 0) as [Hneg|Hpos].
  - apply wp_ret. exists d1. split_and!; [done|apply Hd1| | |by left].
    + intros G. specialize (Hg G). lia.
    + intros l Hl Hne. apply Hd1; [done|]. specialize (Hne fat). lia.
  - destruct (Hrc Hpos) as [_ Hw]. eapply wp_mono; [apply IH; [apply Hd1|lia..|done|done]|].
    intros r s' (d2 & -> & Hi2 & Hg2 & Hsec & Hr). exists d2. split_and!; [done..| | |].
    + intros G. apply Hg2. by apply Hd1.
    + intros l Hl Hne. rewrite Hsec; [|done|intros f Hf'; apply Hne; lia]. apply Hd1; [done|]. specialize (Hne fat). lia.
    + destruct Hr as [Hr|[Hr Hall]]; [by left|right]. split; [done|]. intros f Hf'. destruct (decide (f = fat)) as [->|Hne]; [|apply Hall; lia].
      rewrite Hsec; [done|lia|]. intros f' Hf''. nia.
Qed.

Lemma wp_set_fat_entry N I t d k c v :
  sd_inv d -> table_ok t -> in_table c ->
  wp (fat32_set_fat_entry p c v) (fun rc s' => exists d', s' = st N I (vol (set_entry c v t)) d' k /\
      differ_in fat_lba (data_lba - fat_lba) d d' /\ (rc = -1 \/ rc = 0 /\ (synced t d -> synced (set_entry c v t) d')) /\ (sd_good d -> rc = 0))
    (st N I (vol t) d k).
Proof.
  intros Hi Ht Hc. unfold fat32_set_fat_entry. apply wp_bind, wp_get_fs. cbn [fat_table vol with_table total_clusters].
  unfold in_table in Hc. pose proof (vo_spf Hvol). pose proof (vo_total Hvol). pose proof (vo_data Hvol). pose proof (vo_start Hvol).
  rewrite (proj2 (Z.ltb_ge _ _)), (proj2 (Z.leb_gt _ _)) by lia. cbn [orb]. apply wp_bind, wp_put_fs.
  change (with_table (Some (put_raw c (Z.lor (Z.land (raw_entry t c) 0xF0000000) (Z.land v 0x0FFFFFFF)) t)) (vol t)) with (vol (set_entry c v t)).
  unfold fat32_flush_fat_sector. cbn [fat_table vol with_table bytes_per_sector sectors_per_fat num_fats].
  rewrite (vo_bps Hvol). rewrite u32_small by lia. set (s := c * 4 / 512).
  assert (0 <= s < spf /\ s * 512 <= 4 * c /\ 4 * c + 4 <= s * 512 + 512) as (Hs & Hs1 & Hs2) by (unfold s; zlia). clearbody s.
  rewrite (proj2 (Z.leb_gt _ _)) by lia. pose proof (table_ok_set c v t Ht Hc) as Ht'. pose proof (vo_fats Hvol).
  eapply wp_mono; [apply wp_flush_copies; [done|lia..|done]|]. rewrite Z2Nat.id by lia.
  intros rc s' (d' & -> & Hi' & Hg & Hsec & Hr). exists d'. split_and!; [done| | |intros G; by apply Hg].
  - split; [done| |intros G; by apply Hg]. intros l Hl Hout. apply Hsec; [done|]. intros f Hf ->.
    pose proof (fat_sector_bound f s ltac:(lia) Hs). lia.
  - destruct Hr as [Hr|[Hr Hall]]; [by left|right]. split; [done|]. intros Hsy f s1 Hf Hs1'.
    destruct (decide (s1 = s)) as [->|Hne]; [apply Hall; lia|].
    pose proof (fat_sector_bound f s1 Hf Hs1'). rewrite Hsec; [|lia|intros f' Hf' E; assert (f = f') by nia; subst f'; nia].
    rewrite Hsy by done. unfold set_entry, put_raw. unfold table_ok, zlen in Ht. rewrite slice_splice_disj; rewrite ?length_le_split; done || lia.
Qed.

(** *** Chains *)

Definition next_of (t : list Z) c : Z := fat32_get_next_cluster (vol t) c.

(** [cs] are the clusters of the chain that starts at [c]. *)
Inductive chain (t : list Z) : Z -> list Z -> Prop :=
  | chain_end : chain t 0 []
  | chain_link c cs : in_table c -> chain t (next_of t c) cs -> chain t c (c :: cs).

Lemma next_of_value t c : in_table c -> next_of t c = if 0x0FFFFFF7 <=? value t c then 0 else value t c.
Proof.
  intros [H1 H2]. unfold next_of, fat32_get_next_cluster. cbn [fat_table vol with_table total_clusters].
  rewrite (proj2 (Z.ltb_ge _ _)), (proj2 (Z.leb_gt _ _)) by lia. unfold FAT_ENTRY_EOF_MARKER, FAT_ENTRY_BAD_CLUSTER. fold (value t c).
  destruct (Z.leb_spec 0x0FFFFFF8 (value t c)); [by rewrite (proj2 (Z.leb_le _ _)) by lia|done].
Qed.
Lemma next_of_zero t : next_of t 0 = 0.
Proof. done. Qed.
Lemma next_of_ext t t' c : in_table c -> value t' c = value t c -> next_of t' c = next_of t c.
Proof. intros Hc E. by rewrite !next_of_value, E. Qed.

Lemma chain_in_table t c cs : chain t c cs -> Forall in_table cs.
Proof. induction 1; by constructor. Qed.
Lemma chain_det t c cs cs' : chain t c cs -> chain t c cs' -> cs = cs'.
Proof.
  intros H. revert cs'. induction H as [|c cs Hc _ IH]; intros cs' H'; inversion H' as [|? ? Hc']; subst; try done.
  - by destruct Hc'.
  - by destruct Hc.
  - f_equal. by apply IH.
Qed.
Lemma chain_suffix t c cs x l1 l2 : chain t c cs -> cs = l1 ++ x :: l2 -> chain t x (x :: l2).
Proof.
  intros H. revert l1. induction H as [|c cs Hc Hch IH]; intros l1 E; [by destruct l1|].
  destruct l1 as [|y l1]; cbn in E; simplify_eq; [by constructor|]. by eapply IH.
Qed.
Lemma chain_nodup t c cs : chain t c cs -> NoDup cs.
Proof.
  intros H. apply NoDup_alt. intros i j x Hi Hj.
  assert (forall i, cs !! i = Some x -> chain t x (x :: drop (S i) cs)) as Hs.
  { intros i' Hi'. eapply chain_suffix; [exact H|]. symmetry. by apply take_drop_middle. }
  pose proof (chain_det _ _ _ _ (Hs i Hi) (Hs j Hj)) as E. simplify_eq. apply (f_equal length) in E. rewrite !length_drop in E.
  apply lookup_lt_Some in Hi, Hj. lia.
Qed.
Lemma chain_ext t t' c cs : chain t c cs -> (forall x, x ∈ cs -> value t' x = value t x) -> chain t' c cs.
Proof.
  induction 1 as [|c cs Hc _ IH]; intros He; [constructor|]. constructor; [done|].
  rewrite (next_of_ext t) by (try done; apply He, list_elem_of_here). apply IH. intros x Hx. apply He. by apply list_elem_of_further.
Qed.
Lemma chain_head t c cs : chain t c cs -> c = hd 0 cs.
Proof. by destruct 1. Qed.

(** The chain continues from any of its clusters. *)
Lemma chain_next t c cs (i : nat) x : chain t c cs -> cs !! i = Some x -> next_of t x = default 0 (cs !! S i).
Proof.
  intros H. revert i. induction H as [|c cs Hc Hch IH]; intros i Hi; [done|]. destruct i as [|i]; cbn in Hi.
  - simplify_eq. cbn [lookup list_lookup]. rewrite (chain_head _ _ _ Hch). by destruct cs.
  - by apply IH.
Qed.

Lemma skip_clusters_chain n t c cs : chain t c cs -> skip_clusters n (vol t) c = hd 0 (drop n cs) /\ chain t (hd 0 (drop n cs)) (drop n cs).
Proof.
  intros H. revert c cs H. induction n as [|n IH]; intros c cs H; cbn [skip_clusters].
  - rewrite drop_0. by rewrite <- (chain_head _ _ _ H).
  - destruct (Z.eqb_spec c 0) as [->|Hne].
    + inversion H as [|? ? [Hc _]]; subst; [|lia]. rewrite drop_nil. by split; [|constructor].
    + inversion H as [|? cs' _ Hch]; subst; [done|]. cbn [drop]. by apply IH.
Qed.

(** The contents of a chain. *)
Definition chain_data d (cs : list Z) : list Z := concat (map (cluster_data d) cs).
Lemma length_chain_data d cs : sd_inv d -> Forall on_disk cs -> zlen (chain_data d cs) = bpc * zlen cs.
Proof.
  intros Hi. induction 1 as [|c cs Hc _ IH]; [unfold zlen; cbn; lia|]. unfold chain_data, zlen in *. cbn [map concat length].
  pose proof (length_cluster_data d c Hi Hc) as Hl. unfold zlen in Hl. rewrite length_app. lia.
Qed.
Lemma same_chain d d' cs : same d d' -> Forall on_disk cs -> chain_data d' cs = chain_data d cs.
Proof.
  intros Hs Hc. unfold chain_data. f_equal. apply map_ext_in. intros c Hin. apply same_cluster; [done|].
  rewrite Forall_forall in Hc. by apply Hc, list_elem_of_In.
Qed.
Lemma drop_chain_data d cs n : sd_inv d -> Forall on_disk cs -> drop (Z.to_nat (bpc * Z.of_nat n)) (chain_data d cs) = chain_data d (drop n cs).
Proof.
  intros Hi Hc. revert n. induction Hc as [|c cs Hc Hcs IH]; intros n; [unfold chain_data; cbn [map concat]; rewrite !drop_nil; done|].
  pose proof (vo_spc Hvol). pose proof (vo_bpc Hvol). destruct n as [|n]; [by rewrite Z.mul_0_r, !drop_0|].
  pose proof (length_cluster_data d c Hi Hc) as Hl. unfold zlen in Hl. unfold chain_data in *. cbn [map concat drop].
  rewrite drop_app_ge by nia. rewrite <- IH. f_equal. nia.
Qed.

(** ** Reading *)

Context (Hjunk : forall n, 0 <= n -> zlen (junk n) = n) (Hp : p <> NULL).

(** [node] is an open node of this volume. *)
Record node_of (N : gmap Z vfs_node) (I : gmap Z fat32_node_impl_t) (node : Z) (n : vfs_node) (pi : Z) (i : fat32_node_impl_t) : Prop := {
  no_addr : node <> NULL;
  no_node : N !! node = Some n;
  no_impl : n_impl n = impl_ext pi;
  no_pi : pi <> NULL;
  no_rec : I !! pi = Some i;
  no_fs : i_fs i = p
}.

Lemma wp_node_impl N I fs d k node n pi i Q :
  node_of N I node n pi i -> Q (Some (n, pi, i)) (st N I fs d k) -> wp (node_impl node) Q (st N I fs d k).
Proof.
  intros [] HQ. unfold node_impl. rewrite (proj2 (Z.eqb_neq _ _)) by done. eapply wp_bind, wp_deref; [done|]. rewrite no_impl0.
  rewrite (proj2 (Z.eqb_neq _ _)) by done. eapply wp_bind, wp_get_impl; [done|]. apply wp_ret. rewrite no_fs0. by rewrite (proj2 (Z.eqb_neq _ _)) by done.
Qed.

Lemma bpc_pos : 0 < bpc.
Proof. vol. lia. Qed.

Lemma slice_chain_step d c cs b size :
  sd_inv d -> on_disk c -> 0 <= b < bpc -> 0 <= size ->
  let n := Z.min (bpc - b) size in
  slice b size (chain_data d (c :: cs)) = slice b n (cluster_data d c) ++ slice 0 (size - n) (chain_data d cs).
Proof.
  intros Hi Hc Hb Hs n. pose proof (length_cluster_data d c Hi Hc) as Hl. unfold zlen in Hl. unfold chain_data. cbn [map concat].
  replace size with (n + (size - n)) at 1 by lia. rewrite slice_split by lia. f_equal; [by apply slice_app_l; lia|].
  destruct (Z.le_gt_cases size (bpc - b)).
  - replace (size - n) with 0 by lia. by rewrite !slice_zero.
  - rewrite slice_app_r by lia. f_equal. lia.
Qed.

Lemma wp_read_loop fuel N I t d k c cs b size br acc buf :
  sd_inv d -> chain t c cs -> Forall on_disk cs -> 0 <= b < bpc -> 0 <= size -> zlen buf = bpc ->
  b + size <= (Z.of_nat fuel - 1) * bpc -> (0 < fuel)%nat ->
  wp (read_loop fuel (vol t) c b size br acc buf) (fun r s' => exists d', s' = st N I (vol t) d' k /\ same d d' /\
      (r.1 = -1 \/ r = (i32 (br + zlen (slice b size (chain_data d cs))), acc ++ slice b size (chain_data d cs))) /\
      (sd_good d -> r = (i32 (br + zlen (slice b size (chain_data d cs))), acc ++ slice b size (chain_data d cs))))
    (st N I (vol t) d k).
Proof.
  revert d c cs b size br acc buf. induction fuel as [|fuel IH]; intros d c cs b size br acc buf Hi Hch Hod Hb Hs Hl Hf Hpos; [lia|].
  pose proof bpc_pos as Hbp. cbn [read_loop].
  destruct ((0 <? size) && negb (c =? 0)) eqn:Eg.
  - assert (0 < size /\ c <> 0) as [Hsz Hc0] by lia. clear Eg. inversion Hch as [|? cs' Hc Hch']; subst; [done|].
    apply Forall_cons in Hod as [Hc1 Hod]. eapply wp_bind, wp_mono; [by apply wp_read_cluster|].
    intros r s' (d1 & -> & Hs1 & Hlen & Hr & Hg). destruct Hr as [Hr|Hr].
    { rewrite (proj2 (Z.ltb_lt r.1 0)) by lia. apply wp_ret. exists d1. split_and!; [done..|by left|].
      intros G. specialize (Hg G). lia. }
    subst r. cbn [fst snd] in *. rewrite (proj2 (Z.ltb_ge 0 0)) by lia. cbn [bytes_per_cluster vol with_table]. set (m := Z.min (bpc - b) size).
    assert (fuel <> 0%nat) as Hf0 by (intros ->; lia).
    eapply wp_mono; [apply (IH d1 (next_of t c) cs'); [apply Hs1|done|done|lia|lia|done| |lia]|].
    { destruct (Z.le_gt_cases size (bpc - b)); [|nia]. replace (size - m) with 0 by lia. nia. }
    intros r s' (d2 & -> & Hs2 & Hr & Hg2). rewrite (same_chain d d1) in Hr, Hg2 by done.
    rewrite (slice_chain_step d c cs' b size) by (done || lia). fold m.
    assert (length (slice b m (cluster_data d c)) = Z.to_nat m) as Hlm.
    { pose proof (length_cluster_data d c Hi Hc1) as Hl1. unfold zlen in Hl1. apply length_slice; lia. }
    rewrite <- app_assoc in Hr, Hg2. unfold zlen in *. rewrite length_app, Hlm. rewrite Nat2Z.inj_add, Z2Nat.id, Z.add_assoc by lia.
    exists d2. split_and!; [done|by eapply same_trans|done|]. intros G. apply Hg2. by apply Hs1.
  - apply wp_ret. exists d. assert (slice b size (chain_data d cs) = []) as ->.
    { destruct (decide (c = 0)) as [->|Hne].
      - inversion Hch as [|? ? [Hc _]]; subst; [apply slice_nil|lia].
      - replace size with 0 by lia. apply slice_zero. }
    unfold zlen. cbn [length]. rewrite Z.add_0_r, app_nil_r. split_and!; [done|by apply same_refl|by right|done].
Qed.

(** What a reader sees of a file: its size's worth of its clusters. *)
Definition contents d (cs : list Z) (size : Z) : list Z := take (Z.to_nat size) (chain_data d cs).

Lemma hd_chain t c cs n : chain t c cs -> hd 0 (drop n cs) = 0 <-> (length cs <= n)%nat.
Proof.
  intros H. apply chain_in_table in H. split.
  - intros E. destruct (drop n cs) as [|x l] eqn:Ed; [apply (f_equal length) in Ed; rewrite length_drop in Ed; cbn in Ed; lia|].
    assert (x ∈ cs) as Hx by (rewrite <- (take_drop n cs), Ed; apply elem_of_app; right; apply list_elem_of_here).
    rewrite Forall_forall in H. destruct (H x Hx). cbn in E. lia.
  - intros Hn. by rewrite drop_ge by done.
Qed.

(** C21: Reading a file of a FAT32 volume returns the bytes of its chain of
    clusters between the offset and the size recorded in its node, or -1 when
    the heap or the disk fails; on a disk in good order it does not fail.
    Nothing changes but the number of heap requests and the caches below. *)
Theorem fat32_read_correct N I t d k node n pi i cs offset size :
  node_of N I node n pi i -> is_set (n_type n) VFS_FILE = true -> chain t (i_cluster i) cs -> Forall on_disk cs -> sd_inv d ->
  0 <= offset -> 0 <= size -> 0 <= n_size n < 2 ^ 31 ->
  exists rc bytes d' k', fat32_read serves junk node offset size (st N I (vol t) d k) = Ret (rc, bytes) (st N I (vol t) d' k') /\ same d d' /\
    (rc = -1 \/ rc = zlen bytes /\ bytes = slice offset size (contents d cs (n_size n))) /\ (sd_good d -> serves k = true -> rc = zlen bytes).
Proof.
  intros Hno Hty Hch Hod Hi Ho Hs Hn.
  enough (wp (fat32_read serves junk node offset size) (fun r s' => exists d' k', s' = st N I (vol t) d' k' /\ same d d' /\
    (r.1 = -1 \/ r.1 = zlen r.2 /\ r.2 = slice offset size (contents d cs (n_size n))) /\ (sd_good d -> serves k = true -> r.1 = zlen r.2)) (st N I (vol t) d k)) as Hw.
  { apply wp_run in Hw as ([rc bytes] & s' & E & d' & k' & -> & H). by exists rc, bytes, d', k'. }
  pose proof bpc_pos as Hbp. unfold fat32_read. eapply wp_bind, wp_node_impl; [done|]. cbn iota beta. rewrite Hty. cbn [negb].
  rewrite (no_fs _ _ _ _ _ _ Hno). apply wp_bind, wp_get_fs.
  destruct (Z.leb_spec (n_size n) offset) as [Hpast|Hin].
  { apply wp_ret. exists d, k. cbn [fst snd]. rewrite slice_past by (unfold contents; rewrite length_take; lia).
    split_and!; [done|by apply same_refl|by right|done]. }
  set (m := Z.min size (n_size n - offset)). cbn [bytes_per_cluster vol with_table].
  assert (slice offset size (contents d cs (n_size n)) = slice offset m (chain_data d cs)) as ->.
  { unfold contents, slice. rewrite skipn_firstn_comm, take_take. f_equal. lia. }
  set (q := offset / bpc). assert (0 <= q /\ offset = q * bpc + offset mod bpc /\ 0 <= offset mod bpc < bpc) as (Hq & Eo & Hb).
  { pose proof (Z.div_mod offset bpc). pose proof (Z.mod_pos_bound offset bpc). pose proof (Z.div_pos offset bpc). unfold q. nia. }
  assert (slice offset m (chain_data d cs) = slice (offset mod bpc) m (chain_data d (drop (Z.to_nat q) cs))) as ->.
  { rewrite <- drop_chain_data by done. unfold slice. rewrite drop_drop. do 2 f_equal. nia. }
  destruct (skip_clusters_chain (Z.to_nat q) t _ _ Hch) as [-> Hch'].
  destruct ((hd 0 (drop (Z.to_nat q) cs) =? 0) && (0 <? q)) eqn:Eg.
  { apply wp_ret. exists d, k. cbn [fst snd]. assert (length cs <= Z.to_nat q)%nat by (eapply hd_chain; [done|lia]).
    rewrite drop_ge by done. unfold chain_data. cbn [map concat]. rewrite slice_nil. split_and!; [done|by apply same_refl|by right|done]. }
  clear Eg. apply wp_bind, wp_kalloc. destruct (serves k) eqn:Ek.
  2: { rewrite Z.eqb_refl. apply wp_ret. exists d, (S k). split_and!; [done|by apply same_refl|by left|done]. }
  rewrite (proj2 (Z.eqb_neq _ _)) by (unfold NULL; lia).
  eapply wp_mono; [apply wp_read_loop; [done|exact Hch'|by apply Forall_drop|done|lia|apply Hjunk; lia| |lia]|].
  { pose proof (Z.div_mod m bpc ltac:(lia)). pose proof (Z.mod_pos_bound m bpc ltac:(lia)). pose proof (Z.div_pos m bpc ltac:(lia) ltac:(lia)). nia. }
  intros r s' (d' & -> & Hsm & Hr & Hg). exists d', (S k).
  assert (forall l : list Z, zlen (slice (offset mod bpc) m l) <= m) as Hle.
  { intros l. unfold zlen. pose proof (slice_length (offset mod bpc) m l). lia. }
  cbn [app] in *. specialize (Hle (chain_data d (drop (Z.to_nat q) cs))). set (piece := slice _ _ _) in *. clearbody piece.
  assert (i32 (0 + zlen piece) = zlen piece) as Ei. { unfold i32. rewrite Z.mod_small by (unfold zlen in *; lia). lia. }
  rewrite Ei in *. split_and!; [done|done| |intros G _; by rewrite Hg]. destruct Hr as [Hr | ->]; [by left|by right].
Qed.

(** ** Allocation *)

Abbreviation root := (root_cluster fs0).
Definition used (t : list Z) c : Prop := value t c <> 0 \/ c = root.
#[export] Instance used_dec t c : Decision (used t c) := _.
Definition free (t : list Z) c : Prop := value t c = 0 /\ c <> root.
#[export] Instance free_dec t c : Decision (free t c) := _.
#[export] Instance on_disk_dec c : Decision (on_disk c) := _.
(** The free clusters that the disk has. *)
Definition room (t : list Z) : list Z := filter (fun c => free t c /\ on_disk c) (seqZ 2 (total - 2)).

Lemma free_not_used t c : free t c -> ~ used t c.
Proof. unfold free, used. tauto. Qed.
Lemma on_disk_le c c' : on_disk c -> 2 <= c' <= c -> on_disk c'.
Proof. vol. unfold on_disk, cluster_lba. nia. Qed.

Lemma find_free_spec n c t :
  2 <= c ->
  let r := find_free n c t root in
  (r = 0 /\ forall x, c <= x < c + Z.of_nat n -> used t x) \/
  (c <= r < c + Z.of_nat n /\ free t r /\ forall x, c <= x < r -> used t x).
Proof.
  revert c. induction n as [|n IH]; intros c Hc; cbn [find_free]; [left; split; [done|lia]|].
  assert (forall (P : Z -> Prop) hi, P c -> (forall x, c + 1 <= x < hi -> P x) -> forall x, c <= x < hi -> P x) as Hstep.
  { intros P hi H0 H1 x Hx. destruct (decide (x = c)) as [->|]; [done|apply H1; lia]. }
  assert (used t c -> (find_free n (c + 1) t root = 0 /\ (forall x, c <= x < c + Z.of_nat (S n) -> used t x)) \/
     (c <= find_free n (c + 1) t root < c + Z.of_nat (S n) /\ free t (find_free n (c + 1) t root) /\ forall x, c <= x < find_free n (c + 1) t root -> used t x)) as Hgo.
  { intros Hu. destruct (IH (c + 1) ltac:(lia)) as [[E Hall]|(Hr & Hfr & Hall)]; [left|right].
    - split; [done|]. apply Hstep; [done|]. intros x Hx. apply Hall. lia.
    - split_and!; [lia|lia|done|]. by apply Hstep. }
  destruct (Z.eqb_spec c root) as [E|Hne]; [apply Hgo; by right|]. fold (value t c). unfold FAT_ENTRY_FREE.
  destruct (Z.eqb_spec (value t c) 0) as [E|Hv]; [|apply Hgo; by left]. right. split_and!; [lia|lia|done|lia].
Qed.

Lemma find_free_cluster_spec t :
  let r := fat32_find_free_cluster (vol t) in
  (r = 0 /\ room t = []) \/ (in_table r /\ free t r /\ (room t <> [] -> on_disk r)).
Proof.
  unfold fat32_find_free_cluster. cbn [fat_table vol with_table total_clusters root_cluster]. pose proof (vo_spf Hvol). pose proof (vo_total Hvol).
  assert (forall x, x ∈ room t -> 2 <= x < total /\ free t x /\ on_disk x) as Hroom.
  { intros x Hx. apply list_elem_of_filter in Hx as [[? ?] Hx]. apply elem_of_seqZ in Hx. split_and!; [lia|lia|done|done]. }
  destruct (find_free_spec (Z.to_nat (total - 2)) 2 t ltac:(lia)) as [[-> Hall]|(Hr & Hfr & Hall)]; [left|right].
  - split; [done|]. destruct (room t) as [|x l] eqn:E; [done|]. destruct (Hroom x (list_elem_of_here _ _)) as (Hx & Hf & _).
    exfalso. apply (free_not_used t x Hf). apply Hall. lia.
  - unfold in_table. split_and!; [lia|lia|done|]. intros Hne. destruct (room t) as [|x l] eqn:E; [done|].
    destruct (Hroom x (list_elem_of_here _ _)) as (Hx & Hf & Ho). apply (on_disk_le x); [done|]. split; [lia|].
    destruct (Z.le_gt_cases (find_free (Z.to_nat (total - 2)) 2 t root) x) as [|Hgt]; [done|]. exfalso. apply (free_not_used t x Hf). apply Hall. lia.
Qed.

(** *** What an operation on the chain [cs] leaves alone *)

Record frame (cs : list Z) (t : list Z) d (t' : list Z) d' : Prop := {
  fr_inv : sd_inv d';
  fr_good : sd_good d';
  fr_table : table_ok t';
  fr_value : forall x, in_table x -> used t x -> x ∉ cs -> value t' x = value t x;
  fr_data : forall x, in_table x -> on_disk x -> used t x -> x ∉ cs -> cluster_data d' x = cluster_data d x;
  fr_synced : synced t d -> synced t' d'
}.
Lemma frame_refl cs t d : sd_inv d -> sd_good d -> table_ok t -> frame cs t d t d.
Proof. by split. Qed.
Lemma frame_used cs t d t' d' x : frame cs t d t' d' -> in_table x -> used t x -> x ∉ cs -> used t' x.
Proof. intros [] Hx Hu Hn. unfold used. by rewrite fr_value0. Qed.
Lemma frame_trans cs cs1 t d t1 d1 t2 d2 :
  frame cs t d t1 d1 -> frame cs1 t1 d1 t2 d2 -> (forall x, x ∈ cs1 -> x ∈ cs \/ free t x) -> frame cs t d t2 d2.
Proof.
  intros F1 F2 Hsub. assert (forall x, used t x -> x ∉ cs -> x ∉ cs1) as Hnot.
  { intros x Hx Hn Hin. destruct (Hsub x Hin) as [?|Hf]; [done|]. by apply (free_not_used t x). }
  assert (forall x, in_table x -> used t x -> x ∉ cs -> used t1 x) as Hu by (intros; by eapply frame_used).
  destruct F1, F2. split; [done..| | |auto].
  - intros x Hx Hux Hn. rewrite fr_value1, fr_value0; auto.
  - intros x Hx Ho Hux Hn. rewrite fr_data1, fr_data0; auto.
Qed.
Lemma frame_weaken cs cs' t d t' d' : frame cs t d t' d' -> (forall x, x ∈ cs -> x ∈ cs' \/ free t x) -> frame cs' t d t' d'.
Proof.
  intros [] Hs. assert (forall x, used t x -> x ∉ cs' -> x ∉ cs) as Hn.
  { intros x Hu Hx Hin. destruct (Hs x Hin); [done|]. by apply (free_not_used t x). }
  split; auto.
Qed.

(** An entry set, with what that writes to disk. *)
Lemma frame_set cs c v t d d' :
  sd_inv d -> sd_good d -> table_ok t -> in_table c -> 0 <= v < 2 ^ 28 -> c ∈ cs ->
  differ_in fat_lba (data_lba - fat_lba) d d' -> (synced t d -> synced (set_entry c v t) d') -> frame cs t d (set_entry c v t) d'.
Proof.
  intros Hi Hg Ht Hc Hv Hcs Hd Hsy. split; [apply Hd|by apply Hd|by apply table_ok_set| | |done].
  - intros x Hx _ Hn. rewrite value_set by done. rewrite decide_False; [done|]. by intros ->.
  - intros x _ Ho _ _. eapply differ_cluster; [exact Hd|done|]. right. pose proof (cluster_lba_data x (proj1 Ho)). lia.
Qed.
(** A cluster rewritten. *)
Lemma frame_cluster cs c t d d' :
  table_ok t -> sd_good d -> 2 <= c -> c ∈ cs -> differ_in (cluster_lba c) spc d d' -> frame cs t d t d'.
Proof.
  intros Ht Hg Hc Hcs Hd. split; [apply Hd|by apply Hd|done|done| |].
  - intros x _ Ho _ Hn. eapply differ_cluster; [exact Hd|done|]. assert (x <> c) by (by intros ->).
    destruct (clusters_apart x c); [apply Ho|done|done|by left|by right].
  - intros Hsy f s Hf Hs. pose proof (fat_sector_bound f s Hf Hs) as Hb. pose proof (cluster_lba_data c Hc).
    pose proof (vo_start Hvol). pose proof (vo_data Hvol). rewrite (df_sector _ _ _ _ Hd) by lia. by apply Hsy.
Qed.
Lemma frame_same cs t d d' : table_ok t -> sd_good d -> same d d' -> frame cs t d t d'.
Proof.
  intros Ht Hg Hs. split; [apply Hs|by apply Hs|done|done| |].
  - intros x _ Ho _ _. by apply same_cluster.
  - intros Hsy f s Hf Hs'. pose proof (fat_sector_bound f s Hf Hs'). pose proof (vo_start Hvol). pose proof (vo_data Hvol).
    rewrite (sm_sector _ _ Hs) by lia. by apply Hsy.
Qed.

(** [x] marked as the end of a chain, and linked to from [prev]. *)
Definition linked (prev x : Z) (t : list Z) : list Z :=
  let t := set_entry x FAT_ENTRY_EOF_END t in if 2 <=? prev then set_entry prev x t else t.

Lemma eof_range : 0 <= FAT_ENTRY_EOF_END < 2 ^ 28.
Proof. unfold FAT_ENTRY_EOF_END. lia. Qed.
Lemma in_table_range x : in_table x -> 0 <= x < 0x0FFFFFF7.
Proof. vol. unfold in_table. lia. Qed.

Lemma value_linked prev x t c :
  table_ok t -> in_table x -> (2 <= prev -> in_table prev) -> in_table c ->
  value (linked prev x t) c = if decide (2 <= prev /\ c = prev) then x else if decide (c = x) then FAT_ENTRY_EOF_END else value t c.
Proof.
  intros Ht Hx Hp' Hc. unfold linked. pose proof eof_range. pose proof (in_table_range x Hx). destruct (Z.leb_spec 2 prev) as [H2|H2].
  - rewrite value_set by (try apply table_ok_set; auto; lia). rewrite value_set by (try done; lia).
    destruct (decide (c = prev)); [by rewrite decide_True|by rewrite (decide_False (P := _ /\ _)) by tauto].
  - rewrite value_set by (try done; lia). by rewrite (decide_False (P := _ /\ _)) by lia.
Qed.

Lemma room_linked prev x t :
  table_ok t -> in_table x -> free t x -> on_disk x -> (2 <= prev -> in_table prev /\ used t prev) ->
  length (room t) = S (length (room (linked prev x t))).
Proof.
  intros Ht Hx Hf Ho Hpr. unfold room.
  assert (forall l, NoDup l -> Forall in_table l ->
    length (filter (fun c => free t c /\ on_disk c) l) =
      ((if decide (x ∈ l) then 1 else 0) + length (filter (fun c => free (linked prev x t) c /\ on_disk c) l))%nat) as H.
  { induction l as [|c l IH]; intros Hnd Hl; [by rewrite decide_False by apply not_elem_of_nil|].
    apply NoDup_cons in Hnd as [Hn Hnd]. apply Forall_cons in Hl as [Hc Hl]. specialize (IH Hnd Hl). rewrite !filter_cons.
    assert (value (linked prev x t) c = if decide (2 <= prev /\ c = prev) then x else if decide (c = x) then FAT_ENTRY_EOF_END else value t c) as Ev
      by (apply value_linked; try done; by intros [? _]%Hpr).
    destruct (decide (c = x)) as [->|Hne].
    - rewrite (decide_True (P := free t x /\ on_disk x)) by done. rewrite (decide_True (P := x ∈ x :: l)) by apply list_elem_of_here.
      rewrite (decide_False (P := free (linked prev x t) x /\ on_disk x)).
      + cbn [length]. rewrite IH, decide_False by done. lia.
      + intros [[Hv _] _]. rewrite Ev in Hv. case_decide as Ed; [destruct Hx; lia|done].
    - assert (free t c /\ on_disk c <-> free (linked prev x t) c /\ on_disk c) as Hiff.
      { unfold free. rewrite Ev. case_decide as Ed; [|done]. destruct Ed as [H2 ->]. destruct (Hpr H2) as [_ [Hu|Hu]]; [|tauto].
        split; [tauto|]. intros [[E _] _]. destruct Hx. lia. }
      assert ((x ∈ c :: l) <-> x ∈ l) as Hxl by (rewrite elem_of_cons; naive_solver).
      assert ((if decide (x ∈ c :: l) then 1 else 0) = (if decide (x ∈ l) then 1 else 0))%nat as -> by (by apply decide_ext).
      destruct (decide (free t c /\ on_disk c)), (decide (free (linked prev x t) c /\ on_disk c)); try tauto; cbn [length]; lia. }
  rewrite (H (seqZ 2 (total - 2))); [|apply NoDup_seqZ|].
  - rewrite decide_True; [lia|]. apply elem_of_seqZ. unfold in_table in Hx. lia.
  - apply Forall_forall. intros c Hc. apply elem_of_seqZ in Hc. unfold in_table. lia.
Qed.

Definition zeros : list Z := replicate (Z.to_nat bpc) 0.
Lemma zlen_zeros : zlen zeros = bpc.
Proof. pose proof bpc_pos. unfold zeros, zlen. rewrite length_replicate. lia. Qed.

(** From request [k] on the heap serves. *)
Definition heap_ok (k : nat) : Prop := forall j, (k <= j)%nat -> serves j = true.
Lemma heap_ok_le k k' : heap_ok k -> (k <= k')%nat -> heap_ok k'.
Proof. intros H Hk j Hj. apply H. lia. Qed.

Lemma wp_alloc N I t d k prev :
  sd_inv d -> sd_good d -> table_ok t -> (2 <= prev -> in_table prev /\ used t prev) ->
  wp (fat32_alloc_and_link_cluster serves p prev) (fun r s' => exists t' d' k', s' = st N I (vol t') d' k' /\ (k <= k')%nat /\ frame [prev] t d t' d' /\
      (r.1 = -1 \/ exists x, r = (0, x) /\ in_table x /\ free t x /\ on_disk x /\ t' = linked prev x t /\ cluster_data d' x = zeros /\
         (forall y, on_disk y -> y <> x -> cluster_data d' y = cluster_data d y)) /\
      (heap_ok k -> room t <> [] -> r.1 = 0)) (st N I (vol t) d k).
Proof.
  intros Hi Hg Ht Hpr. unfold fat32_alloc_and_link_cluster. apply wp_bind, wp_get_fs.
  destruct (find_free_cluster_spec t) as [[-> Hr]|(Hx & Hf & Hroom)].
  { rewrite Z.eqb_refl. apply wp_ret. exists t, d, k. split_and!; [done|lia|by apply frame_refl|by left|done]. }
  set (x := fat32_find_free_cluster (vol t)) in *. clearbody x. pose proof (in_table_range x Hx). assert (2 <= x) as Hx2 by apply Hx.
  rewrite (proj2 (Z.eqb_neq _ _)) by lia. pose proof eof_range as He. set (t1 := set_entry x FAT_ENTRY_EOF_END t).
  assert (table_ok t1) as Ht1 by (by apply table_ok_set).
  eapply wp_bind, wp_mono; [by apply wp_set_fat_entry|]. intros rc s' (d1 & -> & Hd1 & Hrc & Hg1).
  specialize (Hg1 Hg). destruct Hrc as [?|[_ Hsy1]]; [lia|]. subst rc. rewrite (proj2 (Z.ltb_ge 0 0)) by lia. fold t1 in Hsy1 |- *.
  assert (frame [x] t d t1 d1) as F1 by (apply frame_set; try done; apply list_elem_of_here).
  assert (forall y, y ∈ [x] -> y ∈ [prev] \/ free t y) as Hsub by (intros y ->%list_elem_of_singleton; by right).
  assert (frame [prev] t d t1 d1) as F1' by (by eapply frame_weaken).
  apply wp_bind, wp_kalloc. destruct (serves k) eqn:Ek.
  2: { rewrite Z.eqb_refl. apply wp_ret. exists t1, d1, (S k). split_and!; [done|lia|done|by left|]. intros Hh. by rewrite Hh in Ek by lia. }
  rewrite (proj2 (Z.eqb_neq (Z.of_nat k + 1) _)) by (unfold NULL; lia).
  eapply wp_bind, wp_mono; [apply wp_write_cluster; [apply F1|done|apply zlen_zeros]|].
  intros rc s' (d2 & -> & Hd2 & Hrc & Hg2). specialize (Hg2 (fr_good _ _ _ _ _ F1)).
  assert (frame [x] t1 d1 t1 d2) as F2 by (eapply frame_cluster; [done|apply F1|done|apply list_elem_of_here|exact Hd2]).
  assert (frame [prev] t d t1 d2) as F2'.
  { eapply frame_weaken; [eapply frame_trans; [exact F1|exact F2|by left]|done]. }
  destruct Hrc as [->|(-> & Ho & Hzero)].
  { apply wp_ret. exists t1, d2, (S k). split_and!; [done|lia|done|by left|]. intros _ Hne. specialize (Hg2 (Hroom Hne)). done. }
  rewrite (proj2 (Z.ltb_ge 0 0)) by lia.
  assert (forall y, on_disk y -> y <> x -> cluster_data d2 y = cluster_data d y) as Hothers.
  { intros y Hy Hne. rewrite (differ_cluster _ _ _ _ y Hd2 Hy).
    - eapply differ_cluster; [exact Hd1|done|]. right. pose proof (cluster_lba_data y (proj1 Hy)). lia.
    - destruct (clusters_apart y x); [apply Hy|done|done|by left|by right]. }
  destruct (Z.leb_spec 2 prev) as [H2|H2].
  - destruct (Hpr H2) as [Hp1 Hp2]. eapply wp_bind, wp_mono; [apply wp_set_fat_entry; [apply F2|done|done]|].
    intros rc s' (d3 & -> & Hd3 & Hrc & Hg3). specialize (Hg3 (fr_good _ _ _ _ _ F2)). destruct Hrc as [?|[_ Hsy3]]; [lia|]. subst rc.
    rewrite (proj2 (Z.ltb_ge 0 0)) by lia. apply wp_ret. exists (set_entry prev x t1), d3, (S k). split_and!; [done|lia| | |done].
    + eapply frame_trans; [exact F2'| |by left]. apply frame_set; try done; [apply F2|apply F2|lia|apply list_elem_of_here].
    + right. exists x. assert (forall y, on_disk y -> cluster_data d3 y = cluster_data d2 y) as H3.
      { intros y Hy. eapply differ_cluster; [exact Hd3|done|]. right. pose proof (cluster_lba_data y (proj1 Hy)). lia. }
      split_and!; [done..| | |].
      * unfold linked. by rewrite (proj2 (Z.leb_le _ _)) by lia.
      * by rewrite H3.
      * intros y Hy Hne. rewrite H3 by done. by apply Hothers.
  - eapply wp_bind, wp_ret. rewrite (proj2 (Z.ltb_ge 0 0)) by lia. apply wp_ret. exists t1, d2, (S k). split_and!; [done|lia|done| |done].
    right. exists x. split_and!; [done..| |done|done]. unfold linked. by rewrite (proj2 (Z.leb_gt _ _)) by lia.
Qed.

(** ** Files as chains *)

(** The clusters of a file: a chain, on the disk, none marked free. *)
Definition file_ok (t : list Z) c (cs : list Z) : Prop := chain t c cs /\ Forall (fun x => on_disk x /\ value t x <> 0) cs.

Lemma file_on_disk t c cs : file_ok t c cs -> Forall on_disk cs.
Proof. intros [_ H]. eapply Forall_impl; [exact H|]. by intros x []. Qed.
Lemma file_used t c cs x : file_ok t c cs -> x ∈ cs -> in_table x /\ used t x /\ on_disk x /\ value t x <> 0.
Proof.
  intros [Hc H] Hx. apply chain_in_table in Hc. rewrite Forall_forall in Hc, H. destruct (H x Hx). unfold used. auto.
Qed.
Lemma file_not_free t c cs x : file_ok t c cs -> free t x -> x ∉ cs.
Proof. intros Hf Hfr Hx. destruct (file_used t c cs x Hf Hx) as (_ & _ & _ & Hv). by apply Hv, Hfr. Qed.

Lemma free_or_used t x : free t x \/ used t x.
Proof. unfold free, used. destruct (decide (value t x = 0)), (decide (x = root)); tauto. Qed.
(** A cluster free after growing a file was free before. *)
Lemma free_back cs new c t d t1 d1 x : frame cs t d t1 d1 -> file_ok t1 c (cs ++ new) -> in_table x -> free t1 x -> free t x.
Proof.
  intros Hfr Hf Hx Hx1. destruct (free_or_used t x) as [|Hu]; [done|]. exfalso. apply (free_not_used t1 x Hx1).
  assert (x ∉ cs ++ new) as Hn by (by eapply file_not_free). rewrite elem_of_app in Hn. eapply frame_used; [exact Hfr|done|done|tauto].
Qed.

Lemma chain_extend t t' c cs prev x :
  chain t c cs -> last cs = Some prev -> (forall y, y ∈ cs -> y <> prev -> value t' y = value t y) -> next_of t' prev = x ->
  chain t' x [x] -> chain t' c (cs ++ [x]).
Proof.
  intros H. revert prev. induction H as [|c cs Hc Hch IH]; intros prev Hl Hv Hn Hx; [done|]. cbn [app].
  destruct cs as [|c2 cs].
  - cbn in Hl. simplify_eq. constructor; done.
  - rewrite last_cons_cons in Hl. assert (prev ∈ c2 :: cs) as Hin by (by apply last_Some_elem_of).
    assert (c <> prev) as Hne. { intros ->. assert (NoDup (prev :: c2 :: cs)) as [? _]%NoDup_cons by (eapply chain_nodup; by constructor). done. }
    constructor; [done|]. rewrite (next_of_ext t) by (first [done|apply Hv; [apply list_elem_of_here|done]]).
    eapply IH; [done|intros y Hy; apply Hv; by apply list_elem_of_further|done|done].
Qed.

Lemma file_new t x : table_ok t -> in_table x -> on_disk x -> file_ok (linked 0 x t) x [x].
Proof.
  intros Ht Hx Ho. assert (value (linked 0 x t) x = FAT_ENTRY_EOF_END) as Hv.
  { rewrite value_linked by (done || lia). rewrite decide_False by lia. by rewrite decide_True. }
  split; [|by rewrite Forall_singleton, Hv]. constructor; [done|]. rewrite next_of_value, Hv by done. constructor.
Qed.
Lemma file_extend t c cs prev x :
  table_ok t -> file_ok t c cs -> last cs = Some prev -> in_table x -> free t x -> on_disk x -> file_ok (linked prev x t) c (cs ++ [x]).
Proof.
  intros Ht Hf Hl Hx Hfx Ho. pose proof (last_Some_elem_of _ _ Hl) as Hin. destruct (file_used t c cs prev Hf Hin) as (Hp1 & _ & _ & Hp2).
  assert (x <> prev) as Hne by (intros ->; by eapply file_not_free). assert (x ∉ cs) as Hxn by (by eapply file_not_free).
  assert (forall y, in_table y -> value (linked prev x t) y = if decide (y = prev) then x else if decide (y = x) then FAT_ENTRY_EOF_END else value t y) as Hv.
  { intros y Hy. rewrite value_linked by done. destruct (decide (y = prev)) as [->|]; [rewrite decide_True; [done|split; [apply Hp1|done]]|by rewrite decide_False by tauto]. }
  assert (forall y, y ∈ cs -> y <> prev -> value (linked prev x t) y = value t y) as Hsame.
  { intros y Hy Hyp. destruct (file_used t c cs y Hf Hy) as (Hyt & _). rewrite Hv, decide_False by done. rewrite decide_False; [done|]. by intros ->. }
  pose proof (in_table_range x Hx). split.
  - eapply chain_extend; [apply Hf|done|done| |].
    + rewrite next_of_value, Hv, decide_True by done. by rewrite (proj2 (Z.leb_gt _ _)) by lia.
    + constructor; [done|]. rewrite next_of_value, Hv, decide_False, decide_True by done. constructor.
  - apply Forall_app. split.
    + apply Forall_forall. intros y Hy. destruct (file_used t c cs y Hf Hy) as (Hyt & _ & Hyo & Hyv). split; [done|].
      destruct (decide (y = prev)) as [->|]; [|by rewrite Hsame]. rewrite Hv, decide_True by done. destruct Hx. lia.
    + by rewrite Forall_singleton, Hv, decide_False, decide_True by done.
Qed.

(** The file at [cs] has grown by the clusters [new], all zero. *)
Record grown (c : Z) (cs new t : list Z) d (t' : list Z) d' : Prop := {
  gr_file : file_ok t' c (cs ++ new);
  gr_new : Forall (fun x => in_table x /\ free t x) new;
  gr_room : length (room t) = (length new + length (room t'))%nat;
  gr_data : chain_data d' (cs ++ new) = chain_data d cs ++ concat (replicate (length new) zeros)
}.
Lemma grown_refl c cs t d : file_ok t c cs -> grown c cs [] t d t d.
Proof. intros H. split; by rewrite ?app_nil_r. Qed.
Lemma grown_trans c cs n1 n2 t d t1 d1 t2 d2 :
  frame cs t d t1 d1 -> grown c cs n1 t d t1 d1 -> grown c (cs ++ n1) n2 t1 d1 t2 d2 -> grown c cs (n1 ++ n2) t d t2 d2.
Proof.
  intros Hfr [Hf1 Hn1 Hr1 Hd1] [Hf2 Hn2 Hr2 Hd2]. split.
  - by rewrite app_assoc.
  - apply Forall_app. split; [done|]. eapply Forall_impl; [exact Hn2|]. intros x [Hx Hx1]. split; [done|]. by eapply free_back.
  - rewrite length_app. lia.
  - rewrite app_assoc, Hd2, Hd1, <- app_assoc. f_equal. rewrite length_app, replicate_add, concat_app. done.
Qed.

(** One cluster more, behind the last one. *)
Lemma wp_extend N I t d k c cs prev :
  sd_inv d -> sd_good d -> table_ok t -> file_ok t c cs -> last cs = Some prev ->
  wp (fat32_alloc_and_link_cluster serves p prev) (fun r s' => exists t' d' k', s' = st N I (vol t') d' k' /\ (k <= k')%nat /\ frame cs t d t' d' /\
      (r.1 = -1 \/ exists x, r = (0, x) /\ in_table x /\ free t x /\ grown c cs [x] t d t' d' /\ cluster_data d' x = zeros /\
         (forall y, on_disk y -> y <> x -> cluster_data d' y = cluster_data d y)) /\
      (heap_ok k -> room t <> [] -> r.1 = 0)) (st N I (vol t) d k).
Proof.
  intros Hi Hg Ht Hf Hl. pose proof (last_Some_elem_of _ _ Hl) as Hin. destruct (file_used t c cs prev Hf Hin) as (Hp1 & Hp2 & _).
  eapply wp_mono; [by apply wp_alloc|]. intros r s' (t' & d' & k' & -> & Hk & Hfr & Hr & Hok). exists t', d', k'.
  split_and!; [done|done| | |done].
  - eapply frame_weaken; [exact Hfr|]. intros x ->%list_elem_of_singleton. by left.
  - destruct Hr as [?|(x & -> & Hx & Hfx & Ho & -> & Hz & Hd)]; [by left|right]. exists x. split_and!; [done..| |done|done]. split.
    + by apply file_extend.
    + by rewrite Forall_singleton.
    + cbn [length]. by apply room_linked.
    + cbn [length replicate concat]. unfold chain_data. rewrite map_app, concat_app. cbn [map concat]. rewrite Hz. f_equal. f_equal.
      apply map_ext_in. intros y Hy%list_elem_of_In. destruct (file_used t c cs y Hf Hy) as (_ & _ & Hyo & _). apply Hd; [done|].
      intros ->. by eapply file_not_free.
Qed.

(** Walking [n] clusters on from number [i]. *)
Lemma wp_walk n N I t d k c cs i prev cur :
  sd_inv d -> sd_good d -> table_ok t -> file_ok t c cs -> cs !! i = Some cur ->
  wp (walk_clusters serves n p prev cur) (fun r s' => exists t' d' k', s' = st N I (vol t') d' k' /\ (k <= k')%nat /\ frame cs t d t' d' /\
      (r = None \/ exists prev' cur' new, r = Some (prev', cur') /\ grown c cs new t d t' d' /\ (cs ++ new) !! (i + n)%nat = Some cur' /\
         (new = [] \/ length (cs ++ new) = S (i + n))) /\
      (heap_ok k -> (i + n < length cs + length (room t))%nat -> r <> None)) (st N I (vol t) d k).
Proof.
  revert t d k cs i prev cur. induction n as [|n IH]; intros t d k cs i prev cur Hi Hg Ht Hf Hcur; cbn [walk_clusters].
  { apply wp_ret. exists t, d, k. split_and!; [done|lia|by apply frame_refl| |done]. right. exists prev, cur, [].
    split_and!; [done|by apply grown_refl| |by left]. by rewrite app_nil_r, Nat.add_0_r. }
  apply wp_bind, wp_get_fs. fold (next_of t cur). rewrite (chain_next t c cs i cur (proj1 Hf) Hcur).
  destruct (cs !! S i) as [y|] eqn:Ey.
  - change (default 0 (Some y)) with y. assert (y <> 0) as Hy0. { destruct (file_used t c cs y Hf ltac:(by eapply list_elem_of_lookup_2)) as ([? _] & _). lia. }
    rewrite (proj2 (Z.eqb_neq y 0)) by done. replace (i + S n)%nat with (S i + n)%nat by lia. by apply IH.
  - change (default 0 None) with 0. rewrite Z.eqb_refl. apply lookup_lt_Some in Hcur as Hlt. apply lookup_ge_None in Ey. assert (length cs = S i) as Hlen by lia.
    assert (last cs = Some cur) as Hlast. { rewrite last_lookup, Hlen. exact Hcur. }
    eapply wp_bind, wp_mono; [by eapply wp_extend|]. intros r s' (t1 & d1 & k1 & -> & Hk1 & Hfr1 & Hr & Hok1).
    destruct Hr as [Hr|(x & -> & Hx & Hfx & Hgr1 & _)].
    { rewrite Hr. rewrite (proj2 (Z.ltb_lt (-1) 0)) by lia. apply wp_ret. exists t1, d1, k1. split_and!; [done..|by left|].
      intros Hh Hroom. rewrite Hok1 in Hr; [done|done|]. intros E. rewrite E in Hroom. cbn in Hroom. lia. }
    cbn [fst snd]. rewrite (proj2 (Z.ltb_ge 0 0)) by lia.
    eapply wp_mono; [apply (IH t1 d1 k1 (cs ++ [x]) (S i) cur x); [apply Hfr1..|apply Hgr1|]|].
    { rewrite lookup_app_r by lia. by rewrite Hlen, Nat.sub_diag. }
    intros r s' (t2 & d2 & k2 & -> & Hk2 & Hfr2 & Hr2 & Hok2). exists t2, d2, k2. split_and!; [done|lia| | |].
    + eapply frame_trans; [exact Hfr1|exact Hfr2|]. intros y [Hy|Hy]%elem_of_app; [by left|]. apply list_elem_of_singleton in Hy as ->. by right.
    + destruct Hr2 as [?|(prev' & cur' & new & -> & Hgr2 & Hcur' & Hn)]; [by left|right]. exists prev', cur', (x :: new).
      rewrite <- app_assoc in Hcur', Hn. cbn [app] in Hcur', Hn. split_and!; [done|by apply (grown_trans c cs [x] new t d t1 d1)|by replace (i + S n)%nat with (S i + n)%nat by lia|].
      right. destruct Hn as [->|Hn]; [|lia]. rewrite length_app. cbn [length]. apply lookup_lt_Some in Hcur'. rewrite length_app in Hcur'. cbn [length] in Hcur'. lia.
    + intros Hh Hroom. apply Hok2; [by eapply heap_ok_le|]. pose proof (gr_room _ _ _ _ _ _ _ Hgr1) as Er. cbn [length] in Er. rewrite length_app. cbn [length]. lia.
Qed.

(** ** Writing *)

(** A piece written into cluster number [i] of a chain. *)
Lemma write_in_chain d d1 cs (i : nat) cur off piece :
  sd_inv d -> NoDup cs -> Forall on_disk cs -> cs !! i = Some cur -> 0 <= off -> off + zlen piece <= bpc ->
  differ_in (cluster_lba cur) spc d d1 -> cluster_data d1 cur = splice off piece (cluster_data d cur) ->
  chain_data d1 cs = splice (bpc * Z.of_nat i + off) piece (chain_data d cs).
Proof.
  intros Hi Hnd Hod Hcur Hoff Hfit Hd Hw. pose proof (take_drop_middle cs i cur Hcur) as E. rewrite <- E in Hnd, Hod |- *.
  apply NoDup_app in Hnd as (_ & Hn1 & Hn2). apply NoDup_cons in Hn2 as [Hn2 _].
  apply Forall_app in Hod as [Ho1 Ho2]. apply Forall_cons in Ho2 as [Ho Ho2].
  assert (forall l, Forall on_disk l -> cur ∉ l -> chain_data d1 l = chain_data d l) as Hsame.
  { intros l Hl Hn. unfold chain_data. f_equal. apply map_ext_in. intros y Hy%list_elem_of_In. rewrite Forall_forall in Hl.
    eapply differ_cluster; [exact Hd|by apply Hl|]. assert (y <> cur) by (by intros ->).
    destruct (clusters_apart y cur); [apply Hl; done|apply Ho|done|by left|by right]. }
  assert (cur ∉ take i cs) as Hn3. { intros Hin. apply (Hn1 cur Hin). apply list_elem_of_here. }
  assert (forall e l1 l2, chain_data e (l1 ++ cur :: l2) = chain_data e l1 ++ cluster_data e cur ++ chain_data e l2) as Happ.
  { intros e l1 l2. unfold chain_data. by rewrite map_app, concat_app. }
  rewrite !Happ, !Hsame, Hw by done. pose proof (length_cluster_data d cur Hi Ho) as Hlc.
  pose proof (length_chain_data d _ Hi Ho1) as Hl1. apply lookup_lt_Some in Hcur. unfold zlen in *. rewrite length_take in Hl1.
  rewrite (splice_app_mid (bpc * Z.of_nat i + off) piece _ (chain_data d (take i cs)) _ eq_refl) by (rewrite ?length_app; lia). f_equal. rewrite splice_app_l by lia. do 2 f_equal. lia.
Qed.

Lemma length_concat_zeros n : Z.of_nat (length (concat (replicate n zeros))) = bpc * Z.of_nat n.
Proof. pose proof zlen_zeros as E. unfold zlen in E. induction n as [|n IH]; [cbn; lia|]. cbn [replicate concat]. rewrite length_app. lia. Qed.

Lemma wp_write_loop fuel N I t d k c cs i cur b done bytes buf :
  sd_inv d -> sd_good d -> table_ok t -> file_ok t c cs -> cs !! i = Some cur -> 0 <= b < bpc -> 0 <= done < zlen bytes -> zlen buf = bpc ->
  let off := if done =? 0 then b else 0 in let rest := zlen bytes - done in let pos := bpc * Z.of_nat i + off in
  off + rest <= (Z.of_nat fuel - 1) * bpc -> (0 < fuel)%nat ->
  wp (write_loop serves fuel p cur b done bytes buf) (fun rc s' => exists t' d' k', s' = st N I (vol t') d' k' /\ (k <= k')%nat /\ frame cs t d t' d' /\
      (rc = -1 \/ rc = zlen bytes /\ exists new, file_ok t' c (cs ++ new) /\ Forall (fun x => in_table x /\ free t x) new /\
         chain_data d' (cs ++ new) = splice pos (drop (Z.to_nat done) bytes) (chain_data d cs ++ concat (replicate (length new) zeros)) /\
         pos + rest <= bpc * zlen (cs ++ new)) /\
      (heap_ok k -> pos + rest <= bpc * (zlen cs + zlen (room t)) -> rc = zlen bytes)) (st N I (vol t) d k).
Proof.
  revert t d k cs i cur done buf. induction fuel as [|fuel IH]; intros t d k cs i cur done bytes' Hi Hg Ht Hf Hcur Hb Hdone Hbuf off rest pos Hfuel Hpos; [lia|].
  rename bytes' into buf. pose proof bpc_pos as Hbp. cbn [write_loop]. rewrite (proj2 (Z.ltb_lt done _)) by lia.
  destruct (file_used t c cs cur Hf ltac:(by eapply list_elem_of_lookup_2)) as (Hcin & _ & Hcd & _). assert (2 <= cur) as Hc2 by apply Hcin.
  rewrite (proj2 (Z.ltb_ge cur 2)) by lia. apply wp_bind, wp_get_fs. cbn [bytes_per_cluster vol with_table]. fold off.
  assert (0 <= off < bpc) as Hoff by (unfold off; case_match; lia). set (n := Z.min (bpc - off) (zlen bytes - done)).
  set (piece := slice done n bytes). assert (zlen piece = n) as Hpl. { unfold piece, zlen in *. rewrite length_slice; lia. }
  eapply wp_bind, (wp_mono _ (fun buf' s' => exists d1, s' = st N I (vol t) d1 k /\ same d d1 /\ buf' = splice off piece (cluster_data d cur))).
  { destruct ((off =? 0) && (n =? bpc)) eqn:Efull.
    - apply wp_ret. exists d. split_and!; [done|by apply same_refl|]. pose proof (length_cluster_data d cur Hi Hcd) as Hlc.
      assert (off = 0) as -> by lia. unfold splice, zlen in *. rewrite !drop_ge by lia. done.
    - eapply wp_bind, wp_mono; [by apply wp_read_cluster|]. intros r s' (d1 & -> & Hs1 & _ & Hr & Hg1). specialize (Hg1 Hg).
      destruct Hr as [?|Hr]; [lia|]. rewrite Hr. cbn [fst snd]. rewrite (proj2 (Z.ltb_ge 0 0)) by lia. apply wp_ret. by exists d1. }
  intros buf' s' (d1 & -> & Hs1 & ->). assert (zlen (splice off piece (cluster_data d cur)) = bpc) as Hbl.
  { pose proof (length_cluster_data d cur Hi Hcd). unfold zlen in *. rewrite length_splice; lia. }
  eapply wp_bind, wp_mono; [apply wp_write_cluster; [apply Hs1|done|exact Hbl]|].
  intros rc s' (d2 & -> & Hd2 & Hrc & Hg2). specialize (Hg2 (sm_good _ _ Hs1 Hg) Hcd). destruct Hrc as [?|(_ & _ & Hw)]; [lia|]. subst rc.
  rewrite (proj2 (Z.ltb_ge 0 0)) by lia.
  assert (frame cs t d t d2) as F2.
  { eapply frame_trans; [by eapply frame_same| |by left]. eapply frame_cluster; [done|by apply Hs1|done| |exact Hd2]. by eapply list_elem_of_lookup_2. }
  assert (chain_data d2 cs = splice pos piece (chain_data d cs)) as Hdata.
  { rewrite <- (same_chain d d1) by (done || by eapply file_on_disk). unfold pos. eapply write_in_chain; [apply Hs1|eapply chain_nodup, Hf|by eapply file_on_disk|exact Hcur|lia|lia|exact Hd2|].
    by rewrite Hw, (same_cluster d d1). }
  pose proof (length_chain_data d cs Hi (file_on_disk _ _ _ Hf)) as Hlen. apply lookup_lt_Some in Hcur as Hlt.
  destruct (Z.leb_spec (zlen bytes) (done + n)) as [Hend|Hmore].
  - apply wp_ret. exists t, d2, k. assert (done + n = zlen bytes) as -> by lia. split_and!; [done|lia|done| |done]. right. split; [done|]. exists [].
    rewrite !app_nil_r. split_and!; [done|done| |unfold pos, zlen in *; nia]. rewrite Hdata. f_equal. unfold piece, slice. apply take_ge. rewrite length_drop. unfold zlen in *. lia.
  - assert (n = bpc - off) as En by lia.
    (* the rest, from the start of the next cluster *)
    set (rest' := zlen bytes - (done + n)). assert ((if done + n =? 0 then b else 0) = 0) as Eoff by (rewrite (proj2 (Z.eqb_neq _ _)) by lia; done).
    assert (0 + rest' <= (Z.of_nat fuel - 1) * bpc /\ (0 < fuel)%nat) as [Hfuel' Hpos'].
    { unfold rest' in *. split; [nia|]. destruct fuel; [nia|lia]. }
    assert (forall Zs, pos + rest <= Z.of_nat (length (chain_data d cs ++ Zs)) ->
      splice (bpc * Z.of_nat (S i) + 0) (drop (Z.to_nat (done + n)) bytes) (chain_data d2 cs ++ Zs) = splice pos (drop (Z.to_nat done) bytes) (chain_data d cs ++ Zs)) as Hjoin.
    { intros Zs Hfit. rewrite Hdata, <- splice_app_l by (unfold pos, zlen in *; nia). rewrite (drop_slice bytes done n) by lia. fold piece.
      rewrite splice_app; [|unfold pos; nia|unfold rest, zlen in *; rewrite length_drop; lia].
      f_equal. unfold pos, zlen in *. nia. }
    fold (next_of t cur). rewrite (chain_next t c cs i cur (proj1 Hf) Hcur). destruct (cs !! S i) as [y|] eqn:Ey.
    + change (default 0 (Some y)) with y. destruct (file_used t c cs y Hf ltac:(by eapply list_elem_of_lookup_2)) as ([? _] & _).
      rewrite (proj2 (Z.eqb_neq y 0)) by lia.
      eapply wp_mono; [apply (IH t d2 k cs (S i) y (done + n)); try done; [apply F2|apply F2|lia|by rewrite Eoff]|].
      cbn zeta. rewrite Eoff. fold rest'. intros rc s' (t3 & d3 & k3 & -> & Hk3 & F3 & Hr3 & Hok3). exists t3, d3, k3.
      split_and!; [done|done|eapply frame_trans; [exact F2|exact F3|by left]| |].
      * destruct Hr3 as [?|(-> & new & Hf3 & Hn3 & Hd3 & Hle3)]; [by left|right]. split; [done|]. exists new.
        assert (bpc * Z.of_nat (S i) + 0 + rest' = pos + rest) as Epos by (unfold pos, rest', rest; lia). rewrite Epos in Hle3.
        split_and!; [done|done| |done]. rewrite Hd3. apply Hjoin.
        rewrite length_app, Nat2Z.inj_add, length_concat_zeros. unfold zlen in *. rewrite length_app in Hle3. lia.
      * intros Hh Hroom. apply Hok3; [done|]. unfold pos, rest', rest in *. lia.
    + change (default 0 None) with 0. rewrite Z.eqb_refl. apply lookup_ge_None in Ey. assert (length cs = S i) as Hcl by lia.
      assert (last cs = Some cur) as Hlast. { rewrite last_lookup, Hcl. exact Hcur. }
      eapply wp_bind, wp_mono; [eapply wp_extend; [apply F2|apply F2|done|exact Hf|done]|]. intros r s' (t3 & d3 & k3 & -> & Hk3 & F3 & Hr3 & Hok3).
      assert (frame cs t d t3 d3) as F3' by (eapply frame_trans; [exact F2|exact F3|by left]).
      destruct Hr3 as [Hr3|(x & -> & Hx & Hfx & Hgr & _)].
      { rewrite Hr3. rewrite (proj2 (Z.ltb_lt (-1) 0)) by lia. apply wp_ret. exists t3, d3, k3. split_and!; [done..|by left|].
        intros Hh Hroom. rewrite Hok3 in Hr3; [done|done|]. intros E. rewrite E in Hroom. unfold pos, rest, zlen in *. cbn in Hroom. nia. }
      cbn [fst snd]. rewrite (proj2 (Z.ltb_ge 0 0)) by lia.
      eapply wp_mono; [apply (IH t3 d3 k3 (cs ++ [x]) (S i) x (done + n)); [apply F3..|apply Hgr| |done|lia|done|by rewrite Eoff|done]|].
      { rewrite lookup_app_r by lia. by rewrite Hcl, Nat.sub_diag. }
      cbn zeta. rewrite Eoff. fold rest'. intros rc s' (t4 & d4 & k4 & -> & Hk4 & F4 & Hr4 & Hok4). exists t4, d4, k4.
      assert (bpc * Z.of_nat (S i) + 0 + rest' = pos + rest) as Epos by (unfold pos, rest', rest; lia).
      split_and!; [done|lia| | |].
      * eapply frame_trans; [exact F3'|exact F4|]. intros y [Hy|Hy]%elem_of_app; [by left|]. apply list_elem_of_singleton in Hy as ->. by right.
      * destruct Hr4 as [?|(-> & new & Hf4 & Hn4 & Hd4 & Hle4)]; [by left|right]. split; [done|]. exists (x :: new).
        rewrite <- app_assoc in Hf4, Hd4, Hle4. cbn [app] in Hf4, Hd4, Hle4. rewrite Epos in Hle4. split_and!; [done| | |done].
        -- constructor; [done|]. eapply Forall_impl; [exact Hn4|]. intros y [Hy Hyf]. split; [done|]. eapply free_back; [exact F3'|apply Hgr|done|done].
        -- rewrite Hd4, (gr_data _ _ _ _ _ _ _ Hgr). cbn [length replicate concat]. rewrite app_nil_r, <- app_assoc. apply Hjoin.
           rewrite !length_app, !Nat2Z.inj_add, length_concat_zeros. pose proof zlen_zeros. unfold zlen in *. rewrite length_app in Hle4. cbn [length] in Hle4. lia.
      * intros Hh Hroom. apply Hok4; [by eapply heap_ok_le|]. rewrite Epos. pose proof (gr_room _ _ _ _ _ _ _ Hgr) as Er.
        unfold zlen in *. rewrite length_app. cbn [length] in *. lia.
Qed.

(** ** Directory entries of files *)

Definition updated_entry (o c size : Z) (buf : list Z) : list Z :=
  let buf := put_cluster_size o c size buf in splice (o + 11) [Z.lor (ent_attr buf o) FAT_ATTR_ARCHIVE] buf.

Lemma zlen_splice (off : Z) (a l : list Z) : 0 <= off -> off + zlen a <= zlen l -> zlen (splice off a l) = zlen l.
Proof. intros. unfold zlen in *. rewrite length_splice; lia. Qed.
Lemma zlen_le_split n w : zlen (le_split n w) = Z.of_nat n.
Proof. unfold zlen. by rewrite length_le_split. Qed.
Lemma slice_splice_self (off n : Z) (a l : list Z) : n = zlen a -> 0 <= off -> off + n <= zlen l -> slice off n (splice off a l) = a.
Proof. intros -> H1 H2. unfold zlen in *. apply slice_splice_same; lia. Qed.
Lemma slice_splice_other (off : Z) (a l : list Z) i n :
  0 <= off -> off + zlen a <= zlen l -> 0 <= i -> 0 <= n -> i + n <= off \/ off + zlen a <= i -> slice i n (splice off a l) = slice i n l.
Proof. intros. by apply slice_splice_disj. Qed.

Lemma zlen_put_cluster_size o c size buf : 0 <= o -> o + 32 <= zlen buf -> zlen (put_cluster_size o c size buf) = zlen buf.
Proof.
  intros Ho Hl. unfold put_cluster_size.
  rewrite !zlen_splice; rewrite ?zlen_le_split; rewrite ?zlen_splice; rewrite ?zlen_le_split; rewrite ?zlen_splice; rewrite ?zlen_le_split; lia.
Qed.
Lemma zlen_updated_entry o c size buf : 0 <= o -> o + 32 <= zlen buf -> zlen (updated_entry o c size buf) = zlen buf.
Proof.
  intros Ho Hl. unfold updated_entry. cbn zeta. rewrite zlen_splice; [by apply zlen_put_cluster_size|lia|].
  rewrite zlen_put_cluster_size by done. unfold zlen at 1. cbn [length]. lia.
Qed.

Lemma put_other o c size buf i n :
  0 <= o -> o + 32 <= zlen buf -> 0 <= i -> 0 <= n -> i + n <= o + 20 \/ o + 32 <= i -> slice i n (put_cluster_size o c size buf) = slice i n buf.
Proof.
  intros Ho Hl Hi Hn Ha. unfold put_cluster_size.
  do 3 (rewrite slice_splice_other; [|lia|rewrite ?zlen_splice; rewrite ?zlen_le_split; rewrite ?zlen_splice; rewrite ?zlen_le_split; lia|lia|lia|rewrite zlen_le_split; lia]). done.
Qed.
Lemma put_fields o c size buf :
  0 <= o -> o + 32 <= zlen buf ->
  slice (o + 20) 2 (put_cluster_size o c size buf) = le_split 2 (Z.land (Z.shiftr c 16) 0xFFFF) /\
  slice (o + 26) 2 (put_cluster_size o c size buf) = le_split 2 (Z.land c 0xFFFF) /\
  slice (o + 28) 4 (put_cluster_size o c size buf) = le_split 4 size.
Proof.
  intros Ho Hl. unfold put_cluster_size. set (a := splice (o + 20) _ _). assert (zlen a = zlen buf) as Ha by (unfold a; rewrite zlen_splice; rewrite ?zlen_le_split; lia).
  set (b := splice (o + 26) _ a). assert (zlen b = zlen buf) as Hb by (unfold b; rewrite zlen_splice; rewrite ?zlen_le_split; lia).
  split_and!.
  - rewrite slice_splice_other by (rewrite ?zlen_le_split; lia). unfold b. rewrite slice_splice_other by (rewrite ?zlen_le_split; lia).
    unfold a. apply slice_splice_self; rewrite ?zlen_le_split; lia.
  - rewrite slice_splice_other by (rewrite ?zlen_le_split; lia). unfold b. apply slice_splice_self; rewrite ?zlen_le_split; lia.
  - apply slice_splice_self; rewrite ?zlen_le_split; lia.
Qed.

Lemma join_halves c : 0 <= c < 2 ^ 32 -> Z.lor (u32 (Z.shiftl (Z.land (Z.shiftr c 16) 0xFFFF) 16)) (Z.land c 0xFFFF) = c.
Proof.
  intros Hc. change 0xFFFF with (Z.ones 16). apply Z.bits_inj'. intros n Hn. unfold u32.
  rewrite Z.lor_spec, Z.land_spec, Z.testbit_ones_nonneg by lia.
  destruct (Z.ltb_spec n 32).
  - rewrite Z.mod_pow2_bits_low, Z.shiftl_spec by lia. destruct (Z.ltb_spec n 16).
    + rewrite (Z.testbit_neg_r _ (n - 16)) by lia. by rewrite andb_true_r.
    + rewrite Z.land_spec, Z.shiftr_spec, Z.testbit_ones_nonneg by lia. replace (n - 16 + 16) with n by lia.
      rewrite (proj2 (Z.ltb_lt _ _)) by lia. by rewrite andb_true_r, andb_false_r, orb_false_r.
  - rewrite Z.mod_pow2_bits_high by lia. rewrite (proj2 (Z.ltb_ge n 16)) by lia. rewrite andb_false_r. symmetry.
    rewrite <- (Z.mod_small c (2 ^ 32)) by lia. by apply Z.mod_pow2_bits_high.
Qed.

(** What an updated entry says, and that nothing else of the directory changes. *)
Lemma updated_entry_spec o c size buf :
  0 <= o -> o + 32 <= zlen buf -> 0 <= c < 2 ^ 32 -> 0 <= size < 2 ^ 32 ->
  let e := updated_entry o c size buf in
  ent_cluster e o = c /\ ent_size e o = size /\ (forall i n, 0 <= i -> 0 <= n -> i + n <= o + 11 \/ o + 32 <= i -> slice i n e = slice i n buf).
Proof.
  intros Ho Hl Hc Hs e. destruct (put_fields o c size buf Ho Hl) as (E1 & E2 & E3). pose proof (zlen_put_cluster_size o c size buf Ho Hl) as Hlp.
  assert (forall i n, 0 <= i -> 0 <= n -> i + n <= o + 11 \/ o + 12 <= i -> slice i n e = slice i n (put_cluster_size o c size buf)) as Hpass.
  { intros i n Hi Hn Ha. unfold e, updated_entry. cbn zeta. apply slice_splice_other; try lia; unfold zlen at 1; cbn [length]; lia. }
  split_and!.
  - unfold ent_cluster, half_at. rewrite !Hpass, E1, E2 by lia.
    assert (forall x, le_combine (le_split 2 (Z.land x 0xFFFF)) = Z.land x 0xFFFF) as Hle.
    { intros x. apply le_combine_split. change 0xFFFF with (Z.ones 16). rewrite Z.land_ones by lia. apply Z.mod_pos_bound. done. }
    rewrite !Hle. by apply join_halves.
  - unfold ent_size, Minfs.word_at. rewrite Hpass, E3 by lia. by apply le_combine_split.
  - intros i n Hi Hn Ha. rewrite Hpass by lia. apply put_other; lia.
Qed.

(** The entry a node came from lies in a used cluster of a directory. *)
Record entry_of (t cs : list Z) (i : fat32_node_impl_t) : Prop := {
  eo_cluster : in_table (i_dir_entry_cluster i);
  eo_disk : on_disk (i_dir_entry_cluster i);
  eo_used : used t (i_dir_entry_cluster i);
  eo_apart : i_dir_entry_cluster i ∉ cs;
  eo_offset : 0 <= i_dir_entry_offset i /\ i_dir_entry_offset i + 32 <= bpc
}.

Lemma wp_sync N I t d k node n pi i cs :
  node_of N I node n pi i -> is_set (n_type n) VFS_FILE = true -> entry_of t cs i -> sd_inv d -> sd_good d ->
  wp (fat32_sync_node_metadata serves junk node) (fun rc s' => exists d' k', s' = st N I (vol t) d' k' /\ (k <= k')%nat /\
      differ_in (cluster_lba (i_dir_entry_cluster i)) spc d d' /\
      (rc = -1 \/ rc = 0 /\ cluster_data d' (i_dir_entry_cluster i) =
         updated_entry (i_dir_entry_offset i) (i_cluster i) (n_size n) (cluster_data d (i_dir_entry_cluster i))) /\
      (heap_ok k -> rc = 0)) (st N I (vol t) d k).
Proof.
  intros Hno Hty [Hc Ho Hu _ [Hof1 Hof2]] Hi Hg. unfold fat32_sync_node_metadata. eapply wp_bind, wp_node_impl; [done|]. cbn iota beta.
  rewrite Hty. rewrite (proj2 (Z.ltb_ge _ _)) by apply Hc. cbn [negb orb]. rewrite (no_fs _ _ _ _ _ _ Hno). apply wp_bind, wp_get_fs.
  apply wp_bind, wp_kalloc. destruct (serves k) eqn:Ek.
  2: { rewrite Z.eqb_refl. apply wp_ret. exists d, (S k). split_and!; [done|lia|by apply differ_refl|by left|]. intros Hh. by rewrite Hh in Ek by lia. }
  rewrite (proj2 (Z.eqb_neq (Z.of_nat k + 1) _)) by (unfold NULL; lia). cbn [bytes_per_cluster vol with_table].
  pose proof (vo_spc Hvol). pose proof (vo_bpc Hvol). unfold SIZEOF_DIR_ENTRY. rewrite (u32_small (_ + 32)) by lia. rewrite (proj2 (Z.ltb_ge bpc _)) by lia.
  eapply wp_bind, wp_mono; [apply wp_read_cluster; [done|done|apply Hjunk; lia]|]. intros r s' (d1 & -> & Hs1 & _ & Hr & Hg1). specialize (Hg1 Hg).
  destruct Hr as [?|Hr]; [lia|]. subst r. cbn [fst snd]. rewrite (proj2 (Z.ltb_ge 0 0)) by lia.
  set (o := i_dir_entry_offset i) in *. set (dc := i_dir_entry_cluster i) in *.
  change (splice (o + 11) _ _) with (updated_entry o (i_cluster i) (n_size n) (cluster_data d dc)).
  eapply wp_mono; [apply wp_write_cluster; [apply Hs1|apply Hc|]|].
  { rewrite zlen_updated_entry; rewrite ?length_cluster_data; done || lia. }
  intros rc s' (d2 & -> & Hd2 & Hrc & Hg2). specialize (Hg2 (sm_good _ _ Hs1 Hg) Ho). exists d2, (S k). split_and!; [done|lia| | |done].
  - eapply differ_trans; [apply (same_differ (cluster_lba dc) spc), Hs1|exact Hd2|lia..].
  - right. destruct Hrc as [?|(_ & _ & Hw)]; [lia|]. by rewrite Hw.
Qed.

Lemma with_cluster_self i : with_cluster (i_cluster i) i = i.
Proof. by destruct i. Qed.
Lemma with_size_self n : with_size (n_size n) n = n.
Proof. by destruct n. Qed.
Lemma with_size_twice a b n : with_size a (with_size b n) = with_size a n.
Proof. done. Qed.

(** The file's first cluster, there already or the first free one. *)
Lemma wp_first N I t d k pi i cs :
  sd_inv d -> sd_good d -> table_ok t -> file_ok t (i_cluster i) cs -> i_fs i = p -> I !! pi = Some i ->
  wp (first_cluster serves pi i) (fun r s' => exists t' d' k' I', s' = st N I' (vol t') d' k' /\ (k <= k')%nat /\ frame cs t d t' d' /\
      (r = None \/ exists c new, r = Some c /\ I' = <[pi := with_cluster c i]> I /\ grown c cs new t d t' d' /\ cs ++ new <> []) /\
      (heap_ok k -> (0 < length cs + length (room t))%nat -> r <> None)) (st N I (vol t) d k).
Proof.
  intros Hi Hg Ht Hf Hfs HI. unfold first_cluster. destruct Hf as [Hch Hall]. destruct (Z.ltb_spec (i_cluster i) 2) as [Hlt|Hge].
  - inversion Hch as [Hc0|c cs' [Hc _]]; subst; [|lia]. rewrite Hfs. eapply wp_bind, wp_mono; [apply wp_alloc; try done; lia|].
    intros r s' (t' & d' & k' & -> & Hk & Hfr & Hr & Hok).
    assert (frame [] t d t' d') as Hfr'.
    { (* cluster 0 is no cluster *) destruct Hfr. split; [done..| | |done].
      - intros x Hx Hu _. apply fr_value0; [done|done|]. intros ->%list_elem_of_singleton. destruct Hx. lia.
      - intros x Hx Ho Hu _. apply fr_data0; [done|done|done|]. intros ->%list_elem_of_singleton. destruct Hx. lia. }
    destruct Hr as [Hr|(x & -> & Hx & Hfx & Ho & -> & Hz & Hd)].
    + rewrite Hr. rewrite (proj2 (Z.ltb_lt (-1) 0)) by lia. apply wp_ret. exists t', d', k', I. split_and!; [done..|by left|].
      intros Hh Hroom. rewrite Hok in Hr; [done|done|]. intros E. rewrite E in Hroom. cbn in Hroom. lia.
    + cbn [fst snd]. rewrite (proj2 (Z.ltb_ge 0 0)) by lia. apply wp_bind, wp_put_impl, wp_ret. exists (linked 0 x t), d', k', (<[pi := with_cluster x i]> I).
      split_and!; [done..| |done]. right. exists x, [x]. split_and!; [done|done| |done]. split.
      * by apply file_new.
      * by rewrite Forall_singleton.
      * cbn [length]. apply room_linked; done || lia.
      * cbn [length replicate concat app]. unfold chain_data. cbn [map concat]. by rewrite Hz.
  - apply wp_ret. exists t, d, k, I. split_and!; [done|lia|by apply frame_refl| |done]. right. exists (i_cluster i), []. split_and!; [done| |by apply grown_refl|].
    + rewrite with_cluster_self. symmetry. by apply insert_id.
    + rewrite app_nil_r. intros ->. inversion Hch. lia.
Qed.

Lemma take_splice_contents (l bytes : list Z) (size off : Z) :
  0 <= off <= size -> size <= zlen l -> off + zlen bytes <= zlen l ->
  take (Z.to_nat (Z.max size (off + zlen bytes))) (splice off bytes l) = splice off bytes (take (Z.to_nat size) l).
Proof.
  intros Ho Hs Hl. unfold splice, zlen in *. rewrite take_take, Nat.min_l by lia.
  rewrite skipn_firstn_comm. rewrite take_app_ge by (rewrite length_take; lia). f_equal. rewrite length_take, take_app_ge by lia. f_equal. f_equal. lia.
Qed.

Lemma frame_entry cs new t d t' d' i c' :
  frame cs t d t' d' -> entry_of t cs i -> file_ok t' c' (cs ++ new) -> Forall (fun x => in_table x /\ free t x) new -> entry_of t' (cs ++ new) i.
Proof.
  intros Hfr [Hc Ho Hu Ha Hof] Hf Hn. split; try done.
  - by eapply frame_used.
  - rewrite elem_of_app. intros [?|Hin]; [done|]. rewrite Forall_forall in Hn. apply (free_not_used t (i_dir_entry_cluster i)); [by apply Hn|done].
Qed.

Ltac heap := eapply heap_ok_le; [eassumption|lia].

(** From the first cluster to number [q], or failure when there is no room. *)
Lemma wp_reach N I t d k node n pi i cs q (K : Z -> Z -> M (fat_state D) Z) Q :
  node_of N I node n pi i -> sd_inv d -> sd_good d -> table_ok t -> file_ok t (i_cluster i) cs ->
  (forall I' t' d' k', frame cs t d t' d' -> (heap_ok k -> ~ (q < length cs + length (room t))%nat) -> Q (-1) (st N I' (vol t') d' k')) ->
  (forall t' d' k' c cur prev new, frame cs t d t' d' -> (k <= k')%nat -> grown c cs new t d t' d' -> (cs ++ new) !! q = Some cur ->
     wp (K prev cur) Q (st N (<[pi := with_cluster c i]> I) (vol t') d' k')) ->
  wp (let! c := first_cluster serves pi i in
      match c with
      | None => ret (-1)
      | Some c =>
          let! w := walk_clusters serves q p 0 c in
          match w with None => ret (-1) | Some (prev, current) => K prev current end
      end) Q (st N I (vol t) d k).
Proof.
  intros Hno Hi Hg Ht Hf Hfail Hok. eapply wp_bind, wp_mono; [eapply wp_first; [done..|apply Hno|apply Hno]|].
  intros r s' (t1 & d1 & k1 & I1 & -> & Hk1 & F1 & Hr1 & Hok1). destruct Hr1 as [->|(c & n1 & -> & -> & G1 & Hne1)].
  { apply wp_ret, Hfail; [done|]. intros Hh Hroom. apply Hok1; [done|lia|done]. }
  destruct ((cs ++ n1) !! 0%nat) as [c1|] eqn:Ec1; [|apply lookup_ge_None in Ec1; destruct (cs ++ n1); cbn in Ec1; [done|lia]].
  assert (c1 = c) as ->. { pose proof (chain_head _ _ _ (proj1 (gr_file _ _ _ _ _ _ _ G1))) as E. rewrite E. destruct (cs ++ n1); [done|]. by cbn in Ec1; simplify_eq. }
  eapply wp_bind, wp_mono; [eapply (wp_walk q); [apply F1|apply F1|apply F1|apply G1|exact Ec1]|].
  intros r s' (t2 & d2 & k2 & -> & Hk2 & F2 & Hr2 & Hok2).
  assert (forall x, x ∈ cs ++ n1 -> x ∈ cs \/ free t x) as Hn1.
  { intros x [Hx|Hx]%elem_of_app; [by left|right]. pose proof (gr_new _ _ _ _ _ _ _ G1) as H. rewrite Forall_forall in H. by apply H. }
  assert (frame cs t d t2 d2) as F2' by (eapply frame_trans; [exact F1|exact F2|exact Hn1]).
  destruct Hr2 as [->|(prev & cur & n2 & -> & G2 & Hcur & Hlen2)].
  { apply wp_ret, Hfail; [done|]. intros Hh Hroom. apply Hok2; [heap| |done]. pose proof (gr_room _ _ _ _ _ _ _ G1). rewrite length_app. lia. }
  pose proof (grown_trans c cs n1 n2 t d t1 d1 t2 d2 F1 G1 G2) as G. rewrite <- app_assoc in Hcur.
  apply (Hok t2 d2 k2 c cur prev (n1 ++ n2)); [done|lia|done|exact Hcur].
Qed.

(** The end of a write: the new size in the node and in the directory. *)
Lemma wp_record N I t d k node n pi i cs size' w :
  node_of N I node n pi i -> is_set (n_type n) VFS_FILE = true -> entry_of t cs i -> sd_inv d -> sd_good d -> table_ok t -> 0 <= w < 2 ^ 31 ->
  wp (put_node node (with_size size' n);;;
      let! rc := fat32_sync_node_metadata serves junk node in
      if rc <? 0 then put_node node (with_size (n_size n) n);;; ret (-1) else ret (i32 w))
    (fun rc s' => exists N' d' k', s' = st N' I (vol t) d' k' /\ frame [i_dir_entry_cluster i] t d t d' /\
       (rc = -1 /\ N' = N \/ rc = w /\ N' = <[node := with_size size' n]> N /\ cluster_data d' (i_dir_entry_cluster i) =
          updated_entry (i_dir_entry_offset i) (i_cluster i) size' (cluster_data d (i_dir_entry_cluster i))) /\ (heap_ok k -> rc = w))
    (st N I (vol t) d k).
Proof.
  intros Hno Hty He Hi Hg Ht Hw. apply wp_bind, wp_put_node.
  eapply wp_bind, wp_mono; [eapply (wp_sync _ _ t d k node (with_size size' n) pi i cs); [|done..]|].
  { destruct Hno. split; try done. by rewrite lookup_insert_eq. }
  intros rc s' (d4 & k4 & -> & Hk4 & Hd4 & Hrc & Hok4). assert (frame [i_dir_entry_cluster i] t d t d4) as F4.
  { eapply frame_cluster; [done|done|apply He|apply list_elem_of_here|exact Hd4]. }
  destruct Hrc as [->|(-> & Hent)].
  - rewrite (proj2 (Z.ltb_lt (-1) 0)) by lia. apply wp_bind, wp_put_node, wp_ret. exists N, d4, k4. split_and!; [|done|by left|].
    + rewrite insert_insert_eq, with_size_self, insert_id; [done|apply Hno].
    + intros Hh. specialize (Hok4 Hh). lia.
  - rewrite (proj2 (Z.ltb_ge 0 0)) by lia. assert (i32 w = w) as -> by (unfold i32; rewrite Z.mod_small by lia; lia).
    apply wp_ret. exists (<[node := with_size size' n]> N), d4, k4. split_and!; [done|done|by right|done].
Qed.

(** What is known of the result of a write. *)
Definition written_to N I t d k node n pi i cs offset bytes (rc : Z) (s' : VF) : Prop :=
  exists N' I' t' d' k', s' = st N' I' (vol t') d' k' /\ frame (i_dir_entry_cluster i :: cs) t d t' d' /\
    (rc = -1 /\ N' = N \/
     rc = zlen bytes /\ exists c' new, let size' := Z.max (n_size n) (offset + zlen bytes) in
       file_ok t' c' (cs ++ new) /\ entry_of t' (cs ++ new) i /\ Forall (free t) new /\
       N' = <[node := with_size size' n]> N /\ I' = <[pi := with_cluster c' i]> I /\
       contents d' (cs ++ new) size' = splice offset bytes (contents d cs (n_size n)) /\
       cluster_data d' (i_dir_entry_cluster i) = updated_entry (i_dir_entry_offset i) c' size' (cluster_data d (i_dir_entry_cluster i))) /\
    (heap_ok k -> offset + zlen bytes <= bpc * (zlen cs + zlen (room t)) -> rc = zlen bytes).

(** The contents survive the update of the directory. *)
Lemma written_contents c c' cs new t t3 d d3 d4 i offset bytes size :
  sd_inv d -> file_ok t c cs -> file_ok t3 c' (cs ++ new) -> frame [i_dir_entry_cluster i] t3 d3 t3 d4 -> entry_of t3 (cs ++ new) i ->
  chain_data d3 (cs ++ new) = splice offset bytes (chain_data d cs ++ concat (replicate (length new) zeros)) ->
  0 <= offset <= size -> 0 <= size <= bpc * zlen cs -> offset + zlen bytes <= bpc * zlen (cs ++ new) ->
  contents d4 (cs ++ new) (Z.max size (offset + zlen bytes)) = splice offset bytes (contents d cs size).
Proof.
  intros Hi Hf Hf3 F4 He3 Hdata Ho Hs Hle. assert (chain_data d4 (cs ++ new) = chain_data d3 (cs ++ new)) as E4.
  { unfold chain_data. f_equal. apply map_ext_in. intros y Hy%list_elem_of_In. destruct (file_used t3 c' _ y Hf3 Hy) as (Hy1 & Hy2 & Hy3 & _).
    apply F4; [done..|]. intros ->%list_elem_of_singleton. by apply (eo_apart _ _ _ He3). }
  unfold contents. rewrite E4, Hdata. pose proof (length_chain_data d cs Hi (file_on_disk _ _ _ Hf)) as Hlc.
  unfold zlen in Hle. rewrite length_app in Hle. rewrite take_splice_contents.
  - f_equal. rewrite take_app_le; [done|]. unfold zlen in *. lia.
  - lia.
  - unfold zlen in *. rewrite length_app. lia.
  - unfold zlen in *. rewrite length_app, Nat2Z.inj_add, length_concat_zeros. nia.
Qed.

(** C22: Writing to a file of a FAT32 volume on a disk in good order writes all
    the bytes or returns -1, the latter only when the heap or the free
    clusters of the disk run out. After a complete write the chain of the
    file, extended by clusters that were free, holds the old contents with
    the bytes spliced in at the offset, and node and directory entry carry the
    new size and first cluster; no other file's clusters or table entries
    change, and the tables on disk stay those in memory. *)
Theorem fat32_write_correct N I t d k node n pi i cs offset bytes :
  node_of N I node n pi i -> is_set (n_type n) VFS_FILE = true -> sd_inv d -> sd_good d -> table_ok t ->
  file_ok t (i_cluster i) cs -> entry_of t cs i ->
  0 <= n_size n <= bpc * zlen cs -> 0 <= offset <= n_size n -> 0 < zlen bytes -> offset + zlen bytes < 2 ^ 31 -> n_size n < 2 ^ 32 ->
  exists rc N' I' t' d' k', fat32_write serves junk node offset bytes (st N I (vol t) d k) = Ret rc (st N' I' (vol t') d' k') /\
    frame (i_dir_entry_cluster i :: cs) t d t' d' /\
    (rc = -1 /\ N' = N \/
     rc = zlen bytes /\ exists c' new, let size' := Z.max (n_size n) (offset + zlen bytes) in
       file_ok t' c' (cs ++ new) /\ entry_of t' (cs ++ new) i /\ Forall (free t) new /\
       N' = <[node := with_size size' n]> N /\ I' = <[pi := with_cluster c' i]> I /\
       contents d' (cs ++ new) size' = splice offset bytes (contents d cs (n_size n)) /\
       cluster_data d' (i_dir_entry_cluster i) = updated_entry (i_dir_entry_offset i) c' size' (cluster_data d (i_dir_entry_cluster i))) /\
    (heap_ok k -> offset + zlen bytes <= bpc * (zlen cs + zlen (room t)) -> rc = zlen bytes).
Proof.
  intros Hno Hty Hi Hg Ht Hf He Hn Ho Hb Hsz Hw32.
  cut (wp (fat32_write serves junk node offset bytes) (written_to N I t d k node n pi i cs offset bytes) (st N I (vol t) d k)).
  { intros (rc & s' & E & N' & I' & t' & d' & k' & -> & H)%wp_run. by exists rc, N', I', t', d', k'. }
  pose proof bpc_pos as Hbp. unfold fat32_write. eapply wp_bind, wp_node_impl; [done|]. cbn iota beta. rewrite Hty. cbn [negb].
  rewrite (no_fs _ _ _ _ _ _ Hno). apply wp_bind, wp_get_fs. zbool. rewrite (u32_small (offset + zlen bytes)) by lia. zbool.
  assert (forall t' d' cs', frame cs' t d t' d' -> (forall x, x ∈ cs' -> x ∈ cs \/ free t x) -> frame (i_dir_entry_cluster i :: cs) t d t' d') as Hwide.
  { intros t' d' cs' Hfr Hs. eapply frame_weaken; [exact Hfr|]. intros x Hx. destruct (Hs x Hx); [left; by apply list_elem_of_further|by right]. }
  apply wp_bind, wp_kalloc. destruct (serves k) eqn:Ek.
  2: { rewrite Z.eqb_refl. apply wp_ret. exists N, I, t, d, (S k). split_and!; [done|by apply frame_refl|by left|]. intros Hh. by rewrite Hh in Ek by lia. }
  rewrite (proj2 (Z.eqb_neq (Z.of_nat k + 1) _)) by (unfold NULL; lia). cbn [bytes_per_cluster vol with_table].
  set (q := offset / bpc). assert (0 <= q /\ offset = q * bpc + offset mod bpc /\ 0 <= offset mod bpc < bpc) as (Hq & Eo & Hmb).
  { pose proof (Z.div_mod offset bpc). pose proof (Z.mod_pos_bound offset bpc). pose proof (Z.div_pos offset bpc). unfold q. nia. }
  apply wp_reach with (1 := Hno) (cs := cs); [done..| |].
  { intros I' t' d' k' Hfr Hno'. exists N, I', t', d', k'. split_and!; [done|by eapply Hwide; [exact Hfr|by left]|by left|]. intros Hh Hroom. exfalso.
    apply Hno'; [heap|unfold zlen in *; nia]. }
  intros t2 d2 k2 c cur prev nn F2 Hk2 G Hcur.
  assert (forall x, x ∈ cs ++ nn -> x ∈ cs \/ free t x) as Hnn.
  { intros x [Hx|Hx]%elem_of_app; [by left|right]. pose proof (gr_new _ _ _ _ _ _ _ G) as H. rewrite Forall_forall in H. by apply H. }
  destruct (file_used t2 c (cs ++ nn) cur (gr_file _ _ _ _ _ _ _ G) ltac:(by eapply list_elem_of_lookup_2)) as ([Hcur2 _] & _).
  rewrite (proj2 (Z.ltb_ge cur 2)) by lia. cbn [andb]. apply wp_bind, wp_ret. cbn [fst snd]. rewrite (proj2 (Z.ltb_ge 0 0)) by lia.
  eapply wp_bind, wp_mono; [apply (wp_write_loop _ N (<[pi := with_cluster c i]> I) t2 d2 k2 c (cs ++ nn) (Z.to_nat q) cur);
    [apply F2|apply F2|apply F2|apply G|exact Hcur|done|lia|apply Hjunk; lia| |lia]|].
  { rewrite Z.eqb_refl. pose proof (Z.div_mod (zlen bytes) bpc ltac:(lia)). pose proof (Z.mod_pos_bound (zlen bytes) bpc ltac:(lia)). pose proof (Z.div_pos (zlen bytes) bpc ltac:(lia) ltac:(lia)). nia. }
  cbn zeta. rewrite Z.eqb_refl, Z2Nat.id, Z.sub_0_r by lia. replace (bpc * q + offset mod bpc) with offset by lia.
  intros w s' (t3 & d3 & k3 & -> & Hk3 & F3 & Hr3 & Hok3).
  assert (frame cs t d t3 d3) as F3' by (eapply frame_trans; [exact F2|exact F3|exact Hnn]).
  assert (heap_ok k -> offset + zlen bytes <= bpc * (zlen cs + zlen (room t)) -> w = zlen bytes) as Hokw.
  { intros Hh Hroom. apply Hok3; [heap|]. pose proof (gr_room _ _ _ _ _ _ _ G). unfold zlen in *. rewrite length_app. nia. }
  destruct Hr3 as [->|(-> & n3 & Hf3 & Hn3 & Hd3 & Hle3)].
  { rewrite (proj2 (Z.ltb_lt (-1) 0)) by lia. apply wp_ret. exists N, (<[pi := with_cluster c i]> I), t3, d3, k3.
    split_and!; [done|eapply Hwide; [exact F3'|by left]|by left|done]. }
  rewrite (proj2 (Z.ltb_ge (zlen bytes) 0)) by lia. rewrite <- app_assoc in Hf3, Hd3, Hle3.
  assert (Forall (fun x => in_table x /\ free t x) (nn ++ n3)) as Hnew.
  { apply Forall_app. split; [apply G|]. eapply Forall_impl; [exact Hn3|]. intros x [Hx Hfx]. split; [done|]. eapply free_back; [exact F2|apply G|done|done]. }
  assert (chain_data d3 (cs ++ nn ++ n3) = splice offset bytes (chain_data d cs ++ concat (replicate (length (nn ++ n3)) zeros))) as Hdata.
  { rewrite Hd3. change (Z.to_nat 0) with 0%nat. rewrite drop_0, (gr_data _ _ _ _ _ _ _ G), <- app_assoc. by rewrite length_app, replicate_add, concat_app. }
  eapply wp_bind, wp_deref; [apply Hno|]. rewrite (u32_small (offset + zlen bytes)) by lia.
  assert ((if n_size n <? offset + zlen bytes then offset + zlen bytes else n_size n) = Z.max (n_size n) (offset + zlen bytes)) as -> by (case_match; lia).
  assert (entry_of t3 (cs ++ nn ++ n3) i) as He3 by (by eapply frame_entry).
  eapply wp_mono; [apply (wp_record N (<[pi := with_cluster c i]> I) t3 d3 k3 node n pi (with_cluster c i) (cs ++ nn ++ n3)); [|done|by destruct He3|apply F3|apply F3|apply F3|lia]|].
  { destruct Hno. split; try done. by rewrite lookup_insert_eq. }
  intros rc s' (N' & d4 & k4 & -> & F4 & Hrc & Hok4). cbn [i_dir_entry_cluster i_dir_entry_offset i_cluster with_cluster] in F4, Hrc.
  exists N', (<[pi := with_cluster c i]> I), t3, d4, k4. split_and!; [done| | |intros Hh _; apply Hok4; heap].
  { eapply frame_trans; [eapply Hwide; [exact F3'|by left]|exact F4|]. intros x ->%list_elem_of_singleton. left. apply list_elem_of_here. }
  destruct Hrc as [?|(-> & -> & Hent)]; [by left|right]. split; [done|]. exists c, (nn ++ n3). cbn zeta. split_and!; [done|done| |done|done| |].
  - eapply Forall_impl; [exact Hnew|]. by intros x [].
  - eapply written_contents; [exact Hi|exact Hf|exact Hf3|exact F4|exact He3|done..].
  - rewrite Hent. f_equal. apply F3'; apply He.
Qed.

(** ** Giving clusters back *)

Lemma wp_release n N I t d k c cs :
  sd_inv d -> sd_good d -> table_ok t -> chain t c cs -> root ∉ cs ->
  wp (release_loop n p c) (fun rc s' => exists t' d', s' = st N I (vol t') d' k /\ frame cs t d t' d' /\ rc = 0 /\
      (forall x, in_table x -> value t' x = if decide (x ∈ take n cs) then 0 else value t x) /\
      (forall x, on_disk x -> cluster_data d' x = cluster_data d x)) (st N I (vol t) d k).
Proof.
  revert t d c cs. induction n as [|n IH]; intros t d c cs Hi Hg Ht Hch Hroot; cbn [release_loop].
  { apply wp_ret. exists t, d. split_and!; [done|by apply frame_refl|done| |done]. intros x _. cbn [take]. by rewrite decide_False by apply not_elem_of_nil. }
  apply wp_bind, wp_get_fs. cbn [total_clusters root_cluster vol with_table]. destruct Hch as [|c cs Hc Hch].
  { rewrite (proj2 (Z.leb_gt 2 0)) by lia. apply wp_ret. exists t, d. split_and!; [done|by apply frame_refl|done| |done].
    intros x _. by rewrite decide_False by apply not_elem_of_nil. }
  apply not_elem_of_cons in Hroot as [Hr1 Hr2]. pose proof Hc as [Hc2 Hct]. rewrite (proj2 (Z.leb_le 2 c)), (proj2 (Z.ltb_lt c total)), (proj2 (Z.eqb_neq c root)) by (done || lia).
  cbn [andb negb]. fold (next_of t c). assert (c ∉ cs) as Hn. { assert (NoDup (c :: cs)) as [? _]%NoDup_cons by (eapply chain_nodup; by constructor). done. }
  eapply wp_bind, wp_mono; [by apply wp_set_fat_entry|]. intros rc s' (d1 & -> & Hd1 & Hrc & Hg1). specialize (Hg1 Hg). destruct Hrc as [?|[_ Hsy]]; [lia|]. subst rc.
  rewrite (proj2 (Z.ltb_ge 0 0)) by lia. assert (0 <= FAT_ENTRY_FREE < 2 ^ 28) as Hz by (unfold FAT_ENTRY_FREE; lia).
  assert (frame (c :: cs) t d (set_entry c FAT_ENTRY_FREE t) d1) as F1 by (apply frame_set; try done; apply list_elem_of_here).
  assert (forall x, in_table x -> value (set_entry c FAT_ENTRY_FREE t) x = if decide (x = c) then 0 else value t x) as Hv1 by (intros; by apply value_set).
  assert (forall x, on_disk x -> cluster_data d1 x = cluster_data d x) as Hdt1.
  { intros x Hx. eapply differ_cluster; [exact Hd1|done|]. right. pose proof (cluster_lba_data x (proj1 Hx)). lia. }
  assert (chain (set_entry c FAT_ENTRY_FREE t) (next_of t c) cs) as Hch1.
  { eapply chain_ext; [exact Hch|]. intros x Hx. pose proof (chain_in_table _ _ _ Hch) as Hin. rewrite Forall_forall in Hin.
    rewrite Hv1, decide_False; [done| |by apply Hin]. by intros ->. }
  assert (forall t', (forall x, in_table x -> value t' x = if decide (x ∈ take n cs) then 0 else value (set_entry c FAT_ENTRY_FREE t) x) ->
    forall x, in_table x -> value t' x = if decide (x ∈ take (S n) (c :: cs)) then 0 else value t x) as Hcomb.
  { intros t' H x Hx. rewrite H, Hv1 by done. cbn [take]. destruct (decide (x ∈ take n cs)) as [H1|H1]; [by rewrite decide_True by (by apply list_elem_of_further)|].
    destruct (decide (x = c)) as [->|Hne]; [by rewrite decide_True by apply list_elem_of_here|]. rewrite decide_False; [done|]. by apply not_elem_of_cons. }
  destruct (Z.eqb_spec (next_of t c) 0) as [E0|Hne0].
  - apply wp_ret. exists (set_entry c FAT_ENTRY_FREE t), d1. split_and!; [done|done|done| |done].
    apply Hcomb. intros x _. rewrite E0 in Hch. inversion Hch as [|? ? [? _]]; [|lia]. rewrite decide_False; [done|]. rewrite take_nil. apply not_elem_of_nil.
  - eapply wp_mono; [apply (IH _ d1 _ cs); [apply F1..|done|done]|]. intros rc s' (t2 & d2 & -> & F2 & -> & Hv2 & Hdt2).
    exists t2, d2. split_and!; [done| |done|by apply Hcomb|].
    + eapply frame_trans; [exact F1|exact F2|]. intros x Hx. left. by apply list_elem_of_further.
    + intros x Hx. by rewrite Hdt2, Hdt1.
Qed.

(** The clusters of a released file join the free ones. *)
Lemma room_released t t' cs :
  NoDup cs -> Forall (fun x => in_table x /\ on_disk x /\ value t x <> 0) cs -> root ∉ cs ->
  (forall x, in_table x -> value t' x = if decide (x ∈ cs) then 0 else value t x) ->
  length (room t') = (length cs + length (room t))%nat.
Proof.
  intros Hnd Hcs Hroot Hv. rewrite <- length_app. apply Permutation_length.
  assert (forall x, in_table x -> (free t' x /\ on_disk x <-> x ∈ cs \/ free t x /\ on_disk x)) as Hiff.
  { intros x Hx. unfold free. rewrite Hv by done. rewrite Forall_forall in Hcs. case_decide as E.
    - destruct (Hcs x E) as (_ & ? & _). split; [by left|]. intros _. split_and!; [done| |done]. by intros ->.
    - tauto. }
  apply NoDup_Permutation.
  - apply NoDup_filter, NoDup_seqZ.
  - apply NoDup_app. split_and!; [done| |apply NoDup_filter, NoDup_seqZ]. intros x Hx [[[Hv0 _] _] _]%list_elem_of_filter.
    rewrite Forall_forall in Hcs. by destruct (Hcs x Hx) as (_ & _ & ?).
  - intros x. rewrite elem_of_app. unfold room. rewrite !list_elem_of_filter, !elem_of_seqZ. rewrite Forall_forall in Hcs.
    assert (2 <= x < 2 + (total - 2) <-> in_table x) as -> by (unfold in_table; lia). split.
    + intros [H Hx]. apply Hiff in H as [?|?]; [by left|by right|done].
    + intros [Hx|[H Hx]]; [destruct (Hcs x Hx) as (? & _ & _)|]; (split; [apply Hiff; [done|]|done]); [by left|by right].
Qed.

(** C23: Opening a file of a FAT32 volume for truncation, on a disk in good
    order, leaves it empty - in its node, in its directory entry - and gives
    exactly its clusters back to the free ones, or it fails for want of heap
    and changes no size, no cluster and no table entry (a disk that fails a
    transfer on the way leaves the file cut to 0 bytes). It does so for chains
    of at most 100000 clusters, the bound of the loop. *)
Theorem fat32_truncate_correct N I t d k node n pi i cs flags :
  node_of N I node n pi i -> is_set (n_type n) VFS_FILE = true -> is_set flags VFS_O_TRUNC = true -> sd_inv d -> sd_good d -> table_ok t ->
  file_ok t (i_cluster i) cs -> root ∉ cs -> (length cs <= FAT32_CLUSTER_CHAIN_MAX)%nat -> entry_of t cs i ->
  exists rc N' I' t' d' k', fat32_open serves junk node flags (st N I (vol t) d k) = Ret rc (st N' I' (vol t') d' k') /\
    frame (i_dir_entry_cluster i :: cs) t d t' d' /\
    (rc = -1 /\ N' = N /\ I' = I /\ t' = t \/
     rc = 0 /\ N' = <[node := with_size 0 n]> N /\ I' = <[pi := with_cluster 0 i]> I /\
       (forall x, in_table x -> value t' x = if decide (x ∈ cs) then 0 else value t x) /\
       length (room t') = (length cs + length (room t))%nat /\
       cluster_data d' (i_dir_entry_cluster i) = updated_entry (i_dir_entry_offset i) 0 0 (cluster_data d (i_dir_entry_cluster i))) /\
    (heap_ok k -> rc = 0).
Proof.
  intros Hno Hty Htr Hi Hg Ht Hf Hroot Hlen He.
  cut (wp (fat32_open serves junk node flags) (fun rc s' => exists N' I' t' d' k', s' = st N' I' (vol t') d' k' /\
    frame (i_dir_entry_cluster i :: cs) t d t' d' /\
    (rc = -1 /\ N' = N /\ I' = I /\ t' = t \/
     rc = 0 /\ N' = <[node := with_size 0 n]> N /\ I' = <[pi := with_cluster 0 i]> I /\
       (forall x, in_table x -> value t' x = if decide (x ∈ cs) then 0 else value t x) /\
       length (room t') = (length cs + length (room t))%nat /\
       cluster_data d' (i_dir_entry_cluster i) = updated_entry (i_dir_entry_offset i) 0 0 (cluster_data d (i_dir_entry_cluster i))) /\
    (heap_ok k -> rc = 0)) (st N I (vol t) d k)).
  { intros (rc & s' & E & N' & I' & t' & d' & k' & -> & H)%wp_run. by exists rc, N', I', t', d', k'. }
  unfold fat32_open. rewrite (proj2 (Z.eqb_neq _ _)) by apply Hno. eapply wp_bind, wp_deref; [apply Hno|]. rewrite Htr, Hty. cbn [negb].
  eapply wp_bind, wp_node_impl; [done|]. cbn iota beta. apply wp_bind, wp_put_impl, wp_bind, wp_put_node.
  eapply wp_bind, wp_mono; [eapply (wp_sync _ _ t d k node (with_size 0 n) pi (with_cluster 0 i) cs); [|done|by destruct He|done|done]|].
  { destruct Hno. split; try done; by rewrite lookup_insert_eq. }
  intros rc s' (d1 & k1 & -> & Hk1 & Hd1 & Hrc & Hok1). cbn [i_dir_entry_cluster i_dir_entry_offset i_cluster with_cluster n_size with_size] in Hd1, Hrc.
  assert (frame [i_dir_entry_cluster i] t d t d1) as F1 by (eapply frame_cluster; [done|done|apply He|apply list_elem_of_here|exact Hd1]).
  assert (frame (i_dir_entry_cluster i :: cs) t d t d1) as F1'.
  { eapply frame_weaken; [exact F1|]. intros x ->%list_elem_of_singleton. left. apply list_elem_of_here. }
  destruct Hrc as [->|(-> & Hent)].
  { rewrite (proj2 (Z.ltb_lt (-1) 0)) by lia. apply wp_bind, wp_put_impl, wp_bind, wp_put_node, wp_ret. exists N, I, t, d1, k1.
    split_and!; [|done|by left|intros Hh; specialize (Hok1 Hh); lia].
    rewrite !insert_insert_eq, !insert_id by apply Hno. done. }
  rewrite (proj2 (Z.ltb_ge 0 0)) by lia. rewrite (no_fs _ _ _ _ _ _ Hno).
  assert (NoDup cs) as Hnd by (eapply chain_nodup, Hf).
  eapply wp_bind, (wp_mono _ (fun rc s' => exists t' d', s' = st (<[node := with_size 0 n]> N) (<[pi := with_cluster 0 i]> I) (vol t') d' k1 /\ frame cs t d1 t' d' /\ rc = 0 /\
      (forall x, in_table x -> value t' x = if decide (x ∈ cs) then 0 else value t x) /\ (forall x, on_disk x -> cluster_data d' x = cluster_data d1 x))).
  { unfold fat32_release_cluster_chain. apply wp_bind, wp_get_fs. cbn [fat_table vol with_table]. destruct (Z.ltb_spec (i_cluster i) 2) as [Hlt|Hge].
    - destruct Hf as [Hch _]. inversion Hch as [|c cs' [Hc _]]; subst; [|lia]. apply wp_ret. exists t, d1. split_and!; [done|by apply frame_refl; apply F1|done| |done].
      intros x _. by rewrite decide_False by apply not_elem_of_nil.
    - eapply wp_mono; [eapply wp_release; [apply F1|apply F1|done|apply Hf|done]|]. intros rc s' (t2 & d2 & -> & F2 & -> & Hv & Hdt).
      exists t2, d2. rewrite take_ge in Hv by done. split_and!; [done|done|done|exact Hv|done]. }
  intros rc s' (t2 & d2 & -> & F2 & -> & Hv & Hdt). rewrite (proj2 (Z.ltb_ge 0 0)) by lia. apply wp_ret. exists (<[node := with_size 0 n]> N), (<[pi := with_cluster 0 i]> I), t2, d2, k1.
  split_and!; [done| | |done].
  - eapply frame_trans; [exact F1'|exact F2|]. intros x Hx. left. by apply list_elem_of_further.
  - right. split_and!; [done..| |].
    + eapply room_released; [done| |done|done]. apply Forall_forall. intros x Hx. destruct (file_used t _ cs x Hf Hx) as (? & _ & ? & ?). done.
    + rewrite Hdt, Hent; [done|apply He].
Qed.
End spec.

(** ** A small volume

    One sector per cluster, two tables of one sector, the data from sector 3
    on; the root directory in cluster 2 with a file of 600 bytes in clusters 5
    and 7. *)
Import FatDisk.
Module Small.
#[export] Instance store : BlockStore image := ram_store 300.
#[export] Instance sectors : SectorDisk image 0 300 := ram_disk 300.
Definition geometry : fat32_mount_t := mk_fat 0 512 1 512 2 2 1 1 3 128 None NULL.
Definition table : list Z := put_raw 7 FAT_ENTRY_EOF_END (put_raw 5 7 (put_raw 2 FAT_ENTRY_EOF_END (replicate 512 0))).
Definition directory : list Z := splice 32 (updated_entry 0 5 600 (new_entry ([65; 66; 32; 32; 32; 32; 32; 32], [84; 88; 84]))) (replicate 512 0).
Definition disk : image :=
  {[ 1 := table; 2 := table; 3 := directory; 6 := replicate 512 17; 8 := replicate 512 34 ]}.
Definition file : vfs_node := mk_node [97; 98; 46; 116; 120; 116] VFS_FILE 600 9 0 0 0 OPS_FAT32 (impl_ext 50) 41 [].
Definition record : fat32_node_impl_t := mk_impl 77 5 2 32.
Definition others : vfs (fat_state image) := mk_vfs 0 [] ∅ ∅ [] None 1 0 (mk_state [77] ∅ ∅ 10 disk).
Definition serves (n : nat) : bool := true.
Definition junk (n : Z) : list Z := replicate (Z.to_nat n) 170.
Abbreviation state N I t d k := (st others 77 N I (vol geometry t) d k).

Lemma geometry_ok : vol_ok 0 300 geometry.
Proof. by split. Qed.
Lemma junk_length n : 0 <= n -> zlen (junk n) = n.
Proof. intros. unfold zlen, junk. rewrite length_replicate. lia. Qed.
Lemma address : 77 <> NULL.
Proof. done. Qed.
Lemma node_ok : node_of 77 {[ 40 := file ]} {[ 50 := record ]} 40 file 50 record.
Proof. by split. Qed.
Lemma disk_inv : sd_inv disk.
Proof.
  intros l b. unfold disk. rewrite !lookup_insert_Some, lookup_singleton_Some. 
  intros [[_ <-]|[_ [[_ <-]|[_ [[_ <-]|[_ [[_ <-]|[_ [_ <-]]]]]]]]]; by vm_compute.
Qed.
Lemma table_size : table_ok geometry table.
Proof. done. Qed.
Lemma on_volume c : 2 <= c < 290 -> on_disk 300 geometry c.
Proof. intros. unfold on_disk, cluster_lba. cbn. lia. Qed.
Lemma clusters_ok : file_ok 300 geometry table 5 [5; 7].
Proof.
  split; [|repeat (constructor; [split; [by apply on_volume|by vm_compute]|]); constructor].
  constructor; [done|]. replace (next_of geometry table 5) with 7 by (by vm_compute).
  constructor; [done|]. replace (next_of geometry table 7) with 0 by (by vm_compute). constructor.
Qed.
Lemma entry_ok : entry_of 300 geometry table [5; 7] record.
Proof. split; [done|by apply on_volume|by right|cbn; rewrite !not_elem_of_cons; split_and!; [done|done|apply not_elem_of_nil]|done]. Qed.
Lemma heap_serves k : heap_ok serves k.
Proof. done. Qed.
Definition data : list Z := contents 0 300 geometry disk [5; 7] 600.
End Small.
#[local] Existing Instances Small.store Small.sectors.

(** Across the border of the two clusters. *)
Lemma fat32_read_correct_witness :
  exists d' k', fat32_read Small.serves Small.junk 40 500 50 (Small.state {[ 40 := Small.file ]} {[ 50 := Small.record ]} Small.table Small.disk 0) =
    Ret (50, replicate 12 17 ++ replicate 38 34) (Small.state {[ 40 := Small.file ]} {[ 50 := Small.record ]} Small.table d' k') /\ same 0 300 Small.disk d'.
Proof.
  destruct (fat32_read_correct 0 300 Small.serves Small.junk Small.others 77 Small.geometry Small.geometry_ok Small.junk_length Small.address
    {[ 40 := Small.file ]} {[ 50 := Small.record ]} Small.table Small.disk 0 40 Small.file 50 Small.record [5; 7] 500 50
    Small.node_ok eq_refl (proj1 Small.clusters_ok) (file_on_disk _ _ _ _ _ Small.clusters_ok) Small.disk_inv ltac:(lia) ltac:(lia) ltac:(done))
    as (rc & bytes & d' & k' & E & Hs & Hrc & Hok).
  exists d', k'. split; [|exact Hs]. rewrite E. specialize (Hok Logic.I eq_refl). destruct Hrc as [Hrc|[_ Hb]]; [rewrite Hok in Hrc; unfold zlen in Hrc; lia|].
  assert (bytes = replicate 12 17 ++ replicate 38 34) as E2 by (rewrite Hb; vm_compute; reflexivity). rewrite Hok, E2. reflexivity.
Defined.

(** Past the end of the second cluster, so that the file takes a third. *)
Lemma fat32_write_correct_witness :
  exists N' I' t' d' k', fat32_write Small.serves Small.junk 40 590 (replicate 500 5) (Small.state {[ 40 := Small.file ]} {[ 50 := Small.record ]} Small.table Small.disk 0) =
    Ret 500 (Small.state N' I' t' d' k') /\ exists c new, file_ok 300 Small.geometry t' c ([5; 7] ++ new) /\
      contents 0 300 Small.geometry d' ([5; 7] ++ new) 1090 = splice 590 (replicate 500 5) Small.data.
Proof.
  destruct (fat32_write_correct 0 300 Small.serves Small.junk Small.others 77 Small.geometry Small.geometry_ok Small.junk_length Small.address
    {[ 40 := Small.file ]} {[ 50 := Small.record ]} Small.table Small.disk 0 40 Small.file 50 Small.record [5; 7] 590 (replicate 500 5)
    Small.node_ok eq_refl Small.disk_inv Logic.I Small.table_size Small.clusters_ok Small.entry_ok
    ltac:(by split; vm_compute) ltac:(by split; vm_compute) ltac:(done) ltac:(done) ltac:(done)) as (rc & N' & I' & t' & d' & k' & E & _ & Hrc & Hok).
  assert (rc = 500) as ->.
  { apply (Hok (Small.heap_serves 0)). assert (0 <= zlen (room 300 Small.geometry Small.table) - 1) as H by (vm_compute; discriminate).
    change (zlen (replicate 500 5)) with 500. change (zlen [5; 7]) with 2. change (bytes_per_cluster Small.geometry) with 512. lia. }
  destruct Hrc as [[Hrc _]|(_ & c & new & Hf & _ & _ & _ & _ & Hc & _)]; [discriminate Hrc|].
  exists N', I', t', d', k'. split; [exact E|]. exists c, new. split; [exact Hf|]. exact Hc.
Defined.

Lemma fat32_truncate_correct_witness :
  exists t' d' k', fat32_open Small.serves Small.junk 40 VFS_O_TRUNC (Small.state {[ 40 := Small.file ]} {[ 50 := Small.record ]} Small.table Small.disk 0) =
    Ret 0 (Small.state {[ 40 := with_size 0 Small.file ]} {[ 50 := with_cluster 0 Small.record ]} t' d' k') /\ value t' 5 = 0 /\ value t' 7 = 0.
Proof.
  destruct (fat32_truncate_correct 0 300 Small.serves Small.junk Small.others 77 Small.geometry Small.geometry_ok Small.junk_length Small.address
    {[ 40 := Small.file ]} {[ 50 := Small.record ]} Small.table Small.disk 0 40 Small.file 50 Small.record [5; 7] VFS_O_TRUNC
    Small.node_ok eq_refl eq_refl Small.disk_inv Logic.I Small.table_size Small.clusters_ok) as (rc & N' & I' & t' & d' & k' & E & _ & Hrc & Hok).
  { cbn. rewrite !not_elem_of_cons. split_and!; [done|done|apply not_elem_of_nil]. }
  { apply Nat.leb_le. vm_compute. reflexivity. }
  { exact Small.entry_ok. }
  destruct Hrc as [(-> & _)|(-> & -> & -> & Hv & _)]; [discriminate (Hok (Small.heap_serves 0))|].
  exists t', d', k'. rewrite !insert_singleton_eq in E. split_and!; [exact E|by rewrite Hv|by rewrite Hv].
Defined.
End FatSpec.
