(* ===== verification/FatDir.v ===== *)
(** * Directories of a FAT32 volume

    A directory is the list of the clusters of its chain; looking up, creating
    and deleting scan them one after the other. [dir_find] and [dir_slot] are
    the scans over the whole list; the theorems say that the driver does what
    they say, and that a file created is found. *)

From S2P Require Import Prelude Ring BlockDev VfsPath Vfs Minfs Fat32 FatDisk FatName FatSpec.

Module FatDir.
Import VfsPath Vfs BlockDev Fat32 Bytes Triple FatName FatDisk FatSpec.

(** ** Scanning one cluster *)

Lemma scan_name_range n o name buf x : scan_name n o name buf = found x -> o <= x /\ x + 32 <= o + 32 * Z.of_nat n.
Proof.
  revert o. induction n as [|n IH]; intros o; cbn [scan_name]; [done|]. unfold SIZEOF_DIR_ENTRY. repeat case_match; try done.
  - intros Hx%IH. lia.
  - intros [= <-]. lia.
  - intros Hx%IH. lia.
Qed.

Lemma scan_free_some n o sn x buf r : scan_free n o sn (Some x) buf = Some r -> r = Some x.
Proof.
  revert o. induction n as [|n IH]; intros o; cbn [scan_free]; [by intros [= <-]|]. repeat case_match; try done; try apply IH. by intros [= <-].
Qed.
Lemma scan_free_range n o sn buf x : scan_free n o sn None buf = Some (Some x) -> o <= x /\ x + 32 <= o + 32 * Z.of_nat n.
Proof.
  revert o. induction n as [|n IH]; intros o; cbn [scan_free]; [done|]. unfold SIZEOF_DIR_ENTRY. repeat case_match; try done.
  - intros [= <-]. lia.
  - intros Hx%scan_free_some. simplify_eq. lia.
  - intros Hx%IH. lia.
  - intros Hx%IH. lia.
Qed.

(** A cluster without a free slot has no end of the directory in it. *)
Lemma scan_full n o sn name buf : scan_free n o sn None buf = Some None -> scan_name n o name buf <> stop.
Proof.
  revert o. induction n as [|n IH]; intros o; cbn [scan_free scan_name]; [done|].
  destruct (ent_first buf o =? 0) eqn:E0; cbn [orb]; [done|]. destruct (ent_first buf o =? 0xE5) eqn:E5; [by intros Hx%scan_free_some|].
  intros H. assert (scan_free n (o + SIZEOF_DIR_ENTRY) sn None buf = Some None) as H' by (repeat case_match; done).
  specialize (IH _ H'). repeat case_match; done.
Qed.

(** *** The bytes of an entry *)

Lemma byte_at_slice o (l l' : list Z) i n : 0 <= i <= o -> o < i + n -> slice i n l = slice i n l' -> byte_at o l = byte_at o l'.
Proof.
  intros Hi Hn H. unfold byte_at. assert (forall x : list Z, x !!! Z.to_nat o = slice i n x !!! Z.to_nat (o - i)) as E.
  { intros x. rewrite !list_lookup_total_alt. unfold slice. rewrite lookup_take, decide_True, lookup_drop by lia. do 2 f_equal. lia. }
  by rewrite (E l), (E l'), H.
Qed.
Lemma same_entry (buf buf' : list Z) o :
  0 <= o -> slice o 32 buf' = slice o 32 buf ->
  ent_first buf' o = ent_first buf o /\ skipped buf' o = skipped buf o /\ ent_filename buf' o = ent_filename buf o.
Proof.
  intros Ho H. assert (ent_first buf' o = ent_first buf o) as E1 by (apply (byte_at_slice o buf' buf o 32); lia || done).
  assert (ent_attr buf' o = ent_attr buf o) as E2 by (apply (byte_at_slice (o + 11) buf' buf o 32); lia || done).
  split; [done|]. unfold skipped, ent_filename, ent_name, ent_ext. rewrite E1, E2. split; [done|]. f_equal.
  - replace o with (o + 0) by lia. by rewrite <- !(slice_slice _ o 32 0 8), H by lia.
  - by rewrite <- !(slice_slice _ o 32 8 3), H by lia.
Qed.

(** The name [fat32_create] stored, read back. *)
Record creatable (name : list Z) (sn : list Z * list Z) : Prop := {
  cr_nul : no_nul name;
  cr_short : short_name name = Some sn;
  cr_byte5 : 5 ∉ base_of name;
  cr_dot : last name <> Some 46;
  cr_first : hd 0 name <> 0xE5
}.

Lemma short_name_lengths name sn : short_name name = Some sn -> length sn.1 = 8%nat /\ length sn.2 = 3%nat.
Proof.
  intros (-> & _ & H1 & H2 & _)%short_name_parts. cbn [fst snd]. unfold pad_to. rewrite !length_app, !length_map, !length_replicate. lia.
Qed.
Lemma short_name_first name sn : no_nul name -> short_name name = Some sn -> hd 0 sn.1 = toupper (hd 0 name) /\ hd 0 name <> 0.
Proof.
  intros Hn H. pose proof (short_name_parts _ _ H) as (-> & Hne & _). cbn [fst].
  destruct (name_parts name) as (dot & E & _). destruct (base_of name) as [|c b] eqn:Eb; [done|]. rewrite E in Hn |- *. cbn [app hd map pad_to].
  split; [done|]. inversion Hn; subst. lia.
Qed.

Lemma length_new_entry name sn : short_name name = Some sn -> length (new_entry sn) = 32%nat.
Proof. intros [H1 H2]%short_name_lengths. unfold new_entry. rewrite !length_app, H1, H2. done. Qed.

Lemma new_entry_found name sn m (o : Z) (buf : list Z) :
  creatable name sn -> no_nul m -> map tolower m = map tolower name -> 0 <= o -> o + 32 <= zlen buf ->
  let b := splice o (new_entry sn) buf in
  ent_first b o <> 0 /\ skipped b o = false /\ ent_filename b o = seen name /\ fat32_stricmp (ent_filename b o) m = 0 /\
  ent_cluster b o = 0 /\ ent_size b o = 0 /\ ent_attr b o = FAT_ATTR_ARCHIVE.
Proof.
  intros [Hn Hs H5 Hd Hf] Hm Hmn Ho Hl b. pose proof (length_new_entry _ _ Hs) as Hlen. destruct (short_name_lengths _ _ Hs) as [L1 L2].
  assert (slice o 32 b = new_entry sn) as Hb by (unfold b; apply slice_splice_self; unfold zlen in *; lia).
  assert (forall i n, 0 <= i -> 0 <= n -> i + n <= 32 -> slice (o + i) n b = slice i n (new_entry sn)) as Hsl.
  { intros i n Hi Hn' Hle. rewrite <- Hb. by rewrite slice_slice by lia. }
  assert (forall i, 0 <= i < 32 -> byte_at (o + i) b = byte_at i (new_entry sn)) as Hby.
  { intros i Hi. pose proof (Hsl i 1 ltac:(lia) ltac:(lia) ltac:(lia)) as E. unfold byte_at. unfold slice in E. change (Z.to_nat 1) with 1%nat in E.
    rewrite !list_lookup_total_alt. rewrite <- (Nat.add_0_r (Z.to_nat (o + i))), <- (Nat.add_0_r (Z.to_nat i)), <- !lookup_drop.
    rewrite <- (lookup_take_lt _ 1 0) by lia. rewrite E. by rewrite lookup_take_lt by lia. }
  destruct (short_name_first _ _ Hn Hs) as [Hh1 Hh2]. assert (ent_first b o = hd 0 sn.1) as Efirst.
  { unfold ent_first. rewrite <- (Z.add_0_r o), Hby by lia. unfold byte_at, new_entry. change (Z.to_nat 0) with 0%nat. destruct sn.1 as [|c l]; [done|]. done. }
  assert (ent_attr b o = FAT_ATTR_ARCHIVE) as Eattr.
  { unfold ent_attr. rewrite Hby by lia. unfold byte_at, new_entry. rewrite list_lookup_total_alt, lookup_app_r, lookup_app_r by lia.
    rewrite L1, L2. done. }
  assert (ent_filename b o = seen name) as Ename.
  { unfold ent_filename, ent_name, ent_ext. rewrite <- (Z.add_0_r o) at 1. rewrite !Hsl by lia. unfold new_entry.
    rewrite slice_app_l, slice_all by lia. rewrite slice_app_r, slice_app_l by lia. rewrite L1. rewrite slice_all by lia. by apply format_short. }
  assert (forall i n, 12 <= i -> 0 <= n -> i + n <= 32 -> slice (o + i) n b = replicate (Z.to_nat n) 0) as Hz.
  { intros i n Hi Hn' Hle. rewrite Hsl by lia. unfold new_entry. rewrite !slice_app_r by (rewrite ?length_app; cbn [length]; lia).
    unfold slice. rewrite drop_replicate, take_replicate. f_equal. rewrite L1, L2. cbn [length]. lia. }
  assert (0 < hd 0 name < 256) as Hb0. { destruct Hn as [|c l Hc _]; [done|]. done. }
  split_and!.
  - rewrite Efirst, Hh1. rewrite toupper_eq by lia. done.
  - unfold skipped. rewrite Efirst, Eattr, Hh1. rewrite (proj2 (Z.eqb_neq (toupper _) 0xE5)) by (rewrite toupper_eq by lia; done). done.
  - done.
  - rewrite Ename. rewrite stricmp_lower by (done || by apply no_nul_seen). rewrite Hmn.
    pose proof (short_found name name sn Hn Hn Hs eq_refl) as Hrt. rewrite (format_short _ _ Hn Hs), stricmp_lower in Hrt by (done || by apply no_nul_seen).
    by apply Hrt.
  - unfold ent_cluster, half_at. by rewrite !Hz by lia.
  - unfold ent_size, Minfs.word_at. by rewrite !Hz by lia.
  - done.
Qed.

(** ** Scanning the directory *)

(** The first entry of that name: the number of its cluster and its offset. *)
Fixpoint dir_find (n : nat) (bufs : list (list Z)) (name : list Z) : option (nat * Z) :=
  match bufs with
  | [] => None
  | b :: bufs =>
      match scan_name n 0 name b with
      | found o => Some (0%nat, o)
      | stop => None
      | next _ => match dir_find n bufs name with Some (i, o) => Some (S i, o) | None => None end
      end
  end.
(** The first free slot, unless an entry before the end of its cluster has
    the name; [Some None]: the directory is full. *)
Fixpoint dir_slot (n : nat) (bufs : list (list Z)) (sn : list Z * list Z) : option (option (nat * Z)) :=
  match bufs with
  | [] => Some None
  | b :: bufs =>
      match scan_free n 0 sn None b with
      | None => None
      | Some (Some o) => Some (Some (0%nat, o))
      | Some None => match dir_slot n bufs sn with Some (Some (i, o)) => Some (Some (S i, o)) | r => r end
      end
  end.

Lemma dir_find_range n bufs name i o : dir_find n bufs name = Some (i, o) -> (i < length bufs)%nat /\ 0 <= o /\ o + 32 <= 32 * Z.of_nat n.
Proof.
  revert i. induction bufs as [|b bufs IH]; intros i; cbn [dir_find length]; [done|]. destruct (scan_name n 0 name b) eqn:E; [|done|].
  - intros [= <- <-]. apply scan_name_range in E. split; lia.
  - destruct (dir_find n bufs name) as [[j x]|]; [|done]. intros [= <- <-]. destruct (IH j eq_refl). split; lia.
Qed.
Lemma dir_slot_range n bufs sn i o : dir_slot n bufs sn = Some (Some (i, o)) -> (i < length bufs)%nat /\ 0 <= o /\ o + 32 <= 32 * Z.of_nat n.
Proof.
  revert i. induction bufs as [|b bufs IH]; intros i; cbn [dir_slot length]; [done|]. destruct (scan_free n 0 sn None b) as [[x|]|] eqn:E; [| |done].
  - intros [= <- <-]. apply scan_free_range in E. split; lia.
  - destruct (dir_slot n bufs sn) as [[[j x]|]|]; [|done|done]. intros [= <- <-]. destruct (IH j eq_refl). split; lia.
Qed.

(** A new entry in the first free slot of a cluster is found there. *)
Lemma scan_insert n o0 name sn m buf o :
  creatable name sn -> no_nul m -> map tolower m = map tolower name ->
  scan_free n o0 sn None buf = Some (Some o) -> (forall x, scan_name n o0 m buf <> found x) -> 0 <= o0 -> o0 + 32 * Z.of_nat n <= zlen buf ->
  scan_name n o0 m (splice o (new_entry sn) buf) = found o.
Proof.
  intros Hc Hm Hmn. revert o0. induction n as [|n IH]; intros o0 Hs Hn Ho Hl; [done|]. pose proof (scan_free_range _ _ _ _ _ Hs) as [Hr1 Hr2].
  cbn [scan_free] in Hs. cbn [scan_name] in Hn |- *. unfold SIZEOF_DIR_ENTRY in *.
  destruct ((ent_first buf o0 =? 0) || (ent_first buf o0 =? 0xE5)) eqn:Ef.
  - assert (o = o0) as ->. { destruct (ent_first buf o0 =? 0); [by simplify_eq|]. apply scan_free_some in Hs. by simplify_eq. }
    destruct (new_entry_found name sn m o0 buf Hc Hm Hmn Ho ltac:(lia)) as (E1 & E2 & _ & E3 & _).
    rewrite (proj2 (Z.eqb_neq _ 0) E1), E2, E3. done.
  - apply orb_false_iff in Ef as [E0 E5]. rewrite E0 in Hn.
    assert (scan_free n (o0 + 32) sn None buf = Some (Some o)) as Hs' by (repeat case_match; done). clear Hs.
    pose proof (scan_free_range _ _ _ _ _ Hs') as [Hr _].
    destruct (same_entry buf (splice o (new_entry sn) buf) o0 Ho) as (-> & -> & ->).
    { apply slice_splice_other; unfold zlen in *; rewrite ?(length_new_entry _ _ (cr_short _ _ Hc)); lia. }
    rewrite E0. assert (forall x, scan_name n (o0 + 32) m buf <> found x) as Hn'.
    { intros x Hx. destruct (skipped buf o0); [by apply (Hn x)|]. destruct (fat32_stricmp _ _ =? 0); [by apply (Hn o0)|by apply (Hn x)]. }
    destruct (skipped buf o0); [apply IH; done || lia|]. destruct (fat32_stricmp (ent_filename buf o0) m =? 0) eqn:Ec; [by destruct (Hn o0)|].
    apply IH; done || lia.
Qed.

Lemma found_after n bufs name sn m i o b :
  creatable name sn -> no_nul m -> map tolower m = map tolower name -> Forall (fun b => zlen b = 32 * Z.of_nat n) bufs ->
  dir_slot n bufs sn = Some (Some (i, o)) -> dir_find n bufs m = None -> bufs !! i = Some b ->
  dir_find n (<[i := splice o (new_entry sn) b]> bufs) m = Some (i, o).
Proof.
  intros Hc Hm Hmn Hl. revert i. induction Hl as [|b0 bufs Hb _ IH]; intros i; cbn [dir_slot dir_find]; [done|].
  destruct (scan_free n 0 sn None b0) as [[x|]|] eqn:Ef; [| |done].
  - intros [= <- <-] Hd [= <-]. cbn [insert list_insert dir_find]. erewrite scan_insert; [done|done..| |lia|lia].
    intros y Hy. by rewrite Hy in Hd.
  - destruct (dir_slot n bufs sn) as [[[j x]|]|] eqn:Es; [|done|done]. intros [= <- <-] Hd Hbi.
    pose proof (scan_full _ _ _ m _ Ef) as Hns. change (<[S j := splice x (new_entry sn) b]> (b0 :: bufs)) with (b0 :: <[j := splice x (new_entry sn) b]> bufs). cbn [dir_find]. destruct (scan_name n 0 m b0); [done|done|].
    rewrite (IH j); [done|done| |done]. by destruct (dir_find n bufs m) as [[? ?]|].
Qed.

(** An empty cluster appended to a full directory is where the new entry goes. *)
Lemma slot_in_new n bufs sn z : dir_slot n bufs sn = Some None -> (0 < n)%nat -> ent_first z 0 = 0 -> dir_slot n (bufs ++ [z]) sn = Some (Some (length bufs, 0)).
Proof.
  intros H Hn Hz. revert H. induction bufs as [|b bufs IH]; cbn [dir_slot app length].
  - intros _. destruct n as [|n]; [lia|]. cbn [scan_free]. by rewrite Hz.
  - destruct (scan_free n 0 sn None b) as [[?|]|]; [done| |done]. destruct (dir_slot n bufs sn) as [[[? ?]|]|]; [done| |done]. intros _. by rewrite IH.
Qed.
Lemma not_in_new n bufs m z : dir_find n bufs m = None -> ent_first z 0 = 0 -> dir_find n (bufs ++ [z]) m = None.
Proof.
  intros H Hz. revert H. induction bufs as [|b bufs IH]; cbn [dir_find app].
  - intros _. destruct n as [|n]; [done|]. cbn [scan_name]. by rewrite Hz.
  - destruct (scan_name n 0 m b); [done|done|]. destruct (dir_find n bufs m) as [[? ?]|]; [done|]. intros _. by rewrite IH.
Qed.

Lemma dir_slot_app n b1 b2 sn :
  dir_slot n b1 sn = Some None ->
  dir_slot n (b1 ++ b2) sn = match dir_slot n b2 sn with Some (Some (i, o)) => Some (Some ((length b1 + i)%nat, o)) | r => r end.
Proof.
  induction b1 as [|b b1 IH]; cbn [dir_slot app length]; [intros _; by destruct (dir_slot n b2 sn) as [[[? ?]|]|]|].
  destruct (scan_free n 0 sn None b) as [[?|]|]; [done| |done]. destruct (dir_slot n b1 sn) as [[[? ?]|]|]; [done| |done].
  intros _. rewrite IH by done. by destruct (dir_slot n b2 sn) as [[[? ?]|]|].
Qed.

(** ** The driver *)

Section driver.
Context {D : Type} {B : BlockStore D} (dev count : Z) {L : SectorDisk D dev count} (serves : nat -> bool) (junk : Z -> list Z).
Context (s0 : vfs (fat_state D)) (p : Z) (fs0 : fat32_mount_t) (Hvol : vol_ok dev count fs0).
Context (Hjunk : forall n, 0 <= n -> zlen (junk n) = n) (Hp : p <> NULL).
Implicit Types (d : D) (t cs : list Z) (N : gmap Z vfs_node) (I : gmap Z fat32_node_impl_t).
Abbreviation state N I t d k := (st s0 p N I (vol fs0 t) d k).
Abbreviation bpc := (bytes_per_cluster fs0).
Abbreviation data d c := (cluster_data dev count fs0 d c).

Definition slots : nat := Z.to_nat (bpc / 32).
Lemma slots_fill : 32 * Z.of_nat slots = bpc.
Proof. pose proof (vo_spc _ _ _ Hvol). pose proof (vo_bpc _ _ _ Hvol). unfold slots. rewrite Z2Nat.id by zlia. zlia. Qed.
Lemma entries_vol t : entries_of (vol fs0 t) = slots.
Proof. done. Qed.

Lemma chain_short t c cs : chain fs0 t c cs -> (length cs < chain_fuel (vol fs0 t))%nat.
Proof.
  intros H. unfold chain_fuel. cbn [total_clusters vol with_table]. apply le_n_S. pose proof (vo_total _ _ _ Hvol). pose proof (vo_spf _ _ _ Hvol).
  assert (cs ⊆+ seqZ 0 (total_clusters fs0)) as Hs.
  { apply NoDup_submseteq; [by eapply chain_nodup|]. intros x Hx. apply chain_in_table in H. rewrite Forall_forall in H. destruct (H x Hx). apply elem_of_seqZ. lia. }
  apply submseteq_length in Hs. rewrite length_seqZ in Hs. lia.
Qed.

Definition contents_of d cs : list (list Z) := cluster_data dev count fs0 d <$> cs.
Lemma contents_ext d d' cs : (forall y, y ∈ cs -> data d' y = data d y) -> contents_of d' cs = contents_of d cs.
Proof. intros H. apply list_fmap_ext. intros i y Hy. apply H. by eapply list_elem_of_lookup_2. Qed.

(** *** Looking up *)

(** The state with one more inode number given out. *)
Definition bump (s : vfs (fat_state D)) : vfs (fat_state D) :=
  set_ext (mk_state (g_mounts (ext s)) (fat_mounts (ext s)) (fat_impls (ext s)) (u32 (fat_next_inode (ext s) + 1)) (fat_disk (ext s))) s.
(** The node of the entry at [o] of a cluster. *)
Definition child (pi parent : Z) (buf : list Z) (o : Z) : vfs_node :=
  mk_node (take (Z.to_nat (VFS_NAME_MAX - 1)) (ent_filename buf o)) (ent_type buf o) (ent_size buf o) (fat_next_inode (ext s0))
    (fat32_mode_from_attr (ent_type buf o) (ent_attr buf o)) 0 0 OPS_FAT32 (impl_ext pi) parent [].

Lemma wp_get (s : vfs (fat_state D)) Q : Q s s -> wp get Q s.
Proof. done. Qed.
Lemma wp_bump N I fs d k Q :
  Q tt (st (bump s0) p N I fs d k) ->
  wp (mod_ext (fun e => mk_state (g_mounts e) (fat_mounts e) (fat_impls e) (u32 (fat_next_inode (ext s0) + 1)) (fat_disk e))) Q (st s0 p N I fs d k).
Proof. done. Qed.
Lemma wp_child N I t d k node c o buf Q :
  heap_ok serves k ->
  (let a := Z.of_nat k + 1 in let pi := Z.of_nat (S k) + 1 in
   Q a (st (bump s0) p (<[a := child pi node buf o]> N) (<[pi := mk_impl p (ent_cluster buf o) c o]> I) (vol fs0 t) d (S (S k)))) ->
  wp (child_node serves node p c o buf) Q (state N I t d k).
Proof.
  intros Hh HQ. assert (serves k = true) as E1 by (apply Hh; lia). assert (serves (S k) = true) as E2 by (apply Hh; lia).
  assert (Z.of_nat k + 1 =? NULL = false) as E3 by (apply Z.eqb_neq; unfold NULL; lia). assert (Z.of_nat (S k) + 1 =? NULL = false) as E4 by (apply Z.eqb_neq; unfold NULL; lia).
  unfold child_node. eapply wp_bind. unfold fat32_alloc_node. apply wp_bind, wp_kalloc. rewrite E1, E3.
  apply wp_bind, wp_get, wp_bind. cbn [ext fat_next_inode st]. apply wp_bump, wp_bind, wp_kalloc. rewrite E2, E4.
  apply wp_bind, wp_put_impl, wp_bind, wp_put_node, wp_ret. cbn beta. rewrite E3.
  eapply wp_bind, wp_deref; [apply lookup_insert_eq|]. cbn [n_impl]. apply wp_bind, wp_put_impl, wp_bind, wp_put_node, wp_ret.
  rewrite !insert_insert_eq. exact HQ.
Qed.

Lemma wp_finddir_loop fuel N I t d k node c cs name buf Q :
  sd_inv d -> sd_good d -> chain fs0 t c cs -> Forall (on_disk count fs0) cs -> zlen buf = bpc -> (length cs < fuel)%nat ->
  (forall d', same dev count d d' ->
     match dir_find slots (contents_of d cs) name with
     | None => Q NULL (state N I t d' k)
     | Some (i, o) => wp (child_node serves node p (cs !!! i) o (data d (cs !!! i))) Q (state N I t d' k)
     end) ->
  wp (finddir_loop serves fuel node p (vol fs0 t) c name buf) Q (state N I t d k).
Proof.
  revert d c cs buf. induction fuel as [|fuel IH]; intros d c cs buf Hi Hg Hch Hod Hb Hf HQ; [lia|]. cbn [finddir_loop].
  destruct Hch as [|c cs Hc Hch].
  { rewrite Z.eqb_refl. apply wp_ret, (HQ d). by apply same_refl. }
  apply Forall_cons in Hod as [Ho Hod]. rewrite (proj2 (Z.eqb_neq c 0)) by (destruct Hc; lia).
  eapply wp_bind, wp_mono; [by apply wp_read_cluster|]. intros r s' (d1 & -> & Hs1 & Hlr & Hr & Hg1). specialize (Hg1 Hg). destruct Hr as [?|Hr]; [lia|]. subst r.
  cbn [fst snd] in *. rewrite (proj2 (Z.ltb_ge 0 0)) by lia. rewrite entries_vol. change (contents_of d (c :: cs)) with (data d c :: contents_of d cs) in HQ. cbn [dir_find] in HQ.
  destruct (scan_name slots 0 name (data d c)) as [o| |l] eqn:Es.
  - by apply HQ.
  - by apply wp_ret, HQ.
  - fold (next_of fs0 t c). eapply (IH d1 _ cs); [apply Hs1|by apply Hs1|done|done|done|cbn in Hf; lia|]. intros d2 Hs2.
    assert (contents_of d1 cs = contents_of d cs) as ->.
    { apply contents_ext. intros y Hy. rewrite Forall_forall in Hod. eapply same_cluster; [exact Hvol|done|by apply Hod]. }
    specialize (HQ d2 (same_trans _ _ _ _ _ Hs1 Hs2)). destruct (dir_find slots (contents_of d cs) name) as [[i o]|] eqn:Ef; [|done].
    apply dir_find_range in Ef as [Hlt _]. unfold contents_of in Hlt. rewrite length_fmap in Hlt. cbn [lookup_total list_lookup_total] in HQ.
    rewrite (same_cluster dev count fs0 Hvol d d1); [done|done|]. rewrite Forall_forall in Hod. apply Hod. by apply list_elem_of_lookup_total_2.
Qed.

Lemma finddir_run N I t d k dn nd pd idir cs name :
  node_of p N I dn nd pd idir -> is_set (n_type nd) VFS_DIRECTORY = true -> sd_inv d -> sd_good d ->
  file_ok count fs0 t (i_cluster idir) cs -> heap_ok serves k ->
  exists d', same dev count d d' /\
    match dir_find slots (contents_of d cs) name with
    | None => fat32_finddir serves junk dn name (state N I t d k) = Ret NULL (state N I t d' (S k))
    | Some (i, o) =>
        let a := Z.of_nat (S k) + 1 in let pi := Z.of_nat (S (S k)) + 1 in let buf := data d (cs !!! i) in
        fat32_finddir serves junk dn name (state N I t d k) =
          Ret a (st (bump s0) p (<[a := child pi dn buf o]> N) (<[pi := mk_impl p (ent_cluster buf o) (cs !!! i) o]> I) (vol fs0 t) d' (S (S (S k))))
    end.
Proof.
  intros Hno Hty Hi Hg [Hch Hall] Hh. assert (Forall (on_disk count fs0) cs) as Hod by (eapply Forall_impl; [exact Hall|]; by intros x []).
  enough (wp (fat32_finddir serves junk dn name) (fun r s' => exists d', same dev count d d' /\
    match dir_find slots (contents_of d cs) name with
    | None => r = NULL /\ s' = state N I t d' (S k)
    | Some (i, o) =>
        let a := Z.of_nat (S k) + 1 in let pi := Z.of_nat (S (S k)) + 1 in let buf := data d (cs !!! i) in
        r = a /\ s' = st (bump s0) p (<[a := child pi dn buf o]> N) (<[pi := mk_impl p (ent_cluster buf o) (cs !!! i) o]> I) (vol fs0 t) d' (S (S (S k)))
    end) (state N I t d k)) as Hw.
  { apply wp_run in Hw as (r & s' & E & d' & Hs & H). exists d'. split; [done|]. rewrite E. by destruct (dir_find _ _ _) as [[i o]|]; destruct H as [-> ->]. }
  unfold fat32_finddir. eapply wp_bind, wp_node_impl; [done|done|]. cbn iota beta. rewrite Hty. cbn [negb]. rewrite (no_fs _ _ _ _ _ _ _ Hno).
  apply wp_bind, wp_get_fs, wp_bind, wp_kalloc. rewrite Hh by lia. rewrite (proj2 (Z.eqb_neq (Z.of_nat k + 1) _)) by (unfold NULL; lia).
  pose proof (vo_spc _ _ _ Hvol). pose proof (vo_bpc _ _ _ Hvol).
  eapply wp_finddir_loop; [done|done|exact Hch|done|apply Hjunk; lia|by eapply chain_short|]. intros d' Hs.
  destruct (dir_find slots (contents_of d cs) name) as [[i o]|]; [|by exists d'].
  apply wp_child; [eapply heap_ok_le; [exact Hh|lia]|]. cbn zeta. by exists d'.
Qed.

(** Looking a name up in a directory of a FAT32 volume, on a disk in good
    order, gives the null node when no entry before the end of the directory
    has the name, case aside, and otherwise a new node for the first that has
    it: its size, type and first cluster, and where the entry lies. *)
Theorem fat32_finddir_correct N I t d k dn nd pd idir cs name :
  node_of p N I dn nd pd idir -> is_set (n_type nd) VFS_DIRECTORY = true -> sd_inv d -> sd_good d ->
  file_ok count fs0 t (i_cluster idir) cs -> heap_ok serves k ->
  exists d', same dev count d d' /\
    match dir_find slots (contents_of d cs) name with
    | None => fat32_finddir serves junk dn name (state N I t d k) = Ret NULL (state N I t d' (S k))
    | Some (i, o) =>
        let a := Z.of_nat (S k) + 1 in let pi := Z.of_nat (S (S k)) + 1 in let buf := data d (cs !!! i) in
        fat32_finddir serves junk dn name (state N I t d k) =
          Ret a (st (bump s0) p (<[a := child pi dn buf o]> N) (<[pi := mk_impl p (ent_cluster buf o) (cs !!! i) o]> I) (vol fs0 t) d' (S (S (S k))))
    end.
Proof. exact (finddir_run N I t d k dn nd pd idir cs name). Qed.
(** *** Creating *)

(** One cluster of a list of clusters written. *)
Lemma contents_written d d' cs (i : nat) x :
  NoDup cs -> Forall (on_disk count fs0) cs -> cs !! i = Some x ->
  differ_in dev count (cluster_lba fs0 x) (sectors_per_cluster fs0) d d' -> contents_of d' cs = <[i := data d' x]> (contents_of d cs).
Proof.
  intros Hnd Hod Hx Hd. unfold contents_of. apply list_eq. intros j. destruct (decide (j = i)) as [->|Hne].
  - rewrite list_lookup_insert_eq by (rewrite length_fmap; by eapply lookup_lt_Some). rewrite list_lookup_fmap, Hx. done.
  - rewrite list_lookup_insert_ne by done. rewrite !list_lookup_fmap. destruct (cs !! j) as [y|] eqn:Ey; [|done]. cbn. f_equal.
    rewrite Forall_forall in Hod. assert (on_disk count fs0 y) as Hy by (apply Hod; by eapply list_elem_of_lookup_2).
    assert (on_disk count fs0 x) as Hxd by (apply Hod; by eapply list_elem_of_lookup_2).
    assert (y <> x) as Hyx. { intros ->. apply Hne. by eapply NoDup_lookup. }
    eapply differ_cluster; [exact Hvol|exact Hd|done|]. destruct (clusters_apart dev count fs0 Hvol y x); [apply Hy|apply Hxd|done|by left|by right].
Qed.

Lemma zlen_zeros' : zlen (zeros fs0) = bpc.
Proof. apply (zlen_zeros dev count). exact Hvol. Qed.
Lemma slots_pos : (0 < slots)%nat.
Proof. pose proof slots_fill. pose proof (bpc_pos dev count fs0 Hvol). lia. Qed.
Lemma zeros_first : ent_first (zeros fs0) 0 = 0.
Proof. pose proof (bpc_pos dev count fs0 Hvol). unfold ent_first, byte_at, zeros. destruct (Z.to_nat bpc) eqn:E; [lia|done]. Qed.

Definition created (c0 : Z) cs t d (sn : list Z * list Z) t' d' (new : list Z) (i : nat) (o : Z) : Prop :=
  exists b, let bufs := contents_of d cs ++ replicate (length new) (zeros fs0) in
    file_ok count fs0 t' c0 (cs ++ new) /\ Forall (fun x => in_table fs0 x /\ free fs0 t x) new /\
    dir_slot slots bufs sn = Some (Some (i, o)) /\ bufs !! i = Some b /\ contents_of d' (cs ++ new) = <[i := splice o (new_entry sn) b]> bufs /\ (length new <= 1)%nat.

Lemma wp_create_loop fuel N I t d k c0 cs1 c cs2 name sn prev buf :
  sd_inv d -> sd_good d -> table_ok fs0 t -> short_name name = Some sn -> file_ok count fs0 t c0 (cs1 ++ cs2) -> chain fs0 t c cs2 -> cs1 ++ cs2 <> [] ->
  (cs1 <> [] -> last cs1 = Some prev) -> dir_slot slots (contents_of d cs1) sn = Some None -> zlen buf = bpc -> (length cs2 < fuel)%nat ->
  wp (create_loop serves fuel p (vol fs0 t) sn c prev buf) (fun rc s' => exists t' d' k', s' = state N I t' d' k' /\ (k <= k')%nat /\
      frame dev count fs0 (cs1 ++ cs2) t d t' d' /\
      (rc = -1 \/ rc = 0 /\ exists new i o, created c0 (cs1 ++ cs2) t d sn t' d' new i o) /\
      (heap_ok serves k -> room count fs0 t <> [] -> dir_slot slots (contents_of d (cs1 ++ cs2)) sn <> None -> rc = 0)) (state N I t d k).
Proof.
  revert d cs1 c cs2 prev buf. induction fuel as [|fuel IH]; intros d cs1 c cs2 prev buf Hi Hg Ht Hsn Hf Hch Hne Hprev Hfull Hb Hfu; [lia|]. cbn [create_loop].
  pose proof (length_new_entry _ _ Hsn) as Hen. pose proof slots_fill as Hsl.
  destruct Hch as [|c cs2 Hc Hch].
  - (* a new cluster *)
    rewrite (proj2 (Z.leb_gt 2 0)) by lia. rewrite app_nil_r in *. eapply wp_bind, wp_mono; [eapply (wp_extend dev count serves junk s0 p fs0 Hvol); [done..|exact Hf|by apply Hprev]|].
    intros r s' (t1 & d1 & k1 & -> & Hk1 & F1 & Hr & Hok). destruct Hr as [Hr|(x & -> & Hx & Hfx & Hgr & Hz & Hdt)].
    { rewrite Hr. rewrite (proj2 (Z.ltb_lt (-1) 0)) by lia. apply wp_ret. exists t1, d1, k1. split_and!; [done..|by left|].
      intros Hh Hroom _. by rewrite Hok in Hr. }
    cbn [fst snd]. rewrite (proj2 (Z.ltb_ge 0 0)) by lia. cbn [bytes_per_cluster vol with_table]. fold (zeros fs0).
    pose proof (gr_file _ _ _ _ _ _ _ _ _ _ Hgr) as Hf1. assert (x ∈ cs1 ++ [x]) as Hxin by (apply elem_of_app; right; apply list_elem_of_here).
    destruct (file_used _ _ _ _ _ _ Hf1 Hxin) as (_ & _ & Hxo & _).
    eapply wp_mono; [eapply (wp_write_cluster dev count); [exact Hvol|apply F1|apply Hx|]|].
    { rewrite zlen_splice; [apply zlen_zeros'|lia|]. unfold zlen at 1. rewrite Hen, zlen_zeros'. pose proof slots_pos. lia. }
    intros rc s' (d2 & -> & Hd2 & Hrc & Hg2). specialize (Hg2 (fr_good _ _ _ _ _ _ _ _ F1) Hxo). destruct Hrc as [?|(_ & _ & Hw)]; [lia|]. subst rc.
    exists t1, d2, k1. split_and!; [done|done| | |done].
    + eapply (frame_trans dev count fs0 cs1 [x]); [exact F1| |intros y ->%list_elem_of_singleton; by right].
      eapply frame_cluster; [exact Hvol|apply F1|apply F1|apply Hx|apply list_elem_of_here|exact Hd2].
    + right. split; [done|]. exists [x], (length cs1), 0, (zeros fs0). cbn [length replicate]. split_and!; [done|by rewrite Forall_singleton| | | |done].
      * replace (length cs1) with (length (contents_of d cs1)) by (unfold contents_of; apply length_fmap). by apply slot_in_new; [|apply slots_pos|apply zeros_first].
      * unfold contents_of. rewrite lookup_app_r by (by rewrite length_fmap). by rewrite length_fmap, Nat.sub_diag.
      * rewrite (contents_written d1 d2 (cs1 ++ [x]) (length cs1) x); [| | |by rewrite lookup_app_r, Nat.sub_diag by done|done].
        2: eapply chain_nodup, Hf1. 2: by eapply file_on_disk.
        rewrite Hw. f_equal. unfold contents_of. rewrite fmap_app. f_equal.
        -- apply (contents_ext d d1). intros y Hy. destruct (file_used _ _ _ _ _ _ Hf Hy) as (_ & _ & Hyo & _). apply Hdt; [done|].
           intros ->. eapply (file_not_free count fs0); [exact Hf|exact Hfx|exact Hy].
        -- cbn. by rewrite Hz.
  - (* a cluster of the chain *)
    destruct (file_used _ _ _ _ _ c Hf ltac:(apply elem_of_app; right; apply list_elem_of_here)) as (_ & _ & Hod & _). assert (2 <= c) as Hc2 by apply Hc.
    rewrite (proj2 (Z.leb_le 2 c)) by done. eapply wp_bind, wp_mono; [by apply (wp_read_cluster dev count)|].
    intros r s' (d1 & -> & Hs1 & Hlr & Hr & Hg1). specialize (Hg1 Hg). destruct Hr as [?|Hr]; [lia|]. subst r. cbn [fst snd] in *. rewrite (proj2 (Z.ltb_ge 0 0)) by lia.
    rewrite entries_vol. assert ((cs1 ++ c :: cs2) !! length cs1 = Some c) as Hat by (by rewrite lookup_app_r, Nat.sub_diag by done).
    assert (contents_of d (cs1 ++ c :: cs2) = contents_of d cs1 ++ data d c :: contents_of d cs2) as Econt by (unfold contents_of; by rewrite fmap_app).
    pose proof (dir_slot_app slots (contents_of d cs1) (data d c :: contents_of d cs2) sn Hfull) as Hslot. rewrite <- Econt in Hslot. cbn [dir_slot] in Hslot.
    assert (contents_of d1 (cs1 ++ c :: cs2) = contents_of d (cs1 ++ c :: cs2)) as Esame.
    { apply contents_ext. intros y Hy. destruct (file_used _ _ _ _ _ _ Hf Hy) as (_ & _ & Hyo & _). by eapply same_cluster. }
    destruct (scan_free slots 0 sn None (data d c)) as [[o|]|] eqn:Esc.
    + pose proof (scan_free_range _ _ _ _ _ Esc) as [Ho1 Ho2]. rewrite Nat.add_0_r in Hslot.
      assert (zlen (splice o (new_entry sn) (data d c)) = bpc) as Hlb by (rewrite zlen_splice; unfold zlen in *; lia).
      eapply wp_mono; [eapply (wp_write_cluster dev count); [exact Hvol|apply Hs1|done|exact Hlb]|].
      intros rc s' (d2 & -> & Hd2 & Hrc & Hg2). specialize (Hg2 (sm_good _ _ _ _ Hs1 Hg) Hod). destruct Hrc as [?|(_ & _ & Hw)]; [lia|]. subst rc.
      exists t, d2, k. split_and!; [done|lia| | |done].
      * eapply (frame_trans dev count fs0 _ [c]); [by eapply frame_same| |].
        -- eapply frame_cluster; [exact Hvol|done|by apply Hs1|done|apply list_elem_of_here|exact Hd2].
        -- intros y ->%list_elem_of_singleton. left. apply elem_of_app. right. apply list_elem_of_here.
      * right. split; [done|]. exists [], (length cs1), o, (data d c). cbn [length replicate]. rewrite !app_nil_r.
        assert (length (contents_of d cs1) = length cs1) as El by (unfold contents_of; apply length_fmap).
        split_and!; [done|done|by rewrite Hslot, El| | |lia].
        -- rewrite Econt, lookup_app_r by lia. by rewrite El, Nat.sub_diag.
        -- rewrite (contents_written d1 d2 (cs1 ++ c :: cs2) (length cs1) c); [|eapply chain_nodup, Hf|by eapply file_on_disk|done|done]. by rewrite Hw, Esame.
    + fold (next_of fs0 t c). pose proof (length_cluster_data dev count fs0 Hvol d c Hi Hod) as Hlc.
      assert (contents_of d1 (cs1 ++ [c]) = contents_of d (cs1 ++ [c])) as E1.
      { apply contents_ext. intros y Hy. destruct (file_used _ _ _ _ _ y Hf) as (_ & _ & Hyo & _); [|by eapply same_cluster].
        apply elem_of_app in Hy as [Hy|Hy]; apply elem_of_app; [by left|right]. apply list_elem_of_singleton in Hy as ->. apply list_elem_of_here. }
      eapply wp_mono; [apply (IH d1 (cs1 ++ [c]) (next_of fs0 t c) cs2); [apply Hs1|by apply Hs1|done|done|by rewrite <- app_assoc|done|by rewrite <- app_assoc; destruct cs1| | |done|cbn in Hfu; lia]|].
      * intros _. by rewrite last_snoc.
      * rewrite E1. unfold contents_of at 1. rewrite fmap_app. fold (contents_of d cs1). rewrite (dir_slot_app _ _ _ _ Hfull). cbn [fmap list_fmap dir_slot]. by rewrite Esc.
      * rewrite <- app_assoc. cbn [app]. rewrite Esame. intros rc s' (t2 & d2 & k2 & -> & Hk2 & F2 & Hr2 & Hok2). exists t2, d2, k2. split_and!; [done|done| | |done].
        -- eapply (frame_trans dev count fs0 _ (cs1 ++ c :: cs2)); [by eapply frame_same|exact F2|by left].
        -- destruct Hr2 as [?|(Hr2 & new & i & o & b & Hcr)]; [by left|right]. split; [done|]. exists new, i, o, b. rewrite Esame in Hcr. exact Hcr.
    + apply wp_ret. exists t, d1, k. split_and!; [done|lia|by eapply frame_same|by left|]. intros _ _ Hns. by rewrite Hslot in Hns.
Qed.

Lemma slot_free n o name sn m x buf :
  creatable name sn -> no_nul m -> map tolower m = map tolower name -> scan_free n o sn x buf = None -> exists y, scan_name n o m buf = found y.
Proof.
  intros [Hn Hs H5 Hd Hf] Hm Hmn. revert o x. induction n as [|n IH]; intros o x; cbn [scan_free scan_name]; [done|].
  destruct (ent_first buf o =? 0) eqn:E0; cbn [orb]; [done|]. unfold skipped. destruct (ent_first buf o =? 0xE5) eqn:E5; cbn [orb]; [apply IH|].
  destruct (Z.land (ent_attr buf o) FAT_ATTR_LFN =? FAT_ATTR_LFN); [apply IH|].
  destruct (bool_decide (ent_name buf o = sn.1)) eqn:En; cbn [andb].
  - destruct (bool_decide (ent_ext buf o = sn.2)) eqn:Ee.
    + intros _. apply bool_decide_eq_true in En, Ee. exists o. unfold ent_filename. rewrite En, Ee.
      by rewrite (proj2 (short_found name m sn Hn Hm Hs Hmn)).
    + intros [y Hy]%IH. case_match; eauto.
  - intros [y Hy]%IH. case_match; eauto.
Qed.
Lemma slot_exists n bufs name sn m :
  creatable name sn -> no_nul m -> map tolower m = map tolower name -> dir_find n bufs m = None -> dir_slot n bufs sn <> None.
Proof.
  intros Hc Hm Hmn. induction bufs as [|b bufs IH]; cbn [dir_find dir_slot]; [done|].
  destruct (scan_free n 0 sn None b) as [[o|]|] eqn:Ef; [done| |].
  - pose proof (scan_full _ _ _ m _ Ef) as Hns. destruct (scan_name n 0 m b); [done|done|]. destruct (dir_find n bufs m) as [[? ?]|]; [done|]. intros _.
    destruct (dir_slot n bufs sn) as [[[? ?]|]|]; [done|done|]. by apply IH.
  - destruct (slot_free n 0 name sn m None b Hc Hm Hmn Ef) as [y Hy]. by rewrite Hy.
Qed.

Lemma wp_create N I t d k dn nd pd idir cs name sn m :
  node_of p N I dn nd pd idir -> is_set (n_type nd) VFS_DIRECTORY = true -> sd_inv d -> sd_good d -> table_ok fs0 t ->
  file_ok count fs0 t (i_cluster idir) cs -> cs <> [] -> heap_ok serves k -> creatable name sn -> no_nul m -> map tolower m = map tolower name ->
  dir_find slots (contents_of d cs) m = None -> room count fs0 t <> [] ->
  wp (fat32_create serves junk dn name VFS_FILE) (fun rc s' => exists t' d' k' new i o, rc = 0 /\ s' = state N I t' d' k' /\ (k <= k')%nat /\
    frame dev count fs0 cs t d t' d' /\ created (i_cluster idir) cs t d sn t' d' new i o) (state N I t d k).
Proof.
  intros Hno Hty Hi Hg Ht Hf Hne Hh Hcr Hm Hmn Hd Hroom. unfold fat32_create. eapply wp_bind, wp_node_impl; [done|done|]. cbn iota beta. rewrite Hty.
  rewrite Z.eqb_refl. cbn [negb]. assert (2 <= i_cluster idir) as Hc2. { destruct Hf as [Hch _]. destruct Hch as [|? ? [? _]]; done. }
  rewrite (proj2 (Z.ltb_ge _ 2)) by done. rewrite (cr_short _ _ Hcr), (no_fs _ _ _ _ _ _ _ Hno). apply wp_bind, wp_get_fs, wp_bind, wp_kalloc.
  rewrite Hh by lia. rewrite (proj2 (Z.eqb_neq (Z.of_nat k + 1) _)) by (unfold NULL; lia). pose proof (bpc_pos dev count fs0 Hvol).
  eapply wp_mono; [apply (wp_create_loop _ N I t d (S k) (i_cluster idir) [] (i_cluster idir) cs name sn 0); try done; [apply Hcr|apply Hf|apply Hjunk; cbn; lia|eapply chain_short, Hf]|].
  cbn [app]. intros rc s' (t1 & d1 & k1 & -> & Hk1 & F1 & Hr & Hok). destruct Hr as [->|(-> & new & i & o & Hcd)].
  - assert (-1 = 0) by (apply Hok; [eapply heap_ok_le; [exact Hh|lia]|done|by eapply slot_exists]). lia.
  - exists t1, d1, k1, new, i, o. split_and!; [done|done|lia|done|done].
Qed.

Lemma created_found c cs t d name sn m t' d' new i o :
  creatable name sn -> no_nul m -> map tolower m = map tolower name -> sd_inv d -> file_ok count fs0 t c cs ->
  dir_find slots (contents_of d cs) m = None -> created c cs t d sn t' d' new i o ->
  dir_find slots (contents_of d' (cs ++ new)) m = Some (i, o) /\ (i < length (cs ++ new))%nat /\
  exists b, zlen b = bpc /\ 0 <= o /\ o + 32 <= zlen b /\ data d' ((cs ++ new) !!! i) = splice o (new_entry sn) b.
Proof.
  intros Hc Hm Hmn Hi Hf Hd (b & Hf' & Hnew & Hslot & Hb & Hcont & Hlen). pose proof slots_fill as Hsl. pose proof (dir_slot_range _ _ _ _ _ Hslot) as (Hir & Ho1 & Ho2).
  assert (Forall (fun b => zlen b = 32 * Z.of_nat slots) (contents_of d cs ++ replicate (length new) (zeros fs0))) as Hall.
  { rewrite Hsl. apply Forall_app. split.
    - unfold contents_of. apply Forall_fmap. apply Forall_forall. intros y Hy. cbn. apply length_cluster_data; [exact Hvol|done|]. by destruct (file_used _ _ _ _ _ _ Hf Hy) as (_ & _ & ? & _).
    - apply Forall_replicate. apply zlen_zeros'. }
  assert (zlen b = bpc) as Hlb by (rewrite <- Hsl; by apply (Forall_lookup_1 _ _ i b Hall)).
  assert (dir_find slots (contents_of d cs ++ replicate (length new) (zeros fs0)) m = None) as Hd'.
  { destruct (length new) as [|[|l]]; [by rewrite app_nil_r|cbn [replicate]; apply not_in_new; [done|apply zeros_first]|lia]. }
  rewrite Hcont. assert (length (contents_of d' (cs ++ new)) = length (cs ++ new)) as El by (unfold contents_of; apply length_fmap).
  assert (i < length (cs ++ new))%nat as Hin by (rewrite <- El, Hcont, length_insert; exact Hir). split_and!.
  - by eapply found_after.
  - done.
  - exists b. split_and!; [done|done|lia|]. destruct (lookup_lt_is_Some_2 _ _ Hin) as [x Hx]. rewrite (list_lookup_total_correct _ _ _ Hx).
    assert (contents_of d' (cs ++ new) !! i = Some (data d' x)) as E by (unfold contents_of; rewrite list_lookup_fmap, Hx; done).
    rewrite Hcont, list_lookup_insert_eq in E by exact Hir. by injection E as ->.
Qed.

Lemma seen_short name sn : short_name name = Some sn -> (length (seen name) <= 12)%nat.
Proof.
  intros (_ & _ & H1 & H2 & _)%short_name_parts. unfold seen. rewrite length_app, length_map. destruct (ext_of name); [cbn; lia|]. cbn [length] in *. rewrite length_map. cbn [length]. lia.
Qed.

(** C24: A file created in a directory of a FAT32 volume is found there: when
    the name fits the 8.3 form, no entry has it yet and a cluster is free,
    creating it returns 0 and touches nothing but the directory, and looking
    the name up in whatever case gives a new node of an empty file, whose
    record points at its entry in the directory. *)
Theorem create_then_find N I t d k dn nd pd idir cs name sn m :
  node_of p N I dn nd pd idir -> is_set (n_type nd) VFS_DIRECTORY = true -> sd_inv d -> sd_good d -> table_ok fs0 t ->
  file_ok count fs0 t (i_cluster idir) cs -> cs <> [] -> heap_ok serves k -> creatable name sn -> no_nul m -> map tolower m = map tolower name ->
  dir_find slots (contents_of d cs) m = None -> room count fs0 t <> [] ->
  exists t1 d1 k1, fat32_create serves junk dn name VFS_FILE (state N I t d k) = Ret 0 (state N I t1 d1 k1) /\ frame dev count fs0 cs t d t1 d1 /\
  exists a s2 n pi i, fat32_finddir serves junk dn m (state N I t1 d1 k1) = Ret a s2 /\ nodes s2 !! a = Some n /\
    n_name n = seen name /\ n_type n = VFS_FILE /\ n_size n = 0 /\ n_parent n = dn /\ n_ops n = OPS_FAT32 /\ n_impl n = impl_ext pi /\
    fat_impls (ext s2) !! pi = Some i /\ i_fs i = p /\ i_cluster i = 0 /\ exists new, file_ok count fs0 t1 (i_cluster idir) (cs ++ new) /\ i_dir_entry_cluster i ∈ cs ++ new.
Proof.
  intros Hno Hty Hi Hg Ht Hf Hne Hh Hcr Hm Hmn Hd Hroom.
  destruct (wp_run _ _ _ (wp_create N I t d k dn nd pd idir cs name sn m Hno Hty Hi Hg Ht Hf Hne Hh Hcr Hm Hmn Hd Hroom))
    as (rc & s1 & E1 & t1 & d1 & k1 & new & i & o & -> & -> & Hk & F1 & Hcd).
  destruct (created_found _ _ _ _ _ _ _ _ _ _ _ _ Hcr Hm Hmn Hi Hf Hd Hcd) as (Hfind & Hin & b & Hlb & Ho1 & Ho2 & Hbuf).
  pose proof Hcd as (b0 & Hf1 & _).
  exists t1, d1, k1. split_and!; [done|done|].
  destruct (finddir_run N I t1 d1 k1 dn nd pd idir (cs ++ new) m) as (d2 & _ & H); [done|done|apply F1|apply F1|done|by eapply heap_ok_le|].
  rewrite Hfind in H. cbn zeta in H. rewrite Hbuf in H. set (buf := splice o (new_entry sn) b) in *.
  destruct (new_entry_found name sn m o b Hcr Hm Hmn Ho1 Ho2) as (_ & _ & En & _ & Ec & Es & Ea). fold buf in En, Ec, Es, Ea. clearbody buf.
  exists (Z.of_nat (S k1) + 1). eexists _, (child (Z.of_nat (S (S k1)) + 1) dn buf o), (Z.of_nat (S (S k1)) + 1), _.
  split; [exact H|]. cbn [nodes st ext fat_impls]. split_and!; [apply lookup_insert_eq| | |exact Es|done|done|done|apply lookup_insert_eq|done|exact Ec|].
  - cbn [n_name child]. rewrite En. apply take_ge. pose proof (seen_short _ _ (cr_short _ _ Hcr)). change (Z.to_nat (VFS_NAME_MAX - 1)) with 63%nat. lia.
  - cbn [n_type child]. unfold ent_type. by rewrite Ea.
  - exists new. split; [done|]. by apply list_elem_of_lookup_total_2.
Qed.
End driver.

(** ** The root directory of a small volume

    The volume of [FatSpec.Small] with AB.TXT as the first entry of the root
    directory, cluster 2. *)
#[local] Existing Instances Small.store Small.sectors.
Module Root.
Definition contents : list Z := splice 0 (updated_entry 0 5 600 (new_entry ([65; 66; 32; 32; 32; 32; 32; 32], [84; 88; 84]))) (replicate 512 0).
Definition disk : image := <[3 := contents]> Small.disk.
Definition node : vfs_node := mk_node [47] VFS_DIRECTORY 0 1 0 0 0 OPS_FAT32 (impl_ext 51) 0 [].
Definition record : fat32_node_impl_t := mk_impl 77 2 0 0.
Definition start : vfs (fat_state image) := Small.state {[ 41 := node ]} {[ 51 := record ]} Small.table disk 0.
Lemma root_node_ok : node_of 77 {[ 41 := node ]} {[ 51 := record ]} 41 node 51 record.
Proof. by split. Qed.
Lemma root_disk_inv : sd_inv disk.
Proof.
  intros l b. unfold disk. rewrite lookup_insert_Some. intros [[_ <-]|[_ H]]; [by vm_compute|]. by apply (Small.disk_inv l).
Qed.
Lemma root_clusters_ok : file_ok 300 Small.geometry Small.table 2 [2].
Proof.
  split; [|repeat (constructor; [split; [by apply Small.on_volume|by vm_compute]|]); constructor].
  constructor; [done|]. replace (next_of Small.geometry Small.table 2) with 0 by (by vm_compute). constructor.
Qed.
End Root.

(** "Ab.txt" is found. *)
Lemma fat32_finddir_correct_witness :
  exists a n, (match fat32_finddir Small.serves Small.junk 41 [65; 98; 46; 116; 120; 116] Root.start with Ret b s => b = a /\ nodes s !! a = Some n | _ => False end) /\
    n_name n = [97; 98; 46; 116; 120; 116] /\ n_size n = 600.
Proof.
  destruct (fat32_finddir_correct 0 300 Small.serves Small.junk Small.others 77 Small.geometry Small.geometry_ok Small.junk_length Small.address
    {[ 41 := Root.node ]} {[ 51 := Root.record ]} Small.table Root.disk 0 41 Root.node 51 Root.record [2] [65; 98; 46; 116; 120; 116]
    Root.root_node_ok eq_refl Root.root_disk_inv Logic.I Root.root_clusters_ok (Small.heap_serves 0)) as (d' & _ & E).
  assert (dir_find (slots Small.geometry) (contents_of 0 300 Small.geometry Root.disk [2]) [65; 98; 46; 116; 120; 116] = Some (0%nat, 0)) as Hd by (vm_compute; reflexivity).
  rewrite Hd in E. cbn zeta in E. unfold Root.start. rewrite E. cbn [nodes st]. eexists _, _. split; [split; [reflexivity|apply lookup_insert_eq]|]. by vm_compute.
Defined.

(** "New.c" is created in it, and found as "NEW.C". *)
Lemma create_then_find_witness :
  exists t1 d1 k1, fat32_create Small.serves Small.junk 41 [78; 101; 119; 46; 99] VFS_FILE Root.start = Ret 0 (Small.state {[ 41 := Root.node ]} {[ 51 := Root.record ]} t1 d1 k1) /\
  exists a s2 n, fat32_finddir Small.serves Small.junk 41 [78; 69; 87; 46; 67] (Small.state {[ 41 := Root.node ]} {[ 51 := Root.record ]} t1 d1 k1) = Ret a s2 /\
    nodes s2 !! a = Some n /\ n_name n = [110; 101; 119; 46; 99] /\ n_size n = 0.
Proof.
  destruct (create_then_find 0 300 Small.serves Small.junk Small.others 77 Small.geometry Small.geometry_ok Small.junk_length Small.address
    {[ 41 := Root.node ]} {[ 51 := Root.record ]} Small.table Root.disk 0 41 Root.node 51 Root.record [2]
    [78; 101; 119; 46; 99] ([78; 69; 87; 32; 32; 32; 32; 32], [67; 32; 32]) [78; 69; 87; 46; 67]
    Root.root_node_ok eq_refl Root.root_disk_inv Logic.I Small.table_size Root.root_clusters_ok ltac:(done) (Small.heap_serves 0))
    as (t1 & d1 & k1 & E & _ & a & s2 & n & pi & i & E2 & Hn & En & _ & Es & _).
  { split; [by repeat constructor|reflexivity| |discriminate|discriminate]. change (5 ∉ [78; 101; 119]). rewrite !not_elem_of_cons. split_and!; [discriminate|discriminate|discriminate|apply not_elem_of_nil]. }
  { repeat constructor; done. }
  { reflexivity. }
  { vm_compute. reflexivity. }
  { assert (length (room 300 Small.geometry Small.table) <> 0)%nat as H by (vm_compute; discriminate). intros E. by rewrite E in H. }
  exists t1, d1, k1. split; [exact E|]. exists a, s2, n. split_and!; [exact E2|exact Hn|rewrite En; reflexivity|exact Es].
Defined.
End FatDir.
