(* ===== verification/FatFormat.v ===== *)
(** * Formatting and loading a FAT32 volume

    [fat32_format] on a disk in good order, then [fat32_load_fat] on what it
    wrote: an empty volume that satisfies every assumption of the theorems on
    files and directories. *)

From S2P Require Import Prelude Ring BlockDev VfsPath Vfs Minfs Fat32 FatDisk FatName FatSpec.

Module FatFormat.
Import VfsPath Vfs BlockDev Fat32 Bytes Triple FatName FatDisk FatSpec.

Section format.
Context {D : Type} {B : BlockStore D} (dev count : Z) {L : SectorDisk D dev count} (serves : nat -> bool) (junk : Z -> list Z).
Context (s0 : vfs (fat_state D)) (p : Z).
Context (Hjunk : forall n, 0 <= n -> zlen (junk n) = n).
Implicit Types (fs : fat32_mount_t) (d : D) (N : gmap Z vfs_node) (I : gmap Z fat32_node_impl_t).
Abbreviation state N I fs d k := (st s0 p N I fs d k).

(** The device is a writable disk of [count] sectors. *)
Context (Hdev : forall d, sd_inv d -> exists b, bs_get dev d = Some b /\ dev_block_size b = 512 /\ dev_block_count b = count /\
  is_set (dev_flags b) (Z.lor BLOCKDEV_FLAG_READONLY BLOCKDEV_FLAG_ATAPI) = false).

(** [d'] is [d] with [sec] at the [n] sectors from [lba] on. *)
Record filled (lba n : Z) (sec : list Z) d d' : Prop := {
  fl_inv : sd_inv d';
  fl_good : sd_good d';
  fl_sector : forall l, 0 <= l < count -> sd_sector d' l = if (lba <=? l) && (l <? lba + n) then sec else sd_sector d l
}.

Lemma wp_put_sector N I fs d k lba sec code (m : M (fat_state D) Z) Q :
  sd_inv d -> sd_good d -> 0 <= lba < count -> length sec = 512%nat ->
  (forall d', filled lba 1 sec d d' -> wp m Q (state N I fs d' k)) -> wp (put_sector dev lba sec code m) Q (state N I fs d k).
Proof.
  intros Hi Hg Hl Hs HQ. unfold put_sector. apply wp_bind, wp_device. pose proof (sd_write d lba sec Hi ltac:(lia) Hs) as H.
  destruct (bs_write dev lba 1 sec d) as [rc d']. destruct H as (Hi' & Hsec & Hrc & Hok). destruct (Hok Hg) as [Hg' Hrc']. specialize (Hrc' ltac:(lia)).
  destruct (Hrc Hrc') as [_ Hw]. rewrite (proj2 (Z.ltb_ge _ _)) by lia. apply HQ. split; [done..|]. intros l Hll.
  destruct (decide (l = lba)) as [->|Hne]; [by zbool|]. rewrite Hsec by done. case_match; [|done]. bool_to_prop. lia.
Qed.

Lemma wp_fill_sectors n N I fs d k lba sec :
  sd_inv d -> sd_good d -> 0 <= lba -> lba + Z.of_nat n <= count -> length sec = 512%nat ->
  wp (fill_sectors n dev lba sec) (fun ok s' => exists d', s' = state N I fs d' k /\ ok = true /\ filled lba (Z.of_nat n) sec d d') (state N I fs d k).
Proof.
  revert d lba. induction n as [|n IH]; intros d lba Hi Hg Hl Hc Hs; cbn [fill_sectors].
  { apply wp_ret. exists d. split_and!; [done|done|]. split; [done..|]. intros l Hll. case_match; [|done]. bool_to_prop. lia. }
  apply wp_bind, wp_device. pose proof (sd_write d lba sec Hi ltac:(lia) Hs) as H.
  destruct (bs_write dev lba 1 sec d) as [rc d1]. destruct H as (Hi' & Hsec & Hrc & Hok). destruct (Hok Hg) as [Hg' Hrc']. specialize (Hrc' ltac:(lia)).
  destruct (Hrc Hrc') as [_ Hw]. rewrite (proj2 (Z.ltb_ge _ _)) by lia.
  eapply wp_mono; [apply (IH d1 (lba + 1)); [done|done|lia|lia|done]|]. intros ok s' (d2 & -> & -> & [Hi2 Hg2 Hsec2]). exists d2. split_and!; [done|done|].
  split; [done..|]. intros l Hll. rewrite Hsec2 by done. destruct (decide (l = lba)) as [->|Hne].
  - rewrite Hw. repeat case_match; bool_to_prop; try done; lia.
  - rewrite Hsec by done. repeat case_match; bool_to_prop; try done; lia.
Qed.

Lemma wp_put_run N I fs d k n lba sec code (m : M (fat_state D) Z) Q :
  sd_inv d -> sd_good d -> 0 <= lba -> 0 <= n -> lba + n <= count -> length sec = 512%nat ->
  (forall d', filled lba n sec d d' -> wp m Q (state N I fs d' k)) -> wp (put_run n dev lba sec code m) Q (state N I fs d k).
Proof.
  intros Hi Hg Hl Hn Hc Hs HQ. unfold put_run. eapply wp_bind, wp_mono; [apply wp_fill_sectors; try done; lia|].
  intros ok s' (d' & -> & -> & Hf). cbn [negb]. rewrite Z2Nat.id in Hf by done. by apply HQ.
Qed.

(** The layout of a new volume: two boot sectors, two tables, one empty
    directory; the rest as it was. *)
Record laid_out (spc spf : Z) d d' : Prop := {
  lo_inv : sd_inv d';
  lo_good : sd_good d';
  lo_boot : sd_sector d' 0 = encode_boot count spc spf /\ sd_sector d' 6 = encode_boot count spc spf;
  lo_tables : forall f s, 0 <= f < 2 -> 0 <= s < spf -> sd_sector d' (32 + f * spf + s) = if s =? 0 then first_fat_sector else zero_sector;
  lo_root : forall l, 32 + 2 * spf <= l < 32 + 2 * spf + spc -> sd_sector d' l = zero_sector;
  lo_rest : forall l, 32 + 2 * spf + spc <= l < count -> sd_sector d' l = sd_sector d l
}.

Lemma wp_format N I fs d k :
  sd_inv d -> sd_good d -> 65536 <= count < 2 ^ 32 ->
  let spc := fat32_pick_sectors_per_cluster count in
  let spf := fat32_calc_sectors_per_fat count 32 2 spc 512 in
  65525 <= (count - (32 + 2 * spf)) / spc ->
  wp (fat32_format dev) (fun rc s' => exists d', s' = state N I fs d' k /\ rc = 0 /\ laid_out spc spf d d') (state N I fs d k).
Proof.
  intros Hi Hg Hc spc spf Hcl. destruct (spc_cases count Hc) as [Hspc _]. fold spc in Hspc.
  assert (0 < spf /\ 32 + 2 * spf < count) as [Hspf1 Hspf2] by (destruct (calc_spf_range count Hc) as (? & ? & _); done).
  assert (32 + 2 * spf + spc <= count) as Hroot.
  { pose proof (Z.mul_div_le (count - (32 + 2 * spf)) spc ltac:(lia)). nia. }
  unfold fat32_format. apply wp_bind, wp_look. destruct (Hdev d Hi) as (b & -> & -> & -> & ->). rewrite Z.eqb_refl. cbn [negb].
  rewrite (proj2 (Z.ltb_ge count 65536)), (proj2 (Z.ltb_ge 0xFFFFFFFF count)) by lia. fold spc. fold spf. clearbody spf spc.
  rewrite (proj2 (Z.eqb_neq spf 0)) by lia. rewrite (u32_small (2 * spf)), (u32_small (32 + 2 * spf)) by lia.
  rewrite (proj2 (Z.leb_gt count _)), (proj2 (Z.ltb_ge _ 65525)) by lia.
  apply wp_put_sector; [done..|lia|done|]. intros d1 F1. apply wp_put_sector; [apply F1|apply F1|lia|done|]. intros d2 F2.
  apply wp_put_sector; [apply F2|apply F2|lia|done|]. intros d3 F3. apply wp_put_sector; [apply F3|apply F3|lia|done|]. intros d4 F4.
  apply wp_put_run; [apply F4|apply F4|lia|lia|lia|done|]. intros d5 F5. apply wp_put_run; [apply F5|apply F5|lia|lia|lia|done|]. intros d6 F6.
  apply wp_put_sector; [apply F6|apply F6|lia|done|]. intros d7 F7. apply wp_put_sector; [apply F7|apply F7|lia|done|]. intros d8 F8.
  apply wp_put_run; [apply F8|apply F8|lia|lia|lia|done|]. intros d9 F9. apply wp_ret. exists d9. split_and!; [done|done|].
  assert (forall l, 0 <= l < count -> sd_sector d9 l = if (32 + 2 * spf <=? l) && (l <? 32 + 2 * spf + spc) then zero_sector
    else if (32 + spf =? l) || (32 =? l) then first_fat_sector else if (32 <=? l) && (l <? 32 + 2 * spf) then zero_sector
    else if (7 =? l) || (1 =? l) then fsinfo_sector else if (6 =? l) || (0 =? l) then encode_boot count spc spf else sd_sector d l) as Hall.
  { intros l Hl. rewrite (fl_sector _ _ _ _ _ F9), (fl_sector _ _ _ _ _ F8), (fl_sector _ _ _ _ _ F7), (fl_sector _ _ _ _ _ F6), (fl_sector _ _ _ _ _ F5),
      (fl_sector _ _ _ _ _ F4), (fl_sector _ _ _ _ _ F3), (fl_sector _ _ _ _ _ F2), (fl_sector _ _ _ _ _ F1) by done. clear -Hl Hspf1 Hspf2 Hspc.
    repeat case_match; bool_to_prop; try done; lia. }
  split; [apply F9|apply F9|..].
  - split; rewrite Hall by lia; repeat case_match; bool_to_prop; try done; lia.
  - intros f s Hf Hs. rewrite Hall by nia. repeat case_match; bool_to_prop; try done; try nia.
  - intros l Hl. rewrite Hall by lia. by zbool.
  - intros l Hl. rewrite Hall by lia. repeat case_match; bool_to_prop; try done; lia.
Qed.

(** ** Loading *)

Lemma wp_load_sectors n N I fsx fs d k i t :
  sd_inv d -> sd_good d -> dev_index fs = dev -> bytes_per_sector fs = 512 -> 0 <= fat_start_sector fs -> 0 <= i ->
  fat_start_sector fs + i + Z.of_nat n <= count -> count < 2 ^ 32 -> (i + Z.of_nat n) * 512 = zlen t -> zlen t < 2 ^ 32 ->
  wp (load_sectors n fs i t) (fun o s' => exists d', s' = state N I fsx d' k /\ same dev count d d' /\
      o = Some (take (Z.to_nat (i * 512)) t ++ sectors_from dev count d (fat_start_sector fs + i) (Z.of_nat n))) (state N I fsx d k).
Proof.
  intros Hi Hg Hdv Hb Hf H0 Hc Hcw Hl Hw. revert d i t Hi Hg H0 Hc Hl Hw. induction n as [|n IH]; intros d i t Hi Hg H0 Hc Hl Hw; cbn [load_sectors].
  { apply wp_ret. exists d. split_and!; [done|by apply same_refl|]. f_equal. unfold sectors_from. cbn. rewrite app_nil_r, take_ge; [done|]. unfold zlen in *. lia. }
  rewrite Hb, Hdv, (u32_small (fat_start_sector fs + i)), (u32_small (i * 512)) by lia.
  eapply wp_bind, wp_read_sector; [done|lia..|]. intros rc d1 Hs1 Hrc Hok rc' Hrc'. cbn [fst snd]. specialize (Hok Hg ltac:(lia)).
  rewrite (proj2 (Z.ltb_ge rc' 0)), (proj2 (Z.ltb_ge rc 0)) by lia.
  assert (length (sd_sector d (fat_start_sector fs + i)) = 512%nat) as Hlen by (apply sd_length; [done|lia]).
  assert (zlen (splice (i * 512) (sd_sector d (fat_start_sector fs + i)) t) = zlen t) as Hl' by (unfold zlen in *; rewrite length_splice; lia).
  eapply wp_mono; [apply (IH d1 (i + 1)); [apply Hs1|by apply Hs1|lia..]|]. intros o s' (d2 & -> & Hs2 & ->). exists d2.
  split_and!; [done|by eapply same_trans|]. f_equal.
  replace ((i + 1) * 512) with (i * 512 + Z.of_nat (length (sd_sector d (fat_start_sector fs + i)))) by lia.
  rewrite take_splice by (unfold zlen in *; lia). rewrite <- app_assoc. f_equal.
  rewrite (sectors_from_cons _ _ d (fat_start_sector fs + i)) by lia. f_equal.
  replace (Z.of_nat (S n) - 1) with (Z.of_nat n) by lia. replace (fat_start_sector fs + (i + 1)) with (fat_start_sector fs + i + 1) by lia.
  apply sectors_from_ext. intros. apply Hs1. lia.
Qed.

(** The table of an empty volume: the directory's cluster and nothing else. *)
Definition empty_table (spf : Z) : list Z :=
  [0xF8; 0xFF; 0xFF; 0x0F; 0xFF; 0xFF; 0xFF; 0x0F; 0xFF; 0xFF; 0xFF; 0x0F] ++ replicate (Z.to_nat (512 * spf - 12)) 0.

Lemma concat_zero_sectors n : concat (replicate n zero_sector) = replicate (512 * n) 0.
Proof.
  induction n as [|n IH]; [done|]. replace (512 * S n)%nat with (512 + 512 * n)%nat by lia. rewrite replicate_add. cbn [replicate concat]. rewrite IH. done.
Qed.
Lemma constant_sectors d lba n x : (forall l, lba <= l < lba + n -> sd_sector d l = x) -> sectors_from dev count d lba n = concat (replicate (Z.to_nat n) x).
Proof.
  intros H. unfold sectors_from. f_equal. transitivity (map (fun _ => x) (seqZ lba n)).
  - apply map_ext_in. intros l Hl%list_elem_of_In%elem_of_seqZ. by apply H.
  - rewrite <- (length_seqZ lba n). generalize (seqZ lba n). intros l. induction l as [|y l IH]; [done|]. cbn. by rewrite IH.
Qed.

Lemma table_laid_out spc spf d d' f : laid_out spc spf d d' -> 0 < spf -> 0 <= f < 2 -> sectors_from dev count d' (32 + f * spf) spf = empty_table spf.
Proof.
  intros Hl Hs Hf. rewrite sectors_from_cons by lia. rewrite (constant_sectors _ _ _ zero_sector).
  - rewrite concat_zero_sectors. pose proof (lo_tables _ _ _ _ Hl f 0 Hf ltac:(lia)) as E. rewrite Z.add_0_r, Z.eqb_refl in E. rewrite E.
    unfold first_fat_sector, empty_table. rewrite <- app_assoc. f_equal. rewrite <- replicate_add. f_equal. lia.
  - intros l Hll. replace l with (32 + f * spf + (l - (32 + f * spf))) by lia. rewrite (lo_tables _ _ _ _ Hl f) by lia. by zbool.
Qed.

Lemma empty_value spf c : 0 < spf -> 0 <= c < 128 * spf -> value (empty_table spf) c = if c <=? 0 then 0x0FFFFFF8 else if c <=? 2 then 0x0FFFFFFF else 0.
Proof.
  intros Hs Hc. unfold value, fat_value, raw_entry, Minfs.word_at, empty_table. destruct (Z.leb_spec c 2) as [Hle|Hgt].
  - rewrite slice_app_l by (cbn; lia). assert (c = 0 \/ c = 1 \/ c = 2) as [-> | [-> | ->]] by lia; by vm_compute.
  - rewrite (proj2 (Z.leb_gt c 0)) by lia. rewrite slice_app_r by (cbn; lia). unfold slice. rewrite drop_replicate, take_replicate.
    rewrite Nat.min_l by (cbn; lia). done.
Qed.

Lemma zlen_empty_table spf : 0 < spf -> zlen (empty_table spf) = 512 * spf.
Proof. intros. unfold empty_table, zlen. rewrite length_app, length_replicate. cbn [length]. lia. Qed.

(** The mount as [fat32_mount] leaves it before [fat32_load_fat], for a volume
    at the start of the device. *)
Definition fresh_mount : fat32_mount_t := mk_fat dev 0 0 0 0 0 0 0 0 0 None NULL.

Lemma wp_load N I d d0 k spc spf :
  let fs1 := (fat32_parse_boot_sector fresh_mount (encode_boot count spc spf)).2 in
  let fs2 := mk_fat dev 512 spc (512 * spc) 2 2 32 spf (32 + 2 * spf) (128 * spf) None NULL in
  laid_out spc spf d0 d -> 65536 <= count < 2 ^ 32 -> 1 <= spc <= 32 -> 0 < spf < 2 ^ 21 -> 32 + 2 * spf + spc <= count -> heap_ok serves k ->
  wp (fat32_load_fat serves junk p (encode_boot count spc spf)) (fun rc s' => exists d' k', rc = 0 /\ s' = state N I (vol fs2 (empty_table spf)) d' k' /\ same dev count d d')
    (state N I fs1 d k).
Proof.
  intros fs1 fs2 Hlo Hc Hspc Hspf Hfit Hh. assert (fs1 = mk_fat dev 512 spc (512 * spc) 2 2 32 0 (32 + 2 * spf) 0 None NULL) as E1.
  { unfold fs1. rewrite parse_encode by lia. done. }
  clearbody fs1. subst fs1. unfold fat32_load_fat. apply wp_bind, wp_get_fs. rewrite boot_spf by lia. cbn [bytes_per_sector dev_index sectors_per_cluster
    bytes_per_cluster num_fats root_cluster fat_start_sector data_start_sector fat_table root_node].
  rewrite (proj2 (Z.eqb_neq spf 0)) by lia. rewrite (u32_small (spf * 512)) by lia. replace (spf * 512 / 4) with (128 * spf) by zlia. fold fs2.
  apply wp_bind, wp_kalloc. rewrite Hh by lia. rewrite (proj2 (Z.eqb_neq (Z.of_nat k + 1) _)) by (unfold NULL; lia).
  eapply wp_bind, wp_mono; [apply wp_load_sectors; cbn [fs2 dev_index bytes_per_sector fat_start_sector]; try done; try apply Hlo; rewrite ?Z2Nat.id; try rewrite Hjunk; lia|].
  intros o s' (d1 & -> & Hs1 & ->). rewrite Z2Nat.id by lia. cbn [fs2 fat_start_sector]. change (Z.to_nat (0 * 512)) with 0%nat. rewrite take_0. cbn [app].
  pose proof (table_laid_out spc spf d0 d 0 Hlo ltac:(lia) ltac:(lia)) as Et. rewrite Z.mul_0_l, Z.add_0_r in Et. rewrite Z.add_0_r, Et.
  apply wp_bind, wp_put_fs. fold fs2. cbn [root_cluster total_clusters fs2]. change (fat_value (empty_table spf) 2) with (value (empty_table spf) 2).
  rewrite empty_value by lia. rewrite (proj2 (Z.leb_gt 2 0)), (proj2 (Z.leb_le 2 2)) by lia. change (0x0FFFFFFF =? FAT_ENTRY_FREE) with false. rewrite andb_false_r.
  apply wp_ret. by exists d1, (S k).
Qed.

(** C25: A device formatted as FAT32 loads as an empty volume: formatting a
    disk in good order of at least 65525 clusters returns 0, and loading what
    it wrote gives a mount with the right geometry, tables on disk and in
    memory that agree, a root directory of one empty cluster and every other
    cluster free. These are the assumptions of the theorems on files. *)
Theorem format_then_load N I fs d k :
  sd_inv d -> sd_good d -> 65536 <= count < 2 ^ 32 -> heap_ok serves k ->
  let spc := fat32_pick_sectors_per_cluster count in
  let spf := fat32_calc_sectors_per_fat count 32 2 spc 512 in
  65525 <= (count - (32 + 2 * spf)) / spc ->
  exists d1, fat32_format dev (state N I fs d k) = Ret 0 (state N I fs d1 k) /\
    let boot := sd_sector d1 0 in let fs1 := (fat32_parse_boot_sector fresh_mount boot).2 in
    exists fs2 t d2 k2, fat32_load_fat serves junk p boot (state N I fs1 d1 k) = Ret 0 (state N I (vol fs2 t) d2 k2) /\
      vol_ok dev count fs2 /\ table_ok fs2 t /\ synced dev count fs2 t d2 /\ sd_inv d2 /\ sd_good d2 /\ root_cluster fs2 = 2 /\ file_ok count fs2 t 2 [2] /\
      chain_data dev count fs2 d2 [2] = zeros fs2 /\ (forall c, in_table fs2 c -> c <> 2 -> free fs2 t c).
Proof.
  intros Hi Hg Hc Hh spc spf Hcl. pose proof (calc_spf_range count Hc) as (Hspf1 & Hspf2 & _ & Hspf3 & Hcl1). fold spc in Hspf1, Hspf2, Hspf3, Hcl1.
  fold spf in Hspf1, Hspf2, Hspf3, Hcl1. destruct (spc_cases count Hc) as [Hspc _]. fold spc in Hspc.
  assert (32 + 2 * spf + spc <= count) as Hfit.
  { pose proof (Z.mul_div_le (count - (32 + 2 * spf)) spc ltac:(lia)). nia. }
  assert (spf < 2 ^ 21) as Hspf4 by lia.
  destruct (wp_run _ _ _ (wp_format N I fs d k Hi Hg Hc Hcl)) as (rc & s1 & E1 & d1 & -> & -> & Hlo). fold spc in Hlo. fold spf in Hlo.
  exists d1. split; [exact E1|]. cbn zeta. rewrite (proj1 (lo_boot _ _ _ _ Hlo)).
  destruct (wp_run _ _ _ (wp_load N I d1 d k spc spf Hlo Hc Hspc ltac:(lia) Hfit Hh)) as (rc2 & s2 & E2 & d2 & k2 & -> & -> & Hs2).
  set (fs2 := mk_fat dev 512 spc (512 * spc) 2 2 32 spf (32 + 2 * spf) (128 * spf) None NULL) in *.
  assert (vol_ok dev count fs2) as Hvol. { split; cbn [fs2 dev_index bytes_per_sector sectors_per_cluster bytes_per_cluster num_fats sectors_per_fat total_clusters fat_start_sector data_start_sector root_cluster]; lia. }
  assert (in_table fs2 2) as H2 by (unfold in_table; cbn [fs2 total_clusters]; lia).
  assert (on_disk count fs2 2) as Ho by (split; [lia|]; unfold cluster_lba; cbn [fs2 sectors_per_cluster data_start_sector]; lia).
  exists fs2, (empty_table spf), d2, k2. split_and!; [exact E2|done|by apply zlen_empty_table| |apply Hs2|apply Hs2, Hlo|done| | |].
  - intros f s Hf Hs. cbn [fs2 num_fats sectors_per_fat fat_start_sector] in Hf, Hs |- *. rewrite (sm_sector _ _ _ _ Hs2) by nia.
    rewrite (lo_tables _ _ _ _ Hlo) by lia. unfold empty_table. destruct (Z.eqb_spec s 0) as [->|Hne]; [|rewrite slice_app_r by (cbn; lia)].
    + change (0 * 512) with 0. unfold slice. change (Z.to_nat 0) with 0%nat. rewrite drop_0. change (Z.to_nat 512) with (12 + 500)%nat.
      rewrite (take_app_add' _ _ 12 500) by done. rewrite take_replicate, Nat.min_l by lia. done.
    + replace (Z.of_nat (length [_; _; _; _; _; _; _; _; _; _; _; _])) with 12 by done. unfold slice. rewrite drop_replicate, take_replicate, Nat.min_l by lia. done.
  - split; [|by rewrite Forall_singleton, empty_value by lia]. constructor; [done|]. rewrite next_of_value, empty_value by (done || lia). constructor.
  - unfold chain_data. cbn [map concat]. rewrite app_nil_r. unfold cluster_data. rewrite (constant_sectors _ _ _ zero_sector).
    + rewrite concat_zero_sectors. unfold zeros. f_equal. cbn [fs2 sectors_per_cluster bytes_per_cluster]. lia.
    + intros l Hl. unfold cluster_lba in Hl. cbn [fs2 sectors_per_cluster data_start_sector] in Hl. rewrite (sm_sector _ _ _ _ Hs2) by lia. apply Hlo. lia.
  - intros c [Hc1 Hc2] Hne. cbn [fs2 total_clusters] in Hc2. split; [|done]. rewrite empty_value by lia. by zbool.
Qed.


End format.

(** A blank disk of 70000 sectors. *)
#[local] Instance blank_store : BlockStore image := ram_store 70000.
#[local] Instance blank_disk : SectorDisk image 0 70000 := ram_disk 70000.

Lemma format_then_load_witness :
  exists d1 fs2 t d2 k2,
    fat32_format 0 (Small.state ∅ ∅ Small.table (∅ : image) 0) = Ret 0 (Small.state ∅ ∅ Small.table d1 0) /\
    fat32_load_fat Small.serves Small.junk 77 (sd_sector d1 0)
      (st Small.others 77 ∅ ∅ (fat32_parse_boot_sector (fresh_mount 0) (sd_sector d1 0)).2 d1 0) = Ret 0 (st Small.others 77 ∅ ∅ (vol fs2 t) d2 k2) /\
    file_ok 70000 fs2 t 2 [2] /\ free fs2 t 3.
Proof.
  assert (forall d : image, sd_inv d -> exists b, bs_get 0 d = Some b /\ dev_block_size b = 512 /\ dev_block_count b = 70000 /\
    is_set (dev_flags b) (Z.lor BLOCKDEV_FLAG_READONLY BLOCKDEV_FLAG_ATAPI) = false) as Hdev by (intros d _; by exists (ram_device 70000)).
  assert (sd_inv (∅ : image)) as Hinv by (intros l b Hl; by rewrite lookup_empty in Hl).
  assert (65525 <= (70000 - (32 + 2 * fat32_calc_sectors_per_fat 70000 32 2 (fat32_pick_sectors_per_cluster 70000) 512)) / fat32_pick_sectors_per_cluster 70000) as Hcl
    by (vm_compute; discriminate).
  destruct (format_then_load 0 70000 Small.serves Small.junk Small.others 77 Small.junk_length Hdev ∅ ∅ (vol Small.geometry Small.table) (∅ : image) 0
    Hinv Logic.I ltac:(lia) (Small.heap_serves 0) Hcl) as (d1 & E1 & H). cbn zeta in H. destruct H as (fs2 & t & d2 & k2 & E2 & Hvol & _ & _ & _ & _ & Hr & Hf & _ & Hfree).
  exists d1, fs2, t, d2, k2. split_and!; [exact E1|exact E2|exact Hf|]. apply Hfree; [|lia].
  split; [lia|]. pose proof (vo_total _ _ _ Hvol). pose proof (vo_spf _ _ _ Hvol). lia.
Defined.
End FatFormat.
