(* ===== verification/Rtc.v ===== *)
(** * The real-time clock ([kernel/rtc.c])

    The CMOS chip is a parameter: [cmos reg w] is the byte that selecting
    register [reg] and reading the data port gives, with the state of the
    hardware after it. The monotonic clock is the argument [now_ms]. The time
    zone is kept in a file through the virtual file system. [Module Rtc] is
    the translation, [Module RtcSpec] shows that the calendar conversions are
    inverse on all 32-bit times, that the clock reads BCD and binary chips
    correctly except at noon and midnight of a 12-hour chip, and that a time
    zone that was set is the one loaded at the next start. *)

From S2P Require Import Prelude Ring VfsPath Vfs Ramfs Libc.

Module Rtc.
Import VfsPath Vfs Stdio Stdlib_.

Definition RTC_SECONDS : Z := 0x00.
Definition RTC_MINUTES : Z := 0x02.
Definition RTC_HOURS : Z := 0x04.
Definition RTC_DAY : Z := 0x07.
Definition RTC_MONTH : Z := 0x08.
Definition RTC_YEAR : Z := 0x09.
Definition RTC_STATUS_A : Z := 0x0A.
Definition RTC_STATUS_B : Z := 0x0B.
Definition RTC_RESYNC_INTERVAL_MS : Z := 30 * 60 * 1000.
Definition TZ_FILE_PATH : list Z := [47; 116; 105; 109; 101; 122; 111; 110; 101]. (* "/timezone" *)
Definition TZ_FILE_WIDTH : nat := 4.
(** Never assigned. *)
Definition century_register : Z := 0.

Record rtc_time := mk_time { second : Z; minute : Z; hour : Z; day : Z; month : Z; year : Z }.
Record uptime_t := mk_uptime { days : Z; hours : Z; minutes : Z; seconds : Z }.
Record rtc := mk_rtc { synced_epoch_s : Z; synced_mono_ms : Z; synced : bool; tz_offset_hours : Z }.
#[global] Instance rtc_time_eq_dec : EqDecision rtc_time.
Proof. solve_decision. Defined.

(** ** Reading the chip *)

Definition bcd_to_binary (bcd : Z) : Z := u8 (bcd / 16 * 10 + Z.land bcd 0x0F).

Section chip.
Context {W : Type} (cmos : Z -> W -> Z * W).

Definition rtc_read_register (reg : Z) (w : W) : Z * W := cmos reg w.
Definition rtc_update_in_progress (w : W) : bool * W :=
  let '(a, w) := cmos RTC_STATUS_A w in (is_set a 0x80, w).

(** [while (rtc_update_in_progress());] *)
Fixpoint wait_update (fuel : nat) (w : W) : option W :=
  match fuel with
  | O => None
  | S fuel => let '(busy, w) := rtc_update_in_progress w in if busy then wait_update fuel w else Some w
  end.

(** The six time registers and the century, unconverted. *)
Definition read_fields (w : W) : rtc_time * Z * W :=
  let '(s, w) := rtc_read_register RTC_SECONDS w in
  let '(mi, w) := rtc_read_register RTC_MINUTES w in
  let '(h, w) := rtc_read_register RTC_HOURS w in
  let '(d, w) := rtc_read_register RTC_DAY w in
  let '(mo, w) := rtc_read_register RTC_MONTH w in
  let '(y, w) := rtc_read_register RTC_YEAR w in
  if negb (century_register =? 0)
  then let '(c, w) := rtc_read_register century_register w in (mk_time s mi h d mo y, c, w)
  else (mk_time s mi h d mo y, 0, w).

(** The [do ... while] loop: read again until two reads agree. *)
Fixpoint read_stable (fuel : nat) (last : rtc_time) (w : W) : option (rtc_time * Z * W) :=
  match fuel with
  | O => None
  | S fuel' =>
      match wait_update fuel w with
      | None => None
      | Some w =>
          let '(t, century, w) := read_fields w in
          if bool_decide (last = t) then Some (t, century, w) else read_stable fuel' t w
      end
  end.

(** The conversions after the loop, by the bits of status register B. *)
Definition convert_fields (registerB century : Z) (t : rtc_time) : rtc_time :=
  let bcd := negb (is_set registerB 0x04) in
  let h := if bcd then u8 (Z.lor (Z.land (hour t) 0x0F + Z.land (hour t) 0x70 / 16 * 10) (Z.land (hour t) 0x80)) else hour t in
  let conv x := if bcd then bcd_to_binary x else x in
  let century := if negb (century_register =? 0) then conv century else century in
  let h := if negb (is_set registerB 0x02) && is_set h 0x80 then (Z.land h 0x7F + 12) mod 24 else h in
  mk_time (conv (second t)) (conv (minute t)) h (conv (day t)) (conv (month t))
    (u16 (conv (year t) + (if negb (century_register =? 0) then century * 100 else 2000))).

Definition rtc_read_time (fuel : nat) (w : W) : option (rtc_time * W) :=
  match wait_update fuel w with
  | None => None
  | Some w =>
      let '(t, _, w) := read_fields w in
      match read_stable fuel t w with
      | None => None
      | Some (t, century, w) =>
          let '(registerB, w) := rtc_read_register RTC_STATUS_B w in
          Some (convert_fields registerB century t, w)
      end
  end.
End chip.

(** ** Calendar *)

Definition get_uptime (now_ms : Z) : uptime_t :=
  let total_seconds := now_ms / 1000 in
  mk_uptime (u32 (total_seconds / 60 / 60 / 24)) (u32 (total_seconds / 60 / 60 mod 24))
    (u32 (total_seconds / 60 mod 60)) (u32 (total_seconds mod 60)).

Definition is_leap_year (y : Z) : bool := ((y mod 4 =? 0) && negb (y mod 100 =? 0)) || (y mod 400 =? 0).
Definition year_days (y : Z) : Z := if is_leap_year y then 366 else 365.

Definition days_before_month : list Z := [0; 31; 59; 90; 120; 151; 181; 212; 243; 273; 304; 334].
Definition month_lengths : list Z := [31; 28; 31; 30; 31; 30; 31; 31; 30; 31; 30; 31].

(** The loop over the years from [y], [n] of them. *)
Fixpoint add_years (n : nat) (y acc : Z) : Z :=
  match n with
  | O => acc
  | S n => add_years n (y + 1) (u32 (acc + year_days y))
  end.

Definition rtc_time_to_epoch_seconds (t : rtc_time) : Z :=
  if (year t <? 1970) || (month t <? 1) || (12 <? month t) || (day t <? 1) || (31 <? day t) ||
     (23 <? hour t) || (59 <? minute t) || (59 <? second t) then 0
  else
    let d := add_years (Z.to_nat (year t - 1970)) 1970 0 in
    let d := u32 (d + nth (Z.to_nat (month t - 1)) days_before_month 0) in
    let d := if (2 <? month t) && is_leap_year (year t) then u32 (d + 1) else d in
    let d := u32 (d + (day t - 1)) in
    u32 (d * 86400 + hour t * 3600 + minute t * 60 + second t).

(** [for (;;)] over the years: the year and the days left. *)
Fixpoint find_year (fuel : nat) (y d : Z) : option (Z * Z) :=
  match fuel with
  | O => None
  | S fuel => if d <? year_days y then Some (y, d) else find_year fuel (y + 1) (d - year_days y)
  end.

Definition month_length (y m : Z) : Z :=
  if (m =? 1) && is_leap_year y then 29 else nth (Z.to_nat m) month_lengths 0.

(** [for (;;)] over the months, counted from 0. *)
Fixpoint find_month (fuel : nat) (y m d : Z) : option (Z * Z) :=
  match fuel with
  | O => None
  | S fuel => if d <? month_length y m then Some (m, d) else find_month fuel y (m + 1) (d - month_length y m)
  end.

(** A 32-bit time ends in the year 2106: 137 years and 12 months are enough. *)
Definition rtc_epoch_to_calendar (epoch : Z) : option rtc_time :=
  let rem := epoch mod 86400 in
  match find_year 137 1970 (epoch / 86400) with
  | None => None
  | Some (y, d) =>
      match find_month 12 y 0 d with
      | None => None
      | Some (m, d) =>
          Some (mk_time (u8 (rem mod 60)) (u8 (rem mod 3600 / 60)) (u8 (rem / 3600)) (u8 (d + 1)) (u8 (m + 1)) (u16 y))
      end
  end.

(** ** Wall clock *)

Section clock.
Context {W : Type} (cmos : Z -> W -> Z * W).

Definition rtc_read_epoch_now (fuel : nat) (w : W) : option (Z * W) :=
  match rtc_read_time cmos fuel w with
  | None => None
  | Some (t, w) => Some (rtc_time_to_epoch_seconds t, w)
  end.

Definition rtc_resync_tick (fuel : nat) (now_ms : Z) (r : rtc) (w : W) : option (rtc * W) :=
  if synced r && (u64 (now_ms - synced_mono_ms r) <? RTC_RESYNC_INTERVAL_MS) then Some (r, w)
  else
    match rtc_read_epoch_now fuel w with
    | None => None
    | Some (epoch, w) => Some (if epoch =? 0 then r else mk_rtc epoch now_ms true (tz_offset_hours r), w)
    end.

Definition rtc_get_wallclock_seconds (fuel : nat) (now_ms : Z) (r : rtc) (w : W) : option (Z * W) :=
  if negb (synced r) then rtc_read_epoch_now fuel w
  else Some (u32 (synced_epoch_s r + u32 (u64 (now_ms - synced_mono_ms r) / 1000)), w).

Definition rtc_get_local_time (fuel : nat) (now_ms : Z) (r : rtc) (w : W) : option (rtc_time * W) :=
  match rtc_get_wallclock_seconds fuel now_ms r w with
  | None => None
  | Some (utc, w) =>
      let local := utc + tz_offset_hours r * 3600 in
      let local := if local <? 0 then 0 else local in
      match rtc_epoch_to_calendar (u32 local) with Some t => Some (t, w) | None => None end
  end.
End clock.

(** ** Time zone *)

Section timezone.
Context {E : Type} (drivers : Z -> vtable E).

Definition with_tz (h : Z) (r : rtc) : rtc := mk_rtc (synced_epoch_s r) (synced_mono_ms r) (synced r) h.

(** The text of a character array up to its first NUL. *)
Fixpoint c_text (l : list Z) : list Z :=
  match l with [] => [] | c :: l => if c =? 0 then [] else c :: c_text l end.

Definition rtc_tz_load (fuel : nat) (r : rtc) : M E rtc :=
  let! node := vfs_namei drivers fuel (Some TZ_FILE_PATH) in
  if node =? NULL then ret (with_tz 0 r)
  else
    let! n := deref node in
    if negb (is_set (n_type n) VFS_FILE) then ret (with_tz 0 r)
    else
      let! res := vfs_read drivers node 0 15 in
      if res.1 <=? 0 then ret (with_tz 0 r)
      else
        let parsed := atoi (Some (c_text (take (Z.to_nat res.1) res.2))) in
        if (parsed <? -12) || (14 <? parsed) then ret (with_tz 0 r) else ret (with_tz parsed r).

Definition rtc_tz_get_hours (r : rtc) : Z := tz_offset_hours r.

(** The digits padded with newlines to the file's width. *)
Definition tz_text (h : Z) : list Z :=
  let num := itoa h 10 in
  map (fun i => nth i num 10) (seq 0 TZ_FILE_WIDTH).

Definition rtc_tz_set_hours (fuel : nat) (h : Z) (r : rtc) : M E (Z * rtc) :=
  if (h <? -12) || (14 <? h) then ret (-1, r)
  else
    let r := with_tz h r in
    let store node := let! rc := vfs_write drivers node 0 (tz_text h) in ret (if rc <? 0 then 1 else 0, r) in
    let! node := vfs_namei drivers fuel (Some TZ_FILE_PATH) in
    if node =? NULL then
      let! rc := vfs_create_path drivers fuel (Some TZ_FILE_PATH) VFS_FILE in
      if rc <? 0 then ret (1, r)
      else
        let! node := vfs_namei drivers fuel (Some TZ_FILE_PATH) in
        if node =? NULL then ret (1, r) else store node
    else store node.
End timezone.

(** [rtc_initialize]: first synchronisation, then the time zone. *)
Definition rtc_initialize {W E} (cmos : Z -> W -> Z * W) (drivers : Z -> vtable E) (fuel : nat) (now_ms : Z) (r : rtc) (w : W)
    : option (M E rtc * W) :=
  match rtc_resync_tick cmos fuel now_ms r w with
  | None => None
  | Some (r, w) => Some (rtc_tz_load drivers fuel r, w)
  end.
End Rtc.

Module RtcSpec.
Import VfsPath Vfs Ramfs RamfsSpec Stdio Stdlib_ Rtc.

(** ** The calendar *)

(** Days from the start of 1970 to the start of a year, in closed form. *)
Definition year_start (y : Z) : Z := 365 * (y - 1970) + (y - 1) / 4 - (y - 1) / 100 + (y - 1) / 400 - 477.

Lemma year_start_succ y : year_start (y + 1) = year_start y + year_days y.
Proof.
  unfold year_start, year_days, is_leap_year. replace (y + 1 - 1) with y by lia.
  destruct (Z.eqb_spec (y mod 4) 0), (Z.eqb_spec (y mod 100) 0), (Z.eqb_spec (y mod 400) 0); cbn [andb orb negb]; zlia.
Qed.

Lemma year_days_range y : 365 <= year_days y <= 366.
Proof. unfold year_days. case_match; lia. Qed.

Lemma year_start_add y n : 0 <= n -> year_start y + 365 * n <= year_start (y + n).
Proof.
  intros Hn. pattern n. apply natlike_ind; [rewrite (Z.add_0_r y); lia| |done].
  intros k Hk IH. replace (y + Z.succ k) with (y + k + 1) by lia. rewrite year_start_succ.
  pose proof (year_days_range (y + k)). lia.
Qed.

Lemma add_years_sum n y acc :
  0 <= acc -> acc + year_start (y + Z.of_nat n) - year_start y < 2 ^ 32 ->
  add_years n y acc = acc + year_start (y + Z.of_nat n) - year_start y.
Proof.
  revert y acc. induction n as [|n IH]; intros y acc Ha Hb; cbn [add_years].
  - rewrite Z.add_0_r. lia.
  - rewrite Nat2Z.inj_succ in *. replace (y + Z.succ (Z.of_nat n)) with (y + 1 + Z.of_nat n) in * by lia.
    pose proof (year_start_succ y). pose proof (year_days_range y).
    pose proof (year_start_add (y + 1) (Z.of_nat n) ltac:(lia)).
    rewrite u32_small by lia. rewrite IH by lia. lia.
Qed.

Lemma find_year_exact fuel y y' d :
  y <= y' -> y' - y < Z.of_nat fuel -> 0 <= d < year_days y' ->
  find_year fuel y (year_start y' - year_start y + d) = Some (y', d).
Proof.
  revert y. induction fuel as [|fuel IH]; intros y Hy Hf Hd; [lia|]. cbn [find_year].
  destruct (decide (y = y')) as [->|Hne].
  - rewrite (proj2 (Z.ltb_lt _ _)) by lia. do 2 f_equal. lia.
  - pose proof (year_start_succ y). pose proof (year_start_add (y + 1) (y' - (y + 1)) ltac:(lia)) as Hm.
    replace (y + 1 + (y' - (y + 1))) with y' in Hm by lia.
    rewrite (proj2 (Z.ltb_ge _ _)) by lia.
    replace (year_start y' - year_start y + d - year_days y) with (year_start y' - year_start (y + 1) + d) by lia.
    apply IH; lia.
Qed.

(** The year a day falls in. *)
Lemma year_of_day y d fuel :
  0 <= d -> d < year_start (y + Z.of_nat fuel) - year_start y ->
  exists y' d', y <= y' < y + Z.of_nat fuel /\ 0 <= d' < year_days y' /\ d = year_start y' - year_start y + d'.
Proof.
  revert y d. induction fuel as [|fuel IH]; intros y d Hd Hb; [rewrite Z.add_0_r in Hb; lia|].
  destruct (decide (d < year_days y)); [exists y, d; lia|].
  pose proof (year_start_succ y). destruct (IH (y + 1) (d - year_days y)) as (y' & d' & ? & ? & ?); [lia| |exists y', d'; lia].
  replace (y + 1 + Z.of_nat fuel) with (y + Z.of_nat (S fuel)) by lia. lia.
Qed.

(** Days from the start of the year to the start of month [m] (from 0). *)
Definition month_start (y m : Z) : Z := nth (Z.to_nat m) days_before_month 0 + (if (2 <=? m) && is_leap_year y then 1 else 0).

Lemma month_cases (P : Z -> Prop) :
  P 0 -> P 1 -> P 2 -> P 3 -> P 4 -> P 5 -> P 6 -> P 7 -> P 8 -> P 9 -> P 10 -> P 11 -> forall m, 0 <= m < 12 -> P m.
Proof.
  intros. assert (m = 0 \/ m = 1 \/ m = 2 \/ m = 3 \/ m = 4 \/ m = 5 \/ m = 6 \/ m = 7 \/ m = 8 \/ m = 9 \/ m = 10 \/ m = 11) by lia.
  naive_solver.
Qed.

Lemma month_start_succ y m : 0 <= m < 12 ->
  (if m =? 11 then year_days y else month_start y (m + 1)) = month_start y m + month_length y m.
Proof.
  revert m. unfold month_start, month_length, year_days.
  apply month_cases; destruct (is_leap_year y); reflexivity.
Qed.

Lemma month_length_pos y m : 0 <= m < 12 -> 28 <= month_length y m <= 31.
Proof. revert m. unfold month_length. apply month_cases; destruct (is_leap_year y); vm_compute; intuition discriminate. Qed.

Lemma month_start_mono y m m' : 0 <= m < m' -> m' < 12 -> month_start y m + month_length y m <= month_start y m'.
Proof.
  intros Hm Hm'. replace m' with (m + 1 + (m' - m - 1)) in * by lia. assert (0 <= m' - m - 1) as Hk by lia.
  revert Hm Hm'. generalize (m' - m - 1) Hk. intros k Hk0. clear m' Hk. pattern k. apply natlike_ind; [|clear k Hk0|done].
  - intros. pose proof (month_start_succ y m ltac:(lia)) as E. destruct (Z.eqb_spec m 11); [lia|]. rewrite Z.add_0_r. lia.
  - intros k Hk IH Hm Hm'. pose proof (month_start_succ y (m + 1 + k) ltac:(lia)) as E.
    destruct (Z.eqb_spec (m + 1 + k) 11); [lia|]. replace (m + 1 + Z.succ k) with (m + 1 + k + 1) by lia. rewrite E.
    pose proof (month_length_pos y (m + 1 + k) ltac:(lia)). specialize (IH ltac:(lia) ltac:(lia)). lia.
Qed.

Lemma find_month_exact fuel y m m' d :
  0 <= m <= m' -> m' < 12 -> m' - m < Z.of_nat fuel -> 0 <= d < month_length y m' ->
  find_month fuel y m (month_start y m' - month_start y m + d) = Some (m', d).
Proof.
  revert m. induction fuel as [|fuel IH]; intros m Hm Hm' Hf Hd; [lia|]. cbn [find_month].
  destruct (decide (m = m')) as [->|Hne].
  - rewrite (proj2 (Z.ltb_lt _ _)) by lia. do 2 f_equal. lia.
  - pose proof (month_start_mono y m m' ltac:(lia) Hm'). rewrite (proj2 (Z.ltb_ge _ _)) by lia.
    pose proof (month_start_succ y m ltac:(lia)) as E. destruct (Z.eqb_spec m 11); [lia|].
    replace (month_start y m' - month_start y m + d - month_length y m) with (month_start y m' - month_start y (m + 1) + d) by lia.
    apply IH; lia.
Qed.

Lemma month_of_day y d : 0 <= d < year_days y ->
  exists m d', 0 <= m < 12 /\ 0 <= d' < month_length y m /\ d = month_start y m + d'.
Proof.
  intros Hd. assert (forall k : nat, (k <= 12)%nat -> d < (if (Z.of_nat k =? 12) then year_days y else month_start y (Z.of_nat k)) ->
    exists m d', 0 <= m < 12 /\ 0 <= d' < month_length y m /\ d = month_start y m + d') as H.
  { induction k as [|k IH]; intros Hk Hb; [change (month_start y (Z.of_nat 0)) with (0 + 0) in Hb; simpl in Hb; lia|].
    pose proof (month_start_succ y (Z.of_nat k) ltac:(lia)) as E.
    destruct (decide (d < month_start y (Z.of_nat k))).
    { apply IH; [lia|]. destruct (Z.eqb_spec (Z.of_nat k) 12); lia. }
    exists (Z.of_nat k), (d - month_start y (Z.of_nat k)). split_and!; try lia.
    destruct (Z.eqb_spec (Z.of_nat k) 11), (Z.eqb_spec (Z.of_nat (S k)) 12); try lia.
    replace (Z.of_nat k + 1) with (Z.of_nat (S k)) in E by lia. lia. }
  apply (H 12%nat); [lia|]. simpl. lia.
Qed.

(** A date of the calendar, and its number of seconds since 1970. *)
Record is_date (t : rtc_time) : Prop := {
  date_year : 1970 <= year t;
  date_month : 1 <= month t <= 12;
  date_day : 1 <= day t <= month_length (year t) (month t - 1);
  date_hour : 0 <= hour t <= 23;
  date_minute : 0 <= minute t <= 59;
  date_second : 0 <= second t <= 59
}.
Definition epoch_of (t : rtc_time) : Z :=
  (year_start (year t) + month_start (year t) (month t - 1) + day t - 1) * 86400 + hour t * 3600 + minute t * 60 + second t.

Lemma year_start_1970 : year_start 1970 = 0.
Proof. reflexivity. Qed.
Lemma month_start_range y m : 0 <= m < 12 -> 0 <= month_start y m <= 335.
Proof. revert m. unfold month_start. apply month_cases; destruct (is_leap_year y); vm_compute; intuition discriminate. Qed.

Lemma to_epoch_exact t : is_date t -> epoch_of t < 2 ^ 32 -> rtc_time_to_epoch_seconds t = epoch_of t.
Proof.
  intros [Hy Hm Hd Hh Hmi Hs] Hb. unfold rtc_time_to_epoch_seconds, epoch_of in *.
  pose proof (month_length_pos (year t) (month t - 1) ltac:(lia)).
  assert ((year t <? 1970) || (month t <? 1) || (12 <? month t) || (day t <? 1) || (31 <? day t) ||
     (23 <? hour t) || (59 <? minute t) || (59 <? second t) = false) as -> by (zbool; done).
  pose proof (year_start_add 1970 (year t - 1970) ltac:(lia)) as Hya. rewrite year_start_1970 in Hya.
  replace (1970 + (year t - 1970)) with (year t) in Hya by lia.
  pose proof (month_start_range (year t) (month t - 1) ltac:(lia)) as Hmr.
  rewrite add_years_sum; rewrite ?Z2Nat.id, ?year_start_1970 by lia; replace (1970 + (year t - 1970)) with (year t) by lia; [|lia|lia].
  assert (month_start (year t) (month t - 1) =
    nth (Z.to_nat (month t - 1)) days_before_month 0 + (if (2 <? month t) && is_leap_year (year t) then 1 else 0)) as Em.
  { unfold month_start. do 2 f_equal. f_equal. destruct (Z.leb_spec 2 (month t - 1)), (Z.ltb_spec 2 (month t)); lia. }
  assert (0 <= nth (Z.to_nat (month t - 1)) days_before_month 0 <= 334) as Hn.
  { generalize (month t - 1) (ltac:(lia) : 0 <= month t - 1 < 12). apply month_cases; vm_compute; intuition discriminate. }
  rewrite Em in *. clear Em. revert Hn Hb Hmr. generalize (nth (Z.to_nat (month t - 1)) days_before_month 0). intros k Hn Hb Hmr.
  rewrite (u32_small (_ + k)) by (case_match; lia).
  destruct ((2 <? month t) && is_leap_year (year t)).
  - rewrite (u32_small (_ + 1)) by lia. rewrite (u32_small (_ + (day t - 1))) by lia. rewrite u32_small by lia. lia.
  - rewrite (u32_small (_ + (day t - 1))) by lia. rewrite u32_small by lia. lia.
Qed.

Lemma time_of_day r : 0 <= r < 86400 ->
  r / 3600 * 3600 + r mod 3600 / 60 * 60 + r mod 60 = r /\ 0 <= r / 3600 <= 23 /\ 0 <= r mod 3600 / 60 <= 59 /\ 0 <= r mod 60 <= 59.
Proof. intros Hr. zlia. Qed.

(** The date of a time given by its parts. *)
Lemma to_calendar_exact t : is_date t -> epoch_of t < 2 ^ 32 -> rtc_epoch_to_calendar (epoch_of t) = Some t.
Proof.
  intros [Hy Hm Hd Hh Hmi Hs] Hb. unfold rtc_epoch_to_calendar. unfold epoch_of in *.
  set (D := year_start (year t) + month_start (year t) (month t - 1) + day t - 1) in *.
  set (r := hour t * 3600 + minute t * 60 + second t). assert (0 <= r < 86400) as Hr by lia.
  replace (D * 86400 + hour t * 3600 + minute t * 60 + second t) with (D * 86400 + r) in * by lia.
  rewrite Z.div_add_l, (Z.div_small r), Z.add_0_r by lia.
  replace ((D * 86400 + r) mod 86400) with r by (rewrite Z.add_comm, Z.mod_add, Z.mod_small; lia).
  pose proof (year_start_add 1970 (year t - 1970) ltac:(lia)) as Hya. rewrite year_start_1970 in Hya.
  replace (1970 + (year t - 1970)) with (year t) in Hya by lia.
  pose proof (month_start_range (year t) (month t - 1) ltac:(lia)) as Hmr.
  pose proof (month_start_succ (year t) (month t - 1) ltac:(lia)) as Hms.
  assert (month_start (year t) (month t - 1) + month_length (year t) (month t - 1) <= year_days (year t)) as Hml.
  { destruct (Z.eqb_spec (month t - 1) 11); [lia|].
    pose proof (month_start_mono (year t) (month t - 1) 11 ltac:(lia) ltac:(lia)).
    pose proof (month_start_succ (year t) 11 ltac:(lia)) as E. change (11 =? 11) with true in E. cbv iota in E.
    pose proof (month_length_pos (year t) 11 ltac:(lia)). lia. }
  replace D with (year_start (year t) - year_start 1970 + (month_start (year t) (month t - 1) + (day t - 1)))
    by (rewrite year_start_1970; unfold D; lia).
  rewrite find_year_exact by lia.
  replace (month_start (year t) (month t - 1) + (day t - 1))
    with (month_start (year t) (month t - 1) - month_start (year t) 0 + (day t - 1)) by (change (month_start (year t) 0) with 0; lia).
  rewrite find_month_exact by lia.
  pose proof (month_length_pos (year t) (month t - 1) ltac:(lia)).
  rewrite (u8_small (day t - 1 + 1)), (u8_small (month t - 1 + 1)), u16_small by lia.
  rewrite !u8_small by (unfold r; zlia).
  destruct t as [ss mm hh dd mo yy]. cbn [second minute hour day month year] in *. unfold r. f_equal. f_equal; try lia; clear -Hh Hmi Hs; zlia.
Qed.

Lemma epoch_has_date e : 0 <= e < 2 ^ 32 -> exists t, is_date t /\ epoch_of t = e.
Proof.
  intros He. destruct (year_of_day 1970 (e / 86400) 137) as (y & d & Hy & Hd & Ed); [zlia| |].
  { change (year_start (1970 + Z.of_nat 137) - year_start 1970) with 50038. zlia. }
  destruct (month_of_day y d Hd) as (m & k & Hm & Hk & Em).
  destruct (time_of_day (e mod 86400)) as (Er & ? & ? & ?); [apply Z.mod_pos_bound; lia|].
  exists (mk_time (e mod 86400 mod 60) (e mod 86400 mod 3600 / 60) (e mod 86400 / 3600) (k + 1) (m + 1) y).
  split; [split; cbn [year month day hour minute second]; replace (m + 1 - 1) with m by lia; lia|].
  unfold epoch_of. cbn [year month day hour minute second]. replace (m + 1 - 1) with m by lia.
  rewrite year_start_1970 in Ed. pose proof (Z.div_mod e 86400). lia.
Qed.

(** C40: The two conversions between a 32-bit time and a calendar date are
    inverse to each other: every time has a date, computed within the loops'
    bounds, whose time it is, and every date that fits 32 bits is the date of
    its time. *)
Theorem calendar_roundtrip :
  (forall e, 0 <= e < 2 ^ 32 -> exists t, rtc_epoch_to_calendar e = Some t /\ is_date t /\ rtc_time_to_epoch_seconds t = e) /\
  (forall t, is_date t -> epoch_of t < 2 ^ 32 -> rtc_epoch_to_calendar (rtc_time_to_epoch_seconds t) = Some t).
Proof.
  split.
  - intros e He. destruct (epoch_has_date e He) as (t & Ht & <-). exists t.
    split_and!; [apply to_calendar_exact|done|apply to_epoch_exact]; done || lia.
  - intros t Ht Hb. rewrite to_epoch_exact by done. by apply to_calendar_exact.
Qed.

Lemma calendar_roundtrip_witness :
  (exists t, rtc_epoch_to_calendar 951782400 = Some t /\ is_date t /\ rtc_time_to_epoch_seconds t = 951782400) /\
  rtc_epoch_to_calendar (rtc_time_to_epoch_seconds (mk_time 0 0 0 29 2 2000)) = Some (mk_time 0 0 0 29 2 2000).
Proof. split; [apply calendar_roundtrip; lia|apply calendar_roundtrip; [split; vm_compute; intuition discriminate|by vm_compute]]. Defined.

(** ** Reading the chip *)

(** What a chip in the format of [registerB] holds at a time of this century:
    bit 2 selects binary over BCD, bit 1 the 24-hour clock; in the 12-hour
    clock the hour runs 12, 1, ..., 11 and bit 7 marks the afternoon. *)
Definition to_bcd (x : Z) : Z := x / 10 * 16 + x mod 10.
Definition twelve (h : Z) : Z := if h mod 12 =? 0 then 12 else h mod 12.
Definition chip_holds (registerB : Z) (t : rtc_time) (reg : Z) : Z :=
  let enc x := if is_set registerB 0x04 then x else to_bcd x in
  if reg =? RTC_SECONDS then enc (second t)
  else if reg =? RTC_MINUTES then enc (minute t)
  else if reg =? RTC_HOURS then
    if is_set registerB 0x02 then enc (hour t) else Z.lor (enc (twelve (hour t))) (if 12 <=? hour t then 0x80 else 0)
  else if reg =? RTC_DAY then enc (day t)
  else if reg =? RTC_MONTH then enc (month t)
  else if reg =? RTC_YEAR then enc (year t - 2000)
  else if reg =? RTC_STATUS_B then registerB
  else 0.

(** A chip that does not change while it is read. *)
Definition frozen (regs : Z -> Z) (reg : Z) (w : unit) : Z * unit := (regs reg, w).

Lemma bcd_roundtrip x : 0 <= x < 100 -> bcd_to_binary (to_bcd x) = x.
Proof.
  intros Hx. assert (forallb (fun k => bcd_to_binary (to_bcd (Z.of_nat k)) =? Z.of_nat k) (seq 0 100) = true) as H by (by vm_compute).
  rewrite forallb_forall in H. specialize (H (Z.to_nat x)). rewrite Z2Nat.id in H by lia. apply Z.eqb_eq, H, in_seq. lia.
Qed.

(** The hour that is read back. *)
Definition hour_read (registerB h : Z) : Z := if negb (is_set registerB 0x02) && (h mod 12 =? 0) then 12 - h else h.

Lemma hour_roundtrip b2 b1 h : 0 <= h <= 23 ->
  hour (convert_fields ((if b2 : bool then 4 else 0) + (if b1 : bool then 2 else 0)) 0
    (mk_time 0 0 (chip_holds ((if b2 then 4 else 0) + (if b1 then 2 else 0)) (mk_time 0 0 h 0 0 0) RTC_HOURS) 0 0 0)) =
  hour_read ((if b2 then 4 else 0) + (if b1 then 2 else 0)) h.
Proof.
  intros Hh.
  assert (forallb (fun k =>
    hour (convert_fields ((if b2 : bool then 4 else 0) + (if b1 : bool then 2 else 0)) 0
    (mk_time 0 0 (chip_holds ((if b2 then 4 else 0) + (if b1 then 2 else 0)) (mk_time 0 0 (Z.of_nat k) 0 0 0) RTC_HOURS) 0 0 0)) =?
    hour_read ((if b2 then 4 else 0) + (if b1 then 2 else 0)) (Z.of_nat k)) (seq 0 24) = true) as H by (by destruct b2, b1; vm_compute).
  rewrite forallb_forall in H. specialize (H (Z.to_nat h)). rewrite Z2Nat.id in H by lia. apply Z.eqb_eq, H, in_seq. lia.
Qed.

(** A chip that holds a time of the years 2000 to 2099 in any of its four
    formats is read back as that time, with one exception: on the 12-hour
    clock noon is read as midnight and midnight as noon. *)
Theorem rtc_read_time_correct fuel b2 b1 t :
  (0 < fuel)%nat -> is_date t -> 2000 <= year t <= 2099 ->
  let registerB := (if b2 : bool then 4 else 0) + (if b1 : bool then 2 else 0) in
  rtc_read_time (frozen (chip_holds registerB t)) fuel tt =
  Some (mk_time (second t) (minute t) (hour_read registerB (hour t)) (day t) (month t) (year t), tt).
Proof.
  intros Hf [_ Hm Hd Hh Hmi Hs] Hy. cbn zeta. set (registerB := (if b2 then 4 else 0) + (if b1 then 2 else 0)).
  destruct fuel as [|fuel]; [lia|]. pose proof (month_length_pos (year t) (month t - 1) ltac:(lia)).
  unfold rtc_read_time, wait_update, rtc_update_in_progress, frozen. cbn [read_stable]. unfold wait_update, rtc_update_in_progress, frozen.
  assert (is_set (chip_holds registerB t RTC_STATUS_A) 0x80 = false) as -> by reflexivity. cbv iota.
  unfold read_fields, rtc_read_register. cbn [century_register]. change (negb (century_register =? 0)) with false. cbv iota.
  rewrite bool_decide_true by done. do 2 f_equal.
  pose proof (hour_roundtrip b2 b1 (hour t) Hh) as Ehour. fold registerB in Ehour.
  change (chip_holds registerB t RTC_STATUS_B) with registerB.
  change (chip_holds registerB t RTC_HOURS) with (chip_holds registerB (mk_time 0 0 (hour t) 0 0 0) RTC_HOURS).
  set (hreg := chip_holds registerB (mk_time 0 0 (hour t) 0 0 0) RTC_HOURS) in *. unfold convert_fields in *. cbn [hour] in Ehour.
  cbn [second minute hour day month year]. rewrite Ehour. change (negb (century_register =? 0)) with false. cbv iota.
  assert (is_set registerB 4 = b2) as Eb by (by unfold registerB; destruct b2, b1; vm_compute).
  change (chip_holds registerB t RTC_SECONDS) with (if is_set registerB 4 then second t else to_bcd (second t)).
  change (chip_holds registerB t RTC_MINUTES) with (if is_set registerB 4 then minute t else to_bcd (minute t)).
  change (chip_holds registerB t RTC_DAY) with (if is_set registerB 4 then day t else to_bcd (day t)).
  change (chip_holds registerB t RTC_MONTH) with (if is_set registerB 4 then month t else to_bcd (month t)).
  change (chip_holds registerB t RTC_YEAR) with (if is_set registerB 4 then year t - 2000 else to_bcd (year t - 2000)).
  rewrite Eb. destruct b2; cbn [negb]; rewrite ?bcd_roundtrip by lia; rewrite u16_small by lia; f_equal; lia.
Qed.

Lemma rtc_read_time_correct_witness :
  rtc_read_time (frozen (chip_holds (0 + 0) (mk_time 30 59 12 31 12 2024))) 1 tt =
  Some (mk_time 30 59 (hour_read (0 + 0) 12) 31 12 2024, tt).
Proof. apply (rtc_read_time_correct 1 false false (mk_time 30 59 12 31 12 2024)); [lia|split; vm_compute; intuition discriminate|vm_compute; intuition discriminate]. Defined.

Example noon_is_midnight : hour_read (0 + 0) 12 = 0 /\ hour_read (0 + 0) 0 = 12.
Proof. done. Qed.

(** ** The time zone file *)

Definition tz_name : list Z := drop 1 TZ_FILE_PATH.

Section timezone.
Context {E : Type} (serves : nat -> bool) (others : vfs E -> vfs E) (ticks : nat) (more : Z -> vtable E).
Notation drv := (kernel_drivers serves others ticks more).
Implicit Types s : vfs E.

(** The root directory is in memory, searchable, and holds the time zone
    file [c]; nothing is mounted over it. *)
Record tz_file s (c : Z) (n : vfs_node) (d : list Z) (cap : Z) : Prop := {
  tf_root : exists nr l, dir_is s (vfs_root s) nr l /\ n_ops nr = OPS_RAMFS /\ vfs_node_allows s nr VFS_MODE_IXOTH = true /\ (tz_name, c) ∈ l;
  tf_mount : vfs_mount_lookup_by_path TZ_FILE_PATH s = None;
  tf_node : nodes s !! c = Some n;
  tf_ops : n_ops n = OPS_RAMFS;
  tf_file : file_ok n d cap
}.

Lemma namei_tz fuel s c n d cap :
  (2 <= fuel)%nat -> tz_file s c n d cap -> c <> NULL /\ vfs_namei drv fuel (Some TZ_FILE_PATH) s = Ret c s.
Proof.
  intros Hf [(nr & l & Hd & Hops & Hx & Hin) Hm _ _ _]. destruct fuel as [|[|fuel]]; [lia|lia|].
  destruct (di_entry _ _ _ _ Hd _ _ Hin) as (Hc & _ & _). split; [done|].
  unfold vfs_namei. rewrite (proj2 (Z.eqb_neq _ _)) by apply Hd.
  change (vfs_normalize_path (Some [slash]) (Some TZ_FILE_PATH) VFS_PATH_MAX) with (Some TZ_FILE_PATH). cbv iota beta.
  change (bool_decide (TZ_FILE_PATH = [slash])) with false. cbv iota. rewrite Hm.
  change (bool_decide (TZ_FILE_PATH !! 0%nat = Some slash)) with true. cbv iota.
  rewrite (proj2 (Z.eqb_neq _ _)) by apply Hd.
  change (text TZ_FILE_PATH [] (in_normalized 1)) with tz_name. cbn [namei_loop].
  change (text TZ_FILE_PATH [] (in_normalized 1)) with tz_name.
  change (skip_slashes tz_name) with tz_name.
  change (take (Z.to_nat (VFS_NAME_MAX - 1)) (take_component tz_name).1) with tz_name.
  change (extend_built [] tz_name) with TZ_FILE_PATH.
  change tz_name with (116 :: drop 1 tz_name) at 1 2. cbv iota. unfold bind at 1, deref. rewrite (di_node _ _ _ _ Hd), (di_type _ _ _ _ Hd), Hops.
  cbn [op_finddir kernel_drivers]. change (op_finddir (drv OPS_RAMFS)) with (Some (@ramfs_finddir E)). cbv iota.
  unfold bind at 1. unfold allows, bind at 1, deref. rewrite (di_node _ _ _ _ Hd). unfold bind at 1, get, ret. rewrite Hx. cbn [negb].
  destruct (ramfs_finddir_correct s _ _ _ tz_name Hd) as (r & Er & Hr & _). apply (Hr c Hc) in Hin. subst r.
  unfold bind at 1. rewrite Er, (proj2 (Z.eqb_neq _ _)) by done. unfold bind at 1. rewrite Hm. reflexivity.
Qed.

(** The number read back from the padded text, whatever follows it. *)
Lemma tz_text_roundtrip h rest : -12 <= h <= 14 -> atoi (Some (c_text (tz_text h ++ rest))) = h.
Proof.
  intros Hh. assert (h = -12 \/ h = -11 \/ h = -10 \/ h = -9 \/ h = -8 \/ h = -7 \/ h = -6 \/ h = -5 \/ h = -4 \/ h = -3 \/ h = -2 \/
    h = -1 \/ h = 0 \/ h = 1 \/ h = 2 \/ h = 3 \/ h = 4 \/ h = 5 \/ h = 6 \/ h = 7 \/ h = 8 \/ h = 9 \/ h = 10 \/ h = 11 \/ h = 12 \/ h = 13 \/ h = 14) as H by lia.
  repeat destruct H as [->|H]; [vm_compute; reflexivity..|]. subst h. vm_compute. reflexivity.
Qed.

(** Storing the file keeps it where it is found. *)
Lemma tz_file_stored s c n d cap n' d' cap' a :
  tz_file s c n d cap -> (exists z i, n' = with_size z (with_impl i n)) -> file_ok n' d' cap' ->
  tz_file (set_nodes (<[c := n']> (nodes s)) (set_allocs a s)) c n' d' cap'.
Proof.
  intros [(nr & l & Hd & Hops & Hx & Hin) Hm Hn Hno _] (z & i & ->) Hok.
  destruct (di_entry _ _ _ _ Hd _ _ Hin) as (Hc & Hca & _).
  split; [|done|apply lookup_insert_eq|done|done]. exists nr, l. split_and!; [|done|done|done].
  destruct Hd as [H1 H2 H3 H4 H5 H6 H7 H8]. split; try done.
  - cbn [nodes set_nodes vfs_root set_allocs]. by rewrite lookup_insert_ne.
  - intros nm b Hb. destruct (H8 nm b Hb) as (? & ? & nb & Enb & Nnb). split_and!; [done|done|].
    cbn [nodes set_nodes]. destruct (decide (b = c)) as [->|].
    + rewrite lookup_insert_eq. eexists. split; [done|]. assert (nb = n) as -> by congruence. done.
    + rewrite lookup_insert_ne by done. by exists nb.
Qed.

(** A time zone that [rtc_tz_set_hours] reports as stored is the one
    [rtc_tz_load] finds afterwards, whatever the file held before; the only
    reason not to store a valid one is a full heap, and an offset outside
    -12..14 is refused without a change. *)
Theorem tz_set_then_load fuel h r r0 s c n d cap :
  (2 <= fuel)%nat -> tz_file s c n d cap ->
  match rtc_tz_set_hours drv fuel h r s with
  | Ret (rc, r') s' =>
      if (h <? -12) || (14 <? h) then rc = -1 /\ r' = r /\ s' = s
      else r' = with_tz h r /\
           (rc = 0 /\ rtc_tz_load drv fuel r0 s' = Ret (with_tz h r0) s' \/ rc = 1 /\ serves (allocs s) = false)
  | _ => False
  end.
Proof.
  intros Hf Ht. unfold rtc_tz_set_hours. destruct ((h <? -12) || (14 <? h)) eqn:Eh; [done|].
  assert (-12 <= h <= 14) as Hh by (bool_to_prop; lia).
  destruct (namei_tz fuel s c n d cap Hf Ht) as [Hc En]. unfold bind at 1. rewrite En, (proj2 (Z.eqb_neq _ _)) by done.
  unfold bind at 1, vfs_write. rewrite (proj2 (Z.eqb_neq _ _)) by done. unfold bind at 1, deref. rewrite (tf_node _ _ _ _ _ Ht), (tf_ops _ _ _ _ _ Ht).
  change (op_write (drv OPS_RAMFS)) with (Some (@ramfs_write E serves)). cbv iota.
  assert (zlen (tz_text h) = 4) as Hl by done.
  pose proof (ramfs_write_effect serves c n d cap 0 (tz_text h) s (tf_node _ _ _ _ _ Ht) (tf_file _ _ _ _ _ Ht) Hc ltac:(lia)) as Hw.
  rewrite Hl in Hw. specialize (Hw ltac:(lia)). cbn zeta in Hw. change (Z.min 4 (VFS_MAX_FILE - 0)) with 4 in Hw.
  destruct (ramfs_write serves c 0 (tz_text h) s) as [rc s'| |]; [|done|done].
  destruct Hw as [(-> & Es & Hw)|(-> & n' & d' & cap' & Es & Hn' & Hok & Hcon)]; unfold ret; (split; [done|]).
  { right. split; [done|]. destruct Hw as [Hw|Hw]; [by vm_compute in Hw|done]. }
  left. split; [done|]. apply (tz_file_stored s c n d cap n' d' cap' (allocs s')) in Hok as Ht'; [|done|done]. rewrite <- Es in Ht'.
  unfold rtc_tz_load. destruct (namei_tz fuel s' c n' d' cap' Hf Ht') as [_ En']. unfold bind at 1.
  rewrite En', (proj2 (Z.eqb_neq _ _)) by done. unfold bind at 1, deref. rewrite (tf_node _ _ _ _ _ Ht'), (fo_type _ _ _ Hok). cbn [negb].
  unfold bind at 1, vfs_read. rewrite (proj2 (Z.eqb_neq _ _)) by done. unfold bind at 1, deref. rewrite (tf_node _ _ _ _ _ Ht'), (tf_ops _ _ _ _ _ Ht').
  change (op_read (drv OPS_RAMFS)) with (Some (@ramfs_read E)). cbv iota.
  rewrite (ramfs_read_correct c n' d' cap' 0 15 s' (tf_node _ _ _ _ _ Ht') Hok Hc) by lia.
  rewrite Hcon. change (write_at (contents n d) (Z.to_nat 0) (take (Z.to_nat 4) (tz_text h))) with (tz_text h ++ drop 4 (contents n d)).
  set (rest := drop 4 (contents n d)). change (drop (Z.to_nat 0) (tz_text h ++ rest)) with (tz_text h ++ rest).
  change (take (Z.to_nat 15) (tz_text h ++ rest)) with (tz_text h ++ take 11 rest). cbn [fst snd].
  assert (zlen (tz_text h ++ take 11 rest) = 4 + zlen (take 11 rest)) as -> by (unfold zlen in Hl |- *; rewrite length_app; lia).
  rewrite (proj2 (Z.leb_gt _ _)) by (unfold zlen; lia).
  rewrite (take_ge (tz_text h ++ take 11 rest)) by (unfold zlen in Hl |- *; rewrite length_app; lia).
  rewrite tz_text_roundtrip by done. by rewrite Eh.
Qed.
End timezone.

(** A machine with a time zone file, empty. *)
Definition tz_machine : vfs unit := after (ramfs_create always 1 tz_name VFS_FILE) booted.
Definition tz_node : vfs_node := mk_node tz_name 1 0 2 0x1A4 0 0 2 (impl_file None 0) 1 [].
Definition no_drivers (ops : Z) : vtable unit := mk_vtable None None None None None None None None.
Lemma tz_machine_file : tz_file tz_machine 2 tz_node [] 0.
Proof.
  split; [|done|done|done|by split; auto].
  exists (mk_node [47] 2 1 1 0x1ED 0 0 2 impl_null 0 [2]), [(tz_name, 2)]. split_and!; [|done|done|apply list_elem_of_singleton; done].
  split; try done; try (by vm_compute); try (by apply NoDup_singleton).
  intros nm c [= -> ->]%list_elem_of_singleton. split_and!; [done|done|]. exists tz_node. by vm_compute.
Qed.

Lemma tz_set_then_load_witness :
  match rtc_tz_set_hours (kernel_drivers always id 0 no_drivers) 2 (-7) (mk_rtc 0 0 false 0) tz_machine with
  | Ret (rc, r') s' =>
      if (-7 <? -12) || (14 <? -7) then rc = -1 /\ r' = mk_rtc 0 0 false 0 /\ s' = tz_machine
      else r' = with_tz (-7) (mk_rtc 0 0 false 0) /\
           (rc = 0 /\ rtc_tz_load (kernel_drivers always id 0 no_drivers) 2 (mk_rtc 0 0 false 0) s' = Ret (with_tz (-7) (mk_rtc 0 0 false 0)) s' \/
            rc = 1 /\ always (allocs tz_machine) = false)
  | _ => False
  end.
Proof. apply (tz_set_then_load always id 0 no_drivers 2 (-7) (mk_rtc 0 0 false 0) (mk_rtc 0 0 false 0) tz_machine 2 tz_node [] 0); [lia|exact tz_machine_file]. Defined.

(** The file is created when there is none. *)
Example tz_creates_file :
  match rtc_tz_set_hours (kernel_drivers always id 0 no_drivers) 3 13 (mk_rtc 0 0 false 0) booted with
  | Ret (rc, _) s => rc = 0 /\ match rtc_tz_load (kernel_drivers always id 0 no_drivers) 3 (mk_rtc 0 0 false 0) s with
                              | Ret r _ => tz_offset_hours r = 13 | _ => False end
  | _ => False
  end.
Proof. vm_compute. done. Qed.
End RtcSpec.
