(* ===== verification/Random.v ===== *)
(** * The random number generator and its devices
    ([kernel/random.c], [kernel/devrandom.c])

    The processor's time-stamp counter is a parameter: [tsc w] is the value
    read and the state of the hardware after it. [Module Random] is the
    generator (a ChaCha20 block function, an entropy pool and the key),
    [Module DevRandom] the two device files over the virtual file system,
    [Module RandomSpec] the proofs: the block function on the published test
    vectors, the stream a request returns, the state invariant, and that only
    measured timing jitter can mark the generator as seeded. *)

From S2P Require Import Prelude Ring VfsPath Vfs Ramfs.

Module Random.

Definition RANDOM_SEED_THRESHOLD_BITS : Z := 128.
Definition RANDOM_RESEED_INTERVAL : Z := 64.

Record rng := mk_rng {
  g_key : list Z;
  g_pool : list Z;
  g_pool_pos : Z;
  g_bits : Z;
  g_since_reseed : Z;
  g_seeded : bool;
  g_initialized : bool
}.
Definition with_key k r := mk_rng k (g_pool r) (g_pool_pos r) (g_bits r) (g_since_reseed r) (g_seeded r) (g_initialized r).
Definition with_pool p pos r := mk_rng (g_key r) p pos (g_bits r) (g_since_reseed r) (g_seeded r) (g_initialized r).

(** ** The block function *)

Definition load32le (p : list Z) (off : nat) : Z := le_combine (take 4 (drop off p)).
Definition store32le (v : Z) : list Z := le_split 4 v.
Definition ROTL32 (v n : Z) : Z := Z.lor (u32 (Z.shiftl v n)) (Z.shiftr v (32 - n)).
Definition ROTL8 (v n : Z) : Z := u8 (Z.lor (Z.shiftl v n) (Z.shiftr (u8 v) (8 - n))).

(** One line of [QR]: [a += b, d ^= a, d = ROTL32(d, n)]. *)
Definition mix (n a b d : Z) : Z * Z :=
  let a := u32 (a + b) in (a, ROTL32 (Z.lxor d a) n).
Definition quarter (a b c d : Z) : Z * Z * Z * Z :=
  let '(a, d) := mix 16 a b d in
  let '(c, b) := mix 12 c d b in
  let '(a, d) := mix 8 a b d in
  let '(c, b) := mix 7 c d b in
  (a, b, c, d).
Definition QR (a b c d : nat) (x : list Z) : list Z :=
  let '(va, vb, vc, vd) := quarter (x !!! a) (x !!! b) (x !!! c) (x !!! d) in
  <[d := vd]> (<[c := vc]> (<[b := vb]> (<[a := va]> x))).

Definition double_round (x : list Z) : list Z :=
  let x := QR 0 4 8 12 x in
  let x := QR 1 5 9 13 x in
  let x := QR 2 6 10 14 x in
  let x := QR 3 7 11 15 x in
  let x := QR 0 5 10 15 x in
  let x := QR 1 6 11 12 x in
  let x := QR 2 7 8 13 x in
  QR 3 4 9 14 x.

Definition chacha_state (key : list Z) (counter : Z) : list Z :=
  [0x61707865; 0x3320646e; 0x79622d32; 0x6b206574] ++ map (fun i => load32le key (4 * i)) (seq 0 8) ++ [counter; 0; 0; 0].

Definition chacha20_block (key : list Z) (counter : Z) : list Z :=
  let s := chacha_state key counter in
  let x := Nat.iter 10 double_round s in
  concat (zip_with (fun xi si => store32le (u32 (xi + si))) x s).

(** ** The pool *)

Definition reseed_locked (r : rng) : rng :=
  let tmpkey := zip_with Z.lxor (g_key r) (g_pool r) in
  mk_rng (take 32 (chacha20_block tmpkey 0)) (g_pool r) (g_pool_pos r) (g_bits r) 0 (g_seeded r) (g_initialized r).

(** Folding one byte into the pool, with the rotation of its source. *)
Definition stir (rot : Z) (r : rng) (b : Z) : rng :=
  let pos := Z.land (u32 (g_pool_pos r + 1)) 31 in
  let v := ROTL8 (Z.lxor (g_pool r !!! Z.to_nat pos) b) rot in
  with_pool (<[Z.to_nat pos := u8 (v + b)]> (g_pool r)) pos r.

Definition credit (est_bits : Z) (r : rng) : rng :=
  if g_bits r <? RANDOM_SEED_THRESHOLD_BITS then
    let bits := u32 (g_bits r + est_bits) in
    if RANDOM_SEED_THRESHOLD_BITS <=? bits
    then mk_rng (g_key r) (g_pool r) (g_pool_pos r) RANDOM_SEED_THRESHOLD_BITS (g_since_reseed r) true (g_initialized r)
    else mk_rng (g_key r) (g_pool r) (g_pool_pos r) bits (g_since_reseed r) (g_seeded r) (g_initialized r)
  else r.

Definition count_mixed (est_bits : Z) (r : rng) : rng :=
  let n := u32 (g_since_reseed r + (if negb (est_bits =? 0) then est_bits else 1)) in
  let r := mk_rng (g_key r) (g_pool r) (g_pool_pos r) (g_bits r) n (g_seeded r) (g_initialized r) in
  if RANDOM_RESEED_INTERVAL <=? n then reseed_locked r else r.

Section source.
Context {W : Type} (tsc : W -> Z * W).

(** [data] is [None] for a null pointer. *)
Definition random_add_entropy (data : option (list Z)) (est_bits : Z) (r : rng) (w : W) : rng * W :=
  let '(t, w) := tsc w in
  let r := foldl (stir 3) r (le_split 8 t) in
  let r := foldl (stir 5) r (default [] data) in
  (count_mixed est_bits (credit est_bits r), w).

(** The loop after the first block: 64 bytes of every further block. *)
Fixpoint more_bytes (fuel : nat) (key : list Z) (counter n : Z) : list Z :=
  match fuel with
  | O => []
  | S fuel =>
      if 0 <? n then
        let ks := chacha20_block key counter in
        let k := if n <? 64 then n else 64 in
        take (Z.to_nat k) ks ++ more_bytes fuel key (u32 (counter + 1)) (n - k)
      else []
  end.

(** [n] bytes written to a non-null buffer. *)
Definition random_bytes (n : Z) (r : rng) : list Z * rng :=
  if n =? 0 then ([], r)
  else
    let ks := chacha20_block (g_key r) 0 in
    let newkey := take 32 ks in
    let k := if n <? 32 then n else 32 in
    let out := take (Z.to_nat k) (drop 32 ks) ++ more_bytes (S (Z.to_nat (n / 64))) (g_key r) 1 (n - k) in
    (out, with_key newkey r).

Definition random_is_seeded (r : rng) : bool := g_seeded r.

(** The harvest loop; the delay loop in it has no effect on the state. *)
Fixpoint jitter_loop (n : nat) (prev : option Z) (r : rng) (w : W) : rng * W :=
  match n with
  | O => (r, w)
  | S n =>
      if g_seeded r then (r, w)
      else
        let '(a, w) := tsc w in
        let '(b, w) := tsc w in
        let delta := u32 (b - a) in
        let c := match prev with
                 | Some p => if negb (Z.land (Z.lxor delta p) 3 =? 0) then 1 else 0
                 | None => 0
                 end in
        let '(r, w) := random_add_entropy (Some (le_split 4 delta)) c r w in
        jitter_loop n (Some delta) r w
  end.
Definition jitter_seed (r : rng) (w : W) : rng * W :=
  jitter_loop (Z.to_nat (RANDOM_SEED_THRESHOLD_BITS * 8)) None r w.

(** [wall] is the wall clock, [addrs] the bytes of the two addresses. *)
Definition random_initialize (wall : Z) (addrs : list Z) (r : rng) (w : W) : rng * W :=
  if g_initialized r then (r, w)
  else
    let key := map (fun i => u8 (u32 (0x9e * (Z.of_nat i + 1)))) (seq 0 32) in
    let r := mk_rng key (g_pool r) (g_pool_pos r) (g_bits r) (g_since_reseed r) (g_seeded r) true in
    let '(t, w) := tsc w in
    let '(r, w) := random_add_entropy (Some (le_split 8 t)) 0 r w in
    let '(r, w) := random_add_entropy (Some (le_split 4 wall)) 0 r w in
    let '(r, w) := random_add_entropy (Some addrs) 0 r w in
    jitter_seed r w.
End source.

(** The static state at boot. *)
Definition rng0 : rng := mk_rng (replicate 32 0) (replicate 32 0) 0 0 0 false false.
End Random.

Module DevRandom.
Import VfsPath Vfs Ramfs Random.

Definition DEVRANDOM_CHUNK : Z := 512.
(** The operation tables of the two devices. *)
Definition OPS_URANDOM : Z := 5.
Definition OPS_RANDOM : Z := 6.

Section devices.
(** The generator and the hardware are part of the drivers' state. *)
Context {E W : Type} (tsc : W -> Z * W) (rng_of : E -> rng * W) (set_rng : rng * W -> E -> E).
Context (serves : nat -> bool) (others : vfs E -> vfs E) (ticks : nat).
Implicit Types s : vfs E.

Definition with_ext (e : E) s : vfs E :=
  mk_vfs (vfs_root s) (vfs_mounts s) (nodes s) (pipes s) (tasks s) (current s) (next_inode s) (allocs s) e.
Definition on_rng {A} (f : rng -> W -> A * rng * W) : M E A := fun s =>
  let '(r, w) := rng_of (ext s) in
  let '(a, r, w) := f r w in
  Ret a (with_ext (set_rng (r, w) (ext s)) s).

(** The loop over chunks of at most 512 bytes. *)
Fixpoint read_chunks (fuel : nat) (left : Z) (r : rng) : list Z * rng :=
  match fuel with
  | O => ([], r)
  | S fuel =>
      if 0 <? left then
        let chunk := if DEVRANDOM_CHUNK <? left then DEVRANDOM_CHUNK else left in
        let '(out, r) := random_bytes chunk r in
        let '(rest, r) := read_chunks fuel (left - chunk) r in
        (out ++ rest, r)
      else ([], r)
  end.

Definition devrandom_read_urandom (node offset size : Z) : M E (Z * list Z) :=
  if size =? 0 then ret (0, [])
  else on_rng (fun r w => let '(out, r) := read_chunks (S (Z.to_nat (size / DEVRANDOM_CHUNK))) size r in ((i32 size, out), r, w)).

(** [while (!random_is_seeded()) task_sleep_ms(10);] *)
Fixpoint wait_seeded (fuel : nat) : M E unit := fun s =>
  if random_is_seeded (rng_of (ext s)).1 then Ret tt s
  else match fuel with O => Hang s | S fuel => wait_seeded fuel (others s) end.

Definition devrandom_read_random (node offset size : Z) : M E (Z * list Z) :=
  if size =? 0 then ret (0, [])
  else wait_seeded ticks;;; devrandom_read_urandom node offset size.

Fixpoint write_chunks (fuel : nat) (buf : list Z) (r : rng) (w : W) : rng * W :=
  match fuel with
  | O => (r, w)
  | S fuel =>
      match buf with
      | [] => (r, w)
      | _ =>
          let '(r, w) := random_add_entropy tsc (Some (take (Z.to_nat DEVRANDOM_CHUNK) buf)) 0 r w in
          write_chunks fuel (drop (Z.to_nat DEVRANDOM_CHUNK) buf) r w
      end
  end.

Definition devrandom_write (node offset : Z) (buf : list Z) : M E Z :=
  on_rng (fun r w => let '(r, w) := write_chunks (length buf) buf r w in (i32 (zlen buf), r, w)).

(** The operation table of a node of the in-memory file system with [read]
    and [write] replaced. *)
Definition dev_vtable (read : Z -> Z -> Z -> M E (Z * list Z)) : vtable E :=
  let v := ramfs_vtable serves in
  mk_vtable (Some read) (Some devrandom_write) (op_open v) (op_close v) (op_readdir v) (op_finddir v) (op_create v) (op_unlink v).
Definition dev_drivers (more : Z -> vtable E) (ops : Z) : vtable E :=
  if ops =? OPS_URANDOM then dev_vtable devrandom_read_urandom
  else if ops =? OPS_RANDOM then dev_vtable devrandom_read_random
  else more ops.

Section init.
Context (drivers : Z -> vtable E).

Definition to_device (ops : Z) (n : vfs_node) : vfs_node :=
  mk_node (n_name n) (n_type n) 0 (n_inode n) (n_mode n) (n_uid n) (n_gid n) ops impl_null (n_parent n) (n_children n).

Definition make_dev (dev : Z) (name : list Z) (ops : Z) : M E unit :=
  let! rc := vfs_create drivers dev name VFS_FILE in
  if rc <? 0 then ret tt
  else
    let! a := vfs_finddir drivers dev name in
    if a =? NULL then ret tt
    else let! n := deref a in put_node a (to_device ops n).

Definition dev_name : list Z := [100; 101; 118]. (* "dev" *)
Definition urandom_name : list Z := [117; 114; 97; 110; 100; 111; 109]. (* "urandom" *)
Definition random_name : list Z := [114; 97; 110; 100; 111; 109]. (* "random" *)

Definition devrandom_initialize : M E unit :=
  let! s := get in
  let root := vfs_get_root s in
  if root =? NULL then ret tt
  else
    let! _ := vfs_create drivers root dev_name VFS_DIRECTORY in
    let! dev := vfs_finddir drivers root dev_name in
    if dev =? NULL then ret tt
    else
      make_dev dev urandom_name OPS_URANDOM;;;
      make_dev dev random_name OPS_RANDOM.
End init.
End devices.
End DevRandom.

Module RandomSpec.
Import VfsPath Vfs Ramfs Random DevRandom.

(** ** The block function *)

(** The first and third test vectors of RFC 7539, appendix A.1. *)
Example chacha20_vectors :
  chacha20_block (replicate 32 0) 0 =
    [118; 184; 224; 173; 160; 241; 61; 144; 64; 93; 106; 229; 83; 134; 189; 40; 189; 210; 25; 184; 160; 141; 237; 26; 168; 54; 239; 204;
     139; 119; 13; 199; 218; 65; 89; 124; 81; 87; 72; 141; 119; 36; 224; 63; 184; 216; 74; 55; 106; 67; 184; 244; 21; 24; 161; 28; 195; 135;
     182; 105; 178; 238; 101; 134] /\
  chacha20_block (replicate 31 0 ++ [1]) 1 =
    [58; 235; 82; 36; 236; 248; 73; 146; 155; 157; 130; 141; 177; 206; 212; 221; 131; 32; 37; 232; 1; 139; 129; 96; 184; 34; 132; 243; 201;
     73; 170; 90; 142; 202; 0; 187; 180; 167; 59; 218; 209; 146; 181; 196; 47; 115; 242; 253; 78; 39; 54; 68; 200; 179; 97; 37; 166; 74; 221;
     235; 0; 108; 19; 160].
Proof. split; vm_compute; reflexivity. Qed.

Lemma length_QR a b c d x : length (QR a b c d x) = length x.
Proof. unfold QR. repeat case_match. by rewrite !length_insert. Qed.
Lemma length_double_round x : length (double_round x) = length x.
Proof. unfold double_round. by rewrite !length_QR. Qed.
Lemma length_rounds n x : length (Nat.iter n double_round x) = length x.
Proof.
  induction n as [|n IH]; [done|]. change (Nat.iter (S n) double_round x) with (double_round (Nat.iter n double_round x)).
  by rewrite length_double_round.
Qed.
Lemma length_concat_words (l : list (list Z)) : Forall (fun w => length w = 4%nat) l -> length (concat l) = (4 * length l)%nat.
Proof. induction 1 as [|w l Hw _ IH]; [done|]. simpl. rewrite length_app, IH. lia. Qed.
Lemma length_block key counter : length (chacha20_block key counter) = 64%nat.
Proof.
  unfold chacha20_block. rewrite length_concat_words.
  - rewrite length_zip_with, length_rounds. unfold chacha_state. rewrite !length_app, length_map, length_seq. done.
  - apply Forall_lookup. intros i w Hi. apply lookup_zip_with_Some in Hi as (? & ? & -> & _). apply length_le_split.
Qed.
Lemma block_bytes key counter : Forall is_byte (chacha20_block key counter).
Proof.
  unfold chacha20_block. apply Forall_concat, Forall_lookup. intros i w Hi.
  apply lookup_zip_with_Some in Hi as (? & ? & -> & _). apply le_split_bytes.
Qed.

(** ** The stream of a request *)

Fixpoint blocks (key : list Z) (c : Z) (n : nat) : list Z :=
  match n with O => [] | S n => chacha20_block key c ++ blocks key (c + 1) n end.
Lemma length_blocks key c n : length (blocks key c n) = (64 * n)%nat.
Proof. revert c. induction n as [|n IH]; intros c; [done|]. cbn [blocks]. rewrite length_app, length_block, IH. lia. Qed.

Lemma more_bytes_stream fuel key c n m :
  0 <= n -> n <= 64 * Z.of_nat fuel -> n <= 64 * Z.of_nat m -> 0 <= c -> c + Z.of_nat m < 2 ^ 32 ->
  more_bytes fuel key c n = take (Z.to_nat n) (blocks key c m).
Proof.
  revert c n m. induction fuel as [|fuel IH]; intros c n m Hn Hf Hm Hc Hw; cbn [more_bytes].
  { replace (Z.to_nat n) with 0%nat by lia. by rewrite take_0. }
  destruct (Z.ltb_spec 0 n); [|replace (Z.to_nat n) with 0%nat by lia; by rewrite take_0].
  destruct m as [|m]; [lia|]. cbn [blocks]. rewrite u32_small by lia.
  destruct (Z.ltb_spec n 64).
  - rewrite (IH _ _ 0%nat) by lia. replace (Z.to_nat (n - n)) with 0%nat by lia. rewrite take_0, app_nil_r.
    rewrite take_app_le by (rewrite length_block; lia). done.
  - rewrite (IH _ _ m) by lia. rewrite (take_ge (chacha20_block key c)) by (rewrite length_block; lia).
    rewrite take_app, length_block, (take_ge (chacha20_block key c)) by (rewrite length_block; lia).
    do 2 f_equal. lia.
Qed.

(** A request for [n] bytes returns the [n] bytes of the key stream that
    follow its first 32, and those 32 become the next key, so no output byte
    is a byte of the key that will produce later output; nothing else of the
    generator changes. *)
Theorem random_bytes_correct n r m :
  0 < n < 2 ^ 32 -> n + 32 <= 64 * Z.of_nat m <= 2 ^ 33 ->
  let stream := blocks (g_key r) 0 m in
  random_bytes n r = (take (Z.to_nat n) (drop 32 stream), with_key (take 32 stream) r).
Proof.
  intros Hn Hm. cbn zeta. unfold random_bytes. rewrite (proj2 (Z.eqb_neq n 0)) by lia.
  destruct m as [|m]; [lia|]. cbn [blocks]. set (b0 := chacha20_block (g_key r) 0).
  assert (length b0 = 64%nat) as Hb by apply length_block.
  rewrite (take_app_le b0) by lia. f_equal. rewrite drop_app_le by lia.
  rewrite take_app, length_drop, Hb. set (k := if n <? 32 then n else 32).
  assert (k = Z.min n 32) as Hk by (unfold k; destruct (Z.ltb_spec n 32); lia).
  rewrite (more_bytes_stream _ _ _ _ m) by zlia. f_equal.
  - destruct (decide (n < 32)); [f_equal; lia|]. rewrite !take_ge; [done|rewrite length_drop; lia..].
  - f_equal. lia.
Qed.

Lemma random_bytes_correct_witness :
  random_bytes 40 rng0 = (take 40 (drop 32 (blocks (g_key rng0) 0 2)), with_key (take 32 (blocks (g_key rng0) 0 2)) rng0).
Proof. apply (random_bytes_correct 40 rng0 2); lia. Defined.

(** ** The state invariant *)

Record rng_ok (r : rng) : Prop := {
  ro_key : length (g_key r) = 32%nat /\ Forall is_byte (g_key r);
  ro_pool : length (g_pool r) = 32%nat /\ Forall is_byte (g_pool r);
  ro_pos : 0 <= g_pool_pos r < 32;
  ro_bits : 0 <= g_bits r <= RANDOM_SEED_THRESHOLD_BITS;
  ro_seeded : g_seeded r = (g_bits r =? RANDOM_SEED_THRESHOLD_BITS);
  ro_since : 0 <= g_since_reseed r < RANDOM_RESEED_INTERVAL
}.

Lemma rng0_ok : rng_ok rng0.
Proof. split; try (split; [done|by apply Forall_replicate; vm_compute]); by vm_compute. Qed.

(** What mixing keeps: everything but the pool, the key and the counter. *)
Definition same_credit (r r' : rng) : Prop := g_bits r' = g_bits r /\ g_seeded r' = g_seeded r /\ g_initialized r' = g_initialized r.

Lemma stir_ok rot r b : rng_ok r -> rng_ok (stir rot r b) /\ same_credit r (stir rot r b).
Proof.
  intros [Hk [Hpl Hpb] Hpos Hb Hs Hn]. split; [|done]. split; try done; cbn [g_pool g_pool_pos stir with_pool].
  - rewrite length_insert. split; [done|]. apply Forall_insert; [done|]. unfold is_byte. apply (u8_range _).
  - change 31 with (Z.ones 5). rewrite Z.land_ones by lia. apply Z.mod_pos_bound. lia.
Qed.
Lemma stir_all_ok rot l r : rng_ok r -> rng_ok (foldl (stir rot) r l) /\ same_credit r (foldl (stir rot) r l).
Proof.
  revert r. induction l as [|b l IH]; intros r Hr; [done|]. cbn [foldl]. destruct (stir_ok rot r b Hr) as (H1 & E1 & E2 & E3).
  destruct (IH _ H1) as (H2 & F1 & F2 & F3). split; [done|]. unfold same_credit. by rewrite F1, F2, F3.
Qed.

Lemma is_byte_take n key c : length (take n (chacha20_block key c)) = Nat.min n 64 /\ Forall is_byte (take n (chacha20_block key c)).
Proof. rewrite length_take, length_block. split; [done|]. apply Forall_take, block_bytes. Qed.

Lemma count_mixed_ok e r : rng_ok r -> rng_ok (count_mixed e r) /\ same_credit r (count_mixed e r).
Proof.
  intros [Hk Hp Hpos Hb Hs Hn]. unfold count_mixed. set (n := u32 _). pose proof (u32_range (g_since_reseed r + (if negb (e =? 0) then e else 1))) as Hr. fold n in Hr.
  destruct (Z.leb_spec RANDOM_RESEED_INTERVAL n); (split; [|done]); split; try done.
  - apply (is_byte_take 32).
  - split; cbn [g_since_reseed]; lia.
Qed.

Lemma credit_ok e r : 0 <= e <= 2 ^ 32 - RANDOM_SEED_THRESHOLD_BITS -> rng_ok r ->
  rng_ok (credit e r) /\ g_bits (credit e r) = Z.min RANDOM_SEED_THRESHOLD_BITS (g_bits r + e) /\ g_initialized (credit e r) = g_initialized r.
Proof.
  intros He [Hk Hp Hpos Hb Hs Hn]. unfold credit. destruct (Z.ltb_spec (g_bits r) RANDOM_SEED_THRESHOLD_BITS).
  - rewrite u32_small by (unfold RANDOM_SEED_THRESHOLD_BITS in *; lia).
    destruct (Z.leb_spec RANDOM_SEED_THRESHOLD_BITS (g_bits r + e)); (split_and!; [|cbn [g_bits]; lia|done]); split; try done; cbn [g_bits g_seeded]; try lia.
  - split_and!; [by split|lia|done].
Qed.

Lemma add_entropy_ok {W} (tsc : W -> Z * W) data e r w :
  0 <= e <= 2 ^ 32 - RANDOM_SEED_THRESHOLD_BITS -> rng_ok r ->
  let '(r', w') := random_add_entropy tsc data e r w in
  rng_ok r' /\ g_bits r' = Z.min RANDOM_SEED_THRESHOLD_BITS (g_bits r + e) /\ g_initialized r' = g_initialized r /\ w' = (tsc w).2.
Proof.
  intros He Hr. unfold random_add_entropy. destruct (tsc w) as [t w']. cbv beta iota zeta.
  destruct (stir_all_ok 3 (le_split 8 t) r Hr) as (H1 & E1 & _ & F1).
  destruct (stir_all_ok 5 (default [] data) _ H1) as (H2 & E2 & _ & F2).
  destruct (credit_ok e _ He H2) as (H3 & E3 & F3). destruct (count_mixed_ok e _ H3) as (H4 & E4 & _ & F4).
  split_and!; [done|by rewrite E4, E3, E2, E1|by rewrite F4, F3, F2, F1|done].
Qed.

Lemma random_bytes_ok n r : rng_ok r -> rng_ok (random_bytes n r).2 /\ same_credit r (random_bytes n r).2.
Proof.
  intros Hr. unfold random_bytes. destruct (n =? 0); [done|]. cbn [snd]. split; [|done].
  destruct Hr as [Hk Hp Hpos Hb Hs Hn]. split; try done. apply (is_byte_take 32).
Qed.

(** ** Seeding *)

(** The counter as a sequence of readings; the number of readings made. *)
Definition readings (ts : nat -> Z) (w : nat) : Z * nat := (ts w, S w).

(** The [i]-th delta of a harvest that starts at reading [w], and how many of
    the [n] deltas from the [i]-th on differ from the one before in their low
    two bits. *)
Definition delta_at (ts : nat -> Z) (w i : nat) : Z := u32 (ts (w + 3 * i + 1)%nat - ts (w + 3 * i)%nat).
Definition differs (p d : Z) : Z := if negb (Z.land (Z.lxor d p) 3 =? 0) then 1 else 0.
Fixpoint changes (ts : nat -> Z) (w i n : nat) : Z :=
  match n with
  | O => 0
  | S n => differs (delta_at ts w i) (delta_at ts w (S i)) + changes ts w (S i) n
  end.

Lemma changes_nonneg ts w i n : 0 <= changes ts w i n.
Proof. revert i. induction n as [|n IH]; intros i; simpl; [done|]. specialize (IH (S i)). unfold differs. case_match; lia. Qed.

Lemma jitter_step ts n prev r w :
  g_seeded r = false ->
  jitter_loop (readings ts) (S n) prev r w =
  let delta := u32 (ts (S w) - ts w) in
  let '(r', w') := random_add_entropy (readings ts) (Some (le_split 4 delta)) (match prev with Some p => differs p delta | None => 0 end) r (S (S w)) in
  jitter_loop (readings ts) n (Some delta) r' w'.
Proof. intros Hs. cbn [jitter_loop]. by rewrite Hs. Qed.

Lemma differs_range p d : 0 <= differs p d <= 1.
Proof. unfold differs. case_match; lia. Qed.

Lemma jitter_loop_bits ts w n i r :
  rng_ok r ->
  let r' := (jitter_loop (readings ts) n (Some (delta_at ts w i)) r (w + 3 * S i)%nat).1 in
  rng_ok r' /\ g_bits r' = Z.min RANDOM_SEED_THRESHOLD_BITS (g_bits r + changes ts w i n).
Proof.
  revert i r. induction n as [|n IH]; intros i r Hr; cbn zeta; pose proof (ro_bits _ Hr).
  { cbn [jitter_loop changes fst]. split; [done|]. lia. }
  destruct (g_seeded r) eqn:Es.
  - cbn [jitter_loop]. rewrite Es. cbn [fst]. split; [done|]. rewrite (ro_seeded _ Hr) in Es. bool_to_prop.
    pose proof (changes_nonneg ts w i (S n)). lia.
  - rewrite jitter_step by done. cbn zeta. change (u32 (ts (S (w + 3 * S i)) - ts (w + 3 * S i)%nat)) with (u32 (ts (S (w + 3 * S i)) - ts (w + 3 * S i)%nat)).
    assert (u32 (ts (S (w + 3 * S i)) - ts (w + 3 * S i)%nat) = delta_at ts w (S i)) as -> by (unfold delta_at; do 2 f_equal; f_equal; lia).
    pose proof (differs_range (delta_at ts w i) (delta_at ts w (S i))).
    pose proof (add_entropy_ok (readings ts) (Some (le_split 4 (delta_at ts w (S i)))) (differs (delta_at ts w i) (delta_at ts w (S i))) r (S (S (w + 3 * S i)))
      ltac:(unfold RANDOM_SEED_THRESHOLD_BITS; lia) Hr) as Ha.
    destruct (random_add_entropy _ _ _ _ _) as [r1 w1]. destruct Ha as (Hr1 & Eb & _ & ->).
    change (readings ts (S (S (w + 3 * S i)))).2 with (S (S (S (w + 3 * S i)))).
    replace (S (S (S (w + 3 * S i))))%nat with (w + 3 * S (S i))%nat by lia.
    destruct (IH (S i) r1 Hr1) as [H1 E1]. split; [done|]. rewrite E1, Eb. cbn [changes].
    pose proof (changes_nonneg ts w (S i) n). pose proof (ro_bits _ Hr). lia.
Qed.

(** After [random_initialize] the generator is seeded exactly when at
    least 128 of the 1024 timing samples differ in their low two bits from
    the sample before: a deterministic machine leaves it unseeded, a machine
    with jitter seeds it, and the state is well formed. *)
Theorem random_initialize_seeds ts wall addrs w :
  let n := changes ts (w + 4) 0 1023 in
  let r := (random_initialize (readings ts) wall addrs rng0 w).1 in
  rng_ok r /\ g_bits r = Z.min RANDOM_SEED_THRESHOLD_BITS n /\ random_is_seeded r = (RANDOM_SEED_THRESHOLD_BITS <=? n).
Proof.
  cbn zeta. set (n := changes ts (w + 4) 0 1023).
  assert (forall r, rng_ok r -> g_bits r = 0 ->
    rng_ok (jitter_seed (readings ts) r (w + 4)%nat).1 /\ g_bits (jitter_seed (readings ts) r (w + 4)%nat).1 = Z.min RANDOM_SEED_THRESHOLD_BITS n) as Hj.
  { intros r Hr Hb. unfold jitter_seed. change (Z.to_nat (RANDOM_SEED_THRESHOLD_BITS * 8)) with (S 1023). rewrite jitter_step by (rewrite (ro_seeded _ Hr), Hb; done).
    cbn zeta. pose proof (add_entropy_ok (readings ts) (Some (le_split 4 (u32 (ts (S (w + 4)) - ts (w + 4)%nat)))) 0 r (S (S (w + 4))) ltac:(unfold RANDOM_SEED_THRESHOLD_BITS; lia) Hr) as Ha.
    destruct (random_add_entropy _ _ _ _ _) as [r1 w1]. destruct Ha as (Hr1 & Eb & _ & ->).
    replace (u32 (ts (S (w + 4)) - ts (w + 4)%nat)) with (delta_at ts (w + 4) 0) by (unfold delta_at; do 2 f_equal; f_equal; lia).
    change (readings ts (S (S (w + 4)))).2 with (S (S (S (w + 4)))). replace (S (S (S (w + 4))))%nat with (w + 4 + 3 * 1)%nat by lia.
    destruct (jitter_loop_bits ts (w + 4) 1023 0 r1 Hr1) as [H1 E1]. split; [done|]. rewrite E1, Eb, Hb. unfold RANDOM_SEED_THRESHOLD_BITS. fold n. lia. }
  set (res := random_initialize (readings ts) wall addrs rng0 w).
  assert (rng_ok res.1 /\ g_bits res.1 = Z.min RANDOM_SEED_THRESHOLD_BITS n) as [Hr Eb].
  2: { split_and!; [done|done|]. unfold random_is_seeded. rewrite (ro_seeded _ Hr), Eb. destruct (Z.leb_spec RANDOM_SEED_THRESHOLD_BITS n); [apply Z.eqb_eq|apply Z.eqb_neq]; lia. }
  unfold res, random_initialize. change (g_initialized rng0) with false. cbv iota. change (readings ts w) with (ts w, S w). cbv beta iota zeta.
  set (r0 := mk_rng _ _ _ _ _ _ _).
  assert (rng_ok r0 /\ g_bits r0 = 0) as [H0 E0].
  { split; [|done]. split; try apply rng0_ok; try done. cbn [g_key r0]. rewrite length_map, length_seq. split; [done|].
    apply Forall_forall. intros x (? & -> & _)%list_elem_of_fmap. apply (u8_range _). }
  clearbody r0. assert (0 <= 0 <= 2 ^ 32 - RANDOM_SEED_THRESHOLD_BITS) as Hz by (unfold RANDOM_SEED_THRESHOLD_BITS; lia).
  pose proof (add_entropy_ok (readings ts) (Some (le_split 8 (ts w))) 0 r0 (S w) Hz H0) as Ha.
  destruct (random_add_entropy (readings ts) (Some (le_split 8 (ts w))) 0 r0 (S w)) as [r1 w1]. destruct Ha as (H1 & E1 & _ & ->).
  pose proof (add_entropy_ok (readings ts) (Some (le_split 4 wall)) 0 r1 (readings ts (S w)).2 Hz H1) as Ha.
  destruct (random_add_entropy (readings ts) (Some (le_split 4 wall)) 0 r1 _) as [r2 w2]. destruct Ha as (H2 & E2 & _ & ->).
  pose proof (add_entropy_ok (readings ts) (Some addrs) 0 r2 (readings ts (readings ts (S w)).2).2 Hz H2) as Ha.
  destruct (random_add_entropy (readings ts) (Some addrs) 0 r2 _) as [r3 w3]. destruct Ha as (H3 & E3 & _ & ->).
  cbn [readings snd]. replace (S (S (S (S w)))) with (w + 4)%nat by lia.
  apply (Hj r3 H3). rewrite E3, E2, E1, E0. reflexivity.
Qed.

(** A counter that advances by a constant never seeds the generator. *)
Corollary deterministic_not_seeded step wall addrs w :
  random_is_seeded (random_initialize (readings (fun i => step * Z.of_nat i)) wall addrs rng0 w).1 = false.
Proof.
  destruct (random_initialize_seeds (fun i => step * Z.of_nat i) wall addrs w) as (_ & _ & ->).
  assert (forall n i, changes (fun i => step * Z.of_nat i) (w + 4) i n = 0) as ->; [|done].
  induction n as [|n IH]; intros i; [done|]. cbn [changes]. rewrite IH. unfold differs.
  replace (delta_at (fun i => step * Z.of_nat i) (w + 4) (S i)) with (delta_at (fun i => step * Z.of_nat i) (w + 4) i); [by rewrite Z.lxor_nilpotent|].
  unfold delta_at. f_equal. lia.
Qed.

(** ** All runs *)

(** What the kernel does with the generator: interrupt handlers add entropy
    (keyboard, mouse and disk events credit one bit, the timer none), reads
    take bytes, boot initialises. *)
Inductive rng_step {W} (tsc : W -> Z * W) : rng * W -> rng * W -> Prop :=
| step_entropy data e r w : 0 <= e <= 1 -> rng_step tsc (r, w) (random_add_entropy tsc data e r w)
| step_bytes n r w : rng_step tsc (r, w) ((random_bytes n r).2, w)
| step_init wall addrs r w : rng_step tsc (r, w) (random_initialize tsc wall addrs r w).

Lemma jitter_loop_ok {W} (tsc : W -> Z * W) n prev r w : rng_ok r -> rng_ok (jitter_loop tsc n prev r w).1.
Proof.
  revert prev r w. induction n as [|n IH]; intros prev r w Hr; cbn [jitter_loop]; [done|]. destruct (g_seeded r); [done|].
  destruct (tsc w) as [a w1]. destruct (tsc w1) as [b w2]. cbv beta iota zeta.
  set (c := match prev with Some p => _ | None => 0 end). assert (0 <= c <= 1) as Hc by (unfold c; repeat case_match; lia). clearbody c.
  pose proof (add_entropy_ok tsc (Some (le_split 4 (u32 (b - a)))) c r w2 ltac:(unfold RANDOM_SEED_THRESHOLD_BITS; lia) Hr) as Ha.
  destruct (random_add_entropy _ _ _ _ _) as [r1 w3]. destruct Ha as [H1 _]. by apply IH.
Qed.

Lemma initialize_ok {W} (tsc : W -> Z * W) wall addrs r w : rng_ok r -> rng_ok (random_initialize tsc wall addrs r w).1.
Proof.
  intros Hr. unfold random_initialize. destruct (g_initialized r); [done|]. destruct (tsc w) as [t w1]. cbv beta iota zeta. set (r0 := mk_rng _ _ _ _ _ _ _).
  assert (rng_ok r0) as H0.
  { destruct Hr as [_ Hp Hpos Hb Hs Hn]. split; try done. cbn [g_key r0]. rewrite length_map, length_seq. split; [done|].
    apply Forall_forall. intros x (? & -> & _)%list_elem_of_fmap. apply (u8_range _). }
  clearbody r0. assert (0 <= 0 <= 2 ^ 32 - RANDOM_SEED_THRESHOLD_BITS) as Hz by (unfold RANDOM_SEED_THRESHOLD_BITS; lia).
  pose proof (add_entropy_ok tsc (Some (le_split 8 t)) 0 r0 w1 Hz H0) as Ha. destruct (random_add_entropy _ (Some (le_split 8 t)) _ _ _) as [r1 w2]. destruct Ha as [H1 _].
  pose proof (add_entropy_ok tsc (Some (le_split 4 wall)) 0 r1 w2 Hz H1) as Ha. destruct (random_add_entropy _ (Some (le_split 4 wall)) _ _ _) as [r2 w3]. destruct Ha as [H2 _].
  pose proof (add_entropy_ok tsc (Some addrs) 0 r2 w3 Hz H2) as Ha. destruct (random_add_entropy _ _ _ _ _) as [r3 w4]. destruct Ha as [H3 _].
  by apply jitter_loop_ok.
Qed.

(** In every state the kernel can bring the generator to, key and pool
    are 32 bytes, the pool position is in range, the entropy estimate never
    passes its threshold, and the generator counts as seeded exactly when the
    estimate has reached it. *)
Theorem rng_reachable_ok {W} (tsc : W -> Z * W) w0 r w : rtc (rng_step tsc) (rng0, w0) (r, w) -> rng_ok r.
Proof.
  intros H. change r with (r, w).1. assert (rng_ok (rng0, w0).1) as H0 by apply rng0_ok. revert H0.
  induction H as [|p q p' Hs _ IH]; [done|]. intros Hp. apply IH. destruct Hs as [data e r1 w1 He|n r1 w1|wall addrs r1 w1].
  - pose proof (add_entropy_ok tsc data e r1 w1 ltac:(unfold RANDOM_SEED_THRESHOLD_BITS; lia) Hp) as Ha. destruct (random_add_entropy _ _ _ _ _). by destruct Ha.
  - by apply random_bytes_ok.
  - by apply initialize_ok.
Qed.
Lemma rng_reachable_ok_witness : rng_ok (random_bytes 5 rng0).2.
Proof.
  apply (rng_reachable_ok (readings (fun i => Z.of_nat i)) 0%nat _ 0%nat). apply rtc_once. apply (step_bytes (readings (fun i => Z.of_nat i)) 5 rng0 0%nat).
Defined.

(** ** The devices *)

Section devices.
Context {E W : Type} (rng_of : E -> rng * W) (set_rng : rng * W -> E -> E) (others : vfs E -> vfs E).
Context (rng_set : forall p e, rng_of (set_rng p e) = p).
Implicit Types s : vfs E.

Definition state_rng s : rng := (rng_of (ext s)).1.

Lemma length_random_bytes n r : 0 <= n < 2 ^ 32 -> length (random_bytes n r).1 = Z.to_nat n.
Proof.
  intros Hn. destruct (decide (n = 0)) as [->|]; [done|].
  set (m := Z.to_nat (n / 64 + 2)). unfold random_bytes. rewrite (proj2 (Z.eqb_neq n 0)) by lia. cbn [fst].
  assert (n - (if n <? 32 then n else 32) <= 64 * Z.of_nat m) by (unfold m; destruct (Z.ltb_spec n 32); zlia).
  rewrite (more_bytes_stream _ _ _ _ m) by (unfold m; destruct (Z.ltb_spec n 32); zlia).
  rewrite length_app, !length_take, length_drop, length_block, length_blocks.
  destruct (Z.ltb_spec n 32); lia.
Qed.

Lemma read_chunks_spec fuel left r :
  rng_ok r -> 0 <= left < 2 ^ 32 -> left <= DEVRANDOM_CHUNK * Z.of_nat fuel ->
  let '(out, r') := read_chunks fuel left r in zlen out = left /\ rng_ok r' /\ same_credit r r'.
Proof.
  unfold DEVRANDOM_CHUNK. revert left r. induction fuel as [|fuel IH]; intros left r Hr Hl Hf; cbn [read_chunks]; [by split; [unfold zlen; simpl; lia|]|].
  destruct (Z.ltb_spec 0 left); [|by split; [unfold zlen; simpl; lia|]].
  set (chunk := if DEVRANDOM_CHUNK <? left then DEVRANDOM_CHUNK else left).
  assert (0 < chunk <= left /\ (chunk = left \/ chunk = 512)) as Hc by (unfold chunk, DEVRANDOM_CHUNK; destruct (Z.ltb_spec 512 left); lia). clearbody chunk.
  destruct (random_bytes_ok chunk r Hr) as (H1 & E1 & E2 & E3). pose proof (length_random_bytes chunk r ltac:(lia)) as Hlen.
  destruct (random_bytes chunk r) as [out r1]. cbn [fst snd] in *. specialize (IH (left - chunk) r1 H1 ltac:(lia) ltac:(lia)).
  destruct (read_chunks fuel (left - chunk) r1) as [rest r2]. destruct IH as (Hz & H2 & F1 & F2 & F3).
  split_and!; [unfold zlen in *; rewrite length_app; lia|done|]. unfold same_credit. by rewrite F1, F2, F3.
Qed.

Lemma wait_seeded_spec ticks s :
  (forall k, (k <= ticks)%nat -> (forall j, (j < k)%nat -> g_seeded (state_rng (Nat.iter j others s)) = false) ->
     g_seeded (state_rng (Nat.iter k others s)) = true -> wait_seeded rng_of others ticks s = Ret tt (Nat.iter k others s)) /\
  ((forall j, (j <= ticks)%nat -> g_seeded (state_rng (Nat.iter j others s)) = false) ->
     wait_seeded rng_of others ticks s = Hang (Nat.iter ticks others s)).
Proof.
  revert s. induction ticks as [|ticks IH]; intros s.
  - split.
    + intros k Hk _ Hs. replace k with 0%nat in * by lia. cbn [wait_seeded]. unfold random_is_seeded. change (rng_of (ext s)).1 with (state_rng s). simpl in Hs. by rewrite Hs.
    + intros Hj. cbn [wait_seeded]. unfold random_is_seeded. change (rng_of (ext s)).1 with (state_rng s). by assert (g_seeded (state_rng s) = false) as -> by (apply (Hj 0%nat); lia).
  - destruct (IH (others s)) as [IH1 IH2]. cbn [wait_seeded]. unfold random_is_seeded. change (rng_of (ext s)).1 with (state_rng s). split.
    + intros [|k] Hk Hj Hs; [simpl in Hs; by rewrite Hs|]. assert (g_seeded (state_rng s) = false) as -> by (apply (Hj 0%nat); lia). rewrite Nat.iter_succ_r.
      apply IH1; [lia| |by rewrite <- Nat.iter_succ_r]. intros j Hjk. rewrite <- Nat.iter_succ_r. apply Hj. lia.
    + intros Hj. assert (g_seeded (state_rng s) = false) as -> by (apply (Hj 0%nat); lia). rewrite Nat.iter_succ_r. apply IH2. intros j Hjk. rewrite <- Nat.iter_succ_r. apply Hj. lia.
Qed.

(** A read of [/dev/random] waits exactly until the generator is seeded:
    when it is seeded after [k] waits the read returns the whole request,
    never an end of file, and leaves the entropy estimate as it was; while it
    is not seeded the reader stays in the wait. *)
Theorem devrandom_read_correct ticks node offset size s :
  0 < size < 2 ^ 31 ->
  let run := devrandom_read_random rng_of set_rng others ticks node offset size s in
  let seeded_at j := g_seeded (state_rng (Nat.iter j others s)) in
  (forall k, (k <= ticks)%nat -> (forall j, (j < k)%nat -> seeded_at j = false) -> seeded_at k = true ->
     rng_ok (state_rng (Nat.iter k others s)) ->
     exists out s', run = Ret (size, out) s' /\ zlen out = size /\ rng_ok (state_rng s') /\
       same_credit (state_rng (Nat.iter k others s)) (state_rng s')) /\
  ((forall j, (j <= ticks)%nat -> seeded_at j = false) -> run = Hang (Nat.iter ticks others s)).
Proof.
  intros Hsz. cbn zeta. unfold devrandom_read_random. rewrite (proj2 (Z.eqb_neq size 0)) by lia.
  destruct (wait_seeded_spec ticks s) as [H1 H2]. split.
  - intros k Hk Hj Hs Hok. unfold bind. rewrite (H1 k Hk Hj Hs). set (sk := Nat.iter k others s) in *. clearbody sk.
    unfold devrandom_read_urandom, on_rng. rewrite (proj2 (Z.eqb_neq size 0)) by lia.
    unfold state_rng in *. destruct (rng_of (ext sk)) as [r w]. cbn [fst] in *.
    assert (size <= DEVRANDOM_CHUNK * Z.of_nat (S (Z.to_nat (size / DEVRANDOM_CHUNK)))) as Hfuel.
    { unfold DEVRANDOM_CHUNK. rewrite Nat2Z.inj_succ, Z2Nat.id by (apply Z.div_pos; lia). zlia. }
    pose proof (read_chunks_spec (S (Z.to_nat (size / DEVRANDOM_CHUNK))) size r Hok ltac:(lia) Hfuel) as Hr.
    destruct (read_chunks _ size r) as [out r']. destruct Hr as (Hz & Hr' & Hc).
    assert (i32 size = size) as -> by (unfold i32; rewrite Z.mod_small; lia).
    eexists out, _. split; [reflexivity|]. cbn [ext with_ext]. rewrite rng_set. cbn [fst]. by split_and!.
  - intros Hj. unfold bind. by rewrite (H2 Hj).
Qed.

Context (tsc : W -> Z * W).
Lemma write_chunks_ok fuel buf r w : rng_ok r ->
  let '(r', w') := write_chunks tsc fuel buf r w in rng_ok r' /\ g_bits r' = g_bits r /\ g_seeded r' = g_seeded r.
Proof.
  revert buf r w. induction fuel as [|fuel IH]; intros buf r w Hr; cbn [write_chunks]; [done|]. destruct buf as [|b buf]; [done|].
  pose proof (add_entropy_ok tsc (Some (take (Z.to_nat DEVRANDOM_CHUNK) (b :: buf))) 0 r w ltac:(unfold RANDOM_SEED_THRESHOLD_BITS; lia) Hr) as Ha.
  destruct (random_add_entropy _ _ _ _ _) as [r1 w1]. destruct Ha as (H1 & E1 & _ & _).
  assert (g_bits r1 = g_bits r) as Eb by (pose proof (ro_bits _ Hr); lia).
  specialize (IH (drop (Z.to_nat DEVRANDOM_CHUNK) (b :: buf)) r1 w1 H1). destruct (write_chunks tsc fuel _ r1 w1) as [r2 w2].
  destruct IH as (H2 & F1 & F2). split_and!; [done|congruence|]. by rewrite F2, (ro_seeded _ H1), (ro_seeded _ Hr), Eb.
Qed.

(** No write to the device files, of any content or length, raises the
    entropy estimate or marks the generator as seeded; the whole buffer is
    accepted. *)
Theorem devrandom_write_no_credit node offset buf s :
  rng_ok (state_rng s) -> zlen buf < 2 ^ 31 ->
  exists s', devrandom_write tsc rng_of set_rng node offset buf s = Ret (zlen buf) s' /\
    rng_ok (state_rng s') /\ g_bits (state_rng s') = g_bits (state_rng s) /\ g_seeded (state_rng s') = g_seeded (state_rng s) /\
    nodes s' = nodes s.
Proof.
  intros Hr Hl. unfold devrandom_write, on_rng, state_rng in *. destruct (rng_of (ext s)) as [r w]. cbn [fst] in *.
  pose proof (write_chunks_ok (length buf) buf r w Hr) as Hw. destruct (write_chunks tsc (length buf) buf r w) as [r' w'].
  destruct Hw as (H1 & E1 & E2).
  assert (i32 (zlen buf) = zlen buf) as -> by (unfold i32, zlen in *; rewrite Z.mod_small; lia).
  eexists. split; [reflexivity|]. cbn [ext with_ext nodes]. rewrite rng_set. cbn [fst]. by split_and!.
Qed.
End devices.

(** A machine whose drivers' state is the generator and a counter. *)
Definition rng_machine (r : rng) : vfs (rng * nat) := mk_vfs NULL [] ∅ ∅ [] None 1 0 (r, 0%nat).
Definition seeding (s : vfs (rng * nat)) : vfs (rng * nat) :=
  with_ext (credit 128 (ext s).1, (ext s).2) s.

Lemma devrandom_read_correct_witness :
  exists out s', devrandom_read_random id (fun p _ => p) seeding 3 0 0 600 (rng_machine rng0) = Ret (600, out) s' /\ zlen out = 600 /\
    rng_ok (state_rng id s') /\ same_credit (state_rng id (Nat.iter 1 seeding (rng_machine rng0))) (state_rng id s').
Proof.
  apply (devrandom_read_correct id (fun p _ => p) seeding (fun _ _ => eq_refl) 3 0 0 600 (rng_machine rng0)); [lia|lia| |done|].
  - intros j Hj. replace j with 0%nat by lia. done.
  - apply credit_ok; [by vm_compute|apply rng0_ok].
Defined.

Lemma devrandom_write_no_credit_witness :
  exists s', devrandom_write (readings (fun i => Z.of_nat i)) id (fun p _ => p) 0 0 [1; 2; 3] (rng_machine rng0) = Ret (zlen [1; 2; 3]) s' /\
    rng_ok (state_rng id s') /\ g_bits (state_rng id s') = g_bits (state_rng id (rng_machine rng0)) /\
    g_seeded (state_rng id s') = g_seeded (state_rng id (rng_machine rng0)) /\ nodes s' = nodes (rng_machine rng0).
Proof. apply (devrandom_write_no_credit id (fun p _ => p) (fun _ _ => eq_refl) (readings (fun i => Z.of_nat i)) 0 0 [1; 2; 3] (rng_machine rng0)); [apply rng0_ok|done]. Defined.

(** At boot the two device files appear under [/dev], and a byte string read
    from [/dev/urandom] through the file system has the length asked for. *)
Definition dev_tables : Z -> vtable (rng * nat) :=
  dev_drivers (readings (fun i => Z.of_nat i)) id (fun p _ => p) RamfsSpec.always id 0
    (kernel_drivers RamfsSpec.always id 0 (fun _ => mk_vtable None None None None None None None None)).
Example urandom_reads :
  let s0 := rng_machine rng0 in
  match (ramfs_initialize RamfsSpec.always;;; devrandom_initialize dev_tables;;;
         bind (vfs_namei dev_tables 5 (Some ([47] ++ dev_name ++ [47] ++ urandom_name))) (fun node => vfs_read dev_tables node 0 100)) s0 with
  | Ret (rc, out) s => rc = 100 /\ length out = 100%nat /\ g_key (ext s).1 <> g_key rng0
  | _ => False
  end.
Proof. vm_compute. split_and!; done. Qed.
End RandomSpec.
