(* ===== verification/Task.v ===== *)
(** * Tasks: scheduling, signals, memory regions ([kernel/task.c],
    [kernel/signal.c]), and the gates of [kernel/syscall.c] and
    [kernel/interrupt.c] around them

    The task table is the array [g_tasks] of the source with its count, its
    slots past the count keeping their old contents; a [task_t] pointer is an
    index into it. What the file calls of the rest of the kernel (heap, file
    nodes, frames, address spaces, drivers) is the interface [Env]. A call of
    [task_yield] is what the source makes it, a software timer interrupt: a
    [scheduler_tick]. [do_switch] changes which task runs; the operations are
    translated up to the point where they give up the processor, and
    [task_waitpid] takes what happens meanwhile as an argument. *)

From S2P Require Import Prelude Ring VfsPath Vfs Libc.

Module Task.
Import Stdio.

(** ** Constants *)

Definition TASK_MAX : Z := 32.
Definition TASK_NAME_LEN : Z := 16.
Definition TASK_DEFAULT_QUANTUM : Z := 5.
Definition TASK_WAIT_NOHANG : Z := 1.
Definition TASK_FD_CLOEXEC : Z := 1.
Definition TASK_MAX_FDS : nat := 64.
Definition TASK_ELF_LAZY_MAX : Z := 16.
Definition TASK_MMAP_MAX : nat := 32.
Definition TASK_SHM_MAX_OBJECTS : nat := 16.
Definition TASK_SHM_MAX_PAGES : nat := 64.
Definition TASK_MMAP_BACKING_ANON : Z := 0.
Definition TASK_MMAP_BACKING_FILE : Z := 1.
Definition TASK_MMAP_BACKING_SHM : Z := 2.
Definition DEFAULT_STACK_SIZE : Z := 16 * 1024.
Definition TASK_MMAP_BASE : Z := 0x90000000.
Definition TASK_MMAP_LIMIT : Z := 0xB0000000.
Definition TASK_WAIT_KEYBOARD : Z := -2.
Definition VFS_PATH_MAX : Z := 256.
Definition VFS_O_RDONLY : Z := 0.
Definition VFS_FILE : Z := 1.
Definition MMAP_MAP_SHARED : Z := 0x01.
Definition MMAP_MAP_PRIVATE : Z := 0x02.
Definition MMAP_MAP_FIXED : Z := 0x10.
Definition MMAP_MAP_ANONYMOUS : Z := 0x20.
Definition MMAP_MAP_SHM : Z := 0x40.
Definition SHM_OPEN_CREATE : Z := 0x1.
Definition SHM_OPEN_EXCL : Z := 0x2.

Definition KSIG_MAX : Z := 31.
Definition KSIGINT : Z := 2.
Definition KSIGKILL : Z := 9.
Definition KSIGTERM : Z := 15.
Definition KSIGCHLD : Z := 17.
Definition KSIG_DFL : Z := 0.
Definition KSIG_IGN : Z := 1.
Definition KSIG_BIT (sig : Z) : Z := Z.shiftl 1 (sig - 1).

(** ** Data *)

Inductive task_state := TASK_READY | TASK_RUNNING | TASK_BLOCKED | TASK_DEAD.
#[global] Instance task_state_eq_dec : EqDecision task_state.
Proof. solve_decision. Defined.

Record registers := mk_regs { gprs : list Z; int_no : Z; err_code : Z; eip : Z; cs : Z; eflags : Z; useresp : Z; ss : Z }.
Record fork_frame_t := mk_frame { fr_eip : Z; fr_esp : Z; fr_eflags : Z; fr_gprs : list Z }.
Record ksigaction := mk_sa { sa_handler : Z; sa_flags : Z; sa_mask : Z; sa_restorer : Z }.

Record task_elf_lazy_region := mk_elf_region {
  el_start : Z; el_end : Z; el_file_start : Z; el_file_end : Z; el_file_offset : Z; el_flags : Z; el_in_use : bool }.
Record task_mmap_region := mk_region {
  rg_start : Z; rg_end : Z; rg_prot : Z; rg_flags : Z; rg_backing : Z; rg_file_offset : Z; rg_shm_id : Z; rg_file_node : Z; rg_in_use : bool }.
Record shm_object := mk_shm {
  sh_key : Z; sh_size : Z; sh_page_count : Z; sh_refs : Z; sh_used : bool; sh_unlinked : bool; sh_frames : list Z }.
Record syscall_mmap_args := mk_mmap_args { ma_addr : Z; ma_length : Z; ma_prot : Z; ma_flags : Z; ma_fd : Z; ma_offset : Z }.

(** The fields of [task_t], in the groups of its comments. *)
Record slice_state := mk_slice { quantum : Z; ticks_left : Z; wake_tick : Z; wait_task_id : Z }.
Record ending := mk_ending { exit_status : Z; term_signal : Z; wait_collected : bool }.
Record signals := mk_signals {
  pending_signals : Z; ignored_signals : Z; signal_handlers : list Z; signal_restorers : list Z;
  signal_in_handler : bool; signal_active : Z; signal_saved_regs : registers }.
Record job := mk_job { sid : Z; pgid : Z; uid : Z; gid : Z; cwd : list Z }.
(** [elf_backing]: the block's address and its bytes. *)
Record elf_lazy := mk_elf { elf_backing : option (Z * list Z); elf_backing_size : Z; elf_region_count : Z; elf_regions : list task_elf_lazy_region }.
Record task := mk_task {
  id : Z;
  parent_id : Z;
  tstate : task_state;
  tname : list Z;
  ctx_esp : Z;
  kstack_base : Z;
  kstack_size : Z;
  mm_cr3 : Z;
  tslice : slice_state;
  tending : ending;
  tsignals : signals;
  tjob : job;
  tfds : list Vfs.task_fd;
  telf : elf_lazy;
  mmap_regions : list task_mmap_region;
  fork_frame : fork_frame_t;
  fork_resume_user : bool
}.

Definition no_region : task_mmap_region := mk_region 0 0 0 0 TASK_MMAP_BACKING_ANON 0 0 0 false.
Definition no_elf_region : task_elf_lazy_region := mk_elf_region 0 0 0 0 0 0 false.
Definition no_shm : shm_object := mk_shm 0 0 0 0 false false (replicate TASK_SHM_MAX_PAGES 0).
Definition no_regs : registers := mk_regs (replicate 9 0) 0 0 0 0 0 0 0.
Definition no_frame : fork_frame_t := mk_frame 0 0 0 (replicate 6 0).
Definition signal_table : list Z := replicate (Z.to_nat (KSIG_MAX + 1)) KSIG_DFL.
Definition fresh_signals (saved : registers) : signals := mk_signals 0 0 signal_table (replicate (Z.to_nat (KSIG_MAX + 1)) 0) false 0 saved.
Definition no_elf : elf_lazy := mk_elf None 0 0 (replicate (Z.to_nat TASK_ELF_LAZY_MAX) no_elf_region).
Definition no_task : task :=
  mk_task 0 0 TASK_READY [] 0 0 0 0 (mk_slice 0 0 0 0) (mk_ending 0 0 false) (fresh_signals no_regs) (mk_job 0 0 0 0 [])
    (replicate TASK_MAX_FDS Vfs.no_fd) no_elf (replicate TASK_MMAP_MAX no_region) no_frame false.
#[global] Instance task_inhabited : Inhabited task := populate no_task.
#[global] Instance region_inhabited : Inhabited task_mmap_region := populate no_region.
#[global] Instance shm_inhabited : Inhabited shm_object := populate no_shm.

(** Field updates. *)
Definition with_state st t := mk_task (id t) (parent_id t) st (tname t) (ctx_esp t) (kstack_base t) (kstack_size t) (mm_cr3 t) (tslice t) (tending t) (tsignals t) (tjob t) (tfds t) (telf t) (mmap_regions t) (fork_frame t) (fork_resume_user t).
Definition with_parent p t := mk_task (id t) p (tstate t) (tname t) (ctx_esp t) (kstack_base t) (kstack_size t) (mm_cr3 t) (tslice t) (tending t) (tsignals t) (tjob t) (tfds t) (telf t) (mmap_regions t) (fork_frame t) (fork_resume_user t).
Definition with_name n t := mk_task (id t) (parent_id t) (tstate t) n (ctx_esp t) (kstack_base t) (kstack_size t) (mm_cr3 t) (tslice t) (tending t) (tsignals t) (tjob t) (tfds t) (telf t) (mmap_regions t) (fork_frame t) (fork_resume_user t).
Definition with_stack b z e t := mk_task (id t) (parent_id t) (tstate t) (tname t) e b z (mm_cr3 t) (tslice t) (tending t) (tsignals t) (tjob t) (tfds t) (telf t) (mmap_regions t) (fork_frame t) (fork_resume_user t).
Definition with_mm c t := mk_task (id t) (parent_id t) (tstate t) (tname t) (ctx_esp t) (kstack_base t) (kstack_size t) c (tslice t) (tending t) (tsignals t) (tjob t) (tfds t) (telf t) (mmap_regions t) (fork_frame t) (fork_resume_user t).
Definition with_slice s t := mk_task (id t) (parent_id t) (tstate t) (tname t) (ctx_esp t) (kstack_base t) (kstack_size t) (mm_cr3 t) s (tending t) (tsignals t) (tjob t) (tfds t) (telf t) (mmap_regions t) (fork_frame t) (fork_resume_user t).
Definition with_ending e t := mk_task (id t) (parent_id t) (tstate t) (tname t) (ctx_esp t) (kstack_base t) (kstack_size t) (mm_cr3 t) (tslice t) e (tsignals t) (tjob t) (tfds t) (telf t) (mmap_regions t) (fork_frame t) (fork_resume_user t).
Definition with_signals g t := mk_task (id t) (parent_id t) (tstate t) (tname t) (ctx_esp t) (kstack_base t) (kstack_size t) (mm_cr3 t) (tslice t) (tending t) g (tjob t) (tfds t) (telf t) (mmap_regions t) (fork_frame t) (fork_resume_user t).
Definition with_job j t := mk_task (id t) (parent_id t) (tstate t) (tname t) (ctx_esp t) (kstack_base t) (kstack_size t) (mm_cr3 t) (tslice t) (tending t) (tsignals t) j (tfds t) (telf t) (mmap_regions t) (fork_frame t) (fork_resume_user t).
Definition with_fds f t := mk_task (id t) (parent_id t) (tstate t) (tname t) (ctx_esp t) (kstack_base t) (kstack_size t) (mm_cr3 t) (tslice t) (tending t) (tsignals t) (tjob t) f (telf t) (mmap_regions t) (fork_frame t) (fork_resume_user t).
Definition with_elf e t := mk_task (id t) (parent_id t) (tstate t) (tname t) (ctx_esp t) (kstack_base t) (kstack_size t) (mm_cr3 t) (tslice t) (tending t) (tsignals t) (tjob t) (tfds t) e (mmap_regions t) (fork_frame t) (fork_resume_user t).
Definition with_regions r t := mk_task (id t) (parent_id t) (tstate t) (tname t) (ctx_esp t) (kstack_base t) (kstack_size t) (mm_cr3 t) (tslice t) (tending t) (tsignals t) (tjob t) (tfds t) (telf t) r (fork_frame t) (fork_resume_user t).
Definition with_fork f b t := mk_task (id t) (parent_id t) (tstate t) (tname t) (ctx_esp t) (kstack_base t) (kstack_size t) (mm_cr3 t) (tslice t) (tending t) (tsignals t) (tjob t) (tfds t) (telf t) (mmap_regions t) f b.
Definition with_ticks n t := with_slice (mk_slice (quantum (tslice t)) n (wake_tick (tslice t)) (wait_task_id (tslice t))) t.
Definition with_wait tick who t := with_slice (mk_slice (quantum (tslice t)) (ticks_left (tslice t)) tick who) t.
Definition with_pending p t :=
  let g := tsignals t in
  with_signals (mk_signals p (ignored_signals g) (signal_handlers g) (signal_restorers g) (signal_in_handler g) (signal_active g) (signal_saved_regs g)) t.
Definition collected t := with_ending (mk_ending (exit_status (tending t)) (term_signal (tending t)) true) t.

(** ** The rest of the kernel *)

Class Env (F : Type) := {
  kmalloc : Z -> F -> Z * F;
  kfree : Z -> F -> F;
  store32 : Z -> Z -> F -> F;
  vfs_open_node : Z -> Z -> F -> Z * F;
  vfs_close_node : Z -> F -> F;
  node_type : Z -> F -> Z;
  phys_alloc_frame : F -> Z * F;
  phys_free_frame : Z -> F -> F;
  zero_frame : Z -> F -> F;
  paging_current_cr3 : F -> Z;
  paging_retain_mm : Z -> F -> F;
  paging_release_mm : Z -> F -> F;
  paging_switch_mm : Z -> F -> F;
  paging_fork_current_cow : F -> option Z * F;
  paging_unmap_user_range : Z -> Z -> F -> F;
  paging_access_ok : Z -> Z -> F -> bool;
  tss_set_kernel_stack : Z -> F -> F;
  net_service_tick : F -> F;
  blockdev_pump : Z -> F -> F;
  task_trampoline : Z;
  idle_thread : Z;
  fork_child_entry : Z
}.

Record kernel (F : Type) := mk_k {
  g_tasks : list task;
  g_task_count : Z;
  g_current : Z;
  g_next_id : Z;
  g_sched_ticks : Z;
  g_shm_objects : list shm_object;
  env : F
}.
#[global] Arguments mk_k {F}.
#[global] Arguments g_tasks {F}.
#[global] Arguments g_task_count {F}.
#[global] Arguments g_current {F}.
#[global] Arguments g_next_id {F}.
#[global] Arguments g_sched_ticks {F}.
#[global] Arguments g_shm_objects {F}.
#[global] Arguments env {F}.

Section task.
Context {F : Type} `{Env F}.
Implicit Types k : kernel F.

Definition set_tasks ts n k := mk_k ts n (g_current k) (g_next_id k) (g_sched_ticks k) (g_shm_objects k) (env k).
Definition set_current c k := mk_k (g_tasks k) (g_task_count k) c (g_next_id k) (g_sched_ticks k) (g_shm_objects k) (env k).
Definition set_next_id n k := mk_k (g_tasks k) (g_task_count k) (g_current k) n (g_sched_ticks k) (g_shm_objects k) (env k).
Definition set_ticks n k := mk_k (g_tasks k) (g_task_count k) (g_current k) (g_next_id k) n (g_shm_objects k) (env k).
Definition set_shm l k := mk_k (g_tasks k) (g_task_count k) (g_current k) (g_next_id k) (g_sched_ticks k) l (env k).
Definition do_env (f : F -> F) k := mk_k (g_tasks k) (g_task_count k) (g_current k) (g_next_id k) (g_sched_ticks k) (g_shm_objects k) (f (env k)).
Definition set_env (e : F) k := do_env (fun _ => e) k.

(** Slot [i] of the table. *)
Definition slot k (i : Z) : task := g_tasks k !!! Z.to_nat i.
Definition upd_slot (i : Z) (f : task -> task) k := set_tasks (<[Z.to_nat i := f (slot k i)]> (g_tasks k)) (g_task_count k) k.

(** First index below the count with a property, or -1. *)
Fixpoint find_slot (p : task -> bool) (n : nat) (i : Z) k : Z :=
  match n with
  | O => -1
  | S n => if p (slot k i) then i else find_slot p n (i + 1) k
  end.
Definition find_task (p : task -> bool) k : Z := find_slot p (Z.to_nat (g_task_count k)) 0 k.
(** Every slot below the count. *)
Definition map_tasks (f : task -> task) k : kernel F :=
  set_tasks (map f (take (Z.to_nat (g_task_count k)) (g_tasks k)) ++ drop (Z.to_nat (g_task_count k)) (g_tasks k)) (g_task_count k) k.

(** ** Shared memory objects *)

Definition shm_table_init k := set_shm (replicate TASK_SHM_MAX_OBJECTS no_shm) k.

Fixpoint find_shm (p : shm_object -> bool) (l : list shm_object) (i : Z) : Z :=
  match l with [] => -1 | o :: l => if p o then i else find_shm p l (i + 1) end.
(** The index of the object, -1 for a null pointer. *)
Definition shm_find_by_key (key : Z) k : Z :=
  if key <=? 0 then -1 else find_shm (fun o => sh_used o && negb (sh_unlinked o) && (sh_key o =? key)) (g_shm_objects k) 0.
Definition shm_at k (i : Z) : shm_object := g_shm_objects k !!! Z.to_nat i.
Definition upd_shm (i : Z) (f : shm_object -> shm_object) k := set_shm (<[Z.to_nat i := f (shm_at k i)]> (g_shm_objects k)) k.
Definition shm_find_by_id (shm_id : Z) k : Z :=
  if shm_id <=? 0 then -1
  else
    let idx := shm_id - 1 in
    if Z.of_nat TASK_SHM_MAX_OBJECTS <=? idx then -1 else if negb (sh_used (shm_at k idx)) then -1 else idx.
Definition shm_alloc_slot k : Z := find_shm (fun o => negb (sh_used o)) (g_shm_objects k) 0.

Definition with_refs n o := mk_shm (sh_key o) (sh_size o) (sh_page_count o) n (sh_used o) (sh_unlinked o) (sh_frames o).
Definition with_unlinked b o := mk_shm (sh_key o) (sh_size o) (sh_page_count o) (sh_refs o) (sh_used o) b (sh_frames o).
Definition with_frame (i : Z) pa o := mk_shm (sh_key o) (sh_size o) (sh_page_count o) (sh_refs o) (sh_used o) (sh_unlinked o) (<[Z.to_nat i := pa]> (sh_frames o)).

Definition shm_destroy (i : Z) k : kernel F :=
  let o := shm_at k i in
  if negb (sh_used o) then k
  else
    let k := foldl (fun k pa => if negb (pa =? 0) then do_env (phys_free_frame pa) k else k) k
               (take (Z.to_nat (sh_page_count o)) (sh_frames o)) in
    upd_shm i (fun _ => no_shm) k.

Definition shm_ref (shm_id : Z) k : kernel F :=
  let i := shm_find_by_id shm_id k in
  if i <? 0 then k else upd_shm i (fun o => with_refs (u32 (sh_refs o + 1)) o) k.

Definition shm_unref (shm_id : Z) k : kernel F :=
  let i := shm_find_by_id shm_id k in
  if i <? 0 then k
  else
    let k := upd_shm i (fun o => if 0 <? sh_refs o then with_refs (sh_refs o - 1) o else o) k in
    let o := shm_at k i in
    if (sh_refs o =? 0) && sh_unlinked o then shm_destroy i k else k.

(** ** Per-task tables *)

Definition close_fd (fd : Vfs.task_fd) k : kernel F := do_env (vfs_close_node (Vfs.f_node fd)) k.

Definition task_fd_table_init (i : Z) k := upd_slot i (with_fds (replicate TASK_MAX_FDS Vfs.no_fd)) k.

(** Close the entries [p] selects and clear them. *)
Definition close_fds (p : Vfs.task_fd -> bool) (i : Z) k : kernel F :=
  let l := tfds (slot k i) in
  let k := foldl (fun k fd => if p fd then close_fd fd k else k) k l in
  upd_slot i (with_fds (map (fun fd => if p fd then Vfs.no_fd else fd) l)) k.
Definition task_fd_table_close_all (i : Z) k := close_fds Vfs.f_in_use i k.
Definition task_fd_table_close_cloexec (i : Z) k := close_fds (fun fd => Vfs.f_in_use fd && is_set (Vfs.f_fd_flags fd) TASK_FD_CLOEXEC) i k.

(** The loop of the clone: [n] entries from [j], -1 after undoing. *)
Fixpoint clone_fds (n : nat) (j : nat) (dst src : Z) k : Z * kernel F :=
  match n with
  | O => (0, k)
  | S n =>
      let fd := tfds (slot k src) !!! j in
      if negb (Vfs.f_in_use fd) then clone_fds n (S j) dst src k
      else
        let k := upd_slot dst (fun t => with_fds (<[j := fd]> (tfds t)) t) k in
        let '(rc, e) := vfs_open_node (Vfs.f_node fd) (Vfs.f_open_flags fd) (env k) in
        let k := set_env e k in
        if rc <? 0 then (-1, task_fd_table_close_all dst k) else clone_fds n (S j) dst src k
  end.
Definition task_fd_table_clone (dst src : Z) k : Z * kernel F :=
  clone_fds TASK_MAX_FDS 0 dst src (task_fd_table_init dst k).

Definition task_mmap_table_init (i : Z) k := upd_slot i (with_regions (replicate TASK_MMAP_MAX no_region)) k.

Definition is_shm (r : task_mmap_region) : bool := (rg_backing r =? TASK_MMAP_BACKING_SHM) && (0 <? rg_shm_id r).
(** What a region holds is given up. *)
Definition drop_region (r : task_mmap_region) k : kernel F :=
  let k := if negb (rg_file_node r =? 0) then do_env (vfs_close_node (rg_file_node r)) k else k in
  if is_shm r then shm_unref (rg_shm_id r) k else k.
Definition task_mmap_table_clear (i : Z) k : kernel F :=
  let l := mmap_regions (slot k i) in
  let k := foldl (fun k r => if rg_in_use r then drop_region r k else k) k l in
  upd_slot i (with_regions (map (fun r => if rg_in_use r then no_region else r) l)) k.

Fixpoint clone_regions (n : nat) (j : nat) (dst src : Z) k : Z * kernel F :=
  match n with
  | O => (0, k)
  | S n =>
      let r := mmap_regions (slot k src) !!! j in
      if negb (rg_in_use r) then clone_regions n (S j) dst src k
      else
        let k := upd_slot dst (fun t => with_regions (<[j := r]> (mmap_regions t)) t) k in
        let '(rc, k) :=
          if negb (rg_file_node r =? 0) then let '(rc, e) := vfs_open_node (rg_file_node r) VFS_O_RDONLY (env k) in (rc, set_env e k)
          else (0, k) in
        if rc <? 0 then (-1, task_mmap_table_clear dst k)
        else clone_regions n (S j) dst src (if is_shm r then shm_ref (rg_shm_id r) k else k)
  end.
Definition task_mmap_table_clone (dst src : Z) k : Z * kernel F :=
  clone_regions TASK_MMAP_MAX 0 dst src (task_mmap_table_init dst k).

Fixpoint find_region (p : task_mmap_region -> bool) (l : list task_mmap_region) (i : Z) : Z :=
  match l with [] => -1 | r :: l => if p r then i else find_region p l (i + 1) end.
Definition task_mmap_alloc_slot (i : Z) k : Z := find_region (fun r => negb (rg_in_use r)) (mmap_regions (slot k i)) 0.

Definition task_lazy_elf_init (i : Z) k := upd_slot i (with_elf no_elf) k.
Definition unuse (r : task_elf_lazy_region) : task_elf_lazy_region :=
  mk_elf_region (el_start r) (el_end r) (el_file_start r) (el_file_end r) (el_file_offset r) (el_flags r) false.
Definition task_lazy_elf_clear (i : Z) k : kernel F :=
  let e := telf (slot k i) in
  let k := match elf_backing e with Some (a, _) => do_env (kfree a) k | None => k end in
  upd_slot i (with_elf (mk_elf None 0 0 (map unuse (elf_regions e)))) k.

Definition use_region (r : task_elf_lazy_region) : task_elf_lazy_region :=
  mk_elf_region (el_start r) (el_end r) (el_file_start r) (el_file_end r) (el_file_offset r) (el_flags r) true.
(** [image]: the caller's block, [None] for a null pointer. *)
Definition task_lazy_elf_install (i : Z) (image : option (Z * list Z)) (image_size : Z) (regions : list task_elf_lazy_region)
    (region_count : Z) (adopt_image : bool) k : Z * kernel F :=
  if TASK_ELF_LAZY_MAX <? region_count then (-1, k)
  else if (0 <? image_size) && bool_decide (image = None) then (-1, k)
  else
    let '(backing, k) :=
      if 0 <? image_size then
        if adopt_image then (image, k)
        else
          let '(a, e) := kmalloc image_size (env k) in
          (if a =? 0 then None else Some (a, match image with Some (_, b) => take (Z.to_nat image_size) b | None => [] end), set_env e k)
      else (None, k) in
    if (0 <? image_size) && bool_decide (backing = None) then (-1, k)
    else
      let k := task_lazy_elf_clear i k in
      (0, upd_slot i (fun t => with_elf (mk_elf backing image_size region_count
                (map use_region (take (Z.to_nat region_count) regions) ++
                 drop (Z.to_nat region_count) (map unuse (elf_regions (telf t))))) t) k).


(** ** Choosing and finding tasks *)

Definition is_state (st : task_state) (t : task) : bool := bool_decide (tstate t = st).

(** The scan of [pick_next_ready]: slots [start + 1 + n], idle as fallback. *)
Fixpoint pick_scan (m : nat) (n start best : Z) k : Z :=
  match m with
  | O => best
  | S m =>
      let i := (start + 1 + n) mod g_task_count k in
      if negb (is_state TASK_READY (slot k i)) then pick_scan m (n + 1) start best k
      else if i =? 0 then pick_scan m (n + 1) start (if best <? 0 then 0 else best) k
      else i
  end.
Definition pick_next_ready k : Z :=
  if g_task_count k =? 0 then -1
  else pick_scan (Z.to_nat (g_task_count k)) 0 (if g_current k <? 0 then 0 else g_current k) (-1) k.

Definition alloc_kstack (size : Z) (e : F) : Z * F := kmalloc (if size =? 0 then DEFAULT_STACK_SIZE else size) e.

Definition find_task_index_by_id (pid : Z) k : Z := if pid <=? 0 then -1 else find_task (fun t => i32 (id t) =? pid) k.
Definition is_task_dead_or_missing (pid : Z) k : bool :=
  let i := find_task (fun t => i32 (id t) =? pid) k in
  if i <? 0 then true else is_state TASK_DEAD (slot k i).

Definition child_matches (pid pid_filter : Z) (t : task) : bool :=
  (parent_id t =? pid) && negb ((0 <? pid_filter) && negb (i32 (id t) =? pid_filter)).
Definition has_child_for_wait (pid pid_filter : Z) k : bool :=
  0 <=? find_task (fun t => child_matches pid pid_filter t && negb (is_state TASK_DEAD t && wait_collected (tending t))) k.
Definition find_waitable_child_index (pid pid_filter : Z) k : Z :=
  find_task (fun t => child_matches pid pid_filter t && is_state TASK_DEAD t && negb (wait_collected (tending t))) k.

Definition resolve_target_task_index (pid : Z) k : Z :=
  if g_current k <? 0 then -1 else if pid =? 0 then g_current k else find_task_index_by_id pid k.
Definition signal_is_fatal_default (sig : Z) : bool := (sig =? KSIGINT) || (sig =? KSIGTERM) || (sig =? KSIGKILL).
Definition init_task_id k : Z := if 0 <? g_task_count k then id (slot k 0) else 1.

(** ** The end of a task *)

Definition notify_parent_sigchld (pid : Z) k : kernel F :=
  let i := find_task_index_by_id (i32 pid) k in
  if i <? 0 then k else upd_slot i (fun t => with_pending (Z.lor (pending_signals (tsignals t)) (KSIG_BIT KSIGCHLD)) t) k.

Definition reparent_children (old new : Z) k : kernel F :=
  map_tasks (fun t => if parent_id t =? old then with_parent new t else t) k.

Definition release_task_mm (i : Z) k : kernel F :=
  upd_slot i (with_mm 0) (do_env (paging_release_mm (mm_cr3 (slot k i))) k).

(** The fields [mark_task_dead_index] resets. *)
Definition bury (status term_sig : Z) (t : task) : task :=
  let g := tsignals t in
  with_state TASK_DEAD
    (with_ending (mk_ending status term_sig false)
      (with_wait 0 0
        (with_signals (mk_signals 0 (ignored_signals g) (signal_handlers g) (signal_restorers g) false 0 (signal_saved_regs g)) t))).

Definition mark_task_dead_index (idx status term_sig : Z) k : kernel F :=
  if g_task_count k <=? idx then k
  else if is_state TASK_DEAD (slot k idx) then k
  else
    let dying_id := id (slot k idx) in
    let pid := parent_id (slot k idx) in
    let k := reparent_children dying_id (init_task_id k) k in
    let k := task_fd_table_close_all idx k in
    let k := task_mmap_table_clear idx k in
    let k := task_lazy_elf_clear idx k in
    let k := release_task_mm idx k in
    let k := upd_slot idx (bury status term_sig) k in
    notify_parent_sigchld pid k.

(** [g_tasks[i - 1] = g_tasks[i]] for the slots after [idx]; the last keeps
    its contents. *)
Definition shift_down (idx n : nat) (l : list task) : list task :=
  take idx l ++ take (n - 1 - idx) (drop (S idx) l) ++ drop (n - 1) l.

Definition reap_task_index (idx : Z) k : kernel F :=
  if g_task_count k <=? idx then k
  else if idx =? g_current k then k
  else if negb (is_state TASK_DEAD (slot k idx)) then k
  else
    let k := if negb (kstack_base (slot k idx) =? 0)
             then let t := slot k idx in
                  upd_slot idx (with_stack 0 (kstack_size t) (ctx_esp t)) (do_env (kfree (kstack_base t)) k)
             else k in
    let n := g_task_count k in
    let k := set_tasks (shift_down (Z.to_nat idx) (Z.to_nat n) (g_tasks k)) (if 0 <? n then n - 1 else n) k in
    if idx <? g_current k then set_current (g_current k - 1) k else k.

Definition reapable (init_id : Z) (t : task) : bool :=
  is_state TASK_DEAD t && negb (id t =? init_id) && (wait_collected (tending t) || (parent_id t =? init_id)).

(** The loop of [sweep_reapable_tasks] from [i]: it stays at an index whose
    task it removed. [None] when it does not end within the fuel. *)
Fixpoint sweep_from (fuel : nat) (i init_id : Z) k : option (kernel F) :=
  match fuel with
  | O => None
  | S fuel =>
      if g_task_count k <=? i then Some k
      else if reapable init_id (slot k i) then sweep_from fuel i init_id (reap_task_index i k)
      else sweep_from fuel (i + 1) init_id k
  end.
(** Each round removes a task or advances: 2 * 32 + 1 rounds are enough. *)
Definition sweep_reapable_tasks k : option (kernel F) := sweep_from 65 0 (init_task_id k) k.

(** ** Waking and switching *)

Definition wake_one (i : Z) k : kernel F :=
  let t := slot k i in
  let ready t := with_state TASK_READY t in
  if negb (is_state TASK_BLOCKED t) then k
  else
    let w := wait_task_id (tslice t) in
    let idx := find_task_index_by_id w k in
    if (0 <? w) && is_task_dead_or_missing w k && ((idx <? 0) || (is_state TASK_DEAD (slot k idx) && negb (wait_collected (tending (slot k idx)))))
    then upd_slot i (fun t => ready (with_wait (wake_tick (tslice t)) 0 t)) k
    else if (w =? -1) && (0 <=? find_waitable_child_index (id t) (-1) k)
    then upd_slot i (fun t => ready (with_wait (wake_tick (tslice t)) 0 t)) k
    else if negb (wake_tick (tslice t) =? 0) && (wake_tick (tslice t) <=? g_sched_ticks k)
    then upd_slot i (fun t => ready (with_wait 0 (wait_task_id (tslice t)) t)) k
    else k.
Fixpoint wake_from (n : nat) (i : Z) k : kernel F :=
  match n with O => k | S n => wake_from n (i + 1) (wake_one i k) end.
Definition wake_blocked_tasks k : kernel F := wake_from (Z.to_nat (g_task_count k)) 0 k.

Definition do_switch (prev next : Z) k : kernel F :=
  let k := if (0 <=? prev) && is_state TASK_RUNNING (slot k prev) then upd_slot prev (with_state TASK_READY) k else k in
  let k := upd_slot next (fun t => with_ticks (quantum (tslice t)) (with_state TASK_RUNNING t)) k in
  let t := slot k next in
  let k := do_env (tss_set_kernel_stack (u32 (kstack_base t + kstack_size t))) k in
  let k := do_env (paging_switch_mm (mm_cr3 t)) k in
  set_current next k.

Definition scheduler_tick k : kernel F :=
  let k := set_ticks (u64 (g_sched_ticks k + 1)) k in
  let k := do_env net_service_tick k in
  let k := do_env (blockdev_pump 1) k in
  let k := wake_blocked_tasks k in
  let running := (0 <=? g_current k) && is_state TASK_RUNNING (slot k (g_current k)) in
  let k := if running && (0 <? ticks_left (tslice (slot k (g_current k))))
           then upd_slot (g_current k) (fun t => with_ticks (ticks_left (tslice t) - 1) t) k else k in
  if running && (0 <? ticks_left (tslice (slot k (g_current k)))) then k
  else
    let next := pick_next_ready k in
    if next <? 0 then k
    else if next =? g_current k then upd_slot (g_current k) (fun t => with_ticks (quantum (tslice t)) t) k
    else do_switch (g_current k) next k.

(** [int $0x20]: the timer interrupt. *)
Definition task_yield k : kernel F := scheduler_tick k.

(** ** Creation *)

(** The [name] argument: null, a text, or the name field of a slot. *)
Inductive name_src := name_null | name_text (s : list Z) | name_of_slot (i : Z).
Definition copied_name (src : name_src) (tid : Z) k : list Z :=
  match src with
  | name_null => take (Z.to_nat (TASK_NAME_LEN - 1)) ([116; 95] ++ utoa_base tid 10 false)
  | name_text s => take (Z.to_nat (TASK_NAME_LEN - 1)) s
  | name_of_slot i => take (Z.to_nat (TASK_NAME_LEN - 1)) (tname (slot k i))
  end.

(** [*(--sp) = v] for the five words of the first frame. *)
Definition push_words (top : Z) (ws : list Z) k : kernel F :=
  (foldl (fun '(sp, k) v => (sp - 4, do_env (store32 (sp - 4) v) k)) (top, k) ws).2.

Definition task_create_named (entry stack_size q : Z) (name : name_src) k : option (Z * kernel F) :=
  if entry =? 0 then Some (-1, k)
  else
    match (if TASK_MAX <=? g_task_count k then sweep_reapable_tasks k else Some k) with
    | None => None
    | Some k =>
        if TASK_MAX <=? g_task_count k then Some (-2, k)
        else
          let i := g_task_count k in
          let tid := g_next_id k in
          let k := set_next_id (u32 (tid + 1)) k in
          let cur := slot k (g_current k) in
          let has := 0 <=? g_current k in
          let q := if 0 <? q then q else TASK_DEFAULT_QUANTUM in
          let cr3 := if has then mm_cr3 cur else paging_current_cr3 (env k) in
          let k := do_env (paging_retain_mm cr3) k in
          let j := if has then mk_job (sid (tjob cur)) (pgid (tjob cur)) (uid (tjob cur)) (gid (tjob cur)) (take (Z.to_nat (VFS_PATH_MAX - 1)) (cwd (tjob cur)))
                   else mk_job tid tid 0 0 [47] in
          let old := slot k i in
          let t := mk_task tid (if has then id cur else 0) TASK_READY (copied_name name tid k) (ctx_esp old) (kstack_base old) (kstack_size old) cr3
                     (mk_slice q q 0 0) (mk_ending 0 0 false) (fresh_signals (signal_saved_regs (tsignals old))) j
                     (replicate TASK_MAX_FDS Vfs.no_fd) no_elf (replicate TASK_MMAP_MAX no_region) no_frame false in
          let k := upd_slot i (fun _ => t) k in
          let stack_size := if stack_size =? 0 then DEFAULT_STACK_SIZE else stack_size in
          let '(stack, e) := alloc_kstack stack_size (env k) in
          let k := set_env e k in
          if stack =? 0 then Some (-3, k)
          else
            let top := Z.land (u32 (stack + stack_size)) (Z.lnot 0xF) in
            let k := push_words top [task_trampoline; 0; entry; 0; 0] k in
            let k := upd_slot i (with_stack stack stack_size (top - 20)) k in
            Some (i32 tid, set_tasks (g_tasks k) (i + 1) k)
    end.

Definition idle_name : list Z := [105; 100; 108; 101]. (* "idle" *)
Definition tasking_initialize k : option (kernel F) :=
  let k := mk_k (g_tasks k) 0 (-1) 1 0 (g_shm_objects k) (env k) in
  let k := shm_table_init k in
  match task_create_named idle_thread DEFAULT_STACK_SIZE 1 (name_text idle_name) k with
  | None => None
  | Some (_, k) => Some (upd_slot 0 (with_state TASK_RUNNING) (set_current 0 k))
  end.

(** ** Exit, fork and wait *)

(** Up to the yield: a dead task is never chosen again. *)
Definition task_exit_with_status (status : Z) k : kernel F :=
  task_yield (if 0 <=? g_current k then mark_task_dead_index (g_current k) status 0 k else k).
Definition task_exit k : kernel F := task_exit_with_status 0 k.

(** [parent] is the slot that was current at the call. *)
Definition task_fork_user (frame : fork_frame_t) k : option (Z * kernel F) :=
  if g_current k <? 0 then Some (-1, k)
  else
    let parent := g_current k in
    match task_create_named fork_child_entry (kstack_size (slot k parent)) (quantum (tslice (slot k parent))) (name_of_slot parent) k with
    | None => None
    | Some (child_id, k) =>
        if child_id <? 0 then Some (child_id, k)
        else
          let child := find_task_index_by_id child_id k in
          if child <? 0 then Some (-2, k)
          else
            let kill k := upd_slot child (with_state TASK_DEAD) k in
            let k := upd_slot child (with_parent (id (slot k parent))) k in
            let g := tsignals (slot k parent) in
            let k := upd_slot child (fun t => with_signals (mk_signals (pending_signals (tsignals t)) (ignored_signals g) (signal_handlers g)
                       (signal_restorers g) (signal_in_handler (tsignals t)) (signal_active (tsignals t)) (signal_saved_regs (tsignals t))) t) k in
            let '(cr3, e) := paging_fork_current_cow (env k) in
            let k := set_env e k in
            match cr3 with
            | None => Some (-3, kill k)
            | Some child_mm_cr3 =>
                let k := upd_slot child (with_mm child_mm_cr3) (release_task_mm child k) in
                let '(rc, k) := task_fd_table_clone child parent k in
                if rc <? 0 then Some (-4, kill (release_task_mm child k))
                else
                  let '(rc, k) := task_mmap_table_clone child parent k in
                  if rc <? 0 then Some (-5, kill (release_task_mm child (task_fd_table_close_all child k)))
                  else
                    let e := telf (slot k parent) in
                    let '(rc, k) := task_lazy_elf_install child (elf_backing e) (elf_backing_size e) (elf_regions e) (elf_region_count e) false k in
                    if rc <? 0 then Some (-6, kill (release_task_mm child (task_fd_table_close_all child (task_mmap_table_clear child k))))
                    else Some (child_id, upd_slot child (with_fork frame true) k)
            end
    end.

Inductive wait_result := wait_done (rc : Z) (status : option Z) | wait_blocks.
(** One round of the loop of [task_waitpid]; when it blocks the processor has
    been given up. *)
Definition waitpid_round (pid options parent : Z) k : wait_result * kernel F :=
  let c := find_waitable_child_index parent pid k in
  if 0 <=? c then
    let t := slot k c in
    (wait_done (i32 (id t)) (Some (i32 (exit_status (tending t)))), reap_task_index c (upd_slot c collected k))
  else if negb (has_child_for_wait parent pid k) then (wait_done (-3) None, k)
  else if is_set options TASK_WAIT_NOHANG then (wait_done 0 None, k)
  else
    let k := upd_slot (g_current k) (fun t => with_state TASK_BLOCKED (with_wait 0 (if 0 <? pid then pid else -1) t)) k in
    (wait_blocks, task_yield k).

(** [others]: what runs until this task is scheduled again. *)
Fixpoint waitpid_loop (fuel : nat) (others : kernel F -> kernel F) (pid options parent : Z) k : option (Z * option Z * kernel F) :=
  match fuel with
  | O => None
  | S fuel =>
      match waitpid_round pid options parent k with
      | (wait_done rc status, k) => Some (rc, status, k)
      | (wait_blocks, k) => waitpid_loop fuel others pid options parent (others k)
      end
  end.
Definition task_waitpid (fuel : nat) (others : kernel F -> kernel F) (pid options : Z) k : option (Z * option Z * kernel F) :=
  if g_current k <? 0 then Some (-1, None, k)
  else if (pid =? 0) || (pid <? -1) then Some (-2, None, k)
  else waitpid_loop fuel others pid options (id (slot k (g_current k))) k.

(** ** Sleeping *)

Definition task_sleep_ticks (ticks : Z) k : kernel F :=
  if ticks =? 0 then task_yield k
  else if g_current k <=? 0 then k
  else task_yield (upd_slot (g_current k) (fun t => with_state TASK_BLOCKED (with_wait (u64 (g_sched_ticks k + ticks)) 0 t)) k).
Definition task_sleep_ms (milliseconds : Z) k : kernel F :=
  let ticks := (milliseconds + 9) / 10 in
  task_sleep_ticks (if ticks =? 0 then 1 else ticks) k.
Definition task_block_on_keyboard k : Z * kernel F :=
  if g_current k <=? 0 then (-1, k)
  else (0, task_yield (upd_slot (g_current k) (fun t => with_state TASK_BLOCKED (with_wait 0 TASK_WAIT_KEYBOARD t)) k)).
Definition task_wake_keyboard_waiters k : kernel F :=
  map_tasks (fun t => if is_state TASK_BLOCKED t && (wait_task_id (tslice t) =? TASK_WAIT_KEYBOARD)
                      then with_state TASK_READY (with_wait (wake_tick (tslice t)) 0 t) else t) k.


(** ** Signals *)

Definition signal_is_supported (sig : Z) : bool := (sig =? KSIGINT) || (sig =? KSIGKILL) || (sig =? KSIGTERM) || (sig =? KSIGCHLD).
Definition signal_default_exit_status (sig : Z) : Z := u32 (128 + u32 sig).
Definition handler_of (sig : Z) (t : task) : Z := signal_handlers (tsignals t) !!! Z.to_nat sig.
(** [&= ~bit] *)
Definition clear_pending (bit : Z) (t : task) : task := with_pending (Z.land (pending_signals (tsignals t)) (Z.lnot bit)) t.
Definition raise_pending (bit : Z) (t : task) : task := with_pending (Z.lor (pending_signals (tsignals t)) bit) t.

(** [None]: the call does not return, its task has exited. *)
Definition task_send_signal (pid sig : Z) k : option Z * kernel F :=
  if negb (signal_is_supported sig) then (Some (-1), k)
  else
    let idx := find_task_index_by_id pid k in
    if idx <? 0 then (Some (-1), k)
    else if (idx =? 0) && signal_is_fatal_default sig then (Some (-2), k)
    else if is_state TASK_DEAD (slot k idx) then (Some 0, k)
    else
      let bit := KSIG_BIT sig in
      let k := upd_slot idx (raise_pending bit) k in
      let t := slot k idx in
      let disposition := if (0 <? sig) && (sig <=? KSIG_MAX) then handler_of sig t else KSIG_DFL in
      if is_set (ignored_signals (tsignals t)) bit || (disposition =? KSIG_IGN) then (Some 0, upd_slot idx (clear_pending bit) k)
      else if KSIG_IGN <? disposition then
        (Some 0, if is_state TASK_BLOCKED t then upd_slot idx (fun t => with_state TASK_READY (with_wait 0 0 t)) k else k)
      else if sig =? KSIGCHLD then (Some 0, k)
      else if negb (signal_is_fatal_default sig) then (Some 0, k)
      else
        let k := upd_slot idx (clear_pending bit) k in
        if idx =? g_current k then (None, task_exit_with_status (signal_default_exit_status sig) k)
        else (Some 0, mark_task_dead_index idx (signal_default_exit_status sig) (u32 sig) k).

Definition task_kill (pid : Z) k : option Z * kernel F := task_send_signal pid KSIGKILL k.

(** The loop over the group: whether a member was found, and the id of the
    current task when it is one. *)
Fixpoint signal_group (n : nat) (i pg sig : Z) (matched : bool) (current_member_id : Z) k : bool * Z * kernel F :=
  match n with
  | O => (matched, current_member_id, k)
  | S n =>
      let t := slot k i in
      if is_state TASK_DEAD t || negb (i32 (pgid (tjob t)) =? pg) || ((i =? 0) && signal_is_fatal_default sig)
      then signal_group n (i + 1) pg sig matched current_member_id k
      else if i =? g_current k then signal_group n (i + 1) pg sig true (i32 (id t)) k
      else signal_group n (i + 1) pg sig true current_member_id (task_send_signal (i32 (id t)) sig k).2
  end.
Definition task_send_signal_pgid (pg sig : Z) k : option Z * kernel F :=
  if negb (signal_is_supported sig) then (Some (-1), k)
  else if pg <=? 0 then (Some (-1), k)
  else
    let '(matched, cur, k) := signal_group (Z.to_nat (g_task_count k)) 0 pg sig false (-1) k in
    let '(returned, k) := if 0 <=? cur then task_send_signal cur sig k else (Some 0, k) in
    (match returned with None => None | Some _ => Some (if matched then 0 else -1) end, k).

Definition signal_send_task (pid sig : Z) k := task_send_signal pid sig k.
Definition signal_send_pgid (pg sig : Z) k := task_send_signal_pgid pg sig k.

Definition signal_can_install_handler (sig : Z) : bool := signal_is_supported sig && negb (sig =? KSIGKILL).

(** The first pending signal from [sig] on, 0 when there is none. *)
Fixpoint pick_pending (n : nat) (sig : Z) (t : task) : Z :=
  match n with
  | O => 0
  | S n => if is_set (pending_signals (tsignals t)) (KSIG_BIT sig) then sig else pick_pending n (sig + 1) t
  end.
Definition signal_pick_pending (t : task) : Z := pick_pending (Z.to_nat KSIG_MAX) 1 t.

(** The old action when it is asked for, and the result. *)
Definition signal_set_action_current (sig : Z) (act : option ksigaction) (want_old : bool) k : Z * option ksigaction * kernel F :=
  if g_current k <? 0 then (-1, None, k)
  else if negb (signal_is_supported sig) then (-1, None, k)
  else if (sig <=? 0) || (KSIG_MAX <? sig) then (-1, None, k)
  else
    let bit := KSIG_BIT sig in
    let g := tsignals (slot k (g_current k)) in
    let old := if want_old then Some (mk_sa (signal_handlers g !!! Z.to_nat sig) 0 0 (signal_restorers g !!! Z.to_nat sig)) else None in
    match act with
    | None => (0, old, k)
    | Some a =>
        if negb (signal_can_install_handler sig) then (-1, old, k)
        else
          let handler := sa_handler a in
          if (KSIG_IGN <? handler) && (sa_restorer a =? 0) then (-1, old, k)
          else
            let hs := <[Z.to_nat sig := handler]> (signal_handlers g) in
            let rs := <[Z.to_nat sig := if KSIG_IGN <? handler then sa_restorer a else 0]> (signal_restorers g) in
            let ign := if handler =? KSIG_IGN then Z.lor (ignored_signals g) bit else Z.land (ignored_signals g) (Z.lnot bit) in
            let pend := if handler =? KSIG_IGN then Z.land (pending_signals g) (Z.lnot bit) else pending_signals g in
            (0, old, upd_slot (g_current k)
               (with_signals (mk_signals pend ign hs rs (signal_in_handler g) (signal_active g) (signal_saved_regs g))) k)
    end.

Definition enter_handler (sig : Z) (regs : registers) (t : task) : task :=
  let g := tsignals t in
  with_signals (mk_signals (Z.land (pending_signals g) (Z.lnot (KSIG_BIT sig))) (ignored_signals g) (signal_handlers g) (signal_restorers g) true (u32 sig) regs) t.

Definition with_return (sp pc : Z) (r : registers) : registers :=
  mk_regs (gprs r) (int_no r) (err_code r) pc (cs r) (eflags r) sp (ss r).

Definition signal_dispatch_current (regs : registers) k : Z * registers * kernel F :=
  if g_current k <? 0 then (-1, regs, k)
  else
    let c := g_current k in
    let t := slot k c in
    if negb (Z.land (cs regs) 3 =? 3) then (0, regs, k)
    else if is_state TASK_DEAD t then (0, regs, k)
    else if signal_in_handler (tsignals t) then (0, regs, k)
    else
      let sig := signal_pick_pending t in
      if sig <=? 0 then (0, regs, k)
      else
        let bit := KSIG_BIT sig in
        let handler := handler_of sig t in
        if is_set (ignored_signals (tsignals t)) bit || (handler =? KSIG_IGN) then (1, regs, upd_slot c (clear_pending bit) k)
        else if handler <=? KSIG_IGN then
          if sig =? KSIGCHLD then (1, regs, upd_slot c (clear_pending bit) k) else (0, regs, k)
        else
          let restorer := signal_restorers (tsignals t) !!! Z.to_nat sig in
          if restorer =? 0 then (0, regs, upd_slot c (clear_pending bit) k)
          else
            let new_sp := u32 (useresp regs - 8) in
            if (useresp regs <? new_sp) || negb (paging_access_ok new_sp 8 (env k)) then (0, regs, upd_slot c (raise_pending bit) k)
            else
              let k := upd_slot c (enter_handler sig regs) k in
              let k := do_env (store32 new_sp restorer) k in
              let k := do_env (store32 (new_sp + 4) (u32 sig)) k in
              (1, with_return new_sp handler regs, k).

Definition signal_sigreturn_current (regs : registers) k : Z * registers * kernel F :=
  if g_current k <? 0 then (-1, regs, k)
  else
    let g := tsignals (slot k (g_current k)) in
    if negb (signal_in_handler g) then (-1, regs, k)
    else
      (0, signal_saved_regs g,
       upd_slot (g_current k) (with_signals (mk_signals (pending_signals g) (ignored_signals g) (signal_handlers g) (signal_restorers g) false 0 (signal_saved_regs g))) k).

(** ** System calls and interrupts *)

Definition SYS_getpid : Z := 11.
Definition SYS_getppid : Z := 12.
Definition SYS_setpgid : Z := 19.
Definition SYS_getpgrp : Z := 20.
Definition SYS_setsid : Z := 21.
Definition SYS_signal : Z := 25.
Definition SYS_sigreturn : Z := 26.
Definition SYS_getuid : Z := 36.
Definition SYS_getgid : Z := 37.

(** The general registers by their place in the frame ([ds] first, [eax]
    last). *)
Definition reg_ebx (r : registers) : Z := gprs r !!! 5%nat.
Definition reg_edx (r : registers) : Z := gprs r !!! 6%nat.
Definition reg_ecx (r : registers) : Z := gprs r !!! 7%nat.
Definition reg_eax (r : registers) : Z := gprs r !!! 8%nat.
Definition with_eax (v : Z) (r : registers) : registers :=
  mk_regs (<[8%nat := v]> (gprs r)) (int_no r) (err_code r) (eip r) (cs r) (eflags r) (useresp r) (ss r).

Definition sys_signal (sig handler restorer : Z) k : Z * kernel F :=
  let '(rc, old, k) := signal_set_action_current sig (Some (mk_sa handler 0 0 restorer)) true k in
  if rc <? 0 then (-1, k) else (i32 (from_option sa_handler 0 old), k).
Definition sys_sigreturn (r : registers) k : Z * registers * kernel F := signal_sigreturn_current r k.

(** ** Queries and job control *)

Definition task_count k : Z := g_task_count k.
Definition task_get (idx : Z) k : option task := if idx <? g_task_count k then Some (slot k idx) else None.
Definition task_current k : option task := if 0 <=? g_current k then Some (slot k (g_current k)) else None.
Definition of_current (f : task -> Z) k : Z := if 0 <=? g_current k then i32 (f (slot k (g_current k))) else -1.
Definition task_current_id k := of_current id k.
Definition task_current_ppid k := of_current parent_id k.
Definition task_current_sid k := of_current (fun t => sid (tjob t)) k.
Definition task_current_pgid k := of_current (fun t => pgid (tjob t)) k.
Definition task_current_uid k := of_current (fun t => uid (tjob t)) k.
Definition task_current_gid k := of_current (fun t => gid (tjob t)) k.

Definition task_pgid_exists_in_session (s pg : Z) k : bool :=
  if (s =? 0) || (pg =? 0) then false
  else 0 <=? find_task (fun t => negb (is_state TASK_DEAD t) && (sid (tjob t) =? s) && (pgid (tjob t) =? pg)) k.

Definition with_pgid (pg : Z) (t : task) : task := let j := tjob t in with_job (mk_job (sid j) pg (uid j) (gid j) (cwd j)) t.
Definition task_setpgid (pid pg : Z) k : Z * kernel F :=
  if g_current k <? 0 then (-1, k)
  else
    let target_idx := resolve_target_task_index pid k in
    if target_idx <? 0 then (-1, k)
    else
      let caller := slot k (g_current k) in
      let target := slot k target_idx in
      if is_state TASK_DEAD target then (-1, k)
      else if negb (target_idx =? g_current k) && negb (parent_id target =? id caller) then (-1, k)
      else
        let pg := if pg =? 0 then i32 (id target) else pg in
        if pg <=? 0 then (-1, k)
        else if negb (sid (tjob target) =? sid (tjob caller)) then (-1, k)
        else if negb (u32 pg =? id target) && negb (task_pgid_exists_in_session (sid (tjob target)) (u32 pg) k) then (-1, k)
        else (0, upd_slot target_idx (with_pgid (u32 pg)) k).

Definition task_setsid k : Z * kernel F :=
  if g_current k <? 0 then (-1, k)
  else
    let self := slot k (g_current k) in
    if pgid (tjob self) =? id self then (-1, k)
    else (i32 (id self),
          upd_slot (g_current k) (fun t => with_job (mk_job (id t) (id t) (uid (tjob t)) (gid (tjob t)) (cwd (tjob t))) t) k).

(** The dispatch, with the calls into parts that are not modelled here as
    [others]; [syscall_isr] stores the result in [eax] when the call is done. *)
Definition handler_t : Type := registers -> kernel F -> registers * kernel F.
Definition syscall_dispatch (others : Z -> registers -> kernel F -> Z * registers * kernel F) (num a1 a2 a3 : Z) (r : registers) k :
    Z * registers * kernel F :=
  let keep (c : Z * kernel F) := (c.1, r, c.2) in
  if num =? SYS_getpid then (task_current_id k, r, k)
  else if num =? SYS_getppid then (task_current_ppid k, r, k)
  else if num =? SYS_getuid then (task_current_uid k, r, k)
  else if num =? SYS_getgid then (task_current_gid k, r, k)
  else if num =? SYS_setpgid then keep (task_setpgid (i32 a1) (i32 a2) k)
  else if num =? SYS_getpgrp then (task_current_pgid k, r, k)
  else if num =? SYS_setsid then keep (task_setsid k)
  else if num =? SYS_signal then keep (sys_signal (i32 a1) a2 a3 k)
  else if num =? SYS_sigreturn then sys_sigreturn r k
  else others num r k.
Definition syscall_isr (others : Z -> registers -> kernel F -> Z * registers * kernel F) : handler_t := fun r k =>
  let '(ret, r, k) := syscall_dispatch others (reg_eax r) (reg_ebx r) (reg_ecx r) (reg_edx r) r k in
  (with_eax (u32 ret) r, k).

(** What every interrupt runs: the vector's handler ([vectors] for those
    other than the system calls), the hardware interrupt by the vector the
    frame holds then, and a pending signal on the way back to user mode. *)
Definition isr_handler (others : Z -> registers -> kernel F -> Z * registers * kernel F) (vectors irq_dispatch : Z -> handler_t) : handler_t := fun r k =>
  let '(r, k) := if (int_no r =? 128) || (int_no r =? 129) then syscall_isr others r k else vectors (int_no r) r k in
  let '(r, k) := if (32 <=? int_no r) && (int_no r <? 48) then irq_dispatch (int_no r - 32) r k else (r, k) in
  if Z.land (cs r) 3 =? 3 then let '(_, r, k) := signal_dispatch_current r k in (r, k) else (r, k).

Definition task_set_current_name (name : list Z) k : kernel F :=
  if g_current k <? 0 then k else upd_slot (g_current k) (with_name (take (Z.to_nat (TASK_NAME_LEN - 1)) name)) k.
Definition task_close_cloexec_fds_current k : kernel F :=
  if g_current k <? 0 then k else task_fd_table_close_cloexec (g_current k) k.

Definition task_clone_fd_to_task (task_id target_fd src_fd : Z) k : Z * kernel F :=
  if g_current k <? 0 then (-1, k)
  else if task_id <=? 0 then (-1, k)
  else if (target_fd <? 0) || (Z.of_nat TASK_MAX_FDS <=? target_fd) then (-1, k)
  else if (src_fd <? 0) || (Z.of_nat TASK_MAX_FDS <=? src_fd) then (-1, k)
  else if negb (Vfs.f_in_use (tfds (slot k (g_current k)) !!! Z.to_nat src_fd)) then (-1, k)
  else
    let dst := find_task_index_by_id task_id k in
    if dst <? 0 then (-1, k)
    else
      let tf := Z.to_nat target_fd in
      let put fd := upd_slot dst (fun t => with_fds (<[tf := fd]> (tfds t)) t) in
      let old := tfds (slot k dst) !!! tf in
      let k := if Vfs.f_in_use old then put Vfs.no_fd (close_fd old k) else k in
      let fd := tfds (slot k (g_current k)) !!! Z.to_nat src_fd in
      let k := put fd k in
      let '(rc, e) := vfs_open_node (Vfs.f_node fd) (Vfs.f_open_flags fd) (env k) in
      let k := set_env e k in
      if rc <? 0 then (-1, put Vfs.no_fd k) else (0, k).

Definition page_align_down (v : Z) : Z := Z.land v (Z.lnot 0xFFF).
Definition page_align_up (v : Z) : Z := Z.land (u32 (v + 0xFFF)) (Z.lnot 0xFFF).

Definition task_assign_mm (task_id cr3 : Z) k : Z * kernel F :=
  if (task_id <=? 0) || (cr3 =? 0) then (-1, k)
  else
    let idx := find_task_index_by_id task_id k in
    if idx <? 0 then (-1, k)
    else
      let k := do_env (paging_retain_mm cr3) k in
      let k := do_env (paging_release_mm (mm_cr3 (slot k idx))) k in
      (0, upd_slot idx (with_mm (page_align_down cr3)) k).

Definition task_replace_current_mm (cr3 : Z) k : Z * kernel F :=
  if (g_current k <? 0) || (cr3 =? 0) then (-1, k)
  else
    let c := g_current k in
    let old := mm_cr3 (slot k c) in
    let k := task_mmap_table_clear c k in
    let k := task_lazy_elf_clear c k in
    let k := upd_slot c (with_mm (page_align_down cr3)) k in
    let k := do_env (paging_switch_mm (page_align_down cr3)) k in
    (0, do_env (paging_release_mm old) k).

Definition install_layout (adopt : bool) (task_id : Z) (image : option (Z * list Z)) (image_size : Z) (regions : list task_elf_lazy_region) (region_count : Z) k
    : Z * kernel F :=
  if task_id <=? 0 then (-1, k)
  else
    let idx := find_task_index_by_id task_id k in
    if idx <? 0 then (-1, k) else task_lazy_elf_install idx image image_size regions region_count adopt k.
Definition task_set_elf_lazy_layout := install_layout false.
Definition task_adopt_elf_lazy_layout := install_layout true.

(** ** Memory regions of the current task *)

(** [end <= reg->start || cur >= reg->end] *)
Definition apart (lo hi : Z) (r : task_mmap_region) : bool := (hi <=? rg_start r) || (rg_end r <=? lo).
Definition overlaps (lo hi : Z) (r : task_mmap_region) : bool := rg_in_use r && negb (apart lo hi r).

(** The outer loop: jump behind the first region that overlaps. Each jump
    passes a region for good: 33 rounds are enough. *)
Fixpoint find_gap (fuel : nat) (cur length : Z) (l : list task_mmap_region) : option (option Z) :=
  match fuel with
  | O => None
  | S fuel =>
      let e := u32 (cur + length) in
      if (e <? cur) || (TASK_MMAP_LIMIT <? e) then Some None
      else
        let i := find_region (overlaps cur e) l 0 in
        if 0 <=? i then find_gap fuel (page_align_up (rg_end (l !!! Z.to_nat i))) length l
        else Some (Some cur)
  end.
Definition task_mmap_find_gap (t : task) (length : Z) : option (option Z) :=
  if length =? 0 then Some None else find_gap 33 TASK_MMAP_BASE length (mmap_regions t).

(** Where the mapping goes; inner [None] is the failure of the call. *)
Definition mmap_place (t : task) (addr length : Z) : option (option Z) :=
  if negb (addr =? 0) then
    let start := page_align_down addr in
    let e := u32 (start + length) in
    if start <? TASK_MMAP_BASE then Some None
    else if (e <? start) || (TASK_MMAP_LIMIT <? e) then Some None
    else if existsb (overlaps start e) (mmap_regions t) then Some None
    else Some (Some start)
  else task_mmap_find_gap t length.

(** What backs the mapping: backing, shared object, file node. *)
Definition mmap_backing (a : syscall_mmap_args) (length : Z) k : option (Z * Z * Z) * kernel F :=
  let self := slot k (g_current k) in
  if is_set (ma_flags a) MMAP_MAP_SHM then
    if is_set (ma_flags a) MMAP_MAP_ANONYMOUS then (None, k)
    else if negb (is_set (ma_flags a) MMAP_MAP_SHARED) then (None, k)
    else if is_set (ma_offset a) 0xFFF then (None, k)
    else if ma_fd a <=? 0 then (None, k)
    else
      let i := shm_find_by_id (ma_fd a) k in
      if i <? 0 then (None, k)
      else
        let o := shm_at k i in
        if sh_unlinked o then (None, k)
        else if sh_size o <=? ma_offset a then (None, k)
        else if sh_size o - ma_offset a <? length then (None, k)
        else (Some (TASK_MMAP_BACKING_SHM, ma_fd a, 0), shm_ref (ma_fd a) k)
  else if negb (is_set (ma_flags a) MMAP_MAP_ANONYMOUS) then
    if is_set (ma_offset a) 0xFFF then (None, k)
    else if (ma_fd a <? 0) || (Z.of_nat TASK_MAX_FDS <=? ma_fd a) then (None, k)
    else
      let fd := tfds self !!! Z.to_nat (ma_fd a) in
      if negb (Vfs.f_in_use fd) || (Vfs.f_node fd =? 0) then (None, k)
      else if negb (is_set (node_type (Vfs.f_node fd) (env k)) VFS_FILE) then (None, k)
      else
        let '(rc, e) := vfs_open_node (Vfs.f_node fd) VFS_O_RDONLY (env k) in
        let k := set_env e k in
        if rc <? 0 then (None, k) else (Some (TASK_MMAP_BACKING_FILE, 0, Vfs.f_node fd), k)
  else (Some (TASK_MMAP_BACKING_ANON, 0, 0), k).

(** The address mapped, [Some None] for -1; [None] when the search for a gap
    does not end. *)
Definition task_mmap_current (a : syscall_mmap_args) k : option (option Z) * kernel F :=
  let fail k := (Some None, k) in
  if g_current k <? 0 then fail k
  else
    let self := slot k (g_current k) in
    let length := page_align_up (ma_length a) in
    let map_kind := Z.land (ma_flags a) (Z.lor MMAP_MAP_PRIVATE MMAP_MAP_SHARED) in
    if length =? 0 then fail k
    else if is_set (ma_flags a) MMAP_MAP_FIXED then fail k
    else if (map_kind =? 0) || (map_kind =? Z.lor MMAP_MAP_PRIVATE MMAP_MAP_SHARED) then fail k
    else
      let s := task_mmap_alloc_slot (g_current k) k in
      if s <? 0 then fail k
      else
        match mmap_place self (ma_addr a) length with
        | None => (None, k)
        | Some None => fail k
        | Some (Some start) =>
            match mmap_backing a length k with
            | (None, k) => fail k
            | (Some (backing, shm_id, file_node), k) =>
                let r := mk_region start (u32 (start + length)) (ma_prot a) (ma_flags a) backing (ma_offset a) shm_id file_node true in
                (Some (Some start), upd_slot (g_current k) (fun t => with_regions (<[Z.to_nat s := r]> (mmap_regions t)) t) k)
            end
        end.

Definition with_bounds (lo hi off : Z) (r : task_mmap_region) : task_mmap_region :=
  mk_region lo hi (rg_prot r) (rg_flags r) (rg_backing r) off (rg_shm_id r) (rg_file_node r) (rg_in_use r).
Definition freed_region (r : task_mmap_region) : task_mmap_region :=
  mk_region (rg_start r) (rg_end r) (rg_prot r) (rg_flags r) (rg_backing r) (rg_file_offset r) 0 0 false.
Definition unuse_region (r : task_mmap_region) : task_mmap_region :=
  mk_region (rg_start r) (rg_end r) (rg_prot r) (rg_flags r) (rg_backing r) (rg_file_offset r) (rg_shm_id r) (rg_file_node r) false.

(** The second loop of [task_munmap_current]: [n] regions from [j]. *)
Fixpoint munmap_from (n : nat) (j : nat) (lo hi : Z) k : Z * kernel F :=
  match n with
  | O => (0, k)
  | S n =>
      let c := g_current k in
      let r := mmap_regions (slot k c) !!! j in
      let put j r := upd_slot c (fun t => with_regions (<[j := r]> (mmap_regions t)) t) in
      if negb (overlaps lo hi r) then munmap_from n (S j) lo hi k
      else
        let os := if rg_start r <? lo then lo else rg_start r in
        let oe := if hi <? rg_end r then hi else rg_end r in
        let k := if os <? oe then do_env (paging_unmap_user_range os (oe - os)) k else k in
        if (lo <=? rg_start r) && (rg_end r <=? hi) then
          munmap_from n (S j) lo hi (put j (freed_region r) (drop_region r k))
        else if lo <=? rg_start r then
          munmap_from n (S j) lo hi (put j (with_bounds oe (rg_end r) (u32 (rg_file_offset r + u32 (oe - rg_start r))) r) k)
        else if rg_end r <=? hi then
          munmap_from n (S j) lo hi (put j (with_bounds (rg_start r) os (rg_file_offset r) r) k)
        else
          let s := task_mmap_alloc_slot c k in
          if s <? 0 then (-1, k)
          else
            let upper := with_bounds oe (rg_end r) (u32 (rg_file_offset r + u32 (oe - rg_start r))) r in
            let k := put (Z.to_nat s) upper k in
            let '(rc, k) :=
              if negb (rg_file_node upper =? 0) then let '(rc, e) := vfs_open_node (rg_file_node upper) VFS_O_RDONLY (env k) in (rc, set_env e k)
              else (0, k) in
            if rc <? 0 then (-1, put (Z.to_nat s) (unuse_region upper) k)
            else
              let k := if is_shm upper then shm_ref (rg_shm_id upper) k else k in
              munmap_from n (S j) lo hi (put j (with_bounds (rg_start r) os (rg_file_offset r) r) k)
  end.

Definition strictly_inside (lo hi : Z) (r : task_mmap_region) : bool := overlaps lo hi r && (rg_start r <? lo) && (hi <? rg_end r).
Definition task_munmap_current (addr length : Z) k : Z * kernel F :=
  if g_current k <? 0 then (-1, k)
  else if length =? 0 then (-1, k)
  else
    let lo := page_align_down addr in
    let hi := page_align_up (u32 (addr + length)) in
    if hi <=? lo then (-1, k)
    else
      let l := mmap_regions (slot k (g_current k)) in
      let count p := Z.of_nat (List.length (filter (fun r => p r = true) l)) in
      if count (overlaps lo hi) =? 0 then (-1, k)
      else if count (fun r => negb (rg_in_use r)) <? count (strictly_inside lo hi) then (-1, k)
      else munmap_from TASK_MMAP_MAX 0 lo hi k.

(** ** Shared memory calls *)

Fixpoint alloc_frames (n : nat) (j i : Z) k : Z * kernel F :=
  match n with
  | O => (i + 1, k)
  | S n =>
      let '(pa, e) := phys_alloc_frame (env k) in
      let k := set_env e k in
      if pa =? 0 then (-1, shm_destroy i k)
      else alloc_frames n (j + 1) i (upd_shm i (with_frame j pa) (do_env (zero_frame pa) k))
  end.

Definition task_shm_open_current (key size flags : Z) k : Z * kernel F :=
  if key <=? 0 then (-1, k)
  else
    let existing := shm_find_by_key key k in
    if 0 <=? existing then
      if is_set flags SHM_OPEN_CREATE && is_set flags SHM_OPEN_EXCL then (-1, k)
      else if (0 <? size) && (sh_size (shm_at k existing) <? size) then (-1, k)
      else (existing + 1, k)
    else if negb (is_set flags SHM_OPEN_CREATE) then (-1, k)
    else if size =? 0 then (-1, k)
    else
      let aligned := page_align_up size in
      let pages := aligned / 0x1000 in
      if (pages =? 0) || (Z.of_nat TASK_SHM_MAX_PAGES <? pages) then (-1, k)
      else
        let s := shm_alloc_slot k in
        if s <? 0 then (-1, k)
        else
          let k := upd_shm s (fun _ => mk_shm key aligned pages 0 true false (replicate TASK_SHM_MAX_PAGES 0)) k in
          alloc_frames (Z.to_nat pages) 0 s k.

Definition task_shm_unlink_current (key : Z) k : Z * kernel F :=
  let i := shm_find_by_key key k in
  if i <? 0 then (-1, k)
  else
    let k := upd_shm i (with_unlinked true) k in
    (0, if sh_refs (shm_at k i) =? 0 then shm_destroy i k else k).

Definition task_shm_get_frame (shm_id page_index : Z) k : option (Z * Z) :=
  let i := shm_find_by_id shm_id k in
  if i <? 0 then None
  else
    let o := shm_at k i in
    let pa := sh_frames o !!! Z.to_nat page_index in
    if sh_page_count o <=? page_index then None else if pa =? 0 then None else Some (pa, sh_size o).

Definition task_is_shared_page (page : Z) k : bool :=
  match task_current k with
  | None => false
  | Some self =>
      let a := page_align_down page in
      existsb (fun r => rg_in_use r && (rg_backing r =? TASK_MMAP_BACKING_SHM) && is_set (rg_flags r) MMAP_MAP_SHARED &&
                        (rg_start r <=? a) && (a <? rg_end r)) (mmap_regions self)
  end.

End task.
End Task.
