(* ===== verification/Elf.v ===== *)
(** * The program loader

    [kernel/elf.c] and [kernel/include/kernel/elf.h]: what makes an image
    acceptable, the regions it is paged in from, the user stack with the
    arguments of the program, the launch slots through which a new task finds
    its entry point, the two ways to run a program, and the programs written
    to the disk at boot. An image and the arguments are read from memory,
    since the checks of the code do not keep every read inside the image. *)

From Stdlib Require Import String Ascii.
From S2P Require Import Prelude Mem CString Vfs Task.

Module Elf.
Import Mem CString.

(** ** The file format *)

Definition EI_NIDENT : nat := 16.
Definition ELFCLASS32 : Z := 1.
Definition ELFDATA2LSB : Z := 1.
Definition ET_EXEC : Z := 2.
Definition EM_386 : Z := 3.
Definition PT_LOAD : Z := 1.
Definition PF_W : Z := 2.
Definition ELF_ARGV_MAX : Z := 16.
Definition ELF_ARGV_BYTES_MAX : Z := 4096.
Definition ELF_USER_STACK_SIZE : Z := 8 * 1024.
Definition ELF_USER_STACK_BASE : Z := 0xBFFF8000.
Definition PAGING_FLAG_WRITE : Z := 0x002.
Definition PAGING_FLAG_USER : Z := 0x004.

Record Elf32_Ehdr := mk_ehdr {
  e_ident : list Z; e_type : Z; e_machine : Z; e_version : Z; e_entry : Z; e_phoff : Z; e_shoff : Z; e_flags : Z;
  e_ehsize : Z; e_phentsize : Z; e_phnum : Z; e_shentsize : Z; e_shnum : Z; e_shstrndx : Z }.
Record Elf32_Phdr := mk_phdr {
  p_type : Z; p_offset : Z; p_vaddr : Z; p_paddr : Z; p_filesz : Z; p_memsz : Z; p_flags : Z; p_align : Z }.
Definition sizeof_Ehdr : Z := 52.
Definition sizeof_Phdr : Z := 32.

Definition ld16 (m : mem) (a : Z) : Z := ld8 m a + 256 * ld8 m (a + 1).
(** The structures at an address, through a pointer cast. *)
Definition ehdr_at (m : mem) (a : Z) : Elf32_Ehdr :=
  mk_ehdr (map (fun i => ld8 m (a + Z.of_nat i)) (seq 0 EI_NIDENT)) (ld16 m (a + 16)) (ld16 m (a + 18)) (ld32 m (a + 20))
    (ld32 m (a + 24)) (ld32 m (a + 28)) (ld32 m (a + 32)) (ld32 m (a + 36)) (ld16 m (a + 40)) (ld16 m (a + 42)) (ld16 m (a + 44))
    (ld16 m (a + 46)) (ld16 m (a + 48)) (ld16 m (a + 50)).
Definition phdr_at (m : mem) (a : Z) : Elf32_Phdr :=
  mk_phdr (ld32 m a) (ld32 m (a + 4)) (ld32 m (a + 8)) (ld32 m (a + 12)) (ld32 m (a + 16)) (ld32 m (a + 20)) (ld32 m (a + 24)) (ld32 m (a + 28)).

Definition elf_validate (m : mem) (data size : Z) : Z :=
  if size <? sizeof_Ehdr then -1
  else
    let eh := ehdr_at m data in
    let ident i := e_ident eh !!! i in
    if negb (ident 0%nat =? 0x7f) || negb (ident 1%nat =? 69) || negb (ident 2%nat =? 76) || negb (ident 3%nat =? 70) then -2
    else if negb (ident 4%nat =? ELFCLASS32) then -3
    else if negb (ident 5%nat =? ELFDATA2LSB) then -4
    else if negb (e_type eh =? ET_EXEC) then -5
    else if negb (e_machine eh =? EM_386) then -6
    else if e_phnum eh =? 0 then -7
    else 0.

(** ** The regions of an image *)

Definition page_floor (a : Z) : Z := Z.land a (Z.lnot 0xFFF).
(** The body of the loop for one loadable header. *)
Definition region_of (ph : Elf32_Phdr) : Task.task_elf_lazy_region :=
  let vaddr := p_vaddr ph in
  Task.mk_elf_region (page_floor vaddr) (page_floor (u32 (u32 (vaddr + p_memsz ph) + 0xFFF))) vaddr (u32 (vaddr + p_filesz ph)) (p_offset ph)
    (Z.lor PAGING_FLAG_USER (if is_set (p_flags ph) PF_W then PAGING_FLAG_WRITE else 0)) true.
Definition loadable (ph : Elf32_Phdr) : bool := (p_type ph =? PT_LOAD) && (0 <? p_memsz ph).

(** The loop over [n] headers from file offset [ph_off]; [regions] holds what
    is collected so far. *)
Fixpoint collect_from (n : nat) (m : mem) (data size ph_off entsize : Z) (regions : list Task.task_elf_lazy_region)
    : Z * list Task.task_elf_lazy_region :=
  match n with
  | O => (0, regions)
  | S n =>
      if size <? u32 (ph_off + sizeof_Phdr) then (-2, regions)
      else
        let ph := phdr_at m (u32 (data + ph_off)) in
        let next := u32 (ph_off + entsize) in
        if loadable ph then
          if p_memsz ph <? p_filesz ph then (-3, regions)
          else if size <? u32 (p_offset ph + p_filesz ph) then (-4, regions)
          else if Task.TASK_ELF_LAZY_MAX <=? Z.of_nat (length regions) then (-5, regions)
          else collect_from n m data size next entsize (regions ++ [region_of ph])
        else collect_from n m data size next entsize regions
  end.
(** The count is the length of the list. *)
Definition elf_collect_lazy_regions (m : mem) (data size : Z) (eh : Elf32_Ehdr) : Z * list Task.task_elf_lazy_region :=
  if data =? 0 then (-1, []) else collect_from (Z.to_nat (e_phnum eh)) m data size (e_phoff eh) (e_phentsize eh) [].

(** ** The arguments of a program *)

(** [argv[i]] *)
Definition arg_ptr (m : mem) (argv i : Z) : Z := ld32 m (argv + 4 * i).

(** The first loop, from [n - 1] down to 0: copy the strings below [p]. The
    results are the memory, the next free address and the addresses of the
    strings; [None] for them is the return of -3. *)
Fixpoint push_strings (fuel n : nat) (ustk argv p total : Z) (ptrs : list Z) (m : mem) : mem * option (Z * list Z) :=
  match n with
  | O => (m, Some (p, ptrs))
  | S n =>
      let s := arg_ptr m argv (Z.of_nat n) in
      let len := if s =? 0 then 1 else u32 (strlen fuel m s + 1) in
      let total := u32 (total + len) in
      if ELF_ARGV_BYTES_MAX <? total then (m, None)
      else if p <? u32 (ustk + len) then (m, None)
      else
        let p := u32 (p - len) in
        let m := if s =? 0 then st8 m p 0 else memcpy m p s (Z.to_nat len) in
        push_strings fuel n ustk argv p total (p :: ptrs) m
  end.

(** [p -= 4; *p = v] *)
Definition push32 (v : Z) (mp : mem * Z) : mem * Z := (st32 mp.1 (u32 (mp.2 - 4)) v, u32 (mp.2 - 4)).

(** The return code, the stack pointer it sets, and the memory. *)
Definition elf_build_argv_stack (fuel : nat) (ustk argv argc : Z) (m : mem) : Z * Z * mem :=
  if (argc <? 0) || (ELF_ARGV_MAX <? argc) then (-2, 0, m)
  else if (0 <? argc) && (argv =? 0) then (-2, 0, m)
  else
    let top := Z.land (u32 (ustk + ELF_USER_STACK_SIZE)) (Z.lnot 0xF) in
    match push_strings fuel (Z.to_nat argc) ustk argv top 0 [] m with
    | (m, None) => (-3, 0, m)
    | (m, Some (p, str_ptrs)) =>
        let p := Z.land p (Z.lnot 0x3) in
        let needed := (argc + 2) * 4 in
        if p <? u32 (ustk + needed) then (-3, 0, m)
        else
          let '(m, p) := push32 argc (foldr push32 (push32 0 (m, p)) str_ptrs) in
          (0, p, m)
    end.

(** ** Launch slots *)

Record elf_launch_slot := mk_launch { ls_in_use : bool; ls_task_id : Z; ls_entry : Z; ls_user_esp : Z }.
Definition no_launch : elf_launch_slot := mk_launch false 0 0 0.
#[global] Instance launch_inhabited : Inhabited elf_launch_slot := populate no_launch.

Fixpoint elf_launch_slot_set (task_id entry user_esp : Z) (slots : list elf_launch_slot) : Z * list elf_launch_slot :=
  match slots with
  | [] => (-1, [])
  | s :: slots =>
      if ls_in_use s then let '(rc, slots) := elf_launch_slot_set task_id entry user_esp slots in (rc, s :: slots)
      else (0, mk_launch true task_id entry user_esp :: slots)
  end.
Definition is_launch (task_id : Z) (s : elf_launch_slot) : bool := ls_in_use s && (ls_task_id s =? task_id).
(** The slot is handed out as a pointer to its fields after the mark is gone. *)
Fixpoint elf_launch_slot_take (task_id : Z) (slots : list elf_launch_slot) : option elf_launch_slot * list elf_launch_slot :=
  match slots with
  | [] => (None, [])
  | s :: slots =>
      if is_launch task_id s then
        let s := mk_launch false (ls_task_id s) (ls_entry s) (ls_user_esp s) in (Some s, s :: slots)
      else let '(r, slots) := elf_launch_slot_take task_id slots in (r, s :: slots)
  end.
Definition elf_launch_slot_clear (task_id : Z) (slots : list elf_launch_slot) : list elf_launch_slot := (elf_launch_slot_take task_id slots).2.

(** ** Paths *)

(** [name] is the rest of the path after the last slash that another
    character follows. *)
Fixpoint basename_from (name p : list Z) : list Z :=
  match p with
  | [] => name
  | c :: rest => basename_from (if (c =? 47) && negb (bool_decide (rest = [])) then rest else name) rest
  end.
Definition path_basename (path : option (list Z)) : option (list Z) := (fun p => basename_from p p) <$> path.

(** ** Running a program *)

(** What the loader calls in the rest of the kernel, besides what tasks call:
    the memory of the current address space, the file system and the address
    spaces. A read returns its code and the bytes it puts in the buffer. *)
Class Loader (F : Type) := {
  view : F -> mem;
  set_view : mem -> F -> F;
  vfs_namei : list Z -> F -> Z * F;
  node_size : Z -> F -> Z;
  vfs_read : Z -> Z -> Z -> F -> Z * list Z * F;
  paging_create_mm : F -> option Z * F;
  paging_map_user : Z -> F -> Z * F;
  elf_task_wrapper_entry : Z
}.

Fixpoint put_bytes (a : Z) (l : list Z) (m : mem) : mem :=
  match l with [] => m | b :: l => put_bytes (a + 1) l (st8 m a b) end.
Definition get_bytes (m : mem) (a : Z) (n : nat) : list Z := map (fun i => ld8 m (a + Z.of_nat i)) (seq 0 n).

(** The tasks, the rest of the kernel, and the launch slots. *)
Record loader (F : Type) := mk_loader { krn : Task.kernel F; slots : list elf_launch_slot }.
#[global] Arguments mk_loader {F}.
#[global] Arguments krn {F}.
#[global] Arguments slots {F}.

(** How a request to run a program ends: with a return value, not at all
    because the caller has been killed, or past the fuel of the model. *)
Inductive launch (F : Type) := launched (rc : Z) (l : loader F) | gone (l : loader F) | no_fuel.
#[global] Arguments launched {F}.
#[global] Arguments gone {F}.
#[global] Arguments no_fuel {F}.

Section loader.
Context {F : Type} {EF : Task.Env F} {LF : Loader F}.
Implicit Types (e : F) (k : Task.kernel F) (l : loader F).

Definition with_env (f : F -> F) k := Task.do_env f k.

(** The return code with the block and the size on success. *)
Definition elf_read_from_vfs (path : option (list Z)) e : Z * (Z * Z) * F :=
  match path with
  | None => (-1, (0, 0), e)
  | Some path =>
      let '(node, e) := vfs_namei path e in
      if node =? 0 then (-1, (0, 0), e)
      else if negb (is_set (Task.node_type node e) Task.VFS_FILE) then (-2, (0, 0), e)
      else if node_size node e =? 0 then (-3, (0, 0), e)
      else
        let '(buf, e) := Task.kmalloc (node_size node e) e in
        if buf =? 0 then (-4, (0, 0), e)
        else
          let '(nread, bytes, e) := vfs_read node 0 (node_size node e) e in
          let e := set_view (put_bytes buf bytes (view e)) e in
          if nread <=? 0 then (-5, (0, 0), Task.kfree buf e) else (0, (buf, u32 nread), e)
  end.

Fixpoint map_stack_from (fuel : nat) (va end_ : Z) e : Z * F :=
  match fuel with
  | O => (0, e)
  | S fuel =>
      if va <? end_ then
        let '(rc, e) := paging_map_user va e in
        if rc <? 0 then (-2, e) else map_stack_from fuel (u32 (va + 4096)) end_ e
      else (0, e)
  end.
(** Two pages: the code with the base of the stack. *)
Definition elf_map_user_stack e : Z * Z * F :=
  let base := ELF_USER_STACK_BASE in
  let '(rc, e) := map_stack_from 3 base (u32 (base + ELF_USER_STACK_SIZE)) e in
  (rc, base, e).

(** [task_kill(tid)], then [after], then return [rc]. *)
Definition kill_and (tid rc : Z) (after : F -> F) l : launch F :=
  match Task.task_kill tid (krn l) with
  | (Some _, k) => launched rc (mk_loader (with_env after k) (slots l))
  | (None, k) => gone (mk_loader k (slots l))
  end.

(** A new address space holding the stack of the program, built while it is
    the current one; the previous one is current again after an error. Both
    ways of running a program go through these steps: the code they return
    on failure, or the space and the stack pointer. *)
Definition build_stack (fuel : nat) (argv argc : Z) e : (Z + Z * Z * Z) * F :=
  match paging_create_mm e with
  | (None, e) => (inl (-7), e)
  | (Some new_mm, e) =>
      let old_mm := Task.paging_current_cr3 e in
      let e := Task.paging_switch_mm new_mm e in
      let back e := Task.paging_release_mm new_mm (Task.paging_switch_mm old_mm e) in
      match elf_map_user_stack e with
      | (rc, ustk, e) =>
          if rc <? 0 then (inl (-7), back e)
          else
            let '(rc, user_esp, m) := elf_build_argv_stack fuel ustk argv argc (view e) in
            let e := set_view m e in
            if rc <? 0 then (inl (-12), back e) else (inr (new_mm, old_mm, user_esp), e)
      end
  end.

(** Reading and checking the file: a code, or the block, its size, the header
    and the regions. *)
Definition load_image (path : option (list Z)) e : (Z + Z * Z * Elf32_Ehdr * list Task.task_elf_lazy_region) * F :=
  match elf_read_from_vfs path e with
  | (io, (buf, size), e) =>
      if io <? 0 then (inl io, e)
      else
        let err := elf_validate (view e) buf size in
        if err <? 0 then (inl (err - 10), Task.kfree buf e)
        else
          let eh := ehdr_at (view e) buf in
          let '(rc, regions) := elf_collect_lazy_regions (view e) buf size eh in
          if rc <? 0 then (inl (-6), Task.kfree buf e) else (inr (buf, size, eh, regions), e)
  end.

(** The block with its bytes, as the task keeps it. *)
Definition image_block (buf size : Z) k : option (Z * list Z) := Some (buf, get_bytes (view (Task.env k)) buf (Z.to_nat size)).

(** The standard streams, the slot and the wait, once the task is complete. *)
Definition start_program (wfuel : nat) (others : Task.kernel F -> Task.kernel F) (tid wait stdin_fd stdout_fd entry user_esp : Z) l : launch F :=
  let '(rc, ss) := elf_launch_slot_set tid entry user_esp (slots l) in
  let l := mk_loader (krn l) ss in
  if rc <? 0 then kill_and tid (-10) (fun e => e) l
  else
    let '(rc, k) := if 0 <=? stdin_fd then Task.task_clone_fd_to_task tid 0 stdin_fd (krn l) else (0, krn l) in
    if rc <? 0 then kill_and tid (-8) (fun e => e) (mk_loader k (elf_launch_slot_clear tid ss))
    else
      let '(rc, k) := if 0 <=? stdout_fd then Task.task_clone_fd_to_task tid 1 stdout_fd k else (0, k) in
      if rc <? 0 then kill_and tid (-9) (fun e => e) (mk_loader k (elf_launch_slot_clear tid ss))
      else if wait =? 0 then launched tid (mk_loader k ss)
      else
        match Task.task_waitpid wfuel others tid 0 k with
        | Some (_, _, k) => launched tid (mk_loader k ss)
        | None => no_fuel
        end.

Definition elf_exec_with_stdio (fuel wfuel : nat) (others : Task.kernel F -> Task.kernel F) (path : option (list Z))
    (wait stdin_fd stdout_fd argv argc : Z) l : launch F :=
  match load_image path (Task.env (krn l)) with
  | (inl rc, e) => launched rc (mk_loader (Task.set_env e (krn l)) (slots l))
  | (inr (buf, size, eh, regions), e) =>
      let name := match path_basename path with Some n => Task.name_text n | None => Task.name_null end in
      match Task.task_create_named elf_task_wrapper_entry 0 Task.TASK_DEFAULT_QUANTUM name (Task.set_env e (krn l)) with
      | None => no_fuel
      | Some (tid, k) =>
          if tid <? 0 then launched tid (mk_loader (with_env (Task.kfree buf) k) (slots l))
          else
            match build_stack fuel argv argc (Task.env k) with
            | (inl rc, e) => kill_and tid rc (Task.kfree buf) (mk_loader (Task.set_env e k) (slots l))
            | (inr (new_mm, old_mm, user_esp), e) =>
                let k := Task.set_env (Task.paging_switch_mm old_mm e) k in
                let failed rc k := kill_and tid rc (Task.kfree buf) (mk_loader (with_env (Task.paging_release_mm new_mm) k) (slots l)) in
                let '(rc, k) := Task.task_adopt_elf_lazy_layout tid (image_block buf size k) size regions (Z.of_nat (length regions)) k in
                if rc <? 0 then failed (-11) k
                else
                  let '(rc, k) := Task.task_assign_mm tid new_mm k in
                  if rc <? 0 then failed (-10) k
                  else
                    start_program wfuel others tid wait stdin_fd stdout_fd (e_entry eh) user_esp
                      (mk_loader (with_env (Task.paging_release_mm new_mm) k) (slots l))
            end
      end
  end.

(** The new task's first code: where it enters user mode, or [None] when it
    found no slot and has exited. *)
Definition elf_task_wrapper l : option (Z * Z) * loader F :=
  let '(slot, ss) := elf_launch_slot_take (Task.task_current_id (krn l)) (slots l) in
  match slot with
  | None => (None, mk_loader (Task.task_exit (krn l)) ss)
  | Some s => (Some (ls_entry s, ls_user_esp s), mk_loader (krn l) ss)
  end.

(** [r->eip = entry; r->useresp = sp; r->eax = 0] *)
Definition enter_program (entry sp : Z) (r : Task.registers) : Task.registers :=
  Task.mk_regs (<[8%nat := 0]> (Task.gprs r)) (Task.int_no r) (Task.err_code r) entry (Task.cs r) (Task.eflags r) sp (Task.ss r).

Definition elf_execve_current (fuel : nat) (path : option (list Z)) (argv argc : Z) (r : Task.registers) k : Z * Task.registers * Task.kernel F :=
  if bool_decide (path = None) then (-1, r, k)
  else
    match load_image path (Task.env k) with
    | (inl rc, e) => (rc, r, Task.set_env e k)
    | (inr (buf, size, eh, regions), e) =>
        match build_stack fuel argv argc e with
        | (inl rc, e) => (rc, r, Task.set_env (Task.kfree buf e) k)
        | (inr (new_mm, old_mm, user_esp), e) =>
            let k := Task.set_env e k in
            let r := enter_program (e_entry (ehdr_at (view e) buf)) user_esp r in
            let '(rc, k) := Task.task_replace_current_mm new_mm k in
            if rc <? 0 then (-8, r, with_env (fun e => Task.kfree buf (Task.paging_release_mm new_mm (Task.paging_switch_mm old_mm e))) k)
            else
              let self_id := Task.task_current_id k in
              let '(rc, k) := Task.task_adopt_elf_lazy_layout self_id (image_block buf size k) size regions (Z.of_nat (length regions)) k in
              if rc <? 0 then (-9, r, with_env (Task.kfree buf) k)
              else
                let k := Task.task_close_cloexec_fds_current k in
                let k := match path_basename path with Some n => Task.task_set_current_name n k | None => k end in
                (0, r, k)
        end
    end.

End loader.

(** ** The built-in programs *)

(** [test_elf_hello]: the header, one program header, the code, the text. *)
Definition test_elf_hello : list Z := [
  0x7f; 0x45; 0x4c; 0x46; 0x01; 0x01; 0x01; 0x00; 0x00; 0x00; 0x00; 0x00; 0x00; 0x00; 0x00; 0x00;
  0x02; 0x00; 0x03; 0x00; 0x01; 0x00; 0x00; 0x00; 0x54; 0x80; 0x04; 0x08; 0x34; 0x00; 0x00; 0x00;
  0x00; 0x00; 0x00; 0x00; 0x00; 0x00; 0x00; 0x00; 0x34; 0x00; 0x20; 0x00; 0x01; 0x00; 0x00; 0x00;
  0x00; 0x00; 0x00; 0x00; 0x01; 0x00; 0x00; 0x00; 0x00; 0x00; 0x00; 0x00; 0x00; 0x80; 0x04; 0x08;
  0x00; 0x80; 0x04; 0x08; 0x89; 0x00; 0x00; 0x00; 0x89; 0x00; 0x00; 0x00; 0x05; 0x00; 0x00; 0x00;
  0x00; 0x10; 0x00; 0x00; 0xb8; 0x01; 0x00; 0x00; 0x00; 0xbb; 0x01; 0x00; 0x00; 0x00; 0xb9; 0x79;
  0x80; 0x04; 0x08; 0xba; 0x10; 0x00; 0x00; 0x00; 0xcd; 0x80; 0xb8; 0x03; 0x00; 0x00; 0x00; 0xbb;
  0x00; 0x00; 0x00; 0x00; 0xcd; 0x80; 0xf4; 0xeb; 0xfd; 0x48; 0x65; 0x6c; 0x6c; 0x6f; 0x20; 0x66;
  0x72; 0x6f; 0x6d; 0x20; 0x45; 0x4c; 0x46; 0x21; 0x0a].

Definition letters (s : string) : list Z := map (fun a => Z.of_N (N_of_ascii a)) (list_ascii_of_string s).

(** The programs in the order they are written, after "hello"; true for the
    ones in [/bin/test]. *)
Definition programs : list (bool * string) := [
  (false, "anim"%string); (true, "forktest"%string); (true, "execvetest"%string); (true, "waittest"%string);
  (true, "waitstress"%string); (true, "waitstressbg"%string); (true, "catfd"%string); (true, "sigtest"%string);
  (true, "mmaptest"%string); (true, "shmtest"%string); (true, "faulttest"%string); (true, "nxstacktest"%string);
  (true, "randtest"%string); (true, "argvtest"%string); (true, "syscalltest"%string); (true, "fstest"%string);
  (true, "dmesgtest"%string); (true, "blktest"%string); (true, "nettest"%string); (false, "ls"%string);
  (false, "cat"%string); (false, "touch"%string); (false, "mkdir"%string); (false, "write"%string);
  (false, "rm"%string); (false, "stat"%string); (false, "id"%string); (false, "pwd"%string);
  (false, "chmod"%string); (false, "chown"%string); (false, "echo"%string); (false, "uptime"%string);
  (false, "time"%string); (false, "tz"%string); (false, "sh"%string); (false, "tasks"%string);
  (false, "dmesg"%string); (false, "kill"%string); (false, "cls"%string); (false, "disk"%string);
  (false, "blk"%string); (false, "vm"%string); (false, "color"%string); (false, "net"%string);
  (false, "mouse"%string); (false, "about"%string); (false, "dean"%string)].

Section install.
Import Vfs.
(** [image name]: the linked program of that name. *)
Context {E : Type} (drivers : Z -> vtable E) (image : string -> list Z).

(** Create the file, look it up, write it; false when it is not found. *)
Definition install (dir : Z) (name : list Z) (data : list Z) : M E bool :=
  vfs_create drivers dir name VFS_FILE ;;;
  let! node := vfs_finddir drivers dir name in
  if node =? NULL then ret false else (vfs_write drivers node 0 data ;;; ret true).

Fixpoint install_all (bin bin_test : Z) (l : list (bool * string)) : M E unit :=
  match l with
  | [] => ret tt
  | (test, name) :: l =>
      let! ok := install (if test then bin_test else bin) (letters name) (image name) in
      if ok then install_all bin bin_test l else ret tt
  end.

Definition elf_install_test_programs : M E unit := fun s =>
  let root := vfs_get_root s in
  (if root =? NULL then ret tt
   else
     vfs_create drivers root (letters "bin") VFS_DIRECTORY ;;;
     let! bin := vfs_finddir drivers root (letters "bin") in
     if bin =? NULL then ret tt
     else
       vfs_create drivers bin (letters "test") VFS_DIRECTORY ;;;
       let! bin_test := vfs_finddir drivers bin (letters "test") in
       if bin_test =? NULL then ret tt
       else
         let! ok := install bin_test (letters "hello") test_elf_hello in
         if ok then install_all bin bin_test programs else ret tt) s.
End install.
End Elf.
