(* ===== verification/TaskSpec.v ===== *)
(** * Correctness of tasks: the table, the scheduler, waiting and signals

    Proofs about [Module Task]. The table invariant is stated on the fields
    scheduling reads ([view]); operations that touch other fields keep it by
    one lemma. *)

From S2P Require Import Prelude Ring VfsPath Vfs Libc Task.

Module TaskSpec.
Import Task.

Section scheduling.
Context {F : Type} `{Env F}.
Implicit Types k : kernel F.

(** ** Choosing the next task *)

Definition is_ready k (i : Z) : bool := is_state TASK_READY (slot k i).
(** The [j]-th slot the scan looks at. *)
Definition nth_slot k (start j : Z) : Z := (start + 1 + j) mod g_task_count k.
Definition eligible k (start j : Z) : bool := is_ready k (nth_slot k start j) && negb (nth_slot k start j =? 0).

Lemma pick_scan_first m n start best k j :
  n <= j < n + Z.of_nat m -> eligible k start j = true -> (forall j', n <= j' < j -> eligible k start j' = false) ->
  pick_scan m n start best k = nth_slot k start j.
Proof.
  revert n best. induction m as [|m IH]; intros n best Hj He Hf; [lia|]. cbn [pick_scan].
  change ((start + 1 + n) mod g_task_count k) with (nth_slot k start n).
  destruct (decide (n = j)) as [->|Hne].
  - unfold eligible, is_ready in He. bool_to_prop. rewrite H0. cbn [negb]. by rewrite (proj2 (Z.eqb_neq _ _)).
  - pose proof (Hf n ltac:(lia)) as Hn. unfold eligible, is_ready in Hn.
    destruct (is_state TASK_READY (slot k (nth_slot k start n))); cbn [negb andb] in *.
    + apply negb_false_iff in Hn. rewrite Hn. apply IH; [lia|done|intros; apply Hf; lia].
    + apply IH; [lia|done|intros; apply Hf; lia].
Qed.

Lemma pick_scan_none m n start best k :
  (best = -1 \/ best = 0) -> (forall j, n <= j < n + Z.of_nat m -> eligible k start j = false) ->
  pick_scan m n start best k = best \/ pick_scan m n start best k = 0.
Proof.
  revert n best. induction m as [|m IH]; intros n best Hb Hf; cbn [pick_scan]; [by left|].
  change ((start + 1 + n) mod g_task_count k) with (nth_slot k start n).
  pose proof (Hf n ltac:(lia)) as Hn. unfold eligible, is_ready in Hn.
  destruct (is_state TASK_READY (slot k (nth_slot k start n))); cbn [negb andb] in *.
  - apply negb_false_iff in Hn. rewrite Hn.
    destruct (IH (n + 1) (if best <? 0 then 0 else best)) as [E|E]; [destruct (Z.ltb_spec best 0); lia|intros; apply Hf; lia| |by right].
    rewrite E. destruct (Z.ltb_spec best 0); [by right|by left].
  - apply IH; [done|intros; apply Hf; lia].
Qed.

(** When slot 0 is ready and nothing else is, it is chosen. *)
Lemma pick_scan_idle m n start best k j :
  (best = -1 \/ best = 0) -> (forall j, n <= j < n + Z.of_nat m -> eligible k start j = false) ->
  n <= j < n + Z.of_nat m -> nth_slot k start j = 0 -> is_ready k 0 = true ->
  pick_scan m n start best k = 0.
Proof.
  revert n best. induction m as [|m IH]; intros n best Hb Hf Hj Ej Hr; [lia|]. cbn [pick_scan].
  change ((start + 1 + n) mod g_task_count k) with (nth_slot k start n).
  pose proof (Hf n ltac:(lia)) as Hn. unfold eligible, is_ready in *.
  destruct (decide (n = j)) as [->|Hne].
  - rewrite Ej, Hr. cbn [negb]. change (0 =? 0) with true. cbv iota.
    destruct (pick_scan_none m (j + 1) start (if best <? 0 then 0 else best) k) as [->| ->]; [destruct (Z.ltb_spec best 0); lia|intros; apply Hf; lia| |done].
    destruct (Z.ltb_spec best 0); lia.
  - destruct (is_state TASK_READY (slot k (nth_slot k start n))); cbn [negb andb] in *.
    + apply negb_false_iff in Hn. rewrite Hn. apply IH; [destruct (Z.ltb_spec best 0); lia|intros; apply Hf; lia|lia|done|done].
    + apply IH; [done|intros; apply Hf; lia|lia|done|done].
Qed.

Lemma pick_scan_blank m n start best k :
  (forall j, n <= j < n + Z.of_nat m -> is_ready k (nth_slot k start j) = false) -> pick_scan m n start best k = best.
Proof.
  revert n. induction m as [|m IH]; intros n Hf; cbn [pick_scan]; [done|].
  change ((start + 1 + n) mod g_task_count k) with (nth_slot k start n).
  pose proof (Hf n ltac:(lia)) as Hn. unfold is_ready in Hn. rewrite Hn. cbn [negb]. apply IH. intros; apply Hf; lia.
Qed.

(** A decidable set of integers below a bound is empty or has a least element. *)
Lemma none_or_least (p : Z -> bool) (n : nat) :
  (forall i, 0 <= i < Z.of_nat n -> p i = false) \/
  exists i, 0 <= i < Z.of_nat n /\ p i = true /\ forall i', 0 <= i' < i -> p i' = false.
Proof.
  induction n as [|n [IHn|(i & Hi & Hpi & Hl)]]; [left; lia| |].
  - destruct (p (Z.of_nat n)) eqn:Em; [right; exists (Z.of_nat n); split_and!; [lia|lia|done|done]|].
    left. intros i Hi. destruct (decide (i = Z.of_nat n)) as [->|]; [done|apply IHn; lia].
  - right. exists i. split_and!; [lia|lia|done|done].
Qed.

(** How far slot [i] is from slot [c] going round: the scan from [c] reaches
    it at step [dist k c i]. *)
Definition dist k (c i : Z) : Z := (i - c - 1) mod g_task_count k.

Lemma dist_range k c i : 0 < g_task_count k -> 0 <= dist k c i < g_task_count k.
Proof. intros Hc. apply Z.mod_pos_bound. lia. Qed.
Lemma nth_slot_dist k c i : 0 <= i < g_task_count k -> nth_slot k c (dist k c i) = i.
Proof.
  intros Hi. unfold nth_slot, dist. rewrite Zplus_mod_idemp_r. replace (c + 1 + (i - c - 1)) with i by lia. apply Z.mod_small. lia.
Qed.
Lemma dist_nth_slot k c j : 0 <= j < g_task_count k -> dist k c (nth_slot k c j) = j.
Proof.
  intros Hj. unfold nth_slot, dist. replace ((c + 1 + j) mod g_task_count k - c - 1) with ((c + 1 + j) mod g_task_count k - (c + 1)) by lia.
  rewrite Zminus_mod_idemp_l. replace (c + 1 + j - (c + 1)) with j by lia. apply Z.mod_small. lia.
Qed.

(** [pick_next_ready] takes the ready task that comes first going round from
    the current one, and the idle task only when there is no other. *)
Lemma pick_next_spec k :
  0 < g_task_count k -> 0 <= g_current k ->
  let r := pick_next_ready k in
  (0 < r < g_task_count k /\ is_ready k r = true /\
   forall i, 0 < i < g_task_count k -> is_ready k i = true -> dist k (g_current k) r <= dist k (g_current k) i) \/
  ((forall i, 0 < i < g_task_count k -> is_ready k i = false) /\ r = if is_ready k 0 then 0 else -1).
Proof.
  intros Hc Hcur. cbn zeta. unfold pick_next_ready. rewrite (proj2 (Z.eqb_neq _ _)), (proj2 (Z.ltb_ge _ _)) by lia.
  assert (forall i, 0 < i < g_task_count k -> is_ready k i = true -> eligible k (g_current k) (dist k (g_current k) i) = true) as Hel.
  { intros i Hi Hr. unfold eligible. rewrite nth_slot_dist by lia. rewrite Hr. by rewrite (proj2 (Z.eqb_neq _ _)) by lia. }
  destruct (none_or_least (eligible k (g_current k)) (Z.to_nat (g_task_count k))) as [Hn|(j & Hj & Hej & Hl)].
  - right. split.
    + intros i Hi. destruct (is_ready k i) eqn:Hr; [|done]. pose proof (dist_range k (g_current k) i Hc).
      specialize (Hel i Hi Hr). rewrite Hn in Hel by lia. done.
    + pose proof (dist_range k (g_current k) 0 Hc). destruct (is_ready k 0) eqn:Hz0.
      * apply (pick_scan_idle _ 0 _ _ _ (dist k (g_current k) 0)); [by left|done|lia|apply nth_slot_dist; lia|done].
      * apply pick_scan_blank. intros j Hj. pose proof (Hn j ltac:(lia)) as He. unfold eligible in He.
        destruct (is_ready k (nth_slot k (g_current k) j)) eqn:Er; [|done]. cbn [andb] in He. apply negb_false_iff, Z.eqb_eq in He.
        rewrite He in Er. congruence.
  - left. rewrite (pick_scan_first _ 0 _ _ _ j) by (lia || done). unfold eligible in Hej. bool_to_prop.
    assert (0 <= nth_slot k (g_current k) j < g_task_count k) by (apply Z.mod_pos_bound; lia).
    split_and!; [lia|lia|done|]. intros i Hi Hr. rewrite dist_nth_slot by lia.
    destruct (decide (j <= dist k (g_current k) i)); [done|]. pose proof (dist_range k (g_current k) i Hc).
    specialize (Hel i Hi Hr). rewrite Hl in Hel by lia. done.
Qed.

Lemma pick_next_ready_is k :
  0 < g_task_count k -> 0 <= g_current k ->
  (pick_next_ready k = -1 /\ is_ready k 0 = false) \/
  (0 <= pick_next_ready k < g_task_count k /\ is_ready k (pick_next_ready k) = true).
Proof.
  intros Hc Hcur. destruct (pick_next_spec k Hc Hcur) as [(? & ? & _)|[_ E]]; [right; split; [lia|done]|].
  destruct (is_ready k 0) eqn:H0; rewrite E; [right; split; [lia|done]|by left].
Qed.

(** ** The table *)

Definition live k : list task := take (Z.to_nat (g_task_count k)) (g_tasks k).

(** What scheduling reads of a task. *)
Definition view (t : task) : Z * task_state * slice_state := (id t, tstate t, tslice t).

Record table_ok k : Prop := {
  to_length : length (g_tasks k) = Z.to_nat TASK_MAX;
  to_count : 0 < g_task_count k <= TASK_MAX;
  to_current : 0 <= g_current k < g_task_count k;
  to_running : forall i, 0 <= i < g_task_count k -> tstate (slot k i) = TASK_RUNNING -> i = g_current k;
  to_idle : tstate (slot k 0) = TASK_READY \/ tstate (slot k 0) = TASK_RUNNING;
  to_quantum : forall i, 0 <= i < g_task_count k -> 0 < quantum (tslice (slot k i));
  to_ids : forall i, 0 <= i < g_task_count k -> 0 < id (slot k i) < g_next_id k;
  to_distinct : forall i j, 0 <= i < g_task_count k -> 0 <= j < g_task_count k -> id (slot k i) = id (slot k j) -> i = j;
  to_next : g_next_id k <= 2 ^ 31
}.

(** Between two operations the current task can run: it is running, or it
    was woken by its own yield and is still marked ready. *)
Definition can_run k : Prop := tstate (slot k (g_current k)) = TASK_RUNNING \/ tstate (slot k (g_current k)) = TASK_READY.

(** Same table as far as scheduling is concerned. *)
Record same_view k k' : Prop := {
  sv_length : length (g_tasks k') = length (g_tasks k);
  sv_count : g_task_count k' = g_task_count k;
  sv_current : g_current k' = g_current k;
  sv_next : g_next_id k' = g_next_id k;
  sv_view : forall i, 0 <= i < g_task_count k -> view (slot k' i) = view (slot k i)
}.

Lemma same_view_refl k : same_view k k.
Proof. by split. Qed.
Lemma same_view_trans k1 k2 k3 : same_view k1 k2 -> same_view k2 k3 -> same_view k1 k3.
Proof.
  intros [A1 A2 A3 A4 A5] [B1 B2 B3 B4 B5]. split; try congruence. intros i Hi. rewrite B5, A5 by lia. done.
Qed.
Lemma same_view_ok k k' : same_view k k' -> table_ok k -> table_ok k'.
Proof.
  intros [Hl Hc Hcur Hn Hv] [T1 T2 T3 T4 T5 T6 T7 T8 T9].
  assert (forall i, 0 <= i < g_task_count k -> id (slot k' i) = id (slot k i) /\ tstate (slot k' i) = tstate (slot k i) /\ tslice (slot k' i) = tslice (slot k i)) as Hf
    by (intros i Hi; specialize (Hv i Hi); unfold view in Hv; by inversion Hv).
  split; rewrite ?Hc, ?Hcur, ?Hn, ?Hl; try done.
  - intros i Hi. destruct (Hf i Hi) as (_ & -> & _). by apply T4.
  - destruct (Hf 0 ltac:(lia)) as (_ & -> & _). done.
  - intros i Hi. destruct (Hf i Hi) as (_ & _ & ->). by apply T6.
  - intros i Hi. destruct (Hf i Hi) as (-> & _ & _). by apply T7.
  - intros i j Hi Hj. destruct (Hf i Hi) as (-> & _ & _). destruct (Hf j Hj) as (-> & _ & _). by apply T8.
Qed.
Lemma same_view_can_run k k' : same_view k k' -> table_ok k -> can_run k -> can_run k'.
Proof.
  intros Hs Ht Hc. unfold can_run in *. rewrite (sv_current _ _ Hs). pose proof (sv_view _ _ Hs _ (to_current _ Ht)) as E. unfold view in E.
  inversion E as [[E1 E2 E3]]. by rewrite E2.
Qed.

Lemma slot_upd k i j f : 0 <= i < g_task_count k -> 0 <= j -> table_ok k -> slot (upd_slot i f k) j = if decide (j = i) then f (slot k i) else slot k j.
Proof.
  intros Hi Hj Ht. unfold slot, upd_slot. cbn [g_tasks set_tasks]. rewrite list_lookup_total_upd by (rewrite (to_length _ Ht); pose proof (to_count _ Ht); unfold TASK_MAX in *; lia).
  unfold slot. destruct (decide (Z.to_nat j = Z.to_nat i)), (decide (j = i)); try done; lia.
Qed.

Lemma upd_same_view k i f : table_ok k -> 0 <= i < g_task_count k -> view (f (slot k i)) = view (slot k i) -> same_view k (upd_slot i f k).
Proof.
  intros Ht Hi Hf. split; try done; [by cbn [upd_slot g_tasks set_tasks]; rewrite length_insert|].
  intros j Hj. rewrite slot_upd by (lia || done). by case_decide; subst.
Qed.
Lemma env_same_view f k : same_view k (do_env f k).
Proof. by split. Qed.
Lemma shm_same_view l k : same_view k (set_shm l k).
Proof. by split. Qed.

(** ** Waking *)

(** From [k] to [k'] only blocked tasks have changed, to ready ones. *)
Record wakes k k' : Prop := {
  wk_length : length (g_tasks k') = length (g_tasks k);
  wk_count : g_task_count k' = g_task_count k;
  wk_current : g_current k' = g_current k;
  wk_next : g_next_id k' = g_next_id k;
  wk_slot : forall i, 0 <= i < g_task_count k ->
    id (slot k' i) = id (slot k i) /\ quantum (tslice (slot k' i)) = quantum (tslice (slot k i)) /\
    ticks_left (tslice (slot k' i)) = ticks_left (tslice (slot k i)) /\
    (tstate (slot k' i) = tstate (slot k i) \/ (tstate (slot k i) = TASK_BLOCKED /\ tstate (slot k' i) = TASK_READY))
}.
Lemma wakes_refl k : wakes k k.
Proof. split; try done. intros i Hi. by split_and!; try left. Qed.
Lemma wakes_trans k1 k2 k3 : wakes k1 k2 -> wakes k2 k3 -> wakes k1 k3.
Proof.
  intros [A1 A2 A3 A4 A5] [B1 B2 B3 B4 B5]. split; try congruence. intros i Hi.
  destruct (A5 i Hi) as (E1 & E2 & E3 & HA). destruct (B5 i ltac:(lia)) as (F1 & F2 & F3 & HB).
  split_and!; [congruence|congruence|congruence|]. destruct HA as [HA|[HA HA']], HB as [HB|[HB HB']]; [left|right; split|right; split|right; split]; congruence.
Qed.
Lemma same_view_wakes k k' : same_view k k' -> wakes k k'.
Proof.
  intros [A1 A2 A3 A4 A5]. split; try done. intros i Hi. pose proof (A5 i Hi) as E. unfold view in E. inversion E as [[E1 E2 E3]].
  rewrite E1, E2, E3. by split_and!; try left.
Qed.

Lemma wakes_ok k k' : wakes k k' -> table_ok k -> table_ok k'.
Proof.
  intros [Hl Hc Hcur Hn Hv] [T1 T2 T3 T4 T5 T6 T7 T8 T9]. split; rewrite ?Hc, ?Hcur, ?Hn, ?Hl; try done.
  - intros i Hi. destruct (Hv i Hi) as (_ & _ & _ & [E|[_ E]]); rewrite E; [by apply T4|done].
  - destruct (Hv 0 ltac:(lia)) as (_ & _ & _ & [E|[_ E]]); rewrite E; [done|by left].
  - intros i Hi. destruct (Hv i Hi) as (_ & -> & _). by apply T6.
  - intros i Hi. destruct (Hv i Hi) as (-> & _). by apply T7.
  - intros i j Hi Hj. destruct (Hv i Hi) as (-> & _). destruct (Hv j Hj) as (-> & _). by apply T8.
Qed.

(** Making one blocked task ready. *)
Lemma ready_wakes k i w who : table_ok k -> 0 <= i < g_task_count k -> tstate (slot k i) = TASK_BLOCKED ->
  wakes k (upd_slot i (fun t => with_state TASK_READY (with_wait (w t) (who t) t)) k).
Proof.
  intros Ht Hi Hb. split; try done; [by cbn [upd_slot g_tasks set_tasks]; rewrite length_insert|].
  intros j Hj. rewrite slot_upd by (lia || done). case_decide as E; [subst; split_and!; [done|done|done|by right]|by split_and!; try left].
Qed.

Lemma wake_one_wakes i k : table_ok k -> 0 <= i < g_task_count k -> wakes k (wake_one i k).
Proof.
  intros Ht Hi. unfold wake_one. unfold is_state at 1. case_bool_decide as Hb; cbn [negb]; [|apply wakes_refl].
  repeat (case_match; [by apply (ready_wakes k i (fun t => wake_tick (tslice t)) (fun _ => 0)) ||
                        by apply (ready_wakes k i (fun _ => 0) (fun t => wait_task_id (tslice t)))|]). apply wakes_refl.
Qed.
Lemma wake_from_wakes n i k : table_ok k -> 0 <= i -> i + Z.of_nat n <= g_task_count k -> wakes k (wake_from n i k).
Proof.
  revert i k. induction n as [|n IH]; intros i k Ht Hi Hn; cbn [wake_from]; [apply wakes_refl|].
  pose proof (wake_one_wakes i k Ht ltac:(lia)) as Hw. eapply wakes_trans; [exact Hw|].
  apply IH; [by eapply wakes_ok|lia|rewrite (wk_count _ _ Hw); lia].
Qed.
Lemma wake_blocked_wakes k : table_ok k -> wakes k (wake_blocked_tasks k).
Proof. intros Ht. pose proof (to_count _ Ht). apply wake_from_wakes; [done|lia|lia]. Qed.

(** ** The tick *)

(** The state in which the tick decides. *)
Definition tick_prelude k : kernel F :=
  wake_blocked_tasks (do_env (blockdev_pump 1) (do_env net_service_tick (set_ticks (u64 (g_sched_ticks k + 1)) k))).

Lemma tick_prelude_wakes k : table_ok k -> wakes k (tick_prelude k).
Proof.
  intros Ht. unfold tick_prelude. set (k0 := set_ticks _ k). assert (same_view k k0) as H0 by (by split).
  pose proof (same_view_trans _ _ _ H0 (same_view_trans _ _ _ (env_same_view net_service_tick k0) (env_same_view (blockdev_pump 1) _))) as H1.
  eapply wakes_trans; [by apply same_view_wakes, H1|]. apply wake_blocked_wakes. by eapply same_view_ok.
Qed.

Definition cur k : task := slot k (g_current k).
Definition is_running k : bool := is_state TASK_RUNNING (cur k).

(** Everything the decision leaves alone: other tasks, and of the current one
    all but its slice and its mark. *)
Lemma do_switch_spec k prev next :
  table_ok k -> prev = g_current k -> 0 <= next < g_task_count k -> next <> prev -> tstate (slot k next) = TASK_READY ->
  let k' := do_switch prev next k in
  table_ok k' /\ g_current k' = next /\ g_task_count k' = g_task_count k /\ g_next_id k' = g_next_id k /\
  tstate (slot k' next) = TASK_RUNNING /\ ticks_left (tslice (slot k' next)) = quantum (tslice (slot k' next)) /\
  (forall i, 0 <= i < g_task_count k -> id (slot k' i) = id (slot k i) /\ quantum (tslice (slot k' i)) = quantum (tslice (slot k i)) /\
     (i <> next -> ticks_left (tslice (slot k' i)) = ticks_left (tslice (slot k i)) /\
        tstate (slot k' i) = if decide (i = prev /\ tstate (slot k i) = TASK_RUNNING) then TASK_READY else tstate (slot k i))).
Proof.
  intros Ht -> Hn Hne Hr. cbn zeta. pose proof (to_current _ Ht) as Hcur. unfold do_switch. rewrite (proj2 (Z.leb_le _ _)) by lia. cbn [andb].
  set (k1 := if is_state TASK_RUNNING (slot k (g_current k)) then upd_slot (g_current k) (with_state TASK_READY) k else k).
  assert (g_task_count k1 = g_task_count k /\ g_current k1 = g_current k /\ g_next_id k1 = g_next_id k /\ length (g_tasks k1) = length (g_tasks k)) as (Ec & Ecur & Enx & El).
  { unfold k1. case_match; [|done]. cbn. by rewrite length_insert. }
  assert (forall i, 0 <= i < g_task_count k -> slot k1 i = if decide (i = g_current k /\ tstate (slot k i) = TASK_RUNNING) then with_state TASK_READY (slot k i) else slot k i) as E1.
  { intros i Hi. unfold k1, is_state. case_bool_decide as Hs.
    - rewrite slot_upd by (lia || done). repeat case_decide; naive_solver.
    - case_decide as E; [naive_solver|done]. }
  assert (length (g_tasks k1) = Z.to_nat TASK_MAX) as Hlen by (rewrite El; apply Ht).
  set (k2 := upd_slot next _ k1).
  assert (forall i, 0 <= i < g_task_count k -> slot k2 i = if decide (i = next) then with_ticks (quantum (tslice (slot k next))) (with_state TASK_RUNNING (slot k next)) else slot k1 i) as E2.
  { intros i Hi. unfold k2, slot, upd_slot. cbn [g_tasks set_tasks]. pose proof (to_count _ Ht). rewrite list_lookup_total_upd by (rewrite Hlen; unfold TASK_MAX in *; lia).
    fold (slot k1 next) (slot k1 i). assert (slot k1 next = slot k next) as -> by (rewrite (E1 next Hn); apply decide_False; naive_solver).
    destruct (decide (Z.to_nat i = Z.to_nat next)), (decide (i = next)); done || lia. }
  set (k' := set_current next _).
  assert (forall i, slot k' i = slot k2 i) as E3 by done.
  assert (forall i, 0 <= i < g_task_count k -> id (slot k' i) = id (slot k i) /\ quantum (tslice (slot k' i)) = quantum (tslice (slot k i)) /\
     (i <> next -> ticks_left (tslice (slot k' i)) = ticks_left (tslice (slot k i)) /\
        tstate (slot k' i) = if decide (i = g_current k /\ tstate (slot k i) = TASK_RUNNING) then TASK_READY else tstate (slot k i))) as Hsl.
  { intros i Hi. rewrite E3, (E2 i Hi). case_decide as En; [subst; split_and!; done|]. rewrite (E1 i Hi). case_decide; by split_and!. }
  assert (tstate (slot k' next) = TASK_RUNNING /\ ticks_left (tslice (slot k' next)) = quantum (tslice (slot k' next))) as [Hst Htl]
    by (rewrite E3, (E2 next Hn), decide_True by done; done).
  split_and!; try done. destruct Ht as [T1 T2 T3 T4 T5 T6 T7 T8 T9]. cbn [k' g_current set_current do_env g_task_count].
  assert (g_task_count k' = g_task_count k) as Ec' by done. assert (g_next_id k' = g_next_id k) as En' by done. assert (g_current k' = next) as Ecr by done.
  split; rewrite ?Ec', ?En', ?Ecr; try done.
  - cbn. by rewrite length_insert, El.
  - intros i Hi Hri. destruct (decide (i = next)); [done|]. destruct (Hsl i Hi) as (_ & _ & Hx). destruct (Hx n) as [_ Hx']. rewrite Hx' in Hri.
    case_decide as Ed; [done|]. exfalso. apply Ed. split; [by apply T4|done].
  - destruct (decide (0 = next)) as [<-|Hne0]; [by right|]. destruct (Hsl 0 ltac:(lia)) as (_ & _ & Hx). destruct (Hx Hne0) as [_ ->].
    case_decide; [by left|done].
  - intros i Hi. destruct (Hsl i Hi) as (_ & -> & _). by apply T6.
  - intros i Hi. destruct (Hsl i Hi) as (-> & _). by apply T7.
  - intros i j Hi Hj. destruct (Hsl i Hi) as (-> & _). destruct (Hsl j Hj) as (-> & _). by apply T8.
Qed.

(** What the tick does before it decides: blocked tasks may wake and the
    current slice shrinks. *)
Record before_decision k k' : Prop := {
  bd_length : length (g_tasks k') = length (g_tasks k);
  bd_count : g_task_count k' = g_task_count k;
  bd_current : g_current k' = g_current k;
  bd_next : g_next_id k' = g_next_id k;
  bd_slot : forall i, 0 <= i < g_task_count k ->
    id (slot k' i) = id (slot k i) /\ quantum (tslice (slot k' i)) = quantum (tslice (slot k i)) /\
    (i <> g_current k -> ticks_left (tslice (slot k' i)) = ticks_left (tslice (slot k i))) /\
    (tstate (slot k' i) = tstate (slot k i) \/ (tstate (slot k i) = TASK_BLOCKED /\ tstate (slot k' i) = TASK_READY))
}.

Lemma before_decision_ok k k' : before_decision k k' -> table_ok k -> table_ok k'.
Proof.
  intros [Hl Hc Hcur Hn Hv] [T1 T2 T3 T4 T5 T6 T7 T8 T9]. split; rewrite ?Hc, ?Hcur, ?Hn, ?Hl; try done.
  - intros i Hi. destruct (Hv i Hi) as (_ & _ & _ & [E|[_ E]]); rewrite E; [by apply T4|done].
  - destruct (Hv 0 ltac:(lia)) as (_ & _ & _ & [E|[_ E]]); rewrite E; [done|by left].
  - intros i Hi. destruct (Hv i Hi) as (_ & -> & _). by apply T6.
  - intros i Hi. destruct (Hv i Hi) as (-> & _). by apply T7.
  - intros i j Hi Hj. destruct (Hv i Hi) as (-> & _). destruct (Hv j Hj) as (-> & _). by apply T8.
Qed.
Lemma wakes_before_decision k k' : wakes k k' -> before_decision k k'.
Proof. intros [A1 A2 A3 A4 A5]. split; try done. intros i Hi. destruct (A5 i Hi) as (? & ? & ? & ?). by split_and!. Qed.

Definition shrink (t : task) : task := with_ticks (ticks_left (tslice t) - 1) t.
Lemma shrink_before_decision k k' : table_ok k -> wakes k k' -> before_decision k (upd_slot (g_current k') shrink k').
Proof.
  intros Ht Hw. pose proof (wakes_ok _ _ Hw Ht) as Ht'. destruct Hw as [A1 A2 A3 A4 A5]. pose proof (to_current _ Ht').
  split; try done; [by cbn; rewrite length_insert|]. intros i Hi. rewrite slot_upd by (lia || done).
  destruct (A5 i Hi) as (E1 & E2 & E3 & E4). case_decide as E; [subst i|]; split_and!; done.
Qed.

(** The decision of the tick. *)
Definition tick_decides k : kernel F :=
  let next := pick_next_ready k in
  if next <? 0 then k
  else if next =? g_current k then upd_slot (g_current k) (fun t => with_ticks (quantum (tslice t)) t) k
  else do_switch (g_current k) next k.

Lemma tick_cases k : table_ok k ->
  (tstate (cur k) = TASK_RUNNING /\ 1 < ticks_left (tslice (cur k)) /\
   scheduler_tick k = upd_slot (g_current k) shrink (tick_prelude k)) \/
  (~ (tstate (cur k) = TASK_RUNNING /\ 1 < ticks_left (tslice (cur k))) /\
   exists k1, before_decision k k1 /\ scheduler_tick k = tick_decides k1).
Proof.
  intros Ht. pose proof (tick_prelude_wakes k Ht) as Hw. pose proof (wakes_ok _ _ Hw Ht) as Ht'.
  pose proof (to_current _ Ht) as Hcur. pose proof (wk_slot _ _ Hw _ Hcur) as (_ & _ & Etl & Est).
  assert (scheduler_tick k =
    let p := tick_prelude k in
    let running := (0 <=? g_current p) && is_state TASK_RUNNING (slot p (g_current p)) in
    let k1 := if running && (0 <? ticks_left (tslice (slot p (g_current p)))) then upd_slot (g_current p) shrink p else p in
    if running && (0 <? ticks_left (tslice (slot k1 (g_current k1)))) then k1 else tick_decides k1) as -> by done.
  cbn zeta. set (p := tick_prelude k) in *. rewrite (wk_current _ _ Hw) in *. unfold cur.
  rewrite (proj2 (Z.leb_le _ _)) by lia. cbn [andb]. unfold is_state. case_bool_decide as Hr.
  - assert (tstate (slot k (g_current k)) = TASK_RUNNING) as Hrk by (destruct Est as [<-|[_ E]]; congruence). cbn [andb].
    rewrite Etl. destruct (Z.ltb_spec 0 (ticks_left (tslice (slot k (g_current k))))) as [Hpos|Hz].
    + change (g_current (upd_slot (g_current k) shrink p)) with (g_current p). rewrite (wk_current _ _ Hw).
      rewrite slot_upd by (rewrite ?(wk_count _ _ Hw); lia || done). rewrite decide_True by done.
      change (ticks_left (tslice (shrink (slot p (g_current k))))) with (ticks_left (tslice (slot p (g_current k))) - 1). rewrite Etl.
      destruct (Z.ltb_spec 0 (ticks_left (tslice (slot k (g_current k))) - 1)).
      * left. split_and!; [done|lia|done].
      * right. split; [intros [_ ?]; lia|]. eexists. split; [|reflexivity]. rewrite <- (wk_current _ _ Hw). by apply shrink_before_decision.
    + right. split; [intros [_ ?]; lia|]. rewrite (wk_current _ _ Hw), Etl, (proj2 (Z.ltb_ge _ _)) by lia. eexists. split; [|reflexivity]. by apply wakes_before_decision.
  - right. split; [|eexists; split; [|reflexivity]; by apply wakes_before_decision].
    intros [Hk _]. apply Hr. destruct Est as [->|[E _]]; [done|congruence].
Qed.

(** Facts every tick keeps. *)
Record same_tasks k k' : Prop := {
  st_count : g_task_count k' = g_task_count k;
  st_next : g_next_id k' = g_next_id k;
  st_slot : forall i, 0 <= i < g_task_count k -> id (slot k' i) = id (slot k i) /\ quantum (tslice (slot k' i)) = quantum (tslice (slot k i))
}.

Lemma refill_ok k : table_ok k -> table_ok (upd_slot (g_current k) (fun t => with_ticks (quantum (tslice t)) t) k).
Proof.
  intros Ht. pose proof (to_current _ Ht). apply (before_decision_ok k); [|done]. split; try done; [by cbn; rewrite length_insert|].
  intros i Hi. rewrite slot_upd by (lia || done). case_decide; [subst|]; split_and!; (done || by left).
Qed.

Lemma decides_ok k : table_ok k -> table_ok (tick_decides k) /\ can_run (tick_decides k) /\ same_tasks k (tick_decides k).
Proof.
  intros Ht. pose proof (to_current _ Ht) as Hcur. pose proof (to_count _ Ht) as Hcnt. unfold tick_decides.
  assert (tstate (cur k) = TASK_RUNNING \/ is_ready k 0 = true) as Hidle.
  { unfold cur, is_ready, is_state. destruct (to_idle _ Ht) as [E|E]; [right; by apply bool_decide_true|left]. by rewrite <- (to_running _ Ht 0 ltac:(lia) E). }
  assert (same_tasks k k) as Hrefl by (by split).
  destruct (pick_next_ready_is k ltac:(lia) ltac:(lia)) as [[E H0]|[Hr Hrdy]].
  { rewrite E. change (-1 <? 0) with true. cbv iota. split_and!; [done| |done]. left. destruct Hidle as [?|?]; [done|congruence]. }
  rewrite (proj2 (Z.ltb_ge _ _)) by lia. unfold is_ready, is_state in Hrdy. apply bool_decide_eq_true in Hrdy.
  destruct (Z.eqb_spec (pick_next_ready k) (g_current k)) as [E|Hne].
  - split_and!; [by apply refill_ok| |].
    + right. rewrite E in Hrdy. change (g_current (upd_slot (g_current k) (fun t => with_ticks (quantum (tslice t)) t) k)) with (g_current k).
      rewrite slot_upd by (lia || done). by rewrite decide_True by done.
    + split; try done. intros i Hi. rewrite slot_upd by (lia || done). by case_decide; subst.
  - destruct (do_switch_spec k (g_current k) (pick_next_ready k) Ht eq_refl Hr Hne Hrdy) as (Ht' & Ec & Ecnt & Enx & Est & _ & Hsl).
    split_and!; [done|left; by rewrite Ec|]. split; try done. intros i Hi. destruct (Hsl i Hi) as (? & ? & _). done.
Qed.

Lemma before_decision_same k k' : before_decision k k' -> same_tasks k k'.
Proof. intros [? ? ? ? Hs]. split; try done. intros i Hi. by destruct (Hs i Hi) as (? & ? & _). Qed.
Lemma same_tasks_trans k1 k2 k3 : same_tasks k1 k2 -> same_tasks k2 k3 -> same_tasks k1 k3.
Proof.
  intros [A1 A2 A3] [B1 B2 B3]. split; try congruence. intros i Hi. destruct (A3 i Hi), (B3 i ltac:(lia)). split; congruence.
Qed.

(** A tick keeps the table well formed, and the task it leaves current can
    run. *)
Lemma tick_ok k : table_ok k -> table_ok (scheduler_tick k) /\ can_run (scheduler_tick k) /\ same_tasks k (scheduler_tick k).
Proof.
  intros Ht. destruct (tick_cases k Ht) as [(Hr & Hl & ->)|(_ & k1 & Hb & ->)].
  - pose proof (tick_prelude_wakes k Ht) as Hw. pose proof (shrink_before_decision k _ Ht Hw) as Hb.
    rewrite (wk_current _ _ Hw) in Hb. split_and!; [by eapply before_decision_ok| |by apply before_decision_same].
    left. rewrite (bd_current _ _ Hb). destruct (bd_slot _ _ Hb (g_current k) (to_current _ Ht)) as (_ & _ & _ & [->|[? _]]); [done|]. unfold cur in Hr. congruence.
  - destruct (decides_ok k1) as (? & ? & ?); [by eapply before_decision_ok|]. split_and!; [done|done|].
    eapply same_tasks_trans; [by apply before_decision_same|done].
Qed.

(** ** Fairness *)

Lemma dist_inj k c i j : 0 < g_task_count k -> 0 <= i < g_task_count k -> 0 <= j < g_task_count k -> dist k c i = dist k c j -> i = j.
Proof. intros Hc Hi Hj E. rewrite <- (nth_slot_dist k c i), <- (nth_slot_dist k c j) by lia. by rewrite E. Qed.

Lemma dist_after k c r i : 0 < g_task_count k -> dist k c r < dist k c i -> dist k r i < dist k c i.
Proof.
  intros Hc Hlt. pose proof (dist_range k c r Hc). pose proof (dist_range k c i Hc).
  assert (dist k r i = dist k c i - dist k c r - 1) as ->; [|lia].
  unfold dist in *. pose proof (Z.div_mod (i - c - 1) (g_task_count k) ltac:(lia)). pose proof (Z.div_mod (r - c - 1) (g_task_count k) ltac:(lia)).
  symmetry. apply (Z.mod_unique _ _ ((i - c - 1) / g_task_count k - (r - c - 1) / g_task_count k)); [left; lia|]. rewrite Z.mul_sub_distr_l. lia.
Qed.

(** One tick brings a ready task closer to running. *)
Lemma tick_progress k i :
  table_ok k -> 0 < i < g_task_count k -> i <> g_current k -> tstate (slot k i) = TASK_READY ->
  let k' := scheduler_tick k in
  (g_current k' = i /\ tstate (slot k' i) = TASK_RUNNING) \/
  (tstate (slot k' i) = TASK_READY /\ g_current k' <> i /\ tstate (cur k') = TASK_RUNNING /\
   ((g_current k' = g_current k /\ tstate (cur k) = TASK_RUNNING /\ ticks_left (tslice (cur k')) = ticks_left (tslice (cur k)) - 1 /\ 0 < ticks_left (tslice (cur k'))) \/
    (dist k (g_current k') i < dist k (g_current k) i /\ ticks_left (tslice (cur k')) = quantum (tslice (cur k'))))).
Proof.
  intros Ht Hi Hne Hrdy. cbn zeta. pose proof (to_current _ Ht) as Hcur.
  destruct (tick_cases k Ht) as [(Hr & Hl & ->)|(_ & k1 & Hb & ->)].
  - pose proof (tick_prelude_wakes k Ht) as Hw. pose proof (wakes_ok _ _ Hw Ht) as Ht'. right.
    pose proof (wk_slot _ _ Hw i ltac:(lia)) as (_ & _ & _ & Hsi). pose proof (wk_slot _ _ Hw _ Hcur) as (_ & _ & Etl & Est).
    unfold cur in *. change (g_current (upd_slot (g_current k) shrink (tick_prelude k))) with (g_current (tick_prelude k)). rewrite (wk_current _ _ Hw).
    rewrite !slot_upd by (rewrite ?(wk_count _ _ Hw); lia || done). rewrite decide_False by done. rewrite decide_True by done.
    split_and!; [destruct Hsi as [->|[? ?]]; done|done|destruct Est as [E|[? ?]]; [by rewrite <- Hr, <- E|congruence]|].
    left. change (ticks_left (tslice (shrink (slot (tick_prelude k) (g_current k))))) with (ticks_left (tslice (slot (tick_prelude k) (g_current k))) - 1).
    rewrite Etl. split_and!; [done|done|done|lia].
  - pose proof (before_decision_ok _ _ Hb Ht) as Ht1. pose proof (to_count _ Ht) as Hcnt.
    destruct (bd_slot _ _ Hb i ltac:(lia)) as (_ & _ & _ & Hsi).
    assert (tstate (slot k1 i) = TASK_READY) as Hi1 by (destruct Hsi as [->|[_ ?]]; done).
    assert (is_ready k1 i = true) as Hri by (by apply bool_decide_true).
    destruct (pick_next_spec k1) as [(Hr & Hrr & Hmin)|[Hno _]]; [rewrite (bd_count _ _ Hb); lia|rewrite (bd_current _ _ Hb); lia| |].
    2: { rewrite Hno in Hri; [done|rewrite (bd_count _ _ Hb); lia]. }
    specialize (Hmin i ltac:(rewrite (bd_count _ _ Hb); lia) Hri). rewrite (bd_current _ _ Hb) in *.
    assert (forall c j, dist k1 c j = dist k c j) as Ed by (intros; unfold dist; by rewrite (bd_count _ _ Hb)). rewrite !Ed in Hmin.
    unfold tick_decides. rewrite (proj2 (Z.ltb_ge _ _)) by lia. rewrite (bd_current _ _ Hb). set (r := pick_next_ready k1) in *. rewrite (bd_count _ _ Hb) in Hr.
    assert (r <> g_current k) as Hrc.
    { intros E. rewrite E in Hmin. unfold dist in Hmin. replace (g_current k - g_current k - 1) with (-1) in Hmin by lia.
      rewrite <- (Z.mod_add (-1) 1 (g_task_count k)), (Z.mod_small (-1 + 1 * g_task_count k)) in Hmin by lia.
      pose proof (dist_range k (g_current k) i ltac:(lia)) as Hd.
      assert (dist k (g_current k) i = dist k (g_current k) (g_current k)) as E2.
      { unfold dist at 2. replace (g_current k - g_current k - 1) with (-1) by lia.
        rewrite <- (Z.mod_add (-1) 1 (g_task_count k)), (Z.mod_small (-1 + 1 * g_task_count k)) by lia. unfold dist in *. lia. }
      apply dist_inj in E2; lia. }
    rewrite (proj2 (Z.eqb_neq _ _)) by done. unfold is_ready, is_state in Hrr. apply bool_decide_eq_true in Hrr.
    destruct (do_switch_spec k1 (g_current k) r Ht1) as (Ht' & Ec & Ecnt & _ & Est & Etl & Hsl);
      [by rewrite (bd_current _ _ Hb)|rewrite (bd_count _ _ Hb); lia|done|done|].
    destruct (decide (r = i)) as [Er|Hri']; [left; by rewrite <- Er|right]. unfold cur. rewrite Ec. destruct (Hsl i ltac:(rewrite (bd_count _ _ Hb); lia)) as (_ & _ & Hx).
    destruct (Hx ltac:(done)) as [_ Hst]. split_and!; [|done|done|right; split; [|done]].
    + rewrite Hst, Hi1. by rewrite decide_False by (intros [? ?]; congruence).
    + apply dist_after; [lia|]. destruct (decide (dist k (g_current k) r = dist k (g_current k) i)) as [E|]; [|lia].
      apply dist_inj in E; [congruence|lia|lia|lia].
Qed.

Definition slice_left k : Z := if is_running k then Z.max 0 (ticks_left (tslice (cur k))) else 0.

Lemma fairness_bound Q i (n : nat) k :
  table_ok k -> 0 < i < g_task_count k -> i <> g_current k -> tstate (slot k i) = TASK_READY ->
  (forall j, 0 <= j < g_task_count k -> quantum (tslice (slot k j)) <= Q) ->
  dist k (g_current k) i * (Q + 1) + slice_left k < Z.of_nat n ->
  exists m, (m <= n)%nat /\ let k' := Nat.iter m scheduler_tick k in g_current k' = i /\ tstate (slot k' i) = TASK_RUNNING.
Proof.
  revert k. induction n as [|n IH]; intros k Ht Hi Hne Hr HQ Hn.
  { pose proof (dist_range k (g_current k) i ltac:(lia)). pose proof (HQ i ltac:(lia)). pose proof (to_quantum _ Ht i ltac:(lia)).
    assert (0 <= dist k (g_current k) i * (Q + 1)) by nia. unfold slice_left in Hn. case_match; lia. }
  destruct (tick_ok k Ht) as (Ht' & _ & [Ec _ Hsl]). pose proof (to_current _ Ht') as Hcur'. rewrite Ec in Hcur'.
  assert (forall c j, dist (scheduler_tick k) c j = dist k c j) as Ed by (intros; unfold dist; by rewrite Ec).
  destruct (tick_progress k i Ht Hi Hne Hr) as [[E Er]|(Hr' & Hne' & Hrun & Hcase)]; [by exists 1%nat; split; [lia|]|].
  destruct (IH (scheduler_tick k)) as (m & Hm & Hk); [done|by rewrite Ec|done|done| | |].
  - intros j Hj. rewrite Ec in Hj. destruct (Hsl j Hj) as [_ ->]. by apply HQ.
  - rewrite Ed. assert (slice_left (scheduler_tick k) = Z.max 0 (ticks_left (tslice (cur (scheduler_tick k))))) as ->
      by (unfold slice_left, is_running, is_state; by rewrite bool_decide_true).
    pose proof (dist_range k (g_current k) i ltac:(lia)). pose proof (HQ i ltac:(lia)). pose proof (to_quantum _ Ht i ltac:(lia)).
    destruct Hcase as [(Ec' & Hrk & Etl & Hpos)|[Hd Etl]].
    + rewrite Ec'. unfold slice_left, is_running, is_state in Hn. rewrite bool_decide_true in Hn by done. lia.
    + destruct (Hsl _ Hcur') as [_ Eq]. unfold cur in *. pose proof (HQ _ Hcur'). rewrite Etl, Eq in *.
      assert (0 <= slice_left k) by (unfold slice_left; case_match; lia). nia.
  - exists (S m). split; [lia|]. by rewrite Nat.iter_succ_r.
Qed.

(** C4: Round robin is fair: when every quantum is at most [Q], a ready task
    other than the idle one runs after at most [count * (Q + 1)] timer ticks,
    whatever the other tasks are. *)
Theorem round_robin_bounded Q i k :
  table_ok k -> 0 < i < g_task_count k -> tstate (slot k i) = TASK_READY -> i <> g_current k ->
  (forall j, 0 <= j < g_task_count k -> quantum (tslice (slot k j)) <= Q) -> ticks_left (tslice (cur k)) <= Q ->
  exists n : nat, Z.of_nat n <= g_task_count k * (Q + 1) /\
    let k' := Nat.iter n scheduler_tick k in g_current k' = i /\ tstate (slot k' i) = TASK_RUNNING.
Proof.
  intros Ht Hi Hr Hne HQ Hl. pose proof (HQ i ltac:(lia)). pose proof (to_quantum _ Ht i ltac:(lia)).
  destruct (fairness_bound Q i (Z.to_nat (g_task_count k * (Q + 1))) k) as (m & Hm & Hk); try done.
  - pose proof (dist_range k (g_current k) i ltac:(lia)). pose proof (to_current _ Ht).
    rewrite Z2Nat.id by nia. assert (slice_left k <= Q) by (unfold slice_left; case_match; lia). nia.
  - exists m. split; [nia|done].
Qed.

Lemma wake_one_ticks i k : g_sched_ticks (wake_one i k) = g_sched_ticks k.
Proof. unfold wake_one. by repeat case_match. Qed.
Lemma wake_from_ticks n i k : g_sched_ticks (wake_from n i k) = g_sched_ticks k.
Proof. revert i k. induction n as [|n IH]; intros i k; cbn [wake_from]; [done|]. by rewrite IH, wake_one_ticks. Qed.

(** A yield does not give up the processor while the slice has ticks
    left: it only counts as a timer tick, for the slice, for the clock of the
    scheduler and for sleeping tasks, though others may be ready. *)
Theorem yield_keeps_running k :
  table_ok k -> tstate (cur k) = TASK_RUNNING -> 1 < ticks_left (tslice (cur k)) ->
  g_current (task_yield k) = g_current k /\ ticks_left (tslice (cur (task_yield k))) = ticks_left (tslice (cur k)) - 1 /\
  g_sched_ticks (task_yield k) = u64 (g_sched_ticks k + 1).
Proof.
  intros Ht Hr Hl. unfold task_yield. destruct (tick_cases k Ht) as [(_ & _ & ->)|(Hn & _)]; [|by destruct Hn].
  pose proof (tick_prelude_wakes k Ht) as Hw. pose proof (wakes_ok _ _ Hw Ht) as Ht'. pose proof (to_current _ Ht) as Hcur.
  pose proof (wk_slot _ _ Hw _ Hcur) as (_ & _ & Etl & _).
  change (g_current (upd_slot (g_current k) shrink (tick_prelude k))) with (g_current (tick_prelude k)). unfold cur.
  change (g_current (upd_slot (g_current k) shrink (tick_prelude k))) with (g_current (tick_prelude k)). rewrite (wk_current _ _ Hw).
  rewrite slot_upd by (rewrite ?(wk_count _ _ Hw); lia || done). rewrite decide_True by done.
  split_and!; [done|by rewrite <- Etl|]. change (g_sched_ticks (upd_slot (g_current k) shrink (tick_prelude k))) with (g_sched_ticks (tick_prelude k)).
  apply wake_from_ticks.
Qed.

(** ** The other operations keep the table *)

Lemma foldl_same_view {A} (g : kernel F -> A -> kernel F) l k : (forall k x, same_view k (g k x)) -> same_view k (foldl g k l).
Proof.
  intros Hg. revert k. induction l as [|x l IH]; intros k; cbn [foldl]; [apply same_view_refl|]. eapply same_view_trans; [apply Hg|apply IH].
Qed.

Lemma upd_shm_same_view i f k : same_view k (upd_shm i f k).
Proof. by split. Qed.
Lemma shm_destroy_same_view i k : same_view k (shm_destroy i k).
Proof.
  unfold shm_destroy. case_match; [apply same_view_refl|]. eapply same_view_trans; [|apply upd_shm_same_view].
  apply foldl_same_view. intros k0 x. case_match; [apply env_same_view|apply same_view_refl].
Qed.
Lemma shm_ref_same_view i k : same_view k (shm_ref i k).
Proof. unfold shm_ref. case_match; [apply same_view_refl|apply upd_shm_same_view]. Qed.
Lemma shm_unref_same_view i k : same_view k (shm_unref i k).
Proof.
  unfold shm_unref. case_match; [apply same_view_refl|]. case_match.
  - eapply same_view_trans; [apply upd_shm_same_view|apply shm_destroy_same_view].
  - apply upd_shm_same_view.
Qed.
Lemma drop_region_same_view r k : same_view k (drop_region r k).
Proof.
  unfold drop_region. set (k1 := if negb (rg_file_node r =? 0) then _ else _).
  assert (same_view k k1) as H1 by (unfold k1; case_match; [apply env_same_view|apply same_view_refl]).
  case_match; [eapply same_view_trans; [exact H1|apply shm_unref_same_view]|done].
Qed.

(** An update of fields scheduling does not read, after changes outside the table. *)
Lemma then_upd k k1 i f : table_ok k -> same_view k k1 -> 0 <= i < g_task_count k -> (forall t, view (f t) = view t) -> same_view k (upd_slot i f k1).
Proof.
  intros Ht Hs Hi Hf. eapply same_view_trans; [exact Hs|]. apply upd_same_view; [by eapply same_view_ok|by rewrite (sv_count _ _ Hs)|done].
Qed.

Lemma close_fds_same_view p i k : table_ok k -> 0 <= i < g_task_count k -> same_view k (close_fds p i k).
Proof.
  intros Ht Hi. unfold close_fds. apply then_upd; try done. apply foldl_same_view. intros k0 x. case_match; [apply env_same_view|apply same_view_refl].
Qed.
Lemma mmap_clear_same_view i k : table_ok k -> 0 <= i < g_task_count k -> same_view k (task_mmap_table_clear i k).
Proof.
  intros Ht Hi. unfold task_mmap_table_clear. apply then_upd; try done. apply foldl_same_view. intros k0 x. case_match; [apply drop_region_same_view|apply same_view_refl].
Qed.
Lemma elf_clear_same_view i k : table_ok k -> 0 <= i < g_task_count k -> same_view k (task_lazy_elf_clear i k).
Proof.
  intros Ht Hi. unfold task_lazy_elf_clear. apply then_upd; try done. repeat case_match; (apply env_same_view || apply same_view_refl).
Qed.
Lemma release_mm_same_view i k : table_ok k -> 0 <= i < g_task_count k -> same_view k (release_task_mm i k).
Proof. intros Ht Hi. unfold release_task_mm. by apply then_upd. Qed.

Lemma map_tasks_slot f k i : table_ok k -> 0 <= i < g_task_count k -> slot (map_tasks f k) i = f (slot k i).
Proof.
  intros Ht Hi. pose proof (to_length _ Ht) as Hl. pose proof (to_count _ Ht) as Hc. unfold TASK_MAX in *. unfold slot, map_tasks. cbn [g_tasks set_tasks].
  rewrite !list_lookup_total_alt, lookup_app_l by (rewrite length_map, length_take; lia).
  rewrite list_lookup_fmap, lookup_take_lt by lia.
  destruct (lookup_lt_is_Some_2 (g_tasks k) (Z.to_nat i)) as [t Et]; [lia|]. by rewrite Et.
Qed.
Lemma map_tasks_length f k : table_ok k -> length (g_tasks (map_tasks f k)) = length (g_tasks k).
Proof.
  intros Ht. pose proof (to_length _ Ht) as Hl. pose proof (to_count _ Ht) as Hc. unfold TASK_MAX in *.
  unfold map_tasks. cbn [g_tasks set_tasks]. rewrite length_app, length_map, length_take, length_drop. lia.
Qed.
Lemma map_tasks_same_view f k : table_ok k -> (forall t, view (f t) = view t) -> same_view k (map_tasks f k).
Proof.
  intros Ht Hf. split; try done; [by apply map_tasks_length|]. intros i Hi. by rewrite map_tasks_slot by done.
Qed.

Lemma find_slot_range p n i k : 0 <= i -> find_slot p n i k = -1 \/ (i <= find_slot p n i k < i + Z.of_nat n /\ p (slot k (find_slot p n i k)) = true).
Proof.
  revert i. induction n as [|n IH]; intros i Hi; cbn [find_slot]; [by left|]. destruct (p (slot k i)) eqn:E; [right; split; [lia|done]|].
  destruct (IH (i + 1)) as [E'|[H1 H2]]; [lia|by left|right; split; [lia|done]].
Qed.
Lemma find_slot_none p n i k : find_slot p n i k < 0 -> 0 <= i -> forall j, i <= j < i + Z.of_nat n -> p (slot k j) = false.
Proof.
  revert i. induction n as [|n IH]; intros i Hf Hi j Hj; [lia|]. cbn [find_slot] in Hf. destruct (p (slot k i)) eqn:E; [lia|].
  destruct (decide (j = i)) as [->|]; [done|]. apply (IH (i + 1)); [done|lia|lia].
Qed.
Lemma find_task_range p k : find_task p k = -1 \/ (0 <= find_task p k < g_task_count k /\ p (slot k (find_task p k)) = true).
Proof.
  unfold find_task. destruct (find_slot_range p (Z.to_nat (g_task_count k)) 0 k) as [E|[H1 H2]]; [lia|by left|right; split; [lia|done]].
Qed.
Lemma find_index_range pid k : find_task_index_by_id pid k < 0 \/ 0 <= find_task_index_by_id pid k < g_task_count k.
Proof. unfold find_task_index_by_id. case_match; [left; lia|]. destruct (find_task_range (fun t => i32 (id t) =? pid) k) as [->|[? _]]; [left; lia|by right]. Qed.

Lemma notify_same_view p k : table_ok k -> same_view k (notify_parent_sigchld p k).
Proof.
  intros Ht. unfold notify_parent_sigchld. case_match; [apply same_view_refl|]. apply upd_same_view; [done| |done].
  bool_to_prop. destruct (find_index_range (i32 p) k); lia.
Qed.

(** Setting the state of one task, not the idle one, to a state other than
    running. *)
Definition stops k k' (idx : Z) : Prop :=
  length (g_tasks k') = length (g_tasks k) /\ g_task_count k' = g_task_count k /\ g_current k' = g_current k /\ g_next_id k' = g_next_id k /\
  forall i, 0 <= i < g_task_count k -> id (slot k' i) = id (slot k i) /\ quantum (tslice (slot k' i)) = quantum (tslice (slot k i)) /\
    if decide (i = idx) then tstate (slot k' i) <> TASK_RUNNING else tstate (slot k' i) = tstate (slot k i).

Lemma stops_ok k k' idx : stops k k' idx -> 0 < idx -> table_ok k -> table_ok k'.
Proof.
  intros (Hl & Hc & Hcur & Hn & Hv) Hidx [T1 T2 T3 T4 T5 T6 T7 T8 T9]. split; rewrite ?Hc, ?Hcur, ?Hn, ?Hl; try done.
  - intros i Hi Hr. destruct (Hv i Hi) as (_ & _ & E). case_decide; [done|]. apply T4; [done|congruence].
  - destruct (Hv 0 ltac:(lia)) as (_ & _ & E). rewrite decide_False in E by lia. by rewrite E.
  - intros i Hi. destruct (Hv i Hi) as (_ & -> & _). by apply T6.
  - intros i Hi. destruct (Hv i Hi) as (-> & _). by apply T7.
  - intros i j Hi Hj. destruct (Hv i Hi) as (-> & _). destruct (Hv j Hj) as (-> & _). by apply T8.
Qed.

Lemma upd_stops k idx f : table_ok k -> 0 <= idx < g_task_count k ->
  id (f (slot k idx)) = id (slot k idx) -> quantum (tslice (f (slot k idx))) = quantum (tslice (slot k idx)) -> tstate (f (slot k idx)) <> TASK_RUNNING ->
  stops k (upd_slot idx f k) idx.
Proof.
  intros Ht Hi H1 H2 H3. split_and!; try done; [by cbn; rewrite length_insert|]. intros i Hii. rewrite slot_upd by (lia || done).
  case_decide; [subst|]; done.
Qed.
Lemma stops_view k k1 k2 idx : same_view k k1 -> stops k1 k2 idx -> stops k k2 idx.
Proof.
  intros [A1 A2 A3 A4 A5] (B1 & B2 & B3 & B4 & B5). split_and!; try congruence. intros i Hi.
  pose proof (A5 i Hi) as E. unfold view in E. inversion E as [[E1 E2 E3]]. rewrite A2 in B5. destruct (B5 i Hi) as (C1 & C2 & C3).
  split_and!; [congruence|congruence|]. case_decide; congruence.
Qed.
Lemma view_stops k k1 k2 idx : stops k k1 idx -> same_view k1 k2 -> stops k k2 idx.
Proof.
  intros (A1 & A2 & A3 & A4 & A5) [B1 B2 B3 B4 B5]. split_and!; try congruence. intros i Hi.
  pose proof (B5 i ltac:(lia)) as E. unfold view in E. inversion E as [[E1 E2 E3]]. rewrite E1, E2, E3. by apply A5.
Qed.

(** The end of a task other than the idle one. *)
Lemma mark_dead_stops idx status sig k : table_ok k -> 0 < idx < g_task_count k -> tstate (slot k idx) <> TASK_DEAD ->
  let k' := mark_task_dead_index idx status sig k in
  stops k k' idx /\ tstate (slot k' idx) = TASK_DEAD /\ tending (slot k' idx) = mk_ending status sig false.
Proof.
  intros Ht Hi0 Hd. assert (0 <= idx < g_task_count k) as Hi by lia. cbn zeta. unfold mark_task_dead_index. rewrite (proj2 (Z.leb_gt _ _)) by lia. unfold is_state. rewrite bool_decide_false by done.
  set (k1 := reparent_children _ _ k). assert (same_view k k1) as S1 by (apply map_tasks_same_view; [done|intros t; by case_match]).
  pose proof (same_view_ok _ _ S1 Ht) as T1. assert (0 <= idx < g_task_count k1) as I1 by (by rewrite (sv_count _ _ S1)).
  set (k2 := task_fd_table_close_all idx k1). assert (same_view k1 k2) as S2 by (by apply close_fds_same_view).
  pose proof (same_view_ok _ _ S2 T1) as T2. assert (0 <= idx < g_task_count k2) as I2 by (by rewrite (sv_count _ _ S2)).
  set (k3 := task_mmap_table_clear idx k2). assert (same_view k2 k3) as S3 by (by apply mmap_clear_same_view).
  pose proof (same_view_ok _ _ S3 T2) as T3. assert (0 <= idx < g_task_count k3) as I3 by (by rewrite (sv_count _ _ S3)).
  set (k4 := task_lazy_elf_clear idx k3). assert (same_view k3 k4) as S4 by (by apply elf_clear_same_view).
  pose proof (same_view_ok _ _ S4 T3) as T4. assert (0 <= idx < g_task_count k4) as I4 by (by rewrite (sv_count _ _ S4)).
  set (k5 := release_task_mm idx k4). assert (same_view k4 k5) as S5 by (by apply release_mm_same_view).
  pose proof (same_view_ok _ _ S5 T4) as T5. assert (0 <= idx < g_task_count k5) as I5 by (by rewrite (sv_count _ _ S5)).
  pose proof (same_view_trans _ _ _ S1 (same_view_trans _ _ _ S2 (same_view_trans _ _ _ S3 (same_view_trans _ _ _ S4 S5)))) as S.
  clearbody k5. clear -S I5 T5 Hi0. set (k6 := upd_slot idx (bury status sig) k5).
  assert (stops k5 k6 idx) as St by (by apply upd_stops).
  pose proof (stops_ok _ _ _ St ltac:(lia) T5) as T6. pose proof (notify_same_view (parent_id (slot k idx)) k6 T6) as S6.
  split; [exact (view_stops _ _ _ _ (stops_view _ _ _ _ S St) S6)|].
  assert (tstate (slot k6 idx) = TASK_DEAD /\ tending (slot k6 idx) = mk_ending status sig false) as [E1 E2]
    by (unfold k6; rewrite slot_upd by (lia || done); by rewrite decide_True by done).
  assert (0 <= idx < g_task_count k6) as I6 by done.
  split; [pose proof (sv_view _ _ S6 idx I6) as E; unfold view in E; inversion E; congruence|].
  rewrite <- E2. unfold notify_parent_sigchld. case_match; [done|]. rewrite slot_upd; [|bool_to_prop; destruct (find_index_range (i32 (parent_id (slot k idx))) k6); lia|lia|done].
  case_decide as E; [by rewrite <- E|done].
Qed.

(** ** Removing a task *)

Lemma shift_down_lookup idx n (l : list task) j : (idx < n)%nat -> (n <= length l)%nat -> (j < n - 1)%nat ->
  shift_down idx n l !!! j = if decide (j < idx)%nat then l !!! j else l !!! S j.
Proof.
  intros Hi Hn Hj. unfold shift_down. rewrite !list_lookup_total_alt. case_decide.
  - rewrite lookup_app_l by (rewrite length_take; lia). by rewrite lookup_take_lt by lia.
  - rewrite lookup_app_r by (rewrite length_take; lia). rewrite length_take, Nat.min_l by lia.
    rewrite lookup_app_l by (rewrite length_take, length_drop; lia). rewrite lookup_take_lt, lookup_drop by lia. do 2 f_equal. lia.
Qed.
Lemma shift_down_length idx n (l : list task) : (idx < n)%nat -> (n <= length l)%nat -> length (shift_down idx n l) = length l.
Proof. intros Hi Hn. unfold shift_down. rewrite !length_app, !length_take, !length_drop. lia. Qed.

(** The slot a remaining task moves to. *)
Definition from_slot (idx j : Z) : Z := if j <? idx then j else j + 1.

Lemma reap_spec idx k : table_ok k -> 0 <= idx < g_task_count k -> idx <> g_current k -> tstate (slot k idx) = TASK_DEAD ->
  let k' := reap_task_index idx k in
  table_ok k' /\ g_task_count k' = g_task_count k - 1 /\ g_next_id k' = g_next_id k /\ g_current k = from_slot idx (g_current k') /\
  forall j, 0 <= j < g_task_count k' -> slot k' j = slot k (from_slot idx j).
Proof.
  intros Ht Hi Hne Hd. cbn zeta. pose proof (to_length _ Ht) as Hlen. pose proof (to_count _ Ht) as Hcnt. pose proof (to_current _ Ht) as Hcur. unfold TASK_MAX in *.
  assert (idx <> 0) as Hnz by (intros ->; destruct (to_idle _ Ht); congruence).
  unfold reap_task_index. rewrite (proj2 (Z.leb_gt _ _)), (proj2 (Z.eqb_neq _ _)) by lia. unfold is_state. rewrite bool_decide_true by done. cbn [negb].
  set (k1 := if negb (kstack_base (slot k idx) =? 0) then _ else k).
  assert (g_task_count k1 = g_task_count k /\ g_current k1 = g_current k /\ g_next_id k1 = g_next_id k /\ length (g_tasks k1) = length (g_tasks k)) as (Ec & Ecur & Enx & El).
  { unfold k1. case_match; [|done]. cbn. by rewrite length_insert. }
  assert (forall j, 0 <= j < g_task_count k -> j <> idx -> slot k1 j = slot k j) as Es.
  { intros j Hj Hji. unfold k1. case_match; [|done]. set (k0 := do_env _ k). assert (table_ok k0) as T0 by (apply (same_view_ok k); [by split|done]).
    rewrite slot_upd by (done || lia). by rewrite decide_False by done. }
  rewrite Ec. rewrite (proj2 (Z.ltb_lt 0 _)) by lia.
  set (k2 := set_tasks (shift_down (Z.to_nat idx) (Z.to_nat (g_task_count k)) (g_tasks k1)) (g_task_count k - 1) k1).
  assert (g_current k2 = g_current k) as E2 by exact Ecur. rewrite E2.
  set (k' := if idx <? g_current k then _ else k2).
  assert (g_tasks k' = g_tasks k2 /\ g_task_count k' = g_task_count k - 1 /\ g_next_id k' = g_next_id k) as (Et & Ec' & En') by (unfold k'; case_match; done).
  assert (g_current k' = if idx <? g_current k then g_current k - 1 else g_current k) as Ecr by (unfold k'; case_match; done).
  assert (forall j, 0 <= j < g_task_count k - 1 -> slot k' j = slot k (from_slot idx j)) as Hsl.
  { intros j Hj. unfold slot at 1. rewrite Et. unfold k2. cbn [g_tasks set_tasks]. rewrite shift_down_lookup by lia. unfold from_slot.
    destruct (decide (Z.to_nat j < Z.to_nat idx)%nat), (Z.ltb_spec j idx); try lia.
    - apply (Es j); lia.
    - replace (S (Z.to_nat j)) with (Z.to_nat (j + 1)) by lia. apply (Es (j + 1)); lia. }
  assert (g_current k = from_slot idx (g_current k')) as Efr.
  { rewrite Ecr. unfold from_slot. clear -Hne. repeat case_match; bool_to_prop; lia. }
  assert (forall j, 0 <= j < g_task_count k - 1 -> 0 <= from_slot idx j < g_task_count k) as Hfr by (intros j Hj; unfold from_slot; clear -Hj Hi; destruct (Z.ltb_spec j idx); lia).
  assert (forall i j, from_slot idx i = from_slot idx j -> i = j) as Hinj by (intros i j; clear; unfold from_slot; destruct (Z.ltb_spec i idx), (Z.ltb_spec j idx); lia).
  split_and!; [|done|done|done|intros j Hj; apply Hsl; lia].
  destruct Ht as [T1 T2 T3 T4 T5 T6 T7 T8 T9]. split; rewrite ?Ec', ?En'; try done.
  - rewrite Et. unfold k2. cbn [g_tasks set_tasks]. by rewrite shift_down_length by lia; rewrite El.
  - unfold TASK_MAX. lia.
  - rewrite Ecr. destruct (Z.ltb_spec idx (g_current k)); lia.
  - intros j Hj. rewrite Hsl by done. intros Hr. apply (T4 (from_slot idx j) (Hfr j Hj)) in Hr. apply Hinj. congruence.
  - rewrite Hsl by lia. unfold from_slot. by rewrite (proj2 (Z.ltb_lt 0 idx)) by lia.
  - intros j Hj. rewrite Hsl by done. by apply T6, Hfr.
  - intros j Hj. rewrite Hsl by done. by apply T7, Hfr.
  - intros i j Hii Hj. rewrite !Hsl by done. intros E. apply Hinj, T8; [by apply Hfr|by apply Hfr|done].
Qed.

(** The sweep ends and keeps the current task. *)
Lemma sweep_spec fuel i init k : table_ok k -> can_run k -> 0 <= i -> (Z.to_nat (g_task_count k - i) < fuel)%nat ->
  exists k', sweep_from fuel i init k = Some k' /\ table_ok k' /\ can_run k' /\ g_next_id k' = g_next_id k /\ g_task_count k' <= g_task_count k /\
    slot k' (g_current k') = slot k (g_current k).
Proof.
  revert i k. induction fuel as [|fuel IH]; intros i k Ht Hc Hi Hf; [lia|]. cbn [sweep_from].
  destruct (Z.leb_spec (g_task_count k) i); [by exists k|].
  destruct (reapable init (slot k i)) eqn:Hr.
  - assert (tstate (slot k i) = TASK_DEAD) as Hd by (unfold reapable, is_state in Hr; bool_to_prop; by apply bool_decide_eq_true in H1).
    assert (i <> g_current k) as Hne by (intros ->; destruct Hc; congruence).
    destruct (reap_spec i k Ht ltac:(lia) Hne Hd) as (Ht' & Ec & En & Ecr & Hsl). pose proof (to_current _ Ht').
    assert (slot (reap_task_index i k) (g_current (reap_task_index i k)) = slot k (g_current k)) as Es by (rewrite Hsl by done; by rewrite <- Ecr).
    destruct (IH i (reap_task_index i k)) as (k' & -> & ? & ? & ? & ? & Es'); [done|by unfold can_run; rewrite Es|done|lia|].
    exists k'. split_and!; try done; [congruence|lia|congruence].
  - destruct (IH (i + 1) k) as (k' & -> & ? & ? & ? & ? & ?); [done|done|lia|lia|]. by exists k'.
Qed.

(** ** Creating a task *)

Lemma push_words_env top ws k : exists f, push_words top ws k = do_env f k.
Proof.
  unfold push_words. revert top k. induction ws as [|v ws IH]; intros top k; cbn [foldl]; [by exists (fun e => e); destruct k|].
  destruct (IH (top - 4) (do_env (store32 (top - 4) v) k)) as [f ->]. by exists (fun e => f (store32 (top - 4) v e)).
Qed.

Lemma sweep_tasks_spec k : table_ok k -> can_run k ->
  exists k', sweep_reapable_tasks k = Some k' /\ table_ok k' /\ can_run k' /\ g_next_id k' = g_next_id k /\ slot k' (g_current k') = slot k (g_current k).
Proof.
  intros Ht Hc. pose proof (to_count _ Ht). unfold TASK_MAX in *. destruct (sweep_spec 65 0 (init_task_id k) k) as (k' & ? & ? & ? & ? & _ & ?); [done|done|lia|lia|].
  by exists k'.
Qed.

(** A task filled into the first free slot and counted. *)
Lemma append_ok k k' t :
  table_ok k -> g_task_count k < TASK_MAX -> g_next_id k < 2 ^ 31 ->
  length (g_tasks k') = length (g_tasks k) -> g_task_count k' = g_task_count k + 1 -> g_current k' = g_current k -> g_next_id k' = g_next_id k + 1 ->
  (forall i, 0 <= i < g_task_count k -> slot k' i = slot k i) -> slot k' (g_task_count k) = t ->
  id t = g_next_id k -> tstate t = TASK_READY -> 0 < quantum (tslice t) -> table_ok k'.
Proof.
  intros [T1 T2 T3 T4 T5 T6 T7 T8 T9] Hlt Hnx El Ec Ecur En Hsl Est Eid Estt Hq.
  assert (forall i, 0 <= i < g_task_count k' -> (0 <= i < g_task_count k /\ slot k' i = slot k i) \/ (i = g_task_count k /\ slot k' i = t)) as Hcase.
  { intros i Hi. destruct (decide (i = g_task_count k)) as [->|]; [by right|left; split; [lia|apply Hsl; lia]]. }
  split; rewrite ?El, ?Ecur; try done; try lia.
  - intros i Hi Hr. destruct (Hcase i Hi) as [[Hi' E]|[-> E]]; rewrite E in Hr; [by apply T4|congruence].
  - by rewrite Hsl by lia.
  - intros i Hi. destruct (Hcase i Hi) as [[Hi' ->]|[_ ->]]; [by apply T6|done].
  - intros i Hi. destruct (Hcase i Hi) as [[Hi' ->]|[_ ->]]; [specialize (T7 i Hi'); lia|rewrite Eid, En; specialize (T7 0 ltac:(lia)); lia].
  - intros i j Hi Hj. destruct (Hcase i Hi) as [[Hi' ->]|[-> ->]], (Hcase j Hj) as [[Hj' ->]|[-> ->]]; [by apply T8| | |done];
      intros E; rewrite Eid in E; [specialize (T7 i Hi')|specialize (T7 j Hj')]; lia.
Qed.

(** A change past the count. *)
Lemma upd_past_same_view k f : table_ok k -> g_task_count k < TASK_MAX -> same_view k (upd_slot (g_task_count k) f k).
Proof.
  intros Ht Hlt. split; try done; [by cbn; rewrite length_insert|]. intros i Hi. unfold slot, upd_slot. cbn [g_tasks set_tasks].
  rewrite list_lookup_total_insert_ne by lia. done.
Qed.

Definition created k k' (entry q tid : Z) : Prop :=
  let n := g_task_count k' - 1 in
  0 <= g_current k' < n /\ id (slot k' n) = tid /\ tstate (slot k' n) = TASK_READY /\ parent_id (slot k' n) = id (cur k') /\
  quantum (tslice (slot k' n)) = (if 0 <? q then q else TASK_DEFAULT_QUANTUM) /\ tjob (slot k' n) = mk_job (sid (tjob (cur k'))) (pgid (tjob (cur k'))) (uid (tjob (cur k'))) (gid (tjob (cur k'))) (take (Z.to_nat (VFS_PATH_MAX - 1)) (cwd (tjob (cur k')))).

Lemma create_spec entry stack_size q name k :
  table_ok k -> can_run k -> g_next_id k < 2 ^ 31 ->
  exists rc k', task_create_named entry stack_size q name k = Some (rc, k') /\ table_ok k' /\ can_run k' /\ slot k' (g_current k') = slot k (g_current k) /\
    (rc < 0 \/ (rc = g_next_id k /\ g_next_id k' = g_next_id k + 1 /\ created k k' entry q rc)).
Proof.
  intros Ht Hc Hnx. unfold task_create_named. destruct (entry =? 0); [exists (-1), k; split_and!; try done; by left|].
  assert (exists k1, (if TASK_MAX <=? g_task_count k then sweep_reapable_tasks k else Some k) = Some k1 /\ table_ok k1 /\ can_run k1 /\
    g_next_id k1 = g_next_id k /\ slot k1 (g_current k1) = slot k (g_current k)) as (k1 & -> & Ht1 & Hc1 & En1 & Es1).
  { case_match; [by apply sweep_tasks_spec|by exists k]. }
  destruct (Z.leb_spec TASK_MAX (g_task_count k1)) as [|Hlt]; [exists (-2), k1; split_and!; try done; by left|].
  pose proof (to_current _ Ht1) as Hcur1. pose proof (to_count _ Ht1) as Hcnt1. pose proof (to_ids _ Ht1 0 ltac:(lia)) as Hid0. cbv zeta.
  change (g_current (set_next_id (u32 (g_next_id k1 + 1)) k1)) with (g_current k1). rewrite (proj2 (Z.leb_le 0 (g_current k1))) by lia. cbv iota.
  rewrite (u32_small (g_next_id k1 + 1)) by lia.
  change (slot (set_next_id (g_next_id k1 + 1) k1) (g_current k1)) with (cur k1).
  set (ka := do_env _ (set_next_id _ k1)). set (t := mk_task _ _ _ _ _ _ _ _ _ _ _ _ _ _ _ _ _).
  change (upd_slot (g_task_count k1) (fun _ => t) ka) with (upd_slot (g_task_count ka) (fun _ => t) ka). set (kb := upd_slot (g_task_count ka) (fun _ => t) ka).
  assert (length (g_tasks kb) = length (g_tasks k1)) as Elb by (cbn; by rewrite length_insert).
  assert (forall i, 0 <= i < g_task_count k1 -> slot kb i = slot k1 i) as Hsb.
  { intros i Hi. unfold slot, kb, upd_slot. cbn [g_tasks set_tasks]. change (g_tasks ka) with (g_tasks k1). change (g_task_count ka) with (g_task_count k1).
    by rewrite list_lookup_total_insert_ne by lia. }
  assert (slot kb (g_task_count k1) = t) as Hst.
  { unfold slot, kb, upd_slot. cbn [g_tasks set_tasks]. change (g_task_count ka) with (g_task_count k1). change (g_tasks ka) with (g_tasks k1).
    apply list_lookup_total_insert_eq. rewrite (to_length _ Ht1). unfold TASK_MAX in *. lia. }
  destruct (alloc_kstack _ (env kb)) as [stack e].
  assert (table_ok (set_env e kb)) as Htb.
  { destruct Ht1 as [T1 T2 T3 T4 T5 T6 T7 T8 T9]. split; try done.
    - cbn. by rewrite length_insert.
    - intros i Hi. change (slot (set_env e kb) i) with (slot kb i). rewrite Hsb by done. by apply T4.
    - change (slot (set_env e kb) 0) with (slot kb 0). by rewrite Hsb by lia.
    - intros i Hi. change (slot (set_env e kb) i) with (slot kb i). rewrite Hsb by done. by apply T6.
    - intros i Hi. change (slot (set_env e kb) i) with (slot kb i). rewrite Hsb by done. specialize (T7 i Hi). cbn. lia.
    - intros i j Hi Hj. change (slot (set_env e kb) i) with (slot kb i). change (slot (set_env e kb) j) with (slot kb j). rewrite !Hsb by done. by apply T8.
    - cbn. lia. }
  assert (slot kb (g_current k1) = slot k1 (g_current k1)) as Hcb by (by apply Hsb).
  destruct (stack =? 0).
  { exists (-3), (set_env e kb). split_and!; [done|done| | |left; lia].
    - unfold can_run. change (slot (set_env e kb) (g_current (set_env e kb))) with (slot kb (g_current k1)). by rewrite Hcb.
    - change (slot (set_env e kb) (g_current (set_env e kb))) with (slot kb (g_current k1)). by rewrite Hcb. }
  destruct (push_words_env (Z.land (u32 (stack + (if stack_size =? 0 then DEFAULT_STACK_SIZE else stack_size))) (Z.lnot 15))
              [task_trampoline; 0; entry; 0; 0] (set_env e kb)) as [f ->].
  set (top := Z.land _ _). set (sz := if stack_size =? 0 then _ else _). set (kc := do_env f (set_env e kb)).
  change (upd_slot (g_task_count k1) (with_stack stack sz (top - 20)) kc) with (upd_slot (g_task_count kc) (with_stack stack sz (top - 20)) kc).
  set (kd := upd_slot (g_task_count kc) (with_stack stack sz (top - 20)) kc).
  assert (forall i, 0 <= i < g_task_count k1 -> slot kd i = slot k1 i) as Hsd.
  { intros i Hi. unfold slot, kd, upd_slot. cbn [g_tasks set_tasks]. change (g_tasks kc) with (g_tasks kb). change (g_task_count kc) with (g_task_count k1).
    rewrite list_lookup_total_insert_ne by lia. by apply Hsb. }
  assert (slot kd (g_task_count k1) = with_stack stack sz (top - 20) t) as Hsd'.
  { unfold slot at 1, kd, upd_slot. cbn [g_tasks set_tasks]. change (g_task_count kc) with (g_task_count k1). change (g_tasks kc) with (g_tasks kb).
    rewrite list_lookup_total_insert_eq by (rewrite Elb, (to_length _ Ht1); unfold TASK_MAX in *; lia). f_equal. exact Hst. }
  set (k' := set_tasks (g_tasks kd) (g_task_count k1 + 1) kd). exists (i32 (g_next_id k1)), k'.
  assert (i32 (g_next_id k1) = g_next_id k1) as Ei by (apply i32_small; lia). rewrite Ei.
  assert (slot k' (g_current k') = slot k1 (g_current k1)) as Hcd by (by apply Hsd).
  assert (table_ok k') as Htk.
  { apply (append_ok k1 k' (with_stack stack sz (top - 20) t)); try done; [lia|cbn; by rewrite length_insert, length_insert|].
    unfold t. cbn [tslice with_stack quantum]. destruct (Z.ltb_spec 0 q); [lia|done]. }
  split_and!; [done|done|by unfold can_run; rewrite Hcd|by rewrite Hcd|right].
  split_and!; [done|by rewrite <- En1|]. unfold created. change (g_task_count k') with (g_task_count k1 + 1). replace (g_task_count k1 + 1 - 1) with (g_task_count k1) by lia.
  change (slot k' (g_task_count k1)) with (slot kd (g_task_count k1)). unfold cur. rewrite Hcd, Hsd'. change (g_current k') with (g_current k1). split_and!; done || lia.
Qed.

(** ** Every operation *)

Definition inv k : Prop := table_ok k /\ can_run k.

Lemma same_view_inv k k' : same_view k k' -> inv k -> inv k'.
Proof. intros Hs [Ht Hc]. split; [by eapply same_view_ok|by eapply same_view_can_run]. Qed.
Lemma wakes_inv k k' : wakes k k' -> inv k -> inv k'.
Proof.
  intros Hw [Ht Hc]. split; [by eapply wakes_ok|]. unfold can_run in *. rewrite (wk_current _ _ Hw).
  destruct (wk_slot _ _ Hw _ (to_current _ Ht)) as (_ & _ & _ & [->|[_ ->]]); [done|by right].
Qed.
Lemma stops_inv k k' idx : stops k k' idx -> 0 < idx -> idx <> g_current k -> inv k -> inv k'.
Proof.
  intros Hs Hi Hne [Ht Hc]. split; [by eapply stops_ok|]. destruct Hs as (_ & _ & Ecur & _ & Hv). unfold can_run in *. rewrite Ecur.
  destruct (Hv _ (to_current _ Ht)) as (_ & _ & E). rewrite decide_False in E by done. by rewrite E.
Qed.
Lemma yield_inv k : table_ok k -> inv (task_yield k).
Proof. intros Ht. destruct (tick_ok k Ht) as (? & ? & _). by split. Qed.

(** The current task stops and yields. *)
Lemma stop_current_inv k f :
  inv k -> 0 < g_current k -> (forall t, id (f t) = id t) -> (forall t, quantum (tslice (f t)) = quantum (tslice t)) -> (forall t, tstate (f t) <> TASK_RUNNING) ->
  inv (task_yield (upd_slot (g_current k) f k)).
Proof.
  intros [Ht Hc] Hcur H1 H2 H3. apply yield_inv. eapply (stops_ok k); [|exact Hcur|done]. apply upd_stops; [done|apply Ht|done|done|done].
Qed.

Lemma exit_inv status k : inv k -> 0 < g_current k -> inv (task_exit_with_status status k).
Proof.
  intros [Ht Hc] Hcur. unfold task_exit_with_status. rewrite (proj2 (Z.leb_le _ _)) by lia. apply yield_inv. pose proof (to_current _ Ht).
  destruct (mark_dead_stops (g_current k) status 0 k Ht ltac:(lia)) as [Hs _]; [destruct Hc; congruence|]. eapply stops_ok; [exact Hs|lia|done].
Qed.

Lemma send_signal_inv pid sig k : inv k -> inv (task_send_signal pid sig k).2.
Proof.
  intros Hinv. unfold task_send_signal. destruct (negb (signal_is_supported sig)); [done|].
  destruct (Z.ltb_spec (find_task_index_by_id pid k) 0); [done|]. destruct (find_index_range pid k) as [?|Hidx]; [lia|].
  set (idx := find_task_index_by_id pid k) in *. destruct ((idx =? 0) && signal_is_fatal_default sig) eqn:Eg; [done|].
  unfold is_state at 1. case_bool_decide as Hd; [done|]. set (k1 := upd_slot idx (raise_pending (KSIG_BIT sig)) k).
  assert (same_view k k1) as S1 by (apply upd_same_view; [apply Hinv|done|done]).
  pose proof (same_view_inv _ _ S1 Hinv) as I1. assert (0 <= idx < g_task_count k1) as Hi1 by done.
  set (d := if (0 <? sig) && (sig <=? KSIG_MAX) then _ else _).
  assert (same_view k1 (upd_slot idx (clear_pending (KSIG_BIT sig)) k1)) as S2 by (apply upd_same_view; [apply I1|done|done]).
  destruct (is_set _ _ || (d =? KSIG_IGN)); [by eapply same_view_inv|].
  destruct (KSIG_IGN <? d).
  { unfold is_state. case_bool_decide as Hb; [|done]. eapply wakes_inv; [|exact I1].
    apply (ready_wakes k1 idx (fun _ => 0) (fun _ => 0)); [apply I1|done|done]. }
  destruct (sig =? KSIGCHLD); [done|]. destruct (signal_is_fatal_default sig) eqn:Ef; cbn [negb]; [|done].
  assert (0 < idx) as Hpos by (destruct (Z.eqb_spec idx 0); [done|lia]).
  set (k2 := upd_slot idx (clear_pending (KSIG_BIT sig)) k1) in *. pose proof (same_view_inv _ _ S2 I1) as I2.
  destruct (Z.eqb_spec idx (g_current k2)) as [E|E]; cbn [snd]; [apply exit_inv; [done|lia]|].
  destruct (mark_dead_stops idx (signal_default_exit_status sig) (u32 sig) k2) as [Hs _]; [apply I2|exact (conj Hpos (proj2 Hidx))| |by eapply stops_inv].
  pose proof (sv_view _ _ (same_view_trans _ _ _ S1 S2) idx Hidx) as Ev. unfold view in Ev. inversion Ev. congruence.
Qed.

Lemma signal_group_inv n i pg sig m c k : inv k -> inv (signal_group n i pg sig m c k).2.
Proof.
  revert i m c k. induction n as [|n IH]; intros i m c k Hk; cbn [signal_group]; [done|].
  repeat case_match; apply IH; (done || by apply send_signal_inv).
Qed.
Lemma send_pgid_inv pg sig k : inv k -> inv (task_send_signal_pgid pg sig k).2.
Proof.
  intros Hk. unfold task_send_signal_pgid. destruct (negb (signal_is_supported sig)); [done|]. destruct (pg <=? 0); [done|].
  pose proof (signal_group_inv (Z.to_nat (g_task_count k)) 0 pg sig false (-1) k Hk) as H1.
  destruct (signal_group _ _ _ _ _ _ k) as [[m c] k1]. cbn [snd] in H1. destruct (0 <=? c); [|done].
  pose proof (send_signal_inv c sig k1 H1) as H2. by destruct (task_send_signal c sig k1) as [r k2].
Qed.

Lemma collect_spec c k : inv k -> 0 <= c < g_task_count k -> tstate (slot k c) = TASK_DEAD ->
  let k' := reap_task_index c (upd_slot c collected k) in
  inv k' /\ g_task_count k' = g_task_count k - 1 /\ g_current k = from_slot c (g_current k') /\
  forall j, 0 <= j < g_task_count k' -> slot k' j = slot k (from_slot c j).
Proof.
  intros [Ht Hc] Hi Hd. cbn zeta. assert (c <> g_current k) as Hne by (intros ->; destruct Hc; congruence).
  assert (same_view k (upd_slot c collected k)) as Hs by (by apply upd_same_view). pose proof (same_view_ok _ _ Hs Ht) as Ht1.
  destruct (reap_spec c (upd_slot c collected k)) as (Ht' & Ec & _ & Ecr & Hsl); [done|done|done|by rewrite slot_upd, decide_True by (lia || done)|].
  change (g_task_count (upd_slot c collected k)) with (g_task_count k) in *. change (g_current (upd_slot c collected k)) with (g_current k) in *.
  assert (forall j, 0 <= j < g_task_count (reap_task_index c (upd_slot c collected k)) ->
    slot (reap_task_index c (upd_slot c collected k)) j = slot k (from_slot c j)) as Hsl'.
  { intros j Hj. rewrite Hsl by done. rewrite slot_upd; [|done| |done].
    - rewrite decide_False; [done|]. unfold from_slot. clear. destruct (Z.ltb_spec j c); lia.
    - unfold from_slot. clear -Hj. destruct (Z.ltb_spec j c); lia. }
  split_and!; [|done|done|done]. split; [done|]. unfold can_run. rewrite Hsl' by apply Ht'. by rewrite <- Ecr.
Qed.

Lemma waitpid_round_inv pid options parent k : inv k -> 0 < g_current k -> inv (waitpid_round pid options parent k).2.
Proof.
  intros Hk Hcur. unfold waitpid_round. destruct (Z.leb_spec 0 (find_waitable_child_index parent pid k)) as [Hc|Hc].
  - unfold find_waitable_child_index in *. set (p := fun t => _) in *. destruct (find_task_range p k) as [E|[Hr Hp]]; [lia|].
    unfold p, is_state in Hp. bool_to_prop. apply collect_spec; [done|done|]. by apply bool_decide_eq_true in H2.
  - destruct (negb _); [done|]. destruct (is_set _ _); [done|]. by apply stop_current_inv.
Qed.

Lemma sleep_inv n k : inv k -> inv (task_sleep_ticks n k).
Proof.
  intros Hk. unfold task_sleep_ticks. destruct (n =? 0); [apply yield_inv, Hk|]. destruct (Z.leb_spec (g_current k) 0); [done|]. by apply stop_current_inv.
Qed.
Lemma keyboard_block_inv k : inv k -> inv (task_block_on_keyboard k).2.
Proof. intros Hk. unfold task_block_on_keyboard. destruct (Z.leb_spec (g_current k) 0); [done|]. by apply stop_current_inv. Qed.
Lemma keyboard_wake_inv k : inv k -> inv (task_wake_keyboard_waiters k).
Proof.
  intros Hk. eapply wakes_inv; [|exact Hk]. destruct Hk as [Ht _]. split; try done; [by apply map_tasks_length|].
  intros i Hi. unfold task_wake_keyboard_waiters. rewrite map_tasks_slot by done.
  destruct (is_state TASK_BLOCKED (slot k i) && (wait_task_id (tslice (slot k i)) =? TASK_WAIT_KEYBOARD)) eqn:E; [|by split_and!; try left].
  unfold is_state in E. bool_to_prop. apply bool_decide_eq_true in H0. split_and!; try done. by right.
Qed.

(** ** Fork *)

Lemma clone_fds_same_view n j dst src k : table_ok k -> 0 <= dst < g_task_count k -> same_view k (clone_fds n j dst src k).2.
Proof.
  revert j k. induction n as [|n IH]; intros j k Ht Hd; cbn [clone_fds]; [apply same_view_refl|].
  destruct (negb _); [by apply IH|]. set (fd := tfds (slot k src) !!! j). set (k1 := upd_slot dst _ k).
  assert (same_view k k1) as S1 by (by apply upd_same_view). destruct (vfs_open_node _ _ (env k1)) as [rc e].
  assert (same_view k (set_env e k1)) as S2 by (eapply same_view_trans; [exact S1|apply env_same_view]).
  assert (table_ok (set_env e k1)) as T2 by (by eapply same_view_ok).
  destruct (rc <? 0); cbn [snd]; (eapply same_view_trans; [exact S2|]); [by apply close_fds_same_view|by apply IH].
Qed.
Lemma clone_regions_same_view n j dst src k : table_ok k -> 0 <= dst < g_task_count k -> same_view k (clone_regions n j dst src k).2.
Proof.
  revert j k. induction n as [|n IH]; intros j k Ht Hd; cbn [clone_regions]; [apply same_view_refl|].
  destruct (negb _); [by apply IH|]. set (r := mmap_regions (slot k src) !!! j). set (k1 := upd_slot dst _ k).
  assert (same_view k k1) as S1 by (by apply upd_same_view).
  assert (exists rc k2, (if negb (rg_file_node r =? 0) then let '(rc, e) := vfs_open_node (rg_file_node r) VFS_O_RDONLY (env k1) in (rc, set_env e k1) else (0, k1)) = (rc, k2) /\
    same_view k k2) as (rc & k2 & -> & S2).
  { case_match; [destruct (vfs_open_node _ _ _) as [rc e]; eexists _, _; split; [done|eapply same_view_trans; [exact S1|apply env_same_view]]|by eexists _, _]. }
  assert (table_ok k2) as T2 by (by eapply same_view_ok). assert (0 <= dst < g_task_count k2) as I2 by (by rewrite (sv_count _ _ S2)).
  destruct (rc <? 0); cbn [snd]; (eapply same_view_trans; [exact S2|]); [by apply mmap_clear_same_view|].
  destruct (is_shm r); [|by apply IH]. pose proof (shm_ref_same_view (rg_shm_id r) k2) as S3. eapply same_view_trans; [exact S3|].
  apply IH; [by eapply same_view_ok|by rewrite (sv_count _ _ S3)].
Qed.
Lemma elf_install_same_view i image sz rs n adopt k : table_ok k -> 0 <= i < g_task_count k -> same_view k (task_lazy_elf_install i image sz rs n adopt k).2.
Proof.
  intros Ht Hi. unfold task_lazy_elf_install. destruct (TASK_ELF_LAZY_MAX <? n); [apply same_view_refl|]. destruct (_ && _); [apply same_view_refl|].
  match goal with |- context [let '(_, _) := ?X in _] => assert (exists b k1, X = (b, k1) /\ same_view k k1) as (b & k1 & -> & S1) end.
  { repeat case_match; eexists _, _; (split; [done|]); (apply same_view_refl || apply env_same_view). }
  destruct (_ && _); [done|]. cbn [snd]. apply then_upd; [done| |done|done].
  eapply same_view_trans; [exact S1|]. apply elf_clear_same_view; [by eapply same_view_ok|by rewrite (sv_count _ _ S1)].
Qed.

Lemma kill_child_inv k k1 c : inv k -> same_view k k1 -> 0 < c < g_task_count k -> c <> g_current k -> inv (upd_slot c (with_state TASK_DEAD) k1).
Proof.
  intros Hk Hs Hc Hne. pose proof (same_view_inv _ _ Hs Hk) as Hk1. apply (stops_inv k1 _ c); [|lia|by rewrite (sv_current _ _ Hs)|done].
  apply upd_stops; [apply Hk1|rewrite (sv_count _ _ Hs); lia|done|done|done].
Qed.

Lemma fork_inv frame k : inv k -> g_next_id k < 2 ^ 31 -> exists rc k', task_fork_user frame k = Some (rc, k') /\ inv k'.
Proof.
  intros [Ht Hc] Hnx. unfold task_fork_user. destruct (Z.ltb_spec (g_current k) 0); [by exists (-1), k|]. set (parent := g_current k).
  destruct (create_spec fork_child_entry (kstack_size (slot k parent)) (quantum (tslice (slot k parent))) (name_of_slot parent) k Ht Hc Hnx)
    as (rc & k1 & -> & Ht1 & Hc1 & _ & Hcr).
  destruct (Z.ltb_spec rc 0); [by exists rc, k1|]. destruct Hcr as [?|(Erc & _ & Hn1 & Hn2 & _)]; [lia|].
  set (n := g_task_count k1 - 1) in *. assert (find_task_index_by_id rc k1 < 0 \/ find_task_index_by_id rc k1 = n) as Hch.
  { unfold find_task_index_by_id. destruct (Z.leb_spec rc 0); [left; lia|]. destruct (find_task_range (fun t => i32 (id t) =? rc) k1) as [->|[Hr E]]; [left; lia|right].
    apply Z.eqb_eq in E. apply (to_distinct _ Ht1); [done|lia|]. pose proof (to_ids _ Ht1 _ Hr). pose proof (to_next _ Ht1). rewrite i32_small in E by lia. by rewrite E, Hn2. }
  destruct (Z.ltb_spec (find_task_index_by_id rc k1) 0); [by exists (-2), k1|]. destruct Hch as [?|Hch]; [lia|]. rewrite Hch. clear Hch. cbv zeta.
  assert (inv k1) as Hk1 by done. assert (0 < n < g_task_count k1) as Hn by lia. assert (n <> g_current k1) as Hne by lia. assert (0 <= n < g_task_count k1) as Hn' by lia.
  set (k2 := upd_slot n (with_parent _) k1). assert (same_view k1 k2) as S2 by (by apply upd_same_view). assert (table_ok k2) as T2 by (by eapply same_view_ok).
  set (k3 := upd_slot n _ k2). assert (same_view k1 k3) as S3 by (eapply same_view_trans; [exact S2|by apply upd_same_view]).
  destruct (paging_fork_current_cow (env k3)) as [cr3 e]. set (k4 := set_env e k3).
  assert (same_view k1 k4) as S4 by (eapply same_view_trans; [exact S3|apply env_same_view]). assert (table_ok k4) as T4 by (by eapply same_view_ok).
  destruct cr3 as [cr3|]; [|by eexists (-3), _; split; [done|by eapply kill_child_inv]].
  set (k5 := upd_slot n (with_mm cr3) (release_task_mm n k4)).
  assert (same_view k1 k5) as S5 by (eapply same_view_trans; [exact S4|apply then_upd; [done|by apply release_mm_same_view|done|done]]). assert (table_ok k5) as T5 by (by eapply same_view_ok).
  assert (same_view k5 (task_fd_table_clone n parent k5).2) as S56.
  { unfold task_fd_table_clone. assert (same_view k5 (task_fd_table_init n k5)) as Si by (by apply upd_same_view).
    eapply same_view_trans; [exact Si|apply clone_fds_same_view; [by eapply same_view_ok|done]]. }
  destruct (task_fd_table_clone n parent k5) as [rc6 k6]. cbn [snd] in S56. pose proof (same_view_trans _ _ _ S5 S56) as S6. assert (table_ok k6) as T6 by (by eapply same_view_ok).
  assert (0 <= n < g_task_count k6) as I6 by (by rewrite (sv_count _ _ S6)).
  destruct (rc6 <? 0).
  { eexists (-4), _. split; [done|]. eapply kill_child_inv; [exact Hk1| |done|done]. eapply same_view_trans; [exact S6|by apply release_mm_same_view]. }
  assert (same_view k6 (task_mmap_table_clone n parent k6).2) as S67.
  { unfold task_mmap_table_clone. assert (same_view k6 (task_mmap_table_init n k6)) as Si by (by apply upd_same_view).
    eapply same_view_trans; [exact Si|apply clone_regions_same_view; [by eapply same_view_ok|done]]. }
  destruct (task_mmap_table_clone n parent k6) as [rc7 k7]. cbn [snd] in S67. pose proof (same_view_trans _ _ _ S6 S67) as S7. assert (table_ok k7) as T7 by (by eapply same_view_ok).
  assert (0 <= n < g_task_count k7) as I7 by (by rewrite (sv_count _ _ S7)).
  assert (forall k', table_ok k' -> same_view k1 k' -> same_view k1 (release_task_mm n (task_fd_table_close_all n k'))) as Hclose.
  { intros k' T' S'. assert (0 <= n < g_task_count k') as I' by (by rewrite (sv_count _ _ S')).
    pose proof (close_fds_same_view Vfs.f_in_use n k' T' I' : same_view k' (task_fd_table_close_all n k')) as Sc. eapply same_view_trans; [exact S'|eapply same_view_trans; [exact Sc|]].
    apply release_mm_same_view; [by eapply same_view_ok|by rewrite (sv_count _ _ Sc)]. }
  destruct (rc7 <? 0).
  { eexists (-5), _. split; [done|]. eapply kill_child_inv; [exact Hk1| |done|done]. by apply Hclose. }
  match goal with |- context [task_lazy_elf_install ?i ?a ?b ?c ?d ?f k7] => pose proof (elf_install_same_view i a b c d f k7 T7 I7) as S78; destruct (task_lazy_elf_install i a b c d f k7) as [rc8 k8] end.
  cbn [snd] in S78. pose proof (same_view_trans _ _ _ S7 S78) as S8. assert (table_ok k8) as T8 by (by eapply same_view_ok).
  assert (0 <= n < g_task_count k8) as I8 by (by rewrite (sv_count _ _ S8)).
  destruct (rc8 <? 0).
  { eexists (-6), _. split; [done|]. eapply kill_child_inv; [exact Hk1| |done|done]. pose proof (mmap_clear_same_view n k8 T8 I8) as Sm.
    apply Hclose; [by eapply same_view_ok|by eapply same_view_trans]. }
  eexists _, _. split; [done|]. eapply same_view_inv; [|exact Hk1]. by apply then_upd.
Qed.

(** ** The operations that leave scheduling alone *)

(** An update of the current task that scheduling does not read. *)
Lemma upd_current k f : table_ok k -> (forall t, view (f t) = view t) -> same_view k (upd_slot (g_current k) f k).
Proof. intros Ht Hf. apply upd_same_view; [done|apply Ht|done]. Qed.

Lemma set_action_view sig act want k : table_ok k -> same_view k (signal_set_action_current sig act want k).2.
Proof.
  intros Ht. unfold signal_set_action_current. repeat (case_match; try apply same_view_refl; try by apply upd_current).
Qed.
Lemma dispatch_view regs k : table_ok k -> same_view k (signal_dispatch_current regs k).2.
Proof.
  intros Ht. unfold signal_dispatch_current. cbv zeta. repeat (case_match; try apply same_view_refl; try by apply upd_current).
  cbn [snd]. eapply same_view_trans; [|apply env_same_view]. eapply same_view_trans; [|apply env_same_view]. by apply upd_current.
Qed.
Lemma sigreturn_view regs k : table_ok k -> same_view k (signal_sigreturn_current regs k).2.
Proof. intros Ht. unfold signal_sigreturn_current. repeat (case_match; try apply same_view_refl; try by apply upd_current). Qed.

Lemma resolve_range pid k : table_ok k -> resolve_target_task_index pid k < 0 \/ 0 <= resolve_target_task_index pid k < g_task_count k.
Proof.
  intros Ht. unfold resolve_target_task_index. case_match; [left; lia|]. case_match; [right; apply Ht|apply find_index_range].
Qed.
Lemma setpgid_view pid pg k : table_ok k -> same_view k (task_setpgid pid pg k).2.
Proof.
  intros Ht. unfold task_setpgid. destruct (g_current k <? 0); [apply same_view_refl|]. pose proof (resolve_range pid k Ht) as Hr.
  destruct (Z.ltb_spec (resolve_target_task_index pid k) 0); [apply same_view_refl|].
  repeat (case_match; try apply same_view_refl; try (apply upd_same_view; [done|lia|done])).
Qed.
Lemma setsid_view k : table_ok k -> same_view k (task_setsid k).2.
Proof. intros Ht. unfold task_setsid. repeat (case_match; try apply same_view_refl; try by apply upd_current). Qed.
Lemma set_name_view name k : table_ok k -> same_view k (task_set_current_name name k).
Proof. intros Ht. unfold task_set_current_name. case_match; [apply same_view_refl|by apply upd_current]. Qed.
Lemma close_cloexec_view k : table_ok k -> same_view k (task_close_cloexec_fds_current k).
Proof. intros Ht. unfold task_close_cloexec_fds_current. case_match; [apply same_view_refl|]. apply close_fds_same_view; [done|apply Ht]. Qed.

Lemma clone_fd_view tid tf sf k : table_ok k -> same_view k (task_clone_fd_to_task tid tf sf k).2.
Proof.
  intros Ht. unfold task_clone_fd_to_task. do 5 (case_match; [apply same_view_refl|]).
  pose proof (find_index_range tid k) as Hd. destruct (Z.ltb_spec (find_task_index_by_id tid k) 0); [apply same_view_refl|].
  destruct Hd as [?|Hd]; [lia|]. set (dst := find_task_index_by_id tid k) in *. cbv zeta.
  set (k1 := if Vfs.f_in_use _ then _ else k).
  assert (same_view k k1) as S1 by (unfold k1; case_match; [apply then_upd; [done|apply env_same_view|done|done]|apply same_view_refl]).
  set (k2 := upd_slot dst _ k1). assert (same_view k k2) as S2 by (by apply then_upd).
  destruct (vfs_open_node _ _ (env k2)) as [rc e]. assert (same_view k (set_env e k2)) as S3 by (eapply same_view_trans; [exact S2|apply env_same_view]).
  case_match; cbn [snd]; [by apply then_upd|done].
Qed.

Lemma assign_mm_view tid cr3 k : table_ok k -> same_view k (task_assign_mm tid cr3 k).2.
Proof.
  intros Ht. unfold task_assign_mm. case_match; [apply same_view_refl|]. pose proof (find_index_range tid k) as Hd.
  destruct (Z.ltb_spec (find_task_index_by_id tid k) 0); [apply same_view_refl|]. destruct Hd as [?|Hd]; [lia|]. cbv zeta. cbn [snd].
  apply then_upd; [done| |done|done]. eapply same_view_trans; apply env_same_view.
Qed.
Lemma replace_mm_view cr3 k : table_ok k -> same_view k (task_replace_current_mm cr3 k).2.
Proof.
  intros Ht. unfold task_replace_current_mm. case_match; [apply same_view_refl|]. cbv zeta. cbn [snd]. pose proof (to_current _ Ht) as Hc.
  pose proof (mmap_clear_same_view (g_current k) k Ht Hc) as S1. set (k1 := task_mmap_table_clear _ k) in *.
  assert (same_view k1 (task_lazy_elf_clear (g_current k) k1)) as S2
    by (apply elf_clear_same_view; [by eapply same_view_ok|by rewrite (sv_count _ _ S1)]).
  eapply same_view_trans; [|apply env_same_view]. eapply same_view_trans; [|apply env_same_view]. apply then_upd; [done| |done|done].
  eapply same_view_trans; [exact S1|exact S2].
Qed.
Lemma layout_view adopt tid image sz rs n k : table_ok k -> same_view k (install_layout adopt tid image sz rs n k).2.
Proof.
  intros Ht. unfold install_layout. case_match; [apply same_view_refl|]. pose proof (find_index_range tid k) as Hd.
  destruct (Z.ltb_spec (find_task_index_by_id tid k) 0); [apply same_view_refl|]. destruct Hd as [?|Hd]; [lia|]. by apply elf_install_same_view.
Qed.

Lemma backing_view a len k : same_view k (mmap_backing a len k).2.
Proof.
  unfold mmap_backing. cbv zeta. repeat (case_match; try apply same_view_refl; try apply shm_ref_same_view; try apply env_same_view).
Qed.
Lemma mmap_view a k : table_ok k -> same_view k (task_mmap_current a k).2.
Proof.
  intros Ht. unfold task_mmap_current. cbv zeta. do 5 (case_match; [apply same_view_refl|]). destruct (mmap_place _ _ _) as [[start|]|]; try apply same_view_refl.
  pose proof (backing_view a (page_align_up (ma_length a)) k) as S1. destruct (mmap_backing a _ k) as [[[[b s] f]|] k1]; cbn [snd] in *; [|done].
  eapply same_view_trans; [exact S1|]. apply upd_current; [by eapply same_view_ok|done].
Qed.
Lemma munmap_from_view n j lo hi k : table_ok k -> same_view k (munmap_from n j lo hi k).2.
Proof.
  revert j k. induction n as [|n IH]; intros j k Ht; cbn [munmap_from]; [apply same_view_refl|]. cbv zeta.
  destruct (negb _); [by apply IH|]. set (r := mmap_regions (slot k (g_current k)) !!! j).
  set (k1 := if _ <? _ then _ else k) in |- *. assert (same_view k k1) as S1 by (unfold k1; case_match; [apply env_same_view|apply same_view_refl]).
  pose proof (to_current _ Ht) as Hc.
  assert (forall k', same_view k k' -> same_view k (munmap_from n (S j) lo hi k').2) as Hgo.
  { intros k' S'. eapply same_view_trans; [exact S'|]. apply IH. by eapply same_view_ok. }
  case_match. { apply Hgo, then_upd; [done| |done|done]. eapply same_view_trans; [exact S1|apply drop_region_same_view]. }
  case_match. { apply Hgo. by apply then_upd. }
  case_match. { apply Hgo. by apply then_upd. }
  case_match; [done|]. set (up := with_bounds _ _ _ r). set (k2 := upd_slot (g_current k) _ k1).
  assert (same_view k k2) as S2 by (by apply then_upd).
  match goal with |- context [let '(_, _) := ?X in _] => assert (exists rc k3, X = (rc, k3) /\ same_view k k3) as (rc & k3 & -> & S3) end.
  { case_match; [destruct (vfs_open_node _ _ _) as [rc e]|]; eexists _, _; (split; [done|]); [eapply same_view_trans; [exact S2|apply env_same_view]|done]. }
  case_match; cbn [snd]; [by apply then_upd|]. apply Hgo, then_upd; [done| |done|done].
  case_match; [eapply same_view_trans; [exact S3|apply shm_ref_same_view]|done].
Qed.
Lemma munmap_view addr len k : table_ok k -> same_view k (task_munmap_current addr len k).2.
Proof.
  intros Ht. unfold task_munmap_current. cbv zeta. repeat (case_match; try apply same_view_refl). by apply munmap_from_view.
Qed.
Lemma alloc_frames_view n j i k : same_view k (alloc_frames n j i k).2.
Proof.
  revert j k. induction n as [|n IH]; intros j k; cbn [alloc_frames]; [apply same_view_refl|]. destruct (phys_alloc_frame (env k)) as [pa e].
  assert (same_view k (set_env e k)) as S1 by apply env_same_view.
  case_match; cbn [snd]; (eapply same_view_trans; [exact S1|]); [apply shm_destroy_same_view|].
  eapply same_view_trans; [|apply IH]. eapply same_view_trans; [apply env_same_view|apply upd_shm_same_view].
Qed.
Lemma shm_open_view key size flags k : same_view k (task_shm_open_current key size flags k).2.
Proof.
  unfold task_shm_open_current. cbv zeta. repeat (case_match; try apply same_view_refl).
  eapply same_view_trans; [|apply alloc_frames_view]. apply upd_shm_same_view.
Qed.
Lemma shm_unlink_view key k : same_view k (task_shm_unlink_current key k).2.
Proof.
  unfold task_shm_unlink_current. case_match; [apply same_view_refl|]. cbv zeta. cbn [snd].
  case_match; [eapply same_view_trans; [apply upd_shm_same_view|apply shm_destroy_same_view]|apply upd_shm_same_view].
Qed.

(** ** The kernel's steps *)

(** What happens to the kernel while the current task makes a call: [kcall],
    a call that does not give up the processor; [kstep], any call, a timer
    interrupt, a key, or a change of the rest of the kernel. *)
Inductive kcall : kernel F -> kernel F -> Prop :=
| c_action sig act want k : kcall k (signal_set_action_current sig act want k).2
| c_dispatch regs k : kcall k (signal_dispatch_current regs k).2
| c_sigreturn regs k : kcall k (signal_sigreturn_current regs k).2
| c_setpgid pid pg k : kcall k (task_setpgid pid pg k).2
| c_setsid k : kcall k (task_setsid k).2
| c_name name k : kcall k (task_set_current_name name k)
| c_cloexec k : kcall k (task_close_cloexec_fds_current k)
| c_clone_fd tid tf sf k : kcall k (task_clone_fd_to_task tid tf sf k).2
| c_assign_mm tid cr3 k : kcall k (task_assign_mm tid cr3 k).2
| c_replace_mm cr3 k : kcall k (task_replace_current_mm cr3 k).2
| c_layout adopt tid image sz rs n k : kcall k (install_layout adopt tid image sz rs n k).2
| c_mmap a k : kcall k (task_mmap_current a k).2
| c_munmap addr len k : kcall k (task_munmap_current addr len k).2
| c_shm_open key size flags k : kcall k (task_shm_open_current key size flags k).2
| c_shm_unlink key k : kcall k (task_shm_unlink_current key k).2
| c_env f k : kcall k (do_env f k).

Inductive kstep : kernel F -> kernel F -> Prop :=
| k_tick k : kstep k (scheduler_tick k)
| k_create entry size q name k rc k' : g_next_id k < 2 ^ 31 -> task_create_named entry size q name k = Some (rc, k') -> kstep k k'
| k_fork frame k rc k' : g_next_id k < 2 ^ 31 -> task_fork_user frame k = Some (rc, k') -> kstep k k'
| k_exit status k : 0 < g_current k -> kstep k (task_exit_with_status status k)
| k_wait pid options k : 0 < g_current k -> kstep k (waitpid_round pid options (id (cur k)) k).2
| k_sleep n k : kstep k (task_sleep_ticks n k)
| k_keyboard k : kstep k (task_block_on_keyboard k).2
| k_key k : kstep k (task_wake_keyboard_waiters k)
| k_signal pid sig k : kstep k (task_send_signal pid sig k).2
| k_group pg sig k : kstep k (task_send_signal_pgid pg sig k).2
| k_call k k' : kcall k k' -> kstep k k'.

Lemma kcall_view k k' : kcall k k' -> table_ok k -> same_view k k'.
Proof.
  intros Hc Ht. destruct Hc; eauto using set_action_view, dispatch_view, sigreturn_view, setpgid_view, setsid_view, set_name_view, close_cloexec_view,
    clone_fd_view, assign_mm_view, replace_mm_view, layout_view, mmap_view, munmap_view, shm_open_view, shm_unlink_view, env_same_view.
Qed.

Lemma kstep_inv k k' : kstep k k' -> inv k -> inv k'.
Proof.
  intros Hs Hk. destruct Hs as [k|entry size q name k rc k' Hn E|frame k rc k' Hn E|status k Hc|pid options k Hc|n k|k|k|pid sig k|pg sig k|k k' Hs].
  - apply yield_inv, Hk.
  - destruct Hk as [Ht Hc]. destruct (create_spec entry size q name k Ht Hc Hn) as (rc' & k1 & E1 & ? & ? & _). rewrite E1 in E. by simplify_eq.
  - destruct (fork_inv frame k Hk Hn) as (rc' & k1 & E1 & ?). rewrite E1 in E. by simplify_eq.
  - by apply exit_inv.
  - by apply waitpid_round_inv.
  - by apply sleep_inv.
  - by apply keyboard_block_inv.
  - by apply keyboard_wake_inv.
  - by apply send_signal_inv.
  - by apply send_pgid_inv.
  - eapply same_view_inv; [|done]. apply kcall_view; [done|apply Hk].
Qed.

(** ** Boot and the invariant *)

Lemma boot_inv k0 k1 : length (g_tasks k0) = Z.to_nat TASK_MAX -> tasking_initialize k0 = Some k1 -> g_task_count k1 = 1 -> inv k1.
Proof.
  intros Hl Hb Hc. unfold tasking_initialize, task_create_named in Hb. destruct (idle_thread =? 0); [injection Hb as <-; by change (0 = 1) in Hc|].
  change (TASK_MAX <=? g_task_count (shm_table_init _)) with false in Hb. cbv iota in Hb.
  change (0 <=? g_current (set_next_id _ _)) with false in Hb. cbv zeta iota in Hb.
  set (ka := do_env _ (set_next_id _ _)) in Hb. set (t := mk_task _ _ _ _ _ _ _ _ _ _ _ _ _ _ _ _ _) in Hb.
  set (kb := upd_slot _ (fun _ => t) ka) in Hb. destruct (alloc_kstack _ (env kb)) as [stack e]. destruct (stack =? 0); [injection Hb as <-; by change (0 = 1) in Hc|].
  match type of Hb with context [push_words ?a ?b ?c] => destruct (push_words_env a b c) as [f E]; rewrite E in Hb; clear E end.
  change (if DEFAULT_STACK_SIZE =? 0 then _ else _) with DEFAULT_STACK_SIZE in Hb. injection Hb as <-. set (k := upd_slot 0 _ _).
  assert (slot k 0 = with_state TASK_RUNNING (with_stack stack DEFAULT_STACK_SIZE (Z.land (u32 (stack + DEFAULT_STACK_SIZE)) (Z.lnot 15) - 20) t)) as Es.
  { unfold k, slot, upd_slot, set_current. cbn [g_tasks set_tasks do_env set_env]. unfold slot. cbn [g_tasks set_tasks]. change (g_task_count (shm_table_init _)) with 0.
    change (Z.to_nat 0) with 0%nat. assert (0 < length (g_tasks ka))%nat by (change (g_tasks ka) with (g_tasks k0); rewrite Hl; unfold TASK_MAX; lia).
    rewrite !list_lookup_total_insert_eq by (rewrite ?length_insert; done). do 2 f_equal. by apply list_lookup_total_insert_eq. }
  assert (forall i, 0 <= i < 1 -> i = 0) as H0 by lia.
  split; [split|left; unfold cur in *; change (g_current k) with 0; by rewrite Es]; change (g_task_count k) with 1; change (g_current k) with 0; change (g_next_id k) with 2.
  - cbn. by rewrite !length_insert.
  - by unfold TASK_MAX.
  - lia.
  - intros i Hi _. lia.
  - right. by rewrite Es.
  - intros i ->%H0. by rewrite Es.
  - intros i ->%H0. by rewrite Es.
  - intros i j ->%H0 ->%H0. done.
  - done.
Qed.

(** C3: Whatever the tasks do, the table stays well formed: from the state
    [tasking_initialize] leaves when it could create the idle task, after any
    sequence of system calls, forks, exits, waits, signals, keys and timer
    interrupts (as long as the identifiers stay below 2^31), the count is
    within the table, ids are distinct and below the next one, quanta are
    positive, slot 0 is there to run, at most the current task is marked
    running and the current task is not blocked or dead. *)
Theorem table_invariant k0 k1 k :
  length (g_tasks k0) = Z.to_nat TASK_MAX -> tasking_initialize k0 = Some k1 -> g_task_count k1 = 1 -> rtc kstep k1 k -> table_ok k /\ can_run k.
Proof.
  intros Hl Hb Hc Hr. assert (inv k1) as Hi by (by eapply boot_inv). clear Hb Hc. revert Hi. induction Hr as [|? ? ? Hs _ IH]; [done|]. intros Hi. apply IH. by eapply kstep_inv.
Qed.

(** ** Waiting for a child *)

(** A child of the task with identifier [pid] whose end was not collected. *)
Definition zombie_child (pid : Z) (t : task) : Prop := parent_id t = pid /\ tstate t = TASK_DEAD /\ wait_collected (tending t) = false.

(** A slot that is not blocked stays as it is. *)
Lemma wake_one_other i j k : table_ok k -> 0 <= i < g_task_count k -> 0 <= j -> i <> j \/ tstate (slot k j) <> TASK_BLOCKED -> slot (wake_one i k) j = slot k j.
Proof.
  intros Ht Hi Hj Hd. unfold wake_one. unfold is_state at 1. case_bool_decide as Hb; [|done]. cbn [negb].
  assert (j <> i) as Hne by (destruct Hd; congruence).
  repeat (case_match; [rewrite slot_upd by done; by rewrite decide_False by done|]). done.
Qed.
Lemma wake_from_other n i j k : table_ok k -> 0 <= i -> i + Z.of_nat n <= g_task_count k -> 0 <= j -> j < i \/ tstate (slot k j) <> TASK_BLOCKED ->
  slot (wake_from n i k) j = slot k j.
Proof.
  revert i k. induction n as [|n IH]; intros i k Ht Hi Hn Hj Hd; cbn [wake_from]; [done|].
  pose proof (wake_one_wakes i k Ht ltac:(lia)) as Hw.
  assert (slot (wake_one i k) j = slot k j) as E by (apply wake_one_other; [done|lia|done|destruct Hd; [left; lia|by right]]).
  rewrite IH; [done|by eapply wakes_ok|lia|rewrite (wk_count _ _ Hw); lia|done|]. rewrite E. destruct Hd; [left; lia|by right].
Qed.

Lemma find_waitable_some pid k z : 0 <= z < g_task_count k -> zombie_child pid (slot k z) -> 0 <=? find_waitable_child_index pid (-1) k = true.
Proof.
  intros Hz (H1 & H2 & H3). apply Z.leb_le. unfold find_waitable_child_index, find_task. set (p := fun t => _).
  destruct (decide (0 <= find_slot p (Z.to_nat (g_task_count k)) 0 k)); [done|].
  pose proof (find_slot_none p (Z.to_nat (g_task_count k)) 0 k ltac:(lia) ltac:(lia) z ltac:(lia)) as E. unfold p, child_matches, is_state in E.
  rewrite H1, H3, Z.eqb_refl, bool_decide_true in E by done. done.
Qed.

(** A waiting parent wakes in the pass that reaches it. *)
Lemma wake_from_parent n i p z k : table_ok k -> 0 <= i -> i + Z.of_nat n <= g_task_count k -> i <= p < i + Z.of_nat n -> 0 <= z < g_task_count k ->
  tstate (slot k p) = TASK_BLOCKED -> wait_task_id (tslice (slot k p)) = -1 -> zombie_child (id (slot k p)) (slot k z) ->
  tstate (slot (wake_from n i k) p) = TASK_READY.
Proof.
  revert i k. induction n as [|n IH]; intros i k Ht Hi Hn Hp Hz Hb Hw Hch; [lia|]. cbn [wake_from].
  pose proof (wake_one_wakes i k Ht ltac:(lia)) as Hwk. pose proof (wakes_ok _ _ Hwk Ht) as Ht'. destruct (decide (i = p)) as [->|Hne].
  - assert (tstate (slot (wake_one p k) p) = TASK_READY) as E.
    { unfold wake_one. unfold is_state at 1. rewrite bool_decide_true by done. cbn [negb]. rewrite Hw. change (0 <? -1) with false. cbn [andb].
      change (-1 =? -1) with true. cbn [andb]. rewrite (find_waitable_some _ _ z) by done. rewrite slot_upd by (done || lia). by rewrite decide_True by done. }
    rewrite wake_from_other; [done|done|lia|rewrite (wk_count _ _ Hwk); lia|lia|left; lia].
  - assert (slot (wake_one i k) p = slot k p) as Ep by (apply wake_one_other; [done|lia|lia|by left]).
    assert (slot (wake_one i k) z = slot k z) as Ez.
    { apply wake_one_other; [done|lia|lia|right]. destruct Hch as (_ & E & _). by rewrite E. }
    apply IH; rewrite ?Ep, ?Ez, ?(wk_count _ _ Hwk); try done; lia.
Qed.

Lemma tick_shape k : exists b1 b2 : bool,
  scheduler_tick k = let k1 := if b1 then upd_slot (g_current (tick_prelude k)) shrink (tick_prelude k) else tick_prelude k in if b2 then k1 else tick_decides k1.
Proof. eexists _, _. reflexivity. Qed.

Lemma decides_keeps_ready k p : table_ok k -> 0 <= p < g_task_count k -> p <> g_current k -> tstate (slot k p) = TASK_READY ->
  (tstate (slot (tick_decides k) p) = TASK_READY /\ g_current (tick_decides k) <> p) \/ (g_current (tick_decides k) = p /\ tstate (slot (tick_decides k) p) = TASK_RUNNING).
Proof.
  intros Ht Hp Hne Hr. pose proof (to_current _ Ht) as Hcur. pose proof (to_count _ Ht). unfold tick_decides.
  destruct (pick_next_ready_is k ltac:(lia) ltac:(lia)) as [[-> _]|[Hn Hrdy]]; [by left|]. rewrite (proj2 (Z.ltb_ge _ _)) by lia.
  destruct (Z.eqb_spec (pick_next_ready k) (g_current k)) as [E|E]; [left; rewrite slot_upd by (done || lia); rewrite decide_False by done; by split|].
  unfold is_ready, is_state in Hrdy. apply bool_decide_eq_true in Hrdy.
  destruct (do_switch_spec k (g_current k) (pick_next_ready k) Ht eq_refl Hn E Hrdy) as (_ & Ec & _ & _ & Hst & _ & Hsl).
  destruct (decide (p = pick_next_ready k)) as [->|Hp']; [by right|left]. destruct (Hsl p Hp) as (_ & _ & Hx). destruct (Hx Hp') as [_ ->].
  rewrite decide_False by (intros [? _]; done). split; [done|congruence].
Qed.

Lemma tick_wakes_parent k p z : inv k -> 0 <= p < g_task_count k -> 0 <= z < g_task_count k ->
  tstate (slot k p) = TASK_BLOCKED -> wait_task_id (tslice (slot k p)) = -1 -> zombie_child (id (slot k p)) (slot k z) ->
  let k' := scheduler_tick k in (tstate (slot k' p) = TASK_READY /\ g_current k' <> p) \/ (g_current k' = p /\ tstate (slot k' p) = TASK_RUNNING).
Proof.
  intros [Ht Hc] Hp Hz Hb Hw Hch. cbn zeta. pose proof (tick_prelude_wakes k Ht) as Hwk. pose proof (wakes_ok _ _ Hwk Ht) as Ht1.
  assert (p <> g_current k) as Hne by (intros ->; destruct Hc; congruence). pose proof (to_count _ Ht). pose proof (to_current _ Ht) as Hcur.
  assert (tstate (slot (tick_prelude k) p) = TASK_READY) as Hr.
  { unfold tick_prelude, wake_blocked_tasks. set (k0 := do_env _ _). assert (table_ok k0) as T0 by (apply (same_view_ok k); [by split|done]).
    change (g_task_count k0) with (g_task_count k). apply (wake_from_parent _ _ _ z); [done|lia|change (g_task_count k0) with (g_task_count k); lia|lia|done|done|done|done]. }
  destruct (tick_shape k) as (b1 & b2 & ->). cbn zeta. set (k1 := if b1 then _ else _).
  assert (table_ok k1 /\ g_current k1 = g_current k /\ g_task_count k1 = g_task_count k /\ tstate (slot k1 p) = TASK_READY) as (T1 & C1 & N1 & R1).
  { unfold k1. destruct b1; [|split_and!; [done|apply Hwk|apply Hwk|done]]. split_and!; [|apply Hwk|apply Hwk|].
    - apply (before_decision_ok k); [by apply shrink_before_decision|done].
    - rewrite (wk_current _ _ Hwk). rewrite slot_upd by (rewrite ?(wk_count _ _ Hwk); (done || lia)). by rewrite decide_False by done. }
  destruct b2; [left; split; [done|congruence]|]. apply decides_keeps_ready; [done|by rewrite N1|by rewrite C1|done].
Qed.

(** No slice grows past the largest quantum. *)
Definition slices_within Q k : Prop := forall j, 0 <= j < g_task_count k -> quantum (tslice (slot k j)) <= Q /\ ticks_left (tslice (slot k j)) <= Q.

Lemma tick_slices Q k : table_ok k -> slices_within Q k -> slices_within Q (scheduler_tick k).
Proof.
  intros Ht HQ. pose proof (tick_prelude_wakes k Ht) as Hwk. pose proof (wakes_ok _ _ Hwk Ht) as Ht1. pose proof (to_current _ Ht) as Hcur.
  assert (slices_within Q (tick_prelude k)) as HP.
  { intros j Hj. rewrite (wk_count _ _ Hwk) in Hj. destruct (wk_slot _ _ Hwk j Hj) as (_ & -> & -> & _). by apply HQ. }
  destruct (tick_shape k) as (b1 & b2 & ->). cbn zeta. set (k1 := if b1 then _ else _).
  assert (table_ok k1 /\ slices_within Q k1) as [T1 H1].
  { unfold k1. destruct b1; [|done]. split; [apply (before_decision_ok k); [by apply shrink_before_decision|done]|]. pose proof (to_current _ Ht1).
    intros j Hj. change (0 <= j < g_task_count (tick_prelude k)) in Hj. rewrite slot_upd by (done || lia). case_decide; [|by apply HP]. subst j. pose proof (HP _ Hj). cbn. lia. }
  destruct b2; [done|]. clear -T1 H1 H. pose proof (to_current _ T1) as Hcur. pose proof (to_count _ T1). unfold tick_decides.
  destruct (pick_next_ready_is k1 ltac:(lia) ltac:(lia)) as [[-> _]|[Hn Hrdy]]; [done|]. rewrite (proj2 (Z.ltb_ge _ _)) by lia.
  destruct (Z.eqb_spec (pick_next_ready k1) (g_current k1)) as [E|E].
  { intros j Hj. change (0 <= j < g_task_count k1) in Hj. rewrite slot_upd by (done || lia). case_decide; [|by apply H1]. subst j. pose proof (H1 _ Hj). cbn. lia. }
  unfold is_ready, is_state in Hrdy. apply bool_decide_eq_true in Hrdy.
  destruct (do_switch_spec k1 (g_current k1) (pick_next_ready k1) T1 eq_refl Hn E Hrdy) as (_ & _ & Ec & _ & _ & Etl & Hsl).
  intros j Hj. rewrite Ec in Hj. destruct (Hsl j Hj) as (_ & Eq & Hx). pose proof (H1 j Hj). rewrite Eq. split; [lia|].
  destruct (decide (j = pick_next_ready k1)) as [->|Hne]; [rewrite Etl; lia|]. destruct (Hx Hne) as [-> _]. lia.
Qed.

(** C30: A task blocked in a wait for any child runs again after a child has
    died: within [count * (Q + 1) + 1] timer ticks when no quantum exceeds
    [Q]. *)
Theorem waiting_parent_runs Q p z k :
  table_ok k -> can_run k -> 0 < p < g_task_count k -> 0 <= z < g_task_count k ->
  tstate (slot k p) = TASK_BLOCKED -> wait_task_id (tslice (slot k p)) = -1 -> zombie_child (id (slot k p)) (slot k z) -> slices_within Q k ->
  exists n : nat, Z.of_nat n <= g_task_count k * (Q + 1) + 1 /\
    let k' := Nat.iter n scheduler_tick k in g_current k' = p /\ tstate (slot k' p) = TASK_RUNNING.
Proof.
  intros Ht Hc Hp Hz Hb Hw Hch HQ. pose proof (HQ p ltac:(lia)) as [HQp _]. pose proof (to_quantum _ Ht p ltac:(lia)) as Hq.
  destruct (tick_wakes_parent k p z (conj Ht Hc) ltac:(lia) Hz Hb Hw Hch) as [[Hr Hne]|Hr]; [|by exists 1%nat; split; [nia|]].
  destruct (tick_ok k Ht) as (Ht' & Hc' & [Ec _ _]). pose proof (tick_slices Q k Ht HQ) as HQ'.
  destruct (fairness_bound Q p (Z.to_nat (g_task_count k * (Q + 1))) (scheduler_tick k)) as (m & Hm & Hk); try done.
  - lia.
  - intros j Hj. by apply HQ'.
  - pose proof (dist_range (scheduler_tick k) (g_current (scheduler_tick k)) p ltac:(rewrite Ec; lia)). rewrite Ec in *.
    rewrite Z2Nat.id by nia. assert (slice_left (scheduler_tick k) <= Q) by (unfold slice_left; pose proof (HQ' _ (to_current _ Ht')) as [_ ?]; unfold cur; case_match; lia). nia.
  - exists (S m). split; [nia|]. by rewrite Nat.iter_succ_r.
Qed.

(** ** One round of waitpid *)

Definition child_of (pid filter : Z) (t : task) : Prop := parent_id t = pid /\ (0 < filter -> id t = filter).
(** A child that has not ended. *)
Definition living_child k (pid filter : Z) : Prop := exists c, 0 <= c < g_task_count k /\ child_of pid filter (slot k c) /\ tstate (slot k c) <> TASK_DEAD.
Definition no_zombie k (pid filter : Z) : Prop :=
  forall z, 0 <= z < g_task_count k -> child_of pid filter (slot k z) -> tstate (slot k z) = TASK_DEAD -> wait_collected (tending (slot k z)) = true.

(** Task [p] waits for a child and nothing it waits for has happened. *)
Definition still_waits k (p : Z) : Prop :=
  tstate (slot k p) = TASK_BLOCKED /\ wake_tick (tslice (slot k p)) = 0 /\
  ((wait_task_id (tslice (slot k p)) = -1 /\ forall z, 0 <= z < g_task_count k -> ~ zombie_child (id (slot k p)) (slot k z)) \/
   (0 < wait_task_id (tslice (slot k p)) /\ exists c, 0 <= c < g_task_count k /\ id (slot k c) = wait_task_id (tslice (slot k p)) /\ tstate (slot k c) <> TASK_DEAD)).

Lemma id_i32 k i : table_ok k -> 0 <= i < g_task_count k -> i32 (id (slot k i)) = id (slot k i).
Proof. intros Ht Hi. pose proof (to_ids _ Ht i Hi). pose proof (to_next _ Ht). apply i32_small. lia. Qed.

(** Looking a task up by its identifier finds it. *)
Lemma find_by_id k i : table_ok k -> 0 <= i < g_task_count k -> find_task (fun t => i32 (id t) =? id (slot k i)) k = i.
Proof.
  intros Ht Hi. set (p := fun t => _). destruct (find_task_range p k) as [E|[Hr Hp]].
  - unfold find_task in E. pose proof (find_slot_none p (Z.to_nat (g_task_count k)) 0 k ltac:(lia) ltac:(lia) i ltac:(lia)) as Hn.
    unfold p in Hn. rewrite id_i32, Z.eqb_refl in Hn by done. done.
  - unfold p in Hp. apply Z.eqb_eq in Hp. apply (to_distinct _ Ht); [done|done|]. by rewrite id_i32 in Hp by done.
Qed.

Lemma wake_one_waiting i p k : table_ok k -> 0 <= i < g_task_count k -> 0 <= p < g_task_count k -> still_waits k p -> slot (wake_one i k) p = slot k p /\ still_waits (wake_one i k) p.
Proof.
  intros Ht Hi Hp Hs. destruct (decide (i = p)) as [->|Hne].
  - assert (wake_one p k = k) as ->; [|done]. destruct Hs as (Hb & Hw & Hcase). unfold wake_one. unfold is_state at 1. rewrite bool_decide_true by done.
    cbn [negb]. rewrite Hw. change (negb (0 =? 0) && (0 <=? g_sched_ticks k)) with false. cbv iota.
    destruct Hcase as [[-> Hz]|(Hpos & c & Hc & Hid & Hd)].
    + change (0 <? -1) with false. cbn [andb]. change (-1 =? -1) with true. cbn [andb]. rewrite (proj2 (Z.leb_gt _ _)); [done|].
      unfold find_waitable_child_index. match goal with |- context [find_task ?q k] => destruct (find_task_range q k) as [->|[Hr Hq]]; [lia|exfalso] end.
      unfold child_matches, is_state in Hq. bool_to_prop. eapply Hz; [exact Hr|]. apply bool_decide_eq_true in H2. split_and!; done.
    + rewrite (proj2 (Z.eqb_neq _ (-1))) by lia. cbn [andb]. unfold is_task_dead_or_missing. rewrite <- Hid, find_by_id by done.
      rewrite (proj2 (Z.ltb_ge c 0)) by lia. unfold is_state at 1. rewrite (bool_decide_false (_ = TASK_DEAD)) by done. by rewrite !andb_false_r.
  - pose proof (wake_one_other i p k Ht Hi ltac:(lia) (or_introl Hne)) as Ep. split; [done|]. pose proof (wake_one_wakes i k Ht Hi) as Hw.
    destruct Hs as (Hb & Hwt & Hcase). unfold still_waits. rewrite Ep, (wk_count _ _ Hw). split_and!; [done|done|].
    destruct Hcase as [[Hm Hz]|(Hpos & c & Hc & Hid & Hd)]; [left; split; [done|]|right; split; [done|]].
    + intros z Hzz Hch. apply (Hz z Hzz). destruct (wk_slot _ _ Hw z Hzz) as (_ & _ & _ & Hst).
      assert (tstate (slot k z) = TASK_DEAD) as Hd by (destruct Hch as (_ & Hd & _); destruct Hst as [<-|[_ E]]; congruence).
      rewrite <- (wake_one_other i z k); [done|done|done|lia|right; congruence].
    + exists c. destruct (wk_slot _ _ Hw c Hc) as (-> & _ & _ & Hst). split_and!; [lia|lia|done|]. destruct Hst as [->|[_ ->]]; done.
Qed.
Lemma wake_from_waiting n i p k : table_ok k -> 0 <= i -> i + Z.of_nat n <= g_task_count k -> 0 <= p < g_task_count k -> still_waits k p ->
  slot (wake_from n i k) p = slot k p.
Proof.
  revert i k. induction n as [|n IH]; intros i k Ht Hi Hn Hp Hs; cbn [wake_from]; [done|]. pose proof (wake_one_wakes i k Ht ltac:(lia)) as Hw.
  destruct (wake_one_waiting i p k Ht ltac:(lia) Hp Hs) as [E Hs']. rewrite IH; rewrite ?(wk_count _ _ Hw); try done; [by eapply wakes_ok|lia|lia].
Qed.

(** The switch away from a task that stopped leaves its slot as it is. *)
Lemma do_switch_other k prev next i : table_ok k -> 0 <= next < g_task_count k -> 0 <= i < g_task_count k -> i <> next ->
  tstate (slot k prev) <> TASK_RUNNING -> slot (do_switch prev next k) i = slot k i.
Proof.
  intros Ht Hn Hi Hne Hs. unfold do_switch. unfold is_state. rewrite bool_decide_false by done. rewrite andb_false_r. cbv zeta.
  change (slot (set_current next (do_env ?f (do_env ?g ?x))) i) with (slot x i). rewrite slot_upd by (done || lia). by rewrite decide_False by done.
Qed.

(** The task that blocks gives up the processor and keeps its slot. *)
Lemma tick_from_waiting k : table_ok k -> 0 < g_current k -> still_waits k (g_current k) ->
  let k' := scheduler_tick k in g_current k' <> g_current k /\ slot k' (g_current k) = slot k (g_current k) /\ tstate (cur k') = TASK_RUNNING.
Proof.
  intros Ht Hpos Hs. cbn zeta. pose proof (to_current _ Ht) as Hcur. pose proof (to_count _ Ht) as Hcnt.
  destruct (tick_cases k Ht) as [(Hr & _)|_]; [destruct Hs as (Hb & _); unfold cur in Hr; congruence|].
  pose proof (tick_prelude_wakes k Ht) as Hwk. pose proof (wakes_ok _ _ Hwk Ht) as Ht1.
  assert (slot (tick_prelude k) (g_current k) = slot k (g_current k)) as Ep.
  { unfold tick_prelude, wake_blocked_tasks. set (k0 := do_env _ _). assert (table_ok k0) as T0 by (apply (same_view_ok k); [by split|done]).
    change (g_task_count k0) with (g_task_count k). rewrite wake_from_waiting; [done|done|lia|change (g_task_count k0) with (g_task_count k); lia|done|done]. }
  assert (scheduler_tick k =
    let p := tick_prelude k in
    let running := (0 <=? g_current p) && is_state TASK_RUNNING (slot p (g_current p)) in
    let k1 := if running && (0 <? ticks_left (tslice (slot p (g_current p)))) then upd_slot (g_current p) shrink p else p in
    if running && (0 <? ticks_left (tslice (slot k1 (g_current k1)))) then k1 else tick_decides k1) as -> by done.
  cbn zeta. rewrite (wk_current _ _ Hwk), Ep. destruct Hs as (Hb & _). unfold is_state. rewrite (bool_decide_false (_ = TASK_RUNNING)) by congruence.
  rewrite andb_false_r. cbn [andb]. set (p := tick_prelude k) in *. unfold tick_decides.
  assert (is_ready p 0 = true) as H0.
  { unfold is_ready, is_state. apply bool_decide_true. destruct (to_idle _ Ht1) as [?|E]; [done|]. apply (to_running _ Ht1) in E; [|rewrite (wk_count _ _ Hwk); lia].
    rewrite (wk_current _ _ Hwk) in E. lia. }
  destruct (pick_next_ready_is p) as [[_ E]|[Hn Hrdy]]; [rewrite (wk_count _ _ Hwk); lia|rewrite (wk_current _ _ Hwk); lia|congruence|].
  unfold is_ready, is_state in Hrdy. apply bool_decide_eq_true in Hrdy. rewrite (proj2 (Z.ltb_ge _ _)) by lia. rewrite (wk_current _ _ Hwk).
  assert (pick_next_ready p <> g_current k) as Hne by (intros E; rewrite E, Ep in Hrdy; congruence). rewrite (proj2 (Z.eqb_neq _ _)) by done.
  destruct (do_switch_spec p (g_current k) (pick_next_ready p) Ht1 ltac:(by rewrite (wk_current _ _ Hwk)) Hn Hne Hrdy) as (_ & Ec & _ & _ & Hst & _).
  unfold cur. rewrite Ec. split_and!; [done| |done].
  rewrite do_switch_other; [done|done|done|rewrite (wk_count _ _ Hwk); lia|done|rewrite Ep; congruence].
Qed.

(** One round of waitpid, on every branch. A child that has ended is
    collected: its identifier and status are returned and it alone leaves
    the table. Otherwise the call fails when there is nothing to wait for,
    returns 0 when asked not to hang, and else blocks: another task runs and
    the caller waits for what it asked for. *)
Theorem waitpid_round_correct pid options k :
  table_ok k -> can_run k -> 0 < g_current k -> pid = -1 \/ 0 < pid ->
  let me := id (cur k) in
  match waitpid_round pid options me k with
  | (wait_done rc (Some status), k') =>
      exists c, 0 <= c < g_task_count k /\ child_of me pid (slot k c) /\ tstate (slot k c) = TASK_DEAD /\ wait_collected (tending (slot k c)) = false /\
        rc = id (slot k c) /\ status = i32 (exit_status (tending (slot k c))) /\
        g_task_count k' = g_task_count k - 1 /\ g_current k = from_slot c (g_current k') /\
        forall j, 0 <= j < g_task_count k' -> slot k' j = slot k (from_slot c j)
  | (wait_done rc None, k') =>
      k' = k /\ no_zombie k me pid /\ ((rc = -3 /\ ~ living_child k me pid) \/ (rc = 0 /\ is_set options TASK_WAIT_NOHANG = true /\ living_child k me pid))
  | (wait_blocks, k') =>
      no_zombie k me pid /\ living_child k me pid /\ is_set options TASK_WAIT_NOHANG = false /\
      g_current k' <> g_current k /\ tstate (slot k' (g_current k)) = TASK_BLOCKED /\ wait_task_id (tslice (slot k' (g_current k))) = pid
  end.
Proof.
  intros Ht Hc Hpos Hpid. cbn zeta. set (me := id (cur k)). unfold waitpid_round.
  assert (forall i, 0 <= i < g_task_count k -> child_matches me pid (slot k i) = true <-> child_of me pid (slot k i)) as Hm.
  { intros i Hi. unfold child_matches, child_of. rewrite id_i32 by done. rewrite andb_true_iff, negb_true_iff, andb_false_iff, negb_false_iff, !Z.eqb_eq, Z.ltb_ge.
    split; [intros [? [?|?]]; split; (done || lia)|intros [? ?]; split; [done|]]. destruct (decide (pid <= 0)); [by left|right; apply H1; lia]. }
  destruct (Z.leb_spec 0 (find_waitable_child_index me pid k)) as [Hw|Hw].
  { unfold find_waitable_child_index in *. set (p := fun t => _) in *. destruct (find_task_range p k) as [E|[Hr Hp]]; [lia|]. set (c := find_task p k) in *.
    unfold p, is_state in Hp. bool_to_prop. apply bool_decide_eq_true in H2. apply Hm in H0; [|done].
    destruct (collect_spec c k (conj Ht Hc) Hr H2) as (_ & Ec & Ecr & Hsl). exists c. split_and!; try done; try (apply Hr || by apply id_i32 || by apply negb_true_iff). }
  assert (no_zombie k me pid) as Hz.
  { intros z Hzr Hch Hd. unfold find_waitable_child_index, find_task in Hw. pose proof (find_slot_none _ _ _ _ Hw ltac:(lia) z ltac:(lia)) as E.
    cbv beta in E. rewrite (proj2 (Hm z Hzr) Hch) in E. unfold is_state in E. rewrite bool_decide_true in E by done. cbn [andb] in E. by apply negb_false_iff in E. }
  destruct (has_child_for_wait me pid k) eqn:Eh; cbn [negb].
  2: { split_and!; [done|done|]. left. split; [done|]. intros (c & Hcr & Hch & Hd). unfold has_child_for_wait, find_task in Eh. apply Z.leb_gt in Eh.
       pose proof (find_slot_none _ _ _ _ Eh ltac:(lia) c ltac:(lia)) as E. cbv beta in E. rewrite (proj2 (Hm c Hcr) Hch) in E. unfold is_state in E.
       rewrite bool_decide_false in E by done. done. }
  assert (living_child k me pid) as Hl.
  { unfold has_child_for_wait in Eh. apply Z.leb_le in Eh. match type of Eh with 0 <= find_task ?q k => destruct (find_task_range q k) as [E|[Hr Hq]]; [lia|]; set (c := find_task q k) in * end.
    bool_to_prop. apply Hm in H0; [|done]. exists c. split_and!; try done; try lia. intros Hd. specialize (Hz c Hr H0 Hd). unfold is_state in H1.
    rewrite bool_decide_true, Hz in H1 by done. done. }
  destruct (is_set options TASK_WAIT_NOHANG) eqn:Eo; [split_and!; [done|done|by right]|].
  set (f := fun t => with_state TASK_BLOCKED _). set (k1 := upd_slot (g_current k) f k). pose proof (to_current _ Ht) as Hcur.
  assert (table_ok k1) as Ht1 by (eapply stops_ok; [by apply upd_stops|exact Hpos|done]).
  assert (slot k1 (g_current k1) = f (cur k)) as Es by (change (g_current k1) with (g_current k); unfold k1; rewrite slot_upd by (done || lia); by rewrite decide_True by done).
  assert (forall i, 0 <= i < g_task_count k -> i <> g_current k -> slot k1 i = slot k i) as Eo' by (intros i Hi Hne; unfold k1; rewrite slot_upd by (done || lia); by rewrite decide_False by done).
  assert (still_waits k1 (g_current k1)) as Hs.
  { unfold still_waits. rewrite Es. cbn -[slot g_task_count g_current]. change (g_task_count k1) with (g_task_count k). split_and!; [done|done|].
    destruct Hpid as [->|Hp]; [left|right]; cbn -[slot].
    - split; [done|]. intros z Hzr (H1 & H2 & H3). assert (z <> g_current k) as Hne by (intros ->; change (slot k1 (g_current k)) with (slot k1 (g_current k1)) in H2; by rewrite Es in H2).
      rewrite Eo' in * by done. rewrite (Hz z Hzr) in H3; [done|split; [done|lia]|done].
    - rewrite (proj2 (Z.ltb_lt 0 pid)) by done. split; [done|]. destruct Hl as (c & Hcr & [Hch1 Hch2] & Hd). exists c. split; [done|].
      destruct (decide (c = g_current k)) as [->|Hne]; [|rewrite Eo' by done; by split; [apply Hch2|]].
      change (slot k1 (g_current k)) with (slot k1 (g_current k1)). rewrite Es. by split; [apply Hch2|]. }
  destruct (tick_from_waiting k1 Ht1 Hpos Hs) as (Hne & Ek & _). change (g_current k1) with (g_current k) in Hne, Ek, Es. unfold task_yield.
  split_and!; [done|done|done|done|by rewrite Ek, Es|]. rewrite Ek, Es. cbn. by destruct Hpid as [->|Hp]; [|rewrite (proj2 (Z.ltb_lt 0 pid)) by done].
Qed.

(** ** Signals *)

(** The kill signal has its default action. *)
Definition kill_default (t : task) : Prop := handler_of KSIGKILL t = KSIG_DFL /\ is_set (ignored_signals (tsignals t)) (KSIG_BIT KSIGKILL) = false.

Lemma fresh_kill_default r t : kill_default (with_signals (fresh_signals r) t).
Proof. by split. Qed.

(** No request of a task changes what the kill signal does to it. *)
Lemma action_keeps_kill sig act want k : table_ok k -> kill_default (cur k) -> kill_default (cur (signal_set_action_current sig act want k).2).
Proof.
  intros Ht Hk. unfold signal_set_action_current. do 3 (case_match; [done|]). destruct act as [a|]; [|done].
  destruct (signal_can_install_handler sig) eqn:Ei; cbn [negb]; [|done]. case_match; [done|]. cbn [snd]. unfold cur.
  set (k1 := upd_slot _ _ k). change (g_current k1) with (g_current k). unfold k1. pose proof (to_current _ Ht). rewrite slot_upd by (done || lia).
  rewrite decide_True by done. unfold signal_can_install_handler, signal_is_supported, KSIGINT, KSIGTERM, KSIGCHLD, KSIGKILL in Ei.
  assert (sig = 2 \/ sig = 15 \/ sig = 17) as Hsig by (clear -Ei; bool_to_prop; lia).
  destruct Hk as [Hh Hi]. unfold cur in *. unfold kill_default, handler_of. cbn [tsignals with_signals signal_handlers ignored_signals]. split.
  - rewrite list_lookup_total_insert_ne; [done|]. unfold KSIGKILL. lia.
  - unfold is_set in *. apply negb_false_iff, Z.eqb_eq in Hi. apply negb_false_iff, Z.eqb_eq.
    case_match; [rewrite Z.land_lor_distr_l, Hi|rewrite <- Z.land_assoc, (Z.land_comm (Z.lnot _)), Z.land_assoc, Hi]; destruct Hsig as [->|[->| ->]]; done.
Qed.

Lemma kill_idx k i : table_ok k -> 0 <= i < g_task_count k -> find_task_index_by_id (id (slot k i)) k = i.
Proof.
  intros Ht Hi. unfold find_task_index_by_id. pose proof (to_ids _ Ht i Hi). rewrite (proj2 (Z.leb_gt _ _)) by lia. by apply find_by_id.
Qed.

(** The kill signal to another task, with its default action. *)
Lemma kill_other_spec i k :
  table_ok k -> 0 < i < g_task_count k -> i <> g_current k -> tstate (slot k i) <> TASK_DEAD -> kill_default (slot k i) ->
  let '(rc, k') := task_kill (id (slot k i)) k in
  rc = Some 0 /\ tstate (slot k' i) = TASK_DEAD /\ tending (slot k' i) = mk_ending 137 9 false /\ stops k k' i.
Proof.
  intros Ht Hi Hne Hd [Hh Hg]. unfold task_kill, task_send_signal. change (negb (signal_is_supported KSIGKILL)) with false. cbv iota.
  rewrite kill_idx by (done || lia). rewrite (proj2 (Z.ltb_ge _ _)), (proj2 (Z.eqb_neq _ _)) by lia. cbn [andb]. unfold is_state at 1.
  rewrite bool_decide_false by done. set (k1 := upd_slot i (raise_pending _) k).
  assert (same_view k k1) as S1 by (apply upd_same_view; [done|lia|done]). pose proof (same_view_ok _ _ S1 Ht) as T1.
  assert (slot k1 i = raise_pending (KSIG_BIT KSIGKILL) (slot k i)) as E1 by (unfold k1; rewrite slot_upd by (done || lia); by rewrite decide_True by done).
  rewrite E1. change (handler_of KSIGKILL (raise_pending _ (slot k i))) with (handler_of KSIGKILL (slot k i)).
  change (ignored_signals (tsignals (raise_pending _ (slot k i)))) with (ignored_signals (tsignals (slot k i))). rewrite Hg, Hh.
  change (if (0 <? KSIGKILL) && (KSIGKILL <=? KSIG_MAX) then _ else _) with KSIG_DFL. change (false || (KSIG_DFL =? KSIG_IGN)) with false.
  change (KSIG_IGN <? KSIG_DFL) with false. change (KSIGKILL =? KSIGCHLD) with false. change (negb (signal_is_fatal_default KSIGKILL)) with false. cbv iota.
  set (k2 := upd_slot i (clear_pending _) k1). assert (same_view k1 k2) as S2 by (apply upd_same_view; [done|rewrite (sv_count _ _ S1); lia|done]).
  change (g_current k2) with (g_current k). rewrite (proj2 (Z.eqb_neq _ _)) by done.
  pose proof (same_view_trans _ _ _ S1 S2) as S. pose proof (same_view_ok _ _ S Ht) as T2.
  destruct (mark_dead_stops i (signal_default_exit_status KSIGKILL) (u32 KSIGKILL) k2 T2) as (Hs & Hst & He); [done| |].
  { pose proof (sv_view _ _ S i ltac:(lia)) as E. unfold view in E. inversion E as [[E2 E3 E4]]. by rewrite E3. }
  split_and!; [done|done|exact He|exact (stops_view _ _ _ _ S Hs)].
Qed.

(** C31: The kill signal sent to another task ends it, whatever it does: it is
    dead with status 137 and signal 9 for its parent to collect, at once, and
    no other task changes its state. *)
Theorem kill_ends_task i k :
  table_ok k -> 0 < i < g_task_count k -> i <> g_current k -> tstate (slot k i) <> TASK_DEAD -> kill_default (slot k i) ->
  let '(rc, k') := task_kill (id (slot k i)) k in
  rc = Some 0 /\ tstate (slot k' i) = TASK_DEAD /\ tending (slot k' i) = mk_ending 137 9 false /\ g_current k' = g_current k /\
  forall j, 0 <= j < g_task_count k -> j <> i -> tstate (slot k' j) = tstate (slot k j) /\ id (slot k' j) = id (slot k j).
Proof.
  intros Ht Hi Hne Hd Hk. pose proof (kill_other_spec i k Ht Hi Hne Hd Hk) as Hspec. destruct (task_kill _ k) as [rc k'].
  destruct Hspec as (-> & ? & ? & _ & _ & ? & _ & Ho). split_and!; try done. intros j Hj Hji. destruct (Ho j Hj) as (-> & _ & E).
  by rewrite decide_False in E by done.
Qed.

(** A dispatch that enters a handler, step by step. *)
Lemma dispatch_enters regs regs1 k k1 :
  table_ok k -> signal_dispatch_current regs k = (1, regs1, k1) -> signal_in_handler (tsignals (cur k1)) = true ->
  exists sig, let t := cur k in let sp := u32 (useresp regs - 8) in let restorer := signal_restorers (tsignals t) !!! Z.to_nat sig in
    0 < sig <= KSIG_MAX /\ is_set (pending_signals (tsignals t)) (KSIG_BIT sig) = true /\ KSIG_IGN < handler_of sig t /\ restorer <> 0 /\
    sp <= useresp regs /\ paging_access_ok sp 8 (env k) = true /\ regs1 = with_return sp (handler_of sig t) regs /\
    cur k1 = enter_handler sig regs t /\ env k1 = store32 (sp + 4) (u32 sig) (store32 sp restorer (env k)).
Proof.
  intros Ht Hd Hin. unfold signal_dispatch_current in Hd. pose proof (to_current _ Ht) as Hcur. rewrite (proj2 (Z.ltb_ge _ _)) in Hd by lia. cbv zeta in Hd.
  fold (cur k) in Hd. destruct (negb _); [done|]. destruct (is_state _ _); [done|].
  destruct (signal_in_handler (tsignals (cur k))) eqn:Eh; [done|]. destruct (Z.leb_spec (signal_pick_pending (cur k)) 0) as [|Hs]; [done|].
  set (sig := signal_pick_pending (cur k)) in *.
  assert (forall f, cur (upd_slot (g_current k) f k) = f (cur k)) as Hu.
  { intros f. unfold cur. change (g_current (upd_slot (g_current k) f k)) with (g_current k). rewrite slot_upd by (done || lia). by rewrite decide_True by done. }
  destruct (is_set _ _ || _).
  { injection Hd as _ <-. rewrite Hu in Hin. cbn in Hin. congruence. }
  destruct (Z.leb_spec (handler_of sig (cur k)) KSIG_IGN) as [|Hh].
  { destruct (sig =? KSIGCHLD); [|done]. injection Hd as _ <-. rewrite Hu in Hin. cbn in Hin. congruence. }
  destruct (Z.eqb_spec (signal_restorers (tsignals (cur k)) !!! Z.to_nat sig) 0) as [|Hrs]; [done|].
  destruct (_ || _) eqn:Eacc; [done|]. apply orb_false_elim in Eacc as [Hsp%Z.ltb_ge Hacc%negb_false_iff]. injection Hd as <- <-.
  exists sig. cbv zeta. change (cur (do_env ?f (do_env ?g ?x))) with (cur x). rewrite Hu.
  assert (0 < sig <= KSIG_MAX /\ is_set (pending_signals (tsignals (cur k))) (KSIG_BIT sig) = true) as [Hr Hp].
  { unfold sig, signal_pick_pending in *. clear -Hs. assert (forall n s, 0 < s -> 0 < pick_pending n s (cur k) ->
      s <= pick_pending n s (cur k) < s + Z.of_nat n /\ is_set (pending_signals (tsignals (cur k))) (KSIG_BIT (pick_pending n s (cur k))) = true) as Hg.
    { induction n as [|n IH]; intros s Hs0 Hps; cbn [pick_pending] in *; [lia|]. destruct (is_set _ _) eqn:E; [split; [lia|done]|].
      destruct (IH (s + 1) ltac:(lia) Hps) as [? ?]. split; [lia|done]. }
    destruct (Hg _ 1 ltac:(lia) Hs) as [H1 H2]. unfold KSIG_MAX in *. split; [lia|done]. }
  split_and!; done || lia.
Qed.

(** [sigreturn] through the system call gate. *)
Lemma sigreturn_syscall others regs k :
  0 <= g_current k -> signal_in_handler (tsignals (cur k)) = true -> reg_eax regs = SYS_sigreturn ->
  exists k', syscall_isr others regs k = (with_eax 0 (signal_saved_regs (tsignals (cur k))), k') /\
    k' = upd_slot (g_current k) (with_signals (let g := tsignals (cur k) in
      mk_signals (pending_signals g) (ignored_signals g) (signal_handlers g) (signal_restorers g) false 0 (signal_saved_regs g))) k.
Proof.
  intros Hc Hi He. eexists. split; [|reflexivity]. unfold syscall_isr, syscall_dispatch. rewrite He.
  change (SYS_sigreturn =? SYS_getpid) with false. change (SYS_sigreturn =? SYS_getppid) with false. change (SYS_sigreturn =? SYS_getuid) with false.
  change (SYS_sigreturn =? SYS_getgid) with false. change (SYS_sigreturn =? SYS_setpgid) with false. change (SYS_sigreturn =? SYS_getpgrp) with false.
  change (SYS_sigreturn =? SYS_setsid) with false. change (SYS_sigreturn =? SYS_signal) with false. rewrite Z.eqb_refl. cbv iota.
  unfold sys_sigreturn, signal_sigreturn_current. rewrite (proj2 (Z.ltb_ge _ _)) by done. fold (cur k). cbv zeta. by rewrite Hi.
Qed.

Lemma pick_pending_ext n sig t t' : pending_signals (tsignals t) = pending_signals (tsignals t') -> pick_pending n sig t = pick_pending n sig t'.
Proof. intros E. revert sig. induction n as [|n IH]; intros sig; cbn [pick_pending]; [done|]. by rewrite E, IH. Qed.

(** Nothing pending: the way back to user mode enters no handler. *)
Lemma dispatch_idle regs k : 0 <= g_current k -> signal_pick_pending (cur k) <= 0 -> (signal_dispatch_current regs k).1.2 = regs /\ (signal_dispatch_current regs k).2 = k.
Proof.
  intros Hc Hp. unfold signal_dispatch_current. rewrite (proj2 (Z.ltb_ge _ _)) by done. cbv zeta. fold (cur k).
  rewrite (proj2 (Z.leb_le (signal_pick_pending (cur k)) 0)) by done. by repeat case_match.
Qed.

(** C32: A signal handler returns to where the task was, but for [eax]. A
    dispatch that enters a handler resumes the task in it on a stack 8 bytes
    lower, which it checked to be writable and where it stored the restorer
    as the return address and the signal number as the argument; the signal
    is no longer pending. Until [sigreturn] no other handler is entered, and
    the [sigreturn] system call gives back the registers of the interruption,
    whatever the handler left in them, all but [eax]: the gate overwrites it
    with the call's result 0. With no further signal pending the interrupt
    returns with them, unless the interruption was a hardware interrupt: its
    vector, restored too, then runs that interrupt's handler once more. *)
Theorem handler_roundtrip others vectors irq_dispatch regs regs1 k k1 :
  table_ok k -> signal_dispatch_current regs k = (1, regs1, k1) -> signal_in_handler (tsignals (cur k1)) = true ->
  (exists sig restorer, let sp := u32 (useresp regs - 8) in
     0 < sig <= KSIG_MAX /\ is_set (pending_signals (tsignals (cur k))) (KSIG_BIT sig) = true /\
     is_set (pending_signals (tsignals (cur k1))) (KSIG_BIT sig) = false /\ eip regs1 = handler_of sig (cur k) /\ KSIG_IGN < eip regs1 /\
     restorer = signal_restorers (tsignals (cur k)) !!! Z.to_nat sig /\ restorer <> 0 /\
     sp <= useresp regs /\ paging_access_ok sp 8 (env k) = true /\ env k1 = store32 (sp + 4) sig (store32 sp restorer (env k)) /\
     useresp regs1 = sp /\ gprs regs1 = gprs regs /\ eflags regs1 = eflags regs /\ cs regs1 = cs regs /\ ss regs1 = ss regs) /\
  forall k2 regs2, table_ok k2 ->
    signal_in_handler (tsignals (cur k2)) = signal_in_handler (tsignals (cur k1)) ->
    signal_saved_regs (tsignals (cur k2)) = signal_saved_regs (tsignals (cur k1)) ->
    signal_dispatch_current regs2 k2 = (0, regs2, k2) /\
    (reg_eax regs2 = SYS_sigreturn -> int_no regs2 = 128 \/ int_no regs2 = 129 ->
     exists k3, syscall_isr others regs2 k2 = (with_eax 0 regs, k3) /\ signal_in_handler (tsignals (cur k3)) = false /\
       pending_signals (tsignals (cur k3)) = pending_signals (tsignals (cur k2)) /\
       (signal_pick_pending (cur k2) = 0 -> ~ 32 <= int_no regs < 48 ->
        isr_handler others vectors irq_dispatch regs2 k2 = (with_eax 0 regs, k3)) /\
       (32 <= int_no regs < 48 -> isr_handler others vectors irq_dispatch regs2 k2 =
          let '(r, k) := irq_dispatch (int_no regs - 32) (with_eax 0 regs) k3 in
          if Z.land (cs r) 3 =? 3 then let '(_, r, k) := signal_dispatch_current r k in (r, k) else (r, k))).
Proof.
  intros Ht Hd Hin. destruct (dispatch_enters regs regs1 k k1 Ht Hd Hin) as (sig & Hent). cbv zeta in Hent.
  destruct Hent as (Hr & Hp & Hh & Hrs & Hsp & Hacc & -> & Ek1 & Eenv). split.
  - exists sig, (signal_restorers (tsignals (cur k)) !!! Z.to_nat sig). cbv zeta. rewrite Ek1, Eenv.
    rewrite (u32_small sig) by (unfold KSIG_MAX in Hr; lia). split_and!; try done; try lia.
    unfold enter_handler, is_set. cbn [tsignals with_signals pending_signals].
    by rewrite <- Z.land_assoc, (Z.land_comm (Z.lnot _)), Z.land_lnot_diag, Z.land_0_r.
  - intros k2 regs2 Ht2 Ein Esv. pose proof (to_current _ Ht2) as Hc2. rewrite Ek1 in Ein, Esv. cbn in Ein, Esv. split.
    { unfold signal_dispatch_current. fold (cur k2). rewrite (proj2 (Z.ltb_ge (g_current k2) 0)) by lia. cbv zeta. rewrite Ein. by repeat case_match. }
    intros He Hv. destruct (sigreturn_syscall others regs2 k2 ltac:(lia) Ein He) as (k3 & Esys & Ek3). rewrite Esv in Esys.
    assert (cur k3 = with_signals (let g := tsignals (cur k2) in
      mk_signals (pending_signals g) (ignored_signals g) (signal_handlers g) (signal_restorers g) false 0 (signal_saved_regs g)) (cur k2)) as Ec.
    { subst k3. unfold cur. change (g_current (upd_slot (g_current k2) ?f k2)) with (g_current k2).
      rewrite slot_upd by (done || lia). by rewrite decide_True by done. }
    assert ((int_no regs2 =? 128) || (int_no regs2 =? 129) = true) as Hg by (destruct Hv as [-> | ->]; done).
    exists k3. rewrite Ec. split_and!; [done|done|done| |].
    + intros Hpk Hirq. unfold isr_handler. rewrite Hg, Esys. change (int_no (with_eax 0 regs)) with (int_no regs).
      assert ((32 <=? int_no regs) && (int_no regs <? 48) = false) as -> by lia.
      destruct (dispatch_idle (with_eax 0 regs) k3) as [E1 E2]; [subst k3; cbn; lia|rewrite Ec; unfold signal_pick_pending in *; by rewrite (pick_pending_ext _ _ _ (cur k2)), Hpk|].
      destruct (signal_dispatch_current _ k3) as [[? ?] ?]. cbn [fst snd] in E1, E2. subst. by case_match.
    + intros Hirq. unfold isr_handler. rewrite Hg, Esys. change (int_no (with_eax 0 regs)) with (int_no regs).
      by assert ((32 <=? int_no regs) && (int_no regs <? 48) = true) as -> by lia.
Qed.
End scheduling.

(** ** Concrete runs *)

(** A kernel whose rest is the next free address of its heap. *)
#[local] Instance bump_env : Env Z := {|
  kmalloc n e := (e, e + n); kfree _ e := e; store32 _ _ e := e; vfs_open_node _ _ e := (0, e); vfs_close_node _ e := e; node_type _ _ := 1;
  phys_alloc_frame e := (e, e + 4096); phys_free_frame _ e := e; zero_frame _ e := e; paging_current_cr3 _ := 0x1000; paging_retain_mm _ e := e;
  paging_release_mm _ e := e; paging_switch_mm _ e := e; paging_fork_current_cow e := (Some 0x2000, e); paging_unmap_user_range _ _ e := e;
  paging_access_ok _ _ _ := true; tss_set_kernel_stack _ e := e; net_service_tick e := e; blockdev_pump _ e := e;
  task_trampoline := 0x100; idle_thread := 0x200; fork_child_entry := 0x300 |}.

(** A closed fact, by evaluation. *)
Ltac run := clear; vm_compute; done.

Definition before_boot : kernel Z := mk_k (replicate (Z.to_nat TASK_MAX) no_task) 0 0 0 0 [] 0x100000.
Definition boot : kernel Z := default before_boot (tasking_initialize before_boot).
Definition spawn (k : kernel Z) : kernel Z := default k (snd <$> task_create_named 0x5000 0 0 (name_text [97]) k).
(** Two tasks, the first of them running. *)
Definition two : kernel Z := scheduler_tick (spawn (spawn boot)).
(** It has a child too. *)
Definition with_child : kernel Z := spawn two.

Lemma boot_is : tasking_initialize before_boot = Some boot.
Proof. vm_compute. reflexivity. Qed.
Lemma spawn_step k : g_next_id k < 2 ^ 31 -> is_Some (task_create_named 0x5000 0 0 (name_text [97]) k) -> kstep k (spawn k).
Proof. intros Hn [[rc k'] E]. apply (k_create 0x5000 0 0 (name_text [97]) k rc); [done|]. unfold spawn. by rewrite E. Qed.
Lemma two_steps : rtc kstep boot two.
Proof.
  unfold two. apply (rtc_l _ boot (spawn boot)); [apply spawn_step; [run|vm_compute; by eexists]|].
  apply (rtc_l _ (spawn boot) (spawn (spawn boot))); [apply spawn_step; [run|vm_compute; by eexists]|]. apply rtc_once, k_tick.
Qed.
Lemma steps_inv k : rtc kstep boot k -> inv k.
Proof.
  intros Hr. assert (inv boot) as Hb by (apply (boot_inv before_boot); [done|apply boot_is|run]).
  revert Hb. induction Hr as [|? ? ? Hs _ IH]; [done|]. intros Hi. apply IH. by eapply kstep_inv.
Qed.
Lemma with_child_steps : rtc kstep boot with_child.
Proof. unfold with_child. apply (rtc_r boot two); [apply two_steps|]. apply spawn_step; [run|vm_compute; by eexists]. Qed.

Lemma table_invariant_witness : g_task_count two = 3 /\ table_ok two /\ can_run two.
Proof. split; [run|]. apply (table_invariant before_boot boot); [done|apply boot_is|run|apply two_steps]. Defined.

Lemma below_3 (P : Z -> Prop) : P 0 -> P 1 -> P 2 -> forall j, 0 <= j < 3 -> P j.
Proof. intros ? ? ? j Hj. assert (j = 0 \/ j = 1 \/ j = 2) as [->|[->| ->]] by lia; done. Qed.

Lemma round_robin_bounded_witness : exists n : nat, Z.of_nat n <= 18 /\ g_current (Nat.iter n scheduler_tick two) = 2.
Proof.
  destruct (round_robin_bounded 5 2 two) as (n & Hn & Hk & _); [apply (steps_inv two), two_steps|run|run|run| |run|].
  - assert (g_task_count two = 3) as -> by run. apply below_3; run.
  - exists n. split; [|done]. assert (g_task_count two = 3) as E by run. rewrite E in Hn. lia.
Defined.

Lemma yield_keeps_running_witness : is_ready two 2 = true /\ g_current (task_yield two) = 1.
Proof. split; [run|]. destruct (yield_keeps_running two) as [-> _]; [apply (steps_inv two), two_steps|run|run|run]. Defined.

(** The first task waits for its child, which the other then kills. *)
Definition waiting : kernel Z := (task_send_signal 4 KSIGKILL (waitpid_round (-1) 0 2 with_child).2).2.
Lemma waiting_steps : rtc kstep boot waiting.
Proof.
  unfold waiting. set (k := (waitpid_round _ _ _ _).2). apply (rtc_r boot k); [|apply (k_signal 4 KSIGKILL)]. apply (rtc_r boot with_child); [apply with_child_steps|].
  assert (id (cur with_child) = 2) as E by run. unfold k. rewrite <- E. apply k_wait. run.
Qed.
Lemma below_4 (P : Z -> Prop) : P 0 -> P 1 -> P 2 -> P 3 -> forall j, 0 <= j < 4 -> P j.
Proof. intros ? ? ? ? j Hj. assert (j = 0 \/ j = 1 \/ j = 2 \/ j = 3) as [->|[->|[->| ->]]] by lia; done. Qed.
Lemma waiting_parent_runs_witness : exists n : nat, Z.of_nat n <= 25 /\ g_current (Nat.iter n scheduler_tick waiting) = 1.
Proof.
  destruct (steps_inv waiting waiting_steps) as [Ht Hc].
  assert (slices_within 5 waiting) as Hs by (intros j Hj; assert (g_task_count waiting = 4) as E by run; rewrite E in Hj; revert j Hj; apply below_4; run).
  destruct (waiting_parent_runs 5 1 3 waiting Ht Hc) as (n & Hn & Hk & _); [run|run|run|run|run|done|].
  exists n. split; [|done]. assert (g_task_count waiting = 4) as E by run. rewrite E in Hn. lia.
Defined.

Lemma waitpid_round_correct_witness : (waitpid_round (-1) 0 2 with_child).1 = wait_blocks /\ g_current (waitpid_round (-1) 0 2 with_child).2 <> 1.
Proof.
  destruct (steps_inv with_child with_child_steps) as [Ht Hc].
  pose proof (waitpid_round_correct (-1) 0 with_child Ht Hc ltac:(run) ltac:(by left)) as Hw. cbn zeta in Hw.
  assert (id (cur with_child) = 2) as E2 by run. assert (g_current with_child = 1) as E1 by run. rewrite E1, E2 in Hw. destruct (waitpid_round (-1) 0 2 with_child) as [r k'] eqn:E.
  assert (r = wait_blocks) as -> by (change r with ((r, k').1); rewrite <- E; run). split; [done|]. by destruct Hw as (_ & _ & _ & ? & _).
Defined.

Lemma kill_ends_task_witness : (task_kill 3 two).1 = Some 0 /\ tstate (slot (task_kill 3 two).2 2) = TASK_DEAD.
Proof.
  pose proof (kill_ends_task 2 two (proj1 (steps_inv two two_steps)) ltac:(run) ltac:(run) ltac:(run) ltac:(run)) as Hk.
  assert (id (slot two 2) = 3) as E by run. rewrite E in Hk. destruct (task_kill 3 two) as [rc k']. cbn [fst snd]. destruct Hk as (Hr & Hd & _). exact (conj Hr Hd).
Defined.

(** A handler for the terminate signal, and the signal. *)
Definition signalled : kernel Z :=
  (task_send_signal 2 KSIGTERM (signal_set_action_current KSIGTERM (Some (mk_sa 0x4000 0 0 0x4100)) false two).2).2.
Definition user_regs (vector : Z) : registers := mk_regs (replicate 9 7) vector 0 0x8048000 0x1B 0x202 0xBFFF0000 0x23.
Lemma signalled_steps : rtc kstep boot signalled.
Proof.
  unfold signalled. set (k := (signal_set_action_current _ _ _ _).2). apply (rtc_r boot k); [|apply (k_signal 2 KSIGTERM)].
  apply (rtc_r boot two); [apply two_steps|]. apply k_call, c_action.
Qed.
(** The handler leaves its own values in the registers and makes the call. *)
Definition restorer_regs : registers := mk_regs (replicate 8 1 ++ [SYS_sigreturn]) 128 0 0x4100 0x1B 0x202 0xBFFEFFFC 0x23.
Definition no_call (_ : Z) (r : registers) (k : kernel Z) : Z * registers * kernel Z := (-38, r, k).
Definition no_vector (_ : Z) : handler_t := fun r (k : kernel Z) => (r, k).
(** The timer is interrupt 0. *)
Definition timer_irq (irq : Z) : handler_t := fun r (k : kernel Z) => (r, if irq =? 0 then scheduler_tick k else k).

(** A signal taken on the way out of a system call: what the handler returns
    to has [eax] 0 instead of 7. *)
Lemma handler_roundtrip_witness :
  let '(_, regs1, k1) := signal_dispatch_current (user_regs 128) signalled in
  eip regs1 = 0x4000 /\ useresp regs1 = 0xBFFEFFF8 /\
  exists k3, isr_handler no_call no_vector no_vector restorer_regs k1 =
    (mk_regs (replicate 8 7 ++ [0]) 128 0 0x8048000 0x1B 0x202 0xBFFF0000 0x23, k3).
Proof.
  assert (let d := signal_dispatch_current (user_regs 128) signalled in
    d.1.1 = 1 /\ eip d.1.2 = 0x4000 /\ useresp d.1.2 = 0xBFFEFFF8 /\ signal_in_handler (tsignals (cur d.2)) = true /\
    signal_pick_pending (cur d.2) = 0) as Hd by run. cbn zeta in Hd. pose proof (proj1 (steps_inv signalled signalled_steps)) as Ht.
  pose proof (same_view_ok _ _ (dispatch_view (user_regs 128) signalled Ht) Ht) as Ht1.
  destruct (signal_dispatch_current (user_regs 128) signalled) as [[rc regs1] k1] eqn:E. cbn [fst snd] in Hd, Ht1.
  destruct Hd as (-> & He & Hsp & Hi & Hp).
  destruct (handler_roundtrip no_call no_vector no_vector (user_regs 128) regs1 signalled k1 Ht E Hi) as [_ Hr].
  split; [exact He|]. split; [exact Hsp|]. destruct (Hr k1 restorer_regs Ht1 eq_refl eq_refl) as [_ Hs].
  destruct (Hs eq_refl (or_introl eq_refl)) as (k3 & _ & _ & _ & Hret & _). exists k3. apply Hret; [exact Hp|cbn; lia].
Defined.

(** Taken on a timer interrupt instead, the restored vector makes [sigreturn]
    a timer interrupt: the task's slice is one tick shorter. *)
Example sigreturn_repeats_interrupt :
  let d := signal_dispatch_current (user_regs 32) signalled in
  let r := isr_handler no_call no_vector timer_irq restorer_regs d.2 in
  r.1 = with_eax 0 (user_regs 32) /\ ticks_left (tslice (slot r.2 1)) = ticks_left (tslice (slot d.2 1)) - 1.
Proof. by vm_compute. Qed.

(** ** What goes wrong *)

(** A sleep of one tick is over before it begins: the task is woken by its
    own yield, and when no other task can run it goes on at once, still marked
    ready. *)
Definition alone : kernel Z := scheduler_tick (spawn boot).
Example sleep_one_tick_returns :
  g_current alone = 1 /\ g_current (task_sleep_ticks 1 alone) = 1 /\ tstate (slot (task_sleep_ticks 1 alone) 1) = TASK_READY.
Proof. by vm_compute. Qed.

(** When the table is full, a fork sweeps it first, and [parent] still is the
    slot the caller had before the sweep: with a task removed below it, the
    child becomes the child of the task that follows the caller in the table. *)
Definition full : kernel Z := (task_kill 2 (Nat.iter 6 scheduler_tick (Nat.iter 31 spawn boot))).2.
Example fork_takes_wrong_parent :
  g_task_count full = 32 /\ id (slot full (g_current full)) = 3 /\
  match task_fork_user no_frame full with
  | Some (rc, k') => rc = 33 /\ id (slot k' (g_current k')) = 3 /\ parent_id (slot k' 31) = 4
  | None => False
  end.
Proof. by vm_compute. Qed.

(** [setsid] looks only at the caller's own group: a task that made a group,
    let its child join it and left it for another becomes a session leader whose
    group identifier is that of a group of the old session. *)
Definition regroup : kernel Z :=
  let k := (task_setpgid 0 2 with_child).2 in
  let k := (task_setpgid 4 2 k).2 in
  let k := (task_setpgid 0 1 k).2 in
  (task_setsid k).2.
Example setsid_splits_group :
  pgid (tjob (slot regroup 1)) = 2 /\ pgid (tjob (slot regroup 3)) = 2 /\ sid (tjob (slot regroup 1)) = 2 /\ sid (tjob (slot regroup 3)) = 1.
Proof. by vm_compute. Qed.

End TaskSpec.
