(* ===== verification/Paging.v ===== *)
(** * Paging ([kernel/paging.c])

    Two-level page tables in byte memory, address spaces with reference
    counts, copy-on-write fork, lazily filled regions, swapping and the page
    fault handler. Page directories, page tables and pages are frames of the
    allocator of [Pmm.v] in the memory of [Mem.v]; the kernel reaches them
    through its identity mapping, so a table access is a physical access,
    and an access to a user page goes through [translate]. Translations are
    not cached in the model: the source invalidates the entry of every page
    it changes in the current address space. The disk and the files are the
    interface [Outside]; what the handlers ask of the current task are
    arguments. *)

From S2P Require Import Prelude Mem Pmm Ring BlockDev VfsPath Vfs Libc Task.

Module Paging.
Import Mem Pmm.

Definition PAGE_SIZE : Z := 4096.
Definition PTE_P : Z := 0x001.
Definition PTE_W : Z := 0x002.
Definition PTE_U : Z := 0x004.
Definition PTE_A : Z := 0x020.
Definition PTE_COW : Z := 0x200.
Definition PTE_SWAPPED : Z := 0x400.
Definition KHEAP_BASE : Z := 0x40000000.
Definition KHEAP_SIZE : Z := 4 * 1024 * 1024.
Definition MM_SLOT_MAX : nat := 64.
Definition DEMAND_REGION_MAX : nat := 32.
Definition PAGING_FLAG_WRITE : Z := 0x002.
Definition MMAP_PROT_WRITE : Z := 0x2.

(** ** State *)

Record mm_slot := mk_mm { mm_cr3 : Z; mm_refs : Z; mm_used : bool }.
Record demand_region := mk_demand { dr_start : Z; dr_end : Z; dr_flags : Z; dr_used : bool }.
(** [slot_refs]: [None] is the null pointer. *)
Record swap_state := mk_swap {
  sw_enabled : bool; sw_dev_index : Z; base_lba : Z; blocks_per_page : Z; slot_count : Z; slots_used : Z;
  pageouts : Z; pageins : Z; sw_faults : Z; hand_mm : Z; hand_page : Z; slot_refs : option (list Z) }.
Record swap_victim := mk_victim { v_pt : Z; v_pt_index : Z; v_cr3 : Z; v_vaddr : Z; v_phys : Z; v_pte : Z }.
Record paging_stats := mk_stats {
  st_demand_regions : Z; st_demand_faults : Z; st_cow_faults : Z; st_swap_slots_total : Z; st_swap_slots_used : Z;
  st_swap_pageouts : Z; st_swap_pageins : Z; st_swap_faults : Z; st_swap_enabled : bool }.

Class Outside (D : Type) := {
  (** Results of the calls; a read also gives the bytes it stored. *)
  blockdev_write : Z -> Z -> Z -> list Z -> D -> Z * D;
  blockdev_read : Z -> Z -> Z -> D -> Z * list Z * D;
  vfs_read : Z -> Z -> Z -> D -> Z * list Z * D;
  node_size : Z -> D -> Z
}.

Record paging (D : Type) := mk_paging {
  ram : mem;
  frames : pmm;
  g_kernel_cr3 : Z;
  g_current_cr3 : Z;
  g_mm_slots : list mm_slot;
  g_demand_regions : list demand_region;
  g_demand_region_count : Z;
  g_demand_fault_count : Z;
  g_cow_fault_count : Z;
  g_cow_scratch : list Z;
  g_swap : swap_state;
  outside : D
}.
#[global] Arguments mk_paging {D}.
#[global] Arguments ram {D}.
#[global] Arguments frames {D}.
#[global] Arguments g_kernel_cr3 {D}.
#[global] Arguments g_current_cr3 {D}.
#[global] Arguments g_mm_slots {D}.
#[global] Arguments g_demand_regions {D}.
#[global] Arguments g_demand_region_count {D}.
#[global] Arguments g_demand_fault_count {D}.
#[global] Arguments g_cow_fault_count {D}.
#[global] Arguments g_cow_scratch {D}.
#[global] Arguments g_swap {D}.
#[global] Arguments outside {D}.

Definition no_mm : mm_slot := mk_mm 0 0 false.
Definition no_demand : demand_region := mk_demand 0 0 0 false.
Definition no_swap : swap_state := mk_swap false 0 0 0 0 0 0 0 0 0 0 None.
#[global] Instance mm_inhabited : Inhabited mm_slot := populate no_mm.

(** ** Bytes and entries *)

Fixpoint st_bytes (m : mem) (a : Z) (l : list Z) : mem :=
  match l with [] => m | b :: l => st_bytes (st8 m a b) (a + 1) l end.
Definition ld_bytes (m : mem) (a : Z) (n : nat) : list Z := map (fun i => ld8 m (a + Z.of_nat i)) (seq 0 n).

Definition page_of (a : Z) : Z := Z.land a (Z.lnot 0xFFF).
Definition page_up (a : Z) : Z := page_of (u32 (a + (PAGE_SIZE - 1))).
Definition dir_index (va : Z) : Z := Z.land (Z.shiftr va 22) 0x3FF.
Definition tab_index (va : Z) : Z := Z.land (Z.shiftr va 12) 0x3FF.
(** [table[i]] *)
Definition entry (m : mem) (table i : Z) : Z := ld32 m (table + 4 * i).
Definition pte_is_swapped (pte : Z) : bool := negb (is_set pte PTE_P) && is_set pte PTE_SWAPPED.
Definition pte_swap_slot (pte : Z) : Z := Z.shiftr pte 12.
Definition pte_swap_flags (pte : Z) : Z := Z.land pte (Z.lor PTE_W (Z.lor PTE_U PTE_COW)).
Definition pd_from_phys (phys : Z) : Z := page_of phys.

Definition get_pt_from_pd (m : mem) (pd dir : Z) : option Z :=
  if pd =? 0 then None
  else if negb (is_set (entry m pd dir) PTE_P) then None
  else Some (page_of (entry m pd dir)).

(** What the processor does with a virtual page of the address space [cr3]. *)
Definition translate (m : mem) (cr3 page : Z) : option Z :=
  match get_pt_from_pd m (pd_from_phys cr3) (dir_index page) with
  | None => None
  | Some pt =>
      let pte := entry m pt (tab_index page) in
      if is_set pte PTE_P then Some (page_of pte) else None
  end.

Section paging.
Context {D : Type} `{Outside D}.
Implicit Types s : paging D.

Definition set_ram m s := mk_paging m (frames s) (g_kernel_cr3 s) (g_current_cr3 s) (g_mm_slots s) (g_demand_regions s) (g_demand_region_count s) (g_demand_fault_count s) (g_cow_fault_count s) (g_cow_scratch s) (g_swap s) (outside s).
Definition set_frames f s := mk_paging (ram s) f (g_kernel_cr3 s) (g_current_cr3 s) (g_mm_slots s) (g_demand_regions s) (g_demand_region_count s) (g_demand_fault_count s) (g_cow_fault_count s) (g_cow_scratch s) (g_swap s) (outside s).
Definition set_current_cr3 c s := mk_paging (ram s) (frames s) (g_kernel_cr3 s) c (g_mm_slots s) (g_demand_regions s) (g_demand_region_count s) (g_demand_fault_count s) (g_cow_fault_count s) (g_cow_scratch s) (g_swap s) (outside s).
Definition set_kernel_cr3 c s := mk_paging (ram s) (frames s) c (g_current_cr3 s) (g_mm_slots s) (g_demand_regions s) (g_demand_region_count s) (g_demand_fault_count s) (g_cow_fault_count s) (g_cow_scratch s) (g_swap s) (outside s).
Definition set_mm_slots l s := mk_paging (ram s) (frames s) (g_kernel_cr3 s) (g_current_cr3 s) l (g_demand_regions s) (g_demand_region_count s) (g_demand_fault_count s) (g_cow_fault_count s) (g_cow_scratch s) (g_swap s) (outside s).
Definition count_demand s := mk_paging (ram s) (frames s) (g_kernel_cr3 s) (g_current_cr3 s) (g_mm_slots s) (g_demand_regions s) (g_demand_region_count s) (u32 (g_demand_fault_count s + 1)) (g_cow_fault_count s) (g_cow_scratch s) (g_swap s) (outside s).
Definition count_cow s := mk_paging (ram s) (frames s) (g_kernel_cr3 s) (g_current_cr3 s) (g_mm_slots s) (g_demand_regions s) (g_demand_region_count s) (g_demand_fault_count s) (u32 (g_cow_fault_count s + 1)) (g_cow_scratch s) (g_swap s) (outside s).
Definition set_scratch l s := mk_paging (ram s) (frames s) (g_kernel_cr3 s) (g_current_cr3 s) (g_mm_slots s) (g_demand_regions s) (g_demand_region_count s) (g_demand_fault_count s) (g_cow_fault_count s) l (g_swap s) (outside s).
Definition set_swap w s := mk_paging (ram s) (frames s) (g_kernel_cr3 s) (g_current_cr3 s) (g_mm_slots s) (g_demand_regions s) (g_demand_region_count s) (g_demand_fault_count s) (g_cow_fault_count s) (g_cow_scratch s) w (outside s).
Definition set_outside (d : D) s := mk_paging (ram s) (frames s) (g_kernel_cr3 s) (g_current_cr3 s) (g_mm_slots s) (g_demand_regions s) (g_demand_region_count s) (g_demand_fault_count s) (g_cow_fault_count s) (g_cow_scratch s) (g_swap s) d.

Definition set_entry (table i v : Z) s := set_ram (st32 (ram s) (table + 4 * i) v) s.
Definition frame_alloc s : Z * paging D := let '(pa, f) := phys_alloc_frame (frames s) in (pa, set_frames f s).
Definition frame_free (pa : Z) s := set_frames (phys_free_frame pa (frames s)) s.
Definition frame_ref (pa : Z) s := set_frames (pmm_frame_ref pa (frames s)) s.
Definition frame_unref (pa : Z) s := set_frames (pmm_frame_unref pa (frames s)) s.

(** An access to the bytes of a page of the current address space. *)
Definition at_page (page : Z) (f : Z -> mem -> mem) s : paging D :=
  match translate (ram s) (g_current_cr3 s) page with
  | Some pa => set_ram (f pa (ram s)) s
  | None => s
  end.
Definition zero_page (page : Z) s : paging D := at_page page (fun pa m => memset m pa 0 (Z.to_nat PAGE_SIZE)) s.
Definition store_at (va : Z) (l : list Z) s : paging D := at_page (page_of va) (fun pa m => st_bytes m (pa + Z.land va 0xFFF) l) s.
Definition load_page (page : Z) s : list Z :=
  match translate (ram s) (g_current_cr3 s) page with
  | Some pa => ld_bytes (ram s) pa (Z.to_nat PAGE_SIZE)
  | None => g_cow_scratch s
  end.

(** ** Address space slots *)

Fixpoint find_mm (p : mm_slot -> bool) (l : list mm_slot) (i : Z) : Z :=
  match l with [] => -1 | x :: l => if p x then i else find_mm p l (i + 1) end.
Definition mm_find_slot (cr3 : Z) s : Z := find_mm (fun x => mm_used x && (mm_cr3 x =? cr3)) (g_mm_slots s) 0.
Definition put_mm (i : Z) (x : mm_slot) s : paging D := set_mm_slots (<[Z.to_nat i := x]> (g_mm_slots s)) s.
Definition mm_alloc_slot (cr3 refs : Z) s : Z * paging D :=
  let i := find_mm (fun x => negb (mm_used x)) (g_mm_slots s) 0 in
  if i <? 0 then (-1, s) else (i, put_mm i (mk_mm cr3 refs true) s).

(** ** Swap slots *)

Definition swap_refs (l : list Z) (used : Z) s : paging D :=
  let w := g_swap s in
  set_swap (mk_swap (sw_enabled w) (sw_dev_index w) (base_lba w) (blocks_per_page w) (slot_count w) used (pageouts w) (pageins w) (sw_faults w)
              (hand_mm w) (hand_page w) (Some l)) s.
(** The first slot below the count without references. *)
Fixpoint free_slot (n : nat) (i : Z) (l : list Z) : option Z :=
  match n with O => None | S n => if negb (l !!! Z.to_nat i =? 0) then free_slot n (i + 1) l else Some i end.
Definition swap_alloc_slot s : option Z * paging D :=
  let w := g_swap s in
  match slot_refs w with
  | None => (None, s)
  | Some l =>
      if negb (sw_enabled w) then (None, s)
      else
        match free_slot (Z.to_nat (slot_count w)) 0 l with
        | None => (None, s)
        | Some i => (Some i, swap_refs (<[Z.to_nat i := 1]> l) (u32 (slots_used w + 1)) s)
        end
  end.
(** The reference array when a slot of it can be touched. *)
Definition live_slot (slot : Z) s : option (list Z) :=
  if negb (sw_enabled (g_swap s)) then None
  else match slot_refs (g_swap s) with None => None | Some l => if slot_count (g_swap s) <=? slot then None else Some l end.
Definition swap_slot_ref (slot : Z) s : paging D :=
  match live_slot slot s with
  | None => s
  | Some l =>
      let c := l !!! Z.to_nat slot in
      if c =? 0 then swap_refs (<[Z.to_nat slot := 1]> l) (u32 (slots_used (g_swap s) + 1)) s
      else if negb (c =? 0xFFFF) then swap_refs (<[Z.to_nat slot := c + 1]> l) (slots_used (g_swap s)) s
      else s
  end.
Definition swap_slot_unref (slot : Z) s : paging D :=
  match live_slot slot s with
  | None => s
  | Some l =>
      let c := l !!! Z.to_nat slot in
      let u := slots_used (g_swap s) in
      if c =? 0 then s
      else if 1 <? c then swap_refs (<[Z.to_nat slot := c - 1]> l) u s
      else swap_refs (<[Z.to_nat slot := 0]> l) (if 0 <? u then u - 1 else u) s
  end.

(** ** Tables *)

Definition alloc_zeroed_frame s : Z * paging D :=
  let '(pa, s) := frame_alloc s in
  if pa =? 0 then (0, s) else (pa, set_ram (memset (ram s) pa 0 (Z.to_nat PAGE_SIZE)) s).

Definition ensure_pt_in_pd (pd dir pde_flags : Z) s : option Z * paging D :=
  if pd =? 0 then (None, s)
  else if is_set (entry (ram s) pd dir) PTE_P then (Some (page_of (entry (ram s) pd dir)), s)
  else
    let '(pt_pa, s) := alloc_zeroed_frame s in
    if pt_pa =? 0 then (None, s)
    else (Some pt_pa, set_entry pd dir (Z.lor (page_of pt_pa) (Z.lor PTE_P (Z.land pde_flags (Z.lor PTE_W PTE_U)))) s).

Definition map_page_in_pd (pd virt phys flags : Z) s : Z * paging D :=
  match ensure_pt_in_pd pd (dir_index virt) flags s with
  | (None, s) => (-1, s)
  | (Some pt, s) => (0, set_entry pt (tab_index virt) (Z.lor (page_of phys) (Z.land flags 0xFFF)) s)
  end.
Definition map_page (virt phys flags : Z) s : Z * paging D := map_page_in_pd (pd_from_phys (g_current_cr3 s)) virt phys flags s.

Definition unmap_page_current (virt : Z) s : Z * paging D :=
  let pd := pd_from_phys (g_current_cr3 s) in
  if pd =? 0 then (-1, s)
  else
    match get_pt_from_pd (ram s) pd (dir_index virt) with
    | None => (0, s)
    | Some pt =>
        let i := tab_index virt in
        let pte := entry (ram s) pt i in
        if negb (is_set pte PTE_P) then
          if pte_is_swapped pte then (1, swap_slot_unref (pte_swap_slot pte) (set_entry pt i 0 s)) else (0, s)
        else if negb (is_set pte PTE_U) then (0, s)
        else (1, frame_unref (page_of pte) (set_entry pt i 0 s))
    end.

(** [n] pages from [a]. *)
Fixpoint identity_pages (n : nat) (pd a flags : Z) s : paging D :=
  match n with O => s | S n => identity_pages n pd (a + PAGE_SIZE) flags (map_page_in_pd pd a a flags s).2 end.
Definition page_span (lo hi : Z) : nat := Z.to_nat ((hi - lo) / PAGE_SIZE).
Definition identity_map_range (pd start size flags : Z) s : paging D :=
  let lo := page_of start in
  let hi := page_of (u32 (start + size + PAGE_SIZE - 1)) in
  identity_pages (page_span lo hi) pd lo flags s.

Fixpoint new_frame_pages (n : nat) (pd va flags : Z) s : paging D :=
  match n with
  | O => s
  | S n =>
      let '(pa, s) := frame_alloc s in
      if pa =? 0 then s else new_frame_pages n pd (va + PAGE_SIZE) flags (map_page_in_pd pd va pa flags s).2
  end.
Definition map_region_new_frames (pd vbase size flags : Z) s : paging D :=
  let lo := page_of vbase in
  let hi := page_of (u32 (vbase + size + PAGE_SIZE - 1)) in
  new_frame_pages (page_span lo hi) pd lo flags s.

(** Entries [i ...] of the directory; [n] of them. *)
Fixpoint clone_entries (n : nat) (i src_pd dst_pd : Z) s : paging D :=
  match n with
  | O => s
  | S n =>
      let pde := entry (ram s) src_pd i in
      clone_entries n (i + 1) src_pd dst_pd
        (if negb (is_set pde PTE_P) || is_set pde PTE_U then s else set_entry dst_pd i pde s)
  end.
Definition clone_kernel_mappings (dst_pd : Z) s : paging D := clone_entries 1024 0 (pd_from_phys (g_kernel_cr3 s)) dst_pd s.

Fixpoint drop_pages (n : nat) (j pt : Z) s : paging D :=
  match n with
  | O => s
  | S n =>
      let pte := entry (ram s) pt j in
      drop_pages n (j + 1) pt
        (if is_set pte PTE_P then frame_unref (page_of pte) s
         else if pte_is_swapped pte then swap_slot_unref (pte_swap_slot pte) s else s)
  end.
Fixpoint drop_tables (n : nat) (i pd : Z) s : paging D :=
  match n with
  | O => s
  | S n =>
      let pde := entry (ram s) pd i in
      drop_tables n (i + 1) pd
        (if negb (is_set pde PTE_P) || negb (is_set pde PTE_U) then s
         else frame_free (page_of pde) (drop_pages 1024 0 (page_of pde) s))
  end.
Definition destroy_mm (cr3_phys : Z) s : paging D :=
  if cr3_phys =? 0 then s
  else
    let pd := pd_from_phys cr3_phys in
    if pd =? 0 then s else frame_free (page_of cr3_phys) (drop_tables 1024 0 pd s).

(** ** Swapping out *)

Definition pages_per_pd : Z := 1024 * 1024.
Definition set_hand (mm page : Z) s : paging D :=
  let w := g_swap s in
  set_swap (mk_swap (sw_enabled w) (sw_dev_index w) (base_lba w) (blocks_per_page w) (slot_count w) (slots_used w) (pageouts w) (pageins w) (sw_faults w)
              mm page (slot_refs w)) s.

(** The pages of one address space, from step [page_step]. *)
Fixpoint victim_pages (n : nat) (page_step page_start mm_index cr3 : Z) (second_chance : bool) s : option swap_victim * paging D :=
  match n with
  | O => (None, s)
  | S n =>
      let next s := victim_pages n (page_step + 1) page_start mm_index cr3 second_chance s in
      let page_index := (page_start + page_step) mod pages_per_pd in
      let dir := Z.land (Z.shiftr page_index 10) 0x3FF in
      let ti := Z.land page_index 0x3FF in
      let pde := entry (ram s) (pd_from_phys cr3) dir in
      if negb (is_set pde PTE_P) || negb (is_set pde PTE_U) then next s
      else
        let pt := page_of pde in
        let pte := entry (ram s) pt ti in
        if negb (is_set pte PTE_P) || negb (is_set pte PTE_U) || is_set pte PTE_COW then next s
        else
          let pa := page_of pte in
          if negb (pmm_frame_refcount pa (frames s) =? 1) then next s
          else if second_chance && is_set pte PTE_A then next (set_entry pt ti (Z.land pte (Z.lnot PTE_A)) s)
          else
            (Some (mk_victim pt ti (page_of cr3) (Z.lor (Z.shiftl dir 22) (Z.shiftl ti 12)) pa pte),
             set_hand mm_index ((page_index + 1) mod pages_per_pd) s)
  end.
Fixpoint victim_spaces (n : nat) (mm_step start_mm start_page : Z) (second_chance : bool) s : option swap_victim * paging D :=
  match n with
  | O => (None, s)
  | S n =>
      let mm_index := (start_mm + mm_step) mod Z.of_nat MM_SLOT_MAX in
      let slot := g_mm_slots s !!! Z.to_nat mm_index in
      let next s := victim_spaces n (mm_step + 1) start_mm start_page second_chance s in
      if negb (mm_used slot) || (page_of (mm_cr3 slot) =? g_kernel_cr3 s) || (pd_from_phys (mm_cr3 slot) =? 0) then next s
      else
        match victim_pages (Z.to_nat pages_per_pd) 0 (if mm_step =? 0 then start_page else 0) mm_index (mm_cr3 slot) second_chance s with
        | (Some v, s) => (Some v, s)
        | (None, s) => next s
        end
  end.
Definition find_swap_victim (second_chance : bool) s : option swap_victim * paging D :=
  victim_spaces MM_SLOT_MAX 0 (hand_mm (g_swap s)) (hand_page (g_swap s)) second_chance s.

Definition slot_lba (slot : Z) s : Z := base_lba (g_swap s) + slot * blocks_per_page (g_swap s).
Definition count_pageout s : paging D :=
  let w := g_swap s in
  set_swap (mk_swap (sw_enabled w) (sw_dev_index w) (base_lba w) (blocks_per_page w) (slot_count w) (slots_used w) (u32 (pageouts w + 1)) (pageins w) (sw_faults w)
              (hand_mm w) (hand_page w) (slot_refs w)) s.
Definition count_pagein s : paging D :=
  let w := g_swap s in
  set_swap (mk_swap (sw_enabled w) (sw_dev_index w) (base_lba w) (blocks_per_page w) (slot_count w) (slots_used w) (pageouts w) (u32 (pageins w + 1)) (u32 (sw_faults w + 1))
              (hand_mm w) (hand_page w) (slot_refs w)) s.

Definition swap_page_out_one s : Z * paging D :=
  if negb (sw_enabled (g_swap s)) then (-1, s)
  else
    let '(v, s) := match find_swap_victim true s with (Some v, s) => (Some v, s) | (None, s) => find_swap_victim false s end in
    match v with
    | None => (-2, s)
    | Some v =>
        match swap_alloc_slot s with
        | (None, s) => (-3, s)
        | (Some slot, s) =>
            let '(rc, d) := blockdev_write (sw_dev_index (g_swap s)) (slot_lba slot s) (blocks_per_page (g_swap s))
                              (ld_bytes (ram s) (v_phys v) (Z.to_nat PAGE_SIZE)) (outside s) in
            let s := set_outside d s in
            if rc <? 0 then (-4, swap_slot_unref slot s)
            else
              let s := set_entry (v_pt v) (v_pt_index v) (u32 (Z.lor (Z.shiftl slot 12) (Z.lor PTE_SWAPPED (pte_swap_flags (v_pte v))))) s in
              (0, count_pageout (frame_unref (v_phys v) s))
        end
    end.

Definition alloc_frame_for_paging s : Z * paging D :=
  let '(pa, s) := frame_alloc s in
  if negb (pa =? 0) then (pa, s)
  else if negb (sw_enabled (g_swap s)) then (0, s)
  else
    let '(rc, s) := swap_page_out_one s in
    if rc <? 0 then (0, s) else frame_alloc s.

(** ** Page faults *)

Definition handle_swap_fault (fault_addr err_code : Z) s : Z * paging D :=
  if is_set err_code 0x1 then (0, s)
  else if negb (sw_enabled (g_swap s)) then (0, s)
  else
    let page := page_of fault_addr in
    match get_pt_from_pd (ram s) (pd_from_phys (g_current_cr3 s)) (dir_index page) with
    | None => (0, s)
    | Some pt =>
        let ti := tab_index page in
        let pte := entry (ram s) pt ti in
        if negb (pte_is_swapped pte) then (0, s)
        else
          let slot := pte_swap_slot pte in
          if slot_count (g_swap s) <=? slot then (-1, s)
          else
            let '(pa, s) := alloc_frame_for_paging s in
            if pa =? 0 then (-1, s)
            else
              let '(rc, s) := map_page page pa (Z.lor PTE_P (Z.lor PTE_W PTE_U)) s in
              if rc <? 0 then (-1, frame_free pa s)
              else
                let '(rc, data, d) := blockdev_read (sw_dev_index (g_swap s)) (slot_lba slot s) (blocks_per_page (g_swap s)) (outside s) in
                let s := store_at page data (set_outside d s) in
                if rc <? 0 then (-1, (unmap_page_current page s).2)
                else
                  let s := set_entry pt ti (Z.lor (page_of pa) (Z.lor PTE_P (pte_swap_flags pte))) s in
                  (1, count_pagein (swap_slot_unref slot s))
    end.

Definition in_region (addr : Z) (r : demand_region) : bool := dr_used r && (dr_start r <=? addr) && (addr <? dr_end r).
Definition find_demand_region (addr : Z) s : option demand_region := List.find (in_region addr) (g_demand_regions s).

Definition handle_demand_fault (fault_addr err_code : Z) s : Z * paging D :=
  if is_set err_code 0x1 then (0, s)
  else
    match find_demand_region fault_addr s with
    | None => (0, s)
    | Some region =>
        let page := page_of fault_addr in
        let '(pa, s) := alloc_frame_for_paging s in
        if pa =? 0 then (-1, s)
        else
          let '(rc, s) := map_page page pa (Z.lor PTE_P (Z.land (dr_flags region) (Z.lor PTE_W PTE_U))) s in
          if rc <? 0 then (-1, frame_free pa s) else (1, count_demand (zero_page page s))
    end.

(** The regions the loops over [elf_regions] look at. *)
Definition elf_covers (page : Z) (r : Task.task_elf_lazy_region) : bool := Task.el_in_use r && (Task.el_start r <=? page) && (page <? Task.el_end r).
Definition elf_live (t : Task.task) : list Task.task_elf_lazy_region :=
  let e := Task.telf t in take (Z.to_nat (Z.min (Task.elf_region_count e) Task.TASK_ELF_LAZY_MAX)) (Task.elf_regions e).
Definition elf_matches (t : Task.task) (page : Z) : list Task.task_elf_lazy_region := List.filter (elf_covers page) (elf_live t).

(** [pt[ti] &= ~PTE_W] for a page of the current address space. *)
Definition write_protect (page : Z) s : option (paging D) :=
  match get_pt_from_pd (ram s) (pd_from_phys (g_current_cr3 s)) (dir_index page) with
  | None => None
  | Some pt => Some (set_entry pt (tab_index page) (Z.land (entry (ram s) pt (tab_index page)) (Z.lnot PTE_W)) s)
  end.

(** The copies out of the program image, in order; false is the early
    return of -1. *)
Fixpoint copy_segments (l : list Task.task_elf_lazy_region) (page : Z) (backing : list Z) (size : Z) s : bool * paging D :=
  match l with
  | [] => (true, s)
  | r :: l =>
      let copy_start := if page <? Task.el_file_start r then Task.el_file_start r else page in
      let copy_end := if Task.el_file_end r <? u32 (page + PAGE_SIZE) then Task.el_file_end r else u32 (page + PAGE_SIZE) in
      if copy_start <? copy_end then
        let copy_len := u32 (copy_end - copy_start) in
        let file_off := u32 (Task.el_file_offset r + u32 (copy_start - Task.el_file_start r)) in
        if size <? u32 (file_off + copy_len) then (false, s)
        else copy_segments l page backing size (store_at copy_start (take (Z.to_nat copy_len) (drop (Z.to_nat file_off) backing)) s)
      else copy_segments l page backing size s
  end.

Definition handle_elf_lazy_fault (cur : option Task.task) (fault_addr err_code : Z) s : Z * paging D :=
  if is_set err_code 0x1 then (0, s)
  else
    match cur with
    | None => (0, s)
    | Some t =>
        match Task.elf_backing (Task.telf t) with
        | None => (0, s)
        | Some (_, backing) =>
            let size := Task.elf_backing_size (Task.telf t) in
            if size =? 0 then (0, s)
            else
              let page := page_of fault_addr in
              let l := elf_matches t page in
              if bool_decide (l = []) then (0, s)
              else
                let writable := existsb (fun r => is_set (Task.el_flags r) PAGING_FLAG_WRITE) l in
                let '(pa, s) := alloc_frame_for_paging s in
                if pa =? 0 then (-1, s)
                else
                  let '(rc, s) := map_page page pa (Z.lor PTE_P (Z.lor PTE_W PTE_U)) s in
                  if rc <? 0 then (-1, frame_free pa s)
                  else
                    match copy_segments l page backing size (zero_page page s) with
                    | (false, s) => (-1, s)
                    | (true, s) =>
                        match (if writable then Some s else write_protect page s) with
                        | None => (-1, s)
                        | Some s => (1, count_demand s)
                        end
                    end
        end
    end.

Definition mmap_covers (page : Z) (r : Task.task_mmap_region) : bool := Task.rg_in_use r && (Task.rg_start r <=? page) && (page <? Task.rg_end r).

(** How many bytes of the file fill the page. *)
Definition file_part (r : Task.task_mmap_region) (page size : Z) : Z :=
  let file_off := u32 (Task.rg_file_offset r + u32 (page - Task.rg_start r)) in
  let max_in_region := u32 (Task.rg_end r - page) in
  let to_read := if max_in_region <? PAGE_SIZE then max_in_region else PAGE_SIZE in
  if file_off <? size then (if size - file_off <? to_read then size - file_off else to_read) else 0.

(** [shm_frame]: [task_shm_get_frame]. *)
Definition handle_mmap_fault (cur : option Task.task) (shm_frame : Z -> Z -> option Z) (fault_addr err_code : Z) s : Z * paging D :=
  if is_set err_code 0x1 then (0, s)
  else
    match cur with
    | None => (0, s)
    | Some t =>
        let page := page_of fault_addr in
        match List.find (mmap_covers page) (Task.mmap_regions t) with
        | None => (0, s)
        | Some r =>
            let shared := Task.rg_backing r =? Task.TASK_MMAP_BACKING_SHM in
            let '(pa, s) :=
              if shared then
                match shm_frame (Task.rg_shm_id r) (Z.shiftr (u32 (Task.rg_file_offset r + u32 (page - Task.rg_start r))) 12) with
                | None => (0, s)
                | Some pa => (pa, frame_ref pa s)
                end
              else alloc_frame_for_paging s in
            if pa =? 0 then (-1, s)
            else
              let '(rc, s) := map_page page pa (Z.lor PTE_P (Z.lor PTE_U PTE_W)) s in
              if rc <? 0 then (-1, if shared then frame_unref pa s else frame_free pa s)
              else
                let s := if shared then s else zero_page page s in
                let '(failed, s) :=
                  if (Task.rg_backing r =? Task.TASK_MMAP_BACKING_FILE) && negb (Task.rg_file_node r =? 0) then
                    let n := file_part r page (node_size (Task.rg_file_node r) (outside s)) in
                    if 0 <? n then
                      let '(nread, data, d) := vfs_read (Task.rg_file_node r) (u32 (Task.rg_file_offset r + u32 (page - Task.rg_start r))) n (outside s) in
                      (nread <? 0, store_at page data (set_outside d s))
                    else (false, s)
                  else (false, s) in
                if failed then (-1, s)
                else
                  match (if is_set (Task.rg_prot r) MMAP_PROT_WRITE then Some s else write_protect page s) with
                  | None => (-1, s)
                  | Some s => (1, count_demand s)
                  end
        end
    end.

Definition handle_cow_fault (fault_addr err_code : Z) s : Z * paging D :=
  if negb (is_set err_code 0x1) then (0, s)
  else if negb (is_set err_code 0x2) then (0, s)
  else
    let page := page_of fault_addr in
    let ti := tab_index page in
    match get_pt_from_pd (ram s) (pd_from_phys (g_current_cr3 s)) (dir_index page) with
    | None => (0, s)
    | Some pt =>
        let pte := entry (ram s) pt ti in
        if negb (is_set pte PTE_P) then (0, s)
        else if negb (is_set pte PTE_COW) then (0, s)
        else
          let old_pa := page_of pte in
          if pmm_frame_refcount old_pa (frames s) <=? 1
          then (1, count_cow (set_entry pt ti (Z.land (Z.lor pte PTE_W) (Z.lnot PTE_COW)) s))
          else
            let s := set_scratch (load_page page s) s in
            let '(new_pa, s) := alloc_frame_for_paging s in
            if new_pa =? 0 then (-1, s)
            else
              let '(rc, s) := map_page page new_pa (Z.lor (Z.land pte PTE_U) (Z.lor PTE_P PTE_W)) s in
              if rc <? 0 then (-1, frame_free new_pa s)
              else (1, count_cow (frame_unref old_pa (store_at page (g_cow_scratch s) s)))
    end.

(** [None]: the fault could not be resolved and the system halts. *)
Definition page_fault_handler (cur : option Task.task) (shm_frame : Z -> Z -> option Z) (fault_addr err_code : Z) s : option (paging D) :=
  match handle_swap_fault fault_addr err_code s with
  | (rc, s) => if 0 <? rc then Some s else
  match handle_elf_lazy_fault cur fault_addr err_code s with
  | (rc, s) => if 0 <? rc then Some s else
  match handle_mmap_fault cur shm_frame fault_addr err_code s with
  | (rc, s) => if 0 <? rc then Some s else
  match handle_demand_fault fault_addr err_code s with
  | (rc, s) => if 0 <? rc then Some s else
  match handle_cow_fault fault_addr err_code s with
  | (rc, s) => if 0 <? rc then Some s else None
  end end end end end.

(** ** Checking user pointers *)

(** What the four tests of the loop say of one page. *)
Definition page_access_ok (cur : option Task.task) (write : bool) (page : Z) s : bool :=
  let mapped :=
    match get_pt_from_pd (ram s) (pd_from_phys (g_current_cr3 s)) (dir_index page) with
    | None => false
    | Some pt =>
        let pte := entry (ram s) pt (tab_index page) in
        if is_set pte PTE_P then is_set pte PTE_U && (negb write || is_set pte PTE_W || is_set pte PTE_COW)
        else if pte_is_swapped pte then
          let f := pte_swap_flags pte in is_set f PTE_U && (negb write || is_set f PTE_W || is_set f PTE_COW)
        else false
    end in
  let demand :=
    match find_demand_region page s with
    | Some r => is_set (dr_flags r) PTE_U && (negb write || is_set (dr_flags r) PTE_W)
    | None => false
    end in
  let elf :=
    match cur with
    | Some t => match elf_matches t page with r :: _ => negb write || is_set (Task.el_flags r) PAGING_FLAG_WRITE | [] => false end
    | None => false
    end in
  let mmap :=
    match cur with
    | Some t => match List.find (mmap_covers page) (Task.mmap_regions t) with
                | Some r => negb write || is_set (Task.rg_prot r) MMAP_PROT_WRITE | None => false end
    | None => false
    end in
  mapped || demand || elf || mmap.

Fixpoint access_pages (n : nat) (cur : option Task.task) (write : bool) (page : Z) s : bool :=
  match n with
  | O => true
  | S n => page_access_ok cur write page s && access_pages n cur write (page + PAGE_SIZE) s
  end.
Definition paging_access_ok (cur : option Task.task) (addr len : Z) (write : bool) s : bool :=
  if len =? 0 then true
  else
    let e := u32 (addr + len) in
    if e <? addr then false
    else
      let first := page_of addr in
      let last := page_of (u32 (e - 1)) in
      access_pages (Z.to_nat ((last - first) / PAGE_SIZE + 1)) cur write first s.

(** ** Mapping and unmapping *)

Definition paging_map_user (vaddr : Z) s : Z * paging D :=
  match ensure_pt_in_pd (pd_from_phys (g_current_cr3 s)) (dir_index vaddr) (Z.lor PTE_W PTE_U) s with
  | (None, s) => (-1, s)
  | (Some pt, s) =>
      if is_set (entry (ram s) pt (tab_index vaddr)) PTE_P then (0, s)
      else
        let '(pa, s) := alloc_frame_for_paging s in
        if pa =? 0 then (-2, s)
        else (0, zero_page (page_of vaddr) (set_entry pt (tab_index vaddr) (Z.lor (page_of pa) (Z.lor PTE_P (Z.lor PTE_W PTE_U))) s))
  end.

Fixpoint unmap_pages (n : nat) (va changed : Z) s : Z * paging D :=
  match n with
  | O => (changed, s)
  | S n =>
      let '(rc, s) := unmap_page_current va s in
      if rc <? 0 then (rc, s) else unmap_pages n (va + PAGE_SIZE) (if 0 <? rc then 1 else changed) s
  end.
Definition paging_unmap_user_range (start size : Z) s : Z * paging D :=
  if size =? 0 then (-1, s)
  else
    let lo := page_of start in
    let hi := page_of (u32 (start + size + PAGE_SIZE - 1)) in
    if hi <=? lo then (-1, s) else unmap_pages (page_span lo hi) lo 0 s.

Definition paging_get_stats s : paging_stats :=
  let w := g_swap s in
  mk_stats (g_demand_region_count s) (g_demand_fault_count s) (g_cow_fault_count s) (slot_count w) (slots_used w) (pageouts w) (pageins w) (sw_faults w) (sw_enabled w).

(** ** Address spaces *)

(** [cr3]: what the register holds. *)
Definition paging_current_cr3 (cr3 : Z) s : Z * paging D :=
  let s := if g_current_cr3 s =? 0 then set_current_cr3 cr3 s else s in (g_current_cr3 s, s).

Definition paging_switch_mm (cr3_phys : Z) s : paging D :=
  if cr3_phys =? 0 then s
  else if page_of cr3_phys =? g_current_cr3 s then s
  else set_current_cr3 (page_of cr3_phys) s.

Definition paging_create_mm s : Z * Z * paging D :=
  if g_kernel_cr3 s =? 0 then (-2, 0, s)
  else
    let '(pd_pa, s) := alloc_zeroed_frame s in
    if pd_pa =? 0 then (-3, 0, s)
    else
      let s := clone_kernel_mappings pd_pa s in
      let '(i, s) := mm_alloc_slot pd_pa 1 s in
      if i <? 0 then (-4, 0, frame_free pd_pa s) else (0, pd_pa, s).

Definition paging_retain_mm (cr3_phys : Z) s : paging D :=
  if cr3_phys =? 0 then s
  else
    let cr3 := page_of cr3_phys in
    let i := mm_find_slot cr3 s in
    if 0 <=? i then
      let x := g_mm_slots s !!! Z.to_nat i in put_mm i (mk_mm (mm_cr3 x) (u32 (mm_refs x + 1)) (mm_used x)) s
    else (mm_alloc_slot cr3 1 s).2.

Definition paging_release_mm (cr3_phys : Z) s : paging D :=
  if cr3_phys =? 0 then s
  else
    let cr3 := page_of cr3_phys in
    let i := mm_find_slot cr3 s in
    if i <? 0 then s
    else
      let x := g_mm_slots s !!! Z.to_nat i in
      if 1 <? mm_refs x then put_mm i (mk_mm (mm_cr3 x) (mm_refs x - 1) (mm_used x)) s
      else
        let s := put_mm i no_mm s in
        if cr3 =? g_kernel_cr3 s then s else destroy_mm cr3 s.

(** ** Fork *)

(** Entries [j ...] of one page table. [is_shared]: [task_is_shared_page]. *)
Fixpoint fork_pages (n : nat) (i j parent_pt child_pt : Z) (is_shared : Z -> bool) s : paging D :=
  match n with
  | O => s
  | S n =>
      let pte := entry (ram s) parent_pt j in
      let s :=
        if negb (is_set pte PTE_P) then
          if pte_is_swapped pte then swap_slot_ref (pte_swap_slot pte) (set_entry child_pt j pte s) else s
        else if negb (is_set pte PTE_U) then s
        else
          let vaddr := Z.lor (Z.shiftl i 22) (Z.shiftl j 12) in
          let cow := negb (is_shared vaddr) && is_set pte (Z.lor PTE_W PTE_COW) in
          let pte' := if cow then Z.land (Z.lor pte PTE_COW) (Z.lnot PTE_W) else pte in
          let s := if cow then set_entry parent_pt j pte' s else s in
          frame_ref (page_of pte') (set_entry child_pt j pte' s) in
      fork_pages n i (j + 1) parent_pt child_pt is_shared s
  end.

(** Entries [i ...] of the directory; false when a table cannot be allocated. *)
Fixpoint fork_tables (n : nat) (i parent_pd child_pd : Z) (is_shared : Z -> bool) s : bool * paging D :=
  match n with
  | O => (true, s)
  | S n =>
      let pde := entry (ram s) parent_pd i in
      if negb (is_set pde PTE_P) || negb (is_set pde PTE_U) then fork_tables n (i + 1) parent_pd child_pd is_shared s
      else
        let '(child_pt, s) := alloc_zeroed_frame s in
        if child_pt =? 0 then (false, s)
        else
          let s := set_entry child_pd i (Z.lor (page_of child_pt) (Z.land pde 0xFFF)) s in
          fork_tables n (i + 1) parent_pd child_pd is_shared (fork_pages 1024 i 0 (page_of pde) child_pt is_shared s)
  end.

Definition paging_fork_current_cow (cr3 : Z) (is_shared : Z -> bool) s : Z * Z * paging D :=
  let '(c, s) := paging_current_cr3 cr3 s in
  let parent_cr3 := page_of c in
  if pd_from_phys parent_cr3 =? 0 then (-2, 0, s)
  else
    let '(mk, child_cr3, s) := paging_create_mm s in
    if mk <? 0 then (mk, 0, s)
    else
      match fork_tables 1024 0 (pd_from_phys parent_cr3) (pd_from_phys child_cr3) is_shared s with
      | (false, s) => (-3, 0, paging_release_mm child_cr3 s)
      | (true, s) => (0, child_cr3, set_current_cr3 parent_cr3 s)
      end.

(** ** Initialisation *)

Record multiboot_tag_framebuffer := mk_fb { framebuffer_addr : Z; framebuffer_pitch : Z; framebuffer_height : Z }.

(** [None]: no frame for the directory, the system halts. *)
Definition paging_initialize (fb_tag : option multiboot_tag_framebuffer) s : option (paging D) :=
  let s := mk_paging (ram s) (frames s) (g_kernel_cr3 s) (g_current_cr3 s) (replicate MM_SLOT_MAX no_mm) (replicate DEMAND_REGION_MAX no_demand)
             0 0 0 (g_cow_scratch s) no_swap (outside s) in
  let '(pd_pa, s) := alloc_zeroed_frame s in
  if pd_pa =? 0 then None
  else
    let span := u32 (pmm_total_frames (frames s) * PAGE_SIZE) in
    let span := if span <? 0x1000 then 0x1000 else span in
    let s := identity_map_range pd_pa 0x1000 (span - 0x1000) (Z.lor PTE_P PTE_W) s in
    let s := match fb_tag with
             | Some t => identity_map_range pd_pa (u32 (framebuffer_addr t)) (u32 (framebuffer_pitch t * framebuffer_height t)) (Z.lor PTE_P PTE_W) s
             | None => s
             end in
    let s := map_region_new_frames pd_pa KHEAP_BASE KHEAP_SIZE (Z.lor PTE_P PTE_W) s in
    let s := set_kernel_cr3 (page_of pd_pa) s in
    let s := set_current_cr3 (g_kernel_cr3 s) s in
    Some (mm_alloc_slot (g_kernel_cr3 s) 1 s).2.

Fixpoint mmio_pages (n : nat) (a : Z) s : Z * paging D :=
  match n with
  | O => (0, s)
  | S n =>
      let '(rc, s) := map_page a a (Z.lor PTE_P PTE_W) s in
      if rc <? 0 then (-2, s) else mmio_pages n (a + PAGE_SIZE) s
  end.
Definition paging_identity_map_mmio (phys_start size : Z) s : Z * paging D :=
  if size =? 0 then (-1, s)
  else
    let lo := page_of phys_start in
    let hi := page_of (u32 (phys_start + size + PAGE_SIZE - 1)) in
    mmio_pages (page_span lo hi) lo s.

(** [parts]: what [mbr_partition_get] gives; [get_dev]: [blockdev_get];
    [calloc_ok]: whether the heap has room for the counts. *)
Definition paging_swap_initialize (parts : list BlockDev.mbr_partition_info) (get_dev : Z -> option BlockDev.block_device) (calloc_ok : bool) s : Z * paging D :=
  let s := set_swap no_swap s in
  match List.find (fun p => BlockDev.info_type p =? 0x82) parts with
  | None => (-1, s)
  | Some part =>
      match get_dev (BlockDev.info_dev part) with
      | None => (-2, s)
      | Some dev =>
          if is_set (BlockDev.dev_flags dev) BlockDev.BLOCKDEV_FLAG_READONLY then (-3, s)
          else if (BlockDev.dev_block_size dev =? 0) || negb (PAGE_SIZE mod BlockDev.dev_block_size dev =? 0) then (-4, s)
          else
            let blocks := PAGE_SIZE / BlockDev.dev_block_size dev in
            if blocks =? 0 then (-5, s)
            else
              let max_slots := BlockDev.dev_block_count dev / blocks in
              if (max_slots =? 0) || (0xFFFFFFFF <? max_slots) then (-6, s)
              else if negb calloc_ok then (-7, s)
              else (0, set_swap (mk_swap true (BlockDev.dev_id dev) 0 blocks max_slots 0 0 0 0 0 0 (Some (replicate (Z.to_nat max_slots) 0))) s)
      end
  end.

End paging.
End Paging.
