(* ===== verification/PagingSpec.v ===== *)
(** * Correctness of paging: address spaces, copy on write, fork

    Proofs about [Module Paging]. The user pages of an address space are
    described by [user_pte] (the entry of a page number) and [uview] (the byte
    a user address shows); [wf] says that tables are private to one address
    space, that no page is a table, and that a frame has at least as many
    references as mappings. *)

From S2P Require Import Prelude Mem Pmm Ring BlockDev VfsPath Vfs Libc Task Paging.

Module PagingSpec.
Import Mem Pmm PmmFacts PmmRefine Paging.

(** ** Bits of entries *)

Lemma is_set_bit v n : 0 <= n -> is_set v (2 ^ n) = Z.testbit v n.
Proof.
  intros Hn. unfold is_set. destruct (Z.testbit v n) eqn:E.
  - apply negb_true_iff, Z.eqb_neq. intros H0. assert (Z.testbit (Z.land v (2 ^ n)) n = false) as E' by (rewrite H0; apply Z.bits_0).
    rewrite Z.land_spec, E, Z.pow2_bits_true in E' by lia. done.
  - apply negb_false_iff, Z.eqb_eq. apply Z.bits_inj'. intros i Hi. rewrite Z.land_spec, Z.pow2_bits_eqb, Z.bits_0 by lia.
    destruct (Z.eqb_spec n i) as [->|]; [by rewrite E|apply andb_false_r].
Qed.
Lemma set_P v : is_set v PTE_P = Z.testbit v 0.
Proof. apply (is_set_bit v 0). lia. Qed.
Lemma set_W v : is_set v PTE_W = Z.testbit v 1.
Proof. apply (is_set_bit v 1). lia. Qed.
Lemma set_U v : is_set v PTE_U = Z.testbit v 2.
Proof. apply (is_set_bit v 2). lia. Qed.
Lemma set_COW v : is_set v PTE_COW = Z.testbit v 9.
Proof. apply (is_set_bit v 9). lia. Qed.

Lemma page_of_eq x : page_of x = x / 4096 * 4096.
Proof. apply (land_lnot_ones x 12). lia. Qed.
Lemma page_of_aligned x : page_of x mod 4096 = 0.
Proof. rewrite page_of_eq. apply Z.mod_mul. lia. Qed.
Lemma page_of_range x : 0 <= x < 2 ^ 32 -> 0 <= page_of x < 2 ^ 32.
Proof. intros Hx. rewrite page_of_eq. zlia. Qed.
Lemma page_of_self x : x mod 4096 = 0 -> page_of x = x.
Proof. intros Hx. rewrite page_of_eq. zlia. Qed.
Lemma page_of_div x : page_of x / 4096 = x / 4096.
Proof. rewrite page_of_eq. apply Z.div_mul. lia. Qed.
Lemma page_of_bit x n : 0 <= n -> Z.testbit (page_of x) n = (12 <=? n) && Z.testbit x n.
Proof.
  intros Hn. rewrite page_of_eq. change 4096 with (2 ^ 12). rewrite <- Z.shiftr_div_pow2, <- Z.shiftl_mul_pow2, Z.shiftl_spec by lia.
  destruct (Z.leb_spec 12 n); [|by rewrite Z.testbit_neg_r by lia]. rewrite Z.shiftr_spec by lia. cbn [andb]. f_equal. lia.
Qed.
(** Two words with the same bits from 12 up lie in the same page. *)
Lemma page_of_bits x y : (forall n, 12 <= n -> Z.testbit x n = Z.testbit y n) -> page_of x = page_of y.
Proof.
  intros H. apply Z.bits_inj'. intros n Hn. rewrite !page_of_bit by lia. destruct (Z.leb_spec 12 n); [by rewrite H by lia|done].
Qed.

Lemma word_bits x : (forall n, 32 <= n -> Z.testbit x n = false) -> 0 <= x -> 0 <= x < 2 ^ 32.
Proof.
  intros Hb H0. split; [done|]. destruct (decide (x < 2 ^ 32)); [done|]. exfalso.
  assert (32 <= Z.log2 x) by (apply Z.log2_le_pow2; lia).
  pose proof (Z.bit_log2 x ltac:(lia)) as E. rewrite Hb in E by done. done.
Qed.
Lemma high_bits x n : 0 <= x < 2 ^ 32 -> 32 <= n -> Z.testbit x n = false.
Proof. intros Hx Hn. destruct (decide (x = 0)) as [->|]; [apply Z.bits_0|]. apply Z.bits_above_log2; [lia|]. assert (Z.log2 x < 32) by (apply Z.log2_lt_pow2; lia). lia. Qed.
Lemma lor_word x y : 0 <= x < 2 ^ 32 -> 0 <= y < 2 ^ 32 -> 0 <= Z.lor x y < 2 ^ 32.
Proof.
  intros Hx Hy. apply word_bits; [|apply Z.lor_nonneg; lia]. intros n Hn. rewrite Z.lor_spec, !high_bits by lia. done.
Qed.
Lemma land_word x y : 0 <= x < 2 ^ 32 -> 0 <= Z.land x y < 2 ^ 32.
Proof.
  intros Hx. apply word_bits; [|apply Z.land_nonneg; lia]. intros n Hn. by rewrite Z.land_spec, high_bits by lia.
Qed.

(** An entry made of an address and flags. *)
Lemma page_of_entry a f : a mod 4096 = 0 -> 0 <= f < 4096 -> page_of (Z.lor a f) = a.
Proof.
  intros Ha Hf. rewrite <- (page_of_self a Ha) at 2. apply page_of_bits. intros n Hn. rewrite Z.lor_spec.
  destruct (decide (f = 0)) as [->|]; [by rewrite Z.bits_0, orb_false_r|]. assert (Z.log2 f < 12) by (apply Z.log2_lt_pow2; lia).
  rewrite (Z.bits_above_log2 f) by lia. apply orb_false_r.
Qed.
Lemma entry_bit a f n : a mod 4096 = 0 -> 0 <= n < 12 -> Z.testbit (Z.lor a f) n = Z.testbit f n.
Proof.
  intros Ha Hn. rewrite Z.lor_spec. rewrite <- (page_of_self a Ha), page_of_bit by lia. rewrite (proj2 (Z.leb_gt _ _)) by lia. done.
Qed.

(** ** Loads and stores of entries *)

Lemma ld32_range m a : 0 <= ld32 m a < 2 ^ 32.
Proof.
  unfold ld32. pose proof (ld8_byte m a). pose proof (ld8_byte m (a + 1)). pose proof (ld8_byte m (a + 2)). pose proof (ld8_byte m (a + 3)). lia.
Qed.
Lemma entry_range m t i : 0 <= entry m t i < 2 ^ 32.
Proof. apply ld32_range. Qed.

Lemma entry_st32 m t i v t' i' :
  t mod 4096 = 0 -> t' mod 4096 = 0 -> 0 <= i < 1024 -> 0 <= i' < 1024 -> 0 <= v < 2 ^ 32 ->
  entry (st32 m (t + 4 * i) v) t' i' = if decide (t' = t /\ i' = i) then v else entry m t' i'.
Proof.
  intros Ht Ht' Hi Hi' Hv. unfold entry. case_decide as E; [destruct E as [-> ->]; by apply ld32_st32_eq|].
  apply ld32_st32_ne. assert (t' <> t \/ i' <> i) by (destruct (decide (t' = t)), (decide (i' = i)); tauto). zlia.
Qed.
Lemma ld8_st32_page m t i v a : t mod 4096 = 0 -> 0 <= i < 1024 -> page_of a <> t -> ld8 (st32 m (t + 4 * i) v) a = ld8 m a.
Proof. intros Ht Hi Ha. rewrite page_of_eq in Ha. apply ld8_st32_ne. zlia. Qed.

Lemma entry_agree m m' t i : t mod 4096 = 0 -> 0 <= i < 1024 -> agree t (t + 4096) m m' -> entry m' t i = entry m t i.
Proof. intros Ht Hi Ha. eapply agree_ld32; [exact Ha|lia|lia]. Qed.

(** ** The user pages of an address space *)

Definition is_user (e : Z) : bool := is_set e PTE_P && is_set e PTE_U.
Definition user_pt (m : mem) (c i : Z) : option Z := if is_user (entry m c i) then Some (page_of (entry m c i)) else None.
(** The entry of page number [k], present or not. *)
Definition pte_at (m : mem) (c k : Z) : option Z :=
  match user_pt m c (k / 1024) with Some pt => Some (entry m pt (k mod 1024)) | None => None end.
Definition present (e : option Z) : option Z := match e with Some pte => if is_user pte then Some pte else None | None => None end.
Definition user_pte (m : mem) (c k : Z) : option Z := present (pte_at m c k).
(** The byte at a user address. *)
Definition uview (m : mem) (c va : Z) : option Z :=
  match user_pte m c (va / 4096) with Some pte => Some (ld8 m (page_of pte + va mod 4096)) | None => None end.

Definition NPAGES : Z := 1048576.
(** The same number, never evaluated. *)
Lemma npages_exists : {n : nat | Z.of_nat n = NPAGES}.
Proof. exists (Z.to_nat NPAGES). apply Z2Nat.id. by unfold NPAGES. Qed.
Definition npages : nat := proj1_sig npages_exists.
Lemma of_npages : Z.of_nat npages = NPAGES.
Proof. exact (proj2_sig npages_exists). Qed.
Definition page_number (k : Z) : Prop := 0 <= k < NPAGES.
Definition is_frame (a : Z) : Prop := a mod 4096 = 0 /\ 0 < a < 2 ^ 32.

Definition is_table (m : mem) (cs : list Z) (t : Z) : Prop := t ∈ cs \/ exists c i, c ∈ cs /\ 0 <= i < 1024 /\ user_pt m c i = Some t.

Record tables_wf (m : mem) (cs : list Z) : Prop := {
  tw_nodup : NoDup cs;
  tw_dir : forall c, c ∈ cs -> is_frame c;
  tw_pt : forall c i pt, c ∈ cs -> 0 <= i < 1024 -> user_pt m c i = Some pt -> pt <> 0 /\ pt ∉ cs;
  tw_inj : forall c i c' i' pt, c ∈ cs -> 0 <= i < 1024 -> c' ∈ cs -> 0 <= i' < 1024 ->
    user_pt m c i = Some pt -> user_pt m c' i' = Some pt -> c = c' /\ i = i'
}.

Lemma user_pt_frame m c i pt : user_pt m c i = Some pt -> pt mod 4096 = 0 /\ 0 <= pt < 2 ^ 32.
Proof. unfold user_pt. case_match; [|done]. intros [= <-]. split; [apply page_of_aligned|apply page_of_range, entry_range]. Qed.

Lemma is_table_aligned m cs t : tables_wf m cs -> is_table m cs t -> is_frame t.
Proof.
  intros Hw [Ht|(c & i & Hc & Hi & Hp)]; [by apply (tw_dir _ _ Hw)|]. destruct (user_pt_frame _ _ _ _ Hp). destruct (tw_pt _ _ Hw _ _ _ Hc Hi Hp). split; [done|lia].
Qed.

Definition maps_to (m : mem) (c a k : Z) : bool := match user_pte m c k with Some pte => page_of pte =? a | None => false end.
Definition cnt (m : mem) (c a : Z) : Z := countZ (maps_to m c a) npages.
(** How many user pages the frame at [a] backs. *)
Fixpoint total (m : mem) (cs : list Z) (a : Z) : Z := match cs with [] => 0 | c :: cs => cnt m c a + total m cs a end.

Lemma cnt_nonneg m c a : 0 <= cnt m c a.
Proof. exact (proj1 (countZ_bounds (maps_to m c a) npages)). Qed.
Lemma total_nonneg m cs a : 0 <= total m cs a.
Proof. induction cs as [|c cs IH]; cbn [total]; [lia|]. pose proof (cnt_nonneg m c a). lia. Qed.
Lemma total_in m cs c a : c ∈ cs -> cnt m c a <= total m cs a.
Proof.
  induction 1 as [c cs|c c' cs _ IH]; cbn [total]; [pose proof (total_nonneg m cs a); lia|]. pose proof (cnt_nonneg m c' a). lia.
Qed.
Lemma cnt_ext m m' c c' a : (forall k, page_number k -> user_pte m' c' k = user_pte m c k) -> cnt m' c' a = cnt m c a.
Proof. intros H. apply countZ_ext. intros k Hk. unfold maps_to. rewrite H; [done|]. unfold page_number. rewrite <- of_npages. lia. Qed.
Lemma total_ext m m' cs a : (forall c k, c ∈ cs -> page_number k -> user_pte m' c k = user_pte m c k) -> total m' cs a = total m cs a.
Proof.
  induction cs as [|c cs IH]; intros H; cbn [total]; [done|]. rewrite IH by (intros; apply H; [by right|done]). f_equal. apply cnt_ext. intros. apply H; [by left|done].
Qed.
(** One entry changes. *)
Lemma countZ_update_below p q i n : 0 <= i < Z.of_nat n -> (forall j, 0 <= j < Z.of_nat n -> j <> i -> q j = p j) ->
  countZ q n = countZ p n + Z.b2z (q i) - Z.b2z (p i).
Proof.
  intros Hi H. set (q' := fun j => if j <? Z.of_nat n then q j else p j).
  assert (countZ q n = countZ q' n) as -> by (apply countZ_ext; intros j Hj; unfold q'; by rewrite (proj2 (Z.ltb_lt _ _)) by lia).
  rewrite (countZ_update p q' i n Hi); [unfold q'; by rewrite (proj2 (Z.ltb_lt _ _)) by lia|].
  intros j Hj Hne. unfold q'. destruct (Z.ltb_spec j (Z.of_nat n)); [|done]. apply H; [lia|done].
Qed.
Lemma total_update m m' cs c k a :
  NoDup cs -> c ∈ cs -> page_number k -> (forall c' k', c' ∈ cs -> page_number k' -> (c', k') <> (c, k) -> user_pte m' c' k' = user_pte m c' k') ->
  total m' cs a = total m cs a + Z.b2z (maps_to m' c a k) - Z.b2z (maps_to m c a k).
Proof.
  intros Hn. revert c. induction Hn as [|x cs Hx Hn IH]; intros c Hc Hk H; [by apply not_elem_of_nil in Hc|]. cbn [total].
  assert (forall k', page_number k' -> 0 <= k' < Z.of_nat npages) as HN by (by rewrite of_npages).
  apply elem_of_cons in Hc as [->|Hc].
  - rewrite (total_ext m m' cs) by (intros c' k' Hc' Hk'; apply H; [by right|done|congruence]). unfold cnt.
    rewrite (countZ_update_below (maps_to m x a) (maps_to m' x a) k); [lia|by apply HN|]. intros j Hj Hne. unfold maps_to.
    rewrite H; [done|by left| |congruence]. unfold page_number. by rewrite <- of_npages.
  - rewrite (IH c Hc Hk) by (intros; apply H; [by right|done|done]). rewrite (cnt_ext m m' x x); [lia|].
    intros k' Hk'. apply H; [by left|done|congruence].
Qed.

(** ** Well-formed memory *)

(** Directories [cs] in memory [m] with the frames [F] in use. *)
Record pages_wf (m : mem) (cs : list Z) (F : gmap Z Z) : Prop := {
  pw_tables : tables_wf m cs;
  pw_used : forall t, is_table m cs t -> is_Some (F !! (t / 4096));
  pw_data : forall c k pte, c ∈ cs -> page_number k -> user_pte m c k = Some pte -> ~ is_table m cs (page_of pte);
  pw_count : forall a, a mod 4096 = 0 -> 0 <= a < 2 ^ 32 -> total m cs a <= default 0 (F !! (a / 4096))
}.

Lemma page_number_parts k : page_number k -> 0 <= k / 1024 < 1024 /\ 0 <= k mod 1024 < 1024.
Proof. unfold page_number, NPAGES. intros. zlia. Qed.

Lemma pte_at_range m c k pte : pte_at m c k = Some pte -> 0 <= pte < 2 ^ 32.
Proof. unfold pte_at. case_match; [|done]. intros [= <-]. apply entry_range. Qed.
Lemma user_pte_at m c k pte : user_pte m c k = Some pte -> pte_at m c k = Some pte /\ is_user pte = true.
Proof. unfold user_pte, present. repeat case_match; naive_solver. Qed.
Lemma user_pte_range m c k pte : user_pte m c k = Some pte -> 0 <= pte < 2 ^ 32.
Proof. intros [E _]%user_pte_at. by eapply pte_at_range. Qed.

Lemma maps_total m cs c k pte : c ∈ cs -> page_number k -> user_pte m c k = Some pte -> 0 < total m cs (page_of pte).
Proof.
  intros Hc Hk Hp. pose proof (total_in m cs c (page_of pte) Hc) as Hle. assert (0 < cnt m c (page_of pte)) as Hlt; [|lia]. unfold cnt.
  apply (countZ_pos _ _ k); [by rewrite of_npages|]. unfold maps_to. rewrite Hp. apply Z.eqb_refl.
Qed.
Lemma mapped_used m cs F c k pte : pages_wf m cs F -> c ∈ cs -> page_number k -> user_pte m c k = Some pte ->
  exists n, F !! (page_of pte / 4096) = Some n /\ 0 < n.
Proof.
  intros Hw Hc Hk Hp. pose proof (maps_total m cs c k pte Hc Hk Hp). pose proof (user_pte_range _ _ _ _ Hp).
  pose proof (pw_count _ _ _ Hw (page_of pte) (page_of_aligned _) (page_of_range _ ltac:(done))) as H1.
  destruct (F !! (page_of pte / 4096)) as [n|]; simpl in H1; [exists n; split; [done|lia]|lia].
Qed.

(** Two user pages on one frame make two references. *)
Lemma countZ_two p n i j : 0 <= i < Z.of_nat n -> 0 <= j < Z.of_nat n -> i <> j -> p i = true -> p j = true -> 2 <= countZ p n.
Proof.
  intros Hi Hj Hne Hpi Hpj. rewrite (countZ_update_below (fun x => if x =? i then false else p x) p i n Hi).
  - cbv beta. rewrite Hpi, Z.eqb_refl. cbn [Z.b2z]. assert (0 < countZ (fun x => if x =? i then false else p x) n); [|lia].
    apply (countZ_pos _ _ j Hj). by rewrite (proj2 (Z.eqb_neq _ _)) by done.
  - intros x Hx Hxi. by rewrite (proj2 (Z.eqb_neq _ _)) by done.
Qed.
Lemma total_two m cs c k pte c' k' pte' :
  NoDup cs -> c ∈ cs -> page_number k -> user_pte m c k = Some pte -> c' ∈ cs -> page_number k' -> user_pte m c' k' = Some pte' ->
  page_of pte' = page_of pte -> (c', k') <> (c, k) -> 2 <= total m cs (page_of pte).
Proof.
  intros Hn Hc Hk Hp Hc' Hk' Hp' Ea Hne.
  assert (maps_to m c (page_of pte) k = true) as H1 by (unfold maps_to; rewrite Hp; apply Z.eqb_refl).
  assert (maps_to m c' (page_of pte) k' = true) as H2 by (unfold maps_to; rewrite Hp', Ea; apply Z.eqb_refl).
  set (a := page_of pte) in *. clearbody a. clear Ea Hp Hp'. unfold page_number in *. rewrite <- of_npages in *.
  destruct (decide (c = c')) as [<-|Hcc].
  - pose proof (total_in m cs c a Hc). assert (2 <= cnt m c a); [|lia]. apply (countZ_two _ _ k k'); [done|done|congruence|done|done].
  - assert (0 < cnt m c a) by (by apply (countZ_pos _ _ k)). assert (0 < cnt m c' a) by (by apply (countZ_pos _ _ k')).
    clear H1 H2 Hk Hk' Hne. revert c c' Hc Hc' Hcc H H0. induction Hn as [|x cs Hx Hn IH]; intros c c' Hc Hc' Hcc H1 H2; [by apply not_elem_of_nil in Hc|].
    cbn [total]. apply elem_of_cons in Hc as [->|Hc], Hc' as [->|Hc']; [done| | |].
    + pose proof (total_in m cs c' a Hc'). lia.
    + pose proof (total_in m cs c a Hc). lia.
    + pose proof (IH c c' Hc Hc' Hcc H1 H2). pose proof (cnt_nonneg m x a). lia.
Qed.

(** *** Changing one entry *)

Section set_pte.
Context (m : mem) (cs : list Z) (c k v pt : Z).
Context (Hw : tables_wf m cs) (Hc : c ∈ cs) (Hk : page_number k) (Hpt : user_pt m c (k / 1024) = Some pt) (Hv : 0 <= v < 2 ^ 32).
Let m' := st32 m (pt + 4 * (k mod 1024)) v.

Lemma set_pte_pt c' i : c' ∈ cs -> 0 <= i < 1024 -> user_pt m' c' i = user_pt m c' i.
Proof.
  intros Hc' Hi. destruct (page_number_parts k Hk). destruct (user_pt_frame _ _ _ _ Hpt). destruct (tw_pt _ _ Hw c (k / 1024) pt Hc ltac:(done) Hpt) as [_ Hnin].
  unfold user_pt, m'. rewrite entry_st32; [|done|by apply (tw_dir _ _ Hw)|done|done|done]. by rewrite decide_False by (intros [-> _]; done).
Qed.
Lemma set_pte_at c' k' : c' ∈ cs -> page_number k' -> pte_at m' c' k' = if decide (c' = c /\ k' = k) then Some v else pte_at m c' k'.
Proof.
  intros Hc' Hk'. destruct (page_number_parts k Hk). destruct (page_number_parts k' Hk'). destruct (user_pt_frame _ _ _ _ Hpt).
  unfold pte_at. rewrite set_pte_pt by done. destruct (user_pt m c' (k' / 1024)) as [pt'|] eqn:Ept.
  - destruct (user_pt_frame _ _ _ _ Ept). unfold m'. rewrite entry_st32 by done. destruct (decide (pt' = pt /\ k' mod 1024 = k mod 1024)) as [[-> E1]|E1], (decide (c' = c /\ k' = k)) as [E2|E2]; try done.
    + destruct (tw_inj _ _ Hw c (k / 1024) c' (k' / 1024) pt) as [-> Ek]; try done. exfalso. apply E2. split; [done|].
      rewrite (Z.div_mod k 1024), (Z.div_mod k' 1024) by lia. lia.
    + destruct E2 as [-> ->]. exfalso. apply E1. split; [congruence|done].
  - case_decide as E1; [destruct E1 as [-> ->]; congruence|done].
Qed.
Lemma set_pte_byte a : ~ is_table m cs (page_of a) -> ld8 m' a = ld8 m a.
Proof.
  intros Ha. destruct (page_number_parts k Hk). destruct (user_pt_frame _ _ _ _ Hpt). apply ld8_st32_page; [done|done|].
  intros E. apply Ha. right. exists c, (k / 1024). by rewrite E.
Qed.
Lemma set_pte_table t : is_table m' cs t <-> is_table m cs t.
Proof.
  split; (intros [Ht|(c' & i & Hc' & Hi & Hp)]; [by left|right; exists c', i; split_and!; try done; try lia]); [by rewrite <- set_pte_pt|by rewrite set_pte_pt].
Qed.
Lemma set_pte_tables : tables_wf m' cs.
Proof.
  destruct Hw as [W1 W2 W3 W4]. split; [done|done| |].
  - intros c' i p Hc' Hi. rewrite set_pte_pt by done. by apply W3.
  - intros c1 i1 c2 i2 p H1 H2 H3 H4. rewrite !set_pte_pt by done. by apply W4.
Qed.
Lemma set_pte_user c' k' : c' ∈ cs -> page_number k' -> (c', k') <> (c, k) -> user_pte m' c' k' = user_pte m c' k'.
Proof. intros Hc' Hk' Hne. unfold user_pte. rewrite set_pte_at by done. by rewrite decide_False by (intros [-> ->]; done). Qed.
Lemma set_pte_new : user_pte m' c k = if is_user v then Some v else None.
Proof. unfold user_pte. rewrite set_pte_at by done. by rewrite decide_True by done. Qed.

(** Well-formedness after the change, when the counts allow the new page. *)
Lemma set_pte_wf F F' :
  pages_wf m cs F -> (forall t, is_table m cs t -> is_Some (F' !! (t / 4096))) -> (is_user v = true -> ~ is_table m cs (page_of v)) ->
  (forall a, a mod 4096 = 0 -> 0 <= a < 2 ^ 32 ->
     total m cs a + Z.b2z (is_user v && (page_of v =? a)) - Z.b2z (maps_to m c a k) <= default 0 (F' !! (a / 4096))) ->
  pages_wf m' cs F'.
Proof.
  intros Hp Hu Hd Hn. split.
  - apply set_pte_tables.
  - intros t Ht. apply Hu. by apply set_pte_table.
  - intros c' k' pte Hc' Hk' Hpte. rewrite set_pte_table. destruct (decide ((c', k') = (c, k))) as [E|E].
    + injection E as -> ->. rewrite set_pte_new in Hpte. destruct (is_user v) eqn:Ev; [|done]. injection Hpte as <-. by apply Hd.
    + rewrite set_pte_user in Hpte by done. by eapply (pw_data _ _ _ Hp).
  - intros a Ha1 Ha2. rewrite (total_update m m' cs c k a); [|apply Hw|done|done|intros; by apply set_pte_user].
    specialize (Hn a Ha1 Ha2). assert (maps_to m' c a k = is_user v && (page_of v =? a)) as ->; [|done].
    unfold maps_to. rewrite set_pte_new. by destruct (is_user v).
Qed.

(** Nobody else sees the change. *)
Lemma set_pte_view F c' va : pages_wf m cs F -> c' ∈ cs -> 0 <= va < 2 ^ 32 -> (c', va / 4096) <> (c, k) -> uview m' c' va = uview m c' va.
Proof.
  intros Hp Hc' Hva Hne. assert (page_number (va / 4096)) as Hkv by (unfold page_number, NPAGES; zlia).
  unfold uview. rewrite set_pte_user by done. destruct (user_pte m c' (va / 4096)) as [pte|] eqn:E; [|done]. f_equal. apply set_pte_byte.
  assert (page_of (page_of pte + va mod 4096) = page_of pte) as -> by (rewrite !page_of_eq; zlia). by eapply (pw_data _ _ _ Hp).
Qed.
(** The same frame with other permissions shows the same bytes. *)
Lemma set_pte_same_page F pte va : pages_wf m cs F -> 0 <= va < 2 ^ 32 -> va / 4096 = k -> user_pte m c k = Some pte -> is_user v = true ->
  page_of v = page_of pte -> uview m' c va = uview m c va.
Proof.
  intros Hp Hva Ek Hpte Hu Hpg. unfold uview. rewrite Ek, set_pte_new, Hu, Hpte, Hpg. f_equal. apply set_pte_byte.
  assert (page_of (page_of pte + va mod 4096) = page_of pte) as -> by (rewrite !page_of_eq; zlia). by eapply (pw_data _ _ _ Hp).
Qed.
End set_pte.

(** *** Writing a frame that is not a table *)

Section off_tables.
Context (m m' : mem) (cs : list Z) (a : Z).
Context (Hw : tables_wf m cs) (Hnt : forall t, is_table m cs t -> t <> a) (Hm : forall b, page_of b <> a -> ld8 m' b = ld8 m b).

Lemma off_entry t i : is_table m cs t -> 0 <= i < 1024 -> entry m' t i = entry m t i.
Proof.
  intros Ht Hi. destruct (is_table_aligned _ _ _ Hw Ht) as [H1 H2]. apply entry_agree; [done|done|].
  intros b Hb. apply Hm. pose proof (Hnt t Ht). rewrite page_of_eq. zlia.
Qed.
Lemma off_pt c i : c ∈ cs -> 0 <= i < 1024 -> user_pt m' c i = user_pt m c i.
Proof. intros Hc Hi. unfold user_pt. rewrite off_entry; [done|by left|done]. Qed.
Lemma off_pte_at c k : c ∈ cs -> page_number k -> pte_at m' c k = pte_at m c k.
Proof.
  intros Hc Hk. destruct (page_number_parts k Hk). unfold pte_at. rewrite off_pt by done. destruct (user_pt m c (k / 1024)) as [pt|] eqn:E; [|done].
  rewrite off_entry; [done|right; by exists c, (k / 1024)|done].
Qed.
Lemma off_pte c k : c ∈ cs -> page_number k -> user_pte m' c k = user_pte m c k.
Proof. intros Hc Hk. unfold user_pte. by rewrite off_pte_at. Qed.
Lemma off_table t : is_table m' cs t <-> is_table m cs t.
Proof.
  split; (intros [Ht|(c & i & Hc & Hi & E)]; [by left|right; exists c, i; split_and!; try done; try lia]); [by rewrite <- off_pt|by rewrite off_pt].
Qed.
Lemma off_wf F F' : pages_wf m cs F -> (forall f n, F !! f = Some n -> F' !! f = Some n) -> (forall f n, F' !! f = Some n -> 0 <= n) -> pages_wf m' cs F'.
Proof.
  intros Hp HF Hpos. destruct Hp as [[T1 T2 T3 T4] P2 P3 P4]. split.
  - split; [done|done| |].
    + intros c i pt Hc Hi. rewrite off_pt by done. by apply T3.
    + intros c i c' i' pt H1 H2 H3 H4. rewrite !off_pt by done. by apply T4.
  - intros t Ht%off_table. destruct (P2 t Ht) as [n E]. exists n. by apply HF.
  - intros c k pte Hc Hk. rewrite off_pte by done. rewrite off_table. by apply P3.
  - intros b Hb1 Hb2. rewrite (total_ext m m') by (intros; by apply off_pte). specialize (P4 b Hb1 Hb2).
    destruct (F !! (b / 4096)) as [n|] eqn:E; [by rewrite (HF _ _ E)|]. simpl in P4. destruct (F' !! (b / 4096)) as [n|] eqn:E'; simpl; [|done].
    specialize (Hpos _ _ E'). lia.
Qed.
(** A page on another frame shows the same bytes. *)
Lemma off_view c va : c ∈ cs -> 0 <= va < 2 ^ 32 -> (forall pte, user_pte m c (va / 4096) = Some pte -> page_of pte <> a) -> uview m' c va = uview m c va.
Proof.
  intros Hc Hva Hne. assert (page_number (va / 4096)) as Hk by (unfold page_number, NPAGES; zlia). unfold uview. rewrite off_pte by done.
  destruct (user_pte m c (va / 4096)) as [pte|] eqn:E; [|done]. f_equal. apply Hm.
  assert (page_of (page_of pte + va mod 4096) = page_of pte) as -> by (rewrite !page_of_eq; zlia). by apply Hne.
Qed.
End off_tables.

(** A frame nobody uses. *)
Section fresh.
Context (m : mem) (cs : list Z) (F : gmap Z Z) (a : Z) (Hp : pages_wf m cs F) (Ha : is_frame a) (Hfree : F !! (a / 4096) = None).

Lemma fresh_not_table t : is_table m cs t -> t <> a.
Proof. intros Ht ->. destruct (pw_used _ _ _ Hp _ Ht) as [n E]. congruence. Qed.
Lemma fresh_total : total m cs a = 0.
Proof.
  destruct Ha as [H1 H2]. pose proof (pw_count _ _ _ Hp a H1 ltac:(lia)) as H3. rewrite Hfree in H3. simpl in H3. pose proof (total_nonneg m cs a). lia.
Qed.
Lemma fresh_unmapped c k pte : c ∈ cs -> page_number k -> user_pte m c k = Some pte -> page_of pte <> a.
Proof. intros Hc Hk Hpte E. pose proof (maps_total m cs c k pte Hc Hk Hpte) as H1. rewrite E, fresh_total in H1. lia. Qed.
End fresh.

Lemma dir_index_eq va : 0 <= va < 2 ^ 32 -> dir_index va = va / 4096 / 1024.
Proof.
  intros Hva. unfold dir_index. change 0x3FF with (Z.ones 10). rewrite Z.land_ones, Z.shiftr_div_pow2 by lia. change (2 ^ 22) with (4096 * 1024).
  rewrite Z.div_div by lia. apply Z.mod_small. zlia.
Qed.
Lemma tab_index_eq va : 0 <= va < 2 ^ 32 -> tab_index va = (va / 4096) mod 1024.
Proof. intros Hva. unfold tab_index. change 0x3FF with (Z.ones 10). by rewrite Z.land_ones, Z.shiftr_div_pow2 by lia. Qed.
Lemma va_page_number va : 0 <= va < 2 ^ 32 -> page_number (va / 4096).
Proof. unfold page_number, NPAGES. intros. zlia. Qed.
Lemma page_of_offset p o : p mod 4096 = 0 -> 0 <= o < 4096 -> page_of (p + o) = p.
Proof. intros. rewrite page_of_eq. zlia. Qed.
Lemma land_FFF va : Z.land va 0xFFF = va mod 4096.
Proof. change 0xFFF with (Z.ones 12). by rewrite Z.land_ones by lia. Qed.

Lemma user_pt_walk m c i pt : is_frame c -> user_pt m c i = Some pt -> get_pt_from_pd m (pd_from_phys c) i = Some pt.
Proof.
  intros [Hc Hc0] Hp. unfold get_pt_from_pd, pd_from_phys. rewrite page_of_self by done. rewrite (proj2 (Z.eqb_neq c 0)) by lia.
  unfold user_pt, is_user in Hp. destruct (is_set (entry m c i) PTE_P); [|done]. cbn [negb andb] in *. by case_match.
Qed.
Lemma pte_translate m c va pte : is_frame c -> 0 <= va < 2 ^ 32 -> user_pte m c (va / 4096) = Some pte -> translate m c (page_of va) = Some (page_of pte).
Proof.
  intros Hc Hva Hp. pose proof (page_of_range va Hva). apply user_pte_at in Hp as [Hp Hu]. unfold pte_at in Hp.
  unfold translate. rewrite dir_index_eq, tab_index_eq, page_of_div by done.
  destruct (user_pt m c (va / 4096 / 1024)) as [pt|] eqn:E; [|done]. rewrite (user_pt_walk m c _ pt) by done. injection Hp as ->.
  unfold is_user in Hu. bool_to_prop. by rewrite H0.
Qed.

(** Bytes of a list in memory. *)
Lemma ld8_st_bytes m a l b : ld8 (st_bytes m a l) b = if decide (a <= b < a + Z.of_nat (length l)) then u8 (l !!! Z.to_nat (b - a)) else ld8 m b.
Proof.
  revert m a. induction l as [|x l IH]; intros m a; cbn [st_bytes].
  - rewrite decide_False; [done|]. simpl. lia.
  - rewrite IH, ld8_st8. assert (Z.of_nat (length (x :: l)) = 1 + Z.of_nat (length l)) as El by (simpl; lia). assert (0 <= Z.of_nat (length l)) by lia.
    destruct (decide (a = b)) as [->|Hne].
    + rewrite decide_False by lia. rewrite decide_True by lia. by rewrite Z.sub_diag.
    + destruct (decide (a + 1 <= b < a + 1 + Z.of_nat (length l))), (decide (a <= b < a + Z.of_nat (length (x :: l)))); try lia; try done.
      replace (Z.to_nat (b - a)) with (S (Z.to_nat (b - (a + 1)))) by lia. done.
Qed.
Lemma length_ld_bytes m a n : Z.of_nat (length (ld_bytes m a n)) = Z.of_nat n.
Proof. unfold ld_bytes. by rewrite length_map, length_seq. Qed.
Lemma ld_bytes_lookup m a n i : (i < n)%nat -> ld_bytes m a n !!! i = ld8 m (a + Z.of_nat i).
Proof. intros Hi. unfold ld_bytes. rewrite list_lookup_total_alt, list_lookup_fmap, lookup_seq_lt by done. done. Qed.

(** *** New directories and tables *)

Lemma total_perm m cs cs' a : cs ≡ₚ cs' -> total m cs' a = total m cs a.
Proof. induction 1; cbn [total]; lia. Qed.
Lemma is_table_perm m cs cs' t : cs ≡ₚ cs' -> is_table m cs t -> is_table m cs' t.
Proof. intros Hp [Ht|(c & i & Hc & Hi & E)]; [left; by rewrite <- Hp|right; exists c, i; split_and!; try done; try lia; by rewrite <- Hp]. Qed.
Lemma pages_wf_perm m cs cs' F : cs ≡ₚ cs' -> pages_wf m cs F -> pages_wf m cs' F.
Proof.
  intros Hp [[T1 T2 T3 T4] P2 P3 P4]. split.
  - split.
    + by rewrite <- Hp.
    + intros c Hc. apply T2. by rewrite Hp.
    + intros c i pt Hc Hi E. destruct (T3 c i pt) as [? ?]; [by rewrite Hp|done|done|]. split; [done|by rewrite <- Hp].
    + intros c i c' i' pt Hc Hi Hc' Hi'. apply T4; [by rewrite Hp|done|by rewrite Hp|done].
  - intros t Ht. apply P2. by apply (is_table_perm m cs').
  - intros c k pte Hc Hk E Ht. apply (P3 c k pte); [by rewrite Hp|done|done|]. by apply (is_table_perm m cs').
  - intros a H1 H2. rewrite (total_perm m cs cs') by done. by apply P4.
Qed.

(** A fresh frame that holds no user entry becomes the directory of an empty
    address space. *)
Section add_space.
Context (m m' : mem) (cs : list Z) (F : gmap Z Z) (a : Z).
Context (Hp : pages_wf m cs F) (Ha : is_frame a) (Hfree : F !! (a / 4096) = None) (Hm : forall b, page_of b <> a -> ld8 m' b = ld8 m b).
Context (Hempty : forall i, 0 <= i < 1024 -> user_pt m' a i = None).

Lemma empty_pte k : page_number k -> user_pte m' a k = None.
Proof. intros Hk. destruct (page_number_parts k Hk). unfold user_pte, pte_at. by rewrite Hempty. Qed.
Lemma empty_cnt b : cnt m' a b = 0.
Proof. apply countZ_none. intros k Hk. unfold maps_to. rewrite empty_pte; [done|]. unfold page_number. by rewrite <- of_npages. Qed.
Lemma add_space_wf F' : (forall f n, F !! f = Some n -> F' !! f = Some n) -> (forall f n, F' !! f = Some n -> 0 <= n) -> is_Some (F' !! (a / 4096)) -> pages_wf m' (a :: cs) F'.
Proof.
  intros HF Hpos Hin. pose proof (fresh_not_table _ _ _ a Hp Hfree) as Hnt. pose proof (pw_tables _ _ _ Hp) as Hw.
  pose proof (off_wf m m' cs a Hw Hnt Hm F F' Hp HF Hpos) as Hp'. pose proof (pw_tables _ _ _ Hp') as Hw'. pose proof (off_pt m m' cs a Hw Hnt Hm) as Hopt.
  assert (a ∉ cs) as Hna by (intros Hin'; by apply (Hnt a (or_introl Hin'))).
  assert (forall c i pt, c ∈ cs -> 0 <= i < 1024 -> user_pt m' c i = Some pt -> pt <> a) as Hpa.
  { intros c i pt Hc Hi E. rewrite Hopt in E by done. apply Hnt. right. by exists c, i. }
  assert (forall t, is_table m' (a :: cs) t -> t = a \/ is_table m' cs t) as Htab.
  { intros t [Ht|(c & i & Hc & Hi & E)].
    - apply elem_of_cons in Ht as [->|Ht]; [by left|right; by left].
    - apply elem_of_cons in Hc as [->|Hc]; [by rewrite Hempty in E|right; right; by exists c, i]. }
  split.
  - split.
    + constructor; [done|apply Hw'].
    + intros c [->|Hc]%elem_of_cons; [done|by apply (tw_dir _ _ Hw')].
    + intros c i pt [->|Hc]%elem_of_cons Hi E; [by rewrite Hempty in E|]. destruct (tw_pt _ _ Hw' c i pt Hc Hi E). split; [done|].
      intros [->|?]%elem_of_cons; [by apply (Hpa c i a)|done].
    + intros c i c' i' pt [->|Hc]%elem_of_cons Hi [->|Hc']%elem_of_cons Hi' E E'; try (by rewrite Hempty in E); try (by rewrite Hempty in E'). by apply (tw_inj _ _ Hw' c i c' i' pt).
  - intros t [->|Ht]%Htab; [done|by apply (pw_used _ _ _ Hp')].
  - intros c k pte [->|Hc]%elem_of_cons Hk E; [by rewrite empty_pte in E|]. intros [E'|Ht]%Htab; [|by apply (pw_data _ _ _ Hp' c k pte)].
    rewrite (off_pte m m' cs a) in E by done. by apply (fresh_unmapped _ _ _ _ Hp Ha Hfree c k pte).
  - intros b H1 H2. cbn [total]. rewrite empty_cnt. by apply (pw_count _ _ _ Hp').
Qed.
End add_space.

(** A fresh zeroed frame becomes a page table. *)
Section add_table.
Context (m m' : mem) (cs : list Z) (F F' : gmap Z Z) (a c i v : Z).
Context (Hp : pages_wf m cs F) (Ha : is_frame a) (Hfree : F !! (a / 4096) = None) (Hm : forall b, page_of b <> a -> ld8 m' b = ld8 m b).
Context (Hzero : forall j, 0 <= j < 1024 -> entry m' a j = 0).
Context (Hc : c ∈ cs) (Hi : 0 <= i < 1024) (Hnone : user_pt m c i = None) (Hv : 0 <= v < 2 ^ 32) (Hvu : is_user v = true) (Hva : page_of v = a).
Context (HF : forall f n, F !! f = Some n -> F' !! f = Some n) (Hpos : forall f n, F' !! f = Some n -> 0 <= n) (Hin : is_Some (F' !! (a / 4096))).
Let m2 := st32 m' (c + 4 * i) v.

Lemma at_not_dir c' : c' ∈ cs -> c' <> a.
Proof. intros Hc'. apply (fresh_not_table m cs F a Hp Hfree). by left. Qed.
Lemma at_frame c' : c' ∈ cs -> is_frame c'.
Proof. apply (tw_dir _ _ (pw_tables _ _ _ Hp)). Qed.
Lemma at_off : pages_wf m' cs F'.
Proof. apply (off_wf m m' cs a (pw_tables _ _ _ Hp) (fresh_not_table _ _ _ a Hp Hfree) Hm F F' Hp HF Hpos). Qed.
Lemma at_pt c' i' : c' ∈ cs -> 0 <= i' < 1024 -> user_pt m2 c' i' = if decide (c' = c /\ i' = i) then Some a else user_pt m c' i'.
Proof.
  intros Hc' Hi'. destruct (at_frame c Hc), (at_frame c' Hc'). rewrite <- (off_pt m m' cs a (pw_tables _ _ _ Hp) (fresh_not_table _ _ _ a Hp Hfree) Hm c' i') by done.
  unfold user_pt, m2. rewrite entry_st32 by done. case_decide; [|done]. by rewrite Hvu, Hva.
Qed.
Lemma at_entry t j : is_table m cs t -> t ∉ cs -> 0 <= j < 1024 -> entry m2 t j = entry m t j.
Proof.
  intros Ht Hnd Hj. destruct (at_frame c Hc). destruct (is_table_aligned _ _ _ (pw_tables _ _ _ Hp) Ht). unfold m2. rewrite entry_st32 by done.
  rewrite decide_False by (intros [-> _]; done). apply (off_entry m m' cs a (pw_tables _ _ _ Hp) (fresh_not_table _ _ _ a Hp Hfree) Hm); done.
Qed.
Lemma at_new j : 0 <= j < 1024 -> entry m2 a j = 0.
Proof.
  intros Hj. destruct (at_frame c Hc), Ha. unfold m2. rewrite entry_st32 by done. rewrite decide_False by (intros [E _]; by apply (at_not_dir c)). by apply Hzero.
Qed.
(** The raw entries, all 0 in the new table. *)
Lemma at_pte_at c' k : c' ∈ cs -> page_number k -> pte_at m2 c' k = if decide (c' = c /\ k / 1024 = i) then Some 0 else pte_at m c' k.
Proof.
  intros Hc' Hk. destruct (page_number_parts k Hk). unfold pte_at. rewrite at_pt by done. case_decide; [by rewrite at_new|].
  destruct (user_pt m c' (k / 1024)) as [pt|] eqn:E; [|done]. rewrite at_entry; [done|right; by exists c', (k / 1024)|by apply (tw_pt _ _ (pw_tables _ _ _ Hp) c' (k / 1024))|done].
Qed.
Lemma at_pte c' k : c' ∈ cs -> page_number k -> user_pte m2 c' k = user_pte m c' k.
Proof.
  intros Hc' Hk. unfold user_pte. rewrite at_pte_at by done. case_decide as E; [|done]. destruct E as [-> Ei]. unfold pte_at. rewrite Ei, Hnone. done.
Qed.
Lemma at_byte b : ~ is_table m cs (page_of b) -> page_of b <> a -> ld8 m2 b = ld8 m b.
Proof.
  intros Hb Hba. destruct (at_frame c Hc). unfold m2. rewrite ld8_st32_page; [by apply Hm|done|done|]. intros E. apply Hb. left. by rewrite E.
Qed.
Lemma at_view c' va : c' ∈ cs -> 0 <= va < 2 ^ 32 -> uview m2 c' va = uview m c' va.
Proof.
  intros Hc' Hva'. assert (page_number (va / 4096)) as Hk by (unfold page_number, NPAGES; zlia). unfold uview. rewrite at_pte by done.
  destruct (user_pte m c' (va / 4096)) as [pte|] eqn:E; [|done]. f_equal. apply at_byte; rewrite page_of_offset by (apply page_of_aligned || (apply Z.mod_pos_bound; lia)).
  - by apply (pw_data _ _ _ Hp c' (va / 4096)).
  - by apply (fresh_unmapped _ _ _ _ Hp Ha Hfree c' (va / 4096)).
Qed.
Lemma add_table_wf : pages_wf m2 cs F'.
Proof.
  pose proof (pw_tables _ _ _ Hp) as Hw. pose proof (fresh_not_table _ _ _ a Hp Hfree) as Hnt.
  assert (forall t, is_table m2 cs t -> t = a \/ is_table m cs t) as Htab.
  { intros t [Ht|(c' & i' & Hc' & Hi' & E)]; [right; by left|]. rewrite at_pt in E by done. case_decide; [left; congruence|right; right; by exists c', i']. }
  split.
  - split; [apply Hw|apply Hw| |].
    + intros c' i' pt Hc' Hi' E. rewrite at_pt in E by done. case_decide; [|by apply (tw_pt _ _ Hw c' i')]. injection E as <-. destruct Ha. split; [lia|].
      intros Hx. by apply (at_not_dir a).
    + intros c1 i1 c2 i2 pt H1 H2 H3 H4 E1 E2. rewrite at_pt in E1, E2 by done. 
      destruct (decide (c1 = c /\ i1 = i)) as [D1|D1], (decide (c2 = c /\ i2 = i)) as [D2|D2].
      * destruct D1, D2. split; congruence.
      * exfalso. injection E1 as <-. apply (Hnt a); [right; by exists c2, i2|done].
      * exfalso. injection E2 as <-. apply (Hnt a); [right; by exists c1, i1|done].
      * by apply (tw_inj _ _ Hw c1 i1 c2 i2 pt).
  - intros t [->|Ht]%Htab; [done|]. destruct (pw_used _ _ _ Hp t Ht) as [n E]. exists n. by apply HF.
  - intros c' k pte Hc' Hk E. rewrite at_pte in E by done. intros [E'|Ht]%Htab; [by apply (fresh_unmapped _ _ _ _ Hp Ha Hfree c' k pte)|by apply (pw_data _ _ _ Hp c' k pte)].
  - intros b H1 H2. rewrite (total_ext m m2) by (intros; by apply at_pte). rewrite <- (total_ext m m'); [by apply (pw_count _ _ _ at_off)|].
    intros. by apply (off_pte m m' cs a).
Qed.
End add_table.

Section spec.
Context {D : Type} `{Outside D}.
Implicit Types s : paging D.

Definition fm s : gmap Z Z := frames_of (frames s).
(** The directories of the user address spaces. *)
Definition spaces s : list Z := map mm_cr3 (List.filter (fun x => mm_used x && negb (mm_cr3 x =? g_kernel_cr3 s)) (g_mm_slots s)).
Definition wf s : Prop := pmm_wf (frames s) /\ pages_wf (ram s) (spaces s) (fm s).

Lemma fm_pos p f n : pmm_wf p -> frames_of p !! f = Some n -> 1 <= n <= 0xFFFF.
Proof.
  intros Hp Hl. assert (0 <= f) as Hf by (rewrite lookup_frames_of in Hl; unfold in_use in Hl; case_match; [bool_to_prop; lia|done]).
  rewrite <- (Z.div_mul f 4096) in Hl by lia. by destruct (lookup_frame_Some p (f * 4096) n Hp ltac:(lia) Hl) as (_ & _ & _ & ?).
Qed.

Lemma frame_alloc_cases s pa s1 : pmm_wf (frames s) -> frame_alloc s = (pa, s1) ->
  pmm_wf (frames s1) /\ s1 = set_frames (frames s1) s /\ (forall f n, fm s !! f = Some n -> fm s1 !! f = Some n) /\
  (pa <> 0 -> is_frame pa /\ fm s !! (pa / 4096) = None /\ fm s1 = <[pa / 4096 := 1]> (fm s)).
Proof.
  intros Hp. unfold frame_alloc. destruct (phys_alloc_frame (frames s)) as [a fr] eqn:E. intros [= <- <-]. cbn [frames set_frames]. unfold fm. cbn [frames set_frames].
  destruct (phys_alloc_frame_cases (frames s) Hp) as [(f & Hf & Hu & _ & E')|[_ E']]; rewrite E' in E; injection E as <- <-.
  - destruct (taken_refines f (frames s) Hp Hf Hu) as [Hw Ef]. pose proof Hp as [[] _ _]. rewrite Ef.
    assert (frames_of (frames s) !! f = None) as Hn by (by apply frames_of_None). split_and!; [done|done| |].
    + intros g n Hg. rewrite lookup_insert_ne; [done|]. intros ->. congruence.
    + intros Hne. rewrite Z.div_mul by lia. split_and!; [split; [apply Z.mod_mul; lia|lia]|done|done].
  - split_and!; [done|done|done|done].
Qed.

Lemma unref_fm s a n : pmm_wf (frames s) -> 0 <= a < 2 ^ 32 -> fm s !! (a / 4096) = Some n ->
  pmm_wf (frames (frame_unref a s)) /\ fm (frame_unref a s) = if 1 <? n then <[a / 4096 := n - 1]> (fm s) else delete (a / 4096) (fm s).
Proof.
  intros Hp Ha Hn. destruct (unref_refines a (frames s) Hp Ha) as [Hw E]. unfold fm, frame_unref in *. cbn [frames set_frames]. split; [done|].
  cbn [FrameSpec.spec_exec] in E. rewrite Hn in E. by injection E as <-.
Qed.
Lemma refcount_fm s a : pmm_wf (frames s) -> 0 <= a < 2 ^ 32 -> pmm_frame_refcount a (frames s) = default 0 (fm s !! (a / 4096)).
Proof. intros. by apply refcount_refines. Qed.

Lemma alloc_for_paging s : (sw_enabled (g_swap s) = true -> (frame_alloc s).1 <> 0) -> alloc_frame_for_paging s = frame_alloc s \/
  ((frame_alloc s).1 = 0 /\ alloc_frame_for_paging s = (0, (frame_alloc s).2)).
Proof.
  intros Hsw. unfold alloc_frame_for_paging. destruct (frame_alloc s) as [pa s1] eqn:E. cbn [fst snd] in *. destruct (Z.eqb_spec pa 0) as [->|Hne]; cbn [negb]; [|by left].
  right. split; [done|]. unfold frame_alloc in E. destruct (phys_alloc_frame (frames s)). injection E as -> <-. change (g_swap (set_frames p s)) with (g_swap s).
  destruct (sw_enabled (g_swap s)); [by specialize (Hsw eq_refl)|done].
Qed.

(** ** Copy on write *)

Lemma map_page_present s va pt phys flags : is_frame (g_current_cr3 s) -> 0 <= va < 2 ^ 32 -> user_pt (ram s) (g_current_cr3 s) (va / 4096 / 1024) = Some pt ->
  map_page (page_of va) phys flags s = (0, set_entry pt ((va / 4096) mod 1024) (Z.lor (page_of phys) (Z.land flags 0xFFF)) s).
Proof.
  intros [Hc Hc0] Hva Hp. pose proof (page_of_range va Hva). unfold map_page, map_page_in_pd, ensure_pt_in_pd, pd_from_phys. rewrite (page_of_self (g_current_cr3 s)) by done.
  rewrite (proj2 (Z.eqb_neq _ 0)) by lia. rewrite dir_index_eq, tab_index_eq, page_of_div by done. unfold user_pt, is_user in Hp.
  destruct (is_set (entry _ _ _) PTE_P); [|done]. cbn [andb] in Hp. case_match; [|done]. by injection Hp as ->.
Qed.

(** The entry that makes a page private. *)
Lemma unshare_bits pte : let v := Z.land (Z.lor pte PTE_W) (Z.lnot PTE_COW) in
  0 <= pte < 2 ^ 32 -> 0 <= v < 2 ^ 32 /\ page_of v = page_of pte /\ is_user v = is_user pte /\ is_set v PTE_W = true /\ is_set v PTE_COW = false.
Proof.
  intros v Hp. assert (forall n, 0 <= n -> Z.testbit v n = (Z.testbit pte n || (n =? 1)) && negb (n =? 9)) as Hb.
  { intros n Hn. unfold v. rewrite Z.land_spec, Z.lor_spec, Z.lnot_spec by lia. change PTE_W with (2 ^ 1). change PTE_COW with (2 ^ 9). rewrite !Z.pow2_bits_eqb by lia.
    by rewrite (Z.eqb_sym 1), (Z.eqb_sym 9). }
  split_and!.
  - apply land_word, lor_word; [done|by unfold PTE_W].
  - apply land_word, lor_word; [done|by unfold PTE_W].
  - apply page_of_bits. intros n Hn. rewrite Hb by lia. rewrite (proj2 (Z.eqb_neq n 1)), (proj2 (Z.eqb_neq n 9)) by lia. by rewrite orb_false_r, andb_true_r.
  - unfold is_user. rewrite !set_P, !set_U, !Hb by lia. by rewrite !orb_false_r, !andb_true_r.
  - rewrite set_W, Hb by lia. by rewrite orb_true_r.
  - rewrite set_COW, Hb by lia. apply andb_false_r.
Qed.
Lemma private_bits pte a : let v := Z.lor (page_of a) (Z.land (Z.lor (Z.land pte PTE_U) (Z.lor PTE_P PTE_W)) 0xFFF) in
  is_frame a -> is_user pte = true -> 0 <= v < 2 ^ 32 /\ page_of v = a /\ is_user v = true /\ is_set v PTE_W = true /\ is_set v PTE_COW = false.
Proof.
  intros v [Ha Ha0] Hu. unfold is_user in Hu. bool_to_prop. rewrite set_U in H1.
  assert (Z.land (Z.lor (Z.land pte PTE_U) (Z.lor PTE_P PTE_W)) 0xFFF = 7) as E.
  { apply Z.bits_inj'. intros n Hn. change PTE_U with (2 ^ 2). rewrite Z.land_spec, !Z.lor_spec, Z.land_spec, Z.pow2_bits_eqb by lia.
    destruct (Z.eqb_spec 2 n) as [<-|Hne]; [by rewrite H1|]. rewrite andb_false_r. cbn [orb].
    change (Z.testbit PTE_P n || Z.testbit PTE_W n) with (Z.testbit 1 n || Z.testbit 2 n). rewrite <- Z.lor_spec. change (Z.lor 1 2) with 3. rewrite <- Z.land_spec. change (Z.land 3 0xFFF) with 3.
    change 7 with (Z.lor 3 (2 ^ 2)). rewrite Z.lor_spec, Z.pow2_bits_eqb by lia. rewrite (proj2 (Z.eqb_neq 2 n)) by done. by rewrite orb_false_r. }
  unfold v. rewrite E, (page_of_self a Ha). split_and!.
  - apply lor_word; lia.
  - apply lor_word; lia.
  - by apply page_of_entry.
  - unfold is_user. by rewrite set_P, set_U, !entry_bit by lia.
  - by rewrite set_W, entry_bit by lia.
  - by rewrite set_COW, entry_bit by lia.
Qed.

(** No other user page is on the frame of this one. *)
Definition only_page (m : mem) (cs : list Z) (c k : Z) : Prop :=
  forall pte c' k' pte', user_pte m c k = Some pte -> c' ∈ cs -> page_number k' -> user_pte m c' k' = Some pte' -> page_of pte' = page_of pte -> c' = c /\ k' = k.

Lemma one_ref_only m cs F c k pte : pages_wf m cs F -> c ∈ cs -> page_number k -> user_pte m c k = Some pte -> default 0 (F !! (page_of pte / 4096)) <= 1 -> only_page m cs c k.
Proof.
  intros Hw Hc Hk Hp Hr pte0 c' k' pte' E Hc' Hk' Hp' Ea. rewrite Hp in E. injection E as <-. destruct (decide ((c', k') = (c, k))) as [E|Hne]; [by injection E|].
  pose proof (total_two m cs c k pte c' k' pte' (tw_nodup _ _ (pw_tables _ _ _ Hw)) Hc Hk Hp Hc' Hk' Hp' Ea Hne).
  pose proof (pw_count _ _ _ Hw (page_of pte) (page_of_aligned _) (page_of_range _ (user_pte_range _ _ _ _ Hp))). lia.
Qed.

(** What the copy-on-write handler achieves. *)
Record cow_done s s' (c k : Z) : Prop := {
  cd_wf : wf s';
  cd_spaces : spaces s' = spaces s;
  cd_current : g_current_cr3 s' = g_current_cr3 s;
  cd_view : forall c' va, c' ∈ spaces s -> 0 <= va < 2 ^ 32 -> uview (ram s') c' va = uview (ram s) c' va;
  cd_private : exists pte, user_pte (ram s') c k = Some pte /\ is_set pte PTE_W = true /\ is_set pte PTE_COW = false;
  cd_only : only_page (ram s') (spaces s) c k
}.

Lemma cow_unshare s va pt pte :
  wf s -> g_current_cr3 s ∈ spaces s -> 0 <= va < 2 ^ 32 -> user_pt (ram s) (g_current_cr3 s) (va / 4096 / 1024) = Some pt ->
  user_pte (ram s) (g_current_cr3 s) (va / 4096) = Some pte -> pmm_frame_refcount (page_of pte) (frames s) <= 1 ->
  cow_done s (count_cow (set_entry pt ((va / 4096) mod 1024) (Z.land (Z.lor pte PTE_W) (Z.lnot PTE_COW)) s)) (g_current_cr3 s) (va / 4096).
Proof.
  intros [Hpm Hw] Hc Hva Hpt Hp Hr. pose proof (va_page_number va Hva) as Hk. pose proof (user_pte_range _ _ _ _ Hp) as Hrng.
  destruct (unshare_bits pte Hrng) as (Hv & Epg & Eu & Hvw & Hvc). set (v := Z.land _ _) in *. set (c := g_current_cr3 s) in *. set (k := va / 4096) in *.
  rewrite refcount_fm in Hr by (done || by apply page_of_range). pose proof (pw_tables _ _ _ Hw) as Ht.
  destruct (user_pte_at _ _ _ _ Hp) as [_ Hu]. rewrite Hu in Eu. set (s' := count_cow _).
  assert (pages_wf (ram s') (spaces s) (fm s)) as Hw'.
  { apply (set_pte_wf (ram s) (spaces s) c k v pt Ht Hc Hk Hpt Hv (fm s)); [done|apply Hw|intros _; rewrite Epg; by apply (pw_data _ _ _ Hw c k pte)|].
    intros a Ha1 Ha2. pose proof (pw_count _ _ _ Hw a Ha1 Ha2). assert (maps_to (ram s) c a k = (page_of pte =? a)) as -> by (unfold maps_to; by rewrite Hp).
    rewrite Eu, Epg. cbn [andb]. lia. }
  assert (user_pte (ram s') c k = Some v) as Hp' by (unfold s'; cbn [ram count_cow set_entry set_ram]; rewrite (set_pte_new (ram s) (spaces s) c k v pt) by done; by rewrite Eu).
  split; [by split|done|done| |by exists v|].
  - intros c' va' Hc' Hva'. destruct (decide ((c', va' / 4096) = (c, k))) as [E|E].
    + injection E as -> Ek. by apply (set_pte_same_page (ram s) (spaces s) c k v pt Ht Hc Hk Hpt Hv (fm s) pte).
    + by apply (set_pte_view (ram s) (spaces s) c k v pt Ht Hc Hk Hpt Hv (fm s)).
  - apply (one_ref_only _ _ (fm s) c k v); [done|done|done|done|by rewrite Epg].
Qed.

Lemma translate_current s va pte : tables_wf (ram s) (spaces s) -> g_current_cr3 s ∈ spaces s -> 0 <= va < 2 ^ 32 ->
  user_pte (ram s) (g_current_cr3 s) (va / 4096) = Some pte -> translate (ram s) (g_current_cr3 s) (page_of va) = Some (page_of pte).
Proof. intros Ht Hc Hva Hp. apply pte_translate; [by apply (tw_dir _ _ Ht)|done|done]. Qed.

Lemma page_bytes : Z.of_nat (Z.to_nat PAGE_SIZE) = 4096.
Proof. apply Z2Nat.id. by unfold PAGE_SIZE. Qed.

Lemma cow_copy s va pt pte a s1 :
  wf s -> g_current_cr3 s ∈ spaces s -> 0 <= va < 2 ^ 32 -> user_pt (ram s) (g_current_cr3 s) (va / 4096 / 1024) = Some pt ->
  user_pte (ram s) (g_current_cr3 s) (va / 4096) = Some pte -> 1 < pmm_frame_refcount (page_of pte) (frames s) ->
  frame_alloc (set_scratch (load_page (page_of va) s) s) = (a, s1) -> a <> 0 ->
  let s2 := set_entry pt ((va / 4096) mod 1024) (Z.lor (page_of a) (Z.land (Z.lor (Z.land pte PTE_U) (Z.lor PTE_P PTE_W)) 0xFFF)) s1 in
  cow_done s (count_cow (frame_unref (page_of pte) (store_at (page_of va) (g_cow_scratch s2) s2))) (g_current_cr3 s) (va / 4096).
Proof.
  intros [Hpm Hw] Hc Hva Hpt Hp Hr Hal Ha s2. pose proof (va_page_number va Hva) as Hk. pose proof (user_pte_range _ _ _ _ Hp) as Hrng.
  destruct (user_pte_at _ _ _ _ Hp) as [_ Hu]. pose proof (pw_tables _ _ _ Hw) as Ht. pose proof (page_of_range pte Hrng) as Hold.
  rewrite refcount_fm in Hr by done. destruct (mapped_used _ _ _ _ _ _ Hw Hc Hk Hp) as (n & En & _). rewrite En in Hr. simpl in Hr.
  destruct (frame_alloc_cases (set_scratch (load_page (page_of va) s) s) a s1 Hpm Hal) as (Hpm1 & Es1 & Hgrow & Hfr). destruct (Hfr Ha) as (Hfa & Hnone & Efm). change (fm (set_scratch _ s)) with (fm s) in *.
  set (c := g_current_cr3 s) in *. set (k := va / 4096) in *. set (old := page_of pte) in *.
  assert (ram s1 = ram s /\ spaces s1 = spaces s /\ g_current_cr3 s1 = c /\ g_cow_scratch s1 = load_page (page_of va) s) as (Er1 & Esp1 & Ec1 & Esc) by (rewrite Es1; done).
  destruct (private_bits pte a Hfa Hu) as (Hv & Epg & Eu & Hvw & Hvc). set (v := Z.lor _ _) in *.
  assert (ram s2 = st32 (ram s) (pt + 4 * (k mod 1024)) v) as Er2 by (unfold s2; cbn [ram set_entry set_ram]; by rewrite Er1).
  assert (is_frame c) as Hfc by (by apply (tw_dir _ _ Ht)).
  pose proof (fresh_not_table _ _ _ a Hw Hnone) as Hnt. pose proof (fresh_total _ _ _ _ Hw Hfa Hnone) as Ht0.
  assert (user_pte (ram s2) c k = Some v) as Hp2 by (rewrite Er2, (set_pte_new (ram s) (spaces s) c k v pt) by done; by rewrite Eu).
  assert (forall c' k', c' ∈ spaces s -> page_number k' -> (c', k') <> (c, k) -> user_pte (ram s2) c' k' = user_pte (ram s) c' k') as Ho2
    by (intros; rewrite Er2; by apply (set_pte_user (ram s) (spaces s) c k v pt)).
  assert (load_page (page_of va) s = ld_bytes (ram s) old (Z.to_nat PAGE_SIZE)) as El by (unfold load_page; by rewrite (translate_current s va pte)).
  set (F' := <[old / 4096 := n - 1]> (fm s1)).
  assert (old <> a) as Hoa by (by apply (fresh_unmapped _ _ _ _ Hw Hfa Hnone c k)).
  assert (pages_wf (ram s2) (spaces s) F') as Hw2.
  { rewrite Er2. apply (set_pte_wf (ram s) (spaces s) c k v pt Ht Hc Hk Hpt Hv (fm s)); [done| |intros _; rewrite Epg; intros X; by apply (Hnt a)|].
    - intros t Htt. destruct (pw_used _ _ _ Hw t Htt) as [x Ex]. unfold F'. rewrite lookup_insert. case_decide; [done|]. exists x. by apply Hgrow.
    - intros b Hb1 Hb2. pose proof (pw_count _ _ _ Hw b Hb1 Hb2) as Hcb. assert (maps_to (ram s) c b k = (old =? b)) as -> by (unfold maps_to; by rewrite Hp).
      rewrite Eu, Epg. cbn [andb]. unfold F'. destruct Hfa as [Hfa1 Hfa2]. destruct (Z.eqb_spec a b) as [Eab|Hab], (Z.eqb_spec old b) as [Eob|Hob]; [congruence| | |]; cbn [Z.b2z].
      + rewrite <- Eab. rewrite lookup_insert_ne by (pose proof (page_of_aligned pte); unfold old in *; zlia). rewrite Efm, lookup_insert_eq, Ht0. simpl. lia.
      + rewrite <- Eob in *. rewrite lookup_insert_eq. rewrite En in Hcb. simpl in *. lia.
      + rewrite lookup_insert_ne by (pose proof (page_of_aligned pte); unfold old in *; zlia). rewrite Efm, lookup_insert_ne by zlia. lia. }
  assert (forall t, is_table (ram s2) (spaces s) t -> t <> a) as Hnt2 by (intros t Htt; rewrite Er2 in Htt; apply (set_pte_table (ram s) (spaces s) c k v pt) in Htt; [by apply Hnt|done..]).
  set (s3 := store_at (page_of va) (g_cow_scratch s2) s2).
  assert (ram s3 = st_bytes (ram s2) a (ld_bytes (ram s) old (Z.to_nat PAGE_SIZE))) as Er3.
  { unfold s3, store_at, at_page. rewrite (page_of_self (page_of va)) by apply page_of_aligned. change (g_current_cr3 s2) with (g_current_cr3 s1). rewrite Ec1.
    rewrite (pte_translate (ram s2) c va v) by done. rewrite Epg. cbn [ram set_ram]. rewrite land_FFF, page_of_aligned, Z.add_0_r.
    change (g_cow_scratch s2) with (g_cow_scratch s1). rewrite Esc, El. reflexivity. }
  assert (s3 = set_ram (ram s3) s2) as Es3.
  { unfold s3, store_at, at_page. by destruct (translate _ _ _). }
  clearbody s3.
  assert (forall b, page_of b <> a -> ld8 (ram s3) b = ld8 (ram s2) b) as Hm3.
  { intros b Hb. rewrite Er3, ld8_st_bytes, decide_False; [done|]. rewrite length_ld_bytes, page_bytes. destruct Hfa. rewrite page_of_eq in Hb. zlia. }
  pose proof (pw_tables _ _ _ Hw2) as Ht2. destruct Hfa as [Hfa1 Hfa2].
  assert (frames s3 = frames s1) as Ef3 by (by rewrite Es3).
  destruct (unref_fm s3 old n) as [Hpm4 Efm4]; [by rewrite Ef3|done|unfold fm; rewrite Ef3; by apply Hgrow|].
  rewrite (proj2 (Z.ltb_lt 1 n)) in Efm4 by lia. unfold fm at 2 in Efm4. rewrite Ef3 in Efm4. fold (fm s1) in Efm4. fold F' in Efm4.
  set (s' := count_cow _). assert (ram s' = ram s3) as Er' by done. assert (spaces s' = spaces s) as Esp' by (change (spaces s') with (spaces s3); rewrite Es3; exact Esp1).
  assert (pages_wf (ram s3) (spaces s) F') as Hw3 by (apply (off_wf (ram s2) (ram s3) (spaces s) a Ht2 Hnt2 Hm3 F'); [done|done|intros f x Hx; rewrite <- Efm4 in Hx; pose proof (fm_pos _ _ _ Hpm4 Hx); lia]).
  assert (forall c' k', c' ∈ spaces s -> page_number k' -> user_pte (ram s3) c' k' = user_pte (ram s2) c' k') as Ho3 by (intros; by apply (off_pte (ram s2) (ram s3) (spaces s) a)).
  split.
  - split; [exact Hpm4|]. rewrite Esp', Er'. change (fm s') with (fm (frame_unref old s3)). by rewrite Efm4.
  - done.
  - change (g_current_cr3 s') with (g_current_cr3 s3). rewrite Es3. exact Ec1.
  - intros c' va' Hc' Hva'. rewrite Er'. pose proof (va_page_number va' Hva') as Hk'. destruct (decide ((c', va' / 4096) = (c, k))) as [E|E].
    + injection E as -> Ek. unfold uview. rewrite Ho3, Ek, Hp2, Hp by done. f_equal. rewrite Epg, Er3, ld8_st_bytes, length_ld_bytes, page_bytes. pose proof (Z.mod_pos_bound va' 4096 ltac:(lia)) as Ho. rewrite decide_True by lia.
      replace (a + va' mod 4096 - a) with (va' mod 4096) by lia. rewrite ld_bytes_lookup by (apply Nat2Z.inj_lt; rewrite page_bytes; lia). rewrite Z2Nat.id by apply Ho. apply u8_small, ld8_byte.
    + rewrite (off_view (ram s2) (ram s3) (spaces s) a Ht2 Hnt2 Hm3 c' va' Hc' Hva');
        [|intros pte' Hpte'; rewrite Ho2 in Hpte' by done; by apply (fresh_unmapped _ _ _ _ Hw (conj Hfa1 Hfa2) Hnone c' (va' / 4096))].
      rewrite Er2. by apply (set_pte_view (ram s) (spaces s) c k v pt Ht Hc Hk Hpt Hv (fm s)).
  - exists v. rewrite Er', Ho3 by done. exact (conj Hp2 (conj Hvw Hvc)).
  - intros pte0 c' k' pte' E0 Hc' Hk' Hp' Ea. rewrite Er', Ho3, Hp2 in E0 by assumption. rewrite Er', Ho3 in Hp' by assumption. injection E0 as <-. rewrite Epg in Ea.
    destruct (decide ((c', k') = (c, k))) as [E|E]; [injection E as E1 E2; exact (conj E1 E2)|]. rewrite Ho2 in Hp' by assumption. exfalso.
    exact (fresh_unmapped _ _ _ _ Hw (conj Hfa1 Hfa2) Hnone c' k' pte' Hc' Hk' Hp' Ea).
Qed.

Lemma grow_wf m cs F F' : pages_wf m cs F -> (forall f n, F !! f = Some n -> F' !! f = Some n) -> (forall f n, F' !! f = Some n -> 0 <= n) -> pages_wf m cs F'.
Proof.
  intros Hp. apply (off_wf m m cs (-1) (pw_tables _ _ _ Hp)); [|done|done]. intros t Ht ->. destruct (is_table_aligned _ _ _ (pw_tables _ _ _ Hp) Ht). lia.
Qed.

Lemma user_pte_walk m c k pte : user_pte m c k = Some pte -> exists pt, user_pt m c (k / 1024) = Some pt /\ entry m pt (k mod 1024) = pte.
Proof.
  intros [Hp _]%user_pte_at. unfold pte_at in Hp. destruct (user_pt m c (k / 1024)) as [pt|]; [|done]. exists pt. by injection Hp.
Qed.

(** The handler on a write to a copy-on-write page of the current space. *)
Lemma cow_fault_spec va err pte s :
  wf s -> g_current_cr3 s ∈ spaces s -> 0 <= va < 2 ^ 32 -> is_set err 1 = true -> is_set err 2 = true ->
  user_pte (ram s) (g_current_cr3 s) (va / 4096) = Some pte -> is_set pte PTE_COW = true -> (sw_enabled (g_swap s) = true -> (frame_alloc s).1 <> 0) ->
  let '(rc, s') := handle_cow_fault va err s in
  (rc = 1 /\ cow_done s s' (g_current_cr3 s) (va / 4096)) \/
  (rc = -1 /\ (frame_alloc s).1 = 0 /\ wf s' /\ spaces s' = spaces s /\ ram s' = ram s).
Proof.
  intros Hwf Hc Hva He1 He2 Hp Hcow Hsw. destruct (user_pte_walk _ _ _ _ Hp) as (pt & Hpt & Ee). pose proof Hwf as [Hpm Hw].
  pose proof (tw_dir _ _ (pw_tables _ _ _ Hw) _ Hc) as Hfc. pose proof (page_of_range va Hva) as Hpr. destruct (user_pte_at _ _ _ _ Hp) as [_ Hu].
  unfold handle_cow_fault. rewrite He1, He2. cbn [negb]. rewrite dir_index_eq, tab_index_eq, page_of_div by done.
  rewrite (user_pt_walk _ _ _ pt) by done. rewrite Ee. assert (is_set pte PTE_P = true) as -> by (unfold is_user in Hu; by bool_to_prop). rewrite Hcow. cbn [negb].
  destruct (Z.leb_spec (pmm_frame_refcount (page_of pte) (frames s)) 1) as [Hr|Hr]; [left; split; [done|by apply cow_unshare]|].
  set (s0 := set_scratch _ s). assert ((frame_alloc s0).1 = (frame_alloc s).1) as Ea by (unfold frame_alloc; change (frames s0) with (frames s); by destruct (phys_alloc_frame _)).
  assert (alloc_frame_for_paging s0 = frame_alloc s0) as ->.
  { destruct (alloc_for_paging s0) as [E|[E E']]; [rewrite Ea; exact Hsw|done|]. rewrite E'. by rewrite <- E, <- surjective_pairing. }
  destruct (frame_alloc s0) as [a s1] eqn:Eal. cbn [fst] in Ea. destruct (Z.eqb_spec a 0) as [->|Hne].
  - right. destruct (frame_alloc_cases s0 0 s1 Hpm Eal) as (Hpm1 & Es1 & Hgrow & _).
    assert (spaces s1 = spaces s /\ ram s1 = ram s) as [E1 E2] by (rewrite Es1; done).
    split_and!; [done|done|split; [done|]|done|done]. rewrite E1, E2. apply (grow_wf _ _ (fm s)); [done|exact Hgrow|]. intros f n Hn. pose proof (fm_pos _ _ _ Hpm1 Hn). lia.
  - destruct (frame_alloc_cases s0 a s1 Hpm Eal) as (_ & Es1 & _).
    assert (g_current_cr3 s1 = g_current_cr3 s /\ ram s1 = ram s) as [E1 E2] by (rewrite Es1; done).
    rewrite (map_page_present s1 va pt); [|by rewrite E1|done|by rewrite E1, E2]. change (0 <? 0) with false. cbv iota.
    left. split; [done|]. by apply (cow_copy s va pt pte a s1).
Qed.


End spec.
End PagingSpec.
