(* ===== verification/ElfSpec.v ===== *)
(** * What the program loader achieves

    [ElfSpec]: an accepted image lies inside its file, and the regions
    collected from it are those of its loadable headers; the argument stack
    gives the program back its arguments; running a program creates a task
    that finds its entry point, or leaves no task behind; a page of a program
    is filled with the bytes of its file. *)

From Stdlib Require Import String.
From S2P Require Import Prelude Mem CString Libc Vfs Ramfs VfsSpec Task TaskSpec Paging PagingSpec Elf.

Module ElfSpec.
Import Mem CString CStringSpec Elf.

(** ** The regions of an image *)

Definition nth_header (m : mem) (data off entsize : Z) (i : nat) : Elf32_Phdr :=
  phdr_at m (u32 (data + u32 (off + Z.of_nat i * entsize))).
(** What the loop checks of one header. *)
Definition checked (size : Z) (ph : Elf32_Phdr) : Prop := p_filesz ph <= p_memsz ph /\ u32 (p_offset ph + p_filesz ph) <= size.
Definition segments (m : mem) (data off entsize : Z) (n : nat) : list Elf32_Phdr :=
  List.filter loadable (map (nth_header m data off entsize) (seq 0 n)).

Lemma seq_shift_map {A} (f : nat -> A) n : map f (seq 1 n) = map (fun i => f (S i)) (seq 0 n).
Proof. rewrite <- seq_shift, map_map. done. Qed.

Lemma next_offset off entsize i : u32 (u32 (off + entsize) + Z.of_nat i * entsize) = u32 (off + Z.of_nat (S i) * entsize).
Proof. unfold u32. rewrite Zplus_mod_idemp_l. f_equal. lia. Qed.
Lemma next_header m data off entsize i : nth_header m data (u32 (off + entsize)) entsize i = nth_header m data off entsize (S i).
Proof. unfold nth_header. by rewrite next_offset. Qed.

Lemma segments_step m data off entsize n :
  segments m data off entsize (S n) =
    (if loadable (nth_header m data off entsize 0) then [nth_header m data off entsize 0] else []) ++ segments m data (u32 (off + entsize)) entsize n.
Proof.
  unfold segments. cbn [seq map]. rewrite seq_shift_map. cbn [List.filter].
  assert (map (fun i => nth_header m data off entsize (S i)) (seq 0 n) = map (nth_header m data (u32 (off + entsize)) entsize) (seq 0 n)) as ->
    by (apply map_ext; intros; by rewrite next_header).
  by destruct (loadable _).
Qed.

Lemma collect_regions_spec n m data size entsize : forall off acc rs, u32 off = off -> Z.of_nat (length acc) <= Task.TASK_ELF_LAZY_MAX ->
  collect_from n m data size off entsize acc = (0, rs) <->
  (forall i, (i < n)%nat -> u32 (u32 (off + Z.of_nat i * entsize) + sizeof_Phdr) <= size) /\
  Forall (checked size) (segments m data off entsize n) /\ rs = acc ++ map region_of (segments m data off entsize n) /\
  Z.of_nat (length rs) <= Task.TASK_ELF_LAZY_MAX.
Proof.
  induction n as [|n IH]; intros off acc rs Hoff Hacc.
  { cbn. rewrite app_nil_r. split; [intros [= <-]; split_and!; [lia|done|done|done]|by intros (_ & _ & -> & _)]. }
  assert (forall P : Prop, u32 (off + sizeof_Phdr) <= size ->
    ((forall i, (i < n)%nat -> u32 (u32 (u32 (off + entsize) + Z.of_nat i * entsize) + sizeof_Phdr) <= size) /\ P <->
     (forall i, (i < S n)%nat -> u32 (u32 (off + Z.of_nat i * entsize) + sizeof_Phdr) <= size) /\ P)) as Hhead.
  { intros P H0. split; intros [H HP]; (split; [|done]).
    - intros [|i] Hi; [by rewrite Z.mul_0_l, Z.add_0_r, Hoff|]. specialize (H i ltac:(lia)). by rewrite next_offset in H.
    - intros i Hi. rewrite next_offset. apply H. lia. }
  assert (phdr_at m (u32 (data + off)) = nth_header m data off entsize 0) as Eh
    by (unfold nth_header; by rewrite Z.mul_0_l, Z.add_0_r, Hoff).
  rewrite segments_step. cbn [collect_from]. rewrite Eh. set (ph := nth_header m data off entsize 0).
  destruct (Z.ltb_spec size (u32 (off + sizeof_Phdr))) as [Hs|Hs].
  { split; [done|]. intros [H _]. specialize (H O ltac:(lia)). rewrite Z.mul_0_l, Z.add_0_r, Hoff in H. lia. }
  assert (u32 (u32 (off + entsize)) = u32 (off + entsize)) as Hn by (apply u32_small, u32_range).
  destruct (loadable ph) eqn:El; cbn [app map].
  - rewrite Forall_cons. unfold checked at 1.
    destruct (Z.ltb_spec (p_memsz ph) (p_filesz ph)); [split; [done|]; intros (_ & [[? _] _] & _); lia|].
    destruct (Z.ltb_spec size (u32 (p_offset ph + p_filesz ph))); [split; [done|]; intros (_ & [[_ ?] _] & _); lia|].
    destruct (Z.leb_spec Task.TASK_ELF_LAZY_MAX (Z.of_nat (length acc))).
    { split; [done|]. intros (_ & _ & -> & Hl). rewrite length_app in Hl. cbn [length] in Hl. lia. }
    rewrite IH by (done || rewrite length_app; cbn [length]; lia). rewrite Hhead by done. rewrite <- app_assoc. cbn [app]. split; intros (? & ? & ? & ?); split_and!; tauto.
  - rewrite IH by done. by rewrite Hhead.
Qed.

Lemma ld32_word m a : 0 <= ld32 m a < 2 ^ 32.
Proof. unfold ld32. pose proof (ld8_byte m a). pose proof (ld8_byte m (a + 1)). pose proof (ld8_byte m (a + 2)). pose proof (ld8_byte m (a + 3)). lia. Qed.
Lemma ld16_word m a : 0 <= ld16 m a < 2 ^ 16.
Proof. unfold ld16. pose proof (ld8_byte m a). pose proof (ld8_byte m (a + 1)). lia. Qed.

Lemma phdr_words m a : let ph := phdr_at m a in 0 <= p_offset ph /\ 0 <= p_vaddr ph /\ 0 <= p_filesz ph.
Proof. repeat split; apply ld32_word. Qed.

Lemma page_floor_eq a : page_floor a = a / 4096 * 4096.
Proof. exact (land_lnot_ones a 12 ltac:(lia)). Qed.

(** The sums of a header that the checks of the loader compute. *)
Definition no_wrap (ph : Elf32_Phdr) : Prop := p_offset ph + p_filesz ph < 2 ^ 32 /\ p_vaddr ph + p_memsz ph + 0xFFF < 2 ^ 32.

(** A region of whole pages around the bytes it takes from the file, which
    are bytes of the file. *)
Record region_ok (size : Z) (r : Task.task_elf_lazy_region) : Prop := {
  ro_start : Task.el_start r mod 4096 = 0;
  ro_end : Task.el_end r mod 4096 = 0;
  ro_first : Task.el_start r <= Task.el_file_start r < Task.el_start r + 4096;
  ro_last : Task.el_file_start r <= Task.el_file_end r <= Task.el_end r;
  ro_range : 0 <= Task.el_start r /\ Task.el_end r < 2 ^ 32;
  ro_file : 0 <= Task.el_file_offset r /\ Task.el_file_offset r + (Task.el_file_end r - Task.el_file_start r) <= size;
  ro_used : Task.el_in_use r = true
}.

Lemma region_of_ok m a size : let ph := phdr_at m a in no_wrap ph -> checked size ph -> region_ok size (region_of ph).
Proof.
  intros ph [Hw1 Hw2] [Hc1 Hc2]. destruct (phdr_words m a) as (Ho & Hv & Hf). fold ph in Ho, Hv, Hf.
  rewrite u32_small in Hc2 by lia.
  split; [..|done]; cbn [region_of Task.el_start Task.el_end Task.el_file_start Task.el_file_end Task.el_file_offset];
    rewrite ?page_floor_eq, ?(u32_small (p_vaddr ph + p_filesz ph)), ?(u32_small (p_vaddr ph + p_memsz ph)), ?(u32_small (_ + 0xFFF)) by lia; zlia.
Qed.

Lemma checked_plain size m a : let ph := phdr_at m a in no_wrap ph -> checked size ph <-> p_filesz ph <= p_memsz ph /\ p_offset ph + p_filesz ph <= size.
Proof. intros ph [Hw _]. pose proof (phdr_words m a) as H. cbv zeta in H. fold ph in H. unfold checked. rewrite u32_small by lia. done. Qed.

(** The loadable headers of an image, in order. *)
Definition loadable_headers (m : mem) (data : Z) : list Elf32_Phdr :=
  let eh := ehdr_at m data in
  List.filter loadable (map (fun i => phdr_at m (data + e_phoff eh + Z.of_nat i * e_phentsize eh)) (seq 0 (Z.to_nat (e_phnum eh)))).

(** The loader accepts exactly the images whose headers and segments lie
    in the file, and pages each one in from its own bytes. For an image of
    [size] bytes at [data] whose header fields do not make the sums of the
    checks wrap, the collection succeeds with [rs] exactly when every program
    header is inside the file, every loadable segment has at most its memory
    size in the file and its bytes inside the file, and there are at most 16
    of them; [rs] are then their regions in order, each made of whole pages
    around the segment, with file bytes that the file has. *)
Theorem elf_regions_correct m data size rs :
  let eh := ehdr_at m data in
  0 < data -> data + size < 2 ^ 32 -> e_phoff eh + e_phnum eh * e_phentsize eh + sizeof_Phdr < 2 ^ 32 -> data + e_phoff eh + e_phnum eh * e_phentsize eh < 2 ^ 32 ->
  Forall no_wrap (loadable_headers m data) ->
  (elf_collect_lazy_regions m data size eh = (0, rs) <->
   (forall i, 0 <= i < e_phnum eh -> e_phoff eh + i * e_phentsize eh + sizeof_Phdr <= size) /\
   Forall (fun ph => p_filesz ph <= p_memsz ph /\ p_offset ph + p_filesz ph <= size) (loadable_headers m data) /\
   Z.of_nat (length rs) <= Task.TASK_ELF_LAZY_MAX /\ rs = map region_of (loadable_headers m data)) /\
  (elf_collect_lazy_regions m data size eh = (0, rs) -> Forall (region_ok size) rs).
Proof.
  intros eh Hd Hs Hw Hdw Hnw.
  assert (0 <= e_phoff eh < 2 ^ 32 /\ 0 <= e_phentsize eh /\ 0 <= e_phnum eh) as (Ho & He & Hn) by (repeat split; apply ld32_word || apply ld16_word).
  assert (forall i, (i < Z.to_nat (e_phnum eh))%nat -> 0 <= e_phoff eh + Z.of_nat i * e_phentsize eh <= e_phoff eh + e_phnum eh * e_phentsize eh) as Hi by (intros; nia).
  assert (segments m data (e_phoff eh) (e_phentsize eh) (Z.to_nat (e_phnum eh)) = loadable_headers m data) as Eseg.
  { unfold segments, loadable_headers. fold eh. f_equal. apply map_ext_in. intros i [_ Hin]%in_seq. specialize (Hi i ltac:(lia)). unfold nth_header. fold eh. rewrite (u32_small (e_phoff eh + _)) by lia. rewrite u32_small by lia. f_equal. lia. }
  assert (forall x, 0 <= x <= e_phoff eh + e_phnum eh * e_phentsize eh -> u32 (u32 x + sizeof_Phdr) = x + sizeof_Phdr) as Hu
    by (intros x Hx; unfold sizeof_Phdr in *; rewrite (u32_small x) by lia; apply u32_small; lia).
  unfold elf_collect_lazy_regions. rewrite (proj2 (Z.eqb_neq data 0)) by lia.
  rewrite collect_regions_spec by first [apply u32_small, Ho|done]. rewrite Eseg. cbn [app].
  assert (Forall (checked size) (loadable_headers m data) <-> Forall (fun ph => p_filesz ph <= p_memsz ph /\ p_offset ph + p_filesz ph <= size) (loadable_headers m data)) as Hchk.
  { rewrite !Forall_forall in *. split; intros H ph Hin; specialize (H ph Hin); specialize (Hnw ph Hin);
      apply list_elem_of_In, filter_In in Hin as [(i & <- & _)%in_map_iff _]; by apply checked_plain. }
  split.
  - rewrite Hchk. split; intros (H1 & H2 & H3 & H4); split_and!; try done; intros i Hb.
    + specialize (H1 (Z.to_nat i) ltac:(lia)). specialize (Hi (Z.to_nat i) ltac:(lia)). rewrite Z2Nat.id in * by lia. by rewrite Hu in H1.
    + specialize (H1 (Z.of_nat i) ltac:(lia)). specialize (Hi i Hb). by rewrite Hu.
  - intros (_ & H2 & -> & _). rewrite !Forall_forall in *. intros r (ph & -> & Hin)%list_elem_of_fmap. specialize (H2 ph Hin). specialize (Hnw ph Hin).
    apply list_elem_of_In, filter_In in Hin as [(i & <- & _)%in_map_iff _]. by apply region_of_ok.
Qed.

(** ** The argument stack *)

(** The argument strings [args], as the vector at [argv] gives them: a null
    entry stands for the empty string; nothing of them is in [lo, hi). *)
Definition arg_source (m : mem) (lo hi q : Z) (s : list Z) : Prop :=
  (q = 0 /\ s = []) \/ (q <> 0 /\ cstr m q s /\ (q + Z.of_nat (length s) + 1 <= lo \/ hi <= q)).
Definition args_source (m : mem) (lo hi argv : Z) (args : list (list Z)) : Prop :=
  (argv + 4 * Z.of_nat (length args) <= lo \/ hi <= argv) /\
  forall i s, args !! i = Some s -> arg_source m lo hi (arg_ptr m argv (Z.of_nat i)) s.
(** The bytes the strings take, terminators included. *)
Definition arg_bytes (args : list (list Z)) : Z := foldr (fun s n => Z.of_nat (length s) + 1 + n) 0 args.

Lemma arg_bytes_nonneg args : 0 <= arg_bytes args.
Proof. induction args; simpl; lia. Qed.
Lemma arg_bytes_app a b : arg_bytes (a ++ b) = arg_bytes a + arg_bytes b.
Proof. induction a; simpl; lia. Qed.

(** Memories that agree outside a range. *)
Definition outside (lo hi : Z) (m m' : mem) : Prop := forall b, b < lo \/ hi <= b -> ld8 m' b = ld8 m b.
Lemma outside_trans lo hi m1 m2 m3 : outside lo hi m1 m2 -> outside lo hi m2 m3 -> outside lo hi m1 m3.
Proof. intros H1 H2 b Hb. by rewrite H2, H1. Qed.
Lemma outside_weaken lo hi lo' hi' m m' : outside lo hi m m' -> lo' <= lo -> hi <= hi' -> outside lo' hi' m m'.
Proof. intros H ? ? b Hb. apply H. lia. Qed.
Lemma outside_ld32 lo hi m m' a : outside lo hi m m' -> a + 4 <= lo \/ hi <= a -> ld32 m' a = ld32 m a.
Proof. intros H Ha. unfold ld32. by rewrite !H by lia. Qed.
Lemma bytes_at_agree m m' p l : (forall b, p <= b < p + Z.of_nat (length l) -> ld8 m' b = ld8 m b) -> bytes_at m p l -> bytes_at m' p l.
Proof.
  revert p. induction l as [|x l IH]; intros p H Hb; [done|]. destruct Hb as [Hx Hb]. simpl length in H. split; [by rewrite H by lia|].
  apply IH; [|done]. intros b ?. apply H. lia.
Qed.
Lemma outside_cstr lo hi m m' p l : outside lo hi m m' -> p + Z.of_nat (length l) + 1 <= lo \/ hi <= p -> cstr m p l -> cstr m' p l.
Proof. intros H Hp [Hc Hb]. split; [done|]. eapply bytes_at_agree; [|done]. intros b. rewrite length_app. simpl. intros. apply H. lia. Qed.

Lemma arg_source_outside lo hi m m' q s : outside lo hi m m' -> arg_source m lo hi q s -> arg_source m' lo hi q s.
Proof. intros H [?|(? & ? & Hq)]; [by left|right]. split_and!; [done| |done]. eapply outside_cstr; [done| |done]. lia. Qed.
Lemma args_source_outside lo hi argv args m m' : outside lo hi m m' -> args_source m lo hi argv args -> args_source m' lo hi argv args.
Proof.
  intros H [Ha Hs]. split; [done|]. intros i s Hi. assert (arg_ptr m' argv (Z.of_nat i) = arg_ptr m argv (Z.of_nat i)) as ->; [|by eapply arg_source_outside; eauto].
  apply lookup_lt_Some in Hi. eapply outside_ld32; [done|]. lia.
Qed.

(** One string copied below [p]. *)
Lemma put_arg fuel m lo hi q s p : arg_source m lo hi q s -> (length s < fuel)%nat -> Z.of_nat (length s) + 1 < 2 ^ 32 ->
  let len := if q =? 0 then 1 else u32 (strlen fuel m q + 1) in
  let m' := if q =? 0 then st8 m p 0 else memcpy m p q (Z.to_nat len) in
  len = Z.of_nat (length s) + 1 /\ (lo <= p -> p + len <= hi -> cstr m' p s /\ outside p (p + len) m m').
Proof.
  intros Hq Hf Hl. destruct Hq as [[-> ->]|(Hq & Hc & Hd)].
  { split; [done|]. intros ? ?. split; [|intros b Hb; change (b < p \/ p + 1 <= b) in Hb; apply ld8_st8_ne; lia]. split; [done|]. split; [|done]. exact (ld8_st8_eq m p 0). }
  rewrite (proj2 (Z.eqb_neq q 0)) by done. rewrite (strlen_spec m q s) by (done || lia). rewrite u32_small by lia. split; [done|]. intros Hlo Hhi.
  split; [|intros b Hb; apply ld8_memcpy_ne; lia]. destruct Hc as [Hch Hb]. split; [done|].
  assert (forall k b, (s ++ [0]) !! k = Some b -> ld8 (memcpy m p q (Z.to_nat (Z.of_nat (length s) + 1))) (p + Z.of_nat k) = b) as H.
  { intros k b Hk. pose proof (lookup_lt_Some _ _ _ Hk) as Hlt. rewrite length_app in Hlt. simpl in Hlt. rewrite ld8_memcpy_in by lia.
    replace (q + (p + Z.of_nat k - p)) with (q + Z.of_nat k) by lia. by apply (bytes_at_lookup m q (s ++ [0])). }
  generalize dependent (s ++ [0]). intros l _ H. revert H. generalize (memcpy m p q (Z.to_nat (Z.of_nat (length s) + 1))). clear. intros m. revert p.
  induction l as [|x l IH]; intros p H; [done|]. split; [specialize (H 0%nat x eq_refl); by rewrite Z.add_0_r in H|].
  apply IH. intros k b Hk. specialize (H (S k) b Hk). rewrite <- H. f_equal. lia.
Qed.

(** The loop over the first [n] arguments. *)
Lemma push_strings_spec fuel ustk hi argv args : 0 <= ustk -> Forall (fun s => (length s < fuel)%nat) args -> arg_bytes args < 2 ^ 31 ->
  forall n p total ptrs m, (n <= length args)%nat -> args_source m ustk hi argv args -> 0 <= total <= ELF_ARGV_BYTES_MAX ->
  p <= hi -> hi < 2 ^ 32 -> ustk + (ELF_ARGV_BYTES_MAX - total) <= p ->
  let rest := arg_bytes (take n args) in
  if total + rest <=? ELF_ARGV_BYTES_MAX then
    exists qs m', push_strings fuel n ustk argv p total ptrs m = (m', Some (p - rest, qs ++ ptrs)) /\ length qs = n /\ outside (p - rest) p m m' /\
      forall i s, args !! i = Some s -> (i < n)%nat -> exists q, qs !! i = Some q /\ cstr m' q s /\ p - rest <= q /\ q + Z.of_nat (length s) + 1 <= p
  else exists m', push_strings fuel n ustk argv p total ptrs m = (m', None).
Proof.
  intros Hu Hfuel Hbig. induction n as [|n IH]; intros p total ptrs m Hn Hsrc Htot Hp Hhi Hroom rest.
  { unfold rest. simpl. rewrite (proj2 (Z.leb_le _ _)) by lia. exists [], m. split_and!; [by rewrite Z.sub_0_r|done|by intros b ?|lia]. }
  destruct (lookup_lt_is_Some_2 args n ltac:(lia)) as [s Hs].
  assert (rest = arg_bytes (take n args) + (Z.of_nat (length s) + 1)) as Er.
  { unfold rest. rewrite (take_S_r _ _ s) by done. rewrite arg_bytes_app. simpl. lia. }
  pose proof (arg_bytes_nonneg (take n args)) as Hnn.
  assert (Z.of_nat (length s) + 1 <= arg_bytes args) as Hls.
  { rewrite <- (take_drop_middle _ _ _ Hs), arg_bytes_app. simpl. pose proof (arg_bytes_nonneg (take n args)). pose proof (arg_bytes_nonneg (drop (S n) args)). lia. }
  destruct (put_arg fuel m ustk hi (arg_ptr m argv (Z.of_nat n)) s (p - (Z.of_nat (length s) + 1))) as [El Hput];
    [by apply Hsrc|exact (Forall_lookup_1 _ _ _ _ Hfuel Hs)|lia|].
  cbn [push_strings]. rewrite El in *. unfold ELF_ARGV_BYTES_MAX in *. rewrite (u32_small (total + _)) by lia.
  destruct (Z.ltb_spec 4096 (total + (Z.of_nat (length s) + 1))) as [Hov|Hov].
  { rewrite (proj2 (Z.leb_gt _ _)) by lia. by exists m. }
  rewrite (u32_small (ustk + _)) by lia. rewrite (proj2 (Z.ltb_ge p _)) by lia. rewrite (u32_small (p - _)) by lia.
  destruct (Hput ltac:(lia) ltac:(lia)) as [Hc Ho]. set (m1 := if _ =? 0 then st8 _ _ _ else _) in *.
  replace (p - (Z.of_nat (length s) + 1) + (Z.of_nat (length s) + 1)) with p in Ho by lia.
  specialize (IH (p - (Z.of_nat (length s) + 1)) (total + (Z.of_nat (length s) + 1)) (p - (Z.of_nat (length s) + 1) :: ptrs) m1 ltac:(lia)).
  replace (total + (Z.of_nat (length s) + 1) + arg_bytes (take n args)) with (total + rest) in IH by lia.
  replace (p - (Z.of_nat (length s) + 1) - arg_bytes (take n args)) with (p - rest) in IH by lia.
  specialize (IH ltac:(eapply args_source_outside; [eapply outside_weaken; [exact Ho|lia|lia]|done]) ltac:(lia) ltac:(lia) Hhi ltac:(lia)). cbv zeta in IH.
  destruct (Z.leb_spec (total + rest) 4096); [|done].
  destruct IH as (qs & m' & E & Hlq & Ho' & Hq). exists (qs ++ [p - (Z.of_nat (length s) + 1)]), m'. rewrite <- app_assoc. split_and!; [done|rewrite length_app; simpl; lia| |].
  - eapply outside_trans; [eapply outside_weaken; [exact Ho|lia|lia]|eapply outside_weaken; [exact Ho'|lia|lia]].
  - intros i t Hi Hlt. destruct (decide (i = n)) as [->|Hne].
    + rewrite Hs in Hi. injection Hi as <-. exists (p - (Z.of_nat (length s) + 1)). split_and!; [by rewrite lookup_app_r, Hlq, Nat.sub_diag by lia| |lia|lia].
      eapply outside_cstr; [exact Ho'| |done]. lia.
    + destruct (Hq i t Hi ltac:(lia)) as (q & Hqi & ? & ? & ?). exists q. split_and!; [by apply lookup_app_l_Some|done|lia|lia].
Qed.

(** The words pushed below [p]. *)
Lemma push_words_spec l : forall m p, 4 * Z.of_nat (length l) <= p < 2 ^ 32 -> Forall (fun v => 0 <= v < 2 ^ 32) l ->
  let q := p - 4 * Z.of_nat (length l) in
  exists m', foldr push32 (m, p) l = (m', q) /\ outside q p m m' /\ forall i v, l !! i = Some v -> ld32 m' (q + 4 * Z.of_nat i) = v.
Proof.
  induction l as [|v l IH]; intros m p Hp Hl q; [exists m; split_and!; [unfold q; simpl; by rewrite Z.sub_0_r|by intros b ?|done]|].
  apply Forall_cons in Hl as [Hv Hl]. simpl length in *. destruct (IH m p ltac:(lia) Hl) as (m1 & E & Ho & Hq). cbn [foldr]. rewrite E. unfold push32. cbn [fst snd].
  rewrite u32_small by lia. replace (p - 4 * Z.of_nat (length l) - 4) with q by (unfold q; lia). exists (st32 m1 q v). split_and!; [done| |].
  - intros b Hb. rewrite ld8_st32_ne by (unfold q in *; lia). apply Ho. unfold q in *. lia.
  - intros [|i] w Hi; [injection Hi as ->; rewrite Z.add_0_r; by apply ld32_st32_eq|]. rewrite ld32_st32_ne by lia. rewrite <- (Hq i w Hi). f_equal. unfold q. lia.
Qed.

Lemma align16_eq a : Z.land a (Z.lnot 0xF) = a / 16 * 16.
Proof. exact (land_lnot_ones a 4 ltac:(lia)). Qed.
Lemma align4_eq a : Z.land a (Z.lnot 0x3) = a / 4 * 4.
Proof. exact (land_lnot_ones a 2 ltac:(lia)). Qed.

(** The arguments as a program finds them from its stack pointer: the count,
    the vector with a null at its end, and the strings. *)
Record args_found (m : mem) (esp lo hi : Z) (args : list (list Z)) : Prop := {
  af_argc : ld32 m esp = Z.of_nat (length args);
  af_argv : forall i s, args !! i = Some s -> exists q, ld32 m (esp + 4 + 4 * Z.of_nat i) = q /\ cstr m q s /\ lo <= q /\ q + Z.of_nat (length s) + 1 <= hi;
  af_null : ld32 m (esp + 4 + 4 * Z.of_nat (length args)) = 0
}.

(** The loader hands a program its arguments. For at most 16 argument
    strings (a null pointer counting as the empty one) outside the 8 KiB
    stack at [ustk], [elf_build_argv_stack] succeeds exactly when the strings
    with their terminators take at most 4096 bytes. It then returns a word
    aligned stack pointer inside the stack, where the program reads the
    count, the addresses of equal strings stored on the stack, and the null
    that ends the vector; no byte outside the stack has changed. It fails
    with -3 otherwise, and with -2 on a count that is negative or above 16. *)
Theorem argv_stack_correct fuel ustk argv args m :
  0 <= ustk -> ustk + ELF_USER_STACK_SIZE < 2 ^ 32 -> argv <> 0 -> args_source m ustk (ustk + ELF_USER_STACK_SIZE) argv args ->
  Forall (fun s => (length s < fuel)%nat) args -> arg_bytes args < 2 ^ 31 ->
  let '(rc, esp, m') := elf_build_argv_stack fuel ustk argv (Z.of_nat (length args)) m in
  if ELF_ARGV_MAX <? Z.of_nat (length args) then rc = -2
  else if ELF_ARGV_BYTES_MAX <? arg_bytes args then rc = -3
  else
    rc = 0 /\ ustk <= esp /\ esp mod 4 = 0 /\ outside esp (ustk + ELF_USER_STACK_SIZE) m m' /\
    args_found m' esp (esp + 8 + 4 * Z.of_nat (length args)) (ustk + ELF_USER_STACK_SIZE) args.
Proof.
  intros Hu Hhi Hargv Hsrc Hfuel Hbig. unfold elf_build_argv_stack. rewrite (proj2 (Z.ltb_ge _ 0)) by lia. rewrite (proj2 (Z.eqb_neq argv 0)) by done.
  rewrite andb_false_r. destruct (Z.ltb_spec ELF_ARGV_MAX (Z.of_nat (length args))) as [|Hmax]; [done|]. cbn [orb].
  unfold ELF_USER_STACK_SIZE, ELF_ARGV_MAX in *. rewrite (u32_small (ustk + _)), align16_eq, Nat2Z.id by lia. set (hi := ustk + 8 * 1024) in *. set (top := hi / 16 * 16).
  assert (hi - 16 < top <= hi) as Htop by (unfold top; zlia).
  pose proof (push_strings_spec fuel ustk hi argv args Hu Hfuel Hbig (length args) top 0 [] m ltac:(lia) Hsrc ltac:(unfold ELF_ARGV_BYTES_MAX; lia) ltac:(lia) Hhi
    ltac:(unfold ELF_ARGV_BYTES_MAX; lia)) as H.
  rewrite firstn_all in H. cbv zeta in H. rewrite Z.add_0_l in H. pose proof (arg_bytes_nonneg args) as Hnn. unfold ELF_ARGV_BYTES_MAX in *.
  destruct (Z.leb_spec (arg_bytes args) 4096) as [Hle|Hgt]; [|destruct H as [m' ->]; by rewrite (proj2 (Z.ltb_lt 4096 _)) by lia].
  rewrite (proj2 (Z.ltb_ge 4096 _)) by lia. destruct H as (qs & m1 & -> & Hlq & Ho1 & Hq). rewrite app_nil_r in *.
  rewrite align4_eq. set (p := (top - arg_bytes args) / 4 * 4).
  assert (top - arg_bytes args - 4 < p <= top - arg_bytes args /\ p mod 4 = 0) as [Hp Hp4] by (unfold p; zlia).
  rewrite (u32_small (ustk + _)) by lia. rewrite (proj2 (Z.ltb_ge p _)) by lia. unfold push32 at 3. cbn [fst snd]. rewrite u32_small by lia.
  assert (Forall (fun v => 0 <= v < 2 ^ 32) qs) as Hqs.
  { apply Forall_lookup_2. intros i q Hi. destruct (lookup_lt_is_Some_2 args i) as [s Hs]; [apply lookup_lt_Some in Hi; lia|].
    destruct (Hq i s Hs) as (q' & Hi' & _ & ? & ?); [by apply lookup_lt_Some in Hs|]. simplify_eq. lia. }
  destruct (push_words_spec qs (st32 m1 (p - 4) 0) (p - 4)) as (m2 & -> & Ho2 & Hw); [lia|done|]. rewrite Hlq in *. unfold push32. cbn [fst snd].
  rewrite u32_small by lia. set (esp := p - 4 - 4 * Z.of_nat (length args) - 4). set (m3 := st32 m2 esp _).
  assert (outside esp p m1 m3) as Ho.
  { intros b Hb. unfold m3. rewrite ld8_st32_ne, Ho2, ld8_st32_ne by (unfold esp in *; lia). done. }
  split_and!; [done|unfold esp; lia|unfold esp; zlia| |split].
  - eapply outside_trans; (eapply outside_weaken; [eassumption|unfold esp; lia|lia]).
  - apply ld32_st32_eq. lia.
  - intros i s Hs. destruct (Hq i s Hs) as (q & Hi & Hc & Hl & Hh); [by apply lookup_lt_Some in Hs|]. exists q. split_and!; [|eapply outside_cstr; [exact Ho|lia|done]|unfold esp; lia|lia].
    unfold m3. rewrite ld32_st32_ne by lia. rewrite <- (Hw i q Hi). f_equal. unfold esp. lia.
  - unfold m3. rewrite ld32_st32_ne by lia. rewrite (outside_ld32 _ _ _ _ _ Ho2) by (unfold esp; lia).
    replace (esp + 4 + 4 * Z.of_nat (length args)) with (p - 4) by (unfold esp; lia). apply ld32_st32_eq. lia.
Qed.

(** Two arguments at 0x1000 and 0x1010, the vector at 0x1020. *)
Definition two_args : list (list Z) := [letters "ls"%string; letters "/bin"%string].
Definition args_mem : mem :=
  st32 (st32 (put_bytes 0x1010 (letters "/bin"%string ++ [0]) (put_bytes 0x1000 (letters "ls"%string ++ [0]) ∅)) 0x1020 0x1000) 0x1024 0x1010.
Lemma args_mem_source : args_source args_mem 0xBFFF8000 0xBFFFA000 0x1020 two_args.
Proof.
  split; [by left|]. intros [|[|i]] s [= <-]; right; (split; [done|]); split_and!; try (by left).
  all: split; [repeat constructor|vm_compute; by split_and!].
Qed.
Lemma argv_stack_correct_witness :
  let '(rc, esp, m') := elf_build_argv_stack 10 ELF_USER_STACK_BASE 0x1020 2 args_mem in
  rc = 0 /\ ELF_USER_STACK_BASE <= esp /\ esp mod 4 = 0 /\ outside esp (ELF_USER_STACK_BASE + ELF_USER_STACK_SIZE) args_mem m' /\
  args_found m' esp (esp + 16) (ELF_USER_STACK_BASE + ELF_USER_STACK_SIZE) two_args.
Proof.
  apply (argv_stack_correct 10 ELF_USER_STACK_BASE 0x1020 two_args args_mem).
  - done.
  - done.
  - done.
  - apply args_mem_source.
  - by repeat constructor.
  - done.
Defined.

(** ** Launch slots *)

(** The launches waiting for their task, and that they belong to tasks
    created so far. *)
Definition launches (ss : list elf_launch_slot) : list elf_launch_slot := List.filter ls_in_use ss.
Definition slots_ok (next : Z) (ss : list elf_launch_slot) : Prop := Forall (fun s => ls_in_use s = true -> ls_task_id s < next) ss.

Lemma launches_app a b : launches (a ++ b) = launches a ++ launches b.
Proof. apply List.filter_app. Qed.

Lemma slot_set_spec tid entry sp ss : let '(rc, ss') := elf_launch_slot_set tid entry sp ss in
  (rc = -1 /\ ss' = ss) \/
  (rc = 0 /\ exists pre old post, ss = pre ++ old :: post /\ ls_in_use old = false /\ ss' = pre ++ mk_launch true tid entry sp :: post).
Proof.
  induction ss as [|s ss IH]; [by left|]. cbn [elf_launch_slot_set]. destruct (ls_in_use s) eqn:Es.
  - destruct (elf_launch_slot_set tid entry sp ss) as [rc ss']. destruct IH as [[-> ->]|[-> (pre & old & post & -> & Ho & ->)]]; [by left|right].
    split; [done|]. by exists (s :: pre), old, post.
  - right. split; [done|]. by exists [], s, ss.
Qed.

Lemma slot_take_skip tid pre post : Forall (fun s => is_launch tid s = false) pre ->
  elf_launch_slot_take tid (pre ++ post) = let '(r, post') := elf_launch_slot_take tid post in (r, pre ++ post').
Proof.
  induction 1 as [|s pre Hs _ IH]; [cbn [app]; by destruct (elf_launch_slot_take tid post)|]. cbn [app elf_launch_slot_take]. rewrite Hs, IH.
  by destruct (elf_launch_slot_take tid post).
Qed.

(** A slot filled for a new task is the one that the task takes, and taking
    or clearing it leaves the launches there were before. *)
Lemma slot_set_take tid entry sp ss : slots_ok tid ss ->
  let '(rc, ss') := elf_launch_slot_set tid entry sp ss in
  (rc = -1 /\ ss' = ss) \/
  (rc = 0 /\ (elf_launch_slot_take tid ss').1 = Some (mk_launch false tid entry sp) /\ launches (elf_launch_slot_clear tid ss') = launches ss /\
   slots_ok tid (elf_launch_slot_clear tid ss') /\ slots_ok (tid + 1) ss').
Proof.
  intros Hok. pose proof (slot_set_spec tid entry sp ss) as H. destruct (elf_launch_slot_set tid entry sp ss) as [rc ss'].
  destruct H as [?|[-> (pre & old & post & -> & Ho & ->)]]; [by left|right]. unfold slots_ok in *. rewrite Forall_app, Forall_cons in Hok. destruct Hok as (Hpre & _ & Hpost).
  assert (Forall (fun s => is_launch tid s = false) pre) as Hskip.
  { eapply Forall_impl; [exact Hpre|]. intros s Hs. unfold is_launch. cbv beta in Hs. destruct (ls_in_use s); [|done]. specialize (Hs eq_refl). cbn [andb]. apply Z.eqb_neq. lia. }
  unfold elf_launch_slot_clear. rewrite slot_take_skip by done. cbn [elf_launch_slot_take].
  assert (is_launch tid (mk_launch true tid entry sp) = true) as -> by (unfold is_launch; cbn; lia). cbn [fst snd ls_task_id ls_entry ls_user_esp].
  assert (forall s, (ls_in_use s = true -> ls_task_id s < tid) -> ls_in_use s = true -> ls_task_id s < tid + 1) as Hw by (intros s H E; specialize (H E); lia).
  split_and!; [done|done| | |].
  - rewrite !launches_app. f_equal. unfold launches. cbn [List.filter ls_in_use]. by rewrite Ho.
  - unfold slots_ok. rewrite Forall_app, Forall_cons. split_and!; [exact Hpre|discriminate|exact Hpost].
  - unfold slots_ok. rewrite Forall_app, Forall_cons. split_and!; [exact (Forall_impl _ _ _ Hpre Hw)|cbn; lia|exact (Forall_impl _ _ _ Hpost Hw)].
Qed.

(** ** Running a program *)

Section exec.
Context {F : Type} {EF : Task.Env F} {LF : Loader F}.
Import Task TaskSpec.
Implicit Types (k : kernel F) (l : loader F).

(** What creating a task leaves in the table, besides what the scheduler
    reads: no other new task, and the signals of a fresh one. *)
Lemma create_rest entry stack_size q name k rc k' : inv k -> g_next_id k < 2 ^ 31 -> task_create_named entry stack_size q name k = Some (rc, k') ->
  (rc < 0 -> g_next_id k <= g_next_id k' /\ forall i, 0 <= i < g_task_count k' -> id (slot k' i) < g_next_id k) /\
  (0 <= rc -> kill_default (slot k' (g_task_count k' - 1))).
Proof.
  intros [Ht Hc] Hnx E. unfold task_create_named in E. destruct (entry =? 0); [injection E as <- <-; split; [intros _; split; [done|intros i Hi; by apply (to_ids _ Ht)]|lia]|].
  assert (exists k1, (if TASK_MAX <=? g_task_count k then sweep_reapable_tasks k else Some k) = Some k1 /\ table_ok k1 /\ g_next_id k1 = g_next_id k) as (k1 & E1 & Ht1 & En1).
  { destruct (TASK_MAX <=? g_task_count k); [destruct (sweep_tasks_spec k Ht Hc) as (k1 & ? & ? & _ & ? & _); exists k1; by split_and!|exists k; by split_and!]. }
  rewrite E1 in E. pose proof (to_length _ Ht1) as Hlen. pose proof (to_count _ Ht1) as Hcnt.
  destruct (Z.leb_spec TASK_MAX (g_task_count k1)); [injection E as <- <-; split; [intros _; rewrite <- En1; split; [done|intros i Hi; by apply (to_ids _ Ht1)]|lia]|].
  cbv zeta in E. set (t := mk_task _ _ _ _ _ _ _ _ _ _ _ _ _ _ _ _ _) in E. set (ka := do_env _ (set_next_id _ k1)) in E.
  assert (g_tasks ka = g_tasks k1 /\ g_task_count ka = g_task_count k1 /\ g_next_id ka = u32 (g_next_id k1 + 1)) as (Eka & Ekc & Ekn) by done. clearbody ka.
  set (kb := upd_slot (g_task_count k1) (fun _ => t) ka) in E.
  destruct (alloc_kstack _ (env kb)) as [stack e]. destruct (stack =? 0).
  { injection E as <- <-. split; [|lia]. intros _. pose proof (to_ids _ Ht1 0 ltac:(lia)).
    split; [change (g_next_id (set_env e kb)) with (g_next_id ka); rewrite Ekn, u32_small by lia; lia|].
    intros i Hi. change (g_task_count (set_env e kb)) with (g_task_count ka) in Hi. rewrite Ekc in Hi.
    assert (slot (set_env e kb) i = slot k1 i) as -> by (unfold slot, kb, upd_slot; cbn; rewrite Eka; by rewrite list_lookup_total_insert_ne by lia).
    rewrite <- En1. by apply (to_ids _ Ht1). }
  injection E as <- <-. split; [pose proof (to_next _ Ht); pose proof (to_ids _ Ht 0); pose proof (to_count _ Ht); rewrite i32_small by lia; lia|]. intros _.
  destruct (push_words_env (Z.land (u32 (stack + (if stack_size =? 0 then DEFAULT_STACK_SIZE else stack_size))) (Z.lnot 15))
              [task_trampoline; 0; entry; 0; 0] (set_env e kb)) as [f ->].
  set (top := Z.land _ _). set (sz := if stack_size =? 0 then _ else _).
  match goal with |- kill_default (slot ?K ?i) => assert (slot K i = with_stack stack sz (top - 20) t) as ->; [|by split] end.
  cbn [g_task_count set_tasks]. replace (g_task_count k1 + 1 - 1) with (g_task_count k1) by lia. unfold slot at 1. cbn [g_tasks set_tasks upd_slot].
  unfold TASK_MAX in *. rewrite list_lookup_total_insert_eq by (cbn; rewrite length_insert, Eka; lia).
  f_equal. unfold slot. cbn. rewrite list_lookup_total_insert_eq; [done|rewrite Eka; lia].
Qed.

(** The three steps that complete the new task, seen from its slot. *)
Lemma new_index k i : inv k -> 0 <= i < g_task_count k -> find_task_index_by_id (id (slot k i)) k = i /\ (id (slot k i) <=? 0) = false.
Proof. intros [Ht _] Hi. split; [by apply kill_idx|]. pose proof (to_ids _ Ht i Hi). apply Z.leb_gt. lia. Qed.

Lemma slot_upd_same k i f : table_ok k -> 0 <= i < g_task_count k -> slot (upd_slot i f k) i = f (slot k i).
Proof. intros Ht Hi. rewrite slot_upd by (done || lia). by rewrite decide_True. Qed.

Lemma elf_clear_slot k i : table_ok k -> 0 <= i < g_task_count k -> exists e, slot (task_lazy_elf_clear i k) i = with_elf e (slot k i).
Proof.
  intros Ht Hi. unfold task_lazy_elf_clear. set (e := mk_elf None 0 0 _). exists e.
  assert (forall f, slot (upd_slot i (with_elf e) (do_env f k)) i = with_elf e (slot k i)) as H.
  { intros f. rewrite slot_upd_same; [done|eapply same_view_ok; [apply env_same_view|done]|done]. }
  destruct (elf_backing (telf (slot k i))) as [[a b]|]; [by apply H|by apply slot_upd_same].
Qed.

Lemma adopt_slot k i ab size rs : inv k -> 0 <= i < g_task_count k -> Z.of_nat (length rs) <= TASK_ELF_LAZY_MAX ->
  exists k' tail, task_adopt_elf_lazy_layout (id (slot k i)) (Some ab) size rs (Z.of_nat (length rs)) k = (0, k') /\ same_view k k' /\
    slot k' i = with_elf (mk_elf (if 0 <? size then Some ab else None) size (Z.of_nat (length rs)) (map use_region rs ++ tail)) (slot k i).
Proof.
  intros Hinv Hi Hl. destruct (new_index k i Hinv Hi) as [Ei Ep]. pose proof (layout_view true (id (slot k i)) (Some ab) size rs (Z.of_nat (length rs)) k (proj1 Hinv)) as Sv.
  destruct (elf_clear_slot k i (proj1 Hinv) Hi) as [e0 E0]. pose proof (elf_clear_same_view i k (proj1 Hinv) Hi) as Sc.
  pose proof (same_view_ok _ _ Sc (proj1 Hinv)) as Tc. set (k1 := task_lazy_elf_clear i k) in *.
  exists (upd_slot i (with_elf (mk_elf (if 0 <? size then Some ab else None) size (Z.of_nat (length rs))
            (map use_region rs ++ drop (length rs) (map unuse (elf_regions (telf (slot k1 i))))))) k1), (drop (length rs) (map unuse (elf_regions (telf (slot k1 i))))).
  assert (task_adopt_elf_lazy_layout (id (slot k i)) (Some ab) size rs (Z.of_nat (length rs)) k = (0, upd_slot i (fun t => with_elf (mk_elf (if 0 <? size then Some ab else None) size (Z.of_nat (length rs))
            (map use_region rs ++ drop (length rs) (map unuse (elf_regions (telf t))))) t) k1)) as E.
  { unfold task_adopt_elf_lazy_layout, install_layout. rewrite Ep, Ei. rewrite (proj2 (Z.ltb_ge i 0)) by lia.
    unfold task_lazy_elf_install. rewrite (proj2 (Z.ltb_ge TASK_ELF_LAZY_MAX _)) by lia. rewrite (bool_decide_false (Some ab = None)) by done.
    rewrite Nat2Z.id, take_ge by done. rewrite andb_false_r. destruct (0 <? size); [|done]. by rewrite (bool_decide_false (Some ab = None)) by done. }
  unfold task_adopt_elf_lazy_layout in *. rewrite E in Sv. cbn [snd] in Sv. split; [exact E|]. split; [exact Sv|].
  rewrite slot_upd_same by (done || by rewrite (sv_count _ _ Sc)). by rewrite E0.
Qed.

Lemma assign_slot k i mm : inv k -> 0 <= i < g_task_count k ->
  let '(rc, k') := task_assign_mm (id (slot k i)) mm k in
  same_view k k' /\ ((rc = -1 /\ mm = 0 /\ slot k' i = slot k i) \/ (rc = 0 /\ slot k' i = with_mm (page_align_down mm) (slot k i))).
Proof.
  intros Hinv Hi. destruct (new_index k i Hinv Hi) as [Ei Ep]. pose proof (assign_mm_view (id (slot k i)) mm k (proj1 Hinv)) as Sv.
  unfold task_assign_mm in *. rewrite Ep, Ei in *. cbn [orb] in *. destruct (Z.eqb_spec mm 0); [split; [exact Sv|by left]|].
  rewrite (proj2 (Z.ltb_ge i 0)) in * by lia. split; [exact Sv|right]. split; [done|]. rewrite slot_upd_same; [done| |done].
  eapply same_view_ok; [|apply Hinv]. eapply same_view_trans; apply env_same_view.
Qed.

Lemma clone_slot k i tf sf : inv k -> 0 <= i < g_task_count k ->
  let '(rc, k') := task_clone_fd_to_task (id (slot k i)) tf sf k in same_view k k' /\ exists fds, slot k' i = with_fds fds (slot k i).
Proof.
  intros Hinv Hi. destruct (new_index k i Hinv Hi) as [Ei Ep]. pose proof (clone_fd_view (id (slot k i)) tf sf k (proj1 Hinv)) as Sv.
  destruct (task_clone_fd_to_task _ tf sf k) as [rc k'] eqn:E. cbn [snd] in Sv. split; [done|].
  assert (exists fds, slot k i = with_fds fds (slot k i)) as Hid by (exists (tfds (slot k i)); by destruct (slot k i)).
  unfold task_clone_fd_to_task in E. do 5 (case_match; [by simplify_eq|]). rewrite Ei in E. rewrite (proj2 (Z.ltb_ge i 0)) in E by lia. cbv zeta in E.
  set (k1 := if Vfs.f_in_use (tfds (slot k i) !!! Z.to_nat tf) then _ else k) in E.
  assert (same_view k k1 /\ exists fds, slot k1 i = with_fds fds (slot k i)) as [S1 [fds1 E1]].
  { clear E. unfold k1. destruct (Vfs.f_in_use (tfds (slot k i) !!! Z.to_nat tf)); [|split; [apply same_view_refl|done]]. split; [apply then_upd; [apply Hinv|apply env_same_view|done|done]|].
    eexists. rewrite slot_upd_same; [done|eapply same_view_ok; [apply env_same_view|apply Hinv]|done]. }
  clearbody k1. pose proof (same_view_ok _ _ S1 (proj1 Hinv)) as T1. assert (0 <= i < g_task_count k1) as I1 by (by rewrite (sv_count _ _ S1)).
  set (k2 := upd_slot i _ k1) in E. assert (slot k2 i = with_fds (<[Z.to_nat tf := tfds (slot k1 (g_current k1)) !!! Z.to_nat sf]> (tfds (slot k1 i))) (slot k1 i)) as E2
    by (unfold k2; by rewrite slot_upd_same).
  assert (table_ok k2) as T2 by (eapply same_view_ok; [|exact T1]; by apply upd_same_view).
  destruct (vfs_open_node _ _ (env k2)) as [rc0 e]. rewrite E1 in E2. case_match; simplify_eq.
  - eexists. rewrite slot_upd_same; [|exact (same_view_ok _ _ (env_same_view (fun _ => e) k2) T2)|exact I1]. change (slot (set_env e k2) i) with (slot k2 i). rewrite E2. done.
  - eexists. change (slot (set_env e k2) i) with (slot k2 i). rewrite E2. done.
Qed.

(** The new task [tid] in slot [i], ready and not yet run. *)
Record waiting k (tid i : Z) : Prop := {
  wt_inv : inv k;
  wt_range : 0 < i < g_task_count k;
  wt_current : i <> g_current k;
  wt_id : id (slot k i) = tid;
  wt_ready : tstate (slot k i) = TASK_READY;
  wt_kill : kill_default (slot k i);
  wt_others : forall j, 0 <= j < g_task_count k -> j <> i -> id (slot k j) < tid
}.

(** Every task from number [tid] on has ended. *)
Definition no_new (tid : Z) k : Prop := forall j, 0 <= j < g_task_count k -> tid <= id (slot k j) -> tstate (slot k j) = TASK_DEAD.

Lemma waiting_step k k' tid i : same_view k k' -> tsignals (slot k' i) = tsignals (slot k i) -> waiting k tid i -> waiting k' tid i.
Proof.
  intros Sv Es [W1 W2 W3 W4 W5 W6 W7]. pose proof (sv_count _ _ Sv) as Ec.
  assert (forall j, 0 <= j < g_task_count k -> id (slot k' j) = id (slot k j) /\ tstate (slot k' j) = tstate (slot k j)) as Hv
    by (intros j Hj; pose proof (sv_view _ _ Sv j Hj) as E; unfold view in E; by inversion E).
  split; rewrite ?Ec, ?(sv_current _ _ Sv); try done.
  - by eapply same_view_inv.
  - by rewrite (proj1 (Hv i ltac:(lia))).
  - by rewrite (proj2 (Hv i ltac:(lia))).
  - unfold kill_default, handler_of in *. by rewrite Es.
  - intros j Hj Hne. rewrite (proj1 (Hv j Hj)). by apply W7.
Qed.
Lemma waiting_env f k tid i : waiting k tid i -> waiting (do_env f k) tid i.
Proof. by apply waiting_step; [apply env_same_view|]. Qed.

Lemma kill_and_spec k tid i rc after ss : waiting k tid i ->
  exists k', kill_and tid rc after (mk_loader k ss) = launched rc (mk_loader k' ss) /\ inv k' /\ no_new tid k' /\ g_next_id k' = g_next_id k.
Proof.
  intros [W1 W2 W3 W4 W5 W6 W7]. pose proof (kill_other_spec i k (proj1 W1) W2 W3 ltac:(congruence) W6) as H. rewrite W4 in H.
  pose proof (send_signal_inv tid KSIGKILL k W1) as Hi. unfold kill_and. cbn [krn slots]. fold (task_kill tid k) in Hi. destruct (task_kill tid k) as [r k'] eqn:E.
  destruct H as (-> & Hd & _ & _ & Ec & _ & En & Ho). exists (with_env after k'). split; [done|]. split; [by eapply same_view_inv; [apply env_same_view|]|]. split; [|done].
  intros j Hj Hn. change (slot (with_env after k') j) with (slot k' j) in *. change (g_task_count (with_env after k')) with (g_task_count k') in Hj.
  rewrite Ec in Hj. destruct (decide (j = i)) as [->|Hne]; [done|]. destruct (Ho j Hj) as (E1 & _). specialize (W7 j Hj Hne). lia.
Qed.

(** The last steps, for a task that is complete. *)
Lemma start_program_spec k tid i wfuel others stdin_fd stdout_fd entry sp ss : waiting k tid i -> slots_ok tid ss ->
  exists rc l', start_program wfuel others tid 0 stdin_fd stdout_fd entry sp (mk_loader k ss) = launched rc l' /\ g_next_id (krn l') = g_next_id k /\
    ((rc < 0 /\ inv (krn l') /\ no_new tid (krn l') /\ launches (slots l') = launches ss /\ slots_ok tid (slots l')) \/
     (rc = tid /\ waiting (krn l') tid i /\ (elf_launch_slot_take tid (slots l')).1 = Some (mk_launch false tid entry sp) /\ slots_ok (tid + 1) (slots l') /\
      telf (slot (krn l') i) = telf (slot k i) /\ mm_cr3 (slot (krn l') i) = mm_cr3 (slot k i))).
Proof.
  intros Hw Hss. pose proof (slot_set_take tid entry sp ss Hss) as Hset. unfold start_program. cbn [krn slots]. destruct (elf_launch_slot_set tid entry sp ss) as [rc0 ss'].
  destruct Hset as [[-> ->]|(-> & Htake & Hl & Hc1 & Hc2)].
  { destruct (kill_and_spec k tid i (-10) (fun e => e) ss Hw) as (k' & E & ? & ? & ?). exists (-10), (mk_loader k' ss). split; [exact E|]. split; [done|]. left. by split_and!. }
  change (0 <? 0) with false. cbv iota.
  assert (forall k0 tf sf, waiting k0 tid i -> let '(rc, k1) := if 0 <=? sf then task_clone_fd_to_task tid tf sf k0 else (0, k0) in
    waiting k1 tid i /\ g_next_id k1 = g_next_id k0 /\ telf (slot k1 i) = telf (slot k0 i) /\ mm_cr3 (slot k1 i) = mm_cr3 (slot k0 i)) as Hclone.
  { intros k0 tf sf Hw0. destruct (0 <=? sf); [|by split_and!]. pose proof (clone_slot k0 i tf sf (wt_inv _ _ _ Hw0) ltac:(destruct Hw0; lia)) as H.
    rewrite (wt_id _ _ _ Hw0) in H. destruct (task_clone_fd_to_task tid tf sf k0) as [rc k1]. destruct H as (Sv & fds & E). rewrite E. split_and!; [|apply Sv|done|done].
    apply (waiting_step k0); [done|by rewrite E|done]. }
  pose proof (Hclone k 0 stdin_fd Hw) as H1. destruct (if 0 <=? stdin_fd then _ else _) as [rc1 k1]. destruct H1 as (Hw1 & N1 & E1 & M1).
  destruct (rc1 <? 0).
  { destruct (kill_and_spec k1 tid i (-8) (fun e => e) (elf_launch_slot_clear tid ss') Hw1) as (k' & E & ? & ? & En). do 2 eexists. split; [exact E|]. split; [cbn [krn]; congruence|]. left. by split_and!. }
  pose proof (Hclone k1 1 stdout_fd Hw1) as H2. destruct (if 0 <=? stdout_fd then _ else _) as [rc2 k2]. destruct H2 as (Hw2 & N2 & E2 & M2).
  destruct (rc2 <? 0).
  { destruct (kill_and_spec k2 tid i (-9) (fun e => e) (elf_launch_slot_clear tid ss') Hw2) as (k' & E & ? & ? & En). do 2 eexists. split; [exact E|]. split; [cbn [krn]; congruence|]. left. by split_and!. }
  do 2 eexists. split; [reflexivity|]. split; [cbn [krn]; congruence|]. right. cbn [krn slots]. split_and!; try done; congruence.
Qed.

Lemma create_waiting entry q name k tid k' : inv k -> g_next_id k < 2 ^ 31 -> task_create_named entry 0 q name k = Some (tid, k') -> 0 <= tid ->
  tid = g_next_id k /\ g_next_id k' = tid + 1 /\ waiting k' tid (g_task_count k' - 1).
Proof.
  intros Hinv Hnx E Hpos. destruct (create_spec entry 0 q name k (proj1 Hinv) (proj2 Hinv) Hnx) as (rc & k1 & E1 & Ht & Hc & _ & H). rewrite E1 in E. injection E as -> ->.
  destruct H as [?|(-> & Enx & Hcr & Hid & Hst & _)]; [lia|]. split; [done|]. split; [done|].
  destruct (create_rest entry 0 q name k (g_next_id k) k' Hinv Hnx E1) as [_ Hk]. pose proof (to_count _ Ht).
  split; [done|lia|lia|done|done|by apply Hk|]. intros j Hj Hne. pose proof (to_ids _ Ht j Hj) as Hidj.
  assert (id (slot k' j) <> g_next_id k); [|lia]. intros Heq. apply Hne. apply (to_distinct _ Ht); [done|lia|congruence].
Qed.

Lemma collect_bound n : forall m data size off ent acc rc rs, collect_from n m data size off ent acc = (rc, rs) ->
  Z.of_nat (length acc) <= TASK_ELF_LAZY_MAX -> Forall (fun r => el_in_use r = true) acc -> Z.of_nat (length rs) <= TASK_ELF_LAZY_MAX /\ Forall (fun r => el_in_use r = true) rs.
Proof.
  induction n as [|n IH]; intros m data size off ent acc rc rs E Hl Hu; cbn [collect_from] in E; [by simplify_eq|].
  destruct (size <? _); [by simplify_eq|]. destruct (loadable _); [|by eapply IH]. do 2 (case_match; [by simplify_eq|]).
  destruct (Z.leb_spec TASK_ELF_LAZY_MAX (Z.of_nat (length acc))); [by simplify_eq|]. eapply IH; [exact E|rewrite length_app; cbn [length]; lia|].
  apply Forall_app. split; [done|]. by repeat constructor.
Qed.
Lemma use_in_use rs : Forall (fun r => el_in_use r = true) rs -> map use_region rs = rs.
Proof. induction 1 as [|r rs Hr _ IH]; [done|]. cbn [map]. rewrite IH. destruct r. cbn in Hr. by subst. Qed.

Lemma load_image_spec path e : match load_image path e with
  | (inl rc, _) => rc < 0
  | (inr (buf, size, eh, rs), _) => sizeof_Ehdr <= size /\ Z.of_nat (length rs) <= TASK_ELF_LAZY_MAX /\ map use_region rs = rs
  end.
Proof.
  unfold load_image. destruct (elf_read_from_vfs path e) as [[io [buf size]] e1]. destruct (Z.ltb_spec io 0); [done|].
  destruct (Z.ltb_spec (elf_validate (Elf.view e1) buf size) 0) as [|Hv]; [lia|].
  assert (sizeof_Ehdr <= size) as Hs by (unfold elf_validate in Hv; destruct (Z.ltb_spec size sizeof_Ehdr); lia).
  unfold elf_collect_lazy_regions. destruct (buf =? 0); [done|]. destruct (collect_from _ _ _ _ _ _ []) as [rc rs] eqn:E.
  destruct (rc <? 0); [done|]. destruct (collect_bound _ _ _ _ _ _ _ _ _ E) as [? ?]; [done|done|]. split_and!; [done|done|by apply use_in_use].
Qed.

Lemma build_stack_code fuel argv argc e : match build_stack fuel argv argc e with (inl rc, _) => rc < 0 | _ => True end.
Proof.
  unfold build_stack. destruct (paging_create_mm e) as [[mm|] e1]; [|done]. destruct (elf_map_user_stack _) as [[rc ustk] e2].
  destruct (rc <? 0); [done|]. destruct (elf_build_argv_stack _ _ _ _ _) as [[rc' esp] m]. by destruct (rc' <? 0).
Qed.

Lemma slots_weaken n n' ss : slots_ok n ss -> n <= n' -> slots_ok n' ss.
Proof. intros H Hn. eapply Forall_impl; [exact H|]. cbv beta. intros s Hs Eu. specialize (Hs Eu). lia. Qed.
Lemma before_no_new k k' n : (forall j, 0 <= j < g_task_count k' -> id (slot k' j) < n) -> g_next_id k = n -> no_new (g_next_id k) k'.
Proof. intros H <- j Hj Hn. specialize (H j Hj). lia. Qed.

(** The program [path] started as task [tid], which waits in slot [i] of the
    table of [l'] with launch slot, image and address space. *)
Definition started fuel path argv argc l (tid i : Z) l' : Prop :=
  exists buf size eh rs e1 e2 mm old esp e3,
    load_image path (env (krn l)) = (inr (buf, size, eh, rs), e1) /\
    build_stack fuel argv argc e2 = (inr (mm, old, esp), e3) /\
    waiting (krn l') tid i /\
    (elf_launch_slot_take tid (slots l')).1 = Some (mk_launch false tid (e_entry eh) esp) /\
    Paging.elf_live (slot (krn l') i) = rs /\
    elf_backing (telf (slot (krn l') i)) = Some (buf, get_bytes (Elf.view (paging_switch_mm old e3)) buf (Z.to_nat size)) /\
    elf_backing_size (telf (slot (krn l') i)) = size /\
    mm_cr3 (slot (krn l') i) = page_align_down mm.

(** Running a program creates one task that finds its program, or leaves
    none behind. A request without waiting always returns, in a well-formed
    task table. On success it returns the number of a new task, ready and not
    yet run, whose image is the block read from the file with the regions
    collected from it, whose address space is the one the arguments were
    written to, and which will take a launch slot holding the entry point of
    the image and the stack pointer of the arguments. On failure the code is
    negative, every task the request created has ended and the launch slots
    in use are those there were before. *)
Theorem exec_correct fuel wfuel others path stdin_fd stdout_fd argv argc l :
  inv (krn l) -> g_next_id (krn l) < 2 ^ 31 -> slots_ok (g_next_id (krn l)) (slots l) ->
  exists rc l', elf_exec_with_stdio fuel wfuel others path 0 stdin_fd stdout_fd argv argc l = launched rc l' /\
    inv (krn l') /\ slots_ok (g_next_id (krn l')) (slots l') /\
    ((rc < 0 /\ no_new (g_next_id (krn l)) (krn l') /\ launches (slots l') = launches (slots l)) \/
     (rc = g_next_id (krn l) /\ exists i, started fuel path argv argc l rc i l')).
Proof.
  intros Hinv Hnx Hss. destruct l as [k ss]. cbn [krn slots] in *. set (n := g_next_id k) in *. unfold elf_exec_with_stdio. cbn [krn slots].
  pose proof (load_image_spec path (env k)) as Hli. destruct (load_image path (env k)) as [[rc|[[[buf size] eh] rs]] e1] eqn:Eli.
  { exists rc, (mk_loader (set_env e1 k) ss). split_and!; [done|by eapply same_view_inv; [apply env_same_view|]|done|]. left. split_and!; [done| |done].
    apply (before_no_new k _ n); [|done]. intros j Hj. by apply (to_ids _ (proj1 Hinv)). }
  destruct Hli as (Hsz & Hlen & Huse). set (name := match path_basename path with Some _ => _ | None => _ end). set (k0 := set_env e1 k).
  assert (inv k0) as Hinv0 by (by eapply same_view_inv; [apply env_same_view|]).
  destruct (create_spec elf_task_wrapper_entry 0 TASK_DEFAULT_QUANTUM name k0 (proj1 Hinv0) (proj2 Hinv0) Hnx) as (tid & k1 & Ecr & Ht1 & Hc1 & _ & _). rewrite Ecr.
  destruct (create_rest _ _ _ _ k0 tid k1 Hinv0 Hnx Ecr) as [Hfail _]. destruct (Z.ltb_spec tid 0) as [Hneg|Hpos].
  { destruct (Hfail Hneg) as [Hn Hids]. exists tid, (mk_loader (with_env (kfree buf) k1) ss). split_and!; [done|by eapply same_view_inv; [apply env_same_view|]|by eapply slots_weaken|].
    left. split_and!; [done| |done]. by apply (before_no_new k _ n). }
  destruct (create_waiting _ _ _ k0 tid k1 Hinv0 Hnx Ecr Hpos) as (Etid & Enx & Hw1). change (g_next_id k0) with n in Etid. set (i := g_task_count k1 - 1) in *. clear Hfail Ecr Ht1 Hc1.
  assert (slots_ok tid ss) as Hst by (by rewrite Etid).
  assert (forall rc after k2, rc < 0 -> waiting k2 tid i -> g_next_id k2 = tid + 1 -> exists rc' l', kill_and tid rc after (mk_loader k2 ss) = launched rc' l' /\ inv (krn l') /\
    slots_ok (g_next_id (krn l')) (slots l') /\ ((rc' < 0 /\ no_new n (krn l') /\ launches (slots l') = launches ss) \/
     (rc' = n /\ exists i, started fuel path argv argc (mk_loader k ss) rc' i l'))) as Hkill.
  { intros rc after k2 Hrc Hw2 En2. destruct (kill_and_spec k2 tid i rc after ss Hw2) as (k3 & -> & ? & ? & En3). do 2 eexists. split; [reflexivity|]. cbn [krn slots].
    split_and!; [done|eapply slots_weaken; [done|lia]|left; rewrite <- Etid; by split_and!]. }
  pose proof (build_stack_code fuel argv argc (env k1)) as Hbc. destruct (build_stack fuel argv argc (env k1)) as [[rc|[[mm old] esp]] e3] eqn:Ebs.
  { apply (Hkill rc (kfree buf) (set_env e3 k1)); [done|by apply waiting_env|done]. }
  set (k2 := set_env (paging_switch_mm old e3) k1). assert (waiting k2 tid i) as Hw2 by (by apply waiting_env).
  pose proof (adopt_slot k2 i (buf, get_bytes (Elf.view (env k2)) buf (Z.to_nat size)) size rs (wt_inv _ _ _ Hw2) ltac:(destruct Hw2; lia) Hlen) as (k3 & tail & Ead & S3 & E3).
  rewrite (wt_id _ _ _ Hw2) in Ead. unfold image_block. rewrite Ead. change (0 <? 0) with false. cbv iota. rewrite Huse in E3. rewrite (proj2 (Z.ltb_lt 0 size)) in E3 by (unfold sizeof_Ehdr in Hsz; lia).
  assert (waiting k3 tid i) as Hw3 by (apply (waiting_step k2); [done|by rewrite E3|done]).
  pose proof (assign_slot k3 i mm (wt_inv _ _ _ Hw3) ltac:(destruct Hw3; lia)) as Has. rewrite (wt_id _ _ _ Hw3) in Has. destruct (task_assign_mm tid mm k3) as [rc k4].
  destruct Has as (S4 & H4). assert (waiting k4 tid i) as Hw4 by (apply (waiting_step k3); [done|by destruct H4 as [(_ & _ & ->)|(_ & ->)]|done]).
  assert (g_next_id k4 = tid + 1) as En4 by (rewrite (sv_next _ _ S4), (sv_next _ _ S3); exact Enx).
  destruct H4 as [(-> & _ & E4)|(-> & E4)].
  { change (-1 <? 0) with true. cbv iota. apply (Hkill (-10) (kfree buf)); [done|by apply waiting_env|exact En4]. }
  change (0 <? 0) with false. cbv iota.
  destruct (start_program_spec (with_env (paging_release_mm mm) k4) tid i wfuel others stdin_fd stdout_fd (e_entry eh) esp ss (waiting_env _ _ _ _ Hw4) Hst) as (rc & l' & -> & En5 & H5).
  change (g_next_id (with_env (paging_release_mm mm) k4)) with (g_next_id k4) in En5.
  exists rc, l'. split; [done|]. destruct H5 as [(Hrc & Hi5 & Hn5 & Hl5 & Hs5)|(-> & Hw5 & Htk & Hs5 & Et5 & Em5)].
  - split_and!; [done|eapply slots_weaken; [done|lia]|left; rewrite <- Etid; by split_and!].
  - split_and!; [apply Hw5|eapply slots_weaken; [done|lia]|right]. split; [done|]. exists i, buf, size, eh, rs, e1, (env k1), mm, old, esp, e3.
    change (slot (with_env (paging_release_mm mm) k4) i) with (slot k4 i) in Et5, Em5. unfold Paging.elf_live. rewrite Et5, Em5, E4, E3.
    cbn [telf with_mm with_elf mm_cr3 elf_regions elf_region_count elf_backing elf_backing_size]. split_and!; try done.
    rewrite Z.min_l, Nat2Z.id by done. apply take_app_length.
Qed.
End exec.

(** ** The built-in program, run *)

(** "hello" in memory, as the loader reads it. *)
Definition hello_mem : mem := put_bytes 0x500000 test_elf_hello ∅.

Lemma elf_regions_correct_witness : elf_validate hello_mem 0x500000 137 = 0 /\
  exists r, elf_collect_lazy_regions hello_mem 0x500000 137 (ehdr_at hello_mem 0x500000) = (0, [r]) /\ region_ok 137 r /\ Task.el_start r = 0x08048000 /\ Task.el_end r = 0x08049000.
Proof.
  split; [vm_compute; reflexivity|]. exists (region_of (phdr_at hello_mem 0x500034)).
  assert (elf_collect_lazy_regions hello_mem 0x500000 137 (ehdr_at hello_mem 0x500000) = (0, [region_of (phdr_at hello_mem 0x500034)])) as E by (vm_compute; reflexivity).
  split; [exact E|]. split; [|split; vm_compute; reflexivity].
  destruct (elf_regions_correct hello_mem 0x500000 137 [region_of (phdr_at hello_mem 0x500034)]) as [_ Hok]; [done|done|by vm_compute|by vm_compute| |].
  - assert (loadable_headers hello_mem 0x500000 = [phdr_at hello_mem 0x500034]) as -> by (vm_compute; reflexivity). by repeat constructor.
  - specialize (Hok E). by apply Forall_cons in Hok as [? _].
Defined.

(** The same image with a file offset of 0xFFFFF000 and 0x1010 bytes in the
    file: the end of the segment wraps to 16, and the image of 137 bytes is
    accepted with a region whose bytes it does not have. *)
Definition wrapped_mem : mem := st32 (st32 (st32 hello_mem 0x500038 0xFFFFF000) 0x500044 0x1010) 0x500048 0x1010.
Example wrapped_segment_accepted :
  exists r, elf_collect_lazy_regions wrapped_mem 0x500000 137 (ehdr_at wrapped_mem 0x500000) = (0, [r]) /\ Task.el_file_offset r = 0xFFFFF000 /\ ~ region_ok 137 r.
Proof.
  exists (region_of (phdr_at wrapped_mem 0x500034)). split; [vm_compute; reflexivity|]. split; [by vm_compute|].
  intros [_ _ _ _ _ [_ R] _]. vm_compute in R. by apply R.
Qed.

(** A kernel whose rest is its memory: the image block is at 0x500000, stacks
    are at 0x200000, and the only file is "hello". *)
#[local] Instance flat_env : Task.Env mem := {|
  Task.kmalloc n e := (if n =? 137 then 0x500000 else 0x200000, e); Task.kfree _ e := e; Task.store32 a v e := st32 e a v; Task.vfs_open_node _ _ e := (0, e);
  Task.vfs_close_node _ e := e; Task.node_type _ _ := 1; Task.phys_alloc_frame e := (0, e); Task.phys_free_frame _ e := e; Task.zero_frame _ e := e;
  Task.paging_current_cr3 _ := 0x1000; Task.paging_retain_mm _ e := e; Task.paging_release_mm _ e := e; Task.paging_switch_mm _ e := e;
  Task.paging_fork_current_cow e := (None, e); Task.paging_unmap_user_range _ _ e := e; Task.paging_access_ok _ _ _ := true; Task.tss_set_kernel_stack _ e := e;
  Task.net_service_tick e := e; Task.blockdev_pump _ e := e; Task.task_trampoline := 0x100; Task.idle_thread := 0x200; Task.fork_child_entry := 0x300 |}.
#[local] Instance flat_loader : Loader mem := {|
  view e := e; set_view m _ := m; vfs_namei p e := (if bool_decide (p = letters "/hello"%string) then 1 else 0, e); node_size _ _ := 137;
  vfs_read _ _ _ e := (137, test_elf_hello, e); paging_create_mm e := (Some 0x9000, e); paging_map_user _ e := (0, e); elf_task_wrapper_entry := 0x400 |}.

Definition unbooted : Task.kernel mem := Task.mk_k (replicate (Z.to_nat Task.TASK_MAX) Task.no_task) 0 0 0 0 [] args_mem.
Definition flat_boot : Task.kernel mem := default unbooted (Task.tasking_initialize unbooted).
Definition idle_loader : loader mem := mk_loader flat_boot (replicate (Z.to_nat Task.TASK_MAX) no_launch).
Definition run_hello (l : loader mem) : launch mem := elf_exec_with_stdio 10 10 (fun k => k) (Some (letters "/hello"%string)) 0 (-1) (-1) 0x1020 2 l.

Lemma flat_boot_inv : TaskSpec.inv flat_boot.
Proof. apply (TaskSpec.boot_inv unbooted); [done|vm_compute; reflexivity|by vm_compute]. Qed.

Lemma exec_correct_witness : exists l' i, run_hello idle_loader = launched 2 l' /\ started 10 (Some (letters "/hello"%string)) 0x1020 2 idle_loader 2 i l'.
Proof.
  destruct (exec_correct 10 10 (fun k => k) (Some (letters "/hello"%string)) (-1) (-1) 0x1020 2 idle_loader) as (rc & l' & E & _ & _ & H);
    [apply flat_boot_inv|by vm_compute|by repeat constructor|].
  assert (match run_hello idle_loader with launched rc _ => rc | _ => 0 end = 2) as E2 by (vm_compute; reflexivity). unfold run_hello in E2. rewrite E in E2. subst rc.
  destruct H as [(Hneg & _)|(_ & i & H)]; [exfalso; clear -Hneg; lia|]. exists l', i. unfold run_hello. split; [exact E|exact H].
Defined.

(** A task killed before it first runs leaves its launch slot in use. *)
Example killed_launch_stays :
  match run_hello idle_loader with
  | launched tid l' =>
      let '(rc, k') := Task.task_kill tid (krn l') in
      rc = Some 0 /\ Task.tstate (Task.slot k' 1) = Task.TASK_DEAD /\ length (launches (slots l')) = 1%nat
  | _ => False
  end.
Proof. vm_compute. split; [reflexivity|]. split; reflexivity. Qed.
End ElfSpec.
