(* ===== verification/PagingFork.v ===== *)
(** * Correctness of paging: fork and release

    A fork gives the child the parent's pages, copy on write; releasing an
    address space gives back what it used. *)

From S2P Require Import Prelude Mem Pmm Ring BlockDev VfsPath Vfs Libc Task Paging PagingSpec.

Module PagingFork.
Import Mem Pmm PmmFacts PmmRefine Paging PagingSpec.

Section fork.
Context {D : Type} `{Outside D}.
Implicit Types s : paging D.

(** ** New address spaces *)

Lemma free_fm s a : pmm_wf (frames s) -> 0 <= a < 2 ^ 32 -> pmm_wf (frames (frame_free a s)) /\ fm (frame_free a s) = delete (a / 4096) (fm s).
Proof. intros Hp Ha. exact (free_refines a (frames s) Hp Ha). Qed.
Lemma ref_fm s a n : pmm_wf (frames s) -> 0 <= a < 2 ^ 32 -> fm s !! (a / 4096) = Some n -> n < 0xFFFF ->
  pmm_wf (frames (frame_ref a s)) /\ fm (frame_ref a s) = <[a / 4096 := n + 1]> (fm s).
Proof.
  intros Hp Ha Hn Hlt. destruct (ref_refines a (frames s) Hp Ha) as [Hw E]. unfold fm, frame_ref in *. cbn [frames set_frames]. split; [exact Hw|]. rewrite E.
  apply map_eq. intros f. destruct (decide (f = a / 4096)) as [->|Hne].
  - rewrite lookup_alter_eq, lookup_insert_eq, Hn. simpl. by rewrite (proj2 (Z.eqb_neq n 0xFFFF)) by lia.
  - by rewrite lookup_alter_ne, lookup_insert_ne by done.
Qed.

Lemma zero_entry m a i : a mod 4096 = 0 -> 0 <= i < 1024 -> entry (memset m a 0 (Z.to_nat PAGE_SIZE)) a i = 0.
Proof.
  intros Ha Hi. unfold entry, ld32. rewrite !ld8_memset_in by (rewrite page_bytes; lia). reflexivity.
Qed.
Lemma memset_page m a b : a mod 4096 = 0 -> page_of b <> a -> ld8 (memset m a 0 (Z.to_nat PAGE_SIZE)) b = ld8 m b.
Proof. intros Ha Hb. apply ld8_memset_ne. rewrite page_bytes. rewrite page_of_eq in Hb. zlia. Qed.

(** A zeroed frame nobody uses, or no frame. *)
Lemma alloc_zeroed_cases s : pmm_wf (frames s) ->
  let '(pa, s1) := alloc_zeroed_frame s in
  pmm_wf (frames s1) /\ s1 = set_ram (ram s1) (set_frames (frames s1) s) /\ pa = (frame_alloc s).1 /\
  ((pa = 0 /\ ram s1 = ram s /\ (forall f n, fm s !! f = Some n -> fm s1 !! f = Some n) /\ (is_Some (fm s !! 0) -> fm s1 = fm s)) \/
   (is_frame pa /\ fm s !! (pa / 4096) = None /\ fm s1 = <[pa / 4096 := 1]> (fm s) /\
    (forall b, page_of b <> pa -> ld8 (ram s1) b = ld8 (ram s) b) /\ (forall j, 0 <= j < 1024 -> entry (ram s1) pa j = 0))).
Proof.
  intros Hp. unfold alloc_zeroed_frame. destruct (frame_alloc s) as [pa s1] eqn:E. destruct (frame_alloc_cases s pa s1 Hp E) as (Hp1 & Es & Hg & Hf).
  destruct (Z.eqb_spec pa 0) as [->|Hne].
  - split_and!; [exact Hp1|by rewrite Es|done|]. left. split_and!; [done|by rewrite Es|exact Hg|]. intros [n Hn].
    unfold fm in *. unfold frame_alloc in E. destruct (phys_alloc_frame_cases (frames s) Hp) as [(f & Hf' & Hu & _ & E')|[_ E']]; rewrite E' in E; injection E as E1.
    + exfalso. assert (f = 0) as -> by lia. pose proof (proj2 (frames_of_None (frames s) 0 Hf') Hu). congruence.
    + by rewrite <- E1.
  - destruct (Hf Hne) as (Ha & Hnone & Efm). split_and!; [exact Hp1|by rewrite Es|done|]. right. destruct Ha as [Ha1 Ha2]. split_and!; [split; [exact Ha1|lia]|exact Hnone|exact Efm| |].
    + intros b Hb. cbn [ram set_ram]. rewrite memset_page by done. by rewrite Es.
    + intros j Hj. cbn [ram set_ram]. by apply zero_entry.
Qed.

(** *** Slots *)

Lemma find_mm_spec (p : mm_slot -> bool) l i : 0 <= i ->
  (find_mm p l i = -1 /\ (forall k x, l !! k = Some x -> p x = false)) \/
  (exists k x, find_mm p l i = i + Z.of_nat k /\ l !! k = Some x /\ p x = true).
Proof.
  revert i. induction l as [|y l IH]; intros i Hi; cbn [find_mm]; [left; split; [done|]; intros k x; by rewrite lookup_nil|].
  destruct (p y) eqn:E; [right; exists 0%nat, y; split_and!; [lia|done|done]|].
  destruct (IH (i + 1) ltac:(lia)) as [[E1 E2]|(k & x & E1 & E2 & E3)].
  - left. split; [done|]. intros [|k] x; [by intros [= <-]|apply E2].
  - right. exists (S k), x. split_and!; [lia|done|done].
Qed.

Lemma filter_insert_perm (p : mm_slot -> bool) l k x y : l !! k = Some x -> p x = false -> p y = true ->
  List.filter p (<[k := y]> l) ≡ₚ y :: List.filter p l.
Proof.
  revert k. induction l as [|z l IH]; intros k Hk Hx Hy; [done|]. destruct k as [|k]; cbn [insert list_insert List.filter].
  - injection Hk as ->. by rewrite Hx, Hy.
  - change (list_insert k y l) with (<[k := y]> l). destruct (p z); rewrite (IH k) by done; [apply perm_swap|done].
Qed.

Definition live (kernel : Z) (x : mm_slot) : bool := mm_used x && negb (mm_cr3 x =? kernel).
Lemma spaces_insert s k x y : g_mm_slots s !! k = Some x -> live (g_kernel_cr3 s) x = false -> live (g_kernel_cr3 s) y = true ->
  spaces (set_mm_slots (<[k := y]> (g_mm_slots s)) s) ≡ₚ mm_cr3 y :: spaces s.
Proof. intros Hk Hx Hy. unfold spaces. cbn [g_mm_slots g_kernel_cr3 set_mm_slots]. by rewrite (filter_insert_perm _ _ k x y). Qed.
Lemma spaces_clear s k x : g_mm_slots s !! k = Some x -> live (g_kernel_cr3 s) x = true ->
  spaces s ≡ₚ mm_cr3 x :: spaces (set_mm_slots (<[k := no_mm]> (g_mm_slots s)) s).
Proof.
  intros Hk Hx. set (s1 := set_mm_slots _ s). assert (g_mm_slots s1 !! k = Some no_mm) as H1 by (apply list_lookup_insert_eq; by eapply lookup_lt_Some).
  rewrite <- (spaces_insert s1 k no_mm x H1 eq_refl Hx). unfold s1. cbn [g_mm_slots set_mm_slots]. rewrite list_insert_insert_eq, list_insert_id by done. done.
Qed.
Lemma slot_in_spaces s k x : g_mm_slots s !! k = Some x -> live (g_kernel_cr3 s) x = true -> mm_cr3 x ∈ spaces s.
Proof. intros Hk Hx. rewrite (spaces_clear s k x Hk Hx). by left. Qed.
(** An address space has one slot. *)
Lemma slot_unique s k x k' x' : NoDup (spaces s) -> g_mm_slots s !! k = Some x -> g_mm_slots s !! k' = Some x' ->
  live (g_kernel_cr3 s) x = true -> live (g_kernel_cr3 s) x' = true -> mm_cr3 x' = mm_cr3 x -> k' = k.
Proof.
  intros Hn Hk Hk' Hx Hx' E. destruct (decide (k' = k)) as [|Hne]; [done|exfalso]. rewrite (spaces_clear s k x) in Hn by done. apply NoDup_cons in Hn as [Hn _]. apply Hn.
  rewrite <- E. set (s1 := set_mm_slots _ s). apply (slot_in_spaces s1 k' x'); [|done]. unfold s1. cbn [g_mm_slots set_mm_slots]. by rewrite list_lookup_insert_ne.
Qed.

(** *** Creating an address space *)

Lemma clone_spec n i src a s : is_frame a -> 0 <= i -> i + Z.of_nat n <= 1024 ->
  let s' := clone_entries n i src a s in
  s' = set_ram (ram s') s /\ (forall b, page_of b <> a -> ld8 (ram s') b = ld8 (ram s) b) /\
  ((forall j, 0 <= j < 1024 -> user_pt (ram s) a j = None) -> forall j, 0 <= j < 1024 -> user_pt (ram s') a j = None).
Proof.
  intros Ha. revert i s. induction n as [|n IH]; intros i s Hi Hn; cbn [clone_entries]; [split_and!; [by destruct s|done|done]|]. cbv zeta.
  set (pde := entry (ram s) src i). set (s1 := if _ : bool then s else _).
  assert (s1 = set_ram (ram s1) s /\ (forall b, page_of b <> a -> ld8 (ram s1) b = ld8 (ram s) b) /\
    ((forall j, 0 <= j < 1024 -> user_pt (ram s) a j = None) -> forall j, 0 <= j < 1024 -> user_pt (ram s1) a j = None)) as (A1 & A2 & A3).
  { unfold s1. destruct (negb (is_set pde PTE_P) || is_set pde PTE_U) eqn:E; [split_and!; [by destruct s|done|done]|]. destruct Ha as [Ha _]. bool_to_prop. split_and!; [done| |].
    - intros b Hb. cbn [ram set_entry set_ram]. apply ld8_st32_page; [done|lia|done].
    - intros Hnone j Hj. unfold user_pt. cbn [ram set_entry set_ram]. rewrite entry_st32; [|done|done|lia|done|apply entry_range].
      case_decide; [|by apply Hnone]. unfold is_user. by rewrite H1, andb_false_r. }
  clearbody s1. destruct (IH (i + 1) s1) as (B1 & B2 & B3); [lia|lia|]. split_and!.
  - rewrite B1 at 1. rewrite A1. by destruct s.
  - intros b Hb. by rewrite B2, A2.
  - intros Hnone. apply B3, A3, Hnone.
Qed.

Lemma dir_entries : exists n, clone_entries 1024 = clone_entries (D:=D) n /\ Z.of_nat n = 1024.
Proof. by exists 1024%nat. Qed.
Lemma clone_kernel_spec a s : is_frame a ->
  let s' := clone_kernel_mappings a s in
  s' = set_ram (ram s') s /\ (forall b, page_of b <> a -> ld8 (ram s') b = ld8 (ram s) b) /\
  ((forall j, 0 <= j < 1024 -> user_pt (ram s) a j = None) -> forall j, 0 <= j < 1024 -> user_pt (ram s') a j = None).
Proof.
  intros Ha. unfold clone_kernel_mappings. destruct dir_entries as (n & -> & Hn). apply clone_spec; [done|lia|lia].
Qed.

Definition kernel_live s : Prop := is_Some (fm s !! (g_kernel_cr3 s / 4096)).

(** What a new address space is. *)
Record created s s' (a : Z) : Prop := {
  cr_wf : wf s';
  cr_frame : is_frame a;
  cr_fresh : fm s !! (a / 4096) = None;
  cr_fm : fm s' = <[a / 4096 := 1]> (fm s);
  cr_spaces : spaces s' ≡ₚ a :: spaces s;
  cr_slot : exists k, g_mm_slots s' !! k = Some (mk_mm a 1 true);
  cr_empty : forall i, 0 <= i < 1024 -> user_pt (ram s') a i = None;
  cr_byte : forall b, page_of b <> a -> ld8 (ram s') b = ld8 (ram s) b;
  cr_kernel : g_kernel_cr3 s' = g_kernel_cr3 s;
  cr_current : g_current_cr3 s' = g_current_cr3 s;
  cr_swap : g_swap s' = g_swap s
}.
(** Nothing an address space can see has changed. *)
Record untouched s s' : Prop := {
  un_wf : wf s';
  un_spaces : spaces s' ≡ₚ spaces s;
  un_view : forall c va, c ∈ spaces s -> 0 <= va < 2 ^ 32 -> uview (ram s') c va = uview (ram s) c va;
  un_fm : is_Some (fm s !! 0) -> fm s' = fm s;
  un_kernel : g_kernel_cr3 s' = g_kernel_cr3 s;
  un_current : g_current_cr3 s' = g_current_cr3 s
}.

(** The reads of the user pages of [cs] after a change of a frame none of
    them uses. *)
Lemma fresh_view m m' cs F a c va : pages_wf m cs F -> is_frame a -> F !! (a / 4096) = None -> (forall b, page_of b <> a -> ld8 m' b = ld8 m b) ->
  c ∈ cs -> 0 <= va < 2 ^ 32 -> uview m' c va = uview m c va.
Proof.
  intros Hp Ha Hn Hm Hc Hva. apply (off_view m m' cs a (pw_tables _ _ _ Hp) (fresh_not_table _ _ _ a Hp Hn) Hm c va Hc Hva).
  intros pte E. by apply (fresh_unmapped _ _ _ _ Hp Ha Hn c (va / 4096) pte Hc (va_page_number va Hva)).
Qed.
Lemma fm_nonneg s f n : pmm_wf (frames s) -> fm s !! f = Some n -> 0 <= n.
Proof. intros Hp Hn. pose proof (fm_pos _ _ _ Hp Hn). lia. Qed.
Lemma insert_fresh (F : gmap Z Z) f v g n : F !! f = None -> F !! g = Some n -> <[f := v]> F !! g = Some n.
Proof. intros Hf Hg. rewrite lookup_insert_ne; [done|]. intros ->. congruence. Qed.

Lemma create_mm_spec s : wf s -> kernel_live s ->
  let '(rc, a, s') := paging_create_mm s in
  (rc = 0 /\ created s s' a) \/ (rc < 0 /\ untouched s s').
Proof.
  intros [Hpm Hw] [kn Hkl]. unfold paging_create_mm. destruct (Z.eqb_spec (g_kernel_cr3 s) 0); [right; split; [lia|by split]|].
  pose proof (alloc_zeroed_cases s Hpm) as Haz. destruct (alloc_zeroed_frame s) as [a s1]. destruct Haz as (Hpm1 & Es1 & _ & Hcase).
  assert (spaces s1 = spaces s /\ g_kernel_cr3 s1 = g_kernel_cr3 s /\ g_current_cr3 s1 = g_current_cr3 s /\ g_swap s1 = g_swap s) as (Esp1 & Ek1 & Ec1 & Ew1) by (rewrite Es1; done).
  destruct Hcase as [(-> & Er1 & Hg & Hfm)|(Ha & Hnone & Efm1 & Hb1 & Hz1)].
  { rewrite Z.eqb_refl. right. split; [lia|]. split; [split; [done|]|rewrite Esp1; reflexivity|intros; by rewrite Er1|exact Hfm|exact Ek1|exact Ec1].
    rewrite Esp1, Er1. apply (grow_wf _ _ (fm s)); [done|done|]. intros f n'. by apply fm_nonneg. }
  pose proof Ha as [Ha1 Ha2]. rewrite (proj2 (Z.eqb_neq a 0)) by lia.
  generalize (clone_kernel_spec a s1 Ha). cbv zeta. generalize (clone_kernel_mappings a s1). intros s2 (Es2 & Hb2 & He2).
  assert (forall b, page_of b <> a -> ld8 (ram s2) b = ld8 (ram s) b) as Hb by (intros b Hb; by rewrite Hb2, Hb1).
  assert (forall i, 0 <= i < 1024 -> user_pt (ram s2) a i = None) as He by (apply He2; intros j Hj; unfold user_pt; by rewrite Hz1).
  assert (frames s2 = frames s1 /\ spaces s2 = spaces s /\ g_kernel_cr3 s2 = g_kernel_cr3 s /\ g_current_cr3 s2 = g_current_cr3 s /\ g_swap s2 = g_swap s) as (Ef2 & Esp2 & Ek2 & Ec2 & Ew2)
    by (rewrite Es2; done).
  assert (fm s2 = <[a / 4096 := 1]> (fm s)) as Efm2 by (unfold fm at 1; by rewrite Ef2).
  assert (a <> g_kernel_cr3 s) as Hak by (intros E; rewrite <- E in Hkl; congruence).
  unfold mm_alloc_slot. destruct (find_mm_spec (fun x => negb (mm_used x)) (g_mm_slots s2) 0 ltac:(lia)) as [[E1 _]|(k & x & E1 & E2 & E3)]; rewrite E1.
  - change (-1 <? 0) with true. cbv iota. right. split; [lia|]. destruct (free_fm s2 a) as [Hpm3 Efm3]; [by rewrite Ef2|lia|].
    assert (fm (frame_free a s2) = fm s) as Efm by (rewrite Efm3, Efm2; by rewrite delete_insert_id).
    split; [split; [done|]| | | | |]; [|change (spaces (frame_free a s2)) with (spaces s2); rewrite Esp2; reflexivity| |intros _; exact Efm|exact Ek2|exact Ec2].
    + change (spaces (frame_free a s2)) with (spaces s2). rewrite Esp2, Efm. change (ram (frame_free a s2)) with (ram s2).
      apply (off_wf (ram s) (ram s2) (spaces s) a (pw_tables _ _ _ Hw) (fresh_not_table _ _ _ a Hw Hnone) Hb (fm s)); [done|done|]. intros f n'. by apply fm_nonneg.
    + intros c va Hc Hva. by apply (fresh_view (ram s) (ram s2) (spaces s) (fm s) a).
  - rewrite (proj2 (Z.ltb_ge (0 + Z.of_nat k) 0)) by lia. cbv iota. rewrite (proj2 (Z.ltb_ge (0 + Z.of_nat k) 0)) by lia. left. split; [done|]. apply negb_true_iff in E3.
    unfold put_mm. replace (Z.to_nat (0 + Z.of_nat k)) with k by lia.
    set (y := mk_mm a 1 true). assert (spaces (set_mm_slots (<[k := y]> (g_mm_slots s2)) s2) ≡ₚ a :: spaces s) as Hsp.
    { rewrite <- Esp2. apply (spaces_insert s2 k x y); [done|unfold live; by rewrite E3|]. unfold live. rewrite Ek2. cbn. by rewrite (proj2 (Z.eqb_neq _ _)) by done. }
    set (s3 := set_mm_slots _ s2) in *.
    split; [split; [by rewrite <- Ef2 in Hpm1|]|exact Ha|exact Hnone|exact Efm2|exact Hsp| |exact He|exact Hb|exact Ek2|exact Ec2|exact Ew2].
    + apply (pages_wf_perm _ (a :: spaces s)); [by symmetry|]. apply (add_space_wf (ram s) (ram s2) (spaces s) (fm s) a Hw Ha Hnone Hb He); change (fm s3) with (fm s2); rewrite Efm2.
      * intros f n'. by apply insert_fresh.
      * intros f n' Hn'. rewrite <- Efm2 in Hn'. apply (fm_nonneg s2 f); [by rewrite Ef2|done].
      * rewrite lookup_insert_eq. by exists 1.
    + exists k. cbn. apply list_lookup_insert_eq. by eapply lookup_lt_Some.
Qed.

(** ** Fork *)

(** What becomes of an entry in the parent and in the child. *)
Definition fork_pte (shared : bool) (pte : Z) : Z := if negb shared && is_set pte (Z.lor PTE_W PTE_COW) then Z.land (Z.lor pte PTE_COW) (Z.lnot PTE_W) else pte.
Definition fork_parent (shared : bool) (pte : Z) : Z := if is_user pte then fork_pte shared pte else pte.
Definition fork_child (shared : bool) (pte : Z) : Z := if is_user pte then fork_pte shared pte else if pte_is_swapped pte then pte else 0.

Lemma set_W_COW v : is_set v (Z.lor PTE_W PTE_COW) = Z.testbit v 1 || Z.testbit v 9.
Proof.
  unfold is_set. change (Z.lor PTE_W PTE_COW) with (Z.lor (2 ^ 1) (2 ^ 9)). rewrite Z.land_lor_distr_r.
  destruct (Z.eqb_spec (Z.lor (Z.land v (2 ^ 1)) (Z.land v (2 ^ 9))) 0) as [E|E]; cbn [negb].
  - apply Z.lor_eq_0_iff in E as [E1 E2]. pose proof (is_set_bit v 1 ltac:(lia)) as F1. pose proof (is_set_bit v 9 ltac:(lia)) as F2. unfold is_set in F1, F2.
    rewrite E1 in F1. rewrite E2 in F2. by rewrite <- F1, <- F2.
  - pose proof (is_set_bit v 1 ltac:(lia)) as F1. pose proof (is_set_bit v 9 ltac:(lia)) as F2. unfold is_set in F1, F2. rewrite <- F1, <- F2.
    destruct (Z.eqb_spec (Z.land v (2 ^ 1)) 0) as [E1|], (Z.eqb_spec (Z.land v (2 ^ 9)) 0) as [E2|]; try done. by rewrite E1, E2 in E.
Qed.
Lemma fork_pte_bits sh pte : 0 <= pte < 2 ^ 32 ->
  0 <= fork_pte sh pte < 2 ^ 32 /\ page_of (fork_pte sh pte) = page_of pte /\ is_user (fork_pte sh pte) = is_user pte /\
  (sh = false -> is_set (fork_pte sh pte) PTE_W = false) /\ (is_set pte PTE_W = true -> sh = false -> is_set (fork_pte sh pte) PTE_COW = true).
Proof.
  intros Hp. unfold fork_pte. rewrite set_W_COW. destruct (negb sh && (Z.testbit pte 1 || Z.testbit pte 9)) eqn:E.
  - assert (forall n, 0 <= n -> Z.testbit (Z.land (Z.lor pte PTE_COW) (Z.lnot PTE_W)) n = (Z.testbit pte n || (n =? 9)) && negb (n =? 1)) as Hb.
    { intros n Hn. rewrite Z.land_spec, Z.lor_spec, Z.lnot_spec by lia. change PTE_W with (2 ^ 1). change PTE_COW with (2 ^ 9). rewrite !Z.pow2_bits_eqb by lia.
      by rewrite (Z.eqb_sym 1), (Z.eqb_sym 9). }
    split_and!.
    + apply land_word, lor_word; [done|by unfold PTE_COW].
    + apply land_word, lor_word; [done|by unfold PTE_COW].
    + apply page_of_bits. intros n Hn. rewrite Hb by lia. rewrite (proj2 (Z.eqb_neq n 1)), (proj2 (Z.eqb_neq n 9)) by lia. by rewrite orb_false_r, andb_true_r.
    + unfold is_user. rewrite !set_P, !set_U, !Hb by lia. by rewrite !orb_false_r, !andb_true_r.
    + intros _. rewrite set_W, Hb by lia. apply andb_false_r.
    + intros _ _. rewrite set_COW, Hb by lia. by rewrite orb_true_r.
  - split_and!; [lia|lia|done|done| |].
    + intros ->. rewrite set_W. cbn [negb andb] in E. by apply orb_false_iff in E as [-> _].
    + intros Hw ->. rewrite set_W in Hw. cbn [negb andb] in E. by rewrite Hw in E.
Qed.
Lemma is_user_0 : is_user 0 = false.
Proof. reflexivity. Qed.
Lemma fork_child_user sh pte : 0 <= pte < 2 ^ 32 -> is_user (fork_child sh pte) = is_user pte.
Proof.
  intros Hp. unfold fork_child. destruct (is_user pte) eqn:E; [by rewrite (proj1 (proj2 (proj2 (fork_pte_bits sh pte Hp))))|].
  by destruct (pte_is_swapped pte).
Qed.
Lemma fork_parent_user sh pte : 0 <= pte < 2 ^ 32 -> is_user (fork_parent sh pte) = is_user pte.
Proof. intros Hp. unfold fork_parent. destruct (is_user pte) eqn:E; [by rewrite (proj1 (proj2 (proj2 (fork_pte_bits sh pte Hp))))|done]. Qed.
Lemma swapped_not_user pte : pte_is_swapped pte = true -> is_user pte = false.
Proof. unfold pte_is_swapped, is_user. intros E. bool_to_prop. by rewrite H0. Qed.

(** One count below another, strictly. *)
Lemma countZ_le p q n : (forall i, 0 <= i < Z.of_nat n -> p i = true -> q i = true) -> countZ p n <= countZ q n.
Proof.
  induction n as [|n IH]; intros Hpq; [done|]. cbn [countZ]. assert (countZ p n <= countZ q n) by (apply IH; intros; apply Hpq; [lia|done]).
  specialize (Hpq (Z.of_nat n) ltac:(lia)). destruct (p (Z.of_nat n)); [rewrite Hpq by done; lia|]. destruct (q (Z.of_nat n)); simpl; lia.
Qed.
Lemma countZ_lt p q n i : (forall j, 0 <= j < Z.of_nat n -> p j = true -> q j = true) -> 0 <= i < Z.of_nat n -> p i = false -> q i = true -> countZ p n < countZ q n.
Proof.
  intros Hpq Hi Hp Hq. set (p' := fun j => if j =? i then true else p j).
  assert (countZ p' n = countZ p n + 1) as E.
  { rewrite (countZ_update_below p p' i n Hi); [unfold p'; rewrite Z.eqb_refl, Hp; simpl; lia|]. intros j Hj Hne. unfold p'. by rewrite (proj2 (Z.eqb_neq _ _)) by done. }
  assert (countZ p' n <= countZ q n); [|lia]. apply countZ_le. intros j Hj. unfold p'. destruct (Z.eqb_spec j i) as [->|]; [done|by apply Hpq].
Qed.

(** The state between two pages of the loops. [s0] is the state after the
    creation of the child [a]; pages below [K] are done,
    and the child has tables below [T] only. *)
Record fork_inv s0 (sh : Z -> bool) (c a T K : Z) s : Prop := {
  fi_pmm : pmm_wf (frames s);
  fi_wf : pages_wf (ram s) (spaces s0) (fm s);
  fi_slots : g_mm_slots s = g_mm_slots s0;
  fi_kernel : g_kernel_cr3 s = g_kernel_cr3 s0;
  fi_current : g_current_cr3 s = g_current_cr3 s0;
  fi_done : forall k, page_number k -> k < K ->
    pte_at (ram s) c k = fork_parent (sh (k * 4096)) <$> pte_at (ram s0) c k /\ pte_at (ram s) a k = fork_child (sh (k * 4096)) <$> pte_at (ram s0) c k;
  fi_todo : forall k, page_number k -> K <= k -> pte_at (ram s) c k = pte_at (ram s0) c k /\ (forall pte, pte_at (ram s) a k = Some pte -> pte = 0);
  fi_other : forall c' k, c' ∈ spaces s0 -> c' <> c -> c' <> a -> page_number k -> pte_at (ram s) c' k = pte_at (ram s0) c' k;
  fi_pt : forall i, 0 <= i < 1024 -> user_pt (ram s) c i = user_pt (ram s0) c i;
  fi_child : forall i, 0 <= i < 1024 -> T <= i -> user_pt (ram s) a i = None;
  fi_byte : forall b, ~ is_table (ram s) (spaces s0) (page_of b) -> ld8 (ram s) b = ld8 (ram s0) b;
  fi_fm : forall f n, 0 <= f < NPAGES -> fm s0 !! f = Some n -> fm s !! f = Some (n + cnt (ram s) a (f * 4096));
  fi_new : forall f n, fm s !! f = Some n -> fm s0 !! f = None -> exists i, 0 <= i < 1024 /\ user_pt (ram s) a i = Some (f * 4096);
  fi_fresh : forall i pt, 0 <= i < 1024 -> user_pt (ram s) a i = Some pt -> fm s0 !! (pt / 4096) = None
}.

Section fork_loops.
Context (s0 : paging D) (sh : Z -> bool) (c a : Z).
Context (Hc : c ∈ spaces s0) (Ha : a ∈ spaces s0) (Hca : c <> a).
(** Counts do not saturate. *)
Context (Hroom : forall f n, 0 <= f < NPAGES -> fm s0 !! f = Some n -> n + cnt (ram s0) c (f * 4096) <= 0xFFFF).
Notation cs := (spaces s0).

(** Page [k] done, whatever was written. *)
Lemma fork_step T k s s' pte :
  fork_inv s0 sh c a T k s -> page_number k -> pte_at (ram s) c k = Some pte -> pmm_wf (frames s') -> pages_wf (ram s') cs (fm s') ->
  g_mm_slots s' = g_mm_slots s -> g_kernel_cr3 s' = g_kernel_cr3 s -> g_current_cr3 s' = g_current_cr3 s ->
  (forall c' k', c' ∈ cs -> page_number k' -> (c', k') <> (c, k) -> (c', k') <> (a, k) -> pte_at (ram s') c' k' = pte_at (ram s) c' k') ->
  pte_at (ram s') c k = Some (fork_parent (sh (k * 4096)) pte) -> pte_at (ram s') a k = Some (fork_child (sh (k * 4096)) pte) ->
  (forall c' i, c' ∈ cs -> 0 <= i < 1024 -> user_pt (ram s') c' i = user_pt (ram s) c' i) ->
  (forall b, ~ is_table (ram s') cs (page_of b) -> ld8 (ram s') b = ld8 (ram s) b) ->
  (forall f n, fm s !! f = Some n -> fm s' !! f = Some (n + Z.b2z (is_user pte && (page_of pte =? f * 4096)))) ->
  (forall f, fm s !! f = None -> fm s' !! f = None) ->
  fork_inv s0 sh c a T (k + 1) s'.
Proof.
  intros [I1 I2 I3 I4 I5 I6 I7 I8 I9 I10 I11 I12 I13 I14] Hk Hpte H1 H2 H3 H4 H5 Ho Hp Hch Hpt Hby Hfm Hnew.
  destruct (I7 k Hk ltac:(lia)) as [E0 Ez]. rewrite Hpte in E0. pose proof (pte_at_range _ _ _ _ Hpte) as Hrng.
  assert (forall t, is_table (ram s') cs t <-> is_table (ram s) cs t) as Htab.
  { intros t. split; (intros [Ht|(c' & i & Hc' & Hi & E)]; [by left|right; exists c', i; split_and!; try done; try lia]); [by rewrite <- Hpt|by rewrite Hpt]. }
  assert (forall f, cnt (ram s') a (f * 4096) = cnt (ram s) a (f * 4096) + Z.b2z (is_user pte && (page_of pte =? f * 4096))) as Hcnt.
  { intros f. unfold cnt. rewrite (countZ_update_below (maps_to (ram s) a (f * 4096)) (maps_to (ram s') a (f * 4096)) k).
    - assert (maps_to (ram s) a (f * 4096) k = false) as ->.
      { unfold maps_to, user_pte. destruct (pte_at (ram s) a k) as [p|] eqn:Ep; [|done]. by rewrite (Ez p). }
      assert (maps_to (ram s') a (f * 4096) k = is_user pte && (page_of pte =? f * 4096)) as ->; [|cbn [Z.b2z]; lia].
      unfold maps_to, user_pte. rewrite Hch. cbn [present]. rewrite fork_child_user by done. unfold fork_child. destruct (is_user pte); [|done].
      by rewrite (proj1 (proj2 (fork_pte_bits (sh (k * 4096)) pte Hrng))).
    - rewrite of_npages. exact Hk.
    - intros j Hj Hne. unfold maps_to, user_pte. rewrite Ho; [done|done|unfold page_number; by rewrite <- of_npages|congruence|congruence]. }
  split; [exact H1|exact H2|congruence|congruence|congruence|..].
  - intros k' Hk' Hlt. destruct (decide (k' = k)) as [->|Hne]; [by rewrite Hp, Hch, <- E0|]. rewrite !Ho by (done || congruence). apply I6; [done|lia].
  - intros k' Hk' Hge. rewrite !Ho by (done || (let E := fresh in intros E; injection E; lia)). apply I7; [done|lia].
  - intros c' k' H6 H7 H8 H9. rewrite Ho by (done || congruence). by apply I8.
  - intros i Hi. rewrite Hpt by done. by apply I9.
  - intros i Hi Hge. rewrite Hpt by done. by apply I10.
  - intros b Hb. rewrite Hby by done. apply I11. by rewrite <- Htab.
  - intros f n Hf Hn. rewrite Hcnt. rewrite (Hfm _ _ (I12 f n Hf Hn)). f_equal. lia.
  - intros f n Hn Hn0. destruct (fm s !! f) as [n'|] eqn:E; [|rewrite Hnew in Hn by done; done]. destruct (I13 f n' E Hn0) as (i & Hi & Ei). exists i. by rewrite Hpt.
  - intros i pt Hi. rewrite Hpt by done. by apply I14.
Qed.

(** The count of a frame about to be shared has room. *)
Lemma fork_room T k s pte n : fork_inv s0 sh c a T k s -> page_number k -> user_pte (ram s) c k = Some pte -> fm s !! (page_of pte / 4096) = Some n -> n < 0xFFFF.
Proof.
  intros [I1 I2 I3 I4 I5 I6 I7 I8 I9 I10 I11 I12 I13 I14] Hk Hp Hn. destruct (I7 k Hk ltac:(lia)) as [E0 Ez]. pose proof (user_pte_range _ _ _ _ Hp) as Hrng.
  pose proof (page_of_range pte Hrng) as Hpr. pose proof (page_of_aligned pte) as Hal. set (f := page_of pte / 4096) in *. assert (page_of pte = f * 4096) as Ef by (unfold f; zlia).
  assert (0 <= f < NPAGES) as Hf by (unfold f, NPAGES; zlia).
  destruct (fm s0 !! f) as [n0|] eqn:E.
  - rewrite (I12 f n0 Hf E) in Hn. injection Hn as <-. specialize (Hroom f n0 Hf E). assert (cnt (ram s) a (f * 4096) < cnt (ram s0) c (f * 4096)); [|lia].
    apply (countZ_lt _ _ _ k); [|by rewrite of_npages| |].
    + intros j Hj. assert (page_number j) as Hj' by (unfold page_number; by rewrite <- of_npages). unfold maps_to, user_pte. destruct (decide (j < k)) as [Hlt|Hge].
      * destruct (I6 j Hj' Hlt) as [_ Ej]. rewrite Ej. destruct (pte_at (ram s0) c j) as [p|] eqn:Ep; [|done]. cbn [fmap option_fmap option_map present].
        pose proof (pte_at_range _ _ _ _ Ep) as Hr. rewrite fork_child_user by done. unfold fork_child. destruct (is_user p); [|done]. by rewrite (proj1 (proj2 (fork_pte_bits _ p Hr))).
      * destruct (I7 j Hj' ltac:(lia)) as [_ Ej]. destruct (pte_at (ram s) a j) as [p|] eqn:Ep; [|done]. by rewrite (Ej p).
    + unfold maps_to, user_pte. destruct (pte_at (ram s) a k) as [p|] eqn:Ep; [|done]. by rewrite (Ez p).
    + unfold maps_to, user_pte. rewrite <- E0. fold (user_pte (ram s) c k). rewrite Hp, Ef. apply Z.eqb_refl.
  - exfalso. destruct (I13 f n Hn E) as (i & Hi & Ei). apply (pw_data _ _ _ I2 c k pte Hc Hk Hp). right. exists a, i. split_and!; [done|lia|lia|by rewrite Ef].
Qed.

(** The body of the inner loop, entry [j] of directory entry [i]. *)
Definition fork_page (i j ppt cpt : Z) s : paging D :=
  let pte := entry (ram s) ppt j in
  if negb (is_set pte PTE_P) then
    if pte_is_swapped pte then swap_slot_ref (pte_swap_slot pte) (set_entry cpt j pte s) else s
  else if negb (is_set pte PTE_U) then s
  else
    let vaddr := Z.lor (Z.shiftl i 22) (Z.shiftl j 12) in
    let cow := negb (sh vaddr) && is_set pte (Z.lor PTE_W PTE_COW) in
    let pte' := if cow then Z.land (Z.lor pte PTE_COW) (Z.lnot PTE_W) else pte in
    let s := if cow then set_entry ppt j pte' s else s in
    frame_ref (page_of pte') (set_entry cpt j pte' s).
Lemma fork_pages_S n i j ppt cpt s : fork_pages (S n) i j ppt cpt sh s = fork_pages n i (j + 1) ppt cpt sh (fork_page i j ppt cpt s).
Proof. reflexivity. Qed.

Lemma page_vaddr k : page_number k -> Z.lor (Z.shiftl (k / 1024) 22) (Z.shiftl (k mod 1024) 12) = k * 4096.
Proof.
  intros Hk. destruct (page_number_parts k Hk). change 22 with (10 + 12). rewrite <- Z.shiftl_shiftl, <- Z.shiftl_lor by lia.
  assert (Z.land (Z.shiftl (k / 1024) 10) (k mod 1024) = 0) as E.
  { apply Z.bits_inj'. intros n Hn. rewrite Z.land_spec, Z.bits_0. destruct (Z.ltb_spec n 10); [by rewrite Z.shiftl_spec_low by lia|].
    change 1024 with (2 ^ 10) at 2. by rewrite Z.mod_pow2_bits_high, andb_false_r by lia. }
  rewrite <- Z.lxor_lor, <- Z.add_nocarry_lxor by done. rewrite !Z.shiftl_mul_pow2 by lia. change (2 ^ 10) with 1024. change (2 ^ 12) with 4096. f_equal. zlia.
Qed.

(** *** One page *)

Section page.
Context (T k : Z) (s : paging D) (ppt cpt : Z) (Hinv : fork_inv s0 sh c a T k s) (Hk : page_number k).
Context (Hppt : user_pt (ram s) c (k / 1024) = Some ppt) (Hcpt : user_pt (ram s) a (k / 1024) = Some cpt).
Let pte := entry (ram s) ppt (k mod 1024).

Lemma fp_tables : tables_wf (ram s) cs.
Proof. exact (pw_tables _ _ _ (fi_wf _ _ _ _ _ _ _ Hinv)). Qed.
Lemma fp_pte : pte_at (ram s) c k = Some pte.
Proof. unfold pte_at. by rewrite Hppt. Qed.
Lemma fp_child : pte_at (ram s) a k = Some 0.
Proof. destruct (fi_todo _ _ _ _ _ _ _ Hinv k Hk ltac:(lia)) as [_ E]. unfold pte_at in *. rewrite Hcpt in *. by rewrite (E _ eq_refl). Qed.
Lemma fp_child_none b : maps_to (ram s) a b k = false.
Proof. unfold maps_to, user_pte. by rewrite fp_child. Qed.

Definition page_done s' : Prop := fork_inv s0 sh c a T (k + 1) s' /\ forall c' i, c' ∈ cs -> 0 <= i < 1024 -> user_pt (ram s') c' i = user_pt (ram s) c' i.

(** Nothing to copy. *)
Lemma page_skip : is_user pte = false -> pte_is_swapped pte = false -> page_done s.
Proof.
  intros Hu Hs. split; [|done]. apply (fork_step T k s s pte); try done; try apply Hinv.
  - exact fp_pte.
  - unfold fork_parent. rewrite Hu. exact fp_pte.
  - unfold fork_child. rewrite Hu, Hs. exact fp_child.
  - intros f n Hn. rewrite Hu. cbn [andb Z.b2z]. by rewrite Z.add_0_r.
Qed.

Lemma swap_ref_same slot (x : paging D) : let x' := swap_slot_ref slot x in
  ram x' = ram x /\ frames x' = frames x /\ g_mm_slots x' = g_mm_slots x /\ g_kernel_cr3 x' = g_kernel_cr3 x /\ g_current_cr3 x' = g_current_cr3 x.
Proof. unfold swap_slot_ref, swap_refs. repeat case_match; done. Qed.

(** A page in the swap area. *)
Lemma page_swapped : pte_is_swapped pte = true -> page_done (swap_slot_ref (pte_swap_slot pte) (set_entry cpt (k mod 1024) pte s)).
Proof.
  intros Hs. pose proof (swapped_not_user _ Hs) as Hu. destruct (swap_ref_same (pte_swap_slot pte) (set_entry cpt (k mod 1024) pte s)) as (E1 & E2 & E3 & E4 & E5).
  set (s' := swap_slot_ref _ _) in *. assert (fm s' = fm s) as Efm by (unfold fm; by rewrite E2). cbn [ram set_entry set_ram] in E1.
  pose proof fp_tables as Ht. pose proof (pte_at_range _ _ _ _ fp_pte) as Hrng. destruct Hinv as [I1 I2 _ _ _ _ _ _ _ _ _ _ _ _].
  pose proof (set_pte_at (ram s) cs a k pte cpt Ht Ha Hk Hcpt Hrng) as Hat. pose proof (set_pte_pt (ram s) cs a k pte cpt Ht Ha Hk Hcpt Hrng) as Hpt.
  rewrite <- E1 in *. split; [|exact Hpt]. apply (fork_step T k s s' pte); try done.
  - exact fp_pte.
  - by rewrite E2.
  - rewrite E1, Efm. apply (set_pte_wf (ram s) cs a k pte cpt Ht Ha Hk Hcpt Hrng (fm s)); [done|apply I2|by rewrite Hu|].
    intros b H1 H2. rewrite Hu, fp_child_none. cbn [andb Z.b2z]. pose proof (pw_count _ _ _ I2 b H1 H2). lia.
  - intros c' k' H1 H2 H3 H4. rewrite Hat by done. rewrite decide_False by naive_solver. done.
  - rewrite Hat by done. rewrite decide_False by naive_solver. unfold fork_parent. rewrite Hu. exact fp_pte.
  - rewrite Hat by done. rewrite decide_True by done. unfold fork_child. by rewrite Hu, Hs.
  - intros b Hb. rewrite E1. apply (set_pte_byte (ram s) cs a k pte cpt Ha Hk Hcpt). intros Hb'. apply Hb. rewrite E1.
    by apply (set_pte_table (ram s) cs a k pte cpt Ht Ha Hk Hcpt Hrng).
  - intros f n Hn. rewrite Efm, Hu. cbn [andb Z.b2z]. by rewrite Z.add_0_r.
  - intros f Hf. by rewrite Efm.
Qed.

(** A user page: the parent's entry, then the child's. *)
Let v := fork_pte (sh (k * 4096)) pte.
Let cow := negb (sh (k * 4096)) && is_set pte (Z.lor PTE_W PTE_COW).
Let s1 := if cow then set_entry ppt (k mod 1024) v s else s.

Lemma v_bits : 0 <= v < 2 ^ 32 /\ page_of v = page_of pte /\ is_user v = is_user pte.
Proof. destruct (fork_pte_bits (sh (k * 4096)) pte (pte_at_range _ _ _ _ fp_pte)) as (H1 & H2 & H3 & _). exact (conj H1 (conj H2 H3)). Qed.

Lemma parent_write : is_user pte = true ->
  s1 = set_ram (ram s1) s /\ pages_wf (ram s1) cs (fm s) /\
  (forall c' i, c' ∈ cs -> 0 <= i < 1024 -> user_pt (ram s1) c' i = user_pt (ram s) c' i) /\
  (forall c' k', c' ∈ cs -> page_number k' -> pte_at (ram s1) c' k' = if decide (c' = c /\ k' = k) then Some v else pte_at (ram s) c' k') /\
  (forall t, is_table (ram s1) cs t <-> is_table (ram s) cs t) /\
  (forall b, ~ is_table (ram s) cs (page_of b) -> ld8 (ram s1) b = ld8 (ram s) b).
Proof.
  intros Hu. pose proof v_bits as (Hv & Epg & Eu). rewrite Hu in Eu. pose proof fp_tables as Ht. pose proof (fi_wf _ _ _ _ _ _ _ Hinv) as I2.
  assert (user_pte (ram s) c k = Some pte) as Hp by (unfold user_pte; rewrite fp_pte; unfold present; by rewrite Hu).
  unfold s1, cow. destruct (negb (sh (k * 4096)) && is_set pte (Z.lor PTE_W PTE_COW)) eqn:Ec.
  - split_and!; [done| |exact (set_pte_pt (ram s) cs c k v ppt Ht Hc Hk Hppt Hv)|exact (set_pte_at (ram s) cs c k v ppt Ht Hc Hk Hppt Hv)|exact (set_pte_table (ram s) cs c k v ppt Ht Hc Hk Hppt Hv)|exact (set_pte_byte (ram s) cs c k v ppt Hc Hk Hppt)].
    apply (set_pte_wf (ram s) cs c k v ppt Ht Hc Hk Hppt Hv (fm s)); [done|apply I2|intros _; rewrite Epg; by apply (pw_data _ _ _ I2 c k pte)|].
    intros b H1 H2. pose proof (pw_count _ _ _ I2 b H1 H2). assert (maps_to (ram s) c b k = (page_of pte =? b)) as -> by (unfold maps_to; by rewrite Hp).
    rewrite Eu, Epg. cbn [andb]. lia.
  - split_and!; try done; [by destruct s|]. intros c' k' H1 H2. case_decide as E; [|done]. destruct E as [-> ->]. rewrite fp_pte. unfold v, fork_pte. by rewrite Ec.
Qed.

Lemma page_user : is_user pte = true -> page_done (frame_ref (page_of v) (set_entry cpt (k mod 1024) v s1)).
Proof.
  intros Hu. pose proof v_bits as (Hv & Epg & Eu). rewrite Hu in Eu. destruct (parent_write Hu) as (Es1 & Hw1 & Hpt1 & Hat1 & Htab1 & Hby1). revert Es1 Hw1 Hpt1 Hat1 Htab1 Hby1.
  generalize s1. clear s1. intros s1 Es1 Hw1 Hpt1 Hat1 Htab1 Hby1. destruct (page_number_parts k Hk) as [Hki Hkj].
  assert (user_pte (ram s) c k = Some pte) as Hp by (unfold user_pte; rewrite fp_pte; unfold present; by rewrite Hu).
  pose proof (fi_wf _ _ _ _ _ _ _ Hinv) as I2. pose proof (fi_pmm _ _ _ _ _ _ _ Hinv) as I1. pose proof (pte_at_range _ _ _ _ fp_pte) as Hrng. pose proof (page_of_range pte Hrng) as Hpr.
  destruct (mapped_used _ _ _ _ _ _ I2 Hc Hk Hp) as (n & Hn & Hn0). pose proof (fork_room T k s pte n Hinv Hk Hp Hn) as Hlt.
  set (s2 := set_entry cpt (k mod 1024) v s1). assert (frames s2 = frames s) as Ef by (unfold s2; cbn [frames set_entry set_ram]; by rewrite Es1).
  rewrite Epg. destruct (ref_fm s2 (page_of pte) n) as [Hpm3 Efm3]; [by rewrite Ef|done|unfold fm; by rewrite Ef|done|].
  assert (fm s2 = fm s) as Efm2 by (unfold fm; by rewrite Ef). rewrite Efm2 in Efm3. set (s3 := frame_ref (page_of pte) s2) in *.
  assert (ram s3 = st32 (ram s1) (cpt + 4 * (k mod 1024)) v) as Er3 by done.
  assert (user_pt (ram s1) a (k / 1024) = Some cpt) as Hcpt1 by (by rewrite Hpt1). pose proof (pw_tables _ _ _ Hw1) as Ht1.
  pose proof (set_pte_at (ram s1) cs a k v cpt Ht1 Ha Hk Hcpt1 Hv) as Hat. pose proof (set_pte_pt (ram s1) cs a k v cpt Ht1 Ha Hk Hcpt1 Hv) as Hpt.
  pose proof (set_pte_table (ram s1) cs a k v cpt Ht1 Ha Hk Hcpt1 Hv) as Htab. rewrite <- Er3 in Hat, Hpt, Htab.
  assert (pte_at (ram s1) a k = Some 0) as Hch1 by (rewrite Hat1, decide_False by naive_solver; exact fp_child).
  assert (g_mm_slots s3 = g_mm_slots s /\ g_kernel_cr3 s3 = g_kernel_cr3 s /\ g_current_cr3 s3 = g_current_cr3 s) as (F1 & F2 & F3)
    by (change (g_mm_slots s1 = g_mm_slots s /\ g_kernel_cr3 s1 = g_kernel_cr3 s /\ g_current_cr3 s1 = g_current_cr3 s); rewrite Es1; exact (conj eq_refl (conj eq_refl eq_refl))).
  split; [|intros c' i H1 H2; by rewrite Hpt, Hpt1]. apply (fork_step T k s s3 pte Hinv Hk fp_pte Hpm3); [|exact F1|exact F2|exact F3|..].
  - rewrite Er3. apply (set_pte_wf (ram s1) cs a k v cpt Ht1 Ha Hk Hcpt1 Hv (fm s)); [done| | |].
    + intros t Htt. rewrite Efm3, lookup_insert. case_decide; [done|]. by apply (pw_used _ _ _ Hw1).
    + intros _. rewrite Epg, Htab1. by apply (pw_data _ _ _ I2 c k pte).
    + intros b H1 H2. pose proof (pw_count _ _ _ Hw1 b H1 H2) as Hb. assert (maps_to (ram s1) a b k = false) as -> by (unfold maps_to, user_pte; by rewrite Hch1).
      rewrite Eu, Epg, Efm3. cbn [andb]. destruct (Z.eqb_spec (page_of pte) b) as [<-|Hne].
      * rewrite lookup_insert_eq. rewrite Hn in Hb. simpl in Hb |- *. lia.
      * rewrite lookup_insert_ne by (pose proof (page_of_aligned pte); zlia). cbn [Z.b2z]. lia.
  - intros c' k' H1 H2 H3 H4. rewrite Hat, Hat1 by done. rewrite decide_False by naive_solver. by rewrite decide_False by naive_solver.
  - rewrite Hat, Hat1 by done. rewrite decide_False by naive_solver. rewrite decide_True by done. unfold fork_parent. by rewrite Hu.
  - rewrite Hat by done. rewrite decide_True by done. unfold fork_child. by rewrite Hu.
  - intros c' i H1 H2. by rewrite Hpt, Hpt1.
  - intros b Hb. rewrite Htab in Hb. rewrite Er3, (set_pte_byte (ram s1) cs a k v cpt Ha Hk Hcpt1) by done. apply Hby1. by rewrite <- Htab1.
  - intros f n' Hf. rewrite Efm3, lookup_insert, Hu. cbn [andb]. case_decide as E.
    + subst f. rewrite Hn in Hf. injection Hf as <-. assert (page_of pte / 4096 * 4096 = page_of pte) as -> by (pose proof (page_of_aligned pte); zlia). by rewrite Z.eqb_refl.
    + rewrite Hf, (proj2 (Z.eqb_neq _ _)); [cbn [Z.b2z]; f_equal; lia|]. intros E'. apply E. rewrite E'. apply Z.div_mul. lia.
  - intros f Hf. rewrite Efm3, lookup_insert_ne by congruence. done.
Qed.

Lemma fork_page_spec : page_done (fork_page (k / 1024) (k mod 1024) ppt cpt s).
Proof.
  unfold fork_page. fold pte. rewrite page_vaddr by done. pose proof page_user as Hu. pose proof page_swapped as Hs. pose proof page_skip as H0. cbv zeta.
  unfold is_user in *. destruct (is_set pte PTE_P) eqn:EP; cbn [negb andb] in *.
  - assert (pte_is_swapped pte = false) as E by (unfold pte_is_swapped; by rewrite EP). destruct (is_set pte PTE_U); cbn [negb]; [|by apply H0].
    specialize (Hu eq_refl). exact Hu.
  - destruct (pte_is_swapped pte); [by apply Hs|by apply H0].
Qed.
End page.

(** *** The loops *)

Lemma fork_pages_spec T n i j ppt cpt s : 0 <= i < 1024 -> 0 <= j -> j + Z.of_nat n <= 1024 -> fork_inv s0 sh c a T (i * 1024 + j) s ->
  user_pt (ram s) c i = Some ppt -> user_pt (ram s) a i = Some cpt -> fork_inv s0 sh c a T (i * 1024 + j + Z.of_nat n) (fork_pages n i j ppt cpt sh s).
Proof.
  intros Hi. revert j s. induction n as [|n IH]; intros j s Hj Hn Hinv Hp Hch; [by rewrite Z.add_0_r|]. rewrite fork_pages_S.
  assert (page_number (i * 1024 + j)) as Hk by (unfold page_number, NPAGES; lia).
  assert ((i * 1024 + j) / 1024 = i) as E1 by zlia. assert ((i * 1024 + j) mod 1024 = j) as E2 by zlia.
  destruct (fork_page_spec T (i * 1024 + j) s ppt cpt Hinv Hk) as [H1 H2]; [by rewrite E1|by rewrite E1|]. rewrite E1, E2 in *.
  replace (i * 1024 + j + Z.of_nat (S n)) with (i * 1024 + (j + 1) + Z.of_nat n) by lia. apply IH; [lia|lia| |by rewrite H2|by rewrite H2].
  by replace (i * 1024 + (j + 1)) with (i * 1024 + j + 1) by lia.
Qed.

Context (Hzero : is_Some (fm s0 !! 0)).

Lemma fork_zero T K s : fork_inv s0 sh c a T K s -> is_Some (fm s !! 0).
Proof. intros Hinv. destruct Hzero as [n Hn]. exists (n + cnt (ram s) a 0). by apply (fi_fm _ _ _ _ _ _ _ Hinv 0). Qed.

Lemma child_pde cpt pde : is_frame cpt -> is_user pde = true ->
  let v := Z.lor (page_of cpt) (Z.land pde 0xFFF) in 0 <= v < 2 ^ 32 /\ is_user v = true /\ page_of v = cpt.
Proof.
  intros [H1 H2] Hu v. unfold v. rewrite (page_of_self cpt H1). change 0xFFF with (Z.ones 12). rewrite Z.land_ones by lia. pose proof (Z.mod_pos_bound pde (2 ^ 12) ltac:(lia)) as Hm.
  change (2 ^ 12) with 4096 in *. unfold is_user in *. apply andb_true_iff in Hu as [Hu1 Hu2]. rewrite set_P in Hu1. rewrite set_U in Hu2. split_and!.
  - apply lor_word; lia.
  - apply lor_word; lia.
  - rewrite set_P, set_U, !entry_bit by lia. change 4096 with (2 ^ 12). rewrite !Z.mod_pow2_bits_low by lia. by rewrite Hu1, Hu2.
  - by apply page_of_entry.
Qed.

(** A table for the child. *)
Lemma table_step i ppt pde s cpt s1 : 0 <= i < 1024 -> fork_inv s0 sh c a i (i * 1024) s -> user_pt (ram s) c i = Some ppt -> is_user pde = true ->
  alloc_zeroed_frame s = (cpt, s1) -> cpt <> 0 ->
  let s2 := set_entry a i (Z.lor (page_of cpt) (Z.land pde 0xFFF)) s1 in
  fork_inv s0 sh c a (i + 1) (i * 1024) s2 /\ user_pt (ram s2) c i = Some ppt /\ user_pt (ram s2) a i = Some cpt.
Proof.
  intros Hi Hinv Hp Hpde Hal Hne s2. pose proof (alloc_zeroed_cases s (fi_pmm _ _ _ _ _ _ _ Hinv)) as Hc0. rewrite Hal in Hc0. destruct Hc0 as (Hpm1 & Es1 & _ & [[-> _]|(Hfr & Hnone & Efm1 & Hb1 & Hz1)]); [done|].
  destruct (child_pde cpt pde Hfr Hpde) as (Hv & Hvu & Hva). set (v := Z.lor _ _) in *. pose proof (fi_wf _ _ _ _ _ _ _ Hinv) as I2.
  assert (user_pt (ram s) a i = None) as Hna by (apply (fi_child _ _ _ _ _ _ _ Hinv); [done|lia]).
  pose proof (at_pt (ram s) (ram s1) cs (fm s) cpt a i v I2 Hnone Hb1 Ha Hi Hv Hvu Hva) as Hpt.
  pose proof (at_pte_at (ram s) (ram s1) cs (fm s) cpt a i v I2 Hfr Hnone Hb1 Hz1 Ha Hi Hv Hvu Hva) as Hat.
  pose proof (at_pte (ram s) (ram s1) cs (fm s) cpt a i v I2 Hfr Hnone Hb1 Hz1 Ha Hi Hna Hv Hvu Hva) as Hpte.
  pose proof (at_byte (ram s) (ram s1) cs (fm s) cpt a i v I2 Hb1 Ha Hi) as Hby.
  pose proof (add_table_wf (ram s) (ram s1) cs (fm s) (fm s1) cpt a i v I2 Hfr Hnone Hb1 Hz1 Ha Hi Hna Hv Hvu Hva) as Hwf.
  assert (ram s2 = st32 (ram s1) (a + 4 * i) v) as Er by done. rewrite <- Er in *. assert (frames s2 = frames s1 /\ fm s2 = fm s1) as [Ef Efm2] by done.
  assert (g_mm_slots s2 = g_mm_slots s /\ g_kernel_cr3 s2 = g_kernel_cr3 s /\ g_current_cr3 s2 = g_current_cr3 s) as (F1 & F2 & F3)
    by (change (g_mm_slots s1 = g_mm_slots s /\ g_kernel_cr3 s1 = g_kernel_cr3 s /\ g_current_cr3 s1 = g_current_cr3 s); rewrite Es1; exact (conj eq_refl (conj eq_refl eq_refl))).
  clearbody s2. rewrite (Hpt c i Hc Hi), (Hpt a i Ha Hi). rewrite decide_False by naive_solver. rewrite decide_True by done. split; [|exact (conj Hp eq_refl)].
  assert (forall t, is_table (ram s) cs t -> is_table (ram s2) cs t) as Htab.
  { intros t [Ht|(c' & i' & Hc' & Hi' & E)]; [by left|right; exists c', i'; split_and!; try done; try lia]. rewrite Hpt, decide_False; [done|intros [-> ->]; congruence|done|done]. }
  destruct Hinv as [I1 _ I3 I4 I5 I6 I7 I8 I9 I10 I11 I12 I13 I14]. split.
  - by rewrite Ef.
  - rewrite Efm2. apply Hwf; rewrite Efm1; [intros f n; by apply insert_fresh| |rewrite lookup_insert_eq; by exists 1].
    intros f n Hn. rewrite <- Efm1 in Hn. by apply (fm_nonneg s1 f).
  - congruence.
  - congruence.
  - congruence.
  - intros k Hk Hlt. rewrite !Hat by done. rewrite !decide_False by (intros [? ?]; zlia). by apply I6.
  - intros k Hk Hge. rewrite !Hat by done. rewrite decide_False by naive_solver. split; [by apply I7|]. intros p. case_decide; [by intros [= <-]|by apply I7].
  - intros c' k H1 H2 H3 Hk. rewrite Hat by done. rewrite decide_False by naive_solver. by apply I8.
  - intros j Hj. rewrite Hpt by done. rewrite decide_False by naive_solver. by apply I9.
  - intros j Hj Hge. rewrite Hpt by done. rewrite decide_False by (intros [_ ->]; lia). apply I10; [done|lia].
  - intros b Hb. rewrite Hby; [apply I11; intros Hb'; by apply Hb, Htab|intros Hb'; by apply Hb, Htab|]. intros E. apply Hb. right. exists a, i. split_and!; [done|lia|lia|]. rewrite Hpt by done. by rewrite decide_True, E by done.
  - intros f n Hf Hn. rewrite Efm2, Efm1. rewrite (cnt_ext (ram s) (ram s2) a a) by (intros k Hk; by apply Hpte). apply insert_fresh; [done|by apply I12].
  - intros f n Hn Hn0. rewrite Efm2, Efm1, lookup_insert in Hn. case_decide as E.
    + exists i. split; [done|]. rewrite Hpt by done. rewrite decide_True by done. f_equal. destruct Hfr as [Hf1 _]. subst f. clear -Hf1. zlia.
    + destruct (I13 f n Hn Hn0) as (j & Hj & Ej). exists j. split; [done|]. rewrite Hpt by done. rewrite decide_False by (intros [_ ->]; congruence). done.
  - intros j pt Hj. rewrite Hpt by done. case_decide; [|by apply I14]. intros [= <-]. destruct (fm s0 !! (cpt / 4096)) as [n|] eqn:E; [|done].
    rewrite (I12 (cpt / 4096) n) in Hnone; [done|destruct Hfr; unfold NPAGES; zlia|done].
Qed.

(** The inner loop as the outer one calls it. *)
Lemma fork_pages_all T i ppt cpt s : 0 <= i < 1024 -> fork_inv s0 sh c a T (i * 1024) s ->
  user_pt (ram s) c i = Some ppt -> user_pt (ram s) a i = Some cpt -> fork_inv s0 sh c a T ((i + 1) * 1024) (fork_pages 1024 i 0 ppt cpt sh s).
Proof.
  intros Hi Hinv Hp Hch. replace ((i + 1) * 1024) with (i * 1024 + 0 + Z.of_nat 1024) by lia. apply fork_pages_spec; [done|lia|lia| |done|done]. by rewrite Z.add_0_r.
Qed.
Lemma table_skip i s : 0 <= i < 1024 -> user_pt (ram s) c i = None -> fork_inv s0 sh c a i (i * 1024) s -> fork_inv s0 sh c a (i + 1) ((i + 1) * 1024) s.
Proof.
  intros Hi Hnone [I1 I2 I3 I4 I5 I6 I7 I8 I9 I10 I11 I12 I13 I14]. split; try done.
  - intros k Hk Hlt. destruct (decide (k < i * 1024)); [by apply I6|]. assert (k / 1024 = i) as E by zlia.
    assert (pte_at (ram s0) c k = None) as E0 by (unfold pte_at; by rewrite E, <- I9, Hnone). rewrite E0. split; unfold pte_at; rewrite E; [by rewrite Hnone|].
    by rewrite (I10 i Hi ltac:(lia)).
  - intros k Hk Hge. apply I7; [done|lia].
  - intros j Hj Hge. apply I10; [done|lia].
Qed.
Lemma inv_frames T K s s' : fork_inv s0 sh c a T K s -> pmm_wf (frames s') -> s' = set_ram (ram s') (set_frames (frames s') s) -> ram s' = ram s -> fm s' = fm s -> fork_inv s0 sh c a T K s'.
Proof.
  intros [I1 I2 I3 I4 I5 I6 I7 I8 I9 I10 I11 I12 I13 I14] H1 H2 Er Ef. assert (g_mm_slots s' = g_mm_slots s /\ g_kernel_cr3 s' = g_kernel_cr3 s /\ g_current_cr3 s' = g_current_cr3 s) as (F1 & F2 & F3)
    by (rewrite H2; exact (conj eq_refl (conj eq_refl eq_refl))).
  rewrite <- Er in *. rewrite <- Ef in *. split; (done || congruence).
Qed.

Lemma fork_tables_spec n i s : is_frame c -> is_frame a -> 0 <= i -> i + Z.of_nat n <= 1024 -> fork_inv s0 sh c a i (i * 1024) s ->
  let '(ok, s') := fork_tables n i c a sh s in
  (ok = true /\ fork_inv s0 sh c a (i + Z.of_nat n) ((i + Z.of_nat n) * 1024) s') \/
  (ok = false /\ exists i', 0 <= i' <= 1024 /\ fork_inv s0 sh c a i' (i' * 1024) s').
Proof.
  intros Hfc Hfa. revert i s. induction n as [|n IH]; intros i s Hi Hn Hinv; cbn [fork_tables]; [left; by rewrite Z.add_0_r|].
  assert (0 <= i < 1024) as Hi' by lia. replace (i + Z.of_nat (S n)) with (i + 1 + Z.of_nat n) by lia.
  set (pde := entry (ram s) c i). assert (negb (is_set pde PTE_P) || negb (is_set pde PTE_U) = negb (is_user pde)) as -> by (unfold is_user; by destruct (is_set pde PTE_P), (is_set pde PTE_U)).
  destruct (is_user pde) eqn:Eu; cbn [negb].
  - assert (user_pt (ram s) c i = Some (page_of pde)) as Hp by (unfold user_pt; fold pde; by rewrite Eu).
    destruct (alloc_zeroed_frame s) as [cpt s1] eqn:Eal. destruct (Z.eqb_spec cpt 0) as [->|Hne].
    + right. split; [done|]. exists i. split; [lia|]. pose proof (alloc_zeroed_cases s (fi_pmm _ _ _ _ _ _ _ Hinv)) as Hc0. rewrite Eal in Hc0.
      destruct Hc0 as (Hpm1 & Es1 & _ & [(_ & Er & _ & Ef)|([_ Hx] & _)]); [|lia]. apply (inv_frames _ _ s s1 Hinv Hpm1 Es1 Er). apply Ef. by apply (fork_zero i (i * 1024)).
    + destruct (table_step i (page_of pde) pde s cpt s1 Hi' Hinv Hp Eu Eal Hne) as (H2 & Hp2 & Hc2). apply IH; [lia|lia|]. by apply fork_pages_all.
  - apply IH; [lia|lia|]. apply table_skip; [done| |done]. unfold user_pt. fold pde. by rewrite Eu.
Qed.
End fork_loops.

(** ** Release *)

(** References minus mappings. *)
Definition minus_refs (o : option Z) (d : Z) : option Z := match o with Some n => if d <? n then Some (n - d) else None | None => None end.
(** The directory and the tables of an address space. *)
Definition own_frame (m : mem) (a f : Z) : Prop := f * 4096 = a \/ exists i, 0 <= i < 1024 /\ user_pt m a i = Some (f * 4096).
(** The user tables hold user entries only. *)
Definition all_user (m : mem) (a : Z) : Prop := forall k pte, page_number k -> pte_at m a k = Some pte -> is_set pte PTE_P = true -> is_user pte = true.

Section destroy.
Implicit Types x : paging D.
Context (s : paging D) (cs : list Z) (a : Z) (Hpm : pmm_wf (frames s)) (Hw : pages_wf (ram s) (a :: cs) (fm s)) (Hall : all_user (ram s) a).
Notation m := (ram s).

(** Pages below [K] are given back, tables below [T] are freed. *)
Record destroy_inv (T K : Z) x : Prop := {
  di_pmm : pmm_wf (frames x);
  di_same : x = set_swap (g_swap x) (set_frames (frames x) s);
  di_data : forall f, 0 <= f < NPAGES -> ~ own_frame m a f -> fm x !! f = minus_refs (fm s !! f) (countZ (maps_to m a (f * 4096)) (Z.to_nat K));
  di_freed : forall i pt, 0 <= i < T -> user_pt m a i = Some pt -> fm x !! (pt / 4096) = None;
  di_others : forall f, 0 <= f < NPAGES -> fm s !! f = None -> fm x !! f = None
}.

Lemma own_in_a : a ∈ a :: cs.
Proof. by left. Qed.
Lemma own_table f : own_frame m a f -> is_table m (a :: cs) (f * 4096).
Proof. intros [E|(i & Hi & E)]; [left; rewrite E; by left|right; exists a, i; split_and!; [by left|lia|lia|done]]. Qed.
Lemma page_frame pte : 0 <= pte < 2 ^ 32 -> page_of pte / 4096 * 4096 = page_of pte /\ 0 <= page_of pte / 4096 < NPAGES.
Proof. intros Hp. pose proof (page_of_aligned pte). pose proof (page_of_range pte Hp). unfold NPAGES. split; zlia. Qed.
Lemma data_not_own k pte : page_number k -> user_pte m a k = Some pte -> ~ own_frame m a (page_of pte / 4096).
Proof.
  intros Hk Hp Ho. apply (pw_data _ _ _ Hw a k pte own_in_a Hk Hp). rewrite <- (proj1 (page_frame pte (user_pte_range _ _ _ _ Hp))). by apply own_table.
Qed.

Lemma minus_refs_step o d (b : bool) : minus_refs o (d + Z.b2z b) = (if b then match minus_refs o d with Some n => if 1 <? n then Some (n - 1) else None | None => None end else minus_refs o d).
Proof.
  unfold minus_refs. destruct o as [n|]; [|by destruct b]. destruct b; cbn [Z.b2z]; [|by rewrite Z.add_0_r].
  destruct (Z.ltb_spec d n), (Z.ltb_spec (d + 1) n); try lia; try done; [|by rewrite (proj2 (Z.ltb_ge _ _)) by lia].
  rewrite (proj2 (Z.ltb_lt _ _)) by lia. f_equal. lia.
Qed.

(** One entry. *)
Definition drop_page (pt j : Z) x : paging D :=
  let pte := entry (ram x) pt j in
  if is_set pte PTE_P then frame_unref (page_of pte) x
  else if pte_is_swapped pte then swap_slot_unref (pte_swap_slot pte) x else x.
Lemma drop_pages_S n j pt x : drop_pages (S n) j pt x = drop_pages n (j + 1) pt (drop_page pt j x).
Proof. reflexivity. Qed.
Lemma swap_unref_same slot (x : paging D) : let x' := swap_slot_unref slot x in x' = set_swap (g_swap x') x.
Proof. unfold swap_slot_unref, swap_refs. repeat case_match; by destruct x. Qed.

Lemma unref_lookup x p f : pmm_wf (frames x) -> 0 <= p < 2 ^ 32 -> pmm_wf (frames (frame_unref p x)) /\
  fm (frame_unref p x) !! f = if decide (f = p / 4096) then match fm x !! f with Some n => if 1 <? n then Some (n - 1) else None | None => None end else fm x !! f.
Proof.
  intros Hp Ha. destruct (unref_refines p (frames x) Hp Ha) as [Hw' E]. split; [exact Hw'|]. unfold fm, frame_unref in *. cbn [frames set_frames]. cbn [FrameSpec.spec_exec] in E. injection E as <-.
  destruct (frames_of (frames x) !! (p / 4096)) as [n|] eqn:En.
  - destruct (Z.ltb_spec 1 n); case_decide as E; try subst f.
    + rewrite lookup_insert_eq, En. by rewrite (proj2 (Z.ltb_lt 1 n)) by lia.
    + by rewrite lookup_insert_ne by congruence.
    + rewrite lookup_delete_eq, En. by rewrite (proj2 (Z.ltb_ge 1 n)) by lia.
    + by rewrite lookup_delete_ne by congruence.
  - case_decide as E; [subst f; by rewrite En|done].
Qed.

Lemma drop_page_spec T k pt x : destroy_inv T k x -> page_number k -> user_pt m a (k / 1024) = Some pt -> destroy_inv T (k + 1) (drop_page pt (k mod 1024) x).
Proof.
  intros [D1 D2 D3 D4 D5] Hk Hpt. unfold drop_page. assert (ram x = m) as -> by (rewrite D2; reflexivity). set (pte := entry m pt (k mod 1024)).
  assert (pte_at m a k = Some pte) as Hat by (unfold pte_at; by rewrite Hpt). pose proof (pte_at_range _ _ _ _ Hat) as Hrng.
  assert (forall f, countZ (maps_to m a (f * 4096)) (Z.to_nat (k + 1)) = countZ (maps_to m a (f * 4096)) (Z.to_nat k) + Z.b2z (is_user pte && (page_of pte =? f * 4096))) as Hcnt.
  { intros f. unfold page_number in Hk. rewrite Z2Nat.inj_add, Nat.add_1_r by lia. cbn [countZ]. rewrite Z2Nat.id by lia. f_equal. f_equal. unfold maps_to, user_pte. rewrite Hat. unfold present. by destruct (is_user pte). }
  destruct (is_set pte PTE_P) eqn:EP.
  - pose proof (Hall k pte Hk Hat EP) as Hu. assert (user_pte m a k = Some pte) as Hp by (unfold user_pte; rewrite Hat; unfold present; by rewrite Hu).
    destruct (page_frame pte Hrng) as [E1 E2]. pose proof (page_of_range pte Hrng) as Hpr.
    split; [by apply (unref_lookup x (page_of pte) 0)|by rewrite D2| | |].
    + intros f Hf Ho. rewrite (proj2 (unref_lookup x (page_of pte) f D1 Hpr)), Hcnt, minus_refs_step, <- (D3 f Hf Ho), Hu. cbn [andb].
      case_decide as E; [subst f; by rewrite E1, Z.eqb_refl|]. rewrite (proj2 (Z.eqb_neq _ _)); [done|]. intros E'. apply E. rewrite E'. symmetry. apply Z.div_mul. lia.
    + intros i p Hi Hip. rewrite (proj2 (unref_lookup x (page_of pte) (p / 4096) D1 Hpr)), (D4 i p Hi Hip). by case_decide.
    + intros f Hf Hn. rewrite (proj2 (unref_lookup x (page_of pte) f D1 Hpr)), (D5 f Hf Hn). by case_decide.
  - assert (is_user pte = false) as Hu by (unfold is_user; by rewrite EP).
    set (x' := if _ : bool then _ else x). assert (x' = set_swap (g_swap x') x) as Ex by (unfold x'; destruct (pte_is_swapped pte); [apply swap_unref_same|by destruct x]).
    assert (frames x' = frames x) as Ef by (by rewrite Ex). assert (fm x' = fm x) as Efm by (unfold fm; by rewrite Ef). clearbody x'.
    split; [by rewrite Ef|rewrite Ex at 1; rewrite D2, Ef; reflexivity| | |]; rewrite Efm; [|done|done].
    intros f Hf Ho. rewrite Hcnt, Hu. cbn [andb Z.b2z]. rewrite Z.add_0_r. by apply D3.
Qed.

Lemma drop_pages_spec T n i j pt x : 0 <= i < 1024 -> 0 <= j -> j + Z.of_nat n <= 1024 -> destroy_inv T (i * 1024 + j) x -> user_pt m a i = Some pt ->
  destroy_inv T (i * 1024 + j + Z.of_nat n) (drop_pages n j pt x).
Proof.
  intros Hi. revert j x. induction n as [|n IH]; intros j x Hj Hn Hinv Hp; [by rewrite Z.add_0_r|]. rewrite drop_pages_S.
  assert (page_number (i * 1024 + j)) as Hk by (unfold page_number, NPAGES; lia).
  assert ((i * 1024 + j) / 1024 = i) as E1 by zlia. assert ((i * 1024 + j) mod 1024 = j) as E2 by zlia.
  pose proof (drop_page_spec T (i * 1024 + j) pt x Hinv Hk) as H1. rewrite E1, E2 in H1.
  replace (i * 1024 + j + Z.of_nat (S n)) with (i * 1024 + (j + 1) + Z.of_nat n) by lia. apply IH; [lia|lia| |done].
  replace (i * 1024 + (j + 1)) with (i * 1024 + j + 1) by lia. by apply H1.
Qed.

Lemma table_frame i pt : 0 <= i < 1024 -> user_pt m a i = Some pt -> pt / 4096 * 4096 = pt /\ 0 <= pt / 4096 < NPAGES /\ own_frame m a (pt / 4096) /\ 0 <= pt < 2 ^ 32.
Proof.
  intros Hi Hp. destruct (user_pt_frame _ _ _ _ Hp) as [H1 H2]. assert (pt / 4096 * 4096 = pt) as E by zlia. split_and!; try (unfold NPAGES; zlia).
  right. exists i. by rewrite E.
Qed.
Lemma free_lookup x p f : pmm_wf (frames x) -> 0 <= p < 2 ^ 32 -> pmm_wf (frames (frame_free p x)) /\
  fm (frame_free p x) !! f = if decide (f = p / 4096) then None else fm x !! f.
Proof.
  intros Hp Ha. destruct (free_fm x p Hp Ha) as [Hw' E]. split; [exact Hw'|]. rewrite E. case_decide as Ef; [subst f; apply lookup_delete_eq|by rewrite lookup_delete_ne by congruence].
Qed.
(** Nothing is mapped through an absent table. *)
Lemma skip_count i f : 0 <= i < 1024 -> user_pt m a i = None ->
  countZ (maps_to m a f) (Z.to_nat ((i + 1) * 1024)) = countZ (maps_to m a f) (Z.to_nat (i * 1024)).
Proof.
  intros Hi Hn. assert (forall n, (n <= 1024)%nat -> countZ (maps_to m a f) (Z.to_nat (i * 1024 + Z.of_nat n)) = countZ (maps_to m a f) (Z.to_nat (i * 1024))) as Hx.
  2: { rewrite <- (Hx 1024%nat) by lia. f_equal. lia. }
  intros n. induction n as [|n IH]; intros Hle; [by rewrite Z.add_0_r|]. replace (Z.to_nat (i * 1024 + Z.of_nat (S n))) with (S (Z.to_nat (i * 1024 + Z.of_nat n))) by lia.
  cbn [countZ]. rewrite IH by lia. rewrite Z2Nat.id by lia. assert (maps_to m a f (i * 1024 + Z.of_nat n) = false) as ->; [|cbn [Z.b2z]; lia].
  unfold maps_to, user_pte, pte_at. replace ((i * 1024 + Z.of_nat n) / 1024) with i by zlia. by rewrite Hn.
Qed.

(** One table freed. *)
Lemma free_table T K i pt x : destroy_inv T K x -> 0 <= i < 1024 -> T = i -> user_pt m a i = Some pt -> destroy_inv (i + 1) K (frame_free pt x).
Proof.
  intros [D1 D2 D3 D4 D5] Hi -> Hp. destruct (table_frame i pt Hi Hp) as (E1 & E2 & E3 & E4). split.
  - by apply (free_lookup x pt 0).
  - by rewrite D2.
  - intros f Hf Ho. rewrite (proj2 (free_lookup x pt f D1 E4)). rewrite decide_False by (intros ->; done). by apply D3.
  - intros j p Hj Hjp. rewrite (proj2 (free_lookup x pt (p / 4096) D1 E4)). case_decide as E; [done|]. apply (D4 j p); [|done].
    destruct (decide (j = i)) as [->|]; [rewrite Hp in Hjp; congruence|lia].
  - intros f Hf Hn. rewrite (proj2 (free_lookup x pt f D1 E4)). case_decide; [done|by apply D5].
Qed.

Lemma drop_pages_all T i pt x : 0 <= i < 1024 -> destroy_inv T (i * 1024) x -> user_pt m a i = Some pt -> destroy_inv T ((i + 1) * 1024) (drop_pages 1024 0 pt x).
Proof.
  intros Hi Hinv Hp. replace ((i + 1) * 1024) with (i * 1024 + 0 + Z.of_nat 1024) by lia. apply drop_pages_spec; [done|lia|lia| |done]. by rewrite Z.add_0_r.
Qed.
Lemma drop_tables_spec n i x : 0 <= i -> i + Z.of_nat n <= 1024 -> destroy_inv i (i * 1024) x -> destroy_inv (i + Z.of_nat n) ((i + Z.of_nat n) * 1024) (drop_tables n i a x).
Proof.
  revert i x. induction n as [|n IH]; intros i x Hi Hn Hinv; cbn [drop_tables]; [by rewrite Z.add_0_r|]. assert (0 <= i < 1024) as Hi' by lia.
  replace (i + Z.of_nat (S n)) with (i + 1 + Z.of_nat n) by lia. apply IH; [lia|lia|]. assert (ram x = m) as -> by (rewrite (di_same _ _ _ Hinv); reflexivity).
  set (pde := entry m a i). assert (negb (is_set pde PTE_P) || negb (is_set pde PTE_U) = negb (is_user pde)) as -> by (unfold is_user; by destruct (is_set pde PTE_P), (is_set pde PTE_U)).
  destruct (is_user pde) eqn:Eu; cbn [negb].
  - assert (user_pt m a i = Some (page_of pde)) as Hp by (unfold user_pt; fold pde; by rewrite Eu).
    apply (free_table i); [|done|done|done]. by apply drop_pages_all.
  - assert (user_pt m a i = None) as Hp by (unfold user_pt; fold pde; by rewrite Eu). destruct Hinv as [D1 D2 D3 D4 D5]. split; [done|done| | |done].
    + intros f Hf Ho. rewrite skip_count by done. by apply D3.
    + intros j p Hj Hjp. apply (D4 j p); [|done]. destruct (decide (j = i)) as [->|]; [congruence|lia].
Qed.
End destroy.

(** A frame that backs something is mapped somewhere. *)
Lemma countZ_exists p n : 0 < countZ p n -> exists i, 0 <= i < Z.of_nat n /\ p i = true.
Proof.
  induction n as [|n IH]; cbn [countZ]; [lia|]. intros Hn. destruct (p (Z.of_nat n)) eqn:E; [exists (Z.of_nat n); split; [lia|done]|].
  destruct IH as (i & Hi & Ei); [simpl in Hn; lia|]. exists i. split; [lia|done].
Qed.
Lemma total_pos m cs b : 0 < total m cs b -> exists c k pte, c ∈ cs /\ page_number k /\ user_pte m c k = Some pte /\ page_of pte = b.
Proof.
  induction cs as [|c cs IH]; cbn [total]; [lia|]. intros Hn. destruct (Z.le_gt_cases (cnt m c b) 0) as [Hle|Hgt].
  - destruct IH as (c' & k & pte & H1 & H2); [lia|]. exists c', k, pte. split; [by right|done].
  - destruct (countZ_exists _ _ Hgt) as (k & Hk & Ek). rewrite of_npages in Hk. unfold maps_to in Ek. destruct (user_pte m c k) as [pte|] eqn:E; [|done].
    apply Z.eqb_eq in Ek. exists c, k, pte. exact (conj (list_elem_of_here c cs) (conj Hk (conj E Ek))).
Qed.

Lemma npages_nat : Z.to_nat NPAGES = npages.
Proof. rewrite <- of_npages. apply Nat2Z.id. Qed.
Lemma minus_refs_0 o : (forall n, o = Some n -> 0 < n) -> minus_refs o 0 = o.
Proof. intros Ho. destruct o as [n|]; [|done]. unfold minus_refs. rewrite (proj2 (Z.ltb_lt 0 n)) by (by apply Ho). by rewrite Z.sub_0_r. Qed.
Lemma drop_tables_all a (x : paging D) : drop_tables 1024 0 a x = drop_tables (Z.to_nat 1024) 0 a x.
Proof. reflexivity. Qed.

(** The frames after the space [a] is gone. *)
Record destroyed s (x : paging D) (a : Z) (cs : list Z) : Prop := {
  ds_pmm : pmm_wf (frames x);
  ds_same : x = set_swap (g_swap x) (set_frames (frames x) s);
  ds_wf : pages_wf (ram s) cs (fm x);
  ds_own : forall f, own_frame (ram s) a f -> fm x !! f = None;
  ds_data : forall f, 0 <= f < NPAGES -> ~ own_frame (ram s) a f -> fm x !! f = minus_refs (fm s !! f) (cnt (ram s) a (f * 4096))
}.

Lemma own_dec m a f : Decision (own_frame m a f).
Proof.
  destruct (decide (f * 4096 = a)) as [E|E]; [by left; left|].
  assert (forall n, Decision (exists i, 0 <= i < Z.of_nat n /\ user_pt m a i = Some (f * 4096))) as Hd.
  { induction n as [|n IH]; [right; intros (i & Hi & _); lia|]. destruct IH as [IH|IH]; [left; destruct IH as (i & Hi & Ei); exists i; split; [lia|done]|].
    destruct (decide (user_pt m a (Z.of_nat n) = Some (f * 4096))) as [En|En]; [left; exists (Z.of_nat n); split; [lia|done]|right].
    intros (i & Hi & Ei). destruct (decide (i = Z.of_nat n)) as [->|]; [done|]. apply IH. exists i. split; [lia|done]. }
  destruct (Hd (Z.to_nat 1024)) as [Hx|Hx]; [left; right|right].
  - destruct Hx as (i & Hi & Ei). exists i. split; [lia|done].
  - intros [?|(i & Hi & Ei)]; [done|]. apply Hx. exists i. split; [lia|done].
Qed.

Lemma destroy_spec s cs a : pmm_wf (frames s) -> pages_wf (ram s) (a :: cs) (fm s) -> all_user (ram s) a -> destroyed s (destroy_mm a s) a cs.
Proof.
  intros Hpm Hw Hall. pose proof (pw_tables _ _ _ Hw) as Ht. destruct (tw_dir _ _ Ht a (own_in_a cs a)) as [Ha1 Ha2].
  unfold destroy_mm, pd_from_phys. rewrite (page_of_self a Ha1). rewrite !(proj2 (Z.eqb_neq a 0)) by lia.
  assert (destroy_inv s a 0 (0 * 1024) s) as H0.
  { split; [done|by destruct s| |intros; lia|done]. intros f Hf _. cbn [Z.mul Z.to_nat countZ]. symmetry. apply minus_refs_0. intros n Hn. pose proof (fm_pos _ _ _ Hpm Hn). lia. }
  pose proof (drop_tables_spec s a Hall (Z.to_nat 1024) 0 s ltac:(lia) ltac:(lia) H0) as H1. rewrite drop_tables_all.
  revert H1. generalize (drop_tables (Z.to_nat 1024) 0 a s). intros x [D1 D2 D3 D4 D5].
  assert ((0 + Z.of_nat (Z.to_nat 1024)) * 1024 = NPAGES) as EK by reflexivity. rewrite EK, npages_nat in D3. assert (0 + Z.of_nat (Z.to_nat 1024) = 1024) as ET by reflexivity. rewrite ET in D4. clear EK ET H0.
  pose proof (fun f => free_lookup x a f D1 ltac:(lia)) as Hfl. set (y := frame_free a x) in *. assert (a / 4096 * 4096 = a) as Ea by zlia.
  assert (y = set_swap (g_swap y) (set_frames (frames y) s)) as Ey by (unfold y; rewrite D2; reflexivity).
  assert (forall f, own_frame (ram s) a f -> fm y !! f = None) as Hown.
  { intros f Ho. rewrite (proj2 (Hfl f)). case_decide as E; [done|]. destruct Ho as [Ef|(i & Hi & Ei)]; [exfalso; apply E; zlia|]. rewrite <- (D4 i (f * 4096) Hi Ei). by rewrite Z.div_mul by lia. }
  assert (forall f, 0 <= f < NPAGES -> ~ own_frame (ram s) a f -> fm y !! f = minus_refs (fm s !! f) (cnt (ram s) a (f * 4096))) as Hdata.
  { intros f Hf Ho. rewrite (proj2 (Hfl f)), decide_False; [by apply D3|]. intros ->. apply Ho. by left. }
  assert (pmm_wf (frames y)) as Hy by apply (Hfl 0). split; [done|done| |done|done].
  assert (forall t, is_table (ram s) cs t -> is_table (ram s) (a :: cs) t) as Hin.
  { intros t [Ht'|(c & i & Hc & Hi & E)]; [left; by right|right; exists c, i; split_and!; try done; try lia; by right]. }
  assert (a ∉ cs /\ NoDup cs) as [Hna Hnd] by (apply NoDup_cons, (tw_nodup _ _ Ht)).
  assert (forall t, is_table (ram s) cs t -> 0 <= t < 2 ^ 32 /\ t mod 4096 = 0 /\ ~ own_frame (ram s) a (t / 4096)) as Hot.
  { intros t Htt. destruct (is_table_aligned _ _ _ Ht (Hin t Htt)) as [B1 B2]. assert (t / 4096 * 4096 = t) as Et by zlia. split_and!; try lia. intros Ho. unfold own_frame in Ho. rewrite Et in Ho.
    destruct Htt as [Hc|(c & j & Hc & Hj & Ej)], Ho as [->|(i & Hi & Ei)]; [done| | |].
    - destruct (tw_pt _ _ Ht a i t (own_in_a cs a) Hi Ei) as [_ Hx]. apply Hx. by right.
    - destruct (tw_pt _ _ Ht c j a ltac:(by right) Hj Ej) as [_ Hx]. apply Hx. by left.
    - destruct (tw_inj _ _ Ht a i c j t (own_in_a cs a) Hi ltac:(by right) Hj Ei Ej) as [-> _]. done. }
  split.
  - destruct Ht as [T1 T2 T3 T4]. split; [done|intros c Hc; apply T2; by right| |intros c i c' i' pt Hc Hi Hc' Hi'; apply T4; (done || by right)].
    intros c i pt Hc Hi E. destruct (T3 c i pt ltac:(by right) Hi E) as [? Hx]. split; [done|]. intros ?. apply Hx. by right.
  - intros t Htt. destruct (Hot t Htt) as (B1 & B2 & B3). assert (t / 4096 * 4096 = t) as Et by zlia. rewrite Hdata by (done || (unfold NPAGES; zlia)).
    destruct (pw_used _ _ _ Hw t (Hin t Htt)) as [n Hn]. rewrite Hn, Et. assert (cnt (ram s) a t = 0) as ->.
    + apply countZ_none. intros k Hk. rewrite of_npages in Hk. unfold maps_to. destruct (user_pte (ram s) a k) as [pte|] eqn:Ep; [|done]. apply Z.eqb_neq. intros E.
      apply (pw_data _ _ _ Hw a k pte (own_in_a cs a) Hk Ep). rewrite E. by apply Hin.
    + rewrite minus_refs_0; [by exists n|]. intros n' [= <-]. pose proof (fm_pos _ _ _ Hpm Hn). lia.
  - intros c k pte Hc Hk Hp Htt. apply (pw_data _ _ _ Hw c k pte ltac:(by right) Hk Hp). by apply Hin.
  - intros b Hb1 Hb2. assert (b / 4096 * 4096 = b) as Eb by zlia. pose proof (pw_count _ _ _ Hw b Hb1 Hb2) as Hcb. cbn [total] in Hcb. pose proof (total_nonneg (ram s) cs b) as Htn.
    destruct (own_dec (ram s) a (b / 4096)) as [Ho|Ho].
    + rewrite Hown by done. simpl. assert (total (ram s) (a :: cs) b <= 0); [|cbn [total] in *; pose proof (cnt_nonneg (ram s) a b); lia].
      destruct (Z.le_gt_cases (total (ram s) (a :: cs) b) 0) as [|Hgt]; [done|exfalso]. destruct (total_pos _ _ _ Hgt) as (c & k & pte & Hc & Hk & Hp & Ep).
      apply (pw_data _ _ _ Hw c k pte Hc Hk Hp). rewrite Ep, <- Eb. by apply (own_table s cs a).
    + rewrite Hdata by (done || (unfold NPAGES; zlia)). rewrite Eb. destruct (fm s !! (b / 4096)) as [n|]; simpl in Hcb |- *; [|pose proof (cnt_nonneg (ram s) a b); lia].
      destruct (Z.ltb_spec (cnt (ram s) a b) n); simpl; lia.
Qed.

Lemma fm_range s f n : pmm_wf (frames s) -> fm s !! f = Some n -> 0 <= f < NPAGES.
Proof.
  intros Hp Hl. assert (0 <= f) as Hf by (unfold fm in Hl; rewrite lookup_frames_of in Hl; unfold in_use in Hl; case_match; [bool_to_prop; lia|done]).
  pose proof Hp as [[_ _ Hb _ _ _] _ _]. unfold fm in Hl. rewrite <- (Z.div_mul f 4096) in Hl by lia. destruct (lookup_frame_Some (frames s) (f * 4096) n Hp ltac:(lia) Hl) as (Hr & _).
  rewrite Z.div_mul in Hr by lia. unfold NPAGES. lia.
Qed.

(** The last reference to an address space. *)
Definition last_ref s a : Prop := forall k x, g_mm_slots s !! k = Some x -> live (g_kernel_cr3 s) x = true -> mm_cr3 x = a -> mm_refs x <= 1.

Record released s s' (a : Z) : Prop := {
  re_wf : wf s';
  re_spaces : spaces s ≡ₚ a :: spaces s';
  re_ram : ram s' = ram s;
  re_own : forall f, own_frame (ram s) a f -> fm s' !! f = None;
  re_data : forall f, 0 <= f < NPAGES -> ~ own_frame (ram s) a f -> fm s' !! f = minus_refs (fm s !! f) (cnt (ram s) a (f * 4096));
  re_kernel : g_kernel_cr3 s' = g_kernel_cr3 s;
  re_current : g_current_cr3 s' = g_current_cr3 s
}.

Lemma spaces_slot s a : a ∈ spaces s -> exists k x, g_mm_slots s !! k = Some x /\ live (g_kernel_cr3 s) x = true /\ mm_cr3 x = a.
Proof.
  unfold spaces. intros (x & -> & Hx)%list_elem_of_fmap. apply list_elem_of_In, filter_In in Hx as [Hx Hl]. apply list_elem_of_In, list_elem_of_lookup in Hx as [k Hk]. by exists k, x.
Qed.
Lemma spaces_not_kernel s a : a ∈ spaces s -> a <> g_kernel_cr3 s.
Proof. intros (k & x & _ & Hl & <-)%spaces_slot. apply andb_true_iff in Hl as [_ Hl]. by apply negb_true_iff, Z.eqb_neq in Hl. Qed.

Lemma release_spec s a : wf s -> a ∈ spaces s -> all_user (ram s) a -> last_ref s a -> released s (paging_release_mm a s) a.
Proof.
  intros [Hpm Hw] Ha Hall Hlast. destruct (tw_dir _ _ (pw_tables _ _ _ Hw) a Ha) as [Ha1 Ha2]. unfold paging_release_mm. rewrite (page_of_self a Ha1), (proj2 (Z.eqb_neq a 0)) by lia.
  pose proof (spaces_not_kernel s a Ha) as Hk. destruct (spaces_slot s a Ha) as (k0 & x0 & Hk0 & Hl0 & E0).
  unfold mm_find_slot. destruct (find_mm_spec (fun x => mm_used x && (mm_cr3 x =? a)) (g_mm_slots s) 0 ltac:(lia)) as [[_ Hno]|(k & x & Ek & Hkx & Hx)].
  { specialize (Hno k0 x0 Hk0). exfalso. unfold live in Hl0. apply andb_true_iff in Hl0 as [Hu _]. rewrite Hu, E0, Z.eqb_refl in Hno. done. }
  rewrite Ek. rewrite (proj2 (Z.ltb_ge (0 + Z.of_nat k) 0)) by lia. replace (Z.to_nat (0 + Z.of_nat k)) with k by lia. unfold put_mm. replace (Z.to_nat (0 + Z.of_nat k)) with k by lia.
  apply andb_true_iff in Hx as [Hu Ex]. apply Z.eqb_eq in Ex. assert (live (g_kernel_cr3 s) x = true) as Hlx by (unfold live; rewrite Hu, Ex; cbn [andb]; by rewrite (proj2 (Z.eqb_neq _ _)) by done).
  rewrite (list_lookup_total_correct _ _ _ Hkx), (proj2 (Z.ltb_ge 1 _)) by (by apply (Hlast k)). set (s1 := set_mm_slots _ s).
  change (g_kernel_cr3 s1) with (g_kernel_cr3 s). rewrite (proj2 (Z.eqb_neq _ _)) by done.
  pose proof (spaces_clear s k x Hkx Hlx) as Hsp. fold s1 in Hsp. rewrite Ex in Hsp.
  pose proof (destroy_spec s1 (spaces s1) a Hpm (pages_wf_perm _ _ _ _ Hsp Hw) Hall) as Hd. revert Hd. generalize (destroy_mm a s1). intros y [Y1 Y2 Y3 Y4 Y5].
  assert (spaces y = spaces s1) as Esp by (rewrite Y2; reflexivity). assert (ram y = ram s) as Er by (rewrite Y2; reflexivity).
  split; [split; [done|by rewrite Esp, Er]|by rewrite Esp|done|exact Y4|exact Y5|rewrite Y2; reflexivity|rewrite Y2; reflexivity].
Qed.

(** ** The whole fork *)

(** What a fork of [c] that gives the child [a] achieves. *)
Record forked s s' (sh : Z -> bool) (c a : Z) : Prop := {
  fk_wf : wf s';
  fk_spaces : spaces s' ≡ₚ a :: spaces s;
  fk_view : forall c' va, c' ∈ spaces s -> 0 <= va < 2 ^ 32 -> uview (ram s') c' va = uview (ram s) c' va;
  fk_child_view : forall va, 0 <= va < 2 ^ 32 -> uview (ram s') a va = uview (ram s) c va;
  fk_parent : forall k, page_number k -> pte_at (ram s') c k = fork_parent (sh (k * 4096)) <$> pte_at (ram s) c k;
  fk_child : forall k, page_number k -> pte_at (ram s') a k = fork_child (sh (k * 4096)) <$> pte_at (ram s) c k;
  fk_current : g_current_cr3 s' = c;
  fk_kernel : g_kernel_cr3 s' = g_kernel_cr3 s
}.

Definition refs_room s c : Prop := forall f n, 0 <= f < NPAGES -> fm s !! f = Some n -> n + cnt (ram s) c (f * 4096) <= 0xFFFF.

Lemma user_pte_of m m' c c' k (g : Z -> Z) : (forall e, pte_at m c k = Some e -> is_user (g e) = is_user e /\ (is_user e = true -> page_of (g e) = page_of e)) -> pte_at m' c' k = g <$> pte_at m c k ->
  user_pte m' c' k = g <$> user_pte m c k /\ (forall e, user_pte m c k = Some e -> page_of (g e) = page_of e).
Proof.
  intros Hg E. unfold user_pte. rewrite E. destruct (pte_at m c k) as [e|]; [|done]. cbn [fmap option_fmap option_map present]. destruct (Hg e eq_refl) as [H1 H2]. rewrite H1.
  destruct (is_user e); [|done]. split; [done|]. intros e' [= <-]. by apply H2.
Qed.
Lemma fork_parent_page sh e : 0 <= e < 2 ^ 32 -> is_user (fork_parent sh e) = is_user e /\ (is_user e = true -> page_of (fork_parent sh e) = page_of e).
Proof. intros He. split; [by apply fork_parent_user|]. intros Hu. unfold fork_parent. rewrite Hu. apply (fork_pte_bits sh e He). Qed.
Lemma fork_child_page sh e : 0 <= e < 2 ^ 32 -> is_user (fork_child sh e) = is_user e /\ (is_user e = true -> page_of (fork_child sh e) = page_of e).
Proof. intros He. split; [by apply fork_child_user|]. intros Hu. unfold fork_child. rewrite Hu. apply (fork_pte_bits sh e He). Qed.

(** The bytes a space shows when its entries keep their pages. *)
Lemma view_of m m' cs F c c' va (g : Z -> Z) : pages_wf m' cs F -> (forall b, ~ is_table m' cs (page_of b) -> ld8 m' b = ld8 m b) -> c' ∈ cs -> 0 <= va < 2 ^ 32 ->
  (forall e, pte_at m c (va / 4096) = Some e -> is_user (g e) = is_user e /\ (is_user e = true -> page_of (g e) = page_of e)) ->
  pte_at m' c' (va / 4096) = g <$> pte_at m c (va / 4096) -> uview m' c' va = uview m c va.
Proof.
  intros Hw Hby Hc Hva Hg E. destruct (user_pte_of m m' c c' (va / 4096) g Hg E) as [E1 E2]. unfold uview. pose proof (pw_data _ _ _ Hw c' (va / 4096)) as Hd. rewrite E1 in *.
  destruct (user_pte m c (va / 4096)) as [e|]; [|done]. cbn [fmap option_fmap option_map] in *. f_equal. rewrite (E2 e eq_refl). apply Hby.
  rewrite page_of_offset by (apply page_of_aligned || (apply Z.mod_pos_bound; lia)). rewrite <- (E2 e eq_refl). apply Hd; [done|by apply va_page_number|done].
Qed.
Lemma fmap_id_option (o : option Z) : (fun x => x) <$> o = o.
Proof. by destruct o. Qed.

(** The views after the loops. *)
Lemma inv_view s0 sh c a T K s c' va : fork_inv s0 sh c a T K s -> c' ∈ spaces s0 -> c' <> a -> 0 <= va < 2 ^ 32 -> uview (ram s) c' va = uview (ram s0) c' va.
Proof.
  intros [I1 I2 I3 I4 I5 I6 I7 I8 I9 I10 I11 I12 I13 I14] Hc Hne Hva. pose proof (va_page_number va Hva) as Hk.
  destruct (decide (c' = c)) as [->|Hcc]; [destruct (decide (va / 4096 < K)) as [Hlt|Hge]|].
  - apply (view_of _ _ (spaces s0) (fm s) c c va (fork_parent (sh (va / 4096 * 4096)))); [done|done|done|done| |by apply I6].
    intros e He. apply fork_parent_page. by eapply pte_at_range.
  - apply (view_of _ _ (spaces s0) (fm s) c c va (fun x => x)); [done|done|done|done|done|]. rewrite fmap_id_option. apply I7; [done|lia].
  - apply (view_of _ _ (spaces s0) (fm s) c' c' va (fun x => x)); [done|done|done|done|done|]. rewrite fmap_id_option. by apply I8.
Qed.
Lemma inv_child_user s0 sh c a T K s : fork_inv s0 sh c a T K s -> all_user (ram s) a.
Proof.
  intros [I1 I2 I3 I4 I5 I6 I7 I8 I9 I10 I11 I12 I13 I14] k e Hk He HP. destruct (decide (k < K)) as [Hlt|Hge].
  - destruct (I6 k Hk Hlt) as [_ E]. rewrite He in E. destruct (pte_at (ram s0) c k) as [e0|] eqn:E0; [|done]. injection E as ->. rewrite fork_child_user by (by eapply pte_at_range).
    unfold fork_child in HP. destruct (is_user e0); [done|]. destruct (pte_is_swapped e0) eqn:Es; [|done]. unfold pte_is_swapped in Es. by rewrite HP in Es.
  - destruct (I7 k Hk ltac:(lia)) as [_ E]. by rewrite (E e He) in HP.
Qed.

(** The loops begin. *)
Lemma fork_start s s0 sh c a : wf s -> c ∈ spaces s -> created s s0 a -> refs_room s c ->
  fork_inv s0 sh c a 0 (0 * 1024) s0 /\ refs_room s0 c /\ c ∈ spaces s0 /\ a ∈ spaces s0 /\ c <> a /\
  (forall k, page_number k -> pte_at (ram s0) c k = pte_at (ram s) c k) /\
  (forall c' va, c' ∈ spaces s -> 0 <= va < 2 ^ 32 -> uview (ram s0) c' va = uview (ram s) c' va).
Proof.
  intros [Hpm Hw] Hc [C1 C2 C3 C4 C5 C6 C7 C8 C9 C10 C11] Hroom. pose proof C1 as [Hpm0 Hw0]. pose proof (fresh_not_table _ _ _ a Hw C3) as Hnt. pose proof (pw_tables _ _ _ Hw) as Ht.
  assert (c <> a) as Hca by (apply Hnt; by left).
  assert (forall k, page_number k -> pte_at (ram s0) c k = pte_at (ram s) c k) as Hpte by (intros k Hk; by apply (off_pte_at (ram s) (ram s0) (spaces s) a Ht Hnt C8)).
  split_and!.
  - split; try done.
    + intros k Hk Hlt. unfold page_number in Hk. lia.
    + intros k Hk _. split; [done|]. intros e. unfold pte_at. destruct (page_number_parts k Hk). by rewrite C7.
    + intros i Hi _. by apply C7.
    + intros f n Hf Hn. rewrite Hn. f_equal. assert (cnt (ram s0) a (f * 4096) = 0) as ->; [|lia]. apply countZ_none. intros k Hk. rewrite of_npages in Hk.
      unfold maps_to, user_pte, pte_at. destruct (page_number_parts k Hk). by rewrite C7.
    + intros f n H1 H2. congruence.
    + intros i pt Hi. by rewrite C7.
  - intros f n Hf. rewrite C4, lookup_insert. assert (cnt (ram s0) c (f * 4096) = cnt (ram s) c (f * 4096)) as -> by (apply cnt_ext; intros k Hk; unfold user_pte; by rewrite Hpte).
    case_decide as E; [|by apply Hroom]. intros [= <-]. pose proof (total_in (ram s) (spaces s) c (f * 4096) Hc) as Hle. assert (f * 4096 = a) as Ef by (destruct C2; zlia).
    rewrite Ef in *. rewrite (fresh_total _ _ _ _ Hw C2 C3) in Hle. lia.
  - rewrite C5. by right.
  - rewrite C5. by left.
  - done.
  - done.
  - intros c' va Hc' Hva. by apply (fresh_view (ram s) (ram s0) (spaces s) (fm s) a).
Qed.

Lemma frame_number_range f n s : fm s !! f = Some n -> pmm_wf (frames s) -> 0 <= f < NPAGES.
Proof. intros Hn Hp. by eapply fm_range. Qed.
(** Releasing the child gives back what the loops took. *)
Lemma release_child s s0 sh c a T K s1 : wf s -> c ∈ spaces s -> created s s0 a -> refs_room s c -> fork_inv s0 sh c a T K s1 -> untouched s (paging_release_mm a s1).
Proof.
  intros Hwf Hc Hcr Hroom Hinv. destruct (fork_start s s0 sh c a Hwf Hc Hcr Hroom) as (_ & _ & Hc0 & Ha0 & Hca & _ & Hv0). pose proof (inv_child_user _ _ _ _ _ _ _ Hinv) as Hall.
  pose proof (fun c' va => inv_view s0 sh c a T K s1 c' va Hinv) as Hv. pose proof Hcr as [C1 C2 C3 C4 C5 C6 C7 C8 C9 C10 C11]. pose proof Hinv as [I1 I2 I3 I4 I5 I6 I7 I8 I9 I10 I11 I12 I13 I14].
  assert (spaces s1 = spaces s0) as Esp by (unfold spaces; by rewrite I3, I4). assert (wf s1) as Hwf1 by (split; [done|by rewrite Esp]).
  assert (last_ref s1 a) as Hlast.
  { intros k x Hk Hl E. destruct C6 as [k' Hk']. rewrite <- I3 in Hk'.
    assert (k' = k) as -> by (apply (slot_unique s1 k x k' (mk_mm a 1 true)); [apply (tw_nodup _ _ (pw_tables _ _ _ (proj2 Hwf1)))|done|done|done| |by rewrite E];
      unfold live; cbn; by rewrite (proj2 (Z.eqb_neq _ _)) by (apply spaces_not_kernel; by rewrite Esp)).
    rewrite Hk in Hk'. by injection Hk' as ->. }
  destruct (release_spec s1 a Hwf1 ltac:(by rewrite Esp) Hall Hlast) as [R1 R2 R3 R4 R5 R6 R7]. revert R1 R2 R3 R4 R5 R6 R7. generalize (paging_release_mm a s1). intros s' R1 R2 R3 R4 R5 R6 R7.
  split; [done| | | |rewrite R6, I4; exact C9|rewrite R7, I5; exact C10].
  - apply (Permutation_cons_inv (a := a)). by rewrite <- R2, Esp, C5.
  - intros c' va Hc' Hva. rewrite R3. rewrite Hv, Hv0; [done|done|done|rewrite C5; by right| |done]. intros ->.
    by apply (fresh_not_table _ _ _ a (proj2 Hwf) C3 a ltac:(by left)).
  - intros _. apply map_eq. intros f. assert (forall n, fm s !! f = Some n -> fm s0 !! f = Some n) as Hg by (intros n Hn; rewrite C4; by apply insert_fresh).
    assert (0 <= f < NPAGES \/ (fm s' !! f = None /\ fm s !! f = None)) as [Hf|[-> ->]]; [|..|done].
    { destruct (fm s' !! f) as [n|] eqn:E1; [left; apply (fm_range s' f n); [apply R1|done]|]. destruct (fm s !! f) as [n|] eqn:E2; [left; apply (fm_range s f n); [apply Hwf|done]|by right]. }
    destruct (own_dec (ram s1) a f) as [Ho|Ho].
    + rewrite R4 by done. destruct Ho as [E|(i & Hi & E)]; [assert (f = a / 4096) as -> by zlia; done|]. pose proof (I14 i (f * 4096) Hi E) as Hn. rewrite Z.div_mul in Hn by lia.
      destruct (fm s !! f) as [n|] eqn:En; [|done]. rewrite (Hg n eq_refl) in Hn. done.
    + rewrite R5 by done. destruct (fm s !! f) as [n|] eqn:En.
      * rewrite (I12 f n Hf (Hg n eq_refl)). unfold minus_refs. pose proof (fm_pos _ _ _ (proj1 Hwf) En). rewrite (proj2 (Z.ltb_lt _ _)) by lia. f_equal. lia.
      * destruct (fm s1 !! f) as [n|] eqn:E1; [|done]. exfalso. destruct (decide (f = a / 4096)) as [->|Hne]; [apply Ho; left; destruct C2; zlia|].
        destruct (I13 f n E1) as (i & Hi & Ei); [by rewrite C4, lookup_insert_ne by done|]. apply Ho. right. by exists i.
Qed.

Lemma fork_spec cr3 sh s : wf s -> g_current_cr3 s ∈ spaces s -> kernel_live s -> is_Some (fm s !! 0) -> refs_room s (g_current_cr3 s) ->
  let c := g_current_cr3 s in
  let '(rc, a, s') := paging_fork_current_cow cr3 sh s in
  (rc = 0 /\ forked s s' sh c a /\ untouched s (paging_release_mm a s')) \/ (rc < 0 /\ untouched s s').
Proof.
  intros Hwf Hc Hkl Hz Hroom. cbv zeta. destruct (tw_dir _ _ (pw_tables _ _ _ (proj2 Hwf)) _ Hc) as [Hc1 Hc2]. unfold paging_fork_current_cow, paging_current_cr3.
  rewrite (proj2 (Z.eqb_neq (g_current_cr3 s) 0)) by lia. unfold pd_from_phys. rewrite !(page_of_self (g_current_cr3 s)) by done. rewrite (proj2 (Z.eqb_neq (g_current_cr3 s) 0)) by lia.
  pose proof (create_mm_spec s Hwf Hkl) as Hcr. destruct (paging_create_mm s) as [[mk a] s0]. destruct Hcr as [[-> Hcr]|[Hmk Hun]].
  2: { rewrite (proj2 (Z.ltb_lt mk 0)) by done. by right. }
  rewrite Z.ltb_irrefl. set (c := g_current_cr3 s) in *. destruct (fork_start s s0 sh c a Hwf Hc Hcr Hroom) as (Hi0 & Hroom0 & Hc0 & Ha0 & Hca & Hpte0 & Hv0).
  pose proof Hcr as [C1 C2 C3 C4 C5 C6 C7 C8 C9 C10 C11]. rewrite (page_of_self a) by apply C2.
  assert (is_Some (fm s0 !! 0)) as Hz0 by (destruct Hz as [n Hn]; exists n; rewrite C4; by apply insert_fresh).
  pose proof (fork_tables_spec s0 sh c a Hc0 Ha0 Hca Hroom0 Hz0 1024 0 s0 (conj Hc1 Hc2) C2 ltac:(lia) ltac:(lia) Hi0) as Hft.
  revert Hft. generalize (fork_tables 1024 0 c a sh s0). intros [ok s1] [[-> Hinv]|[-> (i' & Hi' & Hinv)]].
  2: { right. split; [lia|]. by apply (release_child s s0 sh c a i' (i' * 1024) s1). }
  left. split; [done|]. assert ((0 + Z.of_nat 1024) * 1024 = NPAGES) as EK by reflexivity. rewrite EK in Hinv. assert (0 + Z.of_nat 1024 = 1024) as ET by reflexivity. rewrite ET in Hinv. clear EK ET.
  pose proof (fun c' va => inv_view s0 sh c a 1024 NPAGES s1 c' va Hinv) as Hv. pose proof Hinv as [I1 I2 I3 I4 I5 I6 I7 I8 I9 I10 I11 I12 I13 I14].
  assert (spaces s1 = spaces s0) as Esp by (unfold spaces; by rewrite I3, I4).
  assert (set_current_cr3 c s1 = s1) as ->.
  { assert (g_current_cr3 s1 = c) as E by (rewrite I5; exact C10). rewrite <- E. by destruct s1. }
  split; [|by apply (release_child s s0 sh c a 1024 NPAGES s1)]. split; [split; [done|by rewrite Esp]|by rewrite Esp| | | | |rewrite I5; exact C10|rewrite I4; exact C9].
  - intros c' va Hc' Hva. rewrite Hv, Hv0; [done|done|done|rewrite C5; by right| |done]. intros ->. by apply (fresh_not_table _ _ _ a (proj2 Hwf) C3 a ltac:(by left)).
  - intros va Hva. rewrite <- Hv0 by done. pose proof (va_page_number va Hva) as Hk.
    apply (view_of _ _ (spaces s0) (fm s1) c a va (fork_child (sh (va / 4096 * 4096)))); [done|done|done|done| |apply I6; [done|apply Hk]].
    intros e He. apply fork_child_page. by eapply pte_at_range.
  - intros k Hk. rewrite <- Hpte0 by done. apply I6; [done|apply Hk].
  - intros k Hk. rewrite <- Hpte0 by done. apply I6; [done|apply Hk].
Qed.

(** C5: Fork gives the child the parent's memory and shares it copy on write.
    On success the child is a new address space that shows the parent's bytes
    at every user address; no address space that existed before sees a byte
    change; and a page that is not shared on purpose is writable in neither
    parent nor child, and marked copy on write in both when it was writable,
    so that the first write to it faults. On failure (no frame, no slot) no
    address space has appeared and every frame is as it was. *)
Theorem fork_copies_on_write cr3 sh s :
  wf s -> g_current_cr3 s ∈ spaces s -> kernel_live s -> is_Some (fm s !! 0) -> refs_room s (g_current_cr3 s) ->
  let c := g_current_cr3 s in
  let '(rc, a, s') := paging_fork_current_cow cr3 sh s in
  wf s' /\ (forall c' va, c' ∈ spaces s -> 0 <= va < 2 ^ 32 -> uview (ram s') c' va = uview (ram s) c' va) /\
  ((rc = 0 /\ spaces s' ≡ₚ a :: spaces s /\
    (forall va, 0 <= va < 2 ^ 32 -> uview (ram s') a va = uview (ram s) c va) /\
    (forall k pte, page_number k -> sh (k * 4096) = false -> user_pte (ram s) c k = Some pte ->
       exists pte', user_pte (ram s') c k = Some pte' /\ user_pte (ram s') a k = Some pte' /\ page_of pte' = page_of pte /\
         is_set pte' PTE_W = false /\ (is_set pte PTE_W = true -> is_set pte' PTE_COW = true))) \/
   (rc < 0 /\ spaces s' ≡ₚ spaces s /\ fm s' = fm s)).
Proof.
  intros Hwf Hc Hkl Hz Hroom. cbv zeta. pose proof (fork_spec cr3 sh s Hwf Hc Hkl Hz Hroom) as Hf. cbv zeta in Hf.
  destruct (paging_fork_current_cow cr3 sh s) as [[rc a] s']. destruct Hf as [(-> & [F1 F2 F3 F4 F5 F6 F7 F8] & _)|[Hrc [U1 U2 U3 U4 U5 U6]]].
  2: { split_and!; [done|done|right]. split_and!; [done|done|by apply U4]. }
  split_and!; [done|done|left]. split_and!; [done|done|done|]. intros k pte Hk Hsh Hp. pose proof (user_pte_range _ _ _ _ Hp) as Hr. destruct (user_pte_at _ _ _ _ Hp) as [Hat Hu].
  destruct (fork_pte_bits (sh (k * 4096)) pte Hr) as (B1 & B2 & B3 & B4 & B5). rewrite Hsh in *. rewrite Hu in B3. exists (fork_pte false pte). unfold user_pte. rewrite (F5 k Hk), (F6 k Hk), Hsh, Hat.
  cbn [fmap option_fmap option_map present]. unfold fork_parent, fork_child. rewrite Hu, B3. split_and!; [done|done|done|by apply B4|intros ?; by apply B5].
Qed.

(** C7: A fork undone leaves no trace. Releasing the child right after a
    successful fork gives back every frame and reference the fork took: the
    frame allocator is exactly as before, the address spaces are the old ones,
    and each shows the bytes it showed. *)
Theorem fork_then_release cr3 sh s :
  wf s -> g_current_cr3 s ∈ spaces s -> kernel_live s -> is_Some (fm s !! 0) -> refs_room s (g_current_cr3 s) ->
  let '(rc, a, s') := paging_fork_current_cow cr3 sh s in
  let s'' := if rc =? 0 then paging_release_mm a s' else s' in
  wf s'' /\ fm s'' = fm s /\ spaces s'' ≡ₚ spaces s /\ g_current_cr3 s'' = g_current_cr3 s /\
  forall c va, c ∈ spaces s -> 0 <= va < 2 ^ 32 -> uview (ram s'') c va = uview (ram s) c va.
Proof.
  intros Hwf Hc Hkl Hz Hroom. pose proof (fork_spec cr3 sh s Hwf Hc Hkl Hz Hroom) as Hf. cbv zeta in *.
  destruct (paging_fork_current_cow cr3 sh s) as [[rc a] s']. destruct Hf as [(-> & _ & [U1 U2 U3 U4 U5 U6])|[Hrc [U1 U2 U3 U4 U5 U6]]].
  - change (0 =? 0) with true. cbv iota. split_and!; [done|by apply U4|done|done|done].
  - rewrite (proj2 (Z.eqb_neq rc 0)) by lia. split_and!; [done|by apply U4|done|done|done].
Qed.

(** Releasing the last reference to an address space ends it and nothing
    else. The directory and the tables are free, a frame it mapped loses
    exactly one reference per mapping (and is free when none is left), and
    every other address space stays well formed and shows the same bytes. *)
Theorem release_gives_back a s :
  wf s -> a ∈ spaces s -> all_user (ram s) a -> last_ref s a ->
  let s' := paging_release_mm a s in
  wf s' /\ spaces s ≡ₚ a :: spaces s' /\
  (forall f, own_frame (ram s) a f -> fm s' !! f = None) /\
  (forall f n, fm s !! f = Some n -> ~ own_frame (ram s) a f ->
     fm s' !! f = if cnt (ram s) a (f * 4096) <? n then Some (n - cnt (ram s) a (f * 4096)) else None) /\
  (forall c va, uview (ram s') c va = uview (ram s) c va).
Proof.
  intros Hwf Ha Hall Hlast. cbv zeta. destruct (release_spec s a Hwf Ha Hall Hlast) as [R1 R2 R3 R4 R5 R6 R7].
  split_and!; [done|done|done| |by rewrite R3]. intros f n Hn Ho. rewrite R5 by (done || (eapply fm_range; [apply Hwf|done])). by rewrite Hn.
Qed.

(** C6: Copy on write isolates address spaces. When the current task writes to
    a page it shares copy on write, the fault handler makes the page writable
    and private without any address space seeing a byte change; a byte the
    task then stores at the address is seen there and nowhere else, in its own
    address space or in any other. The handler fails only when there is no
    frame left, and then nothing has changed. With swapping enabled the
    statement is for a fault that finds a frame free; otherwise the handler
    first makes one free by swapping a page out. *)
Theorem cow_write_isolated va err pte b s :
  wf s -> g_current_cr3 s ∈ spaces s -> 0 <= va < 2 ^ 32 -> is_set err 1 = true -> is_set err 2 = true ->
  user_pte (ram s) (g_current_cr3 s) (va / 4096) = Some pte -> is_set pte PTE_COW = true -> (sw_enabled (g_swap s) = true -> (frame_alloc s).1 <> 0) ->
  let c := g_current_cr3 s in
  let '(rc, s') := handle_cow_fault va err s in
  wf s' /\ spaces s' = spaces s /\
  (forall c' va', c' ∈ spaces s -> 0 <= va' < 2 ^ 32 -> uview (ram s') c' va' = uview (ram s) c' va') /\
  ((rc = -1 /\ (frame_alloc s).1 = 0) \/
   (rc = 1 /\ (exists pte', user_pte (ram s') c (va / 4096) = Some pte' /\ is_set pte' PTE_W = true /\ is_set pte' PTE_COW = false) /\
    let m := ram (store_at va [b] s') in
    uview m c va = Some (u8 b) /\
    forall c' va', c' ∈ spaces s -> 0 <= va' < 2 ^ 32 -> (c', va') <> (c, va) -> uview m c' va' = uview (ram s) c' va')).
Proof.
  intros Hwf Hc Hva He1 He2 Hp Hcow Hsw. cbv zeta. pose proof (cow_fault_spec va err pte s Hwf Hc Hva He1 He2 Hp Hcow Hsw) as Hf.
  destruct (handle_cow_fault va err s) as [rc s']. destruct Hf as [[-> [Hwf' Es Ec Hv (pte' & Hp' & Hpw & Hpc) Ho]]|(-> & Ea & Hwf' & Es & Er)].
  2: { split_and!; [done|done|intros; by rewrite Er|by left]. }
  split_and!; [done|done|done|]. right. split_and!; [done|by exists pte'|..].
  all: destruct Hwf' as [_ Hw']; rewrite Es in Hw'; pose proof (pw_tables _ _ _ Hw') as Ht'; set (c := g_current_cr3 s) in *; set (k := va / 4096) in *.
  all: assert (ram (store_at va [b] s') = st_bytes (ram s') (page_of pte' + va mod 4096) [b]) as -> by
    (unfold store_at, at_page; rewrite Ec; fold c; rewrite (pte_translate (ram s') c va pte'); [by rewrite land_FFF|by apply (tw_dir _ _ Ht')|done|done]).
  all: set (m := st_bytes _ _ _); pose proof (Z.mod_pos_bound va 4096 ltac:(lia)) as Hof; pose proof (page_of_aligned pte') as Hal.
  all: assert (forall x, ld8 m x = if decide (x = page_of pte' + va mod 4096) then u8 b else ld8 (ram s') x) as Hld by
    (intros x; unfold m; rewrite ld8_st_bytes; simpl length; destruct (decide (x = page_of pte' + va mod 4096)) as [->|Hx];
     [rewrite decide_True by lia; by rewrite Z.sub_diag|by rewrite decide_False by lia]).
  all: assert (forall t, is_table (ram s') (spaces s) t -> t <> page_of pte') as Hnt by (intros t Htt ->; by apply (pw_data _ _ _ Hw' c k pte' Hc (va_page_number va Hva) Hp')).
  all: assert (forall x, page_of x <> page_of pte' -> ld8 m x = ld8 (ram s') x) as Hm by
    (intros x Hx; rewrite Hld, decide_False; [done|intros ->; apply Hx; by apply page_of_offset]).
  all: pose proof (off_pte (ram s') m (spaces s) (page_of pte') Ht' Hnt Hm) as Hop.
  - unfold uview. fold k. rewrite Hop, Hp' by (done || by apply va_page_number). rewrite Hld. by rewrite decide_True by done.
  - intros c' va' Hc' Hva' Hne. rewrite <- Hv by done. pose proof (va_page_number va' Hva') as Hk'. unfold uview. rewrite Hop by done.
    destruct (user_pte (ram s') c' (va' / 4096)) as [pte''|] eqn:E; [|done]. f_equal. rewrite Hld, decide_False; [done|]. intros Eq.
    assert (page_of pte'' = page_of pte') as Epp.
    { rewrite <- (page_of_offset (page_of pte') (va mod 4096)), <- Eq by done. rewrite page_of_offset; [done|apply page_of_aligned|]. apply Z.mod_pos_bound. lia. }
    destruct (Ho pte' c' (va' / 4096) pte'' Hp' Hc' Hk' E Epp) as [-> Ek]. apply Hne. f_equal. rewrite Epp in Eq. rewrite (Z.div_mod va 4096), (Z.div_mod va' 4096) by lia. unfold k in Ek. lia.
Qed.

End fork.

(** ** A concrete machine *)

Section demo.
#[local] Instance no_outside : Outside unit := {|
  blockdev_write _ _ _ _ d := (0, d);
  blockdev_read _ _ _ d := (0, [], d);
  vfs_read _ _ _ d := (0, [], d);
  node_size _ _ := 0
|}.

(** Sixteen frames: frame 0, the kernel's directory, one directory, one table
    and one page are in use. *)
Definition demo_frames : pmm := mk_pmm 0x9000 [0xFFFF001F] 0xA000 ([1; 1; 1; 1; 1] ++ replicate 11 0) 16 11 0xB000.
Definition demo_ram : mem := st32 (st32 ∅ 0x2000 0x3007) 0x3000 0x4007.
Definition demo : paging unit :=
  mk_paging demo_ram demo_frames 0x1000 0x2000 (mk_mm 0x1000 1 true :: mk_mm 0x2000 1 true :: replicate 62 no_mm) [] 0 0 0 [] no_swap tt.

Lemma demo_pmm_wf : pmm_wf demo_frames.
Proof.
  assert (forall f, 0 <= f < 16 -> f ∈ seqZ 0 16) as Hc by (intros f Hf; apply elem_of_seqZ; lia).
  constructor; [constructor; (simpl; lia) || (by vm_compute)|..]; cbn [demo_frames g_bitmap_bits]; intros f Hf%Hc;
    repeat (apply elem_of_cons in Hf as [->|Hf]; [by vm_compute|]); by apply elem_of_nil in Hf.
Qed.
Lemma demo_fm : fm demo = <[0 := 1]> (<[1 := 1]> (<[2 := 1]> (<[3 := 1]> (<[4 := 1]> ∅)))).
Proof. vm_compute. reflexivity. Qed.
Lemma demo_spaces : spaces demo = [0x2000].
Proof. reflexivity. Qed.
Lemma entry_empty t i : entry ∅ t i = 0.
Proof. reflexivity. Qed.

Lemma demo_wf : wf demo.
Proof.
  split; [exact demo_pmm_wf|]. rewrite demo_spaces, demo_fm. change (ram demo) with (st32 (st32 ∅ (0x2000 + 4 * 0) 0x3007) (0x3000 + 4 * (0 mod 1024)) 0x4007).
  assert (pages_wf ∅ [] ∅) as H0.
  { split; [split; [constructor|..]|..]; try (intros; exfalso; by eapply not_elem_of_nil). - intros t [Ht|(c & i & Hc & _)]; exfalso; by eapply not_elem_of_nil. - intros a _ _. by rewrite lookup_empty. }
  assert (is_frame 0x2000 /\ is_frame 0x3000) as [A1 A2] by (unfold is_frame; split; split; (reflexivity || lia)).
  assert (pages_wf ∅ [0x2000] (<[2 := 1]> ∅)) as H1.
  { apply (add_space_wf ∅ ∅ [] ∅ 0x2000 H0 A1 eq_refl); [done|intros i Hi; unfold user_pt; by rewrite entry_empty|done| |by exists 1].
    intros f n Hn. apply lookup_insert_Some in Hn as [[_ <-]|[_ Hn]]; [lia|done]. }
  assert (0x2000 ∈ [0x2000]) as Hin by by left. set (F3 := <[2 := 1]> (<[3 := 1]> ∅) : gmap Z Z).
  assert (pages_wf (st32 ∅ (0x2000 + 4 * 0) 0x3007) [0x2000] F3) as H2.
  { apply (add_table_wf ∅ ∅ [0x2000] (<[2 := 1]> ∅) F3 0x3000 0x2000 0 0x3007 H1 A2 eq_refl); [done|done|done|lia|done|lia|done|done| | |by exists 1];
      intros f n Hn; apply lookup_insert_Some in Hn as [[<- <-]|[_ Hn]]; try done; by apply lookup_insert_Some in Hn as [[_ <-]|[_ Hn]]. }
  set (m := st32 ∅ (0x2000 + 4 * 0) 0x3007) in *. set (F := <[0 := 1]> _).
  assert (forall t, is_table m [0x2000] t -> is_Some (F3 !! (t / 4096))) as Hu by exact (pw_used _ _ _ H2).
  assert (forall f n, F3 !! f = Some n -> F !! f = Some n) as HF.
  { intros f n Hn. apply lookup_insert_Some in Hn as [[<- <-]|[_ Hn]]; [done|]. by apply lookup_insert_Some in Hn as [[<- <-]|[_ Hn]]. }
  apply (set_pte_wf m [0x2000] 0x2000 0 0x4007 0x3000 (pw_tables _ _ _ H2) Hin ltac:(done) eq_refl ltac:(lia) F3 F H2).
  - intros t Ht. destruct (Hu t Ht) as [n Hn]. exists n. by apply HF.
  - intros _ Ht. by destruct (Hu _ Ht).
  - intros b Hb1 Hb2. pose proof (pw_count _ _ _ H2 b Hb1 Hb2) as Hb. change (page_of 0x4007) with 0x4000. change (is_user 0x4007) with true. change (maps_to m 0x2000 b 0) with false. cbn [andb Z.b2z].
    destruct (Z.eqb_spec 0x4000 b) as [<-|Hne]; cbn [Z.b2z].
    + change (default 0 (F !! (0x4000 / 4096))) with 1. change (default 0 (F3 !! (0x4000 / 4096))) with 0 in Hb. lia.
    + destruct (F3 !! (b / 4096)) as [n|] eqn:E; [rewrite (HF _ _ E); simpl in *; lia|]. simpl in Hb. destruct (F !! (b / 4096)) as [n|] eqn:E'; simpl; [|lia].
      assert (0 <= n); [|lia]. clear -E'. unfold F in E'. repeat (apply lookup_insert_Some in E' as [[_ <-]|[_ E']]; [lia|]). done.
Qed.

(** One reference each leaves room. *)
Lemma demo_room : refs_room demo 0x2000.
Proof.
  intros f n Hf Hn. assert (n <= 1) as H1 by (rewrite demo_fm in Hn; repeat (apply lookup_insert_Some in Hn as [[_ <-]|[_ Hn]]; [lia|]); done).
  pose proof (total_in (ram demo) (spaces demo) 0x2000 (f * 4096) ltac:(by left)) as H2.
  pose proof (pw_count _ _ _ (proj2 demo_wf) (f * 4096) ltac:(apply Z.mod_mul; lia) ltac:(unfold NPAGES in Hf; lia)) as H3.
  rewrite Z.div_mul, Hn in H3 by lia. simpl in H3 |- *. lia.
Qed.
Lemma demo_live : kernel_live demo.
Proof. by exists 1. Qed.
Lemma demo_zero : is_Some (fm demo !! 0).
Proof. by exists 1. Qed.

Definition demo_forked : paging unit := (paging_fork_current_cow 0x2000 (fun _ => false) demo).2.

Lemma demo_forked_ok : wf demo_forked /\ g_current_cr3 demo_forked = 0x2000 /\ 0x2000 ∈ spaces demo_forked.
Proof.
  pose proof (fork_spec 0x2000 (fun _ => false) demo demo_wf ltac:(by left) demo_live demo_zero demo_room) as H. unfold demo_forked.
  assert ((paging_fork_current_cow 0x2000 (fun _ => false) demo).1.1 = 0) as E by (vm_compute; reflexivity). cbv zeta in H.
  destruct (paging_fork_current_cow 0x2000 (fun _ => false) demo) as [[rc a] s']. cbn [fst snd] in *. subst rc. destruct H as [(_ & Hf & _)|[Hlt _]]; [|lia].
  split_and!; [apply Hf|apply Hf|]. rewrite (fk_spaces _ _ _ _ _ Hf). right. by left.
Qed.

Lemma fork_copies_on_write_witness :
  (paging_fork_current_cow 0x2000 (fun _ => false) demo).1 = (0, 0x5000) /\ wf demo_forked.
Proof.
  pose proof (fork_copies_on_write 0x2000 (fun _ => false) demo demo_wf ltac:(by left) demo_live demo_zero demo_room) as H. unfold demo_forked. split; [vm_compute; reflexivity|].
  cbv zeta in H. destruct (paging_fork_current_cow 0x2000 (fun _ => false) demo) as [[rc a] s']. apply H.
Defined.

Lemma fork_then_release_witness : fm (paging_release_mm 0x5000 demo_forked) = fm demo.
Proof.
  pose proof (fork_then_release 0x2000 (fun _ => false) demo demo_wf ltac:(by left) demo_live demo_zero demo_room) as H. unfold demo_forked.
  assert ((paging_fork_current_cow 0x2000 (fun _ => false) demo).1 = (0, 0x5000)) as E by (vm_compute; reflexivity).
  destruct (paging_fork_current_cow 0x2000 (fun _ => false) demo) as [[rc a] s']. cbn [fst snd] in *. injection E as -> ->. apply H.
Defined.

(** The only task's memory given back: three frames are free again. *)
Lemma release_gives_back_witness : fm (paging_release_mm 0x2000 demo) !! 2 = None /\ wf (paging_release_mm 0x2000 demo).
Proof.
  assert (all_user (ram demo) 0x2000) as Hall.
  { intros k e Hk He HP. change (ram demo) with (st32 (st32 ∅ (0x2000 + 4 * 0) 0x3007) (0x3000 + 4 * 0) 0x4007) in He. unfold pte_at, user_pt in He. destruct (page_number_parts k Hk) as [H1 H2].
    rewrite !entry_st32 in He by (done || lia). rewrite !entry_empty in He.
    destruct (decide (k / 1024 = 0)) as [E1|E1].
    - rewrite decide_False, decide_True in He by naive_solver. change (is_user 0x3007) with true in He. cbv iota in He. change (page_of 0x3007) with 0x3000 in He.
      rewrite !entry_st32, !entry_empty in He by (done || lia). case_decide; [by injection He as <-|]. rewrite decide_False in He by naive_solver. by injection He as <-.
    - rewrite !decide_False in He by naive_solver. done. }
  assert (last_ref demo 0x2000) as Hlast.
  { intros k x Hk Hl E. assert (Forall (fun x => mm_refs x <= 1) (g_mm_slots demo)) as Hf by (repeat (constructor; [simpl; lia|]); constructor).
    by apply (Forall_lookup_1 _ _ _ _ Hf Hk). }
  destruct (release_gives_back 0x2000 demo demo_wf ltac:(by left) Hall Hlast) as (H1 & _ & H3 & _). split; [|exact H1]. apply H3. by left.
Defined.

(** The parent writes to the page it shares with the child. *)
Lemma cow_write_isolated_witness :
  let '(rc, s') := handle_cow_fault 0x10 7 demo_forked in rc = 1 /\ uview (ram (store_at 0x10 [42] s')) 0x2000 0x10 = Some 42 /\ uview (ram (store_at 0x10 [42] s')) 0x5000 0x10 = Some 0.
Proof.
  destruct demo_forked_ok as (Hwf & Hc & Hin).
  assert (exists pte, user_pte (ram demo_forked) 0x2000 (0x10 / 4096) = Some pte /\ is_set pte PTE_COW = true) as (pte & Hp & Hcow) by (exists 0x4205; split; vm_compute; reflexivity).
  assert (0x5000 ∈ spaces demo_forked /\ uview (ram demo_forked) 0x5000 0x10 = Some 0) as [Hin5 Hv5] by (split; [apply (bool_decide_unpack (0x5000 ∈ spaces demo_forked)); vm_compute; exact I|vm_compute; reflexivity]).
  pose proof (cow_write_isolated 0x10 7 pte 42 demo_forked Hwf) as H. rewrite Hc in H. specialize (H Hin ltac:(lia) eq_refl eq_refl Hp Hcow). 
  assert (sw_enabled (g_swap demo_forked) = true -> (frame_alloc demo_forked).1 <> 0) as Hsw by (intros E; exfalso; revert E; vm_compute; discriminate). specialize (H Hsw). cbv zeta in H.
  assert ((handle_cow_fault 0x10 7 demo_forked).1 = 1) as E by (vm_compute; reflexivity).
  destruct (handle_cow_fault 0x10 7 demo_forked) as [rc s']. cbn [fst] in E. subst rc. destruct H as (_ & _ & _ & [[E _]|(_ & _ & H1 & H2)]); [done|]. split_and!; [done|exact H1|]. rewrite H2; [exact Hv5|exact Hin5|lia|done].
Defined.

(** Releasing the address space of the running task: the directory the
    processor still uses is free, and is the next frame handed out. *)
Example release_frees_live_directory :
  let s := paging_release_mm 0x2000 demo in g_current_cr3 s = 0x2000 /\ fm s !! 2 = None /\ (frame_alloc s).1 = 0x2000.
Proof. vm_compute. auto. Qed.
End demo.

(** A page in swap slot 0, and a disk that cannot be read. *)
Section broken_disk.
#[local] Instance broken_disk : Outside unit := {|
  blockdev_write _ _ _ _ d := (-1, d);
  blockdev_read _ _ _ d := (-1, [], d);
  vfs_read _ _ _ d := (-1, [], d);
  node_size _ _ := 0
|}.
Definition swapped_out : paging unit :=
  set_swap (mk_swap true 0 0 8 4 1 1 0 0 0 0 (Some [1; 0; 0; 0])) (set_ram (st32 (ram demo) 0x3004 0x406) demo).

(** The fault fails, and the entry that named the slot is gone: a second try
    finds nothing, and the slot stays taken. *)
Example failed_swap_in_loses_page :
  let '(rc, s) := handle_swap_fault 0x1000 4 swapped_out in
  rc = -1 /\ pte_at (ram s) 0x2000 1 = Some 0 /\ slot_refs (g_swap s) = Some [1; 0; 0; 0] /\ (handle_swap_fault 0x1000 4 s).1 = 0.
Proof. vm_compute. auto. Qed.
End broken_disk.
End PagingFork.
