(* ===== verification/ElfLoad.v ===== *)
(** * A page of a program is filled from its file

    [ElfLoad]: the copies of the page-fault handler ([kernel/paging.c]) out
    of an image the loader ([kernel/elf.c]) accepted never fail, and leave in
    the page the bytes of the file that the image puts there and zeros
    elsewhere, without touching another page. *)

From S2P Require Import Prelude Mem Task Paging PagingSpec PagingFork Elf ElfSpec.

Module ElfLoad.
Import Mem Paging PagingSpec ElfSpec.

(** What an image puts at an address: the byte of the last segment whose file
    bytes cover it, or zero. *)
Definition holds_byte (va : Z) (r : Task.task_elf_lazy_region) : bool := (Task.el_file_start r <=? va) && (va <? Task.el_file_end r).
Definition segment_byte (backing : list Z) (va b : Z) (r : Task.task_elf_lazy_region) : Z :=
  if holds_byte va r then u8 (backing !!! Z.to_nat (Task.el_file_offset r + (va - Task.el_file_start r))) else b.
Definition image_byte (backing : list Z) (rs : list Task.task_elf_lazy_region) (va : Z) : Z := foldl (segment_byte backing va) 0 rs.

Section load.
Context {D : Type} `{Outside D}.
Implicit Types s : paging D.

(** The page [page] of the current space [c] of [s0] is on the frame [pa];
    [s] differs from [s0] in the bytes of that frame only. *)
Record filling s0 (c page pa : Z) (s : paging D) : Prop := {
  fl_current : g_current_cr3 s = c;
  fl_rest : forall b, page_of b <> pa -> ld8 (ram s) b = ld8 (ram s0) b;
  fl_page : translate (ram s) c page = Some pa;
  fl_same : s = set_ram (ram s) s0
}.

Context (s0 : paging D) (c page pte : Z).
Context (Hw : tables_wf (ram s0) (spaces s0)) (Hc : c ∈ spaces s0) (Hpage : page mod 4096 = 0) (Hrange : 0 <= page < 2 ^ 32 - 4096).
Context (Hpte : user_pte (ram s0) c (page / 4096) = Some pte) (Hdata : ~ is_table (ram s0) (spaces s0) (page_of pte)).
Notation pa := (page_of pte).

Lemma off_table_frame t : is_table (ram s0) (spaces s0) t -> t <> pa.
Proof. by intros Ht ->. Qed.

Lemma filled_pte m : (forall b, page_of b <> pa -> ld8 m b = ld8 (ram s0) b) -> user_pte m c (page / 4096) = Some pte.
Proof. intros Hm. rewrite (off_pte (ram s0) m (spaces s0) pa Hw off_table_frame Hm); [done|done|apply va_page_number; lia]. Qed.

Lemma filled_translate m : (forall b, page_of b <> pa -> ld8 m b = ld8 (ram s0) b) -> translate m c page = Some pa.
Proof. intros Hm. rewrite <- (page_of_self page Hpage). apply pte_translate; [by apply (tw_dir _ _ Hw)|lia|by apply filled_pte]. Qed.

(** A write to the page keeps the rest. *)
Lemma fill_step s f : filling s0 c page pa s -> (forall b, page_of b <> pa -> ld8 (f pa (ram s)) b = ld8 (ram s) b) ->
  filling s0 c page pa (at_page page f s) /\ ram (at_page page f s) = f pa (ram s).
Proof.
  intros [F1 F2 F3 F4] Hf. unfold at_page. rewrite F1, F3. split; [|done].
  assert (forall b, page_of b <> pa -> ld8 (f pa (ram s)) b = ld8 (ram s0) b) as Hm by (intros b Hb; by rewrite Hf, F2).
  split; [done|exact Hm|by apply filled_translate|by rewrite F4].
Qed.

Lemma in_frame b : 0 <= b - pa < 4096 <-> page_of b = pa.
Proof. pose proof (page_of_aligned pte). rewrite !page_of_eq in *. zlia. Qed.

(** The copies, from a page that shows [g]. *)
Lemma copy_segments_fills backing rs : forall s (g : Z -> Z), Forall (region_ok (Z.of_nat (length backing))) rs -> Z.of_nat (length backing) < 2 ^ 32 ->
  filling s0 c page pa s -> (forall i, 0 <= i < 4096 -> ld8 (ram s) (pa + i) = g (page + i)) ->
  exists s', copy_segments rs page backing (Z.of_nat (length backing)) s = (true, s') /\ filling s0 c page pa s' /\
    forall i, 0 <= i < 4096 -> ld8 (ram s') (pa + i) = foldl (segment_byte backing (page + i)) (g (page + i)) rs.
Proof.
  induction rs as [|r rs IH]; intros s g Hr Hlen Hf Hg; [by exists s|]. apply Forall_cons in Hr as [[R1 R2 R3 R4 R5 R6 R7] Hr]. cbn [copy_segments foldl].
  unfold PAGE_SIZE. rewrite (u32_small (page + 4096)) by lia. set (lo := if page <? _ then _ else page). set (hi := if _ <? page + 4096 then _ else _).
  assert (lo = Z.max page (Task.el_file_start r)) as Elo by (unfold lo; destruct (Z.ltb_spec page (Task.el_file_start r)); lia).
  assert (hi = Z.min (page + 4096) (Task.el_file_end r)) as Ehi by (unfold hi; destruct (Z.ltb_spec (Task.el_file_end r) (page + 4096)); lia).
  clearbody lo hi. destruct (Z.ltb_spec lo hi) as [Hlt|Hge].
  - rewrite (u32_small (hi - lo)), (u32_small (lo - _)) by lia. rewrite (u32_small (Task.el_file_offset r + _)) by lia. rewrite u32_small by lia.
    rewrite (proj2 (Z.ltb_ge (Z.of_nat (length backing)) _)) by lia. set (off := Task.el_file_offset r + (lo - Task.el_file_start r)). set (l := take _ _).
    assert (Z.of_nat (length l) = hi - lo) as El by (unfold l; rewrite length_take, length_drop; unfold off; lia).
    assert (page_of lo = page) as Epl by (rewrite page_of_eq; zlia).
    assert (forall i, 0 <= i < 4096 -> ld8 (st_bytes (ram s) (pa + Z.land lo 0xFFF) l) (pa + i) = segment_byte backing (page + i) (g (page + i)) r) as Hst.
    { intros i Hi. rewrite ld8_st_bytes. rewrite El, land_FFF. assert (lo mod 4096 = lo - page) as -> by zlia. unfold segment_byte, holds_byte.
      destruct (decide _) as [Hin|Hout].
      - rewrite (proj2 (Z.leb_le _ _)), (proj2 (Z.ltb_lt _ _)) by lia. cbn [andb]. f_equal. unfold l. rewrite list_lookup_total_alt.
        rewrite lookup_take_lt by lia. rewrite lookup_drop, <- list_lookup_total_alt. f_equal. unfold off. lia.
      - rewrite Hg by done. destruct (Z.leb_spec (Task.el_file_start r) (page + i)), (Z.ltb_spec (page + i) (Task.el_file_end r)); cbn [andb]; try done. lia. }
    destruct (fill_step s (fun pa m => st_bytes m (pa + Z.land lo 0xFFF) l) Hf) as [Hf1 Er1].
    { intros b Hb. rewrite ld8_st_bytes, decide_False; [done|]. rewrite El, land_FFF. assert (lo mod 4096 = lo - page) as -> by zlia. rewrite <- in_frame in Hb. lia. }
    unfold store_at. rewrite Epl. apply (IH _ (fun va => segment_byte backing va (g va) r)); [done|done|exact Hf1|]. intros i Hi. rewrite Er1. by apply Hst.
  - apply (IH s (fun va => segment_byte backing va (g va) r)); [done|done|done|]. intros i Hi. rewrite Hg by done. unfold segment_byte, holds_byte.
    destruct (Z.leb_spec (Task.el_file_start r) (page + i)), (Z.ltb_spec (page + i) (Task.el_file_end r)); cbn [andb]; try done. lia.
Qed.

(** Zeroing and copying, as the handler does them. *)
Lemma page_filled backing rs : Forall (region_ok (Z.of_nat (length backing))) rs -> Z.of_nat (length backing) < 2 ^ 32 -> g_current_cr3 s0 = c ->
  exists s', copy_segments rs page backing (Z.of_nat (length backing)) (zero_page page s0) = (true, s') /\ filling s0 c page pa s' /\
    forall i, 0 <= i < 4096 -> uview (ram s') c (page + i) = Some (image_byte backing rs (page + i)).
Proof.
  intros Hr Hlen Hcur. assert (filling s0 c page pa s0) as Hf0 by (split; [done|done|by apply filled_translate|by destruct s0]).
  destruct (fill_step s0 (fun pa m => memset m pa 0 (Z.to_nat PAGE_SIZE)) Hf0) as [Hf1 Er1].
  { intros b Hb. rewrite <- in_frame in Hb. apply ld8_memset_ne. rewrite page_bytes. lia. }
  destruct (copy_segments_fills backing rs (zero_page page s0) (fun _ => 0) Hr Hlen Hf1) as (s' & E & Hf & Hb).
  { intros i Hi. unfold zero_page. rewrite Er1. apply (ld8_memset_in _ _ 0). rewrite page_bytes. lia. }
  exists s'. split; [done|]. split; [done|]. pose proof (fl_rest _ _ _ _ _ Hf) as Hrest.
  intros i Hi. unfold uview. replace ((page + i) / 4096) with (page / 4096) by zlia. rewrite (filled_pte _ Hrest). f_equal.
  replace ((page + i) mod 4096) with i by zlia. by apply Hb.
Qed.
End load.

(** Only the regions around a page have bytes in it. *)
Lemma image_byte_matches backing rs size page va : Forall (region_ok size) rs -> page mod 4096 = 0 -> page <= va < page + 4096 ->
  image_byte backing (List.filter (elf_covers page) rs) va = image_byte backing rs va.
Proof.
  intros Hr Hp Hva. unfold image_byte. generalize 0 as b. induction Hr as [|r rs [R1 R2 R3 R4 R5 R6 R7] Hr IH]; intros b; [done|]. cbn [List.filter foldl].
  destruct (elf_covers page r) eqn:Ec; cbn [foldl]; [apply IH|]. rewrite IH. f_equal. unfold segment_byte, holds_byte.
  destruct (Z.leb_spec (Task.el_file_start r) va), (Z.ltb_spec va (Task.el_file_end r)); try done. exfalso. unfold elf_covers in Ec. rewrite R7 in Ec.
  destruct (Z.leb_spec (Task.el_start r) page), (Z.ltb_spec page (Task.el_end r)); try done; zlia.
Qed.

(** ** The handler *)

Section handler.
Context {D : Type} `{Outside D}.
Implicit Types s : paging D.

(** The entry of a page mapped anew, and the same without write permission. *)
Lemma mapped_bits a : let v := Z.lor (page_of a) (Z.land (Z.lor PTE_P (Z.lor PTE_W PTE_U)) 0xFFF) in
  is_frame a -> 0 <= v < 2 ^ 32 /\ page_of v = a /\ is_user v = true /\ is_set v PTE_W = true.
Proof. intros v Ha. destruct (private_bits 5 a Ha eq_refl) as (H1 & H2 & H3 & H4 & _). exact (conj H1 (conj H2 (conj H3 H4))). Qed.
Lemma protected_bits v : let w := Z.land v (Z.lnot PTE_W) in
  0 <= v < 2 ^ 32 -> 0 <= w < 2 ^ 32 /\ page_of w = page_of v /\ is_user w = is_user v /\ is_set w PTE_W = false.
Proof.
  intros w Hv. assert (forall n, 0 <= n -> Z.testbit w n = Z.testbit v n && negb (n =? 1)) as Hb.
  { intros n Hn. unfold w. rewrite Z.land_spec, Z.lnot_spec by lia. change PTE_W with (2 ^ 1). rewrite Z.pow2_bits_eqb by lia. by rewrite (Z.eqb_sym 1). }
  split; [by apply land_word|]. split_and!.
  - apply page_of_bits. intros n Hn. rewrite Hb by lia. rewrite (proj2 (Z.eqb_neq n 1)) by lia. by rewrite andb_true_r.
  - unfold is_user. rewrite !set_P, !set_U, !Hb by lia. by rewrite !andb_true_r.
  - rewrite set_W, Hb by lia. apply andb_false_r.
Qed.

(** A frame is mapped at a page of the current space whose table exists. *)
Lemma map_new_page s s1 va pt a : wf s -> g_current_cr3 s ∈ spaces s -> 0 <= va < 2 ^ 32 -> user_pt (ram s) (g_current_cr3 s) (va / 4096 / 1024) = Some pt ->
  user_pte (ram s) (g_current_cr3 s) (va / 4096) = None -> frame_alloc s = (a, s1) -> a <> 0 ->
  exists s2 v, map_page (page_of va) a (Z.lor PTE_P (Z.lor PTE_W PTE_U)) s1 = (0, s2) /\ wf s2 /\ spaces s2 = spaces s /\ g_current_cr3 s2 = g_current_cr3 s /\
    user_pt (ram s2) (g_current_cr3 s) (va / 4096 / 1024) = Some pt /\ user_pte (ram s2) (g_current_cr3 s) (va / 4096) = Some v /\ page_of v = a /\ is_set v PTE_W = true /\
    0 <= v < 2 ^ 32 /\
    (forall c' va', c' ∈ spaces s -> 0 <= va' < 2 ^ 32 -> (c', va' / 4096) <> (g_current_cr3 s, va / 4096) ->
       uview (ram s2) c' va' = uview (ram s) c' va' /\ (forall pte, user_pte (ram s2) c' (va' / 4096) = Some pte -> page_of pte <> a)).
Proof.
  intros [Hpm Hw] Hc Hva Hpt Hnone Hal Ha. pose proof (va_page_number va Hva) as Hk. pose proof (pw_tables _ _ _ Hw) as Ht.
  destruct (frame_alloc_cases s a s1 Hpm Hal) as (Hpm1 & Es1 & Hgrow & Hfr). destruct (Hfr Ha) as (Hfa & Hfree & Efm).
  assert (ram s1 = ram s /\ spaces s1 = spaces s /\ g_current_cr3 s1 = g_current_cr3 s) as (Er1 & Esp1 & Ec1) by (rewrite Es1; done).
  rewrite (map_page_present s1 va pt); [|rewrite Ec1; by apply (tw_dir _ _ Ht)|done|by rewrite Ec1, Er1].
  destruct (mapped_bits a Hfa) as (Hv & Epg & Eu & Hvw). set (v := Z.lor (page_of a) _) in *. set (s2 := set_entry _ _ v s1). exists s2, v.
  set (c := g_current_cr3 s) in *. set (k := va / 4096) in *.
  assert (ram s2 = st32 (ram s) (pt + 4 * (k mod 1024)) v) as Er2 by (unfold s2; cbn [ram set_entry set_ram]; by rewrite Er1).
  pose proof (fresh_not_table _ _ _ a Hw Hfree) as Hnt. pose proof (fresh_total _ _ _ _ Hw Hfa Hfree) as Ht0.
  assert (pages_wf (ram s2) (spaces s) (fm s1)) as Hw2.
  { rewrite Er2. apply (set_pte_wf (ram s) (spaces s) c k v pt Ht Hc Hk Hpt Hv (fm s)); [done| |intros _; rewrite Epg; intros X; by apply (Hnt a)|].
    - intros t Htt. destruct (pw_used _ _ _ Hw t Htt) as [x Ex]. exists x. by apply Hgrow.
    - intros b Hb1 Hb2. pose proof (pw_count _ _ _ Hw b Hb1 Hb2) as Hcb. assert (maps_to (ram s) c b k = false) as -> by (unfold maps_to; by rewrite Hnone).
      rewrite Eu, Epg. cbn [andb Z.b2z]. rewrite Efm, lookup_insert. destruct Hfa as [Hfa1 Hfa2]. destruct (Z.eqb_spec a b) as [<-|Hab]; cbn [Z.b2z].
      + rewrite decide_True, Ht0 by done. simpl. lia.
      + rewrite decide_False by zlia. lia. }
  pose proof (proj1 Hv) as Hv1. pose proof (proj2 Hv) as Hv2. split_and!; try done.
  - split; [exact Hpm1|]. change (spaces s2) with (spaces s1). rewrite Esp1. exact Hw2.
  - rewrite Er2, (set_pte_pt (ram s) (spaces s) c k v pt) by (done || by destruct (page_number_parts k Hk)). done.
  - rewrite Er2, (set_pte_new (ram s) (spaces s) c k v pt) by done. by rewrite Eu.
  - intros c' va' Hc' Hva' Hne. rewrite Er2. split; [by apply (set_pte_view (ram s) (spaces s) c k v pt Ht Hc Hk Hpt Hv (fm s))|].
    intros pte. rewrite (set_pte_user (ram s) (spaces s) c k v pt) by (done || by apply va_page_number). apply (fresh_unmapped _ _ _ _ Hw Hfa Hfree); [done|by apply va_page_number].
Qed.

Lemma alloc_keeps s : wf s -> wf (frame_alloc s).2 /\ spaces (frame_alloc s).2 = spaces s /\ ram (frame_alloc s).2 = ram s.
Proof.
  intros [Hpm Hw]. destruct (frame_alloc s) as [a s1] eqn:E. cbn [snd]. destruct (frame_alloc_cases s a s1 Hpm E) as (Hpm1 & Es1 & Hgrow & _).
  assert (spaces s1 = spaces s /\ ram s1 = ram s) as [E1 E2] by (rewrite Es1; done). split; [|done]. split; [exact Hpm1|]. rewrite E1, E2.
  apply (grow_wf _ _ (fm s)); [done|exact Hgrow|]. intros f n Hn. pose proof (fm_pos _ _ _ Hpm1 Hn). lia.
Qed.

Lemma matches_ok t page size : Forall (region_ok size) (elf_live t) -> Forall (region_ok size) (elf_matches t page).
Proof. intros Hr. apply List.Forall_forall. intros r Hin. apply filter_In in Hin as [Hin _]. rewrite List.Forall_forall in Hr. by apply Hr. Qed.

(** Dropping write permission from a page changes nothing that is seen. *)
Lemma protect_page s page v pt : wf s -> g_current_cr3 s ∈ spaces s -> 0 <= page < 2 ^ 32 -> page mod 4096 = 0 ->
  user_pt (ram s) (g_current_cr3 s) (page / 4096 / 1024) = Some pt -> user_pte (ram s) (g_current_cr3 s) (page / 4096) = Some v ->
  exists s' v', write_protect page s = Some s' /\ wf s' /\ spaces s' = spaces s /\ user_pte (ram s') (g_current_cr3 s) (page / 4096) = Some v' /\ is_set v' PTE_W = false /\
    forall c' va', c' ∈ spaces s -> 0 <= va' < 2 ^ 32 -> uview (ram s') c' va' = uview (ram s) c' va'.
Proof.
  intros [Hpm Hw] Hc Hp Hal Hpt Hpte. pose proof (pw_tables _ _ _ Hw) as Ht. pose proof (va_page_number page Hp) as Hk. set (c := g_current_cr3 s) in *. set (k := page / 4096) in *.
  destruct (user_pte_walk _ _ _ _ Hpte) as (pt' & Hpt' & Ee). assert (pt' = pt) as -> by congruence. clear Hpt'.
  destruct (protected_bits v (user_pte_range _ _ _ _ Hpte)) as (Hv' & Epg & Eu & HW). set (v' := Z.land v (Z.lnot PTE_W)) in *.
  destruct (user_pte_at _ _ _ _ Hpte) as [_ Hu]. rewrite Hu in Eu.
  exists (set_entry pt (k mod 1024) v' s), v'. unfold write_protect. rewrite dir_index_eq, tab_index_eq by done. fold c k.
  rewrite (user_pt_walk _ _ _ pt) by (done || by apply (tw_dir _ _ Ht)). rewrite Ee. split; [done|].
  assert (pages_wf (st32 (ram s) (pt + 4 * (k mod 1024)) v') (spaces s) (fm s)) as Hw'.
  { apply (set_pte_wf (ram s) (spaces s) c k v' pt Ht Hc Hk Hpt Hv' (fm s)); [done|apply Hw|intros _; rewrite Epg; by apply (pw_data _ _ _ Hw c k v)|].
    intros b Hb1 Hb2. pose proof (pw_count _ _ _ Hw b Hb1 Hb2). assert (maps_to (ram s) c b k = (page_of v =? b)) as -> by (unfold maps_to; by rewrite Hpte).
    rewrite Eu, Epg. cbn [andb]. lia. }
  split; [by split|]. split; [done|]. cbn [ram set_entry set_ram]. split; [rewrite (set_pte_new (ram s) (spaces s) c k v' pt) by done; by rewrite Eu|]. split; [done|].
  intros c' va' Hc' Hva'. destruct (decide ((c', va' / 4096) = (c, k))) as [E|E].
  - injection E as -> Ek. by apply (set_pte_same_page (ram s) (spaces s) c k v' pt Ht Hc Hk Hpt Hv' (fm s) v).
  - by apply (set_pte_view (ram s) (spaces s) c k v' pt Ht Hc Hk Hpt Hv' (fm s)).
Qed.

(** Filling the page keeps memory well formed. *)
Lemma filling_wf s s' c page pte : wf s -> c ∈ spaces s -> page mod 4096 = 0 -> 0 <= page < 2 ^ 32 -> user_pte (ram s) c (page / 4096) = Some pte ->
  filling s c page (page_of pte) s' ->
  wf s' /\ spaces s' = spaces s /\ (forall c' k, c' ∈ spaces s -> page_number k -> user_pte (ram s') c' k = user_pte (ram s) c' k) /\
  (forall c' i, c' ∈ spaces s -> 0 <= i < 1024 -> user_pt (ram s') c' i = user_pt (ram s) c' i) /\
  (forall c' va, c' ∈ spaces s -> 0 <= va < 2 ^ 32 -> (forall e, user_pte (ram s) c' (va / 4096) = Some e -> page_of e <> page_of pte) -> uview (ram s') c' va = uview (ram s) c' va).
Proof.
  intros [Hpm Hw] Hc Hal Hp Hpte [F1 F2 F3 F4]. pose proof (pw_tables _ _ _ Hw) as Ht. pose proof (pw_data _ _ _ Hw c _ pte Hc (va_page_number page Hp) Hpte) as Hd.
  assert (forall t, is_table (ram s) (spaces s) t -> t <> page_of pte) as Hnt by (by intros t Htt ->).
  assert (frames s' = frames s /\ spaces s' = spaces s) as [Ef Es] by (rewrite F4; done). split.
  - split; [by rewrite Ef|]. rewrite Es. unfold fm. rewrite Ef. apply (off_wf (ram s) (ram s') (spaces s) (page_of pte) Ht Hnt F2 (fm s)); [done|done|].
    intros f n Hn. pose proof (fm_pos _ _ _ Hpm Hn). lia.
  - split_and!; [done|intros; by apply (off_pte (ram s) (ram s') (spaces s) (page_of pte))|intros; by apply (off_pt (ram s) (ram s') (spaces s) (page_of pte))|].
    intros. by apply (off_view (ram s) (ram s') (spaces s) (page_of pte) Ht Hnt F2).
Qed.

(** A page fault brings in the page of the program. When the current
    task's image was accepted by the loader and the faulting address lies in
    one of its regions, on a page that is not mapped and whose page table
    exists, [handle_elf_lazy_fault] either maps the page - every byte is then
    the one the last segment around the address takes from the file, or zero
    where no segment has file bytes, and the page is writable exactly when a
    segment on it is - or, when no frame is left, returns -1. In both cases
    memory stays well formed, and no other page of any address space shows
    different bytes. *)
Theorem elf_fault_correct t block backing rs va err pt s :
  let c := g_current_cr3 s in
  wf s -> c ∈ spaces s -> 0 <= va < 2 ^ 32 - 4096 -> is_set err 1 = false -> (sw_enabled (g_swap s) = true -> (frame_alloc s).1 <> 0) ->
  Task.elf_backing (Task.telf t) = Some (block, backing) -> Task.elf_backing_size (Task.telf t) = Z.of_nat (length backing) -> 0 < Z.of_nat (length backing) < 2 ^ 32 ->
  elf_live t = rs -> Forall (region_ok (Z.of_nat (length backing))) rs -> elf_matches t (page_of va) <> [] ->
  user_pt (ram s) c (va / 4096 / 1024) = Some pt -> user_pte (ram s) c (va / 4096) = None ->
  let '(rc, s') := handle_elf_lazy_fault (Some t) va err s in
  wf s' /\ spaces s' = spaces s /\
  (forall c' va', c' ∈ spaces s -> 0 <= va' < 2 ^ 32 -> (c', va' / 4096) <> (c, va / 4096) -> uview (ram s') c' va' = uview (ram s) c' va') /\
  ((rc = 1 /\ (forall i, 0 <= i < 4096 -> uview (ram s') c (page_of va + i) = Some (image_byte backing rs (page_of va + i))) /\
    exists pte, user_pte (ram s') c (va / 4096) = Some pte /\ is_set pte PTE_W = existsb (fun r => is_set (Task.el_flags r) PAGING_FLAG_WRITE) (elf_matches t (page_of va))) \/
   (rc = -1 /\ (frame_alloc s).1 = 0)).
Proof.
  intros c Hwf Hc Hva Herr Hsw Hb Hsz Hlen Hrs Hok Hm Hpt Hnone. unfold handle_elf_lazy_fault. rewrite Herr, Hb, Hsz. rewrite (proj2 (Z.eqb_neq _ 0)) by lia.
  rewrite bool_decide_false by done. set (w := existsb _ _). pose proof (va_page_number va ltac:(lia)) as Hk.
  assert (wf (frame_alloc s).2 /\ spaces (frame_alloc s).2 = spaces s /\ ram (frame_alloc s).2 = ram s) as (Hwf1 & Esp1 & Er1) by (by apply alloc_keeps).
  assert ((frame_alloc s).1 = 0 -> alloc_frame_for_paging s = (0, (frame_alloc s).2)) as H0.
  { destruct (alloc_for_paging s Hsw) as [E|[_ E]]; [|done]. intros Ez. rewrite E, <- Ez. by destruct (frame_alloc s). }
  destruct (decide ((frame_alloc s).1 = 0)) as [Ez|Hne].
  { rewrite (H0 Ez). change (0 =? 0) with true. cbv iota. split; [exact Hwf1|]. split; [done|]. split; [intros; by rewrite Er1|by right]. }
  destruct (alloc_for_paging s Hsw) as [E|[Ez _]]; [|done]. rewrite E. clear H0 E. destruct (frame_alloc s) as [a s1] eqn:Eal. cbn [fst snd] in *.
  rewrite (proj2 (Z.eqb_neq a 0)) by done.
  destruct (map_new_page s s1 va pt a Hwf Hc ltac:(lia) Hpt Hnone Eal Hne) as (s2 & v & -> & Hwf2 & Esp2 & Ec2 & Hpt2 & Hpte2 & Epg & HW & Hv & Ho2).
  change (0 <? 0) with false. cbv iota. fold c in Ec2, Hpt2, Hpte2, Ho2. set (page := page_of va).
  assert (page mod 4096 = 0 /\ 0 <= page < 2 ^ 32 - 4096 /\ page / 4096 = va / 4096) as (Hal & Hpr & Edp) by (unfold page; rewrite page_of_eq; zlia).
  assert (c ∈ spaces s2) as Hc2 by (by rewrite Esp2). rewrite <- Edp in Hpte2, Hpt2. pose proof (pw_data _ _ _ (proj2 Hwf2) c _ v Hc2 (va_page_number page ltac:(lia)) Hpte2) as Hd.
  destruct (page_filled s2 c page v (pw_tables _ _ _ (proj2 Hwf2)) Hc2 Hal Hpr Hpte2 Hd backing (elf_matches t page)) as (s3 & E3 & Hf3 & Hbytes);
    [by apply matches_ok; rewrite Hrs|lia|done|]. rewrite E3.
  destruct (filling_wf s2 s3 c page v Hwf2 Hc2 Hal ltac:(lia) Hpte2 Hf3) as (Hwf3 & Esp3 & Hpte3 & Hpt3 & Ho3).
  assert (forall c' va', c' ∈ spaces s -> 0 <= va' < 2 ^ 32 -> (c', va' / 4096) <> (c, va / 4096) -> uview (ram s3) c' va' = uview (ram s) c' va') as Hother.
  { intros c' va' Hc' Hva' Hn. destruct (Ho2 c' va' Hc' Hva' Hn) as [E1 E2]. rewrite Ho3; [done|by rewrite Esp2|done|]. rewrite Epg. exact E2. }
  assert (forall i, 0 <= i < 4096 -> uview (ram s3) c (page + i) = Some (image_byte backing rs (page + i))) as Hpage.
  { intros i Hi. rewrite Hbytes by done. unfold elf_matches. rewrite Hrs. f_equal. eapply image_byte_matches; [done|done|lia]. }
  pose proof (fl_current _ _ _ _ _ Hf3) as Ec3. assert (user_pte (ram s3) c (va / 4096) = Some v) as Hv3 by (rewrite <- Edp; rewrite Hpte3 by (done || apply va_page_number; lia); done).
  destruct w eqn:Ew.
  { split; [exact Hwf3|]. split; [by rewrite <- Esp2|]. split; [exact Hother|]. left. split; [done|]. split; [exact Hpage|]. by exists v. }
  destruct (protect_page s3 page v pt) as (s4 & v' & -> & Hwf4 & Esp4 & Hv4 & HW4 & Hsame); rewrite ?Ec3, ?Esp3; try done; [lia|rewrite Hpt3; [done|done|destruct (page_number_parts (page / 4096)); [apply va_page_number; lia|done]]|by rewrite Edp|].
  rewrite Ec3, Edp in Hv4. rewrite Esp3, Esp2 in *. split; [exact Hwf4|]. split; [done|].
  split; [intros; change (ram (count_demand s4)) with (ram s4); rewrite Hsame by done; by apply Hother|]. left. split; [done|].
  split; [intros i Hi; change (ram (count_demand s4)) with (ram s4); rewrite Hsame by (done || lia); by apply Hpage|]. by exists v'.
Qed.
End handler.

(** ** A page of the built-in program *)

#[local] Existing Instance PagingFork.no_outside.

(** The image loaded at 0x1000 instead of its own address, in the address
    space of [PagingFork.demo], where only page 0 is mapped. *)
Definition hello_region : Task.task_elf_lazy_region := Task.mk_elf_region 0x1000 0x2000 0x1000 (0x1000 + 137) 0 PTE_U true.
Definition hello_task : Task.task := Task.with_elf (Task.mk_elf (Some (0x500000, Elf.test_elf_hello)) 137 1 [hello_region]) Task.no_task.

Lemma elf_fault_correct_witness :
  let '(rc, s') := handle_elf_lazy_fault (Some hello_task) 0x1054 4 PagingFork.demo in
  rc = 1 /\ uview (ram s') 0x2000 0x1054 = Some 0xb8 /\ uview (ram s') 0x2000 0x1fff = Some 0.
Proof.
  assert ((handle_elf_lazy_fault (Some hello_task) 0x1054 4 PagingFork.demo).1 = 1) as Erc by (vm_compute; done).
  pose proof (elf_fault_correct hello_task 0x500000 Elf.test_elf_hello [hello_region] 0x1054 4 0x3000 PagingFork.demo PagingFork.demo_wf ltac:(by left) ltac:(lia) eq_refl
    ltac:(done) eq_refl eq_refl ltac:(cbn; lia) eq_refl
    ltac:(constructor; [split; cbn; (lia || done)|constructor]) ltac:(done) ltac:(vm_compute; done) ltac:(vm_compute; done)) as Hf.
  destruct (handle_elf_lazy_fault _ _ _ _) as [rc s']. cbn [fst] in Erc. subst rc. destruct Hf as (_ & _ & _ & [(_ & Hb & _)|[? _]]); [|done].
  split; [done|]. split; [exact (Hb 0x54 ltac:(lia))|exact (Hb 0xfff ltac:(lia))].
Defined.

End ElfLoad.
