(* ===== verification/Framebuffer.v ===== *)
(** * The frame buffer

    [Framebuffer] is [kernel/framebuffer.c] and the font of
    [kernel/font8x16.c]: pixels of 32 bits in memory, filling, characters and
    single pixels. [FramebufferFacts] has the laws of single pixels. *)

From S2P Require Import Prelude.

Module Framebuffer.

(** A row per glyph, a byte per line of it, the leftmost pixel in bit 7. *)
Definition font8x16 : list (list Z) := [
  replicate 16 0x00;
  [0x00; 0x00; 0x7e; 0x81; 0xa5; 0x81; 0x81; 0xbd; 0x99; 0x81; 0x81; 0x7e; 0x00; 0x00; 0x00; 0x00];
  [0x00; 0x00; 0x7e; 0xff; 0xdb; 0xff; 0xff; 0xc3; 0xe7; 0xff; 0xff; 0x7e; 0x00; 0x00; 0x00; 0x00];
  [0x00; 0x00; 0x00; 0x00; 0x6c; 0xfe; 0xfe; 0xfe; 0xfe; 0x7c; 0x38; 0x10; 0x00; 0x00; 0x00; 0x00];
  [0x00; 0x00; 0x00; 0x00; 0x10; 0x38; 0x7c; 0xfe; 0x7c; 0x38; 0x10; 0x00; 0x00; 0x00; 0x00; 0x00];
  [0x00; 0x00; 0x00; 0x18; 0x3c; 0x3c; 0xe7; 0xe7; 0xe7; 0x18; 0x18; 0x3c; 0x00; 0x00; 0x00; 0x00];
  [0x00; 0x00; 0x00; 0x18; 0x3c; 0x7e; 0xff; 0xff; 0x7e; 0x18; 0x18; 0x3c; 0x00; 0x00; 0x00; 0x00];
  [0x00; 0x00; 0x00; 0x00; 0x00; 0x00; 0x18; 0x3c; 0x3c; 0x18; 0x00; 0x00; 0x00; 0x00; 0x00; 0x00];
  replicate 16 0x00;
  [0xff; 0xff; 0xff; 0xff; 0xff; 0xff; 0xe7; 0xc3; 0xc3; 0xe7; 0xff; 0xff; 0xff; 0xff; 0xff; 0xff];
  [0x00; 0x00; 0x00; 0x00; 0x00; 0x3c; 0x66; 0x42; 0x42; 0x66; 0x3c; 0x00; 0x00; 0x00; 0x00; 0x00];
  replicate 16 0x00;
  replicate 16 0x00;
  replicate 16 0x00;
  replicate 16 0x00;
  [0xff; 0xff; 0xff; 0xff; 0xff; 0xc3; 0x99; 0xbd; 0xbd; 0x99; 0xc3; 0xff; 0xff; 0xff; 0xff; 0xff];
  [0x00; 0x00; 0x1e; 0x0e; 0x1a; 0x32; 0x78; 0xcc; 0xcc; 0xcc; 0xcc; 0x78; 0x00; 0x00; 0x00; 0x00];
  [0x00; 0x00; 0x3c; 0x66; 0x66; 0x66; 0x66; 0x3c; 0x18; 0x7e; 0x18; 0x18; 0x00; 0x00; 0x00; 0x00];
  [0x00; 0x00; 0x3f; 0x33; 0x3f; 0x30; 0x30; 0x30; 0x30; 0x70; 0xf0; 0xe0; 0x00; 0x00; 0x00; 0x00];
  [0x00; 0x00; 0x7f; 0x63; 0x7f; 0x63; 0x63; 0x63; 0x63; 0x67; 0xe7; 0xe6; 0xc0; 0x00; 0x00; 0x00];
  [0x00; 0x00; 0x00; 0x18; 0x18; 0xdb; 0x3c; 0xe7; 0x3c; 0xdb; 0x18; 0x18; 0x00; 0x00; 0x00; 0x00];
  [0x00; 0x80; 0xc0; 0xe0; 0xf0; 0xf8; 0xfe; 0xf8; 0xf0; 0xe0; 0xc0; 0x80; 0x00; 0x00; 0x00; 0x00];
  [0x00; 0x02; 0x06; 0x0e; 0x1e; 0x3e; 0xfe; 0x3e; 0x1e; 0x0e; 0x06; 0x02; 0x00; 0x00; 0x00; 0x00];
  [0x00; 0x00; 0x18; 0x3c; 0x7e; 0x18; 0x18; 0x18; 0x7e; 0x3c; 0x18; 0x00; 0x00; 0x00; 0x00; 0x00];
  [0x00; 0x00; 0x66; 0x66; 0x66; 0x66; 0x66; 0x66; 0x66; 0x00; 0x66; 0x66; 0x00; 0x00; 0x00; 0x00];
  [0x00; 0x00; 0x7f; 0xdb; 0xdb; 0xdb; 0x7b; 0x1b; 0x1b; 0x1b; 0x1b; 0x1b; 0x00; 0x00; 0x00; 0x00];
  [0x00; 0x7c; 0xc6; 0x60; 0x38; 0x6c; 0xc6; 0xc6; 0x6c; 0x38; 0x0c; 0xc6; 0x7c; 0x00; 0x00; 0x00];
  [0x00; 0x00; 0x00; 0x00; 0x00; 0x00; 0x00; 0x00; 0xfe; 0xfe; 0xfe; 0xfe; 0x00; 0x00; 0x00; 0x00];
  [0x00; 0x00; 0x18; 0x3c; 0x7e; 0x18; 0x18; 0x18; 0x7e; 0x3c; 0x18; 0x7e; 0x00; 0x00; 0x00; 0x00];
  [0x00; 0x00; 0x18; 0x3c; 0x7e; 0x18; 0x18; 0x18; 0x18; 0x18; 0x18; 0x18; 0x00; 0x00; 0x00; 0x00];
  [0x00; 0x00; 0x18; 0x18; 0x18; 0x18; 0x18; 0x18; 0x18; 0x7e; 0x3c; 0x18; 0x00; 0x00; 0x00; 0x00];
  [0x00; 0x00; 0x00; 0x00; 0x00; 0x18; 0x0c; 0xfe; 0x0c; 0x18; 0x00; 0x00; 0x00; 0x00; 0x00; 0x00];
  [0x00; 0x00; 0x00; 0x00; 0x00; 0x30; 0x60; 0xfe; 0x60; 0x30; 0x00; 0x00; 0x00; 0x00; 0x00; 0x00];
  [0x00; 0x00; 0x00; 0x00; 0x00; 0x00; 0xc0; 0xc0; 0xc0; 0xfe; 0x00; 0x00; 0x00; 0x00; 0x00; 0x00];
  [0x00; 0x00; 0x00; 0x00; 0x00; 0x28; 0x6c; 0xfe; 0x6c; 0x28; 0x00; 0x00; 0x00; 0x00; 0x00; 0x00];
  [0x00; 0x00; 0x00; 0x00; 0x10; 0x38; 0x38; 0x7c; 0x7c; 0xfe; 0xfe; 0x00; 0x00; 0x00; 0x00; 0x00];
  [0x00; 0x00; 0x00; 0x00; 0xfe; 0xfe; 0x7c; 0x7c; 0x38; 0x38; 0x10; 0x00; 0x00; 0x00; 0x00; 0x00];
  replicate 16 0x00;
  [0x00; 0x00; 0x18; 0x3c; 0x3c; 0x3c; 0x18; 0x18; 0x18; 0x00; 0x18; 0x18; 0x00; 0x00; 0x00; 0x00];
  [0x00; 0x66; 0x66; 0x66; 0x24; 0x00; 0x00; 0x00; 0x00; 0x00; 0x00; 0x00; 0x00; 0x00; 0x00; 0x00];
  [0x00; 0x00; 0x00; 0x6c; 0x6c; 0xfe; 0x6c; 0x6c; 0x6c; 0xfe; 0x6c; 0x6c; 0x00; 0x00; 0x00; 0x00];
  [0x18; 0x18; 0x7c; 0xc6; 0xc2; 0xc0; 0x7c; 0x06; 0x06; 0x86; 0xc6; 0x7c; 0x18; 0x18; 0x00; 0x00];
  [0x00; 0x00; 0x00; 0x00; 0xc2; 0xc6; 0x0c; 0x18; 0x30; 0x60; 0xc6; 0x86; 0x00; 0x00; 0x00; 0x00];
  [0x00; 0x00; 0x38; 0x6c; 0x6c; 0x38; 0x76; 0xdc; 0xcc; 0xcc; 0xcc; 0x76; 0x00; 0x00; 0x00; 0x00];
  [0x00; 0x30; 0x30; 0x30; 0x60; 0x00; 0x00; 0x00; 0x00; 0x00; 0x00; 0x00; 0x00; 0x00; 0x00; 0x00];
  [0x00; 0x00; 0x0c; 0x18; 0x30; 0x30; 0x30; 0x30; 0x30; 0x30; 0x18; 0x0c; 0x00; 0x00; 0x00; 0x00];
  [0x00; 0x00; 0x30; 0x18; 0x0c; 0x0c; 0x0c; 0x0c; 0x0c; 0x0c; 0x18; 0x30; 0x00; 0x00; 0x00; 0x00];
  [0x00; 0x00; 0x00; 0x00; 0x00; 0x66; 0x3c; 0xff; 0x3c; 0x66; 0x00; 0x00; 0x00; 0x00; 0x00; 0x00];
  [0x00; 0x00; 0x00; 0x00; 0x00; 0x18; 0x18; 0x7e; 0x18; 0x18; 0x00; 0x00; 0x00; 0x00; 0x00; 0x00];
  [0x00; 0x00; 0x00; 0x00; 0x00; 0x00; 0x00; 0x00; 0x00; 0x18; 0x18; 0x18; 0x30; 0x00; 0x00; 0x00];
  [0x00; 0x00; 0x00; 0x00; 0x00; 0x00; 0x00; 0xfe; 0x00; 0x00; 0x00; 0x00; 0x00; 0x00; 0x00; 0x00];
  [0x00; 0x00; 0x00; 0x00; 0x00; 0x00; 0x00; 0x00; 0x00; 0x00; 0x18; 0x18; 0x00; 0x00; 0x00; 0x00];
  [0x00; 0x00; 0x00; 0x00; 0x02; 0x06; 0x0c; 0x18; 0x30; 0x60; 0xc0; 0x80; 0x00; 0x00; 0x00; 0x00];
  [0x00; 0x00; 0x38; 0x6c; 0xc6; 0xc6; 0xd6; 0xd6; 0xc6; 0xc6; 0x6c; 0x38; 0x00; 0x00; 0x00; 0x00];
  [0x00; 0x00; 0x18; 0x38; 0x78; 0x18; 0x18; 0x18; 0x18; 0x18; 0x18; 0x7e; 0x00; 0x00; 0x00; 0x00];
  [0x00; 0x00; 0x7c; 0xc6; 0x06; 0x0c; 0x18; 0x30; 0x60; 0xc0; 0xc6; 0xfe; 0x00; 0x00; 0x00; 0x00];
  [0x00; 0x00; 0x7c; 0xc6; 0x06; 0x06; 0x3c; 0x06; 0x06; 0x06; 0xc6; 0x7c; 0x00; 0x00; 0x00; 0x00];
  [0x00; 0x00; 0x0c; 0x1c; 0x3c; 0x6c; 0xcc; 0xfe; 0x0c; 0x0c; 0x0c; 0x1e; 0x00; 0x00; 0x00; 0x00];
  [0x00; 0x00; 0xfe; 0xc0; 0xc0; 0xc0; 0xfc; 0x06; 0x06; 0x06; 0xc6; 0x7c; 0x00; 0x00; 0x00; 0x00];
  [0x00; 0x00; 0x38; 0x60; 0xc0; 0xc0; 0xfc; 0xc6; 0xc6; 0xc6; 0xc6; 0x7c; 0x00; 0x00; 0x00; 0x00];
  [0x00; 0x00; 0xfe; 0xc6; 0x06; 0x06; 0x0c; 0x18; 0x30; 0x30; 0x30; 0x30; 0x00; 0x00; 0x00; 0x00];
  [0x00; 0x00; 0x7c; 0xc6; 0xc6; 0xc6; 0x7c; 0xc6; 0xc6; 0xc6; 0xc6; 0x7c; 0x00; 0x00; 0x00; 0x00];
  [0x00; 0x00; 0x7c; 0xc6; 0xc6; 0xc6; 0x7e; 0x06; 0x06; 0x06; 0x0c; 0x78; 0x00; 0x00; 0x00; 0x00];
  [0x00; 0x00; 0x00; 0x00; 0x18; 0x18; 0x00; 0x00; 0x00; 0x18; 0x18; 0x00; 0x00; 0x00; 0x00; 0x00];
  [0x00; 0x00; 0x00; 0x00; 0x18; 0x18; 0x00; 0x00; 0x00; 0x18; 0x18; 0x30; 0x00; 0x00; 0x00; 0x00];
  [0x00; 0x00; 0x00; 0x06; 0x0c; 0x18; 0x30; 0x60; 0x30; 0x18; 0x0c; 0x06; 0x00; 0x00; 0x00; 0x00];
  [0x00; 0x00; 0x00; 0x00; 0x00; 0x7e; 0x00; 0x00; 0x7e; 0x00; 0x00; 0x00; 0x00; 0x00; 0x00; 0x00];
  [0x00; 0x00; 0x00; 0x60; 0x30; 0x18; 0x0c; 0x06; 0x0c; 0x18; 0x30; 0x60; 0x00; 0x00; 0x00; 0x00];
  [0x00; 0x00; 0x7c; 0xc6; 0xc6; 0x0c; 0x18; 0x18; 0x18; 0x00; 0x18; 0x18; 0x00; 0x00; 0x00; 0x00];
  [0x00; 0x00; 0x00; 0x7c; 0xc6; 0xc6; 0xde; 0xde; 0xde; 0xdc; 0xc0; 0x7c; 0x00; 0x00; 0x00; 0x00];
  [0x00; 0x00; 0x10; 0x38; 0x6c; 0xc6; 0xc6; 0xfe; 0xc6; 0xc6; 0xc6; 0xc6; 0x00; 0x00; 0x00; 0x00];
  [0x00; 0x00; 0xfc; 0x66; 0x66; 0x66; 0x7c; 0x66; 0x66; 0x66; 0x66; 0xfc; 0x00; 0x00; 0x00; 0x00];
  [0x00; 0x00; 0x3c; 0x66; 0xc2; 0xc0; 0xc0; 0xc0; 0xc0; 0xc2; 0x66; 0x3c; 0x00; 0x00; 0x00; 0x00];
  [0x00; 0x00; 0xf8; 0x6c; 0x66; 0x66; 0x66; 0x66; 0x66; 0x66; 0x6c; 0xf8; 0x00; 0x00; 0x00; 0x00];
  [0x00; 0x00; 0xfe; 0x66; 0x62; 0x68; 0x78; 0x68; 0x60; 0x62; 0x66; 0xfe; 0x00; 0x00; 0x00; 0x00];
  [0x00; 0x00; 0xfe; 0x66; 0x62; 0x68; 0x78; 0x68; 0x60; 0x60; 0x60; 0xf0; 0x00; 0x00; 0x00; 0x00];
  [0x00; 0x00; 0x3c; 0x66; 0xc2; 0xc0; 0xc0; 0xde; 0xc6; 0xc6; 0x66; 0x3a; 0x00; 0x00; 0x00; 0x00];
  [0x00; 0x00; 0xc6; 0xc6; 0xc6; 0xc6; 0xfe; 0xc6; 0xc6; 0xc6; 0xc6; 0xc6; 0x00; 0x00; 0x00; 0x00];
  [0x00; 0x00; 0x3c; 0x18; 0x18; 0x18; 0x18; 0x18; 0x18; 0x18; 0x18; 0x3c; 0x00; 0x00; 0x00; 0x00];
  [0x00; 0x00; 0x1e; 0x0c; 0x0c; 0x0c; 0x0c; 0x0c; 0xcc; 0xcc; 0xcc; 0x78; 0x00; 0x00; 0x00; 0x00];
  [0x00; 0x00; 0xe6; 0x66; 0x66; 0x6c; 0x78; 0x78; 0x6c; 0x66; 0x66; 0xe6; 0x00; 0x00; 0x00; 0x00];
  [0x00; 0x00; 0xf0; 0x60; 0x60; 0x60; 0x60; 0x60; 0x60; 0x62; 0x66; 0xfe; 0x00; 0x00; 0x00; 0x00];
  [0x00; 0x00; 0xc6; 0xee; 0xfe; 0xfe; 0xd6; 0xc6; 0xc6; 0xc6; 0xc6; 0xc6; 0x00; 0x00; 0x00; 0x00];
  [0x00; 0x00; 0xc6; 0xe6; 0xf6; 0xfe; 0xde; 0xce; 0xc6; 0xc6; 0xc6; 0xc6; 0x00; 0x00; 0x00; 0x00];
  [0x00; 0x00; 0x7c; 0xc6; 0xc6; 0xc6; 0xc6; 0xc6; 0xc6; 0xc6; 0xc6; 0x7c; 0x00; 0x00; 0x00; 0x00];
  [0x00; 0x00; 0xfc; 0x66; 0x66; 0x66; 0x7c; 0x60; 0x60; 0x60; 0x60; 0xf0; 0x00; 0x00; 0x00; 0x00];
  [0x00; 0x00; 0x7c; 0xc6; 0xc6; 0xc6; 0xc6; 0xc6; 0xc6; 0xd6; 0xde; 0x7c; 0x0c; 0x0e; 0x00; 0x00];
  [0x00; 0x00; 0xfc; 0x66; 0x66; 0x66; 0x7c; 0x6c; 0x66; 0x66; 0x66; 0xe6; 0x00; 0x00; 0x00; 0x00];
  [0x00; 0x00; 0x7c; 0xc6; 0xc6; 0x60; 0x38; 0x0c; 0x06; 0xc6; 0xc6; 0x7c; 0x00; 0x00; 0x00; 0x00];
  [0x00; 0x00; 0x7e; 0x7e; 0x5a; 0x18; 0x18; 0x18; 0x18; 0x18; 0x18; 0x3c; 0x00; 0x00; 0x00; 0x00];
  [0x00; 0x00; 0xc6; 0xc6; 0xc6; 0xc6; 0xc6; 0xc6; 0xc6; 0xc6; 0xc6; 0x7c; 0x00; 0x00; 0x00; 0x00];
  [0x00; 0x00; 0xc6; 0xc6; 0xc6; 0xc6; 0xc6; 0xc6; 0xc6; 0x6c; 0x38; 0x10; 0x00; 0x00; 0x00; 0x00];
  [0x00; 0x00; 0xc6; 0xc6; 0xc6; 0xc6; 0xd6; 0xd6; 0xd6; 0xfe; 0xee; 0x6c; 0x00; 0x00; 0x00; 0x00];
  [0x00; 0x00; 0xc6; 0xc6; 0x6c; 0x7c; 0x38; 0x38; 0x7c; 0x6c; 0xc6; 0xc6; 0x00; 0x00; 0x00; 0x00];
  [0x00; 0x00; 0x66; 0x66; 0x66; 0x66; 0x3c; 0x18; 0x18; 0x18; 0x18; 0x3c; 0x00; 0x00; 0x00; 0x00];
  [0x00; 0x00; 0xfe; 0xc6; 0x86; 0x0c; 0x18; 0x30; 0x60; 0xc2; 0xc6; 0xfe; 0x00; 0x00; 0x00; 0x00];
  [0x00; 0x00; 0x3c; 0x30; 0x30; 0x30; 0x30; 0x30; 0x30; 0x30; 0x30; 0x3c; 0x00; 0x00; 0x00; 0x00];
  [0x00; 0x00; 0x00; 0x80; 0xc0; 0xe0; 0x70; 0x38; 0x1c; 0x0e; 0x06; 0x02; 0x00; 0x00; 0x00; 0x00];
  [0x00; 0x00; 0x3c; 0x0c; 0x0c; 0x0c; 0x0c; 0x0c; 0x0c; 0x0c; 0x0c; 0x3c; 0x00; 0x00; 0x00; 0x00];
  [0x10; 0x38; 0x6c; 0xc6; 0x00; 0x00; 0x00; 0x00; 0x00; 0x00; 0x00; 0x00; 0x00; 0x00; 0x00; 0x00];
  [0x00; 0x00; 0x00; 0x00; 0x00; 0x00; 0x00; 0x00; 0x00; 0x00; 0x00; 0x00; 0x00; 0xff; 0x00; 0x00];
  [0x30; 0x30; 0x18; 0x00; 0x00; 0x00; 0x00; 0x00; 0x00; 0x00; 0x00; 0x00; 0x00; 0x00; 0x00; 0x00];
  [0x00; 0x00; 0x00; 0x00; 0x00; 0x78; 0x0c; 0x7c; 0xcc; 0xcc; 0xcc; 0x76; 0x00; 0x00; 0x00; 0x00];
  [0x00; 0x00; 0xe0; 0x60; 0x60; 0x78; 0x6c; 0x66; 0x66; 0x66; 0x66; 0x7c; 0x00; 0x00; 0x00; 0x00];
  [0x00; 0x00; 0x00; 0x00; 0x00; 0x7c; 0xc6; 0xc0; 0xc0; 0xc0; 0xc6; 0x7c; 0x00; 0x00; 0x00; 0x00];
  [0x00; 0x00; 0x1c; 0x0c; 0x0c; 0x3c; 0x6c; 0xcc; 0xcc; 0xcc; 0xcc; 0x76; 0x00; 0x00; 0x00; 0x00];
  [0x00; 0x00; 0x00; 0x00; 0x00; 0x7c; 0xc6; 0xfe; 0xc0; 0xc0; 0xc6; 0x7c; 0x00; 0x00; 0x00; 0x00];
  [0x00; 0x00; 0x38; 0x6c; 0x64; 0x60; 0xf0; 0x60; 0x60; 0x60; 0x60; 0xf0; 0x00; 0x00; 0x00; 0x00];
  [0x00; 0x00; 0x00; 0x00; 0x00; 0x76; 0xcc; 0xcc; 0xcc; 0xcc; 0xcc; 0x7c; 0x0c; 0xcc; 0x78; 0x00];
  [0x00; 0x00; 0xe0; 0x60; 0x60; 0x6c; 0x76; 0x66; 0x66; 0x66; 0x66; 0xe6; 0x00; 0x00; 0x00; 0x00];
  [0x00; 0x00; 0x18; 0x18; 0x00; 0x38; 0x18; 0x18; 0x18; 0x18; 0x18; 0x3c; 0x00; 0x00; 0x00; 0x00];
  [0x00; 0x00; 0x06; 0x06; 0x00; 0x0e; 0x06; 0x06; 0x06; 0x06; 0x06; 0x06; 0x66; 0x66; 0x3c; 0x00];
  [0x00; 0x00; 0xe0; 0x60; 0x60; 0x66; 0x6c; 0x78; 0x78; 0x6c; 0x66; 0xe6; 0x00; 0x00; 0x00; 0x00];
  [0x00; 0x00; 0x38; 0x18; 0x18; 0x18; 0x18; 0x18; 0x18; 0x18; 0x18; 0x3c; 0x00; 0x00; 0x00; 0x00];
  [0x00; 0x00; 0x00; 0x00; 0x00; 0xec; 0xfe; 0xd6; 0xd6; 0xd6; 0xd6; 0xc6; 0x00; 0x00; 0x00; 0x00];
  [0x00; 0x00; 0x00; 0x00; 0x00; 0xdc; 0x66; 0x66; 0x66; 0x66; 0x66; 0x66; 0x00; 0x00; 0x00; 0x00];
  [0x00; 0x00; 0x00; 0x00; 0x00; 0x7c; 0xc6; 0xc6; 0xc6; 0xc6; 0xc6; 0x7c; 0x00; 0x00; 0x00; 0x00];
  [0x00; 0x00; 0x00; 0x00; 0x00; 0xdc; 0x66; 0x66; 0x66; 0x66; 0x66; 0x7c; 0x60; 0x60; 0xf0; 0x00];
  [0x00; 0x00; 0x00; 0x00; 0x00; 0x76; 0xcc; 0xcc; 0xcc; 0xcc; 0xcc; 0x7c; 0x0c; 0x0c; 0x1e; 0x00];
  [0x00; 0x00; 0x00; 0x00; 0x00; 0xdc; 0x76; 0x66; 0x60; 0x60; 0x60; 0xf0; 0x00; 0x00; 0x00; 0x00];
  [0x00; 0x00; 0x00; 0x00; 0x00; 0x7c; 0xc6; 0x60; 0x38; 0x0c; 0xc6; 0x7c; 0x00; 0x00; 0x00; 0x00];
  [0x00; 0x00; 0x10; 0x30; 0x30; 0xfc; 0x30; 0x30; 0x30; 0x30; 0x36; 0x1c; 0x00; 0x00; 0x00; 0x00];
  [0x00; 0x00; 0x00; 0x00; 0x00; 0xcc; 0xcc; 0xcc; 0xcc; 0xcc; 0xcc; 0x76; 0x00; 0x00; 0x00; 0x00];
  [0x00; 0x00; 0x00; 0x00; 0x00; 0x66; 0x66; 0x66; 0x66; 0x66; 0x3c; 0x18; 0x00; 0x00; 0x00; 0x00];
  [0x00; 0x00; 0x00; 0x00; 0x00; 0xc6; 0xc6; 0xd6; 0xd6; 0xd6; 0xfe; 0x6c; 0x00; 0x00; 0x00; 0x00];
  [0x00; 0x00; 0x00; 0x00; 0x00; 0xc6; 0x6c; 0x38; 0x38; 0x38; 0x6c; 0xc6; 0x00; 0x00; 0x00; 0x00];
  [0x00; 0x00; 0x00; 0x00; 0x00; 0xc6; 0xc6; 0xc6; 0xc6; 0xc6; 0xc6; 0x7e; 0x06; 0x0c; 0xf8; 0x00];
  [0x00; 0x00; 0x00; 0x00; 0x00; 0xfe; 0xcc; 0x18; 0x30; 0x60; 0xc6; 0xfe; 0x00; 0x00; 0x00; 0x00];
  [0x00; 0x00; 0x0e; 0x18; 0x18; 0x18; 0x70; 0x18; 0x18; 0x18; 0x18; 0x0e; 0x00; 0x00; 0x00; 0x00];
  [0x00; 0x00; 0x18; 0x18; 0x18; 0x18; 0x18; 0x18; 0x18; 0x18; 0x18; 0x18; 0x00; 0x00; 0x00; 0x00];
  [0x00; 0x00; 0x70; 0x18; 0x18; 0x18; 0x0e; 0x18; 0x18; 0x18; 0x18; 0x70; 0x00; 0x00; 0x00; 0x00];
  [0x00; 0x00; 0x76; 0xdc; 0x00; 0x00; 0x00; 0x00; 0x00; 0x00; 0x00; 0x00; 0x00; 0x00; 0x00; 0x00];
  [0x00; 0x00; 0x00; 0x00; 0x10; 0x38; 0x6c; 0xc6; 0xc6; 0xc6; 0xfe; 0x00; 0x00; 0x00; 0x00; 0x00];
  [0x00; 0x00; 0x3c; 0x66; 0xc2; 0xc0; 0xc0; 0xc0; 0xc2; 0x66; 0x3c; 0x0c; 0x06; 0x7c; 0x00; 0x00];
  [0x00; 0x00; 0xcc; 0x00; 0x00; 0xcc; 0xcc; 0xcc; 0xcc; 0xcc; 0xcc; 0x76; 0x00; 0x00; 0x00; 0x00];
  [0x00; 0x0c; 0x18; 0x30; 0x00; 0x7c; 0xc6; 0xfe; 0xc0; 0xc0; 0xc6; 0x7c; 0x00; 0x00; 0x00; 0x00];
  [0x00; 0x10; 0x38; 0x6c; 0x00; 0x78; 0x0c; 0x7c; 0xcc; 0xcc; 0xcc; 0x76; 0x00; 0x00; 0x00; 0x00];
  [0x00; 0x00; 0xcc; 0x00; 0x00; 0x78; 0x0c; 0x7c; 0xcc; 0xcc; 0xcc; 0x76; 0x00; 0x00; 0x00; 0x00];
  [0x00; 0x60; 0x30; 0x18; 0x00; 0x78; 0x0c; 0x7c; 0xcc; 0xcc; 0xcc; 0x76; 0x00; 0x00; 0x00; 0x00];
  [0x00; 0x38; 0x6c; 0x38; 0x00; 0x78; 0x0c; 0x7c; 0xcc; 0xcc; 0xcc; 0x76; 0x00; 0x00; 0x00; 0x00];
  [0x00; 0x00; 0x00; 0x00; 0x3c; 0x66; 0x60; 0x60; 0x66; 0x3c; 0x0c; 0x06; 0x3c; 0x00; 0x00; 0x00];
  [0x00; 0x10; 0x38; 0x6c; 0x00; 0x7c; 0xc6; 0xfe; 0xc0; 0xc0; 0xc6; 0x7c; 0x00; 0x00; 0x00; 0x00];
  [0x00; 0x00; 0xc6; 0x00; 0x00; 0x7c; 0xc6; 0xfe; 0xc0; 0xc0; 0xc6; 0x7c; 0x00; 0x00; 0x00; 0x00];
  [0x00; 0x60; 0x30; 0x18; 0x00; 0x7c; 0xc6; 0xfe; 0xc0; 0xc0; 0xc6; 0x7c; 0x00; 0x00; 0x00; 0x00];
  [0x00; 0x00; 0x66; 0x00; 0x00; 0x38; 0x18; 0x18; 0x18; 0x18; 0x18; 0x3c; 0x00; 0x00; 0x00; 0x00];
  [0x00; 0x18; 0x3c; 0x66; 0x00; 0x38; 0x18; 0x18; 0x18; 0x18; 0x18; 0x3c; 0x00; 0x00; 0x00; 0x00];
  [0x00; 0x60; 0x30; 0x18; 0x00; 0x38; 0x18; 0x18; 0x18; 0x18; 0x18; 0x3c; 0x00; 0x00; 0x00; 0x00];
  [0x00; 0xc6; 0x00; 0x10; 0x38; 0x6c; 0xc6; 0xc6; 0xfe; 0xc6; 0xc6; 0xc6; 0x00; 0x00; 0x00; 0x00];
  [0x38; 0x6c; 0x38; 0x00; 0x38; 0x6c; 0xc6; 0xc6; 0xfe; 0xc6; 0xc6; 0xc6; 0x00; 0x00; 0x00; 0x00];
  [0x18; 0x30; 0x60; 0x00; 0xfe; 0x66; 0x60; 0x7c; 0x60; 0x60; 0x66; 0xfe; 0x00; 0x00; 0x00; 0x00];
  [0x00; 0x00; 0x00; 0x00; 0x00; 0xcc; 0x76; 0x36; 0x7e; 0xd8; 0xd8; 0x6e; 0x00; 0x00; 0x00; 0x00];
  [0x00; 0x00; 0x3e; 0x6c; 0xcc; 0xcc; 0xfe; 0xcc; 0xcc; 0xcc; 0xcc; 0xce; 0x00; 0x00; 0x00; 0x00];
  [0x00; 0x10; 0x38; 0x6c; 0x00; 0x7c; 0xc6; 0xc6; 0xc6; 0xc6; 0xc6; 0x7c; 0x00; 0x00; 0x00; 0x00];
  [0x00; 0x00; 0xc6; 0x00; 0x00; 0x7c; 0xc6; 0xc6; 0xc6; 0xc6; 0xc6; 0x7c; 0x00; 0x00; 0x00; 0x00];
  [0x00; 0x60; 0x30; 0x18; 0x00; 0x7c; 0xc6; 0xc6; 0xc6; 0xc6; 0xc6; 0x7c; 0x00; 0x00; 0x00; 0x00];
  [0x00; 0x30; 0x78; 0xcc; 0x00; 0xcc; 0xcc; 0xcc; 0xcc; 0xcc; 0xcc; 0x76; 0x00; 0x00; 0x00; 0x00];
  [0x00; 0x60; 0x30; 0x18; 0x00; 0xcc; 0xcc; 0xcc; 0xcc; 0xcc; 0xcc; 0x76; 0x00; 0x00; 0x00; 0x00];
  [0x00; 0x00; 0xc6; 0x00; 0x00; 0xc6; 0xc6; 0xc6; 0xc6; 0xc6; 0xc6; 0x7e; 0x06; 0x0c; 0x78; 0x00];
  [0x00; 0xc6; 0x00; 0x7c; 0xc6; 0xc6; 0xc6; 0xc6; 0xc6; 0xc6; 0xc6; 0x7c; 0x00; 0x00; 0x00; 0x00];
  [0x00; 0xc6; 0x00; 0xc6; 0xc6; 0xc6; 0xc6; 0xc6; 0xc6; 0xc6; 0xc6; 0x7c; 0x00; 0x00; 0x00; 0x00];
  [0x00; 0x00; 0x00; 0x00; 0x03; 0x7e; 0xce; 0xde; 0xde; 0xf6; 0xe6; 0xfc; 0xc0; 0x00; 0x00; 0x00];
  [0x00; 0x38; 0x6c; 0x64; 0x60; 0xf0; 0x60; 0x60; 0x60; 0x60; 0xe6; 0xfc; 0x00; 0x00; 0x00; 0x00];
  [0x00; 0x02; 0x7e; 0xce; 0xce; 0xde; 0xde; 0xfe; 0xf6; 0xf6; 0xc6; 0xfc; 0x80; 0x00; 0x00; 0x00];
  [0x00; 0xf8; 0xcc; 0xcc; 0xf8; 0xc4; 0xcc; 0xde; 0xcc; 0xcc; 0xcc; 0xc6; 0x00; 0x00; 0x00; 0x00];
  [0x00; 0x0e; 0x1b; 0x18; 0x18; 0x18; 0x7e; 0x18; 0x18; 0x18; 0x18; 0x18; 0xd8; 0x70; 0x00; 0x00];
  [0x00; 0x18; 0x30; 0x60; 0x00; 0x78; 0x0c; 0x7c; 0xcc; 0xcc; 0xcc; 0x76; 0x00; 0x00; 0x00; 0x00];
  [0x00; 0x0c; 0x18; 0x30; 0x00; 0x38; 0x18; 0x18; 0x18; 0x18; 0x18; 0x3c; 0x00; 0x00; 0x00; 0x00];
  [0x00; 0x18; 0x30; 0x60; 0x00; 0x7c; 0xc6; 0xc6; 0xc6; 0xc6; 0xc6; 0x7c; 0x00; 0x00; 0x00; 0x00];
  [0x00; 0x18; 0x30; 0x60; 0x00; 0xcc; 0xcc; 0xcc; 0xcc; 0xcc; 0xcc; 0x76; 0x00; 0x00; 0x00; 0x00];
  [0x00; 0x00; 0x76; 0xdc; 0x00; 0xdc; 0x66; 0x66; 0x66; 0x66; 0x66; 0x66; 0x00; 0x00; 0x00; 0x00];
  [0x76; 0xdc; 0x00; 0xc6; 0xe6; 0xf6; 0xfe; 0xde; 0xce; 0xc6; 0xc6; 0xc6; 0x00; 0x00; 0x00; 0x00];
  [0x00; 0x3c; 0x6c; 0x6c; 0x3e; 0x00; 0x7e; 0x00; 0x00; 0x00; 0x00; 0x00; 0x00; 0x00; 0x00; 0x00];
  [0x00; 0x38; 0x6c; 0x6c; 0x38; 0x00; 0x7c; 0x00; 0x00; 0x00; 0x00; 0x00; 0x00; 0x00; 0x00; 0x00];
  [0x00; 0x00; 0x30; 0x30; 0x00; 0x30; 0x30; 0x60; 0xc0; 0xc6; 0xc6; 0x7c; 0x00; 0x00; 0x00; 0x00];
  [0x00; 0x00; 0x00; 0x00; 0x00; 0x00; 0xfe; 0xc0; 0xc0; 0xc0; 0xc0; 0x00; 0x00; 0x00; 0x00; 0x00];
  [0x00; 0x00; 0x00; 0x00; 0x00; 0x00; 0xfe; 0x06; 0x06; 0x06; 0x06; 0x00; 0x00; 0x00; 0x00; 0x00];
  [0x00; 0xc0; 0xc0; 0xc2; 0xc6; 0xcc; 0x18; 0x30; 0x60; 0xdc; 0x86; 0x0c; 0x18; 0x3e; 0x00; 0x00];
  [0x00; 0xc0; 0xc0; 0xc2; 0xc6; 0xcc; 0x18; 0x30; 0x66; 0xce; 0x9e; 0x3e; 0x06; 0x06; 0x00; 0x00];
  [0x00; 0x00; 0x18; 0x18; 0x00; 0x18; 0x18; 0x18; 0x3c; 0x3c; 0x3c; 0x18; 0x00; 0x00; 0x00; 0x00];
  [0x00; 0x00; 0x00; 0x00; 0x00; 0x36; 0x6c; 0xd8; 0x6c; 0x36; 0x00; 0x00; 0x00; 0x00; 0x00; 0x00];
  [0x00; 0x00; 0x00; 0x00; 0x00; 0xd8; 0x6c; 0x36; 0x6c; 0xd8; 0x00; 0x00; 0x00; 0x00; 0x00; 0x00];
  [0x11; 0x44; 0x11; 0x44; 0x11; 0x44; 0x11; 0x44; 0x11; 0x44; 0x11; 0x44; 0x11; 0x44; 0x11; 0x44];
  [0x55; 0xaa; 0x55; 0xaa; 0x55; 0xaa; 0x55; 0xaa; 0x55; 0xaa; 0x55; 0xaa; 0x55; 0xaa; 0x55; 0xaa];
  [0xdd; 0x77; 0xdd; 0x77; 0xdd; 0x77; 0xdd; 0x77; 0xdd; 0x77; 0xdd; 0x77; 0xdd; 0x77; 0xdd; 0x77];
  [0x18; 0x18; 0x18; 0x18; 0x18; 0x18; 0x18; 0x18; 0x18; 0x18; 0x18; 0x18; 0x18; 0x18; 0x18; 0x18];
  [0x18; 0x18; 0x18; 0x18; 0x18; 0x18; 0x18; 0xf8; 0x18; 0x18; 0x18; 0x18; 0x18; 0x18; 0x18; 0x18];
  [0x18; 0x18; 0x18; 0x18; 0x18; 0xf8; 0x18; 0xf8; 0x18; 0x18; 0x18; 0x18; 0x18; 0x18; 0x18; 0x18];
  [0x36; 0x36; 0x36; 0x36; 0x36; 0x36; 0x36; 0xf6; 0x36; 0x36; 0x36; 0x36; 0x36; 0x36; 0x36; 0x36];
  [0x00; 0x00; 0x00; 0x00; 0x00; 0x00; 0x00; 0xfe; 0x36; 0x36; 0x36; 0x36; 0x36; 0x36; 0x36; 0x36];
  [0x00; 0x00; 0x00; 0x00; 0x00; 0xf8; 0x18; 0xf8; 0x18; 0x18; 0x18; 0x18; 0x18; 0x18; 0x18; 0x18];
  [0x36; 0x36; 0x36; 0x36; 0x36; 0xf6; 0x06; 0xf6; 0x36; 0x36; 0x36; 0x36; 0x36; 0x36; 0x36; 0x36];
  [0x36; 0x36; 0x36; 0x36; 0x36; 0x36; 0x36; 0x36; 0x36; 0x36; 0x36; 0x36; 0x36; 0x36; 0x36; 0x36];
  [0x00; 0x00; 0x00; 0x00; 0x00; 0xfe; 0x06; 0xf6; 0x36; 0x36; 0x36; 0x36; 0x36; 0x36; 0x36; 0x36];
  [0x36; 0x36; 0x36; 0x36; 0x36; 0xf6; 0x06; 0xfe; 0x00; 0x00; 0x00; 0x00; 0x00; 0x00; 0x00; 0x00];
  [0x36; 0x36; 0x36; 0x36; 0x36; 0x36; 0x36; 0xfe; 0x00; 0x00; 0x00; 0x00; 0x00; 0x00; 0x00; 0x00];
  [0x18; 0x18; 0x18; 0x18; 0x18; 0xf8; 0x18; 0xf8; 0x00; 0x00; 0x00; 0x00; 0x00; 0x00; 0x00; 0x00];
  [0x00; 0x00; 0x00; 0x00; 0x00; 0x00; 0x00; 0xf8; 0x18; 0x18; 0x18; 0x18; 0x18; 0x18; 0x18; 0x18];
  [0x18; 0x18; 0x18; 0x18; 0x18; 0x18; 0x18; 0x1f; 0x00; 0x00; 0x00; 0x00; 0x00; 0x00; 0x00; 0x00];
  [0x18; 0x18; 0x18; 0x18; 0x18; 0x18; 0x18; 0xff; 0x00; 0x00; 0x00; 0x00; 0x00; 0x00; 0x00; 0x00];
  [0x00; 0x00; 0x00; 0x00; 0x00; 0x00; 0x00; 0xff; 0x18; 0x18; 0x18; 0x18; 0x18; 0x18; 0x18; 0x18];
  [0x18; 0x18; 0x18; 0x18; 0x18; 0x18; 0x18; 0x1f; 0x18; 0x18; 0x18; 0x18; 0x18; 0x18; 0x18; 0x18];
  [0x00; 0x00; 0x00; 0x00; 0x00; 0x00; 0x00; 0xff; 0x00; 0x00; 0x00; 0x00; 0x00; 0x00; 0x00; 0x00];
  [0x18; 0x18; 0x18; 0x18; 0x18; 0x18; 0x18; 0xff; 0x18; 0x18; 0x18; 0x18; 0x18; 0x18; 0x18; 0x18];
  [0x18; 0x18; 0x18; 0x18; 0x18; 0x1f; 0x18; 0x1f; 0x18; 0x18; 0x18; 0x18; 0x18; 0x18; 0x18; 0x18];
  [0x36; 0x36; 0x36; 0x36; 0x36; 0x36; 0x36; 0x37; 0x36; 0x36; 0x36; 0x36; 0x36; 0x36; 0x36; 0x36];
  [0x36; 0x36; 0x36; 0x36; 0x36; 0x37; 0x30; 0x3f; 0x00; 0x00; 0x00; 0x00; 0x00; 0x00; 0x00; 0x00];
  [0x00; 0x00; 0x00; 0x00; 0x00; 0x3f; 0x30; 0x37; 0x36; 0x36; 0x36; 0x36; 0x36; 0x36; 0x36; 0x36];
  [0x36; 0x36; 0x36; 0x36; 0x36; 0xf7; 0x00; 0xff; 0x00; 0x00; 0x00; 0x00; 0x00; 0x00; 0x00; 0x00];
  [0x00; 0x00; 0x00; 0x00; 0x00; 0xff; 0x00; 0xf7; 0x36; 0x36; 0x36; 0x36; 0x36; 0x36; 0x36; 0x36];
  [0x36; 0x36; 0x36; 0x36; 0x36; 0x37; 0x30; 0x37; 0x36; 0x36; 0x36; 0x36; 0x36; 0x36; 0x36; 0x36];
  [0x00; 0x00; 0x00; 0x00; 0x00; 0xff; 0x00; 0xff; 0x00; 0x00; 0x00; 0x00; 0x00; 0x00; 0x00; 0x00];
  [0x36; 0x36; 0x36; 0x36; 0x36; 0xf7; 0x00; 0xf7; 0x36; 0x36; 0x36; 0x36; 0x36; 0x36; 0x36; 0x36];
  [0x18; 0x18; 0x18; 0x18; 0x18; 0xff; 0x00; 0xff; 0x00; 0x00; 0x00; 0x00; 0x00; 0x00; 0x00; 0x00];
  [0x36; 0x36; 0x36; 0x36; 0x36; 0x36; 0x36; 0xff; 0x00; 0x00; 0x00; 0x00; 0x00; 0x00; 0x00; 0x00];
  [0x00; 0x00; 0x00; 0x00; 0x00; 0xff; 0x00; 0xff; 0x18; 0x18; 0x18; 0x18; 0x18; 0x18; 0x18; 0x18];
  [0x00; 0x00; 0x00; 0x00; 0x00; 0x00; 0x00; 0xff; 0x36; 0x36; 0x36; 0x36; 0x36; 0x36; 0x36; 0x36];
  [0x36; 0x36; 0x36; 0x36; 0x36; 0x36; 0x36; 0x3f; 0x00; 0x00; 0x00; 0x00; 0x00; 0x00; 0x00; 0x00];
  [0x18; 0x18; 0x18; 0x18; 0x18; 0x1f; 0x18; 0x1f; 0x00; 0x00; 0x00; 0x00; 0x00; 0x00; 0x00; 0x00];
  [0x00; 0x00; 0x00; 0x00; 0x00; 0x1f; 0x18; 0x1f; 0x18; 0x18; 0x18; 0x18; 0x18; 0x18; 0x18; 0x18];
  [0x00; 0x00; 0x00; 0x00; 0x00; 0x00; 0x00; 0x3f; 0x36; 0x36; 0x36; 0x36; 0x36; 0x36; 0x36; 0x36];
  [0x36; 0x36; 0x36; 0x36; 0x36; 0x36; 0x36; 0xff; 0x36; 0x36; 0x36; 0x36; 0x36; 0x36; 0x36; 0x36];
  [0x18; 0x18; 0x18; 0x18; 0x18; 0xff; 0x18; 0xff; 0x18; 0x18; 0x18; 0x18; 0x18; 0x18; 0x18; 0x18];
  [0x18; 0x18; 0x18; 0x18; 0x18; 0x18; 0x18; 0xf8; 0x00; 0x00; 0x00; 0x00; 0x00; 0x00; 0x00; 0x00];
  [0x00; 0x00; 0x00; 0x00; 0x00; 0x00; 0x00; 0x1f; 0x18; 0x18; 0x18; 0x18; 0x18; 0x18; 0x18; 0x18];
  [0xff; 0xff; 0xff; 0xff; 0xff; 0xff; 0xff; 0xff; 0xff; 0xff; 0xff; 0xff; 0xff; 0xff; 0xff; 0xff];
  [0x00; 0x00; 0x00; 0x00; 0x00; 0x00; 0x00; 0xff; 0xff; 0xff; 0xff; 0xff; 0xff; 0xff; 0xff; 0xff];
  [0xf0; 0xf0; 0xf0; 0xf0; 0xf0; 0xf0; 0xf0; 0xf0; 0xf0; 0xf0; 0xf0; 0xf0; 0xf0; 0xf0; 0xf0; 0xf0];
  [0x0f; 0x0f; 0x0f; 0x0f; 0x0f; 0x0f; 0x0f; 0x0f; 0x0f; 0x0f; 0x0f; 0x0f; 0x0f; 0x0f; 0x0f; 0x0f];
  [0xff; 0xff; 0xff; 0xff; 0xff; 0xff; 0xff; 0x00; 0x00; 0x00; 0x00; 0x00; 0x00; 0x00; 0x00; 0x00];
  [0x00; 0x00; 0x00; 0x00; 0x00; 0x76; 0xdc; 0xd8; 0xd8; 0xd8; 0xdc; 0x76; 0x00; 0x00; 0x00; 0x00];
  [0x00; 0x00; 0x78; 0xcc; 0xcc; 0xcc; 0xd8; 0xcc; 0xc6; 0xc6; 0xc6; 0xcc; 0x00; 0x00; 0x00; 0x00];
  [0x00; 0x00; 0xfe; 0xc6; 0xc6; 0xc0; 0xc0; 0xc0; 0xc0; 0xc0; 0xc0; 0xc0; 0x00; 0x00; 0x00; 0x00];
  [0x00; 0x00; 0x00; 0x00; 0xfe; 0x6c; 0x6c; 0x6c; 0x6c; 0x6c; 0x6c; 0x6c; 0x00; 0x00; 0x00; 0x00];
  [0x00; 0x00; 0x00; 0xfe; 0xc6; 0x60; 0x30; 0x18; 0x30; 0x60; 0xc6; 0xfe; 0x00; 0x00; 0x00; 0x00];
  [0x00; 0x00; 0x00; 0x00; 0x00; 0x7e; 0xd8; 0xd8; 0xd8; 0xd8; 0xd8; 0x70; 0x00; 0x00; 0x00; 0x00];
  [0x00; 0x00; 0x00; 0x00; 0x66; 0x66; 0x66; 0x66; 0x66; 0x7c; 0x60; 0x60; 0xc0; 0x00; 0x00; 0x00];
  [0x00; 0x00; 0x00; 0x00; 0x76; 0xdc; 0x18; 0x18; 0x18; 0x18; 0x18; 0x18; 0x00; 0x00; 0x00; 0x00];
  [0x00; 0x00; 0x00; 0x7e; 0x18; 0x3c; 0x66; 0x66; 0x66; 0x3c; 0x18; 0x7e; 0x00; 0x00; 0x00; 0x00];
  [0x00; 0x00; 0x00; 0x38; 0x6c; 0xc6; 0xc6; 0xfe; 0xc6; 0xc6; 0x6c; 0x38; 0x00; 0x00; 0x00; 0x00];
  [0x00; 0x00; 0x38; 0x6c; 0xc6; 0xc6; 0xc6; 0x6c; 0x6c; 0x6c; 0x6c; 0xee; 0x00; 0x00; 0x00; 0x00];
  [0x00; 0x00; 0x1e; 0x30; 0x18; 0x0c; 0x3e; 0x66; 0x66; 0x66; 0x66; 0x3c; 0x00; 0x00; 0x00; 0x00];
  [0x00; 0x00; 0x00; 0x00; 0x00; 0x7e; 0xdb; 0xdb; 0xdb; 0x7e; 0x00; 0x00; 0x00; 0x00; 0x00; 0x00];
  [0x00; 0x00; 0x00; 0x03; 0x06; 0x7e; 0xdb; 0xdb; 0xf3; 0x7e; 0x60; 0xc0; 0x00; 0x00; 0x00; 0x00];
  [0x00; 0x00; 0x1c; 0x30; 0x60; 0x60; 0x7c; 0x60; 0x60; 0x60; 0x30; 0x1c; 0x00; 0x00; 0x00; 0x00];
  [0x00; 0x00; 0x00; 0x7c; 0xc6; 0xc6; 0xc6; 0xc6; 0xc6; 0xc6; 0xc6; 0xc6; 0x00; 0x00; 0x00; 0x00];
  [0x00; 0x00; 0x00; 0x00; 0xfe; 0x00; 0x00; 0xfe; 0x00; 0x00; 0xfe; 0x00; 0x00; 0x00; 0x00; 0x00];
  [0x00; 0x00; 0x00; 0x00; 0x18; 0x18; 0x7e; 0x18; 0x18; 0x00; 0x00; 0xff; 0x00; 0x00; 0x00; 0x00];
  [0x00; 0x00; 0x00; 0x30; 0x18; 0x0c; 0x06; 0x0c; 0x18; 0x30; 0x00; 0x7e; 0x00; 0x00; 0x00; 0x00];
  [0x00; 0x00; 0x00; 0x0c; 0x18; 0x30; 0x60; 0x30; 0x18; 0x0c; 0x00; 0x7e; 0x00; 0x00; 0x00; 0x00];
  [0x00; 0x00; 0x0e; 0x1b; 0x1b; 0x18; 0x18; 0x18; 0x18; 0x18; 0x18; 0x18; 0x18; 0x18; 0x18; 0x18];
  [0x18; 0x18; 0x18; 0x18; 0x18; 0x18; 0x18; 0x18; 0xd8; 0xd8; 0xd8; 0x70; 0x00; 0x00; 0x00; 0x00];
  [0x00; 0x00; 0x00; 0x00; 0x18; 0x18; 0x00; 0x7e; 0x00; 0x18; 0x18; 0x00; 0x00; 0x00; 0x00; 0x00];
  [0x00; 0x00; 0x00; 0x00; 0x00; 0x76; 0xdc; 0x00; 0x76; 0xdc; 0x00; 0x00; 0x00; 0x00; 0x00; 0x00];
  [0x00; 0x38; 0x6c; 0x6c; 0x38; 0x00; 0x00; 0x00; 0x00; 0x00; 0x00; 0x00; 0x00; 0x00; 0x00; 0x00];
  [0x00; 0x00; 0x00; 0x00; 0x00; 0x00; 0x00; 0x18; 0x18; 0x00; 0x00; 0x00; 0x00; 0x00; 0x00; 0x00];
  [0x00; 0x00; 0x00; 0x00; 0x00; 0x00; 0x00; 0x00; 0x18; 0x00; 0x00; 0x00; 0x00; 0x00; 0x00; 0x00];
  [0x00; 0x0f; 0x0c; 0x0c; 0x0c; 0x0c; 0x0c; 0xec; 0x6c; 0x6c; 0x3c; 0x1c; 0x00; 0x00; 0x00; 0x00];
  [0x00; 0xd8; 0x6c; 0x6c; 0x6c; 0x6c; 0x6c; 0x00; 0x00; 0x00; 0x00; 0x00; 0x00; 0x00; 0x00; 0x00];
  [0x00; 0x70; 0xd8; 0x30; 0x60; 0xc8; 0xf8; 0x00; 0x00; 0x00; 0x00; 0x00; 0x00; 0x00; 0x00; 0x00];
  [0x00; 0x00; 0x00; 0x00; 0x7c; 0x7c; 0x7c; 0x7c; 0x7c; 0x7c; 0x7c; 0x00; 0x00; 0x00; 0x00; 0x00];
  replicate 16 0x00
].

(** The memory from [g_fb] on, by word; a word is 0 until it is written.
    [g_pitch] counts words. *)
Record screen := mk_screen {
  g_fb : Z;
  g_pitch : Z;
  g_width : Z;
  g_height : Z;
  words : gmap Z Z
}.
Implicit Types s : screen.

(** [g_fb[i]]: addresses wrap at 2^32, words at a quarter of it. *)
Definition word_at (i : Z) : Z := i mod 2 ^ 30.
Definition get_word (i : Z) s : Z := default 0 (words s !! word_at i).
Definition put_word (i v : Z) s : screen := mk_screen (g_fb s) (g_pitch s) (g_width s) (g_height s) (<[word_at i := v]> (words s)).
Definition pixel_index (x y : Z) s : Z := u32 (u32 (y * g_pitch s) + x).

(** The fields of the boot loader's tag that are used. *)
Definition framebuffer_initialize (addr pitch width height : Z) s : screen :=
  mk_screen (u32 addr) (pitch / 4) width height (words s).

Definition framebuffer_clear (color : Z) s : screen :=
  foldl (fun s y => foldl (fun s x => put_word (pixel_index x y s) color s) s (seqZ 0 (g_width s))) s (seqZ 0 (g_height s)).

Definition font_index (c : Z) : Z :=
  if 8 <? c then (if 18 <? c + 1 then c + 5 else c + 1) else c.
Definition draw_dot (x y color scale : Z) s : screen :=
  foldl (fun s dy => foldl (fun s dx => put_word (pixel_index (u32 (x + dx)) (u32 (y + dy)) s) color s) s (seqZ 0 scale)) s (seqZ 0 scale).
Definition framebuffer_drawchar (x y c color bg_color scale : Z) s : screen :=
  let glyph := font8x16 !!! Z.to_nat (font_index c) in
  foldl (fun s row =>
    let bits := glyph !!! Z.to_nat row in
    foldl (fun s col =>
      draw_dot (u32 (x + col * scale)) (u32 (y + row * scale)) (if is_set bits (Z.shiftl 1 (7 - col)) then color else bg_color) scale s)
      s (seqZ 0 8)) s (seqZ 0 16).

Definition framebuffer_width s : Z := g_width s.
Definition framebuffer_height s : Z := g_height s.
Definition framebuffer_getpixel (x y : Z) s : Z :=
  if (g_fb s =? 0) || (g_width s <=? x) || (g_height s <=? y) then 0 else get_word (pixel_index x y s) s.
Definition framebuffer_putpixel (x y color : Z) s : screen :=
  if (g_fb s =? 0) || (g_width s <=? x) || (g_height s <=? y) then s else put_word (pixel_index x y s) color s.
End Framebuffer.

Module FramebufferFacts.
Import Framebuffer.

(** A screen whose pixels all lie in memory, a row in at most one line. *)
Record screen_ok (s : screen) : Prop := {
  so_width : 0 <= g_width s <= g_pitch s;
  so_height : 0 <= g_height s;
  so_fits : g_height s * g_pitch s <= 2 ^ 30
}.

Lemma pixel_index_small s x y : screen_ok s -> 0 <= x < g_width s -> 0 <= y < g_height s -> pixel_index x y s = y * g_pitch s + x /\ word_at (pixel_index x y s) = y * g_pitch s + x.
Proof.
  intros [] Hx Hy. assert (0 <= y * g_pitch s /\ y * g_pitch s + x < 2 ^ 30) by nia.
  unfold pixel_index, word_at. rewrite (u32_small (y * _)) by lia. rewrite (u32_small (y * _ + x)) by lia. split; [done|]. apply Z.mod_small; lia.
Qed.
Lemma pixel_index_inj s x y x' y' : screen_ok s -> 0 <= x < g_width s -> 0 <= y < g_height s -> 0 <= x' < g_width s -> 0 <= y' < g_height s ->
  word_at (pixel_index x y s) = word_at (pixel_index x' y' s) -> x = x' /\ y = y'.
Proof.
  intros Hs Hx Hy Hx' Hy'. rewrite (proj2 (pixel_index_small s x y Hs Hx Hy)), (proj2 (pixel_index_small s x' y' Hs Hx' Hy')). intros E.
  destruct Hs as [Hw _ _]. assert (y = y') as -> by (destruct (Z.lt_trichotomy y y') as [?|[?|?]]; [nia|done|nia]). lia.
Qed.
End FramebufferFacts.
