(* ===== verification/Tty.v ===== *)
(** * The terminal

    [Tty] is [kernel/tty.c]: the text grid drawn into the frame buffer, the
    parser of the escape sequences a program writes, job control, and the line
    discipline of the input. *)

From S2P Require Import Prelude Framebuffer.

Module Tty.
Import Framebuffer.

Definition TERM_COLS : Z := 128.
Definition TERM_ROWS : Z := 48.
Definition CURSOR_BLINK_INTERVAL_TICKS : Z := 50.
Definition TTY_CSI_MAX_PARAMS : Z := 5.
Definition TTY_LINE_MAX : Z := 256.

Inductive tty_esc_state_t := TTY_ESC_IDLE | TTY_ESC_GOT_ESC | TTY_ESC_IN_CSI.

(** [term_buffer], [term_scale] and [line_positions], row by row. *)
Record grid_t := mk_grid { term_buffer : list (list Z); term_scale : list (list Z); line_positions : list Z }.
Record look_t := mk_look { term_color : Z; term_bg : Z; current_scale : Z }.
Record blink_t := mk_blink { cursor_enabled : bool; cursor_visible : bool; cursor_blink_counter : Z; terminal_ready : bool }.
Record csi_t := mk_csi { tty_esc_state : tty_esc_state_t; tty_csi_nums : list Z; tty_csi_num_count : Z; tty_csi_cur : Z; tty_csi_cur_has_digit : bool }.
Record line_t := mk_line { tty_canonical_mode : bool; tty_line_buf : list Z; tty_line_len : Z; tty_line_ready : bool; tty_line_consumed : Z }.
Record tty := mk_tty {
  grid : grid_t;
  term_cursor_x : Z;
  term_cursor_y : Z;
  look : look_t;
  blink : blink_t;
  terminal_controlling_sid : Z;
  terminal_foreground_pgid : Z;
  csi : csi_t;
  line : line_t;
  fb : screen
}.
Implicit Types t : tty.

Definition with_grid g t : tty := mk_tty g (term_cursor_x t) (term_cursor_y t) (look t) (blink t) (terminal_controlling_sid t) (terminal_foreground_pgid t) (csi t) (line t) (fb t).
Definition with_cursor x y t : tty := mk_tty (grid t) x y (look t) (blink t) (terminal_controlling_sid t) (terminal_foreground_pgid t) (csi t) (line t) (fb t).
Definition with_look l t : tty := mk_tty (grid t) (term_cursor_x t) (term_cursor_y t) l (blink t) (terminal_controlling_sid t) (terminal_foreground_pgid t) (csi t) (line t) (fb t).
Definition with_blink b t : tty := mk_tty (grid t) (term_cursor_x t) (term_cursor_y t) (look t) b (terminal_controlling_sid t) (terminal_foreground_pgid t) (csi t) (line t) (fb t).
Definition with_job s p t : tty := mk_tty (grid t) (term_cursor_x t) (term_cursor_y t) (look t) (blink t) s p (csi t) (line t) (fb t).
Definition with_csi c t : tty := mk_tty (grid t) (term_cursor_x t) (term_cursor_y t) (look t) (blink t) (terminal_controlling_sid t) (terminal_foreground_pgid t) c (line t) (fb t).
Definition with_line l t : tty := mk_tty (grid t) (term_cursor_x t) (term_cursor_y t) (look t) (blink t) (terminal_controlling_sid t) (terminal_foreground_pgid t) (csi t) l (fb t).
Definition with_fb f t : tty := mk_tty (grid t) (term_cursor_x t) (term_cursor_y t) (look t) (blink t) (terminal_controlling_sid t) (terminal_foreground_pgid t) (csi t) (line t) f.

(** ** The grid *)

Definition row_of (y : Z) (rows : list (list Z)) : list Z := rows !!! Z.to_nat y.
Definition cell (y x : Z) (rows : list (list Z)) : Z := row_of y rows !!! Z.to_nat x.
Definition put_cell (y x v : Z) (rows : list (list Z)) : list (list Z) := <[Z.to_nat y := <[Z.to_nat x := v]> (row_of y rows)]> rows.
Definition blank (v : Z) : list (list Z) := replicate (Z.to_nat TERM_ROWS) (replicate (Z.to_nat TERM_COLS) v).

(** The largest scale of a row, 1 at least. *)
Definition line_scale (row : list Z) : Z := foldl (fun m s => if m <? s then s else m) 1 row.
Fixpoint line_tops (y_pos : Z) (scales : list (list Z)) : list Z :=
  match scales with
  | [] => []
  | row :: rest => y_pos :: line_tops (u16 (y_pos + 16 * line_scale row)) rest
  end.
Definition calculate_line_positions t : tty :=
  with_grid (mk_grid (term_buffer (grid t)) (term_scale (grid t)) (line_tops 0 (term_scale (grid t)))) t.

Definition cursor_in_bounds t : bool :=
  (0 <=? term_cursor_x t) && (term_cursor_x t <? TERM_COLS) && (0 <=? term_cursor_y t) && (term_cursor_y t <? TERM_ROWS).

(** Where the cell [x] of row [y] is on the screen. *)
Definition x_position (y x : Z) t : Z := foldl (fun p s => u32 (p + 8 * s)) 0 (take (Z.to_nat x) (row_of y (term_scale (grid t)))).
Definition y_position (y : Z) t : Z := line_positions (grid t) !!! Z.to_nat y.
Definition draw_at (y x c scale : Z) t : tty :=
  with_fb (framebuffer_drawchar (x_position y x t) (y_position y t) c (term_color (look t)) (term_bg (look t)) scale (fb t)) t.

Definition draws_cursor t : bool := terminal_ready (blink t) && cursor_enabled (blink t) && cursor_visible (blink t) && cursor_in_bounds t.
Definition draw_cursor t : tty :=
  if draws_cursor t then
    draw_at (term_cursor_y t) (term_cursor_x t) 0xDB (cell (term_cursor_y t) (term_cursor_x t) (term_scale (grid t))) t
  else t.
Definition clear_cursor t : tty :=
  if draws_cursor t then
    draw_at (term_cursor_y t) (term_cursor_x t) (cell (term_cursor_y t) (term_cursor_x t) (term_buffer (grid t)))
      (cell (term_cursor_y t) (term_cursor_x t) (term_scale (grid t))) t
  else t.
Definition shows_cursor t : bool := cursor_enabled (blink t) && cursor_visible (blink t).

Definition terminal_cursor_blink_tick t : tty :=
  let b := blink t in
  if negb (terminal_ready b) || negb (cursor_enabled b) then t
  else
    let n := u32 (cursor_blink_counter b + 1) in
    if CURSOR_BLINK_INTERVAL_TICKS <=? n then
      let t := with_blink (mk_blink (cursor_enabled b) (cursor_visible b) 0 (terminal_ready b)) t in
      if cursor_visible b then with_blink (mk_blink (cursor_enabled b) false 0 (terminal_ready b)) (clear_cursor t)
      else draw_cursor (with_blink (mk_blink (cursor_enabled b) true 0 (terminal_ready b)) t)
    else with_blink (mk_blink (cursor_enabled b) (cursor_visible b) n (terminal_ready b)) t.
Definition terminal_enable_cursor t : tty :=
  draw_cursor (with_blink (mk_blink true true 0 (terminal_ready (blink t))) t).

(** One row of [terminal_redraw]: [p] is where its next cell begins. *)
Fixpoint redraw_row (y_pos p : Z) (cells : list (Z * Z)) (l : look_t) (f : screen) : screen :=
  match cells with
  | [] => f
  | (c, s) :: rest =>
      let f := if c =? 32 then f else framebuffer_drawchar p y_pos c (term_color l) (term_bg l) s f in
      redraw_row y_pos (u32 (p + 8 * s)) rest l f
  end.
Definition terminal_redraw t : tty :=
  let g := grid t in
  let f := framebuffer_clear (term_bg (look t)) (fb t) in
  let f := foldl (fun f y => redraw_row (y_position y t) 0 (zip (row_of y (term_buffer g)) (row_of y (term_scale g))) (look t) f) f (seqZ 0 TERM_ROWS) in
  let t := with_fb f t in
  if shows_cursor t then draw_cursor t else t.

Definition scroll_rows (v : Z) (rows : list (list Z)) : list (list Z) := drop 1 rows ++ [replicate (Z.to_nat TERM_COLS) v].
Definition terminal_scroll t : tty :=
  let g := grid t in
  terminal_redraw (calculate_line_positions (with_grid (mk_grid (scroll_rows 32 (term_buffer g)) (scroll_rows 1 (term_scale g)) (line_positions g)) t)).

(** The second loop of [clamp_or_scroll_cursor]: a row less each time. *)
Fixpoint scroll_to_fit (n : nat) t : tty :=
  match n with
  | O => t
  | S n =>
      if (0 <? term_cursor_y t) && (framebuffer_height (fb t) <? u32 (y_position (term_cursor_y t) t + u32 (16 * current_scale (look t)))) then
        let t := terminal_scroll t in
        scroll_to_fit n (with_cursor (term_cursor_x t) (term_cursor_y t - 1) t)
      else t
  end.
(** The first loop ends after one turn, which leaves the cursor on the last row. *)
Definition clamp_or_scroll_cursor t : tty :=
  let t := if TERM_ROWS <=? term_cursor_y t then let t := terminal_scroll t in with_cursor (term_cursor_x t) (TERM_ROWS - 1) t else t in
  let t := scroll_to_fit (Z.to_nat (term_cursor_y t)) t in
  let y := if term_cursor_y t <? 0 then 0 else term_cursor_y t in
  let x := if term_cursor_x t <? 0 then 0 else term_cursor_x t in
  with_cursor (if TERM_COLS <=? x then TERM_COLS - 1 else x) y t.

Definition clear_grid t : tty := with_grid (mk_grid (blank 32) (blank 1) (line_positions (grid t))) t.
Definition terminal_clear_and_home t : tty :=
  let t := calculate_line_positions (with_cursor 1 0 (clear_grid t)) in
  let t := with_fb (framebuffer_clear (term_bg (look t)) (fb t)) t in
  if shows_cursor t then draw_cursor t else t.
Definition terminal_initialize t : tty :=
  let t := with_job 0 0 (with_blink (mk_blink false true (cursor_blink_counter (blink t)) false) (with_look (mk_look 0x00FF00 0 1) (with_cursor 1 0 t))) in
  let t := calculate_line_positions (clear_grid t) in
  let t := with_fb (framebuffer_clear (term_bg (look t)) (fb t)) t in
  with_blink (mk_blink false true (cursor_blink_counter (blink t)) true) t.

Definition terminal_setcolor (color : Z) t : tty := with_look (mk_look color (term_bg (look t)) (current_scale (look t))) t.
Definition terminal_setbackground (color : Z) t : tty :=
  let t := with_look (mk_look (term_color (look t)) color (current_scale (look t))) t in
  if terminal_ready (blink t) then terminal_redraw t else t.
Definition terminal_setscale (scale : Z) t : tty := with_look (mk_look (term_color (look t)) (term_bg (look t)) scale) t.

(** The last used column of a row, from column [n] down, or the one after it. *)
Fixpoint last_used (n : nat) (row : list Z) : Z :=
  match n with
  | O => 0
  | S m => if row !!! n =? 32 then last_used m row else Z.of_nat n
  end.
Definition end_of_row (y : Z) t : Z :=
  let row := row_of y (term_buffer (grid t)) in
  let x := last_used (Z.to_nat (TERM_COLS - 1)) row in
  if negb (row !!! Z.to_nat x =? 32) then x + 1 else x.

Definition show_cursor_after t : tty := if shows_cursor t then draw_cursor t else t.
Definition hide_cursor t : tty := if shows_cursor t then clear_cursor t else t.

Definition terminal_move_cursor_left t : tty :=
  if negb (terminal_ready (blink t)) then t
  else
    let t := hide_cursor t in
    let x := term_cursor_x t in
    let y := term_cursor_y t in
    show_cursor_after (if 0 <? x then with_cursor (x - 1) y t else if 0 <? y then with_cursor (end_of_row (y - 1) t) (y - 1) t else t).

(** The end of a row moves the cursor to the next one. *)
Definition wrap_cursor t : tty :=
  if TERM_COLS <=? term_cursor_x t then
    calculate_line_positions (clamp_or_scroll_cursor (with_cursor 0 (term_cursor_y t + 1) t))
  else t.
Definition terminal_move_cursor_right t : tty :=
  if negb (terminal_ready (blink t)) then t
  else
    let t := hide_cursor t in
    show_cursor_after (wrap_cursor (with_cursor (term_cursor_x t + 1) (term_cursor_y t) t)).

(** ** Escape sequences *)

Definition nth_num (i : Z) (c : csi_t) : Z := tty_csi_nums c !!! Z.to_nat i.
Definition set_state (e : tty_esc_state_t) (c : csi_t) : csi_t :=
  mk_csi e (tty_csi_nums c) (tty_csi_num_count c) (tty_csi_cur c) (tty_csi_cur_has_digit c).
(** [if (count < MAX) nums[count++] = cur;] *)
Definition push_num (c : csi_t) : csi_t :=
  if tty_csi_num_count c <? TTY_CSI_MAX_PARAMS then
    mk_csi (tty_esc_state c) (<[Z.to_nat (tty_csi_num_count c) := tty_csi_cur c]> (tty_csi_nums c)) (tty_csi_num_count c + 1) (tty_csi_cur c) (tty_csi_cur_has_digit c)
  else c.
Definition rgb (c : csi_t) : Z :=
  Z.lor (Z.lor (Z.shiftl (Z.land (nth_num 2 c) 0xFF) 16) (Z.shiftl (Z.land (nth_num 3 c) 0xFF) 8)) (Z.land (nth_num 4 c) 0xFF).

Definition csi_final (c : Z) t : tty :=
  let p := csi t in
  let n := tty_csi_num_count p in
  if (c =? 74) && (n =? 1) && (nth_num 0 p =? 2) then terminal_clear_and_home t
  else if (c =? 67) && (n =? 0) then terminal_move_cursor_right t
  else if (c =? 68) && (n =? 0) then terminal_move_cursor_left t
  else if c =? 109 then
    if (n =? 1) && (nth_num 0 p =? 0) then terminal_setbackground 0x000000 (terminal_setcolor 0x00FF00 t)
    else if (n =? 5) && (nth_num 0 p =? 38) && (nth_num 1 p =? 2) then terminal_setcolor (rgb p) t
    else if (n =? 5) && (nth_num 0 p =? 48) && (nth_num 1 p =? 2) then terminal_setbackground (rgb p) t
    else t
  else t.
Definition put_in_csi (c : Z) t : tty :=
  let p := csi t in
  if (0x40 <=? c) && (c <=? 0x7E) then
    let t := if tty_csi_cur_has_digit p || (0 <? tty_csi_num_count p) then with_csi (push_num p) t else t in
    let t := csi_final c t in
    with_csi (set_state TTY_ESC_IDLE (csi t)) t
  else if (48 <=? c) && (c <=? 57) then
    with_csi (mk_csi (tty_esc_state p) (tty_csi_nums p) (tty_csi_num_count p) (u32 (u32 (tty_csi_cur p * 10) + (c - 48))) true) t
  else if c =? 59 then
    let p := push_num p in
    with_csi (mk_csi (tty_esc_state p) (tty_csi_nums p) (tty_csi_num_count p) 0 false) t
  else t.

(** ** Output *)

Definition put_newline t : tty :=
  calculate_line_positions (clamp_or_scroll_cursor (with_cursor 1 (term_cursor_y t + 1) t)).
Definition put_backspace t : tty :=
  let x := term_cursor_x t in
  let y := term_cursor_y t in
  if (0 <=? y) && (y <? TERM_ROWS) then
    if 0 <? x then
      let g := grid t in
      let t := with_grid (mk_grid (put_cell y (x - 1) 32 (term_buffer g)) (term_scale g) (line_positions g)) (with_cursor (x - 1) y t) in
      draw_at y (x - 1) 32 (i32 (current_scale (look t))) t
    else if 0 <? y then with_cursor (end_of_row (y - 1) t) (y - 1) t
    else t
  else t.
Definition put_glyph (c : Z) t : tty :=
  let t := wrap_cursor t in
  let x := term_cursor_x t in
  let y := term_cursor_y t in
  let g := grid t in
  let s := current_scale (look t) in
  let t := if cursor_in_bounds t then
             draw_at y x c (i32 s) (with_grid (mk_grid (put_cell y x c (term_buffer g)) (put_cell y x (u8 s) (term_scale g)) (line_positions g)) t)
           else t in
  wrap_cursor (with_cursor (x + 1) y t).

Definition terminal_putchar (c : Z) t : tty :=
  if negb (terminal_ready (blink t)) then t
  else
    match tty_esc_state (csi t) with
    | TTY_ESC_GOT_ESC =>
        if c =? 91 then with_csi (mk_csi TTY_ESC_IN_CSI (tty_csi_nums (csi t)) 0 0 false) t
        else with_csi (set_state TTY_ESC_IDLE (csi t)) t
    | TTY_ESC_IN_CSI => put_in_csi c t
    | TTY_ESC_IDLE =>
        if c =? 27 then with_csi (set_state TTY_ESC_GOT_ESC (csi t)) t
        else
          let t := hide_cursor t in
          let t := if c =? 10 then put_newline t
                   else if c =? 13 then with_cursor 0 (term_cursor_y t) t
                   else if c =? 8 then put_backspace t
                   else put_glyph c t in
          show_cursor_after t
    end.
Definition terminal_write (data : list Z) t : tty := foldl (fun t c => terminal_putchar c t) t data.
(** [data] is the text before its null byte. *)
Definition terminal_writestring (data : list Z) t : tty := terminal_write data t.

(** ** Job control *)

Definition terminal_set_foreground_pgid (pgid : Z) t : Z * tty :=
  if pgid <? 0 then (-1, t) else (0, with_job (terminal_controlling_sid t) pgid t).
Definition terminal_get_foreground_pgid t : Z := terminal_foreground_pgid t.
Definition terminal_set_controlling_sid (sid : Z) t : Z * tty :=
  if sid <? 0 then (-1, t)
  else if negb (terminal_controlling_sid t =? 0) && negb (terminal_controlling_sid t =? sid) then (-1, t)
  else (0, with_job sid (terminal_foreground_pgid t) t).
Definition terminal_get_controlling_sid t : Z := terminal_controlling_sid t.
Definition terminal_release_controlling t : tty := with_job 0 0 t.

(** ** The line discipline *)

Definition b2Z (b : bool) : Z := if b then 1 else 0.
Definition terminal_set_canonical (enable : Z) t : Z * tty :=
  let l := line t in
  (b2Z (tty_canonical_mode l), with_line (mk_line (negb (enable =? 0)) (tty_line_buf l) (tty_line_len l) (tty_line_ready l) (tty_line_consumed l)) t).
Definition terminal_get_canonical t : Z := b2Z (tty_canonical_mode (line t)).

Definition set_len (n : Z) t : tty :=
  let l := line t in with_line (mk_line (tty_canonical_mode l) (tty_line_buf l) n (tty_line_ready l) (tty_line_consumed l)) t.
Definition set_ready t : tty :=
  let l := line t in with_line (mk_line (tty_canonical_mode l) (tty_line_buf l) (tty_line_len l) true (tty_line_consumed l)) t.
Definition has_room t : bool := tty_line_len (line t) <? TTY_LINE_MAX - 1.
(** [tty_line_buf[tty_line_len++] = c;] *)
Definition append (c : Z) t : tty :=
  let l := line t in
  with_line (mk_line (tty_canonical_mode l) (<[Z.to_nat (tty_line_len l) := c]> (tty_line_buf l)) (tty_line_len l + 1) (tty_line_ready l) (tty_line_consumed l)) t.
(** One character taken back, on the screen too. *)
Definition erase t : tty :=
  terminal_putchar 8 (terminal_putchar 32 (terminal_putchar 8 (set_len (tty_line_len (line t) - 1) t))).
Fixpoint kill_line (n : nat) t : tty :=
  match n with
  | O => t
  | S n => if 0 <? tty_line_len (line t) then kill_line n (erase t) else t
  end.

Definition tty_process_input_byte (c : Z) t : Z * tty :=
  if (c =? 10) || (c =? 13) then
    (1, set_ready (terminal_putchar 10 (if has_room t then append 10 t else t)))
  else if c =? 8 then (0, if 0 <? tty_line_len (line t) then erase t else t)
  else if c =? 21 then (0, kill_line (Z.to_nat (tty_line_len (line t))) t)
  else if c =? 4 then (1, set_ready t)
  else if c =? 3 then (0, set_len 0 (terminal_writestring [94; 67; 10] t))
  else (0, if has_room t then terminal_putchar c (append c t) else t).

(** The bytes copied out and the result. [None] is a copy from outside
    [tty_line_buf]. *)
Definition tty_drain_ready (len : Z) t : option (list Z * Z) * tty :=
  let l := line t in
  if negb (tty_line_ready l) then (Some ([], -1), t)
  else
    let avail := u32 (tty_line_len l - tty_line_consumed l) in
    let n := if len <? avail then len else avail in
    let consumed := u32 (tty_line_consumed l + n) in
    let t := if tty_line_len l <=? consumed
             then with_line (mk_line (tty_canonical_mode l) (tty_line_buf l) 0 false 0) t
             else with_line (mk_line (tty_canonical_mode l) (tty_line_buf l) (tty_line_len l) true consumed) t in
    (if tty_line_consumed l + n <=? TTY_LINE_MAX then Some (slice (tty_line_consumed l) n (tty_line_buf l), i32 n) else None, t).

(** The static state of a booting kernel. *)
Definition tty0 : tty :=
  mk_tty (mk_grid (blank 0) (blank 0) (replicate 48 0)) 0 0 (mk_look 0 0 0) (mk_blink false true 0 false) 0 0
    (mk_csi TTY_ESC_IDLE (replicate 5 0) 0 0 false) (mk_line true (replicate 256 0) 0 false 0) (mk_screen 0 0 0 0 ∅).
End Tty.
