(* ===== verification/TtySpec.v ===== *)
(** * Properties of the terminal

    States that differ only in their pixels are equivalent, and every operation
    respects that: what the grid, the cursor and the parser become does not
    depend on the drawing. On this rest the theorems on the text shown, the
    escape sequences and the line discipline. *)

From S2P Require Import Prelude Framebuffer Tty.

Module TtySpec.
Import Framebuffer Tty.
#[local] Abbreviation zlen l := (Z.of_nat (length l)).

(** ** Pixels do not matter *)

#[export] Instance tty_equiv : Equiv tty := fun t t' => t' = with_fb (fb t') t /\ g_height (fb t') = g_height (fb t).
#[export] Instance tty_equivalence : Equivalence (≡@{tty}).
Proof.
  split.
  - by intros [].
  - intros [] [] [E H]. cbn in *. by injection E as -> -> -> -> -> -> -> -> ->.
  - intros [] [] [] [E H] [E' H']. cbn in *. injection E as -> -> -> -> -> -> -> -> ->. injection E' as -> -> -> -> -> -> -> -> ->. split; [done|]. cbn. congruence.
Qed.

Lemma height_foldl {A} (f : screen -> A -> screen) l s : (forall s a, g_height (f s a) = g_height s) -> g_height (foldl f s l) = g_height s.
Proof. intros Hf. revert s. induction l as [|a l IH]; intros s; [done|]. cbn [foldl]. by rewrite IH, Hf. Qed.
Lemma height_clear c s : g_height (framebuffer_clear c s) = g_height s.
Proof. unfold framebuffer_clear. apply height_foldl. intros s' y. by apply height_foldl. Qed.
Lemma height_drawchar x y c k b z s : g_height (framebuffer_drawchar x y c k b z s) = g_height s.
Proof.
  unfold framebuffer_drawchar. apply height_foldl. intros s' r. cbn zeta. apply height_foldl. intros s2 col. unfold draw_dot.
  apply height_foldl. intros s3 dy. by apply height_foldl.
Qed.
Lemma height_redraw_row y p cs l f : g_height (redraw_row y p cs l f) = g_height f.
Proof.
  revert p f. induction cs as [|[c s] cs IH]; intros p f; cbn [redraw_row]; [done|]. rewrite IH. destruct (c =? 32); [done|apply height_drawchar].
Qed.

Lemma draw_at_equiv y x c s t : draw_at y x c s t ≡ t.
Proof. destruct t. split; [done|]. cbn. by rewrite height_drawchar. Qed.
Lemma draw_cursor_equiv t : draw_cursor t ≡ t.
Proof. unfold draw_cursor. destruct (draws_cursor t); [apply draw_at_equiv|done]. Qed.
Lemma clear_cursor_equiv t : clear_cursor t ≡ t.
Proof. unfold clear_cursor. destruct (draws_cursor t); [apply draw_at_equiv|done]. Qed.
Lemma show_cursor_equiv t : show_cursor_after t ≡ t.
Proof. unfold show_cursor_after. destruct (shows_cursor t); [apply draw_cursor_equiv|done]. Qed.
Lemma hide_cursor_equiv t : hide_cursor t ≡ t.
Proof. unfold hide_cursor. destruct (shows_cursor t); [apply clear_cursor_equiv|done]. Qed.
Lemma fb_clear_equiv c t : with_fb (framebuffer_clear c (fb t)) t ≡ t.
Proof. destruct t. split; [done|]. cbn. by rewrite height_clear. Qed.
Lemma redraw_equiv t : terminal_redraw t ≡ t.
Proof.
  unfold terminal_redraw. set (f := foldl _ _ _). assert (with_fb f t ≡ t) as H.
  { destruct t. split; [done|]. cbn. subst f. rewrite height_foldl; [by rewrite height_clear|]. intros s y. apply height_redraw_row. }
  cbn zeta. destruct (shows_cursor _); [by rewrite draw_cursor_equiv|done].
Qed.

(** Equivalent states written out. *)
Lemma equiv_fields t t' : t ≡ t' -> grid t = grid t' /\ term_cursor_x t = term_cursor_x t' /\ term_cursor_y t = term_cursor_y t' /\ look t = look t' /\ blink t = blink t' /\
  csi t = csi t' /\ line t = line t' /\ g_height (fb t) = g_height (fb t') /\ terminal_controlling_sid t = terminal_controlling_sid t' /\ terminal_foreground_pgid t = terminal_foreground_pgid t'.
Proof. destruct t, t'. intros [E H]. cbn in *. injection E. intros. subst. by split_and!. Qed.

Ltac same := let E := fresh in intros ? ? E; pose proof (equiv_fields _ _ E); destruct_and!; destruct E as [E ?].
#[export] Instance with_grid_proper g : Proper ((≡) ==> (≡)) (with_grid g).
Proof. intros [] [] [E H]. cbn in E. injection E. intros. subst. by split. Qed.
#[export] Instance with_cursor_proper x y : Proper ((≡) ==> (≡)) (with_cursor x y).
Proof. intros [] [] [E H]. cbn in E. injection E. intros. subst. by split. Qed.
#[export] Instance with_look_proper l : Proper ((≡) ==> (≡)) (with_look l).
Proof. intros [] [] [E H]. cbn in E. injection E. intros. subst. by split. Qed.
#[export] Instance with_csi_proper c : Proper ((≡) ==> (≡)) (with_csi c).
Proof. intros [] [] [E H]. cbn in E. injection E. intros. subst. by split. Qed.
#[export] Instance with_line_proper l : Proper ((≡) ==> (≡)) (with_line l).
Proof. intros [] [] [E H]. cbn in E. injection E. intros. subst. by split. Qed.

(** Replaces what a state shows besides its pixels by the same of the other. *)
Ltac fields E :=
  let G := fresh in let X := fresh in let Y := fresh in let L := fresh in let B := fresh in let C := fresh in let N := fresh in let H := fresh in
  destruct (equiv_fields _ _ E) as (G & X & Y & L & B & C & N & H & _ & _); unfold shows_cursor, framebuffer_height, y_position;
  rewrite ?G, ?X, ?Y, ?L, ?B, ?C, ?N, ?H.

#[export] Instance calculate_proper : Proper ((≡) ==> (≡)) calculate_line_positions.
Proof. intros t t' E. unfold calculate_line_positions. fields E. by f_equiv. Qed.
#[export] Instance scroll_proper : Proper ((≡) ==> (≡@{tty})) terminal_scroll.
Proof. intros t t' E. unfold terminal_scroll. rewrite !redraw_equiv. fields E. by rewrite E. Qed.
#[export] Instance scroll_to_fit_proper n : Proper ((≡) ==> (≡)) (scroll_to_fit n).
Proof.
  induction n as [|n IH]; intros t t' E; cbn [scroll_to_fit]; [done|]. fields E. case_match; [|done]. apply IH.
  assert (terminal_scroll t ≡ terminal_scroll t') as E' by by rewrite E. fields E'. by rewrite E'.
Qed.
#[export] Instance clamp_proper : Proper ((≡) ==> (≡)) clamp_or_scroll_cursor.
Proof.
  intros t t' E. unfold clamp_or_scroll_cursor. cbn zeta.
  set (a := if TERM_ROWS <=? term_cursor_y t then _ else t). set (a' := if TERM_ROWS <=? term_cursor_y t' then _ else t').
  assert (a ≡ a') as Ea.
  { subst a a'. fields E. case_match; [|done]. assert (terminal_scroll t ≡ terminal_scroll t') as E' by by rewrite E. fields E'. by rewrite E'. }
  clearbody a a'. fields Ea.
  set (b := scroll_to_fit _ a). set (b' := scroll_to_fit _ a'). assert (b ≡ b') as Eb by (subst b b'; by rewrite Ea). clearbody b b'. fields Eb. by rewrite Eb.
Qed.
#[export] Instance wrap_proper : Proper ((≡) ==> (≡)) wrap_cursor.
Proof. intros t t' E. unfold wrap_cursor. fields E. case_match; [|done]. by rewrite E. Qed.
#[export] Instance end_of_row_proper y : Proper ((≡) ==> (=)) (end_of_row y).
Proof. intros t t' E. unfold end_of_row. by fields E. Qed.
#[export] Instance move_right_proper : Proper ((≡) ==> (≡)) terminal_move_cursor_right.
Proof.
  intros t t' E. unfold terminal_move_cursor_right. fields E. case_match; [done|]. cbn zeta. rewrite !show_cursor_equiv.
  assert (hide_cursor t ≡ hide_cursor t') as E' by by rewrite !hide_cursor_equiv. fields E'. by rewrite E'.
Qed.
#[export] Instance move_left_proper : Proper ((≡) ==> (≡)) terminal_move_cursor_left.
Proof.
  intros t t' E. unfold terminal_move_cursor_left. fields E. case_match; [done|]. cbn zeta. rewrite !show_cursor_equiv.
  assert (hide_cursor t ≡ hide_cursor t') as E' by by rewrite !hide_cursor_equiv. rewrite (end_of_row_proper _ _ _ E'). fields E'.
  repeat case_match; by rewrite ?E'.
Qed.
#[export] Instance setcolor_proper c : Proper ((≡) ==> (≡)) (terminal_setcolor c).
Proof. intros t t' E. unfold terminal_setcolor. fields E. by rewrite E. Qed.
#[export] Instance setbackground_proper c : Proper ((≡) ==> (≡)) (terminal_setbackground c).
Proof.
  intros t t' E. unfold terminal_setbackground. cbn zeta. set (a := with_look _ t). set (a' := with_look _ t').
  assert (a ≡ a') as Ea by (subst a a'; fields E; by rewrite E). clearbody a a'. fields Ea. case_match; [by rewrite !redraw_equiv|done].
Qed.
#[export] Instance clear_and_home_proper : Proper ((≡) ==> (≡)) terminal_clear_and_home.
Proof.
  intros t t' E. unfold terminal_clear_and_home. cbn zeta. set (a := calculate_line_positions _). set (a' := calculate_line_positions (with_cursor 1 0 (clear_grid t'))).
  assert (a ≡ a') as Ea by (subst a a'; unfold clear_grid; fields E; by rewrite E). clearbody a a'.
  set (b := with_fb _ a). set (b' := with_fb _ a'). assert (b ≡ b') as Eb by (subst b b'; by rewrite !fb_clear_equiv). clearbody b b'.
  fields Eb. case_match; [by rewrite !draw_cursor_equiv|done].
Qed.
#[export] Instance csi_final_proper c : Proper ((≡) ==> (≡)) (csi_final c).
Proof. intros t t' E. unfold csi_final. fields E. repeat case_match; by rewrite ?E. Qed.
#[export] Instance put_in_csi_proper c : Proper ((≡) ==> (≡)) (put_in_csi c).
Proof.
  intros t t' E. unfold put_in_csi. cbn zeta. fields E. case_match; [|case_match; [by rewrite E|case_match; by rewrite ?E]].
  set (a := if tty_csi_cur_has_digit _ || _ then _ else t). set (a' := if tty_csi_cur_has_digit _ || _ then _ else t'). assert (a ≡ a') as Ea by (subst a a'; case_match; by rewrite ?E). clearbody a a'.
  assert (csi_final c a ≡ csi_final c a') as E' by by rewrite Ea. fields E'. by rewrite E'.
Qed.
#[export] Instance put_newline_proper : Proper ((≡) ==> (≡)) put_newline.
Proof. intros t t' E. unfold put_newline. fields E. by rewrite E. Qed.
#[export] Instance put_backspace_proper : Proper ((≡) ==> (≡)) put_backspace.
Proof.
  intros t t' E. unfold put_backspace. cbn zeta. rewrite (end_of_row_proper _ _ _ E). fields E. repeat case_match; rewrite ?draw_at_equiv; by rewrite ?E.
Qed.
#[export] Instance put_glyph_proper c : Proper ((≡) ==> (≡)) (put_glyph c).
Proof.
  intros t t' E. unfold put_glyph. cbn zeta. assert (wrap_cursor t ≡ wrap_cursor t') as E' by by rewrite E. set (a := wrap_cursor t) in *. set (a' := wrap_cursor t') in *. clearbody a a'.
  unfold cursor_in_bounds. fields E'. case_match; by rewrite ?draw_at_equiv, ?E'.
Qed.
#[export] Instance putchar_proper c : Proper ((≡) ==> (≡)) (terminal_putchar c).
Proof.
  intros t t' E. unfold terminal_putchar. cbn zeta. fields E. case_match; [done|]. case_match; [|case_match; by rewrite E|by rewrite E]. case_match; [by rewrite E|].
  rewrite !show_cursor_equiv. assert (hide_cursor t ≡ hide_cursor t') as E' by by rewrite !hide_cursor_equiv. fields E'. repeat case_match; by rewrite E'.
Qed.

(** ** Text *)

Definition tops : list Z := line_tops 0 (blank 1).
(** [t] with the given text at scale 1 and the cursor there. *)
Definition text (rows : list (list Z)) (x y : Z) t : tty := with_cursor x y (with_grid (mk_grid rows (blank 1) tops) t).
Definition quiet t : Prop := terminal_ready (blink t) = true /\ tty_esc_state (csi t) = TTY_ESC_IDLE /\ current_scale (look t) = 1.
(** Characters that neither move the cursor nor begin an escape sequence. *)
Definition is_text (c : Z) : Prop := c <> 8 /\ c <> 10 /\ c <> 13 /\ c <> 27.

Lemma equiv_quiet t t' : t ≡ t' -> quiet t -> quiet t'.
Proof. intros E. destruct (equiv_fields _ _ E) as (_ & _ & _ & L & B & C & _). unfold quiet. by rewrite L, B, C. Qed.
Lemma text_text rows x y rows' x' y' t : text rows x y (text rows' x' y' t) = text rows x y t.
Proof. by destruct t. Qed.
#[export] Instance text_proper rows x y : Proper ((≡) ==> (≡)) (text rows x y).
Proof. intros t t' E. unfold text. by rewrite E. Qed.

Lemma putchar_text c t : quiet t -> c <> 27 ->
  terminal_putchar c t ≡ (if c =? 10 then put_newline t else if c =? 13 then with_cursor 0 (term_cursor_y t) t else if c =? 8 then put_backspace t else put_glyph c t).
Proof.
  intros (Hr & He & _) Hc. unfold terminal_putchar. rewrite Hr, He. cbn [negb]. rewrite (proj2 (Z.eqb_neq c 27)) by done. cbn zeta. rewrite show_cursor_equiv.
  assert (hide_cursor t ≡ t) as E by apply hide_cursor_equiv. fields E. repeat case_match; by rewrite E.
Qed.

Lemma blank_at (v y x : Z) : 0 <= x < TERM_COLS -> 0 <= y < TERM_ROWS -> put_cell y x v (blank v) = blank v.
Proof.
  intros Hx Hy. unfold put_cell, row_of, blank. unfold TERM_COLS, TERM_ROWS in *. rewrite lookup_total_replicate_2 by lia.
  rewrite (list_insert_id (replicate _ v)) by (apply lookup_replicate_2; lia). apply list_insert_id, lookup_replicate_2. lia.
Qed.
Lemma put_glyph_text c rows x y t : quiet t -> 0 <= x < 127 -> 0 <= y < 48 -> put_glyph c (text rows x y t) ≡ text (put_cell y x c rows) (x + 1) y t.
Proof.
  intros (_ & _ & Hs) Hx Hy. unfold put_glyph.
  assert (wrap_cursor (text rows x y t) = text rows x y t) as -> by (unfold wrap_cursor; change (term_cursor_x (text rows x y t)) with x; unfold TERM_COLS; by zbool).
  cbn zeta. change (look (text rows x y t)) with (look t). rewrite Hs. change (cursor_in_bounds (text rows x y t)) with ((0 <=? x) && (x <? TERM_COLS) && (0 <=? y) && (y <? TERM_ROWS)).
  change (u8 1) with 1. change (i32 1) with 1. unfold TERM_COLS, TERM_ROWS. zbool. cbn [andb]. rewrite draw_at_equiv.
  change (term_buffer (grid (text rows x y t))) with rows. change (term_scale (grid (text rows x y t))) with (blank 1). change (line_positions (grid (text rows x y t))) with tops.
  change (term_cursor_x (text rows x y t)) with x. change (term_cursor_y (text rows x y t)) with y. rewrite blank_at by (unfold TERM_COLS, TERM_ROWS; lia).
  unfold wrap_cursor. change (term_cursor_x (with_cursor (x + 1) y _)) with (x + 1). unfold TERM_COLS. rewrite (proj2 (Z.leb_gt 128 (x + 1))) by lia. by destruct t.
Qed.
Lemma putchar_glyph c rows x y t : quiet t -> is_text c -> 0 <= x < 127 -> 0 <= y < 48 -> terminal_putchar c (text rows x y t) ≡ text (put_cell y x c rows) (x + 1) y t.
Proof.
  intros Hq (H8 & H10 & H13 & H27) Hx Hy. rewrite putchar_text by done. rewrite !(proj2 (Z.eqb_neq c _)) by done. by apply put_glyph_text.
Qed.

(** A row with [l] written from column [x] on. *)
Definition put_row (y x : Z) (l : list Z) (rows : list (list Z)) : list (list Z) := <[Z.to_nat y := splice x l (row_of y rows)]> rows.
Lemma write_app a b t : terminal_write (a ++ b) t = terminal_write b (terminal_write a t).
Proof. apply foldl_app. Qed.
#[export] Instance write_proper l : Proper ((≡) ==> (≡)) (terminal_write l).
Proof. induction l as [|c l IH]; intros t t' E; [done|]. cbn. apply IH. by rewrite E. Qed.
Lemma put_cell_row y x c l rows : 0 <= y < Z.of_nat (length rows) -> 0 <= x -> x + 1 + zlen l <= zlen (row_of y rows) ->
  put_row y (x + 1) l (put_cell y x c rows) = put_row y x (c :: l) rows.
Proof.
  intros Hy Hx Hl. unfold put_row, put_cell. unfold row_of at 1. rewrite list_lookup_total_insert_eq by lia. rewrite list_insert_insert_eq. f_equal.
  change (c :: l) with ([c] ++ l). rewrite splice_app by (cbn [length]; lia). f_equal. symmetry. unfold splice.
  rewrite insert_take_drop by lia. cbn [app length]. do 3 f_equal. lia.
Qed.
Lemma length_row_put y x c rows : zlen (row_of y (put_cell y x c rows)) = zlen (row_of y rows).
Proof.
  unfold row_of at 1, put_cell. destruct (decide (Z.to_nat y < length rows)%nat).
  - rewrite list_lookup_total_insert_eq by done. by rewrite length_insert.
  - rewrite list_insert_ge by lia. done.
Qed.
Lemma write_text l rows x y t : quiet t -> Forall is_text l -> 0 <= x -> x + zlen l <= 127 -> 0 <= y < 48 -> length rows = 48%nat -> zlen (row_of y rows) = 128 ->
  terminal_write l (text rows x y t) ≡ text (put_row y x l rows) (x + zlen l) y t.
Proof.
  intros Hq Hl. revert rows x. induction Hl as [|c l Hc Hl IH]; intros rows x Hx Hlen Hy Hr Hrow.
  - unfold put_row. rewrite splice_nil. unfold row_of. rewrite list_insert_id by (apply list_lookup_lookup_total_lt; lia). cbn. by rewrite Z.add_0_r.
  - cbn [length] in Hlen. change (terminal_write (c :: l) (text rows x y t)) with (terminal_write l (terminal_putchar c (text rows x y t))).
    rewrite putchar_glyph by (done || lia). rewrite IH; [|lia|lia|done|unfold put_cell; by rewrite length_insert|by rewrite length_row_put].
    rewrite put_cell_row; [|lia|lia|lia]. replace (x + 1 + zlen l) with (x + zlen (c :: l)) by (cbn [length]; lia). done.
Qed.

(** ** Scrolling *)

(** The rows of text that fit on the screen. *)
Definition rows_on (height : Z) : Z := Z.min 48 (height / 16).

Lemma scroll_text rows x y t : terminal_scroll (text rows x y t) ≡ text (scroll_rows 32 rows) x y t.
Proof. unfold terminal_scroll. rewrite redraw_equiv. by destruct t. Qed.
Lemma top_of y : 0 <= y < 48 -> tops !!! Z.to_nat y = 16 * y.
Proof.
  intros Hy. assert (forallb (fun y => tops !!! Z.to_nat y =? 16 * y) (seqZ 0 48) = true) as H by (vm_compute; reflexivity).
  rewrite forallb_forall in H. apply Z.eqb_eq, H, list_elem_of_In, elem_of_seqZ. lia.
Qed.
Lemma fits_iff rows x y t n : quiet t -> 0 < y < 48 ->
  scroll_to_fit (S n) (text rows x y t) =
    if g_height (fb t) <? 16 * y + 16 then scroll_to_fit n (with_cursor (term_cursor_x (terminal_scroll (text rows x y t))) (term_cursor_y (terminal_scroll (text rows x y t)) - 1) (terminal_scroll (text rows x y t)))
    else text rows x y t.
Proof.
  intros (_ & _ & Hs) Hy. cbn [scroll_to_fit]. unfold y_position, framebuffer_height.
  change (line_positions (grid (text rows x y t))) with tops. change (term_cursor_y (text rows x y t)) with y. change (fb (text rows x y t)) with (fb t). change (look (text rows x y t)) with (look t).
  rewrite Hs, top_of by lia. change (u32 (16 * 1)) with 16. rewrite u32_small by lia. by zbool.
Qed.
Lemma clamp_fits rows x y t : quiet t -> 0 <= x < 128 -> 0 <= y < 48 -> 16 * y + 16 <= g_height (fb t) \/ y = 0 ->
  scroll_to_fit (Z.to_nat y) (text rows x y t) = text rows x y t.
Proof.
  intros Hq Hx Hy Hh. destruct (decide (y = 0)) as [->|]; [done|]. replace (Z.to_nat y) with (S (Z.to_nat (y - 1))) by lia. rewrite fits_iff by (done || lia). by zbool.
Qed.
(** [clamp_or_scroll_cursor] after its loops. *)
Definition clamped t : tty :=
  let y := if term_cursor_y t <? 0 then 0 else term_cursor_y t in
  let x := if term_cursor_x t <? 0 then 0 else term_cursor_x t in
  with_cursor (if TERM_COLS <=? x then TERM_COLS - 1 else x) y t.
#[export] Instance clamped_proper : Proper ((≡) ==> (≡)) clamped.
Proof. intros t t' E. unfold clamped. fields E. by rewrite E. Qed.
Lemma clamped_text rows x y t : 0 <= x < 128 -> 0 <= y -> clamped (text rows x y t) = text rows x y t.
Proof.
  intros. unfold clamped. change (term_cursor_x (text rows x y t)) with x. change (term_cursor_y (text rows x y t)) with y. unfold TERM_COLS. cbn zeta.
  rewrite (proj2 (Z.ltb_ge x 0)) by lia. zbool. by destruct t.
Qed.
Lemma clamp_below t : term_cursor_y t < TERM_ROWS -> clamp_or_scroll_cursor t = clamped (scroll_to_fit (Z.to_nat (term_cursor_y t)) t).
Proof. intros. unfold clamp_or_scroll_cursor. by rewrite (proj2 (Z.leb_gt TERM_ROWS _)) by done. Qed.
Lemma clamp_fit rows x y t : quiet t -> 0 <= x < 128 -> 0 <= y < 48 -> 16 * y + 16 <= g_height (fb t) \/ y = 0 -> clamp_or_scroll_cursor (text rows x y t) = text rows x y t.
Proof.
  intros Hq Hx Hy Hh. rewrite clamp_below by (unfold TERM_ROWS; cbn; lia). change (term_cursor_y (text rows x y t)) with y. rewrite clamp_fits by done. apply clamped_text; lia.
Qed.
Lemma scrolled rows x y t n : with_cursor (term_cursor_x (terminal_scroll (text rows x y t))) n (terminal_scroll (text rows x y t)) ≡ text (scroll_rows 32 rows) x n t.
Proof. pose proof (scroll_text rows x y t) as E. fields E. rewrite E. by destruct t. Qed.

(** Going below the last row that fits scrolls by one. *)
Lemma clamp_text rows x y t : quiet t -> 0 <= x < 128 -> 0 <= y <= rows_on (g_height (fb t)) -> 1 <= rows_on (g_height (fb t)) ->
  clamp_or_scroll_cursor (text rows x y t) ≡ if y <? rows_on (g_height (fb t)) then text rows x y t else text (scroll_rows 32 rows) x (y - 1) t.
Proof.
  intros Hq Hx Hy HR. unfold rows_on in *. destruct (Z.ltb_spec y (48 `min` (g_height (fb t) / 16))) as [Hlt|Hge]; [by rewrite clamp_fit by (done || zlia)|].
  destruct (decide (y = 48)) as [->|Hne].
  - transitivity (clamp_or_scroll_cursor (with_cursor (term_cursor_x (terminal_scroll (text rows x 48 t))) 47 (terminal_scroll (text rows x 48 t)))).
    { unfold clamp_or_scroll_cursor. change (TERM_ROWS <=? term_cursor_y (text rows x 48 t)) with true. done. }
    rewrite scrolled. change (48 - 1) with 47. by rewrite clamp_fit by (done || zlia).
  - rewrite clamp_below by (unfold TERM_ROWS; cbn; lia). change (term_cursor_y (text rows x y t)) with y.
    replace (Z.to_nat y) with (S (Z.to_nat (y - 1))) by lia. rewrite fits_iff by (done || lia). rewrite (proj2 (Z.ltb_lt (g_height (fb t)) _)) by zlia.
    pose proof (scroll_text rows x y t) as E. destruct (equiv_fields _ _ E) as (_ & _ & Ey & _). rewrite Ey. change (term_cursor_y (text (scroll_rows 32 rows) x y t)) with y.
    rewrite scrolled. rewrite clamp_fits by (done || zlia). by rewrite clamped_text by lia.
Qed.
Lemma put_newline_text rows x y t : quiet t -> 0 <= y < rows_on (g_height (fb t)) ->
  put_newline (text rows x y t) ≡ if y + 1 <? rows_on (g_height (fb t)) then text rows 1 (y + 1) t else text (scroll_rows 32 rows) 1 y t.
Proof.
  intros Hq Hy. unfold put_newline. change (term_cursor_y (text rows x y t)) with y. replace (with_cursor 1 (y + 1) (text rows x y t)) with (text rows 1 (y + 1) t) by by destruct t.
  rewrite clamp_text by (done || lia). replace (y + 1 - 1) with y by lia. by case_match; destruct t.
Qed.

(** ** Lines *)

(** A line of text as a row shows it: one column in. *)
Definition pad (l : list Z) : list Z := 32 :: l ++ replicate (127 - length l) 32.
Definition last_rows (k : nat) (ls : list (list Z)) : list (list Z) := drop (length ls - k) ls.
Definition shown (k : nat) (ls : list (list Z)) : list (list Z) :=
  map pad (last_rows k ls) ++ replicate (48 - length (last_rows k ls)) (replicate 128 32).
Definition is_line (l : list Z) : Prop := Forall is_text l /\ zlen l <= 126.

Lemma length_last_rows k ls : length (last_rows k ls) = Nat.min k (length ls).
Proof. unfold last_rows. rewrite length_drop. lia. Qed.
Lemma last_rows_snoc k ls l : last_rows (S k) (ls ++ [l]) = last_rows k ls ++ [l].
Proof. unfold last_rows. rewrite length_app. cbn [length]. rewrite drop_app_le by lia. do 2 f_equal. lia. Qed.
Lemma last_rows_drop k ls : (k < length ls)%nat -> last_rows k ls = drop 1 (last_rows (S k) ls).
Proof. intros. unfold last_rows. rewrite drop_drop. f_equal. lia. Qed.

Lemma put_row_blank l : is_line l -> splice 1 l (replicate 128 32) = pad l.
Proof.
  intros [_ Hl]. unfold splice, pad. rewrite drop_replicate. change (take (Z.to_nat 1) (replicate 128 32)) with [32]. cbn [app]. by do 3 f_equal.
Qed.
Lemma put_row_shown k ls l : (length (last_rows k ls) < 48)%nat -> is_line l ->
  put_row (Z.of_nat (length (last_rows k ls))) 1 l (shown k ls) = map pad (last_rows k ls ++ [l]) ++ replicate (48 - S (length (last_rows k ls))) (replicate 128 32).
Proof.
  intros Hk Hl. unfold put_row, shown, row_of. rewrite Nat2Z.id. set (a := last_rows k ls) in *.
  replace (48 - length a)%nat with (S (48 - S (length a))) by lia. cbn [replicate]. rewrite lookup_total_app_r by (rewrite length_map; lia).
  rewrite length_map, Nat.sub_diag. cbn [lookup_total list_lookup_total]. rewrite put_row_blank by done.
  rewrite insert_app_r_alt by (rewrite length_map; lia). rewrite length_map, Nat.sub_diag. cbn. rewrite map_app, <- app_assoc. done.
Qed.
Lemma scroll_shown k ls l : (k < 48)%nat -> (k <= length ls)%nat ->
  scroll_rows 32 (map pad (last_rows k ls ++ [l]) ++ replicate (48 - S k) (replicate 128 32)) = shown k (ls ++ [l]).
Proof.
  intros Hk Hls. unfold shown. rewrite length_last_rows, length_app. cbn [length]. replace (k `min` (length ls + 1))%nat with k by lia.
  rewrite (last_rows_drop k (ls ++ [l])) by (rewrite length_app; cbn [length]; lia). rewrite last_rows_snoc. unfold scroll_rows, TERM_COLS. change (Z.to_nat 128) with 128%nat.
  rewrite drop_app_le by (rewrite length_map, length_app; cbn [length]; lia). rewrite skipn_map, <- app_assoc. f_equal.
  replace (48 - k)%nat with (48 - S k + 1)%nat by lia. by rewrite replicate_add.
Qed.
Lemma row_shown k ls : (length (last_rows k ls) < 48)%nat -> zlen (row_of (Z.of_nat (length (last_rows k ls))) (shown k ls)) = 128.
Proof.
  intros H. unfold row_of, shown. rewrite Nat2Z.id, lookup_total_app_r by (rewrite length_map; lia). rewrite length_map, Nat.sub_diag.
  replace (48 - length (last_rows k ls))%nat with (S (47 - length (last_rows k ls))) by lia. reflexivity.
Qed.

Lemma write_line ls l t : quiet t -> is_line l -> let k := Z.to_nat (rows_on (g_height (fb t)) - 1) in 1 <= rows_on (g_height (fb t)) ->
  terminal_write (l ++ [10]) (text (shown k ls) 1 (Z.of_nat (length (last_rows k ls))) t) ≡
  text (shown k (ls ++ [l])) 1 (Z.of_nat (length (last_rows k (ls ++ [l])))) t.
Proof.
  intros Hq Hl k HR. assert (rows_on (g_height (fb t)) <= 48) as HR2 by (unfold rows_on; lia). pose proof (length_last_rows k ls) as Hlen. pose proof (length_last_rows k (ls ++ [l])) as Hlen'.
  rewrite length_app in Hlen'. cbn [length] in Hlen'.
  rewrite write_app. rewrite write_text; [|done|apply Hl|lia|destruct Hl; lia|lia|unfold shown; rewrite length_app, length_map, length_replicate; lia|by apply row_shown; lia].
  rewrite put_row_shown by (done || lia). unfold terminal_write. cbn [foldl]. rewrite putchar_text by done. change (10 =? 10) with true. cbn iota.
  rewrite put_newline_text by (done || lia). destruct (Z.ltb_spec (Z.of_nat (length (last_rows k ls)) + 1) (rows_on (g_height (fb t)))) as [Hlt|Hge].
  - assert (last_rows k (ls ++ [l]) = last_rows k ls ++ [l]) as E by (unfold last_rows; rewrite length_app; cbn [length]; rewrite !(proj2 (Nat.sub_0_le _ _)) by lia; done).
    unfold shown. rewrite E, length_app. cbn [length]. replace (Z.of_nat (length (last_rows k ls) + 1)) with (Z.of_nat (length (last_rows k ls)) + 1) by lia. do 2 f_equiv.
    do 2 f_equal. lia.
  - replace (S (length (last_rows k ls))) with (S k) by lia. rewrite scroll_shown by lia. rewrite Hlen'. replace (Z.of_nat (length (last_rows k ls))) with (Z.of_nat (k `min` (length ls + 1))) by lia. done.
Qed.
Lemma write_lines ls t : quiet t -> Forall is_line ls -> let k := Z.to_nat (rows_on (g_height (fb t)) - 1) in 1 <= rows_on (g_height (fb t)) ->
  terminal_write (concat (map (fun l => l ++ [10]) ls)) (text (blank 32) 1 0 t) ≡ text (shown k ls) 1 (Z.of_nat (length (last_rows k ls))) t.
Proof.
  intros Hq Hls k HR. induction ls as [|l ls IH] using rev_ind; [done|]. rewrite map_app, concat_app. cbn [map concat]. rewrite app_nil_r, write_app.
  apply Forall_app in Hls as [Hls Hl%Forall_inv]. rewrite IH by done. exact (write_line ls l t Hq Hl HR).
Qed.

(** C34: A terminal shows the end of what is written to it. Lines of printable
    characters that fit a row, written after the terminal is initialized on a
    screen of at least one row of text, fill the grid from the top, each one
    column in; when there are more lines than the screen has rows the last ones
    stay, and the row of the cursor below them is empty. *)
Theorem terminal_shows_tail t0 ls :
  tty_esc_state (csi t0) = TTY_ESC_IDLE -> 16 <= g_height (fb t0) -> Forall is_line ls ->
  let t := terminal_write (concat (map (fun l => l ++ [10]) ls)) (terminal_initialize t0) in
  let k := Nat.min (Z.to_nat (rows_on (g_height (fb t0)) - 1)) (length ls) in
  term_buffer (grid t) = map pad (drop (length ls - k) ls) ++ replicate (48 - k) (replicate 128 32) /\
  term_scale (grid t) = blank 1 /\ term_cursor_x t = 1 /\ term_cursor_y t = Z.of_nat k.
Proof.
  intros He Hh Hls t k. set (t1 := terminal_initialize t0) in *.
  assert (g_height (fb t1) = g_height (fb t0)) as E1 by apply height_clear.
  assert (quiet t1) as Hq by done. assert (t1 = text (blank 32) 1 0 t1) as Et by by destruct t0.
  assert (1 <= rows_on (g_height (fb t1))) as HR by (rewrite E1; unfold rows_on; zlia).
  pose proof (write_lines ls t1 Hq Hls HR) as H. rewrite <- Et, E1 in H. fold t in H.
  destruct (equiv_fields _ _ H) as (G & X & Y & _). rewrite G, X, Y. unfold shown.
  assert (last_rows (Z.to_nat (rows_on (g_height (fb t0)) - 1)) ls = drop (length ls - k) ls) as E by (unfold last_rows, k; f_equal; lia).
  cbn [term_buffer term_scale grid text with_cursor with_grid term_cursor_x term_cursor_y]. rewrite E, length_drop. split_and!; [do 2 f_equal; lia|done|done|lia].
Qed.

(** ** Every index stays inside its array *)

Definition rows_ok (rows : list (list Z)) : Prop := length rows = 48%nat /\ Forall (fun r => length r = 128%nat) rows.
Definition grid_ok (g : grid_t) : Prop := rows_ok (term_buffer g) /\ rows_ok (term_scale g) /\ length (line_positions g) = 48%nat.
Definition csi_ok (c : csi_t) : Prop := length (tty_csi_nums c) = 5%nat /\ 0 <= tty_csi_num_count c <= 5.
Definition line_ok (l : line_t) : Prop :=
  length (tty_line_buf l) = 256%nat /\ 0 <= tty_line_consumed l <= tty_line_len l /\ tty_line_len l <= 255 /\ (tty_line_ready l = false -> tty_line_consumed l = 0).
(** The cursor is on a cell or right after the last one of its row. *)
Record tty_ok (t : tty) : Prop := {
  ok_grid : grid_ok (grid t);
  ok_x : 0 <= term_cursor_x t <= 128;
  ok_y : 0 <= term_cursor_y t < 48;
  ok_csi : csi_ok (csi t);
  ok_line : line_ok (line t)
}.

Lemma equiv_ok t t' : t ≡ t' -> tty_ok t' -> tty_ok t.
Proof. intros E []. destruct (equiv_fields _ _ E) as (G & X & Y & _ & _ & C & N & _). split; rewrite ?G, ?X, ?Y, ?C, ?N; done. Qed.
Lemma rows_ok_blank v : rows_ok (blank v).
Proof. split; [done|]. apply Forall_replicate. by rewrite length_replicate. Qed.
Lemma rows_ok_scroll v rows : rows_ok rows -> rows_ok (scroll_rows v rows).
Proof.
  intros [H1 H2]. unfold scroll_rows. split; [rewrite length_app, length_drop; cbn [length]; lia|]. apply Forall_app. split; [by apply Forall_drop|].
  apply Forall_singleton. by rewrite length_replicate.
Qed.
Lemma rows_ok_put y x v rows : rows_ok rows -> rows_ok (put_cell y x v rows).
Proof.
  intros [H1 H2]. unfold put_cell, row_of. split; [by rewrite length_insert|]. destruct (decide (Z.to_nat y < 48)%nat) as [Hy|Hy]; [|by rewrite list_insert_ge by lia].
  apply Forall_insert; [done|]. rewrite length_insert. apply (Forall_lookup_total_1 _ _ _ H2). lia.
Qed.
Lemma length_line_tops p rows : length (line_tops p rows) = length rows.
Proof. revert p. induction rows as [|r rows IH]; intros p; cbn; [done|]. by rewrite IH. Qed.

Lemma calculate_ok t : tty_ok t -> tty_ok (calculate_line_positions t).
Proof.
  intros [(Hb & Hs & Hp) ? ? ? ?]. split; try done. split_and!; [done|done|]. cbn. rewrite length_line_tops. apply Hs.
Qed.
Lemma with_cursor_ok x y t : tty_ok t -> 0 <= x <= 128 -> 0 <= y < 48 -> tty_ok (with_cursor x y t).
Proof. by intros []. Qed.
Lemma with_csi_ok c t : tty_ok t -> csi_ok c -> tty_ok (with_csi c t).
Proof. by intros []. Qed.
(** [tty_ok] but for the place of the cursor. *)
Definition rest_ok t : Prop := tty_ok (with_cursor 0 0 t).
Lemma rest_ok_cursor x y t : rest_ok t -> 0 <= x <= 128 -> 0 <= y < 48 -> tty_ok (with_cursor x y t).
Proof. intros H Hx Hy. pose proof (with_cursor_ok x y _ H Hx Hy). by destruct t. Qed.
Lemma tty_rest t : tty_ok t -> rest_ok t.
Proof. by intros []. Qed.
Lemma equiv_rest t t' : t ≡ t' -> rest_ok t' -> rest_ok t.
Proof. intros E. apply equiv_ok. by rewrite E. Qed.

Lemma scroll_rest t : rest_ok t -> rest_ok (terminal_scroll t) /\ term_cursor_x (terminal_scroll t) = term_cursor_x t /\ term_cursor_y (terminal_scroll t) = term_cursor_y t.
Proof.
  intros [(Hb & Hs & Hp) _ _ Hc Hl]. set (t' := with_grid (mk_grid (scroll_rows 32 (term_buffer (grid t))) (scroll_rows 1 (term_scale (grid t))) (line_positions (grid t))) t).
  assert (terminal_scroll t ≡ calculate_line_positions t') as E by (unfold terminal_scroll; by rewrite redraw_equiv).
  destruct (equiv_fields _ _ E) as (_ & X & Y & _). split_and!; [|exact X|exact Y]. apply (equiv_rest _ _ E). subst t'. unfold rest_ok.
  split; try done; [|cbn; lia..]. split_and!; [by apply rows_ok_scroll|by apply rows_ok_scroll|]. cbn. rewrite length_line_tops. by apply rows_ok_scroll.
Qed.
Lemma scroll_to_fit_ok n t : rest_ok t -> 0 <= term_cursor_y t < 48 ->
  rest_ok (scroll_to_fit n t) /\ 0 <= term_cursor_y (scroll_to_fit n t) < 48 /\ term_cursor_x (scroll_to_fit n t) = term_cursor_x t.
Proof.
  revert t. induction n as [|n IH]; intros t Ht Hy; cbn [scroll_to_fit]; [done|]. destruct ((0 <? term_cursor_y t) && _) eqn:E; [|done].
  apply andb_true_iff in E as [E%Z.ltb_lt _]. destruct (scroll_rest t Ht) as (Hs & Hx & Hy').
  destruct (IH (with_cursor (term_cursor_x t) (term_cursor_y t - 1) (terminal_scroll t))) as (H1 & H2 & H3).
  - unfold rest_ok in *. by destruct (terminal_scroll t).
  - cbn. lia.
  - cbn zeta. rewrite Hx, Hy'. done.
Qed.
(** After [clamp_or_scroll_cursor] the cursor is on a cell. *)
Lemma clamp_ok t : rest_ok t -> 0 <= term_cursor_y t <= 48 -> 0 <= term_cursor_x t -> tty_ok (clamp_or_scroll_cursor t) /\ term_cursor_x (clamp_or_scroll_cursor t) < 128.
Proof.
  intros Ht Hy Hx. set (a := if TERM_ROWS <=? term_cursor_y t then with_cursor (term_cursor_x (terminal_scroll t)) (TERM_ROWS - 1) (terminal_scroll t) else t).
  assert (rest_ok a /\ 0 <= term_cursor_y a < 48 /\ term_cursor_x a = term_cursor_x t) as (Ha & Hya & Hxa).
  { subst a. unfold TERM_ROWS. destruct (Z.leb_spec 48 (term_cursor_y t)); [|split_and!; done || lia]. destruct (scroll_rest t Ht) as (Hs & E & _).
    split_and!; [|cbn; lia|cbn; lia|by rewrite E]. unfold rest_ok in *. by destruct (terminal_scroll t). }
  change (clamp_or_scroll_cursor t) with (clamped (scroll_to_fit (Z.to_nat (term_cursor_y a)) a)).
  destruct (scroll_to_fit_ok (Z.to_nat (term_cursor_y a)) a Ha Hya) as (Hb & Hyb & Hxb). rewrite Hxa in Hxb. set (b := scroll_to_fit _ a) in *. clearbody b.
  unfold clamped, TERM_COLS. rewrite (proj2 (Z.ltb_ge (term_cursor_y b) 0)) by lia. rewrite (proj2 (Z.ltb_ge (term_cursor_x b) 0)) by lia.
  split; [apply rest_ok_cursor; [done|case_match; lia|done]|]. cbn [term_cursor_x with_cursor]. destruct (Z.leb_spec 128 (term_cursor_x b)); lia.
Qed.
Lemma last_used_range n row : (Z.of_nat 0 <= last_used n row <= Z.of_nat n).
Proof. induction n as [|n IH]; cbn [last_used]; [lia|]. case_match; lia. Qed.
Lemma end_of_row_range y t : 0 <= end_of_row y t <= 128.
Proof. unfold end_of_row. pose proof (last_used_range (Z.to_nat (TERM_COLS - 1)) (row_of y (term_buffer (grid t)))) as H. change (Z.of_nat (Z.to_nat (TERM_COLS - 1))) with 127 in H. case_match; lia. Qed.
Lemma wrap_ok t : rest_ok t -> 0 <= term_cursor_x t <= 129 -> 0 <= term_cursor_y t < 48 -> tty_ok (wrap_cursor t) /\ term_cursor_x (wrap_cursor t) < 128.
Proof.
  intros Ht Hx Hy. unfold wrap_cursor, TERM_COLS. destruct (Z.leb_spec 128 (term_cursor_x t)) as [H|H].
  - destruct (clamp_ok (with_cursor 0 (term_cursor_y t + 1) t)) as [H1 H2]; [unfold rest_ok in *; by destruct t|cbn; lia|done|]. split; [by apply calculate_ok|done].
  - split; [|lia]. pose proof (rest_ok_cursor (term_cursor_x t) (term_cursor_y t) t Ht). destruct t. cbn in *. auto with lia.
Qed.

Lemma move_left_ok t : tty_ok t -> tty_ok (terminal_move_cursor_left t).
Proof.
  intros Ht. unfold terminal_move_cursor_left. destruct (terminal_ready (blink t)); [|done]. cbn [negb]. cbn zeta. apply (equiv_ok _ _ (show_cursor_equiv _)).
  pose proof (hide_cursor_equiv t) as E. pose proof (equiv_ok _ _ E Ht) as H. destruct H as [? Hx Hy ? ?] eqn:E2. set (a := hide_cursor t) in *. clearbody a.
  pose proof (end_of_row_range (term_cursor_y a - 1) a). destruct (Z.ltb_spec 0 (term_cursor_x a)); [by apply with_cursor_ok; [|lia..]|].
  destruct (Z.ltb_spec 0 (term_cursor_y a)); [by apply with_cursor_ok; [|lia..]|done].
Qed.
Lemma move_right_ok t : tty_ok t -> tty_ok (terminal_move_cursor_right t).
Proof.
  intros Ht. unfold terminal_move_cursor_right. destruct (terminal_ready (blink t)); [|done]. cbn [negb]. cbn zeta. apply (equiv_ok _ _ (show_cursor_equiv _)).
  pose proof (equiv_ok _ _ (hide_cursor_equiv t) Ht) as H. set (a := hide_cursor t) in *. clearbody a. pose proof (ok_x _ H). pose proof (ok_y _ H).
  apply wrap_ok; [|cbn; lia..]. by destruct H.
Qed.
Lemma clear_and_home_ok t : tty_ok t -> tty_ok (terminal_clear_and_home t).
Proof.
  intros Ht. unfold terminal_clear_and_home. cbn zeta. set (a := calculate_line_positions _).
  assert (tty_ok a) as Ha.
  { apply calculate_ok, with_cursor_ok; [|lia..]. destruct Ht as [(_ & _ & Hp) ? ? ? ?]. split; try done. split_and!; [apply rows_ok_blank..|done]. }
  clearbody a. pose proof (equiv_ok _ _ (fb_clear_equiv (term_bg (look a)) a) Ha) as Hb. destruct (shows_cursor _); [|done]. by apply (equiv_ok _ _ (draw_cursor_equiv _)).
Qed.
Lemma with_look_ok l t : tty_ok t -> tty_ok (with_look l t).
Proof. by intros []. Qed.
Lemma setbackground_ok c t : tty_ok t -> tty_ok (terminal_setbackground c t).
Proof.
  intros Ht. unfold terminal_setbackground. cbn zeta. pose proof (with_look_ok (mk_look (term_color (look t)) c (current_scale (look t))) t Ht) as H.
  destruct (terminal_ready _); [|done]. by apply (equiv_ok _ _ (redraw_equiv _)).
Qed.
Lemma csi_final_ok c t : tty_ok t -> tty_ok (csi_final c t).
Proof.
  intros Ht. unfold csi_final. cbn zeta. repeat case_match; auto using clear_and_home_ok, move_right_ok, move_left_ok, setbackground_ok, with_look_ok.
  - by apply setbackground_ok, with_look_ok.
  - by apply with_look_ok.
Qed.
Lemma push_num_ok c : csi_ok c -> csi_ok (push_num c).
Proof. intros [H1 H2]. unfold push_num, TTY_CSI_MAX_PARAMS. destruct (Z.ltb_spec (tty_csi_num_count c) 5); [|done]. unfold csi_ok. cbn [tty_csi_nums tty_csi_num_count]. rewrite length_insert. split; [done|lia]. Qed.
Lemma put_in_csi_ok c t : tty_ok t -> tty_ok (put_in_csi c t).
Proof.
  intros Ht. unfold put_in_csi. cbn zeta. pose proof (ok_csi _ Ht) as Hc. pose proof (push_num_ok _ Hc) as Hp. repeat case_match; try done.
  1,2: assert (tty_ok (csi_final c (with_csi (push_num (csi t)) t)) /\ tty_ok (csi_final c t)) as [H1 H2] by (split; apply csi_final_ok; [by apply with_csi_ok|done]).
  - apply with_csi_ok; [done|]. apply (ok_csi _ H1).
  - apply with_csi_ok; [done|]. apply (ok_csi _ H2).
  - by apply with_csi_ok.
  - by apply with_csi_ok.
Qed.
Lemma put_newline_ok t : tty_ok t -> tty_ok (put_newline t).
Proof.
  intros Ht. pose proof (ok_y _ Ht). apply calculate_ok, clamp_ok; [|cbn; lia..]. by destruct Ht.
Qed.
Lemma with_grid_ok g t : tty_ok t -> grid_ok g -> tty_ok (with_grid g t).
Proof. by intros []. Qed.
Lemma put_backspace_ok t : tty_ok t -> tty_ok (put_backspace t).
Proof.
  intros Ht. unfold put_backspace. cbn zeta. pose proof (ok_x _ Ht). pose proof (ok_y _ Ht). pose proof (end_of_row_range (term_cursor_y t - 1) t).
  destruct (_ && _); [|done]. destruct (Z.ltb_spec 0 (term_cursor_x t)).
  - apply (equiv_ok _ _ (draw_at_equiv _ _ _ _ _)). apply with_grid_ok; [by apply with_cursor_ok; [|lia..]|]. destruct (ok_grid _ Ht) as (? & ? & ?). split_and!; [by apply rows_ok_put|done|done].
  - destruct (Z.ltb_spec 0 (term_cursor_y t)); [by apply with_cursor_ok; [|lia..]|done].
Qed.
Lemma put_glyph_ok c t : tty_ok t -> tty_ok (put_glyph c t).
Proof.
  intros Ht. unfold put_glyph. cbn zeta. destruct (wrap_ok t) as [Ha Hx]; [by apply tty_rest|pose proof (ok_x _ Ht); lia|apply Ht|].
  set (a := wrap_cursor t) in *. clearbody a. set (b := if cursor_in_bounds a then _ else a). assert (tty_ok b) as Hb.
  { subst b. case_match; [|done]. apply (equiv_ok _ _ (draw_at_equiv _ _ _ _ _)). apply with_grid_ok; [done|]. destruct (ok_grid _ Ha) as (? & ? & ?). split_and!; [by apply rows_ok_put..|done]. }
  clearbody b. pose proof (ok_x _ Ha). apply wrap_ok; [by destruct Hb|cbn; lia|apply Ha].
Qed.
Lemma putchar_ok c t : tty_ok t -> tty_ok (terminal_putchar c t).
Proof.
  intros Ht. unfold terminal_putchar. destruct (terminal_ready (blink t)); [|done]. cbn [negb]. cbn zeta. destruct (tty_esc_state (csi t)).
  - case_match; [apply with_csi_ok; [done|apply Ht]|]. apply (equiv_ok _ _ (show_cursor_equiv _)). pose proof (equiv_ok _ _ (hide_cursor_equiv t) Ht) as Hh.
    repeat case_match; auto using put_newline_ok, put_backspace_ok, put_glyph_ok. pose proof (ok_y _ Hh). by apply with_cursor_ok; [|lia..].
  - case_match; apply with_csi_ok; try done; [|apply Ht]. split; [apply Ht|cbn; lia].
  - by apply put_in_csi_ok.
Qed.

(** C35: Whatever bytes a program writes, the terminal stays sound: the cursor
    is on a cell of the grid or right after the last one of a row, the grid
    keeps its 48 rows of 128 cells and the parser its five numbers, so that no
    access leaves an array. *)
Theorem terminal_write_safe data t : tty_ok t -> tty_ok (terminal_write data t).
Proof. revert t. induction data as [|c data IH]; intros t Ht; [done|]. by apply IH, putchar_ok. Qed.
Lemma tty_initialize_ok t : csi_ok (csi t) -> line_ok (line t) -> tty_ok (terminal_initialize t).
Proof.
  intros Hc Hl. split; [|by destruct t; cbn|by destruct t; cbn|by destruct t|by destruct t]. destruct t. cbn. split_and!; [apply rows_ok_blank..|done].
Qed.

(** ** Input lines *)

Lemma line_scroll t : line (terminal_scroll t) = line t.
Proof. assert (terminal_scroll t ≡ calculate_line_positions (with_grid (mk_grid (scroll_rows 32 (term_buffer (grid t))) (scroll_rows 1 (term_scale (grid t))) (line_positions (grid t))) t)) as E by (unfold terminal_scroll; by rewrite redraw_equiv).
  by destruct (equiv_fields _ _ E) as (_ & _ & _ & _ & _ & _ & N & _). Qed.
Lemma line_equiv t t' : t ≡ t' -> line t = line t'.
Proof. intros E. by destruct (equiv_fields _ _ E) as (_ & _ & _ & _ & _ & _ & N & _). Qed.
Lemma line_scroll_to_fit n t : line (scroll_to_fit n t) = line t.
Proof.
  revert t. induction n as [|n IH]; intros t; cbn [scroll_to_fit]; [done|]. case_match; [|done]. rewrite IH. apply line_scroll.
Qed.
Lemma line_clamp t : line (clamp_or_scroll_cursor t) = line t.
Proof.
  unfold clamp_or_scroll_cursor. set (a := if _ <=? _ then _ else t). assert (line a = line t) as E by (subst a; case_match; [apply line_scroll|done]). clearbody a.
  cbn zeta. change (line (scroll_to_fit (Z.to_nat (term_cursor_y a)) a) = line t). by rewrite line_scroll_to_fit.
Qed.
Lemma line_wrap t : line (wrap_cursor t) = line t.
Proof. unfold wrap_cursor. case_match; [|done]. apply (line_clamp (with_cursor 0 (term_cursor_y t + 1) t)). Qed.
Lemma line_show t : line (show_cursor_after t) = line t.
Proof. apply line_equiv, show_cursor_equiv. Qed.
Lemma line_hide t : line (hide_cursor t) = line t.
Proof. apply line_equiv, hide_cursor_equiv. Qed.
Lemma line_left t : line (terminal_move_cursor_left t) = line t.
Proof. unfold terminal_move_cursor_left. case_match; [done|]. cbn zeta. rewrite line_show. repeat case_match; apply line_hide. Qed.
Lemma line_right t : line (terminal_move_cursor_right t) = line t.
Proof. unfold terminal_move_cursor_right. case_match; [done|]. cbn zeta. rewrite line_show, line_wrap. apply line_hide. Qed.
Lemma line_home t : line (terminal_clear_and_home t) = line t.
Proof.
  unfold terminal_clear_and_home. cbn zeta. set (a := calculate_line_positions _). assert (line a = line t) as <- by done. clearbody a.
  case_match; [|done]. by rewrite (line_equiv _ _ (draw_cursor_equiv _)).
Qed.
Lemma line_background c t : line (terminal_setbackground c t) = line t.
Proof. unfold terminal_setbackground. cbn zeta. case_match; [|done]. by rewrite (line_equiv _ _ (redraw_equiv _)). Qed.
Lemma line_final c t : line (csi_final c t) = line t.
Proof. unfold csi_final. cbn zeta. repeat case_match; rewrite ?line_home, ?line_left, ?line_right, ?line_background; done. Qed.
Lemma line_in_csi c t : line (put_in_csi c t) = line t.
Proof. unfold put_in_csi. cbn zeta. repeat case_match; try done; cbn [line with_csi]; by rewrite line_final. Qed.
Lemma line_newline t : line (put_newline t) = line t.
Proof. apply (line_clamp (with_cursor 1 (term_cursor_y t + 1) t)). Qed.
Lemma line_backspace t : line (put_backspace t) = line t.
Proof. unfold put_backspace. cbn zeta. repeat case_match; done. Qed.
Lemma line_glyph c t : line (put_glyph c t) = line t.
Proof. unfold put_glyph. cbn zeta. rewrite line_wrap. transitivity (line (wrap_cursor t)); [|apply line_wrap]. by destruct (cursor_in_bounds (wrap_cursor t)). Qed.
(** Output does not touch the line being typed. *)
Lemma line_putchar c t : line (terminal_putchar c t) = line t.
Proof.
  unfold terminal_putchar. case_match; [done|]. case_match; [|by case_match|apply line_in_csi]. case_match; [done|]. cbn zeta. rewrite line_show.
  transitivity (line (hide_cursor t)); [|apply line_hide]. repeat case_match; auto using line_newline, line_backspace, line_glyph.
Qed.
Lemma line_write l t : line (terminal_write l t) = line t.
Proof. revert t. induction l as [|c l IH]; intros t; [done|]. cbn. fold (terminal_write l (terminal_putchar c t)). by rewrite IH, line_putchar. Qed.

(** The characters typed so far, and what a key does to them. *)
Definition typed t : list Z := take (Z.to_nat (tty_line_len (line t))) (tty_line_buf (line t)).
Definition edit (l : list Z) (c : Z) : list Z :=
  if c =? 8 then take (length l - 1) l
  else if (c =? 21) || (c =? 3) then []
  else if zlen l <? 255 then l ++ [c] else l.
Definition with_return (l : list Z) : list Z := if zlen l <? 255 then l ++ [10] else l.
(** The keys that end no line. *)
Definition is_edit (c : Z) : Prop := c <> 10 /\ c <> 13 /\ c <> 4.

Lemma typed_length t : line_ok (line t) -> zlen (typed t) = tty_line_len (line t).
Proof. intros (? & ? & ? & _). unfold typed. rewrite length_take. lia. Qed.
Lemma typed_line t t' : line t = line t' -> typed t = typed t'.
Proof. unfold typed. by intros ->. Qed.
Lemma line_ok_append c t : line_ok (line t) -> has_room t = true -> line_ok (line (append c t)) /\ typed (append c t) = typed t ++ [c].
Proof.
  intros (H1 & H2 & H3 & H4) Hr. unfold has_room, TTY_LINE_MAX in Hr. apply Z.ltb_lt in Hr. split.
  - split_and!; cbn; [by rewrite length_insert|lia|lia|lia|done].
  - unfold typed. cbn. replace (Z.to_nat (tty_line_len (line t) + 1)) with (S (Z.to_nat (tty_line_len (line t)))) by lia.
    rewrite (take_S_r _ _ c) by (apply list_lookup_insert_eq; lia). by rewrite take_insert_ge by lia.
Qed.
Lemma line_erase t : line (erase t) = line (set_len (tty_line_len (line t) - 1) t).
Proof. unfold erase. by rewrite !line_putchar. Qed.
Lemma line_kill n t : line_ok (line t) -> Z.to_nat (tty_line_len (line t)) = n -> tty_line_consumed (line t) = 0 ->
  line (kill_line n t) = line (set_len 0 t).
Proof.
  revert t. induction n as [|n IH]; intros t Hl Hn Hc; cbn [kill_line].
  - destruct t as [? ? ? ? ? ? ? ? [] ?]. cbn in *. destruct Hl as (_ & Hl & _). cbn in Hl. f_equal. lia.
  - rewrite (proj2 (Z.ltb_lt 0 _)) by lia. pose proof (line_erase t) as E. rewrite IH; [|rewrite E..].
    + destruct t. cbn in *. by rewrite E.
    + destruct Hl as (? & ? & ? & ?). split_and!; cbn; [done|lia|lia|lia|done].
    + cbn. lia.
    + done.
Qed.

Lemma set_len_ok n t : line_ok (line t) -> tty_line_consumed (line t) = 0 -> 0 <= n <= tty_line_len (line t) ->
  line_ok (line (set_len n t)) /\ typed (set_len n t) = take (Z.to_nat n) (typed t).
Proof.
  intros (? & ? & ? & ?) Hc Hn. split; [split_and!; cbn; done || lia|]. unfold typed. cbn. rewrite take_take. f_equal. lia.
Qed.
Lemma process_edit c t : is_edit c -> line_ok (line t) -> tty_line_ready (line t) = false ->
  let '(r, t') := tty_process_input_byte c t in r = 0 /\ line_ok (line t') /\ tty_line_ready (line t') = false /\ typed t' = edit (typed t) c.
Proof.
  intros (H10 & H13 & H4) Hl Hr. pose proof (typed_length t Hl) as Ht. assert (tty_line_consumed (line t) = 0) as Hc by by apply Hl.
  assert (0 <= tty_line_len (line t)) as H0 by (destruct Hl; lia).
  unfold tty_process_input_byte, edit. rewrite (proj2 (Z.eqb_neq c 10)), (proj2 (Z.eqb_neq c 13)), (proj2 (Z.eqb_neq c 4)) by done. cbn [orb].
  destruct (c =? 8); [|destruct (c =? 21); [|cbn [orb]; destruct (c =? 3)]].
  - split; [done|]. destruct (Z.ltb_spec 0 (tty_line_len (line t))).
    + destruct (set_len_ok (tty_line_len (line t) - 1) t Hl Hc) as [H1 H2]; [lia|]. rewrite (typed_line _ _ (line_erase t)), line_erase. split_and!; [done|done|]. rewrite H2. f_equal. lia.
    + split_and!; [done|done|]. assert (length (typed t) = 0%nat) as E by lia. by apply nil_length_inv in E as ->.
  - pose proof (line_kill _ t Hl eq_refl Hc) as E. rewrite (typed_line _ _ E), E. destruct (set_len_ok 0 t Hl Hc) as [H1 H2]; [lia|]. split_and!; done.
  - set (a := terminal_writestring [94; 67; 10] t). assert (line a = line t) as E by apply line_write. clearbody a.
    destruct (set_len_ok 0 a) as [H1 H2]; rewrite ?E; try done. split_and!; [done|done|by cbn; rewrite E|done].
  - split; [done|]. rewrite Ht. change (tty_line_len (line t) <? 255) with (has_room t). destruct (has_room t) eqn:Er; [|done].
    destruct (line_ok_append c t Hl Er) as [H1 H2]. rewrite (typed_line _ _ (line_putchar c (append c t))), line_putchar. by split_and!.
Qed.
Lemma process_return c t : c = 10 \/ c = 13 -> line_ok (line t) -> tty_line_ready (line t) = false ->
  let '(r, t') := tty_process_input_byte c t in r = 1 /\ line_ok (line t') /\ tty_line_ready (line t') = true /\ tty_line_consumed (line t') = 0 /\ typed t' = with_return (typed t).
Proof.
  intros Hcr Hl Hr. assert (tty_line_consumed (line t) = 0) as Hc by by apply Hl. unfold tty_process_input_byte.
  replace ((c =? 10) || (c =? 13)) with true by (by destruct Hcr as [-> | ->]). split; [done|].
  assert (forall a, line_ok (line a) -> line_ok (line (set_ready (terminal_putchar 10 a))) /\ typed (set_ready (terminal_putchar 10 a)) = typed a /\ tty_line_consumed (line (set_ready (terminal_putchar 10 a))) = tty_line_consumed (line a)) as Hs.
  { intros a (? & ? & ? & ?). unfold typed. cbn. rewrite line_putchar. split_and!; done || lia. }
  unfold with_return. rewrite typed_length by done. change (tty_line_len (line t) <? 255) with (has_room t). destruct (has_room t) eqn:Er.
  - destruct (line_ok_append 10 t Hl Er) as [H1 H2]. destruct (Hs _ H1) as (? & E & Ec). rewrite E, H2, Ec. by split_and!.
  - destruct (Hs _ Hl) as (? & E & Ec). rewrite E, Ec. by split_and!.
Qed.

(** What is left of a finished line. *)
Definition remaining t : list Z := drop (Z.to_nat (tty_line_consumed (line t))) (typed t).
Lemma drain_some n t : line_ok (line t) -> tty_line_ready (line t) = true -> 0 <= n < 2 ^ 31 ->
  exists t', tty_drain_ready n t = (Some (take (Z.to_nat n) (remaining t), Z.min n (zlen (remaining t))), t') /\ line_ok (line t') /\
    remaining t' = drop (Z.to_nat n) (remaining t) /\ (tty_line_ready (line t') = true <-> n < zlen (remaining t)).
Proof.
  intros Hl Hr Hn. pose proof (typed_length t Hl) as Ht. pose proof Hl as (Hlen & Hc & H255 & _). set (l := line t) in *. unfold tty_drain_ready. fold l. rewrite Hr. cbn [negb].
  rewrite (u32_small (tty_line_len l - tty_line_consumed l)) by lia. set (m := if n <? tty_line_len l - tty_line_consumed l then n else tty_line_len l - tty_line_consumed l).
  assert (m = Z.min n (zlen (remaining t))) as Em by (unfold remaining; rewrite length_drop; fold l; subst m; destruct (Z.ltb_spec n (tty_line_len l - tty_line_consumed l)); lia).
  assert (zlen (remaining t) = tty_line_len l - tty_line_consumed l) as Erem by (unfold remaining; rewrite length_drop; fold l; lia).
  clearbody m. rewrite (u32_small (_ + m)) by lia. unfold TTY_LINE_MAX. rewrite (proj2 (Z.leb_le _ 256)) by lia. replace (i32 m) with m by (unfold i32; rewrite Z.mod_small; lia).
  assert (slice (tty_line_consumed l) m (tty_line_buf l) = take (Z.to_nat n) (remaining t)) as Es.
  { unfold slice, remaining, typed. fold l. rewrite skipn_firstn_comm, take_take. f_equal. lia. }
  rewrite Es, Em. eexists. split; [reflexivity|]. rewrite <- Em. destruct (Z.leb_spec (tty_line_len l) (tty_line_consumed l + m)) as [Hd|Hd].
  - split_and!; [split_and!; cbn; done || lia| |split; [done|lia]]. unfold remaining at 1, typed. cbn. symmetry. apply drop_ge. lia.
  - split_and!; [split_and!; cbn; done || lia| |split; [lia|done]]. unfold remaining, typed. cbn. fold l. rewrite drop_drop. f_equal. lia.
Qed.

(** Reads of the given sizes, one after the other, as long as there is a line. *)
Fixpoint drain_all (ns : list Z) t : list Z * tty :=
  match ns with
  | [] => ([], t)
  | n :: ns =>
      match tty_drain_ready n t with
      | (Some (b, r), t') => if r <? 0 then ([], t) else let '(bs, t') := drain_all ns t' in (b ++ bs, t')
      | (None, t') => ([], t')
      end
  end.
Lemma drain_all_spec ns t : line_ok (line t) -> Forall (fun n => 0 < n < 2 ^ 31) ns -> tty_line_ready (line t) = true \/ remaining t = [] ->
  let '(bs, t') := drain_all ns t in
  bs = take (Z.to_nat (foldr Z.add 0 ns)) (remaining t) /\ (zlen (remaining t) <= foldr Z.add 0 ns -> ns <> [] -> tty_line_ready (line t') = false).
Proof.
  intros Hl Hns. revert t Hl. induction Hns as [|n ns Hn Hns IH]; intros t Hl Hr; cbn [drain_all foldr]; [split; [by rewrite take_0|done]|].
  assert (0 <= foldr Z.add 0 ns) as Hsum by (clear IH; induction Hns; cbn [foldr]; lia).
  destruct (tty_line_ready (line t)) eqn:Er.
  - destruct (drain_some n t Hl Er ltac:(lia)) as (t1 & -> & Hl1 & Hrem & Hrd). rewrite (proj2 (Z.ltb_ge _ 0)) by lia.
    assert (tty_line_ready (line t1) = true \/ remaining t1 = []) as Hr1.
    { destruct (Z.lt_ge_cases n (zlen (remaining t))) as [?|?]; [left; by apply Hrd|right]. rewrite Hrem. apply drop_ge. lia. }
    specialize (IH t1 Hl1 Hr1). destruct (drain_all ns t1) as [bs t2] eqn:Ed. destruct IH as [Hbs Hend]. split.
    + rewrite Hbs, Hrem. rewrite Z2Nat.inj_add by lia. rewrite <- (take_drop (Z.to_nat n) (take (_ + _) (remaining t))). rewrite take_take, skipn_firstn_comm. f_equal; f_equal; lia.
    + intros Hle _. destruct ns as [|n2 ns]; [|apply Hend; [rewrite Hrem, length_drop; lia|done]]. cbn in Ed. injection Ed as <- <-. cbn in Hle.
      destruct (tty_line_ready (line t1)) eqn:E1; [|done]. assert (n < zlen (remaining t)) by by apply Hrd. lia.
  - unfold tty_drain_ready. rewrite Er. cbn [negb Z.ltb Z.compare]. destruct Hr as [|Hr]; [done|]. rewrite Hr. by rewrite take_nil.
Qed.

(** C33: The line discipline hands a reader exactly the edited line: the keys
    typed up to a return act on the line as erase, kill, interrupt and the
    others say, the line is kept to 255 characters, and reads of any sizes
    return it with its newline from front to back; then the next line starts
    empty. *)
Theorem canonical_read keys c ns t :
  line_ok (line t) -> tty_line_len (line t) = 0 -> tty_line_ready (line t) = false ->
  Forall is_edit keys -> c = 10 \/ c = 13 -> Forall (fun n => 0 < n < 2 ^ 31) ns ->
  let l := with_return (foldl edit [] keys) in
  let '(r, t1) := tty_process_input_byte c (foldl (fun t k => (tty_process_input_byte k t).2) t keys) in
  let '(bs, t2) := drain_all ns t1 in
  r = 1 /\ bs = take (Z.to_nat (foldr Z.add 0 ns)) l /\ (zlen l <= foldr Z.add 0 ns -> tty_line_ready (line t2) = false /\ bs = l).
Proof.
  intros Hl Hlen Hr Hk Hc Hns l. assert (typed t = []) as Ht by (unfold typed; by rewrite Hlen).
  assert (let t' := foldl (fun t k => (tty_process_input_byte k t).2) t keys in line_ok (line t') /\ tty_line_ready (line t') = false /\ typed t' = foldl edit [] keys) as Hf.
  { rewrite <- Ht. clear l Ht Hlen. revert t Hl Hr. induction Hk as [|k keys Hk Hks IH]; intros t Hl Hr; [done|]. cbn [foldl].
    pose proof (process_edit k t Hk Hl Hr) as H. destruct (tty_process_input_byte k t) as [r t1]. cbn [snd]. destruct H as (_ & H1 & H2 & <-). by apply IH. }
  cbn zeta in Hf. set (t0 := foldl _ t keys) in *. clearbody t0. destruct Hf as (Hl0 & Hr0 & Ht0).
  pose proof (process_return c t0 Hc Hl0 Hr0) as H. destruct (tty_process_input_byte c t0) as [r t1]. destruct H as (-> & Hl1 & Hr1 & Hc1 & Ht1).
  assert (remaining t1 = l) as Erem by (unfold remaining; rewrite Hc1, Ht1, Ht0; done). pose proof (drain_all_spec ns t1 Hl1 Hns (or_introl Hr1)) as H. destruct (drain_all ns t1) as [bs t2].
  rewrite Erem in H. destruct H as [-> H]. split_and!; [done|done|]. intros Hle. split; [|apply take_ge; lia]. apply H; [done|]. intros ->. cbn in Hle.
  subst l. unfold with_return in Hle. case_match eqn:E; [rewrite length_app in Hle; cbn in Hle; lia|]. apply Z.ltb_ge in E. lia.
Qed.

(** ** At concrete inputs *)

(** A terminal on a screen of two rows. *)
Definition booted : tty := with_fb (mk_screen 0x1000 8 8 32 ∅) tty0.
Definition line_of (c : Z) : list Z := replicate 3 c.

(** Three lines: the last one stays, over the row of the cursor. *)
Lemma terminal_shows_tail_witness :
  let t := terminal_write (concat (map (fun l => l ++ [10]) [line_of 97; line_of 98; line_of 99])) (terminal_initialize booted) in
  term_buffer (grid t) = pad (line_of 99) :: replicate 47 (replicate 128 32) /\ term_cursor_y t = 1.
Proof.
  destruct (terminal_shows_tail booted [line_of 97; line_of 98; line_of 99]) as (H & _ & _ & Hy); [done|done| |].
  - repeat (constructor; [split; [repeat (constructor; [done|]); constructor|done]|]). constructor.
  - split; [exact H|exact Hy].
Defined.
Lemma booted_ok : tty_ok (terminal_initialize booted).
Proof. apply tty_initialize_ok; [split; [done|cbn; lia]|split_and!; cbn; done || lia]. Qed.
Lemma terminal_write_safe_witness : tty_ok (terminal_write [27; 91; 51; 65; 8; 13; 200] (terminal_initialize booted)).
Proof. apply (terminal_write_safe [27; 91; 51; 65; 8; 13; 200]), booted_ok. Defined.

(** "ax", erase, "b", return, read one byte and then the rest. *)
Lemma canonical_read_witness :
  let '(r, t1) := tty_process_input_byte 13 (foldl (fun t k => (tty_process_input_byte k t).2) (terminal_initialize booted) [97; 120; 8; 98]) in
  let '(bs, t2) := drain_all [1; 100] t1 in bs = [97; 98; 10].
Proof.
  pose proof (canonical_read [97; 120; 8; 98] 13 [1; 100] (terminal_initialize booted)) as H.
  destruct (tty_process_input_byte 13 _) as [r t1]. destruct (drain_all [1; 100] t1) as [bs t2].
  destruct H as (_ & -> & _); [apply booted_ok|done|done|repeat (constructor; [done|]); constructor|by right|repeat (constructor; [done|]); constructor|reflexivity].
Defined.

(** Two readers in canonical mode: the first has taken the two letters of a
    line, the second is still in its loop and passes two erase keys on, which
    move the end of the line before the place the first one has read to. The
    next read copies from behind the buffer. *)
Example drain_leaves_the_buffer :
  let t := foldl (fun t k => (tty_process_input_byte k t).2) (terminal_initialize booted) [97; 98; 10] in
  let '(r, t) := tty_drain_ready 2 t in
  let t := foldl (fun t k => (tty_process_input_byte k t).2) t [8; 8] in
  r = Some ([97; 98], 2) /\ (tty_drain_ready 512 t).1 = None.
Proof. vm_compute. split; reflexivity. Qed.
End TtySpec.
