(* ===== verification/Color.v ===== *)
(** * The color command

    [Color] is [user/color.c], a program that names a color and sends it to the
    terminal as an escape sequence; [ColorSpec] follows the sequence through
    the kernel's parser. *)

From Stdlib Require Import Ascii String.
From S2P Require Import Prelude Framebuffer Tty TtySpec.

Module Color.

(** The bytes of a string literal. *)
Definition bytes (s : string) : list Z := map (fun a => Z.of_N (N_of_ascii a)) (list_ascii_of_string s).
(** [p[i]], with the null byte at the end. *)
Definition char_at (p : list Z) (i : nat) : Z := default 0 (p !! i).

Definition hex_nibble (c : Z) : Z :=
  if (48 <=? c) && (c <=? 57) then c - 48
  else if (97 <=? c) && (c <=? 102) then 10 + (c - 97)
  else if (65 <=? c) && (c <=? 70) then 10 + (c - 65)
  else -1.

Definition color_names : list (string * Z) :=
  [("black", 0x000000); ("white", 0xFFFFFF); ("red", 0xFF0000); ("green", 0x00FF00); ("blue", 0x0000FF); ("yellow", 0xFFFF00);
   ("cyan", 0x00FFFF); ("magenta", 0xFF00FF); ("gray", 0x808080); ("grey", 0x808080)]%string.
(** Six digits from [p[i]] on. *)
Fixpoint hex_digits (n : nat) (i : nat) (p : list Z) (value : Z) : option Z :=
  match n with
  | O => Some value
  | S n =>
      let nib := hex_nibble (char_at p i) in
      if nib <? 0 then None else hex_digits n (S i) p (Z.lor (u32 (Z.shiftl value 4)) nib)
  end.
(** The color, or [None] for the result 0. *)
Definition parse_color_token (token : list Z) : option Z :=
  if bool_decide (token = []) then None
  else
    match List.find (fun e => bool_decide (token = bytes e.1)) color_names with
    | Some (_, c) => Some c
    | None =>
        let p := if char_at token 0 =? 35 then drop 1 token
                 else if (char_at token 0 =? 48) && ((char_at token 1 =? 120) || (char_at token 1 =? 88)) then drop 2 token
                 else token in
        match hex_digits 6 0 p 0 with
        | Some value => if negb (char_at p 6 =? 0) then None else Some value
        | None => None
        end
    end.

(** [tmp], the digits from the last to the first. *)
Fixpoint decimal_rev (fuel : nat) (v : Z) : list Z :=
  match fuel with
  | O => []
  | S fuel => (48 + v mod 10) :: (if v / 10 =? 0 then [] else decimal_rev fuel (v / 10))
  end.
Definition decimal (v : Z) : list Z := rev (decimal_rev 4 v).
(** The bytes written to the standard output. *)
Definition emit_sgr (is_bg : bool) (color : Z) : list Z :=
  let r := Z.land (Z.shiftr color 16) 0xFF in
  let g := Z.land (Z.shiftr color 8) 0xFF in
  let b := Z.land color 0xFF in
  [27; 91; if is_bg then 52 else 51; 56; 59; 50; 59] ++ decimal r ++ [59] ++ decimal g ++ [59] ++ decimal b ++ [109].

(** The exit status and the output. *)
Definition main (argv : list (list Z)) : Z * list Z :=
  match argv with
  | [] | [_] =>
      (1, bytes "Usage: color <text> | color <background> <text>" ++ [10] ++
          bytes "Colors: black white red green blue yellow cyan magenta gray" ++ [10] ++ bytes "Hex: #RRGGBB or 0xRRGGBB" ++ [10])
  | _ :: a :: rest =>
      match rest with
      | b :: _ =>
          match parse_color_token a with
          | None => (1, bytes "color: invalid background color" ++ [10])
          | Some bg =>
              match parse_color_token b with
              | None => (1, bytes "color: invalid text color" ++ [10])
              | Some fg => (0, emit_sgr true bg ++ emit_sgr false fg ++ bytes "Background and text colors updated" ++ [10])
              end
          end
      | [] =>
          match parse_color_token a with
          | None => (1, bytes "color: invalid text color" ++ [10])
          | Some fg => (0, emit_sgr false fg ++ bytes "Text color updated" ++ [10])
          end
      end
  end.
End Color.

Module ColorSpec.
Import Tty TtySpec Color.

(** ** Numbers through the parser *)

Definition in_csi t nums count cur has : tty := with_csi (mk_csi TTY_ESC_IN_CSI nums count cur has) t.

Lemma write_digits l nums count cur has t : terminal_ready (blink t) = true -> Forall (fun c => 48 <= c <= 57) l -> l <> [] ->
  terminal_write l (in_csi t nums count cur has) = in_csi t nums count (foldl (fun v c => u32 (u32 (v * 10) + (c - 48))) cur l) true.
Proof.
  intros Hr Hl. revert cur has. induction Hl as [|c l Hc Hl IH]; intros cur has; [done|]. intros _.
  change (terminal_write (c :: l) (in_csi t nums count cur has)) with (terminal_write l (terminal_putchar c (in_csi t nums count cur has))).
  assert (terminal_putchar c (in_csi t nums count cur has) = in_csi t nums count (u32 (u32 (cur * 10) + (c - 48))) true) as ->.
  { unfold terminal_putchar. change (terminal_ready (blink (in_csi t nums count cur has))) with (terminal_ready (blink t)). rewrite Hr. cbn [negb].
    change (tty_esc_state (csi (in_csi t nums count cur has))) with TTY_ESC_IN_CSI. cbn iota. unfold put_in_csi. cbn zeta. zbool. cbn [andb]. by destruct t. }
  destruct l as [|c2 l]; [done|]. cbn [foldl]. rewrite IH by done. done.
Qed.
Lemma decimal_spec v : 0 <= v < 256 ->
  Forall (fun c => 48 <= c <= 57) (decimal v) /\ decimal v <> [] /\ foldl (fun v c => u32 (u32 (v * 10) + (c - 48))) 0 (decimal v) = v.
Proof.
  intros Hv. assert (forallb (fun v => forallb (fun c => (48 <=? c) && (c <=? 57)) (decimal v) && negb (bool_decide (decimal v = [])) &&
    (foldl (fun v c => u32 (u32 (v * 10) + (c - 48))) 0 (decimal v) =? v)) (seqZ 0 256) = true) as H by (vm_compute; reflexivity).
  rewrite forallb_forall in H. specialize (H v). rewrite <- list_elem_of_In, elem_of_seqZ in H. specialize (H ltac:(lia)).
  apply andb_true_iff in H as [[H1 H2]%andb_true_iff H3]. split_and!; [|by apply negb_true_iff, bool_decide_eq_false in H2|by apply Z.eqb_eq].
  rewrite forallb_forall in H1. apply Forall_forall. intros c Hc%list_elem_of_In%H1. bool_to_prop. lia.
Qed.
Lemma write_decimal v nums count has t : terminal_ready (blink t) = true -> 0 <= v < 256 ->
  terminal_write (decimal v) (in_csi t nums count 0 has) = in_csi t nums count v true.
Proof. intros Hr (H1 & H2 & H3)%decimal_spec. by rewrite write_digits, H3. Qed.
Lemma write_semicolon nums count cur has t : terminal_ready (blink t) = true -> count < 5 ->
  terminal_write [59] (in_csi t nums count cur has) = in_csi t (<[Z.to_nat count := cur]> nums) (count + 1) 0 false.
Proof.
  intros Hr Hc. unfold terminal_write. cbn [foldl]. unfold terminal_putchar. change (terminal_ready (blink (in_csi t nums count cur has))) with (terminal_ready (blink t)). rewrite Hr. cbn [negb].
  change (tty_esc_state (csi (in_csi t nums count cur has))) with TTY_ESC_IN_CSI. cbn iota. unfold put_in_csi. cbn zeta.
  change ((64 <=? 59) && (59 <=? 126)) with false. change ((48 <=? 59) && (59 <=? 57)) with false. change (59 =? 59) with true. cbn iota.
  change (csi (in_csi t nums count cur has)) with (mk_csi TTY_ESC_IN_CSI nums count cur has). unfold push_num, TTY_CSI_MAX_PARAMS. cbn [tty_csi_num_count].
  rewrite (proj2 (Z.ltb_lt count 5)) by done. by destruct t.
Qed.

Lemma write_begin t : terminal_ready (blink t) = true -> tty_esc_state (csi t) = TTY_ESC_IDLE ->
  terminal_write [27; 91] t = in_csi t (tty_csi_nums (csi t)) 0 0 false.
Proof.
  intros Hr He. unfold terminal_write. cbn [foldl]. unfold terminal_putchar at 2. rewrite Hr, He. change (27 =? 27) with true. cbn [negb].
  unfold terminal_putchar. change (terminal_ready (blink (with_csi (set_state TTY_ESC_GOT_ESC (csi t)) t))) with (terminal_ready (blink t)). rewrite Hr. by destruct t.
Qed.
Lemma write_number a b nums count has t : terminal_ready (blink t) = true -> 48 <= a <= 57 -> 48 <= b <= 57 ->
  terminal_write [a; b] (in_csi t nums count 0 has) = in_csi t nums count (u32 (u32 (u32 (u32 0 + (a - 48)) * 10) + (b - 48))) true.
Proof. intros Hr Ha Hb. rewrite write_digits; [done|done| |done]. constructor; [done|]. constructor; [done|constructor]. Qed.

(** The five numbers of a color sequence. *)
Lemma rgb_bytes c : 0 <= c < 2 ^ 24 ->
  Z.lor (Z.lor (Z.shiftl (Z.land (Z.land (Z.shiftr c 16) 0xFF) 0xFF) 16) (Z.shiftl (Z.land (Z.land (Z.shiftr c 8) 0xFF) 0xFF) 8)) (Z.land (Z.land c 0xFF) 0xFF) = c.
Proof.
  intros Hc. change 0xFF with (Z.ones 8). apply Z.bits_inj'. intros n Hn. rewrite !Z.lor_spec.
  assert (forall k, 0 <= k -> Z.testbit (Z.shiftl (Z.land (Z.land (Z.shiftr c k) (Z.ones 8)) (Z.ones 8)) k) n = (k <=? n) && (n <? k + 8) && Z.testbit c n) as Hb.
  { intros k Hk. destruct (Z.leb_spec k n) as [Hkn|Hkn]; [|by rewrite Z.shiftl_spec_low].
    rewrite Z.shiftl_spec_high, !Z.land_spec, Z.shiftr_spec, Z.testbit_ones by lia. replace (n - k + k) with n by lia.
    destruct (Z.testbit c n); destruct (Z.ltb_spec n (k + 8)); zbool; done. }
  rewrite !Hb by lia. pose proof (Hb 0 ltac:(lia)) as H0. rewrite Z.shiftl_0_r, Z.shiftr_0_r in H0. rewrite H0.
  destruct (Z.lt_ge_cases n 24) as [Hlt|Hge].
  - destruct (Z.testbit c n); destruct (Z.leb_spec 16 n), (Z.ltb_spec n 24), (Z.leb_spec 8 n), (Z.ltb_spec n 16), (Z.ltb_spec n 8); zbool; done || lia.
  - replace (Z.testbit c n) with false; [by rewrite !andb_false_r|]. symmetry. destruct (decide (c = 0)) as [->|]; [apply Z.bits_0|].
    apply Z.bits_above_log2; [lia|]. apply Z.log2_lt_pow2; [lia|]. eapply Z.lt_le_trans; [apply Hc|]. apply Z.pow_le_mono_r; lia.
Qed.

Lemma write_m nums cur t : terminal_ready (blink t) = true -> length nums = 5%nat ->
  terminal_write [109] (in_csi t nums 4 cur true) ≡
  let p := mk_csi TTY_ESC_IN_CSI (<[4%nat := cur]> nums) 5 cur true in
  let t := with_csi (set_state TTY_ESC_IDLE p) t in
  if (nth_num 0 p =? 38) && (nth_num 1 p =? 2) then terminal_setcolor (rgb p) t
  else if (nth_num 0 p =? 48) && (nth_num 1 p =? 2) then with_look (mk_look (term_color (look t)) (rgb p) (current_scale (look t))) t
  else t.
Proof.
  intros Hr Hn. unfold terminal_write. cbn [foldl]. unfold terminal_putchar. change (terminal_ready (blink (in_csi t nums 4 cur true))) with (terminal_ready (blink t)). rewrite Hr. cbn [negb].
  change (tty_esc_state (csi (in_csi t nums 4 cur true))) with TTY_ESC_IN_CSI. cbn iota. unfold put_in_csi. cbn zeta. change ((64 <=? 109) && (109 <=? 126)) with true. cbn iota.
  change (csi (in_csi t nums 4 cur true)) with (mk_csi TTY_ESC_IN_CSI nums 4 cur true). change (tty_csi_cur_has_digit _ || _) with true. cbn iota.
  set (p := mk_csi TTY_ESC_IN_CSI (<[4%nat:=cur]> nums) 5 cur true). change (push_num (mk_csi TTY_ESC_IN_CSI nums 4 cur true)) with p.
  replace (with_csi p (in_csi t nums 4 cur true)) with (with_csi p t) by by destruct t. assert (tty_csi_num_count p = 5) as En by done. clearbody p.
  assert (csi (with_csi p t) = p) as Ep by done. unfold csi_final. rewrite !Ep, En.
  change ((109 =? 74) && (5 =? 1)) with false. change (109 =? 67) with false. change (109 =? 68) with false. change (109 =? 109) with true. change (5 =? 1) with false. change (5 =? 5) with true. cbn [andb].
  destruct ((nth_num 0 p =? 38) && (nth_num 1 p =? 2)); [by destruct t|]. destruct ((nth_num 0 p =? 48) && (nth_num 1 p =? 2)); [|by destruct t].
  unfold terminal_setbackground. cbn zeta. set (b := with_look _ (with_csi p t)).
  assert ((if terminal_ready (blink b) then terminal_redraw b else b) ≡ b) as E by (case_match; [apply redraw_equiv|done]).
  match type of E with ?x ≡ _ => set (b' := x) in * end. clearbody b'. fields E. rewrite E. subst b. by destruct t.
Qed.

Lemma parse_range token c : parse_color_token token = Some c -> 0 <= c < 2 ^ 24.
Proof.
  assert (forall n i p v w k, hex_digits n i p v = Some w -> 0 <= v < 2 ^ k -> 0 <= k -> k + 4 * Z.of_nat n <= 24 -> 0 <= w < 2 ^ 24) as Hd.
  { induction n as [|n IH]; intros i p v w k; cbn [hex_digits].
    - intros [= ->] Hv Hk Hn. split; [lia|]. eapply Z.lt_le_trans; [apply Hv|]. apply Z.pow_le_mono_r; lia.
    - destruct (Z.ltb_spec (hex_nibble (char_at p i)) 0) as [?|Hnib]; [done|]. intros E Hv Hk Hn. apply (IH _ _ _ _ (k + 4) E); [|lia|lia].
      assert (hex_nibble (char_at p i) < 16) by (unfold hex_nibble in *; repeat case_match; bool_to_prop; lia).
      assert (2 ^ (k + 4) = 16 * 2 ^ k) as E4 by (rewrite Z.pow_add_r by lia; lia). assert (2 ^ (k + 4) <= 2 ^ 24) by (apply Z.pow_le_mono_r; lia).
      rewrite Z.shiftl_mul_pow2 by lia. change (2 ^ 4) with 16. rewrite u32_small by lia.
      assert (Z.land (v * 16) (hex_nibble (char_at p i)) = 0) as Hland.
      { apply Z.bits_inj'. intros m Hm. rewrite Z.land_spec, Z.bits_0. change 16 with (2 ^ 4). destruct (Z.lt_ge_cases m 4).
        - by rewrite Z.mul_pow2_bits_low.
        - replace (Z.testbit (hex_nibble _) m) with false; [by rewrite andb_false_r|]. symmetry. destruct (decide (hex_nibble (char_at p i) = 0)) as [->|]; [apply Z.bits_0|].
          apply Z.bits_above_log2; [lia|]. apply Z.log2_lt_pow2; [lia|]. apply (Z.lt_le_trans _ (2 ^ 4)); [lia|]. apply Z.pow_le_mono_r; lia. }
      rewrite <- Z.lxor_lor, <- Z.add_nocarry_lxor by done. lia. }
  unfold parse_color_token. case_match; [done|]. destruct (List.find _ color_names) as [[s v]|] eqn:E.
  - intros [= <-]. apply List.find_some in E as [Hin _]. cbn in Hin. intuition; simplify_eq; lia.
  - cbn zeta. match goal with |- context [hex_digits 6 0 ?q 0] => set (p := q) end. destruct (hex_digits 6 0 p 0) as [w|] eqn:Eh; [|done]. case_match; [done|]. intros [= <-]. by apply (Hd _ _ _ _ _ 0 Eh).
Qed.

(** C36: The color a user names is the color the kernel draws with. When the
    color program understands the name, the bytes it writes take the terminal's
    parser through one sequence that sets the text color, or the background, to
    exactly that color; the text, the cursor and the line being typed stay, and
    the parser is idle again. *)
Theorem color_roundtrip token c is_bg t :
  parse_color_token token = Some c -> terminal_ready (blink t) = true -> tty_esc_state (csi t) = TTY_ESC_IDLE -> length (tty_csi_nums (csi t)) = 5%nat ->
  let t' := terminal_write (emit_sgr is_bg c) t in
  look t' = (if is_bg then mk_look (term_color (look t)) c (current_scale (look t)) else mk_look c (term_bg (look t)) (current_scale (look t))) /\
  grid t' = grid t /\ term_cursor_x t' = term_cursor_x t /\ term_cursor_y t' = term_cursor_y t /\ line t' = line t /\ tty_esc_state (csi t') = TTY_ESC_IDLE.
Proof.
  intros Hc%parse_range Hr He Hn t'. pose proof (rgb_bytes c Hc) as Hrgb.
  set (r := Z.land (Z.shiftr c 16) 0xFF) in *. set (g := Z.land (Z.shiftr c 8) 0xFF) in *. set (b := Z.land c 0xFF) in *.
  assert (forall x, 0 <= Z.land x 0xFF < 256) as Hbyte by (intros x; change 0xFF with (Z.ones 8); rewrite Z.land_ones by lia; apply Z.mod_pos_bound; lia).
  assert (emit_sgr is_bg c = [27; 91] ++ [if is_bg then 52 else 51; 56] ++ [59] ++ [50] ++ [59] ++ decimal r ++ [59] ++ decimal g ++ [59] ++ decimal b ++ [109]) as E by done.
  assert (t' = terminal_write [109] (in_csi t (<[3%nat := g]> (<[2%nat := r]> (<[1%nat := 2]> (<[0%nat := if is_bg then 48 else 38]> (tty_csi_nums (csi t)))))) 4 b true)) as Et.
  { subst t'. rewrite E, write_app, (write_begin t Hr He), write_app, (write_number _ 56) by first [done|destruct is_bg; lia].
    rewrite write_app, write_semicolon, write_app, write_digits by first [done|repeat (constructor; [done|]); constructor]. rewrite write_app, write_semicolon by done.
    rewrite write_app, write_decimal by (done || apply Hbyte). rewrite write_app, write_semicolon by done. rewrite write_app, write_decimal by (done || apply Hbyte).
    rewrite write_app, write_semicolon by done. rewrite write_app, write_decimal by (done || apply Hbyte). by destruct is_bg. }
  clearbody t'. pose proof (write_m (<[3%nat := g]> (<[2%nat := r]> (<[1%nat := 2]> (<[0%nat := if is_bg then 48 else 38]> (tty_csi_nums (csi t)))))) b t Hr) as Em.
  rewrite !length_insert in Em. specialize (Em Hn). rewrite <- Et in Em. clearbody r g b.
  destruct (tty_csi_nums (csi t)) as [|n0 [|n1 [|n2 [|n3 [|n4 [|]]]]]]; try discriminate Hn. cbn [length] in *.
  cbn zeta in Em. set (p := mk_csi TTY_ESC_IN_CSI _ 5 b true) in Em. assert (rgb p = c) as Ec by exact Hrgb.
  assert (nth_num 0 p = if is_bg then 48 else 38) as E0 by done. assert (nth_num 1 p = 2) as E1 by done. rewrite E0, E1, Ec in Em. clearbody p.
  destruct (equiv_fields _ _ Em) as (G & X & Y & L & _ & C & N & _). rewrite G, X, Y, L, C, N. by destruct is_bg.
Qed.

(** "#102030" as a background. *)
Lemma color_roundtrip_witness :
  let t := terminal_initialize booted in
  let t' := terminal_write (emit_sgr true 0x102030) t in look t' = mk_look 0x00FF00 0x102030 1 /\ tty_esc_state (csi t') = TTY_ESC_IDLE.
Proof.
  assert (parse_color_token (bytes "#102030"%string) = Some 0x102030) as H by (vm_compute; reflexivity).
  destruct (color_roundtrip _ _ true (terminal_initialize booted) H) as (E & _ & _ & _ & _ & E'); [done|done|done|]. split; [exact E|exact E'].
Defined.
End ColorSpec.
