(* ===== verification/Log.v ===== *)
(** * The kernel log

    [Serial] is [kernel/serial.c], the port the log is copied to; [Log] is
    [kernel/log.c], the ring of the last bytes logged; [LogSpec] shows that
    reading gives the end of all that was logged. *)

From Stdlib Require Import Ascii String.
From S2P Require Import Prelude Framebuffer Tty.

Module Serial.

Definition COM1_BASE : Z := 0x3F8.
Definition COM_DATA (base : Z) : Z := base + 0.
Definition COM_INT_EN (base : Z) : Z := base + 1.
Definition COM_FIFO_CTRL (base : Z) : Z := base + 2.
Definition COM_LINE_CTRL (base : Z) : Z := base + 3.
Definition COM_MODEM_CTRL (base : Z) : Z := base + 4.
Definition COM_LINE_STAT (base : Z) : Z := base + 5.
Definition LSR_TX_EMPTY : Z := 0x20.

(** [outs] are the bytes written to ports, in order; [status] what the line
    status register gives at each read. *)
Record serial := mk_serial { g_com_base : Z; g_serial_ready : bool; outs : list (Z * Z); status : nat -> Z; reads : nat }.
Implicit Types s : serial.
Definition outb (port value : Z) s : serial := mk_serial (g_com_base s) (g_serial_ready s) (outs s ++ [(port, value)]) (status s) (reads s).
Definition inb_status s : Z * serial := (status s (reads s), mk_serial (g_com_base s) (g_serial_ready s) (outs s) (status s) (S (reads s))).

Definition serial_initialize s : serial :=
  let b := g_com_base s in
  let s := outb (COM_MODEM_CTRL b) 0x0B (outb (COM_FIFO_CTRL b) 0xC7 (outb (COM_LINE_CTRL b) 0x03 (outb (COM_INT_EN b) 0x00
             (outb (COM_DATA b) 0x03 (outb (COM_LINE_CTRL b) 0x80 (outb (COM_INT_EN b) 0x00 s)))))) in
  mk_serial (g_com_base s) true (outs s) (status s) (reads s).
Definition serial_can_transmit s : bool * serial :=
  let '(v, s) := inb_status s in (is_set v LSR_TX_EMPTY, s).
(** The wait for the transmitter; [None]: not within [fuel] reads. *)
Fixpoint wait_transmit (fuel : nat) s : option serial :=
  match fuel with
  | O => None
  | S fuel => let '(ok, s) := serial_can_transmit s in if ok then Some s else wait_transmit fuel s
  end.
Definition serial_write_char (fuel : nat) (c : Z) s : option serial :=
  if negb (g_serial_ready s) then Some s
  else match wait_transmit fuel s with Some s => Some (outb (COM_DATA (g_com_base s)) c s) | None => None end.
Fixpoint write_bytes (fuel : nat) (l : list Z) s : option serial :=
  match l with
  | [] => Some s
  | c :: l =>
      match (if c =? 10 then serial_write_char fuel 13 s else Some s) with
      | None => None
      | Some s => match serial_write_char fuel c s with None => None | Some s => write_bytes fuel l s end
      end
  end.
Definition serial_write_buf (fuel : nat) (l : list Z) s : option serial :=
  if negb (g_serial_ready s) then Some s else write_bytes fuel l s.
End Serial.

Module Log.
Import Tty Serial.

Definition KLOG_BUF_SZ : Z := 4096.
Record klog_state := mk_log { buf : list Z; head : Z; terminal : tty; port : serial }.
Implicit Types k : klog_state.

Definition bytes (s : string) : list Z := map (fun a => Z.of_N (N_of_ascii a)) (list_ascii_of_string s).
(** Both arguments are the text before the null byte. *)
Fixpoint starts_with (s prefix : list Z) : bool :=
  match prefix, s with
  | [], _ => true
  | p :: prefix, c :: s => (c =? p) && starts_with s prefix
  | _ :: _, [] => false
  end.
Definition suppress_terminal_echo (s : list Z) : bool :=
  starts_with s (bytes "ata:"%string) || starts_with s (bytes "mbr:"%string) || starts_with s (bytes "minfs:"%string) || starts_with s (bytes "storage:"%string).

Definition klog_init k : klog_state := mk_log (buf k) 0 (terminal k) (port k).
(** [buf[head % KLOG_BUF_SZ] = c; head++;] *)
Definition log_byte k (c : Z) : klog_state :=
  mk_log (<[Z.to_nat (head k mod KLOG_BUF_SZ) := c]> (buf k)) (u32 (head k + 1)) (terminal k) (port k).
(** [None]: the serial port never gets ready. *)
Definition klog (fuel : nat) (s : list Z) k : option klog_state :=
  let k := log_byte (foldl log_byte k s) 10 in
  let t := if negb (suppress_terminal_echo s) then terminal_write [10] (terminal_write s (terminal k)) else terminal k in
  match serial_write_buf fuel s (port k) with
  | None => None
  | Some p =>
      match serial_write_buf fuel [10] p with
      | None => None
      | Some p => Some (mk_log (buf k) (head k) t p)
      end
  end.
(** The bytes copied to [out]; the result is their number. [null] says that
    [out] is a null pointer. *)
Definition klog_read (null : bool) (out_len : Z) k : list Z :=
  if null || (out_len =? 0) then []
  else
    let end_ := head k in
    let window := if KLOG_BUF_SZ <? end_ then KLOG_BUF_SZ else end_ in
    let start := end_ - window in
    let count := if window <? out_len then window else out_len in
    map (fun i => buf k !!! Z.to_nat (u32 (start + i) mod KLOG_BUF_SZ)) (seqZ 0 count).
Definition klog_clear k : klog_state := mk_log (buf k) 0 (terminal k) (port k).
End Log.

Module LogSpec.
Import Tty Serial Log.

(** The ring holds the end of [stream]. *)
Record holds (k : klog_state) (stream : list Z) : Prop := {
  ho_size : length (buf k) = 4096%nat;
  ho_head : head k = Z.of_nat (length stream);
  ho_bytes : forall i, (length stream - 4096 <= i < length stream)%nat -> buf k !!! (i mod 4096)%nat = stream !!! i
}.
Lemma holds_byte k stream c : holds k stream -> Z.of_nat (length stream) + 1 < 2 ^ 32 -> holds (log_byte k c) (stream ++ [c]).
Proof.
  intros [Hs Hh Hb] Hlt. unfold log_byte, KLOG_BUF_SZ. rewrite Hh. change 4096 with (Z.of_nat 4096). rewrite <- Nat2Z.inj_mod, Nat2Z.id.
  assert (forall i, (i mod 4096 < 4096)%nat) as Hm by (intros; by apply Nat.mod_upper_bound). split.
  - cbn [buf]. by rewrite length_insert.
  - cbn [head]. rewrite length_app, u32_small by lia. cbn [length]. lia.
  - intros i Hi. rewrite length_app in Hi. cbn [length] in Hi. cbn [buf]. destruct (decide (i = length stream)) as [->|Hne].
    + rewrite list_lookup_total_insert_eq by (rewrite Hs; apply Hm). by rewrite lookup_total_app_r, Nat.sub_diag by done.
    + rewrite list_lookup_total_insert_ne.
      * rewrite lookup_total_app_l by lia. apply Hb. lia.
      * intros E. pose proof (Nat.div_mod_eq i 4096). pose proof (Nat.div_mod_eq (length stream) 4096). nia.
Qed.
Lemma holds_bytes k stream s : holds k stream -> Z.of_nat (length stream + length s) < 2 ^ 32 -> holds (foldl log_byte k s) (stream ++ s).
Proof.
  revert k stream. induction s as [|c s IH]; intros k stream H Hlt; [by rewrite app_nil_r|]. cbn [foldl length] in *.
  rewrite (cons_middle c stream s), app_assoc. apply IH; [apply holds_byte; [done|lia]|]. rewrite length_app. cbn [length]. lia.
Qed.
Lemma holds_klog fuel s k k' stream : holds k stream -> Z.of_nat (length stream + length s) + 1 < 2 ^ 32 -> klog fuel s k = Some k' -> holds k' (stream ++ s ++ [10]).
Proof.
  intros H Hlt. unfold klog. cbn zeta. assert (holds (log_byte (foldl log_byte k s) 10) (stream ++ s ++ [10])) as [H1 H2 H3].
  { rewrite app_assoc. apply (holds_byte _ (stream ++ s)); [apply holds_bytes; [done|lia]|rewrite length_app; lia]. }
  destruct (serial_write_buf fuel s _); [|done]. destruct (serial_write_buf fuel [10] _); [|done]. by intros [= <-].
Qed.

(** A sequence of log messages. *)
Fixpoint klog_all (fuel : nat) (ms : list (list Z)) k : option klog_state :=
  match ms with
  | [] => Some k
  | m :: ms => match klog fuel m k with Some k => klog_all fuel ms k | None => None end
  end.
Definition stream_of (ms : list (list Z)) : list Z := concat (map (fun m => m ++ [10]) ms).
Lemma holds_all fuel ms k k' stream : holds k stream -> Z.of_nat (length (stream ++ stream_of ms)) < 2 ^ 32 -> klog_all fuel ms k = Some k' -> holds k' (stream ++ stream_of ms).
Proof.
  revert k stream. induction ms as [|m ms IH]; intros k stream H Hlt; cbn [klog_all]; [intros [= <-]; by rewrite app_nil_r|].
  destruct (klog fuel m k) as [k1|] eqn:E; [|done]. intros Ek. unfold stream_of in *. cbn [map concat] in Hlt |- *. rewrite app_assoc in Hlt |- *. apply (IH k1); [|done|done].
  apply (holds_klog fuel m k k1); [done| |done]. rewrite !length_app in Hlt. cbn [length] in Hlt. lia.
Qed.

(** C39: The log keeps the end of what was logged. After any messages, less than
    4 GiB of them, reading gives the oldest bytes, as many as asked for, of the
    last 4096 bytes of all messages, each followed by a newline. *)
Theorem klog_read_tail fuel ms k k' n :
  length (buf k) = 4096%nat -> klog_all fuel ms (klog_init k) = Some k' -> Z.of_nat (length (stream_of ms)) < 2 ^ 32 -> 0 <= n ->
  klog_read false n k' = take (Z.to_nat n) (drop (length (stream_of ms) - 4096) (stream_of ms)).
Proof.
  intros Hb Ek Hlt Hn. assert (holds (klog_init k) []) as H0 by (split; [done|done|cbn; lia]).
  destruct (holds_all fuel ms _ k' [] H0 Hlt Ek) as [Hs Hh Hby]. cbn [app] in *. set (l := stream_of ms) in *. clearbody l. unfold klog_read. cbn [orb].
  destruct (Z.eqb_spec n 0) as [->|Hn0]; [by rewrite take_0|]. cbn zeta. rewrite Hh. unfold KLOG_BUF_SZ.
  set (w := if 4096 <? Z.of_nat (length l) then 4096 else Z.of_nat (length l)). assert (w = Z.of_nat (length l - (length l - 4096))) as Hw by (subst w; case_match; bool_to_prop; lia). clearbody w.
  set (c := if w <? n then w else n). assert (c = Z.min w n) as Hc by (subst c; case_match; bool_to_prop; lia). clearbody c.
  apply list_eq. intros i. rewrite (list_lookup_fmap _ (seqZ 0 c)).
  destruct (decide (Z.of_nat i < c)) as [Hi|Hi].
  - rewrite lookup_seqZ_lt by lia. rewrite lookup_take_lt by lia. rewrite lookup_drop. cbn [fmap option_fmap option_map].
    rewrite u32_small by lia. replace (Z.of_nat (length l) - w + (0 + Z.of_nat i)) with (Z.of_nat (length l - 4096 + i)) by lia.
    change 4096 with (Z.of_nat 4096). rewrite <- Nat2Z.inj_mod, Nat2Z.id. rewrite Hby by lia. symmetry. apply list_lookup_lookup_total_lt. lia.
  - rewrite lookup_seqZ_ge by lia. cbn. symmetry. destruct (decide (i < Z.to_nat n)%nat); [|by apply lookup_take_ge; lia].
    rewrite lookup_take_lt, lookup_drop by done. apply lookup_ge_None. lia.
Qed.

(** Two messages; the port is always ready. *)
Definition idle_port : serial := mk_serial COM1_BASE true [] (fun _ => 0x60) 0.
Lemma klog_read_tail_witness :
  exists k', klog_all 1 [bytes "ata: up"%string; bytes "hi"%string] (klog_init (mk_log (replicate 4096 0) 0 tty0 idle_port)) = Some k' /\
    klog_read false 9 k' = bytes "ata: up"%string ++ [10; 104].
Proof.
  destruct (klog_all 1 [bytes "ata: up"%string; bytes "hi"%string] (klog_init (mk_log (replicate 4096 0) 0 tty0 idle_port))) as [k'|] eqn:E.
  - exists k'. split; [done|]. rewrite (klog_read_tail 1 _ (mk_log (replicate 4096 0) 0 tty0 idle_port) k' 9 ltac:(vm_compute; reflexivity) E ltac:(vm_compute; reflexivity) ltac:(discriminate)). vm_compute. reflexivity.
  - exfalso. vm_compute in E. discriminate E.
Defined.
End LogSpec.
