(* ===== verification/Devices.v ===== *)
(** * Interrupts and input devices

    [Devices] has the interrupt controller ([kernel/pic.c]), the table of
    handlers ([kernel/irq.c]), the timer ([kernel/pit.c]), the keyboard
    ([kernel/keyboard.c]) and the mouse ([kernel/mouse.c]), as operations on one
    [machine]: an interrupt runs its handler and what the handler calls in the
    terminal, the scheduler, the log and the random pool. *)

From Stdlib Require Import String.
From S2P Require Import Prelude Framebuffer Tty Log Random Task.

Module Devices.
Import Framebuffer Tty.

(** The ports and the time-stamp counter of the processor. *)
Class Ports (W : Type) := {
  inb : Z -> W -> Z * W;
  outb : Z -> Z -> W -> W;
  tsc : W -> Z * W
}.

(** ** State *)

Definition KEYBOARD_BUFFER_SIZE : Z := 256.
Record keyboard := mk_keyboard {
  keyboard_buffer : list Z;
  kb_buffer_start : Z;
  kb_buffer_end : Z;
  shift_pressed : bool;
  ctrl_pressed : bool;
  alt_pressed : bool;
  altgr_pressed : bool;
  e0_prefix : bool;
  keyboard_initialized : bool
}.

Definition MOUSE_CURSOR_W : Z := 8.
Definition MOUSE_CURSOR_H : Z := 8.
Definition MOUSE_CURSOR_COLOR : Z := 0x00FFFFFF.
Record mouse_state_t := mk_mouse_state {
  ms_x : Z;
  ms_y : Z;
  dx_total : Z;
  dy_total : Z;
  buttons : Z;
  x_overflow : Z;
  y_overflow : Z;
  packet_count : Z;
  left_clicks : Z;
  right_clicks : Z;
  middle_clicks : Z
}.
Record mouse := mk_mouse {
  g_mouse : mouse_state_t;
  g_packet : list Z;
  g_packet_index : Z;
  g_mouse_ready : Z;
  g_prev_buttons : Z;
  g_cursor_saved : list Z;
  g_cursor_visible : bool;
  g_cursor_x : Z;
  g_cursor_y : Z
}.

Record pit := mk_pit { pit_ticks : Z; pit_frequency_hz : Z }.

(** What [irq_handlers] can hold; [h_other] is the handler of another driver. *)
Inductive irq_handler_t := h_none | h_pit | h_keyboard | h_mouse | h_other (n : Z).

Record machine (F W : Type) := mk_machine {
  kbd : keyboard;
  mse : mouse;
  timer : pit;
  irq_handlers : list irq_handler_t;
  klogs : Log.klog_state;
  tasks : Task.kernel F;
  pool : Random.rng;
  hw : W
}.
#[global] Arguments mk_machine {F W}.
#[global] Arguments kbd {F W}.
#[global] Arguments mse {F W}.
#[global] Arguments timer {F W}.
#[global] Arguments irq_handlers {F W}.
#[global] Arguments klogs {F W}.
#[global] Arguments tasks {F W}.
#[global] Arguments pool {F W}.
#[global] Arguments hw {F W}.

Section devices.
Context {F W : Type} {EF : Task.Env F} {PW : Ports W}.
(** The handlers of the other drivers, and how often the log waits for the
    serial port. *)
Context (other : Z -> machine F W -> machine F W) (log_fuel : nat).
Notation machine := (machine F W).
Implicit Types m : machine.

Definition with_kbd k m : machine := mk_machine k (mse m) (timer m) (irq_handlers m) (klogs m) (tasks m) (pool m) (hw m).
Definition with_mse s m : machine := mk_machine (kbd m) s (timer m) (irq_handlers m) (klogs m) (tasks m) (pool m) (hw m).
Definition with_timer t m : machine := mk_machine (kbd m) (mse m) t (irq_handlers m) (klogs m) (tasks m) (pool m) (hw m).
Definition with_handlers h m : machine := mk_machine (kbd m) (mse m) (timer m) h (klogs m) (tasks m) (pool m) (hw m).
Definition with_klogs l m : machine := mk_machine (kbd m) (mse m) (timer m) (irq_handlers m) l (tasks m) (pool m) (hw m).
Definition with_tasks k m : machine := mk_machine (kbd m) (mse m) (timer m) (irq_handlers m) (klogs m) k (pool m) (hw m).
Definition with_pool r w m : machine := mk_machine (kbd m) (mse m) (timer m) (irq_handlers m) (klogs m) (tasks m) r w.
Definition with_hw w m : machine := mk_machine (kbd m) (mse m) (timer m) (irq_handlers m) (klogs m) (tasks m) (pool m) w.

Definition term m : tty := Log.terminal (klogs m).
Definition with_term t m : machine := with_klogs (Log.mk_log (Log.buf (klogs m)) (Log.head (klogs m)) t (Log.port (klogs m))) m.
Definition screen_of m : screen := fb (term m).
Definition with_screen s m : machine := with_term (with_fb s (term m)) m.

Definition in_b (port : Z) m : Z * machine := let '(v, w) := inb port (hw m) in (u8 v, with_hw w m).
Definition out_b (port v : Z) m : machine := with_hw (outb port (u8 v) (hw m)) m.
(** [io_wait] writes to an unused port. *)
Definition io_wait m : machine := out_b 0x80 0 m.
Definition out_wait (port v : Z) m : machine := io_wait (out_b port v m).
Definition add_entropy (data : option (list Z)) (bits : Z) m : machine :=
  let '(r, w) := Random.random_add_entropy tsc data bits (pool m) (hw m) in with_pool r w m.
(** [None]: the serial port never gets ready. *)
Definition log_message (s : list Z) m : option machine :=
  match Log.klog log_fuel s (klogs m) with Some l => Some (with_klogs l m) | None => None end.

(** ** The interrupt controller *)

Definition PIC1_CMD : Z := 0x20.
Definition PIC1_DATA : Z := 0x21.
Definition PIC2_CMD : Z := 0xA0.
Definition PIC2_DATA : Z := 0xA1.
Definition ICW1_INIT : Z := 0x10.
Definition ICW1_ICW4 : Z := 0x01.
Definition ICW4_8086 : Z := 0x01.
Definition PIC_EOI : Z := 0x20.

Definition pic_remap (off1 off2 : Z) m : machine :=
  let '(m1, m) := in_b PIC1_DATA m in
  let '(m2, m) := in_b PIC2_DATA m in
  let m := out_wait PIC2_CMD (Z.lor ICW1_INIT ICW1_ICW4) (out_wait PIC1_CMD (Z.lor ICW1_INIT ICW1_ICW4) m) in
  let m := out_wait PIC2_DATA off2 (out_wait PIC1_DATA off1 m) in
  let m := out_wait PIC2_DATA 0x02 (out_wait PIC1_DATA 0x04 m) in
  let m := out_wait PIC2_DATA ICW4_8086 (out_wait PIC1_DATA ICW4_8086 m) in
  out_wait PIC2_DATA m2 (out_wait PIC1_DATA m1 m).
Definition pic_init m : machine :=
  let m := pic_remap 0x20 0x28 m in
  let m := out_wait PIC2_DATA 0xFF (out_wait PIC1_DATA 0xFF m) in
  let '(m1, m) := in_b PIC1_DATA m in
  out_b PIC1_DATA (Z.land (Z.land m1 (Z.lnot (Z.shiftl 1 0))) (Z.lnot (Z.shiftl 1 1))) m.
(** The mask port of a line and its bit there. *)
Definition mask_port (irq : Z) : Z * Z := if irq <? 8 then (PIC1_DATA, irq) else (PIC2_DATA, irq - 8).
Definition pic_mask_irq (irq : Z) m : machine :=
  let '(port, n) := mask_port irq in
  let '(v, m) := in_b port m in out_b port (Z.lor v (Z.shiftl 1 n)) m.
Definition pic_unmask_irq (irq : Z) m : machine :=
  let '(port, n) := mask_port irq in
  let '(v, m) := in_b port m in out_b port (Z.land v (Z.lnot (Z.shiftl 1 n))) m.
Definition pic_eoi (irq : Z) m : machine :=
  let m := if 8 <=? irq then out_b PIC2_CMD PIC_EOI m else m in out_b PIC1_CMD PIC_EOI m.

Definition irq_install_handler (irq : Z) (handler : irq_handler_t) m : machine :=
  if irq <? 16 then
    let m := with_handlers (<[Z.to_nat irq := handler]> (irq_handlers m)) m in
    let m := if 8 <=? irq then pic_unmask_irq 2 m else m in
    pic_unmask_irq irq m
  else m.

(** ** The timer *)

Definition PIT_FREQUENCY : Z := 1193182.
Definition PIT_CHANNEL0 : Z := 0x40.
Definition PIT_COMMAND : Z := 0x43.
Definition PIT_CHANNEL0_SELECT : Z := 0x00.
Definition PIT_ACCESS_LOHI : Z := 0x30.
Definition PIT_MODE_SQUARE_WAVE : Z := 0x06.
Definition PIT_BINARY_MODE : Z := 0x00.

Definition pit_irq_handler m : machine :=
  let ticks := u64 (pit_ticks (timer m) + 1) in
  let m := with_timer (mk_pit ticks (pit_frequency_hz (timer m))) m in
  let m := if Z.land ticks 0x3F =? 0 then add_entropy None 0 m else m in
  let m := with_term (terminal_cursor_blink_tick (term m)) m in
  let m := pic_eoi 0 m in
  with_tasks (Task.scheduler_tick (tasks m)) m.
(** [None]: a division by zero. *)
Definition pit_initialize (frequency : Z) m : option machine :=
  let m := with_timer (mk_pit (pit_ticks (timer m)) frequency) m in
  let m := irq_install_handler 0 h_pit m in
  if frequency =? 0 then None
  else
    let divisor := PIT_FREQUENCY / frequency in
    let divisor := if divisor <? 1 then 1 else divisor in
    let divisor := if 65535 <? divisor then 65535 else divisor in
    let m := out_b PIT_COMMAND (Z.lor (Z.lor (Z.lor PIT_CHANNEL0_SELECT PIT_ACCESS_LOHI) PIT_MODE_SQUARE_WAVE) PIT_BINARY_MODE) m in
    let m := out_wait PIT_CHANNEL0 (Z.land divisor 0xFF) m in
    Some (out_wait PIT_CHANNEL0 (Z.land (Z.shiftr divisor 8) 0xFF) m).
Definition pit_get_ticks m : Z := pit_ticks (timer m).
Definition pit_get_uptime_ms m : Z :=
  if pit_frequency_hz (timer m) =? 0 then 0 else u64 (pit_ticks (timer m) * 1000) / pit_frequency_hz (timer m).
(** The polling loop; [arrive] is the interrupt that ends each [hlt]. *)
Fixpoint poll_ticks (fuel : nat) (arrive : nat -> machine -> machine) (start wait : Z) m : option machine :=
  match fuel with
  | O => None
  | S n => if u64 (pit_ticks (timer m) - start) <? wait then poll_ticks n arrive start wait (arrive n m) else Some m
  end.
Definition pit_sleep (fuel : nat) (arrive : nat -> machine -> machine) (milliseconds : Z) m : option machine :=
  let hz := pit_frequency_hz (timer m) in
  if hz =? 0 then Some m
  else
    let wait := u64 (u64 (milliseconds * hz) + 999) / 1000 in
    let wait := if wait =? 0 then 1 else wait in
    if 0 <? Task.task_current_id (tasks m) then Some (with_tasks (Task.task_sleep_ticks wait (tasks m)) m)
    else poll_ticks fuel arrive (pit_ticks (timer m)) wait m.

(** ** The keyboard *)

Definition pad_map (l : list Z) : list Z := l ++ replicate (128 - length l) 0.
Definition dk_map : list Z := pad_map
  [0; 27; 49; 50; 51; 52; 53; 54; 55; 56; 57; 48; 43; 0; 8; 9; 113; 119; 101; 114; 116; 121; 117; 105; 111; 112; 134; 94; 10; 0; 97; 115; 100; 102; 103;
   104; 106; 107; 108; 145; 155; 96; 0; 60; 122; 120; 99; 118; 98; 110; 109; 44; 46; 45; 0; 42; 0; 32].
Definition dk_shift_map : list Z := pad_map
  [0; 27; 33; 34; 35; 164; 37; 38; 47; 40; 41; 61; 63; 96; 8; 9; 81; 87; 69; 82; 84; 89; 85; 73; 79; 80; 143; 249; 10; 0; 65; 83; 68; 70; 71; 72; 74; 75;
   76; 146; 157; 126; 0; 62; 90; 88; 67; 86; 66; 78; 77; 59; 58; 95; 0; 42; 0; 32].
Definition dk_altgr_map : list Z := pad_map
  [0; 0; 0; 64; 156; 36; 0; 0; 123; 91; 93; 125; 92; 124; 0; 0; 0; 0; 0; 0; 0; 0; 0; 0; 0; 0; 0; 0; 0; 0; 0; 0; 0; 0; 0; 0; 0; 0; 0; 0; 0; 0; 0; 0; 92; 0;
   0; 0; 0; 0; 0; 0; 0; 0; 0; 0; 42].

Definition set_shift (v : bool) (k : keyboard) : keyboard :=
  mk_keyboard (keyboard_buffer k) (kb_buffer_start k) (kb_buffer_end k) v (ctrl_pressed k) (alt_pressed k) (altgr_pressed k) (e0_prefix k) (keyboard_initialized k).
Definition set_ctrl (v : bool) (k : keyboard) : keyboard :=
  mk_keyboard (keyboard_buffer k) (kb_buffer_start k) (kb_buffer_end k) (shift_pressed k) v (alt_pressed k) (altgr_pressed k) (e0_prefix k) (keyboard_initialized k).
Definition set_alt (v : bool) (k : keyboard) : keyboard :=
  mk_keyboard (keyboard_buffer k) (kb_buffer_start k) (kb_buffer_end k) (shift_pressed k) (ctrl_pressed k) v (altgr_pressed k) (e0_prefix k) (keyboard_initialized k).
Definition set_altgr (v : bool) (k : keyboard) : keyboard :=
  mk_keyboard (keyboard_buffer k) (kb_buffer_start k) (kb_buffer_end k) (shift_pressed k) (ctrl_pressed k) (alt_pressed k) v (e0_prefix k) (keyboard_initialized k).
Definition set_e0 (v : bool) (k : keyboard) : keyboard :=
  mk_keyboard (keyboard_buffer k) (kb_buffer_start k) (kb_buffer_end k) (shift_pressed k) (ctrl_pressed k) (alt_pressed k) (altgr_pressed k) v (keyboard_initialized k).

(** The queue by itself: [None] when it is full. *)
Definition enqueue (c : Z) (k : keyboard) : option keyboard :=
  let next_end := u32 (kb_buffer_end k + 1) mod KEYBOARD_BUFFER_SIZE in
  if next_end =? kb_buffer_start k then None
  else Some (mk_keyboard (<[Z.to_nat (kb_buffer_end k) := c]> (keyboard_buffer k)) (kb_buffer_start k) next_end
               (shift_pressed k) (ctrl_pressed k) (alt_pressed k) (altgr_pressed k) (e0_prefix k) (keyboard_initialized k)).
Definition keyboard_buffer_enqueue (c : Z) m : machine :=
  match enqueue c (kbd m) with
  | None => m
  | Some k => with_tasks (Task.task_wake_keyboard_waiters (tasks m)) (with_kbd k m)
  end.
Definition keyboard_buffer_enqueue_str (s : list Z) m : machine := foldl (fun m c => keyboard_buffer_enqueue c m) m s.

(** The character of a key: [code] with the modifiers held. *)
Definition key_char (code : Z) (k : keyboard) : Z :=
  let n := Z.to_nat code in
  let c := if code =? 86 then (if altgr_pressed k then 124 else if shift_pressed k then 62 else 60)
           else if altgr_pressed k && negb ((dk_altgr_map !!! n) =? 0) then dk_altgr_map !!! n
           else if shift_pressed k then dk_shift_map !!! n
           else dk_map !!! n in
  if ctrl_pressed k && (97 <=? c) && (c <=? 122) then c - 97 + 1 else c.
(** Codes after the prefix 0xE0 that are no modifiers. *)
Definition extended_key (code : Z) : list Z :=
  if code =? 0x48 then [27; 91; 65]
  else if code =? 0x50 then [27; 91; 66]
  else if code =? 0x4D then [27; 91; 67]
  else if code =? 0x4B then [27; 91; 68]
  else if code =? 0x53 then [27; 91; 51; 126]
  else [].

(** The handler from the scancode on, and whether it returns: a signal that
    ends the running task does not. *)
Definition on_scancode (scancode : Z) m : bool * machine :=
  let k := kbd m in
  if scancode =? 0xE0 then (true, with_kbd (set_e0 true k) m)
  else
    let release := is_set scancode 0x80 in
    let code := Z.land scancode 0x7F in
    if release then
      if e0_prefix k && (code =? 0x38) then (true, with_kbd (set_e0 false (set_altgr false k)) m)
      else
        let k := if (code =? 0x2A) || (code =? 0x36) then set_shift false k
                 else if code =? 0x1D then set_ctrl false k
                 else if code =? 0x38 then set_alt false k
                 else k in
        (true, with_kbd (set_e0 false k) m)
    else if e0_prefix k && (code =? 0x38) then (true, with_kbd (set_e0 false (set_altgr true k)) m)
    else if (code =? 0x2A) || (code =? 0x36) then (true, with_kbd (set_e0 false (set_shift true k)) m)
    else if code =? 0x1D then (true, with_kbd (set_e0 false (set_ctrl true k)) m)
    else if code =? 0x38 then (true, with_kbd (set_e0 false (set_alt true k)) m)
    else if e0_prefix k then
      let m := keyboard_buffer_enqueue_str (extended_key code) m in (true, with_kbd (set_e0 false (kbd m)) m)
    else
      let m := with_kbd (set_e0 false k) m in
      if ctrl_pressed k && (code =? 0x2E) then
        let fg_pgid := terminal_get_foreground_pgid (term m) in
        let '(returned, m) := if 0 <? fg_pgid then let '(r, t) := Task.signal_send_pgid fg_pgid Task.KSIGINT (tasks m) in (r, with_tasks t m) else (Some 0, m) in
        match returned with None => (false, m) | Some _ => (true, keyboard_buffer_enqueue 3 m) end
      else
        let c := key_char code k in
        (true, if c =? 0 then m else keyboard_buffer_enqueue c m).
Definition keyboard_irq_handler m : bool * machine :=
  let '(scancode, m) := in_b 0x60 m in
  on_scancode scancode (add_entropy (Some [scancode]) 1 m).

Definition keyboard_initialize m : machine :=
  let k := kbd m in
  let m := with_kbd (mk_keyboard (keyboard_buffer k) 0 0 false false false (altgr_pressed k) (e0_prefix k) (keyboard_initialized k)) m in
  let m := irq_install_handler 1 h_keyboard m in
  let k := kbd m in
  with_kbd (mk_keyboard (keyboard_buffer k) (kb_buffer_start k) (kb_buffer_end k) (shift_pressed k) (ctrl_pressed k) (alt_pressed k) (altgr_pressed k) (e0_prefix k) true) m.
Definition dequeue (k : keyboard) : Z * keyboard :=
  if kb_buffer_start k =? kb_buffer_end k then (0, k)
  else (keyboard_buffer k !!! Z.to_nat (kb_buffer_start k),
        mk_keyboard (keyboard_buffer k) (u32 (kb_buffer_start k + 1) mod KEYBOARD_BUFFER_SIZE) (kb_buffer_end k)
          (shift_pressed k) (ctrl_pressed k) (alt_pressed k) (altgr_pressed k) (e0_prefix k) (keyboard_initialized k)).
Definition keyboard_getchar m : Z * machine := let '(c, k) := dequeue (kbd m) in (c, with_kbd k m).
Definition keyboard_data_available m : bool := negb (kb_buffer_start (kbd m) =? kb_buffer_end (kbd m)).

(** ** The mouse *)

Definition PS2_DATA_PORT : Z := 0x60.
Definition PS2_STATUS_PORT : Z := 0x64.
Definition PS2_CMD_PORT : Z := 0x64.
Definition PS2_STATUS_OUT_FULL : Z := 0x01.
Definition PS2_STATUS_IN_FULL : Z := 0x02.
Definition PS2_STATUS_AUX_DATA : Z := 0x20.

Definition i8 (x : Z) : Z := (x + 128) mod 256 - 128.

Definition set_cursor (saved : list Z) (visible : bool) (x y : Z) (s : mouse) : mouse :=
  mk_mouse (g_mouse s) (g_packet s) (g_packet_index s) (g_mouse_ready s) (g_prev_buttons s) saved visible x y.
Definition set_packet (packet : list Z) (index : Z) (s : mouse) : mouse :=
  mk_mouse (g_mouse s) packet index (g_mouse_ready s) (g_prev_buttons s) (g_cursor_saved s) (g_cursor_visible s) (g_cursor_x s) (g_cursor_y s).
Definition set_state (g : mouse_state_t) (prev : Z) (s : mouse) : mouse :=
  mk_mouse g (g_packet s) (g_packet_index s) (g_mouse_ready s) prev (g_cursor_saved s) (g_cursor_visible s) (g_cursor_x s) (g_cursor_y s).

(** The cells of the cursor, row by row. *)
Definition cursor_cells : list (Z * Z) := y ← seqZ 0 MOUSE_CURSOR_H; x ← seqZ 0 MOUSE_CURSOR_W; [(x, y)].
Definition cell_index (c : Z * Z) : nat := Z.to_nat (c.2 * MOUSE_CURSOR_W + c.1).
Definition cursor_mask (x y : Z) : bool := (x =? 0) || (y =? 0) || ((x =? y) && (x <? 8)).

(** One cell of [mouse_restore_cursor] and of [mouse_draw_cursor]. *)
Definition restore_cell (x y : Z) (saved : list Z) (f : screen) (c : Z * Z) : screen :=
  let px := u32 (x + c.1) in
  let py := u32 (y + c.2) in
  if (px <? framebuffer_width f) && (py <? framebuffer_height f) then framebuffer_putpixel px py (saved !!! cell_index c) f else f.
Definition draw_cell (x y : Z) (a : list Z * screen) (c : Z * Z) : list Z * screen :=
  let '(saved, f) := a in
  let sx := u32 (x + c.1) in
  let sy := u32 (y + c.2) in
  if (sx <? framebuffer_width f) && (sy <? framebuffer_height f) then
    let saved := <[cell_index c := framebuffer_getpixel sx sy f]> saved in
    (saved, if cursor_mask c.1 c.2 then framebuffer_putpixel sx sy MOUSE_CURSOR_COLOR f else f)
  else (<[cell_index c := 0]> saved, f).

Definition mouse_restore_cursor m : machine :=
  let s := mse m in
  if negb (g_cursor_visible s) then m
  else
    let m := with_screen (foldl (restore_cell (g_cursor_x s) (g_cursor_y s) (g_cursor_saved s)) (screen_of m) cursor_cells) m in
    with_mse (set_cursor (g_cursor_saved s) false (g_cursor_x s) (g_cursor_y s) s) m.
Definition mouse_draw_cursor (x y : Z) m : machine :=
  let s := mse m in
  let '(saved, f) := foldl (draw_cell x y) (g_cursor_saved s, screen_of m) cursor_cells in
  with_mse (set_cursor saved true x y s) (with_screen f m).

(** Polls the status port for [mask] to be set, or clear. *)
Fixpoint ps2_wait (n : nat) (mask : Z) (want : bool) m : bool * machine :=
  match n with
  | O => (false, m)
  | S n => let '(v, m) := in_b PS2_STATUS_PORT m in if Bool.eqb (is_set v mask) want then (true, m) else ps2_wait n mask want m
  end.
Definition PS2_TRIES : nat := Z.to_nat 100000.
Definition ps2_wait_write_ready m : bool * machine := ps2_wait PS2_TRIES PS2_STATUS_IN_FULL false m.
Definition ps2_wait_read_ready m : bool * machine := ps2_wait PS2_TRIES PS2_STATUS_OUT_FULL true m.
Definition ps2_write_controller (cmd : Z) m : bool * machine :=
  let '(ok, m) := ps2_wait_write_ready m in
  if negb ok then (false, m) else (true, out_b PS2_CMD_PORT cmd m).
Definition ps2_write_mouse (value : Z) m : bool * machine :=
  let '(ok, m) := ps2_write_controller 0xD4 m in
  if negb ok then (false, m)
  else
    let '(ok, m) := ps2_wait_write_ready m in
    if negb ok then (false, m) else (true, out_b PS2_DATA_PORT value m).
(** The byte read, or [None] for the result 0. *)
Definition ps2_read_data m : option Z * machine :=
  let '(ok, m) := ps2_wait_read_ready m in
  if negb ok then (None, m) else let '(v, m) := in_b PS2_DATA_PORT m in (Some v, m).
Definition mouse_send_cmd_expect_ack (cmd : Z) m : bool * machine :=
  let '(ok, m) := ps2_write_mouse cmd m in
  if negb ok then (false, m)
  else let '(v, m) := ps2_read_data m in (match v with Some resp => resp =? 0xFA | None => false end, m).

(** The packet of three bytes applied to the position and the counters. *)
Definition clamp_position (v max : Z) : Z := let v := if v <? 0 then 0 else v in if max <? v then max else v.
Definition largest (size cursor : Z) : Z := if cursor <? size then i32 (size - cursor) else 0.
Definition click (bit newly count : Z) : Z := if is_set newly bit then u32 (count + 1) else count.
Definition apply_packet (packet : list Z) (prev max_x max_y : Z) (g : mouse_state_t) : mouse_state_t :=
  let dx := i8 (packet !!! 1%nat) in
  let dy := i8 (packet !!! 2%nat) in
  let now := Z.land (packet !!! 0%nat) 0x07 in
  let newly := Z.land now (u8 (Z.lnot prev)) in
  mk_mouse_state (clamp_position (i32 (ms_x g + dx)) max_x) (clamp_position (i32 (ms_y g - dy)) max_y) (i32 (dx_total g + dx)) (i32 (dy_total g + dy))
    now (Z.land (Z.shiftr (packet !!! 0%nat) 6) 0x01) (Z.land (Z.shiftr (packet !!! 0%nat) 7) 0x01) (u32 (packet_count g + 1))
    (click 0x01 newly (left_clicks g)) (click 0x02 newly (right_clicks g)) (click 0x04 newly (middle_clicks g)).

Definition mouse_data (data : Z) m : machine :=
  let s := mse m in
  if (g_packet_index s =? 0) && negb (is_set data 0x08) then m
  else
    let packet := <[Z.to_nat (g_packet_index s) := data]> (g_packet s) in
    let index := g_packet_index s + 1 in
    if index <? 3 then with_mse (set_packet packet index s) m
    else
      let max_x := largest (framebuffer_width (screen_of m)) MOUSE_CURSOR_W in
      let max_y := largest (framebuffer_height (screen_of m)) MOUSE_CURSOR_H in
      let g := apply_packet packet (g_prev_buttons s) max_x max_y (g_mouse s) in
      let m := with_mse (set_state g (buttons g) (set_packet packet 0 s)) m in
      mouse_draw_cursor (ms_x g) (ms_y g) (mouse_restore_cursor m).
Definition mouse_irq_handler m : machine :=
  let '(status, m) := in_b PS2_STATUS_PORT m in
  if negb (is_set status PS2_STATUS_OUT_FULL) then m
  else if negb (is_set status PS2_STATUS_AUX_DATA) then m
  else
    let '(data, m) := in_b PS2_DATA_PORT m in
    mouse_data data (add_entropy (Some [data]) 1 m).

(** The loop that asks for the defaults until the mouse answers; [None]: not
    within [fuel] turns. *)
Fixpoint set_defaults (fuel : nat) (retries : Z) m : option machine :=
  match fuel with
  | O => None
  | S fuel =>
      let '(ok, m) := mouse_send_cmd_expect_ack 0xF6 m in
      if ok then Some m
      else
        match (if (retries =? 0) || (u32 (retries + 1) mod 1000 =? 0) then log_message (Log.bytes "mouse: set defaults failed, retrying"%string) m else Some m) with
        | None => None
        | Some m => set_defaults fuel (u32 (retries + 1)) m
        end
  end.
Definition mouse_initialize (fuel : nat) m : option machine :=
  let s := mse m in
  let m := with_mse (mk_mouse (mk_mouse_state 0 0 0 0 0 0 0 0 0 0 0) (g_packet s) 0 0 0 (g_cursor_saved s) false (g_cursor_x s) (g_cursor_y s)) m in
  let '(ok, m) := ps2_write_controller 0xA8 m in
  if negb ok then log_message (Log.bytes "mouse: enable aux port failed"%string) m
  else
    let '(ok, m) := ps2_write_controller 0x20 m in
    if negb ok then log_message (Log.bytes "mouse: read controller config failed"%string) m
    else
      let '(config, m) := ps2_read_data m in
      match config with
      | None => log_message (Log.bytes "mouse: read config byte failed"%string) m
      | Some config =>
          let config := Z.land (Z.lor config 0x02) (u8 (Z.lnot 0x20)) in
          let '(ok, m) := ps2_write_controller 0x60 m in
          let '(ok, m) := (if negb ok then (false, m) else ps2_wait_write_ready m) in
          if negb ok then log_message (Log.bytes "mouse: write controller config failed"%string) m
          else
            match set_defaults fuel 0 (out_b PS2_DATA_PORT config m) with
            | None => None
            | Some m =>
                let '(ok, m) := mouse_send_cmd_expect_ack 0xF4 m in
                if negb ok then log_message (Log.bytes "mouse: enable data reporting failed"%string) m
                else
                  let m := irq_install_handler 12 h_mouse m in
                  let s := mse m in
                  let m := with_mse (mk_mouse (g_mouse s) (g_packet s) (g_packet_index s) 1 (g_prev_buttons s) (g_cursor_saved s) (g_cursor_visible s) (g_cursor_x s) (g_cursor_y s)) m in
                  Some (mouse_draw_cursor 0 0 m)
            end
      end.
Definition mouse_is_ready m : Z := g_mouse_ready (mse m).
Definition mouse_get_state m : mouse_state_t := g_mouse (mse m).
Definition mouse_reset_counters m : machine :=
  let s := mse m in
  let g := g_mouse s in
  with_mse (set_state (mk_mouse_state (ms_x g) (ms_y g) 0 0 (buttons g) (x_overflow g) (y_overflow g) 0 0 0 0) (g_prev_buttons s) s) m.

(** ** Dispatch *)

(** A handler, and whether it returns; [None]: the log's port never gets
    ready. *)
Definition run_handler (h : irq_handler_t) m : option (bool * machine) :=
  match h with
  | h_none => option_map (pair true) (log_message (Log.bytes "irq: unhandled"%string) m)
  | h_pit => Some (true, pit_irq_handler m)
  | h_keyboard => Some (keyboard_irq_handler m)
  | h_mouse => Some (true, mouse_irq_handler m)
  | h_other n => Some (true, other n m)
  end.
Definition handler_of (irq : Z) m : irq_handler_t := if irq <? 16 then default h_none (irq_handlers m !! Z.to_nat irq) else h_none.
(** A handler that does not return is not acknowledged here. *)
Definition irq_dispatch (irq : Z) m : option machine :=
  match run_handler (handler_of irq m) m with
  | None => None
  | Some (returned, m) => Some (if returned then pic_eoi irq m else m)
  end.
(** [task_yield] is the timer's vector raised by the program. *)
Definition yield m : option machine := irq_dispatch 0 m.
End devices.
End Devices.
