(* ===== verification/DevicesSpec.v ===== *)
(** * Properties of the input devices

    The keyboard's buffer as a queue, typing a text and reading it back, the
    mouse pointer over the screen, and the timer. *)

From Stdlib Require Import String.
From S2P Require Import Prelude Framebuffer Tty Log Random Task TaskSpec Ring Devices.

Module DevicesSpec.
Import Framebuffer FramebufferFacts Tty Devices Ring.
#[local] Abbreviation zlen l := (Z.of_nat (length l)).

(** ** The keyboard's buffer is a queue *)

(** The buffer as a ring that is never quite full. *)
Definition ring_of (k : keyboard) : ring Z :=
  mk_ring (keyboard_buffer k) (kb_buffer_start k) (kb_buffer_end k) ((kb_buffer_end k - kb_buffer_start k) mod 256).
Definition queued (k : keyboard) : list Z := ring_list 256 (ring_of k).
Record kb_ok (k : keyboard) : Prop := {
  kb_size : length (keyboard_buffer k) = 256%nat;
  kb_start : 0 <= kb_buffer_start k < 256;
  kb_end : 0 <= kb_buffer_end k < 256
}.
(** The modifiers and the prefix. *)
Definition held (k : keyboard) : bool * bool * bool * bool * bool := (shift_pressed k, ctrl_pressed k, alt_pressed k, altgr_pressed k, e0_prefix k).

Lemma ring_of_ok k : kb_ok k -> ring_ok 256 (ring_of k).
Proof.
  intros [H1 H2 H3]. split; cbn [ring_of slots head tail count]; [lia|done|zlia|]. rewrite Zplus_mod_idemp_r.
  replace (kb_buffer_start k + (kb_buffer_end k - kb_buffer_start k)) with (kb_buffer_end k) by lia. by rewrite Z.mod_small.
Qed.
Lemma queued_length k : kb_ok k -> zlen (queued k) = (kb_buffer_end k - kb_buffer_start k) mod 256.
Proof. intros H. apply (ring_list_length 256 (ring_of k)), ring_of_ok; done. Qed.

Lemma enqueue_spec c k : kb_ok k ->
  (if zlen (queued k) <? 255 then exists k', enqueue c k = Some k' /\ kb_ok k' /\ queued k' = queued k ++ [c] /\ held k' = held k else enqueue c k = None).
Proof.
  intros Hk. pose proof (ring_of_ok k Hk) as Hr. pose proof (queued_length k Hk) as Hl. destruct Hk as [H1 H2 H3].
  unfold enqueue, KEYBOARD_BUFFER_SIZE. rewrite (u32_small (kb_buffer_end k + 1)) by lia.
  destruct (Z.ltb_spec (zlen (queued k)) 255) as [Hlt|Hge].
  - rewrite (proj2 (Z.eqb_neq _ (kb_buffer_start k))) by zlia. eexists. split; [reflexivity|].
    destruct (ring_push_spec 256 ltac:(lia) c (ring_of k) Hr) as (r' & E & Hr' & El); [cbn [ring_of count]; lia|].
    unfold ring_push in E. rewrite (proj2 (Z.leb_gt 256 _)) in E by (cbn [ring_of count]; lia). injection E as <-.
    split_and!; [split; cbn; [by rewrite length_insert|done|zlia]| |done]. unfold queued at 2. rewrite <- El. unfold queued, ring_of, ring_list, slot_at. cbn [slots head tail count keyboard_buffer kb_buffer_start kb_buffer_end].
    rewrite (u32_small (_ + 1)) by zlia. do 3 f_equal. zlia.
  - rewrite (proj2 (Z.eqb_eq _ (kb_buffer_start k))) by zlia. done.
Qed.
Lemma dequeue_spec k : kb_ok k ->
  match queued k with
  | [] => dequeue k = (0, k)
  | c :: l => exists k', dequeue k = (c, k') /\ kb_ok k' /\ queued k' = l /\ held k' = held k
  end.
Proof.
  intros Hk. pose proof (ring_of_ok k Hk) as Hr. pose proof (queued_length k Hk) as Hl. destruct Hk as [H1 H2 H3].
  unfold dequeue. destruct (queued k) as [|c l] eqn:Eq.
  - rewrite (proj2 (Z.eqb_eq (kb_buffer_start k) _)); [done|]. change (zlen (@nil Z)) with 0 in Hl. zlia.
  - cbn [length] in Hl. rewrite (proj2 (Z.eqb_neq (kb_buffer_start k) _)) by (intros E; rewrite E, Z.sub_diag in Hl; change (0 mod 256) with 0 in Hl; lia).
    destruct (ring_pop_spec 256 ltac:(lia) (ring_of k) c l Hr Eq) as (r' & E & Hr' & El). unfold ring_pop in E.
    rewrite (proj2 (Z.eqb_neq _ 0)) in E by (cbn [ring_of count]; lia). injection E as Ec <-. unfold slot_at in Ec. cbn [ring_of slots head] in Ec.
    eexists. split; [by rewrite <- Ec|]. unfold KEYBOARD_BUFFER_SIZE. rewrite (u32_small (kb_buffer_start k + 1)) by lia.
    split_and!; [split; cbn; [done|zlia|done]| |done]. rewrite <- El. unfold queued, ring_of, ring_list, slot_at. cbn [slots head tail count keyboard_buffer kb_buffer_start kb_buffer_end].
    rewrite (u32_small (kb_buffer_start k + 1)) by lia. do 3 f_equal. zlia.
Qed.

(** ** Typing *)

Section typing.
Context {F W : Type} {EF : Task.Env F} {PW : Ports W}.
Implicit Types m : machine F W.

(** Codes of keys that are no modifiers. *)
Definition plain (n : Z) : bool := (0 <? n) && (n <? 0x60) && negb ((n =? 0x2A) || (n =? 0x36) || (n =? 0x1D) || (n =? 0x38)).
Definition key_of (layout : list Z) (c : Z) : option Z := List.find (fun n => plain n && (layout !!! Z.to_nat n =? c)) (seqZ 1 85).
(** The scancodes of the keys that type a character: alone, with shift, or
    with the right alt key. *)
Definition chord (c : Z) : option (list Z) :=
  if c =? 0 then None
  else
    match key_of dk_map c with
    | Some n => Some [n; n + 128]
    | None =>
        match key_of dk_shift_map c with
        | Some n => Some [0x2A; n; n + 128; 0xAA]
        | None =>
            match key_of dk_altgr_map c with
            | Some n => Some [0xE0; 0x38; n; n + 128; 0xE0; 0xB8]
            | None => None
            end
        end
    end.
Definition type_codes (l : list Z) m : machine F W := foldl (fun m s => (on_scancode s m).2) m l.
Definition no_modifier : bool * bool * bool * bool * bool := (false, false, false, false, false).

Lemma code_bits n : 0 <= n < 128 -> Z.land n 0x7F = n /\ is_set n 0x80 = false /\ Z.land (n + 128) 0x7F = n /\ is_set (n + 128) 0x80 = true.
Proof.
  intros Hn. assert (forallb (fun n => (Z.land n 0x7F =? n) && negb (is_set n 0x80) && (Z.land (n + 128) 0x7F =? n) && is_set (n + 128) 0x80) (seqZ 0 128) = true) as H by (vm_compute; reflexivity).
  rewrite forallb_forall in H. specialize (H n). rewrite <- list_elem_of_In, elem_of_seqZ in H. specialize (H ltac:(lia)).
  apply andb_true_iff in H as [[[H1 H2]%andb_true_iff H3]%andb_true_iff H4]. split_and!; [by apply Z.eqb_eq|by apply negb_true_iff|by apply Z.eqb_eq|done].
Qed.
Lemma plain_spec n : plain n = true -> 0 < n < 0x60 /\ (n =? 0x2A) = false /\ (n =? 0x36) = false /\ (n =? 0x1D) = false /\ (n =? 0x38) = false.
Proof.
  unfold plain. intros [[H1%Z.ltb_lt H2%Z.ltb_lt]%andb_true_iff H3%negb_true_iff]%andb_true_iff.
  destruct (n =? 0x2A), (n =? 0x36), (n =? 0x1D), (n =? 0x38); try done.
Qed.
Lemma kbd_enqueue c m : kb_ok (kbd m) -> zlen (queued (kbd m)) < 255 ->
  let m' := keyboard_buffer_enqueue c m in kb_ok (kbd m') /\ queued (kbd m') = queued (kbd m) ++ [c] /\ held (kbd m') = held (kbd m).
Proof.
  intros Hk Hl. pose proof (enqueue_spec c _ Hk) as Hs. rewrite (proj2 (Z.ltb_lt _ 255)) in Hs by done. destruct Hs as (k' & E & Hk' & Hq & Hh).
  unfold keyboard_buffer_enqueue. rewrite E. cbn. done.
Qed.
Lemma set_e0_ok v k : kb_ok k -> kb_ok (set_e0 v k) /\ queued (set_e0 v k) = queued k.
Proof. by intros []. Qed.

Lemma release_key n m : plain n = true -> e0_prefix (kbd m) = false -> on_scancode (n + 128) m = (true, with_kbd (set_e0 false (kbd m)) m).
Proof.
  intros Hp He. destruct (plain_spec n Hp) as (Hn & E1 & E2 & E3 & E4). destruct (code_bits n ltac:(lia)) as (_ & _ & B3 & B4). assert ((n + 128 =? 0xE0) = false) as E0 by lia.
  unfold on_scancode. rewrite E0. cbn zeta. rewrite B3, B4, E1, E2, E3, E4, He. done.
Qed.

(** A key pressed and released. *)
Lemma type_key n s a m : plain n = true -> held (kbd m) = (s, false, false, a, false) -> kb_ok (kbd m) -> zlen (queued (kbd m)) < 255 -> key_char n (kbd m) <> 0 ->
  let m' := type_codes [n; n + 128] m in kb_ok (kbd m') /\ queued (kbd m') = queued (kbd m) ++ [key_char n (kbd m)] /\ held (kbd m') = (s, false, false, a, false).
Proof.
  intros Hp Hh Hk Hl Hc. destruct (plain_spec n Hp) as (Hn & E1 & E2 & E3 & E4). destruct (code_bits n ltac:(lia)) as (B1 & B2 & B3 & B4). pose proof Hh as Hh0. unfold held in Hh. injection Hh as Hs Hct Ha Hg He.
  assert (on_scancode n m = (true, keyboard_buffer_enqueue (key_char n (kbd m)) (with_kbd (set_e0 false (kbd m)) m))) as Ed.
  { unfold on_scancode. rewrite (proj2 (Z.eqb_neq n 0xE0)) by lia. cbn zeta. rewrite B1, B2, E1, E2, E3, E4, He, Hct. cbn [orb andb]. by rewrite (proj2 (Z.eqb_neq _ 0)). }
  destruct (kbd_enqueue (key_char n (kbd m)) (with_kbd (set_e0 false (kbd m)) m)) as (K1 & K2 & K3); [by apply set_e0_ok|exact Hl|].
  unfold type_codes. cbn [foldl]. rewrite Ed. cbn [snd]. set (m1 := keyboard_buffer_enqueue _ _) in *. clearbody m1. change (queued (kbd (with_kbd (set_e0 false (kbd m)) m))) with (queued (kbd m)) in K2.
  assert (held (kbd m1) = (s, false, false, a, false)) as Hh1. { rewrite K3. unfold held. cbn. by rewrite Hs, Hct, Ha, Hg. }
  unfold held in Hh1. injection Hh1 as Hs1 Hct1 Ha1 Hg1 He1. rewrite (release_key n m1 Hp He1). cbn [snd kbd with_kbd].
  destruct (set_e0_ok false _ K1) as [Q1 Q2]. rewrite Q2. split_and!; [done|done|]. unfold held. cbn. by rewrite Hs1, Hct1, Ha1, Hg1.
Qed.
Lemma type_app a b m : type_codes (a ++ b) m = type_codes b (type_codes a m).
Proof. apply foldl_app. Qed.
Lemma key_of_spec layout c n : key_of layout c = Some n -> plain n = true /\ layout !!! Z.to_nat n = c /\ n < 86.
Proof.
  unfold key_of. intros [Hin [Hp Hc%Z.eqb_eq]%andb_true_iff]%List.find_some. apply list_elem_of_In, elem_of_seqZ in Hin. split_and!; [done|done|lia].
Qed.
Lemma key_char_plain n s a k : held k = (s, false, false, a, false) -> n < 86 ->
  key_char n k = if a && negb ((dk_altgr_map !!! Z.to_nat n) =? 0) then dk_altgr_map !!! Z.to_nat n else if s then dk_shift_map !!! Z.to_nat n else dk_map !!! Z.to_nat n.
Proof.
  intros Hh Hn. unfold held in Hh. injection Hh as Hs Hct Ha Hg He. unfold key_char. rewrite (proj2 (Z.eqb_neq n 86)) by lia. rewrite Hct, Hg, Hs. cbn [andb]. by case_match.
Qed.
(** The keys of one character. *)
Lemma type_char c l m : chord c = Some l -> held (kbd m) = no_modifier -> kb_ok (kbd m) -> zlen (queued (kbd m)) < 255 ->
  let m' := type_codes l m in kb_ok (kbd m') /\ queued (kbd m') = queued (kbd m) ++ [c] /\ held (kbd m') = no_modifier.
Proof.
  intros Hl Hh Hk Hq. unfold chord in Hl. destruct (Z.eqb_spec c 0) as [|Hc0]; [done|]. unfold no_modifier in *.
  destruct (key_of dk_map c) as [n|] eqn:E1; [|destruct (key_of dk_shift_map c) as [n|] eqn:E2; [|destruct (key_of dk_altgr_map c) as [n|] eqn:E3; [|done]]]; injection Hl as <-.
  - apply key_of_spec in E1 as (Hp & Hc & Hn). pose proof (key_char_plain n _ _ _ Hh Hn) as Ek. cbn [andb] in Ek. rewrite Hc in Ek.
    destruct (type_key n false false m Hp Hh Hk Hq) as (T1 & T2 & T3); [by rewrite Ek|]. rewrite Ek in T2. done.
  - apply key_of_spec in E2 as (Hp & Hc & Hn). change [0x2A; n; n + 128; 0xAA] with ([0x2A] ++ [n; n + 128] ++ [0xAA]). rewrite !type_app.
    set (m1 := type_codes [0x2A] m). assert (kbd m1 = set_e0 false (set_shift true (kbd m))) as Em1.
    { unfold held in Hh. injection Hh as Hs Hct Ha Hg He. subst m1. unfold type_codes. cbn [foldl]. unfold on_scancode. cbn -[kbd with_kbd]. by rewrite He. }
    assert (held (kbd m1) = (true, false, false, false, false)) as Hh1. { rewrite Em1. unfold held in *. cbn. injection Hh as Hs Hct Ha Hg He. by rewrite ?Hs, ?Hct, ?Ha, ?Hg, ?He. }
    assert (kb_ok (kbd m1) /\ queued (kbd m1) = queued (kbd m)) as [Hk1 Hq1] by (rewrite Em1; split; [by destruct Hk|done]). clearbody m1. rewrite <- Hq1 in Hq |- *.
    pose proof (key_char_plain n _ _ _ Hh1 Hn) as Ek. cbn [andb] in Ek. rewrite Hc in Ek.
    destruct (type_key n true false m1 Hp Hh1 Hk1 Hq) as (T1 & T2 & T3); [by rewrite Ek|]. rewrite Ek in T2. set (m2 := type_codes [n; n + 128] m1) in *. clearbody m2.
    assert (kbd (type_codes [0xAA] m2) = set_e0 false (set_shift false (kbd m2))) as ->.
    { unfold held in T3. injection T3 as Hs Hct Ha Hg He. unfold type_codes. cbn [foldl]. unfold on_scancode. cbn -[kbd with_kbd]. by rewrite He. }
    split_and!; [by destruct T1|done|]. unfold held in *. cbn. injection T3 as Hs Hct Ha Hg He. by rewrite ?Hs, ?Hct, ?Ha, ?Hg, ?He.
  - apply key_of_spec in E3 as (Hp & Hc & Hn). change [0xE0; 0x38; n; n + 128; 0xE0; 0xB8] with ([0xE0; 0x38] ++ [n; n + 128] ++ [0xE0; 0xB8]). rewrite !type_app.
    set (m1 := type_codes [0xE0; 0x38] m). assert (kbd m1 = set_e0 false (set_altgr true (set_e0 true (kbd m)))) as Em1 by done.
    assert (held (kbd m1) = (false, false, false, true, false)) as Hh1. { rewrite Em1. unfold held in *. cbn. injection Hh as Hs Hct Ha Hg He. by rewrite ?Hs, ?Hct, ?Ha, ?Hg, ?He. }
    assert (kb_ok (kbd m1) /\ queued (kbd m1) = queued (kbd m)) as [Hk1 Hq1] by (rewrite Em1; split; [by destruct Hk|done]). clearbody m1. rewrite <- Hq1 in Hq |- *.
    pose proof (key_char_plain n _ _ _ Hh1 Hn) as Ek. cbn [andb] in Ek. rewrite Hc in Ek. rewrite (proj2 (Z.eqb_neq c 0)) in Ek by done. cbn [negb] in Ek.
    destruct (type_key n false true m1 Hp Hh1 Hk1 Hq) as (T1 & T2 & T3); [by rewrite Ek|]. rewrite Ek in T2. set (m2 := type_codes [n; n + 128] m1) in *. clearbody m2.
    assert (kbd (type_codes [0xE0; 0xB8] m2) = set_e0 false (set_altgr false (set_e0 true (kbd m2)))) as -> by done.
    split_and!; [by destruct T1|done|]. unfold held in *. cbn. injection T3 as Hs Hct Ha Hg He. by rewrite ?Hs, ?Hct, ?Ha, ?Hg, ?He.
Qed.

(** Everything taken out of the buffer. *)
Fixpoint read_keys (n : nat) m : list Z * machine F W :=
  match n with
  | O => ([], m)
  | S n => if keyboard_data_available m then let '(c, m) := keyboard_getchar m in let '(l, m) := read_keys n m in (c :: l, m) else ([], m)
  end.
Lemma read_all n m : kb_ok (kbd m) -> (length (queued (kbd m)) <= n)%nat -> let '(l, m') := read_keys n m in l = queued (kbd m) /\ queued (kbd m') = [].
Proof.
  revert m. induction n as [|n IH]; intros m Hk Hn; cbn [read_keys].
  - assert (queued (kbd m) = []) as -> by (apply nil_length_inv; lia). done.
  - pose proof (queued_length _ Hk) as Hl. pose proof (dequeue_spec _ Hk) as Hd. unfold keyboard_data_available. destruct (queued (kbd m)) as [|c l] eqn:Eq.
    + change (zlen (@nil Z)) with 0 in Hl. destruct Hk. rewrite (proj2 (Z.eqb_eq _ (kb_buffer_end (kbd m)))) by zlia. done.
    + destruct Hd as (k' & Ed & Hk' & Hq' & _). rewrite (proj2 (Z.eqb_neq _ (kb_buffer_end (kbd m)))).
      * cbn [negb]. unfold keyboard_getchar. rewrite Ed. specialize (IH (with_kbd k' m) Hk'). cbn [kbd with_kbd] in IH. rewrite Hq' in IH. cbn [length] in Hn.
        destruct (read_keys n (with_kbd k' m)) as [l' m']. destruct IH as [-> IH]; [lia|]. done.
      * intros E. cbn [length] in Hl. rewrite E, Z.sub_diag in Hl. change (0 mod 256) with 0 in Hl. lia.
Qed.

(** C37: What is typed is what is read. On an empty buffer with no modifier
    held, the scancodes of the keys of a text of at most 255 characters the
    layout has, with shift or the right alt key where they need it, leave the
    modifiers released and put exactly the text into the buffer, from where it
    is read in order. *)
Theorem typed_text text codes m n :
  Forall2 (fun c l => chord c = Some l) text codes -> zlen text <= 255 -> (length text <= n)%nat ->
  kb_ok (kbd m) -> queued (kbd m) = [] -> held (kbd m) = no_modifier ->
  let m' := type_codes (concat codes) m in held (kbd m') = no_modifier /\ (read_keys n m').1 = text.
Proof.
  intros Ht Hlen Hn Hk Hq Hh m'. assert (kb_ok (kbd m') /\ queued (kbd m') = queued (kbd m) ++ text /\ held (kbd m') = no_modifier) as (K & Q & Hh').
  { subst m'. assert (zlen (queued (kbd m)) + zlen text <= 255) as Hsum by (rewrite Hq; done). clear Hlen Hn Hq. revert m Hk Hh Hsum.
    induction Ht as [|c l text codes Hc Ht IH]; intros m Hk Hh Hsum; [by rewrite app_nil_r|]. cbn [concat length] in *. rewrite type_app.
    destruct (type_char c l m Hc Hh Hk ltac:(lia)) as (T1 & T2 & T3). destruct (IH _ T1 T3) as (I1 & I2 & I3); [rewrite T2, length_app; cbn [length]; lia|].
    split_and!; [done|rewrite I2, T2, <- app_assoc; done|done]. }
  split; [done|]. rewrite Hq in Q. cbn [app] in Q. pose proof (read_all n m' K ltac:(rewrite Q; done)) as Hr. destruct (read_keys n m') as [l m2]. destruct Hr as [-> _]. by rewrite Q.
Qed.
End typing.

(** The apostrophe is on no key: whatever the modifiers, no code gives it. *)
Example no_apostrophe code k : 0 <= code < 128 -> key_char code k <> 39.
Proof.
  intros Hc. assert (forallb (fun n => negb (dk_map !!! Z.to_nat n =? 39) && negb (dk_shift_map !!! Z.to_nat n =? 39) && negb (dk_altgr_map !!! Z.to_nat n =? 39)) (seqZ 0 128) = true) as H by (vm_compute; reflexivity).
  rewrite forallb_forall in H. specialize (H code). rewrite <- list_elem_of_In, elem_of_seqZ in H. specialize (H ltac:(lia)).
  apply andb_true_iff in H as [[H1%negb_true_iff H2%negb_true_iff]%andb_true_iff H3%negb_true_iff]. apply Z.eqb_neq in H1, H2, H3. unfold key_char. cbn zeta.
  set (c := if code =? 86 then _ else _). assert (c <> 39) as Hne by (subst c; repeat case_match; done). clearbody c. case_match; [|done]. bool_to_prop. lia.
Qed.

(** ** The pointer over the screen *)

Definition same_geometry (f f' : screen) : Prop := g_fb f' = g_fb f /\ g_pitch f' = g_pitch f /\ g_width f' = g_width f /\ g_height f' = g_height f.
Definition on_screen (f : screen) (q : Z * Z) : Prop := 0 <= q.1 < g_width f /\ 0 <= q.2 < g_height f.
Definition pixel (f : screen) (q : Z * Z) : Z := framebuffer_getpixel q.1 q.2 f.
(** A screen that can be drawn on. *)
Definition usable (f : screen) : Prop := screen_ok f /\ g_fb f <> 0.

#[local] Instance geometry_pre : PreOrder same_geometry.
Proof. split; [intros f; unfold same_geometry; done|]. unfold same_geometry. intros f g h (? & ? & ? & ?) (? & ? & ? & ?). split_and!; congruence. Qed.
Lemma usable_geometry f f' : same_geometry f f' -> usable f -> usable f'.
Proof. intros (E1 & E2 & E3 & E4) [[] Hf]. split; [split|]; rewrite ?E1, ?E2, ?E3, ?E4; done. Qed.
Lemma on_screen_geometry f f' q : same_geometry f f' -> on_screen f' q <-> on_screen f q.
Proof. intros (E1 & E2 & E3 & E4). unfold on_screen. by rewrite E3, E4. Qed.
Lemma put_geometry x y v f : same_geometry f (framebuffer_putpixel x y v f).
Proof. unfold framebuffer_putpixel. by case_match. Qed.
Lemma pixel_put f p q v : usable f -> on_screen f p -> on_screen f q -> pixel (framebuffer_putpixel p.1 p.2 v f) q = if decide (q = p) then v else pixel f q.
Proof.
  intros [Hs Hf] Hp Hq. destruct p as [px py], q as [qx qy]. unfold on_screen in *. cbn [fst snd] in *. unfold pixel, framebuffer_putpixel, framebuffer_getpixel. cbn [fst snd].
  assert (forall f', g_fb f' = g_fb f -> g_width f' = g_width f -> g_height f' = g_height f -> (g_fb f' =? 0) || (g_width f' <=? qx) || (g_height f' <=? qy) = false) as Hin.
  { intros f' E1 E2 E3. rewrite E1, E2, E3. rewrite (proj2 (Z.eqb_neq _ 0)) by done. by zbool. }
  rewrite (Hin f) by done. rewrite (proj2 (Z.eqb_neq (g_fb f) 0)) by done. rewrite (proj2 (Z.leb_gt _ px)), (proj2 (Z.leb_gt _ py)) by lia. cbn [orb]. rewrite !Hin by done. unfold get_word, put_word. cbn [words].
  match goal with |- context [pixel_index qx qy (mk_screen ?a ?b ?c ?d ?e)] => change (pixel_index qx qy (mk_screen a b c d e)) with (pixel_index qx qy f) end. case_decide as E.
  - injection E as -> ->. by rewrite lookup_insert_eq.
  - rewrite lookup_insert_ne; [done|]. intros Ei. apply E. destruct Hp, Hq. apply (pixel_index_inj f) in Ei as [-> ->]; done.
Qed.

Definition position (x y : Z) (c : Z * Z) : Z * Z := (u32 (x + c.1), u32 (y + c.2)).
Lemma position_on_screen x y c f : on_screen f (position x y c) <-> (u32 (x + c.1) <? framebuffer_width f) && (u32 (y + c.2) <? framebuffer_height f) = true.
Proof.
  unfold on_screen, framebuffer_width, framebuffer_height. cbn [position fst snd]. pose proof (u32_range (x + c.1)). pose proof (u32_range (y + c.2)).
  rewrite andb_true_iff, !Z.ltb_lt. lia.
Qed.

Lemma draw_spec x y cells saved f : usable f -> NoDup (map cell_index cells) -> NoDup (map (position x y) cells) -> Forall (fun c => (cell_index c < length saved)%nat) cells ->
  let '(saved', f') := foldl (draw_cell x y) (saved, f) cells in
  same_geometry f f' /\ length saved' = length saved /\
  (forall c, c ∈ cells -> on_screen f (position x y c) -> saved' !!! cell_index c = pixel f (position x y c)) /\
  (forall i, i ∉ map cell_index cells -> saved' !!! i = saved !!! i) /\
  (forall q, on_screen f q -> q ∉ map (position x y) cells -> pixel f' q = pixel f q).
Proof.
  revert saved f. induction cells as [|c cells IH]; intros saved f Hf Hi Hp Hlen; [cbn [foldl]; split_and!; [done|done|by intros ? ?%elem_of_nil|done|done]|].
  cbn [map] in Hi, Hp. apply NoDup_cons in Hi as [Hic Hi]. apply NoDup_cons in Hp as [Hpc Hp]. apply Forall_cons in Hlen as [Hlc Hlen]. cbn [foldl].
  assert (exists v f1, draw_cell x y (saved, f) c = (<[cell_index c := v]> saved, f1) /\ same_geometry f f1 /\ (on_screen f (position x y c) -> v = pixel f (position x y c)) /\
    (forall q, on_screen f q -> q <> position x y c -> pixel f1 q = pixel f q)) as (v & f1 & -> & G1 & Hv & Hq1).
  { unfold draw_cell. cbn zeta. destruct ((_ <? _) && _) eqn:E.
    - apply position_on_screen in E. eexists _, _. split; [reflexivity|]. split_and!; [case_match; [apply put_geometry|done]|done|]. intros q Hq Hne.
      case_match; [|done]. change (u32 (x + c.1)) with (position x y c).1. change (u32 (y + c.2)) with (position x y c).2. rewrite pixel_put by done. by rewrite decide_False.
    - eexists _, _. split; [reflexivity|]. split_and!; [done| |done]. intros H%position_on_screen. congruence. }
  specialize (IH (<[cell_index c := v]> saved) f1 (usable_geometry _ _ G1 Hf) Hi Hp). destruct (foldl (draw_cell x y) _ cells) as [saved' f'].
  destruct IH as (G2 & L & IH1 & IH2 & IH3); [eapply Forall_impl; [exact Hlen|]; intros; by rewrite length_insert|]. rewrite length_insert in L.
  split_and!; [by etrans|done| | |].
  - intros c' [->|Hc']%elem_of_cons Hon.
    + rewrite IH2 by done. rewrite list_lookup_total_insert_eq by done. by apply Hv.
    + rewrite IH1 by (done || by apply (on_screen_geometry f)). apply Hq1; [done|]. intros E. apply Hpc. rewrite <- E. by apply list_elem_of_In, in_map, list_elem_of_In.
  - intros i Hni. apply not_elem_of_cons in Hni as [Hni1 Hni2]. rewrite IH2 by done. by rewrite list_lookup_total_insert_ne.
  - intros q Hq Hnq. apply not_elem_of_cons in Hnq as [Hnq1 Hnq2]. rewrite IH3 by (done || by apply (on_screen_geometry f)). by apply Hq1.
Qed.
Lemma restore_spec x y cells saved f : usable f -> NoDup (map (position x y) cells) ->
  let f' := foldl (restore_cell x y saved) f cells in
  same_geometry f f' /\ (forall c, c ∈ cells -> on_screen f (position x y c) -> pixel f' (position x y c) = saved !!! cell_index c) /\
  (forall q, on_screen f q -> q ∉ map (position x y) cells -> pixel f' q = pixel f q).
Proof.
  revert f. induction cells as [|c cells IH]; intros f Hf Hp; [cbn; split_and!; [done|by intros ? ?%elem_of_nil|done]|].
  cbn [map] in Hp. apply NoDup_cons in Hp as [Hpc Hp]. cbn [foldl]. set (f1 := restore_cell x y saved f c).
  assert (same_geometry f f1 /\ (on_screen f (position x y c) -> pixel f1 (position x y c) = saved !!! cell_index c) /\ (forall q, on_screen f q -> q <> position x y c -> pixel f1 q = pixel f q)) as (G1 & H1 & H2).
  { subst f1. unfold restore_cell. cbn zeta. destruct ((_ <? _) && _) eqn:E.
    - apply position_on_screen in E. change (u32 (x + c.1)) with (position x y c).1. change (u32 (y + c.2)) with (position x y c).2. split_and!; [apply put_geometry| |].
      + intros _. rewrite pixel_put by done. by rewrite decide_True.
      + intros q Hq Hne. rewrite pixel_put by done. by rewrite decide_False.
    - split_and!; [done| |done]. intros H%position_on_screen. congruence. }
  clearbody f1. destruct (IH f1 (usable_geometry _ _ G1 Hf) Hp) as (G2 & IH1 & IH2). split_and!; [by etrans| |].
  - intros c' [->|Hc']%elem_of_cons Hon; [|apply IH1; [done|by apply (on_screen_geometry f)]]. rewrite IH2; [by apply H1|by apply (on_screen_geometry f)|done].
  - intros q Hq Hnq. apply not_elem_of_cons in Hnq as [Hnq1 Hnq2]. rewrite IH2 by (done || by apply (on_screen_geometry f)). by apply H2.
Qed.

Lemma cells_range c : c ∈ cursor_cells -> 0 <= c.1 < 8 /\ 0 <= c.2 < 8.
Proof.
  intros Hc%list_elem_of_In. assert (forallb (fun c => (0 <=? c.1) && (c.1 <? 8) && (0 <=? c.2) && (c.2 <? 8)) cursor_cells = true) as H by (vm_compute; reflexivity).
  rewrite forallb_forall in H. apply H in Hc. bool_to_prop. lia.
Qed.
Lemma cells_index : NoDup (map cell_index cursor_cells) /\ Forall (fun c => (cell_index c < 64)%nat) cursor_cells.
Proof. split; [apply (bool_decide_unpack _); by vm_compute|]. apply (bool_decide_unpack _). by vm_compute. Qed.
Lemma cells_position x y : NoDup (map (position x y) cursor_cells).
Proof.
  change (map (position x y) cursor_cells) with (position x y <$> cursor_cells). apply NoDup_fmap_2_strong; [|apply (bool_decide_unpack _); by vm_compute].
  intros [a b] [a' b'] H1%cells_range H2%cells_range. cbn [fst snd] in *. unfold position, u32. cbn [fst snd]. intros [= Ea Eb]. f_equal; zlia.
Qed.

Section pointer.
Context {F W : Type} {EF : Task.Env F} {PW : Ports W}.
Implicit Types m : machine F W.

(** The screen as it is without the pointer. *)
Definition beneath m : screen := screen_of (mouse_restore_cursor m).
Definition cursor_of (s : mouse) : list Z * bool * Z * Z := (g_cursor_saved s, g_cursor_visible s, g_cursor_x s, g_cursor_y s).
(** The position is one where the whole pointer fits. *)
Definition fits m : Prop :=
  0 <= ms_x (g_mouse (mse m)) <= largest (framebuffer_width (screen_of m)) MOUSE_CURSOR_W /\
  0 <= ms_y (g_mouse (mse m)) <= largest (framebuffer_height (screen_of m)) MOUSE_CURSOR_H.
Record mouse_ok m : Prop := {
  mo_usable : usable (screen_of m);
  mo_small : g_width (screen_of m) < 2 ^ 31 /\ g_height (screen_of m) < 2 ^ 31;
  mo_saved : length (g_cursor_saved (mse m)) = 64%nat;
  mo_fits : fits m
}.

Lemma beneath_cases m : beneath m =
  if g_cursor_visible (mse m) then foldl (restore_cell (g_cursor_x (mse m)) (g_cursor_y (mse m)) (g_cursor_saved (mse m))) (screen_of m) cursor_cells else screen_of m.
Proof. unfold beneath, mouse_restore_cursor. by destruct (g_cursor_visible (mse m)). Qed.
Lemma beneath_geometry m : usable (screen_of m) -> same_geometry (screen_of m) (beneath m).
Proof.
  intros Hf. rewrite beneath_cases. case_match; [|done]. apply (restore_spec _ _ _ (g_cursor_saved (mse m)) (screen_of m) Hf (cells_position _ _)).
Qed.
(** What a drawn pointer hides is restored. *)
Lemma beneath_draw x y m q : usable (screen_of m) -> length (g_cursor_saved (mse m)) = 64%nat -> on_screen (screen_of m) q ->
  same_geometry (screen_of m) (screen_of (mouse_draw_cursor x y m)) /\ length (g_cursor_saved (mse (mouse_draw_cursor x y m))) = 64%nat /\
  pixel (beneath (mouse_draw_cursor x y m)) q = pixel (screen_of m) q.
Proof.
  intros Hf Hl Hq. destruct cells_index as [Hi Hr].
  assert (Forall (fun c => (cell_index c < length (g_cursor_saved (mse m)))%nat) cursor_cells) as Hr' by by rewrite Hl.
  pose proof (draw_spec x y cursor_cells (g_cursor_saved (mse m)) (screen_of m) Hf Hi (cells_position x y) Hr') as H.
  rewrite beneath_cases. unfold mouse_draw_cursor. destruct (foldl (draw_cell x y) _ cursor_cells) as [saved f]. destruct H as (G & L & H1 & _ & H3).
  change (screen_of (with_mse _ (with_screen f m))) with f. cbn [mse with_mse set_cursor g_cursor_visible g_cursor_x g_cursor_y g_cursor_saved].
  destruct (restore_spec x y cursor_cells saved f (usable_geometry _ _ G Hf) (cells_position x y)) as (_ & R1 & R2). split_and!; [done|congruence|].
  destruct (decide (q ∈ map (position x y) cursor_cells)) as [Hin|Hin].
  - apply list_elem_of_In, in_map_iff in Hin as (c & <- & Hc%list_elem_of_In). rewrite R1 by (done || by apply (on_screen_geometry (screen_of m))). by apply H1.
  - rewrite R2 by (done || by apply (on_screen_geometry (screen_of m))). by apply H3.
Qed.
Lemma clamp_range v max : 0 <= max -> 0 <= clamp_position v max <= max.
Proof. intros. unfold clamp_position. repeat case_match; bool_to_prop; lia. Qed.
Lemma largest_range size : 0 <= size < 2 ^ 31 -> 0 <= largest size 8.
Proof. intros. unfold largest, i32. case_match; bool_to_prop; [|lia]. rewrite Z.mod_small; lia. Qed.

(** The body of a whole packet keeps what is beneath the pointer. *)
Lemma mouse_data_ok data m : mouse_ok m -> let m' := mouse_data data m in
  mouse_ok m' /\ same_geometry (screen_of m) (screen_of m') /\ (forall q, on_screen (screen_of m) q -> pixel (beneath m') q = pixel (beneath m) q).
Proof.
  intros Hm m'. pose proof Hm as [Hf Hsm Hl Hfit]. subst m'. unfold mouse_data. cbn zeta. case_match; [done|]. case_match.
  { split; [by split|]. split; [done|]. intros q _. by rewrite !beneath_cases. }
  set (packet := <[_ := data]> _). set (g := apply_packet packet _ _ _ _). set (m1 := with_mse _ m).
  assert (beneath m1 = beneath m /\ usable (screen_of m1) /\ length (g_cursor_saved (mse m1)) = 64%nat /\ g_mouse (mse m1) = g) as (Eb & Hf1 & Hl1 & Eg) by (rewrite !beneath_cases; done).
  assert (screen_of m1 = screen_of m) as Es by done. clearbody m1.
  set (m2 := mouse_restore_cursor m1). assert (screen_of m2 = beneath m1) as E2 by done.
  assert (g_mouse (mse m2) = g /\ length (g_cursor_saved (mse m2)) = 64%nat) as [Eg2 Hl2] by (subst m2; unfold mouse_restore_cursor; by destruct (g_cursor_visible (mse m1))). clearbody m2.
  pose proof (beneath_geometry m1 Hf1) as G1. rewrite Eb in G1, E2. rewrite Es in G1.
  assert (usable (screen_of m2)) as Hf2 by (rewrite E2; by apply (usable_geometry _ _ G1)).
  assert (forall q, on_screen (screen_of m) q -> on_screen (screen_of m2) q) as Hon by (intros q Hq; rewrite E2; by apply (on_screen_geometry (screen_of m))).
  set (m3 := mouse_draw_cursor (ms_x g) (ms_y g) m2).
  assert (same_geometry (screen_of m2) (screen_of m3) /\ length (g_cursor_saved (mse m3)) = 64%nat /\ g_mouse (mse m3) = g) as (G3 & Hl3 & Eg3).
  { destruct cells_index as [Hi Hr]. assert (Forall (fun c => (cell_index c < length (g_cursor_saved (mse m2)))%nat) cursor_cells) as Hr' by by rewrite Hl2.
    pose proof (draw_spec (ms_x g) (ms_y g) cursor_cells (g_cursor_saved (mse m2)) (screen_of m2) Hf2 Hi (cells_position _ _) Hr') as H3.
    subst m3. unfold mouse_draw_cursor. destruct (foldl (draw_cell _ _) _ cursor_cells) as [saved f]. destruct H3 as (? & ? & _). split_and!; [done|cbn; congruence|done]. }
  assert (same_geometry (screen_of m) (screen_of m3)) as G by (etrans; [exact G1|by rewrite <- E2]). split_and!; [|done|].
  - destruct G as (E3 & E4 & E5 & E6). split; [apply (usable_geometry (screen_of m)); [by split_and!|done]|by rewrite E5, E6|done|].
    unfold fits, framebuffer_width, framebuffer_height. rewrite Eg3, E5, E6. destruct Hf as [[? ? ?] _].
    split; apply clamp_range; apply largest_range; unfold framebuffer_width, framebuffer_height; lia.
  - intros q Hq. destruct (beneath_draw (ms_x g) (ms_y g) m2 q Hf2 Hl2 (Hon q Hq)) as (_ & _ & Hd). fold m3 in Hd. by rewrite Hd, E2.
Qed.

(** C38: The mouse pointer stays on the screen and leaves the picture alone.
    Whatever bytes the mouse sends, the position is one where the whole
    pointer fits, and taking the pointer away gives every pixel the color it
    had before. *)
Theorem mouse_pointer_transparent bytes m : mouse_ok m ->
  let m' := foldl (fun m b => mouse_data b m) m bytes in
  mouse_ok m' /\ forall q, on_screen (screen_of m) q -> pixel (beneath m') q = pixel (beneath m) q.
Proof.
  intros Hm. assert (let m' := foldl (fun m b => mouse_data b m) m bytes in mouse_ok m' /\ same_geometry (screen_of m) (screen_of m') /\ (forall q, on_screen (screen_of m) q -> pixel (beneath m') q = pixel (beneath m) q)) as (? & _ & ?); [|done].
  revert m Hm. induction bytes as [|b bytes IH]; intros m Hm; [done|]. cbn [foldl]. destruct (mouse_data_ok b m Hm) as (H1 & G & H2).
  destruct (IH _ H1) as (H3 & G' & H4). split_and!; [done|by etrans|]. intros q Hq. rewrite H4 by (by apply (on_screen_geometry (screen_of m))). by apply H2.
Qed.
End pointer.

(** ** The timer and dispatch *)

Section timer.
Context {F W : Type} {EF : Task.Env F} {PW : Ports W} (other : Z -> machine F W -> machine F W) (log_fuel : nat).
Implicit Types m : machine F W.

Lemma timer_entropy d b m : timer (add_entropy d b m) = timer m.
Proof. unfold add_entropy. by destruct (Random.random_add_entropy _ _ _ _ _). Qed.
Lemma timer_eoi irq m : timer (pic_eoi irq m) = timer m.
Proof. unfold pic_eoi. by destruct (8 <=? irq). Qed.

(** A task that gives up the processor raises the timer's vector, which counts
    a tick although no time has passed. *)
Lemma yield_counts_a_tick m : irq_handlers m !! 0%nat = Some h_pit ->
  exists m', yield other log_fuel m = Some m' /\ pit_ticks (timer m') = u64 (pit_ticks (timer m) + 1).
Proof.
  intros Hh. unfold yield, irq_dispatch. change (handler_of 0 m) with (default h_none (irq_handlers m !! 0%nat)). rewrite Hh. cbn [default run_handler].
  eexists. split; [reflexivity|]. rewrite timer_eoi. unfold pit_irq_handler. cbn zeta. cbn [timer with_tasks]. rewrite timer_eoi. cbn [timer with_term with_klogs].
  case_match; [by rewrite timer_entropy|done].
Qed.
End timer.

(** ** At concrete inputs *)

#[local] Instance quiet_ports : Ports Z := {| inb _ w := (0, w); outb _ _ w := w; tsc w := (w, w + 1) |}.
#[local] Existing Instance TaskSpec.bump_env.
Definition idle_keyboard : keyboard := mk_keyboard (replicate 256 0) 250 250 false false false false false true.
Definition still_mouse : mouse := mk_mouse (mk_mouse_state 0 0 0 0 0 0 0 0 0 0 0) [0; 0; 0] 0 1 0 (replicate 64 0) false 0 0.
Definition start : machine Z Z :=
  mk_machine idle_keyboard still_mouse (mk_pit 0 100) (h_pit :: h_keyboard :: replicate 14 h_none)
    (Log.mk_log (replicate 4096 0) 0 (with_fb (mk_screen 0x1000 16 16 16 ∅) tty0) (Serial.mk_serial 0x3F8 true [] (fun _ => 0x60) 0)) TaskSpec.before_boot Random.rng0 0.

(** "Hi!" and "@", over the end of the buffer. *)
Lemma typed_text_witness :
  (read_keys 10 (type_codes [0x2A; 35; 163; 0xAA; 23; 151; 0x2A; 2; 130; 0xAA; 0xE0; 0x38; 3; 131; 0xE0; 0xB8] start)).1 = [72; 105; 33; 64].
Proof.
  destruct (typed_text [72; 105; 33; 64] [[0x2A; 35; 163; 0xAA]; [23; 151]; [0x2A; 2; 130; 0xAA]; [0xE0; 0x38; 3; 131; 0xE0; 0xB8]] start 10) as [_ H].
  - repeat (constructor; [vm_compute; reflexivity|]). constructor.
  - vm_compute. discriminate.
  - apply Nat.leb_le. reflexivity.
  - split; cbn; [reflexivity|lia|lia].
  - vm_compute. reflexivity.
  - reflexivity.
  - exact H.
Defined.

Lemma start_ok : mouse_ok start.
Proof. split; [split; [split; cbn; lia|discriminate]|split; cbn; lia|done|repeat split; vm_compute; discriminate]. Qed.
(** Two packets. *)
Lemma mouse_pointer_transparent_witness :
  let m := foldl (fun m b => mouse_data b m) start [0x09; 3; 250; 0x28; 200; 1] in mouse_ok m /\ pixel (beneath m) (3, 2) = 0.
Proof.
  destruct (mouse_pointer_transparent [0x09; 3; 250; 0x28; 200; 1] start start_ok) as [H1 H2]. split; [exact H1|]. rewrite H2 by (unfold on_screen; cbn; lia). vm_compute. reflexivity.
Defined.

(** What is drawn under the pointer while it is shown is lost when it moves. *)
Example pointer_erases_output :
  let m := mouse_draw_cursor 0 0 start in
  let m := with_screen (framebuffer_putpixel 3 2 7 (screen_of m)) m in
  let m := foldl (fun m b => mouse_data b m) m [0x08; 8; 248] in
  pixel (beneath m) (3, 2) = 0 /\ pixel (screen_of m) (3, 2) = 0.
Proof. vm_compute. split; reflexivity. Qed.
End DevicesSpec.
